(* ===== verification/_CoqProject ===== *)
-Q . S2P
Prelude.v
Bitmap.v
Heap.v
HeapLists.v
HeapAlloc.v
HeapClient.v
Frames.v
Sched.v
Threads.v
Sync.v
EventChannel.v
Timer.v
Ring.v
Softirq.v
Irq.v
Virq.v
VirqInv.v
VirqUp.v
Vbus.v
AvzSched.v
AvzSchedInv.v
AvzSpec.v
AvzRuns.v
Vfs.v
VfsClient.v
Pipe.v
Signal.v
Mmu.v
MmuMap.v
MmuReset.v
MmuCreate.v
MmuSpec.v
MmuForest.v
Guest.v
GuestSlots.v
GuestInv.v
GuestGrants.v
GuestSetup.v
GuestLife.v
GuestOps.v
GuestSpec.v
GuestRuns.v
ProcMem.v
ProcIsolation.v
