(* ===== verification/Prelude.v ===== *)
(** A verification of the kernel of SO3, the Smart Object Oriented operating
    system (so3/), for ARM64 where the code depends on the machine.

    * The program and the files

    SO3 is a small preemptive kernel with processes, threads, a virtual file
    system and IPC, which also runs as the hypervisor AVZ.  Each file below
    translates one part of it, with the definitions named as in the C sources, and
    then proves what that part promises.  Paths are relative to src/so3.

    - Prelude: the outcomes of kernel code, the state-and-fault monad [kern],
      machine words, loops, shared lemmas and tactics.
    - Bitmap: kernel/bitmap.c and arch/arm64/lib/findbit.c.  Bitmaps are lists of
      64-bit words; every word-wise routine is shown to agree with its definition
      bit by bit, shifts, searches and the region allocator included.
    - Heap, HeapLists, HeapAlloc, HeapClient: mm/heap.c.  [Heap] is the C code over
      a store of chunk headers; [HeapLists] refines the two-dimensional quick list to
      a list of size classes; [HeapAlloc] shows that free and used blocks tile the
      heap; [HeapClient] states what every client may rely on over any history of
      allocations and releases (disjointness, alignment, no leak).
    - Frames: mm/memory.c: the frame table with its round-robin and first-fit
      searches ([Frames]), and the ordered list of I/O mappings ([IoMap]).
    - Sched: kernel/schedule.c: ready and zombie queues, [schedule] under round robin
      and fixed priorities, with the callbacks of the timers that are due when it
      re-arms its own (kernel/delay.c; which are due is an input).  Threads: kernel/thread.c over the same state: creation,
      exit, join and stack slots.
    - Sync: kernel/mutex.c, ipc/semaphore.c, ipc/completion.c.  One function per
      stretch of code between two switches; transition systems interleave them for
      any number of threads, and invariants hold on every reachable state.
    - EventChannel: avz/kernel/event_channel.c: all hypercalls on event channels.
    - Timer: kernel/timer.c and kernel/delay.c: the timer list, the softirq (the
      class [TimerCallback] says what it asks of callbacks), clock factors.
    - Softirq: kernel/softirq.c, for any state that holds the softirq tables (class
      [HasSoftirq]) and any handlers that keep an invariant and use up a measure
      (class [SoftirqHandlers]).  Irq: devices/irq.c: descriptors, dispatch, and the
      threads of deferred functions in all their interleavings with interrupts.
    - Ring: soo/include/soo/ring.h, the rings of requests and responses that a frontend
      and a backend driver share, for any order of the steps of the two domains.
    - Virq, VirqInv, VirqUp: soo/kernel/evtchn.c, the event channels of a guest, over the
      hypervisor of [EventChannel] and the descriptors of [Irq].  [Virq] is the code;
      [VirqInv] the invariant of the maps between channels and interrupts over all
      histories; [VirqUp] the upcall, for any drivers that keep the interface
      [VirqHandlers], and the way of an event from one domain into the other.
    - Vbus: soo/kernel/vbus/vbus_vbstore.c, the guest's client of the agency's store:
      byte rings, messages and replies, watches, transactions.  The store is a
      parameter with the interface [VbStore], the watches' callbacks have the interface
      [WatchCallbacks].
    - AvzSched, AvzSchedInv, AvzSpec, AvzRuns: the hypervisor's domains and their
      scheduling, avz/kernel/{schedule,sched_flip,domain,timer,setup}.c.  [AvzSched]
      is the code; [AvzSchedInv] the invariant and the primitives; [AvzSpec] the
      operations and when they may be called; [AvzRuns] the theorems over all runs.
    - Vfs, VfsClient: fs/vfs.c and the descriptors of kernel/process.c.  The file
      systems behind the callbacks are a parameter with the interfaces [CloseOk] and
      [OpenOk]; an open may fail.
    - Pipe: ipc/pipe.c over [Vfs] and the completions of [Sync].
    - Signal: ipc/signal.c over the process states of [Sched].
    - Mmu, MmuMap, MmuReset, MmuCreate, MmuSpec: arch/arm64/mmu.c and asm/mmu.h, for
      tables of both stages and 48-bit addresses.  [Mmu] is the C code over a store of
      tables; [MmuMap] defines the translation the architecture performs
      ([translate]) and well-formed trees; [MmuCreate] and [MmuReset] prove the loops;
      [MmuSpec] states the results against [translate].  MmuForest: several trees in
      one memory, and what a change to one leaves of the others.
    - Guest and the files named after it: the memory of the hypervisor's guests,
      avz/mm/memory.c, avz/kernel/{gnttab,injector,ME_build,agency_build,domain}.c,
      soo_activity.c and arch/arm64/domain.c.  [Guest] is the code; [GuestSlots] the
      memory slots and their chunk bitmap; [GuestInv] the invariant; [GuestGrants]
      the grant tables; [GuestSetup] the stage-2 table of a guest; [GuestLife] taking
      a slot and giving it back; [GuestOps] the whole operations; [GuestSpec] runs of
      them and isolation; [GuestRuns] the theorems from the state after start-up and
      a concrete machine.
    - ProcMem, ProcIsolation: the memory side of kernel/process.c.  [ProcMem]
      composes the frame table of [Frames] with the page tables of [Mmu];
      [ProcIsolation] proves an invariant over all histories of processes.

    * Conventions

    A routine is a function of the state that returns an [outcome]: [Ret], or a
    [Fault], which is [Panic] (BUG, BUG_ON, ASSERT, kernel_panic), [Undef] (a null or
    dangling pointer, an index out of bounds, a shift as wide as the word) or [Hang] (a
    lock that is never released, a loop that does not end).  A theorem that a routine
    is correct shows that it returns, so it excludes all three.  Pointers are
    addresses in a finite map, so aliasing and dangling pointers are visible.
    Integers are [Z] with their width written out ([u32], [u64], [wrap]).  Memory that
    [malloc] or [memalign] will give is part of the state, where a routine allocates
    from another component's heap.  Errors of the C interface (-1 and errno) are
    values of the result.

    The kernel runs these routines with interrupts disabled or under a lock, so each
    is atomic up to the points where a thread sleeps; where threads interleave at
    these points (mutexes, semaphores, completions, pipes), or where a routine gives its
    lock back in the middle (mutex_unlock), the interleaving is an explicit sequence of
    steps and the theorems are about all of them.  The operations of AVZ on different
    CPUs are taken as atomic; its test spin_is_locked (avz/kernel/schedule.c) does not
    guarantee that.

    * Fuel

    Loops over linked structures run on fuel; [Hang] marks exhausted fuel, and as the
    theorems show [Ret] they also show the fuel suffices.  It is one more than the
    number of headers for the lists of [Heap] and [Timer], the number of frames for
    the cyclic search of [Frames], the number of entries of a table (512, or 256 for
    a 256 GB stretch) and of 256 GB stretches for the loops of [create_mapping], and
    the number of pages for [release_mapping].  The softirq loop runs on the measure
    of the handlers; the upcall of a guest on the 128
    events and the flag plus the measure of the drivers; the interrupt handler of VBus on
    one more than the messages in its ring.  Operations on guests ask for pages
    of the hypervisor's heap: 193 to take a slot, 500 to inject or restore a container
    (64 chunks of 2 MB need at most three tables each, in both trees).

    * Assumptions on clients

    Some theorems assume what the code does not check, and a lemma next to each shows
    what happens otherwise.  A guest grants frames of its own memory, leaves its number
    in the shared page alone, and a snapshot brings no pointer to another shared page
    (grant_escape, snapshot_escape).  A guest keeps the addresses of stage-2 tables out
    of its ttbr1_el1 (forged_ttbr1_skips_switch).  A domain reconnects only channels
    that are not connected (rebind_breaks_connection); a driver binds a virtual
    interrupt only while its number is free (bind_virq_collides).  A process opens paths
    that exist, and uses dup2 between different files (failed_open_dangles,
    dup2_same_leaks).  Signals have a bit in their word (high_signals_lost).  A range
    that is released starts at a page (release_keeps_last_page).  The histories of
    processes use page-aligned ranges, enough memory for page tables, and end when the
    frames run out.

    * What the theorems show

    - Safety and invariants over all histories: heap_safety, heap_no_leak,
      memory_isolation, guest_isolation, guest_op_ok, hyp_op_ok, pause_lasts,
      bottom_half_single, mutex_safety, evtchn_connections_mutual, virq_maps_inverse,
      ring_fifo, vfs_refcounts, pipe_fifo, semaphore_counts, thread_stacks_disjoint.
    - Refinement of an abstract specification: pipe_refines_queue (a bounded queue),
      schedule_rr_correct (rotation of a queue), create_mapping_correct and
      reset_root_pgtable_correct (a translation function), the bit-level reading of
      the bitmap routines, virt_to_phys_pt_spec (the hardware walk, for pages),
      inject_me_correct (the translation a container is promised), vbs_talkv_answered (a call to the store,
      through two byte rings and an interrupt).
    - Functional behaviour of single operations on every branch, round trips, bounds
      on machine integers, termination and progress: the other theorems.
    - Progress and fairness: round_robin_fair, flip_fair, bottom_half_served,
      do_softirq_correct, timer_softirq_terminates, virq_handle_correct,
      event_reaches_handler, watch_event_served.
    - Faults of the code that modelling brought to light are theorems too
      (grant_escape, semaphore_lost_wakeup, complete_all_strands,
      close_virq_deadlocks, pipe_long_write_deadlocks, suspend_deadlocks,
      unbind_leaves_unmasked, ring_slot_reused) or examples next to the
      definitions.

    Theorems with hypotheses have a witness, a concrete state that satisfies them.

    * What is not modelled

    Device drivers, exception entry, context switches and cache maintenance are
    machine code or register accesses.  The devices and frontend drivers on VBus, with
    their state machines, are left out.  FatFs, lwIP, libfdt, the C library subset,
    U-Boot and the user-space libraries are third party.  Of the modelled files these
    parts are left out: console dumps; the boot-time set-up of memory and page
    tables; the dynamic-priority policy; copying user memory on fork, ELF loading and
    argument strings on exec; the 39-bit page tables; the contents of guest memory and
    of shared pages, the loader of guest images, taking a snapshot, the hypercalls of
    AVZ that only report state, and the formatted requests and the start-up of VBus.  The
    flags that stand for the mutexes of VBus leave out that a thread may take one of its
    own again. *)
From stdpp Require Export base numbers list gmap.
From Stdlib Require Export ZArith Lia Bool ZifyNat ZifyBool.

#[global] Set Default Goal Selector "!".

Declare Scope so3_scope.
Delimit Scope so3_scope with so3.
Open Scope Z_scope.

(** ** Outcomes of kernel code

    A kernel routine either returns, stops the machine ([BUG()], [BUG_ON()],
    [ASSERT()] or [kernel_panic()]), runs into behaviour C leaves undefined
    (a null or dangling dereference, an over-wide shift), or spins forever on
    a lock nobody will release.  Loops whose trip count is not syntactic run
    on fuel; exhausting it is also [Hang]. *)
Inductive fault := Panic | Undef | Hang.

Inductive outcome (A : Type) :=
  | Ret (a : A)
  | Fault (f : fault).
Arguments Ret {A} a.
Arguments Fault {A} f.

#[export] Instance fault_eq_dec : EqDecision fault.
Proof. solve_decision. Defined.

#[export] Instance outcome_ret : MRet outcome := fun A a => Ret a.
#[export] Instance outcome_bind : MBind outcome := fun A B k m =>
  match m with Ret a => k a | Fault f => Fault f end.
#[export] Instance outcome_fmap : FMap outcome := fun A B k m =>
  match m with Ret a => Ret (k a) | Fault f => Fault f end.

(** [bug_on b]: the kernel macro [BUG_ON(b)]; [assert_k b] is [ASSERT(b)]. *)
Definition bug_on (b : bool) : outcome unit := if b then Fault Panic else Ret tt.
Definition assert_k (b : bool) : outcome unit := if b then Ret tt else Fault Panic.

(** Dereference of a pointer-indexed store: a missing object is [Undef]. *)
Definition deref {A} (o : option A) : outcome A :=
  match o with Some a => Ret a | None => Fault Undef end.

Lemma bind_ret {A B} (a : A) (k : A -> outcome B) : (Ret a ≫= k) = k a.
Proof. reflexivity. Qed.

(** Run the binds of computations that have returned. *)
Ltac bret := repeat (rewrite bind_ret; cbn beta).

Lemma bind_Ret_inv {A B} (m : outcome A) (k : A -> outcome B) b :
  (m ≫= k) = Ret b -> exists a, m = Ret a /\ k a = Ret b.
Proof. destruct m; [eauto | discriminate]. Qed.

Lemma deref_Ret {A} (o : option A) a : deref o = Ret a <-> o = Some a.
Proof. destruct o; simpl; split; congruence. Qed.

(** Invert a chain of monadic binds that returned. *)
Ltac inv_ret :=
  repeat match goal with
  | H : (_ ≫= _) = Ret _ |- _ =>
      let x := fresh "x" in let Hx := fresh "Hx" in
      apply bind_Ret_inv in H as (x & Hx & H); simpl in H
  | H : deref _ = Ret _ |- _ => apply deref_Ret in H
  | H : Ret _ = Ret _ |- _ => injection H as H; simplify_eq
  | H : Fault _ = Ret _ |- _ => discriminate H
  | H : bug_on ?b = Ret _ |- _ => destruct b eqn:?; simpl in H; [discriminate H|]
  | H : assert_k ?b = Ret _ |- _ => destruct b eqn:?; simpl in H; [|discriminate H]
  end.

(** ** Stateful kernel code

    [kern S A]: a routine over the state [S] that yields an [A]; a fault loses
    the state. *)
Definition kern (S A : Type) : Type := S -> outcome (A * S).

#[export] Instance kern_ret S : MRet (kern S) := fun A a s => Ret (a, s).
#[export] Instance kern_bind S : MBind (kern S) := fun A B k m s =>
  match m s with Ret (a, s') => k a s' | Fault f => Fault f end.

Definition gets {S A} (f : S -> A) : kern S A := fun s => Ret (f s, s).
Definition modify {S} (f : S -> S) : kern S unit := fun s => Ret (tt, f s).
Definition raise {S A} (f : fault) : kern S A := fun _ => Fault f.
Definition lift {S A} (o : outcome A) : kern S A := fun s =>
  match o with Ret a => Ret (a, s) | Fault f => Fault f end.
Definition when {S} (b : bool) (m : kern S unit) : kern S unit := if b then m else mret tt.

Lemma kbind_ret {S A B} (m : kern S A) (k : A -> kern S B) s a s' :
  m s = Ret (a, s') -> (m ≫= k) s = k a s'.
Proof. intros H. unfold mbind, kern_bind. by rewrite H. Qed.

Lemma kbind_fault {S A B} (m : kern S A) (k : A -> kern S B) s f :
  m s = Fault f -> (m ≫= k) s = Fault f.
Proof. intros H. unfold mbind, kern_bind. by rewrite H. Qed.

Lemma kbind_inv {S A B} (m : kern S A) (k : A -> kern S B) s b s' :
  (m ≫= k) s = Ret (b, s') -> exists a s1, m s = Ret (a, s1) /\ k a s1 = Ret (b, s').
Proof. unfold mbind, kern_bind. destruct (m s) as [[a s1]|]; [eauto|done]. Qed.

(** Run one step of a routine whose first call is known to return. *)
Tactic Notation "krun" uconstr(H) := erewrite kbind_ret by (eapply H; eauto); cbn beta.
Ltac kstep := erewrite kbind_ret by reflexivity; cbn beta.

(** ** errno values (include/errno.h) *)
Definition ESRCH  : Z := 3.
Definition EINTR  : Z := 4.
Definition EBADF  : Z := 9.
Definition ENOMEM : Z := 12.
Definition EBUSY  : Z := 16.
Definition EINVAL : Z := 22.
Definition ENFILE : Z := 23.
Definition EMFILE : Z := 24.
Definition ENOSPC : Z := 28.
Definition EPIPE  : Z := 32.

(** ** Words of a given width *)
Definition wrap (w : Z) (x : Z) : Z := x mod 2 ^ w.
Definition wnot (w : Z) (x : Z) : Z := Z.land (Z.lnot x) (Z.ones w).
Definition wshl (w : Z) (x n : Z) : Z := Z.land (Z.shiftl x n) (Z.ones w).
Definition wshr (x n : Z) : Z := Z.shiftr x n.

Definition u32 (x : Z) : Z := wrap 32 x.
Definition u64 (x : Z) : Z := wrap 64 x.

Definition in_word (w x : Z) : Prop := 0 <= x < 2 ^ w.

Lemma wrap_range w x : 0 <= w -> in_word w (wrap w x).
Proof. intros. apply Z.mod_pos_bound. lia. Qed.

Lemma wrap_small w x : in_word w x -> wrap w x = x.
Proof. intros. apply Z.mod_small. exact H. Qed.

Lemma u32_small x : 0 <= x < 2 ^ 32 -> u32 x = x.
Proof. apply wrap_small. Qed.

Lemma u64_small x : 0 <= x < 2 ^ 64 -> u64 x = x.
Proof. apply wrap_small. Qed.

Lemma testbit_ones w j : 0 <= w -> 0 <= j -> Z.testbit (Z.ones w) j = (j <? w).
Proof.
  intros. destruct (Z.ltb_spec j w).
  - apply Z.ones_spec_low. lia.
  - apply Z.ones_spec_high. lia.
Qed.

Lemma wnot_spec w x j : 0 <= j < w -> Z.testbit (wnot w x) j = negb (Z.testbit x j).
Proof.
  intros. unfold wnot. rewrite Z.land_spec, Z.lnot_spec, testbit_ones by lia.
  destruct (Z.ltb_spec j w); [apply andb_true_r | lia].
Qed.

Lemma wshl_spec w x n j :
  0 <= n -> 0 <= j < w -> Z.testbit (wshl w x n) j = Z.testbit x (j - n).
Proof.
  intros. unfold wshl. rewrite Z.land_spec, Z.shiftl_spec, testbit_ones by lia.
  destruct (Z.ltb_spec j w); [apply andb_true_r | lia].
Qed.

Lemma wshr_spec x n j : 0 <= j -> Z.testbit (wshr x n) j = Z.testbit x (j + n).
Proof. intros. apply Z.shiftr_spec. lia. Qed.

(** A word has no bit at or above its width. *)
Lemma testbit_in_word w x j : 0 <= w -> in_word w x -> w <= j -> Z.testbit x j = false.
Proof.
  intros Hw Hx Hj. rewrite <- (Z.mod_small x (2 ^ w)) by exact Hx.
  apply Z.mod_pow2_bits_high. lia.
Qed.

Lemma in_word_testbit w x :
  0 <= w -> 0 <= x -> (forall j, w <= j -> Z.testbit x j = false) -> in_word w x.
Proof.
  intros Hw Hx Hj. split; [lia|].
  assert (x = x mod 2 ^ w) as ->; [|apply Z.mod_pos_bound; lia].
  apply Z.bits_inj'. intros n Hn. destruct (Z.lt_ge_cases n w).
  - by rewrite Z.mod_pow2_bits_low.
  - rewrite Z.mod_pow2_bits_high by lia. by apply Hj.
Qed.

Lemma in_word_land_ones w x : 0 <= w -> in_word w (Z.land x (Z.ones w)).
Proof. intros. rewrite Z.land_ones by lia. apply Z.mod_pos_bound. lia. Qed.

Lemma in_word_wnot w x : 0 <= w -> in_word w (wnot w x).
Proof. apply in_word_land_ones. Qed.

Lemma in_word_wshl w x n : 0 <= w -> in_word w (wshl w x n).
Proof. apply in_word_land_ones. Qed.

(** Two words are equal when their bits agree. *)
Lemma word_eq w x y :
  0 <= w -> in_word w x -> in_word w y ->
  (forall j, 0 <= j < w -> Z.testbit x j = Z.testbit y j) -> x = y.
Proof.
  intros Hw Hx Hy H. apply Z.bits_inj'. intros n Hn.
  destruct (Z.lt_ge_cases n w); [by apply H|].
  by rewrite !(testbit_in_word w) by (done || lia).
Qed.

Lemma word_zero w x :
  0 <= w -> in_word w x ->
  x = 0 <-> (forall j, 0 <= j < w -> Z.testbit x j = false).
Proof.
  intros Hw Hx. split.
  - intros ->. intros. apply Z.bits_0.
  - intros H. apply (word_eq w); [lia|done|split; lia|].
    intros. rewrite H by done. by rewrite Z.bits_0.
Qed.

(** [(1UL << n) - 1] is the word with its [n] low bits set. *)
Lemma ones_shift n : 0 <= n -> Z.shiftl 1 n - 1 = Z.ones n.
Proof. intros. rewrite Z.ones_equiv, Z.shiftl_1_l. lia. Qed.

(** ** Loop combinators

    [for_up n body s] is [for (k = 0; k < n; k++) body] over the state [s];
    [for_ret n f] is the same loop with an early [return] out of the body. *)
Definition for_up {S} (n : nat) (body : nat -> S -> S) (s : S) : S :=
  foldl (fun s k => body k s) s (seq 0 n).

Fixpoint for_ret_from {R} (i n : nat) (f : nat -> option R) : option R :=
  match n with
  | O => None
  | S n' => match f i with Some r => Some r | None => for_ret_from (S i) n' f end
  end.
Definition for_ret {R} (n : nat) (f : nat -> option R) : option R := for_ret_from 0 n f.

Lemma for_up_S {S} n body (s : S) : for_up (Datatypes.S n) body s = body n (for_up n body s).
Proof.
  unfold for_up. rewrite seq_S, foldl_app. reflexivity.
Qed.

Lemma for_up_ind {S} (P : nat -> S -> Prop) n body s :
  P 0%nat s -> (forall k s, (k < n)%nat -> P k s -> P (Datatypes.S k) (body k s)) ->
  P n (for_up n body s).
Proof.
  intros H0 HS. induction n as [|n IH]; [done|].
  rewrite for_up_S. apply HS; [lia|]. apply IH. intros. apply HS; [lia|done].
Qed.

Lemma for_ret_from_None {R} i n (f : nat -> option R) :
  for_ret_from i n f = None <-> (forall k, (i <= k < i + n)%nat -> f k = None).
Proof.
  revert i. induction n as [|n IH]; intros i; simpl.
  { split; [intros _ k; lia | done]. }
  destruct (f i) eqn:E.
  - split; [done|]. intros H. rewrite H in E by lia. done.
  - rewrite IH. split; intros H k Hk.
    + destruct (decide (k = i)) as [->|]; [done|]. apply H. lia.
    + apply H. lia.
Qed.

Lemma for_ret_from_Some {R} i n (f : nat -> option R) r :
  for_ret_from i n f = Some r <->
  exists k, (i <= k < i + n)%nat /\ f k = Some r /\ (forall j, (i <= j < k)%nat -> f j = None).
Proof.
  revert i. induction n as [|n IH]; intros i; simpl.
  { split; [done|]. intros (k & ? & _). lia. }
  destruct (f i) eqn:E.
  - split.
    + intros [= ->]. exists i. split_and!; [lia|lia|done|]. intros; lia.
    + intros (k & Hk & Hf & Hj). destruct (decide (k = i)) as [->|]; [congruence|].
      rewrite Hj in E by lia. done.
  - rewrite IH. split; intros (k & Hk & Hf & Hj).
    + exists k. split_and!; [lia|lia|done|]. intros j ?.
      destruct (decide (j = i)) as [->|]; [done|]. apply Hj. lia.
    + exists k. destruct (decide (k = i)) as [->|]; [congruence|].
      split_and!; [lia|lia|done|]. intros; apply Hj; lia.
Qed.

Lemma for_ret_ext {R} n (f g : nat -> option R) : (forall k, (k < n)%nat -> f k = g k) -> for_ret n f = for_ret n g.
Proof.
  unfold for_ret. intros H. assert (H' : forall k, (0 <= k < 0 + n)%nat -> f k = g k) by (intros; apply H; lia). clear H. revert H'. generalize 0%nat as a.
  induction n as [|n IH]; intros a H'; cbn [for_ret_from]; [done|]. rewrite H' by lia. destruct (g a); [done|]. apply IH. intros; apply H'; lia.
Qed.

Lemma for_ret_None {R} n (f : nat -> option R) :
  for_ret n f = None <-> (forall k, (k < n)%nat -> f k = None).
Proof.
  unfold for_ret. rewrite for_ret_from_None. split; intros H k Hk; apply H; lia.
Qed.

Lemma for_ret_Some {R} n (f : nat -> option R) r :
  for_ret n f = Some r <->
  exists k, (k < n)%nat /\ f k = Some r /\ (forall j, (j < k)%nat -> f j = None).
Proof.
  unfold for_ret. rewrite for_ret_from_Some.
  split; intros (k & Hk & Hf & Hj); exists k; (split_and!; [lia..|done|]);
    intros; apply Hj; lia.
Qed.

(** ** Lists *)
Lemma elem_of_concat {A} (x : A) (ll : list (list A)) :
  x ∈ concat ll <-> exists l, x ∈ l /\ l ∈ ll.
Proof.
  induction ll as [|l ll IH]; simpl; [set_solver|].
  rewrite elem_of_app, IH. set_solver.
Qed.

Lemma filter_ext_in {A} (P Q : A -> Prop) `{!forall x, Decision (P x), !forall x, Decision (Q x)} (l : list A) :
  (forall x, x ∈ l -> P x <-> Q x) -> filter P l = filter Q l.
Proof.
  induction l as [|x l IH]; intros HPQ; [done|]. rewrite !filter_cons, IH by (intros y Hy; apply HPQ; by right).
  assert (Hx : P x <-> Q x) by (apply HPQ; by left). by repeat case_decide; tauto.
Qed.

Lemma perm_skip_eq {A} (x y : A) l k : x = y -> l ≡ₚ k -> x :: l ≡ₚ y :: k.
Proof. by intros -> ->. Qed.

(** ** Arithmetic automation

    [dlia] is [lia] with quotients and remainders turned into equations. *)
Ltac dlia := zify; Z.to_euclidean_division_equations; lia.

(** Case analysis on every boolean comparison of the goal. *)
Ltac cmp_cases :=
  repeat match goal with
  | |- context [ ?a <? ?b ] => destruct (Z.ltb_spec a b)
  | |- context [ ?a <=? ?b ] => destruct (Z.leb_spec a b)
  | |- context [ ?a =? ?b ] => destruct (Z.eqb_spec a b)
  | |- context [ Nat.ltb ?a ?b ] => destruct (Nat.ltb_spec a b)
  | |- context [ Nat.leb ?a ?b ] => destruct (Nat.leb_spec a b)
  | |- context [ Nat.eqb ?a ?b ] => destruct (Nat.eqb_spec a b)
  end.

#[global] Arguments Nat.div : simpl never.
#[global] Arguments Nat.modulo : simpl never.

(** ** Hint databases *)
Create HintDb so3.
Create Rewrite HintDb so3.
#[export] Hint Resolve in_word_wnot in_word_wshl in_word_land_ones wrap_range : so3.
#[export] Hint Rewrite @length_insert @length_app @length_take @length_drop
  @length_replicate @length_fmap : so3.
