(* ===== verification/Bitmap.v ===== *)
(** Bitmaps: arrays of [unsigned long] words addressed bit by bit
    (so3/kernel/bitmap.c, so3/include/bitmap.h) and the bit searches of
    so3/arch/arm64/lib/findbit.c.  The word size is that of ARM64.

    Bitmaps are lists of words; counts ([bits], [size], [offset]) are the
    non-negative [int]/[unsigned long] arguments of the C functions.  Source
    and destination bitmaps are distinct arrays.  The theorems assume, as the C
    functions do, that the arrays hold the bits they are asked about. *)
From S2P Require Import Prelude.

Definition BITS_PER_LONG : nat := 64.
#[global] Arguments BITS_PER_LONG : simpl never.
Abbreviation BPL := BITS_PER_LONG.
Definition BITS_TO_LONGS (bits : nat) : nat := (bits + (BPL - 1)) / BPL.
Definition ULONG_MAX : Z := Z.ones 64.

(** [~0UL >> (-(nbits) & (BITS_PER_LONG - 1))] *)
Definition BITMAP_LAST_WORD_MASK (nbits : nat) : Z :=
  wshr ULONG_MAX (Z.land (- Z.of_nat nbits) (Z.of_nat BPL - 1)).

(** Bit [i] of a bitmap. *)
Definition getbit (bm : list Z) (i : nat) : bool :=
  Z.testbit (bm !!! (i / BPL)%nat) (Z.of_nat (i mod BPL)).

(** ** Predicates over whole bitmaps

    All of them scan the complete words and then the low bits of the last,
    partial one, returning early; [tail bits f] is that last step. *)
Definition scan_words {R} (bits : nat) (word : nat -> option R) (tail : nat -> option R) (dflt : R) : R :=
  let lim := (bits / BPL)%nat in
  match for_ret lim word with
  | Some r => r
  | None =>
      if (bits mod BPL =? 0)%nat then dflt
      else default dflt (tail lim)
  end.

Definition __bitmap_empty (bitmap : list Z) (bits : nat) : bool :=
  scan_words bits
    (fun k => if bitmap !!! k =? 0 then None else Some false)
    (fun k => if Z.land (bitmap !!! k) (BITMAP_LAST_WORD_MASK bits) =? 0 then None else Some false)
    true.

Definition __bitmap_full (bitmap : list Z) (bits : nat) : bool :=
  scan_words bits
    (fun k => if wnot 64 (bitmap !!! k) =? 0 then None else Some false)
    (fun k => if Z.land (wnot 64 (bitmap !!! k)) (BITMAP_LAST_WORD_MASK bits) =? 0
              then None else Some false)
    true.

Definition __bitmap_equal (bitmap1 bitmap2 : list Z) (bits : nat) : bool :=
  scan_words bits
    (fun k => if bitmap1 !!! k =? bitmap2 !!! k then None else Some false)
    (fun k => if Z.land (Z.lxor (bitmap1 !!! k) (bitmap2 !!! k)) (BITMAP_LAST_WORD_MASK bits) =? 0
              then None else Some false)
    true.

Definition __bitmap_intersects (bitmap1 bitmap2 : list Z) (bits : nat) : bool :=
  scan_words bits
    (fun k => if Z.land (bitmap1 !!! k) (bitmap2 !!! k) =? 0 then None else Some true)
    (fun k => if Z.land (Z.land (bitmap1 !!! k) (bitmap2 !!! k)) (BITMAP_LAST_WORD_MASK bits) =? 0
              then None else Some true)
    false.

Definition __bitmap_subset (bitmap1 bitmap2 : list Z) (bits : nat) : bool :=
  scan_words bits
    (fun k => if Z.land (bitmap1 !!! k) (wnot 64 (bitmap2 !!! k)) =? 0 then None else Some false)
    (fun k => if Z.land (Z.land (bitmap1 !!! k) (wnot 64 (bitmap2 !!! k)))
                   (BITMAP_LAST_WORD_MASK bits) =? 0 then None else Some false)
    true.

(** ** Word-wise operations *)
Definition store_words (dst : list Z) (n : nat) (w : nat -> Z) : list Z :=
  for_up n (fun k dst => <[k := w k]> dst) dst.

Definition __bitmap_complement (dst src : list Z) (bits : nat) : list Z :=
  let lim := (bits / BPL)%nat in
  let dst := store_words dst lim (fun k => wnot 64 (src !!! k)) in
  if (bits mod BPL =? 0)%nat then dst
  else <[lim := Z.land (wnot 64 (src !!! lim)) (BITMAP_LAST_WORD_MASK bits)]> dst.

Definition __bitmap_and (dst bitmap1 bitmap2 : list Z) (bits : nat) : list Z :=
  store_words dst (BITS_TO_LONGS bits) (fun k => Z.land (bitmap1 !!! k) (bitmap2 !!! k)).

Definition __bitmap_or (dst bitmap1 bitmap2 : list Z) (bits : nat) : list Z :=
  store_words dst (BITS_TO_LONGS bits) (fun k => Z.lor (bitmap1 !!! k) (bitmap2 !!! k)).

Definition __bitmap_xor (dst bitmap1 bitmap2 : list Z) (bits : nat) : list Z :=
  store_words dst (BITS_TO_LONGS bits) (fun k => Z.lxor (bitmap1 !!! k) (bitmap2 !!! k)).

Definition __bitmap_andnot (dst bitmap1 bitmap2 : list Z) (bits : nat) : list Z :=
  store_words dst (BITS_TO_LONGS bits) (fun k => Z.land (bitmap1 !!! k) (wnot 64 (bitmap2 !!! k))).

(** ** Shifts *)
Definition shift_right_word (src : list Z) (lim off left : nat) (rem : nat) (k : nat) : Z :=
  let mask := Z.shiftl 1 (Z.of_nat left) - 1 in
  let upper :=
    if (rem =? 0)%nat || (lim <=? off + k + 1)%nat then 0
    else if (off + k + 1 =? lim - 1)%nat && negb (left =? 0)%nat
         then Z.land (src !!! (off + k + 1)%nat) mask
         else src !!! (off + k + 1)%nat in
  let lower :=
    if negb (left =? 0)%nat && (off + k =? lim - 1)%nat
    then Z.land (src !!! (off + k)%nat) mask else src !!! (off + k)%nat in
  let w := Z.lor (wshl 64 upper (Z.of_nat BPL - Z.of_nat rem)) (wshr lower (Z.of_nat rem)) in
  if negb (left =? 0)%nat && (k =? lim - 1)%nat then Z.land w mask else w.

Definition __bitmap_shift_right (dst src : list Z) (shift bits : nat) : list Z :=
  let lim := BITS_TO_LONGS bits in
  let left := (bits mod BPL)%nat in
  let off := (shift / BPL)%nat in
  let rem := (shift mod BPL)%nat in
  let dst := store_words dst (lim - off) (shift_right_word src lim off left rem) in
  for_up off (fun j dst => <[(lim - off + j)%nat := 0]> dst) dst.

Definition shift_left_word (src : list Z) (lim off left : nat) (rem : nat) (k : nat) : Z :=
  let mask := Z.shiftl 1 (Z.of_nat left) - 1 in
  let lower := if negb (rem =? 0)%nat && (0 <? k)%nat then src !!! (k - 1)%nat else 0 in
  let upper :=
    if negb (left =? 0)%nat && (k =? lim - 1)%nat
    then Z.land (src !!! k) mask else src !!! k in
  let w := Z.lor (wshr lower (Z.of_nat BPL - Z.of_nat rem)) (wshl 64 upper (Z.of_nat rem)) in
  if negb (left =? 0)%nat && (k + off =? lim - 1)%nat then Z.land w mask else w.

(** The loop runs [k] from [lim - off - 1] down to [0]. *)
Definition __bitmap_shift_left (dst src : list Z) (shift bits : nat) : list Z :=
  let lim := BITS_TO_LONGS bits in
  let left := (bits mod BPL)%nat in
  let off := (shift / BPL)%nat in
  let rem := (shift mod BPL)%nat in
  let n := (lim - off)%nat in
  let dst := for_up n (fun j dst =>
      let k := (n - 1 - j)%nat in
      <[(k + off)%nat := shift_left_word src lim off left rem k]> dst) dst in
  for_up off (fun j dst => <[j := 0]> dst) dst.

(** ** Region allocation *)

(** [mask = 1ul << (pages - 1); mask += mask - 1] *)
Definition region_mask (pages : Z) : outcome Z :=
  if Z.of_nat BPL <=? pages - 1 then Fault Undef
  else let m := wshl 64 1 (pages - 1) in Ret (u64 (m + u64 (m - 1))).

Definition bitmap_find_free_region (bitmap : list Z) (bits : nat) (order : Z) : outcome (Z * list Z) :=
  let pages := Z.shiftl 1 order in
  if 4 * Z.of_nat BPL <? pages then Ret (- EINVAL, bitmap)
  else
    mask ← region_mask pages;
    let p := Z.to_nat pages in
    match for_ret ((bits + p - 1) / p)%nat (fun n =>
            let i := (n * p)%nat in
            let index := (i / BPL)%nat in
            let offset := Z.of_nat i - Z.of_nat index * Z.of_nat BPL in
            if Z.land (bitmap !!! index) (wshl 64 mask offset) =? 0
            then Some (Z.of_nat i, <[index := Z.lor (bitmap !!! index) (wshl 64 mask offset)]> bitmap)
            else None) with
    | Some r => Ret r
    | None => Ret (- ENOMEM, bitmap)
    end.

Definition bitmap_release_region (bitmap : list Z) (pos : nat) (order : Z) : outcome (list Z) :=
  let pages := Z.shiftl 1 order in
  mask ← region_mask pages;
  let index := (pos / BPL)%nat in
  let offset := Z.of_nat pos - Z.of_nat index * Z.of_nat BPL in
  Ret (<[index := Z.land (bitmap !!! index) (wnot 64 (wshl 64 mask offset))]> bitmap).

Definition bitmap_allocate_region (bitmap : list Z) (pos : nat) (order : Z) : outcome (Z * list Z) :=
  let pages := Z.shiftl 1 order in
  let index := (pos / BPL)%nat in
  let offset := Z.of_nat pos - Z.of_nat index * Z.of_nat BPL in
  _ ← bug_on (Z.of_nat BPL <? pages);
  mask ← region_mask pages;
  if Z.land (bitmap !!! index) (wshl 64 mask offset) =? 0
  then Ret (0, <[index := Z.lor (bitmap !!! index) (wshl 64 mask offset)]> bitmap)
  else Ret (- EBUSY, bitmap).

(** ** Bit searches (findbit.c) *)

(** [__builtin_ctzl]: index of the lowest set bit of a non-zero word. *)
Definition __ffs (word : Z) : nat :=
  default BPL (for_ret BPL (fun j => if Z.testbit word (Z.of_nat j) then Some j else None)).
Definition ffz (word : Z) : nat := __ffs (wnot 64 word).

(** [n & ~(BITS_PER_LONG - 1)], and the same read as a truth value. *)
Definition word_base (n : nat) : nat :=
  Z.to_nat (Z.land (Z.of_nat n) (Z.lnot (Z.of_nat BPL - 1))).
Definition whole_words (size : nat) : bool := negb (word_base size =? 0)%nat.

(** The common tail of [_find_first_bit] and [_find_next_bit]: whole words,
    then the remaining [size] low bits of the next one.  [fuel] bounds the
    number of whole words; [size] is always enough. *)
Fixpoint find_bit_words (fuel : nat) (addr : list Z) (p result size : nat) : nat :=
  match fuel with
  | O => result
  | S fuel' =>
      if whole_words size then
        let tmp := addr !!! p in
        if tmp =? 0 then find_bit_words fuel' addr (p + 1) (result + BPL) (size - BPL)
        else (result + __ffs tmp)%nat
      else if (size =? 0)%nat then result
      else
        let tmp := Z.land (addr !!! p) (wshr ULONG_MAX (Z.of_nat BPL - Z.of_nat size)) in
        if tmp =? 0 then (result + size)%nat else (result + __ffs tmp)%nat
  end.

Fixpoint find_zero_words (fuel : nat) (addr : list Z) (p result size : nat) : nat :=
  match fuel with
  | O => result
  | S fuel' =>
      if whole_words size then
        let tmp := addr !!! p in
        if wnot 64 tmp =? 0 then find_zero_words fuel' addr (p + 1) (result + BPL) (size - BPL)
        else (result + ffz tmp)%nat
      else if (size =? 0)%nat then result
      else
        let tmp := Z.lor (addr !!! p) (wshl 64 ULONG_MAX (Z.of_nat size)) in
        if tmp =? ULONG_MAX then (result + size)%nat else (result + ffz tmp)%nat
  end.

Definition _find_first_bit (addr : list Z) (size : nat) : nat :=
  find_bit_words (S size) addr 0 0 size.

Definition _find_first_zero_bit (addr : list Z) (size : nat) : nat :=
  find_zero_words (S size) addr 0 0 size.

Definition _find_next_bit (addr : list Z) (size offset : nat) : nat :=
  let p := (offset / BPL)%nat in
  let result := word_base offset in
  if (size <=? offset)%nat then size
  else
    let size := (size - result)%nat in
    let offset := (offset mod BPL)%nat in
    if (offset =? 0)%nat then find_bit_words (S size) addr p result size
    else
      let tmp := Z.land (addr !!! p) (wshl 64 ULONG_MAX (Z.of_nat offset)) in
      if (size <? BPL)%nat then
        let tmp := Z.land tmp (wshr ULONG_MAX (Z.of_nat BPL - Z.of_nat size)) in
        if tmp =? 0 then (result + size)%nat else (result + __ffs tmp)%nat
      else if tmp =? 0 then find_bit_words (S size) addr (p + 1) (result + BPL) (size - BPL)
      else (result + __ffs tmp)%nat.

Definition _find_next_zero_bit (addr : list Z) (size offset : nat) : nat :=
  let p := (offset / BPL)%nat in
  let result := word_base offset in
  if (size <=? offset)%nat then size
  else
    let size := (size - result)%nat in
    let offset := (offset mod BPL)%nat in
    if (offset =? 0)%nat then find_zero_words (S size) addr p result size
    else
      let tmp := Z.lor (addr !!! p) (wshr ULONG_MAX (Z.of_nat BPL - Z.of_nat offset)) in
      if (size <? BPL)%nat then
        let tmp := Z.lor tmp (wshl 64 ULONG_MAX (Z.of_nat size)) in
        if tmp =? ULONG_MAX then (result + size)%nat else (result + ffz tmp)%nat
      else if wnot 64 tmp =? 0 then find_zero_words (S size) addr (p + 1) (result + BPL) (size - BPL)
      else (result + ffz tmp)%nat.

(** ** Word-level facts *)

(** A bitmap is well formed for [bits] bits when its words are 64-bit values
    and it is long enough. *)
Definition bitmap_ok (bm : list Z) (bits : nat) : Prop :=
  Forall (in_word 64) bm /\ (bits <= BPL * length bm)%nat.

Lemma lookup_word bm k : Forall (in_word 64) bm -> in_word 64 (bm !!! k).
Proof.
  intros H. rewrite list_lookup_total_alt. destruct (bm !! k) eqn:E; simpl.
  - by eapply Forall_lookup_1.
  - split; lia.
Qed.
#[export] Hint Resolve lookup_word : so3.

Lemma word_base_spec n : word_base n = (n - n mod BPL)%nat.
Proof.
  unfold word_base, BPL. change (Z.of_nat 64 - 1) with (Z.ones 6).
  rewrite <- Z.ldiff_land, Z.ldiff_ones_r, Z.shiftr_div_pow2, Z.shiftl_mul_pow2 by lia.
  change (2 ^ 6) with 64. dlia.
Qed.

Lemma whole_words_spec size : whole_words size = (BPL <=? size)%nat.
Proof.
  unfold whole_words. rewrite word_base_spec. unfold BPL.
  destruct (Nat.eqb_spec (size - size mod 64) 0), (Nat.leb_spec 64 size); simpl; try done; dlia.
Qed.

Lemma ulong_max_bit j : 0 <= j -> Z.testbit ULONG_MAX j = (j <? 64).
Proof. intros. unfold ULONG_MAX. by rewrite testbit_ones by lia. Qed.

(** The last-word mask keeps exactly the valid bits of a partial word. *)
Lemma last_word_mask_bit nbits j :
  (nbits mod BPL <> 0)%nat -> 0 <= j ->
  Z.testbit (BITMAP_LAST_WORD_MASK nbits) j = (j <? Z.of_nat (nbits mod BPL)).
Proof.
  intros Hn Hj. unfold BITMAP_LAST_WORD_MASK, BPL in *.
  change (Z.of_nat 64 - 1) with (Z.ones 6). rewrite Z.land_ones by lia.
  change (2 ^ 6) with 64.
  rewrite wshr_spec, ulong_max_bit by dlia.
  rewrite Nat2Z.inj_mod. change (Z.of_nat 64) with 64.
  destruct (Z.ltb_spec j (Z.of_nat nbits mod 64)), (Z.ltb_spec (j + - Z.of_nat nbits mod 64) 64);
    try done; dlia.
Qed.

Lemma store_words_length dst n w : length (store_words dst n w) = length dst.
Proof.
  unfold store_words. apply (for_up_ind (fun _ d => length d = length dst)); [done|].
  intros k s _ <-. apply length_insert.
Qed.

Lemma store_words_lookup dst n w k :
  (n <= length dst)%nat ->
  store_words dst n w !!! k = if decide (k < n)%nat then w k else dst !!! k.
Proof.
  intros Hn. unfold store_words.
  pose (P := fun m d => length d = length dst /\
     forall k : nat, d !!! k = if decide (k < m)%nat then w k else dst !!! k).
  cut (P n (for_up n (fun k d => <[k := w k]> d) dst)); [intros [_ H]; apply H|].
  apply for_up_ind.
  - split; [done|]. intros j. by destruct (decide (j < 0)%nat); [lia|].
  - intros m d Hm [Hl Hd]. split; [by rewrite length_insert|]. intros j.
    destruct (decide (j = m)) as [->|Hne].
    + rewrite list_lookup_total_insert_eq by lia. by rewrite decide_True by lia.
    + rewrite list_lookup_total_insert_ne by done. rewrite Hd.
      destruct (decide (j < m)%nat), (decide (j < S m)%nat); try done; lia.
Qed.

(** ** Word-wise operations act bit by bit *)
Lemma store_words_bit dst n w i :
  (n <= length dst)%nat -> (i < BPL * n)%nat ->
  getbit (store_words dst n w) i = Z.testbit (w (i / BPL)%nat) (Z.of_nat (i mod BPL)).
Proof.
  intros Hn Hi. unfold getbit. rewrite store_words_lookup by done.
  rewrite decide_True; [done|]. unfold BPL in *. dlia.
Qed.

Lemma bits_to_longs_le bits n : (bits <= BPL * n)%nat -> (BITS_TO_LONGS bits <= n)%nat.
Proof. unfold BITS_TO_LONGS, BPL. intros. dlia. Qed.

Lemma bits_to_longs_cover bits : (bits <= BPL * BITS_TO_LONGS bits)%nat.
Proof. unfold BITS_TO_LONGS, BPL. dlia. Qed.

Lemma mod_bpl i : 0 <= Z.of_nat (i mod BPL) < 64.
Proof. unfold BPL. dlia. Qed.

(** the bitwise operations compute the Boolean operation on every valid bit. *)
Theorem bitmap_bitwise dst b1 b2 bits i :
  (bits <= BPL * length dst)%nat -> (i < bits)%nat ->
  getbit (__bitmap_and dst b1 b2 bits) i = getbit b1 i && getbit b2 i /\
  getbit (__bitmap_or dst b1 b2 bits) i = getbit b1 i || getbit b2 i /\
  getbit (__bitmap_xor dst b1 b2 bits) i = xorb (getbit b1 i) (getbit b2 i) /\
  getbit (__bitmap_andnot dst b1 b2 bits) i = getbit b1 i && negb (getbit b2 i) /\
  getbit (__bitmap_complement dst b1 bits) i = negb (getbit b1 i).
Proof.
  intros Hd Hi. pose proof (mod_bpl i). pose proof (bits_to_longs_cover bits).
  pose proof (bits_to_longs_le _ _ Hd).
  split_and!; [unfold __bitmap_and | unfold __bitmap_or | unfold __bitmap_xor
              | unfold __bitmap_andnot | ];
    [rewrite store_words_bit by lia..|].
  - by rewrite Z.land_spec.
  - by rewrite Z.lor_spec.
  - by rewrite Z.lxor_spec.
  - by rewrite Z.land_spec, wnot_spec by lia.
  - unfold __bitmap_complement.
    assert (bits / BPL <= length dst)%nat by (unfold BPL in *; dlia).
    destruct (Nat.eqb_spec (bits mod BPL) 0) as [E|E].
    + rewrite store_words_bit by (unfold BPL in *; dlia). by rewrite wnot_spec by lia.
    + unfold getbit. destruct (decide ((i / BPL) = bits / BPL)%nat) as [Hw|Hw].
      * rewrite Hw, list_lookup_total_insert_eq
          by (rewrite store_words_length; unfold BPL in *; dlia).
        rewrite Z.land_spec, wnot_spec, last_word_mask_bit by (done || lia).
        destruct (Z.ltb_spec (Z.of_nat (i mod BPL)) (Z.of_nat (bits mod BPL)));
          [apply andb_true_r | unfold BPL in *; dlia].
      * rewrite list_lookup_total_insert_ne by done.
        rewrite store_words_lookup by done.
        rewrite decide_True by (unfold BPL in *; dlia). by rewrite wnot_spec by lia.
Qed.

(** ** Scans decide a property of all the valid bits *)
Lemma word_zero_masked x (bits : nat) :
  in_word 64 x -> (bits mod BPL <> 0)%nat ->
  Z.land x (BITMAP_LAST_WORD_MASK bits) = 0 <->
  (forall j, (j < bits mod BPL)%nat -> Z.testbit x (Z.of_nat j) = false).
Proof.
  intros Hx Hb. split.
  - intros E j Hj. assert (Z.testbit (Z.land x (BITMAP_LAST_WORD_MASK bits)) (Z.of_nat j) = false) as H
      by (rewrite E; apply Z.bits_0).
    rewrite Z.land_spec, last_word_mask_bit in H by (done || lia).
    destruct (Z.ltb_spec (Z.of_nat j) (Z.of_nat (bits mod BPL))); [|lia].
    by rewrite andb_true_r in H.
  - intros H. apply Z.bits_inj'. intros n Hn. rewrite Z.land_spec, Z.bits_0.
    rewrite last_word_mask_bit by done. destruct (Z.ltb_spec n (Z.of_nat (bits mod BPL))).
    + specialize (H (Z.to_nat n)). rewrite Z2Nat.id in H by lia. rewrite H by lia. done.
    + apply andb_false_r.
Qed.

(** [x k] is the word whose non-zero bits stop the scan with [negb d]. *)
Lemma scan_words_spec (bits : nat) (x : nat -> Z) (d : bool) (hit : nat -> option bool) :
  (forall k, in_word 64 (x k)) ->
  (forall k, hit k = None <-> x k = 0) -> (forall k r, hit k = Some r -> r = negb d) ->
  scan_words bits hit
    (fun k => if Z.land (x k) (BITMAP_LAST_WORD_MASK bits) =? 0 then None else Some (negb d)) d = d <->
  (forall i, (i < bits)%nat -> Z.testbit (x (i / BPL)%nat) (Z.of_nat (i mod BPL)) = false).
Proof.
  intros Hx Hn Hs. unfold scan_words.
  assert (Hall : (forall k, (k < bits / BPL)%nat -> x k = 0) <->
    forall i, (i < BPL * (bits / BPL))%nat -> Z.testbit (x (i / BPL)%nat) (Z.of_nat (i mod BPL)) = false).
  { split.
    - intros H i Hi. rewrite H by (unfold BPL in *; dlia). apply Z.bits_0.
    - intros H k Hk. apply (word_zero 64); [lia|done|]. intros j Hj.
      specialize (H (BPL * k + Z.to_nat j)%nat).
      replace ((BPL * k + Z.to_nat j) / BPL)%nat with k in H by (unfold BPL in *; dlia).
      replace (Z.of_nat ((BPL * k + Z.to_nat j) mod BPL)) with j in H by (unfold BPL in *; dlia).
      apply H. unfold BPL in *. dlia. }
  destruct (for_ret (bits / BPL) hit) as [r|] eqn:E.
  - apply for_ret_Some in E as (k & Hk & Hr & _).
    assert (x k <> 0) as Hnz by (intros E0; apply Hn in E0; congruence).
    rewrite (Hs _ _ Hr). split; [by destruct d|]. intros H. destruct Hnz.
    apply (proj2 Hall); [|done]. intros i Hi. apply H. unfold BPL in *. dlia.
  - assert (H0 : forall k, (k < bits / BPL)%nat -> x k = 0)
      by (intros; by apply Hn, (proj1 (for_ret_None _ _) E)).
    pose proof (proj1 Hall H0) as Hlow.
    destruct (Nat.eqb_spec (bits mod BPL) 0) as [Hz|Hz].
    + split; [|done]. intros _ i Hi. apply Hlow. unfold BPL in *. dlia.
    + pose proof (word_zero_masked (x (bits / BPL)%nat) bits (Hx _) Hz) as Hm.
      destruct (Z.eqb_spec (Z.land (x (bits / BPL)%nat) (BITMAP_LAST_WORD_MASK bits)) 0) as [Ez|Ez]; simpl.
      * split; [|done]. intros _ i Hi. destruct (decide (i < BPL * (bits / BPL))%nat); [by apply Hlow|].
        replace (i / BPL)%nat with (bits / BPL)%nat by (unfold BPL in *; dlia).
        apply (proj1 Hm Ez). unfold BPL in *; dlia.
      * split; [by destruct d|]. intros H. destruct Ez. apply Hm. intros j Hj.
        specialize (H (BPL * (bits / BPL) + j)%nat).
        replace ((BPL * (bits / BPL) + j) / BPL)%nat with (bits / BPL)%nat in H by (unfold BPL in *; dlia).
        replace ((BPL * (bits / BPL) + j) mod BPL)%nat with j in H by (unfold BPL in *; dlia).
        apply H. unfold BPL in *; dlia.
Qed.

Lemma in_word_land w x y : 0 <= w -> in_word w x -> in_word w y -> in_word w (Z.land x y).
Proof.
  intros Hw Hx Hy. apply in_word_testbit; [done|apply Z.land_nonneg; left; apply Hx|].
  intros j Hj. rewrite Z.land_spec, (testbit_in_word w x) by done. done.
Qed.

Lemma in_word_lxor w x y : 0 <= w -> in_word w x -> in_word w y -> in_word w (Z.lxor x y).
Proof.
  intros Hw Hx Hy. apply in_word_testbit; [done|apply Z.lxor_nonneg; split; intros; apply Hx || apply Hy|].
  intros j Hj. by rewrite Z.lxor_spec, (testbit_in_word w x), (testbit_in_word w y) by done.
Qed.

(** Turn a scan into the statement about bits, given its stop word. *)
Ltac scan_tac x d :=
  etransitivity; [apply (scan_words_spec _ x d);
    [intros; repeat first [apply lookup_word; done | apply in_word_wnot; lia
                          | apply in_word_land | lia]
    | intros ?; cbv beta;
      match goal with |- context [?a =? 0] => destruct (Z.eqb_spec a 0) end; split; done
    | intros ? ?; cbv beta; destruct (_ =? _); [done|by intros [= <-]]]|].

(** the scanning predicates decide, over the valid bits only, emptiness,
    fullness, equality, intersection and inclusion. *)
Theorem bitmap_predicates b1 b2 bits :
  Forall (in_word 64) b1 -> Forall (in_word 64) b2 ->
  (__bitmap_empty b1 bits = true <-> forall i, (i < bits)%nat -> getbit b1 i = false) /\
  (__bitmap_full b1 bits = true <-> forall i, (i < bits)%nat -> getbit b1 i = true) /\
  (__bitmap_equal b1 b2 bits = true <-> forall i, (i < bits)%nat -> getbit b1 i = getbit b2 i) /\
  (__bitmap_intersects b1 b2 bits = false <->
     forall i, (i < bits)%nat -> getbit b1 i && getbit b2 i = false) /\
  (__bitmap_subset b1 b2 bits = true <->
     forall i, (i < bits)%nat -> getbit b1 i = true -> getbit b2 i = true).
Proof.
  intros H1 H2. split_and!.
  - scan_tac (fun k => b1 !!! k) true. done.
  - scan_tac (fun k => wnot 64 (b1 !!! k)) true.
    apply forall_proper; intros i. apply forall_proper; intros Hi. unfold getbit.
    pose proof (mod_bpl i). rewrite wnot_spec by lia. apply negb_false_iff.
  - unfold __bitmap_equal.
    etransitivity; [apply (scan_words_spec _ (fun k => Z.lxor (b1 !!! k) (b2 !!! k)) true)|].
    + intros. apply in_word_lxor; [lia|by apply lookup_word..].
    + intros k. rewrite Z.lxor_eq_0_iff. destruct (Z.eqb_spec (b1 !!! k) (b2 !!! k)); split; done.
    + intros k r. cbv beta. case_match; [done|]. by intros [= <-].
    + apply forall_proper; intros i. apply forall_proper; intros Hi. unfold getbit.
      rewrite Z.lxor_spec. by destruct (Z.testbit (b1 !!! _) _), (Z.testbit (b2 !!! _) _).
  - scan_tac (fun k => Z.land (b1 !!! k) (b2 !!! k)) false.
    apply forall_proper; intros i. apply forall_proper; intros Hi. unfold getbit. by rewrite Z.land_spec.
  - scan_tac (fun k => Z.land (b1 !!! k) (wnot 64 (b2 !!! k))) true.
    apply forall_proper; intros i. apply forall_proper; intros Hi. unfold getbit.
    pose proof (mod_bpl i). rewrite Z.land_spec, wnot_spec by lia.
    destruct (Z.testbit (b1 !!! _) _), (Z.testbit (b2 !!! _) _); naive_solver.
Qed.

(** ** Shifts move bits *)
Lemma mask_bit x left j :
  0 <= j -> Z.testbit (Z.land x (Z.shiftl 1 (Z.of_nat left) - 1)) j
            = Z.testbit x j && (j <? Z.of_nat left).
Proof.
  intros. rewrite ones_shift by lia. rewrite Z.land_spec, testbit_ones by lia. done.
Qed.

Lemma bits_lim bits : (bits mod BPL = 0)%nat /\ (BPL * BITS_TO_LONGS bits = bits)%nat \/
  (bits mod BPL <> 0)%nat /\ (BPL * (BITS_TO_LONGS bits - 1) + bits mod BPL = bits)%nat
  /\ (1 <= BITS_TO_LONGS bits)%nat.
Proof. unfold BITS_TO_LONGS, BPL. destruct (decide (bits mod 64 = 0)%nat); [left|right]; dlia. Qed.

(** The partial-word masking of both shifts: a word of the source contributes
    exactly its valid bits. *)
Lemma masked_src (src : list Z) bits k (j : Z) :
  0 <= j < 64 -> (k < BITS_TO_LONGS bits)%nat ->
  Z.testbit (if negb (bits mod BPL =? 0)%nat && (k =? BITS_TO_LONGS bits - 1)%nat
             then Z.land (src !!! k) (Z.shiftl 1 (Z.of_nat (bits mod BPL)) - 1) else src !!! k) j
  = (BPL * k + Z.to_nat j <? bits)%nat && Z.testbit (src !!! k) j.
Proof.
  intros Hj Hk. pose proof (bits_lim bits) as HL.
  destruct (Nat.eqb_spec (bits mod BPL) 0), (Nat.eqb_spec k (BITS_TO_LONGS bits - 1)); simpl;
    rewrite ?mask_bit by lia; cmp_cases; rewrite ?andb_true_r, ?andb_false_r; simpl; try done;
    exfalso; unfold BPL in *; dlia.
Qed.

Lemma clear_words_lookup (dst : list Z) base n k :
  (base + n <= length dst)%nat ->
  for_up n (fun j d => <[(base + j)%nat := 0]> d) dst !!! k =
    if decide (base <= k < base + n)%nat then 0 else dst !!! k.
Proof.
  intros Hn.
  pose (P := fun m d => length d = length dst /\
     forall k : nat, d !!! k = if decide (base <= k < base + m)%nat then 0 else dst !!! k).
  cut (P n (for_up n (fun j d => <[(base + j)%nat := 0]> d) dst)); [intros [_ H]; apply H|].
  apply for_up_ind.
  - split; [done|]. intros j. destruct (decide _); [lia|done].
  - intros m d Hm [Hl Hd]. split; [by rewrite length_insert|]. intros j.
    destruct (decide (j = base + m)%nat) as [->|Hne].
    + rewrite list_lookup_total_insert_eq by lia. by rewrite decide_True by lia.
    + rewrite list_lookup_total_insert_ne by done. rewrite Hd.
      destruct (decide (base <= j < base + m)%nat), (decide (base <= j < base + S m)%nat); try done; lia.
Qed.

Lemma shift_right_word_bit src bits shift k (j : Z) :
  Forall (in_word 64) src -> 0 <= j < 64 ->
  (k + shift / BPL < BITS_TO_LONGS bits)%nat -> (BPL * k + Z.to_nat j < bits)%nat ->
  let s := (BPL * k + Z.to_nat j + shift)%nat in
  Z.testbit (shift_right_word src (BITS_TO_LONGS bits) (shift / BPL) (bits mod BPL) (shift mod BPL) k) j
  = (s <? bits)%nat && getbit src s.
Proof.
  intros Hw Hj Hk Hi s. unfold shift_right_word.
  set (lim := BITS_TO_LONGS bits) in *. set (off := (shift / BPL)%nat) in *.
  set (rem := (shift mod BPL)%nat).
  assert (Hs : shift = (BPL * off + rem)%nat) by (subst off rem; unfold BPL; dlia).
  assert (Hrem : (rem < 64)%nat) by (subst rem; unfold BPL; dlia).
  pose proof (bits_lim bits) as HL. fold lim in HL.
  (* the final mask is invisible on valid bits *)
  match goal with |- Z.testbit (if ?c then Z.land ?w ?m else ?w) j = _ =>
    assert (E : Z.testbit (if c then Z.land w m else w) j = Z.testbit w j) end.
  { destruct (Nat.eqb_spec (bits mod BPL) 0), (Nat.eqb_spec k (lim - 1)); simpl; try done.
    rewrite mask_bit by lia. destruct (Z.ltb_spec j (Z.of_nat (bits mod BPL)));
      [apply andb_true_r | unfold BPL in *; lia]. }
  rewrite E, Z.lor_spec, wshl_spec, wshr_spec by (unfold BPL; lia).
  rewrite (Nat.add_comm k off) in Hk.
  assert (Hpos : forall q r, (s = BPL * q + r)%nat -> (r < BPL)%nat ->
    getbit src s = Z.testbit (src !!! q) (Z.of_nat r)).
  { intros q r Eq Hr. unfold getbit.
    replace (s / BPL)%nat with q by (unfold BPL in *; dlia).
    by replace (s mod BPL)%nat with r by (unfold BPL in *; dlia). }
  destruct (Z.lt_ge_cases (j + Z.of_nat rem) 64) as [Hlo|Hhi].
  - rewrite (Z.testbit_neg_r _ (j - _)) by (unfold BPL; lia). rewrite orb_false_l.
    rewrite masked_src by (done || lia).
    rewrite (Hpos (off + k)%nat (Z.to_nat j + rem)%nat) by (unfold s, BPL in *; lia).
    replace (Z.of_nat (Z.to_nat j + rem)) with (j + Z.of_nat rem) by lia.
    f_equal. unfold s. f_equal. unfold BPL in *. lia.
  - match goal with |- ?a || ?b = _ => assert (b = false) as -> end.
    { destruct (negb (bits mod BPL =? 0)%nat && (off + k =? lim - 1)%nat).
      - rewrite mask_bit by lia. rewrite (testbit_in_word 64) by (lia || by apply lookup_word). done.
      - apply (testbit_in_word 64); [lia|by apply lookup_word|lia]. }
    rewrite orb_false_r.
    rewrite (Hpos (off + k + 1)%nat (Z.to_nat j + rem - BPL)%nat) by (unfold s, BPL in *; lia).
    destruct (Nat.eqb_spec rem 0); [lia|]. simpl.
    destruct (Nat.leb_spec lim (off + k + 1)).
    + rewrite Z.bits_0. destruct (Nat.ltb_spec s bits); [|done].
      exfalso. unfold s, BPL in *. lia.
    + rewrite andb_comm, masked_src by (unfold BPL in *; lia).
      replace (Z.of_nat (Z.to_nat j + rem - BPL)) with (j - (Z.of_nat BPL - Z.of_nat rem)) by (unfold BPL; lia).
      f_equal. unfold s. f_equal. unfold BPL in *. lia.
Qed.

Lemma shift_left_word_bit src bits shift k (j : Z) :
  Forall (in_word 64) src -> 0 <= j < 64 ->
  (k + shift / BPL < BITS_TO_LONGS bits)%nat ->
  let i := (BPL * (k + shift / BPL) + Z.to_nat j)%nat in
  (i < bits)%nat ->
  Z.testbit (shift_left_word src (BITS_TO_LONGS bits) (shift / BPL) (bits mod BPL) (shift mod BPL) k) j
  = (shift <=? i)%nat && getbit src (i - shift).
Proof.
  intros Hw Hj Hk i Hi. unfold shift_left_word.
  set (lim := BITS_TO_LONGS bits) in *. set (off := (shift / BPL)%nat) in *.
  set (rem := (shift mod BPL)%nat).
  assert (Hs : shift = (BPL * off + rem)%nat) by (subst off rem; unfold BPL; dlia).
  assert (Hrem : (rem < 64)%nat) by (subst rem; unfold BPL; dlia).
  pose proof (bits_lim bits) as HL. fold lim in HL.
  match goal with |- Z.testbit (if ?c then Z.land ?w ?m else ?w) j = _ =>
    assert (E : Z.testbit (if c then Z.land w m else w) j = Z.testbit w j) end.
  { destruct (Nat.eqb_spec (bits mod BPL) 0), (Nat.eqb_spec (k + off) (lim - 1)); simpl; try done.
    rewrite mask_bit by lia. destruct (Z.ltb_spec j (Z.of_nat (bits mod BPL)));
      [apply andb_true_r | unfold i, BPL in *; lia]. }
  rewrite E, Z.lor_spec, wshl_spec, wshr_spec by (unfold BPL; lia).
  assert (Hpos : forall q r, (i - shift = BPL * q + r)%nat -> (r < BPL)%nat ->
    getbit src (i - shift) = Z.testbit (src !!! q) (Z.of_nat r)).
  { intros q r Eq Hr. unfold getbit.
    replace ((i - shift) / BPL)%nat with q by (unfold BPL in *; dlia).
    by replace ((i - shift) mod BPL)%nat with r by (unfold BPL in *; dlia). }
  destruct (Z.lt_ge_cases j (Z.of_nat rem)) as [Hlo|Hhi].
  - rewrite (Z.testbit_neg_r _ (j - _)), orb_false_r by lia.
    destruct (Nat.eqb_spec rem 0); [lia|]. simpl.
    destruct (Nat.ltb_spec 0 k).
    + rewrite (Hpos (k - 1)%nat (BPL + Z.to_nat j - rem)%nat) by (unfold i, BPL in *; lia).
      destruct (Nat.leb_spec shift i); [|unfold i, BPL in *; lia]. simpl. f_equal. unfold BPL; lia.
    + rewrite Z.bits_0. destruct (Nat.leb_spec shift i); [unfold i, BPL in *; lia|done].
  - match goal with |- ?a || ?b = _ => assert (a = false) as -> end.
    { destruct (negb (rem =? 0)%nat && (0 <? k)%nat); [|apply Z.bits_0].
      apply (testbit_in_word 64); [lia|by apply lookup_word|unfold BPL; lia]. }
    rewrite orb_false_l, masked_src by (unfold BPL in *; lia).
    destruct (Nat.leb_spec shift i); [|unfold i, BPL in *; lia].
    rewrite (Hpos k (Z.to_nat j - rem)%nat) by (unfold i, BPL in *; lia).
    replace (Z.of_nat (Z.to_nat j - rem)) with (j - Z.of_nat rem) by lia.
    destruct (Nat.ltb_spec (BPL * k + Z.to_nat (j - Z.of_nat rem)) bits); [done|].
    exfalso. unfold i, BPL in *. lia.
Qed.

(** The down-counting loop of [__bitmap_shift_left] writes every word once. *)
Lemma store_down_lookup (dst : list Z) n off w k :
  (n + off <= length dst)%nat ->
  for_up n (fun j d => <[(n - 1 - j + off)%nat := w (n - 1 - j)%nat]> d) dst !!! k =
    if decide (off <= k < off + n)%nat then w (k - off)%nat else dst !!! k.
Proof.
  intros Hn.
  pose (P := fun m d => length d = length dst /\
     forall k : nat, d !!! k = if decide (off + (n - m) <= k < off + n)%nat then w (k - off)%nat else dst !!! k).
  cut (P n (for_up n (fun j d => <[(n - 1 - j + off)%nat := w (n - 1 - j)%nat]> d) dst)).
  { intros [_ H]. rewrite H. replace (off + (n - n))%nat with off by lia. done. }
  apply for_up_ind.
  - split; [done|]. intros j. destruct (decide _); [lia|done].
  - intros m d Hm [Hl Hd]. split; [by rewrite length_insert|]. intros j.
    destruct (decide (j = n - 1 - m + off)%nat) as [->|Hne].
    + rewrite list_lookup_total_insert_eq by lia. rewrite decide_True by lia. f_equal. lia.
    + rewrite list_lookup_total_insert_ne by done. rewrite Hd.
      destruct (decide (off + (n - m) <= j < off + n)%nat),
               (decide (off + (n - S m) <= j < off + n)%nat); try done; lia.
Qed.

Lemma for_up_insert_length {f : nat -> nat} {g : nat -> Z} n (dst : list Z) :
  length (for_up n (fun j d => <[f j := g j]> d) dst) = length dst.
Proof.
  apply (for_up_ind (fun _ d => length d = length dst)); [done|].
  intros k s _ <-. apply length_insert.
Qed.

(** shifting moves every valid bit by [shift] positions and feeds zeros. *)
Theorem bitmap_shifts dst src shift bits i :
  Forall (in_word 64) src -> (bits <= BPL * length dst)%nat -> (shift <= bits)%nat -> (i < bits)%nat ->
  getbit (__bitmap_shift_right dst src shift bits) i = (i + shift <? bits)%nat && getbit src (i + shift) /\
  getbit (__bitmap_shift_left dst src shift bits) i = (shift <=? i)%nat && getbit src (i - shift).
Proof.
  intros Hw Hd Hs Hi. pose proof (bits_to_longs_le _ _ Hd) as Hlen.
  pose proof (bits_to_longs_cover bits) as Hcov. pose proof (mod_bpl i) as Hmod.
  set (lim := BITS_TO_LONGS bits) in *.
  assert (Hoff : (shift / BPL <= lim)%nat) by (unfold BPL in *; dlia).
  set (off := (shift / BPL)%nat) in *.
  assert (Hdiv : i = (BPL * (i / BPL) + i mod BPL)%nat) by (unfold BPL; dlia).
  split.
  - unfold __bitmap_shift_right. fold lim off. unfold getbit at 1.
    rewrite clear_words_lookup by (rewrite store_words_length; lia).
    destruct (decide _) as [Hz|Hz].
    + rewrite Z.bits_0. destruct (Nat.ltb_spec (i + shift) bits); [|done].
      exfalso. unfold off, BPL in *. dlia.
    + rewrite store_words_lookup by lia.
      assert ((i / BPL) < lim)%nat by (unfold BPL in *; dlia).
      rewrite decide_True by lia.
      unfold lim, off. rewrite shift_right_word_bit; [|done|lia|fold off lim; lia|lia].
      rewrite Nat2Z.id, <- Hdiv. done.
  - unfold __bitmap_shift_left. fold lim off. unfold getbit at 1.
    rewrite (clear_words_lookup _ 0) by (rewrite for_up_insert_length; lia).
    destruct (decide _) as [Hz|Hz].
    + rewrite Z.bits_0. destruct (Nat.leb_spec shift i); [|done].
      exfalso. unfold off, BPL in *. dlia.
    + rewrite store_down_lookup by lia.
      assert ((i / BPL) < lim)%nat by (unfold BPL in *; dlia).
      rewrite decide_True by lia.
      unfold lim, off. rewrite shift_left_word_bit; fold off lim; rewrite ?Nat2Z.id;
        try replace (i / BPL - off + off)%nat with (i / BPL)%nat by lia; rewrite <- ?Hdiv; (done || lia).
Qed.

(** ** Bit searches find the next bit *)

(** [r] is the first index in [[off, size)] satisfying [P], or [size]. *)
Definition first_from (P : nat -> bool) (size off r : nat) : Prop :=
  r = size /\ (forall i, (off <= i < size)%nat -> P i = false) \/
  (off <= r < size)%nat /\ P r = true /\ (forall i, (off <= i < r)%nat -> P i = false).

Lemma ffs_spec x :
  in_word 64 x -> x <> 0 ->
  (__ffs x < 64)%nat /\ Z.testbit x (Z.of_nat (__ffs x)) = true /\
  (forall j, (j < __ffs x)%nat -> Z.testbit x (Z.of_nat j) = false).
Proof.
  intros Hx Hnz. unfold __ffs.
  destruct (for_ret BPL _) as [r|] eqn:E; simpl.
  - apply for_ret_Some in E as (k & Hk & Hf & Hj).
    destruct (Z.testbit x (Z.of_nat k)) eqn:Ek; [|done]. injection Hf as <-.
    split_and!; [unfold BPL in *; lia|done|]. intros j Hlt. specialize (Hj j Hlt).
    by destruct (Z.testbit x (Z.of_nat j)).
  - destruct Hnz. apply (word_zero 64); [lia|done|]. intros j Hj.
    apply for_ret_None with (k := Z.to_nat j) in E; [|unfold BPL; lia].
    rewrite Z2Nat.id in E by lia. by destruct (Z.testbit x j).
Qed.

Lemma getbit_word addr p j :
  (j < BPL)%nat -> getbit addr (BPL * p + j) = Z.testbit (addr !!! p) (Z.of_nat j).
Proof.
  intros. unfold getbit. replace ((BPL * p + j) / BPL)%nat with p by (unfold BPL in *; dlia).
  by replace ((BPL * p + j) mod BPL)%nat with j by (unfold BPL in *; dlia).
Qed.

(** A word [x] holding the bits [[lo, hi)] of word [p] decides the search there. *)
Lemma masked_search addr p lo hi x :
  in_word 64 x -> (lo <= hi <= BPL)%nat ->
  (forall j, (j < BPL)%nat -> Z.testbit x (Z.of_nat j) =
     Z.testbit (addr !!! p) (Z.of_nat j) && (lo <=? j)%nat && (j <? hi)%nat) ->
  (x = 0 -> forall i, (BPL * p + lo <= i < BPL * p + hi)%nat -> getbit addr i = false) /\
  (x <> 0 -> forall size, (BPL * p + hi <= size)%nat ->
     first_from (getbit addr) size (BPL * p + lo) (BPL * p + __ffs x)).
Proof.
  intros Hx Hr Hb. split.
  - intros -> i Hi. specialize (Hb (i - BPL * p)%nat). rewrite Z.bits_0 in Hb.
    replace i with (BPL * p + (i - BPL * p))%nat by lia. rewrite getbit_word by lia.
    assert (Hj : (i - BPL * p < BPL)%nat) by lia. specialize (Hb Hj).
    revert Hb. destruct (Nat.leb_spec lo (i - BPL * p)); [|lia].
    destruct (Nat.ltb_spec (i - BPL * p) hi); [|lia]. by rewrite !andb_true_r.
  - intros Hnz size Hs. destruct (ffs_spec x Hx Hnz) as (Hlt & Ht & Hmin). right.
    assert (Hf := Hb (__ffs x) ltac:(unfold BPL; lia)). rewrite Ht in Hf.
    symmetry in Hf. apply andb_prop in Hf as [[Hf Hlo]%andb_prop Hhi].
    apply Nat.leb_le in Hlo. apply Nat.ltb_lt in Hhi.
    split_and!; [lia|lia|rewrite getbit_word by lia; done|].
    intros i Hi. replace i with (BPL * p + (i - BPL * p))%nat by lia.
    rewrite getbit_word by lia. assert (Hz := Hmin (i - BPL * p)%nat ltac:(lia)).
    rewrite Hb in Hz by lia. revert Hz.
    destruct (Nat.leb_spec lo (i - BPL * p)); [|lia].
    destruct (Nat.ltb_spec (i - BPL * p) hi); [|lia]. by rewrite !andb_true_r.
Qed.

Lemma first_from_skip P size off off' r :
  (off <= off')%nat -> (forall i, (off <= i < off')%nat -> P i = false) ->
  first_from P size off' r -> first_from P size off r.
Proof.
  intros Ho Hz [[-> H]|(Hr & HP & H)]; [left|right].
  - split; [done|]. intros i Hi. destruct (decide (i < off')%nat); [apply Hz|apply H]; lia.
  - split_and!; [lia|lia|done|]. intros i Hi. destruct (decide (i < off')%nat); [apply Hz|apply H]; lia.
Qed.

Lemma ones_shr_bit (size j : nat) :
  (size <= BPL)%nat -> Z.testbit (wshr ULONG_MAX (Z.of_nat BPL - Z.of_nat size)) (Z.of_nat j) = (j <? size)%nat.
Proof.
  intros. rewrite wshr_spec, ulong_max_bit by (unfold BPL in *; lia).
  cmp_cases; (done || unfold BPL in *; lia).
Qed.

Lemma ones_shl_bit (n j : nat) :
  (j < BPL)%nat -> Z.testbit (wshl 64 ULONG_MAX (Z.of_nat n)) (Z.of_nat j) = (n <=? j)%nat.
Proof.
  intros. rewrite wshl_spec by (unfold BPL in *; lia). destruct (Nat.leb_spec n j).
  - rewrite ulong_max_bit by lia. cmp_cases; (done || unfold BPL in *; lia).
  - apply Z.testbit_neg_r. lia.
Qed.

Lemma ones_shr_word n : 0 <= n -> in_word 64 (wshr ULONG_MAX n).
Proof.
  intros. apply in_word_testbit; [lia|apply Z.shiftr_nonneg; unfold ULONG_MAX; done|].
  intros j Hj. rewrite wshr_spec, ulong_max_bit by lia. apply Z.ltb_ge. lia.
Qed.

Lemma find_bit_words_spec fuel addr p size :
  Forall (in_word 64) addr -> (size < fuel)%nat ->
  first_from (getbit addr) (BPL * p + size) (BPL * p) (find_bit_words fuel addr p (BPL * p) size).
Proof.
  intros Hw. revert p size. induction fuel as [|fuel IH]; intros p size Hf; [lia|].
  cbn [find_bit_words].
  rewrite whole_words_spec. destruct (Nat.leb_spec BPL size).
  - pose proof (masked_search addr p 0 BPL (addr !!! p) (lookup_word _ _ Hw) ltac:(lia)) as [Hz Hnz].
    { intros j Hj. destruct (Nat.ltb_spec j BPL); [by rewrite !andb_true_r | lia]. }
    rewrite Nat.add_0_r in *. destruct (Z.eqb_spec (addr !!! p) 0) as [E|E]; [|apply Hnz; [done|lia]].
    apply (first_from_skip _ _ _ (BPL * p + BPL)); [lia|by apply Hz|].
    specialize (IH (p + 1)%nat (size - BPL)%nat ltac:(unfold BPL in *; lia)).
    replace (BPL * (p + 1))%nat with (BPL * p + BPL)%nat in IH by lia.
    by replace (BPL * p + BPL + (size - BPL))%nat with (BPL * p + size)%nat in IH by lia.
  - destruct (Nat.eqb_spec size 0) as [->|]. { left. split; [lia|]. intros; lia. }
    set (x := Z.land _ _).
    pose proof (masked_search addr p 0 size x) as [Hz Hnz].
    { apply in_word_land; [lia|by apply lookup_word|apply ones_shr_word; lia]. }
    { lia. }
    { intros j Hj. unfold x. rewrite Z.land_spec, ones_shr_bit by lia. by rewrite andb_true_r. }
    rewrite Nat.add_0_r in *. destruct (Z.eqb_spec x 0) as [E|E]; [|by apply Hnz].
    left. split; [done|]. by apply Hz.
Qed.

Lemma find_next_bit_spec addr size offset :
  Forall (in_word 64) addr ->
  first_from (getbit addr) size offset (_find_next_bit addr size offset).
Proof.
  intros Hw. unfold _find_next_bit. rewrite word_base_spec.
  destruct (Nat.leb_spec size offset). { left. split; [done|]. intros; lia. }
  set (p := (offset / BPL)%nat). set (o := (offset mod BPL)%nat).
  assert (Ho : offset = (BPL * p + o)%nat) by (subst p o; unfold BPL; dlia).
  assert (Hlt : (o < BPL)%nat) by (subst o; unfold BPL; dlia).
  replace (offset - o)%nat with (BPL * p)%nat by lia.
  destruct (Nat.eqb_spec o 0) as [E|E].
  { rewrite Ho, E, Nat.add_0_r.
    replace size with (BPL * p + (size - BPL * p))%nat at 1 by lia.
    apply find_bit_words_spec; [done|lia]. }
  set (t := Z.land (addr !!! p) _).
  assert (Ht : forall j, (j < BPL)%nat -> Z.testbit t (Z.of_nat j) =
                 Z.testbit (addr !!! p) (Z.of_nat j) && (o <=? j)%nat).
  { intros j Hj. unfold t. by rewrite Z.land_spec, ones_shl_bit. }
  assert (Htw : in_word 64 t).
  { apply in_word_land; [lia|by apply lookup_word|apply in_word_wshl; lia]. }
  destruct (Nat.ltb_spec (size - BPL * p) BPL).
  - set (x := Z.land t _).
    pose proof (masked_search addr p o (size - BPL * p) x) as [Hz Hnz].
    { apply in_word_land; [lia|done|apply ones_shr_word; lia]. }
    { lia. }
    { intros j Hj. unfold x. by rewrite Z.land_spec, Ht, ones_shr_bit by lia. }
    rewrite Ho. destruct (Z.eqb_spec x 0) as [E0|E0]; [|apply Hnz; [done|lia]].
    left. split; [lia|]. intros i Hi. apply (Hz E0). lia.
  - pose proof (masked_search addr p o BPL t Htw ltac:(lia)) as [Hz Hnz].
    { intros j Hj. rewrite Ht by done. destruct (Nat.ltb_spec j BPL); [by rewrite andb_true_r | lia]. }
    rewrite Ho. destruct (Z.eqb_spec t 0) as [E0|E0]; [|apply Hnz; [done|lia]].
    apply (first_from_skip _ _ _ (BPL * p + BPL)); [lia|by apply Hz|].
    replace (BPL * p + BPL)%nat with (BPL * (p + 1))%nat by lia.
    replace size with (BPL * (p + 1) + (size - BPL * p - BPL))%nat at 1 by lia.
    apply find_bit_words_spec; [done|lia].
Qed.

(** The zero searches are the set-bit searches of the complement. *)
Lemma wnot_lor x y : wnot 64 (Z.lor x y) = Z.land (wnot 64 x) (wnot 64 y).
Proof.
  unfold wnot. rewrite Z.lnot_lor. apply Z.bits_inj'. intros n Hn. rewrite !Z.land_spec.
  by destruct (Z.testbit (Z.lnot x) n), (Z.testbit (Z.lnot y) n), (Z.testbit (Z.ones 64) n).
Qed.

Lemma wnot_shl n : (n <= BPL)%nat ->
  wnot 64 (wshl 64 ULONG_MAX (Z.of_nat n)) = wshr ULONG_MAX (Z.of_nat BPL - Z.of_nat n).
Proof.
  intros. apply (word_eq 64); [lia|apply in_word_wnot; lia|apply ones_shr_word; lia|].
  intros j Hj. replace j with (Z.of_nat (Z.to_nat j)) by lia.
  rewrite wnot_spec, ones_shl_bit, ones_shr_bit by (unfold BPL in *; lia). cmp_cases; (done || lia).
Qed.

Lemma wnot_shr n : (n <= BPL)%nat ->
  wnot 64 (wshr ULONG_MAX (Z.of_nat BPL - Z.of_nat n)) = wshl 64 ULONG_MAX (Z.of_nat n).
Proof.
  intros. apply (word_eq 64); [lia|apply in_word_wnot; lia|apply in_word_wshl; lia|].
  intros j Hj. replace j with (Z.of_nat (Z.to_nat j)) by lia.
  rewrite wnot_spec, ones_shl_bit, ones_shr_bit by (unfold BPL in *; lia). cmp_cases; (done || lia).
Qed.

Lemma eqb_max_wnot x : in_word 64 x -> (x =? ULONG_MAX) = (wnot 64 x =? 0).
Proof.
  intros Hx. apply eq_true_iff_eq. rewrite !Z.eqb_eq. rewrite (word_zero 64) by (lia || apply in_word_wnot; lia).
  split.
  - intros -> j Hj. rewrite wnot_spec, ulong_max_bit by lia. destruct (Z.ltb_spec j 64); [done|lia].
  - intros H. apply (word_eq 64); [lia|done|unfold ULONG_MAX; split; done|].
    intros j Hj. specialize (H j Hj). rewrite wnot_spec in H by lia. rewrite ulong_max_bit by lia.
    destruct (Z.ltb_spec j 64); [by destruct (Z.testbit x j)|lia].
Qed.

Lemma lookup_wnot (addr : list Z) k :
  (k < length addr)%nat -> (wnot 64 <$> addr) !!! k = wnot 64 (addr !!! k).
Proof.
  intros Hk. apply list_lookup_total_fmap. done.
Qed.

Lemma in_word_lor w x y : 0 <= w -> in_word w x -> in_word w y -> in_word w (Z.lor x y).
Proof.
  intros Hw Hx Hy. apply in_word_testbit; [done|apply Z.lor_nonneg; split; [apply Hx|apply Hy]|].
  intros j Hj. by rewrite Z.lor_spec, (testbit_in_word w x), (testbit_in_word w y) by done.
Qed.

Lemma find_zero_words_eq fuel addr p result size :
  Forall (in_word 64) addr -> (BPL * p + size <= BPL * length addr)%nat ->
  find_zero_words fuel addr p result size = find_bit_words fuel (wnot 64 <$> addr) p result size.
Proof.
  intros Hw. revert p result size. induction fuel as [|fuel IH]; intros p result size Hs; [done|].
  cbn [find_zero_words find_bit_words].
  rewrite whole_words_spec. destruct (Nat.leb_spec BPL size).
  - rewrite lookup_wnot by (unfold BPL in *; lia). unfold ffz. rewrite IH by (unfold BPL in *; lia). done.
  - destruct (Nat.eqb_spec size 0) as [|]; [done|].
    rewrite lookup_wnot by (unfold BPL in *; lia).
    rewrite eqb_max_wnot by (apply in_word_lor; [lia|by apply lookup_word|apply in_word_wshl; lia]).
    unfold ffz. by rewrite wnot_lor, wnot_shl by lia.
Qed.

Lemma find_next_zero_eq addr size offset :
  Forall (in_word 64) addr -> (size <= BPL * length addr)%nat ->
  _find_next_zero_bit addr size offset = _find_next_bit (wnot 64 <$> addr) size offset.
Proof.
  intros Hw Hs. unfold _find_next_zero_bit, _find_next_bit. rewrite word_base_spec.
  destruct (Nat.leb_spec size offset); [done|].
  set (p := (offset / BPL)%nat). set (o := (offset mod BPL)%nat).
  assert (Ho : offset = (BPL * p + o)%nat) by (subst p o; unfold BPL; dlia).
  assert (Hlt : (o < BPL)%nat) by (subst o; unfold BPL; dlia).
  assert (Hp : (p < length addr)%nat) by (unfold BPL in *; lia).
  replace (offset - o)%nat with (BPL * p)%nat by lia.
  rewrite !find_zero_words_eq by (done || unfold BPL in *; lia).
  destruct (Nat.eqb_spec o 0); [done|].
  rewrite lookup_wnot by done. unfold ffz. rewrite !wnot_lor, wnot_shr by lia.
  destruct (Nat.ltb_spec (size - BPL * p) BPL); [|done].
  rewrite eqb_max_wnot.
  - by rewrite !wnot_lor, wnot_shr, wnot_shl by lia.
  - repeat apply in_word_lor; try lia; [by apply lookup_word|apply ones_shr_word; lia|apply in_word_wshl; lia].
Qed.

Lemma getbit_wnot addr i :
  (i < BPL * length addr)%nat -> getbit (wnot 64 <$> addr) i = negb (getbit addr i).
Proof.
  intros Hi. unfold getbit. rewrite lookup_wnot by (unfold BPL in *; dlia).
  apply wnot_spec, mod_bpl.
Qed.

Lemma first_from_ext P Q size off r :
  (forall i, (i < size)%nat -> P i = Q i) -> first_from P size off r -> first_from Q size off r.
Proof.
  intros E [[-> H]|(Hr & HP & H)]; [left|right].
  - split; [done|]. intros i Hi. rewrite <- E by lia. by apply H.
  - split_and!; [lia|lia|rewrite <- E by lia; done|]. intros i Hi. rewrite <- E by lia. by apply H.
Qed.

(** the four searches return the first matching bit at or after the
    starting offset, or the size when there is none. *)
Theorem find_bit_correct addr size offset :
  bitmap_ok addr size ->
  first_from (getbit addr) size offset (_find_next_bit addr size offset) /\
  first_from (fun i => negb (getbit addr i)) size offset (_find_next_zero_bit addr size offset) /\
  first_from (getbit addr) size 0 (_find_first_bit addr size) /\
  first_from (fun i => negb (getbit addr i)) size 0 (_find_first_zero_bit addr size).
Proof.
  intros [Hw Hs].
  assert (Hw' : Forall (in_word 64) (wnot 64 <$> addr)).
  { apply Forall_fmap, Forall_true. intros. apply in_word_wnot. lia. }
  assert (Hext : forall off r, first_from (getbit (wnot 64 <$> addr)) size off r ->
                          first_from (fun i => negb (getbit addr i)) size off r).
  { intros off r. apply first_from_ext. intros i Hi. apply getbit_wnot. lia. }
  split_and!.
  - by apply find_next_bit_spec.
  - rewrite find_next_zero_eq by done. by apply Hext, find_next_bit_spec.
  - apply (find_bit_words_spec _ addr 0 size); [done|lia].
  - apply Hext. unfold _find_first_zero_bit. rewrite find_zero_words_eq by (done || lia).
    apply (find_bit_words_spec _ _ 0 size); [done|lia].
Qed.

(** ** Regions *)

(** The bits [[pos, pos + n)] are all [b]. *)
Definition region_is (bm : list Z) (pos n : nat) (b : bool) : Prop :=
  forall i, (pos <= i < pos + n)%nat -> getbit bm i = b.

Lemma region_mask_ones order :
  0 <= order <= 6 -> region_mask (Z.shiftl 1 order) = Ret (Z.ones (2 ^ order)).
Proof.
  intros. assert (order = 0 \/ order = 1 \/ order = 2 \/ order = 3 \/ order = 4 \/ order = 5 \/ order = 6)
    as Ho by lia. destruct_or!; subst; reflexivity.
Qed.

Lemma region_offset pos :
  Z.of_nat pos - Z.of_nat (pos / BPL) * Z.of_nat BPL = Z.of_nat (pos mod BPL).
Proof. unfold BPL. dlia. Qed.

Section region.
Context (order : Z) (Hord : 0 <= order <= 6).
Let pages : nat := Z.to_nat (2 ^ order).

Lemma pages_divides : exists q, (64 = pages * q)%nat /\ (0 < pages)%nat.
Proof.
  exists (Z.to_nat (2 ^ (6 - order))). unfold pages.
  split; [|apply (Z2Nat.inj_lt 0); lia].
  rewrite <- Z2Nat.inj_mul, <- Z.pow_add_r by lia.
  by replace (order + (6 - order)) with 6 by lia.
Qed.

(** An aligned region lies within one word. *)
Lemma region_in_word n :
  let i := (n * pages)%nat in (i mod BPL + pages <= BPL)%nat.
Proof.
  destruct pages_divides as (q & Hq & Hp). intros i. unfold i, BPL. rewrite Hq.
  rewrite (Nat.mul_comm pages q), Nat.Div0.mul_mod_distr_r.
  assert (n mod q < q)%nat by (apply Nat.mod_upper_bound; lia). nia.
Qed.

Lemma region_word_bit (off : nat) j :
  (off + pages <= BPL)%nat -> 0 <= j < 64 ->
  Z.testbit (wshl 64 (Z.ones (2 ^ order)) (Z.of_nat off)) j
  = (Z.of_nat off <=? j) && (j <? Z.of_nat (off + pages)).
Proof.
  intros Ho Hj. rewrite wshl_spec by lia. destruct (Z.leb_spec (Z.of_nat off) j).
  - rewrite testbit_ones by lia. unfold pages in *. cmp_cases; (done || lia).
  - rewrite Z.testbit_neg_r by lia. done.
Qed.

Context (bm : list Z) (Hw : Forall (in_word 64) bm) (pos : nat).
Context (Hpos : (pos mod BPL + pages <= BPL)%nat) (Hlen : (pos / BPL < length bm)%nat).
Let index := (pos / BPL)%nat.
Let m := wshl 64 (Z.ones (2 ^ order)) (Z.of_nat (pos mod BPL)).

Lemma in_region_iff i :
  (i / BPL = index)%nat ->
  (Z.of_nat (pos mod BPL) <=? Z.of_nat (i mod BPL)) && (Z.of_nat (i mod BPL) <? Z.of_nat (pos mod BPL + pages))
  = bool_decide (pos <= i < pos + pages)%nat.
Proof.
  intros E. unfold index in E. case_bool_decide; cmp_cases; try done; exfalso; unfold BPL in *; dlia.
Qed.

Lemma region_test :
  Z.land (bm !!! index) m = 0 <-> region_is bm pos pages false.
Proof.
  pose proof (mod_bpl pos) as Hm. split.
  - intros E i Hi. assert ((i / BPL) = index)%nat as Ei by (unfold index, BPL in *; dlia).
    assert (Z.testbit (Z.land (bm !!! index) m) (Z.of_nat (i mod BPL)) = false) as H
      by (rewrite E; apply Z.bits_0).
    rewrite Z.land_spec in H. unfold m in H.
    rewrite region_word_bit, in_region_iff, bool_decide_eq_true_2, andb_true_r in H
      by (done || apply mod_bpl).
    unfold getbit. by rewrite Ei.
  - intros H. apply (word_zero 64); [lia| |].
    { apply in_word_land; [lia|by apply lookup_word|apply in_word_wshl; lia]. }
    intros j Hj. rewrite Z.land_spec. unfold m. rewrite region_word_bit by done.
    destruct (Z.leb_spec (Z.of_nat (pos mod BPL)) j), (Z.ltb_spec j (Z.of_nat (pos mod BPL + pages)));
      rewrite ?andb_false_r; try done. rewrite andb_true_r.
    specialize (H (BPL * index + Z.to_nat j)%nat). rewrite getbit_word in H by (unfold BPL; lia).
    rewrite Z2Nat.id in H by lia. apply H. unfold index, BPL in *. dlia.
Qed.

Lemma region_set i :
  getbit (<[index := Z.lor (bm !!! index) m]> bm) i =
    if bool_decide (pos <= i < pos + pages)%nat then true else getbit bm i.
Proof.
  unfold getbit. destruct (decide ((i / BPL) = index)%nat) as [E|E].
  - rewrite E, list_lookup_total_insert_eq by done. rewrite Z.lor_spec. unfold m.
    rewrite region_word_bit, in_region_iff by (done || apply mod_bpl).
    case_bool_decide; [apply orb_true_r|apply orb_false_r].
  - rewrite list_lookup_total_insert_ne by done. rewrite bool_decide_eq_false_2; [done|].
    unfold index, BPL in *. dlia.
Qed.

Lemma region_clear i :
  getbit (<[index := Z.land (bm !!! index) (wnot 64 m)]> bm) i =
    if bool_decide (pos <= i < pos + pages)%nat then false else getbit bm i.
Proof.
  unfold getbit. pose proof (mod_bpl i). destruct (decide ((i / BPL) = index)%nat) as [E|E].
  - rewrite E, list_lookup_total_insert_eq by done. rewrite Z.land_spec, wnot_spec by (unfold BPL in *; lia). unfold m.
    rewrite region_word_bit, in_region_iff by (done || apply mod_bpl).
    case_bool_decide; [apply andb_false_r|apply andb_true_r].
  - rewrite list_lookup_total_insert_ne by done. rewrite bool_decide_eq_false_2; [done|].
    unfold index, BPL in *. dlia.
Qed.

Lemma region_clear_set :
  region_is bm pos pages false ->
  <[index := Z.land (Z.lor (bm !!! index) m) (wnot 64 m)]> (<[index := Z.lor (bm !!! index) m]> bm) = bm.
Proof.
  intros H. rewrite list_insert_insert_eq. apply list_insert_id.
  replace (Z.land _ _) with (bm !!! index). { by apply list_lookup_lookup_total_lt. }
  apply region_test in H.
  apply (word_eq 64); [lia|by apply lookup_word| |].
  { apply in_word_land; [lia| |apply in_word_wnot; lia].
    apply in_word_lor; [lia|by apply lookup_word|apply in_word_wshl; lia]. }
  intros j Hj. rewrite Z.land_spec, Z.lor_spec, wnot_spec by lia.
  assert (E : Z.testbit (Z.land (bm !!! index) m) j = false) by (rewrite H; apply Z.bits_0).
  rewrite Z.land_spec in E. by destruct (Z.testbit (bm !!! index) j), (Z.testbit m j).
Qed.
End region.

Lemma region_candidate order bits n (bm : list Z) :
  0 <= order <= 6 -> (bits <= BPL * length bm)%nat ->
  (n < (bits + Z.to_nat (2 ^ order) - 1) / Z.to_nat (2 ^ order))%nat ->
  (n * Z.to_nat (2 ^ order) < bits)%nat /\ (n * Z.to_nat (2 ^ order) / BPL < length bm)%nat.
Proof.
  intros Ho Hb Hn. destruct (pages_divides order Ho) as (q & Hq & Hp).
  set (p := Z.to_nat (2 ^ order)) in *.
  assert (n * p < bits)%nat.
  { assert (H : ((bits + p - 1) / p * p <= bits + p - 1)%nat)
      by (rewrite Nat.mul_comm; apply Nat.Div0.mul_div_le). nia. }
  split; [done|]. apply Nat.Div0.div_lt_upper_bound. lia.
Qed.

(** on success the allocator returns the first free, aligned region of
    [1 << order] bits, now marked busy with every other bit unchanged; on
    failure no aligned region is free and the bitmap is untouched; releasing
    the region restores the original bitmap. *)
Theorem find_free_region_correct bm bits order :
  bitmap_ok bm bits -> 0 <= order <= 6 ->
  let pages := Z.to_nat (2 ^ order) in
  (exists n bm', bitmap_find_free_region bm bits order = Ret (Z.of_nat (n * pages), bm') /\
     (n * pages < bits)%nat /\ region_is bm (n * pages) pages false /\
     (forall i, getbit bm' i = if bool_decide (n * pages <= i < n * pages + pages)%nat then true
                          else getbit bm i) /\
     (forall n', (n' < n)%nat -> ~ region_is bm (n' * pages) pages false) /\
     bitmap_release_region bm' (n * pages) order = Ret bm) \/
  (bitmap_find_free_region bm bits order = Ret (- ENOMEM, bm) /\
     forall n, (n * pages < bits)%nat -> ~ region_is bm (n * pages) pages false).
Proof.
  intros [Hw Hb] Ho pages. unfold bitmap_find_free_region.
  assert (2 ^ order <= 2 ^ 6) by (apply Z.pow_le_mono_r; lia).
  rewrite Z.shiftl_1_l in *. destruct (Z.ltb_spec (4 * Z.of_nat BPL) (2 ^ order)); [unfold BPL in *; lia|].
  rewrite <- Z.shiftl_1_l, region_mask_ones, Z.shiftl_1_l by done. cbn [mbind outcome_bind]. fold pages.
  assert (Hcand : forall n, (n < (bits + pages - 1) / pages)%nat ->
     (n * pages < bits)%nat /\ (n * pages / BPL < length bm)%nat)
    by (intros; by apply region_candidate).
  destruct (for_ret _ _) as [[r bm']|] eqn:E.
  - left. apply for_ret_Some in E as (n & Hn & Hf & Hmin). cbv beta zeta in Hf.
    destruct (Hcand n Hn) as [Hlt Hidx].
    pose proof (region_in_word order Ho n) as Hin. cbv zeta in Hin.
    rewrite region_offset in Hf. fold pages in Hin.
    destruct (Z.eqb_spec (Z.land (bm !!! (n * pages / BPL)%nat)
       (wshl 64 (Z.ones (2 ^ order)) (Z.of_nat (n * pages mod BPL)))) 0) as [Hz|]; [|done].
    injection Hf as <- <-. exists n. eexists. split; [reflexivity|].
    assert (Hfree := proj1 (region_test order Ho bm Hw (n * pages) Hin Hidx) Hz).
    split_and!; [done|done| | |].
    + intros i. by apply region_set.
    + intros n' Hn' Hf'. specialize (Hmin n' Hn'). cbv beta zeta in Hmin.
      rewrite region_offset in Hmin.
      assert (n' < (bits + pages - 1) / pages)%nat as Hn2 by lia.
      apply (region_test order Ho bm Hw (n' * pages) (region_in_word order Ho n') (proj2 (Hcand _ Hn2))) in Hf'.
      by rewrite Hf' in Hmin.
    + unfold bitmap_release_region. rewrite region_mask_ones by done. cbn [mbind outcome_bind].
      rewrite region_offset, list_lookup_total_insert_eq by done. f_equal. by apply region_clear_set.
  - right. split; [done|]. intros n Hn Hf.
    assert (Hk : (n < (bits + pages - 1) / pages)%nat).
    { destruct (pages_divides order Ho) as (q & _ & Hp). fold pages in Hp.
      apply Nat.div_le_lower_bound; [lia|]. lia. }
    apply for_ret_None with (k := n) in E; [|done].
    cbv beta zeta in E. rewrite region_offset in E.
    apply (region_test order Ho bm Hw (n * pages) (region_in_word order Ho n) (proj2 (Hcand _ Hk))) in Hf.
    by rewrite Hf in E.
Qed.

Lemma find_free_region_ok bm bits order r bm' :
  bitmap_ok bm bits -> bitmap_find_free_region bm bits order = Ret (r, bm') -> bitmap_ok bm' bits.
Proof.
  intros [Hw Hb]. unfold bitmap_find_free_region. destruct (_ <? _); [by intros [= _ <-]|]. destruct (region_mask _) as [mask|]; [|done].
  cbn [mbind outcome_bind]. destruct (for_ret _ _) as [[q b]|] eqn:E; [|by intros [= _ <-]]. intros [= _ <-].
  apply for_ret_Some in E as (n & _ & E & _). cbv beta zeta in E. destruct (_ =? 0); [|done]. injection E as _ <-.
  split; [|by rewrite length_insert]. apply Forall_insert; [done|]. apply in_word_lor; [lia|by apply lookup_word|apply in_word_wshl; lia].
Qed.

(** releasing an aligned region clears its bits and no other. *)
Lemma release_region_spec bm bits order n :
  bitmap_ok bm bits -> 0 <= order <= 6 -> let pages := Z.to_nat (2 ^ order) in (n * pages < bits)%nat ->
  exists bm', bitmap_release_region bm (n * pages) order = Ret bm' /\ bitmap_ok bm' bits /\
    forall i, getbit bm' i = if bool_decide (n * pages <= i < n * pages + pages)%nat then false else getbit bm i.
Proof.
  intros [Hw Hb] Ho pages Hn. unfold bitmap_release_region. rewrite region_mask_ones by done. cbn [mbind outcome_bind].
  rewrite region_offset. eexists. split; [reflexivity|]. assert (Hidx : (n * pages / BPL < length bm)%nat) by (unfold BPL in *; dlia).
  split_and!.
  - split; [|by rewrite length_insert]. apply Forall_insert; [done|]. apply in_word_land; [lia|by apply lookup_word|apply in_word_wnot; lia].
  - intros i. apply region_clear; try done. by apply region_in_word.
Qed.

(** the size guard admits regions of 128 and 256 bits, whose mask is
    computed by an over-wide shift. *)
Theorem find_free_region_wide_undef bm bits order :
  order = 7 \/ order = 8 ->
  bitmap_find_free_region bm bits order = Fault Undef.
Proof. intros [-> | ->]; reflexivity. Qed.

(** allocating a given aligned region succeeds exactly when it is free. *)
Theorem allocate_region_correct bm n order :
  Forall (in_word 64) bm -> 0 <= order <= 6 ->
  let pages := Z.to_nat (2 ^ order) in
  let pos := (n * pages)%nat in
  (pos / BPL < length bm)%nat ->
  (region_is bm pos pages false /\ exists bm',
     bitmap_allocate_region bm pos order = Ret (0, bm') /\
     (forall i, getbit bm' i = if bool_decide (pos <= i < pos + pages)%nat then true else getbit bm i) /\
     bitmap_release_region bm' pos order = Ret bm) \/
  (~ region_is bm pos pages false /\ bitmap_allocate_region bm pos order = Ret (- EBUSY, bm)).
Proof.
  intros Hw Ho pages pos Hidx. unfold bitmap_allocate_region.
  assert (2 ^ order <= 2 ^ 6) by (apply Z.pow_le_mono_r; lia).
  pose proof (region_in_word order Ho n) as Hin. cbv zeta in Hin. fold pages pos in Hin.
  rewrite region_mask_ones, Z.shiftl_1_l by done.
  destruct (Z.ltb_spec (Z.of_nat BPL) (2 ^ order)); [unfold BPL in *; lia|].
  cbn [bug_on mbind outcome_bind]. rewrite region_offset.
  pose proof (region_test order Ho bm Hw pos Hin Hidx) as Ht.
  destruct (Z.eqb_spec (Z.land (bm !!! (pos / BPL)%nat)
     (wshl 64 (Z.ones (2 ^ order)) (Z.of_nat (pos mod BPL)))) 0) as [Hz|Hz].
  - left. split; [by apply Ht|]. eexists. split_and!; [done|intros; by apply region_set|].
    unfold bitmap_release_region. rewrite region_mask_ones by done. cbn [mbind outcome_bind].
    rewrite region_offset, list_lookup_total_insert_eq by done. f_equal.
    apply region_clear_set; [done..|]. by apply Ht.
  - right. split; [|done]. intros H1. by apply Hz, Ht.
Qed.

(** ** Concrete bitmaps *)
Lemma bitmap_ok_3 : bitmap_ok [5; 0] 100.
Proof. split; [repeat constructor; lia|simpl; unfold BPL; lia]. Defined.

Lemma bitmap_bitwise_witness : getbit (__bitmap_and [0; 0] [5; 0] [6; 0] 100) 2 = true.
Proof. rewrite (proj1 (bitmap_bitwise [0; 0] [5; 0] [6; 0] 100 2 ltac:(unfold BPL; simpl; lia) ltac:(lia))). reflexivity. Defined.

Lemma bitmap_predicates_witness : ~ (forall i, (i < 100)%nat -> getbit [5; 0] i = false).
Proof.
  intros H. apply (proj1 (bitmap_predicates [5; 0] [5; 0] 100 (proj1 bitmap_ok_3) (proj1 bitmap_ok_3))) in H.
  vm_compute in H. discriminate.
Defined.

Lemma bitmap_shifts_witness : getbit (__bitmap_shift_left [0; 0] [5; 0] 70 100) 72 = true.
Proof.
  rewrite (proj2 (bitmap_shifts [0; 0] [5; 0] 70 100 72 (proj1 bitmap_ok_3) ltac:(unfold BPL; simpl; lia) ltac:(lia) ltac:(lia))).
  reflexivity.
Defined.

Lemma find_bit_correct_witness : first_from (getbit [5; 0]) 100 1 (_find_next_bit [5; 0] 100 1).
Proof. apply (find_bit_correct [5; 0] 100 1 bitmap_ok_3). Defined.

Lemma find_free_region_correct_witness : exists r, bitmap_find_free_region [5; 0] 100 1 = Ret r.
Proof.
  destruct (find_free_region_correct [5; 0] 100 1 bitmap_ok_3 ltac:(lia)) as [(n & bm' & H & _)|[H _]]; eauto.
Defined.

Lemma find_free_region_wide_undef_witness : bitmap_find_free_region [0; 0; 0; 0] 256 7 = Fault Undef.
Proof. apply (find_free_region_wide_undef [0; 0; 0; 0] 256 7). by left. Defined.

Lemma allocate_region_correct_witness : exists r, bitmap_allocate_region [5; 0] 4 2 = Ret r.
Proof.
  destruct (allocate_region_correct [5; 0] 1 2 (proj1 bitmap_ok_3) ltac:(lia) ltac:(vm_compute; lia)) as [(_ & bm' & H & _)|[_ H]];
    change (1 * Z.to_nat (2 ^ 2))%nat with 4%nat in H; eauto.
Defined.
