(* ===== verification/Heap.v ===== *)
(** The kernel heap: the quick-fit allocator of so3/mm/heap.c.

    The heap is a region tiled by blocks, each starting with a [mem_chunk_t]
    header.  Free blocks are linked in a two-dimensional "quick list": a list
    of size classes in increasing size order ([next_list], between class
    heads), each class a list of equally sized chunks ([next_chunk]), every
    chunk pointing at its class head ([head]).

    [heap] is the C state: the [quick_list] root pointer and the headers, as a
    map from addresses.  Loading a header that is not there (a null or wild
    pointer) is [Undef].  Writing a header at a new address destroys every
    header it overlaps.  [heap_lock] makes each operation atomic.  Sizes are
    [size_t] values; the arithmetic the code does on them stays inside the heap
    region, below 2^64 ([tiles] below).  Pointer loops run on fuel, one more
    than the number of headers, which is always enough. *)
From S2P Require Import Prelude.

Module Heap.

Record mem_chunk := Chunk {
  sig : Z;
  next_list : Z;
  next_chunk : Z;
  head : Z;
  size : Z;
  req_size : Z;
  padding_bytes : Z
}.

Definition NULL : Z := 0.
(** [sizeof(mem_chunk_t)] and [sizeof(int)] on ARM64. *)
Definition CHUNK_SZ : Z := 56.
Definition INT_SZ : Z := 4.
Definition CHUNK_SIG : Z := 3203391149. (* 0xbeefdead *)

Record heap := MkHeap { quick_list : Z; mem : gmap Z mem_chunk }.

(** *** Field assignments *)
Definition set_sig v c := Chunk v (next_list c) (next_chunk c) (head c) (size c) (req_size c) (padding_bytes c).
Definition set_next_list v c := Chunk (sig c) v (next_chunk c) (head c) (size c) (req_size c) (padding_bytes c).
Definition set_next_chunk v c := Chunk (sig c) (next_list c) v (head c) (size c) (req_size c) (padding_bytes c).
Definition set_head v c := Chunk (sig c) (next_list c) (next_chunk c) v (size c) (req_size c) (padding_bytes c).
Definition set_size v c := Chunk (sig c) (next_list c) (next_chunk c) (head c) v (req_size c) (padding_bytes c).
Definition set_req_size v c := Chunk (sig c) (next_list c) (next_chunk c) (head c) (size c) v (padding_bytes c).
Definition set_padding v c := Chunk (sig c) (next_list c) (next_chunk c) (head c) (size c) (req_size c) v.

Definition load (h : heap) (a : Z) : outcome mem_chunk := deref (mem h !! a).
Definition upd (h : heap) (a : Z) (f : mem_chunk -> mem_chunk) : outcome heap :=
  c ← load h a; Ret (MkHeap (quick_list h) (<[a := f c]> (mem h))).
Definition set_quick (h : heap) (a : Z) : heap := MkHeap a (mem h).

(** A header written at a new address overwrites the headers it overlaps. *)
Definition clear_of (a : Z) (p : Z * mem_chunk) : Prop := p.1 + CHUNK_SZ <= a \/ a + CHUNK_SZ <= p.1.
#[global] Instance clear_of_dec a p : Decision (clear_of a p).
Proof. unfold clear_of. apply _. Defined.
Definition store (h : heap) (a : Z) (c : mem_chunk) : heap :=
  MkHeap (quick_list h) (<[a := c]> (filter (clear_of a) (mem h))).

Definition fuel_of (h : heap) : nat := S (base.size (mem h)).
#[global] Arguments fuel_of : simpl never.

(** *** List maintenance *)

Definition heap_init (base heap_size : Z) : heap :=
  (* memset(quick_list, 0, HEAP_SIZE), then the fields of the first chunk *)
  MkHeap base {[ base := Chunk 0 NULL NULL base (heap_size - CHUNK_SZ) 0 0 ]}.

Definition reset_chunk (h : heap) (chunk : Z) : outcome heap :=
  upd h chunk (fun c => set_head NULL (set_next_chunk NULL (set_next_list NULL c))).

(** [while (head->next_list != chunk) head = head->next_list;] *)
Fixpoint find_prev_list (fuel : nat) (h : heap) (p chunk : Z) : outcome Z :=
  match fuel with
  | O => Fault Hang
  | S fuel' =>
      c ← load h p;
      if next_list c =? chunk then Ret p else find_prev_list fuel' h (next_list c) chunk
  end.

(** [while (head->next_chunk != chunk) head = head->next_chunk;] *)
Fixpoint find_prev_chunk (fuel : nat) (h : heap) (p chunk : Z) : outcome Z :=
  match fuel with
  | O => Fault Hang
  | S fuel' =>
      c ← load h p;
      if next_chunk c =? chunk then Ret p else find_prev_chunk fuel' h (next_chunk c) chunk
  end.

(** [while (tmp_chunk->next_chunk != NULL) tmp_chunk = tmp_chunk->next_chunk;] *)
Fixpoint last_chunk (fuel : nat) (h : heap) (p : Z) : outcome Z :=
  match fuel with
  | O => Fault Hang
  | S fuel' =>
      c ← load h p;
      if next_chunk c =? NULL then Ret p else last_chunk fuel' h (next_chunk c)
  end.

(** [do { chunk->head = head; chunk = chunk->next_chunk; } while (chunk != NULL);] *)
Fixpoint set_heads (fuel : nat) (h : heap) (hd chunk : Z) : outcome heap :=
  match fuel with
  | O => Fault Hang
  | S fuel' =>
      h ← upd h chunk (set_head hd);
      c ← load h chunk;
      if next_chunk c =? NULL then Ret h else set_heads fuel' h hd (next_chunk c)
  end.

Definition remove_chunk (h : heap) (chunk : Z) : outcome heap :=
  let fuel := fuel_of h in
  c ← load h chunk;
  _ ← assert_k (negb (head c =? NULL));
  h' ← (if head c =? chunk then
          h1 ← (if chunk =? quick_list h then
                  Ret (set_quick h (if next_chunk c =? NULL then next_list c else next_chunk c))
                else
                  p ← find_prev_list fuel h (quick_list h) chunk;
                  upd h p (set_next_list (if next_chunk c =? NULL then next_list c else next_chunk c)));
          if negb (next_chunk c =? NULL) then
            h2 ← upd h1 (next_chunk c) (set_next_list (next_list c));
            set_heads fuel h2 (next_chunk c) (next_chunk c)
          else Ret h1
        else
          p ← find_prev_chunk fuel h (head c) chunk;
          upd h p (set_next_chunk (next_chunk c)));
  reset_chunk h' chunk.

(** [while ((tmp_list != NULL) && (tmp_list->size < sz)) { last = tmp_list; ... }] *)
Fixpoint seek_list (fuel : nat) (h : heap) (tmp_list last sz : Z) : outcome (Z * Z) :=
  match fuel with
  | O => Fault Hang
  | S fuel' =>
      if tmp_list =? NULL then Ret (NULL, last)
      else
        c ← load h tmp_list;
        if size c <? sz then seek_list fuel' h (next_list c) tmp_list sz
        else Ret (tmp_list, last)
  end.

Definition append_chunk (h : heap) (chunk : Z) : outcome heap :=
  let fuel := fuel_of h in
  h ← reset_chunk h chunk;
  c ← load h chunk;
  if quick_list h =? NULL then
    upd (set_quick h chunk) chunk (set_head chunk)
  else
    r ← seek_list fuel h (quick_list h) NULL (size c);
    let '(tmp_list, last) := r in
    if negb (tmp_list =? NULL) then
      t ← load h tmp_list;
      if size t =? size c then
        e ← last_chunk fuel h tmp_list;
        h ← upd h e (set_next_chunk chunk);
        upd h chunk (set_head tmp_list)
      else if tmp_list =? quick_list h then
        h ← upd h chunk (set_next_list (quick_list h));
        h ← upd h chunk (set_head chunk);
        Ret (set_quick h chunk)
      else
        p ← find_prev_list fuel h (quick_list h) tmp_list;
        h ← upd h p (set_next_list chunk);
        h ← upd h chunk (set_next_list tmp_list);
        upd h chunk (set_head chunk)
    else
      h ← upd h last (set_next_list chunk);
      upd h chunk (set_head chunk).

(** *** Coalescing *)

(** One scan of the quick list for a chunk adjacent to [new_chunk]. *)
Definition adjacent (new_chunk new_size tmp_chunk tmp_size : Z) : bool :=
  (new_chunk + new_size + CHUNK_SZ =? tmp_chunk) || (tmp_chunk + tmp_size + CHUNK_SZ =? new_chunk).

Fixpoint scan_chunks (fuel : nat) (h : heap) (tmp_chunk new_chunk new_size : Z) : outcome (option Z) :=
  match fuel with
  | O => Fault Hang
  | S fuel' =>
      if tmp_chunk =? NULL then Ret None
      else
        t ← load h tmp_chunk;
        if adjacent new_chunk new_size tmp_chunk (size t) then Ret (Some tmp_chunk)
        else scan_chunks fuel' h (next_chunk t) new_chunk new_size
  end.

Fixpoint scan_lists (fuel : nat) (h : heap) (tmp_list new_chunk new_size : Z) : outcome (option Z) :=
  match fuel with
  | O => Fault Hang
  | S fuel' =>
      if tmp_list =? NULL then Ret None
      else
        r ← scan_chunks (fuel_of h) h tmp_list new_chunk new_size;
        match r with
        | Some t => Ret (Some t)
        | None =>
            t ← load h tmp_list;
            scan_lists fuel' h (next_list t) new_chunk new_size
        end
  end.

(** [goto recheck] after each merge; every round merges two free chunks. *)
Fixpoint merge_rounds (fuel : nat) (h : heap) (new_chunk : Z) : outcome heap :=
  match fuel with
  | O => Fault Hang
  | S fuel' =>
      n ← load h new_chunk;
      r ← scan_lists (fuel_of h) h (quick_list h) new_chunk (size n);
      match r with
      | None => Ret h
      | Some tmp_chunk =>
          t ← load h tmp_chunk;
          let sz := size n + (size t + CHUNK_SZ) in
          let merged := if new_chunk <? tmp_chunk then new_chunk else tmp_chunk in
          h ← upd h merged (set_size sz);
          h ← remove_chunk h tmp_chunk;
          h ← remove_chunk h new_chunk;
          h ← append_chunk h merged;
          merge_rounds fuel' h merged
      end
  end.
Definition merge_chunks (h : heap) (new_chunk : Z) : outcome heap :=
  merge_rounds (fuel_of h) h new_chunk.

(** *** Allocation *)

(** [((addr + alignment - 1) & -((signed) alignment))] *)
Definition align_addr (addr alignment : Z) : Z := Z.land (addr + alignment - 1) (- alignment).

(** [while (victim && (victim->size < requested)) victim = victim->next_list;] *)
Fixpoint seek_fit (fuel : nat) (h : heap) (victim requested : Z) : outcome Z :=
  match fuel with
  | O => Fault Hang
  | S fuel' =>
      if victim =? NULL then Ret NULL
      else
        c ← load h victim;
        if size c <? requested then seek_fit fuel' h (next_list c) requested else Ret victim
  end.

(** The search for a victim, from label [next_list] to its removal: the
    victim and the aligned address, or no victim. *)
Fixpoint find_victim (fuel : nat) (h : heap) (victim requested alignment : Z) : outcome (heap * option (Z * Z)) :=
  match fuel with
  | O => Fault Hang
  | S fuel' =>
      victim ← seek_fit (fuel_of h) h victim requested;
      if victim =? NULL then Ret (h, None)
      else
        victim ← last_chunk (fuel_of h) h victim;
        let addr := victim + CHUNK_SZ in
        h ← upd h victim (set_req_size requested);
        let tmp_addr := align_addr addr alignment in
        _ ← assert_k (addr <=? tmp_addr);
        v ← load h victim;
        if size v <? (tmp_addr - addr) + requested then
          hd ← load h (head v);
          find_victim fuel' h (next_list hd) requested alignment
        else
          h ← upd h victim (set_padding (tmp_addr - addr));
          Ret (h, Some (victim, tmp_addr))
  end.

(** [raw a] is whatever the bytes at [a] held when a header is laid over them. *)
Definition __malloc (raw : Z -> mem_chunk) (h : heap) (requested alignment : Z) : outcome (heap * Z) :=
  let alignment := if alignment =? 0 then INT_SZ else alignment in
  r ← find_victim (fuel_of h) h (quick_list h) requested alignment;
  match r with
  | (h, None) => Ret (h, NULL)
  | (h, Some (victim, addr)) =>
      h ← remove_chunk h victim;
      h ← upd h victim (set_sig CHUNK_SIG);
      v ← load h victim;
      h ← (if requested + padding_bytes v + CHUNK_SZ <? size v then
             let remaining := victim + CHUNK_SZ + requested + padding_bytes v in
             let rsize := size v - requested - CHUNK_SZ - padding_bytes v in
             let h := store h remaining (set_padding 0 (set_size rsize (raw remaining))) in
             h ← upd h victim (set_size (requested + padding_bytes v));
             append_chunk h remaining
           else Ret h);
      v ← load h victim;
      let h := if padding_bytes v =? 0 then h else store h (victim + padding_bytes v) v in
      Ret (h, addr)
  end.

Definition malloc raw h size := __malloc raw h size 0.
Definition memalign raw h size alignment := __malloc raw h size alignment.

Definition free (h : heap) (ptr : Z) : outcome heap :=
  if ptr =? NULL then Ret h
  else
    let chunk := ptr - CHUNK_SZ in
    c ← load h chunk;
    if negb (sig c =? CHUNK_SIG) then Fault Panic
    else
      h ← upd h chunk (set_sig 0);
      c ← load h chunk;
      let '(h, chunk) :=
        if padding_bytes c =? 0 then (h, chunk)
        else (store h (chunk - padding_bytes c) (set_padding 0 c), chunk - padding_bytes c) in
      h ← append_chunk h chunk;
      merge_chunks h chunk.

(** [heap_size]: the bytes available in free chunks. *)
Fixpoint sum_chunks (fuel : nat) (h : heap) (chunk acc : Z) : outcome Z :=
  match fuel with
  | O => Fault Hang
  | S fuel' =>
      if chunk =? NULL then Ret acc
      else c ← load h chunk; sum_chunks fuel' h (next_chunk c) (u32 (acc + size c))
  end.
Fixpoint sum_lists (fuel : nat) (h : heap) (list acc : Z) : outcome Z :=
  match fuel with
  | O => Fault Hang
  | S fuel' =>
      if list =? NULL then Ret acc
      else
        acc ← sum_chunks (fuel_of h) h list acc;
        c ← load h list;
        sum_lists fuel' h (next_list c) acc
  end.
Definition heap_size (h : heap) : outcome Z := sum_lists (fuel_of h) h (quick_list h) 0.

(** *** Cleared and resized allocations

    The bytes of the payloads are a function of their addresses; headers are in
    [mem].  Headers never lie inside a live payload ([heap_safety]), so
    the allocator itself leaves live payloads alone. *)
Definition payload := Z -> Z.
Definition memset (b : payload) (ptr c n : Z) : payload :=
  fun a => if (ptr <=? a) && (a <? ptr + n) then c else b a.
Definition memcpy (b : payload) (dst src n : Z) : payload :=
  fun a => if (dst <=? a) && (a <? dst + n) then b (src + (a - dst)) else b a.

(** [nmemb*size] is a [size_t] product. *)
Definition calloc (raw : Z -> mem_chunk) (st : heap * payload) (nmemb size : Z) : outcome (heap * payload * Z) :=
  r ← malloc raw st.1 (u64 (nmemb * size));
  let '(h, ptr) := r in
  if ptr =? NULL then Ret (h, st.2, ptr)
  else Ret (h, memset st.2 ptr 0 (u64 (nmemb * size)), ptr).

Definition realloc (raw : Z -> mem_chunk) (st : heap * payload) (ptr size : Z) : outcome (heap * payload * Z) :=
  c ← load st.1 (ptr - CHUNK_SZ);
  let size := if size <? req_size c then req_size c else size in
  r ← malloc raw st.1 size;
  let '(h, alloc) := r in
  if alloc =? NULL then Ret (h, st.2, NULL)
  else
    c ← load h (ptr - CHUNK_SZ);
    let b := memcpy st.2 alloc ptr (if size <? req_size c then size else req_size c) in
    h ← free h ptr;
    Ret (h, b, alloc).

End Heap.
