(* ===== verification/HeapLists.v ===== *)
(** Refinement of the heap's pointer structure: the quick list represents a
    list of size classes, and [remove_chunk] and [append_chunk] implement
    removal and sorted insertion on it.  Everything the allocator theorems need
    to know about pointers is in [rep], [remove_chunk_ok] and [append_chunk_ok]. *)
From S2P Require Import Prelude Heap.
Import Heap.

Module HeapLists.

(** *** Linked segments *)

Definition front (l : list Z) (t : Z) : Z := match l with [] => t | a :: _ => a end.
Definition lfront (ll : list (list Z)) (t : Z) : Z := match ll with [] => t | cl :: _ => front cl t end.

(** [cseg m hd nl l t]: the chunks [l] of one class, in order, ending in
    pointer [t]; the first has next-list pointer [nl], the others none. *)
Fixpoint cseg (m : gmap Z mem_chunk) (hd nl : Z) (l : list Z) (t : Z) : Prop :=
  match l with
  | [] => True
  | a :: r =>
      (exists c, m !! a = Some c /\ next_list c = nl /\ next_chunk c = front r t /\ head c = hd)
      /\ cseg m hd NULL r t
  end.

(** [lseg m ll t]: consecutive non-empty classes, ending in next-list pointer [t]. *)
Fixpoint lseg (m : gmap Z mem_chunk) (ll : list (list Z)) (t : Z) : Prop :=
  match ll with
  | [] => True
  | cl :: r => cl <> [] /\ cseg m (front cl NULL) (lfront r t) cl NULL /\ lseg m r t
  end.

Definition rep (h : heap) (ll : list (list Z)) : Prop :=
  quick_list h = lfront ll NULL /\ lseg (mem h) ll NULL /\
  NoDup (concat ll) /\ Forall (fun a => a <> NULL) (concat ll).

(** The fields that list operations never touch. *)
Definition data (c : mem_chunk) := (sig c, size c, req_size c, padding_bytes c).
Definition same_data (m m' : gmap Z mem_chunk) : Prop := forall a, data <$> m !! a = data <$> m' !! a.

#[global] Instance same_data_equiv : Equivalence same_data.
Proof. split; unfold same_data; [done | by intros ?? H a | intros ??? H1 H2 a; by rewrite H1]. Qed.

Lemma same_data_insert m a c c' :
  m !! a = Some c -> data c' = data c -> same_data m (<[a := c']> m).
Proof.
  intros Ha Hf b. destruct (decide (a = b)) as [->|].
  - rewrite Ha, lookup_insert_eq. simpl. by rewrite Hf.
  - by rewrite lookup_insert_ne.
Qed.

Lemma same_data_lookup m m' a c :
  same_data m m' -> m !! a = Some c -> exists c', m' !! a = Some c' /\ data c' = data c.
Proof.
  intros H Ha. specialize (H a). rewrite Ha in H. simpl in H.
  destruct (m' !! a) as [c'|]; [|done]. exists c'. split; [done|]. by apply (inj Some) in H.
Qed.

(** *** Segment algebra *)
Lemma front_app l1 l2 t : front (l1 ++ l2) t = front l1 (front l2 t).
Proof. by destruct l1. Qed.

Lemma cseg_app m hd nl l1 l2 t :
  cseg m hd nl (l1 ++ l2) t <->
  cseg m hd nl l1 (front l2 t) /\ cseg m hd (match l1 with [] => nl | _ => NULL end) l2 t.
Proof.
  revert nl. induction l1 as [|a l1 IH]; intros nl; simpl; [tauto|].
  rewrite IH, front_app. destruct l1; tauto.
Qed.

Lemma cseg_frame m m' hd nl l t :
  (forall a, a ∈ l -> m !! a = m' !! a) -> cseg m hd nl l t -> cseg m' hd nl l t.
Proof.
  revert nl. induction l as [|a l IH]; intros nl Hm; simpl; [done|].
  intros [(c & Hc & ?) Hr]. split.
  - exists c. rewrite <- Hm by set_solver. done.
  - apply IH; [|done]. intros b Hb. apply Hm. set_solver.
Qed.

Lemma cseg_lookup m hd nl l t a :
  cseg m hd nl l t -> a ∈ l -> exists c, m !! a = Some c /\ head c = hd.
Proof.
  revert nl. induction l as [|b l IH]; intros nl; simpl; [set_solver|].
  intros [(c & Hc & _ & _ & Hh) Hr] [->|Hin]%elem_of_cons; [eauto|]. by eapply IH.
Qed.

Lemma lfront_app l1 l2 t :
  Forall (fun cl => cl <> []) l1 -> lfront (l1 ++ l2) t = lfront l1 (lfront l2 t).
Proof. destruct l1 as [|[|a r] l1]; [done| |done]. intros H. by inversion H. Qed.

Lemma lfront_any ll t t' :
  Forall (fun cl => cl <> []) ll -> ll <> [] -> lfront ll t = lfront ll t'.
Proof. destruct ll as [|[|a r] ll]; [done| |done]. intros H. by inversion H. Qed.

Lemma lseg_nonempty m ll t : lseg m ll t -> Forall (fun cl => cl <> []) ll.
Proof. induction ll; simpl; [constructor|]. intros (? & _ & ?). constructor; auto. Qed.

Lemma lseg_app m l1 l2 t :
  lseg m (l1 ++ l2) t <-> lseg m l1 (lfront l2 t) /\ lseg m l2 t.
Proof.
  induction l1 as [|cl l1 IH]; simpl; [tauto|]. split.
  - intros (Hne & Hc & Hr). pose proof (lseg_nonempty _ _ _ Hr) as Hall.
    apply IH in Hr as [Hr1 Hr2]. rewrite lfront_app in Hc by (by eapply Forall_app in Hall as [? _]). tauto.
  - intros ((Hne & Hc & Hr1) & Hr2). split_and!; [done| |by apply IH].
    rewrite lfront_app by (by eapply lseg_nonempty). done.
Qed.

Lemma lseg_frame m m' ll t :
  (forall a, a ∈ concat ll -> m !! a = m' !! a) -> lseg m ll t -> lseg m' ll t.
Proof.
  induction ll as [|cl ll IH]; simpl; [done|]. intros Hm (Hne & Hc & Hr).
  setoid_rewrite elem_of_app in Hm.
  split_and!; [done| eapply cseg_frame; [|done]; auto | apply IH; auto].
Qed.

(** Redirecting the last class of a segment to a new successor. *)
Lemma lseg_redirect m A cl t t' c :
  lseg m (A ++ [cl]) t -> NoDup (concat (A ++ [cl])) ->
  m !! front cl NULL = Some c ->
  lseg (<[front cl NULL := set_next_list t' c]> m) (A ++ [cl]) t'.
Proof.
  intros Hs Hnd Hc. apply lseg_app in Hs as [HA (Hne & Hcl & _)].
  rewrite concat_app in Hnd. simpl in Hnd. rewrite app_nil_r in Hnd.
  apply NoDup_app in Hnd as (_ & Hdis & Hnd).
  destruct cl as [|a cl]; [done|]. simpl in *.
  apply lseg_app. split.
  - eapply lseg_frame; [|done]. intros b Hb. rewrite lookup_insert_ne; [done|].
    intros ->. eapply Hdis; [done|]. set_solver.
  - destruct Hcl as [(c0 & Hc0 & Hl & Hn & Hh) Hr]. assert (c0 = c) as -> by congruence. simpl.
    split_and!; [done|exists (set_next_list t' c); by rewrite lookup_insert_eq| |done].
    eapply cseg_frame; [|done]. intros b Hb. rewrite lookup_insert_ne; [done|].
    intros ->. apply NoDup_cons in Hnd as [? _]. done.
Qed.

(** *** Pointer loops *)
Lemma upd_ok h a f c :
  mem h !! a = Some c -> upd h a f = Ret (MkHeap (quick_list h) (<[a := f c]> (mem h))).
Proof. intros H. unfold upd, load. by rewrite H. Qed.

Lemma load_ok h a c : mem h !! a = Some c -> load h a = Ret c.
Proof. intros H. unfold load. by rewrite H. Qed.

Lemma find_prev_chunk_ok fuel h hd nl l1 p a l2 :
  cseg (mem h) hd nl (l1 ++ p :: a :: l2) NULL -> NoDup (l1 ++ p :: a :: l2) ->
  (length l1 < fuel)%nat ->
  find_prev_chunk fuel h (front (l1 ++ [p]) NULL) a = Ret p.
Proof.
  revert nl fuel. induction l1 as [|x l1 IH]; intros nl fuel Hs Hnd Hf; (destruct fuel; [simpl in Hf; lia|]); simpl in *.
  - destruct Hs as [(c & Hc & _ & Hn & _) _]. unfold load. rewrite Hc. simpl. by rewrite Hn, Z.eqb_refl.
  - destruct Hs as [(c & Hc & _ & Hn & _) Hr]. unfold load. rewrite Hc. simpl.
    apply NoDup_cons in Hnd as [Hx Hnd].
    assert (Hne : front (l1 ++ p :: a :: l2) NULL <> a).
    { rewrite (front_app l1). intros E. apply NoDup_app in Hnd as (_ & Hd & Hnd2).
      destruct l1 as [|y l1]; simpl in E.
      - subst p. apply NoDup_cons in Hnd2 as [Hp _]. set_solver.
      - subst y. apply (Hd a); set_solver. }
    rewrite Hn. destruct (Z.eqb_spec (front (l1 ++ p :: a :: l2) NULL) a); [done|].
    replace (front (l1 ++ p :: a :: l2) NULL) with (front (l1 ++ [p]) NULL) by (by destruct l1).
    apply (IH NULL); [done|done|lia].
Qed.

Lemma find_prev_list_ok fuel h A cl cl' B t :
  lseg (mem h) (A ++ cl :: cl' :: B) t -> NoDup (concat (A ++ cl :: cl' :: B)) ->
  (length A < fuel)%nat ->
  find_prev_list fuel h (lfront (A ++ [cl]) NULL) (front cl' NULL) = Ret (front cl NULL).
Proof.
  revert fuel. induction A as [|x A IH]; intros fuel Hs Hnd Hf; (destruct fuel; [simpl in Hf; lia|]); simpl in *.
  - destruct Hs as (Hne & Hc & Hne' & _). destruct cl as [|a cl]; [done|]. destruct cl' as [|b cl']; [done|].
    simpl in *. destruct Hc as [(c & Hc & Hl & _) _]. unfold load. rewrite Hc. simpl.
    by rewrite Hl, Z.eqb_refl.
  - destruct Hs as (Hne & Hc & Hr). pose proof (lseg_nonempty _ _ _ Hr) as Hall.
    destruct x as [|a x]; [done|]. simpl in *.
    destruct Hc as [(c & Hc & Hl & _) _]. unfold load. rewrite Hc. simpl. rewrite Hl.
    apply NoDup_cons in Hnd as [_ Hnd]. apply NoDup_app in Hnd as (_ & _ & Hnd).
    apply Forall_app in Hall as [HA Hall]. inversion Hall as [|?? Hcl Hall']; subst.
    inversion Hall' as [|?? Hcl' _]; subst.
    rewrite lfront_app by done. simpl.
    assert (E : lfront A (front cl t) <> front cl' NULL).
    { destruct cl as [|c0 cl]; [done|]. destruct cl' as [|b cl']; [done|]. simpl. intros E.
      rewrite concat_app in Hnd. simpl in Hnd. apply NoDup_app in Hnd as (_ & Hd & Hnd).
      destruct A as [|[|y ?] A]; simpl in E; [| |].
      - subst. apply NoDup_cons in Hnd as [Hnd _]. set_solver.
      - inversion HA; done.
      - subst. apply (Hd b); [|set_solver]. simpl. set_solver. }
    destruct (Z.eqb_spec (lfront A (front cl t)) (front cl' NULL)); [done|].
    specialize (IH fuel Hr Hnd ltac:(lia)).
    rewrite lfront_app in IH by done. simpl in IH.
    destruct cl; [done|]. by destruct A.
Qed.

Lemma last_chunk_ok fuel h hd nl l e :
  cseg (mem h) hd nl (l ++ [e]) NULL -> Forall (fun a => a <> NULL) (l ++ [e]) ->
  (length l < fuel)%nat -> last_chunk fuel h (front (l ++ [e]) NULL) = Ret e.
Proof.
  revert nl fuel. induction l as [|x l IH]; intros nl fuel Hs Hz Hf; (destruct fuel; [simpl in Hf; lia|]); simpl in *.
  - destruct Hs as [(c & Hc & _ & Hn & _) _]. unfold load. rewrite Hc. simpl. by rewrite Hn.
  - destruct Hs as [(c & Hc & _ & Hn & _) Hr]. unfold load. rewrite Hc. simpl. rewrite Hn.
    inversion Hz as [|?? Hx Hz']; subst.
    destruct (Z.eqb_spec (front (l ++ [e]) NULL) NULL) as [E|_]; [|by apply (IH NULL); (done || lia)].
    exfalso. destruct l; simpl in E; inversion Hz'; done.
Qed.

Lemma set_heads_ok fuel h hd0 hd nl l :
  cseg (mem h) hd0 nl l NULL -> l <> [] -> NoDup l -> Forall (fun a => a <> NULL) l ->
  (length l <= fuel)%nat ->
  exists m', set_heads fuel h hd (front l NULL) = Ret (MkHeap (quick_list h) m') /\
    cseg m' hd nl l NULL /\ same_data (mem h) m' /\ (forall b, b ∉ l -> m' !! b = mem h !! b).
Proof.
  revert h nl fuel. induction l as [|a l IH]; intros h nl fuel Hs Hne Hnd Hz Hf; [done|].
  destruct fuel as [|fuel]; [simpl in Hf; lia|]. simpl in *.
  destruct Hs as [(c & Hc & Hl & Hn & _) Hr]. apply NoDup_cons in Hnd as [Ha Hnd].
  inversion Hz as [|?? Hz0 Hz']; subst.
  rewrite (upd_ok _ _ _ _ Hc). simpl. unfold load. simpl. rewrite lookup_insert_eq. simpl. rewrite Hn.
  set (m1 := <[a := set_head hd c]> (mem h)).
  assert (Hr1 : cseg m1 hd0 NULL l NULL).
  { eapply cseg_frame; [|done]. intros b Hb. unfold m1. rewrite lookup_insert_ne; [done|congruence]. }
  assert (Hd1 : same_data (mem h) m1) by (by eapply same_data_insert).
  destruct l as [|b l].
  - simpl. exists m1. split_and!; [done| |done|done|].
    + exists (set_head hd c). unfold m1. by rewrite lookup_insert_eq.
    + intros b Hb. unfold m1. rewrite lookup_insert_ne; [done|set_solver].
  - destruct (Z.eqb_spec (front (b :: l) NULL) NULL) as [E|_]; [inversion Hz'; done|].
    destruct (IH (MkHeap (quick_list h) m1) NULL fuel Hr1 ltac:(done) Hnd Hz' ltac:(simpl in *; lia))
      as (m2 & Heq & Hs2 & Hd2 & Hf2).
    exists m2. split_and!; [exact Heq| |done|by etransitivity|].
    + exists (set_head hd c). rewrite Hf2 by done. simpl. unfold m1. by rewrite lookup_insert_eq.
    + intros x Hx. rewrite Hf2 by set_solver. simpl. unfold m1. rewrite lookup_insert_ne; [done|set_solver].
Qed.

(** *** Fuel *)
Lemma lseg_lookup m ll t a : lseg m ll t -> a ∈ concat ll -> is_Some (m !! a).
Proof.
  induction ll as [|cl ll IH]; simpl; [set_solver|].
  intros (_ & Hc & Hr) [Hin|Hin]%elem_of_app; [|by apply IH].
  destruct (cseg_lookup _ _ _ _ _ _ Hc Hin) as (c & Hc' & _). by exists c.
Qed.

Lemma length_classes (ll : list (list Z)) :
  Forall (fun cl => cl <> []) ll -> (length ll <= length (concat ll))%nat.
Proof.
  induction 1 as [|cl ll Hne _ IH]; simpl; [done|]. rewrite length_app.
  destruct cl; [done|]. simpl. lia.
Qed.

Lemma rep_fuel h ll : rep h ll -> (length (concat ll) < fuel_of h)%nat.
Proof.
  intros (_ & Hs & Hnd & _). unfold fuel_of.
  rewrite <- (size_list_to_set (C := gset Z)) by done.
  rewrite <- (size_dom (D := gset Z) (mem h)).
  apply Nat.lt_succ_r, subseteq_size. intros a Ha. apply elem_of_list_to_set in Ha.
  apply elem_of_dom. by eapply lseg_lookup.
Qed.

(** *** Removal *)
Definition opt (l : list Z) : list (list Z) := match l with [] => [] | _ => [l] end.

Lemma lfront_opt l B t : lfront (opt l ++ B) t = front l (lfront B t).
Proof. by destruct l. Qed.

Lemma concat_opt l : concat (opt l) = l.
Proof. destruct l; simpl; [done|]. by rewrite app_nil_r. Qed.

Lemma opt_nonempty l : Forall (fun cl => cl <> []) (opt l).
Proof. destruct l; repeat constructor. done. Qed.

Lemma lseg_single m cl t : lseg m [cl] t <-> cl <> [] /\ cseg m (front cl NULL) t cl NULL.
Proof. simpl. tauto. Qed.

Lemma lseg_opt m l t :
  cseg m (front l NULL) t l NULL -> lseg m (opt l) t.
Proof. destruct l; simpl; [done|]. intros H. split; [done|]. by split. Qed.

(** What a list operation on [h] yields: a heap representing [ll'], with the
    data fields kept and everything outside the listed addresses untouched. *)
Definition list_op (h : heap) (dirty : list Z) (ll' : list (list Z)) (r : outcome heap) : Prop :=
  exists h', r = Ret h' /\ rep h' ll' /\ same_data (mem h) (mem h') /\
    (forall b, b ∉ dirty -> mem h' !! b = mem h !! b).

(** Re-pointing whatever refers to the class after [A] (a class head or the
    root of the list) to [t']. *)
Lemma relink_ok h A cl B t' :
  quick_list h = lfront (A ++ cl :: B) NULL -> lseg (mem h) (A ++ cl :: B) NULL ->
  NoDup (concat (A ++ cl :: B)) ->
  exists h', (if front cl NULL =? quick_list h then Ret (set_quick h t')
              else p ← find_prev_list (fuel_of h) h (quick_list h) (front cl NULL);
                   upd h p (set_next_list t')) = Ret h' /\
    quick_list h' = lfront A t' /\ lseg (mem h') A t' /\ same_data (mem h) (mem h') /\
    (forall b, b ∉ concat A -> mem h' !! b = mem h !! b).
Proof.
  intros Hq Hs Hnd.
  assert (Hall := lseg_nonempty _ _ _ Hs). apply Forall_app in Hall as [HA Hcl].
  inversion Hcl as [|?? Hne _]; subst.
  destruct A as [|cl0 A _] using rev_ind.
  { exists (set_quick h t'). rewrite Hq. destruct cl; [done|]. simpl. by rewrite Z.eqb_refl. }
  assert (Hlen : (length A < fuel_of h)%nat).
  { assert (length (A ++ [cl0]) <= length (concat (A ++ [cl0])))%nat by (by apply length_classes).
    rewrite length_app in *. simpl in *. unfold fuel_of.
    assert (length (concat (A ++ [cl0])) <= base.size (mem h))%nat; [|lia].
    rewrite concat_app in Hnd. apply NoDup_app in Hnd as (Hnd & _).
    rewrite <- (size_list_to_set (C := gset Z)), <- (size_dom (D := gset Z) (mem h)) by done.
    apply subseteq_size. intros a Ha%elem_of_list_to_set. apply elem_of_dom.
    apply lseg_app in Hs as [Hs _]. by eapply lseg_lookup. }
  assert (Hfront : front cl NULL <> quick_list h).
  { rewrite Hq, lfront_app by done. destruct cl as [|x cl]; [done|]. simpl.
    rewrite concat_app in Hnd. apply NoDup_app in Hnd as (_ & Hd & _). intros E. apply (Hd x); [|simpl; set_solver].
    destruct A as [|[|y ?] ?]; simpl in E |- *; [|by inversion HA|set_solver].
    destruct cl0; [by inversion HA|]. simpl in *. set_solver. }
  destruct (Z.eqb_spec (front cl NULL) (quick_list h)); [done|].
  rewrite <- app_assoc in Hs, Hnd. simpl in Hs, Hnd.
  rewrite Hq, lfront_app by done.
  replace (lfront (A ++ [cl0]) (lfront (cl :: B) NULL)) with (lfront (A ++ [cl0]) NULL).
  2: { apply Forall_app in HA as [HA H0]. inversion H0; subst.
       rewrite !lfront_app by done. destruct cl0; [done|]. done. }
  rewrite (find_prev_list_ok _ _ _ _ _ _ _ Hs Hnd Hlen). simpl.
  assert (Hs' : lseg (mem h) (A ++ [cl0]) (front cl NULL)).
  { change (A ++ cl0 :: cl :: B) with (A ++ [cl0] ++ cl :: B) in Hs. rewrite app_assoc in Hs.
    apply lseg_app in Hs as [Hs _]. destruct cl; done. }
  assert (Hnd' : NoDup (concat (A ++ [cl0]))).
  { change (A ++ cl0 :: cl :: B) with (A ++ [cl0] ++ cl :: B) in Hnd. rewrite app_assoc, concat_app in Hnd.
    by apply NoDup_app in Hnd as (? & _). }
  assert (Hin : front cl0 NULL ∈ concat (A ++ [cl0])).
  { rewrite concat_app. apply Forall_app in HA as [_ H0]. inversion H0; subst. destruct cl0; [done|]. simpl. set_solver. }
  destruct (lseg_lookup _ _ _ _ Hs' Hin) as [c Hc].
  rewrite (upd_ok _ _ _ _ Hc). eexists. split_and!; [done| | | |]; simpl.
  - rewrite Hq. apply Forall_app in HA as [HA H0]. inversion H0; subst.
    rewrite <- app_assoc, !lfront_app by done. destruct cl0; [done|]. done.
  - by eapply lseg_redirect.
  - by eapply same_data_insert.
  - intros b Hb. rewrite lookup_insert_ne; [done|]. by intros <-.
Qed.

(** Taking a representation apart around one class, and putting one together. *)
Record around (h : heap) (A : list (list Z)) (cl : list Z) (B : list (list Z)) : Prop := {
  ar_quick : quick_list h = lfront (A ++ cl :: B) NULL;
  ar_all : lseg (mem h) (A ++ cl :: B) NULL;
  ar_nodup : NoDup (concat (A ++ cl :: B));
  ar_neA : Forall (fun l => l <> []) A;
  ar_A : lseg (mem h) A (front cl NULL);
  ar_cl : cseg (mem h) (front cl NULL) (lfront B NULL) cl NULL;
  ar_B : lseg (mem h) B NULL;
  ar_disA : forall y, y ∈ concat A -> (y ∉ cl) /\ (y ∉ concat B);
  ar_dis : forall y, y ∈ cl -> (y ∉ concat A) /\ (y ∉ concat B);
  ar_disB : forall y, y ∈ concat B -> (y ∉ concat A) /\ (y ∉ cl);
  ar_nd : NoDup cl;
  ar_nz : Forall (fun a => a <> NULL) cl;
  ar_fuel : (length cl < fuel_of h)%nat
}.

Lemma rep_around h A cl B : rep h (A ++ cl :: B) -> around h A cl B.
Proof.
  intros Hrep. pose proof (rep_fuel _ _ Hrep) as Hfuel. destruct Hrep as (Hq & Hs & Hnd & Hz).
  assert (Hall := lseg_nonempty _ _ _ Hs). apply Forall_app in Hall as [HneA HneB].
  pose proof Hs as Hs0. apply lseg_app in Hs0 as [HsA (Hne & Hc & HsB)].
  pose proof Hnd as Hnd0. rewrite concat_app in Hnd0, Hz, Hfuel. simpl in Hnd0, Hz, Hfuel.
  apply NoDup_app in Hnd0 as (HndA & HdA & Hnd0). apply NoDup_app in Hnd0 as (Hndc & HdC & HndB).
  rewrite !Forall_app in Hz. rewrite !length_app in Hfuel.
  split; try done; try (by destruct cl); try tauto; try lia.
  - intros y Hy. specialize (HdA y Hy). rewrite elem_of_app in HdA. tauto.
  - intros y Hy. split; [|by apply HdC]. intros Hy'. apply (HdA y Hy'). apply elem_of_app. tauto.
  - intros y Hy. split; intros Hy'; [apply (HdA y Hy'), elem_of_app; tauto | by apply (HdC y)].
Qed.

Lemma rep_shrink h (A B : list (list Z)) cl cl' :
  rep h (A ++ cl :: B) -> sublist cl' cl ->
  NoDup (concat (A ++ opt cl' ++ B)) /\ Forall (fun a => a <> NULL) (concat (A ++ opt cl' ++ B)).
Proof.
  intros (_ & _ & Hnd & Hz) Hsub. rewrite !concat_app, concat_opt in *. simpl in *.
  assert (Hs : sublist (concat A ++ cl' ++ concat B) (concat A ++ cl ++ concat B))
    by (by repeat apply sublist_app).
  split; [by eapply sublist_NoDup|]. rewrite Forall_forall in *. intros y Hy. apply Hz.
  eapply elem_of_submseteq; [exact Hy|]. by apply sublist_submseteq.
Qed.

Lemma rep_join h A X B :
  quick_list h = lfront A (lfront (X ++ B) NULL) -> Forall (fun l => l <> []) A ->
  lseg (mem h) A (lfront (X ++ B) NULL) -> lseg (mem h) X (lfront B NULL) -> lseg (mem h) B NULL ->
  NoDup (concat (A ++ X ++ B)) /\ Forall (fun a => a <> NULL) (concat (A ++ X ++ B)) ->
  rep h (A ++ X ++ B).
Proof.
  intros Hq Hne HA HX HB [Hnd Hz]. unfold rep. split_and!; [|by rewrite !lseg_app|done|done].
  rewrite Hq. symmetry. by apply lfront_app.
Qed.

Lemma remove_head_ok h A a l2 B :
  rep h (A ++ (a :: l2) :: B) ->
  list_op h (concat (A ++ (a :: l2) :: B)) (A ++ opt l2 ++ B) (remove_chunk h a).
Proof.
  intros Hrep. pose proof (rep_around _ _ _ _ Hrep) as [Hq Hs Hnd HneA HsA Hc HsB HdA HdC HdB Hndc Hz Hfuel].
  pose proof (rep_shrink h A B (a :: l2) l2 Hrep ltac:(by apply sublist_cons)) as Hnew.
  cbn [front] in *. destruct Hc as [(c & Hca & Hcl & Hcn & Hch) Hc2].
  apply Forall_cons in Hz as [Hza Hz2]. apply NoDup_cons in Hndc as [Hal2 Hnd2].
  unfold remove_chunk. unfold load at 1. rewrite Hca. cbn [deref]. bret.
  rewrite Hch, Hcl, Hcn. destruct (Z.eqb_spec a NULL); [done|]. cbn [negb assert_k]. bret.
  rewrite Z.eqb_refl.
  assert (Ht : (if front l2 NULL =? NULL then lfront B NULL else front l2 NULL) = lfront (opt l2 ++ B) NULL).
  { rewrite lfront_opt. destruct l2 as [|b l2]; simpl; [done|].
    apply Forall_cons in Hz2 as [Hb _]. by destruct (Z.eqb_spec b NULL). }
  rewrite Ht.
  destruct (relink_ok h A (a :: l2) B (lfront (opt l2 ++ B) NULL) Hq Hs Hnd)
    as (h1 & Heq1 & Hq1 & HsA1 & Hd1 & Hf1). cbn [front] in Heq1. rewrite Heq1. bret.
  assert (Hf1' : forall y, y ∈ a :: l2 \/ y ∈ concat B -> mem h1 !! y = mem h !! y)
    by (intros y [Hy|Hy]; apply Hf1; [by apply HdC|by apply HdB]).
  assert (Hca1 : mem h1 !! a = Some c) by (rewrite Hf1'; [done|left; by left]).
  assert (HsB1 : lseg (mem h1) B NULL) by (eapply lseg_frame; [|done]; intros y Hy; rewrite Hf1'; [done|by right]).
  assert (Hc21 : cseg (mem h1) a NULL l2 NULL)
    by (eapply cseg_frame; [|done]; intros y Hy; rewrite Hf1'; [done|left; by right]).
  (* what relinking the successors leaves: a map [m3] where [l2] is a class of its own *)
  enough (exists m3, (if negb (front l2 NULL =? NULL)
      then h2 ← upd h1 (front l2 NULL) (set_next_list (lfront B NULL));
           set_heads (fuel_of h) h2 (front l2 NULL) (front l2 NULL)
      else Ret h1) = Ret (MkHeap (quick_list h1) m3) /\
    lseg m3 (opt l2) (lfront B NULL) /\ same_data (mem h1) m3 /\
    (forall y, y ∉ l2 -> m3 !! y = mem h1 !! y)) as (m3 & -> & Hs3 & Hd3 & Hf3).
  { bret. assert (Hca3 : m3 !! a = Some c) by (by rewrite Hf3).
    unfold reset_chunk. rewrite (upd_ok (MkHeap (quick_list h1) m3) a _ c Hca3).
    eexists. split; [done|]. cbn [mem quick_list]. split_and!.
    - apply rep_join; cbn [mem quick_list]; try done.
      + eapply lseg_frame; [|done]. intros y Hy. destruct (HdA y Hy) as [HyC _].
        apply not_elem_of_cons in HyC as [Hya Hyl]. rewrite lookup_insert_ne, Hf3 by done. done.
      + eapply lseg_frame; [|exact Hs3]. rewrite concat_opt. intros y Hy.
        rewrite lookup_insert_ne; [done|]. intros ->. done.
      + eapply lseg_frame; [|done]. intros y Hy. destruct (HdB y Hy) as [_ HyC].
        apply not_elem_of_cons in HyC as [Hya Hyl]. rewrite lookup_insert_ne, Hf3 by done. done.
    - transitivity (mem h1); [done|]. transitivity m3; [done|]. by eapply same_data_insert.
    - intros y Hy. rewrite concat_app in Hy. cbn [concat] in Hy. rewrite !not_elem_of_app, not_elem_of_cons in Hy.
      rewrite lookup_insert_ne, Hf3, Hf1 by (done || (intros ->; tauto) || tauto). done. }
  destruct l2 as [|b l2].
  - exists (mem h1). by destruct h1.
  - cbn [front] in *. pose proof (proj1 (Forall_cons _ _ _) Hz2) as [Hzb _].
    destruct (Z.eqb_spec b NULL); [done|]. cbn [negb].
    pose proof Hc21 as [(cb & Hcb & Hlb & Hnb & Hhb) Hc22].
    rewrite (upd_ok _ _ _ _ Hcb). bret. set (m2 := <[b := _]> (mem h1)).
    assert (Hc2' : cseg m2 a (lfront B NULL) (b :: l2) NULL).
    { split; [exists (set_next_list (lfront B NULL) cb); unfold m2; by rewrite lookup_insert_eq|].
      eapply cseg_frame; [|done]. intros y Hy. unfold m2. rewrite lookup_insert_ne; [done|].
      intros <-. apply NoDup_cons in Hnd2 as [? _]. done. }
    destruct (set_heads_ok (fuel_of h) (MkHeap (quick_list h1) m2) a b (lfront B NULL) (b :: l2)
                Hc2' ltac:(done) Hnd2 Hz2 ltac:(simpl in *; lia)) as (m3 & Heq & Hc3 & Hd3 & Hf3).
    exists m3. split_and!; [exact Heq|by apply lseg_opt| |].
    + transitivity m2; [by eapply same_data_insert|done].
    + intros y Hy. rewrite Hf3 by done. unfold m2. cbn [mem]. apply not_elem_of_cons in Hy as [Hy _].
      by rewrite lookup_insert_ne.
Qed.

Lemma remove_inner_ok h A l1 x a l2 B :
  rep h (A ++ (l1 ++ x :: a :: l2) :: B) ->
  list_op h (concat (A ++ (l1 ++ x :: a :: l2) :: B)) (A ++ opt (l1 ++ x :: l2) ++ B) (remove_chunk h a).
Proof.
  intros Hrep. pose proof (rep_around _ _ _ _ Hrep) as [Hq Hs Hnd HneA HsA Hc HsB HdA HdC HdB Hndc Hz Hfuel].
  pose proof (rep_shrink h A B (l1 ++ x :: a :: l2) (l1 ++ x :: l2) Hrep) as Hnew.
  destruct Hnew as [Hnd' Hz']; [by apply sublist_app; [|apply sublist_skip, sublist_cons]|].
  pose proof Hc as Hc0. apply cseg_app in Hc0 as [Hl1 [(cx & Hcx & Hlx & Hnx & Hhx) [(c & Hca & Hcl & Hcn & Hch) Hc2]]].
  pose proof Hndc as Hndc0. apply NoDup_app in Hndc0 as (Hn1 & Hd1 & Hn2). apply NoDup_cons in Hn2 as [Hnx2 Hn2].
  apply NoDup_cons in Hn2 as [Hna Hn2]. apply not_elem_of_cons in Hnx2 as [Hxa Hxl2].
  set (f := front (l1 ++ x :: a :: l2) NULL) in *.
  assert (Hf : f ∈ l1 ++ [x] /\ f = front (l1 ++ [x]) NULL) by (unfold f; destruct l1; simpl; set_solver).
  destruct Hf as [Hf Hfe].
  assert (Hfa : f <> a).
  { intros E. rewrite E in Hf. apply elem_of_app in Hf as [Hf|Hf]; [|set_solver].
    apply (Hd1 a Hf). set_solver. }
  assert (Hfz : f <> NULL).
  { rewrite Forall_forall in Hz. apply Hz. set_solver. }
  unfold remove_chunk. unfold load at 1. rewrite Hca. cbn [deref]. bret.
  rewrite Hch, Hcn. destruct (Z.eqb_spec f NULL); [done|]. cbn [negb assert_k]. bret.
  destruct (Z.eqb_spec f a); [done|].
  rewrite Hfe, (find_prev_chunk_ok _ _ _ _ _ _ _ _ Hc Hndc) by (rewrite length_app in Hfuel; lia).
  bret. rewrite (upd_ok _ _ _ _ Hcx). bret.
  unfold reset_chunk. rewrite (upd_ok _ a _ c) by (simpl; by rewrite lookup_insert_ne).
  eexists. split; [done|]. cbn [mem quick_list]. set (m' := <[a := _]> (<[x := _]> (mem h))).
  assert (Hfr : forall y, y <> x -> y <> a -> mem h !! y = m' !! y).
  { intros y Hyx Hya. unfold m'. by rewrite !lookup_insert_ne by done. }
  assert (Hfr' : forall y, y ∉ l1 ++ x :: a :: l2 -> mem h !! y = m' !! y).
  { intros y Hy. apply Hfr; intros ->; set_solver. }
  assert (Hopt : lfront (opt (l1 ++ x :: l2) ++ B) NULL = f) by (unfold f; by destruct l1).
  split_and!.
  - apply rep_join; cbn [mem quick_list]; [| |rewrite Hopt| | |done]; try done.
    + rewrite Hq, lfront_app, Hopt by done. unfold f. by destruct l1.
    + eapply lseg_frame; [|exact HsA]. intros y Hy. by apply Hfr', HdA.
    + apply lseg_opt. replace (front (l1 ++ x :: l2) NULL) with f by (unfold f; by destruct l1).
      apply cseg_app. split; [|split].
      * eapply cseg_frame; [|exact Hl1]. intros y Hy. apply Hfr; intros ->; apply (Hd1 _ Hy); set_solver.
      * exists (set_next_chunk (front l2 NULL) cx). unfold m'. by rewrite lookup_insert_ne, lookup_insert_eq.
      * eapply cseg_frame; [|exact Hc2]. intros y Hy. apply Hfr; intros ->; done.
    + eapply lseg_frame; [|exact HsB]. intros y Hy. by apply Hfr', HdB.
  - transitivity (<[x := set_next_chunk (front l2 NULL) cx]> (mem h)); [by eapply same_data_insert|].
    apply (same_data_insert _ a c); [by rewrite lookup_insert_ne|done].
  - intros y Hy. rewrite concat_app in Hy. cbn [concat] in Hy. symmetry. apply Hfr'.
    rewrite !not_elem_of_app in Hy. rewrite not_elem_of_app. tauto.
Qed.

(** [remove_chunk] unlinks the chunk from its class, and the class from the
    quick list when the chunk was its only member. *)
Lemma remove_chunk_ok h A l1 a l2 B :
  rep h (A ++ (l1 ++ a :: l2) :: B) ->
  list_op h (concat (A ++ (l1 ++ a :: l2) :: B)) (A ++ opt (l1 ++ l2) ++ B) (remove_chunk h a).
Proof.
  destruct l1 as [|x l1 _] using rev_ind; [apply remove_head_ok|].
  rewrite <- !(app_assoc l1). apply remove_inner_ok.
Qed.

(** *** Insertion *)
Definition csize (m : gmap Z mem_chunk) (a : Z) : Z := default 0 (size <$> m !! a).

Lemma csize_same m m' a : same_data m m' -> csize m a = csize m' a.
Proof.
  intros H. specialize (H a). unfold csize.
  destruct (m !! a), (m' !! a); simpl in *; try done. unfold data in H. congruence.
Qed.

(** Insertion in front of, into, or instead of the first class not smaller. *)
Definition ins (m : gmap Z mem_chunk) (a : Z) (B : list (list Z)) : list (list Z) :=
  match B with
  | [] => [[a]]
  | cl :: B' => if csize m (front cl NULL) =? csize m a then (cl ++ [a]) :: B' else [a] :: cl :: B'
  end.

Lemma rep_frame h h' ll :
  quick_list h' = quick_list h -> (forall y, y ∈ concat ll -> mem h !! y = mem h' !! y) ->
  rep h ll -> rep h' ll.
Proof.
  intros Hq Hm (Hq0 & Hs & Hnd & Hz). unfold rep. rewrite Hq. split_and!; try done. by eapply lseg_frame.
Qed.

Definition last_front (A : list (list Z)) (d : Z) : Z :=
  match last A with Some cl => front cl NULL | None => d end.

Lemma seek_list_ok fuel h A B lst s :
  lseg (mem h) (A ++ B) NULL -> Forall (fun a => a <> NULL) (concat (A ++ B)) ->
  Forall (fun cl => csize (mem h) (front cl NULL) < s) A ->
  match B with [] => True | cl :: _ => s <= csize (mem h) (front cl NULL) end ->
  (length A < fuel)%nat ->
  seek_list fuel h (lfront (A ++ B) NULL) lst s = Ret (lfront B NULL, last_front A lst).
Proof.
  revert fuel lst. induction A as [|cl A IH]; intros fuel lst Hs Hz HA HB Hf;
    (destruct fuel; [simpl in Hf; lia|]); cbn [seek_list app].
  - destruct B as [|cl B]; [done|]. destruct Hs as (Hne & Hc & _). destruct cl as [|x cl]; [done|].
    cbn [lfront front concat app] in *. apply Forall_cons in Hz as [Hx _].
    destruct (Z.eqb_spec x NULL); [done|].
    destruct Hc as [(c & Hc & _) _]. unfold load. unfold csize in HB. rewrite Hc in *. simpl in *.
    destruct (Z.ltb_spec (size c) s); [lia|done].
  - destruct Hs as (Hne & Hc & Hr). destruct cl as [|x cl]; [done|].
    cbn [lfront front concat app] in *. apply Forall_cons in Hz as [Hx Hz].
    apply Forall_cons in HA as [Hx2 HA]. apply Forall_app in Hz as [_ Hz].
    destruct (Z.eqb_spec x NULL); [done|].
    destruct Hc as [(c & Hc & Hl & _) _]. unfold load. unfold csize in Hx2. cbn [front] in Hx2. rewrite Hc in *. simpl in *.
    destruct (Z.ltb_spec (size c) s); [|lia]. rewrite Hl, IH by (done || lia).
    f_equal. f_equal. unfold last_front. rewrite last_cons. by destruct (last A).
Qed.

(** The chunk after [reset_chunk], ready to be linked. *)
Lemma append_reset h a c ll :
  rep h ll -> a ∉ concat ll -> mem h !! a = Some c ->
  exists h1 c1, reset_chunk h a = Ret h1 /\ rep h1 ll /\ mem h1 !! a = Some c1 /\
    next_list c1 = NULL /\ next_chunk c1 = NULL /\ data c1 = data c /\ same_data (mem h) (mem h1) /\
    (forall y, y <> a -> mem h1 !! y = mem h !! y) /\ quick_list h1 = quick_list h /\
    (forall n, (n < fuel_of h)%nat -> (n < fuel_of h1)%nat).
Proof.
  intros Hrep Ha Hc. unfold reset_chunk. rewrite (upd_ok _ _ _ _ Hc).
  eexists _, _. split; [done|]. cbn [mem]. rewrite lookup_insert_eq.
  split_and!; try done.
  - eapply rep_frame; [| |done]; [done|]. intros y Hy. cbn [mem]. rewrite lookup_insert_ne; [done|congruence].
  - by eapply same_data_insert.
  - intros y Hy. by rewrite lookup_insert_ne.
  - intros n. unfold fuel_of. cbn [mem]. by rewrite map_size_insert, Hc.
Qed.

Lemma rep_insert h A X B a X' :
  rep h (A ++ X ++ B) -> a ∉ concat (A ++ X ++ B) -> a <> NULL ->
  concat X' ≡ₚ a :: concat X ->
  NoDup (concat (A ++ X' ++ B)) /\ Forall (fun a => a <> NULL) (concat (A ++ X' ++ B)).
Proof.
  intros (_ & _ & Hnd & Hz) Ha Hz0 HX. rewrite !concat_app in *.
  assert (HP : concat A ++ concat X' ++ concat B ≡ₚ a :: concat A ++ concat X ++ concat B).
  { rewrite HX. simpl. symmetry. apply Permutation_middle. }
  split; rewrite HP; constructor; done.
Qed.

Section append.
Context (h : heap) (A B : list (list Z)) (a : Z) (c : mem_chunk).
Context (Hrep : rep h (A ++ B)) (Ha : a ∉ concat (A ++ B)) (Hz : a <> NULL).
Context (Hc : mem h !! a = Some c) (Hcl : next_list c = NULL) (Hcn : next_chunk c = NULL).

Lemma append_disj : (a ∉ concat A) /\ (a ∉ concat B).
Proof. by rewrite concat_app, not_elem_of_app in Ha. Qed.

(** After the last class. *)
Lemma append_end : B = [] -> A <> [] ->
  list_op h (a :: concat (A ++ B)) (A ++ [[a]])
    (h1 ← upd h (last_front A NULL) (set_next_list a); upd h1 a (set_head a)).
Proof.
  intros -> HA. rewrite app_nil_r in *. destruct A as [|cl A' _] using rev_ind; [done|].
  pose proof Hrep as (Hq & Hs & Hnd & Hnz). unfold last_front. rewrite last_snoc.
  assert (Hin : front cl NULL ∈ concat (A' ++ [cl])).
  { rewrite concat_app. pose proof (lseg_nonempty _ _ _ Hs) as Hne. apply Forall_app in Hne as [_ Hne].
    apply Forall_cons in Hne as [Hne _]. destruct cl; [done|]. simpl. set_solver. }
  destruct (lseg_lookup _ _ _ _ Hs Hin) as [cl0 Hcl0].
  assert (Hfa : front cl NULL <> a) by (intros E; by rewrite E in Hin).
  rewrite (upd_ok _ _ _ _ Hcl0). bret. rewrite (upd_ok _ a _ c) by (simpl; by rewrite lookup_insert_ne).
  cbn [mem quick_list]. eexists. split; [done|]. cbn [mem quick_list].
  pose proof (lseg_redirect _ _ _ _ a _ Hs Hnd Hcl0) as Hs'.
  split_and!.
  - apply (rep_join _ (A' ++ [cl]) [[a]] []); cbn [mem quick_list app lfront front]; try done.
    + rewrite Hq. apply lfront_any; [by eapply lseg_nonempty|by destruct A'].
    + by eapply lseg_nonempty.
    + eapply lseg_frame; [|exact Hs']. intros y Hy. symmetry. apply lookup_insert_ne. congruence.
    + simpl. split_and!; try done. exists (set_head a c). by rewrite lookup_insert_eq.
    + apply (rep_insert h (A' ++ [cl]) [] [] a [[a]]); rewrite ?app_nil_r; done.
  - transitivity (<[front cl NULL := set_next_list a cl0]> (mem h)); [by eapply same_data_insert|].
    eapply same_data_insert; [by rewrite lookup_insert_ne|done].
  - intros y Hy. apply not_elem_of_cons in Hy as [Hya Hy]. rewrite !lookup_insert_ne; congruence.
Qed.

(** Into an existing class. *)
Lemma append_class cl B' : B = cl :: B' ->
  list_op h (a :: concat (A ++ B)) (A ++ (cl ++ [a]) :: B')
    (e ← last_chunk (fuel_of h) h (front cl NULL); h1 ← upd h e (set_next_chunk a); upd h1 a (set_head (front cl NULL))).
Proof.
  destruct append_disj as [HaA HaB]. intros ->.
  pose proof (rep_around _ _ _ _ Hrep) as [Hq Hs Hnd HneA HsA Hcs HsB HdA HdC HdB Hndc Hzc Hfuel].
  assert (Hacl : a ∉ cl) by (rewrite concat_app in Ha; simpl in Ha; set_solver).
  cbn [concat] in HaB.
  assert (Hnecl : cl <> []). { pose proof (lseg_nonempty _ _ _ Hs) as Hne. apply Forall_app in Hne as [_ Hne]. by apply Forall_cons in Hne as [? _]. }
  destruct cl as [|e l _] using rev_ind; [done|].
  rewrite (last_chunk_ok _ _ _ _ _ _ Hcs Hzc) by (rewrite length_app in Hfuel; simpl in *; lia). bret.
  set (f := front (l ++ [e]) NULL) in *.
  pose proof Hcs as Hcs0. apply cseg_app in Hcs0 as [Hl [(ce & Hce & Hle & Hne & Hhe) _]].
  assert (Hea : e <> a) by (intros ->; set_solver).
  rewrite (upd_ok _ _ _ _ Hce). bret. rewrite (upd_ok _ a _ c) by (simpl; by rewrite lookup_insert_ne).
  cbn [mem quick_list]. eexists. split; [done|]. cbn [mem quick_list]. set (m' := <[a := _]> _).
  assert (Hfr : forall y, y <> a -> y <> e -> mem h !! y = m' !! y) by (intros; unfold m'; by rewrite !lookup_insert_ne by congruence).
  split_and!.
  - change (A ++ ((l ++ [e]) ++ [a]) :: B') with (A ++ [(l ++ [e]) ++ [a]] ++ B').
    assert (Hff : front ((l ++ [e]) ++ [a]) NULL = f) by (unfold f; by destruct l).
    apply rep_join; cbn [mem quick_list app lfront]; rewrite ?Hff; try done.
    + rewrite Hq, lfront_app by done. done.
    + eapply lseg_frame; [|exact HsA]. intros y Hy. destruct (HdA y Hy) as [Hy1 _]. apply Hfr; set_solver.
    + apply lseg_single. split; [by destruct l|]. rewrite Hff.
      apply cseg_app. split; [apply cseg_app; split|].
      * eapply cseg_frame; [|exact Hl]. intros y Hy. apply Hfr; [set_solver|]. intros ->.
        apply NoDup_app in Hndc as (_ & Hd & _). apply (Hd e Hy). set_solver.
      * split; [|done]. exists (set_next_chunk a ce). unfold m'. rewrite lookup_insert_ne, lookup_insert_eq by done. done.
      * destruct (l ++ [e]) eqn:E; [by destruct l|]. split; [|done].
        exists (set_head f c). unfold m'. by rewrite lookup_insert_eq.
    + eapply lseg_frame; [|exact HsB]. intros y Hy. destruct (HdB y Hy) as [_ Hy1]. apply Hfr; set_solver.
    + apply (rep_insert h A [l ++ [e]] B' a [(l ++ [e]) ++ [a]]); try done. simpl. rewrite !app_nil_r. by rewrite Permutation_app_comm.
  - transitivity (<[e := set_next_chunk a ce]> (mem h)); [by eapply same_data_insert|].
    eapply same_data_insert; [by rewrite lookup_insert_ne|done].
  - intros y Hy. rewrite concat_app in Hy. symmetry. apply Hfr; cbn [concat] in Hy; set_solver.
Qed.

(** As a class of its own in front of [cl]. *)
Lemma append_before cl B' : B = cl :: B' ->
  list_op h (a :: concat (A ++ B)) (A ++ [a] :: cl :: B')
    (if front cl NULL =? quick_list h then
       h1 ← upd h a (set_next_list (quick_list h)); h2 ← upd h1 a (set_head a); Ret (set_quick h2 a)
     else
       p ← find_prev_list (fuel_of h) h (quick_list h) (front cl NULL);
       h1 ← upd h p (set_next_list a);
       h2 ← upd h1 a (set_next_list (front cl NULL)); upd h2 a (set_head a)).
Proof.
  destruct append_disj as [HaA HaB]. intros ->.
  pose proof (rep_around _ _ _ _ Hrep) as [Hq Hs Hnd HneA HsA Hcs HsB HdA HdC HdB Hndc Hzc Hfuel].
  cbn [concat] in HaB. rewrite not_elem_of_app in HaB.
  destruct (relink_ok h A cl B' a Hq Hs Hnd) as (h1 & Heq1 & Hq1 & HsA1 & Hd1 & Hf1).
  assert (Hc1 : mem h1 !! a = Some c) by (rewrite Hf1; tauto).
  assert (HsB1 : lseg (mem h1) (cl :: B') NULL).
  { apply lseg_app in Hs as [_ Hs]. eapply lseg_frame; [|exact Hs]. intros y Hy. rewrite Hf1; [done|].
    cbn [concat] in Hy. apply elem_of_app in Hy as [Hy|Hy]; [by apply HdC|by apply HdB]. }
  assert (Hlf : lfront (cl :: B') NULL = front cl NULL) by done.
  (* both branches produce the same heap *)
  set (c' := set_head a (set_next_list (front cl NULL) c)).
  enough (forall h', quick_list h' = quick_list h1 -> mem h' = <[a := c']> (mem h1) ->
     rep h' (A ++ [a] :: cl :: B') /\ same_data (mem h) (mem h') /\
     (forall b, b ∉ a :: concat (A ++ cl :: B') -> mem h' !! b = mem h !! b)) as Hfin.
  { destruct (Z.eqb_spec (front cl NULL) (quick_list h)) as [E|E].
    - injection Heq1 as <-. rewrite (upd_ok _ _ _ _ Hc). bret.
      rewrite (upd_ok _ a _ (set_next_list (quick_list h) c)) by (simpl; apply lookup_insert_eq). bret.
      eexists. split; [done|]. apply Hfin; cbn; [done|]. rewrite insert_insert_eq. unfold c'. by rewrite E.
    - apply bind_Ret_inv in Heq1 as (p & -> & Hup). bret. rewrite Hup. bret.
      rewrite (upd_ok _ _ _ _ Hc1). bret.
      rewrite (upd_ok _ a _ (set_next_list (front cl NULL) c)) by (simpl; apply lookup_insert_eq).
      eexists. split; [done|]. apply Hfin; cbn; [done|]. by rewrite insert_insert_eq. }
  intros h' Hq' Hm'. split_and!.
  - change (A ++ [a] :: cl :: B') with (A ++ [[a]] ++ cl :: B').
    apply rep_join; rewrite ?Hm', ?Hq'; cbn [app lfront front]; try done.
    + eapply lseg_frame; [|exact HsA1]. intros y Hy. rewrite lookup_insert_ne; [done|congruence].
    + apply lseg_single. split; [done|]. split; [|done]. exists c'. by rewrite lookup_insert_eq.
    + eapply lseg_frame; [|exact HsB1]. intros y Hy. rewrite lookup_insert_ne; [done|].
      intros <-. cbn [concat] in Hy. apply elem_of_app in Hy. tauto.
    + by apply (rep_insert h A [] (cl :: B') a [[a]]).
  - rewrite Hm'. transitivity (mem h1); [done|]. by eapply same_data_insert.
  - intros y Hy. rewrite Hm'. rewrite concat_app in Hy. rewrite not_elem_of_cons, not_elem_of_app in Hy.
    rewrite lookup_insert_ne by (intros <-; tauto). apply Hf1. tauto.
Qed.
End append.

(** [append_chunk] inserts the chunk in size order: at the end of the class of
    its size, or as a new class. *)
Lemma append_chunk_ok h A B a c :
  rep h (A ++ B) -> a ∉ concat (A ++ B) -> a <> NULL -> mem h !! a = Some c ->
  Forall (fun cl => csize (mem h) (front cl NULL) < size c) A ->
  match B with [] => True | cl :: _ => size c <= csize (mem h) (front cl NULL) end ->
  list_op h (a :: concat (A ++ B)) (A ++ ins (mem h) a B) (append_chunk h a).
Proof.
  intros Hrep Ha Hz Hc HA HB.
  pose proof (rep_fuel _ _ Hrep) as Hfuel.
  destruct (append_reset h a c _ Hrep Ha Hc)
    as (h1 & c1 & Hr & Hrep1 & Hc1 & Hl1 & Hn1 & Hdc & Hd1 & Hf1 & Hq1 & Hfu).
  assert (Hsz : size c1 = size c) by (unfold data in Hdc; congruence).
  (* it is enough to reason from the reset state *)
  enough (Hgoal : list_op h1 (a :: concat (A ++ B)) (A ++ ins (mem h) a B)
    (if quick_list h1 =? NULL then upd (set_quick h1 a) a (set_head a)
     else r ← seek_list (fuel_of h) h1 (quick_list h1) NULL (size c1);
       let '(tmp_list, last) := r in
       if negb (tmp_list =? NULL) then
         t ← load h1 tmp_list;
         if size t =? size c1 then
           e ← last_chunk (fuel_of h) h1 tmp_list; h ← upd h1 e (set_next_chunk a); upd h a (set_head tmp_list)
         else if tmp_list =? quick_list h1 then
           h ← upd h1 a (set_next_list (quick_list h1)); h ← upd h a (set_head a); Ret (set_quick h a)
         else
           p ← find_prev_list (fuel_of h) h1 (quick_list h1) tmp_list;
           h ← upd h1 p (set_next_list a); h ← upd h a (set_next_list tmp_list); upd h a (set_head a)
       else h ← upd h1 last (set_next_list a); upd h a (set_head a))).
  { destruct Hgoal as (h' & Heq & Hrep' & Hd' & Hf').
    unfold append_chunk. rewrite Hr. bret. rewrite (load_ok _ _ _ Hc1). bret.
    exists h'. split_and!; [exact Heq|done|by transitivity (mem h1)|].
    intros y Hy. rewrite Hf' by done. apply Hf1. set_solver. }
  assert (Hfe : fuel_of h1 = fuel_of h).
  { unfold reset_chunk in Hr. rewrite (upd_ok _ _ _ _ Hc) in Hr. injection Hr as <-.
    unfold fuel_of. cbn [mem]. by rewrite map_size_insert, Hc. }
  rewrite <- Hfe. rewrite <- Hfe in Hfuel. clear Hfe Hfu Hr.
  assert (Hcs : forall y, csize (mem h) y = csize (mem h1) y) by (intros; by apply csize_same).
  assert (Hins : ins (mem h) a B = ins (mem h1) a B) by (destruct B; simpl; by rewrite ?Hcs). rewrite Hins.
  assert (Hca : csize (mem h1) a = size c1) by (unfold csize; by rewrite Hc1).
  rewrite <- Hsz in HA, HB. setoid_rewrite Hcs in HA.
  pose proof Hrep1 as (Hq & Hs & Hnd & Hnz).
  assert (Hlen : (length A < fuel_of h1)%nat).
  { pose proof (lseg_nonempty _ _ _ Hs) as Hne. apply length_classes in Hne. rewrite length_app in Hne. lia. }
  destruct (Z.eqb_spec (quick_list h1) NULL) as [E|E].
  { (* the quick list is empty *)
    assert (A ++ B = []) as [-> ->]%app_eq_nil.
    { destruct (A ++ B) as [|[|x cl] ll]; [done|by destruct Hs|]. simpl in *.
      apply Forall_cons in Hnz as [? _]. congruence. }
    rewrite (upd_ok (set_quick h1 a) a _ c1 Hc1). eexists. split; [done|]. cbn. split_and!.
    - unfold rep. cbn. split_and!; try done; [|constructor; [set_solver|constructor]|by constructor].
      exists (set_head a c1). by rewrite lookup_insert_eq.
    - by eapply same_data_insert.
    - intros y Hy. rewrite lookup_insert_ne; [done|set_solver]. }
  rewrite Hq at 1. rewrite (seek_list_ok _ _ _ _ _ _ Hs Hnz HA) by (done || (destruct B; [done|by rewrite <- Hcs])).
  bret. destruct B as [|cl B'].
  - simpl. eapply append_end; try done. intros ->. by rewrite Hq in E.
  - cbn [lfront].
    assert (Hin : front cl NULL ∈ concat (A ++ cl :: B')).
    { pose proof (lseg_nonempty _ _ _ Hs) as Hne. apply Forall_app in Hne as [_ Hne].
      apply Forall_cons in Hne as [Hne _]. rewrite concat_app. destruct cl; [done|]. simpl. set_solver. }
    assert (Hfz : front cl NULL <> NULL) by (rewrite Forall_forall in Hnz; by apply Hnz).
    destruct (Z.eqb_spec (front cl NULL) NULL); [done|]. cbn [negb].
    destruct (lseg_lookup _ _ _ _ Hs Hin) as [t Ht]. rewrite (load_ok _ _ _ Ht). bret.
    assert (Hct : csize (mem h1) (front cl NULL) = size t) by (unfold csize; by rewrite Ht).
    cbn [ins]. rewrite Hct, Hca.
    destruct (Z.eqb_spec (size t) (size c1)).
    + by eapply append_class.
    + by eapply append_before.
Qed.

End HeapLists.
