(* ===== verification/HeapAlloc.v ===== *)
(** Correctness of the allocator (so3/mm/heap.c): the heap region is tiled at
    all times by free and allocated blocks, [malloc]/[memalign] carve an aligned
    block out of a free one, [free] gives it back and coalesces it, and no two
    free blocks are ever adjacent. *)
From stdpp Require Import sorting.
From S2P Require Import Prelude Heap HeapLists.
Import Heap HeapLists.

Module HeapAlloc.

(** *** Tilings of a region by blocks (start, length) *)
Fixpoint tiles (b : Z) (bl : list (Z * Z)) (e : Z) : Prop :=
  match bl with
  | [] => b = e
  | (s, n) :: r => s = b /\ CHUNK_SZ <= n /\ tiles (s + n) r e
  end.

Lemma tiles_app b X Y e : tiles b (X ++ Y) e <-> exists m, tiles b X m /\ tiles m Y e.
Proof.
  revert b. induction X as [|[s n] X IH]; intros b; simpl.
  - split; [eauto|]. by intros (m & -> & ?).
  - rewrite IH. split; [intros (-> & ? & m & ? & ?); eauto|intros (m & (-> & ? & ?) & ?); eauto 6].
Qed.

Lemma tiles_bounds b bl e s n : tiles b bl e -> (s, n) ∈ bl -> b <= s /\ s + n <= e /\ CHUNK_SZ <= n.
Proof.
  unfold CHUNK_SZ.
  assert (Hle : forall b bl e, tiles b bl e -> b <= e).
  { intros b0 bl0. revert b0. induction bl0 as [|[s0 n0] bl0 IH]; intros b0 e0; simpl; [lia|].
    intros (-> & ? & H). apply IH in H. unfold CHUNK_SZ in *. lia. }
  revert b. induction bl as [|[s0 n0] bl IH]; intros b; simpl; [set_solver|].
  intros (-> & Hn & Ht) [[= -> ->]|Hin]%elem_of_cons.
  - apply Hle in Ht. unfold CHUNK_SZ in *. lia.
  - specialize (IH _ Ht Hin). unfold CHUNK_SZ in *. lia.
Qed.

Lemma tiles_after b X s n Y e x k :
  tiles b (X ++ (s, n) :: Y) e -> (x, k) ∈ Y -> s + n <= x.
Proof.
  intros (m & _ & -> & _ & H)%tiles_app Hin. by apply (tiles_bounds _ _ _ _ _ H Hin).
Qed.

Lemma tiles_disjoint b bl e s n s' n' :
  tiles b bl e -> (s, n) ∈ bl -> (s', n') ∈ bl -> (s, n) = (s', n') \/ s + n <= s' \/ s' + n' <= s.
Proof.
  intros Ht (X & Y & ->)%list_elem_of_split Hin.
  apply elem_of_app in Hin as [(X1 & X2 & ->)%list_elem_of_split|[->|Hin]%elem_of_cons].
  - right. right. rewrite <- app_assoc in Ht. simpl in Ht. eapply tiles_after with (k := n); [exact Ht|]. set_solver.
  - by left.
  - right. left. by eapply tiles_after.
Qed.

Lemma tiles_nodup b bl e : tiles b bl e -> NoDup bl.*1.
Proof.
  revert b. induction bl as [|[s n] bl IH]; intros b; simpl; [constructor|].
  intros (-> & Hn & Ht). constructor; [|by eapply IH].
  intros ([s' n'] & E & Hin)%list_elem_of_fmap. simpl in E. subst.
  apply (tiles_bounds _ _ _ _ _ Ht) in Hin. unfold CHUNK_SZ in *. lia.
Qed.

Lemma tiles_split b X Y e s n1 n2 :
  tiles b (X ++ (s, n1 + n2) :: Y) e -> CHUNK_SZ <= n1 -> CHUNK_SZ <= n2 ->
  tiles b (X ++ (s, n1) :: (s + n1, n2) :: Y) e.
Proof.
  intros (m & HX & -> & Hn & HY)%tiles_app H1 H2. apply tiles_app. exists m. simpl.
  split_and!; try done. by replace (m + n1 + n2) with (m + (n1 + n2)) by lia.
Qed.

(** A block starting where another ends is its successor in the tiling. *)
Lemma tiles_next b X s n Y e n2 :
  tiles b (X ++ (s, n) :: Y) e -> (s + n, n2) ∈ X ++ (s, n) :: Y ->
  exists Y', Y = (s + n, n2) :: Y'.
Proof.
  intros Ht Hin. assert (Hn : CHUNK_SZ <= n) by (eapply (tiles_bounds _ _ _ s n); [exact Ht|set_solver]).
  apply elem_of_app in Hin as [(X1 & X2 & ->)%list_elem_of_split|[[= E]|Hin]%elem_of_cons].
  - exfalso. rewrite <- app_assoc in Ht. simpl in Ht. assert (s + n + n2 <= s) by (eapply tiles_after with (k := n); [exact Ht|set_solver]).
    assert (CHUNK_SZ <= n2) by (eapply (tiles_bounds _ _ _ (s + n) n2); [exact Ht|set_solver]). unfold CHUNK_SZ in *. lia.
  - unfold CHUNK_SZ in *. lia.
  - apply tiles_app in Ht as (m & _ & -> & _ & Ht). destruct Y as [|[s1 n1] Y]; [set_solver|].
    destruct Ht as (-> & H1 & Ht). exists Y. apply elem_of_cons in Hin as [[= ->]|Hin]; [done|].
    apply (tiles_bounds _ _ _ _ _ Ht) in Hin. unfold CHUNK_SZ in *. lia.
Qed.

Lemma tiles_merge b X Y e s n1 n2 :
  tiles b (X ++ (s, n1) :: (s + n1, n2) :: Y) e -> tiles b (X ++ (s, n1 + n2) :: Y) e.
Proof.
  intros (m & HX & -> & Hn & _ & Hn2 & HY)%tiles_app. apply tiles_app. exists m. simpl.
  split_and!; try done; [unfold CHUNK_SZ in *; lia|]. by replace (m + (n1 + n2)) with (m + n1 + n2) by lia.
Qed.

(** *** Size order of the classes *)
Definition uniform (m : gmap Z mem_chunk) (cl : list Z) : Prop := forall x y, x ∈ cl -> y ∈ cl -> csize m x = csize m y.
Definition below (m : gmap Z mem_chunk) (c1 c2 : list Z) : Prop := forall x y, x ∈ c1 -> y ∈ c2 -> csize m x < csize m y.
Definition sorted (m : gmap Z mem_chunk) (ll : list (list Z)) : Prop :=
  Forall (uniform m) ll /\ StronglySorted (below m) ll.

Lemma sorted_ext m m' ll :
  (forall a, a ∈ concat ll -> csize m a = csize m' a) -> sorted m ll -> sorted m' ll.
Proof.
  unfold sorted. induction ll as [|cl ll IH]; intros He [Hu Hs]; [split; constructor|].
  simpl in He. setoid_rewrite elem_of_app in He.
  apply Forall_cons in Hu as [Hu Hu']. apply StronglySorted_cons in Hs as [Hb Hs].
  destruct IH as [IH1 IH2]; [auto|done|]. split; constructor; try done.
  - intros x y Hx Hy. rewrite <- !He by auto. by apply Hu.
  - rewrite Forall_forall in *. intros c2 Hc2 x y Hx Hy.
    assert (y ∈ concat ll) by (apply elem_of_concat; eauto).
    rewrite <- !He by auto. by apply (Hb c2).
Qed.

Lemma sorted_shrink m A cl cl' B :
  sorted m (A ++ cl :: B) -> (forall x, x ∈ cl' -> x ∈ cl) -> sorted m (A ++ opt cl' ++ B).
Proof.
  unfold sorted. intros [Hu Hs] Hin. induction A as [|c0 A IH]; simpl in *.
  - apply Forall_cons in Hu as [Hu Hu']. apply StronglySorted_cons in Hs as [Hb Hs].
    destruct cl' as [|x cl']; [done|]. simpl. split; constructor; try done.
    + intros a b Ha Hb'. apply Hu; auto.
    + eapply Forall_impl; [exact Hb|]. intros c2 H a b Ha Hb'. apply H; auto.
  - apply Forall_cons in Hu as [Hu Hu']. apply StronglySorted_cons in Hs as [Hb Hs].
    destruct (IH Hu' Hs) as [IH1 IH2]. split; constructor; try done.
    apply Forall_app in Hb as [HbA Hb]. apply Forall_cons in Hb as [Hbc HbB].
    apply Forall_app. split; [done|]. apply Forall_app. split; [|done].
    destruct cl'; simpl; constructor; [|constructor]. intros a b Ha Hb'. apply Hbc; auto.
Qed.

(** Where a chunk of size [s] belongs. *)
Lemma sorted_at m ll s :
  sorted m ll -> Forall (fun cl => cl <> []) ll ->
  exists A B, ll = A ++ B /\ Forall (fun cl => forall x, x ∈ cl -> csize m x < s) A /\
    match B with [] => True | cl :: _ => forall x, x ∈ cl -> s <= csize m x end /\
    Forall (fun cl => forall x, x ∈ cl -> s <= csize m x) B /\
    Forall (fun cl => forall x, x ∈ cl -> s < csize m x) (tail B).
Proof.
  unfold sorted. induction ll as [|cl ll IH]; intros [Hu Hs] Hne.
  - by exists [], [].
  - apply Forall_cons in Hu as [Hu Hu']. apply StronglySorted_cons in Hs as [Hb Hs].
    apply Forall_cons in Hne as [Hne Hne']. destruct cl as [|a cl]; [done|].
    destruct (decide (csize m a < s)) as [Hlt|Hge].
    + destruct (IH (conj Hu' Hs) Hne') as (A & B & -> & HA & HB & HB' & HB'').
      exists ((a :: cl) :: A), B. split_and!; try done. constructor; [|done].
      intros x Hx. rewrite (Hu x a); set_solver.
    + exists [], ((a :: cl) :: ll). split_and!; try done.
      * intros x Hx. rewrite (Hu x a); [lia|done|set_solver].
      * constructor.
        -- intros x Hx. rewrite (Hu x a); [lia|done|set_solver].
        -- rewrite Forall_forall in *. intros c2 Hc2 x Hx.
           assert (csize m a < csize m x) by (apply (Hb c2); set_solver). lia.
      * simpl. rewrite Forall_forall in *. intros c2 Hc2 x Hx.
        assert (csize m a < csize m x) by (apply (Hb c2); set_solver). lia.
Qed.

Lemma sorted_ins m A B a :
  sorted m (A ++ B) ->
  Forall (fun cl => forall x, x ∈ cl -> csize m x < csize m a) A ->
  Forall (fun cl => forall x, x ∈ cl -> csize m a <= csize m x) B ->
  Forall (fun cl => forall x, x ∈ cl -> csize m a < csize m x) (tail B) ->
  Forall (fun cl => cl <> []) B ->
  sorted m (A ++ ins m a B).
Proof.
  unfold sorted. intros [Hu Hs] HA HB HB' Hne. induction A as [|c0 A IH]; simpl in *.
  - destruct B as [|cl B]; simpl in *; [split; repeat constructor; intros ??; set_solver|].
    apply Forall_cons in Hu as [Hu Hu']. apply StronglySorted_cons in Hs as [Hb Hs].
    apply Forall_cons in HB as [HBc HB]. apply Forall_cons in Hne as [Hne _].
    assert (Hfr : front cl NULL ∈ cl) by (destruct cl; [done|]; simpl; set_solver).
    destruct (Z.eqb_spec (csize m (front cl NULL)) (csize m a)) as [E|E].
    + split; constructor; try done.
      * intros x y Hx Hy. rewrite elem_of_app, list_elem_of_singleton in Hx, Hy.
        destruct Hx as [Hx| ->], Hy as [Hy| ->]; rewrite <- ?E; auto.
      * rewrite Forall_forall in *. intros c2 Hc2 x y Hx Hy.
        rewrite elem_of_app, list_elem_of_singleton in Hx.
        destruct Hx as [Hx| ->]; [by apply (Hb c2)|by apply (HB' c2)].
    + assert (Hlt : forall x, x ∈ cl -> csize m a < csize m x).
      { intros x Hx. specialize (HBc x Hx). rewrite (Hu x (front cl NULL)) in * by done. lia. }
      split; constructor; try done; try (by constructor).
      * intros x y Hx Hy. set_solver.
      * constructor; [intros x y Hx Hy; apply list_elem_of_singleton in Hx as ->; auto|].
        eapply Forall_impl; [exact HB'|]. intros c2 H x y Hx Hy. apply list_elem_of_singleton in Hx as ->. auto.
  - apply Forall_cons in Hu as [Hu Hu']. apply StronglySorted_cons in Hs as [Hb Hs].
    apply Forall_cons in HA as [HA0 HA]. destruct (IH Hu' Hs HA) as [IH1 IH2].
    split; constructor; try done. apply Forall_app in Hb as [HbA HbB]. apply Forall_app. split; [done|].
    assert (Hone : below m c0 [a]) by (intros x y Hx Hy; apply list_elem_of_singleton in Hy as ->; auto).
    destruct B as [|cl B]; simpl; [by constructor|]. apply Forall_cons in HbB as [Hbc HbB].
    destruct (_ =? _); repeat constructor; try done.
    intros x y Hx Hy. apply elem_of_app in Hy as [Hy|Hy]; [by apply Hbc|by apply Hone].
Qed.

(** *** The two list operations, in terms of the set of free chunks *)
Lemma remove_sum h ll a :
  rep h ll -> a ∈ concat ll ->
  exists h' ll', remove_chunk h a = Ret h' /\ rep h' ll' /\ concat ll ≡ₚ a :: concat ll' /\
    same_data (mem h) (mem h') /\ (forall y, y ∉ concat ll -> mem h' !! y = mem h !! y) /\
    (forall m, sorted m ll -> sorted m ll').
Proof.
  intros Hrep Hin. apply elem_of_concat in Hin as (cl & Hcl & Hin).
  apply list_elem_of_split in Hin as (A & B & ->). apply list_elem_of_split in Hcl as (l1 & l2 & ->).
  destruct (remove_chunk_ok _ _ _ _ _ _ Hrep) as (h' & Heq & Hrep' & Hd & Hf).
  exists h', (A ++ opt (l1 ++ l2) ++ B). split_and!; try done.
  - rewrite !concat_app, concat_opt. simpl. rewrite <- !app_assoc. simpl.
    rewrite (Permutation_middle (concat A)). apply Permutation_app_head.
    symmetry. apply Permutation_middle.
  - intros m Hs. eapply sorted_shrink; [done|]. intros x. rewrite !elem_of_app, elem_of_cons. tauto.
Qed.

Lemma append_sum h ll a c :
  rep h ll -> sorted (mem h) ll -> a ∉ concat ll -> a <> NULL -> mem h !! a = Some c ->
  exists h' ll', append_chunk h a = Ret h' /\ rep h' ll' /\ concat ll' ≡ₚ a :: concat ll /\
    sorted (mem h') ll' /\ same_data (mem h) (mem h') /\
    (forall y, y ∉ a :: concat ll -> mem h' !! y = mem h !! y).
Proof.
  intros Hrep Hs Ha Hz Hc. pose proof Hrep as (_ & Hseg & _). pose proof (lseg_nonempty _ _ _ Hseg) as Hne.
  assert (Hca : csize (mem h) a = size c) by (unfold csize; by rewrite Hc).
  destruct (sorted_at (mem h) ll (size c) Hs Hne) as (A & B & -> & HA & HB & HB' & HB'').
  apply Forall_app in Hne as [HneA HneB].
  assert (Hfr : forall cl : list Z, cl <> [] -> front cl NULL ∈ cl) by (intros [|x cl]; [done|]; simpl; set_solver).
  destruct (append_chunk_ok h A B a c Hrep Ha Hz Hc) as (h' & Heq & Hrep' & Hd & Hf).
  { rewrite Forall_forall in *. intros cl Hcl. apply (HA cl Hcl). auto. }
  { destruct B as [|cl B]; [done|]. apply Forall_cons in HneB as [? _]. auto. }
  exists h', (A ++ ins (mem h) a B). split_and!; try done.
  - rewrite !concat_app. rewrite (Permutation_middle (concat A)). apply Permutation_app_head.
    destruct B as [|cl B]; simpl; [done|]. destruct (_ =? _); simpl; [|done].
    rewrite <- app_assoc. simpl. symmetry. apply Permutation_middle.
  - apply (sorted_ext (mem h)); [intros; by apply csize_same|]. rewrite <- Hca in *. by apply sorted_ins.
Qed.

(** *** The heap invariant

    [al] is the ghost table of live allocations: user pointer to block start
    and payload size.  An allocated block keeps its header just below the user
    pointer, [padding_bytes] after the block start. *)
Definition blocks (m : gmap Z mem_chunk) (F : list Z) (al : gmap Z (Z * Z)) : list (Z * Z) :=
  ((fun a => (a, CHUNK_SZ + csize m a)) <$> F) ++ ((fun q => (q.2.1, CHUNK_SZ + q.2.2)) <$> map_to_list al).

Definition alloc_hdr (m : gmap Z mem_chunk) (p s n : Z) : Prop :=
  exists c, m !! (p - CHUNK_SZ) = Some c /\ sig c = CHUNK_SIG /\ size c = n /\
    padding_bytes c = p - CHUNK_SZ - s /\ 0 <= padding_bytes c /\ 0 <= req_size c /\
    padding_bytes c + req_size c <= n.

Record heap_inv (base limit : Z) (h : heap) (ll : list (list Z)) (al : gmap Z (Z * Z)) : Prop := {
  hi_base : 0 < base;
  hi_rep : rep h ll;
  hi_sorted : sorted (mem h) ll;
  hi_tiles : exists bl, tiles base bl limit /\ bl ≡ₚ blocks (mem h) (concat ll) al;
  hi_alloc : forall p s n, al !! p = Some (s, n) -> alloc_hdr (mem h) p s n
}.

(** No two free blocks are adjacent. *)
Definition coalesced (m : gmap Z mem_chunk) (F : list Z) : Prop :=
  forall a b, a ∈ F -> b ∈ F -> a + csize m a + CHUNK_SZ <> b.

Lemma blocks_free m F al a : a ∈ F -> (a, CHUNK_SZ + csize m a) ∈ blocks m F al.
Proof. intros H. apply elem_of_app. left. apply list_elem_of_fmap. eauto. Qed.

Lemma blocks_alloc m F al p s n : al !! p = Some (s, n) -> (s, CHUNK_SZ + n) ∈ blocks m F al.
Proof.
  intros H. apply elem_of_app. right. apply list_elem_of_fmap. exists (p, (s, n)).
  split; [done|]. by apply elem_of_map_to_list.
Qed.

Lemma blocks_perm m F F' al : F ≡ₚ F' -> blocks m F al ≡ₚ blocks m F' al.
Proof. unfold blocks. by intros ->. Qed.

Lemma blocks_cons m a F al : blocks m (a :: F) al = (a, CHUNK_SZ + csize m a) :: blocks m F al.
Proof. done. Qed.

Lemma blocks_ext m m' F al : (forall a, a ∈ F -> csize m a = csize m' a) -> blocks m F al = blocks m' F al.
Proof.
  intros H. unfold blocks. f_equal. apply list_fmap_ext. intros i a Ha. f_equal. f_equal.
  apply H. by eapply list_elem_of_lookup_2.
Qed.

Lemma blocks_insert m F al p s n :
  al !! p = None -> blocks m F (<[p := (s, n)]> al) ≡ₚ (s, CHUNK_SZ + n) :: blocks m F al.
Proof.
  intros H. unfold blocks. rewrite (map_to_list_insert _ _ _ H). simpl.
  by rewrite <- Permutation_middle.
Qed.

Lemma blocks_delete m F al p s n :
  al !! p = Some (s, n) -> blocks m F al ≡ₚ (s, CHUNK_SZ + n) :: blocks m F (delete p al).
Proof.
  intros H. rewrite <- (blocks_insert m F (delete p al) p s n) by apply lookup_delete_eq.
  by rewrite insert_delete_id.
Qed.

(** Live headers lie in their blocks, which are disjoint. *)
Section live.
Context {base limit : Z} {h : heap} {ll : list (list Z)} {al : gmap Z (Z * Z)}.
Context (Hinv : heap_inv base limit h ll al).

Lemma inv_disjoint b1 b2 :
  b1 ∈ blocks (mem h) (concat ll) al -> b2 ∈ blocks (mem h) (concat ll) al ->
  b1 = b2 \/ b1.1 + b1.2 <= b2.1 \/ b2.1 + b2.2 <= b1.1.
Proof.
  destruct (hi_tiles _ _ _ _ _ Hinv) as (bl & Ht & Hp). rewrite <- Hp. destruct b1, b2.
  by apply (tiles_disjoint _ _ _ _ _ _ _ Ht).
Qed.

Lemma inv_bounds b : b ∈ blocks (mem h) (concat ll) al -> base <= b.1 /\ b.1 + b.2 <= limit /\ CHUNK_SZ <= b.2.
Proof.
  destruct (hi_tiles _ _ _ _ _ Hinv) as (bl & Ht & Hp). rewrite <- Hp. destruct b.
  by apply (tiles_bounds _ _ _ _ _ Ht).
Qed.

Lemma inv_starts : NoDup (blocks (mem h) (concat ll) al).*1.
Proof.
  destruct (hi_tiles _ _ _ _ _ Hinv) as (bl & Ht & Hp). rewrite <- Hp. by eapply tiles_nodup.
Qed.

Lemma free_size a : a ∈ concat ll -> 0 <= csize (mem h) a.
Proof. intros Ha. pose proof (inv_bounds _ (blocks_free (mem h) _ al _ Ha)) as H. simpl in H. lia. Qed.

(** Two free chunks are apart. *)
Lemma free_free a b :
  a ∈ concat ll -> b ∈ concat ll -> a <> b ->
  a + csize (mem h) a + CHUNK_SZ <= b \/ b + csize (mem h) b + CHUNK_SZ <= a.
Proof.
  intros Ha Hb Hne.
  destruct (inv_disjoint _ _ (blocks_free (mem h) _ al _ Ha) (blocks_free (mem h) _ al _ Hb)) as [E|H]; simpl in *.
  - by injection E.
  - lia.
Qed.

(** A free chunk's block and an allocated block are apart. *)
Lemma free_alloc a p s n :
  a ∈ concat ll -> al !! p = Some (s, n) ->
  a + csize (mem h) a + CHUNK_SZ <= s \/ s + n + CHUNK_SZ <= a.
Proof.
  intros Ha Hp.
  destruct (inv_disjoint _ _ (blocks_free (mem h) _ al _ Ha) (blocks_alloc (mem h) (concat ll) _ _ _ _ Hp)) as [E|H]; simpl in *; [|lia].
  exfalso. pose proof inv_starts as Hnd. unfold blocks in Hnd. rewrite fmap_app in Hnd.
  apply NoDup_app in Hnd as (_ & Hd & _). apply (Hd a).
  - rewrite <- list_fmap_compose. apply list_elem_of_fmap. by exists a.
  - rewrite <- list_fmap_compose. apply list_elem_of_fmap. exists (p, (s, n)). simpl.
    split; [exact (f_equal fst E)|]. by apply elem_of_map_to_list.
Qed.

Lemma alloc_alloc p s n p' s' n' :
  al !! p = Some (s, n) -> al !! p' = Some (s', n') -> p <> p' ->
  s + n + CHUNK_SZ <= s' \/ s' + n' + CHUNK_SZ <= s.
Proof.
  intros Hp Hp' Hne.
  assert (Hin : (s', CHUNK_SZ + n') ∈ blocks (mem h) (concat ll) (delete p al)).
  { apply blocks_alloc with p'. by rewrite lookup_delete_ne. }
  pose proof (blocks_delete (mem h) (concat ll) al p s n Hp) as HP.
  assert (Hin' : (s', CHUNK_SZ + n') ∈ blocks (mem h) (concat ll) al) by (rewrite HP; by right).
  destruct (inv_disjoint _ _ (blocks_alloc (mem h) (concat ll) _ _ _ _ Hp) Hin') as [E|H]; simpl in *; [|lia].
  exfalso. pose proof inv_starts as Hnd. rewrite HP in Hnd. simpl in Hnd.
  apply NoDup_cons in Hnd as [Hnd _]. apply Hnd. apply list_elem_of_fmap.
  exists (s', CHUNK_SZ + n'). split; [exact (f_equal fst E)|done].
Qed.

Lemma free_pos a : a ∈ concat ll -> 0 < a.
Proof.
  intros Ha. pose proof (inv_bounds _ (blocks_free (mem h) _ al _ Ha)) as H. simpl in H.
  pose proof (hi_base _ _ _ _ _ Hinv). lia.
Qed.

Lemma free_nodup : NoDup (concat ll).
Proof. by destruct (hi_rep _ _ _ _ _ Hinv) as (_ & _ & ? & _). Qed.

(** Headers of allocations are not headers of free chunks. *)
Lemma alloc_hdr_not_free p s n : al !! p = Some (s, n) -> p - CHUNK_SZ ∉ concat ll.
Proof.
  intros Hp Hin. destruct (hi_alloc _ _ _ _ _ Hinv _ _ _ Hp) as (c & _ & _ & Hs & Hpad & H0 & H1 & H2).
  destruct (free_alloc _ _ _ _ Hin Hp); pose proof (free_size _ Hin); unfold CHUNK_SZ in *; lia.
Qed.
End live.

Lemma alloc_hdr_frame m m' p s n :
  m' !! (p - CHUNK_SZ) = m !! (p - CHUNK_SZ) -> alloc_hdr m p s n -> alloc_hdr m' p s n.
Proof. intros E (c & H & ?). exists c. rewrite E. done. Qed.

(** [heap_init] establishes the invariant with one free block. *)
Lemma heap_init_inv base hsz :
  0 < base -> CHUNK_SZ <= hsz ->
  heap_inv base (base + hsz) (heap_init base hsz) [[base]] ∅ /\
  coalesced (mem (heap_init base hsz)) [base].
Proof.
  intros Hb Hs. unfold CHUNK_SZ in *. split.
  - assert (Hc : csize (mem (heap_init base hsz)) base = hsz - 56).
    { unfold csize. simpl. by rewrite lookup_singleton_eq. }
    split; [lia| | | |].
    + unfold rep. simpl. split_and!; try done.
      * eexists. by rewrite lookup_singleton_eq.
      * apply NoDup_singleton.
      * constructor; [unfold NULL; lia|constructor].
    + split; repeat constructor. intros x y Hx Hy. set_solver.
    + exists [(base, hsz)]. split; [unfold tiles, CHUNK_SZ; lia|].
      unfold blocks. rewrite map_to_list_empty. cbn [concat app fmap list_fmap]. rewrite Hc. unfold CHUNK_SZ.
      by replace (56 + (hsz - 56)) with hsz by lia.
    + intros p s n. by rewrite lookup_empty.
  - intros a b Ha Hb'. apply list_elem_of_singleton in Ha as ->. apply list_elem_of_singleton in Hb' as ->.
    unfold csize. simpl. rewrite lookup_singleton_eq. simpl. unfold CHUNK_SZ. lia.
Qed.

(** *** Coalescing *)
Lemma scan_chunks_ok fuel h hd nl l new nsz :
  cseg (mem h) hd nl l NULL -> Forall (fun a => a <> NULL) l -> (length l < fuel)%nat ->
  exists r, scan_chunks fuel h (front l NULL) new nsz = Ret r /\
    match r with
    | Some t => t ∈ l /\ adjacent new nsz t (csize (mem h) t) = true
    | None => forall t, t ∈ l -> adjacent new nsz t (csize (mem h) t) = false
    end.
Proof.
  revert nl fuel. induction l as [|a l IH]; intros nl fuel Hs Hz Hf; (destruct fuel as [|fuel]; [simpl in Hf; lia|]);
    cbn [scan_chunks front].
  - exists None. split; [done|]. set_solver.
  - apply Forall_cons in Hz as [Ha Hz]. destruct (Z.eqb_spec a NULL); [done|].
    destruct Hs as [(c & Hc & _ & Hn & _) Hr]. rewrite (load_ok _ _ _ Hc). bret.
    assert (Hca : csize (mem h) a = size c) by (unfold csize; by rewrite Hc). rewrite <- Hca.
    destruct (adjacent new nsz a (csize (mem h) a)) eqn:E.
    + exists (Some a). split; [done|]. split; [set_solver|done].
    + rewrite Hn. destruct (IH NULL fuel Hr Hz) as (r & -> & Hr'); [simpl in Hf; lia|].
      exists r. split; [done|]. destruct r as [t|]; [set_solver|].
      intros t [->|Ht]%elem_of_cons; auto.
Qed.

Lemma scan_lists_ok fuel h ll new nsz :
  lseg (mem h) ll NULL -> Forall (fun a => a <> NULL) (concat ll) ->
  (forall cl, cl ∈ ll -> (length cl < fuel_of h)%nat) -> (length ll < fuel)%nat ->
  exists r, scan_lists fuel h (lfront ll NULL) new nsz = Ret r /\
    match r with
    | Some t => t ∈ concat ll /\ adjacent new nsz t (csize (mem h) t) = true
    | None => forall t, t ∈ concat ll -> adjacent new nsz t (csize (mem h) t) = false
    end.
Proof.
  revert fuel. induction ll as [|cl ll IH]; intros fuel Hs Hz Hlen Hf; (destruct fuel as [|fuel]; [simpl in Hf; lia|]);
    cbn [scan_lists lfront].
  - exists None. split; [done|]. set_solver.
  - destruct Hs as (Hne & Hc & Hr). cbn [concat] in Hz. apply Forall_app in Hz as [Hzc Hz].
    destruct cl as [|a cl]; [done|]. cbn [front] in *.
    destruct (Z.eqb_spec a NULL); [by apply Forall_cons in Hzc as [? _]|].
    destruct (scan_chunks_ok (fuel_of h) h a (lfront ll NULL) (a :: cl) new nsz Hc Hzc (Hlen (a :: cl) ltac:(by left)))
      as (r & Heq & Hr'). cbn [front] in Heq. rewrite Heq. bret.
    destruct r as [t|]. { exists (Some t). split; [done|]. cbn [concat]. set_solver. }
    destruct Hc as [(c & Hc & Hl & _) _]. rewrite (load_ok _ _ _ Hc). bret. rewrite Hl.
    destruct (IH fuel Hr Hz) as (r & -> & Hr2); [set_solver|simpl in Hf; lia|].
    exists r. split; [done|]. destruct r as [t|]; cbn [concat]; [set_solver|].
    intros t [Ht|Ht]%elem_of_app; auto.
Qed.

Lemma scan_quick_list h ll new nsz :
  rep h ll ->
  exists r, scan_lists (fuel_of h) h (quick_list h) new nsz = Ret r /\
    match r with
    | Some t => t ∈ concat ll /\ adjacent new nsz t (csize (mem h) t) = true
    | None => forall t, t ∈ concat ll -> adjacent new nsz t (csize (mem h) t) = false
    end.
Proof.
  intros Hrep. pose proof (rep_fuel _ _ Hrep) as Hf. destruct Hrep as (Hq & Hs & _ & Hz). rewrite Hq.
  apply scan_lists_ok; try done.
  - intros cl (A & B & ->)%list_elem_of_split. rewrite concat_app, !length_app in Hf. simpl in Hf.
    rewrite length_app in Hf. lia.
  - pose proof (length_classes _ (lseg_nonempty _ _ _ Hs)). lia.
Qed.

(** Signatures survive list operations and size changes. *)
Definition same_sig (m m' : gmap Z mem_chunk) : Prop := forall a, sig <$> m !! a = sig <$> m' !! a.

#[global] Instance same_sig_equiv : Equivalence same_sig.
Proof. split; unfold same_sig; [done | by intros ?? H a | intros ??? H1 H2 a; by rewrite H1]. Qed.

Lemma same_data_sig m m' : same_data m m' -> same_sig m m'.
Proof.
  intros H a. specialize (H a). destruct (m !! a), (m' !! a); simpl in *; try done. unfold data in H. congruence.
Qed.

Lemma csize_insert_ne (m : gmap Z mem_chunk) a c b : a <> b -> csize (<[a := c]> m) b = csize m b.
Proof. intros. unfold csize. by rewrite lookup_insert_ne. Qed.

Lemma csize_insert_eq (m : gmap Z mem_chunk) a c : csize (<[a := c]> m) a = size c.
Proof. unfold csize. by rewrite lookup_insert_eq. Qed.

(** Changing the data fields of a header keeps the list structure. *)
Lemma rep_links h ll a c c' :
  rep h ll -> mem h !! a = Some c ->
  next_list c' = next_list c -> next_chunk c' = next_chunk c -> head c' = head c ->
  rep (MkHeap (quick_list h) (<[a := c']> (mem h))) ll.
Proof.
  intros (Hq & Hs & ? & ?) Ha Hl Hn Hh. split_and!; try done. cbn [mem]. clear - Hs Ha Hl Hn Hh.
  induction ll as [|k ll IH]; [done|]. destruct Hs as (? & Hk & Hr). split_and!; [done| |by apply IH].
  clear - Hk Ha Hl Hn Hh. revert Hk. generalize (front k NULL), (lfront ll NULL).
  induction k as [|b k IH]; intros f n; [done|].
  intros [(c0 & Hc & Hrest) Hk]. split; [|by apply IH]. destruct (decide (a = b)) as [->|].
  - exists c'. rewrite lookup_insert_eq. split; [done|]. assert (c0 = c) as -> by congruence.
    by rewrite Hl, Hn, Hh.
  - exists c0. by rewrite lookup_insert_ne.
Qed.

(** One merge: [lo] and [hi] adjacent free chunks, removed in either order and
    replaced by one chunk at [lo]. *)
Lemma merge_step base limit h ll al lo hi x y :
  heap_inv base limit h ll al -> lo ∈ concat ll -> hi ∈ concat ll ->
  lo + csize (mem h) lo + CHUNK_SZ = hi -> (x, y) = (lo, hi) \/ (x, y) = (hi, lo) ->
  exists h1 h2 h3 h4 ll' F0,
    upd h lo (set_size (csize (mem h) lo + csize (mem h) hi + CHUNK_SZ)) = Ret h1 /\
    remove_chunk h1 x = Ret h2 /\ remove_chunk h2 y = Ret h3 /\ append_chunk h3 lo = Ret h4 /\
    heap_inv base limit h4 ll' al /\ concat ll ≡ₚ lo :: hi :: F0 /\ concat ll' ≡ₚ lo :: F0 /\
    (forall a, a ∈ F0 -> csize (mem h4) a = csize (mem h) a) /\ same_sig (mem h) (mem h4) /\
    (forall z, z ∉ concat ll -> mem h4 !! z = mem h !! z).
Proof.
  intros Hinv Hlo Hhi Hadj Hxy. pose proof (free_size Hinv lo Hlo). pose proof (free_size Hinv hi Hhi).
  assert (Hne : lo <> hi) by (unfold CHUNK_SZ in *; lia).
  pose proof (hi_rep _ _ _ _ _ Hinv) as Hrep. pose proof (free_nodup Hinv) as Hnd.
  assert (exists F0, concat ll ≡ₚ lo :: hi :: F0) as [F0 HF].
  { apply elem_of_Permutation in Hlo as [F HF]. assert (hi ∈ F) as Hin by (rewrite HF in Hhi; set_solver).
    apply elem_of_Permutation in Hin as [F0 HF0]. exists F0. by rewrite HF, HF0. }
  assert (HndF : NoDup (lo :: hi :: F0)) by (by rewrite <- HF).
  apply NoDup_cons in HndF as [HloF HndF]. apply NoDup_cons in HndF as [HhiF _].
  pose proof Hrep as (_ & Hseg & _).
  destruct (lseg_lookup _ _ _ _ Hseg Hlo) as [cl Hcl].
  rewrite (upd_ok _ _ _ _ Hcl). set (sz := csize (mem h) lo + _ + _). set (h1 := MkHeap _ _).
  assert (Hrep1 : rep h1 ll) by (by eapply rep_links).
  assert (Hx : x ∈ concat ll) by (destruct Hxy as [[= -> ->]|[= -> ->]]; done).
  destruct (remove_sum h1 ll x Hrep1 Hx) as (h2 & ll2 & Hr2 & Hrep2 & HP2 & Hd2 & Hf2 & Hs2).
  assert (HP2' : concat ll2 ≡ₚ y :: F0).
  { apply (Permutation_cons_inv (a := x)). rewrite <- HP2, HF.
    destruct Hxy as [[= -> ->]|[= -> ->]]; [done|apply perm_swap]. }
  assert (Hy : y ∈ concat ll2) by (rewrite HP2'; by left).
  destruct (remove_sum h2 ll2 y Hrep2 Hy) as (h3 & ll3 & Hr3 & Hrep3 & HP3 & Hd3 & Hf3 & Hs3).
  assert (HP3' : concat ll3 ≡ₚ F0) by (apply (Permutation_cons_inv (a := y)); by rewrite <- HP3, HP2').
  assert (Hd13 : same_data (mem h1) (mem h3)) by (by transitivity (mem h2)).
  assert (Hsz1 : forall a, a <> lo -> csize (mem h1) a = csize (mem h) a)
    by (intros; unfold h1; cbn [mem]; by rewrite csize_insert_ne).
  assert (HF0lo : forall a, a ∈ F0 -> a <> lo) by (intros a Ha ->; apply HloF; by right).
  destruct (same_data_lookup _ _ lo (set_size sz cl) Hd13) as (c3 & Hc3 & Hdc3); [apply lookup_insert_eq|].
  assert (Hsc3 : size c3 = sz) by (unfold data in Hdc3; simpl in Hdc3; congruence).
  destruct (append_sum h3 ll3 lo c3) as (h4 & ll4 & Hr4 & Hrep4 & HP4 & Hs4 & Hd4 & Hf4); try done.
  { apply (sorted_ext (mem h)).
    - intros a Ha. rewrite HP3' in Ha. rewrite <- (csize_same (mem h1) (mem h3) a Hd13). by rewrite Hsz1 by auto.
    - apply Hs3, Hs2, (hi_sorted _ _ _ _ _ Hinv). }
  { rewrite HP3'. intros Hin. apply HloF. by right. }
  { pose proof (free_pos Hinv lo Hlo). unfold NULL. lia. }
  assert (HP4' : concat ll4 ≡ₚ lo :: F0) by (by rewrite HP4, HP3').
  assert (Hcs4 : forall a, csize (mem h4) a = csize (mem h1) a)
    by (intros; transitivity (csize (mem h3) a); symmetry; by apply csize_same).
  exists h1, h2, h3, h4, ll4, F0. split_and!; try done.
  - split; [apply (hi_base _ _ _ _ _ Hinv)|done|done| |].
    + destruct (hi_tiles _ _ _ _ _ Hinv) as (bl & Ht & Hp).
      rewrite (blocks_perm _ _ _ _ HF), !blocks_cons in Hp.
      assert (Hin : (lo, CHUNK_SZ + csize (mem h) lo) ∈ bl) by (rewrite Hp; by left).
      apply list_elem_of_split in Hin as (X & Y & ->).
      destruct (tiles_next _ _ _ _ _ _ (CHUNK_SZ + csize (mem h) hi) Ht) as (Y' & ->).
      { rewrite Hp. replace (lo + (CHUNK_SZ + csize (mem h) lo)) with hi by lia. set_solver. }
      apply tiles_merge in Ht. eexists. split; [exact Ht|].
      rewrite (blocks_perm _ _ _ _ HP4'), blocks_cons, Hcs4.
      unfold h1 at 1. cbn [mem]. rewrite csize_insert_eq. cbn [set_size size].
      rewrite (blocks_ext _ (mem h)) by (intros; rewrite Hcs4; auto).
      rewrite <- Permutation_middle. apply perm_skip_eq.
      * f_equal. unfold sz. lia.
      * rewrite <- !Permutation_middle in Hp. apply Permutation_cons_inv in Hp.
        replace (lo + (CHUNK_SZ + csize (mem h) lo)) with hi in Hp by lia. by apply Permutation_cons_inv in Hp.
    + intros p s n Hp. eapply alloc_hdr_frame; [|by apply (hi_alloc _ _ _ _ _ Hinv)].
      pose proof (alloc_hdr_not_free Hinv _ _ _ Hp) as Hnf.
      rewrite Hf4, Hf3, Hf2; [unfold h1; cbn [mem]; apply lookup_insert_ne; intros E; rewrite <- E in Hnf; done|done| |].
      * intros Hin. apply Hnf. rewrite HP2. by right.
      * intros [E|Hin]%elem_of_cons; [rewrite E in Hnf; done|]. apply Hnf. rewrite HP2, HP3. by do 2 right.
  - intros a Ha. rewrite Hcs4. auto.
  - transitivity (mem h1).
    + intros a. unfold h1. cbn [mem]. destruct (decide (a = lo)) as [->|]; [by rewrite lookup_insert_eq, Hcl|by rewrite lookup_insert_ne].
    + apply same_data_sig. by transitivity (mem h3).
  - intros z Hz. rewrite Hf4, Hf3, Hf2; [unfold h1; cbn [mem]; apply lookup_insert_ne; intros ->; done|done| |].
    * intros Hin. apply Hz. rewrite HP2. by right.
    * intros [->|Hin]%elem_of_cons; [done|]. apply Hz. rewrite HP2, HP3. by do 2 right.
Qed.

(** No two adjacent free blocks, [new] apart. *)
Definition coalesced_but (m : gmap Z mem_chunk) (F : list Z) (new : Z) : Prop :=
  forall a b, a ∈ F -> b ∈ F -> a <> new -> b <> new -> a + csize m a + CHUNK_SZ <> b.

Lemma coalesced_merged m m' F F' lo hi F0 new :
  F ≡ₚ lo :: hi :: F0 -> F' ≡ₚ lo :: F0 -> NoDup F -> new = lo \/ new = hi ->
  (forall a, a ∈ F0 -> csize m' a = csize m a) -> coalesced_but m F new -> coalesced_but m' F' lo.
Proof.
  intros HF HF' Hnd Hnew Hsz Hco a b. rewrite HF'. rewrite HF in Hnd.
  apply NoDup_cons in Hnd as [_ Hnd]. apply NoDup_cons in Hnd as [Hhi _].
  intros [->|Ha]%elem_of_cons [->|Hb]%elem_of_cons Hal Hbl; try done.
  rewrite Hsz by done. apply Hco; [rewrite HF; by do 2 right..| |]; destruct Hnew; congruence.
Qed.

Lemma merge_rounds_ok fuel base limit h ll al new :
  heap_inv base limit h ll al -> new ∈ concat ll -> coalesced_but (mem h) (concat ll) new ->
  (length (concat ll) <= fuel)%nat ->
  exists h' ll', merge_rounds fuel h new = Ret h' /\ heap_inv base limit h' ll' al /\
    coalesced (mem h') (concat ll') /\ same_sig (mem h) (mem h').
Proof.
  revert h ll new. induction fuel as [|fuel IH]; intros h ll new Hinv Hin Hco Hf.
  { destruct (concat ll); [set_solver|simpl in Hf; lia]. }
  pose proof (hi_rep _ _ _ _ _ Hinv) as Hrep. pose proof Hrep as (_ & Hseg & _).
  destruct (lseg_lookup _ _ _ _ Hseg Hin) as [n Hn]. cbn [merge_rounds]. rewrite (load_ok _ _ _ Hn). bret.
  assert (Hsn : size n = csize (mem h) new) by (unfold csize; by rewrite Hn). rewrite Hsn.
  destruct (scan_quick_list h ll new (csize (mem h) new) Hrep) as ([t|] & -> & Hr); bret.
  - destruct Hr as [Ht Hadj]. destruct (lseg_lookup _ _ _ _ Hseg Ht) as [ct Hct].
    rewrite (load_ok _ _ _ Hct). bret. replace (size ct) with (csize (mem h) t) by (unfold csize; by rewrite Hct).
    pose proof (free_size Hinv _ Hin). pose proof (free_size Hinv _ Ht).
    assert (exists lo hi, (lo = new /\ hi = t \/ lo = t /\ hi = new) /\ lo + csize (mem h) lo + CHUNK_SZ = hi /\
              (if new <? t then new else t) = lo) as (lo & hi & Hlh & Hlohi & ->).
    { unfold adjacent, CHUNK_SZ in *. apply orb_true_iff in Hadj as [E|E].
      - exists new, t. cmp_cases; lia.
      - exists t, new. cmp_cases; lia. }
    replace (csize (mem h) new + (csize (mem h) t + CHUNK_SZ)) with (csize (mem h) lo + csize (mem h) hi + CHUNK_SZ)
      by (destruct Hlh as [[-> ->]|[-> ->]]; lia).
    destruct (merge_step base limit h ll al lo hi t new Hinv) as
      (h1 & h2 & h3 & h4 & ll' & F0 & -> & H2 & H3 & H4 & Hinv' & HF & HF' & Hsz & Hsig & _).
    { destruct Hlh as [[-> ->]|[-> ->]]; done. }
    { destruct Hlh as [[-> ->]|[-> ->]]; done. }
    { done. }
    { destruct Hlh as [[-> ->]|[-> ->]]; auto. }
    bret. rewrite H2. bret. rewrite H3. bret. rewrite H4. bret.
    destruct (IH h4 ll' lo) as (h' & ll'' & Heq & Hi & Hc & Hg); [done|rewrite HF'; by left| | |].
    + eapply coalesced_merged; [exact HF|exact HF'|apply (free_nodup Hinv)| |exact Hsz|exact Hco].
      destruct Hlh as [[-> ->]|[-> ->]]; auto.
    + apply Permutation_length in HF, HF'. simpl in *. lia.
    + exists h', ll''. split_and!; try done. by transitivity (mem h4).
  - exists h, ll. split_and!; try done. intros a b Ha Hb.
    destruct (decide (a = new)) as [->|Ha'].
    { specialize (Hr b Hb). unfold adjacent in Hr. lia. }
    destruct (decide (b = new)) as [->|Hb']; [|by apply Hco].
    specialize (Hr a Ha). unfold adjacent in Hr. lia.
Qed.

(** *** Release *)
Lemma store_far h s c a : a + CHUNK_SZ <= s \/ s + CHUNK_SZ <= a -> mem (store h s c) !! a = mem h !! a.
Proof.
  intros Ha. unfold store. cbn [mem]. rewrite lookup_insert_ne by (unfold CHUNK_SZ in *; lia).
  destruct (mem h !! a) as [x|] eqn:E.
  - apply map_lookup_filter_Some. split; [done|]. unfold clear_of. simpl. done.
  - apply map_lookup_filter_None. by left.
Qed.

Lemma store_eq h s c : mem (store h s c) !! s = Some c.
Proof. apply lookup_insert_eq. Qed.

(** The header of an allocation lies inside its block. *)
Lemma alloc_hdr_range m p s n : alloc_hdr m p s n -> s <= p - CHUNK_SZ /\ p <= s + CHUNK_SZ + n.
Proof. intros (c & _ & _ & ? & ? & ? & ? & ?). lia. Qed.

(** Putting a block that is neither free nor allocated on the quick list. *)
Lemma inv_append base limit h ll al s c :
  0 < base -> rep h ll -> sorted (mem h) ll -> mem h !! s = Some c -> s ∉ concat ll -> 0 < s ->
  (exists bl, tiles base bl limit /\ bl ≡ₚ blocks (mem h) (s :: concat ll) al) ->
  (forall p s' n, al !! p = Some (s', n) -> alloc_hdr (mem h) p s' n /\ p - CHUNK_SZ ∉ s :: concat ll) ->
  exists h' ll', append_chunk h s = Ret h' /\ heap_inv base limit h' ll' al /\
    concat ll' ≡ₚ s :: concat ll /\ same_data (mem h) (mem h') /\
    (forall y, y ∉ s :: concat ll -> mem h' !! y = mem h !! y).
Proof.
  intros Hb Hrep Hs Hc Hin Hz (bl & Ht & Hbl) Hal.
  destruct (append_sum h ll s c) as (h' & ll' & Heq & Hrep' & HP & Hs' & Hd & Hf); try done; [unfold NULL; lia|].
  exists h', ll'. split_and!; try done. split; try done.
  - exists bl. split; [done|]. rewrite Hbl, (blocks_perm _ _ _ _ HP).
    rewrite (blocks_ext (mem h) (mem h')); [done|]. intros; by apply csize_same.
  - intros p s' n Hp. destruct (Hal _ _ _ Hp) as [Hh Hni]. eapply alloc_hdr_frame; [|exact Hh]. by apply Hf.
Qed.

(** What [free] has done to the headers before it appends the block. *)
Lemma free_prepare base limit h ll al p s n :
  heap_inv base limit h ll al -> al !! p = Some (s, n) ->
  exists h2 c2, free h p = (h ← append_chunk h2 s; merge_chunks h s) /\
    quick_list h2 = quick_list h /\ mem h2 !! s = Some c2 /\ size c2 = n /\ sig c2 = 0 /\
    (forall a, a + CHUNK_SZ <= s \/ s + CHUNK_SZ + n <= a -> mem h2 !! a = mem h !! a) /\
    (s = p - CHUNK_SZ \/ s + CHUNK_SZ <= p - CHUNK_SZ -> sig <$> mem h2 !! (p - CHUNK_SZ) = Some 0).
Proof.
  intros Hinv Hp. destruct (hi_alloc _ _ _ _ _ Hinv _ _ _ Hp) as (c & Hc & Hsig & Hsz & Hpad & H0 & H1 & H2).
  pose proof (inv_bounds Hinv _ (blocks_alloc (mem h) (concat ll) _ _ _ _ Hp)) as Hbd. simpl in Hbd.
  pose proof (hi_base _ _ _ _ _ Hinv) as Hb.
  unfold free. destruct (Z.eqb_spec p NULL); [unfold NULL, CHUNK_SZ in *; lia|].
  rewrite (load_ok _ _ _ Hc). bret. rewrite Hsig, Z.eqb_refl. cbn [negb].
  rewrite (upd_ok _ _ _ _ Hc). bret. set (h1 := MkHeap _ _).
  assert (Hc1 : mem h1 !! (p - CHUNK_SZ) = Some (set_sig 0 c)) by apply lookup_insert_eq.
  rewrite (load_ok _ _ _ Hc1). bret. cbn [padding_bytes set_sig].
  assert (Hf1 : forall a, a + CHUNK_SZ <= s \/ s + CHUNK_SZ + n <= a -> mem h1 !! a = mem h !! a).
  { intros a Ha. unfold h1. cbn [mem]. apply lookup_insert_ne. unfold CHUNK_SZ in *. lia. }
  destruct (Z.eqb_spec (padding_bytes c) 0) as [E|E].
  - assert (p - CHUNK_SZ = s) as Hps by lia. rewrite Hps in *.
    exists h1, (set_sig 0 c). split_and!; try done. intros _. by rewrite Hc1.
  - assert (p - CHUNK_SZ - padding_bytes c = s) as -> by lia.
    eexists (store h1 s _), _. split_and!; [done|done|apply store_eq|done|done| |].
    + intros a Ha. rewrite store_far by (unfold CHUNK_SZ in *; lia). auto.
    + intros [Hs|Hs]; [unfold CHUNK_SZ in *; lia|]. rewrite store_far by lia. by rewrite Hc1.
Qed.

Lemma free_ok base limit h ll al p s n :
  heap_inv base limit h ll al -> coalesced (mem h) (concat ll) -> al !! p = Some (s, n) ->
  exists h' ll', free h p = Ret h' /\ heap_inv base limit h' ll' (delete p al) /\
    coalesced (mem h') (concat ll') /\
    (s = p - CHUNK_SZ \/ s + CHUNK_SZ <= p - CHUNK_SZ -> sig <$> mem h' !! (p - CHUNK_SZ) = Some 0).
Proof.
  intros Hinv Hco Hp. destruct (free_prepare _ _ _ _ _ _ _ _ Hinv Hp) as (h2 & c2 & -> & Hq & Hc2 & Hsz & Hsig & Hf & Hds).
  pose proof (inv_bounds Hinv _ (blocks_alloc (mem h) (concat ll) _ _ _ _ Hp)) as Hbd. simpl in Hbd.
  pose proof (hi_base _ _ _ _ _ Hinv) as Hb.
  assert (HF : forall a, a ∈ concat ll -> mem h2 !! a = mem h !! a).
  { intros a Ha. apply Hf. pose proof (free_alloc Hinv _ _ _ _ Ha Hp). pose proof (free_size Hinv _ Ha). lia. }
  assert (HFs : forall a, a ∈ concat ll -> csize (mem h) a = csize (mem h2) a) by (intros a Ha; unfold csize; by rewrite HF).
  assert (Hs : s ∉ concat ll).
  { intros Ha. pose proof (free_alloc Hinv _ _ _ _ Ha Hp). pose proof (free_size Hinv _ Ha). unfold CHUNK_SZ in *; lia. }
  destruct (inv_append base limit h2 ll (delete p al) s c2) as (h3 & ll3 & -> & Hinv3 & HP & Hd3 & Hf3); try done.
  { eapply rep_frame; [exact Hq| |apply (hi_rep _ _ _ _ _ Hinv)]. intros; symmetry; by apply HF. }
  { eapply sorted_ext; [exact HFs|apply (hi_sorted _ _ _ _ _ Hinv)]. }
  { lia. }
  { destruct (hi_tiles _ _ _ _ _ Hinv) as (bl & Ht & Hbl). exists bl. split; [done|].
    rewrite Hbl, (blocks_delete _ _ _ _ _ _ Hp), blocks_cons, (blocks_ext (mem h) (mem h2)) by done.
    unfold csize. rewrite Hc2. simpl. by rewrite Hsz. }
  { intros p' s' n' [Hne Hp']%lookup_delete_Some.
    pose proof (alloc_hdr_range _ _ _ _ (hi_alloc _ _ _ _ _ Hinv _ _ _ Hp')) as Hr.
    pose proof (alloc_alloc Hinv _ _ _ _ _ _ Hp Hp' Hne) as Hda. split.
    - eapply alloc_hdr_frame; [|by apply (hi_alloc _ _ _ _ _ Hinv)]. apply Hf. lia.
    - intros [E|E]%elem_of_cons; [unfold CHUNK_SZ in *; lia|]. by eapply (alloc_hdr_not_free Hinv). }
  bret. unfold merge_chunks.
  destruct (merge_rounds_ok (fuel_of h3) base limit h3 ll3 (delete p al) s) as (h4 & ll4 & Heq & Hi & Hc & Hg); try done.
  { rewrite HP. by left. }
  { intros a b. rewrite HP. intros [->|Ha]%elem_of_cons [->|Hb']%elem_of_cons Has Hbs; try done.
    rewrite <- (csize_same (mem h2) (mem h3) a Hd3), <- HFs by done. by apply Hco. }
  { pose proof (rep_fuel _ _ (hi_rep _ _ _ _ _ Hinv3)). lia. }
  exists h4, ll4. split_and!; try done. intros Hsp. rewrite <- Hg, <- (same_data_sig _ _ Hd3). by apply Hds.
Qed.

(** *** Allocation *)
Lemma align_addr_spec addr k :
  0 <= k -> addr <= align_addr addr (2 ^ k) < addr + 2 ^ k /\ align_addr addr (2 ^ k) mod 2 ^ k = 0.
Proof.
  intros Hk. unfold align_addr.
  assert (Heq : - 2 ^ k = Z.lnot (Z.ones k)) by (rewrite Z.ones_equiv; unfold Z.lnot; lia).
  rewrite Heq. change (Z.land ?x (Z.lnot ?y)) with (Z.land x (Z.lnot y)).
  rewrite <- Z.ldiff_land, Z.ldiff_ones_r, Z.shiftl_mul_pow2, Z.shiftr_div_pow2 by lia.
  assert (0 < 2 ^ k) by lia. split; [|by apply Z_mod_mult].
  pose proof (Z.div_mod (addr + 2 ^ k - 1) (2 ^ k)). pose proof (Z.mod_pos_bound (addr + 2 ^ k - 1) (2 ^ k)). nia.
Qed.

(** The data fields of a free chunk other than its size may change. *)
Lemma inv_touch base limit h ll al a c c' :
  heap_inv base limit h ll al -> a ∈ concat ll -> mem h !! a = Some c ->
  next_list c' = next_list c -> next_chunk c' = next_chunk c -> head c' = head c -> size c' = size c ->
  let h' := MkHeap (quick_list h) (<[a := c']> (mem h)) in
  heap_inv base limit h' ll al /\ (forall b, csize (mem h') b = csize (mem h) b).
Proof.
  intros Hinv Ha Hc Hl Hn Hh Hs h'.
  assert (Hsz : forall b, csize (mem h') b = csize (mem h) b).
  { intros b. unfold h'. cbn [mem]. destruct (decide (a = b)) as [->|]; [|by rewrite csize_insert_ne].
    rewrite csize_insert_eq. unfold csize. by rewrite Hc. }
  split; [|done]. split; [apply (hi_base _ _ _ _ _ Hinv)| | | |].
  - eapply rep_links; [apply (hi_rep _ _ _ _ _ Hinv)|done..].
  - eapply sorted_ext; [|apply (hi_sorted _ _ _ _ _ Hinv)]. by intros.
  - destruct (hi_tiles _ _ _ _ _ Hinv) as (bl & Ht & Hbl). exists bl. split; [done|].
    by rewrite (blocks_ext (mem h') (mem h)).
  - intros p s n Hp. eapply alloc_hdr_frame; [|by apply (hi_alloc _ _ _ _ _ Hinv)].
    unfold h'. cbn [mem]. apply lookup_insert_ne. intros ->. by eapply (alloc_hdr_not_free Hinv).
Qed.

Lemma seek_fit_ok fuel h B requested :
  lseg (mem h) B NULL -> Forall (fun a => a <> NULL) (concat B) -> (length B < fuel)%nat ->
  exists B1 B2, B = B1 ++ B2 /\ seek_fit fuel h (lfront B NULL) requested = Ret (lfront B2 NULL) /\
    Forall (fun cl => csize (mem h) (front cl NULL) < requested) B1 /\
    match B2 with [] => True | cl :: _ => requested <= csize (mem h) (front cl NULL) end.
Proof.
  revert fuel. induction B as [|cl B IH]; intros fuel Hs Hz Hf; (destruct fuel as [|fuel]; [simpl in Hf; lia|]).
  { by exists [], []. }
  destruct Hs as (Hne & Hc & Hs). destruct cl as [|a cl]; [done|]. cbn [concat] in Hz.
  apply Forall_app in Hz as [Hzc Hz]. apply Forall_cons in Hzc as [Ha _].
  destruct Hc as [(c & Hc & Hl & _) _]. cbn [lfront front seek_fit] in *.
  destruct (Z.eqb_spec a NULL); [done|]. rewrite (load_ok _ _ _ Hc). bret.
  assert (Hca : csize (mem h) a = size c) by (unfold csize; by rewrite Hc). rewrite <- Hca, Hl.
  destruct (Z.ltb_spec (csize (mem h) a) requested).
  - destruct (IH fuel Hs Hz) as (B1 & B2 & -> & Heq & H1 & H2); [simpl in Hf; lia|].
    exists ((a :: cl) :: B1), B2. split_and!; try done. by constructor.
  - exists [], ((a :: cl) :: B). split_and!; try done.
Qed.

(** [unfit m requested al cl]: the chunk the search looks at in class [cl] (its
    last) cannot hold an aligned block. *)
Definition unfit (m : gmap Z mem_chunk) (requested alignment : Z) (cl : list Z) : Prop :=
  forall e, last cl = Some e ->
  csize m e < align_addr (e + CHUNK_SZ) alignment - (e + CHUNK_SZ) + requested.

Lemma find_victim_ok fuel base limit h A B al requested k :
  heap_inv base limit h (A ++ B) al -> 0 <= requested -> 0 <= k -> (length B < fuel)%nat ->
  exists h' r, find_victim fuel h (lfront B NULL) requested (2 ^ k) = Ret (h', r) /\
    heap_inv base limit h' (A ++ B) al /\ (forall b, csize (mem h') b = csize (mem h) b) /\
    match r with
    | None => Forall (unfit (mem h) requested (2 ^ k)) B
    | Some (v, addr) =>
        v ∈ concat B /\ addr = align_addr (v + CHUNK_SZ) (2 ^ k) /\
        addr - (v + CHUNK_SZ) + requested <= csize (mem h) v /\
        exists c, mem h' !! v = Some c /\ req_size c = requested /\ padding_bytes c = addr - (v + CHUNK_SZ)
    end.
Proof.
  revert h A B. induction fuel as [|fuel IH]; intros h A B Hinv Hreq Hk Hf; [lia|]. cbn [find_victim].
  pose proof (hi_rep _ _ _ _ _ Hinv) as Hrep. pose proof (rep_fuel _ _ Hrep) as Hfuel.
  pose proof Hrep as (_ & Hseg & _ & Hz). apply lseg_app in Hseg as [_ HsB].
  rewrite concat_app in Hz, Hfuel. apply Forall_app in Hz as [_ HzB]. rewrite length_app in Hfuel.
  pose proof (length_classes _ (lseg_nonempty _ _ _ HsB)) as HlB.
  destruct (seek_fit_ok (fuel_of h) h B requested HsB HzB ltac:(lia)) as (B1 & B2 & -> & -> & HB1 & HB2). bret.
  assert (Hskip : Forall (unfit (mem h) requested (2 ^ k)) B1).
  { apply Forall_forall. intros cl Hcl e He. pose proof (align_addr_spec (e + CHUNK_SZ) k Hk).
    pose proof (proj1 (Forall_forall _ _) HB1 cl Hcl) as Hlt. simpl in Hlt.
    assert (csize (mem h) e = csize (mem h) (front cl NULL)); [|lia].
    destruct (hi_sorted _ _ _ _ _ Hinv) as [Hu _]. apply (proj1 (Forall_forall _ _) Hu cl); [set_solver| |].
    - by apply last_Some_elem_of.
    - destruct cl; [done|]. simpl. by left. }
  destruct B2 as [|cl B2].
  { rewrite app_nil_r in *. cbn [lfront]. rewrite Z.eqb_refl. exists h, None. split_and!; try done. }
  apply lseg_app in HsB as [_ (Hne & Hcl & HsB)]. rewrite concat_app in HzB. cbn [concat] in HzB.
  apply Forall_app in HzB as [_ HzB]. apply Forall_app in HzB as [Hzc _].
  rewrite concat_app, length_app in Hfuel. cbn [concat] in Hfuel. rewrite length_app in Hfuel.
  destruct (exists_last Hne) as (l & e & ->). cbn [lfront].
  assert (Hfr : front (l ++ [e]) NULL <> NULL) by (destruct l; apply Forall_cons in Hzc as [? _]; done).
  replace (front (l ++ [e]) (lfront B2 NULL)) with (front (l ++ [e]) NULL) in * by (by destruct l).
  destruct (Z.eqb_spec (front (l ++ [e]) NULL) NULL); [done|].
  rewrite (last_chunk_ok _ _ _ _ _ _ Hcl Hzc) by (rewrite length_app in Hfuel; lia). bret.
  destruct (cseg_lookup _ _ _ _ _ e Hcl ltac:(set_solver)) as (c & Hc & Hhd).
  assert (He : e ∈ concat (A ++ B1 ++ (l ++ [e]) :: B2)).
  { rewrite !concat_app. cbn [concat]. set_solver. }
  rewrite (upd_ok _ _ _ _ Hc). bret.
  destruct (inv_touch _ _ _ _ _ _ c (set_req_size requested c) Hinv He Hc) as [Hinv1 Hsz1]; try done.
  set (h1 := MkHeap (quick_list h) _) in *.
  pose proof (align_addr_spec (e + CHUNK_SZ) k Hk) as [Hal _].
  destruct (Z.leb_spec (e + CHUNK_SZ) (align_addr (e + CHUNK_SZ) (2 ^ k))); [|lia]. cbn [assert_k]. bret.
  assert (Hc1 : mem h1 !! e = Some (set_req_size requested c)) by apply lookup_insert_eq.
  rewrite (load_ok _ _ _ Hc1). bret. cbn [size set_req_size head].
  assert (Hce : csize (mem h) e = size c) by (unfold csize; by rewrite Hc). rewrite <- Hce.
  destruct (Z.ltb_spec (csize (mem h) e) (align_addr (e + CHUNK_SZ) (2 ^ k) - (e + CHUNK_SZ) + requested)).
  - (* on to the next class *)
    pose proof (hi_rep _ _ _ _ _ Hinv1) as (_ & Hseg1 & _).
    apply lseg_app in Hseg1 as [_ Hseg1]. apply lseg_app in Hseg1 as [_ (_ & Hcl1 & _)].
    assert (exists f r, l ++ [e] = f :: r) as (f & r & Efr) by (destruct l; simpl; eauto).
    rewrite Efr in Hcl1, Hhd. destruct Hcl1 as [(cf & Hcf & Hnl & _) _]. cbn [front] in Hhd.
    rewrite Hhd, (load_ok _ _ _ Hcf). bret. rewrite Hnl.
    destruct (IH h1 (A ++ B1 ++ [l ++ [e]]) B2) as (h' & r' & -> & Hinv' & Hsz' & Hr); try done.
    { by rewrite <- !app_assoc. }
    { rewrite length_app in Hf. simpl in Hf. lia. }
    rewrite <- !app_assoc in Hinv'. exists h', r'. split_and!; try done.
    { intros b. by rewrite Hsz', Hsz1. }
    destruct r' as [[v addr]|].
    + destruct Hr as (? & ? & ? & ?). rewrite Hsz1 in *. split_and!; try done.
      rewrite concat_app. cbn [concat]. set_solver.
    + apply Forall_app. split; [done|]. constructor.
      * intros e' He'. rewrite last_snoc in He'. by injection He' as <-.
      * eapply Forall_impl; [exact Hr|]. intros cl Hu e' He'. rewrite <- Hsz1. by apply Hu.
  - rewrite (upd_ok _ _ _ _ Hc1). bret.
    destruct (inv_touch _ _ _ _ _ _ _ (set_padding (align_addr (e + CHUNK_SZ) (2 ^ k) - (e + CHUNK_SZ)) (set_req_size requested c))
      Hinv1 He Hc1) as [Hinv2 Hsz2]; try done.
    eexists _, (Some (e, _)). split_and!; [done|exact Hinv2| | |done|lia|].
    + intros b. by rewrite Hsz2, Hsz1.
    + rewrite concat_app. cbn [concat]. set_solver.
    + eexists. cbn [mem]. rewrite lookup_insert_eq. split_and!; done.
Qed.

(** A block taken off the quick list and not yet an allocation: the heap
    between the removal of the victim and the return of [__malloc]. *)
Record carving (base limit : Z) (h : heap) (ll : list (list Z)) (al : gmap Z (Z * Z)) (v n req pad : Z) : Prop := {
  ca_base : 0 < base;
  ca_rep : rep h ll;
  ca_sorted : sorted (mem h) ll;
  ca_tiles : exists bl, tiles base bl limit /\ bl ≡ₚ (v, CHUNK_SZ + n) :: blocks (mem h) (concat ll) al;
  ca_alloc : forall p s n, al !! p = Some (s, n) -> alloc_hdr (mem h) p s n;
  ca_sep : forall p s n, al !! p = Some (s, n) -> p - CHUNK_SZ ∉ concat ll;
  ca_hdr : exists c, mem h !! v = Some c /\ sig c = CHUNK_SIG /\ size c = n /\ req_size c = req /\ padding_bytes c = pad;
  ca_fit : 0 <= req /\ 0 <= pad /\ pad + req <= n
}.

Section carving.
Context {base limit : Z} {h : heap} {ll : list (list Z)} {al : gmap Z (Z * Z)} {v n req pad : Z}.
Context (Hca : carving base limit h ll al v n req pad).

Lemma ca_apart b :
  b ∈ blocks (mem h) (concat ll) al ->
  (b.1 + b.2 <= v \/ v + CHUNK_SZ + n <= b.1) /\ base <= b.1 /\ CHUNK_SZ <= b.2.
Proof.
  destruct (ca_tiles _ _ _ _ _ _ _ _ _ Hca) as (bl & Ht & Hp). intros Hb.
  assert (Hin : b ∈ bl) by (rewrite Hp; by right). assert (Hv : (v, CHUNK_SZ + n) ∈ bl) by (rewrite Hp; by left).
  pose proof (tiles_nodup _ _ _ Ht) as Hnd. rewrite Hp in Hnd. simpl in Hnd. apply NoDup_cons in Hnd as [Hnd _].
  destruct b as [s k]. pose proof (tiles_bounds _ _ _ _ _ Ht Hin). simpl. split; [|lia].
  destruct (tiles_disjoint _ _ _ _ _ _ _ Ht Hin Hv) as [E|?]; [|lia].
  exfalso. apply Hnd. apply list_elem_of_fmap. exists (s, k). split; [exact (f_equal fst (eq_sym E))|done].
Qed.

Lemma ca_pos : 0 < v.
Proof.
  destruct (ca_tiles _ _ _ _ _ _ _ _ _ Hca) as (bl & Ht & Hp).
  assert (Hv : (v, CHUNK_SZ + n) ∈ bl) by (rewrite Hp; by left).
  pose proof (tiles_bounds _ _ _ _ _ Ht Hv). pose proof (ca_base _ _ _ _ _ _ _ _ _ Hca). lia.
Qed.

Lemma ca_free a : a ∈ concat ll -> 0 <= csize (mem h) a /\ (a + csize (mem h) a + CHUNK_SZ <= v \/ v + CHUNK_SZ + n <= a).
Proof. intros Ha. pose proof (ca_apart _ (blocks_free (mem h) _ al _ Ha)) as H. simpl in H. lia. Qed.

Lemma ca_live p s k : al !! p = Some (s, k) -> s <= p - CHUNK_SZ /\ p <= s + CHUNK_SZ + k /\ (s + k + CHUNK_SZ <= v \/ v + CHUNK_SZ + n <= s).
Proof.
  intros Hp. pose proof (ca_apart _ (blocks_alloc (mem h) (concat ll) _ _ _ _ Hp)) as H. simpl in H.
  pose proof (alloc_hdr_range _ _ _ _ (ca_alloc _ _ _ _ _ _ _ _ _ Hca _ _ _ Hp)). lia.
Qed.

(** Moving the header up to the user pointer completes the allocation. *)
Lemma carving_done c :
  mem h !! v = Some c ->
  let h' := if padding_bytes c =? 0 then h else store h (v + padding_bytes c) c in
  heap_inv base limit h' ll (<[v + CHUNK_SZ + pad := (v, n)]> al) /\
  al !! (v + CHUNK_SZ + pad) = None /\ (forall a, a ∈ concat ll -> csize (mem h') a = csize (mem h) a).
Proof.
  intros Hc h'. destruct (ca_hdr _ _ _ _ _ _ _ _ _ Hca) as (c0 & Hc0 & Hsig & Hsz & Hreq & Hpad).
  assert (c0 = c) as -> by congruence. pose proof (ca_fit _ _ _ _ _ _ _ _ _ Hca) as (? & ? & ?).
  assert (Hnew : mem h' !! (v + pad) = Some c).
  { unfold h'. rewrite Hpad. destruct (Z.eqb_spec pad 0) as [->|]; [by rewrite Z.add_0_r|apply store_eq]. }
  assert (Hfar : forall a, a + CHUNK_SZ <= v \/ v + CHUNK_SZ + n <= a -> mem h' !! a = mem h !! a).
  { intros a Ha. unfold h'. rewrite Hpad. destruct (Z.eqb_spec pad 0); [done|]. apply store_far. lia. }
  assert (HF : forall a, a ∈ concat ll -> mem h' !! a = mem h !! a).
  { intros a Ha. apply Hfar. pose proof (ca_free _ Ha). lia. }
  assert (HFs : forall a, a ∈ concat ll -> csize (mem h') a = csize (mem h) a) by (intros a Ha; unfold csize; by rewrite HF).
  assert (Hfresh : al !! (v + CHUNK_SZ + pad) = None).
  { destruct (al !! (v + CHUNK_SZ + pad)) as [[s k]|] eqn:E; [|done]. pose proof (ca_live _ _ _ E). unfold CHUNK_SZ in *; lia. }
  split_and!; try done. split; [apply (ca_base _ _ _ _ _ _ _ _ _ Hca)| | | |].
  - eapply rep_frame; [|symmetry; by apply HF|apply (ca_rep _ _ _ _ _ _ _ _ _ Hca)].
    unfold h'. destruct (_ =? _); done.
  - eapply sorted_ext; [|apply (ca_sorted _ _ _ _ _ _ _ _ _ Hca)]. intros; symmetry; auto.
  - destruct (ca_tiles _ _ _ _ _ _ _ _ _ Hca) as (bl & Ht & Hp). exists bl. split; [done|].
    by rewrite Hp, blocks_insert, (blocks_ext (mem h') (mem h)).
  - intros p s k [[<- [= <- <-]]|[Hne Hp]]%lookup_insert_Some.
    + exists c. replace (v + CHUNK_SZ + pad - CHUNK_SZ) with (v + pad) by lia. split_and!; try done; lia.
    + eapply alloc_hdr_frame; [|by apply (ca_alloc _ _ _ _ _ _ _ _ _ Hca)]. apply Hfar. pose proof (ca_live _ _ _ Hp). lia.
Qed.
End carving.

Lemma carve_remove base limit h ll al v c :
  heap_inv base limit h ll al -> v ∈ concat ll -> mem h !! v = Some c ->
  0 <= req_size c -> 0 <= padding_bytes c -> padding_bytes c + req_size c <= size c ->
  exists h2 h3 ll3, remove_chunk h v = Ret h2 /\ upd h2 v (set_sig CHUNK_SIG) = Ret h3 /\
    carving base limit h3 ll3 al v (size c) (req_size c) (padding_bytes c) /\
    concat ll ≡ₚ v :: concat ll3 /\ (forall a, csize (mem h3) a = csize (mem h) a).
Proof.
  intros Hinv Hv Hc H0 H1 H2.
  destruct (remove_sum h ll v (hi_rep _ _ _ _ _ Hinv) Hv) as (h2 & ll3 & Hr & Hrep2 & HP & Hd & Hf & Hs).
  destruct (same_data_lookup _ _ _ _ Hd Hc) as (c2 & Hc2 & Hdc). unfold data in Hdc.
  assert (Hnd : NoDup (v :: concat ll3)) by (rewrite <- HP; apply (free_nodup Hinv)). apply NoDup_cons in Hnd as [Hv3 _].
  exists h2. eexists _, ll3. split_and!; [done|exact (upd_ok _ _ _ _ Hc2)| |done|].
  2: { intros a. cbn [mem]. rewrite (csize_same _ _ a Hd). destruct (decide (v = a)) as [->|].
       - rewrite csize_insert_eq. unfold csize. by rewrite Hc2.
       - by rewrite csize_insert_ne. }
  assert (Hsz : forall a, a ∈ concat ll3 -> csize (<[v := set_sig CHUNK_SIG c2]> (mem h2)) a = csize (mem h) a).
  { intros a Ha. rewrite csize_insert_ne by (by intros ->). symmetry. by apply csize_same. }
  split; [apply (hi_base _ _ _ _ _ Hinv)| | | | | | |done].
  - eapply rep_frame; [..|exact Hrep2]; [done|]. intros a Ha. cbn [mem]. rewrite lookup_insert_ne; [done|by intros ->].
  - eapply sorted_ext; [|apply Hs, (hi_sorted _ _ _ _ _ Hinv)]. intros; symmetry; by apply Hsz.
  - destruct (hi_tiles _ _ _ _ _ Hinv) as (bl & Ht & Hbl). exists bl. split; [done|].
    rewrite Hbl, (blocks_perm _ _ _ _ HP), blocks_cons, (blocks_ext _ (mem h) _ _ Hsz).
    unfold csize at 1. by rewrite Hc.
  - intros p s n Hp. eapply alloc_hdr_frame; [|by apply (hi_alloc _ _ _ _ _ Hinv)]. cbn [mem].
    pose proof (alloc_hdr_not_free Hinv _ _ _ Hp) as Hnf. rewrite lookup_insert_ne; [by apply Hf|]. by intros ->.
  - intros p s n Hp Hin. apply (alloc_hdr_not_free Hinv _ _ _ Hp). rewrite HP. by right.
  - eexists. cbn [mem]. rewrite lookup_insert_eq. split; [done|]. cbn. split_and!; congruence.
Qed.

(** Splitting the block: the part beyond the request becomes a free chunk. *)
Lemma carve_split base limit h ll al v n req pad w :
  carving base limit h ll al v n req pad -> req + pad + CHUNK_SZ < n ->
  let remaining := v + CHUNK_SZ + req + pad in
  size w = n - req - CHUNK_SZ - pad ->
  exists h5 h6 ll6, upd (store h remaining w) v (set_size (req + pad)) = Ret h5 /\
    append_chunk h5 remaining = Ret h6 /\ carving base limit h6 ll6 al v (req + pad) req pad /\
    concat ll6 ≡ₚ remaining :: concat ll /\ csize (mem h6) remaining = n - req - CHUNK_SZ - pad /\
    (forall a, a ∈ concat ll -> csize (mem h6) a = csize (mem h) a).
Proof.
  intros Hca Hlt remaining Hw. destruct (ca_hdr _ _ _ _ _ _ _ _ _ Hca) as (c & Hc & Hsig & Hsz & Hreq & Hpad).
  pose proof (ca_fit _ _ _ _ _ _ _ _ _ Hca) as (? & ? & ?). pose proof (ca_pos Hca).
  assert (Hc4 : mem (store h remaining w) !! v = Some c) by (rewrite store_far by lia; done).
  eexists. rewrite (upd_ok _ _ _ _ Hc4). set (h5 := MkHeap _ _).
  assert (Hfar : forall a, a + CHUNK_SZ <= v \/ v + CHUNK_SZ + n <= a -> mem h5 !! a = mem h !! a).
  { intros a Ha. unfold h5. cbn [mem]. rewrite lookup_insert_ne by (unfold CHUNK_SZ in *; lia). apply store_far. unfold CHUNK_SZ in *; lia. }
  assert (Hc5 : mem h5 !! v = Some (set_size (req + pad) c)) by apply lookup_insert_eq.
  assert (Hr5 : mem h5 !! remaining = Some w).
  { unfold h5. cbn [mem]. rewrite lookup_insert_ne by (unfold CHUNK_SZ in *; lia). apply store_eq. }
  assert (HF : forall a, a ∈ concat ll -> mem h5 !! a = mem h !! a).
  { intros a Ha. apply Hfar. pose proof (ca_free Hca _ Ha). lia. }
  assert (HFs : forall a, a ∈ concat ll -> csize (mem h5) a = csize (mem h) a) by (intros a Ha; unfold csize; by rewrite HF).
  assert (Hni : remaining ∉ concat ll).
  { intros Ha. pose proof (ca_free Hca _ Ha). unfold CHUNK_SZ in *; lia. }
  assert (Hvn : v ∉ remaining :: concat ll).
  { intros [E|Ha]%elem_of_cons; [unfold CHUNK_SZ in *; lia|]. pose proof (ca_free Hca _ Ha). unfold CHUNK_SZ in *; lia. }
  destruct (append_sum h5 ll remaining w) as (h6 & ll6 & Heq & Hrep6 & HP & Hs6 & Hd & Hf); try done.
  { eapply rep_frame; [..|apply (ca_rep _ _ _ _ _ _ _ _ _ Hca)]; [done|]. intros; symmetry; auto. }
  { eapply sorted_ext; [|apply (ca_sorted _ _ _ _ _ _ _ _ _ Hca)]. intros; symmetry; auto. }
  { unfold NULL, CHUNK_SZ in *; lia. }
  exists h6, ll6. split; [done|]. split; [done|].
  assert (Hsep : forall p s k, al !! p = Some (s, k) -> p - CHUNK_SZ ∉ remaining :: concat ll).
  { intros p s k Hp. pose proof (ca_live Hca _ _ _ Hp).
    intros [E|Ha]%elem_of_cons; [unfold CHUNK_SZ in *; lia|]. by eapply (ca_sep _ _ _ _ _ _ _ _ _ Hca). }
  assert (Hs : forall a, a ∈ concat ll -> csize (mem h6) a = csize (mem h) a).
  { intros a Ha. rewrite <- (csize_same _ _ a Hd). auto. }
  assert (Hrs : csize (mem h6) remaining = size w) by (rewrite <- (csize_same _ _ _ Hd); unfold csize; by rewrite Hr5).
  split_and!; try done; [|lia]. split; [apply (ca_base _ _ _ _ _ _ _ _ _ Hca)|done|done| | | | |lia].
  - destruct (ca_tiles _ _ _ _ _ _ _ _ _ Hca) as (bl & Ht & Hbl).
    assert (Hin : (v, CHUNK_SZ + n) ∈ bl) by (rewrite Hbl; by left). apply list_elem_of_split in Hin as (X & Y & ->).
    replace (CHUNK_SZ + n) with ((CHUNK_SZ + (req + pad)) + (CHUNK_SZ + size w)) in * by lia.
    eexists. split; [eapply (tiles_split _ _ _ _ _ _ _ Ht); unfold CHUNK_SZ in *; lia|].
    rewrite (blocks_perm _ _ _ _ HP), blocks_cons, Hrs, (blocks_ext _ (mem h)) by done.
    rewrite <- !Permutation_middle. apply perm_skip.
    rewrite <- Permutation_middle in Hbl. apply Permutation_cons_inv in Hbl. rewrite Hbl.
    apply perm_skip_eq; [f_equal; lia|done].
  - intros p s k Hp. pose proof (ca_live Hca _ _ _ Hp). eapply alloc_hdr_frame; [|by apply (ca_alloc _ _ _ _ _ _ _ _ _ Hca)].
    rewrite Hf; [apply Hfar; lia|]. by eapply Hsep.
  - intros p s k Hp. rewrite HP. by eapply Hsep.
  - exists (set_size (req + pad) c). rewrite Hf by done. split_and!; done.
Qed.

Lemma coalesced_ext m m' F F' :
  F ≡ₚ F' -> (forall a, a ∈ F -> csize m' a = csize m a) -> coalesced m F -> coalesced m' F'.
Proof.
  intros HF Hs Hco a b. rewrite <- HF. intros Ha Hb. rewrite Hs by done. by apply Hco.
Qed.

(** [eff alignment]: the alignment [__malloc] works with. *)
Definition eff (alignment : Z) : Z := if alignment =? 0 then INT_SZ else alignment.

(** What [__malloc] returns: a null pointer, and then the chunk it looks at in
    every class is too small, or a fresh aligned pointer [addr] to [requested]
    bytes inside a new block; both ways the heap is well formed and coalesced. *)
Definition malloc_post (base limit : Z) (h : heap) (ll : list (list Z)) (al : gmap Z (Z * Z))
    (requested alignment : Z) (h' : heap) (addr : Z) : Prop :=
  exists ll', coalesced (mem h') (concat ll') /\
    (addr = NULL /\ heap_inv base limit h' ll' al /\ Forall (unfit (mem h) requested alignment) ll \/
     exists s n, addr <> NULL /\ addr mod alignment = 0 /\ al !! addr = None /\
       heap_inv base limit h' ll' (<[addr := (s, n)]> al) /\
       s + CHUNK_SZ <= addr /\ addr + requested <= s + CHUNK_SZ + n).

Lemma malloc_ok raw base limit h ll al requested alignment k :
  heap_inv base limit h ll al -> coalesced (mem h) (concat ll) ->
  0 <= requested -> 0 <= k -> eff alignment = 2 ^ k ->
  exists h' addr, __malloc raw h requested alignment = Ret (h', addr) /\ malloc_post base limit h ll al requested (2 ^ k) h' addr.
Proof.
  intros Hinv Hco Hreq Hk Heff. unfold __malloc. fold (eff alignment). rewrite Heff.
  pose proof (hi_rep _ _ _ _ _ Hinv) as Hrep. pose proof (rep_fuel _ _ Hrep) as Hfuel.
  pose proof Hrep as (Hq & Hseg & _). pose proof (length_classes _ (lseg_nonempty _ _ _ Hseg)) as Hlen.
  destruct (find_victim_ok (fuel_of h) base limit h [] ll al requested k) as (h1 & r & Heq & Hinv1 & Hsz1 & Hr);
    [done..|lia|]. cbn [app] in *. rewrite Hq, Heq. bret. destruct r as [[v addr]|].
  2: { exists h1, NULL. split; [done|]. exists ll. split; [apply (coalesced_ext (mem h) _ (concat ll)); [reflexivity|by intros|done]|]. by left. }
  destruct Hr as (Hv & Haddr & Hfit & c & Hc & Hcr & Hcp).
  pose proof (align_addr_spec (v + CHUNK_SZ) k Hk) as [Hal Hmod]. rewrite <- Haddr in *.
  assert (Hcs : size c = csize (mem h) v) by (rewrite <- Hsz1; unfold csize; by rewrite Hc).
  destruct (carve_remove _ _ _ _ _ v c Hinv1 Hv Hc) as (h2 & h3 & ll3 & -> & H3 & Hca & HP & Hsz3); [lia..|].
  bret. rewrite H3. bret. pose proof (ca_hdr _ _ _ _ _ _ _ _ _ Hca) as (c3 & Hc3 & Hsig3 & Hs3 & Hr3 & Hp3).
  rewrite (load_ok _ _ _ Hc3). bret. rewrite Hp3, Hs3, Hcp, Hcs.
  assert (Hnull : addr <> NULL) by (pose proof (free_pos Hinv1 _ Hv); unfold NULL, CHUNK_SZ in *; lia).
  assert (Hco3 : coalesced (mem h3) (v :: concat ll3)).
  { eapply coalesced_ext; [exact HP| |exact Hco]. intros. by rewrite Hsz3, Hsz1. }
  rewrite Hcr, Hcp, Hcs in Hca. set (pad := addr - (v + CHUNK_SZ)) in *.
  assert (Hend : v + CHUNK_SZ + pad = addr) by (unfold pad; lia).
  (* the two ends of the block, split or not *)
  assert (Hfin : forall h6 ll6 n, carving base limit h6 ll6 al v n requested pad -> coalesced (mem h6) (concat ll6) ->
    exists h' addr', (v0 ← load h6 v;
        let h := if padding_bytes v0 =? 0 then h6 else store h6 (v + padding_bytes v0) v0 in Ret (h, addr)) = Ret (h', addr') /\
      malloc_post base limit h ll al requested (2 ^ k) h' addr').
  { intros h6 ll6 n Hca6 Hco6. destruct (ca_hdr _ _ _ _ _ _ _ _ _ Hca6) as (c6 & Hc6 & _).
    pose proof (ca_fit _ _ _ _ _ _ _ _ _ Hca6) as (? & ? & ?).
    destruct (carving_done Hca6 c6 Hc6) as (Hinv' & Hnone & HF). rewrite Hend in *.
    rewrite (load_ok _ _ _ Hc6). bret. eexists _, addr. split; [reflexivity|]. exists ll6. split; [apply (coalesced_ext (mem h6) _ (concat ll6)); [reflexivity|exact HF|done]|].
    right. exists v, n. split_and!; try done; lia. }
  destruct (Z.ltb_spec (requested + pad + CHUNK_SZ) (csize (mem h) v)) as [Hlt|Hge].
  - set (w := set_padding 0 _).
    destruct (carve_split _ _ _ _ _ _ _ _ _ w Hca Hlt eq_refl) as (h5 & h6 & ll6 & -> & H6 & Hca6 & HP6 & Hrs & HF6).
    bret. rewrite H6. bret. apply (Hfin h6 ll6 (requested + pad)); [done|].
    intros a b. rewrite HP6.
    intros [->|Ha]%elem_of_cons [->|Hb]%elem_of_cons; rewrite ?Hrs, ?HF6 by done.
    + unfold CHUNK_SZ in *. lia.
    + specialize (Hco3 v b ltac:(by left) ltac:(by right)). rewrite Hsz3, Hsz1 in Hco3. lia.
    + pose proof (ca_free Hca _ Ha). unfold CHUNK_SZ in *; lia.
    + apply Hco3; by right.
  - bret. apply (Hfin h3 ll3 (csize (mem h) v)); [done|].
    intros a b Ha Hb. apply Hco3; by right.
Qed.

End HeapAlloc.
