(* ===== verification/HeapClient.v ===== *)
(** What the kernel heap promises to its clients (so3/mm/heap.c): any sequence
    of allocations and releases runs without a fault, gives disjoint aligned
    blocks, and leaks nothing. *)
From S2P Require Import Prelude Heap HeapLists HeapAlloc.
Import Heap HeapLists HeapAlloc.

Module HeapClient.

(** *** Heaps a client can bring about

    [live] maps the pointers the client holds to the sizes it asked for. *)
Inductive reachable (base hsz : Z) : heap -> gmap Z Z -> Prop :=
  | reach_init : reachable base hsz (heap_init base hsz) ∅
  | reach_alloc h live raw requested alignment k h' p :
      reachable base hsz h live -> 0 <= requested -> 0 <= k -> eff alignment = 2 ^ k ->
      __malloc raw h requested alignment = Ret (h', p) ->
      reachable base hsz h' (if p =? NULL then live else <[p := requested]> live)
  | reach_free h live p r h' :
      reachable base hsz h live -> live !! p = Some r -> free h p = Ret h' ->
      reachable base hsz h' (delete p live).

(** The ghost table of blocks agrees with what the client knows. *)
Definition agrees (al : gmap Z (Z * Z)) (live : gmap Z Z) : Prop :=
  forall p, match live !! p with
            | Some r => exists s n, al !! p = Some (s, n) /\ 0 <= r /\ s + CHUNK_SZ <= p /\ p + r <= s + CHUNK_SZ + n
            | None => al !! p = None
            end.

Lemma agrees_live al live p r :
  agrees al live -> live !! p = Some r ->
  exists s n, al !! p = Some (s, n) /\ 0 <= r /\ s + CHUNK_SZ <= p /\ p + r <= s + CHUNK_SZ + n.
Proof. intros H Hp. specialize (H p). by rewrite Hp in H. Qed.

Lemma heap_reachable_inv base hsz h live :
  0 < base -> CHUNK_SZ <= hsz -> reachable base hsz h live ->
  exists ll al, heap_inv base (base + hsz) h ll al /\ coalesced (mem h) (concat ll) /\ agrees al live.
Proof.
  intros Hb Hh. induction 1 as [|h live raw req a k h' p _ IH Hreq Hk Heff Heq|h live p r h' _ IH Hp Heq].
  - destruct (heap_init_inv base hsz Hb Hh) as [Hi Hc]. exists [[base]], ∅. split_and!; done.
  - destruct IH as (ll & al & Hi & Hc & Hag).
    destruct (malloc_ok raw _ _ _ _ _ _ _ _ Hi Hc Hreq Hk Heff) as (h1 & p1 & Heq1 & ll' & Hc' & Hr).
    rewrite Heq in Heq1. injection Heq1 as <- <-. destruct Hr as [(-> & Hi' & _)|(s & n & Hz & _ & Hnone & Hi' & H1 & H2)].
    + rewrite Z.eqb_refl. eauto.
    + destruct (Z.eqb_spec p NULL); [done|]. eexists ll', _. split_and!; [exact Hi'|done|].
      intros q. destruct (decide (p = q)) as [<-|].
      * rewrite !lookup_insert_eq. exists s, n. done.
      * rewrite !lookup_insert_ne by done. apply Hag.
  - destruct IH as (ll & al & Hi & Hc & Hag). destruct (agrees_live _ _ _ _ Hag Hp) as (s & n & Hal & _).
    destruct (free_ok _ _ _ _ _ _ _ _ Hi Hc Hal) as (h1 & ll' & Heq1 & Hi' & Hc' & _).
    rewrite Heq in Heq1. injection Heq1 as <-. eexists ll', _. split_and!; [exact Hi'|done|].
    intros q. destruct (decide (p = q)) as [<-|].
    + by rewrite !lookup_delete_eq.
    + rewrite !lookup_delete_ne by done. apply Hag.
Qed.

(** C1: after any sequence of allocations with a power-of-two alignment and releases of
    live pointers, live payloads lie inside the heap region, each with its header in front,
    and any two of them, headers included, are disjoint; no block of the free list, header
    included, overlaps a live payload or its header; every further allocation with a
    power-of-two alignment returns, and every live pointer can be released. *)
Theorem heap_safety base hsz h live :
  0 < base -> CHUNK_SZ <= hsz -> reachable base hsz h live ->
  (forall p r, live !! p = Some r -> base + CHUNK_SZ <= p /\ p + r <= base + hsz /\ is_Some (mem h !! (p - CHUNK_SZ))) /\
  (forall p r q r', live !! p = Some r -> live !! q = Some r' -> p <> q ->
     p + r <= q - CHUNK_SZ \/ q + r' <= p - CHUNK_SZ) /\
  (exists ll, rep h ll /\ forall p r a, live !! p = Some r -> a ∈ concat ll ->
     p + r <= a \/ a + CHUNK_SZ + csize (mem h) a <= p - CHUNK_SZ) /\
  (forall raw requested alignment k, 0 <= requested -> 0 <= k -> eff alignment = 2 ^ k ->
     exists h' p, __malloc raw h requested alignment = Ret (h', p)) /\
  (forall p r, live !! p = Some r -> exists h', free h p = Ret h').
Proof.
  intros Hb Hh (ll & al & Hi & Hc & Hag)%heap_reachable_inv; [|done..]. split_and!.
  - intros p r (s & n & Hal & ? & ? & ?)%(agrees_live _ _ _ _ Hag). destruct (hi_alloc _ _ _ _ _ Hi _ _ _ Hal) as (c & Hcp & _).
    pose proof (inv_bounds Hi _ (blocks_alloc (mem h) (concat ll) _ _ _ _ Hal)) as H3. simpl in H3. split_and!; [lia|lia|by eexists].
  - intros p r q r' (s & n & Hal & ? & ? & ?)%(agrees_live _ _ _ _ Hag) (s' & n' & Hal' & ? & ? & ?)%(agrees_live _ _ _ _ Hag) Hne.
    pose proof (alloc_alloc Hi _ _ _ _ _ _ Hal Hal' Hne). lia.
  - exists ll. split; [apply (hi_rep _ _ _ _ _ Hi)|]. intros p r a (s & n & Hal & ? & ? & ?)%(agrees_live _ _ _ _ Hag) Ha.
    pose proof (free_alloc Hi _ _ _ _ Ha Hal). lia.
  - intros raw req a k Hreq Hk Heff. destruct (malloc_ok raw _ _ _ _ _ _ _ _ Hi Hc Hreq Hk Heff) as (h' & p & ? & _). eauto.
  - intros p r (s & n & Hal & _)%(agrees_live _ _ _ _ Hag).
    destruct (free_ok _ _ _ _ _ _ _ _ Hi Hc Hal) as (h' & ? & ? & _). eauto.
Qed.

(** *** Nothing leaks *)
Lemma sum_chunks_ok fuel h hd nl l acc :
  cseg (mem h) hd nl l NULL -> Forall (fun a => a <> NULL) l -> (length l < fuel)%nat ->
  sum_chunks fuel h (front l NULL) acc = Ret (foldl (fun acc a => u32 (acc + csize (mem h) a)) acc l).
Proof.
  revert nl fuel acc. induction l as [|a l IH]; intros nl fuel acc Hs Hz Hf; (destruct fuel as [|fuel]; [simpl in Hf; lia|]); [done|].
  apply Forall_cons in Hz as [Ha Hz]. destruct Hs as [(c & Hc & _ & Hn & _) Hr]. cbn [sum_chunks front foldl].
  destruct (Z.eqb_spec a NULL); [done|]. rewrite (load_ok _ _ _ Hc). bret. rewrite Hn.
  rewrite (IH NULL) by (done || (simpl in Hf; lia)). unfold csize at 3. by rewrite Hc.
Qed.

Lemma sum_lists_ok fuel h ll acc :
  lseg (mem h) ll NULL -> Forall (fun a => a <> NULL) (concat ll) ->
  (length (concat ll) < fuel_of h)%nat -> (length ll < fuel)%nat ->
  sum_lists fuel h (lfront ll NULL) acc = Ret (foldl (fun acc a => u32 (acc + csize (mem h) a)) acc (concat ll)).
Proof.
  revert fuel acc. induction ll as [|cl ll IH]; intros fuel acc Hs Hz Hlen Hf; (destruct fuel as [|fuel]; [simpl in Hf; lia|]); [done|].
  destruct Hs as (Hne & Hc & Hr). cbn [concat] in *. apply Forall_app in Hz as [Hzc Hz]. rewrite length_app in Hlen.
  destruct cl as [|a cl]; [done|]. rewrite foldl_app. cbn [sum_lists lfront front].
  destruct (Z.eqb_spec a NULL); [by apply Forall_cons in Hzc as [? _]|].
  pose proof (sum_chunks_ok (fuel_of h) h a _ (a :: cl) acc Hc Hzc ltac:(lia)) as E. cbn [front] in E. rewrite E. bret.
  destruct Hc as [(c & Hc & Hl & _) _]. rewrite (load_ok _ _ _ Hc). bret. rewrite Hl.
  apply IH; (done || simpl in Hf; lia).
Qed.

Lemma u32_u32 x y : u32 (u32 x + y) = u32 (x + y).
Proof. unfold u32, wrap. by rewrite Zplus_mod_idemp_l. Qed.

(** [heap_size] is the 32-bit sum of the free sizes. *)
Lemma heap_size_ok h ll :
  rep h ll -> heap_size h = Ret (u32 (foldr Z.add 0 (csize (mem h) <$> concat ll))).
Proof.
  intros Hrep. pose proof (rep_fuel _ _ Hrep) as Hf. destruct Hrep as (Hq & Hs & _ & Hz).
  unfold heap_size. rewrite Hq, sum_lists_ok; [|done..|pose proof (length_classes _ (lseg_nonempty _ _ _ Hs)); lia].
  f_equal. generalize (concat ll) as F. intros F.
  enough (forall acc, foldl (fun acc a => u32 (acc + csize (mem h) a)) (u32 acc) F = u32 (acc + foldr Z.add 0 (csize (mem h) <$> F))) as H.
  { apply (H 0). }
  induction F as [|a F IH]; intros acc; [simpl; f_equal; lia|]. cbn [foldl fmap list_fmap foldr].
  rewrite u32_u32, IH. f_equal. unfold fmap. lia.
Qed.

(** A coalesced tiling by free blocks only is one block. *)
Lemma coalesced_single base limit h ll :
  heap_inv base limit h ll ∅ -> coalesced (mem h) (concat ll) -> base < limit ->
  concat ll = [base] /\ csize (mem h) base = limit - base - CHUNK_SZ.
Proof.
  intros Hi Hc Hlt. destruct (hi_tiles _ _ _ _ _ Hi) as (bl & Ht & Hp).
  unfold blocks in Hp. rewrite map_to_list_empty, app_nil_r in Hp.
  destruct bl as [|[s n] bl]; [simpl in Ht; lia|]. destruct Ht as (-> & Hn & Ht).
  destruct bl as [|[s' n'] bl].
  - simpl in Ht. apply Permutation_singleton_l in Hp. destruct (concat ll) as [|a [|? ?]]; try done.
    simpl in Hp. injection Hp as Ha Hn'. subst a. split; [done|]. lia.
  - exfalso. destruct Ht as (-> & _).
    assert (H1 : (base, n) ∈ (fun a => (a, CHUNK_SZ + csize (mem h) a)) <$> concat ll) by (rewrite <- Hp; by left).
    assert (H2 : (base + n, n') ∈ (fun a => (a, CHUNK_SZ + csize (mem h) a)) <$> concat ll) by (rewrite <- Hp; right; by left).
    apply list_elem_of_fmap in H1 as (a & [= -> ->] & Ha), H2 as (b & [= <- _] & Hb).
    apply (Hc _ _ Ha Hb). lia.
Qed.

(** C2: when the client has released everything it ever allocated, in whatever
    order, the heap is one free chunk covering the whole region again, and
    [heap_size] reports all of it (as a 32-bit count). *)
Theorem heap_no_leak base hsz h :
  0 < base -> CHUNK_SZ <= hsz -> reachable base hsz h ∅ ->
  quick_list h = base /\ csize (mem h) base = hsz - CHUNK_SZ /\ heap_size h = Ret (u32 (hsz - CHUNK_SZ)).
Proof.
  intros Hb Hh (ll & al & Hi & Hc & Hag)%heap_reachable_inv; [|done..].
  assert (al = ∅) as ->. { apply map_eq. intros p. specialize (Hag p). by rewrite lookup_empty in *. }
  destruct (coalesced_single _ _ _ _ Hi Hc) as [HF Hs]; [unfold CHUNK_SZ in *; lia|].
  pose proof (hi_rep _ _ _ _ _ Hi) as Hrep. rewrite (heap_size_ok _ _ Hrep), HF. simpl. rewrite Hs.
  split_and!; [|lia|do 2 f_equal; lia]. destruct Hrep as (-> & Hs' & _). pose proof (lseg_nonempty _ _ _ Hs') as Hne.
  destruct ll as [|[|a r] ll]; [done|by apply Forall_cons in Hne as [? _]|]. by injection HF as ->.
Qed.

(** *** The operations one by one *)

(** C3: [memalign] (and [malloc], with alignment 0) on a well-formed heap always
    returns.  A non-null result is aligned, was not live before, and heads a
    new block [s, s + CHUNK_SZ + n) of the tiling with room for the
    [requested] bytes behind it.  It is null only when, in every size class,
    the chunk the search looks at (the last) is too small for the request
    plus its alignment padding. *)
Theorem memalign_correct raw base limit h ll al requested alignment k :
  heap_inv base limit h ll al -> coalesced (mem h) (concat ll) ->
  0 <= requested -> 0 <= k -> eff alignment = 2 ^ k ->
  exists h' p ll', memalign raw h requested alignment = Ret (h', p) /\ coalesced (mem h') (concat ll') /\
    (p = NULL /\ heap_inv base limit h' ll' al /\
       (forall cl e, cl ∈ ll -> last cl = Some e ->
          csize (mem h) e < align_addr (e + CHUNK_SZ) (2 ^ k) - (e + CHUNK_SZ) + requested) \/
     exists s n, p <> NULL /\ p mod 2 ^ k = 0 /\ al !! p = None /\
       heap_inv base limit h' ll' (<[p := (s, n)]> al) /\
       s + CHUNK_SZ <= p /\ p + requested <= s + CHUNK_SZ + n).
Proof.
  intros Hi Hc Hr Hk He. destruct (malloc_ok raw _ _ _ _ _ _ _ _ Hi Hc Hr Hk He) as (h' & p & Heq & ll' & Hc' & Hp).
  exists h', p, ll'. split_and!; try done. destruct Hp as [(-> & Hi' & Hu)|Hp]; [left|by right].
  split_and!; try done. rewrite Forall_forall in Hu. intros cl e Hcl He'. by apply (Hu cl).
Qed.

(** releasing a live pointer returns, takes exactly that block out of the
    live ones, keeps the heap well formed and leaves no two adjacent free
    chunks.  Releasing null does nothing; releasing the same pointer twice stops
    the kernel whenever its header was not overwritten by the block's own
    (alignment padding of 0 or of at least a header). *)
Theorem free_correct base limit h ll al p s n :
  heap_inv base limit h ll al -> coalesced (mem h) (concat ll) -> al !! p = Some (s, n) ->
  free h NULL = Ret h /\
  exists h' ll', free h p = Ret h' /\ heap_inv base limit h' ll' (delete p al) /\ coalesced (mem h') (concat ll') /\
    (s = p - CHUNK_SZ \/ s + CHUNK_SZ <= p - CHUNK_SZ -> free h' p = Fault Panic).
Proof.
  intros Hi Hc Hp. split; [done|]. destruct (free_ok _ _ _ _ _ _ _ _ Hi Hc Hp) as (h' & ll' & Heq & Hi' & Hc' & Hs).
  exists h', ll'. split_and!; try done. intros Hpad. specialize (Hs Hpad).
  destruct (mem h' !! (p - CHUNK_SZ)) as [c|] eqn:E; [|done]. injection Hs as Hs.
  assert (p <> NULL).
  { pose proof (alloc_hdr_range _ _ _ _ (hi_alloc _ _ _ _ _ Hi _ _ _ Hp)). pose proof (hi_base _ _ _ _ _ Hi).
    pose proof (inv_bounds Hi _ (blocks_alloc (mem h) (concat ll) _ _ _ _ Hp)) as Hb. simpl in Hb. unfold NULL, CHUNK_SZ in *. lia. }
  unfold free. destruct (Z.eqb_spec p NULL); [done|]. rewrite (load_ok _ _ _ E). bret. by rewrite Hs.
Qed.

(** [calloc] of [nmemb * size] bytes, when the product does not overflow a
    [size_t], returns null or a fresh block of at least that many bytes, all of
    them zero, and changes no other byte.  ([calloc_overflow] below is
    the other case.) *)
Theorem calloc_correct raw base limit h ll al b nmemb size :
  heap_inv base limit h ll al -> coalesced (mem h) (concat ll) ->
  0 <= nmemb -> 0 <= size -> nmemb * size < 2 ^ 64 ->
  exists h' b' p ll', calloc raw (h, b) nmemb size = Ret (h', b', p) /\ coalesced (mem h') (concat ll') /\
    (p = NULL /\ heap_inv base limit h' ll' al /\ b' = b \/
     exists s n, al !! p = None /\ heap_inv base limit h' ll' (<[p := (s, n)]> al) /\
       s + CHUNK_SZ <= p /\ p + nmemb * size <= s + CHUNK_SZ + n /\
       (forall a, b' a = if decide (p <= a < p + nmemb * size) then 0 else b a)).
Proof.
  intros Hi Hc Hn Hs Hlt. unfold calloc, malloc, u64. rewrite wrap_small by (unfold in_word; lia). cbn [fst snd].
  destruct (malloc_ok raw base limit h ll al (nmemb * size) 0 2 Hi Hc) as (h' & p & -> & ll' & Hc' & Hp); [lia|done..|].
  bret. destruct Hp as [(-> & Hi' & _)|(s & n & Hz & _ & Hnone & Hi' & H1 & H2)].
  - rewrite Z.eqb_refl. exists h', b, NULL, ll'. split_and!; try done. by left.
  - destruct (Z.eqb_spec p NULL); [done|]. eexists h', _, p, ll'. split_and!; try done. right.
    exists s, n. split_and!; try done. intros a. unfold memset.
    case_decide; cmp_cases; simpl; lia || done.
Qed.

(** [calloc] does not detect an overflowing product: for 2^63 elements of 2
    bytes it succeeds with a block of zero bytes, and clears none. *)
Theorem calloc_overflow :
  exists h' b' p, calloc (fun _ => Chunk 0 0 0 0 0 0 0) (heap_init 4096 1048576, fun _ => 7) (2 ^ 63) 2 = Ret (h', b', p) /\
    p <> NULL /\ csize (mem h') (p - CHUNK_SZ) = 0 /\ b' p = 7.
Proof. eexists _, _, _. split; [vm_compute; reflexivity|]. vm_compute. by split_and!. Qed.

(** *** Concrete runs *)
Definition blank (_ : Z) : mem_chunk := Chunk 0 0 0 0 0 0 0.
Definition heap0 : heap := heap_init 4096 65536.
(** The heap after one 100-byte allocation, and its pointer. *)
Definition heap1 : heap := match malloc blank heap0 100 with Ret (h, _) => h | _ => heap0 end.
Definition heap2 : heap := match free heap1 4152 with Ret h => h | _ => heap0 end.

Lemma heap1_reachable : reachable 4096 65536 heap1 {[4152 := 100]}.
Proof.
  apply (reach_alloc 4096 65536 heap0 ∅ blank 100 0 2 heap1 4152); [apply reach_init|lia|lia|done|].
  vm_compute. reflexivity.
Defined.

Lemma heap2_reachable : reachable 4096 65536 heap2 ∅.
Proof.
  replace (∅ : gmap Z Z) with (delete 4152 ({[4152 := 100]} : gmap Z Z)) by (vm_compute; reflexivity).
  apply (reach_free 4096 65536 heap1 {[4152 := 100]} 4152 100 heap2); [apply heap1_reachable|done|].
  vm_compute. reflexivity.
Defined.

Lemma heap_safety_witness :
  reachable 4096 65536 heap1 {[4152 := 100]} /\ exists h', free heap1 4152 = Ret h'.
Proof.
  split; [apply heap1_reachable|].
  destruct (heap_safety 4096 65536 heap1 {[4152 := 100]} ltac:(lia) ltac:(unfold CHUNK_SZ; lia) heap1_reachable) as (_ & _ & _ & _ & H).
  apply (H 4152 100). reflexivity.
Defined.

Lemma heap_no_leak_witness :
  reachable 4096 65536 heap2 ∅ /\ heap_size heap2 = Ret (u32 (65536 - CHUNK_SZ)).
Proof.
  split; [apply heap2_reachable|].
  apply (heap_no_leak 4096 65536 heap2 ltac:(lia) ltac:(unfold CHUNK_SZ; lia) heap2_reachable).
Defined.

Lemma memalign_correct_witness :
  exists h' p ll', memalign blank heap0 100 64 = Ret (h', p) /\ coalesced (mem h') (concat ll').
Proof.
  destruct (heap_init_inv 4096 65536 ltac:(lia) ltac:(unfold CHUNK_SZ; lia)) as [Hi Hc].
  destruct (memalign_correct blank 4096 _ heap0 [[4096]] ∅ 100 64 6 Hi Hc ltac:(lia) ltac:(lia) eq_refl) as (h' & p & ll' & H & H' & _).
  eauto.
Defined.

Lemma free_correct_witness : exists h', free heap1 4152 = Ret h' /\ free h' 4152 = Fault Panic.
Proof.
  destruct (heap_init_inv 4096 65536 ltac:(lia) ltac:(unfold CHUNK_SZ; lia)) as [Hi Hc].
  destruct (malloc_ok blank _ _ _ _ _ 100 0 2 Hi Hc ltac:(lia) ltac:(lia) eq_refl) as (h' & p & Heq & ll' & Hc' & Hr).
  assert (Hcalc : __malloc blank heap0 100 0 = Ret (heap1, 4152)) by (vm_compute; reflexivity).
  assert (E : (heap1, 4152) = (h', p)) by (unfold heap0 in Hcalc; congruence). injection E as <- <-.
  destruct Hr as [(? & _)|(s & n & _ & _ & _ & Hi' & _)]; [done|].
  assert (Hp : (<[4152 := (s, n)]> ∅ : gmap Z (Z * Z)) !! 4152 = Some (s, n)) by apply lookup_insert_eq.
  assert (Hs : s = 4096).
  { destruct (hi_alloc _ _ _ _ _ Hi' _ _ _ Hp) as (c & Hc1 & _ & _ & Hpad & _). vm_compute in Hc1.
    injection Hc1 as <-. cbn [padding_bytes] in Hpad. unfold CHUNK_SZ in *. lia. }
  destruct (free_correct _ _ _ _ _ _ _ _ Hi' Hc' Hp) as (_ & h2 & ll2 & Hf & _ & _ & Hd).
  exists h2. split; [done|]. apply Hd. left. unfold CHUNK_SZ. lia.
Defined.

Lemma calloc_correct_witness :
  exists h' b' p, calloc blank (heap0, fun _ => 7) 10 10 = Ret (h', b', p).
Proof.
  destruct (heap_init_inv 4096 65536 ltac:(lia) ltac:(unfold CHUNK_SZ; lia)) as [Hi Hc].
  destruct (calloc_correct blank 4096 _ heap0 [[4096]] ∅ (fun _ => 7) 10 10 Hi Hc ltac:(lia) ltac:(lia) ltac:(lia)) as (h' & b' & p & ll' & H & _).
  eauto.
Defined.

End HeapClient.
