(* ===== verification/Frames.v ===== *)
(** Physical page frames and I/O mappings (so3/mm/memory.c).

    [Frames] models the frame table: one [page] per frame from [pfn_start] on,
    searched round-robin for single pages and first-fit for contiguous runs.
    [IoMap] models the list of I/O mappings kept in virtual-address order.
    [ft_lock] makes each frame operation atomic.  Indexing the frame table out
    of its bounds is [Undef]. *)
From S2P Require Import Prelude.

Definition PAGE_SHIFT : Z := 12.
Definition PAGE_SIZE : Z := Z.shiftl 1 PAGE_SHIFT.
(** [ALIGN_UP(addr, size)], on [unsigned long] operands. *)
Definition ALIGN_UP (addr size : Z) : Z := Z.land (u64 (addr + (size - 1))) (wnot 64 (size - 1)).
(** [addr & PAGE_MASK] *)
Definition page_base (addr : Z) : Z := Z.land addr (wnot 64 (PAGE_SIZE - 1)).
Definition page_off (addr : Z) : Z := Z.land addr (PAGE_SIZE - 1).

(** Arithmetic on page sizes and words. *)
Ltac pglia :=
  unfold in_word in *; change PAGE_SIZE with 4096 in *; change (2 ^ 64) with 18446744073709551616 in *;
  change (2 ^ 32) with 4294967296 in *; change (2 ^ 12) with 4096 in *; Z.to_euclidean_division_equations; nia.

Ltac plia := change PAGE_SIZE with 4096 in *; change (2 ^ 64) with 18446744073709551616 in *; lia.

Lemma page_base_spec a : in_word 64 a -> page_base a = a / PAGE_SIZE * PAGE_SIZE.
Proof.
  intros Ha. apply (word_eq 64); [lia| | |].
  - unfold page_base, wnot. rewrite Z.land_assoc. apply in_word_land_ones. lia.
  - pglia.
  - intros j Hj. unfold page_base. rewrite Z.land_spec, wnot_spec by lia.
    change (PAGE_SIZE - 1) with (Z.ones 12). rewrite testbit_ones by lia.
    change PAGE_SIZE with (2 ^ 12). rewrite <- Z.shiftr_div_pow2, <- Z.shiftl_mul_pow2 by lia.
    rewrite Z.shiftl_spec by lia. destruct (Z.ltb_spec j 12); simpl.
    + rewrite andb_false_r, Z.testbit_neg_r by lia. done.
    + rewrite andb_true_r, Z.shiftr_spec by lia. f_equal. lia.
Qed.

Lemma page_off_spec a : 0 <= a -> page_off a = a mod PAGE_SIZE.
Proof. intros. unfold page_off. change (PAGE_SIZE - 1) with (Z.ones 12). by rewrite Z.land_ones by lia. Qed.

Lemma ALIGN_UP_spec a :
  0 <= a -> a + PAGE_SIZE <= 2 ^ 64 -> ALIGN_UP a PAGE_SIZE = (a + (PAGE_SIZE - 1)) / PAGE_SIZE * PAGE_SIZE.
Proof.
  intros H0 H1. unfold ALIGN_UP, u64. rewrite wrap_small by pglia.
  apply (page_base_spec (a + (PAGE_SIZE - 1))). pglia.
Qed.

Module Frames.

Record page := Page { free : bool; refcount : Z }.

Record frames := MkFrames {
  frame_table : list page;
  avail_pages : Z;
  pfn_start : Z;
  next_free_page : Z   (* the static __next_free_page *)
}.

(** *** Addresses and frames (include/memory.h) *)
Definition pfn_to_phys (pfn : Z) : Z := u64 (Z.shiftl pfn PAGE_SHIFT).
Definition phys_to_pfn (phys : Z) : Z := Z.shiftr phys PAGE_SHIFT.
Definition page_to_pfn (f : frames) (i : Z) : Z := u64 (i + pfn_start f).
Definition pfn_to_page (f : frames) (pfn : Z) : Z := pfn - pfn_start f.
Definition page_to_phys (f : frames) (i : Z) : Z := pfn_to_phys (page_to_pfn f i).
Definition phys_to_page (f : frames) (phys : Z) : Z := pfn_to_page f (phys_to_pfn phys).

Definition get (f : frames) (i : Z) : outcome page :=
  if i <? 0 then Fault Undef else deref (frame_table f !! Z.to_nat i).
Definition set_free (b : bool) (p : page) : page := Page b (refcount p).
(** [frame_table[i].free = b;] *)
Definition put (f : frames) (i : Z) (b : bool) : outcome frames :=
  p ← get f i;
  Ret (MkFrames (<[Z.to_nat i := set_free b p]> (frame_table f)) (avail_pages f) (pfn_start f) (next_free_page f)).

(** *** Single pages *)
Fixpoint free_page_loop (fuel : nat) (f : frames) (loop_mark : Z) : outcome (frames * Z) :=
  match fuel with
  | O => Fault Hang
  | S fuel' =>
      p ← get f (next_free_page f);
      if free p then
        f ← put f (next_free_page f) false;
        Ret (f, page_to_phys f (next_free_page f))
      else
        let n := u32 (next_free_page f + 1) mod avail_pages f in
        let f := MkFrames (frame_table f) (avail_pages f) (pfn_start f) n in
        if n =? loop_mark then Ret (f, 0) else free_page_loop fuel' f loop_mark
  end.
Definition get_free_page (f : frames) : outcome (frames * Z) :=
  free_page_loop (length (frame_table f)) f (next_free_page f).

Definition free_page (f : frames) (paddr : Z) : outcome frames := put f (phys_to_page f paddr) true.

(** *** Contiguous pages *)
(** [for (i = 0; i < nrpages; i++) frame_table[base+i].free = b;] *)
Fixpoint put_range (n : nat) (f : frames) (base : Z) (b : bool) : outcome frames :=
  match n with
  | O => Ret f
  | S n' => f ← put f base b; put_range n' f (base + 1) b
  end.

(** The search loop, at index [i] with [k] iterations to go. *)
Fixpoint contig_loop (k : nat) (f : frames) (i base nrpages : Z) : outcome (frames * Z) :=
  match k with
  | O => Ret (f, 0)
  | S k' =>
      p ← get f i;
      if free p then
        if u32 (i - base + 1) =? nrpages then
          f ← put_range (Z.to_nat nrpages) f base false;
          Ret (f, page_to_phys f base)
        else contig_loop k' f (i + 1) base nrpages
      else contig_loop k' f (i + 1) (i + 1) nrpages
  end.
Definition get_contig_free_pages (f : frames) (nrpages : Z) : outcome (frames * Z) :=
  contig_loop (Z.to_nat (avail_pages f)) f 0 0 nrpages.

Definition free_contig_pages (f : frames) (paddr nrpages : Z) : outcome frames :=
  put_range (Z.to_nat nrpages) f (phys_to_page f paddr) true.

(** *** Initialisation *)
(** [sizeof(page_t)]: a byte and a 32-bit counter. *)
Definition PAGE_T_SZ : Z := 8.

(** [ft_start] is [__pa(frame_table_start)]; yields the table and
    [kernel_size].  [next_free_page] is the static's initial value. *)
Definition frame_table_init (phys_base mem_size ft_start : Z) : frames * Z :=
  let ft_phys := ALIGN_UP ft_start PAGE_SIZE in
  let avail := u32 (Z.shiftr (ALIGN_UP (u64 (mem_size - u64 (ft_phys - phys_base))) PAGE_SIZE) PAGE_SHIFT) in
  let ft_length := u32 (avail * PAGE_T_SZ) in
  let ft_pages := u32 (Z.shiftr (ALIGN_UP ft_length PAGE_SIZE) PAGE_SHIFT) in
  let table := replicate (Z.to_nat ft_pages) (Page false 1) ++
               replicate (Z.to_nat (avail - ft_pages)) (Page true 0) in
  let ft_pfn_end := u64 (Z.shiftr ft_phys PAGE_SHIFT + ft_pages - 1) in
  let kernel_size := u32 (u64 (Z.shiftl (ft_pfn_end + 1) PAGE_SHIFT) - phys_base) in
  (MkFrames table avail (Z.shiftr ft_phys PAGE_SHIFT) 0, kernel_size).

(** *** Well-formed frame tables *)
Record wf (f : frames) : Prop := {
  wf_len : Z.of_nat (length (frame_table f)) = avail_pages f;
  wf_avail : 0 < avail_pages f < 2 ^ 32;
  wf_start : 0 < pfn_start f /\ (pfn_start f + avail_pages f) * PAGE_SIZE <= 2 ^ 64;
  wf_next : 0 <= next_free_page f < avail_pages f
}.

(** Frame [i] is free. *)
Definition is_free (f : frames) (i : Z) : bool :=
  if i <? 0 then false else match frame_table f !! Z.to_nat i with Some p => free p | None => false end.

Lemma page_to_phys_eq f i : wf f -> 0 <= i < avail_pages f -> page_to_phys f i = (pfn_start f + i) * PAGE_SIZE.
Proof.
  intros [_ ? [? ?] _] Hi. unfold page_to_phys, pfn_to_phys, page_to_pfn, u64, PAGE_SHIFT.
  rewrite (wrap_small 64 (i + pfn_start f)) by pglia.
  rewrite Z.shiftl_mul_pow2 by lia. rewrite wrap_small by pglia. pglia.
Qed.

Lemma phys_to_page_to_phys f i : wf f -> 0 <= i < avail_pages f -> phys_to_page f (page_to_phys f i) = i.
Proof.
  intros Hw Hi. unfold phys_to_page. rewrite page_to_phys_eq by done. unfold phys_to_pfn, pfn_to_page, PAGE_SIZE, PAGE_SHIFT.
  rewrite Z.shiftr_div_pow2, Z.shiftl_1_l, Z_div_mult by lia. lia.
Qed.

Lemma page_to_phys_pos f i : wf f -> 0 <= i < avail_pages f -> page_to_phys f i <> 0.
Proof.
  intros Hw Hi. rewrite page_to_phys_eq by done. destruct Hw as [_ _ [? _] _]. pglia.
Qed.

Lemma get_ok f i : wf f -> 0 <= i < avail_pages f -> exists p, get f i = Ret p /\ free p = is_free f i.
Proof.
  intros [Hl _ _ _] Hi. unfold get, is_free. destruct (Z.ltb_spec i 0); [lia|].
  destruct (lookup_lt_is_Some_2 (frame_table f) (Z.to_nat i)) as [p Hp]; [lia|]. rewrite Hp. eauto.
Qed.

(** [same_but f f' P b]: [f'] is [f] with [free = b] on the frames in [P]. *)
Definition updated (f f' : frames) (P : Z -> Prop) `{forall i, Decision (P i)} (b : bool) : Prop :=
  avail_pages f' = avail_pages f /\ pfn_start f' = pfn_start f /\ wf f' /\
  forall i, 0 <= i < avail_pages f -> is_free f' i = if decide (P i) then b else is_free f i.

Lemma put_ok f i b :
  wf f -> 0 <= i < avail_pages f -> exists f', put f i b = Ret f' /\ updated f f' (fun j => j = i) b /\ next_free_page f' = next_free_page f.
Proof.
  intros Hw Hi. destruct (get_ok f i Hw Hi) as (p & Hp & _). unfold put. rewrite Hp. bret.
  eexists. split; [done|]. split; [|done]. split; [done|]. split; [done|].
  destruct Hw as [Hl ? ? ?]. split; [split; simpl; try done; by rewrite length_insert|].
  intros j Hj. unfold is_free. cbn [frame_table]. destruct (Z.ltb_spec j 0); [lia|]. case_decide; subst.
  - rewrite list_lookup_insert_eq by lia. done.
  - rewrite list_lookup_insert_ne by lia. done.
Qed.

(** *** Single pages *)
Definition set_next (f : frames) (n : Z) : frames := MkFrames (frame_table f) (avail_pages f) (pfn_start f) n.

Lemma wf_set_next f n : wf f -> 0 <= n < avail_pages f -> wf (set_next f n).
Proof. intros [] ?. by split. Qed.

Lemma updated_id f f' : frame_table f' = frame_table f -> avail_pages f' = avail_pages f -> pfn_start f' = pfn_start f ->
  wf f' -> updated f f' (fun _ => False) false.
Proof. intros Ht Ha Hp Hw. split_and!; try done. intros i Hi. unfold is_free. rewrite Ht. by case_decide. Qed.

(** The cursor visits [m], [m + 1], ... cyclically; with [k] frames to go it is
    at [m + (N - k)]. *)
Lemma free_page_loop_ok k f m :
  wf f -> 0 <= m < avail_pages f -> 0 < Z.of_nat k <= avail_pages f ->
  next_free_page f = (m + (avail_pages f - Z.of_nat k)) mod avail_pages f ->
  exists f' r, free_page_loop k f m = Ret (f', r) /\
    ((r = 0 /\ updated f f' (fun _ => False) false /\
        forall t, avail_pages f - Z.of_nat k <= t < avail_pages f -> is_free f ((m + t) mod avail_pages f) = false) \/
     exists i, 0 <= i < avail_pages f /\ is_free f i = true /\ r = page_to_phys f i /\ updated f f' (fun j => j = i) false).
Proof.
  revert f. induction k as [|k IH]; intros f Hw Hm Hk Hn; [lia|].
  pose proof (wf_next _ Hw) as Hnx. pose proof (wf_avail _ Hw) as Hav. cbn [free_page_loop].
  destruct (get_ok f (next_free_page f) Hw Hnx) as (p & -> & Hp). bret. rewrite Hp.
  destruct (is_free f (next_free_page f)) eqn:Efree.
  - destruct (put_ok f (next_free_page f) false Hw Hnx) as (f' & -> & Hu & Hnf). bret. rewrite Hnf.
    eexists f', _. split; [done|]. right. exists (next_free_page f). split_and!; try done; [lia..|].
    destruct Hu as (Ha & Hs & Hw' & _). unfold page_to_phys, page_to_pfn. by rewrite Hs.
  - set (n := u32 (next_free_page f + 1) mod avail_pages f). fold (set_next f n).
    assert (Hnn : n = (m + (avail_pages f - Z.of_nat k)) mod avail_pages f).
    { unfold n, u32. rewrite wrap_small by (unfold in_word; lia). rewrite Hn, Zplus_mod_idemp_l. f_equal. lia. }
    assert (Hnr : 0 <= n < avail_pages f) by (rewrite Hnn; apply Z.mod_pos_bound; lia).
    pose proof (wf_set_next f n Hw Hnr) as Hw'.
    destruct (Z.eqb_spec n m) as [E|E].
    + assert (k = 0%nat) as ->.
      { destruct k as [|k]; [done|]. exfalso. rewrite E in Hnn.
        destruct (Z.lt_ge_cases (m + (avail_pages f - Z.of_nat (S k))) (avail_pages f)).
        - rewrite Z.mod_small in Hnn by lia. lia.
        - rewrite (Zmod_eq_full _ (avail_pages f)) in Hnn by lia.
          assert ((m + (avail_pages f - Z.of_nat (S k))) / avail_pages f = 1) as Hq by (symmetry; apply (Z.div_unique _ _ 1 (m - Z.of_nat (S k))); lia).
          rewrite Hq in Hnn. lia. }
      eexists _, 0. split; [done|]. left. split_and!; [done|by apply updated_id|].
      intros t Ht. replace t with (avail_pages f - Z.of_nat 1) by lia. by rewrite <- Hn.
    + assert (k <> 0%nat).
      { intros ->. apply E. rewrite Hnn. replace (m + (avail_pages f - Z.of_nat 0)) with (m + 1 * avail_pages f) by lia.
        rewrite Z_mod_plus_full. apply Z.mod_small. lia. }
      destruct (IH (set_next f n) Hw' Hm) as (f' & r & -> & Hr); [simpl; lia|done|].
      exists f', r. split; [done|]. destruct Hr as [(-> & Hu & Hnone)|Hr]; [left|by right].
      split_and!; try done. intros t Ht. destruct (decide (t = avail_pages f - Z.of_nat (S k))) as [->|].
      * by rewrite <- Hn.
      * apply Hnone. simpl. lia.
Qed.

(** [get_free_page] returns 0 exactly when no frame is free, and then changes
    no frame; otherwise it returns the address of a frame that was free, which is
    now busy, and changes no other.  It never reads outside the table, and
    [free_page] of the address makes precisely that frame free again. *)
Theorem get_free_page_correct f :
  wf f ->
  exists f' paddr, get_free_page f = Ret (f', paddr) /\
    (paddr = 0 <-> forall i, 0 <= i < avail_pages f -> is_free f i = false) /\
    (paddr = 0 -> updated f f' (fun _ => False) false) /\
    (paddr <> 0 -> exists i, 0 <= i < avail_pages f /\ paddr = (pfn_start f + i) * PAGE_SIZE /\
       is_free f i = true /\ updated f f' (fun j => j = i) false /\
       exists f'', free_page f' paddr = Ret f'' /\ updated f f'' (fun _ => False) false).
Proof.
  intros Hw. pose proof (wf_len _ Hw) as Hl. pose proof (wf_avail _ Hw). pose proof (wf_next _ Hw) as Hnx.
  destruct (free_page_loop_ok (length (frame_table f)) f (next_free_page f) Hw Hnx) as (f' & r & Heq & Hr); [lia| |].
  { rewrite Hl, Z.sub_diag, Z.add_0_r. symmetry. by apply Z.mod_small. }
  exists f', r. split; [exact Heq|]. destruct Hr as [(-> & Hu & Hnone)|(i & Hi & Hf & -> & Hu)].
  - split_and!; try done. split; [|done]. intros _ i Hi.
    specialize (Hnone ((i - next_free_page f) mod avail_pages f)). rewrite Zplus_mod_idemp_r in Hnone.
    replace (next_free_page f + (i - next_free_page f)) with i in Hnone by lia. rewrite (Z.mod_small i) in Hnone by lia.
    apply Hnone. pose proof (Z.mod_pos_bound (i - next_free_page f) (avail_pages f)). lia.
  - pose proof (page_to_phys_pos f i Hw Hi) as Hnz. split_and!; [|done|].
    + split; [done|]. intros Hall. by rewrite Hall in Hf.
    + intros _. exists i. split_and!; try (done || lia); [by apply page_to_phys_eq|].
      destruct Hu as (Ha & Hs & Hw' & Hj).
      assert (Hpp : phys_to_page f' (page_to_phys f i) = i).
      { rewrite <- (phys_to_page_to_phys f' i) at 2 by (done || lia). unfold page_to_phys, page_to_pfn. by rewrite Hs. }
      unfold free_page. rewrite Hpp. destruct (put_ok f' i true Hw' ltac:(lia)) as (f'' & -> & (Ha' & Hs' & Hw'' & Hj') & _).
      exists f''. split; [done|]. split_and!; [congruence..|done|]. intros j Hjr. rewrite Hj' by lia.
      case_decide as E; [subst; by destruct (decide False)|]. rewrite Hj by lia. by rewrite (decide_False _ _ E).
Qed.

(** *** Contiguous pages *)
Lemma put_range_ok n f base b :
  wf f -> 0 <= base -> base + Z.of_nat n <= avail_pages f ->
  exists f', put_range n f base b = Ret f' /\ updated f f' (fun j => base <= j < base + Z.of_nat n) b.
Proof.
  revert f base. induction n as [|n IH]; intros f base Hw Hb Hn; cbn [put_range].
  - exists f. split; [done|]. split_and!; try done. intros i Hi. rewrite decide_False by lia. done.
  - destruct (put_ok f base b Hw ltac:(lia)) as (f1 & -> & (Ha & Hs & Hw1 & H1) & _). bret.
    destruct (IH f1 (base + 1) Hw1 ltac:(lia) ltac:(lia)) as (f2 & -> & Ha2 & Hs2 & Hw2 & H2).
    exists f2. split; [done|]. split_and!; [congruence..|done|]. intros i Hi. rewrite H2, H1 by lia.
    repeat case_decide; (done || lia).
Qed.

(** [run f s n]: the frames from [s] on, [n] of them, are free frames of the table. *)
Definition run (f : frames) (s n : Z) : Prop :=
  0 <= s /\ s + n <= avail_pages f /\ forall j, s <= j < s + n -> is_free f j = true.

Lemma contig_loop_ok k f i base nr :
  wf f -> 0 < nr < 2 ^ 32 -> 0 <= base <= i -> i + Z.of_nat k = avail_pages f ->
  (forall j, base <= j < i -> is_free f j = true) -> i - base < nr ->
  (base = 0 \/ is_free f (base - 1) = false) ->
  (forall s, s + nr <= i -> ~ run f s nr) ->
  exists f' r, contig_loop k f i base nr = Ret (f', r) /\
    ((r = 0 /\ f' = f /\ forall s, ~ run f s nr) \/
     exists s, run f s nr /\ (forall s', s' < s -> ~ run f s' nr) /\ r = page_to_phys f s /\
       updated f f' (fun j => s <= j < s + nr) false).
Proof.
  revert i base. induction k as [|k IH]; intros i base Hw Hnr Hbi Hik Hfree Hlt Hleft Hno; cbn [contig_loop].
  { exists f, 0. split; [done|]. left. split_and!; try done. intros s Hr. apply (Hno s); [|done]. destruct Hr as (? & ? & ?). lia. }
  pose proof (wf_avail _ Hw).
  destruct (get_ok f i Hw ltac:(lia)) as (p & -> & Hp). bret. rewrite Hp. destruct (is_free f i) eqn:Ei.
  - unfold u32. rewrite wrap_small by (unfold in_word; lia).
    assert (Hfree' : forall j, base <= j < i + 1 -> is_free f j = true).
    { intros j Hj. destruct (decide (j = i)) as [->|]; [done|]. apply Hfree. lia. }
    destruct (Z.eqb_spec (i - base + 1) nr) as [E|E].
    + destruct (put_range_ok (Z.to_nat nr) f base false Hw) as (f' & -> & Hu); [lia..|]. bret.
      eexists f', _. split; [done|]. right. exists base. rewrite Z2Nat.id in Hu by lia. split_and!; try done.
      * split_and!; [lia..|]. intros j Hj. apply Hfree'. lia.
      * intros s' Hs' Hr. destruct (Z.le_gt_cases (s' + nr) i) as [Hle|Hgt]; [by apply (Hno s')|].
        destruct Hr as (? & ? & Hr). destruct Hleft as [->|Hb]; [lia|]. rewrite Hr in Hb by lia. done.
      * destruct Hu as (_ & Hs & _). unfold page_to_phys, page_to_pfn. by rewrite Hs.
    + apply IH; try done; try lia. intros s Hs Hr. destruct (decide (s + nr <= i)) as [|]; [by apply (Hno s)|].
      destruct Hr as (? & ? & Hr). destruct Hleft as [->|Hb]; [lia|]. rewrite Hr in Hb by lia. done.
  - apply IH; try done; try lia.
    + right. by replace (i + 1 - 1) with i by lia.
    + intros s Hs (H0 & H1 & Hr). destruct (decide (s + nr <= i)) as [|]; [by apply (Hno s)|]. rewrite Hr in Ei by lia. done.
Qed.

(** [get_contig_free_pages] is first-fit: for a positive count it returns the
    address of the lowest run of that many free frames and marks precisely these
    busy, or 0 without any change when no such run exists.  [free_contig_pages] of
    the result frees precisely these frames again. *)
Theorem get_contig_free_pages_correct f nr :
  wf f -> 0 < nr < 2 ^ 32 ->
  exists f' paddr, get_contig_free_pages f nr = Ret (f', paddr) /\
    (paddr = 0 <-> forall s, ~ run f s nr) /\ (paddr = 0 -> f' = f) /\
    (paddr <> 0 -> exists s, run f s nr /\ (forall s', s' < s -> ~ run f s' nr) /\
       paddr = (pfn_start f + s) * PAGE_SIZE /\ updated f f' (fun j => s <= j < s + nr) false /\
       exists f'', free_contig_pages f' paddr nr = Ret f'' /\ updated f f'' (fun _ => False) false).
Proof.
  intros Hw Hnr. pose proof (wf_avail _ Hw). unfold get_contig_free_pages.
  destruct (contig_loop_ok (Z.to_nat (avail_pages f)) f 0 0 nr Hw Hnr) as (f' & r & -> & Hr); [lia|lia|intros; lia|lia|by left|..].
  { intros s Hs (? & ? & ?). lia. }
  exists f', r. split; [done|]. destruct Hr as [(-> & -> & Hnone)|(s & Hrun & Hlow & -> & Hu)].
  - split_and!; try done.
  - pose proof Hrun as (Hs0 & Hs1 & Hfr).
    pose proof (page_to_phys_pos f s Hw ltac:(lia)) as Hnz. split_and!; [|done|].
    + split; [done|]. intros Hall. by destruct (Hall s).
    + intros _. exists s. split_and!; try done; [apply page_to_phys_eq; (done || lia)|].
      destruct Hu as (Ha & Hs & Hw' & Hj).
      assert (Hpp : phys_to_page f' (page_to_phys f s) = s).
      { rewrite <- (phys_to_page_to_phys f' s) at 2 by (done || lia). unfold page_to_phys, page_to_pfn. by rewrite Hs. }
      unfold free_contig_pages. rewrite Hpp.
      destruct (put_range_ok (Z.to_nat nr) f' s true Hw') as (f'' & -> & Ha' & Hs' & Hw'' & Hj'); [lia..|].
      exists f''. split; [done|]. split_and!; [congruence..|done|]. intros j Hjr.
      rewrite Hj' by lia. rewrite Hj by lia. rewrite Z2Nat.id by lia. destruct (decide False); [done|].
      repeat case_decide; try done. symmetry. by apply Hfr.
Qed.

Lemma lookup_two_runs {A} (a b i : nat) (x y : A) :
  (i < a + b)%nat -> (replicate a x ++ replicate b y) !! i = Some (if (a <=? i)%nat then y else x).
Proof.
  intros Hi. destruct (Nat.leb_spec a i).
  - rewrite lookup_app_r by (rewrite length_replicate; lia). apply lookup_replicate_2. rewrite length_replicate. lia.
  - rewrite lookup_app_l by (rewrite length_replicate; lia). by apply lookup_replicate_2.
Qed.

(** at boot the frame table describes the memory above the kernel: with a
    page-aligned RAM region and the table's address inside it, frame 0 is the
    page the table starts in, the pages the table occupies are busy, all later
    ones are free, every frame lies inside RAM, and [kernel_size] ends where the
    first free frame begins. *)
Theorem frame_table_init_correct phys_base mem_size ft_start :
  0 < phys_base -> phys_base mod PAGE_SIZE = 0 -> mem_size mod PAGE_SIZE = 0 ->
  mem_size < 2 ^ 32 -> phys_base + mem_size + PAGE_SIZE <= 2 ^ 64 ->
  phys_base <= ft_start -> ft_start + PAGE_SIZE <= phys_base + mem_size ->
  let '(f, kernel_size) := frame_table_init phys_base mem_size ft_start in
  exists ft_pages, wf f /\ 0 < ft_pages <= avail_pages f /\
    (ft_pages - 1) * PAGE_SIZE < avail_pages f * PAGE_T_SZ <= ft_pages * PAGE_SIZE /\
    ft_start <= page_to_phys f 0 < ft_start + PAGE_SIZE /\
    (forall i, 0 <= i < avail_pages f ->
       is_free f i = (ft_pages <=? i) /\ page_to_phys f i + PAGE_SIZE <= phys_base + mem_size) /\
    phys_base + kernel_size = page_to_phys f 0 + ft_pages * PAGE_SIZE.
Proof.
  intros Hb Hba Hma Hm Htop Hlo Hhi. unfold frame_table_init.
  rewrite (ALIGN_UP_spec ft_start) by pglia.
  set (q := (ft_start + (PAGE_SIZE - 1)) / PAGE_SIZE). assert (Hq : ft_start <= q * PAGE_SIZE < ft_start + PAGE_SIZE) by (unfold q; pglia).
  assert (Hsh : forall x, Z.shiftr x PAGE_SHIFT = x / PAGE_SIZE) by (intros; unfold PAGE_SHIFT; by rewrite Z.shiftr_div_pow2 by lia).
  assert (exists N, mem_size - (q * PAGE_SIZE - phys_base) = N * PAGE_SIZE /\ 0 < N < 2 ^ 20) as (N & HN & HNr).
  { exists ((mem_size - (q * PAGE_SIZE - phys_base)) / PAGE_SIZE). change (2 ^ 20) with 1048576. pglia. }
  change (2 ^ 20) with 1048576 in HNr.
  rewrite (u64_small (q * PAGE_SIZE - phys_base)), HN, (u64_small (N * PAGE_SIZE)), (ALIGN_UP_spec (N * PAGE_SIZE)) by pglia.
  rewrite !Hsh. replace ((N * PAGE_SIZE + (PAGE_SIZE - 1)) / PAGE_SIZE * PAGE_SIZE / PAGE_SIZE) with N by pglia.
  unfold PAGE_T_SZ. rewrite (u32_small N), (u32_small (N * 8)), (ALIGN_UP_spec (N * 8)) by pglia.
  set (P := (N * 8 + (PAGE_SIZE - 1)) / PAGE_SIZE). assert (HP : (P - 1) * PAGE_SIZE < N * 8 <= P * PAGE_SIZE) by (unfold P; pglia). clearbody P.
  replace (P * PAGE_SIZE / PAGE_SIZE) with P by pglia. replace (q * PAGE_SIZE / PAGE_SIZE) with q by pglia.
  rewrite (u32_small P), (u64_small (q + P - 1)) by pglia.
  replace (q + P - 1 + 1) with (q + P) by lia.
  unfold PAGE_SHIFT. rewrite Z.shiftl_mul_pow2, (u64_small ((q + P) * 2 ^ 12)), (u32_small ((q + P) * 2 ^ 12 - phys_base)) by pglia.
  set (f := MkFrames _ _ _ _).
  assert (Hw : wf f).
  { split; cbn; [rewrite length_app, !length_replicate| | |]; pglia. }
  assert (H0 : page_to_phys f 0 = q * PAGE_SIZE) by (rewrite page_to_phys_eq by (done || (cbn; lia)); cbn; f_equal; lia).
  exists P. split; [done|]. change (avail_pages f) with N in *. rewrite H0. split_and!; try pglia.
  intros i Hi. split.
  - unfold is_free. destruct (Z.ltb_spec i 0); [lia|]. unfold f. cbn [frame_table]. clear - Hi HP.
    change PAGE_SIZE with 4096 in HP. rewrite lookup_two_runs by lia.
    destruct (Nat.leb_spec (Z.to_nat P) (Z.to_nat i)), (Z.leb_spec P i); simpl; (done || lia).
  - rewrite page_to_phys_eq by done. cbn. pglia.
Qed.

End Frames.

(** ** I/O mappings *)
Module IoMap.

Record io_map_t := IoEntry { vaddr : Z; paddr : Z; size : Z }.

(** Calls into the architecture's page tables, newest first. *)
Inductive pt_call := PtCreate (vaddr paddr size : Z) | PtRelease (vaddr size : Z).

Record io_state := MkIo { io_maplist : list io_map_t; pt_log : list pt_call }.

Fixpoint find_io_map_by_paddr (l : list io_map_t) (p : Z) : option io_map_t :=
  match l with
  | [] => None
  | io :: r => if paddr io =? p then Some io else find_io_map_by_paddr r p
  end.

(** The search for a free region: the target address, and how many entries
    precede the one the new entry goes in front of. *)
Fixpoint io_place (l : list io_map_t) (target sz : Z) : Z * nat :=
  match l with
  | [] => (target, 0%nat)
  | cur :: r =>
      if u64 (target + sz) <=? vaddr cur then (target, 0%nat)
      else
        let '(t, n) := io_place r (ALIGN_UP (u64 (vaddr cur + size cur)) PAGE_SIZE) sz in
        (t, S n)
  end.

Section config.
(** [CONFIG_IO_MAPPING_BASE] *)
Context (IO_BASE : Z).

(** [heap_ok]: whether [malloc(sizeof(io_map_t))] succeeds. *)
Definition io_map (heap_ok : bool) (st : io_state) (phys sz : Z) : outcome (io_state * Z) :=
  let offset := page_off phys in
  let phys := page_base phys in
  match find_io_map_by_paddr (io_maplist st) phys with
  | Some io => if size io =? sz then Ret (st, u64 (vaddr io + offset)) else Fault Panic
  | None =>
      let '(target, n) := io_place (io_maplist st) IO_BASE sz in
      _ ← assert_k heap_ok;
      let io := IoEntry target phys sz in
      Ret (MkIo (take n (io_maplist st) ++ io :: drop n (io_maplist st))
                (PtCreate (vaddr io) (paddr io) (size io) :: pt_log st),
           u64 (vaddr io + offset))
  end.

(** [list_for_each_safe] with [list_del] of the first match. *)
Fixpoint take_entry (l : list io_map_t) (v : Z) : option (io_map_t * list io_map_t) :=
  match l with
  | [] => None
  | cur :: r =>
      if vaddr cur =? v then Some (cur, r)
      else match take_entry r v with Some (io, r') => Some (io, cur :: r') | None => None end
  end.

Definition io_unmap (st : io_state) (v : Z) : outcome io_state :=
  match take_entry (io_maplist st) (page_base v) with
  | None => Fault Panic
  | Some (cur, l) => Ret (MkIo l (PtRelease (vaddr cur) (size cur) :: pt_log st))
  end.

(** Pages with a virtual mapping; [virt_to_phys] is the page-table walk. *)
Definition get_free_vpage (heap_ok : bool) (f : Frames.frames) (st : io_state) : outcome (Frames.frames * io_state * Z) :=
  r ← Frames.get_free_page f;
  let '(f, paddr) := r in
  _ ← assert_k (negb (paddr =? 0));
  r ← io_map heap_ok st paddr PAGE_SIZE;
  let '(st, v) := r in Ret (f, st, v).

Definition free_vpage (virt_to_phys : Z -> Z) (f : Frames.frames) (st : io_state) (v : Z) : outcome (Frames.frames * io_state) :=
  let paddr := virt_to_phys v in
  st ← io_unmap st v;
  f ← Frames.free_page f paddr;
  Ret (f, st).

Definition get_contig_free_vpages (heap_ok : bool) (f : Frames.frames) (st : io_state) (nrpages : Z) : outcome (Frames.frames * io_state * Z) :=
  r ← Frames.get_contig_free_pages f nrpages;
  let '(f, paddr) := r in
  _ ← assert_k (negb (paddr =? 0));
  r ← io_map heap_ok st paddr (u64 (nrpages * PAGE_SIZE));
  let '(st, v) := r in Ret (f, st, v).

Definition free_contig_vpages (virt_to_phys : Z -> Z) (f : Frames.frames) (st : io_state) (v nrpages : Z) : outcome (Frames.frames * io_state) :=
  let paddr := virt_to_phys v in
  st ← io_unmap st v;
  f ← Frames.free_contig_pages f paddr nrpages;
  Ret (f, st).

(** After migration: every frame number moves by [pfn_offset]. *)
Definition readjust_entry (pfn_offset : Z) (io : io_map_t) : io_map_t :=
  let offset := page_off (paddr io) in
  IoEntry (vaddr io) (u64 (Frames.pfn_to_phys (u64 (Frames.phys_to_pfn (paddr io) + pfn_offset)) + offset)) (size io).
Definition readjust_io_map (f : Frames.frames) (st : io_state) (pfn_offset : Z) : Frames.frames * io_state :=
  (Frames.MkFrames (Frames.frame_table f) (Frames.avail_pages f) (u64 (Frames.pfn_start f + pfn_offset)) (Frames.next_free_page f),
   MkIo (readjust_entry pfn_offset <$> io_maplist st) (pt_log st)).

(** *** The mapping list: page-aligned, in address order, disjoint, inside the
    address space; one entry per physical page. *)
Definition last_page (io : io_map_t) : Z := ALIGN_UP (u64 (vaddr io + size io)) PAGE_SIZE.
Fixpoint ordered (lo : Z) (l : list io_map_t) (hi : Z) : Prop :=
  match l with
  | [] => lo <= hi
  | io :: r => lo <= vaddr io /\ vaddr io mod PAGE_SIZE = 0 /\ 0 < size io /\
               vaddr io + size io + PAGE_SIZE <= 2 ^ 64 /\ ordered (last_page io) r hi
  end.
Definition io_wf (hi : Z) (l : list io_map_t) : Prop :=
  0 <= IO_BASE /\ IO_BASE mod PAGE_SIZE = 0 /\ ordered IO_BASE l hi /\ NoDup (paddr <$> l).

Lemma last_page_spec io :
  0 <= vaddr io -> 0 < size io -> vaddr io + size io + PAGE_SIZE <= 2 ^ 64 ->
  vaddr io + size io <= last_page io < vaddr io + size io + PAGE_SIZE /\ last_page io mod PAGE_SIZE = 0.
Proof.
  intros. unfold last_page. rewrite u64_small, ALIGN_UP_spec by pglia.
  split; [pglia|]. apply Z_mod_mult.
Qed.

Lemma ordered_le lo l hi : 0 <= lo -> ordered lo l hi -> lo <= hi.
Proof.
  revert lo. induction l as [|io l IH]; intros lo H0; simpl; [done|]. intros (? & _ & ? & ? & Hr).
  pose proof (last_page_spec io). apply IH in Hr; lia.
Qed.

Lemma ordered_mono lo l hi hi' : hi <= hi' -> ordered lo l hi -> ordered lo l hi'.
Proof. revert lo. induction l as [|io l IH]; intros lo Hh; simpl; [lia|]. intros (? & ? & ? & ? & ?). split_and!; auto. Qed.

Lemma ordered_app lo X Y hi :
  0 <= lo -> ordered lo (X ++ Y) hi -> exists m, lo <= m /\ ordered lo X m /\ ordered m Y hi.
Proof.
  revert lo. induction X as [|io X IH]; intros lo H0; simpl.
  { intros H. exists lo. split_and!; (done || plia). }
  intros (? & ? & ? & ? & Hr).
  pose proof (last_page_spec io). apply IH in Hr as (m & ? & ? & ?); [|lia]. exists m. split_and!; (done || plia).
Qed.

Lemma ordered_below lo X m io : 0 <= lo -> ordered lo X m -> io ∈ X -> vaddr io < m /\ lo <= vaddr io.
Proof.
  revert lo. induction X as [|x X IH]; intros lo H0; simpl; [set_solver|].
  intros (H1 & _ & H2 & H3 & Hr) Hin. pose proof (last_page_spec x ltac:(lia) H2 H3).
  apply elem_of_cons in Hin as [->|Hin].
  - apply ordered_le in Hr; lia.
  - apply IH in Hr; [lia|lia|done].
Qed.

(** The search finds a gap that keeps the list ordered. *)
Lemma io_place_ok l lo hi sz p :
  0 <= lo -> lo mod PAGE_SIZE = 0 -> ordered lo l hi -> 0 < sz -> hi + sz + PAGE_SIZE <= 2 ^ 64 ->
  exists t n, io_place l lo sz = (t, n) /\ lo <= t /\ t mod PAGE_SIZE = 0 /\ t <= hi /\
    ordered lo (take n l ++ IoEntry t p sz :: drop n l) (hi + sz + PAGE_SIZE).
Proof.
  revert lo. induction l as [|cur l IH]; intros lo H0 Ha Ho Hs Hb; cbn [io_place].
  - simpl in Ho. exists lo, 0%nat. split_and!; try (done || plia). cbn [take drop app ordered vaddr size].
    pose proof (last_page_spec (IoEntry lo p sz)). cbn [vaddr size] in *. split_and!; (done || plia).
  - pose proof (ordered_le _ _ _ H0 Ho). pose proof Ho as (H1 & H2 & H3 & H4 & Hr).
    pose proof (last_page_spec cur ltac:(lia) H3 H4) as [HL HLa]. rewrite u64_small by pglia.
    destruct (Z.leb_spec (lo + sz) (vaddr cur)).
    + exists lo, 0%nat. split_and!; try (done || plia). cbn [take drop app]. split_and!; cbn [vaddr size]; try (done || plia).
      pose proof (last_page_spec (IoEntry lo p sz)) as Hn. cbn [vaddr size] in Hn.
      apply (ordered_mono _ _ hi); [pglia|]. simpl. split_and!; try done. pglia.
    + fold (last_page cur). destruct (IH (last_page cur)) as (t & n & -> & Ht & Hta & Hth & Hord); try (done || plia).
      exists t, (S n). split; [done|]. split; [plia|]. split; [done|]. split; [plia|].
      cbn [take drop app ordered]. tauto.
Qed.

Lemma take_entry_at X io Y :
  (forall x, x ∈ X -> vaddr x <> vaddr io) -> take_entry (X ++ io :: Y) (vaddr io) = Some (io, X ++ Y).
Proof.
  induction X as [|x X IH]; intros HX; simpl; [by rewrite Z.eqb_refl|].
  destruct (Z.eqb_spec (vaddr x) (vaddr io)) as [E|]; [by apply HX in E; [|left]|].
  rewrite IH; [done|]. intros y Hy. apply HX. by right.
Qed.

Lemma find_none l p : find_io_map_by_paddr l p = None <-> p ∉ paddr <$> l.
Proof.
  induction l as [|io l IH]; simpl; [set_solver|]. rewrite not_elem_of_cons, <- IH.
  destruct (Z.eqb_spec (paddr io) p); split; try done; [by intros [? _]|by intros [_ ?]].
Qed.

Lemma find_some l p io : find_io_map_by_paddr l p = Some io -> io ∈ l /\ paddr io = p.
Proof.
  induction l as [|x l IH]; simpl; [done|]. destruct (Z.eqb_spec (paddr x) p); [intros [= ->]; set_solver|set_solver].
Qed.

Lemma page_base_add t off : 0 <= t -> t + PAGE_SIZE <= 2 ^ 64 -> t mod PAGE_SIZE = 0 -> 0 <= off < PAGE_SIZE -> page_base (u64 (t + off)) = t.
Proof. intros. rewrite u64_small by pglia. rewrite page_base_spec by pglia. pglia. Qed.

(** [io_map] on a well-formed list.  A page already mapped with the same size
    yields its mapping again; with another size it stops the kernel.
    Otherwise a new page-aligned entry is inserted so that the list stays ordered
    and disjoint, the page tables are told, and [io_unmap] of the returned
    address gives back precisely the old list. *)
Theorem io_map_correct hi st phys sz :
  io_wf hi (io_maplist st) -> in_word 64 phys -> 0 < sz -> hi + sz + PAGE_SIZE <= 2 ^ 64 ->
  let p := page_base phys in
  match find_io_map_by_paddr (io_maplist st) p with
  | Some io => io ∈ io_maplist st /\ paddr io = p /\
      io_map true st phys sz = if size io =? sz then Ret (st, u64 (vaddr io + page_off phys)) else Fault Panic
  | None => exists t n st',
      io_map true st phys sz = Ret (st', t + page_off phys) /\ IO_BASE <= t /\ t mod PAGE_SIZE = 0 /\
      io_maplist st' = take n (io_maplist st) ++ IoEntry t p sz :: drop n (io_maplist st) /\
      pt_log st' = PtCreate t p sz :: pt_log st /\
      io_wf (hi + sz + PAGE_SIZE) (io_maplist st') /\
      io_unmap st' (t + page_off phys) = Ret (MkIo (io_maplist st) (PtRelease t sz :: pt_log st'))
  end.
Proof.
  intros (H0 & Hba & Ho & Hnd) Hp Hs Hb p. unfold io_map. fold p. destruct (find_io_map_by_paddr (io_maplist st) p) as [io|] eqn:E.
  { apply find_some in E as [? ?]. done. }
  destruct (io_place_ok (io_maplist st) IO_BASE hi sz p H0 Hba Ho Hs Hb) as (t & n & -> & Ht & Hta & Hth & Hord).
  assert (Hoff : 0 <= page_off phys < PAGE_SIZE) by (rewrite page_off_spec by pglia; pglia).
  cbn [assert_k]. bret. cbn [vaddr paddr size]. exists t, n.
  eexists. rewrite u64_small by pglia. split; [done|]. cbn [io_maplist pt_log]. split_and!; try done.
  - split_and!; try done. rewrite fmap_app, fmap_cons. rewrite <- Permutation_middle. constructor.
    + rewrite <- fmap_app, take_drop. by apply find_none.
    + by rewrite <- fmap_app, take_drop.
  - unfold io_unmap. cbn [io_maplist]. rewrite <- (u64_small (t + page_off phys)) by pglia.
    rewrite page_base_add by (done || pglia).
    change t with (vaddr (IoEntry t p sz)) at 2. rewrite take_entry_at.
    + cbn. by rewrite take_drop.
    + intros x Hx. apply ordered_app in Hord as (m & Hm & HX & (Hmt & _)); [|done].
      apply (ordered_below _ _ _ x) in HX; [|done..]. cbn [vaddr] in *. lia.
Qed.

(** after migration by [pfn_offset] frames, every mapping keeps its virtual
    range and moves its physical address by that many pages, as does every frame
    of the frame table. *)
Theorem readjust_correct f st k io :
  Frames.wf f -> 0 < Frames.pfn_start f + k -> (Frames.pfn_start f + k + Frames.avail_pages f) * PAGE_SIZE <= 2 ^ 64 ->
  io ∈ io_maplist st -> in_word 64 (paddr io) -> in_word 64 (paddr io + k * PAGE_SIZE) ->
  let '(f', st') := readjust_io_map f st k in
  Frames.wf f' /\ IoEntry (vaddr io) (paddr io + k * PAGE_SIZE) (size io) ∈ io_maplist st' /\
  forall i, 0 <= i < Frames.avail_pages f -> Frames.page_to_phys f' i = Frames.page_to_phys f i + k * PAGE_SIZE.
Proof.
  intros Hw Hk Htop Hin Hp Hp'. unfold readjust_io_map. pose proof (Frames.wf_avail _ Hw).
  assert (Hw' : Frames.wf (Frames.MkFrames (Frames.frame_table f) (Frames.avail_pages f) (u64 (Frames.pfn_start f + k)) (Frames.next_free_page f))).
  { destruct Hw. split; cbn; try done. rewrite u64_small by pglia. lia. }
  split_and!; [done| |].
  - apply list_elem_of_fmap. exists io. split; [|done]. unfold readjust_entry. f_equal.
    rewrite page_off_spec by pglia. unfold Frames.pfn_to_phys, Frames.phys_to_pfn, PAGE_SHIFT.
    rewrite Z.shiftr_div_pow2, Z.shiftl_mul_pow2 by lia.
    rewrite (u64_small (_ + k)) by pglia. rewrite (u64_small (_ * 2 ^ 12)) by pglia. rewrite u64_small by pglia. pglia.
  - intros i Hi. rewrite !Frames.page_to_phys_eq by done. cbn. rewrite u64_small by pglia. pglia.
Qed.

End config.

(** [io_map] of a range that is not page-aligned maps the requested size from
    the page base, so the end of the range may lie outside the mapping: here the
    32 bytes at 0x1ff0 come back as a range whose second half belongs
    to the next mapping, of an unrelated device. *)
Theorem io_map_unaligned_overlap :
  exists st v st' v', io_map 4096 true (MkIo [] []) 8176 32 = Ret (st, v) /\
    io_map 4096 true st 20480 4096 = Ret (st', v') /\ v < v' < v + 32.
Proof. eexists _, _, _, _. split; [vm_compute; reflexivity|]. split; [vm_compute; reflexivity|lia]. Qed.

(** two devices in one page share one mapping, without a count: when both are
    unmapped, the second [io_unmap] stops the kernel. *)
Theorem io_unmap_shared :
  exists st v st' v' st'', io_map 4096 true (MkIo [] []) 8192 256 = Ret (st, v) /\
    io_map 4096 true st 8448 256 = Ret (st', v') /\ v <> v' /\
    io_unmap st' v = Ret st'' /\ io_unmap st'' v' = Fault Panic.
Proof.
  eexists _, _, _, _, _. split_and!; [vm_compute; reflexivity..|lia|vm_compute; reflexivity|vm_compute; reflexivity].
Qed.

End IoMap.

(** ** Concrete instances *)
Module FramesExamples.
Import Frames IoMap.

Definition table0 : frames := MkFrames [Page false 1; Page true 0; Page true 0] 3 10 0.
Lemma table0_wf : wf table0.
Proof. split; cbn; pglia. Defined.

Lemma get_free_page_correct_witness : wf table0 /\ exists f' paddr, get_free_page table0 = Ret (f', paddr).
Proof.
  split; [apply table0_wf|]. destruct (get_free_page_correct table0 table0_wf) as (f' & p & H & _). eauto.
Defined.

Lemma get_contig_free_pages_correct_witness : wf table0 /\ exists f' paddr, get_contig_free_pages table0 2 = Ret (f', paddr).
Proof.
  split; [apply table0_wf|].
  destruct (get_contig_free_pages_correct table0 2 table0_wf ltac:(lia)) as (f' & p & H & _). eauto.
Defined.

(** 16 MiB of RAM at 1 GiB, the table 2 MiB and some bytes up. *)
Lemma frame_table_init_correct_witness :
  let '(f, ks) := frame_table_init 1073741824 16777216 1075839000 in wf f.
Proof.
  pose proof (frame_table_init_correct 1073741824 16777216 1075839000 ltac:(lia) eq_refl eq_refl
    ltac:(lia) ltac:(pglia) ltac:(lia) ltac:(pglia)) as H.
  destruct (frame_table_init 1073741824 16777216 1075839000) as [f ks]. by destruct H as (? & ? & _).
Defined.

Lemma io_map_correct_witness :
  io_wf 4096 8192 [IoEntry 4096 36864 4096] /\
  exists st' v, io_map 4096 true (MkIo [IoEntry 4096 36864 4096] []) 81928 100 = Ret (st', v).
Proof.
  assert (H : io_wf 4096 8192 [IoEntry 4096 36864 4096]).
  { split_and!; [lia|reflexivity| |apply NoDup_singleton]. cbn. split_and!; try pglia; vm_compute; done. }
  split; [exact H|].
  pose proof (io_map_correct 4096 8192 (MkIo [IoEntry 4096 36864 4096] []) 81928 100 H ltac:(pglia) ltac:(lia) ltac:(pglia)) as Hm.
  cbv zeta in Hm. destruct (find_io_map_by_paddr _ _) as [io|] eqn:E; [vm_compute in E; discriminate|].
  destruct Hm as (t & n & st' & Hm & _). eauto.
Defined.

Lemma readjust_correct_witness : wf (readjust_io_map table0 (MkIo [IoEntry 4096 36864 4096] []) 5).1.
Proof.
  pose proof (readjust_correct table0 (MkIo [IoEntry 4096 36864 4096] []) 5 (IoEntry 4096 36864 4096) table0_wf
    ltac:(cbn; lia) ltac:(cbn; pglia) ltac:(by left) ltac:(cbn; pglia) ltac:(cbn; pglia)) as H.
  destruct (readjust_io_map _ _ _). by destruct H as (? & _).
Defined.

End FramesExamples.
