(* ===== verification/Sched.v ===== *)
(** The thread scheduler (so3/kernel/schedule.c): ready and zombie queues,
    [next_thread] under the round-robin and the fixed-priority policy, and
    [schedule] itself.

    Threads and processes are records in maps from their addresses.  The kernel
    runs on one CPU and masks interrupts around these routines, so each is
    atomic; the mask itself is not modelled.  A context switch changes
    [current_thread]: what the previous thread does once it is resumed is not
    part of the call.  [spin_lock] on a lock that is already held never returns
    ([Hang]).  [oom] says whether the next [malloc] fails, [due] which sleepers'
    timers the next timer softirq finds expired: re-arming the preemption timer
    inside [schedule] runs their callbacks there, outside interrupts. *)
From S2P Require Import Prelude.

Module Sched.

Inductive thread_state := THREAD_NEW | THREAD_READY | THREAD_RUNNING | THREAD_WAITING | THREAD_ZOMBIE.
Inductive proc_state := PROC_NEW | PROC_READY | PROC_RUNNING | PROC_WAITING | PROC_ZOMBIE.
#[global] Instance thread_state_eq_dec : EqDecision thread_state.
Proof. solve_decision. Defined.
#[global] Instance proc_state_eq_dec : EqDecision proc_state.
Proof. solve_decision. Defined.

(** [boot_stage_t] (include/common.h) *)
Definition BOOT_STAGE_SCHED : Z := 3.
Definition BOOT_STAGE_COMPLETED : Z := 5.

Record tcb := Tcb {
  tid : Z;
  prio : Z;
  state : thread_state;
  stack_slotID : Z;
  tpcb : option Z;           (* tcb->pcb *)
  pcb_stack_slotID : Z;
  exit_status : Z;
  joinQueue : list Z
}.

(** [completion_t] (include/completion.h): a count and the waiting threads. *)
Record completion := Completion { count : Z; tcb_list : list Z }.

Record pcb := Pcb {
  pstate : proc_state;
  pgtable : Z;
  main_thread : option Z;
  threads : list Z;
  user_slots : list bool;    (* pcb->stack_slotID *)
  pexit_status : Z;
  threads_active : completion;
  ptraced : bool             (* ptrace_pending_req != PTRACE_NO_REQUEST *)
}.

Record sys := Sys {
  tcbs : gmap Z tcb;
  pcbs : gmap Z pcb;
  readyThreads : list Z;
  zombieThreads : list Z;
  current_thread : option Z;
  tcb_idle : option Z;
  schedule_lock : bool;
  sched_preempt : bool;
  in_scheduling : bool;
  in_interrupt : bool;
  boot_stage : Z;
  current_pgtable : Z;
  kernel_stack_slot : list bool;
  tid_next : Z;
  sched_softirq : bool;      (* softirq_stat[cpu][SCHEDULE_SOFTIRQ] *)
  oom : bool;
  due : list Z               (* sleepers whose timer the next timer softirq finds expired, in order *)
}.

(** *** Field assignments *)
Definition set_state (st : thread_state) (t : tcb) : tcb :=
  Tcb (tid t) (prio t) st (stack_slotID t) (tpcb t) (pcb_stack_slotID t) (exit_status t) (joinQueue t).
Definition set_pstate (st : proc_state) (p : pcb) : pcb :=
  Pcb st (pgtable p) (main_thread p) (threads p) (user_slots p) (pexit_status p) (threads_active p) (ptraced p).

Definition with_tcbs f s :=
  Sys (f (tcbs s)) (pcbs s) (readyThreads s) (zombieThreads s) (current_thread s) (tcb_idle s)
    (schedule_lock s) (sched_preempt s) (in_scheduling s) (in_interrupt s) (boot_stage s)
    (current_pgtable s) (kernel_stack_slot s) (tid_next s) (sched_softirq s) (oom s) (due s).
Definition with_pcbs f s :=
  Sys (tcbs s) (f (pcbs s)) (readyThreads s) (zombieThreads s) (current_thread s) (tcb_idle s)
    (schedule_lock s) (sched_preempt s) (in_scheduling s) (in_interrupt s) (boot_stage s)
    (current_pgtable s) (kernel_stack_slot s) (tid_next s) (sched_softirq s) (oom s) (due s).
Definition with_ready f s :=
  Sys (tcbs s) (pcbs s) (f (readyThreads s)) (zombieThreads s) (current_thread s) (tcb_idle s)
    (schedule_lock s) (sched_preempt s) (in_scheduling s) (in_interrupt s) (boot_stage s)
    (current_pgtable s) (kernel_stack_slot s) (tid_next s) (sched_softirq s) (oom s) (due s).
Definition with_zombie f s :=
  Sys (tcbs s) (pcbs s) (readyThreads s) (f (zombieThreads s)) (current_thread s) (tcb_idle s)
    (schedule_lock s) (sched_preempt s) (in_scheduling s) (in_interrupt s) (boot_stage s)
    (current_pgtable s) (kernel_stack_slot s) (tid_next s) (sched_softirq s) (oom s) (due s).
Definition set_current v s :=
  Sys (tcbs s) (pcbs s) (readyThreads s) (zombieThreads s) v (tcb_idle s) (schedule_lock s)
    (sched_preempt s) (in_scheduling s) (in_interrupt s) (boot_stage s) (current_pgtable s)
    (kernel_stack_slot s) (tid_next s) (sched_softirq s) (oom s) (due s).
Definition set_idle v s :=
  Sys (tcbs s) (pcbs s) (readyThreads s) (zombieThreads s) (current_thread s) v (schedule_lock s)
    (sched_preempt s) (in_scheduling s) (in_interrupt s) (boot_stage s) (current_pgtable s)
    (kernel_stack_slot s) (tid_next s) (sched_softirq s) (oom s) (due s).
Definition set_lock v s :=
  Sys (tcbs s) (pcbs s) (readyThreads s) (zombieThreads s) (current_thread s) (tcb_idle s) v
    (sched_preempt s) (in_scheduling s) (in_interrupt s) (boot_stage s) (current_pgtable s)
    (kernel_stack_slot s) (tid_next s) (sched_softirq s) (oom s) (due s).
Definition set_preempt v s :=
  Sys (tcbs s) (pcbs s) (readyThreads s) (zombieThreads s) (current_thread s) (tcb_idle s)
    (schedule_lock s) v (in_scheduling s) (in_interrupt s) (boot_stage s) (current_pgtable s)
    (kernel_stack_slot s) (tid_next s) (sched_softirq s) (oom s) (due s).
Definition set_in_scheduling v s :=
  Sys (tcbs s) (pcbs s) (readyThreads s) (zombieThreads s) (current_thread s) (tcb_idle s)
    (schedule_lock s) (sched_preempt s) v (in_interrupt s) (boot_stage s) (current_pgtable s)
    (kernel_stack_slot s) (tid_next s) (sched_softirq s) (oom s) (due s).
Definition set_in_interrupt v s :=
  Sys (tcbs s) (pcbs s) (readyThreads s) (zombieThreads s) (current_thread s) (tcb_idle s)
    (schedule_lock s) (sched_preempt s) (in_scheduling s) v (boot_stage s) (current_pgtable s)
    (kernel_stack_slot s) (tid_next s) (sched_softirq s) (oom s) (due s).
Definition set_pgtable v s :=
  Sys (tcbs s) (pcbs s) (readyThreads s) (zombieThreads s) (current_thread s) (tcb_idle s)
    (schedule_lock s) (sched_preempt s) (in_scheduling s) (in_interrupt s) (boot_stage s) v
    (kernel_stack_slot s) (tid_next s) (sched_softirq s) (oom s) (due s).
Definition with_slots f s :=
  Sys (tcbs s) (pcbs s) (readyThreads s) (zombieThreads s) (current_thread s) (tcb_idle s)
    (schedule_lock s) (sched_preempt s) (in_scheduling s) (in_interrupt s) (boot_stage s)
    (current_pgtable s) (f (kernel_stack_slot s)) (tid_next s) (sched_softirq s) (oom s) (due s).
Definition set_tid_next v s :=
  Sys (tcbs s) (pcbs s) (readyThreads s) (zombieThreads s) (current_thread s) (tcb_idle s)
    (schedule_lock s) (sched_preempt s) (in_scheduling s) (in_interrupt s) (boot_stage s)
    (current_pgtable s) (kernel_stack_slot s) v (sched_softirq s) (oom s) (due s).
Definition set_softirq v s :=
  Sys (tcbs s) (pcbs s) (readyThreads s) (zombieThreads s) (current_thread s) (tcb_idle s)
    (schedule_lock s) (sched_preempt s) (in_scheduling s) (in_interrupt s) (boot_stage s)
    (current_pgtable s) (kernel_stack_slot s) (tid_next s) v (oom s) (due s).
Definition set_due v s :=
  Sys (tcbs s) (pcbs s) (readyThreads s) (zombieThreads s) (current_thread s) (tcb_idle s)
    (schedule_lock s) (sched_preempt s) (in_scheduling s) (in_interrupt s) (boot_stage s)
    (current_pgtable s) (kernel_stack_slot s) (tid_next s) (sched_softirq s) (oom s) v.

(** *** Access through pointers *)
Definition tcb_of (t : Z) : kern sys tcb := s ← gets tcbs; lift (deref (s !! t)).
Definition pcb_of (p : Z) : kern sys pcb := s ← gets pcbs; lift (deref (s !! p)).
Definition upd_tcb (t : Z) (f : tcb -> tcb) : kern sys unit :=
  x ← tcb_of t; modify (with_tcbs <[t := f x]>).
Definition upd_pcb (p : Z) (f : pcb -> pcb) : kern sys unit :=
  x ← pcb_of p; modify (with_pcbs <[p := f x]>).
Definition current : kern sys Z := c ← gets current_thread; lift (deref c).

Definition panic_if (b : bool) : kern sys unit := lift (bug_on b).
Definition spin_lock : kern sys unit :=
  l ← gets schedule_lock; if l : bool then raise Hang else modify (set_lock true).
Definition spin_unlock : kern sys unit := modify (set_lock false).

(** *** Queues *)
Definition preempt_disable : kern sys unit := spin_lock;; modify (set_preempt false);; spin_unlock.
Definition preempt_enable : kern sys unit := spin_lock;; modify (set_preempt true);; spin_unlock.

Definition ready (t : Z) : kern sys unit :=
  already_locked ← gets schedule_lock;
  when (negb already_locked) spin_lock;;
  upd_tcb t (set_state THREAD_READY);;
  nomem ← gets oom;
  panic_if nomem;;
  modify (with_ready (fun q => q ++ [t]));;
  when (negb already_locked) spin_unlock.

Definition wake_up (t : Z) : kern sys unit :=
  spin_lock;;
  x ← tcb_of t;
  when (bool_decide (state x = THREAD_WAITING)) (ready t);;
  spin_unlock.

(** [list_for_each_safe] with [list_del] of the first entry for [t]. *)
Fixpoint list_del_first (t : Z) (q : list Z) : option (list Z) :=
  match q with
  | [] => None
  | x :: r => if t =? x then Some r else (x ::.) <$> list_del_first t r
  end.

Definition remove_ready (t : Z) : kern sys unit :=
  x ← tcb_of t;
  panic_if (negb (bool_decide (state x = THREAD_READY)));;
  spin_lock;;
  q ← gets readyThreads;
  match list_del_first t q with
  | Some q' => modify (with_ready (fun _ => q'));; spin_unlock
  | None => raise Panic
  end.

Definition remove_zombie (t : Z) : kern sys unit :=
  x ← tcb_of t;
  panic_if (negb (bool_decide (state x = THREAD_ZOMBIE)));;
  q ← gets zombieThreads;
  match list_del_first t q with
  | Some q' => modify (with_zombie (fun _ => q'))
  | None => raise Panic
  end.

(** *** Choice of the next thread *)
Inductive sched_policy := SCHED_RR | SCHED_PRIO.

(** Round robin: the first ready thread whose process may run. *)
Definition eligible (ps : gmap Z pcb) (x : tcb) : outcome bool :=
  match tpcb x with
  | None => Ret true
  | Some p => y ← deref (ps !! p); Ret (bool_decide (pstate y = PROC_READY \/ pstate y = PROC_RUNNING))
  end.
Fixpoint first_eligible (ts : gmap Z tcb) (ps : gmap Z pcb) (q : list Z) : outcome (option Z) :=
  match q with
  | [] => Ret None
  | t :: r => x ← deref (ts !! t); e ← eligible ps x; if e : bool then Ret (Some t) else first_eligible ts ps r
  end.
Definition next_thread_rr : kern sys (option Z) :=
  spin_lock;;
  s ← gets id;
  r ← lift (first_eligible (tcbs s) (pcbs s) (readyThreads s));
  spin_unlock;;
  match r with
  | Some t => remove_ready t;; mret (Some t)
  | None => mret None
  end.

(** Fixed priorities: the first thread of the highest priority, the current
    thread first of all if it is still running. *)
Fixpoint best_prio (ts : gmap Z tcb) (q : list Z) (best : option Z) : outcome (option Z) :=
  match q with
  | [] => Ret best
  | t :: r =>
      x ← deref (ts !! t);
      match best with
      | None => best_prio ts r (Some t)
      | Some b => y ← deref (ts !! b); best_prio ts r (if prio y <? prio x then Some t else best)
      end
  end.
Definition next_thread_prio : kern sys (option Z) :=
  s ← gets id;
  cur ← match current_thread s with
        | None => mret None
        | Some c => x ← tcb_of c; mret (if bool_decide (state x = THREAD_RUNNING) then Some c else None)
        end;
  spin_lock;;
  r ← lift (best_prio (tcbs s) (readyThreads s) cur);
  spin_unlock;;
  match r with
  | Some t => when (negb (bool_decide (cur = Some t))) (remove_ready t);; mret r
  | None => mret None
  end.

Definition next_thread (pol : sched_policy) : kern sys (option Z) :=
  match pol with SCHED_RR => next_thread_rr | SCHED_PRIO => next_thread_prio end.

(** *** The scheduler *)
(** Switch of the address space to that of [next]'s process. *)
Definition switch_process (prev : option Z) (next : Z) : kern sys unit :=
  x ← tcb_of next;
  match tpcb x with
  | None => mret tt
  | Some p =>
      y ← pcb_of p;
      cur ← gets current_pgtable;
      when (negb (pgtable y =? cur))
        (upd_pcb p (set_pstate PROC_RUNNING);;
         match prev with
         | None => mret tt
         | Some pv =>
             z ← tcb_of pv;
             match tpcb z with
             | None => mret tt
             | Some pp =>
                 w ← pcb_of pp;
                 when (negb (bool_decide (pstate w = PROC_ZOMBIE)) && negb (bool_decide (pstate w = PROC_WAITING)))
                   (upd_pcb pp (set_pstate PROC_READY))
             end
         end;;
         modify (set_pgtable (pgtable y)))
  end.

(** From [next] being chosen to [__switch_to]. *)
Definition dispatch (prev idle : option Z) (run : bool) (n : Z) : kern sys unit :=
  match prev with
  | None => mret tt
  | Some p => when (run && negb (bool_decide (idle = Some p))) (ready p)
  end;;
  upd_tcb n (set_state THREAD_RUNNING);;
  modify (set_current (Some n));;
  switch_process prev n.

Definition is_running (t : option Z) : kern sys bool :=
  match t with
  | None => mret false
  | Some p => x ← tcb_of p; mret (bool_decide (state x = THREAD_RUNNING))
  end.

(** *** The preemption timer *)
(** The callback of a sleeper's timer (so3/kernel/delay.c). *)
Definition delay_handler (t : Z) : kern sys unit :=
  x ← tcb_of t;
  when (bool_decide (state x = THREAD_WAITING)) (ready t;; modify (set_softirq true)).

Fixpoint run_delays (l : list Z) : kern sys unit :=
  match l with [] => mret tt | t :: r => delay_handler t;; run_delays r end.

(** [TIMER_SOFTIRQ], as the scheduler sees it: the callbacks of the timers that
    are due.  (The timer list is the timer component's.) *)
Definition timer_softirq : kern sys unit :=
  preempt_disable;;
  l ← gets due;
  run_delays l;;
  modify (set_due []);;
  preempt_enable.

(** [do_softirq] inside [schedule]: the timers first; the handler of
    [SCHEDULE_SOFTIRQ] is [schedule], which finds [__in_scheduling] set and
    returns. *)
Definition softirqs_in_schedule : kern sys unit :=
  timer_softirq;;
  modify (set_softirq false);;
  modify (set_in_interrupt false).

(** [set_timer(&schedule_timer, ...)]: the timer is re-armed, [TIMER_SOFTIRQ]
    raised, and the softirqs run at once outside interrupts.  Round robin
    selects [CONFIG_SCHED_FREQ_PREEMPTION], fixed priorities do not. *)
Definition set_schedule_timer (pol : sched_policy) : kern sys unit :=
  match pol with
  | SCHED_RR => irq ← gets in_interrupt; when (negb irq) softirqs_in_schedule
  | SCHED_PRIO => mret tt
  end.

Definition schedule (pol : sched_policy) : kern sys unit :=
  stage ← gets boot_stage;
  if stage <? BOOT_STAGE_COMPLETED then mret tt
  else
    pre ← gets sched_preempt;
    panic_if (negb pre);;
    idle ← gets tcb_idle;
    panic_if (negb (bool_decide (is_Some idle)));;
    busy ← gets in_scheduling;
    if busy : bool then mret tt
    else
      modify (set_in_scheduling true);;
      prev ← gets current_thread;
      next ← next_thread pol;
      set_schedule_timer pol;;
      run ← is_running prev;
      let next := match next with None => if negb run then idle else None | Some n => Some n end in
      match next with
      | None => mret tt
      | Some n =>
          when (negb (bool_decide (prev = Some n))) (dispatch prev idle run n)
      end;;
      modify (set_in_scheduling false);;
      modify (set_in_interrupt false).

(** Put the current thread to sleep; its waker has a reference to it. *)
Definition waiting (pol : sched_policy) : kern sys unit :=
  c ← current;
  x ← tcb_of c;
  panic_if (negb (bool_decide (state x = THREAD_RUNNING)));;
  upd_tcb c (set_state THREAD_WAITING);;
  schedule pol.

Definition zombie (pol : sched_policy) : kern sys unit :=
  c ← current;
  x ← tcb_of c;
  panic_if (negb (bool_decide (state x = THREAD_RUNNING)));;
  upd_tcb c (set_state THREAD_ZOMBIE);;
  nomem ← gets oom;
  panic_if nomem;;
  modify (with_zombie (fun q => q ++ [c]));;
  schedule pol.

(** *** Invariant of the scheduler between calls *)
Record sched_inv (s : sys) : Prop := {
  si_ready : forall t, t ∈ readyThreads s <-> exists x, tcbs s !! t = Some x /\ state x = THREAD_READY;
  si_zombie : forall t, t ∈ zombieThreads s <-> exists x, tcbs s !! t = Some x /\ state x = THREAD_ZOMBIE;
  si_ready_nodup : NoDup (readyThreads s);
  si_zombie_nodup : NoDup (zombieThreads s);
  (* the idle thread stays marked running when it is preempted *)
  si_running : forall t x, tcbs s !! t = Some x -> state x = THREAD_RUNNING -> current_thread s = Some t \/ tcb_idle s = Some t;
  si_idle : forall i, tcb_idle s = Some i ->
    exists x, tcbs s !! i = Some x /\ (state x = THREAD_NEW \/ state x = THREAD_RUNNING) /\ tpcb x = None;
  si_current : forall c, current_thread s = Some c -> is_Some (tcbs s !! c);
  si_pcb : forall t x p, tcbs s !! t = Some x -> tpcb x = Some p -> is_Some (pcbs s !! p);
  si_lock : schedule_lock s = false
}.

(** The conditions under which the scheduler is entered. *)
Definition started (s : sys) : Prop :=
  BOOT_STAGE_COMPLETED <= boot_stage s /\ sched_preempt s = true /\ oom s = false /\ in_scheduling s = false /\
  is_Some (tcb_idle s) /\ Forall (fun t => is_Some (tcbs s !! t)) (due s).

(** *** What the queue operations do *)
Lemma tcb_of_ok t x s : tcbs s !! t = Some x -> tcb_of t s = Ret (x, s).
Proof. intros H. unfold tcb_of. kstep. unfold lift. by rewrite H. Qed.

Lemma upd_tcb_ok t f x s : tcbs s !! t = Some x -> upd_tcb t f s = Ret (tt, with_tcbs <[t := f x]> s).
Proof. intros H. unfold upd_tcb. by krun (tcb_of_ok _ _ _ H). Qed.

Lemma pcb_of_ok p y s : pcbs s !! p = Some y -> pcb_of p s = Ret (y, s).
Proof. intros H. unfold pcb_of. kstep. unfold lift. by rewrite H. Qed.

Lemma upd_pcb_ok p f y s : pcbs s !! p = Some y -> upd_pcb p f s = Ret (tt, with_pcbs <[p := f y]> s).
Proof. intros H. unfold upd_pcb. by krun (pcb_of_ok _ _ _ H). Qed.

Lemma ready_ok t x s :
  tcbs s !! t = Some x -> oom s = false ->
  ready t s = Ret (tt, with_ready (fun q => q ++ [t]) (with_tcbs <[t := set_state THREAD_READY x]> s)).
Proof.
  intros H Ho. destruct s as [ts ps rq zq c i [] pre b ii bt g sl n sq o du]; simpl in *; subst o;
    unfold ready; kstep; unfold when, negb; kstep; krun (upd_tcb_ok t _ x); kstep; kstep; kstep; done.
Qed.

Lemma list_del_first_ok t q :
  t ∈ q -> exists q1 q2, q = q1 ++ t :: q2 /\ (t ∉ q1) /\ list_del_first t q = Some (q1 ++ q2).
Proof.
  induction q as [|a q IH]; [set_solver|]. intros Hin. simpl. destruct (Z.eqb_spec t a) as [->|Hne].
  - exists [], q. split_and!; [done|set_solver|done].
  - destruct IH as (q1 & q2 & -> & Hn & ->); [set_solver|]. exists (a :: q1), q2. split_and!; [done|set_solver|done].
Qed.

Lemma list_del_first_nodup t q q' :
  NoDup q -> list_del_first t q = Some q' -> q ≡ₚ t :: q' /\ NoDup q' /\ t ∉ q'.
Proof.
  intros Hnd Hd. destruct (decide (t ∈ q)) as [Hin|Hni].
  - destruct (list_del_first_ok t q Hin) as (q1 & q2 & -> & _ & E). rewrite E in Hd. injection Hd as <-.
    rewrite <- Permutation_middle in Hnd. apply NoDup_cons in Hnd as [? ?].
    split_and!; [symmetry; apply Permutation_middle|done|done].
  - exfalso. clear Hnd. revert q' Hd. induction q as [|a q IH]; intros q'; simpl; [done|].
    destruct (Z.eqb_spec t a); [set_solver|]. destruct (list_del_first t q); [|done]. intros _. eapply IH; set_solver.
Qed.

Lemma remove_ready_ok t x s q' :
  tcbs s !! t = Some x -> state x = THREAD_READY -> schedule_lock s = false ->
  list_del_first t (readyThreads s) = Some q' ->
  remove_ready t s = Ret (tt, with_ready (fun _ => q') s).
Proof.
  intros H Hst Hl Hq. destruct s as [ts ps rq zq c i l pre b ii bt g sl n sq o du]; simpl in *; subst l.
  unfold remove_ready. krun (tcb_of_ok t x). rewrite bool_decide_eq_true_2 by done. kstep. kstep. kstep.
  cbn [readyThreads set_lock]. by rewrite Hq.
Qed.

(** *** Round robin *)
(** The specification of the choice: the first ready thread whose process may
    run, by a plain search. *)
Definition may_run (s : sys) (t : Z) : bool :=
  match tcbs s !! t with
  | Some x => match tpcb x with
              | None => true
              | Some p => match pcbs s !! p with
                          | Some y => bool_decide (pstate y = PROC_READY \/ pstate y = PROC_RUNNING)
                          | None => false
                          end
              end
  | None => false
  end.
Fixpoint find_first (f : Z -> bool) (q : list Z) : option Z :=
  match q with [] => None | t :: r => if f t then Some t else find_first f r end.

Lemma find_first_Some f q t : find_first f q = Some t -> t ∈ q /\ f t = true.
Proof. induction q as [|a q IH]; simpl; [done|]. destruct (f a) eqn:E; [intros [= ->]; set_solver|set_solver]. Qed.

Lemma first_eligible_ok s q :
  sched_inv s -> (forall t, t ∈ q -> t ∈ readyThreads s) ->
  first_eligible (tcbs s) (pcbs s) q = Ret (find_first (may_run s) q).
Proof.
  intros Hi. induction q as [|t q IH]; intros Hq; simpl; [done|].
  destruct (proj1 (si_ready _ Hi t)) as (x & Hx & _); [apply Hq; set_solver|].
  unfold may_run at 1. rewrite Hx. simpl. bret. unfold eligible. destruct (tpcb x) as [p|] eqn:Ep; [|done].
  destruct (si_pcb _ Hi _ _ _ Hx Ep) as [y Hy]. rewrite Hy. simpl.
  destruct (bool_decide _); bret; [done|]. apply IH. set_solver.
Qed.

Lemma next_thread_rr_ok s :
  sched_inv s ->
  match find_first (may_run s) (readyThreads s) with
  | None => next_thread_rr s = Ret (None, s)
  | Some t => exists q', next_thread_rr s = Ret (Some t, with_ready (fun _ => q') s) /\
                list_del_first t (readyThreads s) = Some q'
  end.
Proof.
  intros Hi. pose proof (si_lock _ Hi) as Hl.
  assert (Hself : set_lock false (set_lock true s) = s) by (destruct s; simpl in *; by subst).
  assert (Hpre : forall B (k : option Z -> kern sys B),
    (spin_lock;; s ← gets id; r ← lift (first_eligible (tcbs s) (pcbs s) (readyThreads s)); spin_unlock;; k r) s =
    k (find_first (may_run s) (readyThreads s)) s).
  { intros B k. unfold spin_lock. rewrite (kbind_ret _ _ s tt (set_lock true s)).
    2: { kstep. by rewrite Hl. }
    kstep. unfold id. cbn [tcbs pcbs readyThreads set_lock].
    rewrite (kbind_ret _ _ _ (find_first (may_run s) (readyThreads s)) (set_lock true s)).
    2: { unfold lift. by rewrite (first_eligible_ok s) by (done || auto). }
    unfold spin_unlock. kstep. by rewrite Hself. }
  unfold next_thread_rr. rewrite Hpre. destruct (find_first _ _) as [t|] eqn:E; [|done].
  apply find_first_Some in E as [Hin _]. destruct (list_del_first_ok t _ Hin) as (q1 & q2 & _ & _ & Hq).
  destruct (proj1 (si_ready _ Hi t) Hin) as (x & Hx & Hst).
  exists (q1 ++ q2). split; [|done]. by krun (remove_ready_ok t x s).
Qed.

(** *** Switching *)
Lemma switch_process_ok s prev n x :
  tcbs s !! n = Some x ->
  (forall t x p, tcbs s !! t = Some x -> tpcb x = Some p -> is_Some (pcbs s !! p)) ->
  (forall p, prev = Some p -> is_Some (tcbs s !! p)) ->
  exists ps g, switch_process prev n s = Ret (tt, set_pgtable g (with_pcbs (fun _ => ps) s)) /\
    (forall p, is_Some (pcbs s !! p) -> is_Some (ps !! p)) /\
    (forall p y, tpcb x = Some p -> pcbs s !! p = Some y -> g = pgtable y) /\
    (tpcb x = None -> ps = pcbs s /\ g = current_pgtable s).
Proof.
  intros Hx Hp Hprev. unfold switch_process. krun (tcb_of_ok n x).
  assert (Hid : s = set_pgtable (current_pgtable s) (with_pcbs (fun _ => pcbs s) s)) by (by destruct s).
  destruct (tpcb x) as [p|] eqn:Ep.
  2: { exists (pcbs s), (current_pgtable s). split_and!; try done. by rewrite <- Hid. }
  destruct (Hp _ _ _ Hx Ep) as [y Hy]. krun (pcb_of_ok p y). kstep. unfold when at 1.
  destruct (Z.eqb_spec (pgtable y) (current_pgtable s)) as [Eg|Eg]; simpl.
  { exists (pcbs s), (current_pgtable s). split_and!; try done.
    - by rewrite <- Hid.
    - intros p' y' [= <-] Hy'. congruence. }
  krun (upd_pcb_ok p _ y). set (s1 := with_pcbs _ s).
  assert (Hins : forall (ps : gmap Z pcb) a b v q, is_Some (ps !! q) -> ps !! a = Some b -> is_Some (<[a := v]> ps !! q)).
  { intros ps a b v q Hq Ha. destruct (decide (a = q)) as [->|]; [by rewrite lookup_insert_eq|by rewrite lookup_insert_ne]. }
  assert (H1 : forall q, is_Some (pcbs s !! q) -> is_Some (pcbs s1 !! q)) by (intros q Hq; by eapply Hins).
  assert (Hfin : forall ps, (forall q, is_Some (pcbs s !! q) -> is_Some (ps !! q)) ->
    exists ps' g, modify (set_pgtable (pgtable y)) (with_pcbs (fun _ => ps) s) = Ret (tt, set_pgtable g (with_pcbs (fun _ => ps') s)) /\
      (forall q, is_Some (pcbs s !! q) -> is_Some (ps' !! q)) /\
      (forall p' y0, Some p = Some p' -> pcbs s !! p' = Some y0 -> g = pgtable y0) /\
      (Some p = None -> ps' = pcbs s /\ g = current_pgtable s)).
  { intros ps Hps. exists ps, (pgtable y). split_and!; try done. intros p' y' [= <-] Hy'. congruence. }
  destruct prev as [pv|]; [|kstep; by apply Hfin].
  destruct (Hprev pv eq_refl) as [z Hz]. destruct (tpcb z) as [pp|] eqn:Epp.
  2: { erewrite (kbind_ret (tcb_of pv ≫= _) _ s1 tt s1). 2: { krun (tcb_of_ok pv z). by rewrite Epp. } by apply Hfin. }
  destruct (H1 pp (Hp _ _ _ Hz Epp)) as [w Hw].
  destruct (negb (bool_decide (pstate w = PROC_ZOMBIE)) && negb (bool_decide (pstate w = PROC_WAITING))) eqn:Ew.
  - erewrite (kbind_ret (tcb_of pv ≫= _) _ s1 tt _).
    2: { krun (tcb_of_ok pv z). rewrite Epp. krun (pcb_of_ok pp w). unfold when. rewrite Ew. by apply upd_pcb_ok. }
    apply (Hfin (<[pp := set_pstate PROC_READY w]> (pcbs s1))). intros q Hq. by eapply Hins; [apply H1|].
  - erewrite (kbind_ret (tcb_of pv ≫= _) _ s1 tt s1).
    2: { krun (tcb_of_ok pv z). rewrite Epp. krun (pcb_of_ok pp w). unfold when. by rewrite Ew. }
    apply (Hfin (pcbs s1) H1).
Qed.

Definition running (s : sys) (t : Z) : bool :=
  match tcbs s !! t with Some x => bool_decide (state x = THREAD_RUNNING) | None => false end.
Definition cur_running (s : sys) : bool := match current_thread s with Some p => running s p | None => false end.

(** The previous thread, if a switch puts it back on the ready queue. *)
Definition requeue (s : sys) : list Z :=
  match current_thread s with
  | Some p => if running s p && negb (bool_decide (tcb_idle s = Some p)) then [p] else []
  | None => []
  end.

(** The fields that scheduling leaves alone. *)
Definition same_ctl (s s' : sys) : Prop :=
  zombieThreads s' = zombieThreads s /\ tcb_idle s' = tcb_idle s /\ schedule_lock s' = schedule_lock s /\
  sched_preempt s' = sched_preempt s /\ boot_stage s' = boot_stage s /\
  kernel_stack_slot s' = kernel_stack_slot s /\ tid_next s' = tid_next s /\ oom s' = oom s /\ due s' = due s.

(** [s'] is [s] after a switch to [n], with [q] the ready queue less [n]. *)
Record switched (s s' : sys) (n : Z) (q : list Z) : Prop := {
  sw_current : current_thread s' = Some n;
  sw_ready : readyThreads s' = q ++ requeue s;
  sw_state : forall t, tcbs s' !! t =
    (if decide (t = n) then set_state THREAD_RUNNING
     else if decide (t ∈ requeue s) then set_state THREAD_READY else id) <$> tcbs s !! t;
  sw_pcbs : forall p, is_Some (pcbs s !! p) -> is_Some (pcbs s' !! p);
  sw_ctl : same_ctl s s'
}.

Lemma dispatch_ok s n xn q :
  sched_inv s -> oom s = false -> tcbs s !! n = Some xn -> current_thread s <> Some n ->
  exists s', dispatch (current_thread s) (tcb_idle s) (cur_running s) n (with_ready (fun _ => q) s) = Ret (tt, s') /\
    switched s s' n q /\ in_scheduling s' = in_scheduling s.
Proof.
  intros Hi Ho Hn Hcn. unfold dispatch.
  (* after the requeue *)
  set (ts := match requeue s with [p] => match tcbs s !! p with Some x => <[p := set_state THREAD_READY x]> (tcbs s) | None => tcbs s end | _ => tcbs s end).
  assert (Hts : forall t, ts !! t = (if decide (t ∈ requeue s) then set_state THREAD_READY else id) <$> tcbs s !! t).
  { intros t. unfold ts, requeue. destruct (current_thread s) as [p|]; [|by rewrite decide_False, option_fmap_id by set_solver].
    destruct (_ && _); [|by rewrite decide_False, option_fmap_id by set_solver].
    destruct (tcbs s !! p) as [x|] eqn:E.
    - case_decide as Ht.
      + apply list_elem_of_singleton in Ht as ->. by rewrite lookup_insert_eq, E.
      + rewrite lookup_insert_ne by set_solver. by rewrite option_fmap_id.
    - case_decide as Ht; [|by rewrite option_fmap_id]. apply list_elem_of_singleton in Ht as ->. by rewrite E. }
  assert (Hn1 : ts !! n = Some xn).
  { rewrite Hts, Hn. rewrite decide_False; [done|]. unfold requeue. destruct (current_thread s) as [p|]; [|set_solver].
    destruct (_ && _); [|set_solver]. intros ->%list_elem_of_singleton. done. }
  rewrite (kbind_ret _ _ _ tt (with_ready (fun _ => q ++ requeue s) (with_tcbs (fun _ => ts) s))).
  2: { unfold ts, requeue, cur_running, running. destruct (current_thread s) as [p|] eqn:Ec.
       2: { rewrite app_nil_r. by destruct s. }
       destruct (si_current _ Hi p Ec) as [x Hx]. rewrite Hx.
       destruct (_ && _); unfold when; [|rewrite app_nil_r; by destruct s].
       rewrite (ready_ok p x) by done. rewrite Hx. by destruct s. }
  rewrite (kbind_ret _ _ _ tt _ (upd_tcb_ok n _ xn (with_ready (fun _ => q ++ requeue s) (with_tcbs (fun _ => ts) s)) Hn1)). kstep.
  match goal with |- context [switch_process _ _ ?z] => set (s2 := z) end.
  destruct (switch_process_ok s2 (current_thread s) n (set_state THREAD_RUNNING xn)) as (ps & g & -> & Hps & _).
  { apply lookup_insert_eq. }
  { intros t x p Hx Hp. unfold s2 in Hx |- *. simpl in *. destruct (decide (n = t)) as [<-|].
    - rewrite lookup_insert_eq in Hx. injection Hx as <-. by apply (si_pcb _ Hi n xn).
    - rewrite lookup_insert_ne, Hts in Hx by done. destruct (tcbs s !! t) as [y|] eqn:Ey; [|done].
      apply (si_pcb _ Hi t y p Ey). revert Hx. case_decide; intros [= <-]; done. }
  { intros p Hp. unfold s2. simpl. destruct (decide (n = p)) as [->|]; [by rewrite lookup_insert_eq|].
    rewrite lookup_insert_ne, Hts by done. apply fmap_is_Some. by apply (si_current _ Hi). }
  eexists. split; [done|]. split; [|done]. split; try done. intros t. simpl.
  case_decide as E; [subst; by rewrite lookup_insert_eq, Hn|]. rewrite lookup_insert_ne by done. apply Hts.
Qed.

Lemma requeue_spec s t :
  t ∈ requeue s <-> current_thread s = Some t /\ running s t = true /\ tcb_idle s <> Some t.
Proof.
  unfold requeue. destruct (current_thread s) as [p|]; [|set_solver].
  destruct (running s p) eqn:Er, (bool_decide_reflect (tcb_idle s = Some p)); simpl;
    rewrite ?list_elem_of_singleton, ?elem_of_nil; split; intros; destruct_and?; simplify_eq; solve [done | by split_and! | congruence].
Qed.

Lemma requeue_nodup s : NoDup (requeue s).
Proof.
  unfold requeue. destruct (current_thread s); [|constructor]. destruct (_ && _); [apply NoDup_singleton|constructor].
Qed.

Lemma running_state s t x : tcbs s !! t = Some x -> (running s t = true <-> state x = THREAD_RUNNING).
Proof. intros H. unfold running. rewrite H. by rewrite bool_decide_eq_true. Qed.

Lemma switched_tcb s s' n q t x :
  switched s s' n q -> tcbs s !! t = Some x ->
  exists x', tcbs s' !! t = Some x' /\ tpcb x' = tpcb x /\
    (t = n -> state x' = THREAD_RUNNING) /\
    (t <> n -> t ∈ requeue s -> state x' = THREAD_READY) /\
    (t <> n -> t ∉ requeue s -> state x' = state x).
Proof.
  intros Hsw Hx. rewrite (sw_state _ _ _ _ Hsw), Hx. eexists. split; [done|]. repeat case_decide; split_and!; try done.
Qed.

Lemma inv_switched s s' n xn q :
  sched_inv s -> switched s s' n q -> tcbs s !! n = Some xn -> current_thread s <> Some n ->
  state xn = THREAD_READY \/ tcb_idle s = Some n ->
  (forall t, t ∈ q <-> t ∈ readyThreads s /\ t <> n) -> NoDup q -> sched_inv s'.
Proof.
  intros Hi Hsw Hn Hcn Hkind Hq Hndq.
  pose proof (sw_ctl _ _ _ _ Hsw) as (Hz & Hid & Hl & _).
  assert (Hnr : n ∉ requeue s) by (rewrite requeue_spec; naive_solver).
  assert (Hrq : forall t, t ∈ requeue s -> exists x, tcbs s !! t = Some x /\ state x = THREAD_RUNNING).
  { intros t (Hc & Hr & _)%requeue_spec. destruct (si_current _ Hi t Hc) as [x Hx]. exists x. split; [done|]. by apply (running_state s t). }
  assert (Hdom : forall t x', tcbs s' !! t = Some x' -> exists x, tcbs s !! t = Some x).
  { intros t x' H. rewrite (sw_state _ _ _ _ Hsw) in H. destruct (tcbs s !! t); [eauto|done]. }
  assert (Hnz : forall x, tcbs s !! n = Some x -> state x <> THREAD_ZOMBIE).
  { intros x Hx. rewrite Hn in Hx. injection Hx as <-. destruct Hkind as [->|Hk]; [done|].
    destruct (si_idle _ Hi n Hk) as (y & Hy & Hst & _). rewrite Hn in Hy. injection Hy as <-. by destruct Hst as [-> | ->]. }
  split.
  - intros t. rewrite (sw_ready _ _ _ _ Hsw), elem_of_app, Hq, (si_ready _ Hi). split.
    + intros [[(x & Hx & Hst) Hne]|Hr].
      * destruct (switched_tcb _ _ _ _ t x Hsw Hx) as (x' & Hx' & _ & _ & _ & H3). exists x'. split; [done|].
        rewrite H3; try done. intros (y & Hy & Hst')%Hrq. congruence.
      * destruct (Hrq t Hr) as (x & Hx & _). destruct (switched_tcb _ _ _ _ t x Hsw Hx) as (x' & Hx' & _ & _ & H2 & _).
        exists x'. split; [done|]. apply H2; [|done]. by intros ->.
    + intros (x' & Hx' & Hst'). destruct (Hdom _ _ Hx') as [x Hx].
      destruct (switched_tcb _ _ _ _ t x Hsw Hx) as (x2 & Hx2 & _ & H1 & H2 & H3). rewrite Hx' in Hx2. injection Hx2 as <-.
      destruct (decide (t = n)) as [->|Hne]; [rewrite H1 in Hst'; done|].
      destruct (decide (t ∈ requeue s)); [by right|left]. split; [|done]. exists x. split; [done|]. by rewrite <- H3.
  - intros t. rewrite Hz, (si_zombie _ Hi). split.
    + intros (x & Hx & Hst). destruct (switched_tcb _ _ _ _ t x Hsw Hx) as (x' & Hx' & _ & _ & _ & H3). exists x'. split; [done|].
      rewrite H3; try done; [by intros ->; apply (Hnz x)|]. intros (y & Hy & Hst')%Hrq. congruence.
    + intros (x' & Hx' & Hst'). destruct (Hdom _ _ Hx') as [x Hx].
      destruct (switched_tcb _ _ _ _ t x Hsw Hx) as (x2 & Hx2 & _ & H1 & H2 & H3). rewrite Hx' in Hx2. injection Hx2 as <-.
      exists x. split; [done|]. destruct (decide (t = n)) as [->|Hne]; [rewrite H1 in Hst'; done|].
      destruct (decide (t ∈ requeue s)); [rewrite H2 in Hst'; done|]. by rewrite <- H3.
  - rewrite (sw_ready _ _ _ _ Hsw). apply NoDup_app. split_and!; [done| |apply requeue_nodup].
    intros t [Ht _]%Hq (y & Hy & Hst)%Hrq. apply (si_ready _ Hi) in Ht as (x & Hx & Hst'). congruence.
  - rewrite Hz. apply (si_zombie_nodup _ Hi).
  - intros t x' Hx' Hst'. destruct (Hdom _ _ Hx') as [x Hx]. rewrite (sw_current _ _ _ _ Hsw), Hid.
    destruct (switched_tcb _ _ _ _ t x Hsw Hx) as (x2 & Hx2 & _ & H1 & H2 & H3). rewrite Hx' in Hx2. injection Hx2 as <-.
    destruct (decide (t = n)) as [->|Hne]; [by left|right].
    destruct (decide (t ∈ requeue s)) as [|Hr]; [rewrite H2 in Hst'; done|]. rewrite H3 in Hst' by done.
    destruct (si_running _ Hi t x Hx Hst') as [Hc|]; [|done]. destruct (decide (tcb_idle s = Some t)) as [|Hni]; [done|].
    exfalso. apply Hr. apply requeue_spec. split_and!; try done. by apply (running_state s t x).
  - intros i Hii. rewrite Hid in Hii. destruct (si_idle _ Hi i Hii) as (x & Hx & Hst & Hp).
    destruct (switched_tcb _ _ _ _ i x Hsw Hx) as (x' & Hx' & Hp' & H1 & H2 & H3). exists x'. split_and!; [done| |congruence].
    destruct (decide (i = n)); [right; auto|]. rewrite H3; try done. by intros (_ & _ & ?)%requeue_spec.
  - intros c. rewrite (sw_current _ _ _ _ Hsw). intros [= <-].
    destruct (switched_tcb _ _ _ _ n xn Hsw Hn) as (x' & Hx' & _). eauto.
  - intros t x' p Hx' Hp. destruct (Hdom _ _ Hx') as [x Hx].
    destruct (switched_tcb _ _ _ _ t x Hsw Hx) as (x2 & Hx2 & Hp2 & _). rewrite Hx' in Hx2. injection Hx2 as <-.
    apply (sw_pcbs _ _ _ _ Hsw). eapply (si_pcb _ Hi t x); congruence.
  - rewrite Hl. apply (si_lock _ Hi).
Qed.

Lemma inv_busy s b : sched_inv s -> sched_inv (set_in_scheduling b s).
Proof. intros []. by split. Qed.

Lemma inv_done s : sched_inv s -> sched_inv (set_in_interrupt false (set_in_scheduling false s)).
Proof. intros []. by split. Qed.

Lemma switched_done s s1 n q b :
  switched (set_in_scheduling b s) s1 n q -> switched s (set_in_interrupt false (set_in_scheduling false s1)) n q.
Proof. intros []. by split. Qed.

Lemma is_running_ok s : sched_inv s -> forall s', tcbs s' = tcbs s -> is_running (current_thread s) s' = Ret (cur_running s, s').
Proof.
  intros Hi s' Ht. unfold is_running, cur_running, running. destruct (current_thread s) as [p|] eqn:Ec; [|done].
  destruct (si_current _ Hi p Ec) as [x Hx]. rewrite (kbind_ret _ _ s' x s') by (apply tcb_of_ok; by rewrite Ht). by rewrite Hx.
Qed.

(** *** What the preemption timer does to the queue *)
Definition is_waiting (ts : gmap Z tcb) (t : Z) : bool :=
  match ts !! t with Some x => bool_decide (state x = THREAD_WAITING) | None => false end.
Definition made_ready (ts : gmap Z tcb) (t : Z) : gmap Z tcb := alter (set_state THREAD_READY) t ts.

(** The threads that the callbacks of [l] make ready, and the thread states then. *)
Fixpoint wakes (ts : gmap Z tcb) (l : list Z) : list Z :=
  match l with
  | [] => []
  | t :: r => if is_waiting ts t then t :: wakes (made_ready ts t) r else wakes ts r
  end.
Fixpoint wake_states (ts : gmap Z tcb) (l : list Z) : gmap Z tcb :=
  match l with
  | [] => ts
  | t :: r => wake_states (if is_waiting ts t then made_ready ts t else ts) r
  end.

Lemma is_waiting_made_ready ts t u : is_waiting (made_ready ts t) u = is_waiting ts u && negb (bool_decide (u = t)).
Proof.
  unfold is_waiting, made_ready. destruct (decide (t = u)) as [<-|Hne].
  - rewrite lookup_alter_eq, bool_decide_eq_true_2, andb_false_r by done. by destruct (ts !! t).
  - rewrite lookup_alter_ne, bool_decide_eq_false_2, andb_true_r by done. done.
Qed.

Lemma wakes_spec ts l : NoDup (wakes ts l) /\ forall u, u ∈ wakes ts l <-> u ∈ l /\ is_waiting ts u = true.
Proof.
  revert ts. induction l as [|t r IH]; intros ts; simpl; [split; [constructor|set_solver]|].
  destruct (is_waiting ts t) eqn:E.
  - destruct (IH (made_ready ts t)) as [Hnd Hin]. split.
    + constructor; [|done]. rewrite Hin, is_waiting_made_ready, bool_decide_eq_true_2, andb_false_r by done. by intros [_ ?].
    + intros u. rewrite !elem_of_cons, Hin, is_waiting_made_ready. destruct (bool_decide_reflect (u = t)) as [->|Hne]; simpl; [tauto|].
      rewrite andb_true_r. tauto.
  - destruct (IH ts) as [Hnd Hin]. split; [done|]. intros u. rewrite elem_of_cons, Hin.
    split; [tauto|]. intros [[->|?] ?]; [congruence|tauto].
Qed.

Lemma wake_states_lookup l ts u :
  wake_states ts l !! u = (if decide (u ∈ wakes ts l) then set_state THREAD_READY else id) <$> ts !! u.
Proof.
  revert ts. induction l as [|t r IH]; intros ts; cbn [wakes wake_states]; [by rewrite decide_False, option_fmap_id by set_solver|].
  rewrite IH. destruct (is_waiting ts t) eqn:E; [|done]. change (made_ready ts t !! u) with (alter (set_state THREAD_READY) t ts !! u).
  destruct (decide (u = t)) as [->|Hne].
  - rewrite lookup_alter_eq. case_decide as H1.
    { apply (proj2 (wakes_spec _ _)) in H1 as [_ H1]. by rewrite is_waiting_made_ready, bool_decide_eq_true_2, andb_false_r in H1. }
    case_decide as H2; [by destruct (ts !! t)|]. exfalso. apply H2. left.
  - rewrite lookup_alter_ne by done. repeat case_decide; try done; set_solver.
Qed.

Lemma with_ready_ext f g s : f (readyThreads s) = g (readyThreads s) -> with_ready f s = with_ready g s.
Proof. intros E. unfold with_ready. by rewrite E. Qed.

Lemma wake_twice b b0 f f0 g g0 s :
  set_softirq b (with_ready f (with_tcbs g (set_softirq b0 (with_ready f0 (with_tcbs g0 s))))) =
  set_softirq b (with_ready (fun q => f (f0 q)) (with_tcbs (fun ts => g (g0 ts)) s)).
Proof. reflexivity. Qed.

Lemma run_delays_ok l s :
  oom s = false -> Forall (fun t => is_Some (tcbs s !! t)) l ->
  exists b, run_delays l s = Ret (tt, set_softirq b (with_ready (fun q => q ++ wakes (tcbs s) l)
    (with_tcbs (fun _ => wake_states (tcbs s) l) s))).
Proof.
  revert s. induction l as [|t r IH]; intros s Ho Hl.
  { exists (sched_softirq s). 
    transitivity (Ret (tt, set_softirq (sched_softirq s) (with_ready (fun q => q) (with_tcbs (fun _ => tcbs s) s)))); [by destruct s|].
    do 3 f_equal. apply with_ready_ext. cbn. by rewrite app_nil_r. }
  apply Forall_cons in Hl as [[x Hx] Hl]. cbn [run_delays wakes wake_states]. unfold delay_handler.
  unfold is_waiting. rewrite Hx. destruct (bool_decide_reflect (state x = THREAD_WAITING)) as [E|E].
  - set (s1 := set_softirq true (with_ready (fun q => q ++ [t]) (with_tcbs <[t := set_state THREAD_READY x]> s))).
    assert (Hm : made_ready (tcbs s) t = <[t := set_state THREAD_READY x]> (tcbs s)).
    { apply map_eq. intros u. unfold made_ready. destruct (decide (t = u)) as [<-|]; [by rewrite lookup_alter_eq, lookup_insert_eq, Hx|].
      by rewrite lookup_alter_ne, lookup_insert_ne. }
    destruct (IH s1) as (b & Hr); [done| |].
    { eapply Forall_impl; [exact Hl|]. intros u Hu. simpl. destruct (decide (t = u)) as [<-|]; [by rewrite lookup_insert_eq|by rewrite lookup_insert_ne]. }
    exists b. rewrite (kbind_ret _ _ s tt s1).
    + rewrite Hr, Hm. f_equal. f_equal. unfold s1. rewrite wake_twice. f_equal. apply with_ready_ext. cbn. by rewrite <- app_assoc.
    + rewrite (kbind_ret _ _ s x s) by (by apply tcb_of_ok). rewrite bool_decide_eq_true_2 by done. cbn [when].
      by rewrite (kbind_ret _ _ _ _ _ (ready_ok t x s Hx Ho)).
  - destruct (IH s Ho Hl) as (b & Hr). exists b. rewrite (kbind_ret _ _ s tt s); [exact Hr|].
    rewrite (kbind_ret _ _ s x s) by (by apply tcb_of_ok). by rewrite bool_decide_eq_false_2.
Qed.

Lemma timer_softirq_ok s :
  schedule_lock s = false -> sched_preempt s = true -> oom s = false -> Forall (fun t => is_Some (tcbs s !! t)) (due s) ->
  exists b, timer_softirq s = Ret (tt, set_due [] (set_softirq b (with_ready (fun q => q ++ wakes (tcbs s) (due s))
    (with_tcbs (fun _ => wake_states (tcbs s) (due s)) s)))).
Proof.
  intros Hl Hp Ho Hd. destruct s as [ts ps rq zq c i l pre b ii bt g sl n sq o du]. simpl in *. subst.
  set (s0 := Sys _ _ _ _ _ _ _ _ _ _ _ _ _ _ _ _ _). destruct (run_delays_ok du (set_preempt false s0)) as (b' & Hr); [done|done|].
  exists b'. unfold timer_softirq. rewrite (kbind_ret _ _ s0 tt (set_preempt false s0)) by done. kstep.
  rewrite (kbind_ret _ _ _ _ _ Hr). kstep. done.
Qed.

(** The threads [set_timer] makes ready inside [schedule], and the state as if it
    had run before [next_thread]. *)
Definition woken (pol : sched_policy) (s : sys) : list Z :=
  match pol with SCHED_RR => if in_interrupt s then [] else wakes (tcbs s) (due s) | SCHED_PRIO => [] end.
Definition timed (pol : sched_policy) (s : sys) : sys :=
  match pol with
  | SCHED_RR =>
      if in_interrupt s then s
      else set_in_interrupt false (set_softirq false (set_due [] (with_ready (fun q => q ++ wakes (tcbs s) (due s))
             (with_tcbs (fun _ => wake_states (tcbs s) (due s)) s))))
  | SCHED_PRIO => s
  end.

Lemma set_schedule_timer_ok pol s q :
  started s -> schedule_lock s = false ->
  set_schedule_timer pol (with_ready (fun _ => q) (set_in_scheduling true s)) =
    Ret (tt, with_ready (fun _ => q ++ woken pol s) (set_in_scheduling true (timed pol s))).
Proof.
  intros (_ & Hpre & Ho & _ & _ & Hd) Hl. destruct s as [ts ps rq zq c i l pre b ii bt g sl n sq o du]. simpl in *. subst.
  destruct pol; simpl; [|unfold mret; simpl; by rewrite app_nil_r]. kstep. destruct ii; simpl; [unfold mret; by rewrite app_nil_r|].
  unfold softirqs_in_schedule.
  match goal with |- context [with_ready (fun _ => q) ?z] => destruct (timer_softirq_ok (with_ready (fun _ => q) z)) as (b' & Hr); try done end.
  rewrite (kbind_ret _ _ _ _ _ Hr). kstep. done.
Qed.

Lemma woken_spec pol s u :
  u ∈ woken pol s -> is_waiting (tcbs s) u = true.
Proof.
  unfold woken. destruct pol; [|set_solver]. destruct (in_interrupt s); [set_solver|].
  intros H%(proj2 (wakes_spec _ _)). tauto.
Qed.

Lemma woken_nodup pol s : NoDup (woken pol s).
Proof. unfold woken. destruct pol; [|constructor]. destruct (in_interrupt s); [constructor|]. apply wakes_spec. Qed.

Lemma timed_tcbs pol s u :
  tcbs (timed pol s) !! u = (if decide (u ∈ woken pol s) then set_state THREAD_READY else id) <$> tcbs s !! u.
Proof.
  unfold timed, woken. destruct pol; [|by rewrite decide_False, option_fmap_id by set_solver].
  destruct (in_interrupt s); [by rewrite decide_False, option_fmap_id by set_solver|]. apply wake_states_lookup.
Qed.

Lemma timed_ready pol s : readyThreads (timed pol s) = readyThreads s ++ woken pol s.
Proof. unfold timed, woken. destruct pol; [destruct (in_interrupt s)|]; simpl; by rewrite ?app_nil_r. Qed.

(** The fields the timer leaves alone. *)
Lemma timed_same pol s :
  pcbs (timed pol s) = pcbs s /\ zombieThreads (timed pol s) = zombieThreads s /\
  current_thread (timed pol s) = current_thread s /\ tcb_idle (timed pol s) = tcb_idle s /\
  schedule_lock (timed pol s) = schedule_lock s /\ sched_preempt (timed pol s) = sched_preempt s /\
  in_scheduling (timed pol s) = in_scheduling s /\ boot_stage (timed pol s) = boot_stage s /\
  kernel_stack_slot (timed pol s) = kernel_stack_slot s /\ tid_next (timed pol s) = tid_next s /\ oom (timed pol s) = oom s.
Proof. unfold timed. destruct pol; [destruct (in_interrupt s)|]; done. Qed.

Lemma timed_tcb pol s u x :
  tcbs (timed pol s) !! u = Some x ->
  exists y, tcbs s !! u = Some y /\ tpcb x = tpcb y /\
    (u ∈ woken pol s /\ state y = THREAD_WAITING /\ state x = THREAD_READY \/ (u ∉ woken pol s) /\ x = y).
Proof.
  rewrite timed_tcbs. case_decide as E; destruct (tcbs s !! u) as [y|] eqn:Ey; try done; intros [= <-]; exists y; split_and!; try done.
  - left. apply woken_spec in E as Hw. unfold is_waiting in Hw. rewrite Ey in Hw. by apply bool_decide_eq_true in Hw.
  - by right.
Qed.

Lemma running_timed pol s t : running (timed pol s) t = running s t.
Proof.
  unfold running. rewrite timed_tcbs. case_decide as E; [|by rewrite option_fmap_id].
  apply woken_spec in E. unfold is_waiting in E. destruct (tcbs s !! t) as [y|]; [|done]. apply bool_decide_eq_true in E.
  simpl. rewrite E. done.
Qed.

Lemma cur_running_timed pol s : cur_running (timed pol s) = cur_running s.
Proof.
  unfold cur_running. destruct (timed_same pol s) as (_ & _ & -> & _). destruct (current_thread s); [apply running_timed|done].
Qed.

Lemma requeue_timed pol s : requeue (timed pol s) = requeue s.
Proof.
  unfold requeue. destruct (timed_same pol s) as (_ & _ & -> & -> & _). destruct (current_thread s); [by rewrite running_timed|done].
Qed.

Lemma started_timed pol s : started s -> started (timed pol s).
Proof.
  intros (H1 & H2 & H3 & H4 & H5 & H6). destruct (timed_same pol s) as (_ & _ & _ & Ei & _ & Ep & Es & Eb & _ & _ & Eo).
  unfold started. rewrite Ei, Ep, Es, Eb, Eo. split_and!; try done.
  assert (Hd : due (timed pol s) = due s \/ due (timed pol s) = []).
  { unfold timed. destruct pol; [destruct (in_interrupt s)|]; auto. }
  destruct Hd as [->| ->]; [|constructor]. eapply Forall_impl; [exact H6|]. intros t Ht. simpl. rewrite timed_tcbs. by apply fmap_is_Some.
Qed.

Lemma inv_timed pol s : sched_inv s -> sched_inv (timed pol s).
Proof.
  intros Hi. destruct (timed_same pol s) as (Ep & Ez & Ec & Ei & El & _).
  assert (Hw : forall u y, u ∈ woken pol s -> tcbs s !! u = Some y -> state y = THREAD_WAITING).
  { intros u y H%woken_spec Hy. unfold is_waiting in H. rewrite Hy in H. by apply bool_decide_eq_true in H. }
  split.
  - intros t. rewrite timed_ready, elem_of_app, (si_ready _ Hi). split.
    + intros [(x & Hx & Hs)|Hin].
      * exists x. rewrite timed_tcbs, Hx, decide_False; [done|]. intros Hin. specialize (Hw t x Hin Hx). congruence.
      * rewrite timed_tcbs, decide_True by done. apply woken_spec in Hin. unfold is_waiting in Hin.
        destruct (tcbs s !! t) as [y|]; [|done]. by exists (set_state THREAD_READY y).
    + intros (x & Hx & Hs). destruct (timed_tcb _ _ _ _ Hx) as (y & Hy & _ & [(Hin & _)|[_ ->]]); eauto.
  - intros t. rewrite Ez, (si_zombie _ Hi). split; intros (x & Hx & Hs).
    + exists x. rewrite timed_tcbs, Hx, decide_False; [done|]. intros Hin. specialize (Hw t x Hin Hx). congruence.
    + destruct (timed_tcb _ _ _ _ Hx) as (y & Hy & _ & [(_ & _ & E)|[_ ->]]); [congruence|eauto].
  - rewrite timed_ready. apply NoDup_app. split_and!; [apply (si_ready_nodup _ Hi)| |apply woken_nodup].
    intros t (x & Hx & Hs)%(si_ready _ Hi) Hin. specialize (Hw t x Hin Hx). congruence.
  - rewrite Ez. apply (si_zombie_nodup _ Hi).
  - intros t x Hx Hs. rewrite Ec, Ei. destruct (timed_tcb _ _ _ _ Hx) as (y & Hy & _ & [(_ & _ & E)|[_ ->]]); [congruence|].
    by apply (si_running _ Hi t y).
  - intros i. rewrite Ei. intros Hid. destruct (si_idle _ Hi i Hid) as (x & Hx & Hs & Hp). exists x.
    rewrite timed_tcbs, Hx, decide_False; [done|]. intros Hin. specialize (Hw i x Hin Hx). destruct Hs; congruence.
  - intros c. rewrite Ec, timed_tcbs. intros Hc. apply fmap_is_Some. by apply (si_current _ Hi).
  - intros t x p Hx Hp. rewrite Ep. destruct (timed_tcb _ _ _ _ Hx) as (y & Hy & E & _). apply (si_pcb _ Hi t y); congruence.
  - rewrite El. apply (si_lock _ Hi).
Qed.

(** [schedule] once [next_thread] has made its choice [r]. *)
Lemma schedule_after pol s r q :
  sched_inv s -> started s ->
  next_thread pol (set_in_scheduling true s) = Ret (r, with_ready (fun _ => q) (set_in_scheduling true s)) ->
  (forall n, r = Some n -> current_thread s = Some n /\ cur_running s = true \/
      n ∈ readyThreads s /\ current_thread s <> Some n) ->
  (forall i, cur_running s = false -> tcb_idle s = Some i -> current_thread s <> Some i) ->
  exists s', schedule pol s = Ret (tt, s') /\ in_scheduling s' = false /\
    match (match r with Some n => Some n | None => if cur_running s then current_thread s else tcb_idle s end) with
    | None => False
    | Some n => if decide (current_thread s = Some n)
                then s' = set_in_interrupt false (set_in_scheduling false (with_ready (fun _ => q ++ woken pol s) (timed pol s)))
                else switched (timed pol s) s' n (q ++ woken pol s)
    end.
Proof.
  intros Hi Hst Hnext Hr Hic. pose proof Hst as (Hb & Hpre & Ho & Hbusy & [i Hidle] & _). unfold schedule.
  kstep. destruct (Z.ltb_spec (boot_stage s) BOOT_STAGE_COMPLETED); [lia|]. kstep. rewrite Hpre. kstep. kstep. rewrite Hidle.
  rewrite bool_decide_eq_true_2 by eauto. kstep. kstep. rewrite Hbusy. kstep. kstep. krun Hnext.
  rewrite (kbind_ret _ _ _ _ _ (set_schedule_timer_ok pol s q Hst (si_lock _ Hi))). cbn beta.
  change (current_thread (set_in_scheduling true s)) with (current_thread s).
  pose proof (inv_busy _ true (inv_timed pol s Hi)) as Hi0.
  assert (Hin0 : forall n, n ∈ readyThreads s -> n ∈ readyThreads (timed pol s)) by (intros n ?; rewrite timed_ready; set_solver).
  destruct (timed_same pol s) as (_ & _ & Ec & Ei & _ & _ & _ & _ & _ & _ & Eo).
  rewrite <- (cur_running_timed pol s) in *. rewrite <- Ec in *. rewrite <- Ei in *. rewrite <- Eo in Ho.
  generalize (q ++ woken pol s). clear Hnext q. intros q. set (s1 := timed pol s) in *.
  set (s0 := set_in_scheduling true s1) in *.
  change (current_thread s1) with (current_thread s0) in *. change (cur_running s1) with (cur_running s0) in *.
  krun (is_running_ok s0 Hi0). change (tcb_idle s1) with (tcb_idle s0) in *.
  (* both ways to a dispatch *)
  assert (Hgo : forall n xn, tcbs s0 !! n = Some xn -> current_thread s0 <> Some n ->
    exists s', ((when (negb (bool_decide (current_thread s0 = Some n))) (dispatch (current_thread s0) (Some i) (cur_running s0) n));;
        modify (set_in_scheduling false);; modify (set_in_interrupt false)) (with_ready (fun _ => q) s0) = Ret (tt, s') /\
      in_scheduling s' = false /\ switched s1 s' n q).
  { intros n xn Hn Hcn. rewrite bool_decide_eq_false_2 by done. cbn [negb when].
    destruct (dispatch_ok s0 n xn q Hi0 Ho Hn Hcn) as (s' & Hd & Hsw & _). rewrite Hidle in Hd.
    rewrite (kbind_ret _ _ _ tt s' Hd). kstep. eexists. split; [done|].
    split; [done|]. by eapply switched_done. }
  assert (Hstay : forall n, current_thread s0 = Some n ->
    ((when (negb (bool_decide (current_thread s0 = Some n))) (dispatch (current_thread s0) (Some i) (cur_running s0) n));;
        modify (set_in_scheduling false);; modify (set_in_interrupt false)) (with_ready (fun _ => q) s0) =
    Ret (tt, set_in_interrupt false (set_in_scheduling false (with_ready (fun _ => q) s1)))).
  { intros n Hn. rewrite bool_decide_eq_true_2 by done. done. }
  destruct r as [n|].
  - destruct (Hr n eq_refl) as [[Hc Hrun]|[Hin Hcn]].
    + rewrite (Hstay n Hc). eexists. split; [done|]. split; [done|]. by rewrite decide_True.
    + destruct (proj1 (si_ready _ Hi0 n) (Hin0 _ Hin)) as (xn & Hn & _). destruct (Hgo n xn Hn Hcn) as (s' & Heq & Hb' & Hsw).
      exists s'. split; [exact Heq|]. split; [done|]. by rewrite decide_False.
  - destruct (cur_running s0) eqn:Erun; cbn [negb].
    + unfold cur_running in Erun. destruct (current_thread s0) as [c|] eqn:Ec0; [|done].
      kstep. kstep. eexists. split; [done|]. split; [done|]. by rewrite decide_True by done.
    + destruct (si_idle _ Hi0 i Hidle) as (xi & Hxi & _).
      destruct (Hgo i xi Hxi (Hic i eq_refl Hidle)) as (s' & Heq & Hb' & Hsw). exists s'. split; [exact Heq|].
      split; [done|]. rewrite decide_False by (by apply Hic). done.
Qed.

(** When the scheduler is entered the current thread runs, waits or is a zombie. *)
Definition cur_ok (s : sys) : Prop :=
  forall c x, current_thread s = Some c -> tcbs s !! c = Some x ->
  state x = THREAD_RUNNING \/ state x = THREAD_WAITING \/ state x = THREAD_ZOMBIE.

Lemma cur_not_ready s t : sched_inv s -> cur_ok s -> t ∈ readyThreads s -> current_thread s <> Some t.
Proof.
  intros Hi Hc (x & Hx & Hst)%(si_ready _ Hi) E. specialize (Hc _ _ E Hx). destruct Hc as [?|[?|?]]; congruence.
Qed.

Lemma cur_not_idle s i : sched_inv s -> cur_ok s -> cur_running s = false -> tcb_idle s = Some i -> current_thread s <> Some i.
Proof.
  intros Hi Hc Hr Hid E. destruct (si_idle _ Hi i Hid) as (x & Hx & Hst & _).
  unfold cur_running, running in Hr. rewrite E, Hx in Hr. apply bool_decide_eq_false in Hr.
  specialize (Hc _ _ E Hx). destruct Hst, Hc as [?|[?|?]]; congruence.
Qed.

Lemma started_switched s s' n q : started s -> switched s s' n q -> in_scheduling s' = false -> started s'.
Proof.
  intros (? & ? & ? & ? & ? & Hd) Hsw Hb. destruct (sw_ctl _ _ _ _ Hsw) as (_ & Hid & _ & Hp & Hbt & _ & _ & Ho & Hdue).
  unfold started. rewrite Hid, Hp, Hbt, Ho, Hdue. split_and!; try done. eapply Forall_impl; [exact Hd|]. intros t Ht. simpl.
  rewrite (sw_state _ _ _ _ Hsw). by apply fmap_is_Some.
Qed.

Lemma switched_running s s' n q xn : tcbs s !! n = Some xn -> switched s s' n q -> running s' n = true.
Proof.
  intros Hn Hsw. destruct (switched_tcb _ _ _ _ n xn Hsw Hn) as (x' & Hx' & _ & H1 & _).
  apply (running_state s' n x' Hx'). auto.
Qed.

Lemma with_ready_id s : with_ready (fun _ => readyThreads s) s = s.
Proof. by destruct s. Qed.

Lemma started_done s : started s -> started (set_in_interrupt false (set_in_scheduling false s)).
Proof. intros (? & ? & ? & ? & ? & ?). by split_and!. Qed.

(** The scheduler switched to [n], taken off the queue [s] had. *)
Lemma inv_dispatched pol s s' n x q :
  sched_inv s -> started s -> tcbs s !! n = Some x -> current_thread s <> Some n -> state x = THREAD_READY \/ tcb_idle s = Some n ->
  (forall t, t ∈ q <-> t ∈ readyThreads s /\ t <> n) -> NoDup q ->
  switched (timed pol s) s' n (q ++ woken pol s) -> in_scheduling s' = false ->
  sched_inv s' /\ started s' /\ current_thread s' = Some n /\ running s' n = true.
Proof.
  intros Hi Hst Hx Hcn Hk Hq Hnd Hsw Hb. destruct (timed_same pol s) as (_ & _ & Ec & Ei & _).
  assert (Hnw : n ∉ woken pol s).
  { intros Hin%woken_spec. unfold is_waiting in Hin. rewrite Hx in Hin. apply bool_decide_eq_true in Hin. destruct Hk as [?|Hid]; [congruence|].
    destruct (si_idle _ Hi n Hid) as (y & Hy & Hys & _). destruct Hys; congruence. }
  assert (Hx' : tcbs (timed pol s) !! n = Some x) by (by rewrite timed_tcbs, Hx, decide_False).
  pose proof (inv_timed pol s Hi) as Hit. pose proof (si_ready_nodup _ Hit) as Hndt. rewrite timed_ready in Hndt.
  apply NoDup_app in Hndt as (_ & Hdisj & Hndw). split_and!.
  - eapply (inv_switched (timed pol s) s' n x); rewrite ?Ec, ?Ei; try done.
    + intros u. rewrite timed_ready, !elem_of_app, Hq. split; [intros [?|?]; [tauto|]|tauto]. split; [tauto|by intros ->].
    + apply NoDup_app. split_and!; [done| |done]. intros u [Hu _]%Hq. by apply Hdisj.
  - by eapply started_switched; [apply started_timed|..].
  - apply (sw_current _ _ _ _ Hsw).
  - by eapply switched_running.
Qed.

Lemma schedule_rr s :
  sched_inv s -> started s -> cur_ok s ->
  exists s', schedule SCHED_RR s = Ret (tt, s') /\ sched_inv s' /\ started s' /\
    match find_first (may_run s) (readyThreads s) with
    | Some t => exists q1 q2, readyThreads s = q1 ++ t :: q2 /\ (t ∉ q1) /\
                  switched (timed SCHED_RR s) s' t ((q1 ++ q2) ++ woken SCHED_RR s) /\ running s' t = true
    | None => if cur_running s
              then s' = set_in_interrupt false (set_in_scheduling false (timed SCHED_RR s))
              else exists i, tcb_idle s = Some i /\ switched (timed SCHED_RR s) s' i (readyThreads s ++ woken SCHED_RR s) /\ running s' i = true
    end.
Proof.
  intros Hi Hst Hc. pose proof (inv_busy s true Hi) as Hi0. pose proof (next_thread_rr_ok _ Hi0) as Hnext.
  change (may_run (set_in_scheduling true s)) with (may_run s) in Hnext. cbn [readyThreads set_in_scheduling] in Hnext.
  pose proof (fun i => cur_not_idle s i Hi Hc) as Hic.
  destruct (find_first (may_run s) (readyThreads s)) as [t|] eqn:Ef.
  - apply find_first_Some in Ef as [Hin _]. destruct Hnext as (q & Hnext & Hdel).
    destruct (list_del_first_ok t _ Hin) as (q1 & q2 & Hq & Hnq & Hdel'). rewrite Hdel in Hdel'. injection Hdel' as ->.
    pose proof (cur_not_ready s t Hi Hc Hin) as Hcn.
    destruct (schedule_after SCHED_RR s (Some t) (q1 ++ q2) Hi Hst Hnext) as (s' & Heq & Hb & Hsw); [|done|].
    { intros n [= <-]. by right. }
    rewrite decide_False in Hsw by done. exists s'. split; [done|].
    destruct (proj1 (si_ready _ Hi t) Hin) as (x & Hx & Hxs).
    pose proof (si_ready_nodup _ Hi) as Hnd. rewrite Hq, <- Permutation_middle in Hnd. apply NoDup_cons in Hnd as [Hn1 Hn2].
    destruct (inv_dispatched SCHED_RR s s' t x (q1 ++ q2) Hi Hst Hx Hcn (or_introl Hxs)) as (? & ? & _ & ?); try done.
    + intros u. rewrite Hq, !elem_of_app, elem_of_cons.
      rewrite elem_of_app in Hn1. split; [intros [?|?]; (split; [tauto|intros ->; tauto])|intros [[?|[?|?]] ?]; tauto].
    + split_and!; try done. by exists q1, q2.
  - destruct (schedule_after SCHED_RR s None (readyThreads s) Hi Hst) as (s' & Heq & Hb & Hsw); [|done|done|].
    { simpl. rewrite Hnext. by destruct s. }
    exists s'. split; [done|]. destruct (cur_running s) eqn:Er.
    + destruct (current_thread s) as [c|] eqn:Ec; [|done]. rewrite decide_True in Hsw by done.
      rewrite <- timed_ready, with_ready_id in Hsw. subst s'.
      split; [by apply inv_done, inv_timed|]. split; [by apply started_done, started_timed|done].
    + destruct (tcb_idle s) as [i|] eqn:Eid; [|done]. specialize (Hic i eq_refl eq_refl). rewrite decide_False in Hsw by done.
      destruct (si_idle _ Hi i Eid) as (x & Hx & _).
      destruct (inv_dispatched SCHED_RR s s' i x (readyThreads s) Hi Hst Hx Hic (or_intror Eid)) as (? & ? & _ & ?); try done.
      * intros u. split; [|by intros [? _]]. intros Hu. split; [done|]. intros ->.
        apply (si_ready _ Hi) in Hu as (y & Hy & Hys). destruct (si_idle _ Hi i Eid) as (z & Hz & Hzs & _). destruct Hzs; congruence.
      * apply (si_ready_nodup _ Hi).
      * split_and!; try done. by exists i.
Qed.

(** *** Leaving and re-entering the ready queue *)
(** [moved s s' t st]: thread [t] changes to state [st]; nothing else but the
    queues does. *)
Lemma lookup_state (m : gmap Z tcb) t x st u y :
  m !! t = Some x -> <[t := set_state st x]> m !! u = Some y ->
  exists y0, m !! u = Some y0 /\ tpcb y = tpcb y0 /\ (u = t -> state y = st) /\ (u <> t -> y = y0).
Proof.
  intros Ht. destruct (decide (t = u)) as [<-|].
  - rewrite lookup_insert_eq. intros [= <-]. exists x. split_and!; done.
  - rewrite lookup_insert_ne by done. intros Hy. exists y. split_and!; done.
Qed.

(** Thread [t] goes from state [st0] to [st] and the queues follow. *)
Lemma inv_move s t x st rq zq :
  sched_inv s -> tcbs s !! t = Some x -> tcb_idle s <> Some t -> st <> THREAD_RUNNING ->
  (forall u, u ∈ rq <-> if decide (u = t) then st = THREAD_READY else u ∈ readyThreads s) ->
  (forall u, u ∈ zq <-> if decide (u = t) then st = THREAD_ZOMBIE else u ∈ zombieThreads s) ->
  NoDup rq -> NoDup zq ->
  sched_inv (with_zombie (fun _ => zq) (with_ready (fun _ => rq) (with_tcbs <[t := set_state st x]> s))).
Proof.
  intros Hi Hx Hid Hst Hrq Hzq Hndr Hndz.
  assert (Hq : forall (q q' : list Z) (st' : thread_state), (forall u, u ∈ q <-> exists y, tcbs s !! u = Some y /\ state y = st') ->
    (forall u, u ∈ q' <-> if decide (u = t) then st = st' else u ∈ q) ->
    forall u, u ∈ q' <-> exists y, <[t := set_state st x]> (tcbs s) !! u = Some y /\ state y = st').
  { intros q q' st' Hq Hq' u. rewrite Hq'. case_decide as E.
    - subst. rewrite lookup_insert_eq. split; [intros ->; eauto|]. intros (y & [= <-] & ?). done.
    - rewrite lookup_insert_ne by done. apply Hq. }
  split; simpl.
  - by apply (Hq (readyThreads s)); [apply (si_ready _ Hi)|].
  - by apply (Hq (zombieThreads s)); [apply (si_zombie _ Hi)|].
  - done.
  - done.
  - intros u y Hy Hr. destruct (lookup_state _ _ _ _ _ _ Hx Hy) as (y0 & Hy0 & _ & H1 & H2).
    destruct (decide (u = t)) as [E|E]; [rewrite H1 in Hr; done|]. rewrite (H2 E) in *. by apply (si_running _ Hi u y0).
  - intros i Hii. destruct (si_idle _ Hi i Hii) as (y & Hy & ? & ?). exists y. rewrite lookup_insert_ne by congruence. done.
  - intros c Hc. destruct (decide (t = c)) as [->|]; [by rewrite lookup_insert_eq|].
    rewrite lookup_insert_ne by done. by apply (si_current _ Hi).
  - intros u y p Hy Hp. destruct (lookup_state _ _ _ _ _ _ Hx Hy) as (y0 & Hy0 & E & _).
    eapply (si_pcb _ Hi u y0); congruence.
  - apply (si_lock _ Hi).
Qed.

Lemma not_in_queue s t x : sched_inv s -> tcbs s !! t = Some x ->
  (state x <> THREAD_READY -> t ∉ readyThreads s) /\ (state x <> THREAD_ZOMBIE -> t ∉ zombieThreads s).
Proof.
  intros Hi Hx. split; intros Hst Hin.
  - apply (si_ready _ Hi) in Hin as (y & Hy & ?). congruence.
  - apply (si_zombie _ Hi) in Hin as (y & Hy & ?). congruence.
Qed.

Lemma elem_of_snoc (q : list Z) (t u : Z) (P : Prop) :
  (t ∉ q) -> P -> (u ∈ q ++ [t] <-> if decide (u = t) then P else u ∈ q).
Proof.
  intros Ht HP. rewrite elem_of_app, list_elem_of_singleton. case_decide; subst; [tauto|]. tauto.
Qed.

Lemma elem_of_keep (q : list Z) (t u : Z) (P : Prop) :
  (t ∉ q) -> ~ P -> (u ∈ q <-> if decide (u = t) then P else u ∈ q).
Proof. intros Ht HP. case_decide; subst; tauto. Qed.

Lemma NoDup_snoc (q : list Z) t : NoDup q -> (t ∉ q) -> NoDup (q ++ [t]).
Proof. intros. rewrite <- Permutation_cons_append. by constructor. Qed.

(** Waking a waiting thread. *)
Lemma wake_up_ok s t x :
  sched_inv s -> oom s = false -> tcbs s !! t = Some x -> tcb_idle s <> Some t ->
  exists s', wake_up t s = Ret (tt, s') /\ sched_inv s' /\
    s' = if decide (state x = THREAD_WAITING)
         then with_ready (fun q => q ++ [t]) (with_tcbs <[t := set_state THREAD_READY x]> s) else s.
Proof.
  intros Hi Ho Hx Hid. destruct (not_in_queue _ _ _ Hi Hx) as [Hr Hz].
  assert (Heq : wake_up t s = Ret (tt, if decide (state x = THREAD_WAITING)
         then with_ready (fun q => q ++ [t]) (with_tcbs <[t := set_state THREAD_READY x]> s) else s)).
  { pose proof (si_lock _ Hi) as Hl. unfold wake_up. rewrite (kbind_ret _ _ s tt (set_lock true s)).
    2: { unfold spin_lock. kstep. by rewrite Hl. }
    rewrite (kbind_ret _ _ _ x (set_lock true s)) by (by apply tcb_of_ok).
    destruct (decide (state x = THREAD_WAITING)) as [E|E].
    - rewrite bool_decide_eq_true_2 by done. cbn [when]. rewrite (kbind_ret _ _ _ _ _ (ready_ok t x (set_lock true s) Hx Ho)).
      unfold spin_unlock, modify. destruct s; simpl in *; by subst.
    - rewrite bool_decide_eq_false_2 by done. cbn [when]. kstep. unfold spin_unlock, modify. destruct s; simpl in *; by subst. }
  eexists. split; [exact Heq|]. split; [|done]. destruct (decide (state x = THREAD_WAITING)) as [E|E]; [|done].
  assert (Hr' : t ∉ readyThreads s) by (apply Hr; congruence). assert (Hz' : t ∉ zombieThreads s) by (apply Hz; congruence).
  pose proof (inv_move s t x THREAD_READY (readyThreads s ++ [t]) (zombieThreads s) Hi Hx Hid) as H.
  replace (with_ready _ _) with (with_zombie (fun _ => zombieThreads s) (with_ready (fun _ => readyThreads s ++ [t])
    (with_tcbs <[t := set_state THREAD_READY x]> s))) by (by destruct s).
  apply H; [done|intros; by apply elem_of_snoc|intros; by apply elem_of_keep|by apply NoDup_snoc; [apply (si_ready_nodup _ Hi)|]|apply (si_zombie_nodup _ Hi)].
Qed.

Lemma started_state s t x : started s -> is_Some (tcbs s !! t) -> started (with_tcbs <[t := x]> s).
Proof.
  intros (? & ? & ? & ? & ? & Hd) Ht. split_and!; try done. eapply Forall_impl; [exact Hd|]. intros u Hu. simpl.
  destruct (decide (t = u)) as [<-|]; [by rewrite lookup_insert_eq|by rewrite lookup_insert_ne].
Qed.

(** The rest of [waiting] and [zombie] once the current thread is off the CPU. *)
Lemma leave_ok s c x :
  sched_inv s -> started s -> current_thread s = Some c -> tcb_idle s <> Some c ->
  tcbs s !! c = Some x -> state x = THREAD_WAITING /\ (c ∉ due s) \/ state x = THREAD_ZOMBIE ->
  exists s' n y, schedule SCHED_RR s = Ret (tt, s') /\ sched_inv s' /\ started s' /\
    current_thread s' = Some n /\ n <> c /\ running s' n = true /\
    tcbs s' !! c = Some y /\ state y = state x /\ zombieThreads s' = zombieThreads s.
Proof.
  intros Hi Hst Hc Hid Hx Hxs.
  assert (Hcok : cur_ok s).
  { intros c' y E Hy. rewrite Hc in E. injection E as <-. rewrite Hx in Hy. injection Hy as <-. tauto. }
  assert (Hrun : cur_running s = false).
  { unfold cur_running, running. rewrite Hc, Hx. apply bool_decide_eq_false. destruct Hxs as [[? _]|?]; congruence. }
  assert (Hx' : tcbs (timed SCHED_RR s) !! c = Some x).
  { rewrite timed_tcbs, Hx, decide_False; [done|]. intros Hin. apply woken_spec in Hin as Hw. unfold is_waiting in Hw.
    rewrite Hx in Hw. apply bool_decide_eq_true in Hw. destruct Hxs as [[_ Hd]|?]; [|congruence]. apply Hd.
    unfold woken in Hin. destruct (in_interrupt s); [set_solver|]. by apply wakes_spec in Hin as [? _]. }
  assert (Hrq : c ∉ requeue s).
  { rewrite requeue_spec. intros (_ & Hr & _). unfold cur_running in Hrun. rewrite Hc in Hrun. congruence. }
  rewrite <- (requeue_timed SCHED_RR) in Hrq.
  destruct (schedule_rr s Hi Hst Hcok) as (s' & Heq & Hi' & Hst' & H). rewrite Hrun in H.
  assert (exists n q, switched (timed SCHED_RR s) s' n q /\ n <> c /\ running s' n = true) as (n & q & Hsw & Hne & Hn).
  { destruct (find_first _ _) as [t|] eqn:Ef.
    - destruct H as (q1 & q2 & Hq & _ & Hsw & Hr). eexists t, _. split_and!; try done. intros ->.
      apply find_first_Some in Ef as [Hin _]. by apply (cur_not_ready s c Hi Hcok).
    - destruct H as (i & Hii & Hsw & Hr). eexists i, _. split_and!; try done. by intros ->. }
  destruct (switched_tcb _ _ _ _ c x Hsw Hx') as (y & Hy & _ & _ & _ & H3). exists s', n, y.
  split_and!; try done; [by apply (sw_current _ _ _ _ Hsw)|by apply H3|].
  destruct (timed_same SCHED_RR s) as (_ & <- & _). apply (sw_ctl _ _ _ _ Hsw).
Qed.

(** *** The scheduler's contract *)

(** C19: one round-robin [schedule].  From a well-formed state it always returns a
    well-formed state.  If some ready thread may run, the first such thread of
    the queue becomes current and running and leaves the queue; behind the
    others come the threads [w] that re-arming the preemption timer makes ready
    in between, namely, outside interrupts, the waiting threads whose timers are
    due, each once; and last the previous thread, if it was still running and
    is not the idle thread.  Otherwise a running thread keeps the CPU, and if
    there is none the idle thread takes over, even if the timer has just made
    another thread ready. *)
Theorem schedule_rr_correct s :
  sched_inv s -> started s -> cur_ok s ->
  exists s' w, schedule SCHED_RR s = Ret (tt, s') /\ sched_inv s' /\ started s' /\
    NoDup w /\ (forall u, u ∈ w <-> in_interrupt s = false /\ u ∈ due s /\ is_waiting (tcbs s) u = true) /\
    match find_first (may_run s) (readyThreads s) with
    | Some t => exists q1 q2, readyThreads s = q1 ++ t :: q2 /\ current_thread s' = Some t /\
                  running s' t = true /\ readyThreads s' = q1 ++ q2 ++ w ++ requeue s
    | None => readyThreads s' = readyThreads s ++ w /\
              (if cur_running s then current_thread s' = current_thread s
               else current_thread s' = tcb_idle s) /\ cur_running s' = true
    end.
Proof.
  intros Hi Hst Hc. destruct (schedule_rr s Hi Hst Hc) as (s' & Heq & Hi' & Hst' & H). exists s', (woken SCHED_RR s).
  split_and!; try done; [apply woken_nodup| |].
  - intros u. unfold woken. destruct (in_interrupt s); [set_solver|]. rewrite (proj2 (wakes_spec _ _)). tauto.
  - destruct (timed_same SCHED_RR s) as (_ & _ & Ec & _). destruct (find_first _ _) as [t|].
    + destruct H as (q1 & q2 & Hq & _ & Hsw & Hr). exists q1, q2. split_and!; try done; [apply (sw_current _ _ _ _ Hsw)|].
      rewrite (sw_ready _ _ _ _ Hsw), requeue_timed. by rewrite !app_assoc.
    + destruct (cur_running s) eqn:Er.
      * subst s'. split_and!; [apply timed_ready|done|]. rewrite <- Er. apply (cur_running_timed SCHED_RR).
      * destruct H as (i & Hii & Hsw & Hr).
        rewrite (sw_ready _ _ _ _ Hsw), requeue_timed. unfold cur_running. rewrite (sw_current _ _ _ _ Hsw). split_and!; try done.
        unfold requeue. unfold cur_running in Er. destruct (current_thread s); [rewrite Er|]; by rewrite app_nil_r.
Qed.

(** the life of a waiting thread.  [waiting] takes the current thread off the
    CPU and off every queue and runs another; [wake_up] puts a waiting
    thread at the tail of the ready queue and leaves any other thread
    alone, so that no thread is ever queued twice.  (No timer of the thread's
    own is due: it would be ready again at once.) *)
Theorem waiting_wake_up_correct s c x :
  sched_inv s -> started s -> current_thread s = Some c -> tcb_idle s <> Some c ->
  tcbs s !! c = Some x -> state x = THREAD_RUNNING -> (c ∉ due s) ->
  exists s1 n y, waiting SCHED_RR s = Ret (tt, s1) /\ sched_inv s1 /\ started s1 /\
    current_thread s1 = Some n /\ n <> c /\ running s1 n = true /\
    tcbs s1 !! c = Some y /\ state y = THREAD_WAITING /\ (c ∉ readyThreads s1) /\
    exists s2, wake_up c s1 = Ret (tt, s2) /\ sched_inv s2 /\ readyThreads s2 = readyThreads s1 ++ [c] /\
      wake_up c s2 = Ret (tt, s2).
Proof.
  intros Hi Hst Hc Hid Hx Hxs Hdue. destruct (not_in_queue _ _ _ Hi Hx) as [Hr Hz].
  assert (Hr' : c ∉ readyThreads s) by (apply Hr; congruence). assert (Hz' : c ∉ zombieThreads s) by (apply Hz; congruence).
  set (s0 := with_tcbs <[c := set_state THREAD_WAITING x]> s).
  assert (Hi0 : sched_inv s0).
  { replace s0 with (with_zombie (fun _ => zombieThreads s) (with_ready (fun _ => readyThreads s) s0)) by (by destruct s).
    apply inv_move; try done; [intros; by apply elem_of_keep..|apply (si_ready_nodup _ Hi)|apply (si_zombie_nodup _ Hi)]. }
  assert (Hst0 : started s0) by (apply started_state; [done|by eexists]).
  destruct (leave_ok s0 c (set_state THREAD_WAITING x) Hi0 Hst0) as (s1 & n & y & Heq & Hi1 & Hst1 & Hc1 & Hne & Hn & Hy & Hys & _); try done.
  { apply lookup_insert_eq. }
  { by left. }
  exists s1, n, y. assert (Hcr : c ∉ readyThreads s1) by (eapply not_in_queue; [done..|]; rewrite Hys; done).
  assert (Hid1 : tcb_idle s1 <> Some c).
  { intros E. destruct (si_idle _ Hi1 c E) as (z & Hz1 & Hzs & _). rewrite Hy in Hz1. injection Hz1 as <-.
    rewrite Hys in Hzs. by destruct Hzs. }
  assert (Ho1 : oom s1 = false) by apply Hst1.
  split_and!; try done.
  - unfold waiting. unfold current. rewrite (kbind_ret _ _ s c s) by (kstep; unfold lift; by rewrite Hc).
    krun (tcb_of_ok c x). rewrite bool_decide_eq_true_2 by done. kstep. by krun (upd_tcb_ok c _ x).
  - destruct (wake_up_ok s1 c y Hi1 Ho1 Hy Hid1) as (s2 & Hw & Hi2 & E). rewrite decide_True in E by done.
    exists s2. split_and!; try done; [by subst|].
    destruct (wake_up_ok s2 c (set_state THREAD_READY y) Hi2) as (s3 & Hw' & _ & E'); try (by subst s2).
    { subst s2. apply lookup_insert_eq. }
    by rewrite decide_False in E' by done; subst s3.
Qed.

(** [zombie] takes the current thread off the CPU for good: it is on the zombie
    queue, never on the ready queue, and [remove_zombie] finds it there and
    takes out that entry only. *)
Theorem zombie_correct s c x :
  sched_inv s -> started s -> current_thread s = Some c -> tcb_idle s <> Some c ->
  tcbs s !! c = Some x -> state x = THREAD_RUNNING ->
  exists s1 n, zombie SCHED_RR s = Ret (tt, s1) /\ sched_inv s1 /\
    current_thread s1 = Some n /\ n <> c /\ running s1 n = true /\
    zombieThreads s1 = zombieThreads s ++ [c] /\ (c ∉ readyThreads s1) /\
    exists s2, remove_zombie c s1 = Ret (tt, s2) /\ zombieThreads s2 = zombieThreads s /\
      readyThreads s2 = readyThreads s1 /\ tcbs s2 = tcbs s1.
Proof.
  intros Hi Hst Hc Hid Hx Hxs. destruct (not_in_queue _ _ _ Hi Hx) as [Hr Hz].
  assert (Hr' : c ∉ readyThreads s) by (apply Hr; congruence). assert (Hz' : c ∉ zombieThreads s) by (apply Hz; congruence).
  set (s0 := with_zombie (fun q => q ++ [c]) (with_tcbs <[c := set_state THREAD_ZOMBIE x]> s)).
  assert (Hi0 : sched_inv s0).
  { replace s0 with (with_zombie (fun _ => zombieThreads s ++ [c]) (with_ready (fun _ => readyThreads s) (with_tcbs <[c := set_state THREAD_ZOMBIE x]> s)))
      by (by destruct s).
    apply inv_move; try done; [intros; by apply elem_of_keep|intros; by apply elem_of_snoc|apply (si_ready_nodup _ Hi)|].
    apply NoDup_snoc; [apply (si_zombie_nodup _ Hi)|done]. }
  assert (Hst0 : started s0) by (apply (started_state s c); [done|by eexists]).
  destruct (leave_ok s0 c (set_state THREAD_ZOMBIE x) Hi0 Hst0) as (s1 & n & y & Heq & Hi1 & Hst1 & Hc1 & Hne & Hn & Hy & Hys & Hz1); try done.
  { apply lookup_insert_eq. }
  { by right. }
  exists s1, n. assert (Hcr : c ∉ readyThreads s1) by (eapply not_in_queue; [done..|]; rewrite Hys; done).
  assert (Ho : oom s = false) by apply Hst.
  split_and!; try done.
  - unfold zombie. unfold current. rewrite (kbind_ret _ _ s c s) by (kstep; unfold lift; by rewrite Hc).
    krun (tcb_of_ok c x). rewrite bool_decide_eq_true_2 by done. kstep. krun (upd_tcb_ok c _ x). kstep.
    cbn [oom with_tcbs]. rewrite Ho. kstep. kstep. done.
  - eexists (with_zombie (fun _ => zombieThreads s) s1). split; [|done].
    unfold remove_zombie. krun (tcb_of_ok c y). rewrite bool_decide_eq_true_2 by done. kstep. kstep. rewrite Hz1.
    unfold s0. cbn [zombieThreads with_zombie with_tcbs]. destruct (list_del_first_ok c (zombieThreads s ++ [c])) as (q1 & q2 & Hq & Hn1 & ->); [set_solver|].
    assert (q1 ++ q2 = zombieThreads s) as ->; [|done].
    destruct (decide (q2 = [])) as [->|Hne2].
    + rewrite app_nil_r. by apply app_inj_tail in Hq as [-> _].
    + exfalso. apply exists_last in Hne2 as (q3 & e & ->).
      rewrite app_comm_cons, app_assoc in Hq. apply app_inj_tail in Hq as [Hq _]. apply Hz'. rewrite Hq. set_solver.
Qed.

(** *** Fairness of round robin *)
(** Scheduling rounds: before each, whether it is entered from an interrupt and
    which timers are due. *)
Fixpoint schedules (rounds : list (bool * list Z)) : kern sys unit :=
  match rounds with
  | [] => mret tt
  | (irq, d) :: r => modify (set_in_interrupt irq);; modify (set_due d);; schedule SCHED_RR;; schedules r
  end.

(** Only kernel threads: every ready thread may run. *)
Definition kernel_only (s : sys) : Prop := forall t x, tcbs s !! t = Some x -> tpcb x = None.

Lemma kernel_only_switched pol s s' n q : kernel_only s -> switched (timed pol s) s' n q -> kernel_only s'.
Proof.
  intros Hk Hsw t x Hx. rewrite (sw_state _ _ _ _ Hsw) in Hx. destruct (tcbs (timed pol s) !! t) as [y|] eqn:Ey; [|done].
  destruct (timed_tcb _ _ _ _ Ey) as (z & Hz & E & _). specialize (Hk t z Hz). rewrite <- E in Hk.
  revert Hx. repeat case_decide; intros [= <-]; done.
Qed.

Lemma inv_round irq d s : sched_inv s -> sched_inv (set_due d (set_in_interrupt irq s)).
Proof. intros []. by split. Qed.

Lemma started_round irq d s :
  started s -> Forall (fun t => is_Some (tcbs s !! t)) d -> started (set_due d (set_in_interrupt irq s)).
Proof. intros (? & ? & ? & ? & ? & _) Hd. by split_and!. Qed.

(** One round, when the queue starts with [t]. *)
Lemma round_ok irq d s t r :
  sched_inv s -> started s -> cur_ok s -> kernel_only s -> Forall (fun u => is_Some (tcbs s !! u)) d -> readyThreads s = t :: r ->
  exists s' q, schedule SCHED_RR (set_due d (set_in_interrupt irq s)) = Ret (tt, s') /\
    sched_inv s' /\ started s' /\ cur_ok s' /\ kernel_only s' /\ (forall u, is_Some (tcbs s !! u) -> is_Some (tcbs s' !! u)) /\
    current_thread s' = Some t /\ running s' t = true /\ readyThreads s' = r ++ q.
Proof.
  intros Hi Hst Hc Hk Hd Hq. set (s0 := set_due d (set_in_interrupt irq s)).
  destruct (schedule_rr s0 (inv_round irq d s Hi) (started_round irq d s Hst Hd) Hc) as (s' & Heq & Hi' & Hst' & H).
  change (readyThreads s0) with (readyThreads s) in H. rewrite Hq in H. cbn [find_first] in H.
  assert (Hm : may_run s0 t = true).
  { destruct (proj1 (si_ready _ Hi t)) as (x & Hx & _); [rewrite Hq; set_solver|]. unfold may_run.
    change (tcbs s0) with (tcbs s). by rewrite Hx, (Hk _ _ Hx). }
  rewrite Hm in H. destruct H as (q1 & q2 & Hq' & Hn & Hsw & Hr).
  destruct q1 as [|a q1]; [|simpl in Hq'; injection Hq' as -> ->; set_solver]. simpl in Hq'. injection Hq' as ->.
  eexists s', _. split_and!; try done.
  - intros c x Hcc Hx. rewrite (sw_current _ _ _ _ Hsw) in Hcc. injection Hcc as <-. left. by apply (running_state s' t x).
  - by eapply (kernel_only_switched SCHED_RR s0).
  - intros u Hu. rewrite (sw_state _ _ _ _ Hsw), timed_tcbs. apply fmap_is_Some. by apply fmap_is_Some.
  - apply (sw_current _ _ _ _ Hsw).
  - rewrite (sw_ready _ _ _ _ Hsw). simpl. by rewrite <- app_assoc.
Qed.

(** C20: no ready thread starves.  In a system of kernel threads, the thread at
    position [k] of the ready queue is the current thread after exactly [k + 1]
    scheduling rounds, in which threads are only preempted, whether the rounds
    come from interrupts or not and whichever sleepers their timers make
    ready. *)
Theorem round_robin_fair rounds s t :
  sched_inv s -> started s -> cur_ok s -> kernel_only s ->
  Forall (fun rd => Forall (fun u => is_Some (tcbs s !! u)) rd.2) rounds ->
  (exists k, readyThreads s !! k = Some t /\ length rounds = S k) ->
  exists s', schedules rounds s = Ret (tt, s') /\ sched_inv s' /\ current_thread s' = Some t /\ running s' t = true.
Proof.
  intros Hi Hst Hc Hk Hd (k & Ht & Hlen). revert rounds s Hlen Hi Hst Hc Hk Hd Ht.
  induction k as [|k IH]; intros [|[irq d] rounds] s Hlen Hi Hst Hc Hk Hd Ht; try done; injection Hlen as Hlen;
    (destruct (readyThreads s) as [|t0 r] eqn:Eq; [done|]); apply Forall_cons in Hd as [Hd0 Hd]; simpl in Hd0;
    destruct (round_ok irq d s t0 r Hi Hst Hc Hk Hd0 Eq) as (s1 & q & Heq & Hi1 & Hst1 & Hc1 & Hk1 & Hdom & Hcur & Hr & Hq);
    cbn [schedules]; kstep; kstep; krun Heq.
  - injection Ht as ->. destruct rounds; [|done]. by exists s1.
  - apply (IH rounds s1); try done.
    + eapply Forall_impl; [exact Hd|]. intros rd Hrd. eapply Forall_impl; [exact Hrd|]. intros u. apply Hdom.
    + rewrite Hq. by apply lookup_app_l_Some.
Qed.

(** *** Fixed priorities *)
Definition prio_of (s : sys) (t : Z) : Z := default 0 (prio <$> tcbs s !! t).

Lemma best_prio_ok s q best :
  (forall t, t ∈ q -> is_Some (tcbs s !! t)) -> (forall b, best = Some b -> is_Some (tcbs s !! b)) ->
  exists r, best_prio (tcbs s) q best = Ret r /\
    match r with
    | None => best = None /\ q = []
    | Some t => (t ∈ q \/ best = Some t) /\ (forall u, u ∈ q -> prio_of s u <= prio_of s t) /\
                (forall b, best = Some b -> prio_of s b <= prio_of s t /\ (t <> b -> prio_of s b < prio_of s t))
    end.
Proof.
  revert best. induction q as [|a q IH]; intros best Hq Hb; simpl.
  { exists best. split; [done|]. destruct best as [b|]; [|done]. split_and!; [by right|set_solver|].
    intros b' [= <-]. split; [lia|done]. }
  destruct (Hq a) as [x Hx]; [set_solver|]. rewrite Hx. simpl. bret.
  assert (Ha : prio_of s a = prio x) by (unfold prio_of; by rewrite Hx).
  destruct best as [b|].
  - destruct (Hb b eq_refl) as [y Hy]. rewrite Hy. simpl. bret. assert (Hbp : prio_of s b = prio y) by (unfold prio_of; by rewrite Hy).
    destruct (IH (if prio y <? prio x then Some a else Some b)) as (r & -> & Hr); [set_solver|intros b'; case_match; intros [= <-]; eauto|].
    exists r. split; [done|]. destruct r as [t|]; [|destruct (prio y <? prio x); by destruct Hr].
    destruct Hr as (H1 & H2 & H3). destruct (Z.ltb_spec (prio y) (prio x)).
    + destruct (H3 a eq_refl) as [H4 H5]. split_and!.
      * destruct H1 as [?|[= ->]]; left; set_solver.
      * intros u [->|Hu]%elem_of_cons; [done|auto].
      * intros b' [= <-]. lia.
    + destruct (H3 b eq_refl) as [H4 H5]. split_and!.
      * destruct H1 as [?|[= ->]]; [left; set_solver|by right].
      * intros u [->|Hu]%elem_of_cons; [lia|auto].
      * intros b' [= <-]. done.
  - destruct (IH (Some a)) as (r & -> & Hr); [set_solver|intros b' [= <-]; eauto|].
    exists r. split; [done|]. destruct r as [t|]; [|by destruct Hr]. destruct Hr as (H1 & H2 & H3). destruct (H3 a eq_refl) as [H4 H5].
    split_and!; [destruct H1 as [?|[= ->]]; left; set_solver|intros u [->|Hu]%elem_of_cons; [done|auto]|done].
Qed.

Lemma next_thread_prio_ok s :
  sched_inv s ->
  exists r q, next_thread_prio s = Ret (r, with_ready (fun _ => q) s) /\
    match r with
    | None => cur_running s = false /\ readyThreads s = [] /\ q = []
    | Some t => (forall u, u ∈ readyThreads s -> prio_of s u <= prio_of s t) /\
        (forall c, current_thread s = Some c -> cur_running s = true -> prio_of s c <= prio_of s t /\ (t <> c -> prio_of s c < prio_of s t)) /\
        (current_thread s = Some t /\ cur_running s = true /\ q = readyThreads s \/
         t ∈ readyThreads s /\ list_del_first t (readyThreads s) = Some q)
    end.
Proof.
  intros Hi. pose proof (si_lock _ Hi) as Hl.
  set (cur := if cur_running s then current_thread s else None).
  assert (Hcur : forall b, cur = Some b -> current_thread s = Some b /\ cur_running s = true) by (intros b; unfold cur; by destruct (cur_running s)).
  destruct (best_prio_ok s (readyThreads s) cur) as (r & Hbest & Hr).
  { intros t Ht. apply (si_ready _ Hi) in Ht as (x & -> & _). eauto. }
  { intros b [Hb _]%Hcur. by apply (si_current _ Hi). }
  assert (Hself : set_lock false (set_lock true s) = s) by (destruct s; simpl in *; by subst).
  assert (Hpre : next_thread_prio s = match r with
      | Some t => (when (negb (bool_decide (cur = Some t))) (remove_ready t);; mret r) s
      | None => Ret (None, s) end).
  { unfold next_thread_prio. kstep. unfold id. rewrite (kbind_ret _ _ s cur s).
    2: { unfold cur, cur_running, running. destruct (current_thread s) as [c|] eqn:Ec; [|done].
         destruct (si_current _ Hi c Ec) as [x Hx]. krun (tcb_of_ok c x). rewrite Hx. done. }
    unfold spin_lock. rewrite (kbind_ret _ _ s tt (set_lock true s)) by (kstep; by rewrite Hl).
    rewrite (kbind_ret _ _ _ r (set_lock true s)) by (unfold lift; by rewrite Hbest).
    unfold spin_unlock. kstep. rewrite Hself. by destruct r. }
  rewrite Hpre. destruct r as [t|].
  - destruct Hr as (H1 & H2 & H3).
    assert (H3' : forall c, current_thread s = Some c -> cur_running s = true -> prio_of s c <= prio_of s t /\ (t <> c -> prio_of s c < prio_of s t)).
    { intros c Hc Hrun. apply H3. unfold cur. by rewrite Hrun. }
    destruct (bool_decide_reflect (cur = Some t)) as [E|E]; cbn [negb when].
    + destruct (Hcur t E). exists (Some t), (readyThreads s). split; [kstep; by destruct s|]. split_and!; auto.
    + destruct H1 as [Hin|]; [|done]. destruct (list_del_first_ok t _ Hin) as (q1 & q2 & _ & _ & Hdel).
      destruct (proj1 (si_ready _ Hi t) Hin) as (x & Hx & Hst).
      exists (Some t), (q1 ++ q2). rewrite (kbind_ret _ _ _ _ _ (remove_ready_ok t x s (q1 ++ q2) Hx Hst Hl Hdel)). split; [done|]. auto.
  - destruct Hr as [Hc Hq]. exists None, []. split; [rewrite <- Hq; by destruct s|]. split_and!; try done.
    unfold cur in Hc. destruct (cur_running s) eqn:E; [|done]. unfold cur_running in E. by rewrite Hc in E.
Qed.

(** one [schedule] under fixed priorities.  It returns a well-formed state in
    which the current thread runs and no ready thread, nor the thread that
    was running, had a higher priority; a running thread is preempted only by a
    strictly higher one. *)
Theorem schedule_prio_correct s :
  sched_inv s -> started s -> cur_ok s ->
  exists s' n, schedule SCHED_PRIO s = Ret (tt, s') /\ sched_inv s' /\ started s' /\
    current_thread s' = Some n /\ running s' n = true /\
    (readyThreads s <> [] -> forall u, u ∈ readyThreads s -> prio_of s u <= prio_of s n) /\
    (forall c, current_thread s = Some c -> cur_running s = true -> n <> c -> prio_of s c < prio_of s n).
Proof.
  intros Hi Hst Hc. destruct (next_thread_prio_ok _ (inv_busy s true Hi)) as (r & q & Hnext & Hr).
  change (prio_of (set_in_scheduling true s)) with (prio_of s) in Hr. cbn [readyThreads set_in_scheduling current_thread] in Hr.
  change (cur_running (set_in_scheduling true s)) with (cur_running s) in Hr.
  destruct (schedule_after SCHED_PRIO s r q Hi Hst Hnext) as (s' & Heq & Hb & Hsw).
  { intros n ->. destruct Hr as (_ & _ & [(? & ? & _)|[Hin _]]); [by left|right]. split; [done|]. by eapply cur_not_ready. }
  { intros i. by apply cur_not_idle. }
  pose proof (fun n x q => inv_dispatched SCHED_PRIO s s' n x q Hi Hst) as Hgo. cbn [timed woken] in Hgo, Hsw. rewrite app_nil_r in Hsw.
  exists s'. destruct r as [t|].
  - destruct Hr as (Hmax & Hcur & Hkind). exists t. destruct (decide (current_thread s = Some t)) as [E|E].
    + destruct Hkind as [(_ & Hrun & ->)|[Hin _]]; [|by apply (cur_not_ready s t Hi Hc) in Hin].
      assert (s' = set_in_interrupt false (set_in_scheduling false s)) as -> by (rewrite Hsw; by destruct s).
      split_and!; try done; [by apply inv_done|by apply started_done| |].
      * unfold cur_running in Hrun. by rewrite E in Hrun.
      * intros c Ec _ Hne. congruence.
    + destruct Hkind as [(? & _)|[Hin Hdel]]; [done|].
      destruct (proj1 (si_ready _ Hi t) Hin) as (x & Hx & Hxs).
      destruct (list_del_first_nodup t _ q (si_ready_nodup _ Hi) Hdel) as (HP & Hnd & Hnt).
      destruct (Hgo t x q Hx E (or_introl Hxs)) as (? & ? & ? & ?); [|done|by rewrite app_nil_r|done|].
      { intros u. rewrite HP, elem_of_cons. split; [intros Hu; split; [tauto|by intros ->]|tauto]. }
      split_and!; try done. intros c Ec Hrun Hne. destruct (Hcur c Ec Hrun) as [_ H']. apply H'. congruence.
  - destruct Hr as (Hrun & Hempty & ->). rewrite Hrun in Hsw. destruct (tcb_idle s) as [i|] eqn:Eid; [|done].
    exists i. pose proof (cur_not_idle s i Hi Hc Hrun Eid) as Hci. rewrite decide_False in Hsw by done.
    destruct (si_idle _ Hi i Eid) as (x & Hx & _).
    destruct (Hgo i x [] Hx Hci (or_intror eq_refl)) as (? & ? & ? & ?); [intros u; rewrite Hempty; set_solver|constructor|done|done|].
    split_and!; try done. intros c _ Hrun'. congruence.
Qed.

(** *** Concrete systems *)
Definition kthread (id pr : Z) (st : thread_state) : tcb := Tcb id pr st 0 None 0 0 [].
(** The idle thread 1 (priority 1) and kernel threads 2 and 3. *)
Definition demo (cur : Z) (st1 st2 st3 : thread_state) (p2 : Z) (rq : list Z) : sys :=
  Sys {[1 := kthread 1 1 st1; 2 := kthread 2 p2 st2; 3 := kthread 3 10 st3]} ∅ rq [] (Some cur) (Some 1)
      false true false false BOOT_STAGE_COMPLETED 0 [] 4 false false [].

(** under fixed priorities the idle thread (priority 1, the lowest a thread can
    have) competes like any other: a thread of priority 1 that becomes ready
    while it runs is never chosen, however often [schedule] is called. *)
Theorem prio_idle_starves k :
  let s := demo 1 THREAD_RUNNING THREAD_READY THREAD_WAITING 1 [2] in
  Nat.iter k (fun r => x ← r; schedule SCHED_PRIO (snd x)) (Ret (tt, s)) = Ret (tt, s).
Proof. intros s. induction k as [|k IH]; [done|]. simpl. rewrite IH. vm_compute. reflexivity. Qed.

Definition demo2 : sys := demo 2 THREAD_NEW THREAD_RUNNING THREAD_READY 10 [3].
(** The same, but thread 2 has gone to sleep and its timer has already expired. *)
Definition demo3 : sys := set_due [2] (demo 2 THREAD_NEW THREAD_WAITING THREAD_READY 10 [3]).

Lemma demo_inv st2 :
  st2 = THREAD_RUNNING \/ st2 = THREAD_WAITING -> sched_inv (demo 2 THREAD_NEW st2 THREAD_READY 10 [3]).
Proof.
  intros Hst2. set (dm := demo _ _ _ _ _ _).
  assert (Hcase : forall t x, tcbs dm !! t = Some x ->
    t = 1 /\ x = kthread 1 1 THREAD_NEW \/ t = 2 /\ x = kthread 2 10 st2 \/ t = 3 /\ x = kthread 3 10 THREAD_READY).
  { intros t x. unfold dm, demo. cbn [tcbs]. intros H.
    apply lookup_insert_Some in H as [[<- <-]|[_ H]]; [tauto|].
    apply lookup_insert_Some in H as [[<- <-]|[_ H]]; [tauto|].
    apply lookup_singleton_Some in H as [<- <-]. tauto. }
  split; try done.
  - intros t. split; [intros ->%list_elem_of_singleton; eexists; split; [reflexivity|done]|].
    intros (x & Hx & Hst). destruct (Hcase _ _ Hx) as [[-> ->]|[[-> ->]|[-> ->]]]; [done|simpl in Hst; destruct Hst2; congruence|set_solver].
  - intros t. split; [set_solver|]. intros (x & Hx & Hst).
    destruct (Hcase _ _ Hx) as [[-> ->]|[[-> ->]|[-> ->]]]; simpl in Hst; [done|destruct Hst2; congruence|done].
  - apply NoDup_singleton.
  - constructor.
  - intros t x Hx Hst. destruct (Hcase _ _ Hx) as [[-> ->]|[[-> ->]|[-> ->]]]; [done|by left|done].
  - intros i [= <-]. eexists. split; [reflexivity|]. split; [by left|done].
  - intros c [= <-]. by eexists.
  - intros t x p Hx. by destruct (Hcase _ _ Hx) as [[-> ->]|[[-> ->]|[-> ->]]].
Defined.

Lemma demo2_inv : sched_inv demo2.
Proof. apply demo_inv. by left. Defined.

Lemma demo3_inv : sched_inv demo3.
Proof. apply (inv_round false [2]), demo_inv. by right. Defined.

Lemma demo2_started : started demo2.
Proof. split_and!; done. Defined.

Lemma demo3_started : started demo3.
Proof. split_and!; try done. constructor; [by eexists|constructor]. Defined.

Lemma demo2_cur : cur_ok demo2.
Proof. intros c x [= <-] Hx. vm_compute in Hx. injection Hx as <-. by left. Defined.

Lemma demo3_cur : cur_ok demo3.
Proof. intros c x [= <-] Hx. vm_compute in Hx. injection Hx as <-. right. by left. Defined.

Lemma schedule_rr_correct_witness :
  exists s' w, schedule SCHED_RR demo3 = Ret (tt, s') /\ sched_inv s' /\ 2 ∈ w /\
    exists q1 q2, [3] = q1 ++ 3 :: q2 /\ current_thread s' = Some 3 /\ readyThreads s' = q1 ++ q2 ++ w ++ requeue demo3.
Proof.
  destruct (schedule_rr_correct demo3 demo3_inv demo3_started demo3_cur) as (s' & w & ? & ? & _ & _ & Hw & H).
  exists s', w. split_and!; try done.
  - apply Hw. split_and!; [reflexivity|left|reflexivity].
  - change (find_first (may_run demo3) (readyThreads demo3)) with (Some 3) in H.
    destruct H as (q1 & q2 & ? & ? & _ & ?). by exists q1, q2.
Defined.

Lemma waiting_wake_up_correct_witness : exists s1, waiting SCHED_RR demo2 = Ret (tt, s1) /\ sched_inv s1.
Proof.
  destruct (waiting_wake_up_correct demo2 2 (kthread 2 10 THREAD_RUNNING) demo2_inv demo2_started eq_refl ltac:(done) eq_refl eq_refl ltac:(by intros ?%elem_of_nil))
    as (s1 & n & y & ? & ? & _). eauto.
Defined.

Lemma zombie_correct_witness : exists s1, zombie SCHED_RR demo2 = Ret (tt, s1) /\ sched_inv s1.
Proof.
  destruct (zombie_correct demo2 2 (kthread 2 10 THREAD_RUNNING) demo2_inv demo2_started eq_refl ltac:(done) eq_refl eq_refl)
    as (s1 & n & ? & ? & _). eauto.
Defined.

Lemma round_robin_fair_witness :
  exists s', schedules [(false, [2])] demo3 = Ret (tt, s') /\ current_thread s' = Some 3.
Proof.
  destruct (round_robin_fair [(false, [2])] demo3 3 demo3_inv demo3_started demo3_cur) as (s' & ? & _ & ? & _); [| | |eauto].
  - intros t x Hx. unfold demo3, demo in Hx. cbn [tcbs set_due] in Hx.
    apply lookup_insert_Some in Hx as [[_ <-]|[_ Hx]]; [done|].
    apply lookup_insert_Some in Hx as [[_ <-]|[_ Hx]]; [done|]. by apply lookup_singleton_Some in Hx as [_ <-].
  - repeat constructor. by eexists.
  - exists 0%nat. done.
Defined.

Lemma schedule_prio_correct_witness : exists s' n, schedule SCHED_PRIO demo2 = Ret (tt, s') /\ current_thread s' = Some n.
Proof. destruct (schedule_prio_correct demo2 demo2_inv demo2_started demo2_cur) as (s' & n & ? & _ & _ & ? & _). eauto. Defined.

End Sched.
