(* ===== verification/Threads.v ===== *)
(** Threads (so3/kernel/thread.c): stack slots, creation, exit, joining and
    removal, on the scheduler's state ([Sched]).

    [malloc] gives the address of a new [tcb]; [free] removes it, so a later
    access through a stale pointer is [Undef].  A blocking operation is cut
    where it sleeps: [thread_join] is [thread_join_start] up to [waiting()] and
    [thread_join_finish] from there. *)
From S2P Require Import Prelude Sched.
Import Sched.

Module Threads.

Definition THREAD_MAX : nat := 32.
Definition PROC_THREAD_MAX : nat := 32.
Definition THREAD_STACK_SIZE : Z := 65536.
Definition THREAD_PRIO_DEFAULT : Z := 10.

(** *** Field assignments *)
Definition set_join (q : list Z) (t : tcb) : tcb :=
  Tcb (tid t) (prio t) (state t) (stack_slotID t) (tpcb t) (pcb_stack_slotID t) (exit_status t) q.
Definition set_exit (v : Z) (t : tcb) : tcb :=
  Tcb (tid t) (prio t) (state t) (stack_slotID t) (tpcb t) (pcb_stack_slotID t) v (joinQueue t).
Definition set_threads (l : list Z) (p : pcb) : pcb :=
  Pcb (pstate p) (pgtable p) (main_thread p) l (user_slots p) (pexit_status p) (threads_active p) (ptraced p).
Definition set_user_slots (l : list bool) (p : pcb) : pcb :=
  Pcb (pstate p) (pgtable p) (main_thread p) (threads p) l (pexit_status p) (threads_active p) (ptraced p).
Definition set_main (m : option Z) (p : pcb) : pcb :=
  Pcb (pstate p) (pgtable p) m (threads p) (user_slots p) (pexit_status p) (threads_active p) (ptraced p).
Definition set_active (c : completion) (p : pcb) : pcb :=
  Pcb (pstate p) (pgtable p) (main_thread p) (threads p) (user_slots p) (pexit_status p) c (ptraced p).

Definition deref_ptr (o : option Z) : kern sys Z := lift (deref o).

(** *** Stack slots *)
(** [for (i = 0; i < n; i++) if (!slots[i]) { slots[i] = true; return i; }] *)
Definition free_slot (n : nat) (slots : list bool) : option nat :=
  for_ret n (fun i => match slots !! i with Some false => Some i | _ => None end).

Definition get_kernel_stack_slot : kern sys Z :=
  l ← gets kernel_stack_slot;
  match free_slot THREAD_MAX l with
  | Some i => modify (with_slots <[i := true]>);; mret (Z.of_nat i)
  | None => mret (-1)
  end.

Definition free_kernel_stack_slot (slotID : Z) : kern sys unit :=
  l ← gets kernel_stack_slot;
  if (slotID <? 0) || (Z.of_nat (length l) <=? slotID) then raise Undef
  else modify (with_slots <[Z.to_nat slotID := false]>).

Definition get_kernel_stack_top (stack_top slotID : Z) : Z :=
  u64 (stack_top - THREAD_STACK_SIZE - slotID * THREAD_STACK_SIZE).

Definition get_user_stack_slot (p : Z) : kern sys Z :=
  y ← pcb_of p;
  match free_slot PROC_THREAD_MAX (user_slots y) with
  | Some i => upd_pcb p (fun y => set_user_slots (<[i := true]> (user_slots y)) y);; mret (Z.of_nat i)
  | None => mret (-1)
  end.

Definition free_user_stack_slot (p slotID : Z) : kern sys unit :=
  y ← pcb_of p;
  if (slotID <? 0) || (Z.of_nat (length (user_slots y)) <=? slotID) then raise Undef
  else upd_pcb p (fun y => set_user_slots (<[Z.to_nat slotID := false]> (user_slots y)) y).

Definition get_user_stack_top (stack_top slotID : Z) : Z := u64 (stack_top - slotID * THREAD_STACK_SIZE).

Definition threads_init : kern sys unit := modify (with_slots (fun _ => replicate THREAD_MAX false)).

(** *** Creation *)
(** [addr] is what [malloc(sizeof(tcb_t))] returns; [is_idle] says whether the
    routine is [thread_idle]. *)
Definition thread_create (addr : Z) (is_idle : bool) (p : option Z) (pr : Z) : kern sys Z :=
  stage ← gets boot_stage;
  panic_if (stage <? BOOT_STAGE_SCHED);;
  nomem ← gets oom;
  panic_if nomem;;
  id ← gets tid_next;
  modify (set_tid_next (u32 (id + 1)));;
  let pr := if pr =? 0 then THREAD_PRIO_DEFAULT else pr in
  slot ← get_kernel_stack_slot;
  panic_if (slot <? 0);;
  uslot ← match p with
          | None => mret 0
          | Some p => u ← get_user_stack_slot p; panic_if (u <? 0);; mret u
          end;
  modify (with_tcbs <[addr := Tcb id pr THREAD_NEW slot p uslot 0 []]>);;
  when (negb is_idle) (ready addr);;
  mret addr.

Definition kernel_thread (addr : Z) (is_idle : bool) (pr : Z) : kern sys Z := thread_create addr is_idle None pr.

Definition user_thread (addr p : Z) : kern sys Z :=
  y ← pcb_of p;
  pr ← match main_thread y with None => mret 0 | Some m => x ← tcb_of m; mret (prio x) end;
  thread_create addr false (Some p) pr.

Definition do_thread_create (addr : Z) : kern sys Z :=
  c ← current;
  x ← tcb_of c;
  p ← deref_ptr (tpcb x);
  t ← user_thread addr p;
  upd_pcb p (fun y => set_threads (threads y ++ [t]) y);;
  z ← tcb_of t;
  mret (tid z).

(** *** Removal *)
Definition clean_thread (t : Z) : kern sys unit :=
  x ← tcb_of t;
  free_kernel_stack_slot (stack_slotID x);;
  panic_if (negb (bool_decide (joinQueue x = [])));;
  when (bool_decide (state x = THREAD_ZOMBIE)) (remove_zombie t);;
  modify (with_tcbs (delete t)).

Fixpoint find_tid (l : list Z) (id : Z) : kern sys (option Z) :=
  match l with
  | [] => mret None
  | t :: r => x ← tcb_of t; if tid x =? id then mret (Some t) else find_tid r id
  end.
Definition find_thread_by_tid (p id : Z) : kern sys (option Z) := y ← pcb_of p; find_tid (threads y) id.

(** The loop of [remove_tcb_from_pcb] over a snapshot of the list; the
    condition and the early return read [tcb->pcb] each time. *)
Fixpoint remove_loop (l : list Z) (t : Z) : kern sys unit :=
  match l with
  | [] => mret tt
  | cur :: r =>
      x ← tcb_of t;
      p ← deref_ptr (tpcb x);
      y ← pcb_of p;
      if bool_decide (main_thread y = Some t) || (t =? cur) then
        upd_pcb p (fun y => set_threads (default (threads y) (list_del_first cur (threads y))) y);;
        clean_thread cur;;
        x ← tcb_of t;
        p ← deref_ptr (tpcb x);
        y ← pcb_of p;
        if negb (bool_decide (main_thread y = Some t)) then mret tt else remove_loop r t
      else remove_loop r t
  end.
Definition remove_tcb_from_pcb (t : Z) : kern sys unit :=
  x ← tcb_of t;
  p ← deref_ptr (tpcb x);
  y ← pcb_of p;
  remove_loop (threads y) t.

Fixpoint discard_loop (l : list Z) (p : Z) : kern sys unit :=
  match l with
  | [] => mret tt
  | cur :: r =>
      x ← tcb_of cur;
      match state x with
      | THREAD_READY => remove_ready cur
      | THREAD_WAITING => raise Panic
      | _ => mret tt
      end;;
      upd_pcb p (fun y => set_threads (default (threads y) (list_del_first cur (threads y))) y);;
      clean_thread cur;;
      discard_loop r p
  end.
Definition discard_tcb_in_pcb (p : Z) : kern sys unit := y ← pcb_of p; discard_loop (threads y) p.

Fixpoint count_active (ts : gmap Z tcb) (l : list Z) (n : Z) : outcome Z :=
  match l with
  | [] => Ret n
  | t :: r => x ← deref (ts !! t); count_active ts r (if bool_decide (state x = THREAD_ZOMBIE) then n else u32 (n + 1))
  end.
Definition active_threads (p : Z) : kern sys Z :=
  y ← pcb_of p; ts ← gets tcbs; lift (count_active ts (threads y) 0).

(** *** Exit *)
(** [complete(&pcb->threads_active)] (so3/ipc/completion.c) *)
Definition complete_active (p : Z) : kern sys unit :=
  y ← pcb_of p;
  let c := threads_active y in
  let n := u32 (count c + 1) in
  upd_pcb p (set_active (Completion n (tcb_list c)));;
  match tcb_list c with
  | [] => mret tt
  | t :: r => ready t;; upd_pcb p (set_active (Completion n r))
  end;;
  modify (set_softirq true).

Fixpoint ready_all (l : list Z) : kern sys unit :=
  match l with [] => mret tt | t :: r => ready t;; ready_all r end.

(** How [thread_exit] ends: the thread is gone and another runs, the main
    thread must wait for the others, or it goes on to [do_exit(0)]. *)
Inductive exit_res := ExitSwitched | ExitWait | ExitProcess.

Definition thread_exit (pol : sched_policy) (status : Z) : kern sys exit_res :=
  c ← current;
  x ← tcb_of c;
  panic_if (negb (bool_decide (state x = THREAD_RUNNING)));;
  upd_tcb c (set_exit status);;
  main ← match tpcb x with
         | None => mret None
         | Some p => y ← pcb_of p; mret (if bool_decide (main_thread y = Some c) then Some (p, pstate y) else None)
         end;
  match main with
  | Some (p, st) =>
      if bool_decide (st = PROC_ZOMBIE) then
        discard_tcb_in_pcb p;; mret ExitSwitched
      else
        n ← active_threads p;
        if 0 <? n then mret ExitWait
        else remove_tcb_from_pcb c;; mret ExitProcess
  | None => mret ExitSwitched
  end ≫= fun r =>
  match r with
  | ExitSwitched =>
      x ← tcb_of c;
      when (negb (bool_decide (joinQueue x = [])))
        (ready_all (joinQueue x);;
         match tpcb x with
         | None => mret tt
         | Some p => n ← active_threads p; when (n =? 1) (complete_active p)
         end);;
      match tpcb x with
      | Some _ => zombie pol
      | None => clean_thread c;; modify (set_current None);; schedule pol
      end;;
      mret ExitSwitched
  | r => mret r
  end.

Definition do_thread_exit (pol : sched_policy) (status : Z) : kern sys exit_res :=
  c ← current;
  x ← tcb_of c;
  p ← deref_ptr (tpcb x);
  y ← pcb_of p;
  when (negb (bool_decide (main_thread y = Some c))) (free_user_stack_slot p (pcb_stack_slotID x));;
  thread_exit pol status.

(** *** Joining *)
Definition is_main_thread (t : Z) : kern sys bool :=
  x ← tcb_of t;
  match tpcb x with
  | None => mret false
  | Some p => y ← pcb_of p; mret (bool_decide (main_thread y = Some t))
  end.

(** [true]: the caller has queued itself and was switched out. *)
Definition thread_join_start (pol : sched_policy) (t : Z) : kern sys bool :=
  x ← tcb_of t;
  if bool_decide (state x = THREAD_ZOMBIE) then mret false
  else
    nomem ← gets oom;
    panic_if nomem;;
    c ← current;
    upd_tcb t (fun x => set_join (joinQueue x ++ [c]) x);;
    waiting pol;;
    mret true.

(** [me] is the joining thread, running again; [slept] whether it waited; the
    process [child] is [tcb->pcb] as it was before. *)
Definition thread_join_finish (me t : Z) (slept is_main : bool) (child : option Z) : kern sys Z :=
  t ← (if slept && is_main then
         p ← deref_ptr child; y ← pcb_of p; deref_ptr (main_thread y)
       else mret t);
  when slept
    (upd_tcb t (fun x => set_join (default (joinQueue x) (list_del_first me (joinQueue x))) x));;
  x ← tcb_of t;
  p ← deref_ptr (tpcb x);
  y ← pcb_of p;
  if ptraced y then mret 0
  else
    panic_if (negb (bool_decide (state x = THREAD_ZOMBIE)));;
    let status := if is_main : bool then pexit_status y else exit_status x in
    when (bool_decide (joinQueue x = []))
      (if is_main : bool then
         clean_thread t;;
         x ← tcb_of t; p ← deref_ptr (tpcb x); upd_pcb p (set_main None)
       else remove_tcb_from_pcb t);;
    mret status.

Lemma with_tcbs_twice f g s h : f (g (tcbs s)) = h (tcbs s) -> with_tcbs f (with_tcbs g s) = with_tcbs h s.
Proof. intros E. unfold with_tcbs. cbn [tcbs]. by rewrite E. Qed.

(** *** Stack slots: every live thread has its own *)
Record slots_ok (s : sys) : Prop := {
  so_len : length (kernel_stack_slot s) = THREAD_MAX;
  so_used : forall t x, tcbs s !! t = Some x ->
    0 <= stack_slotID x /\ kernel_stack_slot s !! Z.to_nat (stack_slotID x) = Some true;
  so_inj : forall t t' x x', tcbs s !! t = Some x -> tcbs s !! t' = Some x' -> stack_slotID x = stack_slotID x' -> t = t'
}.

Lemma free_slot_Some n l i : free_slot n l = Some i -> (i < n)%nat /\ l !! i = Some false /\ forall j, (j < i)%nat -> l !! j <> Some false.
Proof.
  intros (k & Hk & Hf & Hj)%for_ret_Some. destruct (l !! k) as [[]|] eqn:E; try done. injection Hf as <-.
  split_and!; [done|done|]. intros j Hlt Hl. specialize (Hj j Hlt). by rewrite Hl in Hj.
Qed.

Lemma free_slot_None n l : free_slot n l = None <-> forall i, (i < n)%nat -> l !! i <> Some false.
Proof.
  unfold free_slot. rewrite for_ret_None. split; intros H i Hi.
  - specialize (H i Hi). by destruct (l !! i) as [[]|].
  - specialize (H i Hi). by destruct (l !! i) as [[]|].
Qed.

Lemma slots_create s addr x i :
  slots_ok s -> tcbs s !! addr = None -> kernel_stack_slot s !! i = Some false -> stack_slotID x = Z.of_nat i ->
  forall s', kernel_stack_slot s' = <[i := true]> (kernel_stack_slot s) -> tcbs s' = <[addr := x]> (tcbs s) -> slots_ok s'.
Proof.
  intros [Hl Hu Hj] Ha Hi Hx s' Hs Ht. pose proof (lookup_lt_Some _ _ _ Hi).
  assert (Hne : forall t y, tcbs s !! t = Some y -> Z.to_nat (stack_slotID y) <> i) by (intros t y [_ Hy]%Hu E; congruence).
  split; rewrite ?Hs, ?Ht.
  - by rewrite length_insert.
  - intros t y [[<- <-]|[_ Hy]]%lookup_insert_Some.
    + rewrite Hx, Nat2Z.id, list_lookup_insert_eq by done. split; [lia|done].
    + destruct (Hu _ _ Hy). rewrite list_lookup_insert_ne; [done|]. by eapply not_eq_sym, Hne.
  - intros t t' y y' [[<- <-]|[? Hy]]%lookup_insert_Some [[<- <-]|[? Hy']]%lookup_insert_Some E; try done.
    + exfalso. apply (Hne _ _ Hy'). lia.
    + exfalso. apply (Hne _ _ Hy). lia.
    + by eapply Hj.
Qed.

Lemma slots_clean s t x :
  slots_ok s -> tcbs s !! t = Some x ->
  forall s', kernel_stack_slot s' = <[Z.to_nat (stack_slotID x) := false]> (kernel_stack_slot s) -> tcbs s' = delete t (tcbs s) -> slots_ok s'.
Proof.
  intros [Hl Hu Hj] Hx s' Hs Ht. destruct (Hu _ _ Hx) as [Hx0 _]. split; rewrite ?Hs, ?Ht.
  - by rewrite length_insert.
  - intros u y [Hne Hy]%lookup_delete_Some. destruct (Hu _ _ Hy). rewrite list_lookup_insert_ne; [done|].
    intros E. apply Hne. apply (Hj _ _ _ _ Hx Hy). lia.
  - intros u u' y y' [_ Hy]%lookup_delete_Some [_ Hy']%lookup_delete_Some. by apply Hj.
Qed.

(** A new thread joins the ready queue. *)
Lemma inv_new s addr x slots n :
  sched_inv s -> tcbs s !! addr = None -> tpcb x = None -> state x = THREAD_READY ->
  sched_inv (with_ready (fun q => q ++ [addr]) (with_tcbs <[addr := x]> (with_slots (fun _ => slots) (set_tid_next n s)))).
Proof.
  intros Hi Ha Hp Hst.
  assert (Hnr : addr ∉ readyThreads s) by (intros (y & Hy & _)%(si_ready _ Hi); congruence).
  assert (Hnz : addr ∉ zombieThreads s) by (intros (y & Hy & _)%(si_zombie _ Hi); congruence).
  split; simpl.
  - intros t. rewrite elem_of_app, list_elem_of_singleton, (si_ready _ Hi). destruct (decide (addr = t)) as [<-|Hne].
    + rewrite lookup_insert_eq. split; [eauto|auto].
    + rewrite lookup_insert_ne by done. split; [intros [?|?]; [done|congruence]|auto].
  - intros t. rewrite (si_zombie _ Hi). destruct (decide (addr = t)) as [<-|Hne]; [|by rewrite lookup_insert_ne].
    rewrite lookup_insert_eq, Ha. split; [by intros (? & ? & _)|]. intros (y & [= <-] & ?). congruence.
  - apply NoDup_snoc; [apply (si_ready_nodup _ Hi)|done].
  - apply (si_zombie_nodup _ Hi).
  - intros t y [[<- <-]|[_ Hy]]%lookup_insert_Some Hr; [congruence|]. by apply (si_running _ Hi t y).
  - intros i Hii. destruct (si_idle _ Hi i Hii) as (y & Hy & ? & ?). exists y. rewrite lookup_insert_ne by congruence. done.
  - intros c Hc. destruct (si_current _ Hi c Hc) as [y Hy]. rewrite lookup_insert_ne by congruence. eauto.
  - intros t y p [[<- <-]|[_ Hy]]%lookup_insert_Some Hyp; [congruence|]. by eapply (si_pcb _ Hi t y).
  - apply (si_lock _ Hi).
Qed.

(** creating a kernel thread.  While a stack slot is free it yields a thread
    with the lowest free slot, which no other thread has, queued behind all
    ready threads, and keeps the scheduler's and the slots' invariants; with
    all 32 slots taken it stops the kernel. *)
Theorem kernel_thread_correct s addr pr :
  sched_inv s -> slots_ok s -> BOOT_STAGE_SCHED <= boot_stage s -> oom s = false -> tcbs s !! addr = None ->
  match free_slot THREAD_MAX (kernel_stack_slot s) with
  | None => kernel_thread addr false pr s = Fault Panic
  | Some i => exists s' x, kernel_thread addr false pr s = Ret (addr, s') /\ sched_inv s' /\ slots_ok s' /\
      tcbs s' = <[addr := x]> (tcbs s) /\ state x = THREAD_READY /\ tid x = tid_next s /\
      prio x = (if pr =? 0 then THREAD_PRIO_DEFAULT else pr) /\ stack_slotID x = Z.of_nat i /\
      readyThreads s' = readyThreads s ++ [addr]
  end.
Proof.
  intros Hi Hs Hb Ho Ha. unfold kernel_thread, thread_create. kstep.
  destruct (Z.ltb_spec (boot_stage s) BOOT_STAGE_SCHED); [lia|]. kstep. kstep. rewrite Ho. kstep. kstep. kstep.
  destruct (free_slot THREAD_MAX (kernel_stack_slot s)) as [i|] eqn:Ef.
  2: { rewrite (kbind_ret _ _ _ (-1) (set_tid_next (u32 (tid_next s + 1)) s)); [done|].
       unfold get_kernel_stack_slot. kstep. cbn [kernel_stack_slot set_tid_next]. by rewrite Ef. }
  pose proof (free_slot_Some _ _ _ Ef) as (Hin & Hfree & _).
  rewrite (kbind_ret _ _ _ (Z.of_nat i) (with_slots <[i := true]> (set_tid_next (u32 (tid_next s + 1)) s))).
  2: { unfold get_kernel_stack_slot. kstep. cbn [kernel_stack_slot set_tid_next]. by rewrite Ef. }
  destruct (Z.ltb_spec (Z.of_nat i) 0); [lia|]. kstep. kstep. kstep. cbn [negb when].
  set (x0 := Tcb _ _ THREAD_NEW _ _ _ _ _). set (s2 := with_tcbs _ _).
  assert (Hx0 : tcbs s2 !! addr = Some x0) by apply lookup_insert_eq.
  rewrite (kbind_ret _ _ _ _ _ (ready_ok addr x0 s2 Hx0 Ho)). eexists _, (set_state THREAD_READY x0). split; [done|].
  assert (Ht : with_ready (fun q => q ++ [addr]) (with_tcbs <[addr := set_state THREAD_READY x0]> s2) =
    with_ready (fun q => q ++ [addr]) (with_tcbs <[addr := set_state THREAD_READY x0]>
      (with_slots (fun _ => <[i := true]> (kernel_stack_slot s)) (set_tid_next (u32 (tid_next s + 1)) s)))).
  { f_equal. apply (with_tcbs_twice _ _ (with_slots <[i := true]> (set_tid_next (u32 (tid_next s + 1)) s))). apply insert_insert_eq. }
  rewrite Ht. split_and!; try done.
  - by apply inv_new.
  - by eapply (slots_create s addr (set_state THREAD_READY x0) i).
Qed.

(** the kernel stacks of live threads do not overlap, for any placement of the
    stack area that lies in the address space. *)
Theorem thread_stacks_disjoint s stack_top t t' x x' :
  slots_ok s -> 33 * THREAD_STACK_SIZE <= stack_top < 2 ^ 64 ->
  tcbs s !! t = Some x -> tcbs s !! t' = Some x' -> t <> t' ->
  let top := get_kernel_stack_top stack_top (stack_slotID x) in
  let top' := get_kernel_stack_top stack_top (stack_slotID x') in
  0 < top /\ (top + THREAD_STACK_SIZE <= top' \/ top' + THREAD_STACK_SIZE <= top).
Proof.
  intros Hs Hst Hx Hx' Hne. assert (Hb : forall u y, tcbs s !! u = Some y -> 0 <= stack_slotID y < 32).
  { intros u y [H0 Hl]%(so_used _ Hs). apply lookup_lt_Some in Hl. rewrite (so_len _ Hs) in Hl. unfold THREAD_MAX in Hl. lia. }
  pose proof (Hb _ _ Hx). pose proof (Hb _ _ Hx'). unfold get_kernel_stack_top, THREAD_STACK_SIZE in *.
  rewrite !u64_small by lia. split; [lia|].
  destruct (Z.lt_trichotomy (stack_slotID x) (stack_slotID x')) as [|[E|]]; [lia| |lia].
  exfalso. apply Hne. by apply (so_inj _ Hs t t' x x').
Qed.

(** *** Removal *)
Lemma clean_thread_ok s t x :
  slots_ok s -> tcbs s !! t = Some x -> joinQueue x = [] -> state x <> THREAD_ZOMBIE ->
  clean_thread t s = Ret (tt, with_tcbs (delete t) (with_slots <[Z.to_nat (stack_slotID x) := false]> s)).
Proof.
  intros Hs Hx Hj Hz. destruct (so_used _ Hs _ _ Hx) as [H0 Hu]. apply lookup_lt_Some in Hu.
  unfold clean_thread. krun (tcb_of_ok t x).
  rewrite (kbind_ret _ _ s tt (with_slots <[Z.to_nat (stack_slotID x) := false]> s)).
  2: { unfold free_kernel_stack_slot. kstep. destruct (_ || _) eqn:E; [lia|done]. }
  rewrite Hj. kstep. rewrite bool_decide_eq_false_2 by done. cbn [when]. by kstep.
Qed.

Lemma inv_removed s t x slots :
  sched_inv s -> tcbs s !! t = Some x -> state x = THREAD_RUNNING -> tcb_idle s <> Some t ->
  sched_inv (set_current None (with_tcbs (delete t) (with_slots (fun _ => slots) s))).
Proof.
  intros Hi Hx Hst Hid. assert (Hq : forall (q : list Z) st, st <> THREAD_RUNNING ->
    (forall u, u ∈ q <-> exists y, tcbs s !! u = Some y /\ state y = st) ->
    forall u, u ∈ q <-> exists y, delete t (tcbs s) !! u = Some y /\ state y = st).
  { intros q st Hne Hq u. rewrite Hq. split; intros (y & Hy & Hs).
    - exists y. split; [|done]. rewrite lookup_delete_ne; [done|]. intros <-. congruence.
    - apply lookup_delete_Some in Hy as [_ Hy]. eauto. }
  split; simpl.
  - apply Hq; [done|apply (si_ready _ Hi)].
  - apply Hq; [done|apply (si_zombie _ Hi)].
  - apply (si_ready_nodup _ Hi).
  - apply (si_zombie_nodup _ Hi).
  - intros u y [Hne Hy]%lookup_delete_Some Hr. destruct (si_running _ Hi u y Hy Hr) as [E|]; [|by right].
    destruct (si_running _ Hi t x Hx Hst) as [E'|]; [|done]. congruence.
  - intros i Hii. destruct (si_idle _ Hi i Hii) as (y & Hy & ? & ?). exists y. rewrite lookup_delete_ne by congruence. done.
  - done.
  - intros u y p [_ Hy]%lookup_delete_Some. by apply (si_pcb _ Hi u).
  - apply (si_lock _ Hi).
Qed.

(** a kernel thread nobody joins disappears when it exits: its [tcb] is gone, its
    stack slot is free again, another thread runs, and the invariants hold. *)
Theorem kernel_thread_exit_correct s c x status :
  sched_inv s -> slots_ok s -> started s -> current_thread s = Some c -> tcb_idle s <> Some c ->
  tcbs s !! c = Some x -> state x = THREAD_RUNNING -> tpcb x = None -> joinQueue x = [] -> (c ∉ due s) ->
  exists s' n, thread_exit SCHED_RR status s = Ret (ExitSwitched, s') /\ sched_inv s' /\ slots_ok s' /\
    tcbs s' !! c = None /\ kernel_stack_slot s' !! Z.to_nat (stack_slotID x) = Some false /\
    current_thread s' = Some n /\ running s' n = true.
Proof.
  intros Hi Hs Hst Hc Hid Hx Hrun Hp Hj Hdue. unfold thread_exit, current.
  rewrite (kbind_ret _ _ s c s) by (kstep; unfold lift; by rewrite Hc).
  krun (tcb_of_ok c x). rewrite bool_decide_eq_true_2 by done. kstep. krun (upd_tcb_ok c _ x).
  set (x1 := set_exit status x). set (s1 := with_tcbs <[c := x1]> s).
  assert (Hx1 : tcbs s1 !! c = Some x1) by apply lookup_insert_eq.
  rewrite Hp. kstep. cbv iota beta. kstep. cbv iota beta. krun (tcb_of_ok c x1). cbn [joinQueue x1 set_exit tpcb]. rewrite Hj, Hp.
  rewrite bool_decide_eq_true_2 by done. cbn [negb when]. kstep.
  assert (Hs1 : slots_ok s1).
  { destruct Hs as [Hl Hu Hinj]. unfold s1. split; cbn [tcbs with_tcbs]; [done| |].
    - intros t y [[<- <-]|[_ Hy]]%lookup_insert_Some; [by apply (Hu c x)|by apply (Hu t)].
    - intros t t' y y' [[<- <-]|[? Hy]]%lookup_insert_Some [[<- <-]|[? Hy']]%lookup_insert_Some E; try done.
      + by apply (Hinj c t' x y').
      + by apply (Hinj t c y x).
      + by apply (Hinj t t' y y'). }
  assert (Hcl : clean_thread c s1 = Ret (tt, with_tcbs (delete c) (with_slots <[Z.to_nat (stack_slotID x1) := false]> s1)))
    by (apply clean_thread_ok; [done|done|exact Hj|simpl; congruence]).
  set (s2 := set_current None (with_tcbs (delete c) (with_slots <[Z.to_nat (stack_slotID x1) := false]> s1))).
  assert (Hs2 : s2 = set_current None (with_tcbs (delete c) (with_slots (fun _ => <[Z.to_nat (stack_slotID x) := false]> (kernel_stack_slot s)) s))).
  { unfold s2. f_equal. apply (with_tcbs_twice (delete c) _ (with_slots <[Z.to_nat (stack_slotID x1) := false]> s)). apply delete_insert_eq. }
  assert (Hi2 : sched_inv s2) by (rewrite Hs2; by apply (inv_removed s c x)).
  assert (Hst2 : started s2).
  { destruct Hst as (? & ? & ? & ? & ? & Hd). rewrite Hs2. split_and!; try done. apply Forall_forall. intros t Ht.
    cbn. rewrite lookup_delete_ne by (intros <-; done). by apply (proj1 (Forall_forall _ _) Hd). }
  assert (Hc2 : cur_ok s2) by done.
  assert (Hsl2 : slots_ok s2) by (apply (slots_clean s1 c x1 Hs1 Hx1); done).
  destruct (schedule_rr s2 Hi2 Hst2 Hc2) as (s' & Heq & Hi' & Hst' & H).
  assert (exists n q, switched (timed SCHED_RR s2) s' n q /\ running s' n = true) as (n & q & Hsw & Hn).
  { destruct (find_first _ _) as [t|]; [destruct H as (q1 & q2 & _ & _ & ? & ?); eauto|]. destruct H as (i & _ & ? & ?). eauto. }
  exists s', n. split.
  { rewrite (kbind_ret _ _ s1 tt s'); [done|]. rewrite (kbind_ret _ _ _ _ _ Hcl). kstep. exact Heq. }
  destruct (sw_ctl _ _ _ _ Hsw) as (_ & _ & _ & _ & _ & Hks & _).
  destruct (timed_same SCHED_RR s2) as (_ & _ & _ & _ & _ & _ & _ & _ & Eks & _). rewrite Eks in Hks.
  assert (Hdom : forall t y', tcbs s' !! t = Some y' -> exists y, tcbs s2 !! t = Some y /\ stack_slotID y' = stack_slotID y).
  { intros t y' Hy'. rewrite (sw_state _ _ _ _ Hsw), timed_tcbs in Hy'. destruct (tcbs s2 !! t) as [y|]; [|done]. exists y. split; [done|].
    revert Hy'. repeat case_decide; intros [= <-]; done. }
  split_and!; try done.
  - destruct Hsl2 as [Hl Hu Hinj]. split; rewrite ?Hks; [done| |].
    + intros t y' (y & Hy & ->)%Hdom. by apply (Hu t).
    + intros t t' y y' (z & Hz & ->)%Hdom (z' & Hz' & ->)%Hdom. by apply Hinj.
  - rewrite (sw_state _ _ _ _ Hsw), timed_tcbs, Hs2. cbn. by rewrite lookup_delete_eq.
  - rewrite Hks, Hs2. simpl. apply list_lookup_insert_eq. destruct (so_used _ Hs _ _ Hx) as [_ Hl]. by eapply lookup_lt_Some.
  - apply (sw_current _ _ _ _ Hsw).
Qed.

(** *** Joining *)
Lemma deref_ptr_ok (v : Z) s : deref_ptr (Some v) s = Ret (v, s).
Proof. done. Qed.

Lemma clean_zombie_ok s t x :
  sched_inv s -> slots_ok s -> tcbs s !! t = Some x -> joinQueue x = [] -> state x = THREAD_ZOMBIE ->
  forall s', tcbs s' = tcbs s -> kernel_stack_slot s' = kernel_stack_slot s -> zombieThreads s' = zombieThreads s ->
  exists s'', clean_thread t s' = Ret (tt, s'') /\ tcbs s'' !! t = None.
Proof.
  intros Hi Hs Hx Hj Hz s' Ht Hk Hzq. destruct (so_used _ Hs _ _ Hx) as [H0 Hu]. apply lookup_lt_Some in Hu.
  unfold clean_thread. rewrite (kbind_ret _ _ s' x s') by (apply tcb_of_ok; by rewrite Ht).
  rewrite (kbind_ret _ _ s' tt (with_slots <[Z.to_nat (stack_slotID x) := false]> s')).
  2: { unfold free_kernel_stack_slot. kstep. rewrite Hk. destruct (_ || _) eqn:E; [lia|done]. }
  rewrite Hj. kstep. rewrite bool_decide_eq_true_2 by done. cbn [when].
  set (s1 := with_slots _ s'). destruct (list_del_first_ok t (zombieThreads s)) as (q1 & q2 & _ & _ & Hd).
  { apply (si_zombie _ Hi). eauto. }
  rewrite (kbind_ret _ _ s1 tt (with_zombie (fun _ => q1 ++ q2) s1)).
  2: { unfold remove_zombie. rewrite (kbind_ret _ _ s1 x s1) by (apply tcb_of_ok; simpl; by rewrite Ht).
       rewrite bool_decide_eq_true_2 by done. kstep. kstep. simpl. rewrite Hzq. by rewrite Hd. }
  eexists. split; [done|]. simpl. apply lookup_delete_eq.
Qed.

Lemma remove_loop_uaf s t x p y :
  sched_inv s -> slots_ok s -> tcbs s !! t = Some x -> joinQueue x = [] -> state x = THREAD_ZOMBIE ->
  tpcb x = Some p -> pcbs s !! p = Some y -> main_thread y <> Some t ->
  forall l, t ∈ l -> remove_loop l t s = Fault Undef.
Proof.
  intros Hi Hs Hx Hj Hz Hp Hy Hm. induction l as [|cur l IH]; intros Hin; [set_solver|]. cbn [remove_loop].
  krun (tcb_of_ok t x). rewrite Hp. kstep. krun (pcb_of_ok p y). rewrite bool_decide_eq_false_2 by done. cbn [orb].
  destruct (Z.eqb_spec t cur) as [<-|Hne]; [|apply IH; set_solver].
  krun (upd_pcb_ok p _ y).
  match goal with |- context [(clean_thread t ≫= _) ?z] => set (s1 := z) end.
  destruct (clean_zombie_ok s t x Hi Hs Hx Hj Hz s1) as (s2 & Hc & Hgone); try done.
  krun Hc. unfold mbind, kern_bind. unfold tcb_of. unfold mbind, kern_bind, gets, lift. by rewrite Hgone.
Qed.

(** removing a joined thread reads its [tcb] after it was freed: whenever a
    finished, untraced thread other than the process's main thread is joined
    by its last joiner, [remove_tcb_from_pcb] evaluates [tcb->pcb->main_thread]
    after [clean_thread] released [tcb]. *)
Theorem thread_join_use_after_free s me t x p y child :
  sched_inv s -> slots_ok s -> tcbs s !! t = Some x -> joinQueue x = [] -> state x = THREAD_ZOMBIE ->
  tpcb x = Some p -> pcbs s !! p = Some y -> main_thread y <> Some t -> ptraced y = false -> t ∈ threads y ->
  thread_join_finish me t false false child s = Fault Undef.
Proof.
  intros Hi Hs Hx Hj Hz Hp Hy Hm Htr Hin. unfold thread_join_finish. cbn [andb]. kstep. cbn [when]. kstep.
  krun (tcb_of_ok t x). rewrite Hp. kstep. krun (pcb_of_ok p y). rewrite Htr.
  rewrite (bool_decide_eq_true_2 (state x = THREAD_ZOMBIE)) by done. kstep. rewrite Hj. cbn [when bool_decide].
  apply kbind_fault. unfold remove_tcb_from_pcb. rewrite bool_decide_eq_true_2 by done. cbn [when].
  krun (tcb_of_ok t x). rewrite Hp. kstep. krun (pcb_of_ok p y). by apply (remove_loop_uaf s t x p y).
Qed.

(** *** A concrete system: idle thread 1, running kernel thread 2, and thread 3 of
    process 100, finished. *)
Definition idle1 : tcb := Tcb 1 1 THREAD_NEW 0 None 0 0 [].
Definition kern2 : tcb := Tcb 2 10 THREAD_RUNNING 1 None 0 0 [].
Definition zomb3 : tcb := Tcb 3 10 THREAD_ZOMBIE 2 (Some 100) 1 7 [].
Definition proc100 : pcb := Pcb PROC_READY 4096 (Some 9) [3] [] 0 (Completion 0 []) false.
Definition tdemo : sys :=
  Sys {[1 := idle1; 2 := kern2; 3 := zomb3]} {[100 := proc100]} [] [3] (Some 2) (Some 1)
      false true false false BOOT_STAGE_COMPLETED 0 ([true; true; true] ++ replicate 29 false) 4 false false [].

Lemma tdemo_case t x : tcbs tdemo !! t = Some x -> t = 1 /\ x = idle1 \/ t = 2 /\ x = kern2 \/ t = 3 /\ x = zomb3.
Proof.
  unfold tdemo. cbn [tcbs]. intros H.
  apply lookup_insert_Some in H as [[<- <-]|[_ H]]; [tauto|].
  apply lookup_insert_Some in H as [[<- <-]|[_ H]]; [tauto|].
  apply lookup_singleton_Some in H as [<- <-]. tauto.
Qed.

Lemma tdemo_inv : sched_inv tdemo.
Proof.
  split; try done.
  - intros t. split; [set_solver|]. intros (x & Hx & Hst). by destruct (tdemo_case _ _ Hx) as [[-> ->]|[[-> ->]|[-> ->]]].
  - intros t. split; [intros ->%list_elem_of_singleton; by exists zomb3|].
    intros (x & Hx & Hst). destruct (tdemo_case _ _ Hx) as [[-> ->]|[[-> ->]|[-> ->]]]; [done|done|by left].
  - constructor.
  - apply NoDup_singleton.
  - intros t x Hx Hst. destruct (tdemo_case _ _ Hx) as [[-> ->]|[[-> ->]|[-> ->]]]; [done|by left|done].
  - intros i [= <-]. exists idle1. split; [done|]. split; [by left|done].
  - intros c [= <-]. by eexists.
  - intros t x p Hx. destruct (tdemo_case _ _ Hx) as [[-> ->]|[[-> ->]|[-> ->]]]; [done|done|]. intros [= <-]. by eexists.
Qed.

Lemma tdemo_slots : slots_ok tdemo.
Proof.
  split; [done| |].
  - intros t x Hx. by destruct (tdemo_case _ _ Hx) as [[-> ->]|[[-> ->]|[-> ->]]].
  - intros t t' x x' Hx Hx'.
    by destruct (tdemo_case _ _ Hx) as [[-> ->]|[[-> ->]|[-> ->]]], (tdemo_case _ _ Hx') as [[-> ->]|[[-> ->]|[-> ->]]].
Qed.

Lemma tdemo_started : started tdemo.
Proof. split_and!; done. Qed.

Lemma kernel_thread_correct_witness : exists s', kernel_thread 50 false 0 tdemo = Ret (50, s') /\ slots_ok s'.
Proof.
  pose proof (kernel_thread_correct tdemo 50 0 tdemo_inv tdemo_slots ltac:(done) eq_refl eq_refl) as H.
  change (free_slot THREAD_MAX (kernel_stack_slot tdemo)) with (Some 3%nat) in H. destruct H as (s' & x & ? & _ & ? & _). eauto.
Defined.

Lemma thread_stacks_disjoint_witness :
  0 < get_kernel_stack_top (2 ^ 40) (stack_slotID kern2).
Proof.
  apply (thread_stacks_disjoint tdemo (2 ^ 40) 2 3 kern2 zomb3 tdemo_slots); [unfold THREAD_STACK_SIZE; lia|reflexivity|reflexivity|done].
Defined.

Lemma kernel_thread_exit_correct_witness : exists s', thread_exit SCHED_RR 0 tdemo = Ret (ExitSwitched, s') /\ sched_inv s'.
Proof.
  destruct (kernel_thread_exit_correct tdemo 2 kern2 0 tdemo_inv tdemo_slots tdemo_started eq_refl ltac:(done) eq_refl eq_refl eq_refl eq_refl ltac:(by intros ?%elem_of_nil))
    as (s' & n & ? & ? & _). eauto.
Defined.

Lemma thread_join_use_after_free_witness : thread_join_finish 2 3 false false None tdemo = Fault Undef.
Proof.
  apply (thread_join_use_after_free tdemo 2 3 zomb3 100 proc100 None tdemo_inv tdemo_slots); try reflexivity; [done|by left].
Defined.

End Threads.
