(* ===== verification/Sync.v ===== *)
(** Blocking synchronisation: mutexes (so3/kernel/mutex.c), semaphores
    (so3/ipc/semaphore.c) and completions (so3/ipc/completion.c).

    Each primitive is a set of functions on its C structure, one per stretch of
    code a thread runs without being switched out: an entry into the operation
    up to the point where it returns or sleeps, and the continuation after it is
    woken.  The stretches run on one CPU with interrupts off, or are one atomic
    store.  A system adds the threads' standing towards the primitive and
    interleaves these stretches in any order ([run]). *)
From S2P Require Import Prelude.

(** ** Mutexes *)
Module Mutex.

Record mutex := Mutex {
  count : Z;                (* 1: unlocked, 0: locked, negative: locked, possible waiters *)
  owner : option Z;
  recursive_count : Z;
  tcb_list : list Z
}.

Definition mutex_init : mutex := Mutex 1 None 0 [].
Definition mutex_is_locked (m : mutex) : bool := negb (count m =? 1).

(** The lock is taken, or the thread has queued itself and goes to sleep. *)
Inductive lock_res := Acquired | Sleep.

(** One iteration of the [for (;;)] loop, and what follows it. *)
Definition lock_loop (m : mutex) (t : Z) : mutex * lock_res :=
  if (0 <=? count m) && (count m =? 1) then
    (Mutex (if decide (tcb_list m = []) then 0 else -1) (Some t) (recursive_count m) (tcb_list m), Acquired)
  else
    let c := if 0 <=? count m then -1 else count m in
    (Mutex c (owner m) (recursive_count m) (tcb_list m ++ [t]), Sleep).

Definition mutex_lock (m : mutex) (t : Z) : mutex * lock_res :=
  if negb (mutex_is_locked m) then
    (Mutex 0 (Some t) (recursive_count m) (tcb_list m), Acquired)
  else if mutex_is_locked m && bool_decide (owner m = Some t) then
    (Mutex (count m) (Some t) (recursive_count m + 1) (tcb_list m), Acquired)
  else lock_loop m t.

(** After [waiting()] returns, the loop goes round again. *)
Definition mutex_lock_resume (m : mutex) (t : Z) : mutex * lock_res := lock_loop m t.

(** [mutex_unlock] gives [wait_lock] back twice, so it is three stretches between
    which other threads run.  Up to the first release of [wait_lock]: [true] when
    only the nesting depth went down and the function returns.  (The [BUG_ON]
    stands before the lock is taken; the holder calls, and nobody else can
    change what it tests.) *)
Definition mutex_unlock (m : mutex) : outcome (mutex * bool) :=
  _ ← bug_on (negb (mutex_is_locked m));
  if negb (recursive_count m =? 0) then
    Ret (Mutex (count m) (owner m) (recursive_count m - 1) (tcb_list m), true)
  else Ret (m, false).

(** [atomic_set(&lock->count, 1)], with [wait_lock] free and interrupts on. *)
Definition unlock_release (m : mutex) : mutex := Mutex 1 (owner m) (recursive_count m) (tcb_list m).

(** [wait_lock] again: the new mutex and the thread made ready, if any. *)
Definition unlock_wake (m : mutex) : mutex * option Z :=
  match tcb_list m with
  | [] => (m, None)
  | w :: r => (Mutex (count m) (owner m) (recursive_count m) r, Some w)
  end.

(** *** Threads around one mutex *)
(** [Releasing]: in [mutex_unlock], before the count is set; [Unlocking]: after it,
    with the queue still to be looked at. *)
Inductive standing := Blocked | Woken | Holds (depth : Z) | Releasing | Unlocking.
Record msys := MSys { mx : mutex; stand : gmap Z standing }.
Inductive event := ELock (t : Z) | EResume (t : Z) | EUnlock (t : Z) | ERelease (t : Z) | EWake (t : Z).

Definition granted (s : msys) (t : Z) (depth : Z) (r : mutex * lock_res) : msys :=
  MSys r.1 (<[t := match r.2 with Acquired => Holds depth | Sleep => Blocked end]> (stand s)).

(** [None]: the thread cannot do that now. *)
Definition step (s : msys) (e : event) : option msys :=
  match e with
  | ELock t =>
      match stand s !! t with
      | None => Some (granted s t 1 (mutex_lock (mx s) t))
      | Some (Holds d) => Some (granted s t (d + 1) (mutex_lock (mx s) t))
      | _ => None
      end
  | EResume t =>
      match stand s !! t with
      | Some Woken => Some (granted s t 1 (mutex_lock_resume (mx s) t))
      | _ => None
      end
  | EUnlock t =>
      match stand s !! t with
      | Some (Holds d) =>
          match mutex_unlock (mx s) with
          | Ret (m, nested) => Some (MSys m (<[t := if nested : bool then Holds (d - 1) else Releasing]> (stand s)))
          | Fault _ => None
          end
      | _ => None
      end
  | ERelease t =>
      match stand s !! t with
      | Some Releasing => Some (MSys (unlock_release (mx s)) (<[t := Unlocking]> (stand s)))
      | _ => None
      end
  | EWake t =>
      match stand s !! t with
      | Some Unlocking =>
          let '(m, w) := unlock_wake (mx s) in
          let st := delete t (stand s) in
          Some (MSys m (match w with Some w => <[w := Woken]> st | None => st end))
      | _ => None
      end
  end.

Inductive reachable : msys -> Prop :=
  | reach_init : reachable (MSys mutex_init ∅)
  | reach_step s e s' : reachable s -> step s e = Some s' -> reachable s'.

(** *** Invariant *)
(** How deep a thread is in the mutex; it still is while it has not set the count. *)
Definition holding (x : standing) : option Z :=
  match x with Holds d => Some d | Releasing => Some 1 | _ => None end.

(** [h] is the holder and its nesting depth. *)
Record minv (s : msys) (h : option (Z * Z)) : Prop := {
  mi_holder : forall t d, stand s !! t ≫= holding = Some d <-> h = Some (t, d);
  mi_count : count (mx s) = 1 <-> h = None;
  mi_owner : forall t d, h = Some (t, d) -> owner (mx s) = Some t /\ recursive_count (mx s) = d - 1 /\ 1 <= d;
  mi_free : h = None -> recursive_count (mx s) = 0;
  mi_blocked : forall t, stand s !! t = Some Blocked <-> t ∈ tcb_list (mx s);
  mi_nodup : NoDup (tcb_list (mx s));
  (* whoever sleeps will be attended to: by the holder, a woken thread or an unlock under way *)
  mi_wakeup : h = None -> tcb_list (mx s) <> [] -> exists t, stand s !! t = Some Woken \/ stand s !! t = Some Unlocking
}.

Lemma minv_init : minv (MSys mutex_init ∅) None.
Proof. split; try done. - intros t. set_solver. - constructor. Qed.

(** The holder stays the holder, at depth [d']: it locks again, unlocks once, or
    starts to release. *)
Lemma inv_depth s t d x d' c :
  minv s (Some (t, d)) -> holding x = Some d' -> x <> Blocked -> 1 <= d' -> c <> 1 ->
  minv (MSys (Mutex c (Some t) (d' - 1) (tcb_list (mx s))) (<[t := x]> (stand s))) (Some (t, d')).
Proof.
  intros Hi Hx Hb Hd Hc. pose proof (proj2 (mi_holder _ _ Hi t d) eq_refl) as Ht. split; cbn [mx stand count owner recursive_count tcb_list]; try done.
  - intros t' e. destruct (decide (t = t')) as [<-|Hne].
    + rewrite lookup_insert_eq. cbn. rewrite Hx. split; congruence.
    + rewrite lookup_insert_ne by done. rewrite (mi_holder _ _ Hi). split; congruence.
  - intros t' e [= <- <-]. split_and!; [done|lia|lia].
  - intros t'. rewrite <- (mi_blocked _ _ Hi). destruct (decide (t = t')) as [<-|Hne]; [|by rewrite lookup_insert_ne].
    rewrite lookup_insert_eq. split; [congruence|]. intros E. by rewrite E in Ht.
  - apply (mi_nodup _ _ Hi).
Qed.

(** A thread that held nothing takes the free mutex. *)
Lemma inv_acquire s t c :
  minv s None -> (stand s !! t = None \/ stand s !! t = Some Woken) -> c <> 1 ->
  minv (MSys (Mutex c (Some t) (recursive_count (mx s)) (tcb_list (mx s))) (<[t := Holds 1]> (stand s))) (Some (t, 1)).
Proof.
  intros Hi Ht Hc. pose proof (mi_free _ _ Hi eq_refl) as Hr. split; simpl; try done.
  - intros t' d. cbn [stand]. destruct (decide (t = t')) as [<-|Hne].
    + rewrite lookup_insert_eq. cbn. split; congruence.
    + rewrite lookup_insert_ne by done. rewrite (mi_holder _ _ Hi). split; congruence.
  - intros t' d [= <- <-]. rewrite Hr. split_and!; done.
  - intros t'. rewrite <- (mi_blocked _ _ Hi). destruct (decide (t = t')) as [<-|Hne]; [|by rewrite lookup_insert_ne].
    rewrite lookup_insert_eq. split; [done|]. destruct Ht; congruence.
  - apply (mi_nodup _ _ Hi).
Qed.

(** A thread joins the queue of a held mutex. *)
Lemma inv_sleep s h t c :
  minv s h -> is_Some h -> (stand s !! t = None \/ stand s !! t = Some Woken) -> c <> 1 ->
  minv (MSys (Mutex c (owner (mx s)) (recursive_count (mx s)) (tcb_list (mx s) ++ [t])) (<[t := Blocked]> (stand s))) h.
Proof.
  intros Hi [[t0 d0] ->] Ht Hc. split; simpl; try done.
  - intros t' d. cbn [stand]. destruct (decide (t = t')) as [<-|Hne]; [|rewrite lookup_insert_ne by done; apply (mi_holder _ _ Hi)].
    rewrite lookup_insert_eq. split; [done|]. intros E. apply (mi_holder _ _ Hi) in E. by destruct Ht as [Ht|Ht]; rewrite Ht in E.
  - apply (mi_owner _ _ Hi).
  - intros t'. rewrite elem_of_app, list_elem_of_singleton, <- (mi_blocked _ _ Hi).
    destruct (decide (t = t')) as [<-|Hne]; [rewrite lookup_insert_eq; tauto|]. rewrite lookup_insert_ne by done.
    split; [tauto|]. intros [?|?]; [done|congruence].
  - rewrite <- Permutation_cons_append. constructor; [|apply (mi_nodup _ _ Hi)].
    rewrite <- (mi_blocked _ _ Hi). destruct Ht; congruence.
Qed.

Lemma lock_loop_inv s h t :
  minv s h -> (stand s !! t = None \/ stand s !! t = Some Woken) ->
  exists h', minv (granted s t 1 (lock_loop (mx s) t)) h'.
Proof.
  intros Hi Ht. unfold lock_loop. destruct (Z.eqb_spec (count (mx s)) 1) as [E|E].
  - rewrite E. cbn. pose proof (proj1 (mi_count _ _ Hi) E) as ->. exists (Some (t, 1)). unfold granted. cbn [fst snd].
    apply inv_acquire; try done. case_decide; done.
  - rewrite andb_false_r. unfold granted. cbn [fst snd]. exists h. apply inv_sleep; try done.
    + destruct h; [eauto|]. by rewrite (mi_count _ _ Hi) in E.
    + destruct (0 <=? count (mx s)); [done|]. done.
Qed.

Lemma relock_inv s h t d :
  minv s h -> stand s !! t = Some (Holds d) ->
  exists h', minv (granted s t (d + 1) (mutex_lock (mx s) t)) h'.
Proof.
  intros Hi Et. assert (h = Some (t, d)) as -> by (apply (mi_holder _ _ Hi); by rewrite Et).
  destruct (mi_owner _ _ Hi t d eq_refl) as (Ho & Hr & Hd). unfold mutex_lock, mutex_is_locked.
  destruct (Z.eqb_spec (count (mx s)) 1) as [E|E]; [by apply (mi_count _ _ Hi) in E|]. cbn [negb andb].
  rewrite bool_decide_eq_true_2 by done. unfold granted. cbn [fst snd]. exists (Some (t, d + 1)).
  replace (recursive_count (mx s) + 1) with (d + 1 - 1) by lia. apply (inv_depth s t d); try done. lia.
Qed.

Lemma lock_first_inv s h t :
  minv s h -> stand s !! t = None -> exists h', minv (granted s t 1 (mutex_lock (mx s) t)) h'.
Proof.
  intros Hi Et. unfold mutex_lock, mutex_is_locked. destruct (Z.eqb_spec (count (mx s)) 1) as [E|E]; cbn [negb andb].
  - pose proof (proj1 (mi_count _ _ Hi) E) as ->. exists (Some (t, 1)). apply inv_acquire; auto.
  - rewrite bool_decide_eq_false_2; [apply (lock_loop_inv s h); auto|]. intros Ho.
    destruct h as [[t0 d0]|]; [|by rewrite (mi_count _ _ Hi) in E].
    destruct (mi_owner _ _ Hi t0 d0 eq_refl) as (Ho' & _). assert (t0 = t) as -> by congruence.
    pose proof (proj2 (mi_holder _ _ Hi t d0) eq_refl) as H. by rewrite Et in H.
Qed.

Lemma unlock_inv s h t d m nested :
  minv s h -> stand s !! t = Some (Holds d) -> mutex_unlock (mx s) = Ret (m, nested) ->
  exists h', minv (MSys m (<[t := if nested : bool then Holds (d - 1) else Releasing]> (stand s))) h'.
Proof.
  intros Hi Et. assert (h = Some (t, d)) as -> by (apply (mi_holder _ _ Hi); by rewrite Et).
  destruct (mi_owner _ _ Hi t d eq_refl) as (Ho & Hr & Hd). unfold mutex_unlock, mutex_is_locked.
  destruct (Z.eqb_spec (count (mx s)) 1) as [E|E]; [by apply (mi_count _ _ Hi) in E|]. cbn [negb bug_on]. bret.
  destruct (Z.eqb_spec (recursive_count (mx s)) 0) as [E0|E0]; cbn [negb]; intros [= <- <-].
  - assert (d = 1) as -> by lia. exists (Some (t, 1)). pose proof (inv_depth s t 1 Releasing 1 (count (mx s)) Hi) as H.
    destruct (mx s) as [c o r q]. cbn in *. subst. by apply H.
  - exists (Some (t, d - 1)). rewrite Ho. replace (recursive_count (mx s) - 1) with (d - 1 - 1) by lia.
    apply (inv_depth s t d); try done. lia.
Qed.

(** The count is set: the mutex is free, and the queue is this thread's to look at. *)
Lemma release_inv s h t :
  minv s h -> stand s !! t = Some Releasing ->
  minv (MSys (unlock_release (mx s)) (<[t := Unlocking]> (stand s))) None.
Proof.
  intros Hi Et. assert (h = Some (t, 1)) as -> by (apply (mi_holder _ _ Hi); by rewrite Et).
  destruct (mi_owner _ _ Hi t 1 eq_refl) as (Ho & Hr & Hd). split; simpl; try done.
  - intros t' d. cbn [stand]. destruct (decide (t = t')) as [<-|Hne]; [by rewrite lookup_insert_eq|].
    rewrite lookup_insert_ne, (mi_holder _ _ Hi) by done. split; congruence.
  - intros t'. rewrite <- (mi_blocked _ _ Hi). destruct (decide (t = t')) as [<-|Hne]; [|by rewrite lookup_insert_ne].
    rewrite lookup_insert_eq. split; congruence.
  - apply (mi_nodup _ _ Hi).
  - intros _ _. exists t. right. apply lookup_insert_eq.
Qed.

(** The unlock ends: the first sleeper, if any, is woken. *)
Lemma wake_inv s h t m w :
  minv s h -> stand s !! t = Some Unlocking -> unlock_wake (mx s) = (m, w) ->
  minv (MSys m (match w with Some w => <[w := Woken]> (delete t (stand s)) | None => delete t (stand s) end)) h.
Proof.
  intros Hi Et. unfold unlock_wake.
  assert (Hh : forall t' d, delete t (stand s) !! t' ≫= holding = Some d <-> h = Some (t', d)).
  { intros t' d. rewrite <- (mi_holder _ _ Hi). destruct (decide (t = t')) as [<-|Hne]; [|by rewrite lookup_delete_ne].
    by rewrite lookup_delete_eq, Et. }
  assert (Hb : forall t', delete t (stand s) !! t' = Some Blocked <-> t' ∈ tcb_list (mx s)).
  { intros t'. rewrite <- (mi_blocked _ _ Hi). destruct (decide (t = t')) as [<-|Hne]; [|by rewrite lookup_delete_ne].
    rewrite lookup_delete_eq. split; congruence. }
  pose proof (mi_nodup _ _ Hi) as Hnd.
  destruct (tcb_list (mx s)) as [|x r] eqn:El; intros [= <- <-]; split; cbn [mx stand count owner recursive_count tcb_list];
    try apply Hi; try done; rewrite ?El; try done.
  - intros t' d. rewrite <- Hh. destruct (decide (x = t')) as [<-|]; [|by rewrite lookup_insert_ne].
    rewrite lookup_insert_eq. cbn. by rewrite (proj2 (Hb x) (list_elem_of_here _ _)).
  - intros t'. apply NoDup_cons in Hnd as [Hw _]. destruct (decide (x = t')) as [<-|]; [rewrite lookup_insert_eq; split; done|].
    rewrite lookup_insert_ne, Hb by done. set_solver.
  - by apply NoDup_cons in Hnd as [_ ?].
  - intros _ _. exists x. left. apply lookup_insert_eq.
Qed.

Lemma mutex_step_inv s h e s' : minv s h -> step s e = Some s' -> exists h', minv s' h'.
Proof.
  intros Hi. destruct e as [t|t|t|t|t]; cbn [step]; destruct (stand s !! t) as [[| |d| |]|] eqn:Et; try done.
  - intros [= <-]. by eapply relock_inv.
  - intros [= <-]. by eapply lock_first_inv.
  - intros [= <-]. apply (lock_loop_inv s h); auto.
  - destruct (mutex_unlock (mx s)) as [[m nested]|] eqn:Eu; [|done]. intros [= <-]. by eapply unlock_inv.
  - intros [= <-]. exists None. by eapply release_inv.
  - destruct (unlock_wake (mx s)) as [m w] eqn:Ew. intros [= <-]. exists h. by eapply wake_inv.
Qed.

Lemma mutex_reachable_inv s : reachable s -> exists h, minv s h.
Proof. induction 1 as [|s e s' _ [h Hh] Hs]; [eexists; apply minv_init|by eapply mutex_step_inv]. Qed.

(** C18: mutexes exclude and never forget.  In every interleaving, by any number
    of threads, of lock, resume and the three stretches of unlock (up to the
    recursion check; setting the count, outside the spin lock; waking a
    sleeper): at most one thread holds the mutex or is about to set its count,
    the mutex is locked exactly then, and that thread is the recorded owner
    with the right nesting depth; the sleeping threads are exactly those on the
    wait queue; and whenever somebody sleeps, the mutex is held, or a woken thread
    is about to retry, or an unlock is under way that has yet to look at the
    queue, so no wake-up is lost. *)
Theorem mutex_safety s :
  reachable s ->
  (forall t d t' d', stand s !! t ≫= holding = Some d -> stand s !! t' ≫= holding = Some d' -> t = t' /\ d = d') /\
  (mutex_is_locked (mx s) = true <-> exists t d, stand s !! t ≫= holding = Some d) /\
  (forall t d, stand s !! t ≫= holding = Some d -> owner (mx s) = Some t /\ recursive_count (mx s) = d - 1) /\
  (forall t, stand s !! t = Some Blocked <-> t ∈ tcb_list (mx s)) /\
  (tcb_list (mx s) <> [] ->
   (exists t d, stand s !! t ≫= holding = Some d) \/ (exists t, stand s !! t = Some Woken \/ stand s !! t = Some Unlocking)).
Proof.
  intros [h Hi]%mutex_reachable_inv. split_and!.
  - intros t d t' d' H1 H2. apply (mi_holder _ _ Hi) in H1, H2. split; congruence.
  - unfold mutex_is_locked. rewrite negb_true_iff, Z.eqb_neq, (mi_count _ _ Hi). destruct h as [[t d]|].
    + split; [|done]. intros _. exists t, d. by apply (mi_holder _ _ Hi).
    + split; [done|]. intros (t & d & H). by apply (mi_holder _ _ Hi) in H.
  - intros t d H. apply (mi_holder _ _ Hi) in H. by destruct (mi_owner _ _ Hi t d H) as (? & ? & _).
  - apply (mi_blocked _ _ Hi).
  - intros Hne. destruct h as [[t d]|]; [left|right; by apply (mi_wakeup _ _ Hi)].
    exists t, d. by apply (mi_holder _ _ Hi).
Qed.

(** a holder can always start to unlock, an unlock under way always goes on and
    wakes the first sleeper of the queue it finds, and a thread that retries on a
    free mutex always gets it: no operation of a well-behaved client faults or
    blocks on a free mutex. *)
Theorem mutex_progress s t :
  reachable s ->
  (forall d, stand s !! t = Some (Holds d) -> is_Some (step s (EUnlock t))) /\
  (stand s !! t = Some Releasing -> is_Some (step s (ERelease t))) /\
  (stand s !! t = Some Unlocking ->
   exists s', step s (EWake t) = Some s' /\ forall w r, tcb_list (mx s) = w :: r -> stand s' !! w = Some Woken) /\
  (stand s !! t = Some Woken -> (forall u d, stand s !! u ≫= holding <> Some d) ->
   exists s', step s (EResume t) = Some s' /\ stand s' !! t = Some (Holds 1)).
Proof.
  intros [h Hi]%mutex_reachable_inv. split_and!.
  - intros d H. cbn [step]. rewrite H. assert (h = Some (t, d)) as -> by (apply (mi_holder _ _ Hi); by rewrite H).
    unfold mutex_unlock, mutex_is_locked.
    destruct (Z.eqb_spec (count (mx s)) 1) as [E|E]; [by apply (mi_count _ _ Hi) in E|]. cbn [negb bug_on]. bret.
    destruct (negb _); by eexists.
  - intros H. cbn [step]. rewrite H. by eexists.
  - intros H. cbn [step]. rewrite H. unfold unlock_wake. destruct (tcb_list (mx s)) as [|w r]; (eexists; split; [done|]); [done|].
    intros ? ? [= <- <-]. apply lookup_insert_eq.
  - intros H Hnone. cbn [step]. rewrite H. eexists. split; [done|].
    assert (h = None) as ->. { destruct h as [[u d]|]; [|done]. exfalso. apply (Hnone u d). by apply (mi_holder _ _ Hi). }
    unfold granted, mutex_lock_resume, lock_loop. rewrite (proj2 (mi_count _ _ Hi) eq_refl). cbn. apply lookup_insert_eq.
Qed.

End Mutex.

(** ** Completions *)
Module Completion.

Record completion := MkCompletion { count : Z; tcb_list : list Z }.
Definition init_completion : completion := MkCompletion 0 [].
Definition reinit_completion (c : completion) : completion := MkCompletion 0 (tcb_list c).

(** [wait_for_completion] up to its return ([true]) or its first [waiting()]. *)
Definition wait_for_completion (c : completion) (t : Z) : completion * bool :=
  if count c =? 0 then (MkCompletion (count c) (tcb_list c ++ [t]), false)
  else (MkCompletion (u32 (count c - 1)) (tcb_list c), true).

(** Back from [waiting()]: round the [while (!completion->count)] loop. *)
Definition wait_resume (c : completion) : completion * bool :=
  if count c =? 0 then (c, false) else (MkCompletion (u32 (count c - 1)) (tcb_list c), true).

(** The new completion and the thread made ready. *)
Definition complete (c : completion) : completion * option Z :=
  let n := u32 (count c + 1) in
  match tcb_list c with
  | [] => (MkCompletion n [], None)
  | t :: r => (MkCompletion n r, Some t)
  end.

(** Every queued thread is made ready and taken off the list. *)
Definition complete_all (c : completion) : completion * list Z :=
  (reinit_completion (MkCompletion (count c) []), tcb_list c).

(** *** Threads around one completion *)
Inductive standing := Asleep | Woken | Done.
#[global] Instance standing_eq_dec : EqDecision standing.
Proof. solve_decision. Defined.
Record csys := CSys { cp : completion; stand : gmap Z standing }.
Inductive event := CWait (t : Z) | CResume (t : Z) | CComplete | CCompleteAll.

Definition set_all (l : list Z) (m : gmap Z standing) : gmap Z standing := foldr (fun t m => <[t := Woken]> m) m l.

Definition step (s : csys) (e : event) : option csys :=
  match e with
  | CWait t =>
      match stand s !! t with
      | Some Asleep | Some Woken => None
      | _ => let '(c, b) := wait_for_completion (cp s) t in
             Some (CSys c (<[t := if b : bool then Done else Asleep]> (stand s)))
      end
  | CResume t =>
      match stand s !! t with
      | Some Woken => let '(c, b) := wait_resume (cp s) in
                      Some (CSys c (<[t := if b : bool then Done else Asleep]> (stand s)))
      | _ => None
      end
  | CComplete =>
      let '(c, w) := complete (cp s) in
      Some (CSys c (match w with Some t => <[t := Woken]> (stand s) | None => stand s end))
  | CCompleteAll => let '(c, l) := complete_all (cp s) in Some (CSys c (set_all l (stand s)))
  end.

Fixpoint run (s : csys) (es : list event) : option csys :=
  match es with [] => Some s | e :: r => s' ← step s e; run s' r end.
Definition start : csys := CSys init_completion ∅.

(** *** A thread off the list is out of reach *)
Definition stranded (s : csys) (t : Z) : Prop := stand s !! t = Some Asleep /\ t ∉ tcb_list (cp s).

Lemma set_all_other l m t : (t ∉ l) -> set_all l m !! t = m !! t.
Proof.
  induction l as [|a l IH]; intros Ht; simpl; [done|]. rewrite lookup_insert_ne by set_solver. apply IH. set_solver.
Qed.

Lemma completion_stranded_step s e s' t : stranded s t -> step s e = Some s' -> stranded s' t.
Proof.
  intros [Hs Hl]. destruct e as [u|u| |]; cbn [step].
  - destruct (decide (u = t)) as [->|Hne]; [by rewrite Hs|].
    destruct (stand s !! u) as [[]|]; try done; unfold wait_for_completion; destruct (_ =? 0); intros [= <-];
      (split; [by simpl; rewrite lookup_insert_ne|set_solver]).
  - destruct (decide (u = t)) as [->|Hne]; [by rewrite Hs|].
    destruct (stand s !! u) as [[]|]; try done; unfold wait_resume; destruct (_ =? 0); intros [= <-];
      (split; [by simpl; rewrite lookup_insert_ne|set_solver]).
  - unfold complete. destruct (tcb_list (cp s)) as [|w r] eqn:E; intros [= <-]; (split; [|set_solver]); [done|].
    simpl. by rewrite lookup_insert_ne by set_solver.
  - unfold complete_all. intros [= <-]. split; [simpl; by rewrite set_all_other|]. simpl. set_solver.
Qed.

Lemma stranded_run es s s' t : stranded s t -> run s es = Some s' -> stranded s' t.
Proof.
  revert s. induction es as [|e es IH]; intros s Hs; simpl; [by intros [= <-]|].
  destruct (step s e) as [s1|] eqn:E; [|done]. simpl. intros Hr. eapply IH; [|exact Hr]. by eapply completion_stranded_step.
Qed.

(** a completion can lose a waiter.  Thread 1 waits, is completed and made
    ready; before it runs, thread 2 waits, finds the count positive and takes
    it.  Thread 1 then sleeps again, no longer on the list, and no
    sequence of later events, however many completions, wakes it. *)
Theorem completion_stolen_wakeup :
  exists s, run start [CWait 1; CComplete; CWait 2; CResume 1] = Some s /\
    forall es s', run s es = Some s' -> stand s' !! 1 = Some Asleep.
Proof.
  eexists. split; [vm_compute; reflexivity|]. intros es s' Hr.
  eapply (stranded_run es _ s' 1) in Hr; [by destruct Hr|]. split; [by vm_compute|]. vm_compute. intros H. by inversion H.
Qed.

(** [complete_all] strands every thread that was waiting: it takes them off the
    list but clears the count, so each, once it runs, goes back to sleep for good. *)
Theorem complete_all_strands s t s1 s2 :
  stand s !! t = Some Asleep -> t ∈ tcb_list (cp s) ->
  step s CCompleteAll = Some s1 -> step s1 (CResume t) = Some s2 ->
  forall es s', run s2 es = Some s' -> stand s' !! t = Some Asleep.
Proof.
  intros _ _ [= <-] H2 es s' Hr. apply (stranded_run es s2 s' t) in Hr; [by destruct Hr|].
  cbn [step stand] in H2. destruct (set_all _ _ !! t) as [[]|]; try done.
  unfold wait_resume in H2. cbn in H2. injection H2 as <-. split; [apply lookup_insert_eq|set_solver].
Qed.

(** *** One waiter *)
Definition only (t : Z) (e : event) : Prop :=
  match e with CWait u | CResume u => u = t | CComplete => True | CCompleteAll => False end.

(** With a single waiting thread and no [complete_all], a sleeping thread is on
    the list and a woken one finds a positive count. *)
Record one_inv (t : Z) (s : csys) : Prop := {
  oi_count : 0 <= count (cp s);
  oi_asleep : stand s !! t = Some Asleep -> tcb_list (cp s) = [t] /\ count (cp s) = 0;
  oi_other : stand s !! t <> Some Asleep -> tcb_list (cp s) = [];
  oi_woken : stand s !! t = Some Woken -> 0 < count (cp s)
}.

Lemma one_step t s e s' :
  one_inv t s -> only t e -> count (cp s) + 1 < 2 ^ 32 -> step s e = Some s' -> one_inv t s'.
Proof.
  intros [Hc Ha Hoth Hw] Ho Hb. destruct e as [u|u| |]; simpl in Ho; subst; cbn [step]; try done.
  - assert (Hgo : stand s !! t <> Some Asleep ->
      (let '(c, b) := wait_for_completion (cp s) t in Some (CSys c (<[t:=if b : bool then Done else Asleep]> (stand s)))) = Some s' -> one_inv t s').
    { intros Hna. unfold wait_for_completion. destruct (Z.eqb_spec (count (cp s)) 0) as [E|E]; intros [= <-]; split; simpl; rewrite ?lookup_insert_eq; try done.
      - intros _. by rewrite (Hoth Hna).
      - rewrite u32_small; lia.
      - intros _. by apply Hoth. }
    destruct (stand s !! t) as [[]|]; try done; apply Hgo; done.
  - destruct (stand s !! t) as [[]|] eqn:Et; try done. unfold wait_resume. specialize (Hw eq_refl).
    destruct (Z.eqb_spec (count (cp s)) 0); [lia|]. intros [= <-]. split; simpl; rewrite ?lookup_insert_eq; try done.
    + rewrite u32_small; lia.
    + intros _. by apply Hoth.
  - unfold complete. rewrite u32_small by lia. destruct (tcb_list (cp s)) as [|w r] eqn:El; intros [= <-]; split; simpl; try lia.
    + intros H. by destruct (Ha H).
    + done.
    + destruct (decide (stand s !! t = Some Asleep)) as [H|H]; [|by specialize (Hoth H)].
      destruct (Ha H) as [[= -> ->] _]. by rewrite lookup_insert_eq.
    + destruct (decide (stand s !! t = Some Asleep)) as [H|H]; [|by specialize (Hoth H)]. destruct (Ha H) as [[= -> ->] _]. done.
Qed.

(** with one waiting thread completions do work: in every run of fewer than 2^32
    events in which only [t] waits and [complete_all] is not used, whenever [t]
    sleeps the count is zero and [t] is on the list, and once it is woken it
    returns from its wait. *)
Theorem completion_single_waiter t es s :
  Forall (only t) es -> Z.of_nat (length es) < 2 ^ 32 -> run start es = Some s ->
  (stand s !! t = Some Asleep -> t ∈ tcb_list (cp s) /\ count (cp s) = 0) /\
  (stand s !! t = Some Woken -> exists s', step s (CResume t) = Some s' /\ stand s' !! t = Some Done).
Proof.
  assert (Hgen : forall es s0 s, one_inv t s0 -> Forall (only t) es -> count (cp s0) + Z.of_nat (length es) < 2 ^ 32 ->
    run s0 es = Some s -> one_inv t s).
  { clear. induction es as [|e es IH]; intros s0 s Hi Ho Hb; simpl; [by intros [= <-]|].
    apply Forall_cons in Ho as [He Ho]. destruct (step s0 e) as [s1|] eqn:E; [|done]. simpl. cbn [length] in Hb.
    apply IH; [eapply one_step; [done..|lia|done]|done|].
    assert (count (cp s1) <= count (cp s0) + 1); [|lia]. pose proof (oi_count _ _ Hi).
    destruct e as [u|u| |]; simpl in He; subst; cbn [step] in E; try done.
    - destruct (stand s0 !! t) as [[]|]; try done; unfold wait_for_completion in E; destruct (_ =? 0) eqn:E0; injection E as <-; simpl; try lia; rewrite u32_small; lia.
    - destruct (stand s0 !! t) as [[]|]; try done; unfold wait_resume in E; destruct (_ =? 0) eqn:E0; injection E as <-; simpl; try lia; rewrite u32_small; lia.
    - unfold complete in E. rewrite u32_small in E by lia. destruct (tcb_list (cp s0)); injection E as <-; simpl; lia. }
  intros Ho Hb Hr. assert (Hi : one_inv t s).
  { apply (Hgen es start s); [|done|simpl; lia|done]. split; try done. }
  split.
  - intros H. destruct (oi_asleep _ _ Hi H) as [-> ->]. split; [by left|done].
  - intros H. cbn [step]. rewrite H. unfold wait_resume. pose proof (oi_woken _ _ Hi H).
    destruct (Z.eqb_spec (count (cp s)) 0); [lia|]. eexists. split; [done|]. apply lookup_insert_eq.
Qed.

End Completion.

(** ** Semaphores *)
Module Semaphore.

(** [sem->lock] makes every critical section below atomic. *)
Record sem_t := Sem { val : Z; count : Z; tcb_list : list Z }.
Definition sem_init : sem_t := Sem 1 1 [].

(** What the critical section of [sem_timeddown] ends in: the semaphore is
    taken, the thread has queued itself and is about to sleep, or the [break]
    out of the loop with [sem->lock] still held. *)
Inductive down_res := Taken | Queued | BreakLocked.

Definition sem_down_section (m : sem_t) (t : Z) : sem_t * down_res :=
  if val m <=? 0 then
    if 0 <=? count m then
      if count m =? 1 then (Sem (val m) (-1) (tcb_list m), BreakLocked)
      else (Sem (val m) (-1) (tcb_list m ++ [t]), Queued)
    else (Sem (val m) (count m) (tcb_list m ++ [t]), Queued)
  else (Sem (val m - 1) 0 (tcb_list m), Taken).

(** The deadline passed: the thread takes itself off the list if it is still there. *)
Definition sem_timeout_section (m : sem_t) (t : Z) : sem_t :=
  Sem (val m) (count m) (filter (fun u => u <> t) (tcb_list m)).

(** The semaphore and the thread handed to [wake_up]. *)
Definition sem_up_section (m : sem_t) : sem_t * option Z :=
  match tcb_list m with
  | [] => (Sem (u32 (val m + 1)) 1 [], None)
  | w :: r => (Sem (u32 (val m + 1)) 1 r, Some w)
  end.

(** *** Threads around one semaphore

    A queued thread is still running until it calls [waiting()]; [wake_up] only
    affects a thread that is waiting. *)
Inductive standing := Outside | Pending | Asleep | Woken | TimedOut.
#[global] Instance standing_eq_dec : EqDecision standing.
Proof. solve_decision. Defined.
Record ssys := SSys { sm : sem_t; stand : gmap Z standing; taken : Z; ups : Z; stuck : bool }.
Definition at_ (s : ssys) (t : Z) : standing := default Outside (stand s !! t).
Inductive event := SDown (t : Z) | SSleep (t : Z) | SResume (t : Z) | STimeout (t : Z) | SUp.

Definition down (s : ssys) (t : Z) : ssys :=
  let '(m, r) := sem_down_section (sm s) t in
  match r with
  | Taken => SSys m (<[t := Outside]> (stand s)) (taken s + 1) (ups s) (stuck s)
  | Queued => SSys m (<[t := Pending]> (stand s)) (taken s) (ups s) (stuck s)
  | BreakLocked => SSys m (<[t := Outside]> (stand s)) (taken s + 1) (ups s) true
  end.

Definition step (s : ssys) (e : event) : option ssys :=
  match e with
  | SDown t => if decide (at_ s t = Outside) then Some (down s t) else None
  | SSleep t => if decide (at_ s t = Pending) then Some (SSys (sm s) (<[t := Asleep]> (stand s)) (taken s) (ups s) (stuck s)) else None
  | SResume t => if decide (at_ s t = Woken) then Some (down s t) else None
  | STimeout t =>
      if decide (at_ s t = Asleep)
      then Some (SSys (sem_timeout_section (sm s) t) (<[t := Outside]> (stand s)) (taken s) (ups s) (stuck s)) else None
  | SUp =>
      let '(m, w) := sem_up_section (sm s) in
      let st := match w with
                | Some t => if decide (at_ s t = Asleep) then <[t := Woken]> (stand s) else stand s
                | None => stand s
                end in
      Some (SSys m st (taken s) (ups s + 1) (stuck s))
  end.

Fixpoint run (s : ssys) (es : list event) : option ssys :=
  match es with [] => Some s | e :: r => s' ← step s e; run s' r end.
Definition start : ssys := SSys sem_init ∅ 0 0 false.

(** *** Counting *)
Record sinv (s : ssys) : Prop := {
  sv_val : 0 <= val (sm s);
  sv_count : count (sm s) = 1 -> 0 < val (sm s);
  sv_taken : 0 <= taken s;
  sv_balance : taken s + val (sm s) = ups s + 1;
  sv_stuck : stuck s = false
}.

Lemma down_inv s t : sinv s -> sinv (down s t).
Proof.
  intros [Hv Hc Ht Hb Hs]. unfold down, sem_down_section.
  destruct (Z.leb_spec (val (sm s)) 0); [|split; simpl; (done || lia)].
  destruct (Z.leb_spec 0 (count (sm s))); [|split; simpl; (done || lia)].
  destruct (Z.eqb_spec (count (sm s)) 1); [lia|]. split; simpl; (done || lia).
Qed.

Lemma down_ups s t : ups (down s t) = ups s.
Proof. unfold down. by destruct (sem_down_section (sm s) t) as [m []]. Qed.

Lemma sem_step_inv s e s' :
  sinv s -> ups s + 2 < 2 ^ 32 -> step s e = Some s' -> sinv s' /\ ups s <= ups s' <= ups s + 1.
Proof.
  intros Hi Hu. pose proof Hi as [Hv Hc Ht Hb Hs]. destruct e as [t|t|t|t|]; simpl; try (case_decide; [|done]).
  - intros [= <-]. rewrite down_ups. split; [by apply down_inv|lia].
  - intros [= <-]. split; [by split|simpl; lia].
  - intros [= <-]. rewrite down_ups. split; [by apply down_inv|lia].
  - intros [= <-]. split; [by split|simpl; lia].
  - unfold sem_up_section. rewrite u32_small by lia.
    destruct (tcb_list (sm s)); intros [= <-]; (split; [split; simpl; (done || lia)|simpl; lia]).
Qed.

(** the value of a semaphore is exact.  In every interleaving of fewer than
    2^32 - 1 events, the number of times it was taken never exceeds the number of
    ups plus the initial one, the 32-bit value is the difference, and the [break]
    that would leave [sem_timeddown] with the semaphore's mutex held is never
    reached. *)
Theorem semaphore_counts es s :
  Z.of_nat (length es) + 1 < 2 ^ 32 -> run start es = Some s ->
  0 <= val (sm s) /\ val (sm s) = 1 + ups s - taken s /\ taken s <= 1 + ups s /\ stuck s = false.
Proof.
  assert (Hgen : forall es s0, sinv s0 -> ups s0 + Z.of_nat (length es) + 1 < 2 ^ 32 -> run s0 es = Some s -> sinv s).
  { clear es. induction es as [|e es IH]; intros s0 Hi Hl; simpl in Hl |- *; [by intros [= <-]|].
    destruct (step s0 e) as [s1|] eqn:E; [|done].
    destruct (sem_step_inv s0 e s1) as [Hi1 Hu]; [done|lia|done|]. apply IH; [done|lia]. }
  intros Hl Hr. assert (Hi : sinv s) by (apply (Hgen es start); [split; simpl; (done || lia)|simpl; lia|done]).
  destruct Hi as [? ? ? ? ?]. split_and!; (done || lia).
Qed.

(** *** The window between queuing and sleeping *)
Definition stranded (s : ssys) (t : Z) : Prop := stand s !! t = Some Asleep /\ t ∉ tcb_list (sm s).

Lemma stranded_down s t u : u <> t -> stranded s t -> stranded (down s u) t.
Proof.
  intros Hne [Hs Hl]. unfold down, sem_down_section.
  repeat destruct (_ <=? _); try destruct (_ =? _); (split; [by simpl; rewrite lookup_insert_ne|simpl; set_solver]).
Qed.

Lemma sem_stranded_step s e s' t : e <> STimeout t -> stranded s t -> step s e = Some s' -> stranded s' t.
Proof.
  intros He Hst. pose proof Hst as [Hs Hl]. assert (Hat : at_ s t = Asleep) by (unfold at_; by rewrite Hs).
  destruct e as [u|u|u|u|]; simpl; try (case_decide as E; [|done]; assert (u <> t) by (intros ->; congruence)).
  - intros [= <-]. by apply stranded_down.
  - intros [= <-]. split; [by simpl; rewrite lookup_insert_ne|done].
  - intros [= <-]. by apply stranded_down.
  - intros [= <-]. split; [by simpl; rewrite lookup_insert_ne|]. simpl. rewrite list_elem_of_filter. tauto.
  - unfold sem_up_section. destruct (tcb_list (sm s)) as [|w r] eqn:El; intros [= <-]; (split; [|set_solver]); [done|].
    simpl. case_decide; [|done]. by rewrite lookup_insert_ne by set_solver.
Qed.

(** a [sem_down] can sleep forever on a free semaphore.  Thread 2 finds the
    semaphore taken and queues itself; before it reaches [waiting()], thread 1
    releases it: the up takes thread 2 off the list, but [wake_up] skips a thread
    that does not wait yet.  Thread 2 then sleeps, off the list, though the value
    is 1, and nothing but its own deadline, if it has one, ever wakes it. *)
Theorem semaphore_lost_wakeup :
  exists s, run start [SDown 1; SDown 2; SUp; SSleep 2] = Some s /\ val (sm s) = 1 /\
    forall es s', (STimeout 2 ∉ es) -> run s es = Some s' -> stand s' !! 2 = Some Asleep.
Proof.
  eexists. split; [vm_compute; reflexivity|]. split; [done|]. intros es.
  assert (Hgen : forall s0 s', stranded s0 2 -> (STimeout 2 ∉ es) -> run s0 es = Some s' -> stand s' !! 2 = Some Asleep).
  { induction es as [|e es IH]; intros s0 s' Hst Hn; simpl; [intros [= <-]; by destruct Hst|].
    destruct (step s0 e) as [s1|] eqn:E; [|done]. simpl. apply not_elem_of_cons in Hn as [Hne Hn].
    apply IH; [|done]. by eapply sem_stranded_step. }
  intros s' Hn Hr. eapply Hgen; [|done|exact Hr]. split; [done|]. simpl. intros H. by inversion H.
Qed.

End Semaphore.

(** ** Concrete runs *)
Module SyncExamples.

(** Thread 1 holds the mutex, thread 2 sleeps on it. *)
Definition m1 : Mutex.msys :=
  Mutex.granted (Mutex.MSys Mutex.mutex_init ∅) 1 1 (Mutex.mutex_lock Mutex.mutex_init 1).
Definition m2 : Mutex.msys := Mutex.granted m1 2 1 (Mutex.mutex_lock (Mutex.mx m1) 2).
Lemma m2_reachable : Mutex.reachable m2.
Proof.
  apply (Mutex.reach_step m1 (Mutex.ELock 2)); [|reflexivity].
  apply (Mutex.reach_step (Mutex.MSys Mutex.mutex_init ∅) (Mutex.ELock 1)); [apply Mutex.reach_init|reflexivity].
Defined.

(** Thread 1 has set the count in its unlock and not yet looked at the queue: the
    mutex is free and thread 2 asleep. *)
Definition m3 : Mutex.msys := Mutex.MSys (Mutex.mx m2) (<[1 := Mutex.Releasing]> (Mutex.stand m2)).
Definition m4 : Mutex.msys := Mutex.MSys (Mutex.unlock_release (Mutex.mx m3)) (<[1 := Mutex.Unlocking]> (Mutex.stand m3)).
Lemma m4_reachable : Mutex.reachable m4.
Proof.
  apply (Mutex.reach_step m3 (Mutex.ERelease 1)); [|reflexivity].
  apply (Mutex.reach_step m2 (Mutex.EUnlock 1)); [apply m2_reachable|reflexivity].
Defined.

Lemma mutex_safety_witness :
  Mutex.mutex_is_locked (Mutex.mx m4) = false /\ Mutex.stand m4 !! 2 = Some Mutex.Blocked /\
  ((exists t d, Mutex.stand m4 !! t ≫= Mutex.holding = Some d) \/
   exists t, Mutex.stand m4 !! t = Some Mutex.Woken \/ Mutex.stand m4 !! t = Some Mutex.Unlocking).
Proof.
  destruct (Mutex.mutex_safety m4 m4_reachable) as (_ & _ & _ & Hb & Hq). split_and!.
  - reflexivity.
  - apply Hb. vm_compute. apply elem_of_cons. by left.
  - apply Hq. vm_compute. discriminate.
Defined.

Lemma mutex_progress_witness : is_Some (Mutex.step m2 (Mutex.EUnlock 1)).
Proof. apply (proj1 (Mutex.mutex_progress m2 1 m2_reachable) 1). vm_compute. reflexivity. Defined.

Lemma complete_all_strands_witness :
  exists s s1 s2, Completion.step s Completion.CCompleteAll = Some s1 /\
    Completion.step s1 (Completion.CResume 1) = Some s2 /\
    forall es s', Completion.run s2 es = Some s' -> Completion.stand s' !! 1 = Some Completion.Asleep.
Proof.
  exists (Completion.CSys (Completion.MkCompletion 0 [1]) {[1 := Completion.Asleep]}). eexists _, _.
  split; [vm_compute; reflexivity|]. split; [vm_compute; reflexivity|].
  eapply (Completion.complete_all_strands (Completion.CSys (Completion.MkCompletion 0 [1]) {[1 := Completion.Asleep]}) 1);
    [reflexivity|by left|vm_compute; reflexivity|vm_compute; reflexivity].
Defined.

Lemma completion_single_waiter_witness :
  exists s, Completion.run Completion.start [Completion.CWait 1; Completion.CComplete] = Some s /\
    exists s', Completion.step s (Completion.CResume 1) = Some s' /\ Completion.stand s' !! 1 = Some Completion.Done.
Proof.
  eexists. split; [vm_compute; reflexivity|].
  apply (Completion.completion_single_waiter 1 [Completion.CWait 1; Completion.CComplete]);
    [repeat constructor|simpl; lia|vm_compute; reflexivity|vm_compute; reflexivity].
Defined.

Lemma semaphore_counts_witness :
  exists s, Semaphore.run Semaphore.start [Semaphore.SDown 1; Semaphore.SDown 2; Semaphore.SSleep 2; Semaphore.SUp; Semaphore.SResume 2] = Some s /\
    Semaphore.val (Semaphore.sm s) = 1 + Semaphore.ups s - Semaphore.taken s.
Proof.
  eexists. split; [vm_compute; reflexivity|].
  eapply (Semaphore.semaphore_counts [Semaphore.SDown 1; Semaphore.SDown 2; Semaphore.SSleep 2; Semaphore.SUp; Semaphore.SResume 2]).
  - vm_compute. reflexivity.
  - vm_compute. reflexivity.
Defined.

End SyncExamples.
