(* ===== verification/EventChannel.v ===== *)
(** Event channels between domains (so3/avz/kernel/event_channel.c), the
    hypervisor's notification mechanism.

    The hypervisor state is the [domains] array and the current domain; a domain
    is named by its index, which is also its [domID].  Channel and virq numbers
    come unchecked from the guests: an index outside the C array is [Undef].
    Locks are flags; taking a lock that is held never returns ([Hang]).  The
    order in which the two domains of a channel are locked only matters between
    CPUs and is not modelled. *)
From S2P Require Import Prelude.

Module EventChannel.

Definition NR_EVTCHN : nat := 128.
Definition NR_VIRQS : nat := 256.
Definition DOMID_SELF : Z := 32752. (* 0x7FF0 *)

Inductive ecs := ECS_FREE | ECS_RESERVED | ECS_UNBOUND | ECS_INTERDOMAIN | ECS_VIRQ.
#[global] Instance ecs_eq_dec : EqDecision ecs.
Proof. solve_decision. Defined.

Record evtchn := EvtChn {
  state : ecs;
  remote_domid : Z;          (* unbound.remote_domid *)
  remote_evtchn : Z;         (* interdomain.remote_evtchn *)
  remote_dom : option Z;     (* interdomain.remote_dom *)
  virq : Z
}.

Record domain := Domain {
  event_lock : bool;
  virq_lock : bool;
  chans : list evtchn;       (* evtchn[NR_EVTCHN] *)
  virq_to_evtchn : list Z;
  is_dying : bool;
  evtchn_pending : list bool;      (* avz_shared->evtchn_pending *)
  evtchn_upcall_pending : bool
}.

Record hyp := Hyp {
  domains : gmap Z domain;
  current_domain : Z;
  schedule_lock : bool;      (* of the domain scheduler *)
  events : list Z            (* domains whose CPU was sent an event, newest first *)
}.

Definition set_bound (rd rev : Z) (c : evtchn) : evtchn := EvtChn ECS_INTERDOMAIN (remote_domid c) rev (Some rd) (virq c).
Definition set_unbound (dom : Z) (c : evtchn) : evtchn := EvtChn ECS_UNBOUND dom (remote_evtchn c) (remote_dom c) (virq c).
Definition set_virq (v : Z) (c : evtchn) : evtchn := EvtChn ECS_VIRQ (remote_domid c) (remote_evtchn c) (remote_dom c) v.
Definition set_ecs (st : ecs) (c : evtchn) : evtchn := EvtChn st (remote_domid c) (remote_evtchn c) (remote_dom c) (virq c).
Definition set_remote_domid (dom : Z) (c : evtchn) : evtchn := EvtChn (state c) dom (remote_evtchn c) (remote_dom c) (virq c).

Definition with_chans f d := Domain (event_lock d) (virq_lock d) (f (chans d)) (virq_to_evtchn d) (is_dying d) (evtchn_pending d) (evtchn_upcall_pending d).
Definition set_event_lock b d := Domain b (virq_lock d) (chans d) (virq_to_evtchn d) (is_dying d) (evtchn_pending d) (evtchn_upcall_pending d).
Definition set_virq_lock b d := Domain (event_lock d) b (chans d) (virq_to_evtchn d) (is_dying d) (evtchn_pending d) (evtchn_upcall_pending d).
Definition with_virqs f d := Domain (event_lock d) (virq_lock d) (chans d) (f (virq_to_evtchn d)) (is_dying d) (evtchn_pending d) (evtchn_upcall_pending d).
Definition with_pending f u d := Domain (event_lock d) (virq_lock d) (chans d) (virq_to_evtchn d) (is_dying d) (f (evtchn_pending d)) u.
Definition with_domains f h := Hyp (f (domains h)) (current_domain h) (schedule_lock h) (events h).
Definition set_sched_lock b h := Hyp (domains h) (current_domain h) b (events h).
Definition add_event d h := Hyp (domains h) (current_domain h) (schedule_lock h) (d :: events h).

(** *** Access *)
Definition dom_of (d : Z) : kern hyp domain := m ← gets domains; lift (deref (m !! d)).
Definition upd_dom (d : Z) (f : domain -> domain) : kern hyp unit := x ← dom_of d; modify (with_domains <[d := f x]>).
(** An array access at an unsigned index. *)
Definition index {A} (l : list A) (i : Z) : outcome A := if i <? 0 then Fault Undef else deref (l !! Z.to_nat i).
Definition chn_of (d e : Z) : kern hyp evtchn := x ← dom_of d; lift (index (chans x) e).
Definition upd_chn (d e : Z) (f : evtchn -> evtchn) : kern hyp unit :=
  c ← chn_of d e; upd_dom d (with_chans <[Z.to_nat e := f c]>).
Definition panic_if (b : bool) : kern hyp unit := lift (bug_on b).

Definition lock_events (d : Z) : kern hyp unit :=
  x ← dom_of d; if event_lock x then raise Hang else upd_dom d (set_event_lock true).
Definition unlock_events (d : Z) : kern hyp unit := upd_dom d (set_event_lock false).
Definition lock_both (ld rd : Z) : kern hyp unit := lock_events ld;; when (negb (ld =? rd)) (lock_events rd).
Definition unlock_both (ld rd : Z) : kern hyp unit := unlock_events ld;; when (negb (ld =? rd)) (unlock_events rd).

(** *** Allocation *)
Definition get_free_evtchn (d : domain) : Z :=
  if is_dying d then - EINVAL
  else match for_ret NR_EVTCHN (fun i => match chans d !! i with
                                         | Some c => if decide (state c = ECS_FREE) then Some i else None
                                         | None => None
                                         end) with
       | Some i => Z.of_nat i
       | None => - ENOSPC
       end.

Definition evtchn_alloc_unbound (dom rdom : Z) : kern hyp Z :=
  cur ← gets current_domain;
  let d := if dom =? DOMID_SELF then cur else dom in
  lock_events d;;
  x ← dom_of d;
  let e := get_free_evtchn x in
  panic_if (e <? 0);;
  upd_chn d e (set_unbound rdom);;
  unlock_events d;;
  mret e.

(** *** Binding *)
Definition evtchn_bind_interdomain (rdom revtchn : Z) : kern hyp Z :=
  ld ← gets current_domain;
  let rd := if rdom =? DOMID_SELF then ld else rdom in
  lock_both ld rd;;
  x ← dom_of ld;
  let levtchn := get_free_evtchn x in
  panic_if (levtchn <? 0);;
  r ← chn_of rd revtchn;
  let valid := bool_decide (state r = ECS_INTERDOMAIN) && bool_decide (remote_dom r = None) in
  panic_if (negb valid && (negb (bool_decide (state r = ECS_UNBOUND)) || negb (remote_domid r =? ld)));;
  upd_chn ld levtchn (set_bound rd (wrap 16 revtchn));;
  upd_chn rd revtchn (set_bound ld (wrap 16 levtchn));;
  unlock_both ld rd;;
  mret levtchn.

Definition evtchn_bind_existing_interdomain (ld rd levtchn revtchn : Z) : kern hyp unit :=
  lock_both ld rd;;
  l ← chn_of ld levtchn;
  when (remote_domid l =? ld) (upd_chn rd revtchn (set_remote_domid rd));;
  r ← chn_of rd revtchn;
  panic_if (negb (bool_decide (state r = ECS_UNBOUND)) ||
            (negb (remote_domid r =? DOMID_SELF) && negb (remote_domid r =? ld)));;
  upd_chn ld levtchn (set_bound rd (wrap 16 revtchn));;
  upd_chn rd revtchn (set_bound ld (wrap 16 levtchn));;
  unlock_both ld rd.

Definition evtchn_bind_virq (v : Z) : kern hyp Z :=
  d ← gets current_domain;
  panic_if ((v <? 0) || (Z.of_nat NR_VIRQS <=? v));;
  lock_events d;;
  x ← dom_of d;
  cur ← lift (index (virq_to_evtchn x) v);
  panic_if (negb (cur =? 0));;
  let e := get_free_evtchn x in
  panic_if (e <? 0);;
  upd_chn d e (set_virq v);;
  upd_dom d (with_virqs <[Z.to_nat v := e]>);;
  unlock_events d;;
  mret e.

(** *** Closing *)
Definition evtchn_close (d1 chn : Z) : kern hyp unit :=
  lock_events d1;;
  c ← chn_of d1 chn;
  d2 ← match state c with
       | ECS_FREE | ECS_RESERVED | ECS_UNBOUND => mret None
       | ECS_VIRQ =>
           upd_dom d1 (with_virqs <[Z.to_nat (virq c) := 0]>);;
           x ← dom_of d1;
           (if virq_lock x then raise Hang else upd_dom d1 (set_virq_lock true));;
           mret None
       | ECS_INTERDOMAIN =>
           match remote_dom c with
           | None => mret None
           | Some d2 =>
               when (negb (d1 =? d2)) (lock_events d2);;
               c2 ← chn_of d2 (remote_evtchn c);
               panic_if (negb (bool_decide (state c2 = ECS_INTERDOMAIN)));;
               panic_if (negb (bool_decide (remote_dom c2 = Some d1)));;
               upd_chn d2 (remote_evtchn c) (set_unbound d1);;
               mret (Some d2)
           end
       end;
  x ← dom_of d1;
  upd_dom d1 (with_pending <[Z.to_nat chn := false]> (evtchn_upcall_pending x));;
  upd_chn d1 chn (set_ecs ECS_FREE);;
  match d2 with Some d2 => when (negb (d1 =? d2)) (unlock_events d2) | None => mret tt end;;
  unlock_events d1.

(** *** Delivery *)
Definition evtchn_set_pending (d e : Z) : kern hyp unit :=
  x ← dom_of d;
  _ ← lift (index (evtchn_pending x) e);
  upd_dom d (with_pending <[Z.to_nat e := true]> true);;
  modify (add_event d).

Definition evtchn_send (ld levtchn : Z) : kern hyp unit :=
  l ← chn_of ld levtchn;
  panic_if (negb (bool_decide (state l = ECS_INTERDOMAIN)));;
  rd ← lift (deref (remote_dom l));
  lock_both ld rd;;
  evtchn_set_pending rd (remote_evtchn l);;
  unlock_both ld rd.

Definition send_guest_virq (d v : Z) : kern hyp unit :=
  x ← dom_of d;
  (if virq_lock x then raise Hang else upd_dom d (set_virq_lock true));;
  e ← lift (index (virq_to_evtchn x) v);
  when (negb (e =? 0))
    (already_locked ← gets schedule_lock;
     when (negb already_locked) (modify (set_sched_lock true));;
     lock_events d;;
     evtchn_set_pending d e;;
     unlock_events d;;
     when (negb already_locked) (modify (set_sched_lock false)));;
  upd_dom d (set_virq_lock false).

(** *** Hypercalls *)
Inductive evtchn_op :=
  | EVTCHNOP_alloc_unbound (dom rdom : Z)
  | EVTCHNOP_bind_interdomain (rdom revtchn : Z)
  | EVTCHNOP_bind_existing_interdomain (rdom levtchn revtchn : Z)
  | EVTCHNOP_bind_virq (v : Z)
  | EVTCHNOP_close (e : Z)
  | EVTCHNOP_send (e : Z)
  | EVTCHNOP_other.

(** The OUT parameter, where the operation has one. *)
Definition do_event_channel_op (op : evtchn_op) : kern hyp (option Z) :=
  cur ← gets current_domain;
  match op with
  | EVTCHNOP_alloc_unbound dom rdom => e ← evtchn_alloc_unbound dom rdom; mret (Some e)
  | EVTCHNOP_bind_interdomain rdom rev => e ← evtchn_bind_interdomain rdom rev; mret (Some e)
  | EVTCHNOP_bind_existing_interdomain rdom lev rev => evtchn_bind_existing_interdomain cur rdom lev rev;; mret None
  | EVTCHNOP_bind_virq v => e ← evtchn_bind_virq v; mret (Some e)
  | EVTCHNOP_close e => evtchn_close cur e;; mret None
  | EVTCHNOP_send e => evtchn_send cur e;; mret None
  | EVTCHNOP_other => raise Panic
  end.

Definition evtchn_init (d : domain) : domain :=
  set_event_lock false (with_chans (fun l => match l with
                                             | [] => []
                                             | c :: r => set_ecs ECS_RESERVED c :: (set_ecs ECS_FREE <$> r)
                                             end) d).

Fixpoint close_all (n : nat) (d e : Z) : kern hyp unit :=
  match n with O => mret tt | S n' => evtchn_close d e;; close_all n' d (e + 1) end.
Definition evtchn_destroy (d : Z) : kern hyp unit :=
  x ← dom_of d;
  panic_if (negb (is_dying x));;
  close_all NR_EVTCHN d 0.

(** *** The channels, seen as a map *)
Definition chn (s : hyp) (d e : Z) : option evtchn :=
  match domains s !! d with Some x => if e <? 0 then None else chans x !! Z.to_nat e | None => None end.
Definition fupd (ch : Z -> Z -> option evtchn) (d e : Z) (c : evtchn) : Z -> Z -> option evtchn :=
  fun d' e' => if decide (d' = d /\ e' = e) then Some c else ch d' e'.
Definition same (s s' : hyp) : Prop := forall d e, chn s' d e = chn s d e.

Lemma same_trans s1 s2 s3 : same s1 s2 -> same s2 s3 -> same s1 s3.
Proof. intros H1 H2 d e. by rewrite H2. Qed.

Lemma dom_of_inv d s x s' : dom_of d s = Ret (x, s') -> s' = s /\ domains s !! d = Some x.
Proof. unfold dom_of, mbind, kern_bind, gets, lift. destruct (domains s !! d); simpl; [|done]. by intros [= <- <-]. Qed.

Lemma chn_of_inv d e s c s' : chn_of d e s = Ret (c, s') -> s' = s /\ chn s d e = Some c.
Proof.
  unfold chn_of. intros (x & s1 & [-> Hx]%dom_of_inv & H)%kbind_inv. unfold lift, index in H. unfold chn. rewrite Hx.
  destruct (e <? 0); [done|]. destruct (chans x !! Z.to_nat e); simpl in H; [|done]. by simplify_eq.
Qed.

Lemma upd_dom_inv d f s s' : upd_dom d f s = Ret (tt, s') -> exists x, domains s !! d = Some x /\ s' = with_domains <[d := f x]> s.
Proof. unfold upd_dom. intros (x & s1 & [-> Hx]%dom_of_inv & H)%kbind_inv. injection H as <-. eauto. Qed.

Lemma upd_dom_same d f s s' : (forall x, chans (f x) = chans x) -> upd_dom d f s = Ret (tt, s') -> same s s'.
Proof.
  intros Hf (x & Hx & ->)%upd_dom_inv d' e'. unfold chn. simpl. destruct (decide (d = d')) as [<-|].
  - by rewrite lookup_insert_eq, Hx, Hf.
  - by rewrite lookup_insert_ne.
Qed.

Lemma upd_chn_inv d e f s s' :
  upd_chn d e f s = Ret (tt, s') -> exists c, chn s d e = Some c /\ forall d' e', chn s' d' e' = fupd (chn s) d e (f c) d' e'.
Proof.
  unfold upd_chn. intros (c & s1 & [-> Hc]%chn_of_inv & (x & Hx & ->)%upd_dom_inv)%kbind_inv. exists c. split; [done|].
  unfold chn in Hc. rewrite Hx in Hc. destruct (Z.ltb_spec e 0); [done|].
  intros d' e'. unfold fupd, chn. simpl. destruct (decide (d = d')) as [<-|Hd].
  - rewrite lookup_insert_eq, Hx. simpl. destruct (Z.ltb_spec e' 0).
    + rewrite decide_False; [done|]. lia.
    + case_decide as E.
      * destruct E as [_ ->]. apply list_lookup_insert_eq. by eapply lookup_lt_Some.
      * apply list_lookup_insert_ne. lia.
  - rewrite lookup_insert_ne by done. rewrite decide_False; [done|]. intros [-> _]. done.
Qed.

Lemma lock_events_same d s s' : lock_events d s = Ret (tt, s') -> same s s'.
Proof.
  unfold lock_events. intros (x & s1 & [-> Hx]%dom_of_inv & H)%kbind_inv.
  destruct (event_lock x); [done|]. by apply (upd_dom_same d (set_event_lock true)).
Qed.

Lemma when_same b m s s' : (forall s1 s2, m s1 = Ret (tt, s2) -> same s1 s2) -> when b m s = Ret (tt, s') -> same s s'.
Proof. intros Hm. destruct b; simpl; [apply Hm|]. by intros [= <-]. Qed.

Lemma lock_both_same l r s s' : lock_both l r s = Ret (tt, s') -> same s s'.
Proof.
  unfold lock_both. intros ([] & s1 & H1%lock_events_same & H2)%kbind_inv. eapply same_trans; [done|].
  eapply when_same; [|done]. apply lock_events_same.
Qed.

Lemma unlock_both_same l r s s' : unlock_both l r s = Ret (tt, s') -> same s s'.
Proof.
  unfold unlock_both, unlock_events. intros ([] & s1 & H1%upd_dom_same & H2)%kbind_inv; [|done]. eapply same_trans; [done|].
  eapply when_same; [|done]. intros s2 s3. by apply upd_dom_same.
Qed.

Lemma panic_if_inv b s s' : panic_if b s = Ret (tt, s') -> s' = s /\ b = false.
Proof. unfold panic_if, lift. destruct b; simpl; [done|]. by intros [= <-]. Qed.

Lemma get_free_evtchn_ok s d x :
  domains s !! d = Some x -> 0 <= get_free_evtchn x ->
  get_free_evtchn x < Z.of_nat NR_EVTCHN /\ exists c, chn s d (get_free_evtchn x) = Some c /\ state c = ECS_FREE.
Proof.
  intros Hx. unfold get_free_evtchn. destruct (is_dying x); [unfold EINVAL; lia|].
  destruct (for_ret _ _) as [i|] eqn:E; [|unfold ENOSPC; lia]. intros _.
  apply for_ret_Some in E as (k & Hk & Hf & _). destruct (chans x !! k) as [c|] eqn:Ec; [|done].
  case_decide; [|done]. injection Hf as <-. split; [lia|]. exists c. split; [|done].
  unfold chn. rewrite Hx. destruct (Z.ltb_spec (Z.of_nat k) 0); [lia|]. by rewrite Nat2Z.id.
Qed.

(** *** Bound channels come in pairs *)
Definition bound (ch : Z -> Z -> option evtchn) (d e d2 e2 : Z) : Prop :=
  exists c, ch d e = Some c /\ state c = ECS_INTERDOMAIN /\ remote_dom c = Some d2 /\ remote_evtchn c = e2.
Definition paired (ch : Z -> Z -> option evtchn) : Prop :=
  (forall d e d2 e2, bound ch d e d2 e2 -> bound ch d2 e2 d e) /\
  (forall d e c, ch d e = Some c -> 0 <= e < Z.of_nat NR_EVTCHN).

(** A channel that is not connected to anything. *)
Definition loose (c : evtchn) : Prop := state c <> ECS_INTERDOMAIN \/ remote_dom c = None.

Lemma paired_ext ch ch' : (forall d e, ch' d e = ch d e) -> paired ch -> paired ch'.
Proof.
  intros E [H1 H2]. assert (Hb : forall d e d2 e2, bound ch' d e d2 e2 <-> bound ch d e d2 e2) by (intros; unfold bound; by rewrite E).
  split; [intros d e d2 e2; rewrite !Hb; apply H1|]. intros d e c. rewrite E. apply H2.
Qed.

Lemma fupd_bound ch d e c' d1 e1 d2 e2 :
  bound (fupd ch d e c') d1 e1 d2 e2 <->
  (d1 = d /\ e1 = e /\ state c' = ECS_INTERDOMAIN /\ remote_dom c' = Some d2 /\ remote_evtchn c' = e2) \/
  (~ (d1 = d /\ e1 = e) /\ bound ch d1 e1 d2 e2).
Proof.
  unfold bound, fupd. case_decide as E.
  - destruct E as [-> ->]. split.
    + intros (c & [= <-] & ? & ? & ?). left. done.
    + intros [(_ & _ & ? & ? & ?)|[H _]]; [eauto|]. by destruct H.
  - split; [right; done|]. intros [(-> & -> & _)|[_ ?]]; [by destruct E|done].
Qed.

Lemma loose_not_bound ch d e c : paired ch -> ch d e = Some c -> loose c -> forall d1 e1, ~ bound ch d1 e1 d e.
Proof. intros [Hp _] Hc Hl d1 e1 H%Hp. destruct H as (c' & Hc' & ? & ? & _). destruct Hl; congruence. Qed.

(** A loose channel may change to another loose one. *)
Lemma paired_loose ch d e c c' : paired ch -> ch d e = Some c -> loose c -> loose c' -> paired (fupd ch d e c').
Proof.
  intros Hp Hc Hl Hl'. pose proof (loose_not_bound _ _ _ _ Hp Hc Hl) as Hnb. destruct Hp as [Hp Hr]. split.
  - intros d1 e1 d2 e2 [(-> & -> & ? & ? & ?)|[Hne Hb]]%fupd_bound; [destruct Hl'; congruence|].
    apply fupd_bound. right. split; [|by apply Hp]. intros [-> ->]. by apply (Hnb d1 e1).
  - intros d1 e1 c1. unfold fupd. case_decide as E; [|apply Hr]. destruct E as [-> ->]. intros _. by apply (Hr d e c).
Qed.

Lemma bound_fun ch d e d2 e2 d3 e3 : bound ch d e d2 e2 -> bound ch d e d3 e3 -> d2 = d3 /\ e2 = e3.
Proof. intros (c & Hc & _ & Hd & He) (c' & Hc' & _ & Hd' & He'). split; congruence. Qed.

(** Two loose channels are connected. *)
Lemma paired_bind ch ld le rd re cl cr cl' cr' :
  paired ch -> ch ld le = Some cl -> ch rd re = Some cr -> loose cl -> loose cr -> ~ (ld = rd /\ le = re) ->
  state cl' = ECS_INTERDOMAIN /\ remote_dom cl' = Some rd /\ remote_evtchn cl' = re ->
  state cr' = ECS_INTERDOMAIN /\ remote_dom cr' = Some ld /\ remote_evtchn cr' = le ->
  paired (fupd (fupd ch ld le cl') rd re cr').
Proof.
  intros Hp Hl Hr Lol Lor Hne (Hl1 & Hl2 & Hl3) (Hr1 & Hr2 & Hr3).
  pose proof (loose_not_bound _ _ _ _ Hp Hl Lol) as Hnl. pose proof (loose_not_bound _ _ _ _ Hp Hr Lor) as Hnr.
  destruct Hp as [Hp Hrg]. split.
  - intros d1 e1 d2 e2. rewrite !fupd_bound. intros [(-> & -> & _ & Hd & He)|[Hn1 [(-> & -> & _ & Hd & He)|[Hn2 Hb]]]].
    + right. assert (d2 = ld) as -> by congruence. assert (e2 = le) as -> by congruence. split; [done|]. left. done.
    + left. assert (d2 = rd) as -> by congruence. assert (e2 = re) as -> by congruence. done.
    + right. split; [intros [-> ->]; by apply (Hnr d1 e1)|]. right. split; [intros [-> ->]; by apply (Hnl d1 e1)|]. by apply Hp.
  - intros d1 e1 c1. unfold fupd. case_decide as E; [destruct E as [-> ->]; intros _; by apply (Hrg rd re cr)|].
    case_decide as E'; [destruct E' as [-> ->]; intros _; by apply (Hrg ld le cl)|]. apply Hrg.
Qed.

(** Both ends of a connection are released. *)
Lemma paired_unbind ch d1 e1 d2 e2 c1' c2' :
  paired ch -> bound ch d1 e1 d2 e2 -> loose c1' -> loose c2' -> paired (fupd (fupd ch d2 e2 c2') d1 e1 c1').
Proof.
  intros [Hp Hrg] Hb L1 L2. pose proof (Hp _ _ _ _ Hb) as Hb'. split.
  - intros d e x y. rewrite !fupd_bound. intros [(-> & -> & ? & ? & _)|[Hn1 [(-> & -> & ? & ? & _)|[Hn2 H]]]];
      [destruct L1; congruence|destruct L2; congruence|].
    pose proof (Hp _ _ _ _ H) as H'. right. split.
    + intros [-> ->]. destruct (bound_fun _ _ _ _ _ _ _ H' Hb) as [-> ->]. by apply Hn2.
    + right. split; [|done]. intros [-> ->]. destruct (bound_fun _ _ _ _ _ _ _ H' Hb') as [-> ->]. by apply Hn1.
  - intros d e c. unfold fupd. case_decide as E; [destruct E as [-> ->]; intros _; destruct Hb as (cb & Hcb & _); by apply (Hrg d1 e1 cb)|].
    case_decide as E'; [destruct E' as [-> ->]; intros _; destruct Hb' as (cb & Hcb & _); by apply (Hrg d2 e2 cb)|]. apply Hrg.
Qed.

Lemma free_loose c : state c = ECS_FREE -> loose c.
Proof. intros H. left. by rewrite H. Qed.

Lemma alloc_unbound_paired dom rdom s e s' :
  evtchn_alloc_unbound dom rdom s = Ret (e, s') -> paired (chn s) -> paired (chn s').
Proof.
  unfold evtchn_alloc_unbound. intros H Hp. apply kbind_inv in H as (cur & s0 & [= <- <-] & H). cbv zeta in H. revert H.
  generalize (if dom =? DOMID_SELF then current_domain s else dom) as d. intros d H.
  apply kbind_inv in H as ([] & s1 & H1%lock_events_same & H). apply kbind_inv in H as (x & s2 & [-> Hx]%dom_of_inv & H).
  apply kbind_inv in H as ([] & s3 & [-> Hneg]%panic_if_inv & H).
  apply kbind_inv in H as ([] & s4 & (c & Hc & H4)%upd_chn_inv & H). apply kbind_inv in H as ([] & s5 & H5%upd_dom_same & [= <- <-]); [|done].
  destruct (get_free_evtchn_ok s1 d x Hx ltac:(lia)) as (_ & c' & Hc' & Hf). assert (c' = c) as -> by congruence.
  eapply paired_ext; [exact H5|]. eapply paired_ext; [exact H4|]. eapply paired_loose; [by eapply paired_ext|done|by apply free_loose|by left].
Qed.

Lemma bind_virq_paired v s e s' : evtchn_bind_virq v s = Ret (e, s') -> paired (chn s) -> paired (chn s').
Proof.
  unfold evtchn_bind_virq. intros H Hp. apply kbind_inv in H as (d & s0 & [= <- <-] & H).
  apply kbind_inv in H as ([] & s1 & [-> _]%panic_if_inv & H). apply kbind_inv in H as ([] & s2 & H2%lock_events_same & H).
  apply kbind_inv in H as (x & s3 & [-> Hx]%dom_of_inv & H). apply kbind_inv in H as (cur & s4 & Hcur & H).
  assert (s4 = s2) as ->. { unfold lift in Hcur. destruct (index _ _); [|done]. by injection Hcur. }
  apply kbind_inv in H as ([] & s5 & [-> _]%panic_if_inv & H). apply kbind_inv in H as ([] & s6 & [-> Hneg]%panic_if_inv & H).
  apply kbind_inv in H as ([] & s7 & (c & Hc & H7)%upd_chn_inv & H). apply kbind_inv in H as ([] & s8 & H8%upd_dom_same & H); [|done].
  apply kbind_inv in H as ([] & s9 & H9%upd_dom_same & [= <- <-]); [|done].
  destruct (get_free_evtchn_ok s2 _ x Hx ltac:(lia)) as (_ & c' & Hc' & Hf). assert (c' = c) as -> by congruence.
  eapply paired_ext; [exact H9|]. eapply paired_ext; [exact H8|]. eapply paired_ext; [exact H7|].
  eapply paired_loose; [by eapply paired_ext|done|by apply free_loose|by left].
Qed.

Lemma wrap16_chn s d e c : paired (chn s) -> chn s d e = Some c -> wrap 16 e = e.
Proof. intros [_ H] Hc. apply H in Hc. apply wrap_small. unfold in_word, NR_EVTCHN in *. lia. Qed.

(** Connecting two loose channels by the two assignments of the code. *)
Lemma connect_paired ld le rd re cl cr s s1 s2 :
  paired (chn s) -> chn s ld le = Some cl -> chn s rd re = Some cr -> loose cl -> loose cr -> ~ (ld = rd /\ le = re) ->
  upd_chn ld le (set_bound rd (wrap 16 re)) s = Ret (tt, s1) -> upd_chn rd re (set_bound ld (wrap 16 le)) s1 = Ret (tt, s2) ->
  paired (chn s2) /\ bound (chn s2) ld le rd re /\ bound (chn s2) rd re ld le.
Proof.
  intros Hp Hl Hr Ll Lr Hne (c1 & Hc1 & H1)%upd_chn_inv (c2 & Hc2 & H2)%upd_chn_inv.
  rewrite (wrap16_chn _ _ _ _ Hp Hl) in H2. rewrite (wrap16_chn _ _ _ _ Hp Hr) in H1.
  assert (Heq : forall d e, chn s2 d e = fupd (fupd (chn s) ld le (set_bound rd re c1)) rd re (set_bound ld le c2) d e).
  { intros d e. rewrite H2. unfold fupd. case_decide; [done|]. rewrite H1. done. }
  assert (Hpair : paired (chn s2)) by (eapply paired_ext; [exact Heq|]; eapply (paired_bind _ _ _ _ _ cl cr); by split_and? || done).
  assert (Hb : bound (chn s2) rd re ld le).
  { exists (set_bound ld le c2). rewrite Heq. unfold fupd. rewrite decide_True by done. done. }
  split_and!; [done|by apply Hpair|done].
Qed.

Lemma bind_interdomain_paired rdom re s le s' :
  evtchn_bind_interdomain rdom re s = Ret (le, s') -> paired (chn s) ->
  let ld := current_domain s in let rd := if rdom =? DOMID_SELF then ld else rdom in
  paired (chn s') /\ bound (chn s') ld le rd re /\ bound (chn s') rd re ld le.
Proof.
  unfold evtchn_bind_interdomain. intros H Hp. apply kbind_inv in H as (ld & s0 & [= <- <-] & H). cbv zeta in *. revert H.
  generalize (if rdom =? DOMID_SELF then current_domain s else rdom) as rd. intros rd H.
  apply kbind_inv in H as ([] & s1 & H1%lock_both_same & H). apply kbind_inv in H as (x & s2 & [-> Hx]%dom_of_inv & H).
  apply kbind_inv in H as ([] & s3 & [-> Hneg]%panic_if_inv & H). apply kbind_inv in H as (r & s4 & [-> Hr]%chn_of_inv & H).
  apply kbind_inv in H as ([] & s5 & [-> Hok]%panic_if_inv & H). apply kbind_inv in H as ([] & s6 & H6 & H).
  apply kbind_inv in H as ([] & s7 & H7 & H). apply kbind_inv in H as ([] & s8 & H8%unlock_both_same & [= <- <-]).
  destruct (get_free_evtchn_ok s1 _ x Hx ltac:(lia)) as (_ & c & Hc & Hf).
  assert (Hst : loose r /\ state r <> ECS_FREE).
  { destruct (bool_decide_reflect (state r = ECS_INTERDOMAIN)) as [E|E], (bool_decide_reflect (remote_dom r = None)) as [E'|E'],
      (bool_decide_reflect (state r = ECS_UNBOUND)) as [E2|E2]; simpl in Hok; try done; split; unfold loose; try congruence; auto; left; congruence. }
  destruct Hst as [Lr Hnf].
  assert (Hne : ~ (current_domain s = rd /\ get_free_evtchn x = re)) by (intros [<- <-]; congruence).
  destruct (connect_paired _ _ _ _ c r s1 s6 s7 ltac:(by eapply paired_ext) Hc Hr (free_loose _ Hf) Lr Hne H6 H7) as (P1 & P2 & P3).
  split_and!.
  - by eapply paired_ext.
  - destruct P2 as (c2 & Hc2 & ?). exists c2. by rewrite H8.
  - destruct P3 as (c2 & Hc2 & ?). exists c2. by rewrite H8.
Qed.

Lemma bind_existing_paired ld rd le re s s' :
  evtchn_bind_existing_interdomain ld rd le re s = Ret (tt, s') -> paired (chn s) ->
  (forall c, chn s ld le = Some c -> loose c) -> ~ (ld = rd /\ le = re) -> paired (chn s').
Proof.
  unfold evtchn_bind_existing_interdomain. intros H Hp Hloose Hne.
  apply kbind_inv in H as ([] & s1 & H1%lock_both_same & H). apply kbind_inv in H as (l & s2 & [-> Hl]%chn_of_inv & H).
  apply kbind_inv in H as ([] & s3 & H3 & H). apply kbind_inv in H as (r & s4 & [-> Hr]%chn_of_inv & H).
  apply kbind_inv in H as ([] & s5 & [-> Hok]%panic_if_inv & H). apply kbind_inv in H as ([] & s6 & H6 & H).
  apply kbind_inv in H as ([] & s7 & H7 & H8%unlock_both_same).
  assert (Hp1 : paired (chn s1)) by (by eapply paired_ext).
  assert (Hru : state r = ECS_UNBOUND).
  { destruct (bool_decide_reflect (state r = ECS_UNBOUND)); [done|]. by simpl in Hok. }
  assert (Hl3 : loose l /\ paired (chn s3) /\ chn s3 ld le = Some l).
  { split; [apply Hloose; by rewrite <- H1|]. destruct (remote_domid l =? ld); simpl in H3.
    - apply upd_chn_inv in H3 as (r0 & Hr0 & H3). rewrite H3 in Hr. unfold fupd in Hr. rewrite decide_True in Hr by done. injection Hr as <-.
      split; [eapply paired_ext; [exact H3|]; eapply paired_loose; [done|done|left; simpl in Hru; by rewrite Hru|left; by rewrite Hru]|].
      rewrite H3. unfold fupd. rewrite decide_False; done.
    - by injection H3 as <-. }
  destruct Hl3 as (Ll & Hp3 & Hl3).
  destruct (connect_paired _ _ _ _ l r s3 s6 s7 Hp3 Hl3 Hr Ll ltac:(left; by rewrite Hru) Hne H6 H7) as (P1 & _). by eapply paired_ext.
Qed.

Lemma close_paired d1 e s s' : evtchn_close d1 e s = Ret (tt, s') -> paired (chn s) -> paired (chn s').
Proof.
  unfold evtchn_close. intros H Hp. apply kbind_inv in H as ([] & s1 & H1%lock_events_same & H).
  apply kbind_inv in H as (c & s2 & [-> Hc]%chn_of_inv & H). apply kbind_inv in H as (d2 & s3 & H3 & H).
  apply kbind_inv in H as (x & s4 & [-> Hx]%dom_of_inv & H). apply kbind_inv in H as ([] & s5 & H5%upd_dom_same & H); [|done].
  apply kbind_inv in H as ([] & s6 & (c' & Hc' & H6)%upd_chn_inv & H). apply kbind_inv in H as ([] & s7 & H7 & H8%upd_dom_same); [|done].
  assert (Hp1 : paired (chn s1)) by (by eapply paired_ext).
  assert (H67 : same s6 s7).
  { destruct d2; [|by injection H7 as <-]. eapply when_same; [|exact H7]. intros s8 s9. by apply upd_dom_same. }
  assert (H68 : same s6 s') by (by eapply same_trans).
  eapply paired_ext; [exact H68|]. eapply paired_ext; [exact H6|]. rewrite H5 in Hc'.
  assert (Hfree : loose (set_ecs ECS_FREE c')) by (by left).
  assert (Hloose : same s1 s3 -> loose c -> paired (fupd (chn s5) d1 e (set_ecs ECS_FREE c'))).
  { intros Hs3 Lc. rewrite Hs3 in Hc'. assert (c' = c) as -> by congruence.
    apply (paired_loose _ d1 e c); [|by rewrite H5, Hs3|done..]. eapply paired_ext; [|exact Hp1]. intros d' e'. by rewrite H5, Hs3. }
  destruct (state c) eqn:Est.
  - injection H3 as _ <-. apply Hloose; [done|]. left. by rewrite Est.
  - injection H3 as _ <-. apply Hloose; [done|]. left. by rewrite Est.
  - injection H3 as _ <-. apply Hloose; [done|]. left. by rewrite Est.
  - destruct (remote_dom c) as [r|] eqn:Er; [|injection H3 as _ <-; apply Hloose; [done|by right]].
    apply kbind_inv in H3 as ([] & s8 & H8'%when_same & H3); [|apply lock_events_same].
    apply kbind_inv in H3 as (c2 & s9 & [-> Hc2]%chn_of_inv & H3). apply kbind_inv in H3 as ([] & s10 & [-> Hst2]%panic_if_inv & H3).
    apply kbind_inv in H3 as ([] & s11 & [-> Hrd]%panic_if_inv & H3). apply kbind_inv in H3 as ([] & s12 & (c2' & Hc2' & H12)%upd_chn_inv & H3).
    injection H3 as _ <-.
    assert (Hb : bound (chn s8) d1 e r (remote_evtchn c)) by (exists c; by rewrite H8').
    assert (Hp8 : paired (chn s8)) by (by eapply paired_ext).
    eapply paired_ext; [|exact (paired_unbind (chn s8) d1 e r (remote_evtchn c) (set_ecs ECS_FREE c') (set_unbound d1 c2') Hp8 Hb Hfree ltac:(by left))].
    intros d' e'. unfold fupd at 1 2. destruct (decide (d' = d1 /\ e' = e)); [done|]. by rewrite H5, H12.
  - apply kbind_inv in H3 as ([] & s8 & H8'%upd_dom_same & H3); [|done]. apply kbind_inv in H3 as (x' & s9 & [-> _]%dom_of_inv & H3).
    apply kbind_inv in H3 as ([] & s10 & H10 & H3). injection H3 as _ <-.
    apply Hloose; [|left; by rewrite Est]. eapply same_trans; [exact H8'|]. destruct (virq_lock x'); [done|]. by apply (upd_dom_same d1 (set_virq_lock true)).
Qed.

Lemma send_same d e s s' : evtchn_send d e s = Ret (tt, s') -> same s s'.
Proof.
  unfold evtchn_send, evtchn_set_pending. intros H. apply kbind_inv in H as (l & s1 & [-> _]%chn_of_inv & H).
  apply kbind_inv in H as ([] & s2 & [-> _]%panic_if_inv & H). apply kbind_inv in H as (rd & s3 & Hrd & H).
  assert (s3 = s) as ->. { unfold lift in Hrd. destruct (deref _); [|done]. by injection Hrd. }
  apply kbind_inv in H as ([] & s4 & H4%lock_both_same & H). apply kbind_inv in H as ([] & s5 & H5 & H6%unlock_both_same).
  eapply same_trans; [exact H4|]. eapply same_trans; [|exact H6].
  apply kbind_inv in H5 as (x & s6 & [-> _]%dom_of_inv & H5). apply kbind_inv in H5 as (b & s7 & Hb & H5).
  assert (s7 = s4) as ->. { unfold lift in Hb. destruct (index _ _); [|done]. by injection Hb. }
  apply kbind_inv in H5 as ([] & s8 & H8%upd_dom_same & [= <-]); [|done]. intros d' e'. by rewrite <- H8.
Qed.

(** *** Histories of hypercalls *)
Definition set_current (d : Z) (h : hyp) : hyp := Hyp (domains h) d (schedule_lock h) (events h).
Definition fresh (s : hyp) : Prop :=
  forall d e c, chn s d e = Some c -> (state c = ECS_FREE \/ state c = ECS_RESERVED) /\ 0 <= e < Z.of_nat NR_EVTCHN.

(** What the callers of [EVTCHNOP_bind_existing_interdomain] (the frontends, after
    a resume) have to see to, since the hypervisor does not check it: the local
    channel is not connected to anything, and is not the remote channel itself. *)
Definition reconnect_ok (op : evtchn_op) (s : hyp) : Prop :=
  match op with
  | EVTCHNOP_bind_existing_interdomain rd le re =>
      (forall c, chn s (current_domain s) le = Some c -> loose c) /\ ~ (current_domain s = rd /\ le = re)
  | _ => True
  end.

(** Any domain may make any hypercall that returns, reconnections under the
    condition above. *)
Inductive history (s0 : hyp) : hyp -> Prop :=
  | hist_start : history s0 s0
  | hist_domain s d : history s0 s -> history s0 (set_current d s)
  | hist_op s op r s' :
      history s0 s -> do_event_channel_op op s = Ret (r, s') -> reconnect_ok op s -> history s0 s'.

Lemma op_paired op s r s' :
  do_event_channel_op op s = Ret (r, s') -> paired (chn s) -> reconnect_ok op s -> paired (chn s').
Proof.
  unfold do_event_channel_op. intros H Hp Hside. apply kbind_inv in H as (cur & s1 & [= <- <-] & H).
  destruct op; [..|done]; apply kbind_inv in H as (v0 & s2 & H & Hret); injection Hret as _ <-.
  - by eapply alloc_unbound_paired.
  - apply (bind_interdomain_paired _ _ _ _ _ H Hp).
  - destruct v0. destruct Hside. by eapply bind_existing_paired.
  - by eapply bind_virq_paired.
  - destruct v0. by eapply close_paired.
  - destruct v0. eapply paired_ext; [by eapply send_same|done].
Qed.

(** C21: connections are always mutual.  After any history of hypercalls by any
    domains in which [EVTCHNOP_bind_existing_interdomain] is made only on a local
    channel that is not connected, and not from a channel to itself, if a
    channel is connected to a remote channel then that one is connected back
    to it; in particular [__evtchn_close] never finds the remote end in another
    state.  (The hypervisor does not check the condition, and without it the
    property fails: [rebind_breaks_connection].) *)
Theorem evtchn_connections_mutual s0 s d e d2 e2 :
  fresh s0 -> history s0 s -> bound (chn s) d e d2 e2 -> bound (chn s) d2 e2 d e.
Proof.
  intros Hf Hh. assert (Hp : paired (chn s)); [|apply Hp].
  induction Hh as [|s d' Hh IH|s op r s' Hh IH Hop Hside].
  - split; [|intros d' e' c Hc; by apply (Hf d' e' c)]. intros d' e' x y (c & Hc & Hst & _). destruct (Hf _ _ _ Hc) as [[?|?] _]; congruence.
  - done.
  - by eapply op_paired.
Qed.

(** *** Delivery *)
Definition pending (s : hyp) (d e : Z) : option bool :=
  match domains s !! d with Some x => evtchn_pending x !! Z.to_nat e | None => None end.
Definition unlocked (s : hyp) (d : Z) : Prop := exists x, domains s !! d = Some x /\ event_lock x = false /\ length (evtchn_pending x) = NR_EVTCHN.

Lemma upd_dom_ok d f x s : domains s !! d = Some x -> upd_dom d f s = Ret (tt, with_domains <[d := f x]> s).
Proof. intros H. unfold upd_dom, dom_of, mbind, kern_bind, gets, lift. by rewrite H. Qed.

Lemma dom_of_ok d x s : domains s !! d = Some x -> dom_of d s = Ret (x, s).
Proof. intros H. unfold dom_of, mbind, kern_bind, gets, lift. by rewrite H. Qed.

Lemma lock_events_ok d x s : domains s !! d = Some x -> event_lock x = false ->
  lock_events d s = Ret (tt, with_domains <[d := set_event_lock true x]> s).
Proof. intros H Hl. unfold lock_events. krun (dom_of_ok d x s). rewrite Hl. by apply upd_dom_ok. Qed.

(** What sending an event to channel [e] of [d], whose record is [y], does. *)
Definition sent (d e : Z) (y : domain) (s : hyp) : hyp := add_event d (with_domains <[d := with_pending <[Z.to_nat e := true]> true y]> s).

Lemma set_pending_run d e y s : domains s !! d = Some y -> 0 <= e < Z.of_nat (length (evtchn_pending y)) -> evtchn_set_pending d e s = Ret (tt, sent d e y s).
Proof.
  intros Hy He. unfold evtchn_set_pending. krun (dom_of_ok d y s). unfold lift, index. destruct (Z.ltb_spec e 0); [lia|].
  destruct (lookup_lt_is_Some_2 (evtchn_pending y) (Z.to_nat e)) as [b ->]; [lia|]. kstep. krun (upd_dom_ok d _ y s). reflexivity.
Qed.
Lemma relock b x : event_lock x = b -> set_event_lock b (set_event_lock true x) = x.
Proof. intros <-. by destruct x. Qed.

(** The locks are taken and given back around it. *)
Lemma evtchn_send_run s d e d2 e2 x y : bound (chn s) d e d2 e2 -> domains s !! d = Some x -> domains s !! d2 = Some y -> event_lock x = false -> event_lock y = false ->
  0 <= e2 < Z.of_nat (length (evtchn_pending y)) -> evtchn_send d e s = Ret (tt, sent d2 e2 y s).
Proof.
  intros (c & Hc & Hst & Hrd & Hre) Hx Hy Hlx Hly He2. unfold evtchn_send. rewrite (kbind_ret _ _ s c s).
  2: { unfold chn_of. krun (dom_of_ok d x s). unfold chn in Hc. rewrite Hx in Hc. unfold lift, index. destruct (e <? 0); [done|]. by rewrite Hc. }
  rewrite bool_decide_eq_true_2 by done. kstep. rewrite Hrd. kstep. rewrite Hre. unfold lock_both, unlock_both, unlock_events.
  destruct (Z.eqb_spec d d2) as [<-|Hne]; cbn [negb when].
  - assert (y = x) as -> by congruence. rewrite (kbind_ret _ _ s tt (with_domains <[d := set_event_lock true x]> s)) by (krun (lock_events_ok d x s); reflexivity).
    set (s1 := with_domains _ s). assert (H1 : domains s1 !! d = Some (set_event_lock true x)) by apply lookup_insert_eq.
    rewrite (kbind_ret _ _ _ _ _ (set_pending_run d e2 _ s1 H1 He2)). cbn beta. erewrite kbind_ret by (apply upd_dom_ok; simpl; apply lookup_insert_eq).
    unfold mret, kern_ret, sent, with_domains, add_event. cbn. rewrite !insert_insert_eq, <- Hlx. by destruct x.
  - rewrite (kbind_ret _ _ s tt (with_domains <[d2 := set_event_lock true y]> (with_domains <[d := set_event_lock true x]> s))).
    2: { krun (lock_events_ok d x s). apply (lock_events_ok d2 y); [|done]. simpl. by rewrite lookup_insert_ne. }
    set (s1 := with_domains _ (with_domains _ s)). assert (H1 : domains s1 !! d2 = Some (set_event_lock true y)) by apply lookup_insert_eq.
    rewrite (kbind_ret _ _ _ _ _ (set_pending_run d2 e2 _ s1 H1 He2)). cbn beta. erewrite kbind_ret by (apply upd_dom_ok; simpl; rewrite !lookup_insert_ne by done; apply lookup_insert_eq).
    erewrite upd_dom_ok by (simpl; rewrite lookup_insert_ne by done; apply lookup_insert_eq). do 2 f_equal. unfold sent, with_domains, add_event. cbn. f_equal.
    apply map_eq. intros k. destruct (decide (d2 = k)) as [<-|Hk]; [rewrite !lookup_insert_eq, <- Hly; by destruct y|]. rewrite !(lookup_insert_ne _ d2) by done.
    destruct (decide (d = k)) as [<-|Hk']; [|by rewrite !lookup_insert_ne by done]. rewrite lookup_insert_eq, Hx. f_equal. by apply (relock false).
Qed.

(** an event sent on a connected channel arrives: with the two domains' locks
    free, [evtchn_send] returns, the remote channel is pending and its
    domain is notified, no other pending flag and no channel changes, and the
    locks are free again. *)
Theorem evtchn_send_delivers s d e d2 e2 :
  paired (chn s) -> bound (chn s) d e d2 e2 -> unlocked s d -> unlocked s d2 ->
  exists s', evtchn_send d e s = Ret (tt, s') /\ pending s' d2 e2 = Some true /\
    (forall d' e', 0 <= e' -> ~ (d' = d2 /\ e' = e2) -> pending s' d' e' = pending s d' e') /\
    (exists y, domains s' !! d2 = Some y /\ evtchn_upcall_pending y = true) /\ events s' = d2 :: events s /\
    (forall d' e', chn s' d' e' = chn s d' e') /\ unlocked s' d /\ unlocked s' d2.
Proof.
  intros Hp Hb (x & Hx & Hlx & Hpx) (y & Hy & Hly & Hpy).
  assert (He2 : 0 <= e2 < Z.of_nat NR_EVTCHN) by (destruct Hp as [Hp Hrg]; destruct (Hp d e d2 e2 Hb) as (c2 & Hc2 & _); by apply (Hrg d2 e2 c2)).
  pose proof (evtchn_send_run s d e d2 e2 x y Hb Hx Hy Hlx Hly ltac:(lia)) as Hrun. pose proof (send_same _ _ _ _ Hrun) as Hsame.
  assert (Hd2 : domains (sent d2 e2 y s) !! d2 = Some (with_pending <[Z.to_nat e2 := true]> true y)) by apply lookup_insert_eq.
  assert (Hoth : forall k, k <> d2 -> domains (sent d2 e2 y s) !! k = domains s !! k) by (intros; by apply lookup_insert_ne).
  assert (Hu : unlocked (sent d2 e2 y s) d2) by (eexists; split; [exact Hd2|]; split; [done|]; simpl; by rewrite length_insert).
  eexists. split; [exact Hrun|]. split_and!; [| |by eexists; split; [exact Hd2|]|done|done| |done].
  - unfold pending. rewrite Hd2. apply list_lookup_insert_eq. lia.
  - intros d' e' He' Hn. unfold pending. destruct (decide (d' = d2)) as [->|Hne]; [|by rewrite Hoth]. rewrite Hd2, Hy. apply list_lookup_insert_ne. intros E. apply Hn. split; [done|lia].
  - destruct (decide (d = d2)) as [->|Hne]; [done|]. exists x. by rewrite Hoth.
Qed.

(** *** Two fresh domains *)
Definition dom0 : domain :=
  evtchn_init (Domain true false (replicate NR_EVTCHN (EvtChn ECS_VIRQ 0 0 None 0)) (replicate NR_VIRQS 0) false
                      (replicate NR_EVTCHN false) false).
Definition hyp0 : hyp := Hyp {[0 := dom0; 1 := dom0]} 0 false [].

(** Several hypercalls of the current domain in a row; the results, newest first. *)
Fixpoint ops (l : list evtchn_op) (s : hyp) (acc : list (option Z)) : outcome (list (option Z) * hyp) :=
  match l with
  | [] => Ret (acc, s)
  | op :: r => x ← do_event_channel_op op s; ops r x.2 (x.1 :: acc)
  end.

(** closing a channel bound to a virtual interrupt acquires the domain's
    [virq_lock] and never releases it: the next virtual interrupt for that
    domain spins forever. *)
Theorem close_virq_deadlocks :
  exists r s, ops [EVTCHNOP_bind_virq 3; EVTCHNOP_close 1] hyp0 [] = Ret (r, s) /\
    forall v, send_guest_virq 0 v s = Fault Hang.
Proof. eexists _, _. split; [vm_compute; reflexivity|]. intros v. reflexivity. Qed.

(** a guest may close the reserved channel 0.  The next virtual interrupt it
    binds then gets channel 0, which the hypervisor takes for "not
    bound": the interrupt is never delivered. *)
Theorem close_reserved_loses_virq :
  exists r s, ops [EVTCHNOP_close 0; EVTCHNOP_bind_virq 3] hyp0 [] = Ret (r, s) /\ head r = Some (Some 0) /\
    exists s', send_guest_virq 0 3 s = Ret (tt, s') /\ pending s' 0 0 = Some false /\ events s' = [].
Proof.
  eexists _, _. split; [vm_compute; reflexivity|]. split; [reflexivity|]. eexists.
  split; [vm_compute; reflexivity|]. split; reflexivity.
Qed.

(** loopback connections are impossible through [DOMID_SELF]: a channel
    allocated for [DOMID_SELF] records that value as its peer, and binding it
    compares the peer with the caller's own id, so the kernel stops. *)
Theorem loopback_self_panics :
  exists r s, ops [EVTCHNOP_alloc_unbound DOMID_SELF DOMID_SELF] hyp0 [] = Ret (r, s) /\ r = [Some 1] /\
    do_event_channel_op (EVTCHNOP_bind_interdomain DOMID_SELF 1) s = Fault Panic.
Proof. eexists _, _. split; [vm_compute; reflexivity|]. split; [reflexivity|]. vm_compute. reflexivity. Qed.

(** the channel number of a hypercall is not checked: for every number past the
    end of the table, send and close go outside the domain's channel array. *)
Theorem evtchn_index_unchecked e :
  Z.of_nat NR_EVTCHN <= e ->
  do_event_channel_op (EVTCHNOP_send e) hyp0 = Fault Undef /\ do_event_channel_op (EVTCHNOP_close e) hyp0 = Fault Undef.
Proof.
  intros He. assert (Hi : forall x, length (chans x) = NR_EVTCHN -> index (chans x) e = Fault Undef).
  { intros x Hl. unfold index. destruct (Z.ltb_spec e 0); [lia|]. rewrite lookup_ge_None_2; [done|]. unfold NR_EVTCHN in *. lia. }
  assert (Hc : forall s x, domains s !! 0 = Some x -> length (chans x) = NR_EVTCHN -> chn_of 0 e s = Fault Undef).
  { intros s x Hx Hl. unfold chn_of. krun (dom_of_ok 0 x s). unfold lift. by rewrite Hi. }
  split; unfold do_event_channel_op; kstep; apply kbind_fault.
  - unfold evtchn_send. apply kbind_fault. by apply (Hc _ dom0).
  - unfold evtchn_close. krun (lock_events_ok 0 dom0 hyp0). apply kbind_fault. by apply (Hc _ (set_event_lock true dom0)).
Qed.

(** Domain 0 offers a channel to domain 1, which connects to it. *)
Definition hyp1 : hyp := match ops [EVTCHNOP_alloc_unbound DOMID_SELF 1] hyp0 [] with Ret (_, s) => set_current 1 s | _ => hyp0 end.
Definition hyp2 : hyp := match ops [EVTCHNOP_bind_interdomain 0 1] hyp1 [] with Ret (_, s) => s | _ => hyp0 end.

(** the condition on reconnections is needed: domain 0 offers a second channel,
    and domain 1 reconnects its connected channel 1 to it.  Channel 1 of domain 0
    is still connected to channel 1 of domain 1, which now is connected to
    channel 2. *)
Lemma rebind_breaks_connection :
  exists r s, ops [EVTCHNOP_alloc_unbound DOMID_SELF 1] (set_current 0 hyp2) [] = Ret (r, s) /\
    exists s', do_event_channel_op (EVTCHNOP_bind_existing_interdomain 0 1 2) (set_current 1 s) = Ret (None, s') /\
      bound (chn s') 0 1 1 1 /\ bound (chn s') 1 1 0 2.
Proof.
  eexists _, _. split; [vm_compute; reflexivity|]. eexists. split; [vm_compute; reflexivity|].
  split; (eexists; split; [vm_compute; reflexivity|done]).
Qed.

Lemma hyp0_fresh : fresh hyp0.
Proof.
  assert (H : forall x e c, domains hyp0 !! x = Some dom0 -> chn hyp0 x e = Some c -> (state c = ECS_FREE \/ state c = ECS_RESERVED) /\ 0 <= e < Z.of_nat NR_EVTCHN).
  { intros x e c Hx. unfold chn. rewrite Hx. destruct (Z.ltb_spec e 0); [done|]. intros Hc.
    pose proof (lookup_lt_Some _ _ _ Hc) as Hl. change (length (chans dom0)) with 128%nat in Hl. split; [|unfold NR_EVTCHN; lia].
    assert (Hall : Forall (fun c => state c = ECS_FREE \/ state c = ECS_RESERVED) (chans dom0)).
    { change (chans dom0) with (set_ecs ECS_RESERVED (EvtChn ECS_VIRQ 0 0 None 0) ::
        (set_ecs ECS_FREE <$> replicate 127 (EvtChn ECS_VIRQ 0 0 None 0))).
      constructor; [by right|]. apply Forall_fmap, Forall_forall. intros. by left. }
    rewrite Forall_forall in Hall. apply Hall. by eapply list_elem_of_lookup_2. }
  intros d e c Hc. assert (Hd : domains hyp0 !! d = Some dom0); [|by eapply H].
  unfold chn in Hc. destruct (domains hyp0 !! d) as [x|] eqn:E; [|done]. unfold hyp0 in E. cbn [domains] in E.
  apply lookup_insert_Some in E as [[<- <-]|[_ E]]; [done|]. by apply lookup_singleton_Some in E as [<- <-].
Qed.

Lemma hyp2_history : history hyp0 hyp2.
Proof.
  apply (hist_op hyp0 hyp1 (EVTCHNOP_bind_interdomain 0 1) (Some 1)); [|vm_compute; reflexivity|done].
  apply (hist_domain hyp0 (match ops [EVTCHNOP_alloc_unbound DOMID_SELF 1] hyp0 [] with Ret (_, s) => s | _ => hyp0 end) 1).
  apply (hist_op hyp0 hyp0 (EVTCHNOP_alloc_unbound DOMID_SELF 1) (Some 1)); [apply hist_start|vm_compute; reflexivity|done].
Defined.

Lemma evtchn_connections_mutual_witness : bound (chn hyp2) 1 1 0 1 /\ bound (chn hyp2) 0 1 1 1.
Proof.
  assert (H : bound (chn hyp2) 1 1 0 1) by (eexists; split; [vm_compute; reflexivity|done]).
  split; [exact H|]. apply (evtchn_connections_mutual hyp0 hyp2 1 1 0 1 hyp0_fresh hyp2_history H).
Defined.

Lemma hyp2_paired : paired (chn hyp2).
Proof.
  assert (Hp : forall s, history hyp0 s -> paired (chn s)).
  { intros s. induction 1 as [|s d' Hh IH|s op r s' Hh IH Hop Hside]; [|done|by eapply op_paired].
    split; [|intros d' e' c Hc; by apply (hyp0_fresh d' e' c)].
    intros d' e' x y (c & Hc & Hst & _). destruct (hyp0_fresh _ _ _ Hc) as [[?|?] _]; congruence. }
  apply Hp, hyp2_history.
Qed.

Lemma evtchn_send_delivers_witness : exists s', evtchn_send 1 1 hyp2 = Ret (tt, s') /\ pending s' 0 1 = Some true.
Proof.
  destruct (evtchn_send_delivers hyp2 1 1 0 1 hyp2_paired) as (s' & ? & ? & _); [| | |eauto].
  - eexists. split; [vm_compute; reflexivity|done].
  - eexists. split; [vm_compute; reflexivity|done].
  - eexists. split; [vm_compute; reflexivity|done].
Defined.

Lemma evtchn_index_unchecked_witness : do_event_channel_op (EVTCHNOP_send 128) hyp0 = Fault Undef.
Proof. apply (evtchn_index_unchecked 128). vm_compute. done. Defined.

End EventChannel.
