(* ===== verification/Timer.v ===== *)
(** Software timers (so3/kernel/timer.c): the list of pending timers of one CPU,
    setting, stopping and killing them, the softirq that runs the expired ones
    and programs the next deadline, and the clock conversion factors.

    The list is linked through [list_next] as in the code, so that a callback
    changing the list while the softirq walks it has the effect it has in C.
    Walks run on fuel, one more than the number of timers, which is always
    enough on a well-formed list. *)
From S2P Require Import Prelude.

Module Timer.

Inductive status := Inactive | Killed | InList.
#[global] Instance status_eq_dec : EqDecision status.
Proof. solve_decision. Defined.

Record timer := MkTimer {
  expires : Z;
  list_next : option Z;
  function : option Z;
  tstatus : status
}.

Record timers := MkTimers {
  tlock : bool;
  thead : option Z;         (* ts->list *)
  running : option Z;
  mem : gmap Z timer
}.

Definition STIME_MAX : Z := Z.ones 64.
Definition set_expires v t := MkTimer v (list_next t) (function t) (tstatus t).
Definition set_next v t := MkTimer (expires t) v (function t) (tstatus t).
Definition set_status v t := MkTimer (expires t) (list_next t) (function t) v.

Definition load (ts : timers) (t : Z) : outcome timer := deref (mem ts !! t).
Definition upd (ts : timers) (t : Z) (f : timer -> timer) : outcome timers :=
  x ← load ts t; Ret (MkTimers (tlock ts) (thead ts) (running ts) (<[t := f x]> (mem ts))).
Definition set_head (ts : timers) (h : option Z) : timers := MkTimers (tlock ts) h (running ts) (mem ts).
Definition set_running (ts : timers) (r : option Z) : timers := MkTimers (tlock ts) (thead ts) r (mem ts).
Definition set_lock (ts : timers) (b : bool) : timers := MkTimers b (thead ts) (running ts) (mem ts).
Definition lock (ts : timers) : outcome timers := if tlock ts then Fault Hang else Ret (set_lock ts true).
Definition fuel_of (ts : timers) : nat := S (base.size (mem ts)).
#[global] Arguments fuel_of : simpl never.

Definition active_timer (x : timer) : bool := bool_decide (tstatus x = InList).

(** *** The list *)
(** [while (curr != t) { prev = curr; curr = curr->list_next; }]; a null [curr]
    or an unset [prev] is dereferenced. *)
Fixpoint find_prev (fuel : nat) (ts : timers) (curr prev : option Z) (t : Z) : outcome Z :=
  match fuel with
  | O => Fault Hang
  | S fuel' =>
      match curr with
      | None => Fault Undef
      | Some c => if c =? t then deref prev
                  else x ← load ts c; find_prev fuel' ts (list_next x) (Some c) t
      end
  end.

Definition remove_from_list (ts : timers) (t : Z) : outcome timers :=
  if decide (thead ts = Some t) then
    x ← load ts t;
    upd (set_head ts (list_next x)) t (set_next None)
  else
    p ← find_prev (fuel_of ts) ts (thead ts) None t;
    x ← load ts t;
    ts ← upd ts p (set_next (list_next x));
    upd ts t (set_next None).

Fixpoint on_list (fuel : nat) (ts : timers) (curr : option Z) (t : Z) : outcome bool :=
  match fuel with
  | O => Fault Hang
  | S fuel' =>
      match curr with
      | None => Ret false
      | Some c => if c =? t then Ret true else x ← load ts c; on_list fuel' ts (list_next x) t
      end
  end.

Definition add_to_list (ts : timers) (t : Z) : outcome timers :=
  match thead ts with
  | None => upd (set_head ts (Some t)) t (set_next None)
  | Some _ =>
      b ← on_list (fuel_of ts) ts (thead ts) t;
      if b : bool then Ret ts
      else
        ts ← upd ts t (set_next (thead ts));
        Ret (set_head ts (Some t))
  end.

Definition remove_entry (ts : timers) (t : Z) : outcome timers :=
  x ← load ts t;
  if active_timer x then
    ts ← remove_from_list ts t;
    upd ts t (set_status Inactive)
  else Fault Panic.

Definition add_entry (ts : timers) (t : Z) : outcome timers :=
  x ← load ts t;
  _ ← assert_k (bool_decide (tstatus x = Inactive));
  ts ← upd ts t (set_status InList);
  add_to_list ts t.

(** *** Setting and stopping *)
Definition __stop_timer (ts : timers) (t : Z) : outcome timers :=
  x ← load ts t;
  if active_timer x then remove_entry ts t else Ret ts.

(** Up to [timer_unlock]; the TIMER softirq is raised after it. *)
Definition set_timer (ts : timers) (t exp : Z) : outcome timers :=
  ts ← lock ts;
  x ← load ts t;
  _ ← bug_on (bool_decide (function x = None));
  ts ← (if active_timer x then __stop_timer ts t else Ret ts);
  ts ← upd ts t (set_expires exp);
  x ← load ts t;
  ts ← (if bool_decide (tstatus x = Killed) then Ret ts else add_entry ts t);
  Ret (set_lock ts false).

Definition stop_timer (ts : timers) (t : Z) : outcome timers :=
  ts ← lock ts; ts ← __stop_timer ts t; Ret (set_lock ts false).

Definition kill_timer (ts : timers) (t : Z) : outcome timers :=
  _ ← bug_on (bool_decide (running ts = Some t));
  ts ← lock ts;
  x ← load ts t;
  ts ← (if active_timer x then __stop_timer ts t else Ret ts);
  ts ← upd ts t (set_status Killed);
  Ret (set_lock ts false).

Fixpoint offset_loop (fuel : nat) (ts : timers) (curr : option Z) (offset : Z) : outcome timers :=
  match fuel with
  | O => Fault Hang
  | S fuel' =>
      match curr with
      | None => Ret ts
      | Some c =>
          ts ← upd ts c (fun x => set_expires (u64 (expires x + offset)) x);
          x ← load ts c;
          offset_loop fuel' ts (list_next x) offset
      end
  end.
Definition apply_timer_offset (ts : timers) (offset : Z) : outcome timers := offset_loop (fuel_of ts) ts (thead ts) offset.

(** *** The softirq *)
Section softirq.
(** What the function [fn] of the timer [t] does to the timers. *)
Context (callback : Z -> Z -> timers -> outcome timers).

Definition execute_timer (ts : timers) (t : Z) : outcome timers :=
  x ← load ts t;
  fn ← deref (function x);
  ts ← callback fn t (set_lock (set_running ts (Some t)) false);
  ts ← lock ts;
  Ret (set_running ts None).

(** Run the expired timers; [done] lists those executed, newest first. *)
Fixpoint expire_loop (fuel : nat) (ts : timers) (cur : option Z) (now : Z) (done : list Z) : outcome (timers * list Z) :=
  match fuel with
  | O => Fault Hang
  | S fuel' =>
      match cur with
      | None => Ret (ts, done)
      | Some t =>
          x ← load ts t;
          let cur := list_next x in
          if expires x <=? now then
            ts ← remove_entry ts t;
            ts ← execute_timer ts t;
            expire_loop fuel' ts cur now (t :: done)
          else expire_loop fuel' ts cur now done
      end
  end.

(** The earliest deadline; [start] is dereferenced when it is still null. *)
Fixpoint earliest (fuel : nat) (ts : timers) (t start : option Z) : outcome (option Z) :=
  match fuel with
  | O => Fault Hang
  | S fuel' =>
      match t with
      | None => Ret start
      | Some c =>
          x ← load ts c;
          take ← (if bool_decide (start = None) && (expires x <? STIME_MAX) then Ret true
                  else s ← deref start; y ← load ts s; Ret (expires x <? expires y));
          earliest fuel' ts (list_next x) (if take : bool then Some c else start)
      end
  end.

(** One pass from [again:] up to the programming of the deadline. *)
Definition softirq_pass (ts : timers) (now : Z) : outcome (timers * list Z * option Z) :=
  r ← expire_loop (fuel_of ts) ts (thead ts) now [];
  let '(ts, done) := r in
  s ← earliest (fuel_of ts) ts (thead ts) None;
  Ret (ts, done, s).

(** [deadline_passed] is the result of [timer_dev_set_deadline] at each pass and
    [clock] the value of [NOW()]; the list of pairs bounds the passes.  [dl] are the
    deadlines handed to the device, newest first. *)
Fixpoint softirq_passes (clock : list (Z * bool)) (ts : timers) (acc dl : list Z) : outcome (timers * list Z * list Z) :=
  match clock with
  | [] => Fault Hang
  | (now, deadline_passed) :: rest =>
      r ← softirq_pass ts now;
      let '(ts, done, start) := r in
      match start with
      | None => Ret (ts, done ++ acc, dl)
      | Some s =>
          x ← load ts s;
          if deadline_passed : bool then softirq_passes rest ts (done ++ acc) (expires x :: dl)
          else Ret (ts, done ++ acc, expires x :: dl)
      end
  end.
(** The timers, the timers executed and the deadlines programmed, newest first. *)
Definition timer_softirq_action (clock : list (Z * bool)) (ts : timers) : outcome (timers * list Z * list Z) :=
  ts ← lock ts;
  r ← softirq_passes clock ts [] [];
  Ret (set_lock r.1.1 false, r.1.2, r.2).
End softirq.

Definition timer_init (m : gmap Z timer) : timers := MkTimers false None None m.

(** *** Clock conversion *)
(** [while (tmp) { tmp >>= 1; sftacc--; }]: the number of significant bits. *)
Fixpoint shift_acc (fuel : nat) (tmp sftacc : Z) : Z :=
  match fuel with
  | O => sftacc
  | S fuel' => if tmp =? 0 then sftacc else shift_acc fuel' (Z.shiftr tmp 1) (u32 (sftacc - 1))
  end.

(** [for (sft = 32; sft > 0; sft--) ...]; [n] is [sft]. *)
Fixpoint mult_loop (n : nat) (from to sftacc tmp : Z) : Z * Z :=
  match n with
  | O => (tmp, 0)
  | S n' =>
      let tmp := u64 (wshl 64 to (Z.of_nat n) + from / 2) / from in
      if Z.shiftr tmp sftacc =? 0 then (tmp, Z.of_nat n) else mult_loop n' from to sftacc tmp
  end.
Definition clocks_calc_mult_shift (from to maxsec : Z) : Z * Z :=
  let tmp := Z.shiftr (u64 (maxsec * from)) 32 in
  let sftacc := shift_acc 32 tmp 32 in
  let '(tmp, sft) := mult_loop 32 from to sftacc tmp in
  (u32 tmp, sft).

(** [None] is the error return on a null [ts]; otherwise [tv_sec] and [tv_nsec]
    as written, [time] being the value of [NOW()]. *)
Definition do_get_time_of_day (ts_null : bool) (time : Z) : option (Z * Z) :=
  if ts_null then None else Some (time / 1000000000, time).
Definition do_get_clock_time (clk_id : Z) (ts_null : bool) (time : Z) : option (Z * Z) :=
  if ts_null then None else Some (time / 1000000000, time).

(** [do_nanosleep] (so3/kernel/delay.c): the time handed to [__sleep]. *)
Definition do_nanosleep (tv_sec tv_nsec : Z) : option Z :=
  if negb (tv_nsec =? 0) then Some tv_nsec
  else if negb (tv_sec =? 0) then Some (u64 (tv_sec * 1000000000))
  else None.

(** ** The list of pending timers *)
(** [linked m h l]: following [list_next] from [h] visits exactly [l]. *)
Fixpoint linked (m : gmap Z timer) (h : option Z) (l : list Z) : Prop :=
  match l with
  | [] => h = None
  | t :: l' => h = Some t /\ exists x, m !! t = Some x /\ linked m (list_next x) l'
  end.

(** The timers without their links: what a client observes. *)
Definition info (ts : timers) : gmap Z timer := set_next None <$> mem ts.
Definition expiry (ts : timers) (t : Z) : Z := from_option expires 0 (info ts !! t).

(** The invariant: the pending timers are [l], in list order. *)
Record view (ts : timers) (l : list Z) : Prop := {
  view_linked : linked (mem ts) (thead ts) l;
  view_nodup : NoDup l;
  view_status : forall t x, mem ts !! t = Some x -> tstatus x = InList <-> t ∈ l;
  view_function : forall t x, mem ts !! t = Some x -> t ∈ l -> function x <> None
}.

Lemma linked_frame m m' h l :
  (forall t, t ∈ l -> list_next <$> m' !! t = list_next <$> m !! t) -> linked m h l -> linked m' h l.
Proof.
  revert h. induction l as [|t l IH]; intros h Hf; simpl; [done|].
  intros (-> & x & Hx & Hl). split; [done|].
  pose proof (Hf t ltac:(set_solver)) as E. rewrite Hx in E. simpl in E.
  destruct (m' !! t) as [y|]; simplify_eq/=. exists y. split; [done|].
  rewrite E. apply IH; [set_solver|done].
Qed.

Lemma linked_in m h l t : linked m h l -> t ∈ l -> is_Some (m !! t).
Proof.
  revert h. induction l as [|u l IH]; intros h; simpl; [set_solver|].
  intros (-> & x & Hx & Hl) [->|Ht]%elem_of_cons; [eauto|eauto].
Qed.

(** Cutting the node [t] after [p] out of the list. *)
Lemma linked_cut m h l1 p t l2 xp xt :
  NoDup (l1 ++ p :: t :: l2) -> linked m h (l1 ++ p :: t :: l2) ->
  m !! p = Some xp -> m !! t = Some xt ->
  linked (<[t := set_next None xt]> (<[p := set_next (list_next xt) xp]> m)) h (l1 ++ p :: l2).
Proof.
  revert h. induction l1 as [|u l1 IH]; intros h Hnd; simpl.
  - intros (-> & x & Hx & [Ht (y & Hy & Hl)]) Hp Hxt.
    assert (y = xt) as -> by congruence. split; [done|].
    apply NoDup_cons in Hnd as [Hp' [Ht' _]%NoDup_cons].
    exists (set_next (list_next xt) xp).
    rewrite lookup_insert_ne by set_solver. rewrite lookup_insert_eq. split; [done|].
    simpl. eapply linked_frame; [|exact Hl].
    intros w Hw. rewrite lookup_insert_ne by set_solver. by rewrite lookup_insert_ne by set_solver.
  - intros (-> & x & Hx & Hl) Hp Hxt. split; [done|].
    apply NoDup_cons in Hnd as [Hu Hnd]. exists x. split; [|by apply IH].
    rewrite lookup_insert_ne by set_solver. by rewrite lookup_insert_ne by set_solver.
Qed.

Lemma view_length ts l : view ts l -> (length l < fuel_of ts)%nat.
Proof.
  intros [Hl Hnd _ _]. unfold fuel_of. apply Nat.lt_succ_r.
  rewrite <- (size_list_to_set (C := gset Z) l Hnd), <- (size_dom (D := gset Z)).
  apply subseteq_size. intros t Ht%elem_of_list_to_set.
  apply elem_of_dom. eauto using linked_in.
Qed.

Lemma find_prev_spec ts l1 p t l2 fuel h prev :
  linked (mem ts) h (l1 ++ p :: t :: l2) -> NoDup (l1 ++ p :: t :: l2) ->
  (length (l1 ++ p :: t :: l2) < fuel)%nat ->
  find_prev fuel ts h prev t = Ret p.
Proof.
  revert fuel h prev. induction l1 as [|u l1 IH]; intros fuel h prev Hl Hnd Hf;
    (destruct fuel as [|fuel]; [simpl in Hf; lia|]).
  - destruct Hl as (-> & x & Hx & Hn & y & Hy & Hl). simpl in Hf.
    apply NoDup_cons in Hnd as [Hp _]. destruct fuel as [|fuel]; [lia|]. simpl.
    rewrite (proj2 (Z.eqb_neq p t)) by set_solver.
    unfold load. rewrite Hx. simpl. by rewrite Hn, Z.eqb_refl.
  - destruct Hl as (-> & x & Hx & Hl). simpl in Hf. apply NoDup_cons in Hnd as [Hu Hnd].
    simpl. rewrite (proj2 (Z.eqb_neq u t)) by set_solver.
    unfold load. rewrite Hx. simpl. apply IH; [done..|]. simpl. lia.
Qed.

Lemma on_list_spec ts h l t fuel :
  linked (mem ts) h l -> (length l < fuel)%nat -> on_list fuel ts h t = Ret (bool_decide (t ∈ l)).
Proof.
  revert h fuel. induction l as [|u l IH]; intros h fuel Hl Hf; (destruct fuel as [|fuel]; [simpl in Hf; lia|]).
  - rewrite Hl. cbn [on_list]. by rewrite bool_decide_eq_false_2 by set_solver.
  - destruct Hl as (-> & x & Hx & Hl). simpl in Hf. cbn [on_list]. destruct (Z.eqb_spec u t) as [->|Hne].
    + by rewrite bool_decide_eq_true_2 by set_solver.
    + unfold load. rewrite Hx. cbn [deref]. bret. rewrite (IH _ fuel Hl) by lia. f_equal.
      apply bool_decide_ext. set_solver.
Qed.

Lemma timer_upd_ok ts t x f :
  mem ts !! t = Some x -> upd ts t f = Ret (MkTimers (tlock ts) (thead ts) (running ts) (<[t := f x]> (mem ts))).
Proof. intros E. unfold upd, load. by rewrite E. Qed.

Lemma timer_load_ok ts t x : mem ts !! t = Some x -> load ts t = Ret x.
Proof. intros E. unfold load. by rewrite E. Qed.

(** Changing a link is not observable. *)
Lemma erase_link (m : gmap Z timer) t x v :
  m !! t = Some x -> set_next None <$> <[t := set_next v x]> m = set_next None <$> m.
Proof.
  intros E. rewrite fmap_insert. apply insert_id. rewrite lookup_fmap, E. by destruct x.
Qed.

Lemma remove_from_list_spec ts l1 t l2 :
  view ts (l1 ++ t :: l2) ->
  exists ts', remove_from_list ts t = Ret ts' /\ linked (mem ts') (thead ts') (l1 ++ l2) /\
    info ts' = info ts /\ tlock ts' = tlock ts /\ running ts' = running ts.
Proof.
  intros Hv. pose proof Hv as [Hl Hnd _ _].
  destruct (linked_in _ _ _ t Hl) as [x Hx]; [set_solver|].
  unfold remove_from_list. destruct l1 as [|u l1 _] using rev_ind.
  - destruct Hl as (Hh & y & Hy & Hl). rewrite Hh, decide_True by done.
    rewrite (timer_load_ok _ _ _ Hx). bret. rewrite (timer_upd_ok _ _ x) by done.
    eexists. split; [done|]. simpl. assert (y = x) as -> by congruence.
    apply NoDup_cons in Hnd as [Ht Hnd]. split; [|split; [by apply erase_link|done]].
    eapply linked_frame; [|exact Hl]. intros w Hw. by rewrite lookup_insert_ne by set_solver.
  - rewrite <- app_assoc in Hv, Hl, Hnd. cbn [app] in Hv, Hl, Hnd.
    assert (Hne : thead ts <> Some t).
    { intros E. destruct l1 as [|v l1]; destruct Hl as [Hh _]; simplify_eq/=.
      - apply NoDup_cons in Hnd as [? _]. set_solver.
      - apply NoDup_cons in Hnd as [? _]. set_solver. }
    rewrite decide_False by done.
    rewrite (find_prev_spec ts l1 u t l2); [|done..|by apply view_length in Hv]. bret.
    destruct (linked_in _ _ _ u Hl) as [y Hy]; [set_solver|].
    assert (u <> t) by (apply NoDup_app in Hnd as (_ & _ & [? _]%NoDup_cons); set_solver).
    rewrite (timer_load_ok _ _ _ Hx). bret. rewrite (timer_upd_ok _ _ y) by done. bret.
    rewrite (timer_upd_ok _ _ x); [|simpl; by rewrite lookup_insert_ne].
    eexists. split; [done|]. rewrite <- app_assoc. simpl. split; [by apply linked_cut|].
    unfold info. simpl. rewrite erase_link by (by rewrite lookup_insert_ne). by rewrite erase_link.
Qed.

Lemma info_lookup ts ts' t x :
  info ts' = info ts -> mem ts !! t = Some x ->
  exists y, mem ts' !! t = Some y /\ set_next None y = set_next None x.
Proof.
  intros E Hx. apply (f_equal (lookup t)) in E. unfold info in E. rewrite !lookup_fmap, Hx in E.
  destruct (mem ts' !! t) as [y|]; [|done]. exists y. split; [done|]. cbn [fmap option_fmap option_map] in E. congruence.
Qed.

Lemma same_status x y : set_next None y = set_next None x -> tstatus y = tstatus x /\ function y = function x.
Proof. by destruct x, y; intros [= -> -> ->]. Qed.

(** Only the status of [t] leaves [InList], and [t] leaves the list. *)
Lemma remove_entry_spec ts l1 t l2 x :
  view ts (l1 ++ t :: l2) -> mem ts !! t = Some x ->
  exists ts', remove_entry ts t = Ret ts' /\ view ts' (l1 ++ l2) /\
    info ts' = <[t := set_next None (set_status Inactive x)]> (info ts) /\
    tlock ts' = tlock ts /\ running ts' = running ts.
Proof.
  intros Hv Hx. pose proof Hv as [_ Hnd Hs Hf]. unfold remove_entry. rewrite (timer_load_ok _ _ _ Hx). bret.
  unfold active_timer. rewrite bool_decide_eq_true_2 by (apply (Hs t); [done|set_solver]).
  destruct (remove_from_list_spec _ _ _ _ Hv) as (ts1 & -> & Hl & Hi & E1 & E2). bret.
  destruct (info_lookup _ _ _ _ Hi Hx) as (y & Hy & Exy).
  rewrite (timer_upd_ok _ _ y) by done.
  assert (Ht : t ∉ l1 ++ l2).
  { apply NoDup_app in Hnd as (_ & Hd & [? _]%NoDup_cons).
    intros [Hin|Hin]%elem_of_app; [apply (Hd t Hin); set_solver|done]. }
  eexists. split; [done|]. split; [|split; [|done]].
  - split; simpl.
    + eapply linked_frame; [|exact Hl]. intros w Hw. by rewrite lookup_insert_ne by set_solver.
    + rewrite <- Permutation_middle in Hnd. by apply NoDup_cons in Hnd as [_ ?].
    + intros w z. rewrite lookup_insert_Some. intros [[<- <-]|[Hne Hz]]; [split; [done|set_solver]|].
      destruct (info_lookup _ _ _ _ (eq_sym Hi) Hz) as (z' & Ew & Ez).
      rewrite <- (proj1 (same_status _ _ Ez)), (Hs w z' Ew). set_solver.
    + intros w z. rewrite lookup_insert_Some. intros [[<- <-]|[Hne Hz]] Hw; [set_solver|].
      destruct (info_lookup _ _ _ _ (eq_sym Hi) Hz) as (z' & Ew & Ez).
      rewrite <- (proj2 (same_status _ _ Ez)). apply (Hf w z' Ew). set_solver.
  - unfold info. simpl. rewrite fmap_insert. fold (info ts1). rewrite Hi. f_equal.
    destruct x, y. cbn in Exy |- *. by injection Exy as -> -> _.
Qed.

Definition without (t : Z) (l : list Z) : list Z := filter (fun u => u <> t) l.
#[global] Arguments without : simpl never.

Lemma without_notin t l : t ∉ l -> without t l = l.
Proof.
  unfold without. induction l as [|u l IH]; intros Ht; [done|].
  rewrite filter_cons_True by set_solver. rewrite IH by set_solver. done.
Qed.

Lemma without_cut t l1 l2 : NoDup (l1 ++ t :: l2) -> without t (l1 ++ t :: l2) = l1 ++ l2.
Proof.
  intros Hnd. unfold without. rewrite filter_app, filter_cons_False by tauto.
  apply NoDup_app in Hnd as (_ & Hd & [? _]%NoDup_cons).
  fold (without t l1) (without t l2). rewrite !without_notin; [done|done|].
  intros Hin. apply (Hd t Hin). set_solver.
Qed.

(** The status of a timer taken off the list. *)
Definition idle (x : timer) : status := if bool_decide (tstatus x = InList) then Inactive else tstatus x.

Lemma __stop_timer_spec ts l t x :
  view ts l -> mem ts !! t = Some x ->
  exists ts', __stop_timer ts t = Ret ts' /\ view ts' (without t l) /\
    info ts' = <[t := set_next None (set_status (idle x) x)]> (info ts) /\
    tlock ts' = tlock ts /\ running ts' = running ts.
Proof.
  intros Hv Hx. unfold __stop_timer, idle. rewrite (timer_load_ok _ _ _ Hx). bret. unfold active_timer.
  destruct (bool_decide_reflect (tstatus x = InList)) as [E|E].
  - apply (view_status _ _ Hv t x Hx), list_elem_of_split in E as (l1 & l2 & ->).
    rewrite without_cut by apply Hv. by apply remove_entry_spec.
  - assert (t ∉ l) by (intros Hin; by apply E, (view_status _ _ Hv t x Hx)).
    exists ts. rewrite without_notin by done. split; [done|]. split; [done|].
    split; [|done]. symmetry. apply insert_id. unfold info. rewrite lookup_fmap, Hx. by destruct x.
Qed.

(** Updating the data of a timer, its link and membership apart. *)
Lemma view_upd ts l t x y :
  view ts l -> mem ts !! t = Some x -> list_next y = list_next x ->
  (tstatus y = InList <-> tstatus x = InList) -> function y = function x ->
  view (MkTimers (tlock ts) (thead ts) (running ts) (<[t := y]> (mem ts))) l.
Proof.
  intros [Hl Hnd Hs Hf] Hx En Es Ef. split; simpl; [|done| |].
  - eapply linked_frame; [|exact Hl]. intros w Hw.
    destruct (decide (w = t)) as [->|]; [|by rewrite lookup_insert_ne].
    by rewrite lookup_insert_eq, Hx; simpl; rewrite En.
  - intros w z. rewrite lookup_insert_Some. intros [[<- <-]|[Hne Hz]]; [|by apply Hs].
    rewrite Es. by apply Hs.
  - intros w z. rewrite lookup_insert_Some. intros [[<- <-]|[Hne Hz]]; [|by apply Hf].
    rewrite Ef. by apply Hf.
Qed.

Lemma add_entry_spec ts l t x :
  view ts l -> mem ts !! t = Some x -> tstatus x = Inactive -> function x <> None ->
  exists ts', add_entry ts t = Ret ts' /\ view ts' (t :: l) /\
    info ts' = <[t := set_next None (set_status InList x)]> (info ts) /\
    tlock ts' = tlock ts /\ running ts' = running ts.
Proof.
  intros Hv Hx Hst Hfx. pose proof Hv as [Hl Hnd Hs Hfn].
  assert (Ht : t ∉ l) by (intros Hin%(Hs t x Hx); congruence).
  unfold add_entry. rewrite (timer_load_ok _ _ _ Hx). bret. unfold assert_k.
  rewrite bool_decide_eq_true_2 by done. bret. rewrite (timer_upd_ok _ _ x) by done. bret.
  set (y := set_status InList x). set (ts1 := MkTimers _ _ _ _).
  assert (Hl1 : linked (mem ts1) (thead ts1) l).
  { eapply linked_frame; [|exact Hl]. intros w Hw. simpl. by rewrite lookup_insert_ne by set_solver. }
  assert (Hf : (length l < fuel_of ts1)%nat).
  { unfold fuel_of. simpl. rewrite map_size_insert_Some by eauto. by apply view_length in Hv. }
  assert (Hadd : add_to_list ts1 t =
    Ret (MkTimers (tlock ts) (Some t) (running ts) (<[t := set_next (thead ts) y]> (<[t := y]> (mem ts))))).
  { unfold add_to_list. destruct (thead ts1) eqn:E; simpl in E.
    - rewrite (on_list_spec ts1 _ l t _ Hl1 Hf).
      rewrite bool_decide_eq_false_2 by done. bret.
      rewrite (timer_upd_ok _ _ y) by (simpl; apply lookup_insert_eq). bret. simpl. by rewrite E.
    - rewrite (timer_upd_ok _ _ y) by (simpl; apply lookup_insert_eq). simpl. by rewrite E. }
  rewrite Hadd, insert_insert_eq. eexists. split; [done|]. split; [|split; [|done]].
  - split; simpl.
    + split; [done|]. eexists. rewrite lookup_insert_eq. split; [done|]. simpl.
      eapply linked_frame; [|exact Hl]. intros w Hw. by rewrite lookup_insert_ne by set_solver.
    + by apply NoDup_cons.
    + intros w z. rewrite lookup_insert_Some. intros [[<- <-]|[Hne Hz]]; [set_solver|].
      rewrite (Hs w z Hz). set_solver.
    + intros w z. rewrite lookup_insert_Some. intros [[<- <-]|[Hne Hz]] Hw; [done|].
      apply (Hfn w z Hz). set_solver.
  - unfold info. simpl. rewrite fmap_insert. by destruct x.
Qed.

Lemma info_inv ts t y : info ts !! t = Some y -> exists x, mem ts !! t = Some x /\ y = set_next None x.
Proof. unfold info. rewrite lookup_fmap_Some. intros (x & <- & Hx). eauto. Qed.

Lemma info_insert ts t y x : info ts = <[t := y]> x -> exists z, mem ts !! t = Some z /\ set_next None z = y.
Proof.
  intros E. destruct (info_inv ts t y) as (z & Hz & ->); [|eauto]. rewrite E. apply lookup_insert_eq.
Qed.

Lemma set_lock_view ts l b : view ts l -> view (set_lock ts b) l.
Proof. by intros []; split. Qed.
Lemma set_running_view ts l r : view ts l -> view (set_running ts r) l.
Proof. by intros []; split. Qed.
#[local] Hint Resolve set_lock_view set_running_view : core.

(** The guard [if (active_timer(t)) __stop_timer(t)] tests twice. *)
Lemma guarded_stop ts t x :
  mem ts !! t = Some x -> (if active_timer x then __stop_timer ts t else Ret ts) = __stop_timer ts t.
Proof. intros Hx. unfold __stop_timer. rewrite (timer_load_ok _ _ _ Hx). bret. by destruct (active_timer x). Qed.

Lemma lock_ok ts : tlock ts = false -> lock ts = Ret (set_lock ts true).
Proof. unfold lock. by intros ->. Qed.

(** [set_timer] puts the timer at the head of the list, unless it was killed. *)
Lemma set_timer_spec ts l t x e :
  view ts l -> tlock ts = false -> mem ts !! t = Some x -> function x <> None ->
  exists ts', set_timer ts t e = Ret ts' /\ tlock ts' = false /\ running ts' = running ts /\
    view ts' (if bool_decide (tstatus x = Killed) then l else t :: without t l) /\
    info ts' = <[t := MkTimer e None (function x)
                        (if bool_decide (tstatus x = Killed) then Killed else InList)]> (info ts).
Proof.
  intros Hv Hlk Hx Hfn. unfold set_timer. rewrite (lock_ok _ Hlk). bret.
  rewrite (timer_load_ok (set_lock ts true) _ _ Hx). bret.
  unfold bug_on. rewrite bool_decide_eq_false_2 by done. bret.
  destruct (__stop_timer_spec (set_lock ts true) l t x) as (ts1 & Hst & Hv1 & Hi1 & E1 & E2); [auto|done|].
  rewrite (guarded_stop (set_lock ts true) t x Hx), Hst. bret. destruct (info_insert _ _ _ _ Hi1) as (z & Hz & Ez).
  rewrite (timer_upd_ok _ _ z) by done. bret. set (ts2 := MkTimers _ _ _ _).
  assert (Hz2 : mem ts2 !! t = Some (set_expires e z)) by apply lookup_insert_eq.
  rewrite (timer_load_ok _ _ _ Hz2). bret.
  assert (Hv2 : view ts2 (without t l)) by (by eapply view_upd).
  assert (Hi2 : info ts2 = <[t := MkTimer e None (function x) (idle x)]> (info ts)).
  { unfold info. simpl. rewrite fmap_insert. fold (info ts1). rewrite Hi1, insert_insert_eq.
    f_equal. destruct z, x. simpl in *. by injection Ez as _ -> ->. }
  assert (Es : tstatus (set_expires e z) = idle x) by (destruct z; simpl in *; by injection Ez).
  assert (Hfz : function (set_expires e z) <> None) by (destruct z; simpl in *; by injection Ez as _ -> _).
  rewrite Es. unfold idle in *. destruct (bool_decide_reflect (tstatus x = Killed)) as [Ek|Ek].
  - rewrite Ek in *. simpl in *. exists (set_lock ts2 false). split; [done|]. simpl.
    split; [done|]. split; [congruence|]. split; [|done]. apply set_lock_view.
    rewrite without_notin in Hv2; [done|]. intros Hin%(view_status _ _ Hv t x Hx). congruence.
  - assert (E : (if bool_decide (tstatus x = InList) then Inactive else tstatus x) = Inactive).
    { case_bool_decide; [done|]. by destruct (tstatus x). }
    rewrite E in *. simpl.
    destruct (add_entry_spec ts2 (without t l) t _ Hv2 Hz2 Es Hfz) as (ts3 & -> & Hv3 & Hi3 & E3 & E4). bret.
    exists (set_lock ts3 false). split; [done|]. simpl. split; [done|]. split; [simpl in *; congruence|].
    split; [auto|]. change (info (set_lock ts3 false)) with (info ts3).
    rewrite Hi3, Hi2, insert_insert_eq. f_equal.
    destruct z, x; simpl in *; by injection Ez as _ -> _.
Qed.

Lemma stop_timer_spec ts l t x :
  view ts l -> tlock ts = false -> mem ts !! t = Some x ->
  exists ts', stop_timer ts t = Ret ts' /\ tlock ts' = false /\ view ts' (without t l) /\
    info ts' = <[t := set_next None (set_status (idle x) x)]> (info ts).
Proof.
  intros Hv Hlk Hx.
  destruct (__stop_timer_spec (set_lock ts true) l t x) as (ts1 & Hst & Hv1 & Hi1 & E1 & E2); [auto|done|].
  unfold stop_timer. rewrite (lock_ok _ Hlk). bret. rewrite Hst. bret.
  exists (set_lock ts1 false). repeat (split; [done || by apply set_lock_view|]). done.
Qed.

Lemma elem_of_without u t l : u ∈ without t l <-> u ∈ l /\ u <> t.
Proof. unfold without. rewrite list_elem_of_filter. tauto. Qed.

Lemma without_idemp t l : without t (t :: without t l) = without t l.
Proof.
  unfold without at 1. rewrite filter_cons_False by tauto. fold (without t (without t l)).
  apply without_notin. rewrite elem_of_without. tauto.
Qed.

(** [set_timer] on an initialised timer never faults and releases the lock:
    the timer is then pending with the new deadline wherever it was before,
    unless it was killed, in which case it stays out of the list; no other timer
    is affected; stopping it afterwards leaves the pending list as it was
    without this timer. *)
Theorem set_timer_correct ts l t x e :
  view ts l -> tlock ts = false -> mem ts !! t = Some x -> function x <> None ->
  exists ts' l', set_timer ts t e = Ret ts' /\ tlock ts' = false /\ view ts' l' /\
    (t ∈ l' <-> tstatus x <> Killed) /\ expiry ts' t = e /\
    (forall u, u <> t -> (u ∈ l' <-> u ∈ l) /\ info ts' !! u = info ts !! u) /\
    exists ts'', stop_timer ts' t = Ret ts'' /\ view ts'' (without t l).
Proof.
  intros Hv Hlk Hx Hfn. destruct (set_timer_spec _ _ _ _ e Hv Hlk Hx Hfn) as (ts' & E & Hlk' & _ & Hv' & Hi').
  exists ts'. eexists. split; [done|]. split; [done|]. split; [exact Hv'|].
  destruct (info_insert _ _ _ _ Hi') as (z & Hz & Ez).
  assert (Ht : tstatus x = Killed -> t ∉ l) by (intros Hk Hin%(view_status _ _ Hv t x Hx); congruence).
  split; [case_bool_decide; [tauto|split; [done|set_solver]]|].
  split; [unfold expiry; by rewrite Hi', lookup_insert_eq|]. split.
  - intros u Hu. split; [|rewrite Hi'; by apply lookup_insert_ne].
    case_bool_decide; [done|]. rewrite elem_of_cons, elem_of_without. tauto.
  - destruct (stop_timer_spec ts' _ t z Hv' Hlk' Hz) as (ts'' & E'' & _ & Hv'' & _). exists ts''. split; [done|].
    case_bool_decide; [done|]. by rewrite without_idemp in Hv''.
Qed.

(** [stop_timer] takes a pending timer off the list, leaving it inactive,
    and does nothing to one that is not pending; [kill_timer] also takes it off
    the list and marks it killed, unless its callback is running, which panics.
    The order of the other timers and their deadlines are kept, and the lock is
    released. *)
Theorem stop_kill_correct ts l t x :
  view ts l -> tlock ts = false -> mem ts !! t = Some x ->
  (exists ts', stop_timer ts t = Ret ts' /\ tlock ts' = false /\ view ts' (without t l) /\
     info ts' = <[t := set_next None (set_status (idle x) x)]> (info ts)) /\
  (if decide (running ts = Some t) then kill_timer ts t = Fault Panic
   else exists ts', kill_timer ts t = Ret ts' /\ tlock ts' = false /\ view ts' (without t l) /\
          info ts' = <[t := set_next None (set_status Killed x)]> (info ts)).
Proof.
  intros Hv Hlk Hx. split; [by apply stop_timer_spec|].
  destruct (__stop_timer_spec (set_lock ts true) l t x) as (ts1 & Hst & Hv1 & Hi1 & E1 & E2); [auto|done|].
  unfold kill_timer, bug_on. destruct (decide (running ts = Some t)) as [Er|Er].
  { by rewrite bool_decide_eq_true_2. }
  rewrite bool_decide_eq_false_2 by done. bret. rewrite (lock_ok _ Hlk). bret.
  rewrite (timer_load_ok (set_lock ts true) _ _ Hx). bret.
  rewrite (guarded_stop (set_lock ts true) t x Hx), Hst. bret. destruct (info_insert _ _ _ _ Hi1) as (z & Hz & Ez).
  rewrite (timer_upd_ok _ _ z) by done. bret. eexists. split; [done|]. split; [done|]. split.
  + apply (set_lock_view (MkTimers _ _ _ _)). eapply view_upd; [done..| |done]. simpl.
    split; [done|]. intros Hin%(view_status _ _ Hv1 t z Hz). unfold without in Hin.
    apply list_elem_of_filter in Hin. tauto.
  + unfold info. simpl. rewrite fmap_insert. fold (info ts1). rewrite Hi1, insert_insert_eq.
    f_equal. destruct z, x. simpl in *. by injection Ez as -> -> _.
Qed.

(** ** The softirq *)
(** What the softirq relies on: a callback may arm timers (its own included),
    before the end of time, but leaves the timers that are pending alone. *)
Class TimerCallback (callback : Z -> Z -> timers -> outcome timers) : Prop := {
  callback_frame : forall ts l t x fn,
    view ts l -> tlock ts = false -> mem ts !! t = Some x -> tstatus x = Inactive -> function x = Some fn ->
    exists ts' new, callback fn t ts = Ret ts' /\ tlock ts' = false /\ view ts' (new ++ l) /\
      (forall u, u ∈ l -> info ts' !! u = info ts !! u) /\
      (forall u, u ∈ new -> expiry ts' u < STIME_MAX)
}.

Lemma expiry_ok ts t x : mem ts !! t = Some x -> expiry ts t = expires x.
Proof. intros Hx. unfold expiry, info. rewrite lookup_fmap, Hx. by destruct x. Qed.

Lemma expiry_info ts ts' t : info ts' !! t = info ts !! t -> expiry ts' t = expiry ts t.
Proof. unfold expiry. by intros ->. Qed.

Lemma linked_next m h l1 t l2 x :
  linked m h (l1 ++ t :: l2) -> m !! t = Some x -> list_next x = head l2.
Proof.
  revert h. induction l1 as [|u l1 IH]; intros h; simpl.
  - intros (-> & y & Hy & Hl) Hx. assert (y = x) as -> by congruence.
    destruct l2 as [|v l2]; [done|by destruct Hl].
  - intros (-> & y & Hy & Hl) Hx. by apply (IH _ Hl).
Qed.

Lemma linked_hd m h l : linked m h l -> h = head l.
Proof. destruct l; [done|by intros [-> _]]. Qed.

Section softirq_correct.
Context (callback : Z -> Z -> timers -> outcome timers) `{!TimerCallback callback}.

(** Taking one expired timer off the list and running it. *)
Lemma expire_one ts pre t rest :
  view ts (pre ++ t :: rest) -> tlock ts = true ->
  exists ts1 ts2 new, remove_entry ts t = Ret ts1 /\ execute_timer callback ts1 t = Ret ts2 /\
    tlock ts2 = true /\ view ts2 (new ++ pre ++ rest) /\
    (forall u, u ∈ pre ++ rest -> info ts2 !! u = info ts !! u) /\
    (forall u, u ∈ new -> expiry ts2 u < STIME_MAX).
Proof.
  intros Hv Hlk. destruct (linked_in _ _ _ t (view_linked _ _ Hv)) as [x Hx]; [set_solver|].
  destruct (remove_entry_spec _ _ _ _ x Hv Hx) as (ts1 & E1 & Hv1 & Hi1 & El & Er).
  destruct (info_insert _ _ _ _ Hi1) as (z & Hz & Ez). pose proof (same_status _ _ Ez) as [Es Ef].
  destruct (function z) as [fn|] eqn:Efn.
  2:{ exfalso. apply (view_function _ _ Hv t x Hx); [set_solver|]. by rewrite Ef. }
  destruct (callback_frame (set_lock (set_running ts1 (Some t)) false) (pre ++ rest) t z fn)
    as (ts2 & new & E2 & El2 & Hv2 & Hi2 & Hn); [by auto|done..|].
  exists ts1, (set_running (set_lock ts2 true) None), new. split; [done|]. split.
  { unfold execute_timer. rewrite (timer_load_ok _ _ _ Hz). bret. rewrite Efn. simpl.
    rewrite E2. bret. by rewrite (lock_ok _ El2). }
  split; [done|]. split; [by auto|]. split; [|done].
  intros u Hu. change (info (set_running _ _)) with (info ts2). rewrite (Hi2 u Hu).
  change (info (set_lock _ _)) with (info ts1). rewrite Hi1.
  apply lookup_insert_ne. intros <-. pose proof (view_nodup _ _ Hv) as Hnd.
  rewrite <- Permutation_middle in Hnd. by apply NoDup_cons in Hnd as [? _].
Qed.

(** The walk: [E] gives the deadlines of the timers still to be visited. *)
Lemma expire_loop_spec E now fuel ts pre rest done :
  view ts (pre ++ rest) -> tlock ts = true -> (length rest < fuel)%nat ->
  (forall u, u ∈ rest -> expiry ts u = E u) ->
  exists ts' new, expire_loop callback fuel ts (head rest) now done
      = Ret (ts', reverse (filter (fun u => E u <= now) rest) ++ done) /\
    tlock ts' = true /\ view ts' (new ++ pre ++ filter (fun u => ~ E u <= now) rest) /\
    (forall u, u ∈ pre ++ filter (fun u => ~ E u <= now) rest -> info ts' !! u = info ts !! u) /\
    (forall u, u ∈ new -> expiry ts' u < STIME_MAX).
Proof.
  revert fuel ts pre done. induction rest as [|t rest IH]; intros fuel ts pre done Hv Hlk Hf HE;
    (destruct fuel as [|fuel]; [simpl in Hf; lia|]).
  - exists ts, []. repeat split; try done; try apply Hv; set_solver.
  - simpl in Hf. destruct (linked_in _ _ _ t (view_linked _ _ Hv)) as [x Hx]; [set_solver|].
    cbn [expire_loop head]. rewrite (timer_load_ok _ _ _ Hx). bret.
    rewrite (linked_next _ _ _ _ _ _ (view_linked _ _ Hv) Hx), <- (expiry_ok _ _ _ Hx), HE by set_solver.
    destruct (Z.leb_spec (E t) now) as [Hle|Hgt].
    + destruct (expire_one _ _ _ _ Hv Hlk) as (ts1 & ts2 & new & -> & E2 & Hl2 & Hv2 & Hi2 & Hn). bret.
      rewrite E2. bret. rewrite filter_cons_True, filter_cons_False by tauto.
      rewrite app_assoc in Hv2.
      destruct (IH fuel ts2 (new ++ pre) (t :: done) Hv2 Hl2 ltac:(lia)) as (ts' & new' & -> & H1 & H2 & H3 & H4).
      { intros u Hu. rewrite <- HE by set_solver. apply expiry_info, Hi2. set_solver. }
      exists ts', (new' ++ new). rewrite reverse_cons, <- app_assoc. split; [done|]. split; [done|].
      split; [by rewrite <- !app_assoc in *|]. split.
      * intros u Hu. rewrite H3 by (rewrite !elem_of_app in *; tauto). apply Hi2.
        apply elem_of_app. apply elem_of_app in Hu as [?|[_ ?]%list_elem_of_filter]; tauto.
      * intros u [Hu|Hu]%elem_of_app; [by apply H4|].
        rewrite (expiry_info ts2) by (apply H3; rewrite !elem_of_app; tauto). by apply Hn.
    + rewrite filter_cons_False, filter_cons_True by lia.
      destruct (IH fuel ts (pre ++ [t]) done) as (ts' & new' & -> & H1 & H2 & H3 & H4);
        [by rewrite <- app_assoc|done|lia|set_solver|].
      rewrite <- !app_assoc in *. exists ts', new'. done.
Qed.

Lemma earliest_spec ts h l fuel start :
  linked (mem ts) h l -> (length l < fuel)%nat -> (forall u, u ∈ l -> expiry ts u < STIME_MAX) ->
  from_option (fun s => is_Some (mem ts !! s)) True start ->
  exists s, earliest fuel ts h start = Ret s /\
    match s with
    | None => l = [] /\ start = None
    | Some s => (s ∈ l \/ start = Some s) /\ (forall u, u ∈ l \/ start = Some u -> expiry ts s <= expiry ts u)
    end.
Proof.
  revert h fuel start. induction l as [|t l IH]; intros h fuel start Hl Hf HM Hs; (destruct fuel as [|fuel]; [simpl in Hf; lia|]).
  - rewrite Hl. exists start. split; [done|]. destruct start as [s|]; [|done].
    split; [by right|]. intros u [Hu|Hu]; [set_solver|]. by simplify_eq.
  - destruct Hl as (-> & x & Hx & Hl). simpl in Hf. cbn [earliest]. rewrite (timer_load_ok _ _ _ Hx). bret.
    rewrite <- (expiry_ok _ _ _ Hx). pose proof (HM t ltac:(set_solver)) as Ht.
    assert (Hrec : forall st, from_option (fun s => is_Some (mem ts !! s)) True st ->
      (start = None /\ st = Some t \/ exists s0, start = Some s0 /\
         st = Some (if expiry ts t <? expiry ts s0 then t else s0)) ->
      exists s, earliest fuel ts (list_next x) st = Ret s /\
      match s with
      | None => t :: l = [] /\ start = None
      | Some s => (s ∈ t :: l \/ start = Some s) /\ (forall u, u ∈ t :: l \/ start = Some u -> expiry ts s <= expiry ts u)
      end).
    { intros st Hst Hcase. destruct (IH (list_next x) fuel st Hl ltac:(lia)) as (s & Es & Hsp);
        [intros u Hu; apply HM, elem_of_cons; by right|done|].
      exists s. split; [done|]. destruct s as [s|].
      2:{ destruct Hsp as [_ ->]. by destruct Hcase as [[? ?]|(? & ? & ?)]. }
      destruct Hsp as [Hin Hmin]. destruct Hcase as [[-> ->]|(s0 & -> & ->)].
      - split; [left; apply elem_of_cons; destruct Hin as [?|[= <-]]; [by right|by left]|].
        intros u [[->|Hu]%elem_of_cons|Hu]; [by apply Hmin; right|by apply Hmin; left|done].
      - pose proof (Hmin _ (or_intror eq_refl)) as Hm. split.
        + destruct Hin as [?|[= <-]]; [left; by apply elem_of_cons; right|].
          case_match; [left; by apply elem_of_cons; left|by right].
        + destruct (Z.ltb_spec (expiry ts t) (expiry ts s0));
            intros u [[->|Hu]%elem_of_cons|[= <-]]; try lia; by apply Hmin; left. }
    destruct start as [s0|].
    + destruct Hs as [y Hy]. rewrite bool_decide_eq_false_2 by done. cbn [andb deref]. bret.
      rewrite (timer_load_ok _ _ _ Hy). bret. rewrite <- (expiry_ok _ _ _ Hy).
      assert (Heq : (if expiry ts t <? expiry ts s0 then Some t else Some s0)
                    = Some (if expiry ts t <? expiry ts s0 then t else s0)) by (by case_match).
      rewrite Heq. apply Hrec; [simpl; case_match; eauto|right; eauto].
    + rewrite bool_decide_eq_true_2 by done. rewrite (proj2 (Z.ltb_lt _ _) Ht). cbn [andb]. bret.
      apply Hrec; [simpl; eauto|by left].
Qed.
Lemma softirq_pass_spec ts l now :
  view ts l -> tlock ts = true -> (forall u, u ∈ l -> expiry ts u < STIME_MAX) ->
  exists ts' new s, softirq_pass callback ts now
      = Ret (ts', reverse (filter (fun u => expiry ts u <= now) l), s) /\
    tlock ts' = true /\ view ts' (new ++ filter (fun u => ~ expiry ts u <= now) l) /\
    (forall u, u ∈ new -> expiry ts' u < STIME_MAX) /\
    (forall u, u ∈ l -> now < expiry ts u -> info ts' !! u = info ts !! u) /\
    match s with
    | None => new ++ filter (fun u => ~ expiry ts u <= now) l = []
    | Some s => s ∈ new ++ filter (fun u => ~ expiry ts u <= now) l /\
                (forall u, u ∈ new ++ filter (fun u => ~ expiry ts u <= now) l -> expiry ts' s <= expiry ts' u)
    end.
Proof.
  intros Hv Hlk HM. unfold softirq_pass. rewrite (linked_hd _ _ _ (view_linked _ _ Hv)).
  destruct (expire_loop_spec (expiry ts) now (fuel_of ts) ts [] l []) as (ts' & new & -> & H1 & H2 & H3 & H4);
    [done..|by apply view_length|done|].
  bret. rewrite app_nil_r. cbn [app] in H2, H3. cbv beta iota.
  destruct (earliest_spec ts' (thead ts') _ (fuel_of ts') None (view_linked _ _ H2) (view_length _ _ H2)) as (s & Es & Hs).
  { intros u [Hu|Hu]%elem_of_app; [by apply H4|]. rewrite (expiry_info ts) by (by apply H3).
    apply list_elem_of_filter in Hu as [_ Hu]. by apply HM. }
  { done. }
  rewrite Es. bret. exists ts', new, s. do 4 (split; [done|]). split.
  - intros u Hu Hlt. apply H3, list_elem_of_filter. split; [lia|done].
  - destruct s as [s|]; [|by destruct Hs]. destruct Hs as [[Hin|?] Hmin]; [|done]. split; [done|]. eauto.
Qed.

(** The last of the deadlines [dl] is that of a pending timer, and none is due before it. *)
Definition programmed ts (l dl : list Z) : Prop :=
  match dl with
  | [] => l = []
  | d :: _ => exists s, s ∈ l /\ expiry ts s = d /\ forall u, u ∈ l -> d <= expiry ts u
  end.

Lemma pass_deadline (b : bool) ts' l s : view ts' l -> s ∈ l -> (forall u, u ∈ l -> expiry ts' s <= expiry ts' u) ->
  exists x, load ts' s = Ret x /\ forall dl, programmed (set_lock ts' b) l (expires x :: dl).
Proof.
  intros Hv Hin Hmin. destruct (linked_in _ _ _ s (view_linked _ _ Hv) Hin) as [x Hx]. exists x. split; [by apply timer_load_ok|].
  intros dl. exists s. split; [done|]. change (expiry (set_lock ts' b)) with (expiry ts'). rewrite <- (expiry_ok _ _ _ Hx). done.
Qed.

(** C37: one pass of the timer softirq (the device accepts the deadline), when every pending
    deadline is below the end of time and the callbacks return, may arm timers but leave the
    pending ones alone ([TimerCallback]): it runs the callbacks of exactly the expired timers, each
    once and in list order; the others stay pending in their order with their deadlines, behind
    those the callbacks armed; the lock is released; and if any timer is pending then, exactly one
    deadline is handed to the device, that of a pending timer with none due before it. *)
Theorem timer_softirq_runs_expired ts l now :
  view ts l -> tlock ts = false -> (forall u, u ∈ l -> expiry ts u < STIME_MAX) ->
  exists ts' new dl, timer_softirq_action callback [(now, false)] ts
      = Ret (ts', reverse (filter (fun u => expiry ts u <= now) l), dl) /\
    tlock ts' = false /\ view ts' (new ++ filter (fun u => ~ expiry ts u <= now) l) /\
    (forall u, u ∈ l -> now < expiry ts u -> info ts' !! u = info ts !! u) /\
    programmed ts' (new ++ filter (fun u => ~ expiry ts u <= now) l) dl /\ (length dl <= 1)%nat.
Proof.
  intros Hv Hlk HM. unfold timer_softirq_action. rewrite (lock_ok _ Hlk). bret.
  destruct (softirq_pass_spec (set_lock ts true) l now) as (ts' & new & s & E & H1 & H2 & H3 & H4 & H5);
    [by auto|done..|].
  cbn [softirq_passes]. rewrite E. bret. exists (set_lock ts' false), new. destruct s as [s|].
  - destruct H5 as [Hin Hmin]. destruct (pass_deadline false ts' _ s H2 Hin Hmin) as (x & -> & Hp). bret. exists [expires x].
    split; [by rewrite app_nil_r|]. split; [done|]. split; [by auto|]. split; [done|]. split; [apply Hp|done].
  - exists []. split; [by rewrite app_nil_r|]. split; [done|]. split; [by auto|]. split; [done|]. split; [exact H5|cbn; lia].
Qed.

Lemma softirq_passes_spec nows now ts l log dl :
  view ts l -> tlock ts = true -> (forall u, u ∈ l -> expiry ts u < STIME_MAX) ->
  exists ts' l' log' dl', softirq_passes callback (((fun n => (n, true)) <$> nows) ++ [(now, false)]) ts log dl
      = Ret (ts', log' ++ log, dl') /\ view ts' l' /\ (l' <> [] -> programmed (set_lock ts' false) l' dl') /\
    (forall u, u ∈ l -> expiry ts u <= hd now nows -> u ∈ log') /\
    (forall u, u ∈ l -> (forall n, n ∈ nows ++ [now] -> n < expiry ts u) -> u ∈ l' /\ info ts' !! u = info ts !! u).
Proof.
  revert ts l log dl. induction nows as [|n nows IH]; intros ts l log dl Hv Hlk HM.
  - destruct (softirq_pass_spec ts l now) as (ts' & new & s & E & H1 & H2 & H3 & H4 & H5); [done..|].
    assert (Hs : exists dl', softirq_passes callback [(now, false)] ts log dl = Ret (ts', reverse (filter (fun u => expiry ts u <= now) l) ++ log, dl') /\
      (new ++ filter (fun u => ~ expiry ts u <= now) l <> [] -> programmed (set_lock ts' false) (new ++ filter (fun u => ~ expiry ts u <= now) l) dl')).
    { cbn [softirq_passes]. rewrite E. bret. destruct s as [s|]; [|by exists dl]. destruct H5 as [Hin Hmin].
      destruct (pass_deadline false ts' _ s H2 Hin Hmin) as (x & -> & Hp). bret. exists (expires x :: dl). split; [done|]. intros _. apply Hp. }
    destruct Hs as (dl' & Es & Hp).
    exists ts', (new ++ filter (fun u => ~ expiry ts u <= now) l), (reverse (filter (fun u => expiry ts u <= now) l)), dl'.
    split; [exact Es|]. split; [done|]. split; [exact Hp|]. split.
    + intros u Hu Hle. apply elem_of_reverse, list_elem_of_filter. done.
    + intros u Hu Hn. assert (now < expiry ts u) by (apply Hn; set_solver). split; [|by apply H4].
      apply elem_of_app; right. apply list_elem_of_filter. split; [lia|done].
  - destruct (softirq_pass_spec ts l n) as (ts' & new & s & E & H1 & H2 & H3 & H4 & H5); [done..|].
    cbn [softirq_passes fmap list_fmap app]. rewrite E. bret.
    assert (Hdue : forall u, u ∈ l -> expiry ts u <= n -> u ∈ reverse (filter (fun u => expiry ts u <= n) l)).
    { intros u Hu Hle. apply elem_of_reverse, list_elem_of_filter. done. }
    assert (Hkeep : forall u, u ∈ l -> n < expiry ts u -> u ∈ new ++ filter (fun u => ~ expiry ts u <= n) l).
    { intros u Hu Hlt. apply elem_of_app; right. apply list_elem_of_filter. split; [lia|done]. }
    destruct s as [s|].
    + destruct H5 as [Hin Hmin]. destruct (pass_deadline false ts' _ s H2 Hin Hmin) as (x & -> & _). bret.
      destruct (IH ts' _ (reverse (filter (fun u => expiry ts u <= n) l) ++ log) (expires x :: dl) H2 H1) as (ts2 & l' & log' & dl' & -> & J1 & J0 & J2 & J3).
      { intros u [Hu|[Hn Hu]%list_elem_of_filter]%elem_of_app; [by apply H3|].
        rewrite (expiry_info ts); [by apply HM|]. apply H4; [done|lia]. }
      exists ts2, l', (log' ++ reverse (filter (fun u => expiry ts u <= n) l)), dl'. rewrite <- app_assoc.
      split; [done|]. split; [done|]. split; [done|]. split; [intros u Hu Hle; apply elem_of_app; right; by apply Hdue|].
      intros u Hu Hall. assert (Hlt : n < expiry ts u) by (apply Hall; set_solver).
      destruct (J3 u (Hkeep u Hu Hlt)) as [K1 K2].
      * intros m Hm. rewrite (expiry_info ts) by (by apply H4). apply Hall. set_solver.
      * split; [done|]. rewrite K2. by apply H4.
    + exists ts', (new ++ filter (fun u => ~ expiry ts u <= n) l), (reverse (filter (fun u => expiry ts u <= n) l)), dl.
      split; [done|]. split; [done|]. split; [done|]. split; [done|]. intros u Hu Hall.
      assert (n < expiry ts u) by (apply Hall; set_solver). eauto.
Qed.

(** C38: the timer softirq retries while the device reports that the deadline it was given has
    already passed; however many times that happens, it returns with the lock released as soon as
    one deadline is accepted, every timer that was expired at the first pass has been run, a timer
    that expires after every pass is still pending, unchanged, and the deadline the device was given
    last is that of a pending timer with none due before it.  As before, pending deadlines are below
    the end of time and callbacks leave pending timers alone. *)
Theorem timer_softirq_terminates ts l nows now :
  view ts l -> tlock ts = false -> (forall u, u ∈ l -> expiry ts u < STIME_MAX) ->
  exists ts' l' log dl, timer_softirq_action callback (((fun n => (n, true)) <$> nows) ++ [(now, false)]) ts
      = Ret (ts', log, dl) /\ tlock ts' = false /\ view ts' l' /\ (l' <> [] -> programmed ts' l' dl) /\
    (forall u, u ∈ l -> expiry ts u <= hd now nows -> u ∈ log) /\
    (forall u, u ∈ l -> (forall n, n ∈ nows ++ [now] -> n < expiry ts u) -> u ∈ l' /\ info ts' !! u = info ts !! u).
Proof.
  intros Hv Hlk HM. unfold timer_softirq_action. rewrite (lock_ok _ Hlk). bret.
  destruct (softirq_passes_spec nows now (set_lock ts true) l [] []) as (ts' & l' & log & dl & -> & H1 & H0 & H2 & H3);
    [by auto|done..|].
  bret. rewrite app_nil_r. exists (set_lock ts' false), l', log, dl. split; [done|]. split; [done|]. split; [by auto|]. split; [done|]. split; [done|exact H3].
Qed.
End softirq_correct.

(** ** The clock conversion factors *)
(** The multiplier for a shift of [s]: [to * 2^s / from], rounded to nearest. *)
Definition scaled (from to s : Z) : Z := (to * 2 ^ s + from / 2) / from.

Lemma shift_acc_spec n tmp a :
  0 <= tmp < 2 ^ Z.of_nat n -> Z.of_nat n <= a <= 32 ->
  exists r, shift_acc n tmp a = r /\ a - Z.of_nat n <= r <= a /\ tmp < 2 ^ (a - r) /\
    (tmp = 0 -> r = a) /\ (0 < tmp -> r < a /\ 2 ^ (a - r - 1) <= tmp).
Proof.
  revert tmp a. induction n as [|n IH]; intros tmp a Ht Ha.
  - exists a. change (2 ^ Z.of_nat 0) with 1 in Ht. rewrite Z.sub_diag. cbn. lia.
  - rewrite Nat2Z.inj_succ, Z.pow_succ_r in Ht by lia. cbn [shift_acc].
    destruct (Z.eqb_spec tmp 0) as [->|Hne].
    { exists a. rewrite Z.sub_diag. change (2 ^ 0) with 1. lia. }
    rewrite Z.shiftr_div_pow2, u32_small by lia. change (2 ^ 1) with 2.
    destruct (IH (tmp / 2) (a - 1)) as (r & -> & H1 & H2 & H0 & H3); [dlia|lia|].
    exists r. split; [done|]. split; [lia|].
    assert (E : 2 ^ (a - r) = 2 * 2 ^ (a - 1 - r)) by (rewrite <- Z.pow_succ_r by lia; f_equal; lia).
    split; [rewrite E; dlia|]. split; [lia|]. intros _. split; [lia|].
    destruct (decide (0 < tmp / 2)) as [Hp|Hp].
    + destruct (H3 Hp) as [H4 H5].
      assert (E' : 2 ^ (a - r - 1) = 2 * 2 ^ (a - 1 - r - 1)) by (rewrite <- Z.pow_succ_r by lia; f_equal; lia).
      rewrite E'. dlia.
    + rewrite H0 by dlia. replace (a - (a - 1) - 1) with 0 by lia. lia.
Qed.

Lemma wshl_small x n : 0 <= x < 2 ^ 32 -> 0 <= n <= 32 -> wshl 64 x n = x * 2 ^ n.
Proof.
  intros Hx Hn. unfold wshl. rewrite Z.land_ones, Z.shiftl_mul_pow2 by lia. apply Z.mod_small.
  assert (2 ^ n <= 2 ^ 32) by (apply Z.pow_le_mono_r; lia). assert (0 < 2 ^ n) by (apply Z.pow_pos_nonneg; lia). nia.
Qed.

Lemma mult_step from to n sftacc :
  0 < from < 2 ^ 32 -> 0 <= to < 2 ^ 32 -> 0 <= n <= 32 -> 0 <= sftacc ->
  let tmp := u64 (wshl 64 to n + from / 2) / from in
  tmp = scaled from to n /\ 0 <= tmp /\ (Z.shiftr tmp sftacc = 0 <-> tmp < 2 ^ sftacc).
Proof.
  intros Hf Ht Hn Ha tmp. assert (H2 : 2 ^ n <= 2 ^ 32) by (apply Z.pow_le_mono_r; lia).
  assert (0 < 2 ^ n) by (apply Z.pow_pos_nonneg; lia).
  assert (E : tmp = scaled from to n).
  { subst tmp. rewrite wshl_small by lia. assert (0 <= from / 2 < 2 ^ 31) by dlia.
    rewrite u64_small by nia. done. }
  assert (0 <= tmp) by (rewrite E; unfold scaled; apply Z.div_pos; [|lia]; assert (0 <= from / 2) by dlia; nia).
  assert (0 < 2 ^ sftacc) by (apply Z.pow_pos_nonneg; lia).
  split; [done|]. split; [done|]. rewrite Z.shiftr_div_pow2 by lia. rewrite Z.div_small_iff by lia. lia.
Qed.

Lemma mult_loop_spec n from to sftacc tmp0 :
  0 < from < 2 ^ 32 -> 0 <= to < 2 ^ 32 -> 0 <= sftacc -> (1 <= n <= 32)%nat ->
  scaled from to 1 < 2 ^ sftacc ->
  exists s, mult_loop n from to sftacc tmp0 = (scaled from to s, s) /\ 1 <= s <= Z.of_nat n /\
    0 <= scaled from to s < 2 ^ sftacc /\
    (forall s', s < s' <= Z.of_nat n -> 2 ^ sftacc <= scaled from to s').
Proof.
  intros Hf Ht Ha. revert tmp0. induction n as [|n IH]; intros tmp0 Hn H1; [lia|]. cbn [mult_loop].
  destruct (mult_step from to (Z.of_nat (S n)) sftacc Hf Ht ltac:(lia) Ha) as (E & Hp & Hiff). revert E Hp Hiff.
  set (tmp := u64 _ / from). cbv zeta. intros E Hp Hiff.
  destruct (Z.eqb_spec (Z.shiftr tmp sftacc) 0) as [Hz|Hz].
  - exists (Z.of_nat (S n)). apply Hiff in Hz. rewrite <- E. repeat split; lia.
  - rewrite Hiff in Hz. destruct n as [|n]; [change (Z.of_nat 1) with 1 in E; lia|].
    destruct (IH tmp ltac:(lia) H1) as (s & Es & Hs & Hr & Hm). exists s. split; [done|].
    split; [lia|]. split; [done|]. intros s' Hs'.
    destruct (decide (s' = Z.of_nat (S (S n)))) as [->|]; [lia|apply Hm; lia].
Qed.

(** C39: for frequencies and a range in the practical domain (a target below
    2 GHz, a range such that twice the target plus the source over it stays
    below 2^63), [clocks_calc_mult_shift] returns a pair with a
    positive shift for which the conversion of the whole range stays below
    2^64, the scaled factor is the nearest one, and no larger shift up to 32 has
    a multiplier within the bits the range leaves. *)
Theorem clocks_calc_mult_shift_correct from to maxsec mult shift :
  0 < from < 2 ^ 32 -> 0 <= to < 2 ^ 31 -> 0 <= maxsec < 2 ^ 32 -> maxsec * (2 * to + from) < 2 ^ 63 ->
  clocks_calc_mult_shift from to maxsec = (mult, shift) ->
  1 <= shift <= 32 /\ 0 <= mult < 2 ^ 32 /\ maxsec * from * mult < 2 ^ 64 /\
  2 * Z.abs (mult * from - to * 2 ^ shift) <= from /\
  exists bits, 0 <= bits <= 32 /\ 2 ^ 63 <= Z.max (2 ^ 31) (maxsec * from) * 2 ^ bits /\
    forall s, shift < s <= 32 -> 2 ^ bits <= scaled from to s.
Proof.
  intros Hf Ht Hm Hr. unfold clocks_calc_mult_shift.
  assert (HP : 0 <= maxsec * from < 2 ^ 64) by nia. rewrite u64_small by done.
  rewrite Z.shiftr_div_pow2 by lia. set (P := maxsec * from) in *.
  assert (HT : 0 <= P / 2 ^ 32 < 2 ^ Z.of_nat 32) by (change (2 ^ Z.of_nat 32) with (2 ^ 32); dlia).
  destruct (shift_acc_spec 32 (P / 2 ^ 32) 32 HT ltac:(lia)) as (acc & -> & Hacc & Hlt & H0 & Hge).
  change (32 - Z.of_nat 32) with 0 in Hacc.
  assert (Hp : 2 ^ acc * 2 ^ (32 - acc) = 2 ^ 32) by (rewrite <- Z.pow_add_r by lia; f_equal; lia).
  assert (Ha : 0 < 2 ^ acc) by (apply Z.pow_pos_nonneg; lia).
  assert (Hbits : 2 ^ 63 <= Z.max (2 ^ 31) P * 2 ^ acc).
  { destruct (decide (0 < P / 2 ^ 32)) as [Hpos|Hz]; [|rewrite H0 by lia; lia].
    destruct (Hge Hpos) as [Hg1 Hg2].
    assert (E : 2 * 2 ^ (32 - acc - 1) = 2 ^ (32 - acc)) by (rewrite <- Z.pow_succ_r by lia; f_equal; lia).
    assert (2 ^ 32 * 2 ^ (32 - acc - 1) <= P) by dlia. nia. }
  destruct (mult_loop_spec 32 from to acc (P / 2 ^ 32)) as (s & -> & Hs & Hr1 & Hmax); [lia..| |].
  { unfold scaled. change (2 ^ 1) with 2. apply Z.div_lt_upper_bound; [lia|].
    destruct (Z.max_spec (2 ^ 31) P) as [[? E]|[? E]]; rewrite E in Hbits.
    - assert (HH : maxsec * (to * 2 + from / 2) < maxsec * (from * 2 ^ acc)); [|nia].
      assert (maxsec * (to * 2 + from / 2) <= maxsec * (2 * to + from)) by (apply Z.mul_le_mono_nonneg_l; [lia|dlia]).
      subst P. lia.
    - assert (2 ^ 32 <= 2 ^ acc) by lia. assert (from / 2 < from) by dlia. nia. }
  intros [= <- <-]. rewrite u32_small by (assert (2 ^ acc <= 2 ^ 32) by (apply Z.pow_le_mono_r; lia); lia).
  split; [lia|]. split; [assert (2 ^ acc <= 2 ^ 32) by (apply Z.pow_le_mono_r; lia); lia|]. split.
  { assert (P < 2 ^ 32 * 2 ^ (32 - acc)) by dlia. nia. }
  split; [unfold scaled; dlia|]. exists acc. split; [lia|]. split; [done|]. intros s' Hs'. apply Hmax. lia.
Qed.

(** ** Callbacks *)
(** [delay_handler] (so3/kernel/delay.c) only changes the thread it wakes up. *)
Definition delay_handler (fn t : Z) (ts : timers) : outcome timers := Ret ts.
#[global] Instance delay_handler_callback : TimerCallback delay_handler.
Proof. split. intros ts l t x fn Hv Hlk Hx Hst Hfn. exists ts, []. set_solver. Qed.

(** A periodic timer arms itself again. *)
Definition rearm (e fn t : Z) (ts : timers) : outcome timers := set_timer ts t e.
Lemma rearm_callback e : e < STIME_MAX -> TimerCallback (rearm e).
Proof.
  intros He. split. intros ts l t x fn Hv Hlk Hx Hst Hfn.
  destruct (set_timer_spec ts l t x e Hv Hlk Hx) as (ts' & E & Hlk' & _ & Hv' & Hi'); [congruence|].
  assert (Ht : t ∉ l) by (intros Hin%(view_status _ _ Hv t x Hx); congruence).
  rewrite Hst, bool_decide_eq_false_2, without_notin in Hv' by done.
  exists ts', [t]. split; [done|]. split; [done|]. split; [done|]. split.
  - intros u Hu. rewrite Hi'. apply lookup_insert_ne. by intros <-.
  - intros u ->%list_elem_of_singleton. unfold expiry. by rewrite Hi', lookup_insert_eq.
Qed.

(** *** Witnesses *)
(** Timers 1 and 3 pending in that order, 2 inactive, 4 killed. *)
Definition ex_timers : timers :=
  MkTimers false (Some 1) None
    (list_to_map [(1, MkTimer 100 (Some 3) (Some 7) InList); (2, MkTimer 0 None (Some 7) Inactive);
                  (3, MkTimer 50 None (Some 7) InList); (4, MkTimer 0 None (Some 7) Killed)]).

Lemma ex_lookup t x : mem ex_timers !! t = Some x ->
  (t = 1 /\ x = MkTimer 100 (Some 3) (Some 7) InList) \/ (t = 2 /\ x = MkTimer 0 None (Some 7) Inactive) \/
  (t = 3 /\ x = MkTimer 50 None (Some 7) InList) \/ (t = 4 /\ x = MkTimer 0 None (Some 7) Killed).
Proof. intros Hx%elem_of_list_to_map_2. set_solver. Qed.

Lemma ex_view : view ex_timers [1; 3].
Proof.
  split.
  - vm_compute. eauto 10.
  - apply (bool_decide_eq_true_1 (NoDup [1; 3])). by vm_compute.
  - intros t x [[-> ->]|[[-> ->]|[[-> ->]|[-> ->]]]]%ex_lookup; simpl; set_solver.
  - intros t x [[-> ->]|[[-> ->]|[[-> ->]|[-> ->]]]]%ex_lookup Hin; simpl; done.
Qed.

Lemma ex_expiry u : u ∈ [1; 3] -> expiry ex_timers u < STIME_MAX.
Proof. intros [->| ->%list_elem_of_singleton]%elem_of_cons; by vm_compute. Qed.

Lemma set_timer_correct_witness :
  exists ts' l', set_timer ex_timers 2 70 = Ret ts' /\ view ts' l' /\ 2 ∈ l' /\ expiry ts' 2 = 70.
Proof.
  destruct (set_timer_correct ex_timers [1; 3] 2 (MkTimer 0 None (Some 7) Inactive) 70)
    as (ts' & l' & E & _ & Hv & Hin & He & _); [exact ex_view|reflexivity|reflexivity|done|].
  exists ts', l'. split; [done|]. split; [done|]. split; [by apply Hin|done].
Defined.

Lemma stop_kill_correct_witness :
  exists ts', stop_timer ex_timers 1 = Ret ts' /\ tlock ts' = false /\ view ts' [3].
Proof.
  destruct (stop_kill_correct ex_timers [1; 3] 1 (MkTimer 100 (Some 3) (Some 7) InList))
    as [(ts' & E & Hl & Hv & _) _]; [exact ex_view|reflexivity|reflexivity|].
  exists ts'. done.
Defined.

Lemma timer_softirq_runs_expired_witness :
  exists ts' new dl, timer_softirq_action (rearm 200) [(60, false)] ex_timers = Ret (ts', [3], dl) /\ view ts' (new ++ [1]) /\ programmed ts' (new ++ [1]) dl.
Proof.
  destruct (@timer_softirq_runs_expired (rearm 200) (rearm_callback 200 ltac:(reflexivity)) ex_timers [1; 3] 60)
    as (ts' & new & dl & E & _ & Hv & _ & Hp & _); [exact ex_view|reflexivity|exact ex_expiry|].
  exists ts', new, dl. done.
Defined.

Lemma timer_softirq_terminates_witness :
  exists ts' l' log dl, timer_softirq_action delay_handler [(60, true); (70, false)] ex_timers = Ret (ts', log, dl) /\
    view ts' l' /\ 3 ∈ log /\ 1 ∈ l'.
Proof.
  destruct (@timer_softirq_terminates delay_handler _ ex_timers [1; 3] [60] 70)
    as (ts' & l' & log & dl & E & _ & Hv & _ & H1 & H2); [exact ex_view|reflexivity|exact ex_expiry|].
  exists ts', l', log, dl. split; [done|]. split; [done|]. split.
  - apply H1; [set_solver|by vm_compute].
  - apply H2; [set_solver|]. intros n [->| ->%list_elem_of_singleton]%elem_of_cons; by vm_compute.
Defined.

(** A 62.5 MHz counter converted to nanoseconds over an hour, as
    so3/devices/timer/arm_timer.c does. *)
Lemma clocks_calc_mult_shift_correct_witness :
  clocks_calc_mult_shift 62500000 1000000000 3600 = (33554432, 21) /\
  3600 * 62500000 * 33554432 < 2 ^ 64.
Proof.
  assert (E : clocks_calc_mult_shift 62500000 1000000000 3600 = (33554432, 21)) by (vm_compute; reflexivity).
  split; [done|].
  by destruct (clocks_calc_mult_shift_correct 62500000 1000000000 3600 _ _ ltac:(lia) ltac:(lia) ltac:(lia) ltac:(lia) E)
    as (_ & _ & H & _).
Defined.

(** *** What the code does outside these contracts *)
(** A callback that stops the timer the walk visits next: the saved pointer
    reaches an inactive timer, and [remove_entry] panics. *)
Example callback_stops_next_panics :
  timer_softirq_action (fun _ t ts => if t =? 1 then stop_timer ts 3 else Ret ts) [(100, false)] ex_timers = Fault Panic.
Proof. vm_compute. reflexivity. Qed.

(** A pending timer set to [STIME_MAX] at the head of the list: [start] is still
    null when its deadline is compared. *)
Example earliest_null_start :
  timer_softirq_action delay_handler [(0, false)]
    (MkTimers false (Some 1) None {[1 := MkTimer STIME_MAX None (Some 7) InList]}) = Fault Undef.
Proof. vm_compute. reflexivity. Qed.

(** [tv_nsec] receives the whole time, seconds included, and [do_nanosleep]
    forgets the seconds of a request that has nanoseconds. *)
Example time_interface :
  do_get_time_of_day false 5000000001 = Some (5, 5000000001) /\
  do_get_clock_time 1 false 5000000001 = Some (5, 5000000001) /\ do_nanosleep 3 1 = Some 1.
Proof. vm_compute. done. Qed.

End Timer.
