(* ===== verification/Ring.v ===== *)
(** Shared rings between a frontend and a backend driver
    (so3/soo/include/soo/ring.h, with so3/soo/drivers/vuartfront/vuart.c).

    A ring is a page shared by two domains: slots that hold a request and a response,
    and for each direction a producer and a consumer index, 32-bit numbers that are
    never reduced.  An operation that returns a pointer into the page returns the number
    of its slot; writing or reading through the pointer is a step of its own, so the
    other side may act in between. *)
From S2P Require Import Prelude.

Module Ring.

(** ** The size of a ring *)
Definition __RD2 (x : Z) : Z := if Z.land x 2 =? 0 then Z.land x 1 else 2.
Definition __RD4 (x : Z) : Z := if Z.land x 12 =? 0 then __RD2 x else Z.shiftl (__RD2 (Z.shiftr x 2)) 2.
Definition __RD8 (x : Z) : Z := if Z.land x 240 =? 0 then __RD4 x else Z.shiftl (__RD4 (Z.shiftr x 4)) 4.
Definition __RD16 (x : Z) : Z := if Z.land x 65280 =? 0 then __RD8 x else Z.shiftl (__RD8 (Z.shiftr x 8)) 8.
Definition __RD32 (x : Z) : Z := if Z.land x 4294901760 =? 0 then __RD16 x else Z.shiftl (__RD16 (Z.shiftr x 16)) 16.
(** [off] is the offset of the slots in the page, [ent] the size of one. *)
Definition __RING_SIZE (sz off ent : Z) : Z := __RD32 ((sz - off) / ent).

(** ** Data *)
Record sring_entry {Req Rsp : Type} := Entry { req : Req; rsp : Rsp }.
Arguments sring_entry : clear implicits.
Arguments Entry {Req Rsp} req rsp.
Record sring {Req Rsp : Type} := Sring { req_prod : Z; req_cons : Z; rsp_prod : Z; rsp_cons : Z; ring : list (sring_entry Req Rsp) }.
Arguments sring : clear implicits.
Arguments Sring {Req Rsp} req_prod req_cons rsp_prod rsp_cons ring.
Record front_ring := Front { req_prod_pvt : Z; f_nr_ents : Z }.
Record back_ring := Back { rsp_prod_pvt : Z; b_nr_ents : Z }.
(** The page and the private parts of its two ends. *)
Record rings {Req Rsp : Type} := Rings { page : sring Req Rsp; front : front_ring; back : back_ring }.
Arguments rings : clear implicits.
Arguments Rings {Req Rsp} page front back.

Section ring.
Context {Req Rsp : Type}.
Implicit Types (s : rings Req Rsp) (p : sring Req Rsp).

Definition on_page (f : sring Req Rsp -> sring Req Rsp) s : rings Req Rsp := Rings (f (page s)) (front s) (back s).
Definition set_front f s : rings Req Rsp := Rings (page s) f (back s).
Definition set_back b s : rings Req Rsp := Rings (page s) (front s) b.
Definition set_req_prod v p : sring Req Rsp := Sring v (req_cons p) (rsp_prod p) (rsp_cons p) (ring p).
Definition set_req_cons v p : sring Req Rsp := Sring (req_prod p) v (rsp_prod p) (rsp_cons p) (ring p).
Definition set_rsp_prod v p : sring Req Rsp := Sring (req_prod p) (req_cons p) v (rsp_cons p) (ring p).
Definition set_rsp_cons v p : sring Req Rsp := Sring (req_prod p) (req_cons p) (rsp_prod p) v (ring p).
Definition set_ring l p : sring Req Rsp := Sring (req_prod p) (req_cons p) (rsp_prod p) (rsp_cons p) l.

(** ** Initialisation *)
Definition SHARED_RING_INIT : kern (rings Req Rsp) unit := modify (on_page (fun p => Sring 0 0 0 0 (ring p))).
Definition FRONT_RING_INIT (sz off ent : Z) : kern (rings Req Rsp) unit := modify (set_front (Front 0 (__RING_SIZE sz off ent))).
Definition BACK_RING_INIT (sz off ent : Z) : kern (rings Req Rsp) unit := modify (set_back (Back 0 (__RING_SIZE sz off ent))).

(** ** Indexes *)
Definition slot_of (idx nr_ents : Z) : Z := Z.land idx (u32 (nr_ents - 1)).
Definition RING_FREE_REQUESTS s : Z := u32 (f_nr_ents (front s) - u32 (req_prod_pvt (front s) - req_cons (page s))).
Definition RING_REQ_FULL s : bool := RING_FREE_REQUESTS s =? 0.
Definition RING_FREE_RESPONSES s : Z := u32 (b_nr_ents (back s) - u32 (rsp_prod_pvt (back s) - rsp_cons (page s))).
Definition RING_RESP_FULL s : bool := RING_FREE_RESPONSES s =? 0.
Definition RING_HAS_UNCONSUMED_REQUESTS s : Z := u32 (req_prod (page s) - req_cons (page s)).
Definition RING_HAS_UNCONSUMED_RESPONSES s : Z := u32 (rsp_prod (page s) - rsp_cons (page s)).

(** ** Requests *)
Definition new_ring_request : kern (rings Req Rsp) Z :=
  f ← gets front;
  modify (set_front (Front (u32 (req_prod_pvt f + 1)) (f_nr_ents f)));;
  mret (slot_of (req_prod_pvt f) (f_nr_ents f)).
Definition ring_request_ready : kern (rings Req Rsp) unit :=
  f ← gets front; modify (on_page (set_req_prod (req_prod_pvt f))).
Definition get_ring_request : kern (rings Req Rsp) (option Z) :=
  p ← gets page; b ← gets back;
  if req_cons p =? req_prod p then mret None
  else modify (on_page (set_req_cons (u32 (req_cons p + 1))));; mret (Some (slot_of (req_cons p) (b_nr_ents b))).

(** ** Responses *)
Definition new_ring_response : kern (rings Req Rsp) Z :=
  b ← gets back;
  modify (set_back (Back (u32 (rsp_prod_pvt b + 1)) (b_nr_ents b)));;
  mret (slot_of (rsp_prod_pvt b) (b_nr_ents b)).
Definition ring_response_ready : kern (rings Req Rsp) unit :=
  b ← gets back; modify (on_page (set_rsp_prod (rsp_prod_pvt b))).
Definition get_ring_response : kern (rings Req Rsp) (option Z) :=
  p ← gets page; f ← gets front;
  if rsp_cons p =? rsp_prod p then mret None
  else modify (on_page (set_rsp_cons (u32 (rsp_cons p + 1))));; mret (Some (slot_of (rsp_cons p) (f_nr_ents f))).

(** ** Through a pointer into the page *)
Definition entry_at (slot : Z) : kern (rings Req Rsp) (sring_entry Req Rsp) :=
  p ← gets page; lift (if slot <? 0 then Fault Undef else deref (ring p !! Z.to_nat slot)).
Definition upd_entry (slot : Z) (f : sring_entry Req Rsp -> sring_entry Req Rsp) : kern (rings Req Rsp) unit :=
  e ← entry_at slot; modify (on_page (fun p => set_ring (<[Z.to_nat slot := f e]> (ring p)) p)).
Definition put_request (slot : Z) (v : Req) : kern (rings Req Rsp) unit := upd_entry slot (fun e => Entry v (rsp e)).
Definition put_response (slot : Z) (v : Rsp) : kern (rings Req Rsp) unit := upd_entry slot (fun e => Entry (req e) v).
Definition read_request (slot : Z) : kern (rings Req Rsp) Req := e ← entry_at slot; mret (req e).
Definition read_response (slot : Z) : kern (rings Req Rsp) Rsp := e ← entry_at slot; mret (rsp e).

(** [vuart_write]: every character is put without a look at the free slots. *)
Fixpoint vuart_put (l : list Req) : kern (rings Req Rsp) unit :=
  match l with [] => mret tt | v :: l => k ← new_ring_request; put_request k v;; vuart_put l end.
Definition vuart_write (l : list Req) : kern (rings Req Rsp) unit := vuart_put l;; ring_request_ready.
End ring.

(** ** The two directions are the same code *)
Definition flip_entry {Req Rsp} (e : sring_entry Req Rsp) : sring_entry Rsp Req := Entry (rsp e) (req e).
Definition flip {Req Rsp} (s : rings Req Rsp) : rings Rsp Req :=
  Rings (Sring (rsp_prod (page s)) (rsp_cons (page s)) (req_prod (page s)) (req_cons (page s)) (flip_entry <$> ring (page s)))
    (Front (rsp_prod_pvt (back s)) (b_nr_ents (back s))) (Back (req_prod_pvt (front s)) (f_nr_ents (front s))).
Definition flipped {Req Rsp A} (m : kern (rings Req Rsp) A) : kern (rings Rsp Req) A := fun s =>
  match m (flip s) with Ret (a, s') => Ret (a, flip s') | Fault f => Fault f end.

Lemma flip_list {Req Rsp} (l : list (sring_entry Req Rsp)) : flip_entry <$> (flip_entry <$> l) = l.
Proof. induction l as [|[x y] l IH]; [done|]. cbn. f_equal. exact IH. Qed.
Lemma flip_flip {Req Rsp} (s : rings Req Rsp) : flip (flip s) = s.
Proof. destruct s as [[a b c d l] [f n] [k m]]. unfold flip. cbn [page front back req_prod req_cons rsp_prod rsp_cons ring]. by rewrite flip_list. Qed.

Ltac flip_solve s :=
  destruct s as [[? ? ? ? ?] [? ?] [? ?]]; unfold flipped, flip, get_ring_response, get_ring_request, new_ring_request, new_ring_response, ring_request_ready, ring_response_ready, mbind, kern_bind, gets, modify, mret, kern_ret; cbn; repeat case_match;
  simplify_eq/=; unfold set_back, set_front, on_page, flip; cbn; by rewrite ?flip_list.

Section flip.
Context {Req Rsp : Type}.
Implicit Types (s : rings Req Rsp).

Lemma flip_new s : new_ring_response s = flipped (@new_ring_request Rsp Req) s.
Proof. flip_solve s. Qed.
Lemma flip_ready s : ring_response_ready s = flipped (@ring_request_ready Rsp Req) s.
Proof. flip_solve s. Qed.
Lemma flip_get s : get_ring_response s = flipped (@get_ring_request Rsp Req) s.
Proof. flip_solve s. Qed.
Lemma flip_read s k : read_response k s = flipped (@read_request Rsp Req k) s.
Proof.
  destruct s as [[? ? ? ? l] [? ?] [? ?]]. unfold flipped, read_response, read_request, entry_at, mbind, kern_bind, gets, lift, mret, kern_ret. cbn.
  rewrite list_lookup_fmap. destruct (k <? 0); [done|]. destruct (l !! Z.to_nat k); [|done]. cbn. unfold flip. cbn. by rewrite flip_list.
Qed.
Lemma flip_put s k v : put_response k v s = flipped (@put_request Rsp Req k v) s.
Proof.
  destruct s as [[? ? ? ? l] [? ?] [? ?]]. unfold flipped, put_response, put_request, upd_entry, entry_at, mbind, kern_bind, gets, lift, modify. cbn.
  rewrite list_lookup_fmap. destruct (k <? 0); [done|]. destruct (l !! Z.to_nat k) as [e|]; [|done]. cbn. unfold flip, on_page, set_ring. cbn. rewrite list_fmap_insert, flip_list. done.
Qed.
Lemma flip_free s : RING_FREE_RESPONSES s = RING_FREE_REQUESTS (flip s) /\ RING_RESP_FULL s = RING_REQ_FULL (flip s).
Proof. done. Qed.
End flip.

(** ** The size is the greatest power of two that fits *)
Definition rounds (w : Z) (f : Z -> Z) : Prop := forall x, 0 < x < 2 ^ w -> f x = 2 ^ Z.log2 x.

Lemma rd_step w f : 0 < w -> rounds w f ->
  rounds (2 * w) (fun x => if Z.land x (2 ^ w * (2 ^ w - 1)) =? 0 then f x else Z.shiftl (f (Z.shiftr x w)) w).
Proof.
  intros Hw Hf x Hx. replace (2 ^ (2 * w)) with (2 ^ w * 2 ^ w) in Hx by (rewrite <- Z.pow_add_r; [f_equal; lia|lia|lia]).
  assert (Hp : 0 < 2 ^ w) by lia. assert (Hq : 0 <= x / 2 ^ w < 2 ^ w) by (split; [apply Z.div_pos; lia|apply Z.div_lt_upper_bound; lia]).
  assert (El : Z.land x (2 ^ w * (2 ^ w - 1)) = 2 ^ w * (x / 2 ^ w)).
  { replace (2 ^ w * (2 ^ w - 1)) with (Z.shiftl (Z.ones w) w) by (rewrite Z.shiftl_mul_pow2, Z.ones_equiv by lia; lia).
    replace x with (Z.lor (Z.shiftl (Z.shiftr x w) w) (Z.land x (Z.ones w))) at 1 by (by rewrite <- Z.ldiff_ones_r, Z.lor_ldiff_and by lia).
    rewrite Z.land_lor_distr_l. replace (Z.land (Z.land x (Z.ones w)) (Z.shiftl (Z.ones w) w)) with 0.
    - rewrite Z.lor_0_r, <- Z.shiftl_land, Z.land_ones, Z.shiftl_mul_pow2, Z.shiftr_div_pow2 by lia. rewrite Z.mod_small by lia. lia.
    - symmetry. apply Z.bits_inj'. intros j Hj. rewrite !Z.land_spec, Z.bits_0, Z.shiftl_spec by lia. destruct (Z.lt_ge_cases j w).
      + rewrite (Z.testbit_neg_r _ (j - w)) by lia. by rewrite andb_false_r.
      + rewrite Z.ones_spec_high by lia. by rewrite andb_false_r. }
  rewrite El. destruct (Z.eqb_spec (2 ^ w * (x / 2 ^ w)) 0) as [E|E].
  - apply Hf. split; [lia|]. apply Z.mul_eq_0 in E as [?|E]; [lia|]. apply Z.div_small_iff in E; lia.
  - rewrite Z.shiftr_div_pow2, Z.shiftl_mul_pow2 by lia. assert (0 < x / 2 ^ w) by (destruct (Z.eq_dec (x / 2 ^ w) 0) as [E0|]; [rewrite E0 in E; lia|lia]).
    rewrite Hf by lia. rewrite <- Z.pow_add_r; [|apply Z.log2_nonneg|lia]. f_equal. rewrite <- Z.shiftr_div_pow2, Z.log2_shiftr by lia.
    assert (w <= Z.log2 x); [|lia]. apply Z.log2_le_pow2; [lia|]. destruct (Z.le_gt_cases (2 ^ w) x); [done|]. rewrite Z.div_small in * by lia. lia.
Qed.

Lemma rd2_rounds : rounds 2 __RD2.
Proof. intros x Hx. assert (Hc : x = 1 \/ x = 2 \/ x = 3) by lia. by destruct Hc as [->|[->| ->]]. Qed.
Lemma rd32_rounds : rounds 32 __RD32.
Proof. exact (rd_step 16 _ eq_refl (rd_step 8 _ eq_refl (rd_step 4 _ eq_refl (rd_step 2 _ eq_refl rd2_rounds)))). Qed.

Lemma ring_size_ok n : 1 <= n < 2 ^ 32 -> exists k, 0 <= k <= 31 /\ __RD32 n = 2 ^ k /\ 2 ^ k <= n < 2 * 2 ^ k.
Proof.
  intros Hn. exists (Z.log2 n). pose proof (Z.log2_spec n ltac:(lia)) as [H1 H2]. rewrite Z.pow_succ_r in H2 by apply Z.log2_nonneg.
  split_and!; [apply Z.log2_nonneg| |by apply rd32_rounds; lia|lia|lia].
  assert (Z.log2 n < 32) by (apply Z.log2_lt_pow2; lia). lia.
Qed.

(** ** Both ends at work *)
(** A request that has a slot but is not written yet, requests that are written but
    not published, the slot the backend is looking at, and all that was sent and
    received so far. *)
Record rsys {Req Rsp : Type} := RSys { rs : rings Req Rsp; pend : option (Z * Req); unpub : list Req; hold : option Z; sent : list Req; got : list Req }.
Arguments rsys : clear implicits.
Arguments RSys {Req Rsp} rs pend unpub hold sent got.

(** [late]: the backend reads a request some time after it has taken it off the ring,
    and the frontend keeps one slot free for that; otherwise the backend copies the
    request at once, and [RING_REQ_FULL] is the frontend's test. *)
Inductive rstep {Req Rsp : Type} (late : bool) : rsys Req Rsp -> rsys Req Rsp -> Prop :=
  | step_new s v k r' : pend s = None ->
      (if late then 1 < RING_FREE_REQUESTS (rs s) else RING_REQ_FULL (rs s) = false) ->
      new_ring_request (rs s) = Ret (k, r') ->
      rstep late s (RSys r' (Some (k, v)) (unpub s) (hold s) (sent s) (got s))
  | step_write s v k r' : pend s = Some (k, v) -> put_request k v (rs s) = Ret (tt, r') ->
      rstep late s (RSys r' None (unpub s ++ [v]) (hold s) (sent s) (got s))
  | step_ready s r' : pend s = None -> ring_request_ready (rs s) = Ret (tt, r') ->
      rstep late s (RSys r' None [] (hold s) (sent s ++ unpub s) (got s))
  | step_take s k v r' : late = false -> get_ring_request (rs s) = Ret (Some k, r') -> read_request k r' = Ret (v, r') ->
      rstep late s (RSys r' (pend s) (unpub s) None (sent s) (got s ++ [v]))
  | step_get s k r' : late = true -> hold s = None -> get_ring_request (rs s) = Ret (Some k, r') ->
      rstep late s (RSys r' (pend s) (unpub s) (Some k) (sent s) (got s))
  | step_read s k v : hold s = Some k -> read_request k (rs s) = Ret (v, rs s) ->
      rstep late s (RSys (rs s) (pend s) (unpub s) None (sent s) (got s ++ [v])).

Section proofs.
Context {Req Rsp : Type} (n : Z).
Implicit Types (s : rsys Req Rsp).

Definition count {A} (o : option A) : Z := match o with Some _ => 1 | None => 0 end.
(** Requests that were given a slot, and taken off the ring. *)
Definition made s : Z := Z.of_nat (length (sent s ++ unpub s)) + count (pend s).
Definition taken s : Z := Z.of_nat (length (got s)) + count (hold s).

Record rinv (late : bool) s : Prop := {
  ri_size : exists k, 0 <= k <= 31 /\ n = 2 ^ k;
  ri_late : late = true -> 2 <= n;
  ri_ents : f_nr_ents (front (rs s)) = n /\ b_nr_ents (back (rs s)) = n;
  ri_slots : n <= Z.of_nat (length (ring (page (rs s))));
  ri_pvt : req_prod_pvt (front (rs s)) = u32 (made s);
  ri_prod : req_prod (page (rs s)) = u32 (Z.of_nat (length (sent s)));
  ri_cons : req_cons (page (rs s)) = u32 (taken s);
  ri_got : got s `prefix_of` sent s;
  ri_taken : taken s <= Z.of_nat (length (sent s));
  ri_room : made s - taken s <= n - (if late then 1 else 0);
  ri_hold : hold s = None \/ late = true /\ hold s = Some (Z.of_nat (length (got s)) mod n);
  ri_pend : forall k v, pend s = Some (k, v) -> k = Z.of_nat (length (sent s ++ unpub s)) mod n;
  ri_data : forall m v, (length (got s) <= m)%nat -> (sent s ++ unpub s) !! m = Some v ->
    exists e, ring (page (rs s)) !! Z.to_nat (Z.of_nat m mod n) = Some e /\ req e = v
}.

(** *** Indexes that wrap *)
Lemma slot_mod m : (exists k, 0 <= k <= 31 /\ n = 2 ^ k) -> slot_of (u32 m) n = m mod n.
Proof.
  intros (k & Hk & ->). assert (Hp : 0 < 2 ^ k <= 2 ^ 31) by (split; [lia|apply Z.pow_le_mono_r; lia]). unfold slot_of. rewrite (u32_small (2 ^ k - 1)) by lia.
  replace (2 ^ k - 1) with (Z.ones k) by (rewrite Z.ones_equiv; lia). rewrite Z.land_ones by lia. unfold u32, wrap.
  replace (2 ^ 32) with (2 ^ k * 2 ^ (32 - k)) by (rewrite <- Z.pow_add_r by lia; f_equal; lia).
  assert (0 < 2 ^ (32 - k)) by (apply Z.pow_pos_nonneg; lia). rewrite Z.rem_mul_r by lia.
  rewrite Z.mul_comm, Z.mod_add by lia. apply Z.mod_mod. lia.
Qed.

Lemma u32_sub a b : 0 <= a - b < 2 ^ 32 -> u32 (u32 a - u32 b) = a - b.
Proof. intros H. unfold u32, wrap. rewrite <- Zminus_mod. by apply Z.mod_small. Qed.
Lemma u32_add a : u32 (u32 a + 1) = u32 (a + 1).
Proof. unfold u32, wrap. by rewrite Zplus_mod_idemp_l. Qed.

Lemma n_bound late s : rinv late s -> 1 <= n <= 2 ^ 31.
Proof. intros Hi. destruct (ri_size _ _ Hi) as (k & Hk & ->). split; [lia|]. apply Z.pow_le_mono_r; lia. Qed.

Lemma made_taken late s : rinv late s -> 0 <= taken s <= Z.of_nat (length (sent s)) /\ Z.of_nat (length (sent s)) <= made s /\ made s - taken s <= n.
Proof.
  intros Hi. pose proof (ri_taken _ _ Hi). pose proof (ri_room _ _ Hi). unfold made, taken, count in *. rewrite length_app in *.
  split_and!; destruct (hold s), (pend s), late; lia.
Qed.

Lemma ring_free_ok late s : rinv late s -> RING_FREE_REQUESTS (rs s) = n - (made s - taken s).
Proof.
  intros Hi. pose proof (n_bound late s Hi) as Hn. pose proof (made_taken late s Hi) as (H1 & H2 & H3). unfold RING_FREE_REQUESTS.
  rewrite (proj1 (ri_ents _ _ Hi)), (ri_pvt _ _ Hi), (ri_cons _ _ Hi). change (2 ^ 31) with 2147483648 in Hn.
  rewrite u32_sub by (change (2 ^ 32) with 4294967296; lia). apply u32_small. change (2 ^ 32) with 4294967296. lia.
Qed.

(** Two requests on the ring have different slots. *)
Lemma slots_differ (a b : Z) : 1 <= n -> a <> b -> Z.abs (a - b) < n -> a mod n <> b mod n.
Proof. intros Hn Hne Hd E. apply Hne. pose proof (Z.div_mod a n ltac:(lia)). pose proof (Z.div_mod b n ltac:(lia)). assert (a / n = b / n) by nia. nia. Qed.

Lemma slot_in late s m : rinv late s -> 0 <= m mod n < n /\ exists e, ring (page (rs s)) !! Z.to_nat (m mod n) = Some e.
Proof.
  intros Hi. pose proof (n_bound late s Hi). assert (Hm : 0 <= m mod n < n) by (apply Z.mod_pos_bound; lia). split; [done|].
  apply lookup_lt_is_Some. pose proof (ri_slots _ _ Hi). lia.
Qed.

Lemma entry_run (r : rings Req Rsp) k e : 0 <= k -> ring (page r) !! Z.to_nat k = Some e -> entry_at k r = Ret (e, r).
Proof. intros Hk He. unfold entry_at. kstep. destruct (Z.ltb_spec k 0); [lia|]. by rewrite He. Qed.

Lemma put_run late s v : rinv late s -> let k := Z.of_nat (length (sent s ++ unpub s)) mod n in
  exists e, ring (page (rs s)) !! Z.to_nat k = Some e /\
    put_request k v (rs s) = Ret (tt, on_page (fun p => set_ring (<[Z.to_nat k := Entry v (rsp e)]> (ring p)) p) (rs s)).
Proof.
  intros Hi k. destruct (slot_in late s (Z.of_nat (length (sent s ++ unpub s))) Hi) as [Hk [e He]]. exists e. split; [done|].
  unfold put_request, upd_entry. by erewrite kbind_ret by (apply entry_run; [lia|exact He]).
Qed.

(** *** Every step *)
Lemma step_new_ok late s v : rinv late s -> pend s = None -> (if late then 1 < RING_FREE_REQUESTS (rs s) else RING_REQ_FULL (rs s) = false) ->
  exists k r', new_ring_request (rs s) = Ret (k, r') /\ rinv late (RSys r' (Some (k, v)) (unpub s) (hold s) (sent s) (got s)).
Proof.
  intros Hi Hp Hg. eexists _, _. split; [reflexivity|]. destruct Hi as [H1 H2 H3 H4 H5 H6 H7 H8 H9 H10 H11 H12 H13] eqn:EI. clear EI.
  pose proof (ring_free_ok late s Hi) as Hf. assert (Hm : made (RSys (rs s) (Some (0, v)) (unpub s) (hold s) (sent s) (got s)) = made s + 1) by (unfold made, count; cbn; rewrite Hp; lia).
  split; cbn [rs pend unpub hold sent got page front back set_front req_prod_pvt f_nr_ents]; try done.
  - rewrite H5, u32_add. f_equal. unfold made, count in *. cbn in *. lia.
  - change (made s - taken s <= n - (if late then 1 else 0)) in H10. unfold RING_REQ_FULL in Hg. unfold made, taken, count in *. cbn in *. rewrite Hp in *.
    destruct late; [lia|]. apply Z.eqb_neq in Hg. lia.
  - intros k w [= <- <-]. rewrite H5, (proj1 H3), slot_mod by done. unfold made, count. rewrite Hp. f_equal. lia.
Qed.

Lemma step_write_ok late s k v : rinv late s -> pend s = Some (k, v) ->
  exists r', put_request k v (rs s) = Ret (tt, r') /\ rinv late (RSys r' None (unpub s ++ [v]) (hold s) (sent s) (got s)).
Proof.
  intros Hi Hp. pose proof (ri_pend _ _ Hi k v Hp) as ->. destruct (put_run late s v Hi) as (e & He & E). eexists. split; [exact E|].
  pose proof (made_taken late s Hi) as (M1 & M2 & M3). pose proof (n_bound late s Hi) as Hn. destruct Hi as [H1 H2 H3 H4 H5 H6 H7 H8 H9 H10 H11 H12 H13] eqn:EI. clear EI.
  set (j := Z.of_nat (length (sent s ++ unpub s))) in *. assert (Hj : made s = j + 1) by (unfold made, count; rewrite Hp; done).
  assert (Hmade : made (RSys (rs s) None (unpub s ++ [v]) (hold s) (sent s) (got s)) = made s).
  { unfold made, count. cbn. rewrite Hp, !length_app. cbn. lia. }
  split; cbn [rs pend unpub hold sent got page front back on_page set_ring req_prod req_cons ring]; try done.
  - by rewrite length_insert.
  - rewrite H5. by rewrite <- Hmade.
  - unfold made, taken in *. cbn [sent unpub pend hold got] in *. lia.
  - intros m w Hm Hw. rewrite app_assoc in Hw. apply lookup_app_Some in Hw as [Hw|[Hlen Hw]].
    + destruct (H13 m w Hm Hw) as (e' & He' & Er). exists e'. split; [|done]. apply lookup_lt_Some in Hw. rewrite list_lookup_insert_ne; [done|].
      assert (Z.of_nat m mod n <> j mod n). { apply slots_differ; [lia|unfold j; lia|]. unfold taken, count in *. destruct H11 as [E1|[E1 E2]]; [rewrite E1 in *|rewrite E2, E1 in *]; unfold j in *; lia. }
      pose proof (Z.mod_pos_bound (Z.of_nat m) n ltac:(lia)). pose proof (Z.mod_pos_bound j n ltac:(lia)). lia.
    + assert (m = length (sent s ++ unpub s)) as ->. { apply lookup_lt_Some in Hw. cbn in Hw. lia. } rewrite Nat.sub_diag in Hw. injection Hw as <-.
      eexists. split; [apply list_lookup_insert_eq; by eapply lookup_lt_Some|done].
Qed.

Lemma step_ready_ok late s : rinv late s -> pend s = None ->
  exists r', ring_request_ready (rs s) = Ret (tt, r') /\ rinv late (RSys r' None [] (hold s) (sent s ++ unpub s) (got s)).
Proof.
  intros Hi Hp. eexists. split; [reflexivity|]. destruct Hi as [H1 H2 H3 H4 H5 H6 H7 H8 H9 H10 H11 H12 H13] eqn:EI. clear EI.
  assert (Hm : made (RSys (rs s) None [] (hold s) (sent s ++ unpub s) (got s)) = made s) by (unfold made, count; cbn; by rewrite Hp, app_nil_r).
  split; cbn [rs pend unpub hold sent got page front back on_page set_req_prod req_prod req_cons ring]; try done.
  - rewrite H5. by rewrite <- Hm.
  - rewrite H5. f_equal. unfold made, count. rewrite Hp. lia.
  - by apply prefix_app_r.
  - unfold taken in *. cbn [hold got]. rewrite length_app. lia.
  - unfold made, taken in *. cbn in *. rewrite Hp, app_nil_r in *. done.
  - intros m w. rewrite app_nil_r. apply H13.
Qed.

Lemma get_run late s : rinv late s ->
  get_ring_request (rs s) =
    if decide (taken s = Z.of_nat (length (sent s))) then Ret (None, rs s)
    else Ret (Some (taken s mod n), on_page (set_req_cons (u32 (taken s + 1))) (rs s)).
Proof.
  intros Hi. pose proof (made_taken late s Hi) as (M1 & M2 & M3). pose proof (n_bound late s Hi) as Hn. change (2 ^ 31) with 2147483648 in Hn.
  unfold get_ring_request. kstep. kstep. rewrite (ri_cons _ _ Hi), (ri_prod _ _ Hi), (proj2 (ri_ents _ _ Hi)).
  assert (Heq : u32 (taken s) = u32 (Z.of_nat (length (sent s))) <-> taken s = Z.of_nat (length (sent s))).
  { split; [|by intros ->]. intros E. assert (u32 (u32 (Z.of_nat (length (sent s))) - u32 (taken s)) = 0) as E0 by (by rewrite E, Z.sub_diag).
    rewrite u32_sub in E0 by (change (2 ^ 32) with 4294967296; lia). lia. }
  case_decide as Hd.
  - by rewrite (proj2 (Z.eqb_eq _ _) (proj2 Heq Hd)).
  - rewrite (proj2 (Z.eqb_neq _ _)) by (by intros E; apply Hd, Heq). rewrite u32_add, slot_mod by apply Hi. done.
Qed.

(** The next request is at the head of the ring. *)
Lemma next_request late s : rinv late s -> (length (got s) < length (sent s))%nat ->
  exists e, ring (page (rs s)) !! Z.to_nat (Z.of_nat (length (got s)) mod n) = Some e /\ sent s !! length (got s) = Some (req e).
Proof.
  intros Hi Hlt. apply lookup_lt_is_Some in Hlt as [v Hv]. destruct (ri_data _ _ Hi (length (got s)) v) as (e & He & Er); [done|by apply lookup_app_l_Some|].
  exists e. by rewrite Er.
Qed.

Lemma read_run late s : rinv late s -> (length (got s) < length (sent s))%nat ->
  exists v, read_request (Z.of_nat (length (got s)) mod n) (rs s) = Ret (v, rs s) /\ sent s !! length (got s) = Some v.
Proof.
  intros Hi Hlt. destruct (next_request late s Hi Hlt) as (e & He & Hv). exists (req e). split; [|done]. unfold read_request.
  erewrite kbind_ret; [reflexivity|]. apply entry_run; [|done]. pose proof (n_bound late s Hi). apply Z.mod_pos_bound. lia.
Qed.

Lemma got_snoc s v : got s `prefix_of` sent s -> sent s !! length (got s) = Some v -> got s ++ [v] `prefix_of` sent s.
Proof. intros [l E] Hv. rewrite E in *. destruct l as [|w l]; [rewrite app_nil_r in Hv; apply lookup_lt_Some in Hv; lia|]. rewrite list_lookup_middle in Hv by done. simplify_eq. exists l. by rewrite <- app_assoc. Qed.

Lemma on_page_read (r : rings Req Rsp) f k v : (forall p, ring (f p) = ring p) -> read_request k r = Ret (v, r) -> read_request k (on_page f r) = Ret (v, on_page f r).
Proof.
  intros Hf. unfold read_request, entry_at, mbind, kern_bind, gets, lift. cbn. rewrite Hf. destruct (k <? 0); [done|]. destruct (ring (page r) !! Z.to_nat k); [|done]. cbn. intros [= ->]. done.
Qed.

(** A request leaves the ring, and is read at once or later. *)
Lemma step_take_ok s k r' : rinv false s -> get_ring_request (rs s) = Ret (Some k, r') ->
  exists v, read_request k r' = Ret (v, r') /\ rinv false (RSys r' (pend s) (unpub s) None (sent s) (got s ++ [v])).
Proof.
  intros Hi. rewrite (get_run false s Hi). case_decide as Hd; [done|]. intros [= <- <-]. pose proof (made_taken false s Hi) as (M1 & M2 & M3).
  assert (Hh : hold s = None) by (by destruct (ri_hold _ _ Hi) as [?|[? _]]). assert (Ht : taken s = Z.of_nat (length (got s))) by (unfold taken; rewrite Hh; cbn; lia).
  destruct (read_run false s Hi) as (v & Hr & Hv); [lia|]. exists v. rewrite Ht. split; [by apply on_page_read|].
  destruct Hi as [H1 H2 H3 H4 H5 H6 H7 H8 H9 H10 H11 H12 H13] eqn:EI. clear EI.
  assert (Hg : taken (RSys (rs s) (pend s) (unpub s) None (sent s) (got s ++ [v])) = taken s + 1) by (unfold taken; cbn; rewrite Hh, length_app; cbn; lia).
  split; cbn [rs pend unpub hold sent got page front back on_page set_req_cons req_prod req_cons ring]; try done.
  - rewrite <- Ht. by rewrite <- Hg.
  - by apply got_snoc.
  - unfold taken in *. cbn [hold got] in *. lia.
  - unfold made, taken in *. cbn [sent unpub pend hold got] in *. lia.
  - by left.
  - intros m w Hm. apply H13. rewrite length_app in Hm. cbn in Hm. lia.
Qed.

Lemma step_get_ok s k r' : rinv true s -> hold s = None -> get_ring_request (rs s) = Ret (Some k, r') ->
  rinv true (RSys r' (pend s) (unpub s) (Some k) (sent s) (got s)).
Proof.
  intros Hi Hh. rewrite (get_run true s Hi). case_decide as Hd; [done|]. intros [= <- <-]. pose proof (made_taken true s Hi) as (M1 & M2 & M3).
  assert (Ht : taken s = Z.of_nat (length (got s))) by (unfold taken; rewrite Hh; cbn; lia).
  destruct Hi as [H1 H2 H3 H4 H5 H6 H7 H8 H9 H10 H11 H12 H13] eqn:EI. clear EI.
  split; cbn [rs pend unpub hold sent got page front back on_page set_req_cons req_prod req_cons ring]; try done.
  - f_equal. unfold taken at 2. cbn. lia.
  - unfold taken. cbn. lia.
  - unfold made, taken in *. cbn [sent unpub pend hold got count] in *. rewrite Hh in *. cbn in *. lia.
  - right. by rewrite Ht.
Qed.

Lemma step_read_ok late s k : rinv late s -> hold s = Some k ->
  exists v, read_request k (rs s) = Ret (v, rs s) /\ sent s !! length (got s) = Some v /\ rinv late (RSys (rs s) (pend s) (unpub s) None (sent s) (got s ++ [v])).
Proof.
  intros Hi Hh. pose proof (made_taken late s Hi) as (M1 & M2 & M3). assert (Ht : taken s = Z.of_nat (length (got s)) + 1) by (unfold taken; by rewrite Hh).
  assert (k = Z.of_nat (length (got s)) mod n) as -> by (destruct (ri_hold _ _ Hi) as [?|[_ ?]]; congruence).
  destruct (read_run late s Hi) as (v & Hr & Hv); [lia|]. exists v. split_and!; [done|done|].
  destruct Hi as [H1 H2 H3 H4 H5 H6 H7 H8 H9 H10 H11 H12 H13] eqn:EI. clear EI.
  assert (Hg : taken (RSys (rs s) (pend s) (unpub s) None (sent s) (got s ++ [v])) = taken s) by (unfold taken; cbn; rewrite Hh, length_app; cbn; lia).
  split; cbn [rs pend unpub hold sent got]; try done.
  - by rewrite Hg.
  - by apply got_snoc.
  - by rewrite Hg.
  - rewrite Hg. done.
  - by left.
  - intros m w Hm. apply H13. rewrite length_app in Hm. cbn in Hm. lia.
Qed.

Lemma rstep_inv late s s' : rinv late s -> rstep late s s' -> rinv late s'.
Proof.
  intros Hi Hs. destruct Hs as [s v k r' Hp Hg E|s v k r' Hp E|s r' Hp E|s k v r' El E Er|s k r' El Hh E|s k v Hh E]; try subst late.
  - destruct (step_new_ok late s v Hi Hp Hg) as (k1 & r1 & E1 & H1). rewrite E in E1. by simplify_eq.
  - destruct (step_write_ok late s k v Hi Hp) as (r1 & E1 & H1). rewrite E in E1. by simplify_eq.
  - destruct (step_ready_ok late s Hi Hp) as (r1 & E1 & H1). rewrite E in E1. by simplify_eq.
  - destruct (step_take_ok s k r' Hi E) as (v1 & E1 & H1). rewrite Er in E1. by simplify_eq.
  - by apply (step_get_ok s k).
  - destruct (step_read_ok late s k Hi Hh) as (v1 & E1 & _ & H1). rewrite E in E1. by simplify_eq.
Qed.
End proofs.

(** ** Theorems *)
Definition setup {Req Rsp : Type} (sz off ent : Z) : kern (rings Req Rsp) unit := SHARED_RING_INIT;; FRONT_RING_INIT sz off ent;; BACK_RING_INIT sz off ent.
Definition start {Req Rsp : Type} (r : rings Req Rsp) : rsys Req Rsp := RSys r None [] None [] [].

Lemma start_inv {Req Rsp : Type} late sz off ent (r r' : rings Req Rsp) : let m := (sz - off) / ent in
  1 <= m < 2 ^ 32 -> (late = true -> 2 <= m) -> Z.of_nat (length (ring (page r))) = m -> setup sz off ent r = Ret (tt, r') ->
  rinv (__RING_SIZE sz off ent) late (start r').
Proof.
  intros m Hm Hl Hlen [= <-]. destruct (ring_size_ok m Hm) as (k & Hk & E & Hle). unfold __RING_SIZE. fold m. rewrite E.
  split; cbn [rs pend unpub hold sent got start page front back on_page set_front set_back req_prod req_cons ring f_nr_ents b_nr_ents req_prod_pvt]; try done.
  - by exists k.
  - intros ->. specialize (Hl eq_refl). destruct (Z.eq_dec k 0) as [->|]; [change (2 ^ 0) with 1 in *; lia|]. change 2 with (2 ^ 1) at 1. apply Z.pow_le_mono_r; lia.
  - lia.
  - unfold made, taken. cbn. destruct late; lia.
  - by left.
Qed.

(** C25: A ring is a FIFO queue of a power of two of slots, in every interleaving of the two ends and across the wrap-around of its 32-bit indexes: what the backend has received is a prefix of what was published, never more than the ring's size is on it, the backend sees it as empty exactly when all published requests are taken, and a request the backend looks at is the next one, unchanged, as long as the frontend keeps a slot free for it. *)
Theorem ring_fifo {Req Rsp : Type} late sz off ent (r r' : rings Req Rsp) s : let m := (sz - off) / ent in
  1 <= m < 2 ^ 32 -> (late = true -> 2 <= m) -> Z.of_nat (length (ring (page r))) = m -> setup sz off ent r = Ret (tt, r') ->
  rtc (rstep late) (start r') s ->
  got s `prefix_of` sent s /\ 0 <= made s - taken s <= __RING_SIZE sz off ent /\ m < 2 * __RING_SIZE sz off ent /\
  (get_ring_request (rs s) = Ret (None, rs s) <-> taken s = Z.of_nat (length (sent s))) /\
  (forall k, hold s = Some k -> exists v, read_request k (rs s) = Ret (v, rs s) /\ sent s !! length (got s) = Some v) /\
  (forall k v, pend s = Some (k, v) -> exists r1, put_request k v (rs s) = Ret (tt, r1)).
Proof.
  intros m Hm Hl Hlen Hs Hr. pose proof (start_inv late sz off ent r r' Hm Hl Hlen Hs) as Hi0. set (n := __RING_SIZE sz off ent) in *.
  assert (Hi : rinv n late s) by (revert Hi0; clear -Hr; induction Hr as [|x y z Hxy _ IH]; intros Hi; [done|by eapply IH, rstep_inv]).
  pose proof (made_taken n late s Hi) as (M1 & M2 & M3). destruct (ring_size_ok m Hm) as (k & _ & E & Hle). split_and!; [apply Hi|lia|lia| | | |].
  - unfold n, __RING_SIZE. fold m. rewrite E. lia.
  - rewrite (get_run n late s Hi). case_decide; [done|]. split; [done|lia].
  - intros j Hj. destruct (step_read_ok n late s j Hi Hj) as (v & H1 & H2 & _). by exists v.
  - intros j v Hj. destruct (step_write_ok n late s j v Hi Hj) as (r1 & H1 & _). by exists r1.
Qed.

(** Eight slots behind 64 bytes of indexes. *)
Definition ring8 : rings Z Z := Rings (Sring 7 7 7 7 (replicate 8 (Entry 0 0))) (Front 9 9) (Back 9 9).
Definition ready8 : rings Z Z := Eval vm_compute in match setup 128 64 8 ring8 with Ret (_, r) => r | Fault _ => ring8 end.
Definition run1 {A} (m : kern (rings Z Z) A) (r : rings Z Z) : rings Z Z := match m r with Ret (_, r) => r | Fault _ => r end.

Lemma ring_fifo_witness : exists s : rsys Z Z, rtc (rstep true) (start ready8) s /\ sent s = [5] /\ got s = [] /\ read_request 0 (rs s) = Ret (5, rs s) /\ got s `prefix_of` sent s.
Proof.
  pose (r1 := run1 new_ring_request ready8). pose (r2 := run1 (put_request 0 5) r1). pose (r3 := run1 ring_request_ready r2). pose (r4 := run1 get_ring_request r3).
  exists (RSys r4 None [] (Some 0) [5] []).
  assert (Hr : rtc (rstep true) (start ready8) (RSys r4 None [] (Some 0) [5] [])).
  { eapply rtc_l; [apply (step_new true (start ready8) 5 0 r1); by vm_compute|]. eapply rtc_l; [apply (step_write true _ 5 0 r2); by vm_compute|].
    eapply rtc_l; [apply (step_ready true _ r3); by vm_compute|]. eapply rtc_l; [apply (step_get true _ 0 r4); by vm_compute|]. apply rtc_refl. }
  split_and!; [done|done|done|by vm_compute|].
  by eapply (ring_fifo true 128 64 8 ring8 ready8 _ ltac:(by vm_compute) ltac:(by vm_compute) ltac:(by vm_compute) ltac:(by vm_compute) Hr).
Defined.

(** RING_REQ_FULL does not protect a request that the other end is still looking at: with a ring that had been full, the slot whose pointer get_ring_request has just returned is free for the next request, which is then read instead. *)
Theorem ring_slot_reused : exists r1 r2 r3 r4 : rings Z Z,
  vuart_write [1; 2; 3; 4; 5; 6; 7; 8] ready8 = Ret (tt, r1) /\ RING_REQ_FULL r1 = true /\
  get_ring_request r1 = Ret (Some 0, r2) /\ RING_REQ_FULL r2 = false /\ new_ring_request r2 = Ret (0, r3) /\ put_request 0 9 r3 = Ret (tt, r4) /\
  read_request 0 r2 = Ret (1, r2) /\ read_request 0 r4 = Ret (9, r4).
Proof.
  pose (r1 := run1 (vuart_write [1; 2; 3; 4; 5; 6; 7; 8]) ready8). pose (r2 := run1 get_ring_request r1). pose (r3 := run1 new_ring_request r2).
  exists r1, r2, r3, (run1 (put_request 0 9) r3). split_and!; by vm_compute.
Qed.

(** [vuart_write] of more characters than there are slots overwrites the first ones. *)
Lemma vuart_overruns : exists r1 r2 : rings Z Z, vuart_write [1; 2; 3; 4; 5; 6; 7; 8; 9] ready8 = Ret (tt, r1) /\
  get_ring_request r1 = Ret (Some 0, r2) /\ read_request 0 r2 = Ret (9, r2) /\ RING_HAS_UNCONSUMED_REQUESTS r1 = 9.
Proof.
  pose (r1 := run1 (vuart_write [1; 2; 3; 4; 5; 6; 7; 8; 9]) ready8). exists r1, (run1 get_ring_request r1). split_and!; by vm_compute.
Qed.

End Ring.
