(* ===== verification/Softirq.v ===== *)
(** Softirqs (so3/kernel/softirq.c): work an interrupt handler leaves for the
    moment the interrupt returns.

    [softirq_stat] is the matrix of pending flags, one row per CPU.  A handler
    is a function pointer; the code behind it runs on the whole kernel state,
    of which the softirq data is a part that [HasSoftirq] locates.  A handler
    that switches to another context is the computation the CPU has done by
    the time it comes back after the call.  The loop of [do_softirq] has no
    bound in the source (it only warns after 100 rounds), so it runs on fuel,
    and [do_softirq_correct] says how much fuel is enough. *)
From S2P Require Import Prelude.

Module Softirq.

Definition TIMER_SOFTIRQ : nat := 0.
Definition SCHEDULE_SOFTIRQ : nat := 1.
Definition NR_SOFTIRQS : nat := 2.
Definition NR_CPUS : nat := 4. (* CONFIG_NR_CPUS *)

Record softirq := MkSoftirq {
  softirq_stat : list (list bool);
  softirq_handlers : list (option Z);
  softirq_pending_lock : bool;
  in_interrupt : bool;             (* __in_interrupt *)
  ipis : list nat                  (* CPUs sent IPI_EVENT_CHECK, newest first *)
}.
Definition set_stat_m m x := MkSoftirq m (softirq_handlers x) (softirq_pending_lock x) (in_interrupt x) (ipis x).
Definition set_handlers l x := MkSoftirq (softirq_stat x) l (softirq_pending_lock x) (in_interrupt x) (ipis x).
Definition set_pending_lock b x := MkSoftirq (softirq_stat x) (softirq_handlers x) b (in_interrupt x) (ipis x).
Definition set_in_interrupt b x := MkSoftirq (softirq_stat x) (softirq_handlers x) (softirq_pending_lock x) b (ipis x).
Definition add_ipi c x := MkSoftirq (softirq_stat x) (softirq_handlers x) (softirq_pending_lock x) (in_interrupt x) (c :: ipis x).

(** [softirq_stat[cpu][nr]] *)
Definition stat (x : softirq) (cpu nr : nat) : option bool := softirq_stat x !! cpu ≫= (.!! nr).
Definition put_stat (b : bool) (cpu nr : nat) (x : softirq) : softirq := set_stat_m (alter <[nr := b]> cpu (softirq_stat x)) x.

(** The part of a kernel state that holds the softirq data. *)
Class HasSoftirq (S : Type) := {
  soft : S -> softirq;
  put_soft : softirq -> S -> S;
  soft_put : forall x s, soft (put_soft x s) = x;
  put_put : forall x y s, put_soft x (put_soft y s) = put_soft x s;
  put_get : forall s, put_soft (soft s) s = s
}.

Section ops.
Context {S : Type} `{HasSoftirq S}.

Definition modify_soft (f : softirq -> softirq) : kern S unit := modify (fun s => put_soft (f (soft s)) s).

Definition set_stat (b : bool) (cpu nr : nat) : kern S unit :=
  x ← gets soft; _ ← lift (deref (stat x cpu nr)); modify_soft (put_stat b cpu nr).

Definition raise_softirq (cpu nr : nat) : kern S unit := set_stat true cpu nr.
(** [smp_trigger_event]: the lock it takes belongs to the calling CPU, which holds it only here. *)
Definition smp_trigger_event (cpu : nat) : kern S unit := modify_soft (add_ipi cpu).
Definition cpu_raise_softirq (cpu nr : nat) : kern S unit := set_stat true cpu nr;; smp_trigger_event cpu.

Definition softirq_init : kern S unit :=
  modify_soft (set_stat_m (replicate NR_CPUS (replicate NR_SOFTIRQS false))).

(** The comparison is between signed integers: a negative number passes it. *)
Definition register_softirq (nr : Z) (handler : Z) : kern S unit :=
  lift (assert_k (nr <? Z.of_nat NR_SOFTIRQS));;
  if nr <? 0 then raise Undef
  else modify_soft (fun x => set_handlers (<[Z.to_nat nr := Some handler]> (softirq_handlers x)) x).

Definition spin_lock_pending : kern S unit :=
  x ← gets soft; if softirq_pending_lock x then raise Hang else modify_soft (set_pending_lock true).
Definition spin_unlock_pending : kern S unit := modify_soft (set_pending_lock false).

Variable code : Z -> kern S unit.
Definition run_handler (nr : nat) : kern S unit :=
  x ← gets soft; p ← lift (deref (mjoin (softirq_handlers x !! nr))); code p.

(** [for (i = 0; i < NR_SOFTIRQS; i++) if (softirq_stat[cpu][i]) break;] *)
Definition first_pending (row : list bool) : option nat :=
  for_ret NR_SOFTIRQS (fun i => match row !! i with Some true => Some i | _ => None end).

Fixpoint softirq_loop (fuel cpu : nat) : kern S unit :=
  match fuel with
  | O => raise Hang
  | Datatypes.S f =>
      spin_lock_pending;;
      x ← gets soft;
      row ← lift (deref (softirq_stat x !! cpu));
      match first_pending row with
      | None => spin_unlock_pending
      | Some i =>
          set_stat false cpu i;;
          spin_unlock_pending;;
          run_handler i;;
          modify_soft (set_in_interrupt true);;
          softirq_loop f cpu
      end
  end.
Definition do_softirq (fuel cpu : nat) : kern S unit := softirq_loop fuel cpu;; modify_soft (set_in_interrupt false).

(** *** What a softirq handler promises *)
Record soft_ok (x : softirq) : Prop := {
  ok_cpus : length (softirq_stat x) = NR_CPUS;
  ok_rows : Forall (fun row => length row = NR_SOFTIRQS) (softirq_stat x);
  ok_handlers : length (softirq_handlers x) = NR_SOFTIRQS;
  ok_lock : softirq_pending_lock x = false
}.
Definition pending (s : S) (cpu nr : nat) : Prop := stat (soft s) cpu nr = Some true.
Definition clear (cpu nr : nat) (s : S) : S := put_soft (put_stat false cpu nr (soft s)) s.
Definition mark (b : bool) (s : S) : S := put_soft (set_in_interrupt b (soft s)) s.

#[export] Instance pending_dec (s : S) (cpu nr : nat) : Decision (pending s cpu nr).
Proof. unfold pending. apply _. Defined.

(** Under the invariant [Inv] of the kernel, the handler of a pending softirq is
    registered, returns, keeps the other pending flags of the CPU and lowers the
    measure [mu] of the work that is left. *)
Class SoftirqHandlers (cpu : nat) (Inv : S -> Prop) (mu : S -> nat) : Prop := {
  inv_soft : forall s, Inv s -> soft_ok (soft s);
  handler_runs : forall s nr, Inv s -> pending s cpu nr ->
    exists h s', softirq_handlers (soft s) !! nr = Some (Some h) /\ code h (clear cpu nr s) = Ret (tt, s') /\
    Inv (mark true s') /\ (mu (mark true s') < mu s)%nat /\
    (forall j, j <> nr -> pending s cpu j -> pending s' cpu j)
}.

(** The softirqs served from [s], in order: each time the lowest pending one. *)
Inductive served (cpu : nat) : S -> list nat -> S -> Prop :=
  | served_none s : (forall nr, ~ pending s cpu nr) -> served cpu s [] s
  | served_one s nr h s1 tr s' :
      pending s cpu nr -> (forall j, (j < nr)%nat -> ~ pending s cpu j) ->
      softirq_handlers (soft s) !! nr = Some (Some h) -> code h (clear cpu nr s) = Ret (tt, s1) ->
      served cpu (mark true s1) tr s' -> served cpu s (nr :: tr) s'.
End ops.

(** ** Lemmas *)
#[export] Existing Instance pending_dec.
Section lemmas.
Context {S : Type} `{HasSoftirq S} (code : Z -> kern S unit).
Implicit Types (s : S) (x : softirq).

Lemma modify_soft_run f s : modify_soft f s = Ret (tt, put_soft (f (soft s)) s).
Proof. reflexivity. Qed.

Lemma stat_row x cpu row nr : softirq_stat x !! cpu = Some row -> stat x cpu nr = row !! nr.
Proof. intros E. unfold stat. by rewrite E. Qed.

Lemma soft_ok_row x cpu : soft_ok x -> (cpu < NR_CPUS)%nat ->
  exists row, softirq_stat x !! cpu = Some row /\ length row = NR_SOFTIRQS.
Proof.
  intros [Hc Hr _ _] Hcpu. destruct (lookup_lt_is_Some_2 (softirq_stat x) cpu) as [row E]; [lia|].
  exists row. split; [done|]. by apply (Forall_lookup_1 _ _ _ _ Hr E).
Qed.

Lemma first_pending_None row : length row = NR_SOFTIRQS ->
  first_pending row = None <-> (forall nr, row !! nr <> Some true).
Proof.
  intros Hl. unfold first_pending. rewrite for_ret_None. split; intros Hp nr.
  - intros E. assert (nr < NR_SOFTIRQS)%nat as Hn by (rewrite <- Hl; by eapply lookup_lt_Some).
    specialize (Hp nr Hn). by rewrite E in Hp.
  - intros _. specialize (Hp nr). by destruct (row !! nr) as [[]|].
Qed.

Lemma first_pending_Some row i : first_pending row = Some i ->
  row !! i = Some true /\ (forall j, (j < i)%nat -> row !! j <> Some true).
Proof.
  unfold first_pending. rewrite for_ret_Some. intros (k & _ & Hk & Hj).
  destruct (row !! k) as [[]|] eqn:E; simplify_eq. split; [done|].
  intros j Hlt E'. specialize (Hj j Hlt). by rewrite E' in Hj.
Qed.

Lemma stat_put_stat b cpu nr x c j : is_Some (stat x cpu nr) ->
  stat (put_stat b cpu nr x) c j = if decide (c = cpu /\ j = nr) then Some b else stat x c j.
Proof.
  unfold stat, put_stat, set_stat_m. cbn [softirq_stat]. intros [v E].
  destruct (softirq_stat x !! cpu) as [row|] eqn:Er; [|done]. simpl in E.
  case_decide as Hd; [destruct Hd as [-> ->]|].
  - rewrite list_lookup_alter_eq, Er. apply (list_lookup_insert_eq row). by eapply lookup_lt_Some.
  - destruct (decide (c = cpu)) as [->|Hc]; [|by rewrite list_lookup_alter_ne by done].
    rewrite list_lookup_alter_eq, Er. apply (list_lookup_insert_ne row). intros ->. by apply Hd.
Qed.

Lemma soft_ok_put_stat b cpu nr x : soft_ok x -> soft_ok (put_stat b cpu nr x).
Proof.
  intros [Hc Hr Hh Hl]. split; try done.
  - unfold put_stat. cbn. by rewrite length_alter.
  - cbn. apply Forall_alter; [done|]. intros row _ Hrow. by rewrite length_insert.
Qed.

Lemma set_stat_run b cpu nr s : is_Some (stat (soft s) cpu nr) ->
  set_stat b cpu nr s = Ret (tt, put_soft (put_stat b cpu nr (soft s)) s).
Proof. intros [v E]. unfold set_stat, mbind, kern_bind, gets, lift. by rewrite E. Qed.

(** One round of the loop up to the call of the handler. *)
Lemma lock_run s : soft_ok (soft s) -> spin_lock_pending s = Ret (tt, put_soft (set_pending_lock true (soft s)) s).
Proof. intros Hok. unfold spin_lock_pending. kstep. by rewrite (ok_lock _ Hok). Qed.

Lemma unlock_same s : soft_ok (soft s) ->
  spin_unlock_pending (put_soft (set_pending_lock true (soft s)) s) = Ret (tt, s).
Proof.
  intros Hok. unfold spin_unlock_pending. rewrite modify_soft_run, soft_put, put_put.
  replace (set_pending_lock false _) with (soft s); [by rewrite put_get|].
  destruct (soft s) as [m l b i p] eqn:E. pose proof (ok_lock _ Hok) as Hl. cbn in *. by subst.
Qed.

Lemma unlock_cleared cpu nr s : soft_ok (soft s) ->
  spin_unlock_pending (put_soft (put_stat false cpu nr (set_pending_lock true (soft s))) s) = Ret (tt, clear cpu nr s).
Proof.
  intros Hok. unfold spin_unlock_pending, clear. rewrite modify_soft_run, soft_put, put_put.
  do 2 f_equal. f_equal. destruct (soft s) as [m l b i p]. pose proof (ok_lock _ Hok) as Hl. cbn in *. by subst.
Qed.

(** A round that finds softirq [nr] to be the lowest pending one. *)
Lemma softirq_round cpu fuel s nr h s1 : (cpu < NR_CPUS)%nat -> soft_ok (soft s) ->
  pending s cpu nr -> (forall j, (j < nr)%nat -> ~ pending s cpu j) ->
  softirq_handlers (soft s) !! nr = Some (Some h) -> code h (clear cpu nr s) = Ret (tt, s1) ->
  softirq_loop code (Datatypes.S fuel) cpu s = softirq_loop code fuel cpu (mark true s1).
Proof.
  intros Hcpu Hok Hp Hmin Hh Hc. cbn [softirq_loop].
  erewrite kbind_ret by (apply lock_run; done). kstep. rewrite soft_put.
  destruct (soft_ok_row _ cpu Hok Hcpu) as (row & Er & Hlen).
  assert (Hst : forall j, stat (soft s) cpu j = row !! j) by (intros; by apply stat_row).
  unfold pending in *. rewrite Hst in Hp. cbn [softirq_stat set_pending_lock].
  rewrite Er. erewrite kbind_ret by reflexivity. cbn beta.
  destruct (first_pending row) as [i|] eqn:Ef.
  - apply first_pending_Some in Ef as [Hi Hlow].
    assert (i = nr) as ->.
    { destruct (lt_eq_lt_dec i nr) as [[Hlt|He]|Hgt]; [|done|].
      - exfalso. apply (Hmin i Hlt). by rewrite Hst.
      - exfalso. by apply (Hlow nr). }
    erewrite kbind_ret; [|apply set_stat_run; rewrite soft_put; eexists; unfold stat; cbn; rewrite Er; exact Hp].
    cbn beta. rewrite soft_put, put_put. erewrite kbind_ret by (apply unlock_cleared; done). cbn beta.
    erewrite kbind_ret; [|unfold run_handler; kstep; unfold clear; rewrite soft_put; cbn; rewrite Hh; kstep; exact Hc].
    cbn beta. erewrite kbind_ret by apply modify_soft_run. cbn beta. reflexivity.
  - by destruct (proj1 (first_pending_None row Hlen) Ef nr).
Qed.

Lemma softirq_last cpu fuel s : (cpu < NR_CPUS)%nat -> soft_ok (soft s) ->
  (forall nr, ~ pending s cpu nr) -> softirq_loop code (Datatypes.S fuel) cpu s = Ret (tt, s).
Proof.
  intros Hcpu Hok Hp. cbn [softirq_loop].
  erewrite kbind_ret by (apply lock_run; done). kstep. rewrite soft_put.
  destruct (soft_ok_row _ cpu Hok Hcpu) as (row & Er & Hlen). cbn [softirq_stat set_pending_lock].
  rewrite Er. erewrite kbind_ret by reflexivity. cbn beta.
  destruct (first_pending row) as [i|] eqn:Ef; [|by apply unlock_same].
  apply first_pending_Some in Ef as [Hi _]. destruct (Hp i). unfold pending. by rewrite (stat_row _ _ row).
Qed.

(** Some softirq is pending, and then there is a lowest one, or none is. *)
Lemma lowest_pending cpu s : (cpu < NR_CPUS)%nat -> soft_ok (soft s) ->
  (exists nr, pending s cpu nr /\ (forall j, (j < nr)%nat -> ~ pending s cpu j)) \/ (forall nr, ~ pending s cpu nr).
Proof.
  intros Hcpu Hok. destruct (soft_ok_row _ cpu Hok Hcpu) as (row & Er & Hlen).
  assert (Hst : forall j, pending s cpu j <-> row !! j = Some true) by (intros; unfold pending; by rewrite (stat_row _ _ row)).
  destruct (first_pending row) as [i|] eqn:Ef.
  - apply first_pending_Some in Ef as [Hi Hlow]. left. exists i. setoid_rewrite Hst. done.
  - right. intros nr. rewrite Hst. by apply (proj1 (first_pending_None row Hlen) Ef).
Qed.

Lemma softirq_loop_served cpu Inv mu `{!SoftirqHandlers code cpu Inv mu} fuel s :
  (cpu < NR_CPUS)%nat -> Inv s -> (mu s < fuel)%nat ->
  exists tr s', softirq_loop code fuel cpu s = Ret (tt, s') /\ served code cpu s tr s' /\ Inv s'.
Proof.
  intros Hcpu. revert s. induction fuel as [|fuel IH]; intros s Hi Hf; [lia|].
  destruct (lowest_pending cpu s Hcpu (inv_soft code s Hi)) as [(nr & Hp & Hmin)|Hnone].
  - destruct (handler_runs code s nr Hi Hp) as (h & s1 & Hh & Hc & Hi1 & Hmu & _).
    destruct (IH (mark true s1) Hi1) as (tr & s' & Hrun & Htr & Hi'); [lia|].
    exists (nr :: tr), s'. split; [|split; [by eapply served_one|done]].
    rewrite <- Hrun. apply (softirq_round cpu fuel s nr h s1); auto. by apply (inv_soft code).
  - exists [], s. split; [|split; [by constructor|done]].
    apply softirq_last; [done| |done]. by apply (inv_soft code).
Qed.

Lemma served_drained cpu s tr s' : served code cpu s tr s' -> forall nr, ~ pending s' cpu nr.
Proof. induction 1; auto. Qed.

Lemma pending_mark b s cpu nr : pending (mark b s) cpu nr <-> pending s cpu nr.
Proof. unfold pending, mark. by rewrite soft_put. Qed.

Lemma served_all cpu Inv mu `{!SoftirqHandlers code cpu Inv mu} s tr s' :
  served code cpu s tr s' -> Inv s -> forall nr, pending s cpu nr -> nr ∈ tr.
Proof.
  induction 1 as [s Hn|s nr h s1 tr s' Hp Hmin Hh Hc Hs IH]; intros Hi j Hj; [by destruct (Hn j)|].
  destruct (decide (j = nr)) as [->|Hne]; [by left|]. right.
  destruct (handler_runs code s nr Hi Hp) as (h' & s1' & Hh' & Hc' & Hi' & _ & Hk).
  assert (h' = h) as -> by congruence. assert (s1' = s1) as -> by congruence.
  apply IH; [done|]. apply pending_mark. by apply Hk.
Qed.
End lemmas.

(** ** Properties *)

(** C15: [do_softirq] returns and leaves nothing pending on its CPU: with handlers
    that keep their promise, it serves the pending softirqs one at a time, the
    lowest number first (so the timer before the scheduler), including the ones
    the handlers raise while it runs; every softirq that was pending at entry is
    among those served, and [__in_interrupt] is off on return. *)
Theorem do_softirq_correct {S} `{HasSoftirq S} (code : Z -> kern S unit) cpu Inv mu
  `{!SoftirqHandlers code cpu Inv mu} fuel s :
  (cpu < NR_CPUS)%nat -> Inv s -> (mu s < fuel)%nat ->
  exists tr s1, do_softirq code fuel cpu s = Ret (tt, mark false s1) /\ served code cpu s tr s1 /\ Inv s1 /\
    (forall nr, ~ pending s1 cpu nr) /\ (forall nr, pending s cpu nr -> nr ∈ tr).
Proof.
  intros Hcpu Hi Hf.
  destruct (softirq_loop_served code cpu Inv mu fuel s Hcpu Hi Hf) as (tr & s1 & Hrun & Htr & Hi1).
  exists tr, s1. split; [|split; [done|split; [done|split]]].
  - unfold do_softirq. erewrite kbind_ret by exact Hrun. reflexivity.
  - by eapply served_drained.
  - by eapply served_all.
Qed.

(** *** A kernel with two handlers: the timer raises the scheduler *)
Definition demo := (softirq * list nat)%type.
#[export] Instance demo_soft : HasSoftirq demo.
Proof.
  refine {| soft := fun s : demo => s.1; put_soft := fun x (s : demo) => (x, s.2) |}; [done|done|by intros []].
Defined.
Definition demo_code (h : Z) : kern demo unit :=
  if h =? 100 then raise_softirq 0 SCHEDULE_SOFTIRQ;; modify (fun s => (s.1, s.2 ++ [TIMER_SOFTIRQ]))
  else modify (fun s => (s.1, s.2 ++ [SCHEDULE_SOFTIRQ])).
Definition demo_inv (s : demo) : Prop := soft_ok s.1 /\ softirq_handlers s.1 = [Some 100; Some 200].
Definition weight (s : demo) : nat :=
  (if stat s.1 0 TIMER_SOFTIRQ is Some true then 2 else 0) + (if stat s.1 0 SCHEDULE_SOFTIRQ is Some true then 1 else 0).

Lemma demo_row s : demo_inv s -> exists t c m l p,
  s.1 = MkSoftirq ([t; c] :: m) [Some 100; Some 200] false (in_interrupt s.1) p /\ l = s.2 /\
  length m = 3%nat /\ Forall (fun row => length row = NR_SOFTIRQS) m.
Proof.
  intros [[Hc Hr _ Hl] Hh]. destruct s as [[m h b i p] l]. cbn in *. subst.
  destruct m as [|[|t [|c [|]]] m]; try done; inversion Hr; try done; subst.
  exists t, c, m, l, p. split; [done|]. split; [done|]. split; [by injection Hc|done].
Qed.

#[export] Instance demo_handlers : SoftirqHandlers demo_code 0 demo_inv weight.
Proof.
  split; [by intros s []|]. intros s nr Hi Hp.
  destruct (demo_row s Hi) as (t & c & m & l & p & E & El & Hm & Hr).
  destruct s as [x l0]. cbn in E, El. subst. rewrite E in *. unfold pending in *. cbn in Hp.
  assert (Hnew : forall t' c' i, soft_ok (MkSoftirq ([t'; c'] :: m) [Some 100; Some 200] false i p))
    by (intros; split; cbn; [by rewrite Hm|by constructor|done|done]).
  destruct nr as [|[|nr]]; cbn in Hp; simplify_eq.
  - exists 100, (MkSoftirq ([false; true] :: m) [Some 100; Some 200] false (in_interrupt x) p, l0 ++ [TIMER_SOFTIRQ]).
    split; [done|]. split; [by destruct c|]. split; [by split; [apply Hnew|]|].
    split; [cbn; destruct c; lia|]. intros [|[|]]; done.
  - exists 200, (MkSoftirq ([t; false] :: m) [Some 100; Some 200] false (in_interrupt x) p, l0 ++ [SCHEDULE_SOFTIRQ]).
    split; [done|]. split; [done|]. split; [by split; [apply Hnew|]|].
    split; [cbn; destruct t; lia|]. intros [|[|]]; done.
Qed.

Definition demo0 : demo :=
  (MkSoftirq ([true; false] :: replicate 3 [false; false]) [Some 100; Some 200] false true [], []).

Lemma do_softirq_correct_witness : do_softirq demo_code 3 0 demo0 = Ret (tt,
    (MkSoftirq (replicate 4 [false; false]) [Some 100; Some 200] false false [], [TIMER_SOFTIRQ; SCHEDULE_SOFTIRQ])) /\
  exists tr s1, do_softirq demo_code 3 0 demo0 = Ret (tt, mark false s1) /\ served demo_code 0 demo0 tr s1 /\ demo_inv s1 /\
    (forall nr, ~ pending s1 0 nr) /\ (forall nr, pending demo0 0 nr -> nr ∈ tr).
Proof.
  split; [vm_compute; reflexivity|].
  apply (do_softirq_correct demo_code 0 demo_inv weight 3 demo0); [unfold NR_CPUS; lia| |cbn; lia].
  split; [|reflexivity]. split; [reflexivity| |reflexivity|reflexivity]. repeat constructor.
Defined.

End Softirq.
