(* ===== verification/Irq.v ===== *)
(** Interrupt dispatch with top and bottom halves (so3/devices/irq.c).

    The top half ([irq_process]) runs with interrupts disabled; when a driver's
    handler asks for it, the bottom half runs later in a thread of its own,
    [__irq_deferred_fn].  The two share [deferred_pending] and [thread_active].
    The thread is a program counter over the statements of the function, so an
    interrupt can arrive between any two of them as long as interrupts are
    enabled.  [bsys] is one CPU with its bottom-half threads; the drivers'
    handlers are function pointers whose result is a parameter. *)
From S2P Require Import Prelude Softirq.
Import Softirq.

Module Irq.

Definition NR_IRQS : nat := 160.
Definition IRQ_COMPLETED : Z := 0.
Definition IRQ_BOTTOM : Z := 1.
Definition BOOT_STAGE_IRQ_INIT : Z := 2.

(** The functions of an interrupt controller; [None] is a null pointer. *)
Record irq_ops_t := IrqOps {
  ops_enable : option Z;
  ops_disable : option Z;
  ops_mask : option Z;
  ops_unmask : option Z
}.

Record irqdesc := IrqDesc {
  action : option Z;
  irq_deferred_fn : option Z;
  deferred_pending : bool;
  thread_active : bool;
  irq_ops : Z;               (* the address of an [irq_ops_t] *)
  data : Z
}.
Definition set_handlers_of (a d : option Z) (x : Z) (c : irqdesc) := IrqDesc a d (deferred_pending c) (thread_active c) (irq_ops c) x.
Definition set_pending (b : bool) (c : irqdesc) := IrqDesc (action c) (irq_deferred_fn c) b (thread_active c) (irq_ops c) (data c).
Definition set_active (b : bool) (c : irqdesc) := IrqDesc (action c) (irq_deferred_fn c) (deferred_pending c) b (irq_ops c) (data c).
Definition set_ops (o : Z) (c : irqdesc) := IrqDesc (action c) (irq_deferred_fn c) (deferred_pending c) (thread_active c) o (data c).

(** [default_ops] is the address of the global [irq_ops]. *)
Definition default_ops : Z := 1.

Record irqs := Irqs {
  descs : list irqdesc;
  chips : gmap Z irq_ops_t;
  chip_calls : list (Z * Z);     (* calls into a controller: function, irq *)
  spawned : list nat;            (* [kernel_thread(__irq_deferred_fn, ...)], oldest first *)
  boot_stage : Z;
  oom : bool;
  irq_soft : softirq
}.
Definition with_descs f s := Irqs (f (descs s)) (chips s) (chip_calls s) (spawned s) (boot_stage s) (oom s) (irq_soft s).
Definition set_chips c s := Irqs (descs s) c (chip_calls s) (spawned s) (boot_stage s) (oom s) (irq_soft s).
Definition add_call c s := Irqs (descs s) (chips s) (c :: chip_calls s) (spawned s) (boot_stage s) (oom s) (irq_soft s).
Definition spawn i s := Irqs (descs s) (chips s) (chip_calls s) (spawned s ++ [i]) (boot_stage s) (oom s) (irq_soft s).
Definition set_irq_soft x s := Irqs (descs s) (chips s) (chip_calls s) (spawned s) (boot_stage s) (oom s) x.

#[export] Instance irqs_soft : HasSoftirq irqs.
Proof. refine {| soft := irq_soft; put_soft := set_irq_soft |}; [done|done|by intros []]. Defined.

(** [irq_to_desc]; the number is not checked against [NR_IRQS]. *)
Definition irq_to_desc (irq : nat) : kern irqs irqdesc := l ← gets descs; lift (deref (l !! irq)).
Definition upd_desc (irq : nat) (f : irqdesc -> irqdesc) : kern irqs unit :=
  c ← irq_to_desc irq; modify (with_descs <[irq := f c]>).

(** *** Controllers *)
Definition chip_of (irq : nat) : kern irqs irq_ops_t :=
  c ← irq_to_desc irq; m ← gets chips; lift (deref (m !! irq_ops c)).
(** [if (ops->f) ops->f(irq);] *)
Definition call_opt (f : option Z) (irq : nat) : kern irqs unit :=
  match f with Some p => modify (add_call (p, Z.of_nat irq)) | None => mret tt end.
Definition call_ptr (f : option Z) (irq : nat) : kern irqs unit :=
  p ← lift (deref f); modify (add_call (p, Z.of_nat irq)).

Definition irq_set_irq_ops (irq : nat) (o : Z) : kern irqs unit := upd_desc irq (set_ops o).
Definition irq_mask (irq : nat) : kern irqs unit := o ← chip_of irq; call_opt (ops_mask o) irq.
Definition irq_unmask (irq : nat) : kern irqs unit := o ← chip_of irq; call_opt (ops_unmask o) irq.
Definition irq_enable (irq : nat) : kern irqs unit := o ← chip_of irq; call_opt (ops_enable o) irq;; irq_unmask irq.
Definition irq_disable (irq : nat) : kern irqs unit := irq_mask irq;; o ← chip_of irq; call_opt (ops_disable o) irq.

(** *** Binding *)
Definition irq_bind (irq : nat) (handler deferred : option Z) (d : Z) : kern irqs unit :=
  c ← irq_to_desc irq;
  lift (bug_on (bool_decide (is_Some (action c))));;
  upd_desc irq (set_handlers_of handler deferred d);;
  o ← chip_of irq;
  call_ptr (ops_enable o) irq.
Definition irq_unbind (irq : nat) : kern irqs unit :=
  upd_desc irq (fun c => set_handlers_of None None (data c) c).

Definition irq_init : kern irqs unit :=
  modify (fun s => set_chips (<[default_ops := IrqOps None None None None]> (chips s)) s);;
  modify (with_descs (fmap (fun c => IrqDesc None None false false default_ops (data c))));;
  softirq_init.

(** *** The top half *)
(** What follows the call of the handler, which returned [ret]. *)
Definition request_bottom (irq : nat) (ret : Z) : kern irqs unit :=
  c ← irq_to_desc irq;
  when ((ret =? IRQ_BOTTOM) && bool_decide (is_Some (irq_deferred_fn c)))
    (upd_desc irq (set_pending true);;
     c ← irq_to_desc irq;
     when (negb (thread_active c))
       (upd_desc irq (set_active true);;
        b ← gets oom;
        lift (bug_on b);;
        modify (spawn irq))).

Section process.
(** The code behind a driver's handler: it gets the interrupt number and [data]. *)
Variable act : Z -> nat -> Z -> kern irqs Z.

(** With no action bound, [ret] is read without having been set. *)
Definition irq_process (irq : nat) : kern irqs unit :=
  st ← gets boot_stage;
  if st <? BOOT_STAGE_IRQ_INIT then mret tt
  else
    c ← irq_to_desc irq;
    ret ← match action c with Some p => act p irq (data c) | None => raise Undef end;
    request_bottom irq ret.

(** [handle_low] is the interrupt controller's entry, which finds the number and
    calls [irq_process]; interrupts were enabled when the interrupt came. *)
Definition irq_handle (handle_low : kern irqs unit) (code : Z -> kern irqs unit) (fuel cpu : nat) : kern irqs unit :=
  modify_soft (set_in_interrupt true);;
  handle_low;;
  do_softirq code fuel cpu.
End process.

(** *** The bottom half *)
Inductive pc := PcTest | PcClear | PcEnable | PcCall | PcRun | PcDisable | PcDone | PcEnable2 | PcFree.
#[export] Instance pc_eq_dec : EqDecision pc.
Proof. solve_decision. Defined.

(** One statement of [__irq_deferred_fn]; [None]: the thread has returned. *)
Definition deferred_step (irq : nat) (p : pc) : kern irqs (option pc) :=
  c ← irq_to_desc irq;
  match p with
  | PcTest => mret (Some (if deferred_pending c then PcClear else PcDone))
  | PcClear => upd_desc irq (set_pending false);; mret (Some PcEnable)
  | PcEnable => mret (Some PcCall)
  | PcCall => _ ← lift (deref (irq_deferred_fn c)); mret (Some PcRun)
  | PcRun => mret (Some PcDisable)
  | PcDisable => mret (Some PcTest)
  | PcDone => upd_desc irq (set_active false);; mret (Some PcEnable2)
  | PcEnable2 => mret (Some PcFree)
  | PcFree => mret None
  end.

(** One CPU: the descriptors, the bottom-half threads, the thread that has
    disabled interrupts, and the interrupts whose bottom half was requested after
    the last time the driver's deferred function was started. *)
Record bsys := BSys { irqst : irqs; bthreads : gmap nat (nat * pc); masked : option nat; owed : gset nat }.

(** Whether the statement leaves interrupts disabled. *)
Definition masks (p : pc) (m : option nat) (t : nat) : option nat :=
  match p with PcDisable => Some t | PcEnable | PcEnable2 => None | _ => m end.
Definition starts (p : pc) (irq : nat) (o : gset nat) : gset nat :=
  match p with PcCall => o ∖ {[irq]} | _ => o end.
Definition next_thread (t irq : nat) (p : option pc) (m : gmap nat (nat * pc)) : gmap nat (nat * pc) :=
  match p with Some q => <[t := (irq, q)]> m | None => delete t m end.

Inductive bstep : bsys -> bsys -> Prop :=
  (** An interrupt, whose handler returns [r]; a thread it creates starts at the loop test. *)
  | step_irq s irq c p r s' t :
      masked s = None -> BOOT_STAGE_IRQ_INIT <= boot_stage (irqst s) ->
      descs (irqst s) !! irq = Some c -> action c = Some p -> bthreads s !! t = None ->
      irq_process (fun _ _ _ => mret r) irq (irqst s) = Ret (tt, s') ->
      bstep s (BSys s' (if decide (spawned s' = spawned (irqst s)) then bthreads s else <[t := (irq, PcTest)]> (bthreads s))
                    None (if decide (r = IRQ_BOTTOM /\ is_Some (irq_deferred_fn c)) then {[irq]} ∪ owed s else owed s))
  (** A statement of a bottom-half thread. *)
  | step_thread s t irq p q s' :
      masked s = None \/ masked s = Some t -> bthreads s !! t = Some (irq, p) ->
      deferred_step irq p (irqst s) = Ret (q, s') ->
      bstep s (BSys s' (next_thread t irq q (bthreads s)) (masks p (masked s) t) (starts p irq (owed s))).

(** Before the statement that clears [thread_active] the thread is in charge of its interrupt. *)
Definition live (p : pc) : bool := match p with PcEnable2 | PcFree => false | _ => true end.
(** The deferred function will be started before [deferred_pending] is looked at again. *)
Definition committed (p : pc) : bool := match p with PcClear | PcEnable | PcCall => true | _ => false end.
(** Interrupts are disabled while the thread is there. *)
Definition quiet (p : pc) : bool := match p with PcDone | PcEnable2 => true | _ => false end.

(** Where a thread that has disabled interrupts can be. *)
Definition masking (p : pc) : bool := match p with PcTest | PcClear | PcEnable | PcDone | PcEnable2 => true | _ => false end.

(** What holds of a thread of interrupt [irq] at [p]. *)
Record thread_ok (s : bsys) (t irq : nat) (p : pc) (c : irqdesc) : Prop := {
  th_active : live p = true -> thread_active c = true;
  th_bound : is_Some (irq_deferred_fn c);
  th_first : p = PcTest -> masked s <> Some t -> deferred_pending c = true;
  th_done : p = PcDone -> masked s = Some t /\ deferred_pending c = false;
  th_quiet : p = PcEnable2 -> masked s = Some t
}.

Record binv (s : bsys) : Prop := {
  live_unique : forall t1 t2 irq p1 p2, bthreads s !! t1 = Some (irq, p1) -> bthreads s !! t2 = Some (irq, p2) ->
    live p1 = true -> live p2 = true -> t1 = t2;
  threads_ok : forall t irq p, bthreads s !! t = Some (irq, p) ->
    exists c, descs (irqst s) !! irq = Some c /\ thread_ok s t irq p c;
  active_live : forall irq c, descs (irqst s) !! irq = Some c -> thread_active c = true ->
    exists t p, bthreads s !! t = Some (irq, p) /\ live p = true;
  pending_active : forall irq c, descs (irqst s) !! irq = Some c -> deferred_pending c = true -> thread_active c = true;
  masked_at : forall t, masked s = Some t -> exists irq p, bthreads s !! t = Some (irq, p) /\ masking p = true;
  owed_covered : forall irq, irq ∈ owed s -> exists c, descs (irqst s) !! irq = Some c /\
    (deferred_pending c = true \/ exists t p, bthreads s !! t = Some (irq, p) /\ committed p = true)
}.

(** ** Lemmas *)
Lemma irq_to_desc_run irq c s : descs s !! irq = Some c -> irq_to_desc irq s = Ret (c, s).
Proof. intros E. unfold irq_to_desc. kstep. by rewrite E. Qed.

Lemma upd_desc_run irq f c s : descs s !! irq = Some c -> upd_desc irq f s = Ret (tt, with_descs <[irq := f c]> s).
Proof. intros E. unfold upd_desc. erewrite kbind_ret by (by apply irq_to_desc_run). reflexivity. Qed.

Lemma descs_upd irq f c s : descs s !! irq = Some c -> descs (with_descs <[irq := f]> s) !! irq = Some f.
Proof. intros E. cbn. apply list_lookup_insert_eq. by eapply lookup_lt_Some. Qed.

(** A request for the bottom half: pending, and a thread in charge of it. *)
Definition request (irq : nat) (c : irqdesc) (s : irqs) : irqs :=
  if thread_active c then with_descs <[irq := set_pending true c]> s
  else spawn irq (with_descs <[irq := set_active true (set_pending true c)]> s).

Lemma with_descs_insert irq a b s :
  with_descs <[irq := a]> (with_descs <[irq := b]> s) = with_descs <[irq := a]> s.
Proof. destruct s. unfold with_descs. cbn. by rewrite list_insert_insert_eq. Qed.

Lemma irq_process_run act irq c p s r s1 c1 :
  BOOT_STAGE_IRQ_INIT <= boot_stage s -> descs s !! irq = Some c -> action c = Some p ->
  act p irq (data c) s = Ret (r, s1) -> descs s1 !! irq = Some c1 ->
  irq_process act irq s =
    if (r =? IRQ_BOTTOM) && bool_decide (is_Some (irq_deferred_fn c1)) then
      if negb (thread_active c1) && oom s1 then Fault Panic else Ret (tt, request irq c1 s1)
    else Ret (tt, s1).
Proof.
  intros Hb E Ea Hr E1. unfold irq_process, request_bottom. kstep.
  rewrite (proj2 (Z.ltb_ge _ _)) by lia. erewrite kbind_ret by (by apply irq_to_desc_run). cbn beta.
  rewrite Ea. erewrite kbind_ret by exact Hr. cbn beta. erewrite kbind_ret by (by apply irq_to_desc_run). cbn beta.
  destruct (_ && bool_decide _); [|done]. cbn [when]. unfold request.
  erewrite kbind_ret by (by apply upd_desc_run). cbn beta.
  erewrite kbind_ret by (apply irq_to_desc_run; by eapply descs_upd). cbn beta. cbn [thread_active set_pending].
  destruct (thread_active c1); [done|]. cbn [negb when andb].
  erewrite kbind_ret by (apply upd_desc_run; by eapply descs_upd). cbn beta. rewrite with_descs_insert.
  kstep. cbn [oom with_descs]. by destruct (oom s1).
Qed.

Lemma deferred_step_run irq p c s q s' : descs s !! irq = Some c -> deferred_step irq p s = Ret (q, s') ->
  match p with
  | PcTest => q = Some (if deferred_pending c then PcClear else PcDone) /\ s' = s
  | PcClear => q = Some PcEnable /\ s' = with_descs <[irq := set_pending false c]> s
  | PcEnable => q = Some PcCall /\ s' = s
  | PcCall => q = Some PcRun /\ s' = s
  | PcRun => q = Some PcDisable /\ s' = s
  | PcDisable => q = Some PcTest /\ s' = s
  | PcDone => q = Some PcEnable2 /\ s' = with_descs <[irq := set_active false c]> s
  | PcEnable2 => q = Some PcFree /\ s' = s
  | PcFree => q = None /\ s' = s
  end.
Proof.
  intros E. unfold deferred_step. erewrite kbind_ret by (by apply irq_to_desc_run). cbn beta.
  destruct p; try (intros [= <- <-]; done).
  - erewrite kbind_ret by (by apply upd_desc_run). by intros [= <- <-].
  - destruct (irq_deferred_fn c); [|done]. by intros [= <- <-].
  - erewrite kbind_ret by (by apply upd_desc_run). by intros [= <- <-].
Qed.

Lemma deferred_step_total irq p c s : descs s !! irq = Some c -> is_Some (irq_deferred_fn c) ->
  exists q s', deferred_step irq p s = Ret (q, s').
Proof.
  intros E [f Hf]. unfold deferred_step. erewrite kbind_ret by (by apply irq_to_desc_run). cbn beta.
  destruct p; try (by eexists _, _); try (erewrite kbind_ret by (by apply upd_desc_run); by eexists _, _).
  rewrite Hf. by eexists _, _.
Qed.

(** *** The invariant of the bottom-half protocol *)

Definition live_of (q : option pc) : bool := match q with Some q => live q | None => false end.

(** What a statement of thread [t] does to its interrupt: the thread goes from
    [p] to [q], the descriptor from [c] to [c'], the mask to [m], the debts to [o]. *)
Record moved (s : bsys) (t irq : nat) (p : pc) (c : irqdesc) (q : option pc) (c' : irqdesc) (m : option nat) (o : gset nat) : Prop := {
  mv_live : live_of q = true -> live p = true;
  mv_fn : irq_deferred_fn c' = irq_deferred_fn c;
  mv_active : thread_active c' = if live p then live_of q else thread_active c;
  mv_pending : deferred_pending c' = true -> deferred_pending c = true /\ thread_active c' = true;
  mv_same : live p = false -> c' = c;
  mv_thread : forall q', q = Some q' -> forall s', masked s' = m -> thread_ok s' t irq q' c';
  mv_mask : forall t', m = Some t' -> t' = t /\ exists q', q = Some q' /\ masking q' = true;
  mv_owed : o ⊆ owed s;
  mv_keep : irq ∈ o -> (deferred_pending c = true \/ committed p = true) ->
    deferred_pending c' = true \/ exists q', q = Some q' /\ committed q' = true
}.

Definition after (s : bsys) (t irq : nat) (q : option pc) (c' : irqdesc) (m : option nat) (o : gset nat) : bsys :=
  BSys (with_descs <[irq := c']> (irqst s)) (next_thread t irq q (bthreads s)) m o.

Lemma next_thread_Some t irq q m t0 irq0 p0 : next_thread t irq q m !! t0 = Some (irq0, p0) ->
  (t0 = t /\ irq0 = irq /\ q = Some p0) \/ (t0 <> t /\ m !! t0 = Some (irq0, p0)).
Proof.
  unfold next_thread. destruct q as [q|].
  - rewrite lookup_insert_Some. intros [[<- Heq]|[? ?]]; [left; by simplify_eq|right; auto].
  - rewrite lookup_delete_Some. intros [? ?]. right. auto.
Qed.

Lemma next_thread_self t irq q m : next_thread t irq (Some q) m !! t = Some (irq, q).
Proof. apply lookup_insert_eq. Qed.
Lemma next_thread_ne t irq q m t0 : t0 <> t -> next_thread t irq q m !! t0 = m !! t0.
Proof. intros Hne. destruct q; [by apply lookup_insert_ne|by apply lookup_delete_ne]. Qed.

Lemma desc_insert_Some (l : list irqdesc) irq c c' irq0 c0 : l !! irq = Some c -> <[irq := c']> l !! irq0 = Some c0 ->
  (irq0 = irq /\ c0 = c') \/ (irq0 <> irq /\ l !! irq0 = Some c0).
Proof.
  intros E. rewrite list_lookup_insert_Some. intros [(<- & -> & _)|[Hne E0]]; [by left|by right].
Qed.

Lemma desc_insert_get (l : list irqdesc) irq c c' irq0 : l !! irq = Some c ->
  <[irq := c']> l !! irq0 = if decide (irq0 = irq) then Some c' else l !! irq0.
Proof.
  intros E. case_decide as Hd; [subst; apply list_lookup_insert_eq; by eapply lookup_lt_Some|].
  by apply list_lookup_insert_ne.
Qed.

Lemma after_unique s t irq p c q c' m o : binv s -> bthreads s !! t = Some (irq, p) -> moved s t irq p c q c' m o ->
  forall t1 t2 i p1 p2, bthreads (after s t irq q c' m o) !! t1 = Some (i, p1) ->
    bthreads (after s t irq q c' m o) !! t2 = Some (i, p2) -> live p1 = true -> live p2 = true -> t1 = t2.
Proof.
  intros Hi Ht Hm t1 t2 i p1 p2 H1 H2 L1 L2. cbn in H1, H2.
  apply next_thread_Some in H1 as [(-> & Hi1 & Hq1)|[Hne1 H1]]; apply next_thread_Some in H2 as [(-> & Hi2 & Hq2)|[Hne2 H2]]; subst; [done|..].
  - assert (Hl : live p = true) by (apply (mv_live _ _ _ _ _ _ _ _ _ Hm); done).
    exact (live_unique s Hi _ _ _ _ _ Ht H2 Hl L2).
  - assert (Hl : live p = true) by (apply (mv_live _ _ _ _ _ _ _ _ _ Hm); done).
    exact (live_unique s Hi _ _ _ _ _ H1 Ht L1 Hl).
  - exact (live_unique s Hi _ _ _ _ _ H1 H2 L1 L2).
Qed.

(** The other threads keep their assertions: none of them has interrupts disabled. *)
Lemma after_threads s t irq p c q c' m o : binv s -> bthreads s !! t = Some (irq, p) -> descs (irqst s) !! irq = Some c ->
  (masked s = None \/ masked s = Some t) -> moved s t irq p c q c' m o ->
  forall t0 i p0, bthreads (after s t irq q c' m o) !! t0 = Some (i, p0) ->
    exists c0, descs (irqst (after s t irq q c' m o)) !! i = Some c0 /\ thread_ok (after s t irq q c' m o) t0 i p0 c0.
Proof.
  intros Hi Ht E Hmask Hm t0 i p0 H0. cbn in H0 |- *.
  apply next_thread_Some in H0 as [(-> & -> & Hq)|[Hne H0]].
  { exists c'. split; [rewrite (desc_insert_get _ _ c) by done; by rewrite decide_True|].
    by apply (mv_thread _ _ _ _ _ _ _ _ _ Hm). }
  destruct (threads_ok s Hi _ _ _ H0) as (c0 & E0 & [A B F D Q]).
  assert (Hfree : masked s <> Some t0) by (destruct Hmask as [->| ->]; congruence).
  destruct (decide (i = irq)) as [->|Hni].
  - rewrite E in E0. injection E0 as <-. exists c'. split; [rewrite (desc_insert_get _ _ c) by done; by rewrite decide_True|].
    destruct (live p) eqn:Lp; [|rewrite (mv_same _ _ _ _ _ _ _ _ _ Hm Lp); split; auto; intros Hp; [by apply D in Hp as []|by apply Q in Hp]].
    destruct (live p0) eqn:L0; [by destruct Hne; eapply (live_unique s Hi)|].
    split; [congruence|by rewrite (mv_fn _ _ _ _ _ _ _ _ _ Hm)|by intros ->|by intros ->|].
    intros Hp. by apply Q in Hp.
  - exists c0. split; [rewrite (desc_insert_get _ _ c) by done; by rewrite decide_False|].
    split; auto; intros Hp; [by apply D in Hp as []|by apply Q in Hp].
Qed.

Lemma after_inv s t irq p c q c' m o : binv s -> bthreads s !! t = Some (irq, p) -> descs (irqst s) !! irq = Some c ->
  (masked s = None \/ masked s = Some t) -> moved s t irq p c q c' m o -> binv (after s t irq q c' m o).
Proof.
  intros Hi Ht E Hmask Hm. destruct (threads_ok s Hi _ _ _ Ht) as (c1 & E1 & Hth). rewrite E in E1. injection E1 as <-.
  split.
  - exact (after_unique s t irq p c q c' m o Hi Ht Hm).
  - exact (after_threads s t irq p c q c' m o Hi Ht E Hmask Hm).
  - intros i c0 E0 Ha. cbn in E0 |- *. apply (desc_insert_Some _ _ c) in E0 as [[-> ->]|[Hni E0]]; [|..|done].
    + rewrite (mv_active _ _ _ _ _ _ _ _ _ Hm) in Ha. destruct (live p) eqn:Lp.
      * destruct q as [q|]; [|done]. exists t, q. by rewrite next_thread_self.
      * destruct (active_live s Hi _ _ E Ha) as (t0 & p0 & H0 & L0). exists t0, p0.
        rewrite next_thread_ne by congruence. done.
    + destruct (active_live s Hi _ _ E0 Ha) as (t0 & p0 & H0 & L0). exists t0, p0.
      rewrite next_thread_ne by congruence. done.
  - intros i c0 E0 Hp. cbn in E0. apply (desc_insert_Some _ _ c) in E0 as [[-> ->]|[Hni E0]]; [|..|done].
    + by apply (mv_pending _ _ _ _ _ _ _ _ _ Hm).
    + by apply (pending_active s Hi i).
  - intros t' Hm'. cbn in Hm' |- *. destruct (mv_mask _ _ _ _ _ _ _ _ _ Hm _ Hm') as (-> & q' & -> & Hq).
    exists irq, q'. by rewrite next_thread_self.
  - intros i Ho. cbn in Ho |- *. destruct (owed_covered s Hi i) as (c0 & E0 & Hc0); [by apply (mv_owed _ _ _ _ _ _ _ _ _ Hm)|].
    rewrite (desc_insert_get _ _ c) by done. destruct (decide (i = irq)) as [->|Hni].
    + exists c'. split; [done|]. rewrite E in E0. injection E0 as <-.
      assert (Hself : deferred_pending c = true \/ committed p = true ->
        deferred_pending c' = true \/ exists t0 p0, next_thread t irq q (bthreads s) !! t0 = Some (irq, p0) /\ committed p0 = true).
      { intros Hcov. destruct (mv_keep _ _ _ _ _ _ _ _ _ Hm Ho Hcov) as [?|(q' & -> & Hq)]; [by left|].
        right. exists t, q'. by rewrite next_thread_self. }
      destruct Hc0 as [?|(t0 & p0 & H0 & C0)]; [by apply Hself; left|].
      destruct (decide (t0 = t)) as [->|Hne]; [apply Hself; right; congruence|].
      right. exists t0, p0. rewrite next_thread_ne by done. done.
    + exists c0. split; [done|]. destruct Hc0 as [?|(t0 & p0 & H0 & C0)]; [by left|].
      right. exists t0, p0. rewrite next_thread_ne by congruence. done.
Qed.

Lemma irqst_same s irq c : descs s !! irq = Some c -> with_descs <[irq := c]> s = s.
Proof. intros E. destruct s. unfold with_descs. cbn in *. by rewrite list_insert_id. Qed.

(** The obligations of one statement, in the order of [moved]. *)
Ltac move_tac A Hpa Hts Hmt :=
  split; cbn;
  [ done
  | reflexivity
  | first [by apply A | by symmetry; apply A | reflexivity]
  | intros Hpn; first [discriminate Hpn | congruence | split; [done|by apply Hpa]]
  | first [done | reflexivity]
  | intros q' Hq' s0 Hs0; first [discriminate Hq' | injection Hq' as <-]; split; cbn; rewrite ?Hs0; try done; try congruence; auto
  | intros t' Ht'; first [discriminate Ht' | (pose proof Ht' as Ht2; first [injection Ht2 as <- | apply Hts in Ht2]);
      first [split; [done|by eexists] | rewrite Hmt in Ht' by done; discriminate Ht']]
  | try apply subseteq_difference_l; done
  | intros Ho Hk; first [right; by eexists | left; by destruct Hk | destruct Hk; congruence | set_solver] ].

Lemma thread_step_moved s t irq p q s' : binv s -> (masked s = None \/ masked s = Some t) ->
  bthreads s !! t = Some (irq, p) -> deferred_step irq p (irqst s) = Ret (q, s') ->
  exists c c', descs (irqst s) !! irq = Some c /\ s' = with_descs <[irq := c']> (irqst s) /\
    moved s t irq p c q c' (masks p (masked s) t) (starts p irq (owed s)).
Proof.
  intros Hi Hmask Ht Hs. destruct (threads_ok s Hi _ _ _ Ht) as (c & E & [A B F D Q]).
  pose proof (pending_active s Hi irq c E) as Hpa.
  pose proof (fun t' => masked_at s Hi t') as Hma.
  assert (Hmt : masking p = false -> masked s = None).
  { destruct Hmask as [?|Hmt]; [done|]. destruct (Hma _ Hmt) as (i & p' & H' & Hp'). congruence. }
  assert (Hts : forall t', masked s = Some t' -> t' = t) by (destruct Hmask as [->| ->]; congruence).
  apply (deferred_step_run irq p c) in Hs; [|done]. exists c.
  destruct p; destruct Hs as [-> Hs].
  - exists c. rewrite irqst_same by done. split; [done|]. split; [done|]. destruct (deferred_pending c) eqn:Hp.
    + move_tac A Hpa Hts Hmt.
    + assert (masked s = Some t) as Hm.
      { destruct Hmask as [Hm|?]; [|done]. cut (false = true); [done|]. apply F; congruence. }
      move_tac A Hpa Hts Hmt.
  - exists (set_pending false c). split; [done|]. split; [done|]. move_tac A Hpa Hts Hmt.
  - exists c. rewrite irqst_same by done. split; [done|]. split; [done|]. move_tac A Hpa Hts Hmt.
  - exists c. rewrite irqst_same by done. split; [done|]. split; [done|]. move_tac A Hpa Hts Hmt.
  - exists c. rewrite irqst_same by done. split; [done|]. split; [done|]. move_tac A Hpa Hts Hmt.
  - exists c. rewrite irqst_same by done. split; [done|]. split; [done|]. move_tac A Hpa Hts Hmt.
  - exists (set_active false c). split; [done|]. split; [done|]. destruct (D eq_refl) as [Hm Hp]. move_tac A Hpa Hts Hmt.
  - exists c. rewrite irqst_same by done. split; [done|]. split; [done|]. move_tac A Hpa Hts Hmt.
  - exists c. rewrite irqst_same by done. split; [done|]. split; [done|]. move_tac A Hpa Hts Hmt.
Qed.

(** An interrupt that asks for its bottom half while a thread is in charge. *)
Lemma request_active s irq c : binv s -> masked s = None -> descs (irqst s) !! irq = Some c ->
  is_Some (irq_deferred_fn c) -> thread_active c = true ->
  binv (BSys (with_descs <[irq := set_pending true c]> (irqst s)) (bthreads s) None ({[irq]} ∪ owed s)).
Proof.
  intros Hi Hm E Hf Ha. split; cbn.
  - exact (live_unique s Hi).
  - intros t i p Ht. destruct (threads_ok s Hi _ _ _ Ht) as (c0 & E0 & [A B F D Q]).
    rewrite (desc_insert_get _ _ c) by done. case_decide as Hd; subst.
    + exists (set_pending true c). split; [done|]. rewrite E in E0. injection E0 as <-.
      split; cbn; auto; intros Hp; [apply D in Hp as []|apply Q in Hp]; congruence.
    + exists c0. split; [done|]. split; auto; cbn; intros Hp.
      * intros _. apply F; [done|congruence].
      * apply D in Hp as []. congruence.
      * apply Q in Hp. congruence.
  - intros i c0 E0 Ha0. apply (desc_insert_Some _ _ c) in E0 as [[-> ->]|[_ E0]]; [..|done].
    + by apply (active_live s Hi irq c).
    + by apply (active_live s Hi i c0).
  - intros i c0 E0 Hp. apply (desc_insert_Some _ _ c) in E0 as [[-> ->]|[_ E0]]; [..|done]; [done|].
    by apply (pending_active s Hi i).
  - done.
  - intros i Ho. rewrite (desc_insert_get _ _ c) by done. case_decide as Hd.
    + eexists. split; [done|]. by left.
    + apply elem_of_union in Ho as [Ho|Ho]; [set_solver|]. by apply (owed_covered s Hi).
Qed.

(** One that finds no thread in charge creates it. *)
Lemma request_spawn s irq c t : binv s -> masked s = None -> descs (irqst s) !! irq = Some c ->
  is_Some (irq_deferred_fn c) -> thread_active c = false -> bthreads s !! t = None ->
  binv (BSys (spawn irq (with_descs <[irq := set_active true (set_pending true c)]> (irqst s)))
             (<[t := (irq, PcTest)]> (bthreads s)) None ({[irq]} ∪ owed s)).
Proof.
  intros Hi Hm E Hf Ha Hfresh.
  assert (Hnolive : forall t' p', bthreads s !! t' = Some (irq, p') -> live p' = false).
  { intros t' p' H'. destruct (threads_ok s Hi _ _ _ H') as (c0 & E0 & [A _ _ _ _]).
    rewrite E in E0. injection E0 as <-. destruct (live p'); [|done]. by rewrite A in Ha. }
  split; cbn.
  - intros t1 t2 i p1 p2 H1 H2 L1 L2.
    apply lookup_insert_Some in H1 as [[<- H1]|[Hn1 H1]]; apply lookup_insert_Some in H2 as [[<- H2]|[Hn2 H2]]; simplify_eq; [done|..].
    + by rewrite (Hnolive _ _ H2) in L2.
    + by rewrite (Hnolive _ _ H1) in L1.
    + by eapply (live_unique s Hi).
  - intros t' i p Ht. rewrite (desc_insert_get _ _ c) by done.
    apply lookup_insert_Some in Ht as [[<- Heq]|[Hn Ht]]; simplify_eq.
    + rewrite decide_True by done. eexists. split; [done|]. by split; cbn.
    + destruct (threads_ok s Hi _ _ _ Ht) as (c0 & E0 & [A B F D Q]). case_decide as Hd; subst.
      * eexists. split; [done|]. split; cbn; auto; intros Hp; [apply D in Hp as []|apply Q in Hp]; congruence.
      * exists c0. split; [done|]. split; auto; cbn; intros Hp.
        -- intros _. apply F; [done|congruence].
        -- apply D in Hp as []. congruence.
        -- apply Q in Hp. congruence.
  - intros i c0 E0 Ha0. apply (desc_insert_Some _ _ c) in E0 as [[-> ->]|[_ E0]]; [..|done].
    + exists t, PcTest. by rewrite lookup_insert_eq.
    + destruct (active_live s Hi i c0 E0 Ha0) as (t' & p' & H' & L'). exists t', p'.
      rewrite lookup_insert_ne by congruence. done.
  - intros i c0 E0 Hp. apply (desc_insert_Some _ _ c) in E0 as [[-> ->]|[_ E0]]; [..|done]; [done|].
    by apply (pending_active s Hi i).
  - done.
  - intros i Ho. rewrite (desc_insert_get _ _ c) by done. case_decide as Hd.
    + eexists. split; [done|]. by left.
    + apply elem_of_union in Ho as [Ho|Ho]; [set_solver|].
      destruct (owed_covered s Hi i Ho) as (c0 & E0 & [?|(t' & p' & H' & C')]); exists c0; (split; [done|]); [by left|right].
      exists t', p'. rewrite lookup_insert_ne by congruence. done.
Qed.

Lemma request_spawned irq c st : spawned (request irq c st) = if thread_active c then spawned st else spawned st ++ [irq].
Proof. unfold request. by destruct (thread_active c). Qed.

Lemma bstep_inv s s' : binv s -> bstep s s' -> binv s'.
Proof.
  intros Hi Hs. inversion Hs as [s0 irq c p r st t Hm Hb E Ea Hfresh Hp|s0 t irq p q st Hm Ht Hd]; subst.
  - rewrite (irq_process_run _ irq c p (irqst s) r (irqst s) c) in Hp by (done || reflexivity).
    destruct (Z.eqb_spec r IRQ_BOTTOM) as [->|Hr]; cbn [andb] in Hp.
    2: { injection Hp as <-. rewrite decide_True by done. rewrite decide_False by tauto.
         destruct s; cbn in *; by subst. }
    destruct (bool_decide_reflect (is_Some (irq_deferred_fn c))) as [Hf|Hf].
    2: { injection Hp as <-. rewrite decide_True by done. rewrite decide_False by tauto.
         destruct s; cbn in *; by subst. }
    destruct (negb (thread_active c) && oom (irqst s)) eqn:Ho; [done|]. injection Hp as <-.
    rewrite request_spawned, (decide_True (P := _ /\ _)) by done.
    unfold request. destruct (thread_active c) eqn:Hact.
    + rewrite decide_True by done. by apply request_active.
    + rewrite decide_False; [by apply request_spawn|].
      intros Hl. apply (f_equal length) in Hl. rewrite length_app in Hl. cbn in Hl. lia.
  - destruct (thread_step_moved s t irq p q st Hi Hm Ht Hd) as (c & c' & E & -> & Hmv).
    exact (after_inv s t irq p c q c' _ _ Hi Ht E Hm Hmv).
Qed.

(** A CPU on which no bottom half was ever requested. *)
Definition fresh (s : bsys) : Prop :=
  bthreads s = ∅ /\ masked s = None /\ owed s = ∅ /\
  Forall (fun c => deferred_pending c = false /\ thread_active c = false) (descs (irqst s)).

Lemma fresh_inv s : fresh s -> binv s.
Proof.
  intros (Ht & Hm & Ho & Hd). rewrite Forall_lookup in Hd. split; rewrite ?Ht, ?Hm, ?Ho; try done.
  - intros irq c E Ha. destruct (Hd irq c E). congruence.
  - intros irq c E Hp. destruct (Hd irq c E). congruence.
Qed.

Definition breachable (s0 s : bsys) : Prop := rtc bstep s0 s.

Lemma reachable_inv s0 s : fresh s0 -> breachable s0 s -> binv s.
Proof. intros Hf Hr. apply fresh_inv in Hf. induction Hr; eauto using bstep_inv. Qed.

(** *** Progress: the statements of the bottom-half threads alone *)
Inductive tstep : bsys -> bsys -> Prop :=
  | tstep_intro s t irq p q s' :
      masked s = None \/ masked s = Some t -> bthreads s !! t = Some (irq, p) ->
      deferred_step irq p (irqst s) = Ret (q, s') ->
      tstep s (BSys s' (next_thread t irq q (bthreads s)) (masks p (masked s) t) (starts p irq (owed s))).

Lemma tstep_bstep s s' : tstep s s' -> bstep s s'.
Proof. intros []. by eapply step_thread. Qed.

(** A thread that may run takes its next statement. *)
Lemma thread_runs s t irq p c : binv s -> (masked s = None \/ masked s = Some t) ->
  bthreads s !! t = Some (irq, p) -> descs (irqst s) !! irq = Some c ->
  exists q c', tstep s (after s t irq q c' (masks p (masked s) t) (starts p irq (owed s))) /\
    binv (after s t irq q c' (masks p (masked s) t) (starts p irq (owed s))) /\
    match p with
    | PcTest => q = Some (if deferred_pending c then PcClear else PcDone) /\ c' = c
    | PcClear => q = Some PcEnable
    | PcEnable => q = Some PcCall
    | PcCall => q = Some PcRun
    | PcRun => q = Some PcDisable /\ c' = c
    | PcDisable => q = Some PcTest /\ c' = c
    | PcDone => q = Some PcEnable2
    | PcEnable2 => q = Some PcFree
    | PcFree => q = None
    end.
Proof.
  intros Hi Hm Ht E. destruct (threads_ok s Hi _ _ _ Ht) as (c0 & E0 & [_ B _ _ _]). rewrite E in E0. injection E0 as <-.
  destruct (deferred_step_total irq p c (irqst s) E B) as (q & st & Hd).
  destruct (thread_step_moved s t irq p q st Hi Hm Ht Hd) as (c1 & c' & E1 & Hst & Hmv).
  rewrite E in E1. injection E1 as <-. exists q, c'.
  assert (Htst : tstep s (after s t irq q c' (masks p (masked s) t) (starts p irq (owed s)))).
  { unfold after. rewrite <- Hst. by econstructor. }
  split; [done|]. split; [by eapply bstep_inv, tstep_bstep|].
  assert (Hsame : with_descs <[irq := c']> (irqst s) = irqst s -> c' = c).
  { intros Hw. apply (f_equal descs) in Hw. cbn in Hw.
    pose proof (desc_insert_get _ _ c c' irq E) as Hg. rewrite Hw, E in Hg. rewrite decide_True in Hg by done. congruence. }
  apply (deferred_step_run irq p c) in Hd; [|done]. rewrite Hst in Hd.
  destruct p; destruct Hd as [-> Hd]; auto.
Qed.

(** Statements left before interrupts are enabled again. *)
Definition to_unmask (p : pc) : nat := match p with PcTest => 3 | PcClear | PcDone => 2 | _ => 1 end.

Lemma unmask_progress n s t irq p : binv s -> masked s = Some t -> bthreads s !! t = Some (irq, p) ->
  (to_unmask p <= n)%nat ->
  exists k s1, (k <= n)%nat /\ nsteps tstep k s s1 /\ masked s1 = None /\ owed s1 = owed s /\ binv s1.
Proof.
  revert s p. induction n as [|n IH]; intros s p Hi Hm Ht Hn; [destruct p; cbn in Hn; lia|].
  destruct (threads_ok s Hi _ _ _ Ht) as (c & E & _).
  destruct (masked_at s Hi _ Hm) as (i' & p' & Ht' & Hp'). rewrite Ht in Ht'. injection Ht' as <- <-.
  destruct (thread_runs s t irq p c Hi (or_intror Hm) Ht E) as (q & c' & Hs & Hi' & Hq).
  set (s' := after s t irq q c' (masks p (masked s) t) (starts p irq (owed s))) in *.
  assert (Hrec : forall q0, q = Some q0 -> masks p (masked s) t = Some t -> starts p irq (owed s) = owed s -> (to_unmask q0 <= n)%nat ->
    exists k s1, (k <= S n)%nat /\ nsteps tstep k s s1 /\ masked s1 = None /\ owed s1 = owed s /\ binv s1).
  { intros q0 -> Hmk Ho Hle. destruct (IH s' q0 Hi' Hmk) as (k & s1 & Hk & Hn1 & Hm1 & Ho1 & Hi1); [apply next_thread_self|done|].
    exists (S k), s1. split; [lia|]. split; [by eapply nsteps_l|]. split; [done|]. split; [|done]. rewrite Ho1. exact Ho. }
  destruct p; try discriminate Hp'; cbn in Hn.
  - destruct Hq as [-> _]. eapply Hrec; [reflexivity|done|done|]. destruct (deferred_pending c); cbn; lia.
  - subst q. eapply Hrec; [reflexivity|done|done|]. cbn; lia.
  - exists 1%nat, s'. split; [lia|]. split; [by apply nsteps_once|]. done.
  - subst q. eapply Hrec; [reflexivity|done|done|]. cbn; lia.
  - exists 1%nat, s'. split; [lia|]. split; [by apply nsteps_once|]. done.
Qed.

(** Statements left before the deferred function is started. *)
Definition to_call (p : pc) : nat :=
  match p with PcCall => 1 | PcEnable => 2 | PcClear => 3 | PcTest => 4 | PcDisable => 5 | PcRun => 6 | _ => 7 end.

Lemma serve_progress n s t irq p c : binv s -> (masked s = None \/ masked s = Some t) ->
  bthreads s !! t = Some (irq, p) -> descs (irqst s) !! irq = Some c ->
  committed p = true \/ (deferred_pending c = true /\ live p = true) -> (to_call p <= n)%nat ->
  exists k s1, (k <= n)%nat /\ nsteps tstep k s s1 /\ irq ∉ owed s1.
Proof.
  revert s p c. induction n as [|n IH]; intros s p c Hi Hm Ht E Hd Hn; [destruct p; cbn in Hn; lia|].
  destruct (threads_ok s Hi _ _ _ Ht) as (c0 & E0 & Hok). rewrite E in E0. injection E0 as <-.
  destruct (thread_runs s t irq p c Hi Hm Ht E) as (q & c' & Hs & Hi' & Hq).
  set (s' := after s t irq q c' (masks p (masked s) t) (starts p irq (owed s))) in *.
  assert (Hrec : forall q0, q = Some q0 -> committed q0 = true \/ (deferred_pending c' = true /\ live q0 = true) ->
    (masks p (masked s) t = None \/ masks p (masked s) t = Some t) -> (to_call q0 <= n)%nat ->
    exists k s1, (k <= S n)%nat /\ nsteps tstep k s s1 /\ irq ∉ owed s1).
  { intros q0 -> Hd0 Hm0 Hle.
    destruct (IH s' q0 c' Hi' Hm0) as (k & s1 & Hk & Hn1 & Ho1); [apply next_thread_self|by eapply descs_upd|done|done|].
    exists (S k), s1. split; [lia|]. split; [by eapply nsteps_l|done]. }
  destruct p; cbn in Hn, Hd; try (destruct Hd as [|[_ ?]]; discriminate).
  - destruct Hd as [?|[Hp _]]; [done|]. rewrite Hp in Hq. destruct Hq as [-> ->].
    eapply Hrec; [reflexivity|by left|done|cbn; lia].
  - subst q. eapply Hrec; [reflexivity|by left|done|cbn; lia].
  - subst q. eapply Hrec; [reflexivity|by left|by left|cbn; lia].
  - exists 1%nat, s'. split; [lia|]. split; [by apply nsteps_once|]. cbn. set_solver.
  - destruct Hd as [?|[Hp _]]; [done|]. destruct Hq as [-> ->]. eapply Hrec; [reflexivity|by right|done|cbn; lia].
  - destruct Hd as [?|[Hp _]]; [done|]. destruct Hq as [-> ->]. eapply Hrec; [reflexivity|by right|by right|cbn; lia].
  - destruct Hd as [?|[Hp _]]; [done|]. destruct (th_done _ _ _ _ _ Hok eq_refl). congruence.
Qed.

Lemma enabled_progress s irq : binv s -> masked s = None -> irq ∈ owed s ->
  exists k s1, (k <= 6)%nat /\ nsteps tstep k s s1 /\ irq ∉ owed s1.
Proof.
  intros Hi Hm Ho. destruct (owed_covered s Hi irq Ho) as (c & E & Hc).
  assert (exists t p, bthreads s !! t = Some (irq, p) /\ (committed p = true \/ (deferred_pending c = true /\ live p = true))) as (t & p & Ht & Hd).
  { destruct Hc as [Hp|(t & p & Ht & Hp)]; [|exists t, p; auto].
    destruct (active_live s Hi irq c E) as (t & p & Ht & Hl); [by apply (pending_active s Hi irq)|]. exists t, p. auto. }
  apply (serve_progress 6 s t irq p c); auto.
  destruct (threads_ok s Hi _ _ _ Ht) as (c0 & E0 & [_ _ _ D _]).
  destruct p; cbn; try lia; [by destruct (D eq_refl); congruence|destruct Hd as [|[_ ?]]; discriminate..].
Qed.

Lemma to_unmask_le p : (to_unmask p <= 3)%nat.
Proof. destruct p; cbn; lia. Qed.

(** *** Every run *)
(** The thread [t] of interrupt [irq] will start the deferred function before it looks at
    [deferred_pending] again, or finds it set. *)
Definition due (irq : nat) (s : bsys) (t : nat) (p : pc) : Prop :=
  bthreads s !! t = Some (irq, p) /\ live p = true /\ p <> PcDone /\
  exists c, descs (irqst s) !! irq = Some c /\ (committed p = true \/ deferred_pending c = true).

Lemma due_exists s irq : binv s -> irq ∈ owed s -> exists t p, due irq s t p.
Proof.
  intros Hi Ho. destruct (owed_covered s Hi irq Ho) as (c & E & [Hp|(t & p & Ht & Hp)]).
  - destruct (active_live s Hi irq c E) as (t & p & Ht & Hl); [by apply (pending_active s Hi irq)|]. exists t, p. split_and!; [done|done| |eauto].
    intros ->. destruct (threads_ok s Hi _ _ _ Ht) as (c0 & E0 & [_ _ _ D _]). destruct (D eq_refl). congruence.
  - exists t, p. split_and!; [done|by destruct p|by destruct p|eauto].
Qed.

(** A statement of its own brings it closer to the call; nothing else moves it. *)
Lemma due_own s t irq p q s1 : binv s -> due irq s t p -> deferred_step irq p (irqst s) = Ret (q, s1) -> irq ∈ starts p irq (owed s) ->
  exists p1, q = Some p1 /\ (to_call p1 < to_call p)%nat /\ live p1 = true /\ p1 <> PcDone /\
    exists c, descs s1 !! irq = Some c /\ (committed p1 = true \/ deferred_pending c = true).
Proof.
  intros Hi (Ht & Hl & Hd & c & E & Hc) Hs Ho. apply (deferred_step_run irq p c) in Hs; [|done].
  destruct p; try done; destruct Hs as [-> ->]; cbn [starts] in Ho; cbn [committed] in Hc.
  - destruct Hc as [?|Hp]; [done|]. rewrite Hp. exists PcClear. split_and!; [done|cbn; lia|done|done|]. exists c. auto.
  - exists PcEnable. split_and!; [done|cbn; lia|done|done|]. exists (set_pending false c). split; [by eapply descs_upd|by left].
  - exists PcCall. split_and!; [done|cbn; lia|done|done|]. exists c. auto.
  - set_solver.
  - exists PcDisable. split_and!; [done|cbn; lia|done|done|]. exists c. destruct Hc; [done|auto].
  - exists PcTest. split_and!; [done|cbn; lia|done|done|]. exists c. destruct Hc; [done|auto].
Qed.

Lemma due_step s irq t p s1 : binv s -> due irq s t p -> bstep s s1 -> irq ∈ owed s1 ->
  exists p1, due irq s1 t p1 /\ (p1 = p \/ (to_call p1 < to_call p)%nat).
Proof.
  intros Hi Hdue Hs Ho. pose proof Hdue as (Ht & Hl & Hd & c & E & Hc).
  inversion Hs as [s0 i ci a r st t0 Hm Hb Ei Ea Hfresh Hp|s0 t0 i p0 q st Hm Ht0 Hd0]; subst; cbn [owed irqst bthreads] in *.
  - exists p. split; [|by left]. rewrite (irq_process_run _ i ci a (irqst s) r (irqst s) ci) in Hp by (done || reflexivity).
    assert (Hthr : forall m : gmap nat (nat * pc), m = bthreads s \/ m = <[t0 := (i, PcTest)]> (bthreads s) -> m !! t = Some (irq, p)).
    { intros m [->| ->]; [done|]. rewrite lookup_insert_ne; [done|]. congruence. }
    split_and!; [apply Hthr; case_decide; auto|done|done|]. destruct (_ && _); [|injection Hp as <-; eauto].
    destruct (_ && _); [done|]. injection Hp as <-. cbn [irqst].
    destruct (decide (irq = i)) as [<-|Hne].
    + assert (ci = c) as -> by congruence. unfold request. destruct (thread_active c).
      * exists (set_pending true c). split; [by eapply descs_upd|by right].
      * exists (set_active true (set_pending true c)). split; [by eapply (descs_upd irq _ c)|by right].
    + exists c. split; [|done]. unfold request. destruct (thread_active ci); cbn; by rewrite list_lookup_insert_ne by congruence.
  - destruct (decide (t0 = t)) as [->|Hne].
    + assert (i = irq /\ p0 = p) as [-> ->] by (split; congruence).
      destruct (due_own s t irq p q st Hi Hdue Hd0 Ho) as (p1 & -> & Hlt & Hl1 & Hd1 & Hex). exists p1. split; [|by right]. split_and!; [apply next_thread_self|done..].
    + exists p. split; [|by left]. split_and!; [cbn; by rewrite next_thread_ne|done|done|]. exists c. split; [|done]. cbn.
      destruct (threads_ok s Hi _ _ _ Ht0) as (c0 & E0 & _). apply (deferred_step_run i p0 c0) in Hd0; [|done].
      destruct (decide (i = irq)) as [->|Hni].
      * destruct (live p0) eqn:L0; [by destruct Hne; eapply (live_unique s Hi)|]. destruct p0; try done; destruct Hd0 as [_ ->]; done.
      * destruct p0; destruct Hd0 as [_ ->]; try done; cbn; by rewrite list_lookup_insert_ne.
Qed.

(** A run, interrupts and other threads included, after each step of which interrupt [irq]
    still waits for its deferred function; [n] counts statements of the thread in charge of it. *)
Inductive unserved (irq : nat) : nat -> bsys -> bsys -> Prop :=
  | unserved_refl s : unserved irq 0 s s
  | unserved_step n s s1 s' : bstep s s1 -> irq ∈ owed s1 -> unserved irq n s1 s' -> unserved irq n s s'
  | unserved_own n s t p q st s' : masked s = None \/ masked s = Some t -> bthreads s !! t = Some (irq, p) -> live p = true ->
      deferred_step irq p (irqst s) = Ret (q, st) -> irq ∈ starts p irq (owed s) ->
      unserved irq n (BSys st (next_thread t irq q (bthreads s)) (masks p (masked s) t) (starts p irq (owed s))) s' -> unserved irq (S n) s s'.

Lemma unserved_bound irq n s s' : unserved irq n s s' -> forall t p, binv s -> due irq s t p -> (n < to_call p)%nat.
Proof.
  induction 1 as [s|n s s1 s' Hs Ho _ IH|n s t0 p0 q st s' Hm Ht0 Hl0 Hd Ho _ IH]; intros t p Hi Hdue; [destruct p; cbn; lia|..].
  - destruct (due_step s irq t p s1 Hi Hdue Hs Ho) as (p1 & Hd1 & Hlt). specialize (IH t p1 (bstep_inv _ _ Hi Hs) Hd1). destruct Hlt as [->|]; lia.
  - pose proof Hdue as (Ht & Hl & _). assert (t0 = t) as -> by (by eapply (live_unique s Hi)). assert (p0 = p) as -> by congruence.
    destruct (due_own s t irq p q st Hi Hdue Hd Ho) as (p1 & -> & Hlt & Hl1 & Hd1 & Hex). assert (Hs := step_thread s t irq p (Some p1) st Hm Ht Hd).
    specialize (IH t p1 (bstep_inv _ _ Hi Hs)). assert (n < to_call p1)%nat; [|lia]. apply IH. split_and!; [apply next_thread_self|done..].
Qed.

(** ** Properties *)

(** C16: In every interleaving of interrupts with the statements of the bottom-half
    threads, an interrupt has at most one thread in charge of it, so its deferred
    function never runs twice at the same time, and [thread_active] says exactly
    whether there is such a thread. *)
Theorem bottom_half_single s0 s irq c t1 t2 p1 p2 :
  fresh s0 -> breachable s0 s -> descs (irqst s) !! irq = Some c ->
  (thread_active c = true <-> exists t p, bthreads s !! t = Some (irq, p) /\ live p = true) /\
  (bthreads s !! t1 = Some (irq, p1) -> bthreads s !! t2 = Some (irq, p2) -> live p1 = true -> live p2 = true -> t1 = t2).
Proof.
  intros Hf Hr E. pose proof (reachable_inv s0 s Hf Hr) as Hi. split; [split|].
  - by apply (active_live s Hi).
  - intros (t & p & Ht & Hl). destruct (threads_ok s Hi _ _ _ Ht) as (c0 & E0 & [A _ _ _ _]).
    rewrite E in E0. injection E0 as <-. by apply A.
  - by apply (live_unique s Hi).
Qed.

(** C17: No request for a bottom half is lost.  In every reachable state where some interrupt
    asked for its bottom half since the deferred function was last started: in every run from
    there, with interrupts and statements of other threads interleaved in any way, the thread in
    charge of the interrupt takes at most five statements before the function is started, so its
    sixth starts it at the latest; and there is such a thread and it can get there: some nine
    statements of the bottom-half threads at most, with no further interrupt, start it. *)
Theorem bottom_half_served s0 s irq :
  fresh s0 -> breachable s0 s -> irq ∈ owed s ->
  (forall n s', unserved irq n s s' -> (n < 6)%nat) /\
  (exists k s1, (k <= 9)%nat /\ nsteps tstep k s s1 /\ irq ∉ owed s1).
Proof.
  intros Hf Hr Ho. pose proof (reachable_inv s0 s Hf Hr) as Hi. split.
  { intros n s' Hu. destruct (due_exists s irq Hi Ho) as (t & p & Hd). pose proof (unserved_bound irq n s s' Hu t p Hi Hd). destruct Hd as (_ & Hl & Hne & _).
    destruct p; cbn in *; (done || lia). }
  destruct (masked s) as [t|] eqn:Hm.
  - destruct (masked_at s Hi t Hm) as (i & p & Ht & Hp).
    destruct (unmask_progress 3 s t i p Hi Hm Ht (to_unmask_le p)) as (k1 & s1 & Hk1 & Hn1 & Hm1 & Ho1 & Hi1).
    destruct (enabled_progress s1 irq Hi1 Hm1) as (k2 & s2 & Hk2 & Hn2 & Ho2); [by rewrite Ho1|].
    exists (k1 + k2)%nat, s2. split; [lia|]. split; [by eapply nsteps_trans|done].
  - destruct (enabled_progress s irq Hi Hm Ho) as (k & s1 & Hk & Hn & Ho1). exists k, s1. split; [lia|done].
Qed.

(** A driver that binds a free interrupt gets it enabled at its controller and
    is called with its own [data] when it fires; if it asks for the bottom half,
    that is marked pending and a thread is created for it.  Binding an interrupt
    that has a handler stops the kernel and leaves the first handler in place. *)
Theorem irq_bind_process act irq h f d c o e s :
  descs s !! irq = Some c -> chips s !! irq_ops c = Some o -> ops_enable o = Some e ->
  thread_active c = false -> BOOT_STAGE_IRQ_INIT <= boot_stage s -> oom s = false ->
  match action c with
  | Some _ => irq_bind irq (Some h) (Some f) d s = Fault Panic
  | None => exists s1, irq_bind irq (Some h) (Some f) d s = Ret (tt, s1) /\
      chip_calls s1 = (e, Z.of_nat irq) :: chip_calls s /\
      (act h irq d s1 = Ret (IRQ_BOTTOM, s1) -> exists s2 c2, irq_process act irq s1 = Ret (tt, s2) /\
         descs s2 !! irq = Some c2 /\ deferred_pending c2 = true /\ thread_active c2 = true /\
         irq_deferred_fn c2 = Some f /\ spawned s2 = spawned s ++ [irq])
  end.
Proof.
  intros E Eo Ee Ha Hb Ho. unfold irq_bind. erewrite kbind_ret by (by apply irq_to_desc_run). cbn beta.
  destruct (action c) as [a|] eqn:Eact.
  { erewrite kbind_fault; [done|]. by rewrite bool_decide_eq_true_2 by eauto. }
  erewrite kbind_ret; [|by rewrite bool_decide_eq_false_2 by (intros []; done)]. cbn beta.
  erewrite kbind_ret by (by apply upd_desc_run). cbn beta.
  set (c1 := set_handlers_of (Some h) (Some f) d c). set (s1 := with_descs <[irq := c1]> s).
  assert (E1 : descs s1 !! irq = Some c1) by (by eapply descs_upd).
  assert (Hchip : chip_of irq s1 = Ret (o, s1)).
  { unfold chip_of. erewrite kbind_ret by (by apply irq_to_desc_run). kstep. cbn. by rewrite Eo. }
  erewrite kbind_ret by exact Hchip. cbn beta. unfold call_ptr. rewrite Ee. kstep.
  set (s2 := add_call (e, Z.of_nat irq) s1). exists s2. split; [done|]. split; [done|]. intros Hact.
  rewrite (irq_process_run act irq c1 h s2 IRQ_BOTTOM s2 c1) by (done || exact E1).
  cbn. rewrite Ha, Ho. cbn. eexists _, _. split; [done|].
  unfold request, c1. cbn. rewrite Ha. cbn.
  split; [apply list_lookup_insert_eq; autorewrite with so3; by eapply lookup_lt_Some|]. done.
Qed.

(** An interrupt ends with every softirq of the CPU served. *)
Lemma irq_handle_drains code fuel cpu Inv mu `{!SoftirqHandlers code cpu Inv mu} low s s1 :
  (cpu < NR_CPUS)%nat -> low (put_soft (set_in_interrupt true (soft s)) s) = Ret (tt, s1) -> Inv s1 -> (mu s1 < fuel)%nat ->
  exists s', irq_handle low code fuel cpu s = Ret (tt, s') /\ in_interrupt (soft s') = false /\
    (forall nr, ~ pending s' cpu nr).
Proof.
  intros Hcpu Hlow Hi Hf.
  destruct (softirq_loop_served code cpu Inv mu fuel s1 Hcpu Hi Hf) as (tr & s2 & Hrun & Htr & _).
  exists (mark false s2). split; [|split; [by unfold mark; rewrite soft_put|]].
  - unfold irq_handle. erewrite kbind_ret by apply modify_soft_run. cbn beta.
    erewrite kbind_ret by exact Hlow. cbn beta. unfold do_softirq. by erewrite kbind_ret by exact Hrun.
  - intros nr. rewrite pending_mark. by eapply served_drained.
Qed.

(** *** A CPU with one driver *)
Definition desc0 : irqdesc := IrqDesc (Some 10) (Some 20) false false default_ops 7.
Definition irqs0 (a : option Z) : irqs :=
  Irqs [set_handlers_of a (Some 20) 7 desc0] {[default_ops := IrqOps (Some 30) None None None]} [] [] 3 false
       (MkSoftirq [] [] false false []).
Definition bsys0 : bsys := BSys (irqs0 (Some 10)) ∅ None ∅.
Definition bsys1 : bsys := BSys (request 0 desc0 (irqs0 (Some 10))) {[4%nat := (0%nat, PcTest)]} None {[0%nat]}.

Lemma bsys1_reachable : breachable bsys0 bsys1.
Proof.
  apply rtc_once. refine (step_irq bsys0 0 desc0 10 IRQ_BOTTOM _ 4 _ _ _ _ _ _); try reflexivity. cbn. unfold BOOT_STAGE_IRQ_INIT. lia.
Qed.
Lemma bsys0_fresh : fresh bsys0.
Proof. split; [done|]. split; [done|]. split; [done|]. by repeat constructor. Qed.

Lemma bottom_half_single_witness :
  (thread_active (set_active true (set_pending true desc0)) = true <->
     exists t p, bthreads bsys1 !! t = Some (0%nat, p) /\ live p = true) /\
  (bthreads bsys1 !! 4%nat = Some (0%nat, PcTest) -> bthreads bsys1 !! 4%nat = Some (0%nat, PcTest) ->
   live PcTest = true -> live PcTest = true -> 4%nat = 4%nat).
Proof. apply (bottom_half_single bsys0 bsys1 0 _ 4 4 PcTest PcTest bsys0_fresh bsys1_reachable). reflexivity. Defined.

Lemma bottom_half_served_witness : (forall n s', unserved 0 n bsys1 s' -> (n < 6)%nat) /\
  exists k s1, (k <= 9)%nat /\ nsteps tstep k bsys1 s1 /\ 0%nat ∉ owed s1.
Proof. apply (bottom_half_served bsys0 bsys1 0 bsys0_fresh bsys1_reachable). set_solver. Defined.

Lemma irq_bind_process_witness : exists s1, irq_bind 0 (Some 10) (Some 20) 7 (irqs0 None) = Ret (tt, s1) /\
  chip_calls s1 = [(30, 0)] /\
  ((mret IRQ_BOTTOM : kern irqs Z) s1 = Ret (IRQ_BOTTOM, s1) -> exists s2 c2, irq_process (fun _ _ _ => mret IRQ_BOTTOM) 0 s1 = Ret (tt, s2) /\
     descs s2 !! 0%nat = Some c2 /\ deferred_pending c2 = true /\ thread_active c2 = true /\
     irq_deferred_fn c2 = Some 20 /\ spawned s2 = [0%nat]).
Proof.
  exact (irq_bind_process (fun _ _ _ => mret IRQ_BOTTOM) 0 10 20 7 _ _ 30 (irqs0 None) eq_refl eq_refl eq_refl eq_refl
    ltac:(unfold BOOT_STAGE_IRQ_INIT; cbn; lia) eq_refl).
Defined.

End Irq.
