(* ===== verification/Virq.v ===== *)
(** Event channels seen by a guest (so3/soo/kernel/evtchn.c, soo/evtchn.h): they are
    mapped to interrupt numbers, and the hypervisor's upcall runs the handler of
    every channel that is pending.

    The state of a guest holds its interrupt descriptors ([Irq]) and the hypervisor
    ([EventChannel]), whose record of the running domain contains the pending flags of
    the shared page.  The interrupt controller of all descriptors is [virq_ops]: calls
    into it that [Irq] records are replayed on the mask of the channels.  The handlers of
    the drivers and their state [D] are a parameter. *)
From S2P Require Import Prelude Softirq Irq EventChannel.

Module Virq.
Import EventChannel Irq.

Definition VIRQ_TIMER : nat := 0.
(** The address of [virq_ops], and its functions. *)
Definition virq_ops_ptr : Z := 2.
Definition VIRQ_MASK : Z := 1.
Definition VIRQ_UNMASK : Z := 2.
Definition virq_ops : irq_ops_t := IrqOps (Some VIRQ_UNMASK) (Some VIRQ_MASK) (Some VIRQ_MASK) (Some VIRQ_UNMASK).

Record vguest {D : Type} := Guest {
  gi : irqs;
  evtchn_to_irq : list Z;
  irq_to_evtchn : list Z;
  valid : list bool;
  evtchn_mask : list bool;
  virq_bindcount : list Z;
  irq_mapping_update_lock : bool;
  avz : hyp;
  drv : D
}.
Arguments vguest : clear implicits.
Arguments Guest {D} gi evtchn_to_irq irq_to_evtchn valid evtchn_mask virq_bindcount irq_mapping_update_lock avz drv.

Section virq.
Context {D : Type}.
Abbreviation guest := (vguest D).
Implicit Types (g : guest).

Definition with_gi x g : guest := Guest (x) (evtchn_to_irq g) (irq_to_evtchn g) (valid g) (evtchn_mask g) (virq_bindcount g) (irq_mapping_update_lock g) (avz g) (drv g).
Definition with_e2i f g : guest := Guest (gi g) (f (evtchn_to_irq g)) (irq_to_evtchn g) (valid g) (evtchn_mask g) (virq_bindcount g) (irq_mapping_update_lock g) (avz g) (drv g).
Definition with_i2e f g : guest := Guest (gi g) (evtchn_to_irq g) (f (irq_to_evtchn g)) (valid g) (evtchn_mask g) (virq_bindcount g) (irq_mapping_update_lock g) (avz g) (drv g).
Definition with_valid f g : guest := Guest (gi g) (evtchn_to_irq g) (irq_to_evtchn g) (f (valid g)) (evtchn_mask g) (virq_bindcount g) (irq_mapping_update_lock g) (avz g) (drv g).
Definition with_mask f g : guest := Guest (gi g) (evtchn_to_irq g) (irq_to_evtchn g) (valid g) (f (evtchn_mask g)) (virq_bindcount g) (irq_mapping_update_lock g) (avz g) (drv g).
Definition with_count f g : guest := Guest (gi g) (evtchn_to_irq g) (irq_to_evtchn g) (valid g) (evtchn_mask g) (f (virq_bindcount g)) (irq_mapping_update_lock g) (avz g) (drv g).
Definition set_map_lock b g : guest := Guest (gi g) (evtchn_to_irq g) (irq_to_evtchn g) (valid g) (evtchn_mask g) (virq_bindcount g) (b) (avz g) (drv g).
Definition with_avz h g : guest := Guest (gi g) (evtchn_to_irq g) (irq_to_evtchn g) (valid g) (evtchn_mask g) (virq_bindcount g) (irq_mapping_update_lock g) (h) (drv g).
Definition set_drv v g : guest := Guest (gi g) (evtchn_to_irq g) (irq_to_evtchn g) (valid g) (evtchn_mask g) (virq_bindcount g) (irq_mapping_update_lock g) (avz g) (v).

(** ** Access *)
Definition read {A} (f : guest -> list A) (i : Z) : kern guest A := l ← gets f; lift (index l i).
(** An assignment to an array element. *)
Definition store {A} (f : guest -> list A) (w : (list A -> list A) -> guest -> guest) (i : Z) (v : A) : kern guest unit :=
  _ ← read f i; modify (w <[Z.to_nat i := v]>).
Definition on_avz {A} (m : kern hyp A) : kern guest A := fun g =>
  match m (avz g) with Ret (a, h) => Ret (a, with_avz h g) | Fault e => Fault e end.
Definition avz_hypercall (op : evtchn_op) : kern guest (option Z) := on_avz (do_event_channel_op op).
(** The record of the running domain, part of which is the shared page. *)
Definition shared : kern guest domain := d ← gets (fun g => current_domain (avz g)); on_avz (dom_of d).
Definition upd_shared (f : domain -> domain) : kern guest unit := d ← gets (fun g => current_domain (avz g)); on_avz (upd_dom d f).

Definition lock_mapping : kern guest unit :=
  b ← gets irq_mapping_update_lock; if (b : bool) then raise Hang else modify (set_map_lock true).
Definition unlock_mapping : kern guest unit := modify (set_map_lock false).

(** ** Channels and interrupts *)
Definition evtchn_from_irq (irq : Z) : kern guest Z := read irq_to_evtchn irq.
Definition evtchn_is_masked (b : Z) : kern guest bool := read evtchn_mask b.
Definition mask_evtchn (e : Z) : kern guest unit := store evtchn_mask with_mask e true.
Definition unmask_evtchn (e : Z) : kern guest unit := store evtchn_mask with_mask e false.
Definition virq_mask (virq : Z) : kern guest unit := e ← evtchn_from_irq virq; mask_evtchn e.
Definition virq_unmask (virq : Z) : kern guest unit := e ← evtchn_from_irq virq; unmask_evtchn e.
Definition clear_evtchn (e : Z) : kern guest unit :=
  x ← shared; _ ← lift (index (evtchn_pending x) e);
  upd_shared (fun x => with_pending <[Z.to_nat e := false]> (evtchn_upcall_pending x) x).

(** ** The interrupt layer over [virq_ops] *)
Definition set_calls (l : list (Z * Z)) (x : irqs) : irqs := Irqs (descs x) (chips x) l (spawned x) (boot_stage x) (oom x) (irq_soft x).
Definition chip_call (c : Z * Z) : kern guest unit :=
  if c.1 =? VIRQ_MASK then virq_mask c.2 else if c.1 =? VIRQ_UNMASK then virq_unmask c.2 else raise Undef.
Fixpoint replay (l : list (Z * Z)) : kern guest unit :=
  match l with [] => mret tt | c :: l => replay l;; chip_call c end.
Definition irq_op {A} (m : kern irqs A) : kern guest A := fun g =>
  match m (set_calls [] (gi g)) with
  | Ret (a, x) => (replay (chip_calls x);; mret a) (with_gi (set_calls [] x) g)
  | Fault e => Fault e
  end.

(** ** Binding *)
Definition find_unbound_irq : kern guest Z :=
  l ← gets virq_bindcount;
  match for_ret NR_IRQS (fun i => match l !! i with Some c => if c =? 0 then Some i else None | None => None end) with
  | Some i => mret (Z.of_nat i)
  | None => raise Panic
  end.

Definition add_binding (irq : Z) (n : Z) : kern guest Z :=
  c ← read virq_bindcount irq; store virq_bindcount with_count irq (c + n);; mret (c + n).

Definition map_evtchn (evtchn irq : Z) : kern guest unit :=
  store evtchn_to_irq with_e2i evtchn irq;;
  store irq_to_evtchn with_i2e irq evtchn;;
  store valid with_valid evtchn true.

Definition bind_evtchn_to_virq (evtchn : Z) : kern guest Z :=
  lock_mapping;;
  i ← read evtchn_to_irq evtchn;
  irq ← (if i =? -1 then irq ← find_unbound_irq; map_evtchn evtchn irq;; mret irq else mret i);
  _ ← add_binding irq 1;
  unlock_mapping;;
  mret irq.

Definition unbind_domain_evtchn (domid evtchn : Z) : kern guest unit :=
  _ ← avz_hypercall EVTCHNOP_other;
  store valid with_valid evtchn false.

Definition bind_interdomain_evtchn_to_irq (rdom revtchn : Z) : kern guest Z :=
  r ← avz_hypercall (EVTCHNOP_bind_interdomain rdom revtchn);
  e ← lift (deref r);
  bind_evtchn_to_virq e.

Definition bind_existing_interdomain_evtchn (local_evtchn rdom revtchn : Z) : kern guest Z :=
  _ ← avz_hypercall (EVTCHNOP_bind_existing_interdomain rdom local_evtchn revtchn);
  bind_evtchn_to_virq local_evtchn.

Definition bind_virq (virq : Z) : kern guest unit :=
  lock_mapping;;
  r ← avz_hypercall (EVTCHNOP_bind_virq virq);
  evtchn ← lift (deref r);
  map_evtchn evtchn virq;;
  unmask_evtchn evtchn;;
  _ ← add_binding virq 1;
  unlock_mapping.

Definition unbind_from_irq (irq : Z) : kern guest unit :=
  evtchn ← evtchn_from_irq irq;
  lock_mapping;;
  c ← add_binding irq (-1);
  when (c =? 0)
    (_ ← avz_hypercall (EVTCHNOP_close evtchn);
     store evtchn_to_irq with_e2i evtchn (-1);;
     store valid with_valid evtchn false);;
  unlock_mapping.

Definition bind_evtchn_to_irq_handler (evtchn : Z) (handler thread_fn : option Z) (d : Z) : kern guest Z :=
  irq ← bind_evtchn_to_virq evtchn;
  irq_op (irq_bind (Z.to_nat irq) handler thread_fn d);;
  mret irq.
Definition bind_interdomain_evtchn_to_irqhandler (rdom revtchn : Z) (handler thread_fn : option Z) (d : Z) : kern guest Z :=
  irq ← bind_interdomain_evtchn_to_irq rdom revtchn;
  lift (bug_on (irq <? 0));;
  irq_op (irq_bind (Z.to_nat irq) handler thread_fn d);;
  mret irq.
Definition bind_virq_to_irqhandler (virq : Z) (handler thread_fn : option Z) (d : Z) : kern guest unit :=
  bind_virq virq;;
  irq_op (irq_bind (Z.to_nat virq) handler thread_fn d).
Definition unbind_from_irqhandler (irq : Z) : kern guest unit :=
  unbind_from_irq irq;;
  irq_op (irq_unbind (Z.to_nat irq)).

(** ** Notification *)
Definition notify_remote_via_evtchn (evtchn : Z) : kern guest unit := _ ← avz_hypercall (EVTCHNOP_send evtchn); mret tt.
Definition notify_remote_via_virq (irq : Z) : kern guest unit :=
  evtchn ← evtchn_from_irq irq;
  v ← read valid evtchn;
  lift (bug_on (negb v));;
  notify_remote_via_evtchn evtchn.

(** ** Initialisation *)
Definition virq_init : kern guest unit :=
  modify (with_e2i (fun _ => replicate NR_EVTCHN (-1)));;
  modify (with_valid (fun _ => replicate NR_EVTCHN false));;
  modify (with_mask (fun _ => replicate NR_EVTCHN true));;
  modify (with_count (fun _ => replicate NR_VIRQS 0));;
  irq_op (modify (fun x => set_chips (<[virq_ops_ptr := virq_ops]> (chips x)) x);;
          modify (with_descs (fmap (fun c => IrqDesc None None (deferred_pending c) (thread_active c) virq_ops_ptr (data c)))));;
  _ ← add_binding (Z.of_nat VIRQ_TIMER) 1;
  mret tt.

(** ** The upcall *)
Section handle.
(** The code behind a driver's handler: it gets the interrupt number and [data]. *)
Variable hcode : Z -> nat -> Z -> kern guest Z.

(** [irq_process] of so3/devices/irq.c, with handlers that act on the guest. *)
Definition process (irq : nat) : kern guest unit :=
  st ← gets (fun g => boot_stage (gi g));
  if st <? BOOT_STAGE_IRQ_INIT then mret tt
  else
    c ← irq_op (irq_to_desc irq);
    ret ← match action c with Some p => hcode p irq (data c) | None => raise Undef end;
    irq_op (request_bottom irq ret).

(** The first channel that is pending and not masked. *)
Definition first_event (pend mask : list bool) : option nat :=
  for_ret NR_EVTCHN (fun e => match pend !! e, mask !! e with Some true, Some false => Some e | _, _ => None end).

Fixpoint virq_loop (fuel : nat) : kern guest unit :=
  match fuel with
  | O => raise Hang
  | S f =>
      x ← shared; m ← gets evtchn_mask;
      match first_event (evtchn_pending x) m with
      | None => mret tt
      | Some e =>
          v ← read valid (Z.of_nat e);
          lift (bug_on (negb v));;
          virq ← read evtchn_to_irq (Z.of_nat e);
          e' ← evtchn_from_irq virq;
          clear_evtchn e';;
          irq_op (irq_mask (Z.to_nat virq));;
          process (Z.to_nat virq);;
          irq_op (irq_unmask (Z.to_nat virq));;
          virq_loop f
      end
  end.

Fixpoint virq_handle (rounds fuel : nat) : kern guest unit :=
  match rounds with
  | O => raise Hang
  | S r =>
      x ← shared;
      upd_shared (fun x => with_pending id false x);;
      if evtchn_upcall_pending x then
        virq_loop fuel;;
        y ← shared;
        if evtchn_upcall_pending y then virq_handle r fuel else mret tt
      else mret tt
  end.
End handle.
End virq.

End Virq.
