(* ===== verification/VirqInv.v ===== *)
(** Event channels of a guest: the maps between channels and interrupts stay inverse to
    each other whatever is bound and unbound, and the upcall serves what is pending. *)
From S2P Require Import Prelude Softirq Irq EventChannel Virq.

Module VirqInv.
Import EventChannel Irq Virq.

(** ** What a hypercall leaves alone *)
Definition avz_frame (h h' : hyp) : Prop :=
  current_domain h' = current_domain h /\
  forall d x, domains h !! d = Some x -> exists x', domains h' !! d = Some x' /\ length (evtchn_pending x') = length (evtchn_pending x).

#[export] Instance avz_frame_preorder : PreOrder avz_frame.
Proof.
  split; [intros h; split; [done|eauto]|]. intros h1 h2 h3 [A1 A2] [B1 B2]. split; [congruence|].
  intros d x Hx. destruct (A2 d x Hx) as (y & Hy & Ey). destruct (B2 d y Hy) as (z & Hz & Ez). exists z. split; [done|congruence].
Qed.

Definition keeps {A} (m : kern hyp A) : Prop := forall h a h', m h = Ret (a, h') -> avz_frame h h'.

Lemma keeps_ret {A} (a : A) : keeps (mret a).
Proof. intros h b h' [= _ <-]. reflexivity. Qed.
Lemma keeps_bind {A B} (m : kern hyp A) (k : A -> kern hyp B) : keeps m -> (forall a, keeps (k a)) -> keeps (m ≫= k).
Proof. intros Hm Hk h b h' (a & h1 & E1 & E2)%kbind_inv. etransitivity; [by eapply Hm|by eapply Hk]. Qed.
Lemma keeps_gets {A} (f : hyp -> A) : keeps (gets f).
Proof. intros h a h' [= _ <-]. reflexivity. Qed.
Lemma keeps_lift {A} (o : outcome A) : keeps (lift o).
Proof. intros h a h'. unfold lift. destruct o; [|done]. intros [= _ <-]. reflexivity. Qed.
Lemma keeps_raise {A} f : keeps (raise f : kern hyp A).
Proof. done. Qed.
Lemma keeps_when b (m : kern hyp unit) : keeps m -> keeps (when b m).
Proof. intros Hm. destruct b; [done|apply keeps_ret]. Qed.
Lemma keeps_dom_of d : keeps (dom_of d).
Proof. apply keeps_bind; [apply keeps_gets|intros; apply keeps_lift]. Qed.
Lemma keeps_upd d f : (forall x, length (evtchn_pending (f x)) = length (evtchn_pending x)) -> keeps (upd_dom d f).
Proof.
  intros Hf h [] h' (x & Hx & ->)%upd_dom_inv. split; [done|]. intros d' y Hy. cbn [domains with_domains].
  destruct (decide (d = d')) as [<-|Hne]; [|rewrite lookup_insert_ne by done; eauto]. rewrite lookup_insert_eq. eexists. split; [done|]. rewrite Hf. congruence.
Qed.
Lemma keeps_modify f : (forall h, current_domain (f h) = current_domain h /\ domains (f h) = domains h) -> keeps (modify f).
Proof. intros Hf h [] h' [= <-]. destruct (Hf h) as [E1 E2]. split; [done|]. rewrite E2. eauto. Qed.

Ltac keeps_tac :=
  repeat first
    [ apply keeps_dom_of | apply keeps_upd; intros ?; cbn [with_chans set_event_lock set_virq_lock with_virqs with_pending evtchn_pending]; rewrite ?length_insert; reflexivity
    | apply keeps_bind; [|intros ?] | apply keeps_ret | apply keeps_gets | apply keeps_lift | apply keeps_raise | apply keeps_when
    | apply keeps_modify; intros ?; done | case_match ].

Lemma keeps_op o : keeps (do_event_channel_op o).
Proof.
  unfold do_event_channel_op, evtchn_alloc_unbound, evtchn_bind_interdomain, evtchn_bind_existing_interdomain, evtchn_bind_virq, evtchn_close, evtchn_send,
    evtchn_set_pending, lock_both, unlock_both, lock_events, unlock_events, upd_chn, chn_of, panic_if.
  keeps_tac.
Qed.

Lemma keeps_send d e : keeps (evtchn_send d e).
Proof. unfold evtchn_send, evtchn_set_pending, lock_both, unlock_both, lock_events, unlock_events, chn_of, panic_if. keeps_tac. Qed.

(** ** What an operation of the interrupt layer leaves alone *)
Record irq_frame (x x' : irqs) : Prop := {
  if_chips : chips x' = chips x;
  if_stage : boot_stage x' = boot_stage x /\ oom x' = oom x;
  if_len : length (descs x') = length (descs x);
  if_descs : forall i c', descs x' !! i = Some c' -> exists c, descs x !! i = Some c /\ irq_ops c' = irq_ops c
}.
#[export] Instance irq_frame_preorder : PreOrder irq_frame.
Proof.
  split; [intros x; split; eauto|]. intros x y z [A1 A2 A3 A4] [B1 B2 B3 B4]. split; [congruence|intuition congruence|congruence|].
  intros i c Hc. destruct (B4 i c Hc) as (b & Hb & Eb). destruct (A4 i b Hb) as (a & Ha & Ea). exists a. split; [done|congruence].
Qed.
Definition irq_keeps {A} (m : kern irqs A) : Prop := forall x a x', m x = Ret (a, x') -> irq_frame x x'.

Lemma irq_keeps_bind {A B} (m : kern irqs A) (k : A -> kern irqs B) : irq_keeps m -> (forall a, irq_keeps (k a)) -> irq_keeps (m ≫= k).
Proof. intros Hm Hk x b x' (a & x1 & E1 & E2)%kbind_inv. etransitivity; [by eapply Hm|by eapply Hk]. Qed.
Lemma irq_keeps_same {A} (m : kern irqs A) : (forall x a x', m x = Ret (a, x') -> x' = x) -> irq_keeps m.
Proof. intros Hm x a x' ->%Hm. reflexivity. Qed.
Lemma irq_keeps_desc i : irq_keeps (irq_to_desc i).
Proof. apply irq_keeps_same. intros x a x'. unfold irq_to_desc, mbind, kern_bind, gets, lift. destruct (deref _); [|done]. by intros [= _ <-]. Qed.
Lemma irq_keeps_upd i f : (forall c, irq_ops (f c) = irq_ops c) -> irq_keeps (upd_desc i f).
Proof.
  intros Hf x [] x' (c & x1 & E & E2)%kbind_inv. assert (x1 = x /\ descs x !! i = Some c) as [-> Hc].
  { unfold irq_to_desc, mbind, kern_bind, gets, lift in E. destruct (descs x !! i) as [c0|] eqn:Ec; [|done]. cbn in E. by simplify_eq. }
  injection E2 as <-. split; cbn [chips boot_stage oom descs with_descs]; [done|done|by rewrite length_insert|].
  intros j c'. destruct (decide (j = i)) as [->|Hne]; [|rewrite list_lookup_insert_ne by done; eauto].
  rewrite list_lookup_insert_eq by (by eapply lookup_lt_Some). intros [= <-]. exists c. by rewrite Hf.
Qed.
Lemma irq_keeps_modify f : (forall x, chips (f x) = chips x /\ boot_stage (f x) = boot_stage x /\ oom (f x) = oom x /\ descs (f x) = descs x) -> irq_keeps (modify f).
Proof. intros Hf x [] x' [= <-]. destruct (Hf x) as (E1 & E2 & E3 & E4). split; [done|done|by rewrite E4|rewrite E4; eauto]. Qed.
Lemma irq_keeps_when b m : irq_keeps m -> irq_keeps (when b m).
Proof. intros Hm. destruct b; [done|]. apply irq_keeps_same. by intros x a x' [= _ <-]. Qed.

Ltac irq_keeps_tac :=
  repeat first
    [ apply irq_keeps_desc | apply irq_keeps_when | apply irq_keeps_upd; intros ?; reflexivity | apply irq_keeps_bind; [|intros ?]
    | apply irq_keeps_same; intros ? ? ?; unfold mret, kern_ret, gets, raise, lift; intros [= _ <-]; reflexivity
    | apply irq_keeps_same; intros ? ? ?; unfold lift; intros; repeat case_match; by simplify_eq
    | apply irq_keeps_modify; intros ?; done | case_match ].

Lemma irq_keeps_bind_op i h t d : irq_keeps (irq_bind i h t d).
Proof. unfold irq_bind, chip_of, call_ptr. irq_keeps_tac. Qed.
Lemma irq_keeps_unbind i : irq_keeps (irq_unbind i).
Proof. unfold irq_unbind. irq_keeps_tac. Qed.
Lemma irq_keeps_mask i : irq_keeps (irq_mask i).
Proof. unfold irq_mask, chip_of, call_opt. irq_keeps_tac. Qed.
Lemma irq_keeps_unmask i : irq_keeps (irq_unmask i).
Proof. unfold irq_unmask, chip_of, call_opt. irq_keeps_tac. Qed.
Lemma irq_keeps_request i r : irq_keeps (request_bottom i r).
Proof. unfold request_bottom. irq_keeps_tac. Qed.

(** ** The invariant *)
Section inv.
Context {D : Type}.
Implicit Types (g : vguest D) (e : nat).

Record maps_ok g : Prop := {
  mo_len : length (evtchn_to_irq g) = NR_EVTCHN /\ length (irq_to_evtchn g) = NR_VIRQS /\ length (valid g) = NR_EVTCHN /\
    length (evtchn_mask g) = NR_EVTCHN /\ length (virq_bindcount g) = NR_VIRQS /\ length (descs (gi g)) = NR_IRQS;
  mo_map : forall e i, evtchn_to_irq g !! e = Some i -> i <> -1 ->
    0 <= i < Z.of_nat NR_IRQS /\ irq_to_evtchn g !! Z.to_nat i = Some (Z.of_nat e) /\ exists c, virq_bindcount g !! Z.to_nat i = Some c /\ 1 <= c;
  mo_valid : forall e, valid g !! e = Some true <-> exists i, evtchn_to_irq g !! e = Some i /\ i <> -1;
  mo_chip : chips (gi g) !! virq_ops_ptr = Some virq_ops /\ forall i c, descs (gi g) !! i = Some c -> irq_ops c = virq_ops_ptr;
  mo_count : forall i c, virq_bindcount g !! i = Some c -> 0 <= c;
  mo_shared : exists x, domains (avz g) !! current_domain (avz g) = Some x /\ length (evtchn_pending x) = NR_EVTCHN
}.
Definition vok g : Prop := maps_ok g /\ irq_mapping_update_lock g = false.

(** ** Inverting the accesses *)
Lemma index_inv {A} (l : list A) i a : index l i = Ret a <-> 0 <= i /\ l !! Z.to_nat i = Some a.
Proof. unfold index. destruct (Z.ltb_spec i 0); [split; [done|intros [? _]; lia]|]. rewrite deref_Ret. split; [done|by intros [_ ?]]. Qed.
Lemma read_inv {A} (f : vguest D -> list A) i g a g' : read f i g = Ret (a, g') -> g' = g /\ 0 <= i /\ f g !! Z.to_nat i = Some a.
Proof.
  unfold read, mbind, kern_bind, gets, lift. destruct (index (f g) i) as [b|] eqn:E; [|done]. intros [= -> <-]. by apply index_inv in E.
Qed.
Lemma store_inv {A} (f : vguest D -> list A) w i v g g' : store f w i v g = Ret (tt, g') -> g' = w <[Z.to_nat i := v]> g /\ 0 <= i /\ (Z.to_nat i < length (f g))%nat.
Proof. unfold store. intros (a & g1 & (-> & Hi & Ha)%read_inv & [= <-])%kbind_inv. split_and!; [done|done|by eapply lookup_lt_Some]. Qed.
Lemma add_binding_inv irq n g r g' : add_binding irq n g = Ret (r, g') ->
  exists c, virq_bindcount g !! Z.to_nat irq = Some c /\ r = c + n /\ g' = with_count <[Z.to_nat irq := c + n]> g /\ 0 <= irq.
Proof.
  unfold add_binding. intros (c & g1 & (-> & Hi & Hc)%read_inv & H)%kbind_inv. apply kbind_inv in H as ([] & g2 & (-> & _ & _)%store_inv & [= <- <-]). eauto.
Qed.
Lemma lock_inv g g' : lock_mapping g = Ret (tt, g') -> g' = set_map_lock true g /\ irq_mapping_update_lock g = false.
Proof. unfold lock_mapping, mbind, kern_bind, gets. destruct (irq_mapping_update_lock g); [done|]. by intros [= <-]. Qed.
Lemma hypercall_inv o g r g' : avz_hypercall o g = Ret (r, g') -> exists h, g' = with_avz h g /\ avz_frame (avz g) h.
Proof. unfold avz_hypercall, on_avz. destruct (do_event_channel_op o (avz g)) as [[a h]|] eqn:E; [|done]. intros [= -> <-]. exists h. split; [done|]. by eapply keeps_op. Qed.

(** ** Every change *)
Lemma maps_lock b g : maps_ok g -> maps_ok (set_map_lock b g).
Proof. intros [H1 H2 H3 H4 H5 H6]. by split. Qed.
Lemma maps_avz h g : maps_ok g -> avz_frame (avz g) h -> maps_ok (with_avz h g).
Proof.
  intros [H1 H2 H3 H4 H6 (x & Hx & Hl)] [F1 F2]. split; [done..|]. cbn [avz with_avz]. rewrite F1. destruct (F2 _ _ Hx) as (x' & Hx' & El).
  exists x'. split; [done|congruence].
Qed.
Lemma maps_mask i b g : maps_ok g -> maps_ok (with_mask <[i := b]> g).
Proof. intros [(L1 & L2 & L3 & L4 & L5 & L6) H2 H3 H4 H6 H5]. split; try done. cbn [evtchn_mask with_mask]. split_and!; (done || by rewrite length_insert). Qed.
Lemma maps_gi x g : maps_ok g -> irq_frame (gi g) x -> maps_ok (with_gi x g).
Proof.
  intros [(L1 & L2 & L3 & L4 & L5 & L6) H2 H3 [H4 H4'] H6 H5] [F1 F2 F3 F4]. split; try done.
  - cbn [gi with_gi]. split_and!; (done || congruence).
  - cbn [gi with_gi]. split; [by rewrite F1|]. intros i c Hc. destruct (F4 i c Hc) as (c0 & Hc0 & ->). by apply (H4' i).
Qed.

Lemma counts_insert (l : list Z) i c : (forall j x, l !! j = Some x -> 0 <= x) -> 0 <= c -> forall j x, <[i := c]> l !! j = Some x -> 0 <= x.
Proof. intros Hl Hc j x [(_ & <- & _)|[_ Hj]]%list_lookup_insert_Some; [done|by eapply Hl]. Qed.

(** One more or one fewer binding, the last one apart. *)
Lemma maps_count irq c n g : maps_ok g -> 0 <= c + n -> virq_bindcount g !! irq = Some c -> (1 <= c + n \/ forall e i, evtchn_to_irq g !! e = Some i -> i <> Z.of_nat irq) ->
  maps_ok (with_count <[irq := c + n]> g).
Proof.
  intros [(L1 & L2 & L3 & L4 & L5 & L6) H2 H3 H4 H6 H5] Hp Hc Hn. split; try done.
  - cbn [virq_bindcount with_count]. split_and!; (done || by rewrite length_insert).
  - intros e i He Hne. destruct (H2 e i He Hne) as (Hi & Hie & k & Hk & Hk1). split_and!; [lia|lia|done|]. cbn [virq_bindcount with_count].
    destruct (decide (irq = Z.to_nat i)) as [->|Hd]; [|exists k; split; [by rewrite list_lookup_insert_ne|done]].
    exists (c + n). split; [apply list_lookup_insert_eq; by eapply lookup_lt_Some|]. destruct Hn as [?|Hn]; [done|]. destruct (Hn e i He). lia.
  - by apply counts_insert.
Qed.

(** A channel is mapped to an interrupt that has none. *)
Lemma maps_new e irq c n g : maps_ok g -> 0 <= irq < Z.of_nat NR_IRQS -> (e < NR_EVTCHN)%nat -> (forall e' i, evtchn_to_irq g !! e' = Some i -> i <> irq) ->
  virq_bindcount g !! Z.to_nat irq = Some c -> 1 <= c + n ->
  maps_ok (with_count <[Z.to_nat irq := c + n]> (with_valid <[e := true]> (with_i2e <[Z.to_nat irq := Z.of_nat e]> (with_e2i <[e := irq]> g)))).
Proof.
  intros [(L1 & L2 & L3 & L4 & L5 & L6) H2 H3 H4 H6 H5] Hi He Hfree Hc Hn. unfold NR_IRQS, NR_VIRQS, NR_EVTCHN in *.
  split; cbn [gi evtchn_to_irq irq_to_evtchn valid evtchn_mask virq_bindcount irq_mapping_update_lock avz with_count with_valid with_i2e with_e2i];
    unfold NR_IRQS, NR_VIRQS, NR_EVTCHN in *; try done.
  - split_and!; (done || by rewrite length_insert).
  - intros e' i He' Hne. destruct (decide (e' = e)) as [->|Hd].
    + rewrite list_lookup_insert_eq in He' by lia. injection He' as <-. split_and!; [lia|lia|apply list_lookup_insert_eq; lia|].
      exists (c + n). split; [apply list_lookup_insert_eq; lia|done].
    + rewrite list_lookup_insert_ne in He' by done. destruct (H2 e' i He' Hne) as (Hi' & Hie & k & Hk & Hk1). pose proof (Hfree e' i He') as Hir.
      rewrite !list_lookup_insert_ne by lia. split_and!; [lia|lia|done|by exists k].
  - intros e'. destruct (decide (e' = e)) as [->|Hd].
    + rewrite !list_lookup_insert_eq by lia. split; [|done]. intros _. exists irq. split; [done|lia].
    + rewrite !list_lookup_insert_ne by done. apply H3.
  - apply counts_insert; [done|lia].
Qed.

(** A channel loses its interrupt. *)
Lemma maps_drop e irq g : maps_ok (set_map_lock true g) -> evtchn_to_irq g !! e = Some irq -> irq <> -1 -> forall m, 0 <= m ->
  maps_ok (with_valid <[e := false]> (with_e2i <[e := -1]> (with_count <[Z.to_nat irq := m]> g))).
Proof.
  intros [(L1 & L2 & L3 & L4 & L5 & L6) H2 H3 H4 H6 H5] He Hne m Hm. pose proof (lookup_lt_Some _ _ _ He) as Hlt.
  cbn [gi evtchn_to_irq irq_to_evtchn valid evtchn_mask virq_bindcount irq_mapping_update_lock avz set_map_lock] in *.
  split; cbn [gi evtchn_to_irq irq_to_evtchn valid evtchn_mask virq_bindcount irq_mapping_update_lock avz with_count with_valid with_e2i]; try done.
  - split_and!; (done || by rewrite length_insert).
  - intros e' i He' Hne'. destruct (decide (e' = e)) as [->|Hd]; [rewrite list_lookup_insert_eq in He' by lia; congruence|].
    rewrite list_lookup_insert_ne in He' by done. destruct (H2 e' i He' Hne') as (Hi & Hie & k & Hk & Hk1).
    destruct (H2 e irq He Hne) as (Hi2 & Hie2 & _). assert (irq <> i) by (intros ->; rewrite Hie in Hie2; injection Hie2 as Hie2; lia).
    split_and!; [lia|lia|done|]. exists k. split; [rewrite list_lookup_insert_ne by lia; done|done].
  - intros e'. destruct (decide (e' = e)) as [->|Hd].
    + rewrite !list_lookup_insert_eq by lia. split; [done|]. intros (i & Hi & ?). congruence.
    + rewrite !list_lookup_insert_ne by done. apply H3.
  - by apply counts_insert.
Qed.

(** ** Operations *)
Lemma find_unbound_inv g irq g' : find_unbound_irq g = Ret (irq, g') -> g' = g /\ 0 <= irq < Z.of_nat NR_IRQS /\ virq_bindcount g !! Z.to_nat irq = Some 0.
Proof.
  unfold find_unbound_irq, mbind, kern_bind, gets. destruct (for_ret _ _) as [i|] eqn:E; [|done]. intros [= <- <-].
  apply for_ret_Some in E as (k & Hk & Hf & _). destruct (virq_bindcount g !! k) as [c|] eqn:Ec; [|done]. destruct (Z.eqb_spec c 0) as [->|]; [|done]. injection Hf as <-.
  rewrite Nat2Z.id. split_and!; [done|lia|lia|done].
Qed.

Lemma map_evtchn_inv (e : Z) irq g g' : map_evtchn e irq g = Ret (tt, g') ->
  g' = with_valid <[Z.to_nat e := true]> (with_i2e <[Z.to_nat irq := e]> (with_e2i <[Z.to_nat e := irq]> g)) /\ 0 <= e /\ 0 <= irq /\ (Z.to_nat e < length (evtchn_to_irq g))%nat.
Proof.
  unfold map_evtchn. intros ([] & g1 & (-> & H1 & H2)%store_inv & H)%kbind_inv. apply kbind_inv in H as ([] & g2 & (-> & H3 & _)%store_inv & H).
  apply store_inv in H as (-> & _ & _). done.
Qed.

Lemma bind_evtchn_ok (e : Z) g r g' : vok g -> bind_evtchn_to_virq e g = Ret (r, g') -> vok g'.
Proof.
  intros [Hm Hl] H. apply kbind_inv in H as ([] & g1 & (-> & _)%lock_inv & H). apply (maps_lock true) in Hm. set (g1 := set_map_lock true g) in *.
  apply kbind_inv in H as (i & g2 & (-> & He & Hi)%read_inv & H). destruct (Z.eqb_spec i (-1)) as [->|Hne].
  - apply kbind_inv in H as (irq & g3 & H' & H). apply kbind_inv in H' as (irq' & g4 & (-> & Hr & Hc)%find_unbound_inv & H').
    apply kbind_inv in H' as ([] & g5 & (-> & _ & _ & Hlt)%map_evtchn_inv & [= <- <-]).
    apply kbind_inv in H as (n & g6 & (c & Hc' & _ & -> & _)%add_binding_inv & H). apply kbind_inv in H as ([] & g7 & [= <-] & [= <- <-]).
    cbn [virq_bindcount with_valid with_i2e with_e2i] in Hc'. assert (c = 0) as -> by congruence.
    split; [|done]. apply maps_lock. replace e with (Z.of_nat (Z.to_nat e)) at 2 by lia.
    apply (maps_new (Z.to_nat e) irq' 0 1 g1 Hm Hr); [destruct (mo_len _ Hm) as (<- & _); done| |done|lia].
    intros e' i' He' ->. destruct (mo_map _ Hm e' irq' He' ltac:(lia)) as (_ & _ & k & Hk & Hk1). rewrite Hc in Hk. injection Hk as <-. lia.
  - apply kbind_inv in H as (irq & g3 & [= <- <-] & H). apply kbind_inv in H as (n & g6 & (c & Hc & _ & -> & _)%add_binding_inv & H).
    apply kbind_inv in H as ([] & g7 & [= <-] & [= <- <-]). split; [|done]. destruct (mo_map _ Hm _ _ Hi Hne) as (_ & _ & k & Hk & Hk1).
    rewrite Hc in Hk. injection Hk as <-. apply maps_lock, maps_count; [done|lia|done|]. left. lia.
Qed.

Lemma vok_avz h g : vok g -> avz_frame (avz g) h -> vok (with_avz h g).
Proof. intros [Hm Hl] Hf. split; [by apply maps_avz|done]. Qed.

Lemma bind_interdomain_ok rdom re g r g' : vok g -> bind_interdomain_evtchn_to_irq rdom re g = Ret (r, g') -> vok g'.
Proof.
  intros Hv H. apply kbind_inv in H as (a & g1 & (h & -> & Hf)%hypercall_inv & H). apply kbind_inv in H as (e & g2 & E & H).
  assert (g2 = with_avz h g) as -> by (unfold lift in E; destruct (deref a); [by injection E|done]). eapply bind_evtchn_ok; [|done]. by apply vok_avz.
Qed.
Lemma bind_existing_ok le rdom re g r g' : vok g -> bind_existing_interdomain_evtchn le rdom re g = Ret (r, g') -> vok g'.
Proof. intros Hv H. apply kbind_inv in H as (a & g1 & (h & -> & Hf)%hypercall_inv & H). eapply bind_evtchn_ok; [|done]. by apply vok_avz. Qed.

Lemma bind_virq_ok v g g' : vok g -> v < Z.of_nat NR_IRQS -> (forall e i, evtchn_to_irq g !! e = Some i -> i <> v) ->
  bind_virq v g = Ret (tt, g') -> vok g'.
Proof.
  intros [Hm Hl] Hv Hfree H. apply kbind_inv in H as ([] & g1 & (-> & _)%lock_inv & H). apply (maps_lock true) in Hm. set (g1 := set_map_lock true g) in *.
  apply kbind_inv in H as (a & g2 & (h & -> & Hf)%hypercall_inv & H). apply (maps_avz h) in Hm; [|done]. set (g2 := with_avz h g1) in *.
  apply kbind_inv in H as (e & g3 & E & H). assert (g3 = g2) as -> by (unfold lift in E; destruct (deref a); [by injection E|done]).
  apply kbind_inv in H as ([] & g4 & (-> & He & Hv0 & Hlt)%map_evtchn_inv & H). apply kbind_inv in H as ([] & g5 & (-> & _ & _)%store_inv & H).
  apply kbind_inv in H as (n & g6 & (c & Hcc & _ & -> & _)%add_binding_inv & [= <-]). cbn [virq_bindcount with_mask with_valid with_i2e with_e2i] in Hcc.
  split; [|done]. apply maps_lock. pose proof (maps_mask (Z.to_nat e) false _ (maps_new (Z.to_nat e) v c 1 g2 Hm ltac:(lia) ltac:(destruct (mo_len _ Hm) as (<- & _); done) Hfree Hcc ltac:(pose proof (mo_count _ Hm _ _ Hcc); lia))) as Hk.
  rewrite Z2Nat.id in Hk by done. exact Hk.
Qed.

Lemma unbind_ok irq g g' : vok g -> (exists e, evtchn_to_irq g !! e = Some irq) -> irq <> -1 -> unbind_from_irq irq g = Ret (tt, g') -> vok g'.
Proof.
  intros [Hm Hl] [e He] Hne H. destruct (mo_map _ Hm e irq He Hne) as (Hr & Hie & k & Hk & Hk1).
  apply kbind_inv in H as (e' & g0 & (-> & _ & He')%read_inv & H). assert (e' = Z.of_nat e) as -> by congruence. clear He'.
  apply kbind_inv in H as ([] & g1 & (-> & _)%lock_inv & H). apply (maps_lock true) in Hm.
  apply kbind_inv in H as (c & g2 & (k' & Hk' & -> & -> & _)%add_binding_inv & H). cbn [virq_bindcount set_map_lock] in Hk'. assert (k' = k) as -> by congruence.
  apply kbind_inv in H as ([] & g3 & H & [= <-]). split; [|done]. apply maps_lock. destruct (Z.eqb_spec (k + -1) 0) as [E0|E0]; cbn [when] in H.
  - apply kbind_inv in H as (a & g4 & (h & -> & Hf)%hypercall_inv & H). apply kbind_inv in H as ([] & g5 & (-> & _ & _)%store_inv & H).
    apply store_inv in H as (-> & _ & _). rewrite Nat2Z.id. pose proof (maps_drop e irq (set_map_lock true g) Hm He Hne (k + -1) ltac:(lia)) as Hd.
    apply (maps_avz h) in Hd; [exact Hd|exact Hf].
  - injection H as <-. apply maps_count; [done|lia|done|]. left. lia.
Qed.

(** Replayed calls change masks only. *)
Lemma replay_inv l g g' : maps_ok g -> replay l g = Ret (tt, g') -> maps_ok g' /\ irq_mapping_update_lock g' = irq_mapping_update_lock g.
Proof.
  revert g'. induction l as [|[p i] l IH]; intros g' Hm H; [by injection H as <-|]. cbn [replay] in H. apply kbind_inv in H as ([] & g1 & E1 & H). destruct (IH g1 Hm E1) as [Hm1 <-].
  unfold chip_call in H. cbn [fst snd] in H. destruct (p =? VIRQ_MASK); [|destruct (p =? VIRQ_UNMASK); [|done]];
    apply kbind_inv in H as (e & g2 & (-> & _ & _)%read_inv & (-> & _ & _)%store_inv); (split; [by apply maps_mask|done]).
Qed.
Lemma set_calls_frame l x : irq_frame x (set_calls l x).
Proof. split; eauto. Qed.
Lemma irq_op_ok {A} (m : kern irqs A) g a g' : vok g -> irq_keeps m -> irq_op m g = Ret (a, g') -> vok g'.
Proof.
  intros [Hm Hl] Hk. unfold irq_op. destruct (m (set_calls [] (gi g))) as [[b x]|] eqn:E; [|done]. intros ([] & g1 & E1 & [= _ <-])%kbind_inv.
  assert (Hf : irq_frame (gi g) (set_calls [] x)).
  { etransitivity; [apply (set_calls_frame [])|]. etransitivity; [by eapply Hk|apply set_calls_frame]. }
  destruct (replay_inv _ _ _ (maps_gi _ g Hm Hf) E1) as [Hm1 E2]. split; [done|]. by rewrite E2.
Qed.

(** ** Histories of a guest *)
Lemma lift_inv {S A} (o : outcome A) (s : S) a s' : lift o s = Ret (a, s') -> s' = s /\ o = Ret a.
Proof. unfold lift. destruct o; [|done]. by intros [= -> <-]. Qed.
Lemma shared_inv g x g' : shared g = Ret (x, g') -> g' = g /\ domains (avz g) !! current_domain (avz g) = Some x.
Proof.
  unfold shared, on_avz. intros H. apply kbind_inv in H as (d & g1 & [= <- <-] & H). destruct (dom_of _ (avz g)) as [[y h]|] eqn:E; [|done].
  apply dom_of_inv in E as [-> Hx]. injection H as <- <-. split; [by destruct g|done].
Qed.
Lemma upd_shared_inv f g g' : (forall x, length (evtchn_pending (f x)) = length (evtchn_pending x)) -> upd_shared f g = Ret (tt, g') -> exists h, g' = with_avz h g /\ avz_frame (avz g) h.
Proof.
  intros Hf H. apply kbind_inv in H as (d & g1 & [= <- <-] & H). unfold on_avz in H. destruct (upd_dom _ f (avz g)) as [[[] h]|] eqn:E; [|done].
  injection H as <-. exists h. split; [done|]. by eapply keeps_upd.
Qed.

Lemma bind_handler_ok irq h t d g g' : vok g -> irq_op (irq_bind irq h t d) g = Ret (tt, g') -> vok g'.
Proof. intros Hv. apply irq_op_ok; [done|apply irq_keeps_bind_op]. Qed.

Lemma clear_evtchn_ok (e : Z) g g' : vok g -> clear_evtchn e g = Ret (tt, g') -> vok g'.
Proof.
  intros Hv H. apply kbind_inv in H as (x & g1 & [-> _]%shared_inv & H). apply kbind_inv in H as (b & g2 & [-> _]%lift_inv & H).
  revert H. intros (h & -> & Hf)%upd_shared_inv; [by apply vok_avz|]. intros y. cbn [evtchn_pending with_pending]. apply length_insert.
Qed.

Section upcall.
Variable hcode : Z -> nat -> Z -> kern (vguest D) Z.
Hypothesis hcode_ok : forall p i d g r g', vok g -> hcode p i d g = Ret (r, g') -> vok g'.

Lemma process_ok irq g g' : vok g -> process hcode irq g = Ret (tt, g') -> vok g'.
Proof.
  intros Hv H. apply kbind_inv in H as (st & g1 & [= _ <-] & H). case_match; [by injection H as <-|].
  apply kbind_inv in H as (c & g2 & E & H). apply irq_op_ok in E; [|done|apply irq_keeps_desc].
  apply kbind_inv in H as (r & g3 & E3 & H). destruct (action c) as [p|]; [|done]. apply hcode_ok in E3; [|done].
  by apply irq_op_ok in H; [..|apply irq_keeps_request].
Qed.

Lemma virq_loop_ok fuel g g' : vok g -> virq_loop hcode fuel g = Ret (tt, g') -> vok g'.
Proof.
  revert g. induction fuel as [|f IH]; intros g Hv H; [done|]. cbn [virq_loop] in H.
  apply kbind_inv in H as (x & g1 & [-> _]%shared_inv & H). apply kbind_inv in H as (m & g2 & [= _ <-] & H). destruct (first_event _ m) as [e|]; [|by injection H as <-].
  apply kbind_inv in H as (v & g3 & (-> & _)%read_inv & H). apply kbind_inv in H as ([] & g4 & [-> _]%lift_inv & H).
  apply kbind_inv in H as (i & g5 & (-> & _)%read_inv & H). apply kbind_inv in H as (e' & g6 & (-> & _)%read_inv & H).
  apply kbind_inv in H as ([] & g7 & E7 & H). apply clear_evtchn_ok in E7; [|done].
  apply kbind_inv in H as ([] & g8 & E8 & H). apply irq_op_ok in E8; [|done|apply irq_keeps_mask].
  apply kbind_inv in H as ([] & g9 & E9 & H). apply process_ok in E9; [|done].
  apply kbind_inv in H as ([] & g10 & E10 & H). apply irq_op_ok in E10; [|done|apply irq_keeps_unmask]. by apply (IH g10).
Qed.

Lemma virq_handle_ok rounds fuel g g' : vok g -> virq_handle hcode rounds fuel g = Ret (tt, g') -> vok g'.
Proof.
  revert g. induction rounds as [|r IH]; intros g Hv H; [done|]. cbn [virq_handle] in H. apply kbind_inv in H as (x & g1 & [-> _]%shared_inv & H).
  apply kbind_inv in H as ([] & g2 & E2 & H). apply upd_shared_inv in E2 as (h & -> & Hf); [|done]. apply (vok_avz h) in Hv; [|done].
  destruct (evtchn_upcall_pending x); [|by injection H as <-]. apply kbind_inv in H as ([] & g3 & E3%virq_loop_ok & H); [|done].
  apply kbind_inv in H as (y & g4 & [-> _]%shared_inv & H). destruct (evtchn_upcall_pending y); [by apply (IH g3)|by injection H as <-].
Qed.
End upcall.

(** What a guest and its surroundings do after [virq_init]: the operations of the
    drivers, the upcall, and whatever the hypervisor and the other domains do.
    [bind_virq] is called for an interrupt that has no channel, an interrupt is
    unbound by a driver that has it, and the handlers the upcall runs do nothing
    to the interrupt tables but such steps themselves ([vruns]). *)
Inductive vstep : vguest D -> vguest D -> Prop :=
  | vs_bind (e : Z) h t d g r g' : bind_evtchn_to_irq_handler e h t d g = Ret (r, g') -> vstep g g'
  | vs_inter rdom re h t d g r g' : bind_interdomain_evtchn_to_irqhandler rdom re h t d g = Ret (r, g') -> vstep g g'
  | vs_existing le rdom re g r g' : bind_existing_interdomain_evtchn le rdom re g = Ret (r, g') -> vstep g g'
  | vs_virq v h t d g g' : v < Z.of_nat NR_IRQS -> (forall e, evtchn_to_irq g !! e <> Some v) ->
      bind_virq_to_irqhandler v h t d g = Ret (tt, g') -> vstep g g'
  | vs_unbind irq g g' : 0 <= irq -> irq ∈ evtchn_to_irq g -> unbind_from_irqhandler irq g = Ret (tt, g') -> vstep g g'
  | vs_notify irq g g' : notify_remote_via_virq irq g = Ret (tt, g') -> vstep g g'
  | vs_upcall hcode rounds fuel g g' : (forall p i d x r x', hcode p i d x = Ret (r, x') -> vruns x x') ->
      virq_handle hcode rounds fuel g = Ret (tt, g') -> vstep g g'
  | vs_outside h g : avz_frame (avz g) h -> vstep g (with_avz h g)
  | vs_driver v g : vstep g (set_drv v g)
with vruns : vguest D -> vguest D -> Prop :=
  | vr_none g : vruns g g
  | vr_more g g' g'' : vstep g g' -> vruns g' g'' -> vruns g g''.

Scheme vstep_mut := Minimality for vstep Sort Prop
  with vruns_mut := Minimality for vruns Sort Prop.

Lemma vstep_ok g g' : vstep g g' -> vok g -> vok g'.
Proof.
  intros Hs. induction Hs as [e h t d g r g' H|rdom re h t d g r g' H|le rdom re g r g' H|v h t d g g' Hr Hf H|irq g g' H0 He H|irq g g' H
    |hc n f g g' Hh IH H|h g Hf|v g|g|g g' g'' _ IH1 _ IH2] using vstep_mut with (P0 := fun g g' => vok g -> vok g'); intros Hv.
  - apply kbind_inv in H as (i & g1 & E1%bind_evtchn_ok & H); [|done]. apply kbind_inv in H as ([] & g2 & E2%bind_handler_ok & [= _ <-]); done.
  - apply kbind_inv in H as (i & g1 & E1%bind_interdomain_ok & H); [|done]. apply kbind_inv in H as ([] & g2 & [-> _]%lift_inv & H).
    apply kbind_inv in H as ([] & g3 & E3%bind_handler_ok & [= _ <-]); done.
  - by eapply bind_existing_ok.
  - apply kbind_inv in H as ([] & g1 & E1%bind_virq_ok & H%bind_handler_ok); [done..|]. intros e i He ->. by apply (Hf e).
  - apply list_elem_of_lookup in He. apply kbind_inv in H as ([] & g1 & E1%unbind_ok & H%irq_op_ok); [done|done|apply irq_keeps_unbind|done|done|lia].
  - apply kbind_inv in H as (e & g1 & (-> & _)%read_inv & H). apply kbind_inv in H as (v & g2 & (-> & _)%read_inv & H). apply kbind_inv in H as ([] & g3 & [-> _]%lift_inv & H).
    apply kbind_inv in H as (r & g4 & (h & -> & Hf)%hypercall_inv & [= <-]). by apply vok_avz.
  - eapply virq_handle_ok; [|done|exact H]. intros p i d x r x' Hx Hc. by eapply IH.
  - by apply vok_avz.
  - destruct Hv as [[H1 H2 H3 H4 H5 H6] Hl]. by split; [split|].
  - done.
  - auto.
Qed.

(** The state before [virq_init]: the sizes of the arrays, and a shared page. *)
Record preboot g : Prop := {
  pb_map : length (irq_to_evtchn g) = NR_VIRQS;
  pb_descs : length (descs (gi g)) = NR_IRQS;
  pb_lock : irq_mapping_update_lock g = false;
  pb_shared : exists x, domains (avz g) !! current_domain (avz g) = Some x /\ length (evtchn_pending x) = NR_EVTCHN
}.
Definition fresh_descs (l : list irqdesc) : list irqdesc := fmap (fun c => IrqDesc None None (deferred_pending c) (thread_active c) virq_ops_ptr (data c)) l.
Definition after_init g : vguest D :=
  Guest (set_calls [] (with_descs fresh_descs (set_chips (<[virq_ops_ptr := virq_ops]> (chips (gi g))) (gi g)))) (replicate NR_EVTCHN (-1)) (irq_to_evtchn g)
    (replicate NR_EVTCHN false) (replicate NR_EVTCHN true) (<[VIRQ_TIMER := 1]> (replicate NR_VIRQS 0)) (irq_mapping_update_lock g) (avz g) (drv g).
Lemma virq_init_run g : virq_init g = Ret (tt, after_init g).
Proof. reflexivity. Qed.
Lemma virq_init_ok g g' : preboot g -> virq_init g = Ret (tt, g') -> vok g'.
Proof.
  intros [P1 P2 P3 P4] H. rewrite virq_init_run in H. remember (after_init g) as g1 eqn:Eg. injection H as <-. subst g1. split; [split|done]; unfold after_init, fresh_descs;
    cbn [gi descs chips evtchn_to_irq irq_to_evtchn valid evtchn_mask virq_bindcount irq_mapping_update_lock avz set_calls with_descs set_chips].
  - split_and!; [done..|by rewrite length_fmap].
  - intros e i [-> _]%lookup_replicate ?. done.
  - intros e. split; [intros [? _]%lookup_replicate; done|]. intros (i & [-> _]%lookup_replicate & ?). done.
  - split; [apply lookup_insert_eq|]. intros i c. rewrite list_lookup_fmap. destruct (_ !! i); [|done]. by intros [= <-].
  - apply counts_insert; [|done]. by intros j x [-> _]%lookup_replicate.
  - done.
Qed.

Inductive vhistory g0 : vguest D -> Prop :=
  | vh_init g : virq_init g0 = Ret (tt, g) -> vhistory g0 g
  | vh_step g g' : vhistory g0 g -> vstep g g' -> vhistory g0 g'.
Lemma vhistory_ok g0 g : preboot g0 -> vhistory g0 g -> vok g.
Proof. intros Hp. induction 1 as [g Hi|g g' _ IH Hs]; [by eapply virq_init_ok|by eapply (vstep_ok g)]. Qed.

(** C24: in every history after [virq_init] of binding, unbinding and notifying by
    the drivers of a guest, of upcalls, whose handlers do such steps too, and of
    whatever the hypervisor and the other domains do, in which [bind_virq] is
    called only for an interrupt that has no channel and only mapped interrupts
    are unbound, the maps between event channels and interrupts are inverse to
    each other: a channel with an interrupt is the channel
    of that interrupt, which is a number of the descriptor table and is counted as bound,
    no two channels share an interrupt, a channel is valid exactly when it has an
    interrupt, and the mapping lock is free between operations.  (Binding a virtual
    interrupt whose number has been given to another channel breaks it:
    [bind_virq_collides].) *)
Theorem virq_maps_inverse g0 g : preboot g0 -> vhistory g0 g ->
  irq_mapping_update_lock g = false /\
  (forall e i, evtchn_to_irq g !! e = Some i -> i <> -1 ->
     (0 <= i < Z.of_nat NR_IRQS) /\ irq_to_evtchn g !! Z.to_nat i = Some (Z.of_nat e) /\ valid g !! e = Some true /\
     (exists c, virq_bindcount g !! Z.to_nat i = Some c /\ 1 <= c) /\
     forall e', evtchn_to_irq g !! e' = Some i -> e' = e) /\
  (forall e, valid g !! e = Some true -> exists i, evtchn_to_irq g !! e = Some i /\ 0 <= i).
Proof.
  intros Hp Hh. destruct (vhistory_ok g0 g Hp Hh) as [Hm Hl]. split_and!; [done| |].
  - intros e i He Hne. destruct (mo_map _ Hm e i He Hne) as (Hr & Hie & Hc). split_and!; [lia|lia|done|apply (mo_valid _ Hm); eauto|done|].
    intros e' He'. destruct (mo_map _ Hm e' i He' Hne) as (_ & Hie' & _). rewrite Hie in Hie'. injection Hie' as Hie'. lia.
  - intros e (i & Hi & Hne)%(mo_valid _ Hm). exists i. split; [done|]. destruct (mo_map _ Hm e i Hi Hne) as (? & _). lia.
Qed.
End inv.

(** ** A guest *)
(** Domain 0, whose channel 1 is connected to channel 1 of domain 1; the state of its
    drivers is the list of interrupts served. *)
Definition ex_preboot : vguest (list nat) :=
  Guest (Irqs (replicate NR_IRQS (IrqDesc None None false false default_ops 0)) ∅ [] [] BOOT_STAGE_IRQ_INIT false (irq_soft (irqs0 None)))
    [] (replicate NR_VIRQS 0) [] [] [] false (set_current 0 hyp2) [].
Definition ex_bound : vguest (list nat) :=
  match (virq_init;; bind_evtchn_to_irq_handler 1 (Some 10) None 7) ex_preboot with Ret (_, g) => g | _ => ex_preboot end.
Lemma ex_bound_history : vhistory ex_preboot ex_bound.
Proof.
  eapply vh_step; [by apply vh_init, virq_init_run|]. eapply (vs_bind 1 (Some 10) None 7 _ 1). vm_compute. reflexivity.
Qed.
Lemma ex_preboot_ok : preboot ex_preboot.
Proof. split; [done..|]. eexists. split; [vm_compute; reflexivity|done]. Qed.

Lemma virq_maps_inverse_witness : evtchn_to_irq ex_bound !! 1%nat = Some 1 /\ irq_to_evtchn ex_bound !! 1%nat = Some 1 /\ valid ex_bound !! 1%nat = Some true.
Proof.
  destruct (virq_maps_inverse ex_preboot ex_bound ex_preboot_ok ex_bound_history) as (_ & H & _).
  destruct (H 1%nat 1 ltac:(vm_compute; reflexivity) ltac:(done)) as (_ & H1 & H2 & _). split_and!; [vm_compute; reflexivity|exact H1|exact H2].
Defined.

(** the condition on [bind_virq] is needed: interrupt 1, which is also
    [VIRQ_TIMER_RT], has been given to channel 1; binding [VIRQ_TIMER_RT] then maps
    a second channel to it. *)
Lemma bind_virq_collides :
  exists g, bind_virq 1 ex_bound = Ret (tt, g) /\
    evtchn_to_irq g !! 1%nat = Some 1 /\ evtchn_to_irq g !! 2%nat = Some 1.
Proof. eexists. split; [vm_compute; reflexivity|]. split; reflexivity. Qed.

End VirqInv.
