(* ===== verification/VirqUp.v ===== *)
(** The upcall of the hypervisor into a guest: [virq_handle] returns, leaves no event
    behind and has run the handler of every event; an event that another domain sends
    therefore reaches the handler of the driver. *)
From S2P Require Import Prelude Softirq Irq EventChannel Virq VirqInv.

Module VirqUp.
Import EventChannel Irq Virq VirqInv.

Section up.
Context {D : Type}.
Implicit Types (g : vguest D) (e : nat).

(** ** What is pending *)
Definition pend (h : hyp) (e : nat) : bool :=
  match domains h !! current_domain h with Some x => default false (evtchn_pending x !! e) | None => false end.
Definition upcall (h : hyp) : bool :=
  match domains h !! current_domain h with Some x => evtchn_upcall_pending x | None => false end.
Definition npend (l : list bool) : nat := length (filter (eq true) l).
Definition work (h : hyp) : nat :=
  match domains h !! current_domain h with Some x => (npend (evtchn_pending x) + Nat.b2n (evtchn_upcall_pending x))%nat | None => 0%nat end.

Lemma npend_clear l e : l !! e = Some true -> S (npend (<[e := false]> l)) = npend l.
Proof.
  intros He. rewrite insert_take_drop by (by eapply lookup_lt_Some). unfold npend. rewrite filter_app, filter_cons_False by done.
  rewrite <- (take_drop_middle l e true He) at 3. rewrite filter_app, filter_cons_True by done. rewrite !length_app. cbn [length]. lia.
Qed.

(** ** What the upcall leaves alone *)
Record vframe g g' : Prop := {
  vf_maps : evtchn_to_irq g' = evtchn_to_irq g /\ irq_to_evtchn g' = irq_to_evtchn g /\ valid g' = valid g /\
    virq_bindcount g' = virq_bindcount g /\ irq_mapping_update_lock g' = irq_mapping_update_lock g;
  vf_len : length (evtchn_mask g') = length (evtchn_mask g);
  vf_irq : irq_frame (gi g) (gi g');
  vf_acts : forall i c, descs (gi g) !! i = Some c -> exists c', descs (gi g') !! i = Some c' /\ action c' = action c;
  vf_avz : avz_frame (avz g) (avz g')
}.
#[export] Instance vframe_preorder : PreOrder vframe.
Proof.
  split; [intros g; split; [done|done|reflexivity|eauto|reflexivity]|].
  intros g1 g2 g3 [A1 A2 A3 A4 A5] [B1 B2 B3 B4 B5]. split; [intuition congruence|congruence|by etransitivity| |by etransitivity].
  intros i c Hc. destruct (A4 i c Hc) as (c2 & Hc2 & E2). destruct (B4 i c2 Hc2) as (c3 & Hc3 & E3). exists c3. split; [done|congruence].
Qed.

(** Interrupts are initialised, and every channel that is not masked has a handler. *)
Record ready g : Prop := {
  rd_ok : vok g;
  rd_stage : BOOT_STAGE_IRQ_INIT <= boot_stage (gi g);
  rd_oom : oom (gi g) = false
}.
Definition handled g : Prop := forall e, evtchn_mask g !! e = Some false ->
  exists i c, evtchn_to_irq g !! e = Some i /\ i <> -1 /\ descs (gi g) !! Z.to_nat i = Some c /\ is_Some (action c).

Lemma vframe_ready g g' : vframe g g' -> ready g -> ready g'.
Proof.
  intros [(F1 & F2 & F3 & F4 & F5) Fl [I1 [I2 I3] I4 I5] _ [V1 V2]] [[[(L1 & L2 & L3 & L4 & L5 & L6) H2 H3 [H4 H4'] H6 (x & Hx & Hlx)] Hl] Hs Ho].
  split; [split; [split|]|congruence|congruence]; rewrite ?F1, ?F2, ?F3, ?F4, ?F5; try done.
  - split_and!; (done || congruence).
  - split; [by rewrite I1|]. intros i c' (c & Hc & ->)%I5. by apply (H4' i).
  - rewrite V1. destruct (V2 _ _ Hx) as (x' & Hx' & E). exists x'. split; [done|congruence].
Qed.
Lemma vframe_handled g g' : vframe g g' -> evtchn_mask g' = evtchn_mask g -> handled g -> handled g'.
Proof.
  intros [(F1 & _) _ _ Fa _] Em Hh e. rewrite Em. intros (i & c & Hi & Hne & Hc & Ha)%Hh. destruct (Fa _ _ Hc) as (c' & Hc' & Ea).
  exists i, c'. rewrite F1, Ea. done.
Qed.

(** ** The drivers *)
(** The call of a handler: its channel has been acknowledged and is masked. *)
Definition called (irq : nat) g : Prop := exists e, evtchn_to_irq g !! e = Some (Z.of_nat irq) /\ evtchn_mask g !! e = Some true /\ pend (avz g) e = false.

(** What a driver promises: its handler returns, leaves the mapping and the masks alone,
    acknowledges no event itself and, by [w], raises only so many; [K] is what the
    drivers rely on, and [served] tells that the handler of an interrupt has run. *)
Class VirqHandlers (hcode : Z -> nat -> Z -> kern (vguest D) Z) (K : D -> hyp -> Prop) (w : D -> nat) (served : nat -> D -> Prop) : Prop := {
  vh_run : forall p irq d g, ready g -> K (drv g) (avz g) -> called irq g ->
    exists r g', hcode p irq d g = Ret (r, g') /\ vframe g g' /\ evtchn_mask g' = evtchn_mask g /\ K (drv g') (avz g') /\
      (forall e, pend (avz g) e = true -> pend (avz g') e = true) /\ (work (avz g') + w (drv g') <= work (avz g) + w (drv g))%nat /\
      served irq (drv g') /\ (forall i, served i (drv g) -> served i (drv g'));
  vh_stable : forall v h d x f u, K v h -> domains h !! d = Some x -> length (f (evtchn_pending x)) = length (evtchn_pending x) ->
    K v (with_domains <[d := with_pending f u x]> h);
  vh_event : forall v h d, K v h -> K v (add_event d h)
}.

(** ** Running the interrupt layer *)
Definition masked_at (b : bool) (e : nat) g : vguest D := with_mask <[e := b]> (with_gi (set_calls [] (gi g)) g).

Lemma chip_of_run i g c : vok g -> descs (gi g) !! i = Some c -> chip_of i (set_calls [] (gi g)) = Ret (virq_ops, set_calls [] (gi g)).
Proof.
  intros [Hm _] Hc. destruct (mo_chip _ Hm) as [Hp Ho]. unfold chip_of, irq_to_desc, mbind, kern_bind, gets, lift.
  cbn [descs chips set_calls]. rewrite Hc. cbn [deref]. rewrite (Ho i c Hc). cbn [chips set_calls]. by rewrite Hp.
Qed.

(** A channel and its interrupt. *)
Record maps_to g e (i : Z) (c : irqdesc) : Prop := {
  mt_range : 0 <= i < Z.of_nat NR_IRQS;
  mt_irq : evtchn_to_irq g !! e = Some i;
  mt_chan : irq_to_evtchn g !! Z.to_nat i = Some (Z.of_nat e);
  mt_valid : valid g !! e = Some true;
  mt_mask : is_Some (evtchn_mask g !! e);
  mt_desc : descs (gi g) !! Z.to_nat i = Some c
}.
Lemma maps_to_intro g e i : vok g -> evtchn_to_irq g !! e = Some i -> i <> -1 -> exists c, maps_to g e i c.
Proof.
  intros [Hm Hl] He Hne. destruct (mo_map _ Hm e i He Hne) as (Hr & Hie & _). pose proof (mo_len _ Hm) as (L1 & L2 & L3 & L4 & L5 & L6).
  destruct (lookup_lt_is_Some_2 (descs (gi g)) (Z.to_nat i)) as [c Hc]; [lia|]. exists c. split; try done.
  - apply (mo_valid _ Hm). eauto.
  - apply lookup_lt_is_Some_2. apply lookup_lt_Some in He. lia.
Qed.
Lemma maps_to_frame g g' e i c : vframe g g' -> maps_to g e i c -> exists c', maps_to g' e i c' /\ action c' = action c.
Proof.
  intros [(F1 & F2 & F3 & _) Fl _ Fa _] [H1 H2 H3 H4 [m H5] H6]. destruct (Fa _ _ H6) as (c' & Hc' & Ea). exists c'. split; [|done].
  split; rewrite ?F1, ?F2, ?F3; try done. apply lookup_lt_is_Some_2. rewrite Fl. by eapply lookup_lt_Some.
Qed.

Lemma store_mask_run e b g : is_Some (evtchn_mask g !! e) -> store evtchn_mask with_mask (Z.of_nat e) b g = Ret (tt, with_mask <[e := b]> g).
Proof.
  intros [m Hm]. unfold store, read, index, mbind, kern_bind, gets, lift, modify. destruct (Z.ltb_spec (Z.of_nat e) 0); [lia|].
  rewrite Nat2Z.id, Hm. done.
Qed.
Lemma table_read_run {A} (f : vguest D -> list A) i g a : f g !! i = Some a -> read f (Z.of_nat i) g = Ret (a, g).
Proof. intros Hi. unfold read, index, mbind, kern_bind, gets, lift. destruct (Z.ltb_spec (Z.of_nat i) 0); [lia|]. by rewrite Nat2Z.id, Hi. Qed.

Lemma irq_op_run {A} (m : kern irqs A) g a x g' :
  m (set_calls [] (gi g)) = Ret (a, x) -> replay (chip_calls x) (with_gi (set_calls [] x) g) = Ret (tt, g') -> irq_op m g = Ret (a, g').
Proof. intros Hm Hr. unfold irq_op. rewrite Hm. by rewrite (kbind_ret _ _ _ _ _ Hr). Qed.

(** The controller's function changes the mask of the interrupt's channel. *)
Lemma chip_call_run (b : bool) e i c g : maps_to g e i c ->
  replay [((if b then VIRQ_MASK else VIRQ_UNMASK), Z.of_nat (Z.to_nat i))] g = Ret (tt, with_mask <[e := b]> g).
Proof.
  intros [Hr Hi Hie Hvd Hm Hd]. cbn [replay]. kstep. unfold chip_call. cbn [fst snd].
  pose proof (store_mask_run e b g Hm) as Hs.
  destruct b; cbn [VIRQ_MASK VIRQ_UNMASK Z.eqb Pos.eqb]; unfold virq_mask, virq_unmask, evtchn_from_irq;
    rewrite (kbind_ret _ _ _ _ _ (table_read_run irq_to_evtchn _ _ _ Hie)); exact Hs.
Qed.
Lemma irq_mask_run e i c g : vok g -> maps_to g e i c -> irq_op (irq_mask (Z.to_nat i)) g = Ret (tt, masked_at true e g).
Proof.
  intros Hv Hm. eapply irq_op_run; [unfold irq_mask; rewrite (kbind_ret _ _ _ _ _ (chip_of_run _ _ _ Hv (mt_desc _ _ _ _ Hm))); reflexivity|].
  apply (chip_call_run true e i c). by destruct Hm.
Qed.
Lemma irq_unmask_run e i c g : vok g -> maps_to g e i c -> irq_op (irq_unmask (Z.to_nat i)) g = Ret (tt, masked_at false e g).
Proof.
  intros Hv Hm. eapply irq_op_run; [unfold irq_unmask; rewrite (kbind_ret _ _ _ _ _ (chip_of_run _ _ _ Hv (mt_desc _ _ _ _ Hm))); reflexivity|].
  apply (chip_call_run false e i c). by destruct Hm.
Qed.

(** The request of a bottom half. *)
Definition acts_kept (x x' : irqs) : Prop := forall i c, descs x !! i = Some c -> exists c', descs x' !! i = Some c' /\ action c' = action c.
Lemma acts_insert x i f c : descs x !! i = Some c -> (forall c, action (f c) = action c) -> acts_kept x (with_descs <[i := f c]> x).
Proof.
  intros Hc Hf j d Hd. cbn [descs with_descs]. destruct (decide (i = j)) as [<-|Hne]; [|rewrite list_lookup_insert_ne by done; eauto].
  rewrite list_lookup_insert_eq by (by eapply lookup_lt_Some). eexists. split; [done|]. rewrite Hf. congruence.
Qed.
Lemma request_run irq r x c : oom x = false -> descs x !! irq = Some c -> exists x', request_bottom irq r x = Ret (tt, x') /\ acts_kept x x' /\ chip_calls x' = chip_calls x.
Proof.
  intros Ho Hc. unfold request_bottom. krun (irq_to_desc_run irq c). destruct (_ && _); cbn [when]; [|exists x; split; [done|split; [intros i d; eauto|done]]].
  krun (upd_desc_run irq (set_pending true) c). set (x1 := with_descs _ x). assert (Hc1 : descs x1 !! irq = Some (set_pending true c)) by (apply list_lookup_insert_eq; by eapply lookup_lt_Some).
  krun (irq_to_desc_run irq (set_pending true c)). pose proof (acts_insert x irq (set_pending true) c Hc ltac:(done)) as H1. fold x1 in H1.
  destruct (thread_active _); cbn [negb when]; [eauto|]. krun (upd_desc_run irq (set_active true)). kstep. cbn [oom with_descs]. subst x1. cbn [oom with_descs]. rewrite Ho. kstep.
  eexists. split; [reflexivity|]. split; [|done]. intros i d Hd. destruct (H1 i d Hd) as (d1 & Hd1 & <-).
  by apply (acts_insert _ irq (set_active true) _ Hc1).
Qed.

(** ** The shared page *)
Definition put_page (f : domain -> domain) (x : domain) g : vguest D := with_avz (with_domains <[current_domain (avz g) := f x]> (avz g)) g.
Lemma shared_run g x : domains (avz g) !! current_domain (avz g) = Some x -> shared g = Ret (x, g).
Proof. intros Hx. unfold shared, on_avz. kstep. rewrite (dom_of_ok _ x) by done. by destruct g. Qed.
Lemma upd_shared_run f g x : domains (avz g) !! current_domain (avz g) = Some x -> upd_shared f g = Ret (tt, put_page f x g).
Proof. intros Hx. unfold upd_shared, on_avz. kstep. by rewrite (upd_dom_ok _ f x) by done. Qed.
Lemma page_frame f x g : domains (avz g) !! current_domain (avz g) = Some x -> length (evtchn_pending (f x)) = length (evtchn_pending x) -> vframe g (put_page f x g).
Proof.
  intros Hx Hl. split; [done|done|reflexivity|eauto|]. split; [done|]. intros d y Hy. cbn [avz put_page with_avz domains with_domains].
  destruct (decide (current_domain (avz g) = d)) as [<-|Hne]; [|rewrite lookup_insert_ne by done; eauto].
  rewrite lookup_insert_eq. eexists. split; [done|congruence].
Qed.
Lemma masked_frame b e g : vframe g (masked_at b e g).
Proof. split; [done|apply length_insert|apply set_calls_frame|eauto|reflexivity]. Qed.

Definition clear (e : nat) (x : domain) : domain := with_pending <[e := false]> (evtchn_upcall_pending x) x.
Lemma clear_run e x g : domains (avz g) !! current_domain (avz g) = Some x -> (e < length (evtchn_pending x))%nat ->
  clear_evtchn (Z.of_nat e) g = Ret (tt, put_page (clear e) x g).
Proof.
  intros Hx He. unfold clear_evtchn. krun (shared_run g x). destruct (lookup_lt_is_Some_2 _ _ He) as [b Hb].
  unfold lift at 1, index. destruct (Z.ltb_spec (Z.of_nat e) 0); [lia|]. rewrite Nat2Z.id, Hb. kstep. by apply upd_shared_run.
Qed.

Lemma first_event_Some p m e : first_event p m = Some e -> p !! e = Some true /\ m !! e = Some false.
Proof.
  intros (k & _ & Hf & _)%for_ret_Some. destruct (p !! k) as [[]|] eqn:Ep; [|done..]. destruct (m !! k) as [[]|] eqn:Em; [done| |done]. by injection Hf as <-.
Qed.
Lemma first_event_None p m e : first_event p m = None -> (e < NR_EVTCHN)%nat -> p !! e = Some true -> m !! e = Some false -> False.
Proof. intros Hn He Hp Hm. pose proof (proj1 (for_ret_None _ _) Hn e He) as Hf. cbn beta in Hf. by rewrite Hp, Hm in Hf. Qed.

Lemma pend_page e f x g : domains (avz g) !! current_domain (avz g) = Some x -> pend (avz (put_page f x g)) e = default false (evtchn_pending (f x) !! e).
Proof. intros Hx. unfold pend. cbn [avz put_page with_avz domains with_domains current_domain]. by rewrite lookup_insert_eq. Qed.
Lemma work_page f x g : domains (avz g) !! current_domain (avz g) = Some x -> work (avz (put_page f x g)) = (npend (evtchn_pending (f x)) + Nat.b2n (evtchn_upcall_pending (f x)))%nat.
Proof. intros Hx. unfold work. cbn [avz put_page with_avz domains with_domains current_domain]. by rewrite lookup_insert_eq. Qed.
Lemma pend_shared g x e : domains (avz g) !! current_domain (avz g) = Some x -> pend (avz g) e = default false (evtchn_pending x !! e).
Proof. intros Hx. unfold pend. by rewrite Hx. Qed.

Section serve.
Context {hcode : Z -> nat -> Z -> kern (vguest D) Z} {K : D -> hyp -> Prop} {w : D -> nat} {served : nat -> D -> Prop} `{!VirqHandlers hcode K w served}.

(** What holds after handlers have run, [e] being the channel of the last of them. *)
Record after (g g' : vguest D) : Prop := {
  af_frame : vframe g g';
  af_mask : evtchn_mask g' = evtchn_mask g;
  af_K : K (drv g') (avz g');
  af_served : forall i, served i (drv g) -> served i (drv g')
}.
Definition cost g : nat := (work (avz g) + w (drv g))%nat.

Lemma process_run e i c g : ready g -> K (drv g) (avz g) -> maps_to g e i c -> is_Some (action c) -> evtchn_mask g !! e = Some true -> pend (avz g) e = false ->
  exists g', process hcode (Z.to_nat i) g = Ret (tt, g') /\ after g g' /\ (forall e, pend (avz g) e = true -> pend (avz g') e = true) /\
    (cost g' <= cost g)%nat /\ served (Z.to_nat i) (drv g').
Proof.
  intros Hr HK Hm [p Hp] Hmask Hpend. unfold process. kstep. destruct (Z.ltb_spec (boot_stage (gi g)) BOOT_STAGE_IRQ_INIT); [pose proof (rd_stage _ Hr); lia|].
  set (g1 := with_gi (set_calls [] (gi g)) g).
  assert (F1 : vframe g g1) by (split; [done|done|apply set_calls_frame|eauto|reflexivity]).
  rewrite (kbind_ret _ _ g c g1); [|eapply irq_op_run; [apply irq_to_desc_run, (mt_desc _ _ _ _ Hm)|reflexivity]]. cbn beta. rewrite Hp.
  destruct (vh_run p (Z.to_nat i) (data c) g1 (vframe_ready _ _ F1 Hr) HK) as (r & g2 & E2 & F2 & M2 & K2 & P2 & C2 & S2 & S2').
  { exists e. pose proof (mt_range _ _ _ _ Hm). rewrite Z2Nat.id by lia. split; [apply (mt_irq _ _ _ _ Hm)|done]. }
  rewrite (kbind_ret _ _ _ _ _ E2). cbn beta. pose proof (vframe_ready _ _ (transitivity F1 F2) Hr) as Hr2.
  destruct (vf_acts _ _ (transitivity F1 F2) _ _ (mt_desc _ _ _ _ Hm)) as (c2 & Hc2 & _).
  destruct (request_run (Z.to_nat i) r (set_calls [] (gi g2)) c2 (rd_oom _ Hr2) Hc2) as (x3 & E3 & A3 & C3).
  set (g3 := with_gi (set_calls [] x3) g2). exists g3.
  assert (F3 : vframe g2 g3).
  { split; [done|done| |exact A3|reflexivity]. etransitivity; [apply (set_calls_frame [])|]. etransitivity; [by eapply irq_keeps_request|apply set_calls_frame]. }
  split; [eapply irq_op_run; [exact E3|by rewrite C3]|]. split_and!; [split| |exact C2|done]; [|exact M2|done|done|exact P2].
  etransitivity; [exact F1|]. by etransitivity.
Qed.

(** One turn of the loop. *)
Lemma turn_run f e x g : ready g -> handled g -> K (drv g) (avz g) -> domains (avz g) !! current_domain (avz g) = Some x ->
  first_event (evtchn_pending x) (evtchn_mask g) = Some e ->
  exists i g', virq_loop hcode (S f) g = virq_loop hcode f g' /\ after g g' /\ (forall e', e' <> e -> pend (avz g) e' = true -> pend (avz g') e' = true) /\
    (cost g' < cost g)%nat /\ evtchn_to_irq g !! e = Some i /\ served (Z.to_nat i) (drv g').
Proof.
  intros Hr Hh HK Hx Hf. destruct (first_event_Some _ _ _ Hf) as [Hp Hm]. destruct (Hh e Hm) as (i & c & Hi & Hne & Hc & Ha).
  destruct (maps_to_intro g e i (rd_ok _ Hr) Hi Hne) as (c0 & Hmt). assert (c0 = c) as -> by (pose proof (mt_desc _ _ _ _ Hmt); congruence). pose proof (mt_range _ _ _ _ Hmt) as Hrg.
  set (g1 := put_page (clear e) x g). assert (F1 : vframe g g1) by (apply page_frame; [done|apply length_insert]).
  destruct (maps_to_frame _ _ _ _ _ F1 Hmt) as (c1 & Hmt1 & Ha1). set (g2 := masked_at true e g1). assert (F2 : vframe g1 g2) by apply masked_frame.
  destruct (maps_to_frame _ _ _ _ _ F2 Hmt1) as (c2 & Hmt2 & Ha2).
  assert (P2 : forall e', pend (avz g2) e' = default false (<[e := false]> (evtchn_pending x) !! e')) by (intros e'; exact (pend_page e' (clear e) x g Hx)).
  assert (Hlt : (e < length (evtchn_pending x))%nat) by (by eapply lookup_lt_Some).
  destruct (process_run e i c2 g2) as (g3 & E3 & A3 & P3 & C3 & S3).
  { apply (vframe_ready g); [by etransitivity|done]. } { apply vh_stable; [done|done|apply length_insert]. } { done. } { congruence. }
  { apply list_lookup_insert_eq. by eapply lookup_lt_Some. } { rewrite P2. by rewrite list_lookup_insert_eq. }
  destruct A3 as [F3 M3 K3 S3']. assert (F13 : vframe g g3) by (etransitivity; [exact F1|by etransitivity]).
  destruct (maps_to_frame _ _ _ _ _ F13 Hmt) as (c3 & Hmt3 & _). exists i, (masked_at false e g3). split_and!.
  - cbn [virq_loop]. krun (shared_run g x). kstep. rewrite Hf. krun (table_read_run valid e g true (mt_valid _ _ _ _ Hmt)). kstep.
    krun (table_read_run evtchn_to_irq e g i Hi). unfold evtchn_from_irq. replace i with (Z.of_nat (Z.to_nat i)) at 1 by lia.
    krun (table_read_run irq_to_evtchn (Z.to_nat i) g (Z.of_nat e) (mt_chan _ _ _ _ Hmt)). rewrite (kbind_ret _ _ _ _ _ (clear_run e x g Hx Hlt)). cbn beta.
    rewrite (kbind_ret _ _ _ _ _ (irq_mask_run e i c1 g1 (rd_ok _ (vframe_ready _ _ F1 Hr)) Hmt1)). cbn beta. fold g2. rewrite (kbind_ret _ _ _ _ _ E3). cbn beta.
    by rewrite (kbind_ret _ _ _ _ _ (irq_unmask_run e i c3 g3 (rd_ok _ (vframe_ready _ _ F13 Hr)) Hmt3)).
  - split; [etransitivity; [exact F13|apply masked_frame]| |exact K3|exact S3'].
    cbn [masked_at evtchn_mask with_mask with_gi]. rewrite M3. cbn [g2 masked_at evtchn_mask with_mask with_gi]. rewrite list_insert_insert_eq. by apply list_insert_id.
  - intros e' Hd Hpe. apply P3. rewrite P2, list_lookup_insert_ne by done. by rewrite <- (pend_shared g x).
  - unfold cost in *. cbn [masked_at avz drv with_mask with_gi]. assert (W : S (work (avz g2)) = work (avz g)); [|change (drv g2) with (drv g) in C3; lia].
    change (avz g2) with (avz (put_page (clear e) x g)). rewrite work_page by done. unfold work. rewrite Hx. cbn [clear evtchn_pending evtchn_upcall_pending with_pending].
    pose proof (npend_clear _ _ Hp). lia.
  - done.
  - exact S3.
Qed.

Lemma after_trans g1 g2 g3 : after g1 g2 -> after g2 g3 -> after g1 g3.
Proof. intros [A1 A2 A3 A4] [B1 B2 B3 B4]. split; [by etransitivity|congruence|done|auto]. Qed.

(** Nothing that could be delivered is pending. *)
Definition idle g : Prop := forall e, evtchn_mask g !! e = Some false -> pend (avz g) e = false.
(** The handlers of the events that could be delivered in [g] have run in [g']. *)
Definition all_served g g' : Prop := forall e i, pend (avz g) e = true -> evtchn_mask g !! e = Some false -> evtchn_to_irq g !! e = Some i -> served (Z.to_nat i) (drv g').

Lemma virq_loop_run fuel g : ready g -> handled g -> K (drv g) (avz g) -> (cost g < fuel)%nat ->
  exists g', virq_loop hcode fuel g = Ret (tt, g') /\ after g g' /\ (cost g' <= cost g)%nat /\ idle g' /\ all_served g g'.
Proof.
  revert g. induction fuel as [|f IH]; intros g Hr Hh HK Hf; [lia|]. destruct (mo_shared _ (proj1 (rd_ok _ Hr))) as (x & Hx & Hlx).
  destruct (first_event (evtchn_pending x) (evtchn_mask g)) as [e|] eqn:Ee.
  - destruct (turn_run f e x g Hr Hh HK Hx Ee) as (i & g1 & -> & A1 & P1 & C1 & Hi & S1). pose proof A1 as [F1 M1 K1 _].
    destruct (IH g1) as (g2 & E2 & A2 & C2 & I2 & S2); [by eapply vframe_ready|by eapply vframe_handled|done|lia|].
    exists g2. split_and!; [done|by eapply after_trans|lia|done|]. intros e' i' Hp Hm Hi'. destruct (decide (e' = e)) as [->|Hd].
    + rewrite Hi in Hi'. injection Hi' as <-. by apply (af_served _ _ A2).
    + apply (S2 e'); [by apply P1|by rewrite M1|]. by rewrite (proj1 (vf_maps _ _ F1)).
  - assert (Hidle : idle g).
    { intros e Hm. rewrite (pend_shared g x e Hx). destruct (evtchn_pending x !! e) as [[]|] eqn:Ep; [|done..]. exfalso.
      eapply (first_event_None _ _ e Ee); [|done..]. rewrite <- Hlx. by eapply lookup_lt_Some. }
    exists g. split_and!; [cbn [virq_loop]; krun (shared_run g x); kstep; by rewrite Ee|by split|done|done|].
    intros e i Hp Hm. rewrite (Hidle e Hm) in Hp. done.
Qed.

Lemma virq_handle_run rounds fuel g : ready g -> handled g -> K (drv g) (avz g) -> upcall (avz g) = true -> (cost g <= rounds)%nat -> (cost g <= fuel)%nat ->
  exists g', virq_handle hcode rounds fuel g = Ret (tt, g') /\ after g g' /\ upcall (avz g') = false /\ idle g' /\ all_served g g'.
Proof.
  revert g. induction rounds as [|r IH]; intros g Hr Hh HK Hu Hc Hf; destruct (mo_shared _ (proj1 (rd_ok _ Hr))) as (x & Hx & Hlx).
  all: assert (Eu : evtchn_upcall_pending x = true) by (unfold upcall in Hu; by rewrite Hx in Hu).
  { unfold cost, work in Hc. rewrite Hx, Eu in Hc. cbn in Hc. lia. }
  cbn [virq_handle]. krun (shared_run g x). rewrite (kbind_ret _ _ _ _ _ (upd_shared_run (with_pending id false) g x Hx)). cbn beta. rewrite Eu.
  set (g1 := put_page (with_pending id false) x g). assert (F1 : vframe g g1) by (by apply page_frame).
  assert (C1 : (S (cost g1) = cost g)%nat). { unfold cost. change (drv g1) with (drv g). unfold g1. rewrite work_page by done. unfold work. rewrite Hx, Eu. cbn [with_pending evtchn_pending evtchn_upcall_pending id Nat.b2n]. lia. }
  assert (A1 : after g g1) by (split; [done|done|by apply vh_stable|done]).
  destruct (virq_loop_run fuel g1) as (g2 & E2 & A2 & C2 & I2 & S2); [by eapply vframe_ready|by eapply (vframe_handled g)|apply (af_K _ _ A1)|lia|].
  assert (P1 : forall e, pend (avz g1) e = pend (avz g) e) by (intros e; unfold g1; by rewrite (pend_page e _ x g Hx), (pend_shared g x e Hx)).
  assert (S1 : all_served g g2) by (intros e i Hp Hm Hi; apply (S2 e); [by rewrite P1|done|done]).
  rewrite (kbind_ret _ _ _ _ _ E2). cbn beta. pose proof (after_trans _ _ _ A1 A2) as A12. pose proof (vframe_ready _ _ (af_frame _ _ A12) Hr) as Hr2.
  destruct (mo_shared _ (proj1 (rd_ok _ Hr2))) as (y & Hy & _). krun (shared_run g2 y). destruct (evtchn_upcall_pending y) eqn:Ey.
  - destruct (IH g2) as (g3 & E3 & A3 & U3 & I3 & _); [done|eapply (vframe_handled g); [apply (af_frame _ _ A12)|apply (af_mask _ _ A12)|done]|apply (af_K _ _ A2)| |lia|lia|].
    { unfold upcall. by rewrite Hy. }
    exists g3. split_and!; [done|by eapply after_trans|done|done|]. intros e i Hp Hm Hi. apply (af_served _ _ A3). by apply (S1 e).
  - exists g2. split_and!; [done|done|unfold upcall; by rewrite Hy|done|done].
Qed.
End serve.

(** ** Every channel that is not masked has a handler *)
Lemma find_unbound_maps e i g : maps_ok g -> virq_bindcount g !! Z.to_nat i = Some 0 -> 0 <= i -> evtchn_to_irq g !! e <> Some i.
Proof. intros Hm Hc Hi He. destruct (mo_map _ Hm e i He ltac:(lia)) as (_ & _ & k & Hk & Hk1). rewrite Hc in Hk. injection Hk as <-. lia. Qed.

(** Binding a channel maps it, and changes neither masks nor descriptors. *)
Lemma bind_evtchn_run (e : Z) g r g' : vok g -> handled g -> bind_evtchn_to_virq e g = Ret (r, g') ->
  handled g' /\ (exists c, maps_to g' (Z.to_nat e) r c) /\ gi g' = gi g /\ avz g' = avz g.
Proof.
  intros Hv Hh H. pose proof (bind_evtchn_ok e g r g' Hv H) as Hv'. enough (Hx : handled g' /\ evtchn_to_irq g' !! Z.to_nat e = Some r /\ r <> -1 /\ gi g' = gi g /\ avz g' = avz g).
  { destruct Hx as (Hx1 & Hx2 & Hx3 & Hx4). split_and!; [done|by apply maps_to_intro|apply Hx4..]. }
  clear Hv'. destruct Hv as [Hm _]. apply kbind_inv in H as ([] & g1 & (-> & _)%lock_inv & H). apply kbind_inv in H as (i & g2 & (-> & He & Hi)%read_inv & H). destruct (Z.eqb_spec i (-1)) as [->|Hne].
  - apply kbind_inv in H as (irq & g3 & H' & H). apply kbind_inv in H' as (irq' & g4 & (-> & Hr & Hc)%find_unbound_inv & H').
    apply kbind_inv in H' as ([] & g5 & (-> & _ & _ & Hlt)%map_evtchn_inv & [= <- <-]).
    apply kbind_inv in H as (n & g6 & (c & Hc' & _ & -> & _)%add_binding_inv & H). apply kbind_inv in H as ([] & g7 & [= <-] & [= <- <-]).
    split_and!; [|by apply list_lookup_insert_eq|lia|done|done]. intros e' Hme. destruct (Hh e' Hme) as (i & d & He' & Hne & Hd). exists i, d. split; [|done].
    cbn [evtchn_to_irq set_map_lock with_count with_valid with_i2e with_e2i] in *. rewrite list_lookup_insert_ne; [done|]. intros <-. rewrite Hi in He'. by injection He'.
  - apply kbind_inv in H as (irq & g3 & [= <- <-] & H). apply kbind_inv in H as (n & g6 & (c & Hc & _ & -> & _)%add_binding_inv & H).
    apply kbind_inv in H as ([] & g7 & [= <-] & [= <- <-]). done.
Qed.

Lemma irq_bind_run e i c p t d g : vok g -> maps_to g e i c -> action c = None ->
  irq_op (irq_bind (Z.to_nat i) (Some p) t d) g = Ret (tt, with_mask <[e := false]> (with_gi (set_calls [] (with_descs <[Z.to_nat i := set_handlers_of (Some p) t d c]> (gi g))) g)).
Proof.
  intros Hv Hm Ha. set (c1 := set_handlers_of (Some p) t d c). set (x1 := with_descs <[Z.to_nat i := c1]> (set_calls [] (gi g))).
  assert (Hc1 : descs x1 !! Z.to_nat i = Some c1) by (apply list_lookup_insert_eq; eapply lookup_lt_Some, (mt_desc _ _ _ _ Hm)).
  destruct Hv as [Hmo _]. destruct (mo_chip _ Hmo) as [Hp Ho]. eapply irq_op_run.
  - unfold irq_bind. krun (irq_to_desc_run (Z.to_nat i) c (set_calls [] (gi g)) (mt_desc _ _ _ _ Hm)). rewrite Ha. kstep.
    krun (upd_desc_run (Z.to_nat i) (set_handlers_of (Some p) t d) c (set_calls [] (gi g)) (mt_desc _ _ _ _ Hm)). fold c1 x1. unfold chip_of. rewrite (kbind_ret _ _ x1 virq_ops x1); [reflexivity|]. krun (irq_to_desc_run (Z.to_nat i) c1 x1 Hc1). kstep. cbn [chips x1 with_descs set_calls irq_ops c1 set_handlers_of].
    rewrite (Ho _ _ (mt_desc _ _ _ _ Hm)), Hp. reflexivity.
  - apply (chip_call_run false e i c1). destruct Hm as [H1 H2 H3 H4 H5 H6]. by split.
Qed.

(** The channel [e] may still be without a handler. *)
Definition handled_but (e : nat) g : Prop := forall e', e' <> e -> evtchn_mask g !! e' = Some false ->
  exists i c, evtchn_to_irq g !! e' = Some i /\ i <> -1 /\ descs (gi g) !! Z.to_nat i = Some c /\ is_Some (action c).

Lemma irq_bind_handled e i c p t d g g' : vok g -> handled_but e g -> maps_to g e i c -> irq_op (irq_bind (Z.to_nat i) (Some p) t d) g = Ret (tt, g') ->
  handled g' /\ evtchn_mask g' = <[e := false]> (evtchn_mask g) /\ evtchn_to_irq g' = evtchn_to_irq g.
Proof.
  intros Hv Hh Hm H. destruct (action c) as [q|] eqn:Ha.
  { exfalso. unfold irq_op, irq_bind in H. rewrite (kbind_ret _ _ _ _ _ (irq_to_desc_run (Z.to_nat i) c (set_calls [] (gi g)) (mt_desc _ _ _ _ Hm))) in H. cbn beta in H. rewrite Ha in H. done. }
  rewrite (irq_bind_run e i c p t d g Hv Hm Ha) in H. injection H as <-. split_and!; [|done|done]. intros e' Hme.
  cbn [evtchn_mask with_mask with_gi gi descs set_calls with_descs evtchn_to_irq] in *. destruct (decide (e' = e)) as [->|Hd].
  - exists i, (set_handlers_of (Some p) t d c). split_and!; [apply (mt_irq _ _ _ _ Hm)|pose proof (mt_range _ _ _ _ Hm); lia| |by eexists].
    apply list_lookup_insert_eq. eapply lookup_lt_Some, (mt_desc _ _ _ _ Hm).
  - rewrite list_lookup_insert_ne in Hme by done. destruct (Hh e' Hd Hme) as (i' & c' & He' & Hne & Hc' & Ha'). exists i', c'. split_and!; [done|done| |done].
    destruct (mo_map _ (proj1 Hv) e' i' He' Hne) as (Hr' & Hie' & _). pose proof (mt_range _ _ _ _ Hm). rewrite list_lookup_insert_ne; [done|]. intros E.
    pose proof (mt_chan _ _ _ _ Hm) as Hie. rewrite E, Hie' in Hie. injection Hie as Hie. lia.
Qed.

Lemma bind_virq_run v g g' : vok g -> handled g -> v < Z.of_nat NR_IRQS -> (forall e, evtchn_to_irq g !! e <> Some v) -> bind_virq v g = Ret (tt, g') ->
  exists e c, handled_but e g' /\ maps_to g' e v c /\ gi g' = gi g.
Proof.
  intros Hv Hh Hr Hfree H. assert (Hv' : vok g') by (eapply bind_virq_ok; [done|done| |done]; intros e i He ->; by apply (Hfree e)).
  apply kbind_inv in H as ([] & g1 & (-> & _)%lock_inv & H). apply kbind_inv in H as (a & g2 & (h & -> & Hf)%hypercall_inv & H).
  apply kbind_inv in H as (e & g3 & [-> _]%lift_inv & H). apply kbind_inv in H as ([] & g4 & (-> & He & Hv0 & Hlt)%map_evtchn_inv & H).
  apply kbind_inv in H as ([] & g5 & (-> & _ & _)%store_inv & H). apply kbind_inv in H as (n & g6 & (c & Hcc & _ & -> & _)%add_binding_inv & [= <-]).
  destruct (maps_to_intro _ (Z.to_nat e) v Hv') as (c' & Hm); [by apply list_lookup_insert_eq|lia|]. exists (Z.to_nat e), c'. split_and!; [|done|done].
  intros e' Hd. cbn [evtchn_mask evtchn_to_irq gi set_map_lock with_count with_mask with_valid with_i2e with_e2i with_avz]. rewrite !list_lookup_insert_ne by done. apply Hh.
Qed.

(** Drivers that only bind, each with a handler. *)
Inductive bstep : vguest D -> vguest D -> Prop :=
  | bs_bind (e : Z) p t d g r g' : bind_evtchn_to_irq_handler e (Some p) t d g = Ret (r, g') -> bstep g g'
  | bs_inter rdom re p t d g r g' : bind_interdomain_evtchn_to_irqhandler rdom re (Some p) t d g = Ret (r, g') -> bstep g g'
  | bs_virq v p t d g g' : v < Z.of_nat NR_IRQS -> (forall e, evtchn_to_irq g !! e <> Some v) ->
      bind_virq_to_irqhandler v (Some p) t d g = Ret (tt, g') -> bstep g g'
  | bs_notify irq g g' : notify_remote_via_virq irq g = Ret (tt, g') -> bstep g g'
  | bs_outside h g : avz_frame (avz g) h -> bstep g (with_avz h g)
  | bs_driver v g : bstep g (set_drv v g).
Lemma bstep_vstep g g' : bstep g g' -> vstep g g'.
Proof. intros []; [by eapply vs_bind|by eapply vs_inter|by eapply vs_virq|by eapply vs_notify|by apply vs_outside|apply vs_driver]. Qed.

Lemma irq_op_frame {A} (m : kern irqs A) g a g' : irq_keeps m -> irq_op m g = Ret (a, g') -> irq_frame (gi g) (gi g').
Proof.
  intros Hk H. unfold irq_op in H. destruct (m (set_calls [] (gi g))) as [[b x]|] eqn:E; [|done]. apply kbind_inv in H as ([] & g1 & H & [= _ <-]).
  assert (Hr : forall l g g', replay l g = Ret (tt, g') -> gi g' = gi g).
  { clear. intros l. induction l as [|[p i] l IH]; intros g g' H; [by injection H as <-|]. apply kbind_inv in H as ([] & g1 & E1%IH & H). rewrite <- E1. revert H. unfold chip_call. cbn [fst snd].
    destruct (p =? VIRQ_MASK); [|destruct (p =? VIRQ_UNMASK); [|done]]; intros (e & g2 & (-> & _ & _)%read_inv & (-> & _ & _)%store_inv)%kbind_inv; done. }
  rewrite (Hr _ _ _ H). etransitivity; [apply (set_calls_frame [])|]. etransitivity; [by eapply Hk|apply set_calls_frame].
Qed.

Definition settled g : Prop := ready g /\ handled g.
Lemma settled_irq_bind e i c p t d g g' : vok g -> BOOT_STAGE_IRQ_INIT <= boot_stage (gi g) -> oom (gi g) = false -> handled_but e g -> maps_to g e i c ->
  irq_op (irq_bind (Z.to_nat i) (Some p) t d) g = Ret (tt, g') -> settled g'.
Proof.
  intros Hv Hs Ho Hh Hm H. pose proof (irq_op_frame _ _ _ _ (irq_keeps_bind_op _ _ _ _) H) as [F1 [F2 F3] F4 F5].
  split; [split|apply (irq_bind_handled _ _ _ _ _ _ _ _ Hv Hh Hm H)]; [by eapply bind_handler_ok|by rewrite F2|by rewrite F3].
Qed.
Lemma settled_bind (e : Z) p t d g i g1 g2 : settled g -> bind_evtchn_to_virq e g = Ret (i, g1) -> irq_op (irq_bind (Z.to_nat i) (Some p) t d) g1 = Ret (tt, g2) -> settled g2.
Proof.
  intros [[Hv Hs Ho] Hh] H1 H2. pose proof (bind_evtchn_ok _ _ _ _ Hv H1) as Hv1. destruct (bind_evtchn_run e g i g1 Hv Hh H1) as (Hh1 & (c & Hm) & Eg & _).
  eapply settled_irq_bind; [done|by rewrite Eg|by rewrite Eg| |done|done]. intros e' _. apply Hh1.
Qed.
Lemma settled_avz h g : settled g -> avz_frame (avz g) h -> settled (with_avz h g).
Proof. intros [[Hv Hs Ho] Hh] Hf. by split; [split; [apply vok_avz|..]|]. Qed.

Lemma bstep_settled g g' : settled g -> bstep g g' -> settled g'.
Proof.
  intros Hr Hs. destruct Hs as [e p t d g r g' H|rdom re p t d g r g' H|v p t d g g' Hv Hfree H|irq g g' H|h g Hf|v g].
  - apply kbind_inv in H as (i & g1 & E1 & H). apply kbind_inv in H as ([] & g2 & E2 & [= _ <-]). by eapply settled_bind.
  - apply kbind_inv in H as (i & g1 & E1 & H). apply kbind_inv in H as ([] & g2 & [-> _]%lift_inv & H). apply kbind_inv in H as ([] & g3 & E3 & [= _ <-]).
    apply kbind_inv in E1 as (a & ga & (h & -> & Hf)%hypercall_inv & E1). apply kbind_inv in E1 as (e & gb & [-> _]%lift_inv & E1). eapply settled_bind; [|done..]. by apply settled_avz.
  - destruct Hr as [[Hok Hs Ho] Hh]. apply kbind_inv in H as ([] & g1 & E1 & H). destruct (bind_virq_run v g g1 Hok Hh Hv Hfree E1) as (e & c & Hb & Hm & Eg).
    eapply settled_irq_bind; [|by rewrite Eg|by rewrite Eg|done|done|done]. eapply bind_virq_ok; [done|done| |done]. intros e' i He ->. by apply (Hfree e').
  - apply kbind_inv in H as (e & g1 & (-> & _)%read_inv & H). apply kbind_inv in H as (v & g2 & (-> & _)%read_inv & H). apply kbind_inv in H as ([] & g3 & [-> _]%lift_inv & H).
    apply kbind_inv in H as (r & g4 & (h & -> & Hf)%hypercall_inv & [= <-]). by apply settled_avz.
  - by apply settled_avz.
  - destruct Hr as [[[[H1 H2 H3 H4 H5 H6] Hl] Hs Ho] Hh]. by split; [split; [split; [split|]|..]|].
Qed.

Inductive bhistory g0 : vguest D -> Prop :=
  | bh_init g : virq_init g0 = Ret (tt, g) -> bhistory g0 g
  | bh_step g g' : bhistory g0 g -> bstep g g' -> bhistory g0 g'.
Lemma bhistory_settled g0 g : preboot g0 -> BOOT_STAGE_IRQ_INIT <= boot_stage (gi g0) -> oom (gi g0) = false -> bhistory g0 g -> settled g.
Proof.
  intros Hp Hs Ho. induction 1 as [g Hi|g g' _ IH Hb]; [|by eapply bstep_settled]. split; [split; [by eapply virq_init_ok|..]|].
  1-2: rewrite virq_init_run in Hi; remember (after_init g0) as g1 eqn:Eg; injection Hi as <-; by subst g1.
  intros e. rewrite virq_init_run in Hi; remember (after_init g0) as g1 eqn:Eg; injection Hi as <-; subst g1. by intros [? _]%lookup_replicate.
Qed.

(** ** The upcall *)
Lemma work_bound g : ready g -> (work (avz g) <= NR_EVTCHN + 1)%nat.
Proof.
  intros Hr. destruct (mo_shared _ (proj1 (rd_ok _ Hr))) as (x & Hx & Hl). unfold work. rewrite Hx. unfold npend. pose proof (length_filter (eq true) (evtchn_pending x)).
  destruct (evtchn_upcall_pending x); cbn [Nat.b2n]; lia.
Qed.

Section theorems.
Context {hcode : Z -> nat -> Z -> kern (vguest D) Z} {K : D -> hyp -> Prop} {w : D -> nat} {served : nat -> D -> Prop} `{!VirqHandlers hcode K w served}.
(** A guest whose drivers have bound their handlers. *)
Variables (g0 g : vguest D).
Hypothesis Hpre : preboot g0.
Hypothesis Hstage : BOOT_STAGE_IRQ_INIT <= boot_stage (gi g0).
Hypothesis Hoom : oom (gi g0) = false.
Hypothesis Hhist : bhistory g0 g.

(** C23: in a guest whose drivers have bound their channels with a handler, the upcall of
    the hypervisor returns, after at most one turn for each pending event and each event
    the handlers raise themselves; then the handler of every event that was pending and
    not masked has run, no such event is left, the upcall flag is down, and the masks and
    the mapping of channels to interrupts are as before. *)
Theorem virq_handle_correct rounds fuel : K (drv g) (avz g) -> upcall (avz g) = true ->
  (NR_EVTCHN + 1 + w (drv g) <= rounds)%nat -> (NR_EVTCHN + 1 + w (drv g) <= fuel)%nat ->
  exists g', virq_handle hcode rounds fuel g = Ret (tt, g') /\
    (forall e i, pend (avz g) e = true -> evtchn_mask g !! e = Some false -> evtchn_to_irq g !! e = Some i -> served (Z.to_nat i) (drv g')) /\
    (forall e, evtchn_mask g' !! e = Some false -> pend (avz g') e = false) /\ upcall (avz g') = false /\
    evtchn_mask g' = evtchn_mask g /\ evtchn_to_irq g' = evtchn_to_irq g /\ irq_to_evtchn g' = irq_to_evtchn g /\ valid g' = valid g.
Proof.
  intros HK Hu Hr Hf. destruct (bhistory_settled g0 g Hpre Hstage Hoom Hhist) as [Hrd Hh]. pose proof (work_bound g Hrd).
  destruct (virq_handle_run rounds fuel g Hrd Hh HK Hu) as (g' & E & [F M _ _] & U & I & S); [unfold cost; lia..|].
  exists g'. destruct (vf_maps _ _ F) as (F1 & F2 & F3 & _). done.
Qed.

(** C22: an event that another domain sends reaches the driver: once a guest's driver has
    bound channel [e] with a handler, and the channel is connected to channel [re] of
    domain [rd], a send on [re] returns, and the upcall that follows returns with the
    handler of the interrupt bound to [e] run and nothing left to deliver. *)
Theorem event_reaches_handler rd re e i rounds fuel x y :
  bound (chn (avz g)) rd re (current_domain (avz g)) (Z.of_nat e) -> domains (avz g) !! rd = Some x -> event_lock x = false ->
  domains (avz g) !! current_domain (avz g) = Some y -> event_lock y = false -> K (drv g) (avz g) ->
  evtchn_to_irq g !! e = Some i -> evtchn_mask g !! e = Some false ->
  (NR_EVTCHN + 1 + w (drv g) <= rounds)%nat -> (NR_EVTCHN + 1 + w (drv g) <= fuel)%nat ->
  exists h g', evtchn_send rd re (avz g) = Ret (tt, h) /\ virq_handle hcode rounds fuel (with_avz h g) = Ret (tt, g') /\
    served (Z.to_nat i) (drv g') /\ (forall e', evtchn_mask g' !! e' = Some false -> pend (avz g') e' = false).
Proof.
  intros Hb Hx Hlx Hy Hly HK Hi Hm Hr Hf. pose proof (bhistory_settled g0 g Hpre Hstage Hoom Hhist) as Hst.
  destruct (mo_shared _ (proj1 (rd_ok _ (proj1 Hst)))) as (y' & Hy' & Hl). assert (y' = y) as -> by congruence.
  assert (He : (e < NR_EVTCHN)%nat). { destruct (mo_len _ (proj1 (rd_ok _ (proj1 Hst)))) as (<- & _). by eapply lookup_lt_Some. }
  set (h := sent (current_domain (avz g)) (Z.of_nat e) y (avz g)).
  assert (Hsend : evtchn_send rd re (avz g) = Ret (tt, h)) by (apply (evtchn_send_run _ _ _ _ _ x y); [done..|lia]).
  assert (Hh : domains h !! current_domain h = Some (with_pending <[e := true]> true y)) by (cbn; rewrite Nat2Z.id; apply lookup_insert_eq).
  assert (Hst2 : settled (with_avz h g)) by (apply settled_avz; [done|by eapply keeps_send]).
  assert (HK2 : K (drv g) h) by (apply vh_event, vh_stable; [done|done|apply length_insert]).
  destruct Hst2 as [Hrd2 Hh2]. pose proof (work_bound _ Hrd2).
  destruct (virq_handle_run rounds fuel (with_avz h g) Hrd2 Hh2 HK2) as (g' & E & _ & _ & I & S); [unfold upcall; cbn [avz with_avz]; by rewrite Hh|unfold cost; cbn [drv with_avz]; lia..|].
  exists h, g'. split_and!; [done|done| |done]. apply (S e i); [|done|done]. rewrite (pend_shared (with_avz h g) _ e Hh). cbn [evtchn_pending with_pending].
  rewrite list_lookup_insert_eq by lia. done.
Qed.
End theorems.
End up.

(** ** A driver that answers *)
(** The handler records its interrupt and notifies the other end of channel 1. *)
Definition echo (p : Z) (irq : nat) (d : Z) : kern (vguest (list nat)) Z :=
  modify (fun g => set_drv (irq :: drv g) g);; notify_remote_via_evtchn 1;; mret IRQ_COMPLETED.
Definition connected (v : list nat) (h : hyp) : Prop := current_domain h = 0 /\ bound (chn h) 0 1 1 1 /\ unlocked h 0 /\ unlocked h 1.

Lemma connected_stable v h d x f u : connected v h -> domains h !! d = Some x -> length (f (evtchn_pending x)) = length (evtchn_pending x) ->
  connected v (with_domains <[d := with_pending f u x]> h).
Proof.
  intros (E & Hb & H0 & H1) Hx Hl. assert (Hs : same h (with_domains <[d := with_pending f u x]> h)) by (apply (upd_dom_same d (with_pending f u)); [done|by apply upd_dom_ok]).
  assert (Hu : forall k, unlocked h k -> unlocked (with_domains <[d := with_pending f u x]> h) k).
  { intros k (z & Hz & Hlz & Hpz). destruct (decide (d = k)) as [<-|Hne]; [|exists z; cbn [domains with_domains]; by rewrite (lookup_insert_ne _ _ _ _ Hne)].
    assert (z = x) as -> by congruence. eexists. split; [apply lookup_insert_eq|]. split; [done|by rewrite <- Hpz]. }
  split_and!; [done| |by apply Hu|by apply Hu]. destruct Hb as (c & Hc & Hr). exists c. by rewrite Hs.
Qed.

#[export] Instance echo_handlers : VirqHandlers echo connected (fun _ => 0%nat) (fun i v => i ∈ v).
Proof.
  split; [|apply connected_stable|done]. intros p irq d g Hr HK Hc. pose proof HK as (Ec & Hb & (x & Hx & Hlx & Hpx) & (y & Hy & Hly & Hpy)).
  set (h := sent 1 1 y (avz g)). assert (Hs : evtchn_send 0 1 (avz g) = Ret (tt, h)) by (apply (evtchn_send_run _ 0 1 1 1 x y); [done..|rewrite Hpy; done]).
  assert (E0 : domains h !! current_domain h = domains (avz g) !! current_domain (avz g)) by (cbn; rewrite Ec; by rewrite lookup_insert_ne).
  assert (Ep : forall e, pend h e = pend (avz g) e) by (intros e; unfold pend; by rewrite E0).
  exists IRQ_COMPLETED, (with_avz h (set_drv (irq :: drv g) g)). split_and!.
  - unfold echo. kstep. unfold notify_remote_via_evtchn, avz_hypercall, on_avz, do_event_channel_op. rewrite (kbind_ret _ _ _ tt (with_avz h (set_drv (irq :: drv g) g))); [done|].
    erewrite kbind_ret; [reflexivity|]. cbn [avz set_drv]. kstep. rewrite Ec. by rewrite (kbind_ret _ _ _ _ _ Hs).
  - split; [done|done|reflexivity|eauto|by eapply keeps_send].
  - done.
  - apply (connected_stable _ (avz g) 1 y <[1%nat := true]> true HK Hy). apply length_insert.
  - intros e He. cbn [avz with_avz]. by rewrite Ep.
  - unfold work. cbn [avz with_avz]. by rewrite E0.
  - cbn [drv with_avz set_drv]. set_solver.
  - cbn [drv with_avz set_drv]. set_solver.
Qed.

(** unbinding does not mask the channel again.  The driver of [ex_bound] unbinds; the
    channel is allocated anew, and an event that the other domain sends before a driver
    has bound it stops the guest in [virq_handle]. *)
Theorem unbind_leaves_unmasked :
  exists g1 g2 h, unbind_from_irqhandler 1 ex_bound = Ret (tt, g1) /\ evtchn_mask g1 !! 1%nat = Some false /\ valid g1 !! 1%nat = Some false /\
    avz_hypercall (EVTCHNOP_alloc_unbound DOMID_SELF 1) g1 = Ret (Some 1, g2) /\
    (evtchn_bind_interdomain 0 1 ≫= evtchn_send 1) (set_current 1 (avz g2)) = Ret (tt, h) /\
    forall rounds fuel, virq_handle echo (S rounds) (S fuel) (with_avz (set_current 0 h) g2) = Fault Panic.
Proof.
  eexists _, _, _. split; [vm_compute; reflexivity|]. split; [reflexivity|]. split; [reflexivity|]. split; [vm_compute; reflexivity|].
  split; [vm_compute; reflexivity|]. intros rounds fuel. vm_compute. reflexivity.
Qed.

Lemma ex_bound_bhistory : bhistory ex_preboot ex_bound.
Proof. eapply bh_step; [by apply bh_init, virq_init_run|]. eapply (bs_bind 1 10 None 7 _ 1). vm_compute. reflexivity. Qed.

(** Domain 1 has sent an event. *)
Definition ex_pending : vguest (list nat) := match evtchn_send 1 1 (avz ex_bound) with Ret (_, h) => with_avz h ex_bound | _ => ex_bound end.
Lemma ex_pending_bhistory : bhistory ex_preboot ex_pending.
Proof.
  eapply bh_step; [exact ex_bound_bhistory|]. unfold ex_pending. destruct (evtchn_send 1 1 (avz ex_bound)) as [[[] h]|] eqn:E; [|vm_compute in E; discriminate E].
  apply bs_outside. by eapply keeps_send.
Qed.
Lemma ex_bound_connected : connected (drv ex_bound) (avz ex_bound).
Proof. split_and!; [vm_compute; reflexivity|eexists; split; [vm_compute; reflexivity|done]|eexists; split; [vm_compute; reflexivity|done]..]. Qed.
Lemma ex_pending_connected : connected (drv ex_pending) (avz ex_pending).
Proof. split_and!; [vm_compute; reflexivity|eexists; split; [vm_compute; reflexivity|done]|eexists; split; [vm_compute; reflexivity|done]..]. Qed.

Lemma virq_handle_correct_witness : exists g', virq_handle echo 129 129 ex_pending = Ret (tt, g') /\ 1%nat ∈ drv g'.
Proof.
  destruct (virq_handle_correct (w := fun _ => 0%nat) ex_preboot ex_pending ex_preboot_ok ltac:(vm_compute; done) ltac:(vm_compute; reflexivity) ex_pending_bhistory 129 129
              ex_pending_connected ltac:(vm_compute; reflexivity) ltac:(done) ltac:(done)) as (g' & H & Hs & _).
  exists g'. split; [exact H|]. apply (Hs 1%nat 1); vm_compute; reflexivity.
Defined.

Lemma event_reaches_handler_witness : exists h g', evtchn_send 1 1 (avz ex_bound) = Ret (tt, h) /\ virq_handle echo 129 129 (with_avz h ex_bound) = Ret (tt, g') /\ 1%nat ∈ drv g'.
Proof.
  destruct (event_reaches_handler (w := fun _ => 0%nat) ex_preboot ex_bound ex_preboot_ok ltac:(vm_compute; done) ltac:(vm_compute; reflexivity) ex_bound_bhistory 1 1 1 1 129 129
              (default dom0 (domains (avz ex_bound) !! 1)) (default dom0 (domains (avz ex_bound) !! 0))) as (h & g' & H1 & H2 & H3 & _);
    [eexists; split; [vm_compute; reflexivity|done]|vm_compute; reflexivity|vm_compute; reflexivity|vm_compute; reflexivity|vm_compute; reflexivity
    |exact ex_bound_connected|vm_compute; reflexivity|vm_compute; reflexivity|done|done|].
  exists h, g'. split; [exact H1|]. split; [exact H2|exact H3].
Defined.
End VirqUp.
