(* ===== verification/Vbus.v ===== *)
(** VBus, the guest's side of the store of the agency (so3/soo/kernel/vbus/vbus_vbstore.c,
    soo/vbstore.h): messages on two byte rings of a shared page, requests matched with
    their replies, watches and transactions.

    A mutex is a flag, and taking one that is held never returns ([Hang]).  While a request
    waits for its reply, the store ([wait], a parameter: its code belongs to the agency)
    and the interrupt handler run.  The pointers inside a message, which have no meaning on
    the other side, are bytes. *)
From S2P Require Import Prelude.

Module Vbus.

Definition VBSTORE_RING_SIZE : Z := 1024.
Definition VBS_DIRECTORY : Z := 0.
Definition VBS_DIRECTORY_EXISTS : Z := 1.
Definition VBS_READ : Z := 2.
Definition VBS_WATCH : Z := 3.
Definition VBS_UNWATCH : Z := 4.
Definition VBS_TRANSACTION_END : Z := 5.
Definition VBS_WRITE : Z := 6.
Definition VBS_MKDIR : Z := 7.
Definition VBS_RM : Z := 8.
Definition VBS_WATCH_EVENT : Z := 9.

(** ** Messages *)
Record vbus_msg := VbusMsg {
  links : list Z;          (* the list node and [reply_wait], 24 bytes *)
  mtype : Z;
  mlen : Z;
  mid : Z;
  mtransactionID : Z;
  refs : list Z            (* [reply] and [payload], 16 bytes *)
}.
Definition msg_size : nat := 56.

(** The bytes of a 32-bit field, and of the structure. *)
Definition le32 (x : Z) : list Z := (fun k => Z.land (Z.shiftr x (8 * k)) 255) <$> [0; 1; 2; 3].
Definition of_le32 (l : list Z) : Z := foldr (fun b acc => b + 256 * acc) 0 l.
Definition msg_bytes (m : vbus_msg) : list Z := links m ++ le32 (mtype m) ++ le32 (mlen m) ++ le32 (mid m) ++ le32 (mtransactionID m) ++ refs m.
Definition field (l : list Z) (o : nat) : Z := of_le32 (take 4 (drop o l)).
Definition msg_of_bytes (l : list Z) : vbus_msg := VbusMsg (take 24 l) (field l 24) (field l 28) (field l 32) (field l 36) (drop 40 l).

(** ** The rings *)
Record vbstore_domain_interface := Intf {
  req : list Z;
  rsp : list Z;
  req_cons : Z; req_prod : Z; req_pvt : Z;
  rsp_cons : Z; rsp_prod : Z; rsp_pvt : Z
}.
Abbreviation intf := vbstore_domain_interface.

(** A copy into an array; writing past its end is [Undef]. *)
Definition copy_to (buf : list Z) (o : Z) (data : list Z) : outcome (list Z) :=
  if (o <? 0) || (Z.of_nat (length buf) <? o + Z.of_nat (length data)) then Fault Undef
  else Ret (take (Z.to_nat o) buf ++ data ++ drop (Z.to_nat o + length data) buf).
Definition copy_from (buf : list Z) (o : Z) (n : nat) : outcome (list Z) :=
  if (o <? 0) || (Z.of_nat (length buf) <? o + Z.of_nat n) then Fault Undef else Ret (take n (drop (Z.to_nat o) buf)).

Definition set_req b p q := Intf b (rsp q) (req_cons q) (req_prod q) p (rsp_cons q) (rsp_prod q) (rsp_pvt q).
Definition set_rsp_cons c q := Intf (req q) (rsp q) (req_cons q) (req_prod q) (req_pvt q) c (rsp_prod q) (rsp_pvt q).
Definition publish q := Intf (req q) (rsp q) (req_cons q) (req_pvt q) (req_pvt q) (rsp_cons q) (rsp_prod q) (rsp_pvt q).

Definition vbs_write (data : list Z) : kern intf unit :=
  q ← gets id;
  let len := Z.of_nat (length data) in
  let prod := req_pvt q in
  let wrapped := VBSTORE_RING_SIZE <=? prod + len in
  let prod := if wrapped then 0 else prod in
  lift (bug_on (wrapped && (req_cons q <? prod + len)));;
  b ← lift (copy_to (req q) prod data);
  modify (set_req b (prod + len)).

Definition ring_read (buf : list Z) (cons : Z) (len : nat) : outcome (list Z * Z) :=
  let cons := if VBSTORE_RING_SIZE <=? cons + Z.of_nat len then 0 else cons in
  d ← copy_from buf cons len;
  Ret (d, cons + Z.of_nat len).
Definition vbs_read (len : nat) : kern intf (list Z) :=
  q ← gets id;
  r ← lift (ring_read (rsp q) (rsp_cons q) len);
  modify (set_rsp_cons r.2);;
  mret r.1.

(** ** The state *)
Record vbus_watch := VbusWatch { wnode : list Z; wcallback : Z; wpending : bool }.
Definition set_wpending b w := VbusWatch (wnode w) (wcallback w) b.

(** [replied] holds the replies whose [reply_wait] is completed, by message ID; [watch_wait]
    counts the completions not yet waited for. *)
Record vbus := Vbus {
  page : intf;
  request_mutex : bool;
  transaction_mutex : bool;
  transaction_group_mutex : bool;
  watch_mutex : bool;
  transaction_count : Z;
  transactionID : Z;
  vbus_msg_ID : Z;
  standby : list vbus_msg;
  replied : gmap Z (vbus_msg * option (list Z));
  watches : list vbus_watch;
  watch_wait : Z
}.
Definition with_page f s := Vbus (f (page s)) (request_mutex s) (transaction_mutex s) (transaction_group_mutex s) (watch_mutex s) (transaction_count s) (transactionID s) (vbus_msg_ID s) (standby s) (replied s) (watches s) (watch_wait s).
Definition set_request x s := Vbus (page s) x (transaction_mutex s) (transaction_group_mutex s) (watch_mutex s) (transaction_count s) (transactionID s) (vbus_msg_ID s) (standby s) (replied s) (watches s) (watch_wait s).
Definition set_transaction x s := Vbus (page s) (request_mutex s) x (transaction_group_mutex s) (watch_mutex s) (transaction_count s) (transactionID s) (vbus_msg_ID s) (standby s) (replied s) (watches s) (watch_wait s).
Definition set_group x s := Vbus (page s) (request_mutex s) (transaction_mutex s) x (watch_mutex s) (transaction_count s) (transactionID s) (vbus_msg_ID s) (standby s) (replied s) (watches s) (watch_wait s).
Definition set_watch x s := Vbus (page s) (request_mutex s) (transaction_mutex s) (transaction_group_mutex s) x (transaction_count s) (transactionID s) (vbus_msg_ID s) (standby s) (replied s) (watches s) (watch_wait s).
Definition set_count x s := Vbus (page s) (request_mutex s) (transaction_mutex s) (transaction_group_mutex s) (watch_mutex s) x (transactionID s) (vbus_msg_ID s) (standby s) (replied s) (watches s) (watch_wait s).
Definition set_tid x s := Vbus (page s) (request_mutex s) (transaction_mutex s) (transaction_group_mutex s) (watch_mutex s) (transaction_count s) x (vbus_msg_ID s) (standby s) (replied s) (watches s) (watch_wait s).
Definition set_msg_ID x s := Vbus (page s) (request_mutex s) (transaction_mutex s) (transaction_group_mutex s) (watch_mutex s) (transaction_count s) (transactionID s) x (standby s) (replied s) (watches s) (watch_wait s).
Definition with_standby f s := Vbus (page s) (request_mutex s) (transaction_mutex s) (transaction_group_mutex s) (watch_mutex s) (transaction_count s) (transactionID s) (vbus_msg_ID s) (f (standby s)) (replied s) (watches s) (watch_wait s).
Definition with_replied f s := Vbus (page s) (request_mutex s) (transaction_mutex s) (transaction_group_mutex s) (watch_mutex s) (transaction_count s) (transactionID s) (vbus_msg_ID s) (standby s) (f (replied s)) (watches s) (watch_wait s).
Definition with_watches f s := Vbus (page s) (request_mutex s) (transaction_mutex s) (transaction_group_mutex s) (watch_mutex s) (transaction_count s) (transactionID s) (vbus_msg_ID s) (standby s) (replied s) (f (watches s)) (watch_wait s).
Definition set_wait x s := Vbus (page s) (request_mutex s) (transaction_mutex s) (transaction_group_mutex s) (watch_mutex s) (transaction_count s) (transactionID s) (vbus_msg_ID s) (standby s) (replied s) (watches s) x.

Definition on_page {A} (m : kern intf A) : kern vbus A := fun s =>
  match m (page s) with Ret (a, q) => Ret (a, with_page (fun _ => q) s) | Fault e => Fault e end.
Definition lock (f : vbus -> bool) (w : bool -> vbus -> vbus) : kern vbus unit :=
  b ← gets f; if (b : bool) then raise Hang else modify (w true).
(** [mutex_unlock] stops the kernel when the mutex is not locked. *)
Definition unlock (f : vbus -> bool) (w : bool -> vbus -> vbus) : kern vbus unit :=
  b ← gets f; lift (bug_on (negb b));; modify (w false).

(** ** Requests *)
Section talk.
(** What happens between [notify_remote_via_evtchn] and the completion of the reply. *)
Variable wait : kern vbus unit.
(** The bytes of the pointers of the message on the stack. *)
Variable ptrs : list Z * list Z.

Definition vbs_talkv (t type : Z) (vec : list (list Z)) : kern vbus (option (list Z) * Z) :=
  lock request_mutex set_request;;
  id ← gets vbus_msg_ID;
  modify (set_msg_ID (u32 (id + 1)));;
  let payload := concat vec in
  let msg := VbusMsg ptrs.1 type (u32 (Z.of_nat (length payload))) id t ptrs.2 in
  on_page (vbs_write (msg_bytes msg));;
  on_page (vbs_write payload);;
  modify (with_standby (fun l => l ++ [msg]));;
  modify (with_page publish);;
  wait;;
  m ← gets replied;
  match m !! id with
  | None => raise Hang
  | Some (reply, payload) =>
      lift (bug_on (negb (mtype reply =? type) || negb (mid reply =? id)));;
      modify (with_replied (delete id));;
      unlock request_mutex set_request;;
      mret (payload, mlen reply)
  end.

(** C strings are byte lists without their terminator. *)
Definition vbs_single (t type : Z) (string : list Z) : kern vbus (option (list Z) * Z) := vbs_talkv t type [string ++ [0]].

Definition slash : Z := 47.
Definition join (dir name : list Z) : list Z := if decide (name = []) then dir else dir ++ [slash] ++ name.

(** The strings of a buffer, one after the other; a last one without a terminator would
    be read past the end. *)
Fixpoint split_at (cur : list Z) (l : list Z) : option (list (list Z)) :=
  match l with
  | [] => match cur with [] => Some [] | _ => None end
  | b :: l => if b =? 0 then s ← split_at [] l; Some (cur :: s) else split_at (cur ++ [b]) l
  end.
Definition split (strings : list Z) : outcome (list (list Z)) := deref (split_at [] strings).

Definition vbus_directory (t : Z) (dir node : list Z) : kern vbus (list (list Z)) :=
  r ← vbs_single t VBS_DIRECTORY (join dir node);
  lift (bug_on (r.2 =? 0));;
  strings ← lift (deref r.1);
  lift (split strings).
Definition vbus_directory_exists (t : Z) (dir node : list Z) : kern vbus bool :=
  r ← vbs_single t VBS_DIRECTORY_EXISTS (join dir node);
  strings ← lift (deref r.1);
  c ← lift (deref (head strings));
  mret (c =? 49).
Definition vbus_read (t : Z) (dir node : list Z) : kern vbus (option (list Z) * Z) := vbs_single t VBS_READ (join dir node).
Definition vbus_write (t : Z) (dir node string : list Z) : kern vbus unit :=
  _ ← vbs_talkv t VBS_WRITE [join dir node ++ [0]; string ++ [0]]; mret tt.
Definition vbus_mkdir (t : Z) (dir node : list Z) : kern vbus unit := _ ← vbs_single t VBS_MKDIR (join dir node); mret tt.
Definition vbus_rm (t : Z) (dir node : list Z) : kern vbus unit := _ ← vbs_single t VBS_RM (join dir node); mret tt.

(** ** Transactions *)
Definition vbus_transaction_start : kern vbus Z :=
  lock transaction_mutex set_transaction;;
  c ← gets transaction_count;
  when (c =? 0) (lock transaction_group_mutex set_group);;
  modify (set_count (u32 (c + 1)));;
  i ← gets transactionID;
  let i := u32 (i + 1) in
  let i := if i =? 0 then u32 (i + 1) else i in
  modify (set_tid i);;
  unlock transaction_mutex set_transaction;;
  mret i.

Definition vbus_transaction_end (t : Z) : kern vbus unit :=
  _ ← vbs_single t VBS_TRANSACTION_END [];
  lock transaction_mutex set_transaction;;
  c ← gets transaction_count;
  let c := u32 (c - 1) in
  modify (set_count c);;
  when (c =? 0) (unlock transaction_group_mutex set_group);;
  unlock transaction_mutex set_transaction.

Definition transaction_suspend : kern vbus unit := lock transaction_mutex set_transaction;; lock transaction_group_mutex set_group.
Definition transaction_resume : kern vbus unit := unlock transaction_group_mutex set_group;; unlock transaction_mutex set_transaction.
Definition vbs_suspend : kern vbus unit := lock watch_mutex set_watch;; lock request_mutex set_request;; transaction_suspend.
Definition vbs_resume : kern vbus unit := transaction_resume;; unlock request_mutex set_request;; unlock watch_mutex set_watch.

(** ** Watches *)
Definition vbs_watch (path : list Z) : kern vbus unit := _ ← vbs_talkv 0 VBS_WATCH [path ++ [0]]; mret tt.
Definition vbs_unwatch (path : list Z) : kern vbus unit := _ ← vbs_talkv 0 VBS_UNWATCH [path ++ [0]]; mret tt.
Definition find_first_watch (l : list vbus_watch) (node : list Z) : option vbus_watch := List.find (fun w => bool_decide (wnode w = node)) l.
Definition get_watch (l : list vbus_watch) (w : vbus_watch) : option vbus_watch :=
  List.find (fun x => bool_decide (wnode x = wnode w) && (wcallback x =? wcallback w)) l.

Definition register_vbus_watch (w : vbus_watch) : kern vbus unit :=
  l ← gets watches;
  lift (bug_on (bool_decide (is_Some (get_watch l w))));;
  (if bool_decide (find_first_watch l (wnode w) = None) then vbs_watch (wnode w) else raise Panic);;
  modify (with_watches (cons (set_wpending false w))).

(** [list_del] of the first watch with that node and callback: it is the one passed. *)
Fixpoint remove_watch (w : vbus_watch) (l : list vbus_watch) : list vbus_watch :=
  match l with
  | [] => []
  | x :: r => if bool_decide (wnode x = wnode w) && (wcallback x =? wcallback w) then r else x :: remove_watch w r
  end.
Definition unregister_vbus_watch_of (vb : bool) (w : vbus_watch) : kern vbus unit :=
  l ← gets watches;
  lift (bug_on (bool_decide (get_watch l w = None)));;
  modify (with_watches (remove_watch w));;
  l ← gets watches;
  when (vb && bool_decide (find_first_watch l (wnode w) = None)) (vbs_unwatch (wnode w)).
Definition unregister_vbus_watch : vbus_watch -> kern vbus unit := unregister_vbus_watch_of true.
Definition unregister_vbus_watch_without_vbus : vbus_watch -> kern vbus unit := unregister_vbus_watch_of false.

(** One wake-up of [vbus_watch_thread]: [code] is the function behind a callback. *)
Fixpoint take_pending (l : list vbus_watch) : option (vbus_watch * list vbus_watch) :=
  match l with
  | [] => None
  | w :: r => if wpending w then Some (set_wpending false w, set_wpending false w :: r)
              else match take_pending r with Some (x, r') => Some (x, w :: r') | None => None end
  end.
Fixpoint watch_loop (code : Z -> vbus_watch -> kern vbus unit) (fuel : nat) : kern vbus unit :=
  match fuel with
  | O => raise Hang
  | S f =>
      l ← gets watches;
      match take_pending l with
      | None => mret tt
      | Some (w, l') => modify (with_watches (fun _ => l'));; code (wcallback w) w;; watch_loop code f
      end
  end.
Definition vbus_watch_thread (code : Z -> vbus_watch -> kern vbus unit) (fuel : nat) : kern vbus unit :=
  n ← gets watch_wait;
  if n =? 0 then raise Hang else
    modify (set_wait (n - 1));;
    lock watch_mutex set_watch;;
    watch_loop code fuel;;
    unlock watch_mutex set_watch.
End talk.

(** ** The interrupt handler *)
(** The C string at the start of a buffer. *)
Fixpoint cstr (l : list Z) : option (list Z) :=
  match l with [] => None | b :: r => if b =? 0 then Some [] else s ← cstr r; Some (b :: s) end.

Definition watch_event (payload : option (list Z)) : kern vbus unit :=
  l ← gets watches;
  if decide (l = []) then mret tt
  else
    p ← lift (deref payload);
    node ← lift (deref (cstr p));
    modify (with_watches (fmap (fun w => if bool_decide (wnode w = node) then set_wpending true w else w)));;
    when (existsb (fun w => bool_decide (wnode w = node)) l) (n ← gets watch_wait; modify (set_wait (n + 1))).

Fixpoint take_standby (id : Z) (l : list vbus_msg) : option (vbus_msg * list vbus_msg) :=
  match l with
  | [] => None
  | m :: r => if mid m =? id then Some (m, r) else match take_standby id r with Some (x, r') => Some (x, m :: r') | None => None end
  end.
Definition reply_event (msg : vbus_msg) (payload : option (list Z)) : kern vbus unit :=
  l ← gets standby;
  match take_standby (mid msg) l with
  | None => raise Panic
  | Some (orig, r) => modify (with_standby (fun _ => r));; modify (with_replied <[mid orig := (msg, payload)]>)
  end.

Fixpoint vbus_vbstore_isr (fuel : nat) : kern vbus unit :=
  match fuel with
  | O => raise Hang
  | S f =>
      q ← gets page;
      if rsp_cons q =? rsp_prod q then mret tt
      else
        b ← on_page (vbs_read msg_size);
        let msg := msg_of_bytes b in
        payload ← (if 0 <? mlen msg then p ← on_page (vbs_read (Z.to_nat (mlen msg))); mret (Some p) else mret None);
        (if mtype msg =? VBS_WATCH_EVENT then watch_event payload else reply_event msg payload);;
        vbus_vbstore_isr f
  end.

(** ** Bytes *)
Lemma le32_roundtrip x : in_word 32 x -> of_le32 (le32 x) = x.
Proof.
  intros [H0 H1]. unfold le32, of_le32. cbn [fmap list_fmap foldr]. change 255 with (Z.ones 8). rewrite !Z.land_ones, !Z.shiftr_div_pow2 by lia.
  change (2 ^ 32) with 4294967296 in H1. change (2 ^ (8 * 0)) with 1. change (2 ^ (8 * 1)) with 256. change (2 ^ (8 * 2)) with 65536. change (2 ^ (8 * 3)) with 16777216. change (2 ^ 8) with 256.
  dlia.
Qed.

(** The fields are 32-bit words and the pointers have their size. *)
Record msg_ok (m : vbus_msg) : Prop := {
  ok_links : length (links m) = 24%nat;
  ok_refs : length (refs m) = 16%nat;
  ok_words : in_word 32 (mtype m) /\ in_word 32 (mlen m) /\ in_word 32 (mid m) /\ in_word 32 (mtransactionID m)
}.
Lemma msg_bytes_length m : msg_ok m -> length (msg_bytes m) = msg_size.
Proof. intros [H1 H2 _]. unfold msg_bytes. rewrite !length_app, H1, H2. done. Qed.
Lemma msg_roundtrip m : msg_ok m -> msg_of_bytes (msg_bytes m) = m.
Proof.
  intros [H1 H2 (W1 & W2 & W3 & W4)]. destruct m as [li ty le id tr re]. cbn [links refs mtype mlen mid mtransactionID] in *.
  unfold msg_of_bytes, msg_bytes, field. cbn [links refs mtype mlen mid mtransactionID].
  assert (Hd : forall k l, drop (24 + k) (li ++ l) = drop k l) by (intros k l; rewrite drop_app_ge, H1 by lia; f_equal; lia).
  rewrite take_app_le, take_ge by lia. rewrite (Hd 0%nat), (Hd 4%nat), (Hd 8%nat), (Hd 12%nat), (Hd 16%nat). f_equal; by apply le32_roundtrip.
Qed.

(** ** Chunks on a ring *)
Definition wr (buf : list Z) (o : nat) (d : list Z) : list Z := take o buf ++ d ++ drop (o + length d) buf.
Definition rd (buf : list Z) (o n : nat) : list Z := take n (drop o buf).
Lemma wr_length buf o d : (o + length d <= length buf)%nat -> length (wr buf o d) = length buf.
Proof. intros H. unfold wr. rewrite !length_app, length_take, length_drop. lia. Qed.
Lemma rd_wr_same buf o d : (o + length d <= length buf)%nat -> rd (wr buf o d) o (length d) = d.
Proof.
  intros H. unfold rd, wr. rewrite drop_app_ge by (rewrite length_take; lia). rewrite length_take, Nat.min_l, Nat.sub_diag, drop_0 by lia.
  by rewrite take_app_le, take_ge by lia.
Qed.
Lemma rd_wr_other buf o d o' n : (o + length d <= length buf)%nat -> (o' + n <= o \/ o + length d <= o')%nat -> rd (wr buf o d) o' n = rd buf o' n.
Proof.
  intros H Hd. apply list_eq. intros k. unfold rd. destruct (decide (k < n)%nat) as [Hk|Hk]; [|by rewrite !lookup_take_ge by lia].
  rewrite !lookup_take_lt, !lookup_drop by lia. unfold wr. destruct Hd as [Hd|Hd].
  - rewrite lookup_app_l by (rewrite length_take; lia). by rewrite lookup_take_lt by lia.
  - rewrite lookup_app_r by (rewrite length_take; lia). rewrite lookup_app_r by (rewrite length_take; lia). rewrite lookup_drop, length_take. f_equal. lia.
Qed.

(** Where a chunk of [n] bytes goes when the ring stands at [p]. *)
Definition place (p : Z) (n : nat) : Z := if VBSTORE_RING_SIZE <=? p + Z.of_nat n then 0 else p.
Record ring_ok (q : intf) : Prop := {
  ro_len : Z.of_nat (length (req q)) = VBSTORE_RING_SIZE /\ Z.of_nat (length (rsp q)) = VBSTORE_RING_SIZE;
  ro_pvt : 0 <= req_pvt q < VBSTORE_RING_SIZE;
  ro_rsp : 0 <= rsp_cons q < VBSTORE_RING_SIZE /\ 0 <= rsp_prod q < VBSTORE_RING_SIZE
}.
Lemma vbs_write_run d q : ring_ok q -> (VBSTORE_RING_SIZE <= req_pvt q + Z.of_nat (length d) -> Z.of_nat (length d) <= req_cons q) ->
  Z.of_nat (length d) < VBSTORE_RING_SIZE ->
  vbs_write d q = Ret (tt, set_req (wr (req q) (Z.to_nat (place (req_pvt q) (length d))) d) (place (req_pvt q) (length d) + Z.of_nat (length d)) q).
Proof.
  intros [[H1 _] H2 _] H Hd. unfold vbs_write, place. kstep. cbv zeta. unfold id, VBSTORE_RING_SIZE in *. destruct (Z.leb_spec 1024 (req_pvt q + Z.of_nat (length d))) as [Hw|Hw]; cbn [andb].
  - destruct (Z.ltb_spec (req_cons q) (0 + Z.of_nat (length d))); [lia|]. kstep. unfold copy_to. destruct (Z.ltb_spec 0 0); [lia|].
    destruct (Z.ltb_spec (Z.of_nat (length (req q))) (0 + Z.of_nat (length d))); [lia|]. kstep. reflexivity.
  - kstep. unfold copy_to. destruct (Z.ltb_spec (req_pvt q) 0); [lia|]. destruct (Z.ltb_spec (Z.of_nat (length (req q))) (req_pvt q + Z.of_nat (length d))); [lia|]. kstep. reflexivity.
Qed.
Lemma ring_read_run buf p n : Z.of_nat (length buf) = VBSTORE_RING_SIZE -> 0 <= p -> Z.of_nat n < VBSTORE_RING_SIZE ->
  ring_read buf p n = Ret (rd buf (Z.to_nat (place p n)) n, place p n + Z.of_nat n).
Proof.
  intros Hl Hp Hn. unfold ring_read, place, copy_from, VBSTORE_RING_SIZE in *. destruct (Z.leb_spec 1024 (p + Z.of_nat n)).
  - destruct (Z.ltb_spec 0 0); [lia|]. destruct (Z.ltb_spec (Z.of_nat (length buf)) (0 + Z.of_nat n)); [lia|]. done.
  - destruct (Z.ltb_spec p 0); [lia|]. destruct (Z.ltb_spec (Z.of_nat (length buf)) (p + Z.of_nat n)); [lia|]. done.
Qed.

(** Several chunks, read one after the other; the position after them. *)
Fixpoint ring_reads (buf : list Z) (p : Z) (ns : list nat) : outcome (list (list Z) * Z) :=
  match ns with
  | [] => Ret ([], p)
  | n :: ns => r ← ring_read buf p n; s ← ring_reads buf r.2 ns; Ret (r.1 :: s.1, s.2)
  end.

(** The largest payload for which a message always goes through. *)
Definition max_payload : nat := 483.
Lemma message_roundtrip q hdr payload : ring_ok q -> req_cons q = req_pvt q -> length hdr = msg_size -> (length payload <= max_payload)%nat ->
  exists b pvt, (vbs_write hdr;; vbs_write payload) q = Ret (tt, set_req b pvt q) /\ ring_reads b (req_cons q) [msg_size; length payload] = Ret ([hdr; payload], pvt) /\
    pvt <> req_cons q /\ 0 <= pvt < VBSTORE_RING_SIZE /\ Z.of_nat (length b) = VBSTORE_RING_SIZE.
Proof.
  intros Hq Hc Hh Hp. destruct Hq as [[L1 L2] R Rr]. unfold max_payload, msg_size, VBSTORE_RING_SIZE in *.
  pose proof (vbs_write_run hdr q ltac:(by split) ltac:(unfold VBSTORE_RING_SIZE; lia) ltac:(unfold VBSTORE_RING_SIZE; lia)) as E1. rewrite Hh in E1. set (p1 := place (req_pvt q) 56) in *.
  assert (Hp1 : (p1 = req_pvt q /\ req_pvt q + 56 < 1024) \/ (p1 = 0 /\ 1024 <= req_pvt q + 56)) by (unfold p1, place, VBSTORE_RING_SIZE; destruct (Z.leb_spec 1024 (req_pvt q + Z.of_nat 56)); lia).
  set (b1 := wr (req q) (Z.to_nat p1) hdr) in *. assert (Lb1 : length b1 = length (req q)) by (apply wr_length; lia).
  set (q1 := set_req b1 (p1 + Z.of_nat 56) q) in *.
  pose proof (vbs_write_run payload q1 ltac:(split; cbn; unfold VBSTORE_RING_SIZE; lia) ltac:(cbn; unfold VBSTORE_RING_SIZE; lia) ltac:(unfold VBSTORE_RING_SIZE; lia)) as E2.
  cbn [q1 req_pvt set_req req] in E2. set (p2 := place (p1 + Z.of_nat 56) (length payload)) in *.
  assert (Hp2 : (p2 = p1 + 56 /\ p1 + 56 + Z.of_nat (length payload) < 1024) \/ (p2 = 0 /\ 1024 <= p1 + 56 + Z.of_nat (length payload))).
  { unfold p2, place, VBSTORE_RING_SIZE. destruct (Z.leb_spec 1024 (p1 + Z.of_nat 56 + Z.of_nat (length payload))); lia. }
  exists (wr b1 (Z.to_nat p2) payload), (p2 + Z.of_nat (length payload)). split_and!; [| |lia|lia|lia|rewrite wr_length; lia].
  - rewrite (kbind_ret _ _ _ _ _ E1). cbn beta. rewrite E2. done.
  - cbn [ring_reads]. rewrite Hc. rewrite ring_read_run by (unfold VBSTORE_RING_SIZE; rewrite ?wr_length; lia). fold p1. bret. cbn [fst snd].
    rewrite ring_read_run by (unfold VBSTORE_RING_SIZE; rewrite ?wr_length; lia). fold p2. bret. cbn [fst snd]. rewrite rd_wr_same by lia.
    rewrite rd_wr_other by lia. unfold b1. rewrite <- Hh at 1. by rewrite rd_wr_same by lia.
Qed.

(** ** The interrupt handler *)
Abbreviation message := (vbus_msg * list Z)%type.
Definition as_payload (l : list Z) : option (list Z) := match l with [] => None | _ => Some l end.
Definition chunks (x : message) : list (list Z) := msg_bytes x.1 :: match x.2 with [] => [] | _ => [x.2] end.

(** The messages between a position and the end of what the store has written. *)
Inductive in_ring (buf : list Z) (prod : Z) : Z -> list message -> Prop :=
  | ir_nil : in_ring buf prod prod []
  | ir_cons p x p' ms : p <> prod -> msg_ok x.1 -> mlen x.1 = Z.of_nat (length x.2) ->
      ring_reads buf p (length <$> chunks x) = Ret (chunks x, p') -> in_ring buf prod p' ms -> in_ring buf prod p (x :: ms).

Definition deliver (x : message) : kern vbus unit :=
  if mtype x.1 =? VBS_WATCH_EVENT then watch_event (as_payload x.2) else reply_event x.1 (as_payload x.2).
Fixpoint delivers (ms : list message) : kern vbus unit := match ms with [] => mret tt | x :: ms => deliver x;; delivers ms end.

Lemma deliver_page f x s s' : deliver x s = Ret (tt, s') -> deliver x (with_page f s) = Ret (tt, with_page f s') /\ page s' = page s.
Proof.
  unfold deliver. destruct (_ =? _).
  - unfold watch_event, mbind, kern_bind, gets, lift, modify, mret, kern_ret. cbn [watches with_page]. destruct (decide (watches s = [])); [by intros [= <-]|].
    destruct (deref _) as [p|]; [|done]. destruct (deref _) as [node|]; [|done]. destruct (existsb _ _); cbn [when]; by intros [= <-].
  - unfold reply_event, mbind, kern_bind, gets, modify, raise. cbn [standby with_page]. destruct (take_standby _ _) as [[o r]|]; [|done]. by intros [= <-].
Qed.

Lemma read_chunk n d p s : ring_read (rsp (page s)) (rsp_cons (page s)) n = Ret (d, p) -> on_page (vbs_read n) s = Ret (d, with_page (set_rsp_cons p) s).
Proof. intros H. unfold on_page, vbs_read. kstep. unfold lift, id. rewrite H. done. Qed.

Lemma isr_step f x p' s : rsp_cons (page s) <> rsp_prod (page s) -> msg_ok x.1 -> mlen x.1 = Z.of_nat (length x.2) ->
  ring_reads (rsp (page s)) (rsp_cons (page s)) (length <$> chunks x) = Ret (chunks x, p') ->
  vbus_vbstore_isr (S f) s = (deliver x;; vbus_vbstore_isr f) (with_page (set_rsp_cons p') s).
Proof.
  intros Hne Hok Hl Hr. destruct x as [m pl]. cbn [fst snd] in *. cbn [vbus_vbstore_isr]. kstep. destruct (Z.eqb_spec (rsp_cons (page s)) (rsp_prod (page s))); [done|].
  unfold chunks in Hr. cbn [fst snd fmap list_fmap ring_reads] in Hr. rewrite (msg_bytes_length m Hok) in Hr.
  apply bind_Ret_inv in Hr as ([d1 p1] & E1 & Hr). apply bind_Ret_inv in Hr as ([ds p2] & E2 & Hr). injection Hr as -> -> ->. cbn [fst snd] in E2.
  rewrite (kbind_ret _ _ _ _ _ (read_chunk msg_size _ _ s E1)). cbn beta zeta. rewrite (msg_roundtrip m Hok). unfold deliver. cbn [fst snd].
  destruct pl as [|b pl]; cbn [fmap list_fmap ring_reads] in E2.
  - injection E2 as ->. rewrite Hl. cbn [length Z.of_nat Z.ltb Z.compare]. kstep. done.
  - apply bind_Ret_inv in E2 as ([d3 p3] & E3 & E2). bret. injection E2 as -> ->. cbn [fst snd] in *. destruct (Z.ltb_spec 0 (mlen m)); [|cbn [length] in Hl; lia].
    rewrite Hl, Nat2Z.id. erewrite kbind_ret; [|erewrite kbind_ret; [reflexivity|]; apply read_chunk; exact E3]. cbn beta. cbn [as_payload]. done.
Qed.

Lemma isr_run ms s s' : in_ring (rsp (page s)) (rsp_prod (page s)) (rsp_cons (page s)) ms -> delivers ms s = Ret (tt, s') ->
  forall f, (length ms < f)%nat -> vbus_vbstore_isr f s = Ret (tt, with_page (set_rsp_cons (rsp_prod (page s))) s').
Proof.
  revert s s'. induction ms as [|x ms IH]; intros s s' Hin Hd [|f] Hf; [lia| |lia|].
  - inversion Hin as [Hp|]; subst. injection Hd as <-. cbn [vbus_vbstore_isr]. kstep. rewrite Hp, Z.eqb_refl. unfold mret, kern_ret. do 2 f_equal. destruct s as [q ???????????]. destruct q. cbn in *. by subst.
  - inversion Hin as [|p x' p' ms' Hne Hok Hl Hr Hin']; subst. apply kbind_inv in Hd as ([] & s1 & E1 & Hd). destruct (deliver_page (set_rsp_cons p') x s s1 E1) as [E2 Ep].
    rewrite (isr_step f x p' s Hne Hok Hl Hr). rewrite (kbind_ret _ _ _ _ _ E2). cbn beta.
    assert (Hp : forall g ms s s', delivers ms s = Ret (tt, s') -> delivers ms (with_page g s) = Ret (tt, with_page g s')).
    { clear. intros g ms. induction ms as [|x ms IH]; intros s s' H; [by injection H as <-|]. apply kbind_inv in H as ([] & s1 & E1 & H). cbn [delivers].
      destruct (deliver_page g x s s1 E1) as [E2 _]. rewrite (kbind_ret _ _ _ _ _ E2). by apply IH. }
    rewrite (IH (with_page (set_rsp_cons p') s1) (with_page (set_rsp_cons p') s')); [|cbn; rewrite Ep; done|by apply Hp|cbn in Hf; lia].
    cbn [page with_page rsp_prod set_rsp_cons]. rewrite Ep. done.
Qed.

(** ** The store *)
(** What the guest relies on: the store takes the request off the ring, and answers it;
    the watch events it sends meanwhile come before the reply. *)
Definition event (x : message) : Prop := mtype x.1 = VBS_WATCH_EVENT /\ exists node, cstr x.2 = Some node.
Class VbStore (store : kern intf unit) (answer : vbus_msg -> list Z -> list Z) : Prop := {
  store_answers : forall q m payload, ring_ok q -> rsp_cons q = rsp_prod q -> msg_ok m -> mtype m <> VBS_WATCH_EVENT -> mlen m = Z.of_nat (length payload) ->
    req_cons q <> req_prod q -> ring_reads (req q) (req_cons q) [msg_size; length payload] = Ret ([msg_bytes m; payload], req_prod q) ->
    exists q' ev m', store q = Ret (tt, q') /\ ring_ok q' /\ req_pvt q' = req_pvt q /\ req_prod q' = req_prod q /\ req_cons q' = req_prod q /\ Forall event ev /\
      in_ring (rsp q') (rsp_prod q') (rsp_cons q') (ev ++ [(m', answer m payload)]) /\ mtype m' = mtype m /\ mid m' = mid m
}.

(** Between requests: both rings are empty and nothing waits. *)
Record quiet (s : vbus) : Prop := {
  qu_ring : ring_ok (page s);
  qu_req : req_cons (page s) = req_pvt (page s);
  qu_rsp : rsp_cons (page s) = rsp_prod (page s);
  qu_mutex : request_mutex s = false;
  qu_standby : standby s = [];
  qu_id : in_word 32 (vbus_msg_ID s)
}.

(** What the reply to the message [m] finds and leaves. *)
Lemma as_payload_some p node : cstr p = Some node -> as_payload p = Some p.
Proof. by destruct p. Qed.
Lemma deliver_event x s : event x -> exists l n, deliver x s = Ret (tt, set_wait n (with_watches (fun _ => l) s)) /\ wnode <$> l = wnode <$> watches s.
Proof.
  intros [Ht [node Hn]]. unfold deliver. rewrite Ht. cbn [Z.eqb VBS_WATCH_EVENT Pos.eqb]. rewrite (as_payload_some _ _ Hn).
  unfold watch_event, mbind, kern_bind, gets, modify, mret, kern_ret. cbn [deref lift]. rewrite Hn. cbn [deref lift].
  destruct (decide (watches s = [])) as [E|E]; [exists (watches s), (watch_wait s); by destruct s|]. unfold lift.
  assert (Hw : forall P : vbus_watch -> bool, wnode <$> ((fun w => if P w then set_wpending true w else w) <$> watches s) = wnode <$> watches s).
  { intros P. rewrite <- list_fmap_compose. apply list_fmap_ext. intros i w _. unfold compose. by destruct (P w). }
  destruct (existsb _ _); cbn [when]; [eexists _, _|eexists _, (watch_wait s)]; (split; [reflexivity|apply Hw]).
Qed.
Lemma delivers_events ev s : Forall event ev -> exists l n, delivers ev s = Ret (tt, set_wait n (with_watches (fun _ => l) s)) /\ wnode <$> l = wnode <$> watches s.
Proof.
  revert s. induction ev as [|x ev IH]; intros s He; [exists (watches s), (watch_wait s); by destruct s|]. apply Forall_cons in He as [Hx He].
  destruct (deliver_event x s Hx) as (l & n & E & El). destruct (IH (set_wait n (with_watches (fun _ => l) s)) He) as (l' & n' & E' & El').
  exists l', n'. cbn [delivers]. rewrite (kbind_ret _ _ _ _ _ E). split; [exact E'|]. rewrite El'. exact El.
Qed.
Lemma delivers_app a b s s' : delivers a s = Ret (tt, s') -> delivers (a ++ b) s = delivers b s'.
Proof.
  revert s. induction a as [|x a IH]; intros s H; [by injection H as <-|]. apply kbind_inv in H as ([] & s1 & E & H). cbn [app delivers].
  rewrite (kbind_ret _ _ _ _ _ E). by apply IH.
Qed.

Section store.
Context {store : kern intf unit} {answer : vbus_msg -> list Z -> list Z} `{!VbStore store answer}.
(** While a request waits: the store, then the interrupt that it raises. *)
Definition serve (fuel : nat) : kern vbus unit := on_page store;; vbus_vbstore_isr fuel.

(** The wait ends with the answer as the reply of the message. *)
Lemma serve_run m payload s : ring_ok (page s) -> rsp_cons (page s) = rsp_prod (page s) -> msg_ok m -> mtype m <> VBS_WATCH_EVENT -> mlen m = Z.of_nat (length payload) ->
  req_cons (page s) <> req_prod (page s) -> ring_reads (req (page s)) (req_cons (page s)) [msg_size; length payload] = Ret ([msg_bytes m; payload], req_prod (page s)) -> standby s = [m] ->
  exists n q m' l w, (forall fuel, (n <= fuel)%nat -> serve fuel s =
      Ret (tt, with_replied <[mid m := (m', as_payload (answer m payload))]> (with_standby (fun _ => []) (set_wait w (with_watches (fun _ => l) (with_page (fun _ => q) s)))))) /\
    ring_ok q /\ req_pvt q = req_pvt (page s) /\ req_prod q = req_prod (page s) /\ req_cons q = req_prod (page s) /\ rsp_cons q = rsp_prod q /\
    mtype m' = mtype m /\ mid m' = mid m /\ mlen m' = Z.of_nat (length (answer m payload)) /\ wnode <$> l = wnode <$> watches s.
Proof.
  intros Hr Hrsp Hm Ht Hl Hne Hrd Hst. destruct (store_answers (page s) m payload Hr Hrsp Hm Ht Hl Hne Hrd) as (q1 & ev & m' & E1 & Hr1 & F1 & F2 & F3 & Hev & Hin & Hty & Hid).
  set (s1 := with_page (fun _ => q1) s). destruct (delivers_events ev s1 Hev) as (l & w & Ed & El).
  set (s2 := set_wait w (with_watches (fun _ => l) s1)) in *. set (s3 := with_replied <[mid m := (m', as_payload (answer m payload))]> (with_standby (fun _ => []) s2)).
  assert (Ed3 : delivers (ev ++ [(m', answer m payload)]) s1 = Ret (tt, s3)).
  { rewrite (delivers_app _ _ _ _ Ed). cbn [delivers]. rewrite (kbind_ret _ _ s2 tt s3); [done|]. unfold deliver. cbn [fst snd]. rewrite Hty.
    destruct (Z.eqb_spec (mtype m) VBS_WATCH_EVENT); [done|]. unfold reply_event. kstep. cbn [standby s2 s1 set_wait with_watches with_page]. rewrite Hst. cbn [take_standby]. rewrite Hid, Z.eqb_refl.
    unfold s3. reflexivity. }
  assert (Hml : mlen m' = Z.of_nat (length (answer m payload))).
  { clear -Hin. revert Hin. generalize (rsp_cons q1). induction ev as [|x ev IH]; intros p Hin; inversion Hin; subst; [done|]. by eapply IH. }
  exists (S (length (ev ++ [(m', answer m payload)]))), (set_rsp_cons (rsp_prod q1) q1), m', l, w. split_and!; try done; [|destruct Hr1 as [R1 R2 [R3 R4]]; by split].
  intros fuel Hf. unfold serve. rewrite (kbind_ret _ _ s tt s1) by (unfold on_page; by rewrite E1). by rewrite (isr_run _ s1 s3 Hin Ed3 fuel) by lia.
Qed.

Variable ptrs : list Z * list Z.
Hypothesis ptrs_ok : length ptrs.1 = 24%nat /\ length ptrs.2 = 16%nat.
(** The message of a request. *)
Definition request (s : vbus) (t type : Z) (payload : list Z) : vbus_msg := VbusMsg ptrs.1 type (Z.of_nat (length payload)) (vbus_msg_ID s) t ptrs.2.

(** C26: a request to the store returns its answer.  From a state in which both rings are
    empty, [vbs_talkv] with at most [max_payload] bytes writes its message, wherever the
    ring stands, so that the store reads exactly the message and its payload; whatever
    watch events the store sends in between, the reply is matched with the request and
    its payload returned, the rings are empty again, and the next message has the next
    ID.  The interrupt handler's loop ends. *)
Theorem vbs_talkv_answered t type vec s : quiet s -> in_word 32 t -> in_word 32 type -> type <> VBS_WATCH_EVENT -> (length (concat vec) <= max_payload)%nat ->
  exists n s', let a := answer (request s t type (concat vec)) (concat vec) in
    (forall fuel, (n <= fuel)%nat -> vbs_talkv (serve fuel) ptrs t type vec s = Ret ((as_payload a, Z.of_nat (length a)), s')) /\
    quiet s' /\ vbus_msg_ID s' = u32 (vbus_msg_ID s + 1) /\ transaction_count s' = transaction_count s /\ transactionID s' = transactionID s /\
    transaction_mutex s' = transaction_mutex s /\ transaction_group_mutex s' = transaction_group_mutex s /\ wnode <$> watches s' = wnode <$> watches s.
Proof.
  intros [Q1 Q2 Q3 Q4 Q5 Q6] Ht Hty Hne Hlen. set (payload := concat vec) in *. set (m := request s t type payload). destruct ptrs_ok as [P1 P2].
  assert (Hw : in_word 32 (Z.of_nat (length payload))) by (unfold max_payload in Hlen; split; [lia|]; change (2 ^ 32) with 4294967296; lia).
  assert (Hm : msg_ok m) by (by split).
  destruct (message_roundtrip (page s) (msg_bytes m) payload Q1 Q2 (msg_bytes_length m Hm) Hlen) as (b & pvt & E & Hrd & Hpc & Hpr & Hbl).
  apply kbind_inv in E as ([] & q1 & E1 & E2). set (s4 := with_page publish (with_standby (fun l => l ++ [m]) (with_page (fun _ => set_req b pvt (page s)) (set_msg_ID (u32 (vbus_msg_ID s + 1)) (set_request true s))))).
  assert (R4 : ring_ok (page s4)) by (destruct Q1 as [[L1 L2] R Rr]; by split).
  destruct (serve_run m payload s4) as (n & q & m' & l & w & Es & Hq & F1 & F2 & F3 & F4 & G1 & G2 & G3 & G4); [done|done|done|done|done|cbn; congruence|done|cbn; by rewrite Q5|].
  set (a := answer m payload) in *. exists n, (set_request false (with_replied (delete (mid m)) (with_replied <[mid m := (m', as_payload a)]> (with_standby (fun _ => []) (set_wait w (with_watches (fun _ => l) (with_page (fun _ => q) s4))))))).
  cbv zeta. fold m a. split_and!; try done.
  - intros fuel Hf. unfold vbs_talkv. rewrite (kbind_ret _ _ s tt (set_request true s)) by (unfold lock; kstep; by rewrite Q4). cbn beta. kstep. kstep. cbv zeta. fold payload.
    rewrite (wrap_small 32 (Z.of_nat (length payload)) Hw : u32 _ = _). change (VbusMsg _ _ _ _ _ _) with m.
    erewrite kbind_ret; [|unfold on_page; cbn [page set_msg_ID set_request]; rewrite E1; reflexivity]. cbn beta.
    erewrite kbind_ret; [|unfold on_page; cbn [page with_page set_msg_ID set_request]; rewrite E2; reflexivity]. cbn beta. kstep. kstep.
    rewrite (kbind_ret _ _ _ _ _ (Es fuel Hf)). cbn beta. kstep. cbn [replied with_replied]. change (vbus_msg_ID (set_request true s)) with (mid m). rewrite lookup_insert_eq. cbn beta iota.
    rewrite G1, G2. change (mtype m) with type. rewrite !Z.eqb_refl. kstep. kstep. unfold unlock. kstep. rewrite G3. reflexivity.
  - split; cbn; [done|by rewrite F3, F1|done|done|done|]. by apply wrap_range.
Qed.
End store.

(** ** The limits of a message *)
(** one more byte than [max_payload], and a message can fill the ring so that the position
    after it is the position before it: the request is written, and the ring is empty for
    the one who should read it. *)
Theorem vbus_full_ring_is_empty q hdr payload : ring_ok q -> length hdr = msg_size -> length payload = S max_payload -> req_cons q = req_pvt q -> req_pvt q = 484 ->
  exists q', (vbs_write hdr;; vbs_write payload) q = Ret (tt, q') /\ req_pvt q' = req_cons q'.
Proof.
  intros [[L1 L2] R Rr] Hh Hp Hc Hpos. unfold msg_size, max_payload, VBSTORE_RING_SIZE in *.
  pose proof (vbs_write_run hdr q ltac:(by split) ltac:(unfold VBSTORE_RING_SIZE; lia) ltac:(unfold VBSTORE_RING_SIZE; lia)) as E1. rewrite Hh, Hpos in E1. cbn [place Z.add Z.leb Z.compare Z.of_nat] in E1.
  change (place 484 56) with 484 in E1. set (q1 := set_req _ _ q) in E1.
  assert (Lb : length (req q1) = length (req q)) by (apply wr_length; lia).
  pose proof (vbs_write_run payload q1 ltac:(split; cbn [q1 req rsp req_pvt rsp_cons rsp_prod set_req] in *; unfold VBSTORE_RING_SIZE; lia) ltac:(cbn [q1 req_cons req_pvt set_req]; unfold VBSTORE_RING_SIZE; lia) ltac:(unfold VBSTORE_RING_SIZE; lia)) as E2.
  rewrite Hp in E2. eexists. split; [rewrite (kbind_ret _ _ _ _ _ E1); cbn beta; exact E2|]. cbn [req_pvt req_cons set_req q1]. change (place (484 + Z.of_nat 56) 484) with 0. lia.
Qed.

(** ** Suspending *)
(** suspending a guest while a transaction is open never ends: [vbs_suspend] keeps the
    request mutex while it waits for the transaction, and with that mutex taken no
    request is sent, the end of the transaction included. *)
Theorem suspend_deadlocks s : watch_mutex s = false -> request_mutex s = false -> transaction_mutex s = false -> transaction_group_mutex s = true ->
  exists s1, (lock watch_mutex set_watch;; lock request_mutex set_request;; lock transaction_mutex set_transaction) s = Ret (tt, s1) /\
    lock transaction_group_mutex set_group s1 = Fault Hang /\ vbs_suspend s = Fault Hang /\
    forall wait ptrs, vbus_transaction_start s1 = Fault Hang /\ (forall t type vec, vbs_talkv wait ptrs t type vec s1 = Fault Hang) /\ (forall t, vbus_transaction_end wait ptrs t s1 = Fault Hang).
Proof. intros H1 H2 H3 H4. destruct s. cbn in *. subst. eexists. split_and!; [reflexivity|reflexivity|reflexivity|done]. Qed.

(** ** Watches *)
(** a node has at most one watch, whatever the callbacks: a second registration stops
    the kernel. *)
Lemma register_twice wait ptrs w s : wnode w ∈ wnode <$> watches s -> register_vbus_watch wait ptrs w s = Fault Panic.
Proof.
  intros Hw. unfold register_vbus_watch. kstep. destruct (bool_decide (is_Some (get_watch _ _))); [done|]. kstep.
  rewrite bool_decide_eq_false_2; [done|]. unfold find_first_watch. intros Hf. apply list_elem_of_fmap in Hw as (x & E & Hx).
  apply list_elem_of_In, (List.find_none _ _ Hf x) in Hx. by rewrite bool_decide_eq_false, E in Hx.
Qed.

(** ** From an event to the callback *)
Definition pending_nodes (l : list vbus_watch) : list (list Z) := wnode <$> filter (fun w => wpending w = true) l.

Lemma take_pending_None l : take_pending l = None -> pending_nodes l = [].
Proof.
  unfold pending_nodes. induction l as [|x l IH]; [done|]. cbn [take_pending]. destruct (wpending x) eqn:Ex; [done|]. destruct (take_pending l) as [[y r]|]; [done|].
  intros _. rewrite filter_cons_False by (by rewrite Ex). by apply IH.
Qed.
Lemma take_pending_Some l x l' : take_pending l = Some (x, l') -> wnode <$> l' = wnode <$> l /\ pending_nodes l ≡ₚ wnode x :: pending_nodes l'.
Proof.
  revert l'. induction l as [|y l IH]; intros l'; [done|]. cbn [take_pending]. unfold pending_nodes in *. destruct (wpending y) eqn:Ey.
  - intros [= <- <-]. cbn [fmap list_fmap wnode set_wpending]. rewrite filter_cons_True by done. rewrite filter_cons_False by done. done.
  - destruct (take_pending l) as [[z r]|]; [|done]. intros [= <- <-]. destruct (IH r eq_refl) as [E P]. rewrite !filter_cons_False by (by rewrite Ey). cbn [fmap list_fmap]. by rewrite E.
Qed.

Section callbacks.
(** The function behind a callback, with the interrupts that come in while it runs; it
    runs under [watch_mutex]. *)
Variable code : Z -> vbus_watch -> kern vbus unit.

(** The callbacks that the thread runs, in order, each with the state it leaves. *)
Inductive runs : vbus -> list (vbus_watch * vbus) -> vbus -> Prop :=
  | runs_nil s : runs s [] s
  | runs_cons s x l s1 xs s2 : take_pending (watches s) = Some (x, l) -> code (wcallback x) x (with_watches (fun _ => l) s) = Ret (tt, s1) -> runs s1 xs s2 -> runs s ((x, s1) :: xs) s2.

(** A watch for the node has been called, or a callback has unregistered it. *)
Definition served (node : list Z) (xs : list (vbus_watch * vbus)) : Prop :=
  node ∈ wnode ∘ fst <$> xs \/ exists x s, (x, s) ∈ xs /\ node ∉ wnode <$> watches s.

(** What the thread relies on: a callback returns and gives the mutex back as it was.
    It may register and unregister watches, and interrupts may mark watches while it
    runs, but not for ever ([wc_work] is a bound on what is to come); a pending watch
    stays pending unless it is unregistered. *)
Class WatchCallbacks := {
  wc_work : vbus -> nat;
  wc_take : forall s x l, take_pending (watches s) = Some (x, l) -> wc_work (with_watches (fun _ => l) s) = wc_work s;
  wc_run : forall p x s, watch_mutex s = true -> exists s', code p x s = Ret (tt, s') /\ watch_mutex s' = true /\
    (length (pending_nodes (watches s')) + wc_work s' <= length (pending_nodes (watches s)) + wc_work s)%nat /\
    forall n, n ∈ pending_nodes (watches s) -> n ∈ pending_nodes (watches s') \/ n ∉ wnode <$> watches s'
}.
Context {WC : WatchCallbacks}.

Lemma watch_loop_run fuel s : watch_mutex s = true -> (length (pending_nodes (watches s)) + wc_work s < fuel)%nat ->
  exists xs s', watch_loop code fuel s = Ret (tt, s') /\ runs s xs s' /\ (forall n, n ∈ pending_nodes (watches s) -> served n xs) /\ pending_nodes (watches s') = [] /\ watch_mutex s' = true.
Proof.
  revert s. induction fuel as [|f IH]; intros s Hm Hf; [lia|]. cbn [watch_loop]. kstep. destruct (take_pending (watches s)) as [[x l]|] eqn:Et.
  - destruct (take_pending_Some _ _ _ Et) as [_ Hp]. kstep. destruct (wc_run (wcallback x) x (with_watches (fun _ => l) s) Hm) as (s1 & E1 & M1 & L1 & P1). cbn [watches with_watches] in L1, P1.
    rewrite (wc_take _ _ _ Et) in L1. rewrite (kbind_ret _ _ _ _ _ E1). cbn beta. rewrite Hp in Hf. cbn [length] in Hf.
    destruct (IH s1 M1 ltac:(lia)) as (xs & s2 & E2 & R2 & W2 & N2 & M2). exists ((x, s1) :: xs), s2. split_and!; [done|by eapply runs_cons| |done|done].
    intros n. rewrite Hp, elem_of_cons. intros [->|Hn]; [left; left|]. destruct (P1 n Hn) as [Hn1|Hn1].
    + destruct (W2 n Hn1) as [Hc|(y & sy & Hy & Hg)]; [left; by right|right; exists y, sy; split; [by right|done]].
    + right. exists x, s1. split; [left|done].
  - exists [], s. split_and!; [done|apply runs_nil| |by apply take_pending_None|done]. rewrite (take_pending_None _ Et). intros n Hn. by apply not_elem_of_nil in Hn.
Qed.

(** More fuel changes nothing. *)
Lemma watch_loop_more f f' s r : watch_loop code f s = Ret r -> (f <= f')%nat -> watch_loop code f' s = Ret r.
Proof.
  revert f' s. induction f as [|f IH]; intros f' s H Hle; [done|]. destruct f' as [|f']; [lia|]. cbn [watch_loop] in *. destruct r as [[] s2].
  apply kbind_inv in H as (l & s1 & E1 & H). rewrite (kbind_ret _ _ _ _ _ E1). cbn beta. destruct (take_pending l) as [[x l']|]; [|done].
  apply kbind_inv in H as ([] & s3 & E3 & H). rewrite (kbind_ret _ _ _ _ _ E3). cbn beta. apply kbind_inv in H as ([] & s4 & E4 & H). rewrite (kbind_ret _ _ _ _ _ E4). cbn beta.
  apply IH; [done|lia].
Qed.

(** The handler of the interrupt marks the watches of the node. *)
Lemma existsb_node node l : node ∈ wnode <$> l -> existsb (fun w => bool_decide (wnode w = node)) l = true.
Proof. intros (w & -> & Hw)%list_elem_of_fmap. apply existsb_exists. exists w. split; [by apply list_elem_of_In|by apply bool_decide_eq_true]. Qed.
Lemma deliver_marks x node s : mtype x.1 = VBS_WATCH_EVENT -> cstr x.2 = Some node -> node ∈ wnode <$> watches s ->
  exists s', deliver x s = Ret (tt, s') /\ node ∈ pending_nodes (watches s') /\ watch_wait s' = watch_wait s + 1 /\ watch_mutex s' = watch_mutex s /\ wnode <$> watches s' = wnode <$> watches s.
Proof.
  intros Ht Hn Hw. unfold deliver. rewrite Ht. cbn [Z.eqb VBS_WATCH_EVENT Pos.eqb]. rewrite (as_payload_some _ _ Hn). unfold watch_event. kstep.
  rewrite decide_False by (intros E; rewrite E in Hw; by apply not_elem_of_nil in Hw). kstep. rewrite Hn. kstep. kstep. rewrite existsb_node by done. cbn [when]. eexists. split; [reflexivity|]. cbn [watches with_watches set_wait watch_wait watch_mutex].
  split_and!; [|done|done|].
  - unfold pending_nodes. apply list_elem_of_fmap in Hw as (w & -> & Hw). apply list_elem_of_fmap. exists (set_wpending true w). split; [done|]. apply list_elem_of_filter. split; [done|].
    apply list_elem_of_fmap. exists w. split; [by rewrite bool_decide_eq_true_2|done].
  - rewrite <- list_fmap_compose. apply list_fmap_ext. intros i w _. unfold compose. by destruct (bool_decide _).
Qed.

(** C27: an event of the store reaches the callback of the watch: once the store has put
    an event for a watched node on the ring, the interrupt handler returns with the ring
    empty, and the watch thread that it wakes goes through the pending watches until
    none is left: for every node with a pending watch, that of the event among them, it
    runs the callback of a watch, unless an earlier callback has unregistered the node,
    and it gives the mutex back.  The callbacks return; they may register and
    unregister watches, and interrupts may mark further watches meanwhile, a bounded
    number of times. *)
Theorem watch_event_served m payload node s fuel : in_ring (rsp (page s)) (rsp_prod (page s)) (rsp_cons (page s)) [(m, payload)] ->
  mtype m = VBS_WATCH_EVENT -> cstr payload = Some node -> node ∈ wnode <$> watches s -> 0 <= watch_wait s -> watch_mutex s = false -> (1 < fuel)%nat ->
  exists s1 xs s' n, vbus_vbstore_isr fuel s = Ret (tt, s1) /\ rsp_cons (page s1) = rsp_prod (page s1) /\
    (forall fuel', (n <= fuel')%nat -> vbus_watch_thread code fuel' s1 = Ret (tt, s')) /\
    runs (set_watch true (set_wait (watch_wait s) s1)) xs (set_watch true s') /\
    node ∈ pending_nodes (watches s1) /\ (forall nd, nd ∈ pending_nodes (watches s1) -> served nd xs) /\
    pending_nodes (watches s') = [] /\ watch_mutex s' = false.
Proof.
  intros Hin Ht Hn Hw H0 Hm Hf. destruct (deliver_marks (m, payload) node s Ht Hn Hw) as (s0 & E0 & Hp & Ew & Em & En).
  assert (Ed : delivers [(m, payload)] s = Ret (tt, s0)) by (cbn [delivers]; by rewrite (kbind_ret _ _ _ _ _ E0)).
  pose proof (isr_run _ _ _ Hin Ed fuel Hf) as Ei. set (s1 := with_page _ s0) in Ei. set (s2 := set_watch true (set_wait (watch_wait s) s1)).
  set (n := S (length (pending_nodes (watches s2)) + wc_work s2)).
  destruct (watch_loop_run n s2 eq_refl ltac:(lia)) as (xs & s3 & E3 & R3 & W3 & N3 & M3). exists s1, xs, (set_watch false s3), n.
  destruct (deliver_page id _ _ _ E0) as [_ Epg].
  assert (Eback : set_watch true (set_watch false s3) = s3) by (destruct s3; cbn in M3; by subst).
  split_and!; [done|cbn; by rewrite Epg| |by rewrite Eback|done|done|done|done].
  intros fuel' Hf'. unfold vbus_watch_thread. kstep. change (watch_wait s1) with (watch_wait s0). rewrite Ew. destruct (Z.eqb_spec (watch_wait s + 1) 0); [lia|]. kstep.
  replace (watch_wait s + 1 - 1) with (watch_wait s) by lia. rewrite (kbind_ret _ _ _ tt s2) by (unfold lock; kstep; change (watch_mutex _) with (watch_mutex s0); by rewrite Em, Hm). cbn beta.
  rewrite (kbind_ret _ _ _ _ _ (watch_loop_more _ _ _ _ E3 Hf')). cbn beta. unfold unlock. kstep. rewrite M3. kstep. done.
Qed.
End callbacks.

(** ** A store that answers "ok" *)
Definition ok_reply : list Z := [111; 107; 0].
Definition swap (q : intf) : intf := Intf (rsp q) (req q) (rsp_cons q) (rsp_prod q) (rsp_prod q) 0 0 0.
Definition ok_store : kern intf unit := fun q =>
  r ← ring_read (req q) (req_cons q) msg_size;
  let m := msg_of_bytes r.1 in
  d ← ring_read (req q) r.2 (Z.to_nat (mlen m));
  w ← (vbs_write (msg_bytes (VbusMsg (links m) (mtype m) (Z.of_nat (length ok_reply)) (mid m) (mtransactionID m) (refs m)));; vbs_write ok_reply) (swap q);
  Ret (tt, Intf (req q) (req w.2) d.2 (req_prod q) (req_pvt q) (rsp_cons q) (req_pvt w.2) (req_pvt w.2)).
#[export] Instance ok_store_answers : VbStore ok_store (fun _ _ => ok_reply).
Proof.
  split. intros q m payload [[L1 L2] R [Rc Rp]] Hrsp Hm Hty Hl Hne Hrd. cbn [ring_reads] in Hrd. apply bind_Ret_inv in Hrd as ([d1 p1] & E1 & Hrd). apply bind_Ret_inv in Hrd as ([ds p2] & E2 & Hrd).
  injection Hrd as -> -> ->. apply bind_Ret_inv in E2 as ([d2 p3] & E3 & E2). bret. injection E2 as -> ->. cbn [fst snd] in *.
  set (m' := VbusMsg (links m) (mtype m) (Z.of_nat (length ok_reply)) (mid m) (mtransactionID m) (refs m)).
  assert (Hm' : msg_ok m') by (destruct Hm as [H1 H2 (W1 & W2 & W3 & W4)]; split; [done|done|split_and!; try done]).
  destruct (message_roundtrip (swap q) (msg_bytes m') ok_reply) as (b & pvt & E & Hrd & Hpc & Hpr & Hbl); [by split|done|by apply msg_bytes_length|unfold max_payload; cbn; lia|].
  exists (Intf (req q) b (req_prod q) (req_prod q) (req_pvt q) (rsp_cons q) pvt pvt), [], m'. split_and!; try done.
  - unfold ok_store. rewrite E1. bret. cbn [fst snd]. rewrite (msg_roundtrip m Hm), Hl, Nat2Z.id, E3. bret. fold m'. rewrite E. bret. reflexivity.
  - apply (ir_cons _ _ _ _ pvt); [cbn in *; congruence|done|done| |apply ir_nil]. unfold chunks. cbn [fst snd fmap list_fmap]. rewrite (msg_bytes_length m' Hm'). exact Hrd.
Qed.

Definition page0 : intf := Intf (replicate 1024 0) (replicate 1024 0) 0 0 0 0 0 0.
Definition vbus0 : vbus := Vbus page0 false false false false 0 0 0 [] ∅ [VbusWatch [97] 1 false] 0.
Definition ptrs0 : list Z * list Z := (replicate 24 0, replicate 16 0).
Lemma vbus0_quiet : quiet vbus0.
Proof. split; [split|..]; done. Qed.

Lemma vbs_talkv_answered_witness : exists n s', (forall fuel, (n <= fuel)%nat -> vbs_talkv (serve (store := ok_store) fuel) ptrs0 0 VBS_READ [[97; 0]] vbus0 = Ret ((Some ok_reply, 3), s')) /\ quiet s'.
Proof.
  destruct (vbs_talkv_answered (store := ok_store) ptrs0 ltac:(done) 0 VBS_READ [[97; 0]] vbus0 vbus0_quiet ltac:(done) ltac:(done) ltac:(done) ltac:(unfold max_payload; cbn; lia)) as (n & s' & H & Hq & _).
  exists n, s'. split; [exact H|exact Hq].
Defined.
(** The store has sent an event for the node "a". *)
Definition event_msg : vbus_msg := VbusMsg (replicate 24 0) VBS_WATCH_EVENT 2 0 0 (replicate 16 0).
Definition vbus_event : vbus :=
  with_page (fun _ => Intf (replicate 1024 0) (msg_bytes event_msg ++ [97; 0] ++ replicate 966 0) 0 0 0 0 58 58) vbus0.
(** A callback that notes its number, and while it runs, as long as [transaction_count] is
    positive, an event for the first watch. *)
Definition mark_first (l : list vbus_watch) : list vbus_watch := match l with [] => [] | w :: r => set_wpending true w :: r end.
Definition note (p : Z) (w : vbus_watch) : kern vbus unit :=
  modify (set_tid p);;
  c ← gets transaction_count;
  when (0 <? c) (modify (set_count (c - 1));; modify (with_watches mark_first)).
#[export] Instance note_callbacks : WatchCallbacks note.
Proof.
  apply (Build_WatchCallbacks note (fun s => Z.to_nat (transaction_count s))); [done|]. intros p x s Hm. unfold note. kstep. kstep.
  change (transaction_count (set_tid p s)) with (transaction_count s). destruct (Z.ltb_spec 0 (transaction_count s)) as [E|E]; cbn [when].
  - eexists. split; [reflexivity|]. split; [done|]. cbn. unfold pending_nodes. rewrite !length_fmap.
    destruct (watches s) as [|w r]; cbn [mark_first]; [split; [cbn; lia|auto]|].
    rewrite (filter_cons_True _ (set_wpending true w)) by done. destruct (wpending w) eqn:Ew.
    + rewrite (filter_cons_True _ w) by done. split; [cbn; lia|]. intros n Hn. left. exact Hn.
    + rewrite (filter_cons_False _ w) by (by rewrite Ew). split; [cbn; lia|]. intros n Hn. left. by right.
  - eexists. split; [reflexivity|]. split; [done|]. split; [done|]. auto.
Defined.
Lemma watch_event_served_witness :
  exists s1 xs s', vbus_vbstore_isr 2 (set_count 1 vbus_event) = Ret (tt, s1) /\
    (exists n, vbus_watch_thread note n s1 = Ret (tt, s')) /\ served [97] xs /\ pending_nodes (watches s') = [].
Proof.
  destruct (watch_event_served note event_msg [97; 0] [97] (set_count 1 vbus_event) 2) as (s1 & xs & s' & n & H1 & _ & H2 & _ & H3 & H4 & H5 & _);
    [|done|done|cbn; set_solver|done|done|lia|exists s1, xs, s'; split; [exact H1|split; [exists n; by apply H2|split; [by apply H4|exact H5]]]].
  apply (ir_cons _ _ _ _ 58); [done|split; [done|done|split_and!; done]|done|vm_compute; reflexivity|apply ir_nil].
Defined.
Lemma suspend_deadlocks_witness : exists i s1, vbus_transaction_start vbus0 = Ret (i, s1) /\ vbs_suspend s1 = Fault Hang.
Proof.
  exists 1, (set_transaction false (set_tid 1 (set_count 1 (set_group true vbus0)))). split; [vm_compute; reflexivity|].
  destruct (suspend_deadlocks (set_transaction false (set_tid 1 (set_count 1 (set_group true vbus0))))) as (s1 & _ & _ & H & _); [done..|exact H].
Defined.
Lemma vbus_full_ring_is_empty_witness : exists q', (vbs_write (replicate 56 1);; vbs_write (replicate 484 2)) (Intf (replicate 1024 0) (replicate 1024 0) 484 484 484 0 0 0) = Ret (tt, q') /\ req_pvt q' = req_cons q'.
Proof. apply vbus_full_ring_is_empty; [split; done|done|done|done|done]. Defined.

End Vbus.
