(* ===== verification/AvzSched.v ===== *)
(** Domains and their schedulers in the hypervisor AVZ (so3/avz/kernel/schedule.c,
    sched_flip.c, domain.c, timer.c and [switch_mm_domain] of avz/mm/memory.c).

    A domain is known by its address.  Two policies schedule the domains: [Agency]
    on the agency's CPUs, which always runs domain 0, and [Flip], a round robin over
    the containers of the ME CPU.  [domain_schedule] is the handler of the schedule
    softirq.  A scheduler's timer is the deadline it is armed for.  The six EL1 system
    registers a domain owns are one list, in the order they are saved; the callee-saved registers and the stack
    that [__switch_domain_to] exchanges are not modelled: after it, the CPU runs
    [next].  Interrupts are disabled in all of this code. *)
From S2P Require Import Prelude Softirq.
Import Softirq.

Module AvzSched.

Definition MAX_DOMAINS : nat := 7.
Definition AGENCY_CPU : nat := 0.
Definition AGENCY_RT_CPU : nat := 1.
Definition ME_CPU : nat := 3.
Definition DOMID_IDLE : Z := 32767. (* 0x7FFF *)
Definition SCHEDFREQ : Z := 30. (* CONFIG_SCHED_FLIP_SCHEDFREQ, in ms *)

Definition RUNSTATE_running : Z := 0.
Definition RUNSTATE_runnable : Z := 1.
Definition RUNSTATE_blocked : Z := 2.
Definition RUNSTATE_offline : Z := 3.
Definition VPF_blocked : Z := 0. (* bit numbers in pause_flags *)
Definition VPF_down : Z := 1.

Inductive policy := Flip | Agency.
#[export] Instance policy_eq_dec : EqDecision policy.
Proof. solve_decision. Defined.

Record domain := Domain {
  domID : Z;                       (* avz_shared->domID *)
  processor : nat;
  sched : option policy;
  runstate : Z;
  is_running : bool;
  pause_flags : Z;
  pause_count : Z;
  is_dying : bool;
  is_paused_by_controller : bool;
  need_periodic_timer : bool;
  oneshot_timer : bool;            (* active *)
  pagetable_paddr : Z;
  vcpu : list Z;
  evtchn_upcall_pending : bool     (* avz_shared->evtchn_upcall_pending *)
}.
Definition set_runstate v d := Domain (domID d) (processor d) (sched d) v (is_running d) (pause_flags d) (pause_count d) (is_dying d) (is_paused_by_controller d) (need_periodic_timer d) (oneshot_timer d) (pagetable_paddr d) (vcpu d) (evtchn_upcall_pending d).
Definition set_running v d := Domain (domID d) (processor d) (sched d) (runstate d) v (pause_flags d) (pause_count d) (is_dying d) (is_paused_by_controller d) (need_periodic_timer d) (oneshot_timer d) (pagetable_paddr d) (vcpu d) (evtchn_upcall_pending d).
Definition set_flags v d := Domain (domID d) (processor d) (sched d) (runstate d) (is_running d) v (pause_count d) (is_dying d) (is_paused_by_controller d) (need_periodic_timer d) (oneshot_timer d) (pagetable_paddr d) (vcpu d) (evtchn_upcall_pending d).
Definition set_count v d := Domain (domID d) (processor d) (sched d) (runstate d) (is_running d) (pause_flags d) v (is_dying d) (is_paused_by_controller d) (need_periodic_timer d) (oneshot_timer d) (pagetable_paddr d) (vcpu d) (evtchn_upcall_pending d).
Definition set_dying v d := Domain (domID d) (processor d) (sched d) (runstate d) (is_running d) (pause_flags d) (pause_count d) v (is_paused_by_controller d) (need_periodic_timer d) (oneshot_timer d) (pagetable_paddr d) (vcpu d) (evtchn_upcall_pending d).
Definition set_paused v d := Domain (domID d) (processor d) (sched d) (runstate d) (is_running d) (pause_flags d) (pause_count d) (is_dying d) v (need_periodic_timer d) (oneshot_timer d) (pagetable_paddr d) (vcpu d) (evtchn_upcall_pending d).
Definition set_oneshot v d := Domain (domID d) (processor d) (sched d) (runstate d) (is_running d) (pause_flags d) (pause_count d) (is_dying d) (is_paused_by_controller d) (need_periodic_timer d) v (pagetable_paddr d) (vcpu d) (evtchn_upcall_pending d).
Definition set_vcpu v d := Domain (domID d) (processor d) (sched d) (runstate d) (is_running d) (pause_flags d) (pause_count d) (is_dying d) (is_paused_by_controller d) (need_periodic_timer d) (oneshot_timer d) (pagetable_paddr d) v (evtchn_upcall_pending d).

Definition set_pagetable v d := Domain (domID d) (processor d) (sched d) (runstate d) (is_running d) (pause_flags d) (pause_count d) (is_dying d) (is_paused_by_controller d) (need_periodic_timer d) (oneshot_timer d) v (vcpu d) (evtchn_upcall_pending d).

(** [struct scheduler]: its lock and its timer. *)
Record sched_data := SchedData { schedule_lock : bool; s_timer : option Z }.

Record hyp := Hyp {
  doms : gmap Z domain;
  domains : list (option Z);
  idle_domain : list (option Z);
  current_domain : list (option Z);     (* per CPU *)
  domains_runnable : list (option Z);
  current_dom : nat;                    (* of sched_flip *)
  flip_data : sched_data;
  agency_data : sched_data;
  vttbr_el2 : list Z;                   (* the stage-2 page table each CPU uses *)
  sysregs : list (list Z);              (* the EL1 registers, per CPU *)
  gic_event : list bool;                (* IPI_EVENT_CHECK pending, per CPU *)
  hsoft : softirq;
  now : Z;
  virqs : list Z                        (* domains sent VIRQ_TIMER, newest first *)
}.
Definition with_doms f s := Hyp (f (doms s)) (domains s) (idle_domain s) (current_domain s) (domains_runnable s) (current_dom s) (flip_data s) (agency_data s) (vttbr_el2 s) (sysregs s) (gic_event s) (hsoft s) (now s) (virqs s).
Definition with_domains f s := Hyp (doms s) (f (domains s)) (idle_domain s) (current_domain s) (domains_runnable s) (current_dom s) (flip_data s) (agency_data s) (vttbr_el2 s) (sysregs s) (gic_event s) (hsoft s) (now s) (virqs s).
Definition with_idle f s := Hyp (doms s) (domains s) (f (idle_domain s)) (current_domain s) (domains_runnable s) (current_dom s) (flip_data s) (agency_data s) (vttbr_el2 s) (sysregs s) (gic_event s) (hsoft s) (now s) (virqs s).
Definition with_current f s := Hyp (doms s) (domains s) (idle_domain s) (f (current_domain s)) (domains_runnable s) (current_dom s) (flip_data s) (agency_data s) (vttbr_el2 s) (sysregs s) (gic_event s) (hsoft s) (now s) (virqs s).
Definition with_runnable f s := Hyp (doms s) (domains s) (idle_domain s) (current_domain s) (f (domains_runnable s)) (current_dom s) (flip_data s) (agency_data s) (vttbr_el2 s) (sysregs s) (gic_event s) (hsoft s) (now s) (virqs s).
Definition set_current_dom v s := Hyp (doms s) (domains s) (idle_domain s) (current_domain s) (domains_runnable s) v (flip_data s) (agency_data s) (vttbr_el2 s) (sysregs s) (gic_event s) (hsoft s) (now s) (virqs s).
Definition with_sched_data (p : policy) f s :=
  match p with
  | Flip => Hyp (doms s) (domains s) (idle_domain s) (current_domain s) (domains_runnable s) (current_dom s) (f (flip_data s)) (agency_data s) (vttbr_el2 s) (sysregs s) (gic_event s) (hsoft s) (now s) (virqs s)
  | Agency => Hyp (doms s) (domains s) (idle_domain s) (current_domain s) (domains_runnable s) (current_dom s) (flip_data s) (f (agency_data s)) (vttbr_el2 s) (sysregs s) (gic_event s) (hsoft s) (now s) (virqs s)
  end.
Definition with_vttbr f s := Hyp (doms s) (domains s) (idle_domain s) (current_domain s) (domains_runnable s) (current_dom s) (flip_data s) (agency_data s) (f (vttbr_el2 s)) (sysregs s) (gic_event s) (hsoft s) (now s) (virqs s).
Definition with_sysregs f s := Hyp (doms s) (domains s) (idle_domain s) (current_domain s) (domains_runnable s) (current_dom s) (flip_data s) (agency_data s) (vttbr_el2 s) (f (sysregs s)) (gic_event s) (hsoft s) (now s) (virqs s).
Definition with_gic f s := Hyp (doms s) (domains s) (idle_domain s) (current_domain s) (domains_runnable s) (current_dom s) (flip_data s) (agency_data s) (vttbr_el2 s) (sysregs s) (f (gic_event s)) (hsoft s) (now s) (virqs s).
Definition set_hsoft v s := Hyp (doms s) (domains s) (idle_domain s) (current_domain s) (domains_runnable s) (current_dom s) (flip_data s) (agency_data s) (vttbr_el2 s) (sysregs s) (gic_event s) v (now s) (virqs s).
Definition add_virq v s := Hyp (doms s) (domains s) (idle_domain s) (current_domain s) (domains_runnable s) (current_dom s) (flip_data s) (agency_data s) (vttbr_el2 s) (sysregs s) (gic_event s) (hsoft s) (now s) (v :: virqs s).

#[export] Instance hyp_soft : HasSoftirq hyp.
Proof. refine {| soft := hsoft; put_soft := set_hsoft |}; [done|done|by intros []]. Defined.

(** *** Access *)
Definition dom_of (p : Z) : kern hyp domain := m ← gets doms; lift (deref (m !! p)).
Definition upd (p : Z) (f : domain -> domain) : kern hyp unit := d ← dom_of p; modify (with_doms <[p := f d]>).
Definition is_idle (d : domain) : bool := domID d =? DOMID_IDLE.
(** [d->sched], null for a CPU that has no policy. *)
Definition policy_of (p : Z) : kern hyp policy := d ← dom_of p; lift (deref (sched d)).
Definition data_of (q : policy) (s : hyp) : sched_data := match q with Flip => flip_data s | Agency => agency_data s end.
Definition lock_set (q : policy) (b : bool) : kern hyp unit := modify (with_sched_data q (fun x => SchedData b (s_timer x))).
Definition timer_set (q : policy) (t : option Z) : kern hyp unit := modify (with_sched_data q (fun x => SchedData (schedule_lock x) t)).
Definition current (cpu : nat) : kern hyp Z := l ← gets current_domain; lift (deref (mjoin (l !! cpu))).
(** The slot of a domain in a table indexed by domain number. *)
Definition slot (d : domain) : kern hyp nat :=
  if (domID d <? 0) || (Z.of_nat MAX_DOMAINS <=? domID d) then raise Undef else mret (Z.to_nat (domID d)).

Definition domain_runstate_change (p : Z) (new_state : Z) : kern hyp unit :=
  d ← dom_of p;
  lift (assert_k ((runstate d =? RUNSTATE_blocked) || negb (runstate d =? new_state)));;
  upd p (set_runstate new_state).

(** *** The round robin of the containers *)
Definition flip_wake (p : Z) : kern hyp unit :=
  d ← dom_of p; i ← slot d;
  modify (with_runnable <[i := Some p]>);;
  cpu_raise_softirq (processor d) SCHEDULE_SOFTIRQ.

Definition flip_sleep (p : Z) : kern hyp unit :=
  d ← dom_of p;
  if is_idle d then mret tt
  else
    i ← slot d;
    modify (with_runnable <[i := None]>);;
    c ← gets current_dom;
    when (Nat.eqb c i) (cpu_raise_softirq (processor d) SCHEDULE_SOFTIRQ).

Definition flip_quant_runnable (l : list (option Z)) : nat :=
  for_up MAX_DOMAINS (fun i n => match l !! i with Some (Some _) => S n | _ => n end) 0%nat.

(** [do { current_dom = (current_dom + 1) % MAX_DOMAINS; ... } while (d == NULL && loopmax);] *)
Fixpoint flip_loop (loopmax cpu : nat) : kern hyp (option Z) :=
  match loopmax with
  | O => mret None
  | S n =>
      modify (fun s => set_current_dom ((current_dom s + 1) mod MAX_DOMAINS) s);;
      c ← gets current_dom; l ← gets domains_runnable;
      o ← lift (deref (l !! c));
      match o with
      | Some p => d ← dom_of p; if Nat.eqb (processor d) cpu then mret (Some p) else flip_loop n cpu
      | None => flip_loop n cpu
      end
  end.

Definition idle_of (cpu : nat) : kern hyp (option Z) := l ← gets idle_domain; lift (deref (l !! cpu)).

Definition flip_do_schedule (cpu : nat) : kern hyp (option Z * Z) :=
  r ← flip_loop MAX_DOMAINS cpu;
  d ← match r with Some p => mret (Some p) | None => idle_of cpu end;
  l ← gets domains_runnable;
  mret (d, if Nat.leb (flip_quant_runnable l) 1 then 0 else SCHEDFREQ).

(** *** The agency *)
Definition agency_schedule (cpu : nat) : kern hyp (option Z * Z) :=
  d ← (if Nat.eqb cpu AGENCY_CPU then l ← gets domains; lift (deref (l !! 0%nat)) else idle_of cpu);
  mret (d, 0).
Definition agency_wake (cpu : nat) : kern hyp unit := raise_softirq cpu SCHEDULE_SOFTIRQ.

(** *** The operations of a policy; [Agency] has no [sleep] *)
Definition sched_wake (q : policy) (cpu : nat) (p : Z) : kern hyp unit :=
  match q with Flip => flip_wake p | Agency => agency_wake cpu end.
Definition sched_sleep (q : policy) (p : Z) : kern hyp unit :=
  match q with Flip => flip_sleep p | Agency => raise Undef end.
Definition do_schedule (q : policy) (cpu : nat) : kern hyp (option Z * Z) :=
  match q with Flip => flip_do_schedule cpu | Agency => agency_schedule cpu end.

(** [if (spin_is_locked(l)) already_locked = true; else spin_lock(l);] ... *)
Definition with_schedule_lock (q : policy) (body : kern hyp unit) : kern hyp unit :=
  x ← gets (data_of q);
  when (negb (schedule_lock x)) (lock_set q true);;
  body;;
  when (negb (schedule_lock x)) (lock_set q false).

Definition vcpu_wake (cpu : nat) (p : Z) : kern hyp unit :=
  q ← policy_of p;
  with_schedule_lock q
    (d ← dom_of p;
     when (RUNSTATE_blocked <=? runstate d)
       (domain_runstate_change p RUNSTATE_runnable;;
        sched_wake q cpu p;;
        upd p (fun d => set_flags (Z.clearbit (pause_flags d) VPF_blocked) d))).

Definition vcpu_sleep_nosync (p : Z) : kern hyp unit :=
  q ← policy_of p;
  with_schedule_lock q
    (upd p (fun d => set_flags (Z.setbit (pause_flags d) VPF_blocked) d);;
     d ← dom_of p;
     when (negb (runstate d =? RUNSTATE_running)) (domain_runstate_change p RUNSTATE_blocked);;
     when (oneshot_timer d) (upd p (set_oneshot false));;
     sched_sleep q p).

(** [while (d->is_running) cpu_relax();]: [relax] is what the other CPUs do meanwhile. *)
Fixpoint wait_descheduled (fuel : nat) (relax : kern hyp unit) (p : Z) : kern hyp unit :=
  d ← dom_of p;
  if is_running d then
    match fuel with O => raise Hang | S n => relax;; wait_descheduled n relax p end
  else mret tt.
Definition vcpu_sleep_sync (fuel : nat) (relax : kern hyp unit) (p : Z) : kern hyp unit :=
  vcpu_sleep_nosync p;; wait_descheduled fuel relax p.

(** *** Pausing *)
Definition vcpu_pause_nosync (p : Z) : kern hyp unit :=
  upd p (fun d => set_count (pause_count d + 1) d);; vcpu_sleep_nosync p.
(** [vcpu_pause] and [domain_pause] *)
Definition domain_pause (fuel : nat) (relax : kern hyp unit) (cpu : nat) (p : Z) : kern hyp unit :=
  l ← gets current_domain;
  lift (assert_k (negb (bool_decide (l !! cpu = Some (Some p)))));;
  upd p (fun d => set_count (pause_count d + 1) d);;
  vcpu_sleep_sync fuel relax p.
(** [vcpu_unpause] and [domain_unpause] *)
Definition domain_unpause (cpu : nat) (p : Z) : kern hyp unit :=
  upd p (fun d => set_count (pause_count d - 1) d);;
  d ← dom_of p;
  when (pause_count d =? 0) (vcpu_wake cpu p).
Definition domain_pause_by_systemcontroller (fuel : nat) (relax : kern hyp unit) (cpu : nat) (p : Z) : kern hyp unit :=
  d ← dom_of p;
  lift (bug_on (is_paused_by_controller d));;
  upd p (set_paused true);;
  when (negb (is_paused_by_controller d)) (domain_pause fuel relax cpu p).
Definition domain_unpause_by_systemcontroller (cpu : nat) (p : Z) : kern hyp unit :=
  d ← dom_of p;
  upd p (set_paused false);;
  when (is_paused_by_controller d) (domain_unpause cpu p).

(** *** Switching *)
(** The six registers are sctlr, vbar, ttbr0, ttbr1, tcr and mair. *)
Definition TTBR1_EL1 : nat := 3.
Definition vcpu_save_context (cpu : nat) (p : Z) : kern hyp unit :=
  l ← gets sysregs; r ← lift (deref (l !! cpu)); upd p (set_vcpu r).
Definition vcpu_restore_context (cpu : nat) (p : Z) : kern hyp unit :=
  d ← dom_of p;
  modify (with_sysregs <[cpu := vcpu d]>);;
  modify (with_gic <[cpu := false]>);;
  c ← current cpu; x ← dom_of c;
  when (evtchn_upcall_pending x) (modify (with_gic <[cpu := true]>)).
(** [mmu_get_current_pgtable] reads ttbr1_el1, a register of the guest, and
    [__mmu_switch_kernel(.., true)] writes vttbr_el2: when the guest's register holds the
    address of the next domain's table, neither that table nor the current domain changes. *)
Definition switch_mm_domain (cpu : nat) (p : Z) : kern hyp unit :=
  l ← gets sysregs; r ← lift (deref (l !! cpu)); t ← lift (deref (r !! TTBR1_EL1));
  d ← dom_of p;
  if t =? pagetable_paddr d then mret tt
  else
    modify (with_current <[cpu := Some p]>);;
    modify (with_vttbr <[cpu := pagetable_paddr d]>).
Definition context_switch (cpu : nat) (prev next : Z) : kern hyp unit :=
  vcpu_save_context cpu prev;;
  switch_mm_domain cpu next;;
  vcpu_restore_context cpu next;;
  upd prev (set_running false);;
  q ← policy_of prev;
  lock_set q false.

Definition domain_schedule (cpu : nat) : kern hyp unit :=
  prev ← current cpu;
  x ← dom_of prev;
  lift (assert_k (runstate x =? RUNSTATE_running));;
  q ← policy_of prev;
  y ← gets (data_of q);
  when (negb (schedule_lock y)) (lock_set q true);;
  timer_set q None;;
  slice ← do_schedule q cpu;
  next ← lift (deref slice.1);
  q' ← policy_of next;
  t ← gets now;
  when (0 <? slice.2) (timer_set q' (Some (t + slice.2 * 1000000)));;
  if prev =? next then
    lock_set q false;;
    x ← dom_of prev;
    lift (assert_k (runstate x =? RUNSTATE_running))
  else
    x ← dom_of prev;
    lift (assert_k (runstate x =? RUNSTATE_running));;
    domain_runstate_change prev
      (if Z.testbit (pause_flags x) VPF_blocked then RUNSTATE_blocked
       else if is_dying x then RUNSTATE_offline else RUNSTATE_runnable);;
    z ← dom_of next;
    lift (assert_k (negb (runstate z =? RUNSTATE_running)));;
    domain_runstate_change next RUNSTATE_running;;
    lift (assert_k (negb (is_running z)));;
    upd next (set_running true);;
    context_switch cpu prev next.

(** *** Creation and destruction *)
Definition policy_for (cpu : nat) : option policy :=
  if Nat.eqb cpu ME_CPU then Some Flip
  else if Nat.eqb cpu AGENCY_CPU || Nat.eqb cpu AGENCY_RT_CPU then Some Agency
  else None.
(** The domain [domain_create] builds; an idle domain uses the hypervisor's page table. *)
Definition new_domain (domid : Z) (cpu : nat) (sys_root : Z) : domain :=
  let idle := domid =? DOMID_IDLE in
  Domain domid cpu (policy_for cpu)
    (if idle then RUNSTATE_running else RUNSTATE_offline)
    idle
    (if idle then 0 else Z.setbit 0 VPF_down)
    (if idle then 0 else 1)
    false
    (negb idle)
    (negb (idle && Nat.eqb cpu AGENCY_CPU) && (Nat.eqb cpu ME_CPU || Nat.eqb cpu AGENCY_CPU))
    false
    (if idle then sys_root else 0)
    (replicate 6 0)
    false.
(** [p] is the address the allocator returns. *)
Definition domain_create (p : Z) (domid : Z) (cpu : nat) (sys_root : Z) : kern hyp unit :=
  modify (with_doms <[p := new_domain domid cpu sys_root]>).
Definition init_idle_domain (p : Z) (cpu : nat) (sys_root : Z) : kern hyp unit :=
  domain_create p DOMID_IDLE cpu sys_root;;
  modify (with_idle <[cpu := Some p]>);;
  modify (with_current <[cpu := Some p]>).

(** The part of [construct_ME] that makes the domain one to be scheduled: its
    page table, at the address [new_root_pgtable] returned, and its flags. *)
Definition construct_ME (p : Z) (new_pt : Z) : kern hyp unit :=
  upd p (fun d => set_flags (Z.clearbit (pause_flags d) VPF_down) d);;
  upd p (set_pagetable new_pt).

(** The part of [shutdown_ME] that ends the domain as one to be scheduled. *)
Definition shutdown_ME (fuel : nat) (relax : kern hyp unit) (cpu id : nat) : kern hyp unit :=
  l ← gets domains; p ← lift (deref (mjoin (l !! id)));
  upd p (set_dying true);;
  domain_pause fuel relax cpu p;;
  d ← dom_of p;
  lift (bug_on (negb (is_dying d)));;
  modify (with_doms (delete p));;
  modify (with_domains <[id := None]>).

Definition DOMCTL_pauseME : Z := 1.
Definition DOMCTL_unpauseME : Z := 2.
Definition do_domctl (fuel : nat) (relax : kern hyp unit) (cpu : nat) (cmd : Z) (domid : nat) : kern hyp unit :=
  l ← gets domains; o ← lift (deref (l !! domid));
  if cmd =? DOMCTL_pauseME then p ← lift (deref o); domain_pause_by_systemcontroller fuel relax cpu p
  else if cmd =? DOMCTL_unpauseME then p ← lift (deref o); domain_unpause_by_systemcontroller cpu p
  else mret tt.

(** *** Timers *)
Definition s_timer_fn (cpu : nat) : kern hyp unit := raise_softirq cpu SCHEDULE_SOFTIRQ.
(** One round of [for (i = 2; i < MAX_DOMAINS; i++)]. *)
Definition tick_domain (i : nat) : kern hyp unit :=
  l ← gets domains; o ← lift (deref (l !! i));
  match o with
  | None => mret tt
  | Some p =>
      d ← dom_of p;
      when (negb (is_dying d) && ((runstate d =? RUNSTATE_running) || (runstate d =? RUNSTATE_runnable)) &&
            need_periodic_timer d) (modify (add_virq p))
  end.
Fixpoint tick_from (i n : nat) : kern hyp unit :=
  match n with O => mret tt | S n' => tick_domain i;; tick_from (S i) n' end.
Definition timer_interrupt (cpu : nat) (periodic : bool) : kern hyp unit :=
  when periodic (tick_from 2 (MAX_DOMAINS - 2));;
  raise_softirq cpu TIMER_SOFTIRQ.

Definition do_yield (cpu : nat) : kern hyp Z := raise_softirq cpu SCHEDULE_SOFTIRQ;; mret 0.

(** *** Boot *)
Definition sched_agency_init : kern hyp unit :=
  modify (set_current_dom 0);;
  modify (with_sched_data Agency (fun _ => SchedData false None)).
Definition sched_flip_init : kern hyp unit :=
  modify (with_runnable (fun _ => replicate MAX_DOMAINS None));;
  modify (set_current_dom 0);;
  t ← gets now;
  modify (with_sched_data Flip (fun _ => SchedData false (Some (t + SCHEDFREQ * 1000000)))).
(** [handler] is the address of [domain_schedule]. *)
Definition domain_scheduler_init (handler : Z) : kern hyp unit :=
  modify (with_current <[AGENCY_CPU := None]>);;
  register_softirq (Z.of_nat SCHEDULE_SOFTIRQ) handler;;
  sched_agency_init;;
  sched_flip_init.
End AvzSched.
