(* ===== verification/AvzSchedInv.v ===== *)
(** The invariant of the domain schedulers and what every operation does to it.

    [hyp_ok] ties together the table of domains, the idle domains, the domain each
    CPU runs, the run states, the pause counts and the round robin's table.  Each
    operation of [AvzSched] is run to its final state on a well-formed hypervisor,
    so that none of the assertions of the code can fail there. *)
From S2P Require Import Prelude Softirq AvzSched.
Import Softirq AvzSched.

Module AvzSchedInv.

(** A CPU on which AVZ schedules: it has an idle domain. *)
Definition online (s : hyp) (cpu : nat) : Prop := is_Some (mjoin (idle_domain s !! cpu)).
Definition blocked (d : domain) : bool := Z.testbit (pause_flags d) VPF_blocked.

(** The state of a container, as its pause count determines it. *)
Definition count_ok (s : hyp) (i : nat) (p : Z) (d : domain) : Prop :=
  (pause_count d = 0 /\ domains_runnable s !! i = Some (Some p) /\ blocked d = false /\ pagetable_paddr d <> 0 /\
     is_paused_by_controller d = false /\
     (runstate d = RUNSTATE_running \/ runstate d = RUNSTATE_runnable \/ (runstate d = RUNSTATE_offline /\ is_dying d = true))) \/
  (0 < pause_count d /\ domains_runnable s !! i = Some None /\
     (runstate d = RUNSTATE_blocked \/ runstate d = RUNSTATE_offline \/
      (runstate d = RUNSTATE_running /\ blocked d = true /\ pending s ME_CPU SCHEDULE_SOFTIRQ))).

(** The ttbr1_el1 among the registers [r] is not the stage-2 table of any domain. *)
Definition apart (m : gmap Z domain) (r : list Z) : Prop :=
  exists t, r !! TTBR1_EL1 = Some t /\ forall p d, m !! p = Some d -> pagetable_paddr d <> 0 -> pagetable_paddr d <> t.

Lemma apart_sub m m' r : apart m r -> (forall p d, m' !! p = Some d -> pagetable_paddr d <> 0 -> exists q e, m !! q = Some e /\ pagetable_paddr e = pagetable_paddr d) -> apart m' r.
Proof. intros (t & Ht & Hm) Hsub. exists t. split; [done|]. intros p d Hp H0. destruct (Hsub p d Hp H0) as (q & e & Hq & E). rewrite <- E in *. by apply (Hm q). Qed.

Record hyp_ok (s : hyp) : Prop := {
  len_domains : length (domains s) = MAX_DOMAINS;
  len_idle : length (idle_domain s) = NR_CPUS;
  len_current : length (current_domain s) = NR_CPUS;
  len_runnable : length (domains_runnable s) = MAX_DOMAINS;
  len_vttbr : length (vttbr_el2 s) = NR_CPUS;
  len_sysregs : length (sysregs s) = NR_CPUS;
  len_gic : length (gic_event s) = NR_CPUS;
  hsoft_ok : soft_ok (hsoft s);
  flip_unlocked : schedule_lock (flip_data s) = false;
  agency_unlocked : schedule_lock (agency_data s) = false;
  cur_range : (current_dom s < MAX_DOMAINS)%nat;
  idle_valid : forall c p, idle_domain s !! c = Some (Some p) ->
    exists d, doms s !! p = Some d /\ domID d = DOMID_IDLE /\ processor d = c /\ pagetable_paddr d <> 0;
  dom_valid : forall i p, domains s !! i = Some (Some p) -> exists d, doms s !! p = Some d /\ domID d = Z.of_nat i;
  dom_owner : forall p d, doms s !! p = Some d ->
    (exists i, domID d = Z.of_nat i /\ domains s !! i = Some (Some p)) \/
    (domID d = DOMID_IDLE /\ idle_domain s !! processor d = Some (Some p));
  dom_policy : forall p d, doms s !! p = Some d -> exists q, sched d = Some q /\ policy_for (processor d) = Some q;
  cur_valid : forall c, online s c -> exists p d, current_domain s !! c = Some (Some p) /\ doms s !! p = Some d /\
    processor d = c /\ runstate d = RUNSTATE_running /\ is_running d = true /\
    (domID d <> DOMID_IDLE -> vttbr_el2 s !! c = Some (pagetable_paddr d)) /\ pagetable_paddr d <> 0;
  run_current : forall p d, doms s !! p = Some d -> runstate d = RUNSTATE_running \/ is_running d = true ->
    online s (processor d) /\ current_domain s !! processor d = Some (Some p);
  tables_distinct : forall p1 p2 d1 d2, doms s !! p1 = Some d1 -> doms s !! p2 = Some d2 ->
    processor d1 = processor d2 -> pagetable_paddr d1 = pagetable_paddr d2 -> pagetable_paddr d1 <> 0 -> p1 = p2;
  agency_table : forall p d, domains s !! 0%nat = Some (Some p) -> doms s !! p = Some d ->
    processor d = AGENCY_CPU /\ pagetable_paddr d <> 0;
  agency_exists : is_Some (mjoin (domains s !! 0%nat));
  slot_empty : forall i, domains s !! i = Some None -> domains_runnable s !! i = Some None;
  slot_agency : forall i p d, domains s !! i = Some (Some p) -> doms s !! p = Some d -> processor d <> ME_CPU ->
    domains_runnable s !! i = Some None;
  slot_flip : forall i p d, domains s !! i = Some (Some p) -> doms s !! p = Some d -> processor d = ME_CPU -> count_ok s i p d;
  flip_cur : online s ME_CPU -> forall p d, current_domain s !! ME_CPU = Some (Some p) -> doms s !! p = Some d ->
    domID d = DOMID_IDLE \/ domID d = Z.of_nat (current_dom s);
  regs_apart : forall c r, sysregs s !! c = Some r -> apart (doms s) r;
  vcpu_apart : forall p d, doms s !! p = Some d -> apart (doms s) (vcpu d)
}.

(** *** Running the accessors *)
Lemma dom_of_run s p d : doms s !! p = Some d -> dom_of p s = Ret (d, s).
Proof. intros E. unfold dom_of. kstep. by rewrite E. Qed.

Lemma upd_run s p d f : doms s !! p = Some d -> upd p f s = Ret (tt, with_doms <[p := f d]> s).
Proof. intros E. unfold upd. erewrite kbind_ret by (by apply dom_of_run). reflexivity. Qed.

Lemma policy_of_run s p d q : doms s !! p = Some d -> sched d = Some q -> policy_of p s = Ret (q, s).
Proof. intros E Hq. unfold policy_of. erewrite kbind_ret by (by apply dom_of_run). cbn beta. by rewrite Hq. Qed.

Lemma slot_run s d i : domID d = Z.of_nat i -> (i < MAX_DOMAINS)%nat -> slot d s = Ret (i, s).
Proof.
  intros Hd Hi. unfold slot. rewrite Hd, (proj2 (Z.ltb_ge _ _)), (proj2 (Z.leb_gt _ _)) by lia. cbn.
  by rewrite Nat2Z.id.
Qed.

Lemma runstate_change_run s p d v : doms s !! p = Some d -> runstate d = RUNSTATE_blocked \/ runstate d <> v ->
  domain_runstate_change p v s = Ret (tt, with_doms <[p := set_runstate v d]> s).
Proof.
  intros E Hv. unfold domain_runstate_change. erewrite kbind_ret by (by apply dom_of_run). cbn beta.
  erewrite kbind_ret; [by apply upd_run|].
  destruct Hv as [->|Hv]; [done|]. apply Z.eqb_neq in Hv. rewrite Hv. by rewrite orb_true_r.
Qed.

Lemma current_run s cpu p : current_domain s !! cpu = Some (Some p) -> current cpu s = Ret (p, s).
Proof. intros E. unfold current. kstep. by rewrite E. Qed.

Definition raised (cpu nr : nat) (s : hyp) : hyp := set_hsoft (put_stat true cpu nr (hsoft s)) s.
Definition raised_ipi (cpu nr : nat) (s : hyp) : hyp := set_hsoft (add_ipi cpu (put_stat true cpu nr (hsoft s))) s.

Lemma stat_some s cpu nr : soft_ok (hsoft s) -> (cpu < NR_CPUS)%nat -> (nr < NR_SOFTIRQS)%nat -> is_Some (stat (hsoft s) cpu nr).
Proof.
  intros Hok Hc Hn. destruct (soft_ok_row _ cpu Hok Hc) as (row & Er & Hl).
  rewrite (stat_row _ _ row) by done. apply lookup_lt_is_Some_2. lia.
Qed.

Lemma raise_run s cpu nr : soft_ok (hsoft s) -> (cpu < NR_CPUS)%nat -> (nr < NR_SOFTIRQS)%nat ->
  raise_softirq cpu nr s = Ret (tt, raised cpu nr s).
Proof. intros. unfold raise_softirq. by rewrite set_stat_run by by apply stat_some. Qed.

Lemma cpu_raise_run s cpu nr : soft_ok (hsoft s) -> (cpu < NR_CPUS)%nat -> (nr < NR_SOFTIRQS)%nat ->
  cpu_raise_softirq cpu nr s = Ret (tt, raised_ipi cpu nr s).
Proof.
  intros. unfold cpu_raise_softirq. erewrite kbind_ret by (apply set_stat_run; by apply stat_some). reflexivity.
Qed.

(** A scheduler's critical section around code that leaves the lock alone. *)
Definition locked (q : policy) (b : bool) (s : hyp) : hyp := with_sched_data q (fun x => SchedData b (s_timer x)) s.

Lemma with_lock_run q body s s1 : schedule_lock (data_of q s) = false -> body (locked q true s) = Ret (tt, s1) ->
  with_schedule_lock q body s = Ret (tt, locked q false s1).
Proof.
  intros Hl Hb. unfold with_schedule_lock. kstep. rewrite Hl. cbn [negb when].
  erewrite kbind_ret by reflexivity. cbn beta. by erewrite kbind_ret by exact Hb.
Qed.

Lemma locked_locked q a b s : locked q a (locked q b s) = locked q a s.
Proof. by destruct q. Qed.
Lemma locked_id q s : schedule_lock (data_of q s) = false -> locked q false s = s.
Proof. destruct s as [? ? ? ? ? ? [] [] ? ? ? ? ? ?]. destruct q; cbn; by intros ->. Qed.

(** *** Waking and putting to sleep a container *)
Definition woken (p : Z) (d : domain) (i : nat) (s : hyp) : hyp :=
  with_doms <[p := set_flags (Z.clearbit (pause_flags d) VPF_blocked) (set_runstate RUNSTATE_runnable d)]>
    (raised_ipi (processor d) SCHEDULE_SOFTIRQ (with_runnable <[i := Some p]> s)).

Lemma vcpu_wake_flip s cpu p d i : schedule_lock (flip_data s) = false -> soft_ok (hsoft s) -> doms s !! p = Some d -> sched d = Some Flip ->
  domID d = Z.of_nat i -> (i < MAX_DOMAINS)%nat -> (processor d < NR_CPUS)%nat ->
  vcpu_wake cpu p s = Ret (tt, if RUNSTATE_blocked <=? runstate d then woken p d i s else s).
Proof.
  intros Hul Hsoft E Hq Hi Hil Hc. unfold vcpu_wake. erewrite kbind_ret by (by eapply policy_of_run). cbn beta.
  pose proof (locked_id Flip s Hul) as Hid.
  erewrite (with_lock_run Flip _ _ (if RUNSTATE_blocked <=? runstate d then woken p d i (locked Flip true s) else locked Flip true s));
    [|exact Hul|].
  { destruct (RUNSTATE_blocked <=? runstate d); [|by rewrite locked_locked, Hid].
    destruct s as [? ? ? ? ? ? [] [] ? ? ? ? ? ?]. cbn in Hid |- *. injection Hid as Hid. by subst. }
  erewrite kbind_ret by (apply dom_of_run; exact E). cbn beta.
  destruct (Z.leb_spec RUNSTATE_blocked (runstate d)) as [Hr|Hr]; [|reflexivity]. cbn [when].
  erewrite kbind_ret. 2: { apply runstate_change_run; [exact E|]. unfold RUNSTATE_blocked, RUNSTATE_runnable in *. lia. }
  cbn beta. cbn [sched_wake]. unfold flip_wake.
  erewrite kbind_ret.
  2: { erewrite kbind_ret by (apply dom_of_run; apply lookup_insert_eq). cbn beta.
    erewrite kbind_ret by (by apply slot_run). cbn beta. erewrite kbind_ret by reflexivity. cbn beta.
    apply cpu_raise_run; [exact Hsoft|exact Hc|unfold SCHEDULE_SOFTIRQ, NR_SOFTIRQS; lia]. }
  cbn beta. erewrite upd_run by (apply lookup_insert_eq). unfold woken, with_doms. cbn. by rewrite insert_insert_eq.
Qed.

Definition slept (p : Z) (d : domain) (i : nat) (s : hyp) : hyp :=
  let d1 := set_flags (Z.setbit (pause_flags d) VPF_blocked) d in
  let d2 := if runstate d =? RUNSTATE_running then d1 else set_runstate RUNSTATE_blocked d1 in
  let s1 := with_runnable <[i := None]> (with_doms <[p := if oneshot_timer d then set_oneshot false d2 else d2]> s) in
  if Nat.eqb (current_dom s) i then raised_ipi (processor d) SCHEDULE_SOFTIRQ s1 else s1.

Lemma vcpu_sleep_flip s p d i : schedule_lock (flip_data s) = false -> soft_ok (hsoft s) -> doms s !! p = Some d -> sched d = Some Flip ->
  domID d = Z.of_nat i -> (i < MAX_DOMAINS)%nat -> (processor d < NR_CPUS)%nat ->
  vcpu_sleep_nosync p s = Ret (tt, slept p d i s).
Proof.
  intros Hul Hsoft E Hq Hi Hil Hc. unfold vcpu_sleep_nosync. erewrite kbind_ret by (by eapply policy_of_run). cbn beta.
  pose proof (locked_id Flip s Hul) as Hid.
  set (d1 := set_flags (Z.setbit (pause_flags d) VPF_blocked) d).
  set (d2 := if runstate d =? RUNSTATE_running then d1 else set_runstate RUNSTATE_blocked d1).
  set (d3 := if oneshot_timer d then set_oneshot false d2 else d2).
  assert (is_idle d3 = false /\ domID d3 = Z.of_nat i /\ processor d3 = processor d) as (Hidle & Hid3 & Hp3).
  { unfold is_idle, d3, d2, d1. destruct (oneshot_timer d), (runstate d =? RUNSTATE_running); cbn; rewrite Hi; (split; [|done]);
      apply Z.eqb_neq; unfold MAX_DOMAINS, DOMID_IDLE in *; lia. }
  erewrite (with_lock_run Flip _ _ (let s1 := with_runnable <[i := None]> (with_doms <[p := d3]> (locked Flip true s)) in
    if Nat.eqb (current_dom s) i then raised_ipi (processor d) SCHEDULE_SOFTIRQ s1 else s1)); [|exact Hul|].
  { f_equal. f_equal. unfold slept. fold d1 d2 d3. cbv zeta.
    destruct s as [? ? ? ? ? ? [] [] ? ? ? ? ? ?]. cbn in Hid |- *. injection Hid as Hid. subst.
    by destruct (Nat.eqb _ _). }
  erewrite kbind_ret by (apply upd_run; exact E). cbn beta.
  erewrite kbind_ret by (apply dom_of_run; apply lookup_insert_eq). cbn beta.
  erewrite (kbind_ret _ _ _ tt (with_doms <[p := d2]> (locked Flip true s))).
  2: { unfold d2. cbn [runstate set_flags]. fold d1. destruct (Z.eqb_spec (runstate d) RUNSTATE_running) as [Hr|Hr]; cbn [negb when]; [reflexivity|].
    erewrite runstate_change_run; [|apply lookup_insert_eq|].
    - fold d1. unfold with_doms. cbn. by rewrite insert_insert_eq.
    - fold d1. change (runstate d1) with (runstate d). destruct (decide (runstate d = RUNSTATE_blocked)); auto. }
  cbn beta. erewrite (kbind_ret _ _ _ tt (with_doms <[p := d3]> (locked Flip true s))).
  2: { unfold d3. cbn [oneshot_timer set_flags]. destruct (oneshot_timer d); cbn [when]; [|reflexivity].
    erewrite upd_run by (apply lookup_insert_eq). unfold with_doms. cbn. by rewrite insert_insert_eq. }
  cbn beta. cbn [sched_sleep]. unfold flip_sleep. erewrite kbind_ret by (apply dom_of_run; apply lookup_insert_eq). cbn beta.
  rewrite Hidle. erewrite kbind_ret by (by apply slot_run). cbn beta. kstep. kstep.
  change (current_dom (with_runnable <[i:=None]> (with_doms <[p:=d3]> (locked Flip true s)))) with (current_dom s).
  destruct (Nat.eqb (current_dom s) i); cbn [when]; [|reflexivity].
  rewrite Hp3. apply cpu_raise_run; [exact Hsoft|exact Hc|unfold SCHEDULE_SOFTIRQ, NR_SOFTIRQS; lia].
Qed.

(** *** Preservation of the invariant by an operation on one container *)
Definition soft_le (x x' : softirq) : Prop :=
  soft_ok x' /\ forall c n, stat x c n = Some true -> stat x' c n = Some true.

Lemma soft_le_refl x : soft_ok x -> soft_le x x.
Proof. by split. Qed.

Lemma soft_le_trans x y z : soft_le x y -> soft_le y z -> soft_le x z.
Proof. intros [_ H1] [Hz H2]. split; auto. Qed.

Lemma soft_le_put cpu nr x : soft_ok x -> is_Some (stat x cpu nr) -> soft_le x (put_stat true cpu nr x).
Proof.
  intros Hok Hs. split; [by apply soft_ok_put_stat|]. intros c n E. rewrite stat_put_stat by done. by case_decide.
Qed.

Lemma soft_le_ipi cpu nr x : soft_ok x -> is_Some (stat x cpu nr) -> soft_le x (add_ipi cpu (put_stat true cpu nr x)).
Proof.
  intros Hok Hs. destruct (soft_le_put cpu nr x Hok Hs) as [[H1 H2 H3 H4] Hle]. split; [by split|exact Hle].
Qed.

Lemma stat_raised cpu nr x : is_Some (stat x cpu nr) -> stat (add_ipi cpu (put_stat true cpu nr x)) cpu nr = Some true.
Proof. intros Hs. change (stat (put_stat true cpu nr x) cpu nr = Some true). rewrite stat_put_stat by done. by rewrite decide_True. Qed.

Definition changed (p : Z) (d' : domain) (i : nat) (o : option Z) (x : softirq) (s : hyp) : hyp :=
  set_hsoft x (with_runnable <[i := o]> (with_doms <[p := d']> s)).

(** No ttbr1_el1, loaded or saved, holds [t]. *)
Definition unseen (s : hyp) (t : Z) : Prop :=
  (forall c r, sysregs s !! c = Some r -> r !! TTBR1_EL1 <> Some t) /\ (forall p d, doms s !! p = Some d -> vcpu d !! TTBR1_EL1 <> Some t).

(** How a container may change: never in what ties it to its CPU. *)
Record same_place (s : hyp) (p : Z) (d d' : domain) : Prop := {
  sp_id : domID d' = domID d;
  sp_cpu : processor d' = processor d;
  sp_sched : sched d' = sched d;
  sp_run : runstate d' = RUNSTATE_running <-> runstate d = RUNSTATE_running;
  sp_running : is_running d' = is_running d;
  sp_table : pagetable_paddr d' = pagetable_paddr d \/
    (is_running d = false /\ (forall p2 d2, doms s !! p2 = Some d2 -> p2 <> p -> pagetable_paddr d2 <> pagetable_paddr d') /\ unseen s (pagetable_paddr d'));
  sp_vcpu : vcpu d' = vcpu d
}.

Lemma hyp_slot s i p d : hyp_ok s -> domains s !! i = Some (Some p) -> doms s !! p = Some d ->
  domID d = Z.of_nat i /\ (i < MAX_DOMAINS)%nat /\ domID d <> DOMID_IDLE.
Proof.
  intros Hok Hi E. destruct (dom_valid s Hok i p Hi) as (d0 & E0 & Hd). rewrite E in E0. injection E0 as <-.
  assert (i < MAX_DOMAINS)%nat by (rewrite <- (len_domains s Hok); by eapply lookup_lt_Some).
  split; [done|]. split; [done|]. unfold MAX_DOMAINS, DOMID_IDLE in *. lia.
Qed.

Lemma slot_inj s i j p : hyp_ok s -> domains s !! i = Some (Some p) -> domains s !! j = Some (Some p) -> i = j.
Proof.
  intros Hok Hi Hj. destruct (dom_valid s Hok i p Hi) as (d & E & H1). destruct (dom_valid s Hok j p Hj) as (d' & E' & H2).
  rewrite E in E'. injection E' as <-. lia.
Qed.

Section changed.
Context (s : hyp) (i : nat) (p : Z) (d d' : domain) (o : option Z) (x : softirq).
Hypothesis Hok : hyp_ok s.
Hypothesis Hi : domains s !! i = Some (Some p).
Hypothesis E : doms s !! p = Some d.
Hypothesis Hcpu : processor d = ME_CPU.
Hypothesis Hsp : same_place s p d d'.
Hypothesis Hx : soft_le (hsoft s) x.
Hypothesis Hcount : count_ok (changed p d' i o x s) i p d'.

Lemma changed_get p0 d0 : doms (changed p d' i o x s) !! p0 = Some d0 ->
  exists d1, doms s !! p0 = Some d1 /\ domID d0 = domID d1 /\ processor d0 = processor d1 /\ sched d0 = sched d1 /\
    (runstate d0 = RUNSTATE_running <-> runstate d1 = RUNSTATE_running) /\ is_running d0 = is_running d1 /\
    (p0 = p /\ d0 = d' /\ d1 = d \/ p0 <> p /\ d0 = d1).
Proof using E Hsp.
  cbn. rewrite lookup_insert_Some. destruct Hsp as [H1 H2 H3 H4 H5 _ _]. intros [[<- <-]|[Hne E0]].
  - exists d. repeat (split; [done|]). by left.
  - exists d0. repeat (split; [done|]). by right.
Qed.

Lemma changed_put p0 d1 : doms s !! p0 = Some d1 -> exists d0, doms (changed p d' i o x s) !! p0 = Some d0 /\
  domID d0 = domID d1 /\ processor d0 = processor d1 /\ (p0 = p /\ d0 = d' /\ d1 = d \/ p0 <> p /\ d0 = d1).
Proof using E Hsp.
  intros E0. cbn. destruct (decide (p0 = p)) as [->|Hne].
  - rewrite lookup_insert_eq. exists d'. rewrite E in E0. injection E0 as <-. split; [done|].
    split; [apply Hsp|]. split; [apply Hsp|]. by left.
  - rewrite lookup_insert_ne by done. exists d1. split; [done|]. split; [done|]. split; [done|]. by right.
Qed.

Lemma changed_count_other j p0 d0 : j <> i -> count_ok s j p0 d0 -> count_ok (changed p d' i o x s) j p0 d0.
Proof using Hx.
  intros Hne. unfold count_ok. cbn. rewrite list_lookup_insert_ne by done.
  intros [Hc|(H1 & H2 & H3)]; [by left|right]. split; [done|]. split; [done|].
  destruct H3 as [?|[?|(? & ? & Hp)]]; auto. right. right. split; [done|]. split; [done|]. by apply Hx.
Qed.

Lemma changed_slot j : j <> i -> domains_runnable (changed p d' i o x s) !! j = domains_runnable s !! j.
Proof using. intros Hne. cbn. by apply list_lookup_insert_ne. Qed.

Lemma paused_table : pagetable_paddr d <> 0 -> pagetable_paddr d' = pagetable_paddr d \/ is_running d = false.
Proof using Hsp. destruct Hsp as [_ _ _ _ _ [?|[? _]] _]; auto. Qed.

Lemma changed_idle_valid c p0 : idle_domain s !! c = Some (Some p0) ->
  exists d0, doms (changed p d' i o x s) !! p0 = Some d0 /\ domID d0 = DOMID_IDLE /\ processor d0 = c /\ pagetable_paddr d0 <> 0.
Proof using Hok Hi E.
  intros Hidle. destruct (idle_valid s Hok c p0 Hidle) as (d0 & E0 & Hid & Hc & Ht). exists d0. cbn.
  rewrite lookup_insert_ne; [by auto|]. intros <-. rewrite E in E0. injection E0 as <-.
  by destruct (hyp_slot s i p d Hok Hi E) as (_ & _ & []).
Qed.

Lemma changed_cur_valid c : online s c -> exists p0 d0, current_domain s !! c = Some (Some p0) /\
  doms (changed p d' i o x s) !! p0 = Some d0 /\ processor d0 = c /\ runstate d0 = RUNSTATE_running /\ is_running d0 = true /\
  (domID d0 <> DOMID_IDLE -> vttbr_el2 s !! c = Some (pagetable_paddr d0)) /\ pagetable_paddr d0 <> 0.
Proof using Hok E Hsp.
  intros Hon. destruct (cur_valid s Hok c Hon) as (p0 & d1 & Hc & E0 & Hp & Hr & Hrun & Ht & Ht0).
  destruct (changed_put p0 d1 E0) as (d0 & E0' & _ & Hp0 & Hcase). exists p0, d0.
  destruct Hcase as [(-> & -> & ->)|(Hne & ->)]; [|by auto 10].
  destruct Hsp as [H1 _ _ H4 H5 [H6|[H6 _]] _]; [|congruence]. rewrite H6, H1.
  split; [done|]. split; [done|]. split; [congruence|]. split; [by apply H4|]. split; [congruence|]. done.
Qed.

Lemma changed_tables p1 p2 d1 d2 : doms (changed p d' i o x s) !! p1 = Some d1 -> doms (changed p d' i o x s) !! p2 = Some d2 ->
  processor d1 = processor d2 -> pagetable_paddr d1 = pagetable_paddr d2 -> pagetable_paddr d1 <> 0 -> p1 = p2.
Proof using Hok E Hsp.
  intros E1 E2 Hp Ht H0. destruct (decide (p1 = p2)) as [|Hne]; [done|].
  destruct (changed_get p1 d1 E1) as (e1 & E1' & _ & P1 & _ & _ & _ & C1).
  destruct (changed_get p2 d2 E2) as (e2 & E2' & _ & P2 & _ & _ & _ & C2).
  destruct Hsp as [_ _ _ _ _ Htab _].
  destruct C1 as [(-> & -> & ->)|(N1 & ->)], C2 as [(-> & -> & ->)|(N2 & ->)]; [done|..].
  - destruct Htab as [Htab|(_ & Htab & _)]; [|by destruct (Htab p2 e2 E2' N2)].
    apply (tables_distinct s Hok p p2 d e2); congruence.
  - destruct Htab as [Htab|(_ & Htab & _)]; [|by destruct (Htab p1 e1 E1' N1)].
    apply (tables_distinct s Hok p1 p e1 d); congruence.
  - by apply (tables_distinct s Hok p1 p2 e1 e2).
Qed.

Lemma changed_apart r : apart (doms s) r -> (forall t, unseen s t -> r !! TTBR1_EL1 <> Some t) -> apart (doms (changed p d' i o x s)) r.
Proof using E Hsp.
  intros (t & Ht & Hm) Hr. exists t. split; [done|]. intros p0 d0 E0 H0. destruct (changed_get p0 d0 E0) as (d1 & E1 & _ & _ & _ & _ & _ & [(-> & -> & ->)|(_ & ->)]); [|by apply (Hm p0)].
  destruct Hsp as [_ _ _ _ _ [Htab|(_ & _ & Htab)] _]; [rewrite Htab in H0 |- *; by apply (Hm p)|]. intros Et; subst t. by apply (Hr _ Htab).
Qed.

Lemma changed_inv : hyp_ok (changed p d' i o x s).
Proof using All.
  destruct (hyp_slot s i p d Hok Hi E) as (Hid & Hil & Hnidle).
  assert (Hcpu0 : ME_CPU <> AGENCY_CPU) by done.
  split; cbn [domains idle_domain current_domain domains_runnable current_dom flip_data agency_data vttbr_el2 sysregs gic_event hsoft
    changed set_hsoft with_runnable with_doms online].
  all: try (first [exact (len_domains s Hok)|exact (len_idle s Hok)|exact (len_current s Hok)|exact (len_vttbr s Hok)|
    exact (len_sysregs s Hok)|exact (len_gic s Hok)|exact (flip_unlocked s Hok)|exact (agency_unlocked s Hok)|
    exact (cur_range s Hok)|exact (agency_exists s Hok)|exact changed_idle_valid|exact changed_cur_valid|exact changed_tables]).
  - rewrite length_insert. exact (len_runnable s Hok).
  - apply Hx.
  - intros j p0 Hj. destruct (dom_valid s Hok j p0 Hj) as (d1 & E1 & Hd1).
    destruct (changed_put p0 d1 E1) as (d0 & E0 & Hd0 & _). exists d0. split; [done|congruence].
  - intros p0 d0 E0. destruct (changed_get p0 d0 E0) as (d1 & E1 & Hd & Hp & _).
    destruct (dom_owner s Hok p0 d1 E1) as [(j & Hj & Hj')|[Hj Hj']]; [left; exists j|right]; rewrite ?Hp; split; congruence.
  - intros p0 d0 E0. destruct (changed_get p0 d0 E0) as (d1 & E1 & _ & Hp & Hq & _). rewrite Hp, Hq. by apply (dom_policy s Hok p0).
  - intros p0 d0 E0 Hr. destruct (changed_get p0 d0 E0) as (d1 & E1 & _ & Hp & _ & H4 & H5 & _). rewrite Hp.
    apply (run_current s Hok p0 d1 E1). rewrite <- H4, <- H5. done.
  - intros p0 d0 H0 E0. destruct (agency_table s Hok p0) with (d := match doms s !! p0 with Some z => z | None => d end) as [Ha Hb]; [done|..].
    { destruct (changed_get p0 d0 E0) as (d1 & E1 & _). by rewrite E1. }
    destruct (changed_get p0 d0 E0) as (d1 & E1 & _ & Hp & _ & _ & _ & Hc). rewrite E1 in Ha, Hb.
    destruct Hc as [(-> & -> & ->)|(_ & ->)]; [congruence|done].
  - intros j Hj. change (domains_runnable (changed p d' i o x s) !! j = Some None).
    rewrite changed_slot by congruence. by apply (slot_empty s Hok).
  - intros j p0 d0 Hj E0 Hne. change (domains_runnable (changed p d' i o x s) !! j = Some None).
    destruct (changed_get p0 d0 E0) as (d1 & E1 & _ & Hp & _ & _ & _ & Hc).
    destruct Hc as [(-> & -> & ->)|(Hn & ->)]; [congruence|].
    rewrite changed_slot by congruence. by apply (slot_agency s Hok j p0 d1).
  - intros j p0 d0 Hj E0 Hme. destruct (changed_get p0 d0 E0) as (d1 & E1 & _ & Hp & _ & _ & _ & Hc).
    destruct Hc as [(-> & -> & ->)|(Hn & ->)].
    + by rewrite (slot_inj s j i p Hok Hj Hi).
    + apply changed_count_other; [congruence|]. by apply (slot_flip s Hok).
  - intros Hme p0 d0 Hc E0. destruct (changed_get p0 d0 E0) as (d1 & E1 & Hd & _). rewrite Hd. by apply (flip_cur s Hok Hme p0).
  - intros c0 r0 Hr. apply changed_apart; [by apply (regs_apart s Hok c0)|]. intros t [Hu _]. by apply (Hu c0).
  - intros p0 d0 E0. destruct (changed_get p0 d0 E0) as (d1 & E1 & _ & _ & _ & _ & _ & Hc).
    assert (Hv : vcpu d0 = vcpu d1) by (destruct Hc as [(-> & -> & ->)|(_ & ->)]; [apply Hsp|done]). rewrite Hv.
    apply changed_apart; [by apply (vcpu_apart s Hok p0)|]. intros t [_ Hu]. by apply (Hu p0).
Qed.
End changed.

(** *** The choice of the round robin *)

(** The [k]-th slot looked at after slot [c], if it holds a domain. *)
Definition flip_probe (l : list (option Z)) (c k : nat) : option (nat * Z) :=
  let j := ((c + k + 1) mod MAX_DOMAINS)%nat in
  match l !! j with Some (Some p) => Some (j, p) | _ => None end.
(** The first slot in use after [current_dom], round the table. *)
Definition flip_next (l : list (option Z)) (c : nat) : option (nat * Z) := for_ret MAX_DOMAINS (flip_probe l c).

Lemma runnable_dom s i p : hyp_ok s -> domains_runnable s !! i = Some (Some p) ->
  domains s !! i = Some (Some p) /\ exists d, doms s !! p = Some d /\ processor d = ME_CPU /\ pause_count d = 0 /\ pagetable_paddr d <> 0.
Proof.
  intros Hok Hr. assert (Hl : (i < MAX_DOMAINS)%nat) by (rewrite <- (len_runnable s Hok); by eapply lookup_lt_Some).
  destruct (lookup_lt_is_Some_2 (domains s) i) as [[p0|] Hi]; [rewrite (len_domains s Hok); lia| |].
  2: { rewrite (slot_empty s Hok i Hi) in Hr. done. }
  destruct (dom_valid s Hok i p0 Hi) as (d & E & _).
  destruct (decide (processor d = ME_CPU)) as [Hme|Hne].
  2: { rewrite (slot_agency s Hok i p0 d Hi E Hne) in Hr. done. }
  destruct (slot_flip s Hok i p0 d Hi E Hme) as [(Hc & Hr' & _ & Ht & _ & _)|(_ & Hr' & _)]; [|congruence].
  assert (p0 = p) as -> by congruence. split; [done|]. exists d. done.
Qed.

Lemma mod_step c k : (((c + k) mod MAX_DOMAINS + 1) mod MAX_DOMAINS = (c + k + 1) mod MAX_DOMAINS)%nat.
Proof. unfold MAX_DOMAINS. rewrite Nat.Div0.add_mod_idemp_l. done. Qed.

(** The choice depends on the tables only. *)
Record same_tables (s s' : hyp) : Prop := {
  st_doms : doms s' = doms s;
  st_domains : domains s' = domains s;
  st_idle : idle_domain s' = idle_domain s;
  st_runnable : domains_runnable s' = domains_runnable s;
  st_cur : current_dom s' = current_dom s
}.

Lemma flip_loop_run s s' c n k : hyp_ok s -> same_tables s s' ->
  flip_loop n ME_CPU (set_current_dom ((c + k) mod MAX_DOMAINS) s') =
  match for_ret_from k n (flip_probe (domains_runnable s) c) with
  | Some (j, p) => Ret (Some p, set_current_dom j s')
  | None => Ret (None, set_current_dom ((c + k + n) mod MAX_DOMAINS) s')
  end.
Proof.
  intros Hok Hv. revert k. induction n as [|n IH]; intros k; [cbn [flip_loop for_ret_from]; by rewrite Nat.add_0_r|].
  cbn [flip_loop for_ret_from]. kstep. kstep. kstep. cbn [current_dom set_current_dom domains_runnable].
  rewrite mod_step, (st_runnable _ _ Hv). unfold flip_probe at 1. set (j := ((c + k + 1) mod MAX_DOMAINS)%nat).
  assert (Hj : (j < length (domains_runnable s))%nat).
  { rewrite (len_runnable s Hok). apply Nat.mod_upper_bound. done. }
  destruct (lookup_lt_is_Some_2 _ _ Hj) as [o Ho]. rewrite Ho. kstep.
  change (set_current_dom j (set_current_dom ((c + k) mod MAX_DOMAINS) s')) with (set_current_dom j s').
  destruct o as [p|].
  - destruct (runnable_dom s j p Hok Ho) as (_ & d & E & Hme & _). rewrite <- (st_doms _ _ Hv) in E.
    erewrite kbind_ret by (apply dom_of_run; exact E). cbn beta. by rewrite Hme, Nat.eqb_refl.
  - replace j with ((c + S k) mod MAX_DOMAINS)%nat by (unfold j; f_equal; lia).
    rewrite IH. replace (c + S k + n)%nat with (c + k + S n)%nat by lia. done.
Qed.

Lemma flip_loop_all s s' : hyp_ok s -> same_tables s s' ->
  flip_loop MAX_DOMAINS ME_CPU s' =
  match flip_next (domains_runnable s) (current_dom s) with
  | Some (j, p) => Ret (Some p, set_current_dom j s')
  | None => Ret (None, s')
  end.
Proof.
  intros Hok Hv. pose proof (st_cur _ _ Hv) as Hcur.
  assert (Hs : set_current_dom ((current_dom s + 0) mod MAX_DOMAINS) s' = s').
  { rewrite Nat.add_0_r, Nat.mod_small by apply (cur_range s Hok). rewrite <- Hcur. by destruct s'. }
  pose proof (flip_loop_run s s' (current_dom s) MAX_DOMAINS 0 Hok Hv) as Hrun. rewrite Hs in Hrun. rewrite Hrun.
  unfold flip_next, for_ret. destruct (for_ret_from 0 MAX_DOMAINS _) as [[j p]|]; [done|].
  rewrite Nat.add_0_r. replace ((current_dom s + MAX_DOMAINS) mod MAX_DOMAINS)%nat with (current_dom s).
  - rewrite <- Hcur. by destruct s'.
  - pose proof (cur_range s Hok). unfold MAX_DOMAINS in *. rewrite <- (Nat.mul_1_l 7) at 1. by rewrite Nat.Div0.mod_add, Nat.mod_small.
Qed.

Lemma flip_next_Some l c j p : flip_next l c = Some (j, p) ->
  l !! j = Some (Some p) /\ exists k, (k < MAX_DOMAINS)%nat /\ j = ((c + k + 1) mod MAX_DOMAINS)%nat /\
    (forall k', (k' < k)%nat -> forall q, l !! ((c + k' + 1) mod MAX_DOMAINS)%nat <> Some (Some q)).
Proof.
  unfold flip_next. rewrite for_ret_Some. intros (k & Hk & Hf & Hn). unfold flip_probe in *.
  destruct (l !! _) as [[q|]|] eqn:El; simplify_eq. split; [done|]. exists k. split; [done|]. split; [done|].
  intros k' Hk' q Hq. specialize (Hn k' Hk'). by rewrite Hq in Hn.
Qed.

Lemma flip_next_None l c : (c < MAX_DOMAINS)%nat -> flip_next l c = None -> forall j p, (j < MAX_DOMAINS)%nat -> l !! j <> Some (Some p).
Proof.
  intros Hc. unfold flip_next. rewrite for_ret_None. intros Hn j p Hj Hl.
  specialize (Hn ((j + MAX_DOMAINS - c - 1) mod MAX_DOMAINS)%nat). unfold flip_probe in Hn.
  replace ((c + (j + MAX_DOMAINS - c - 1) mod MAX_DOMAINS + 1) mod MAX_DOMAINS)%nat with j in Hn.
  - rewrite Hl in Hn. assert (Some (j, p) = None) by (apply Hn; by apply Nat.mod_upper_bound). done.
  - unfold MAX_DOMAINS in *. replace (c + (j + 7 - c - 1) mod 7 + 1)%nat with ((j + 7 - c - 1) mod 7 + (c + 1))%nat by lia.
    rewrite Nat.Div0.add_mod_idemp_l. replace (j + 7 - c - 1 + (c + 1))%nat with (j + 1 * 7)%nat by lia.
    by rewrite Nat.Div0.mod_add, Nat.mod_small.
Qed.

(** What either policy chooses on its CPU, and the slot it stops at. *)
Definition choose (cpu : nat) (s : hyp) : option Z * nat :=
  if Nat.eqb cpu ME_CPU then
    match flip_next (domains_runnable s) (current_dom s) with
    | Some (j, p) => (Some p, j)
    | None => (mjoin (idle_domain s !! cpu), current_dom s)
    end
  else (mjoin (if Nat.eqb cpu AGENCY_CPU then domains s !! 0%nat else idle_domain s !! cpu), current_dom s).
Definition time_slice (cpu : nat) (s : hyp) : Z :=
  if Nat.eqb cpu ME_CPU then if Nat.leb (flip_quant_runnable (domains_runnable s)) 1 then 0 else SCHEDFREQ else 0.

Lemma online_cpu s cpu : hyp_ok s -> online s cpu -> (cpu < NR_CPUS)%nat.
Proof.
  intros Hok [p Hp]. rewrite <- (len_idle s Hok). destruct (idle_domain s !! cpu) eqn:Ei; [|done]. by eapply lookup_lt_Some.
Qed.

Lemma online_policy s cpu : hyp_ok s -> online s cpu -> exists q, policy_for cpu = Some q.
Proof.
  intros Hok Hon. destruct (cur_valid s Hok cpu Hon) as (p & d & _ & E & Hc & _).
  destruct (dom_policy s Hok p d E) as (q & _ & Hq). rewrite Hc in Hq. eauto.
Qed.

Lemma idle_of_run s cpu : online s cpu -> idle_of cpu s = Ret (mjoin (idle_domain s !! cpu), s).
Proof. intros [p Hp]. unfold idle_of. kstep. destruct (idle_domain s !! cpu) as [o|]; [|done]. reflexivity. Qed.

Lemma do_schedule_run s s' cpu q : hyp_ok s -> same_tables s s' -> online s cpu -> policy_for cpu = Some q ->
  do_schedule q cpu s' = Ret (((choose cpu s).1, time_slice cpu s), set_current_dom (choose cpu s).2 s').
Proof.
  intros Hok Hv Hon Hq. unfold policy_for in Hq. unfold choose, time_slice.
  assert (Hs : set_current_dom (current_dom s) s' = s') by (rewrite <- (st_cur _ _ Hv); by destruct s').
  assert (Hidle : idle_of cpu s' = Ret (mjoin (idle_domain s !! cpu), s')).
  { rewrite <- (st_idle _ _ Hv). apply idle_of_run. unfold online. by rewrite (st_idle _ _ Hv). }
  destruct (Nat.eqb_spec cpu ME_CPU) as [->|Hne].
  - injection Hq as <-. cbn [do_schedule]. unfold flip_do_schedule. pose proof (flip_loop_all s s' Hok Hv) as Hl.
    pose proof (st_runnable _ _ Hv) as Hrn. destruct (flip_next _ _) as [[j p]|].
    + erewrite kbind_ret by exact Hl. kstep. kstep. cbn. by rewrite Hrn.
    + erewrite kbind_ret by exact Hl. cbn beta. erewrite kbind_ret by exact Hidle. kstep. cbn. by rewrite Hs, Hrn.
  - destruct (Nat.eqb cpu AGENCY_CPU) eqn:Ha; cbn [orb] in Hq.
    + injection Hq as <-. cbn [do_schedule]. unfold agency_schedule. rewrite Ha. pose proof (agency_exists s Hok) as [p Hp].
      destruct (domains s !! 0%nat) as [o|] eqn:E0; [|done]. cbn in Hp |- *. subst.
      unfold mbind, kern_bind, gets, lift. rewrite (st_domains _ _ Hv), E0. cbn. by rewrite Hs.
    + destruct (Nat.eqb cpu AGENCY_RT_CPU); [|done]. injection Hq as <-. cbn [do_schedule]. unfold agency_schedule. rewrite Ha.
      erewrite kbind_ret by exact Hidle. cbn. by rewrite Hs.
Qed.

Record chosen (s : hyp) (cpu : nat) (n : Z) (dn : domain) (c : nat) : Prop := {
  ch_dom : doms s !! n = Some dn;
  ch_cpu : processor dn = cpu;
  ch_table : pagetable_paddr dn <> 0;
  ch_range : (c < MAX_DOMAINS)%nat;
  ch_me : cpu = ME_CPU -> domID dn = DOMID_IDLE \/
    (domID dn = Z.of_nat c /\ domains_runnable s !! c = Some (Some n) /\ domains s !! c = Some (Some n) /\ pause_count dn = 0);
  ch_other : cpu <> ME_CPU -> c = current_dom s
}.

Lemma choose_ok s cpu : hyp_ok s -> online s cpu ->
  exists n dn, (choose cpu s).1 = Some n /\ chosen s cpu n dn (choose cpu s).2.
Proof.
  intros Hok Hon. pose proof (cur_range s Hok) as Hcr.
  assert (Hidle : exists n dn, mjoin (idle_domain s !! cpu) = Some n /\ chosen s cpu n dn (current_dom s)).
  { destruct Hon as [n Hn]. destruct (idle_domain s !! cpu) as [[n'|]|] eqn:Ei; simplify_eq/=.
    destruct (idle_valid s Hok cpu n Ei) as (dn & E & Hid & Hc & Ht). exists n, dn. split; [done|]. split; auto. }
  unfold choose. destruct (Nat.eqb_spec cpu ME_CPU) as [->|Hne].
  - destruct (flip_next _ _) as [[j p]|] eqn:Hf; [|done].
    apply flip_next_Some in Hf as (Hl & _). destruct (runnable_dom s j p Hok Hl) as (Hd & d & E & Hc & Hp & Ht).
    destruct (hyp_slot s j p d Hok Hd E) as (Hid & Hj & _).
    exists p, d. split; [done|]. split; auto. done.
  - destruct (Nat.eqb_spec cpu AGENCY_CPU) as [->|Hna]; [|done].
    destruct (agency_exists s Hok) as [p Hp]. destruct (domains s !! 0%nat) as [[p'|]|] eqn:E0; simplify_eq/=.
    destruct (dom_valid s Hok 0 p E0) as (d & E & _). destruct (agency_table s Hok p d E0 E) as [Hc Ht].
    exists p, d. split; [done|]. by split.
Qed.

(** *** Switching to another domain *)
Definition timed (q : policy) (t : Z) (s : hyp) : hyp :=
  with_sched_data q (fun _ => SchedData false (if 0 <? t then Some (now s + t * 1000000) else None)) s.
Definition descheduled (d : domain) : Z :=
  if blocked d then RUNSTATE_blocked else if is_dying d then RUNSTATE_offline else RUNSTATE_runnable.
Definition out_dom (r : list Z) (d : domain) : domain := set_running false (set_vcpu r (set_runstate (descheduled d) d)).
Definition in_dom (d : domain) : domain := set_running true (set_runstate RUNSTATE_running d).
Definition switched (cpu : nat) (prev : Z) (dp : domain) (next : Z) (dn : domain) (r : list Z) (s : hyp) : hyp :=
  with_gic <[cpu := evtchn_upcall_pending dn]>
    (with_sysregs <[cpu := vcpu dn]>
      (with_vttbr <[cpu := pagetable_paddr dn]>
        (with_current <[cpu := Some next]>
          (with_doms (fun m => <[prev := out_dom r dp]> (<[next := in_dom dn]> m)) s)))).

Lemma context_switch_run s cpu prev dp next dn r t q : doms s !! prev = Some dp -> doms s !! next = Some (in_dom dn) -> prev <> next ->
  sysregs s !! cpu = Some r -> r !! TTBR1_EL1 = Some t -> t <> pagetable_paddr dn -> current_domain s !! cpu = Some (Some prev) ->
  sched dp = Some q ->
  context_switch cpu prev next s = Ret (tt, locked q false
    (with_gic <[cpu := evtchn_upcall_pending dn]> (with_sysregs <[cpu := vcpu dn]> (with_vttbr <[cpu := pagetable_paddr dn]>
      (with_current <[cpu := Some next]> (with_doms <[prev := set_running false (set_vcpu r dp)]> s)))))).
Proof.
  intros Ep En Hne Hr Ht Htn Hc Hq. unfold context_switch.
  set (s1 := with_doms <[prev := set_vcpu r dp]> s).
  erewrite (kbind_ret _ _ _ tt s1).
  2: { unfold vcpu_save_context. kstep. erewrite kbind_ret by (rewrite Hr; reflexivity). cbn beta. by apply upd_run. }
  cbn beta. assert (En1 : doms s1 !! next = Some (in_dom dn)) by (cbn; by rewrite lookup_insert_ne).
  set (s2 := with_vttbr <[cpu := pagetable_paddr dn]> (with_current <[cpu := Some next]> s1)).
  erewrite (kbind_ret _ _ _ tt s2).
  2: { unfold switch_mm_domain. kstep. erewrite kbind_ret by (cbn; rewrite Hr; reflexivity). cbn beta. erewrite kbind_ret by (rewrite Ht; reflexivity). cbn beta.
    erewrite kbind_ret by (by apply dom_of_run). cbn beta. rewrite (proj2 (Z.eqb_neq _ _)) by exact Htn. reflexivity. }
  cbn beta. set (s3 := with_gic <[cpu := evtchn_upcall_pending dn]> (with_sysregs <[cpu := vcpu dn]> s2)).
  erewrite (kbind_ret _ _ _ tt s3).
  2: { unfold vcpu_restore_context. erewrite kbind_ret by (apply dom_of_run; exact En1). cbn beta. kstep. kstep.
    erewrite kbind_ret.
    2: { apply current_run. cbn. apply list_lookup_insert_eq. by eapply lookup_lt_Some. }
    cbn beta. erewrite kbind_ret by (apply dom_of_run; exact En1). cbn beta.
    unfold s3. cbn [evtchn_upcall_pending in_dom set_running set_runstate vcpu].
    destruct (evtchn_upcall_pending dn); cbn [when]; [|reflexivity].
    unfold modify. f_equal. f_equal. unfold with_gic. cbn. by rewrite list_insert_insert_eq. }
  cbn beta. assert (Ep3 : doms s3 !! prev = Some (set_vcpu r dp)) by (cbn; by rewrite lookup_insert_eq).
  erewrite kbind_ret by (by apply upd_run). cbn beta.
  erewrite kbind_ret. 2: { eapply policy_of_run; [cbn; apply lookup_insert_eq|exact Hq]. }
  cbn beta. unfold lock_set, modify. f_equal. f_equal. unfold s3, s2, s1, locked, with_doms. cbn. by rewrite insert_insert_eq.
Qed.

(** The scheduler's data while it decides: locked, its timer armed for [t]. *)
Definition deciding (q : policy) (t : Z) (c : nat) (s : hyp) : hyp :=
  with_sched_data q (fun _ => SchedData true (if 0 <? t then Some (now s + t * 1000000) else None)) (set_current_dom c s).

Lemma locked_deciding q t c s : locked q false (deciding q t c s) = timed q t (set_current_dom c s).
Proof. by destruct q. Qed.

Lemma deciding_view q t c s : doms (deciding q t c s) = doms s /\ sysregs (deciding q t c s) = sysregs s /\
  vttbr_el2 (deciding q t c s) = vttbr_el2 s /\ current_domain (deciding q t c s) = current_domain s.
Proof. by destruct q. Qed.

(** From the decision to the context switch: [prev] gives way to [next]. *)
Lemma switch_run s cpu p dp n dn r u t q c : doms s !! p = Some dp -> doms s !! n = Some dn -> p <> n ->
  runstate dp = RUNSTATE_running -> runstate dn <> RUNSTATE_running -> is_running dn = false -> sched dp = Some q ->
  sysregs s !! cpu = Some r -> r !! TTBR1_EL1 = Some u -> u <> pagetable_paddr dn ->
  current_domain s !! cpu = Some (Some p) ->
  (x ← dom_of p;
   lift (assert_k (runstate x =? RUNSTATE_running));;
   domain_runstate_change p
     (if Z.testbit (pause_flags x) VPF_blocked then RUNSTATE_blocked
      else if is_dying x then RUNSTATE_offline else RUNSTATE_runnable);;
   z ← dom_of n;
   lift (assert_k (negb (runstate z =? RUNSTATE_running)));;
   domain_runstate_change n RUNSTATE_running;;
   lift (assert_k (negb (is_running z)));;
   upd n (set_running true);;
   context_switch cpu p n) (deciding q t c s) =
  Ret (tt, switched cpu p dp n dn r (timed q t (set_current_dom c s))).
Proof.
  intros Ep En Hne Rp Rn Ru Hq Hr Ht Htn Hc.
  destruct (deciding_view q t c s) as (Hv1 & Hv2 & Hv3 & Hv4). set (s4 := deciding q t c s) in *.
  rewrite <- Hv1 in Ep, En. rewrite <- Hv2 in Hr. rewrite <- Hv4 in Hc.
  erewrite kbind_ret by (by apply dom_of_run). cbn beta. rewrite Rp. kstep.
  fold (blocked dp). fold (descheduled dp).
  erewrite kbind_ret.
  2: { apply runstate_change_run; [exact Ep|]. right. rewrite Rp. unfold descheduled. by destruct (blocked dp), (is_dying dp). }
  cbn beta. erewrite kbind_ret. 2: { apply dom_of_run. cbn. rewrite lookup_insert_ne by done. exact En. }
  cbn beta. rewrite (proj2 (Z.eqb_neq _ _)) by exact Rn. kstep.
  erewrite kbind_ret. 2: { apply runstate_change_run; [cbn; rewrite lookup_insert_ne by done; exact En|by right]. }
  cbn beta. rewrite Ru. kstep.
  erewrite kbind_ret. 2: { apply upd_run. apply lookup_insert_eq. }
  cbn beta. fold (in_dom dn).
  erewrite (context_switch_run _ cpu p (set_runstate (descheduled dp) dp) n dn r u q); cbn.
  - unfold switched, locked, timed, out_dom. destruct q; unfold s4, deciding, with_doms; cbn; do 3 f_equal;
      by rewrite !(insert_insert_ne _ p n), !insert_insert_eq by done.
  - rewrite !lookup_insert_ne by done. apply lookup_insert_eq.
  - by rewrite lookup_insert_eq.
  - done.
  - exact Hr.
  - exact Ht.
  - exact Htn.
  - exact Hc.
  - exact Hq.
Qed.

Lemma domain_schedule_run s x cpu : hyp_ok s -> online s cpu ->
  exists p dp n dn q r, current_domain s !! cpu = Some (Some p) /\ doms s !! p = Some dp /\ (choose cpu s).1 = Some n /\
    chosen s cpu n dn (choose cpu s).2 /\ policy_for cpu = Some q /\ sysregs s !! cpu = Some r /\
    let s' := timed q (time_slice cpu s) (set_current_dom (choose cpu s).2 (set_hsoft x s)) in
    domain_schedule cpu (set_hsoft x s) = Ret (tt, if p =? n then s' else switched cpu p dp n dn r s').
Proof.
  intros Hok Hon. destruct (choose_ok s cpu Hok Hon) as (n & dn & Hn & Hch).
  destruct (cur_valid s Hok cpu Hon) as (p & dp & Hcur & Ep & Hpc & Rp & Up & Htab & Ht0).
  destruct (dom_policy s Hok p dp Ep) as (q & Hq & Hpq). rewrite Hpc in Hpq.
  destruct (lookup_lt_is_Some_2 (sysregs s) cpu) as [r Hr]; [rewrite (len_sysregs s Hok); by apply (online_cpu s)|].
  exists p, dp, n, dn, q, r. do 6 (split; [done|]). cbv zeta. destruct Hch as [En Hnc Htn Hcr Hme Hoth].
  destruct (dom_policy s Hok n dn En) as (q' & Hq' & Hpq'). rewrite Hnc, Hpq in Hpq'. injection Hpq' as <-.
  unfold domain_schedule. erewrite kbind_ret by (apply current_run; exact Hcur). cbn beta.
  erewrite kbind_ret by (apply dom_of_run; exact Ep). cbn beta. rewrite Rp. kstep.
  erewrite kbind_ret by (eapply policy_of_run; [exact Ep|exact Hq]). cbn beta. kstep.
  assert (Hul : schedule_lock (data_of q (set_hsoft x s)) = false).
  { destruct q; [exact (flip_unlocked s Hok)|exact (agency_unlocked s Hok)]. }
  rewrite Hul. cbn [negb when]. kstep. kstep.
  erewrite kbind_ret by (apply (do_schedule_run s); [done|by destruct q|done|done]). cbn beta. cbn [fst snd].
  rewrite Hn. kstep.
  erewrite kbind_ret by (eapply policy_of_run; [destruct q; exact En|exact Hq']). cbn beta. kstep.
  erewrite (kbind_ret _ _ _ tt (deciding q (time_slice cpu s) (choose cpu s).2 (set_hsoft x s))).
  2: { unfold deciding. destruct q; cbn; by destruct (0 <? time_slice cpu s). }
  cbn beta. destruct (Z.eqb_spec p n) as [->|Hne].
  - kstep. change (with_sched_data q (fun x0 => SchedData false (s_timer x0)) (deciding q (time_slice cpu s) (choose cpu s).2 (set_hsoft x s)))
      with (locked q false (deciding q (time_slice cpu s) (choose cpu s).2 (set_hsoft x s))). rewrite locked_deciding.
    erewrite kbind_ret by (apply dom_of_run; destruct q; exact Ep). cbn beta. by rewrite Rp.
  - assert (Hnr : ~ (runstate dn = RUNSTATE_running \/ is_running dn = true)).
    { intros Hrun. destruct (run_current s Hok n dn En Hrun) as [_ Hc']. rewrite Hnc, Hcur in Hc'. congruence. }
    destruct (regs_apart s Hok cpu r Hr) as (u & Hu & Hap).
    apply (switch_run _ cpu p dp n dn r u); try done; [tauto|by destruct (is_running dn); [destruct Hnr; auto|]|].
    intros ->. by apply (Hap n dn En Htn).
Qed.

(** *** Preservation of the invariant by a decision *)
Section decision.
Context (s : hyp) (x : softirq) (cpu : nat) (q : policy) (t : Z) (c : nat) (p : Z) (dp : domain) (n : Z) (dn : domain).
Hypothesis Hok : hyp_ok s.
Hypothesis Hon : online s cpu.
Hypothesis Hcur : current_domain s !! cpu = Some (Some p).
Hypothesis Ep : doms s !! p = Some dp.
Hypothesis Hch : chosen s cpu n dn c.
Hypothesis Hx : soft_ok x.
Hypothesis Hxp : cpu <> ME_CPU -> pending s ME_CPU SCHEDULE_SOFTIRQ -> stat x ME_CPU SCHEDULE_SOFTIRQ = Some true.

Let s1 := timed q t (set_current_dom c (set_hsoft x s)).

(** A container that is paused but still runs is the one that leaves the ME CPU. *)
Lemma count_decided i p0 d0 : domains s !! i = Some (Some p0) -> doms s !! p0 = Some d0 -> processor d0 = ME_CPU ->
  (cpu = ME_CPU -> p0 <> p \/ p = n) -> count_ok s1 i p0 d0.
Proof using Hok Hon Hcur Ep Hch Hxp.
  intros Hi E0 Hme Hp. unfold count_ok. replace (domains_runnable s1) with (domains_runnable s) by (by unfold s1; destruct q).
  replace (pending s1) with (fun a b : nat => stat x a b = Some true) by (by unfold s1; destruct q).
  destruct (slot_flip s Hok i p0 d0 Hi E0 Hme) as [Hc|(H1 & H2 & H3)]; [by left|right]. split; [done|]. split; [done|].
  destruct H3 as [?|[?|(Hr & Hb & Hpd)]]; auto. right. right. split; [done|]. split; [done|].
  destruct (decide (cpu = ME_CPU)) as [->|Hne]; [|by apply Hxp]. exfalso.
  destruct (run_current s Hok p0 d0 E0 (or_introl Hr)) as [_ Hc0]. rewrite Hme, Hcur in Hc0. injection Hc0 as <-.
  destruct (Hp eq_refl) as [?|<-]; [done|].
  destruct Hch as [En _ _ _ Hme' _]. rewrite E0 in En. injection En as <-.
  destruct (hyp_slot s i p d0 Hok Hi E0) as (Hid & _ & Hni).
  destruct (Hme' eq_refl) as [?|(_ & _ & _ & Hz)]; [done|lia].
Qed.

Lemma decided_flip_cur d0 : doms s !! n = Some d0 -> cpu = ME_CPU -> domID d0 = DOMID_IDLE \/ domID d0 = Z.of_nat c.
Proof using Hch.
  intros E0 Hm. destruct Hch as [En _ _ _ Hme _]. rewrite E0 in En. injection En as <-. destruct (Hme Hm) as [?|(? & _)]; auto.
Qed.

Lemma s1_view : doms s1 = doms s /\ domains s1 = domains s /\ idle_domain s1 = idle_domain s /\ current_domain s1 = current_domain s /\
  domains_runnable s1 = domains_runnable s /\ current_dom s1 = c /\ vttbr_el2 s1 = vttbr_el2 s /\ sysregs s1 = sysregs s /\ gic_event s1 = gic_event s /\
  hsoft s1 = x /\ schedule_lock (flip_data s1) = false /\ schedule_lock (agency_data s1) = false.
Proof using Hok.
  pose proof (flip_unlocked s Hok). pose proof (agency_unlocked s Hok). unfold s1, timed. destruct q; cbn; do 10 (split; [done|]); done.
Qed.

Lemma stay_inv : p = n -> hyp_ok s1.
Proof using Hok Hon Hcur Ep Hch Hx Hxp.
  intros Hpn. destruct s1_view as (F0 & F1 & F2 & F3 & F4 & F5 & F6 & F7 & F8 & F9 & F10 & F11).
  split; unfold online; rewrite ?F0, ?F1, ?F2, ?F3, ?F4, ?F5, ?F6, ?F7, ?F8, ?F9; try done.
  all: try (first [exact (len_domains s Hok)|exact (len_idle s Hok)|exact (len_current s Hok)|exact (len_runnable s Hok)|exact (len_vttbr s Hok)|
    exact (len_sysregs s Hok)|exact (len_gic s Hok)|exact (ch_range _ _ _ _ _ Hch)|
    exact (agency_exists s Hok)|exact (idle_valid s Hok)|exact (dom_valid s Hok)|exact (dom_owner s Hok)|exact (dom_policy s Hok)|
    exact (cur_valid s Hok)|exact (run_current s Hok)|exact (tables_distinct s Hok)|exact (agency_table s Hok)|
    exact (slot_empty s Hok)|exact (slot_agency s Hok)|exact (regs_apart s Hok)|exact (vcpu_apart s Hok)]).
  - intros i p0 d0 Hi E0 Hme. exact (count_decided i p0 d0 Hi E0 Hme (fun _ => or_intror Hpn)).
  - intros Hon' p0 d0 Hc0 E0. destruct (decide (cpu = ME_CPU)) as [Hm|Hm].
    + rewrite <- Hm, Hcur in Hc0. injection Hc0 as <-. rewrite Hpn in E0. by apply decided_flip_cur.
    + rewrite (ch_other _ _ _ _ _ Hch Hm). by apply (flip_cur s Hok Hon' p0).
Qed.

Variable (r : list Z).
Hypothesis Hpn : p <> n.
Let s2 := switched cpu p dp n dn r s1.

Lemma dp_facts : processor dp = cpu /\ runstate dp = RUNSTATE_running.
Proof using Hok Hon Hcur Ep.
  destruct (cur_valid s Hok cpu Hon) as (p0 & d0 & H1 & H2 & H3 & H4 & _). rewrite Hcur in H1. injection H1 as <-.
  rewrite Ep in H2. injection H2 as <-. done.
Qed.

Lemma s2_doms p0 : doms s2 !! p0 =
  if decide (p0 = p) then Some (out_dom r dp) else if decide (p0 = n) then Some (in_dom dn) else doms s !! p0.
Proof using.
  replace (doms s2) with (<[p := out_dom r dp]> (<[n := in_dom dn]> (doms s))) by (by unfold s2, s1, switched, timed; destruct q).
  case_decide as H1; [subst; apply lookup_insert_eq|]. rewrite lookup_insert_ne by done.
  case_decide as H2; [subst; apply lookup_insert_eq|]. by rewrite lookup_insert_ne by done.
Qed.

Lemma s2_get p0 d0 : doms s2 !! p0 = Some d0 ->
  exists d1, doms s !! p0 = Some d1 /\ domID d0 = domID d1 /\ processor d0 = processor d1 /\ sched d0 = sched d1 /\
    pagetable_paddr d0 = pagetable_paddr d1 /\ pause_count d0 = pause_count d1 /\ blocked d0 = blocked d1 /\ is_dying d0 = is_dying d1 /\
    (p0 = p /\ d0 = out_dom r dp /\ d1 = dp \/ p0 = n /\ d0 = in_dom dn /\ d1 = dn \/ p0 <> p /\ p0 <> n /\ d0 = d1).
Proof using Ep Hch.
  rewrite s2_doms. destruct Hch as [En _ _ _ _ _]. case_decide as H1; [|case_decide as H2].
  - intros [= <-]. exists dp. subst. do 8 (split; [done|]). by left.
  - intros [= <-]. exists dn. subst. do 8 (split; [done|]). right. by left.
  - intros E0. exists d0. do 8 (split; [done|]). right. by right.
Qed.

Lemma s2_put p0 d1 : doms s !! p0 = Some d1 -> exists d0, doms s2 !! p0 = Some d0 /\ domID d0 = domID d1 /\
  processor d0 = processor d1 /\ pagetable_paddr d0 = pagetable_paddr d1.
Proof using Ep Hch.
  intros E1. rewrite s2_doms. destruct Hch as [En _ _ _ _ _]. case_decide as H1; [|case_decide as H2].
  - subst. rewrite Ep in E1. injection E1 as <-. by eexists.
  - subst. rewrite En in E1. injection E1 as <-. by eexists.
  - by eexists.
Qed.

Lemma s2_current c0 : current_domain s2 !! c0 = if decide (c0 = cpu) then Some (Some n) else current_domain s !! c0.
Proof using Hok Hcur.
  replace (current_domain s2) with (<[cpu := Some n]> (current_domain s)) by (by unfold s2, s1, switched, timed; destruct q).
  case_decide as H1; [subst; apply list_lookup_insert_eq; by eapply lookup_lt_Some|]. by apply list_lookup_insert_ne.
Qed.

Lemma s2_vttbr c0 : (cpu < length (vttbr_el2 s))%nat ->
  vttbr_el2 s2 !! c0 = if decide (c0 = cpu) then Some (pagetable_paddr dn) else vttbr_el2 s !! c0.
Proof using.
  intros Hl. replace (vttbr_el2 s2) with (<[cpu := pagetable_paddr dn]> (vttbr_el2 s)) by (by unfold s2, s1, switched, timed; destruct q).
  case_decide as H1; [subst; by apply list_lookup_insert_eq|]. by apply list_lookup_insert_ne.
Qed.

Lemma s2_cur_valid c0 : online s c0 -> exists p0 d0, current_domain s2 !! c0 = Some (Some p0) /\ doms s2 !! p0 = Some d0 /\
  processor d0 = c0 /\ runstate d0 = RUNSTATE_running /\ is_running d0 = true /\
  (domID d0 <> DOMID_IDLE -> vttbr_el2 s2 !! c0 = Some (pagetable_paddr d0)) /\ pagetable_paddr d0 <> 0.
Proof using Hok Hon Hcur Ep Hch Hpn Hxp.
  intros Hc0. assert (Hlen : (cpu < length (vttbr_el2 s))%nat) by (rewrite (len_vttbr s Hok); by apply (online_cpu s)).
  rewrite s2_current, (s2_vttbr c0 Hlen). case_decide as Hd.
  - exists n, (in_dom dn). rewrite s2_doms, decide_False, decide_True by done. destruct Hch as [_ Hc _ _ _ _].
    subst. split; [done|]. split; [done|]. split; [done|]. split; [done|]. split; [done|]. split; [done|]. apply Hch.
  - destruct (cur_valid s Hok c0 Hc0) as (p0 & d0 & H1 & H2 & H3 & H4 & H5 & H6 & H7). exists p0, d0.
    destruct dp_facts as [Hpc _]. destruct Hch as [En Hnc _ _ _ _].
    rewrite s2_doms, !decide_False by congruence. done.
Qed.

Lemma s2_run_current p0 d0 : doms s2 !! p0 = Some d0 -> runstate d0 = RUNSTATE_running \/ is_running d0 = true ->
  online s (processor d0) /\ current_domain s2 !! processor d0 = Some (Some p0).
Proof using Hok Hon Hcur Ep Hch Hpn.
  intros E0 Hr. destruct (s2_get p0 d0 E0) as (d1 & E1 & _ & Hp & _ & _ & _ & _ & _ & Hc). rewrite s2_current.
  destruct Hc as [(-> & -> & ->)|[(-> & -> & ->)|(N1 & N2 & ->)]].
  - exfalso. destruct Hr as [Hr|Hr]; [|done]. cbn in Hr. unfold descheduled in Hr. by destruct (blocked dp), (is_dying dp).
  - rewrite Hp. destruct Hch as [_ Hnc _ _ _ _]. rewrite Hnc, decide_True by done. done.
  - destruct (run_current s Hok p0 d1 E1 Hr) as [Ho Hc']. split; [done|].
    rewrite decide_False; [done|]. intros Heq. rewrite Heq, Hcur in Hc'. congruence.
Qed.

Lemma s2_count i p0 d0 : domains s !! i = Some (Some p0) -> doms s2 !! p0 = Some d0 -> processor d0 = ME_CPU -> count_ok s2 i p0 d0.
Proof using Hok Hon Hcur Ep Hch Hxp Hpn.
  intros Hi E0 Hme. destruct (s2_get p0 d0 E0) as (d1 & E1 & Hd & Hp & _ & Ht & Hcnt & Hb & Hdy & Hc).
  assert (Hcase : forall d', count_ok s1 i p0 d' -> count_ok s2 i p0 d') by (by unfold s2, s1, switched, timed; destruct q).
  destruct Hc as [(-> & -> & ->)|[(-> & -> & ->)|(N1 & N2 & ->)]].
  - destruct dp_facts as [Hpc Hr]. assert (Hrun : domains_runnable s2 = domains_runnable s) by (by unfold s2, s1, switched, timed; destruct q).
    unfold count_ok. rewrite Hrun, Hcnt, Hb, Ht, Hdy. change (runstate (out_dom r dp)) with (descheduled dp). unfold descheduled.
    destruct (slot_flip s Hok i p dp Hi Ep) as [(C1 & C2 & C3 & C4 & C5 & _)|(C1 & C2 & C3)]; [congruence|left|right].
    + rewrite C3. do 5 (split; [done|]). destruct (is_dying dp); auto.
    + split; [done|]. split; [done|]. destruct C3 as [C3|[C3|(_ & -> & _)]]; [rewrite Hr in C3; done..|by left].
  - destruct (hyp_slot s i n dn Hok Hi E1) as (Hid & _ & Hni). apply Hcase.
    destruct Hch as [_ Hnc Htn _ Hm _]. rewrite Hp, Hnc in Hme. destruct (Hm Hme) as [?|(Hj & Hrn & _ & Hz)]; [done|].
    assert (i = c) as -> by lia. left. replace (domains_runnable s1) with (domains_runnable s) by (by unfold s1; destruct q).
    change (pause_count dn = 0 /\ domains_runnable s !! c = Some (Some n) /\ blocked dn = false /\ pagetable_paddr dn <> 0 /\
      is_paused_by_controller dn = false /\
      (RUNSTATE_running = RUNSTATE_running \/ RUNSTATE_running = RUNSTATE_runnable \/ (RUNSTATE_running = RUNSTATE_offline /\ is_dying dn = true))).
    destruct (slot_flip s Hok c n dn Hi E1) as [(_ & _ & ? & _ & ? & _)|(? & _)]; [congruence| |lia].
    split; [done|]. split; [done|]. split; [done|]. split; [done|]. split; [done|by left].
  - apply Hcase. apply count_decided; try done. intros _. by left.
Qed.

Lemma s2_apart r0 : apart (doms s) r0 -> apart (doms s2) r0.
Proof using Ep Hch. intros Ha. apply (apart_sub _ _ _ Ha). intros p0 d0 E0 _. destruct (s2_get p0 d0 E0) as (d1 & E1 & _ & _ & _ & Ht & _). by exists p0, d1. Qed.

Hypothesis Hreg : sysregs s !! cpu = Some r.
Lemma switched_inv : hyp_ok s2.
Proof using Hok Hon Hcur Ep Hch Hx Hxp Hpn Hreg.
  destruct s1_view as (_ & F1 & F2 & _ & F3 & F4 & _ & _ & _ & F5 & F6 & F7).
  change (domains s1) with (domains s2) in F1. change (idle_domain s1) with (idle_domain s2) in F2.
  change (domains_runnable s1) with (domains_runnable s2) in F3. change (current_dom s1) with (current_dom s2) in F4.
  change (hsoft s1) with (hsoft s2) in F5.
  assert (Hlens : length (current_domain s2) = NR_CPUS /\ length (vttbr_el2 s2) = NR_CPUS /\ length (sysregs s2) = NR_CPUS /\ length (gic_event s2) = NR_CPUS).
  { unfold s2, s1, switched, timed. destruct q; cbn; rewrite !length_insert;
      split; [exact (len_current s Hok)|split; [exact (len_vttbr s Hok)|split; [exact (len_sysregs s Hok)|exact (len_gic s Hok)]]
             |exact (len_current s Hok)|split; [exact (len_vttbr s Hok)|split; [exact (len_sysregs s Hok)|exact (len_gic s Hok)]]]. }
  destruct Hlens as (L1 & L2 & L3 & L4).
  split; unfold online; rewrite ?F1, ?F2, ?F3, ?F4, ?F5; try done.
  all: try (first [exact (len_domains s Hok)|exact (len_idle s Hok)|exact (len_runnable s Hok)|exact (agency_exists s Hok)|
    exact (slot_empty s Hok)|exact (ch_range _ _ _ _ _ Hch)|exact s2_cur_valid|exact s2_run_current|exact s2_count]).
  - intros c0 p0 Hc0. destruct (idle_valid s Hok c0 p0 Hc0) as (d1 & E1 & H1 & H2 & H3).
    destruct (s2_put p0 d1 E1) as (d0 & E0 & H4 & H5 & H6). exists d0. split; [done|]. split; [congruence|]. split; congruence.
  - intros i p0 Hi. destruct (dom_valid s Hok i p0 Hi) as (d1 & E1 & H1).
    destruct (s2_put p0 d1 E1) as (d0 & E0 & H4 & _). exists d0. split; [done|congruence].
  - intros p0 d0 E0. destruct (s2_get p0 d0 E0) as (d1 & E1 & Hd & Hp & _). rewrite Hd, Hp. by apply (dom_owner s Hok).
  - intros p0 d0 E0. destruct (s2_get p0 d0 E0) as (d1 & E1 & _ & Hp & Hq & _). rewrite Hp, Hq. by apply (dom_policy s Hok p0).
  - intros p1 p2 d1 d2 E1 E2. destruct (s2_get p1 d1 E1) as (e1 & G1 & _ & P1 & _ & T1 & _).
    destruct (s2_get p2 d2 E2) as (e2 & G2 & _ & P2 & _ & T2 & _). rewrite P1, P2, T1, T2. by apply (tables_distinct s Hok).
  - intros p0 d0 Hi E0. destruct (s2_get p0 d0 E0) as (d1 & E1 & _ & Hp & _ & Ht & _). rewrite Hp, Ht. by apply (agency_table s Hok p0).
  - intros i p0 d0 Hi E0 Hne. destruct (s2_get p0 d0 E0) as (d1 & E1 & _ & Hp & _). apply (slot_agency s Hok i p0 d1); congruence.
  - intros Hon' p0 d0 Hc0 E0. destruct (s2_get p0 d0 E0) as (d1 & E1 & Hd & _). rewrite Hd. rewrite s2_current in Hc0. case_decide as Hm.
    + injection Hc0 as <-. by apply decided_flip_cur.
    + rewrite (ch_other _ _ _ _ _ Hch) by congruence. by apply (flip_cur s Hok Hon' p0).
  - intros c0 r0 Hr0. apply s2_apart. assert (Es : sysregs s2 = <[cpu := vcpu dn]> (sysregs s)) by (by unfold s2, s1, switched, timed; destruct q).
    rewrite Es, list_lookup_insert_Some in Hr0. destruct Hr0 as [(-> & <- & _)|[_ Hr0]]; [by apply (vcpu_apart s Hok n), Hch|by apply (regs_apart s Hok c0)].
  - intros p0 d0 E0. apply s2_apart. destruct (s2_get p0 d0 E0) as (d1 & E1 & _ & _ & _ & _ & _ & _ & _ & [(-> & -> & ->)|[(-> & -> & ->)|(_ & _ & ->)]]).
    + cbn. by apply (regs_apart s Hok cpu).
    + by apply (vcpu_apart s Hok n dn).
    + by apply (vcpu_apart s Hok p0).
Qed.
End decision.

End AvzSchedInv.
