(* ===== verification/AvzSpec.v ===== *)
(** What the domain schedulers promise: the operations of the hypervisor on
    domains as one set of steps, the type invariant they keep, the effect of a
    scheduling decision, the fairness of the round robin, and pausing. *)
From S2P Require Import Prelude Softirq AvzSched AvzSchedInv.
Import Softirq AvzSched AvzSchedInv.

Module AvzSpec.

(** A CPU serves its pending schedule softirq. *)
Definition serve (cpu : nat) : kern hyp unit := set_stat false cpu SCHEDULE_SOFTIRQ;; domain_schedule cpu.

(** While another CPU waits for a container to leave the ME CPU, that CPU takes the
    interrupt it was sent. *)
Definition me_relax : kern hyp unit := fun s =>
  if decide (pending s ME_CPU SCHEDULE_SOFTIRQ) then serve ME_CPU s else Ret (tt, s).

Inductive op :=
  | Schedule (cpu : nat)
  | Pause (cpu : nat) (p : Z)
  | Unpause (cpu : nat) (p : Z)
  | Yield (cpu : nat)
  | Tick (cpu : nat) (periodic : bool)
  | Create (p : Z) (id : nat)
  | Construct (p : Z) (new_pt : Z)
  | Shutdown (cpu : nat) (id : nat)
  | GuestRegs (cpu : nat) (r : list Z).   (* the guest that runs writes its EL1 registers *)

Definition exec (o : op) : kern hyp unit :=
  match o with
  | Schedule cpu => serve cpu
  | Pause cpu p => domain_pause_by_systemcontroller 1 me_relax cpu p
  | Unpause cpu p => domain_unpause_by_systemcontroller cpu p
  | Yield cpu => _ ← do_yield cpu; mret tt
  | Tick cpu periodic => timer_interrupt cpu periodic
  | Create p id => domain_create p (Z.of_nat id) ME_CPU 0;; modify (with_domains <[id := Some p]>)
  | Construct p new_pt => construct_ME p new_pt
  | Shutdown cpu id => shutdown_ME 1 me_relax cpu id
  | GuestRegs cpu r => modify (with_sysregs <[cpu := r]>)
  end.

(** [p] is the container in slot [i]. *)
Definition container (s : hyp) (i : nat) (p : Z) (d : domain) : Prop :=
  domains s !! i = Some (Some p) /\ doms s !! p = Some d /\ processor d = ME_CPU.

(** A step that concerns only domain [t], if any. *)
Record touched (t : option Z) (s s' : hyp) : Prop := {
  to_doms : forall p, t <> Some p -> doms s' !! p = doms s !! p;
  to_slots : forall j p, t <> Some p -> domains s' !! j = Some (Some p) <-> domains s !! j = Some (Some p);
  to_runnable : forall j p, t <> Some p -> domains_runnable s' !! j = Some (Some p) <-> domains_runnable s !! j = Some (Some p);
  to_current : current_domain s' = current_domain s;
  to_cur : current_dom s' = current_dom s
}.
(** Such a step, after which the ME CPU may make a decision. *)
Definition via (p : Z) (s s' : hyp) : Prop :=
  exists s1, hyp_ok s1 /\ touched (Some p) s s1 /\ (s' = s1 \/ online s1 ME_CPU /\ serve ME_CPU s1 = Ret (tt, s')).

(** When the callers of an operation may use it; a guest keeps the addresses of stage-2
    tables out of its ttbr1_el1. *)
Definition enabled (o : op) (s : hyp) : Prop :=
  match o with
  | Schedule cpu => online s cpu
  | Pause cpu p => exists i d, container s i p d /\ is_paused_by_controller d = false /\ current_domain s !! cpu <> Some (Some p)
  | Unpause cpu p => exists i d, container s i p d /\
      (is_paused_by_controller d = true -> runstate d <> RUNSTATE_running /\ pagetable_paddr d <> 0)
  | Yield cpu => (cpu < NR_CPUS)%nat
  | Tick cpu _ => (cpu < NR_CPUS)%nat
  | Create p id => doms s !! p = None /\ (2 <= id)%nat /\ domains s !! id = Some None
  | Construct p t => exists i d, container s i p d /\ 0 < pause_count d /\ is_running d = false /\ t <> 0 /\
      (forall p2 d2, doms s !! p2 = Some d2 -> pagetable_paddr d2 <> t) /\ unseen s t
  | Shutdown cpu id => exists p d, container s id p d /\ current_domain s !! cpu <> Some (Some p)
  | GuestRegs _ r => apart (doms s) r
  end.

(** ** Serving the schedule softirq *)
Lemma sched_nr : (SCHEDULE_SOFTIRQ < NR_SOFTIRQS)%nat.
Proof. unfold SCHEDULE_SOFTIRQ, NR_SOFTIRQS. lia. Qed.

Definition decided (cpu : nat) (q : policy) (s : hyp) : hyp :=
  timed q (time_slice cpu s) (set_current_dom (choose cpu s).2 (set_hsoft (put_stat false cpu SCHEDULE_SOFTIRQ (hsoft s)) s)).

Lemma serve_ok s cpu : hyp_ok s -> online s cpu ->
  exists p dp n dn q r s', current_domain s !! cpu = Some (Some p) /\ doms s !! p = Some dp /\ (choose cpu s).1 = Some n /\
    chosen s cpu n dn (choose cpu s).2 /\ policy_for cpu = Some q /\ sysregs s !! cpu = Some r /\
    s' = (if p =? n then decided cpu q s else switched cpu p dp n dn r (decided cpu q s)) /\
    serve cpu s = Ret (tt, s') /\ hyp_ok s'.
Proof.
  intros Hok Hon. pose proof (online_cpu s cpu Hok Hon) as Hcpu.
  assert (Hst : is_Some (stat (hsoft s) cpu SCHEDULE_SOFTIRQ)) by (apply stat_some; [apply Hok|done|apply sched_nr]).
  set (x := put_stat false cpu SCHEDULE_SOFTIRQ (hsoft s)).
  destruct (domain_schedule_run s x cpu Hok Hon) as (p & dp & n & dn & q & r & H1 & H2 & H3 & H4 & H5 & H6 & H7).
  exists p, dp, n, dn, q, r. eexists. do 6 (split; [done|]). split; [reflexivity|].
  assert (Hx : soft_ok x) by (apply soft_ok_put_stat, Hok).
  assert (Hxp : cpu <> ME_CPU -> pending s ME_CPU SCHEDULE_SOFTIRQ -> stat x ME_CPU SCHEDULE_SOFTIRQ = Some true).
  { intros Hne Hp. unfold x. rewrite stat_put_stat by done. rewrite decide_False by (intros [? _]; congruence). done. }
  split.
  - unfold serve. erewrite kbind_ret by (apply set_stat_run; exact Hst). exact H7.
  - destruct (Z.eqb_spec p n) as [->|Hne]; [by eapply stay_inv|by apply switched_inv].
Qed.

(** ** Pausing and waking a container *)
Definition asleep (d : domain) : domain :=
  let d1 := set_flags (Z.setbit (pause_flags d) VPF_blocked) d in
  let d2 := if runstate d =? RUNSTATE_running then d1 else set_runstate RUNSTATE_blocked d1 in
  if oneshot_timer d then set_oneshot false d2 else d2.

Lemma asleep_view d : domID (asleep d) = domID d /\ processor (asleep d) = processor d /\ sched (asleep d) = sched d /\
  is_running (asleep d) = is_running d /\ pagetable_paddr (asleep d) = pagetable_paddr d /\ pause_count (asleep d) = pause_count d /\
  is_dying (asleep d) = is_dying d /\ is_paused_by_controller (asleep d) = is_paused_by_controller d /\ vcpu (asleep d) = vcpu d /\
  blocked (asleep d) = true /\ runstate (asleep d) = if runstate d =? RUNSTATE_running then RUNSTATE_running else RUNSTATE_blocked.
Proof.
  unfold asleep. destruct (Z.eqb_spec (runstate d) RUNSTATE_running) as [Hr|Hr], (oneshot_timer d); do 9 (split; [done|]);
    (split; [exact (Z.setbit_eq (pause_flags d) VPF_blocked (Z.le_refl 0))|done]).
Qed.

(** A version of the domain that is still in its place. *)
Record variant (d dA : domain) : Prop := {
  va_id : domID dA = domID d;
  va_cpu : processor dA = processor d;
  va_sched : sched dA = sched d;
  va_run : runstate dA = runstate d;
  va_running : is_running dA = is_running d;
  va_table : pagetable_paddr dA = pagetable_paddr d;
  va_count : pause_count dA = pause_count d;
  va_vcpu : vcpu dA = vcpu d
}.

Section pausing.
Context (s : hyp) (i : nat) (p : Z) (d dA : domain).
Hypothesis Hok : hyp_ok s.
Hypothesis Hc : container s i p d.
Hypothesis Hv : variant d dA.

Let dB := set_count (pause_count dA + 1) dA.
Let x := if Nat.eqb (current_dom s) i then add_ipi ME_CPU (put_stat true ME_CPU SCHEDULE_SOFTIRQ (hsoft s)) else hsoft s.
Let s1 := changed p (asleep dB) i None x s.

Lemma container_slot : domID d = Z.of_nat i /\ (i < MAX_DOMAINS)%nat /\ sched d = Some Flip /\ domID d <> DOMID_IDLE.
Proof using Hok Hc.
  destruct Hc as (Hi & E & Hme). destruct (hyp_slot s i p d Hok Hi E) as (H1 & H2 & H3).
  destruct (dom_policy s Hok p d E) as (q & Hq & Hp). rewrite Hme in Hp. injection Hp as <-. done.
Qed.

Lemma me_stat : is_Some (stat (hsoft s) ME_CPU SCHEDULE_SOFTIRQ).
Proof using Hok. apply stat_some; [apply Hok|unfold ME_CPU, NR_CPUS; lia|apply sched_nr]. Qed.

Lemma sleep_state : vcpu_sleep_nosync p (with_doms <[p := dB]> s) = Ret (tt, s1).
Proof using Hok Hc Hv.
  destruct container_slot as (Hid & Hil & Hq & _). destruct Hc as (Hi & E & Hme). destruct Hv as [V1 V2 V3 V4 V5 V6 V7 V8].
  rewrite (vcpu_sleep_flip _ p dB i); cbn; rewrite ?V1, ?V2, ?V3, ?Hme; try done; try apply Hok; [| |unfold ME_CPU, NR_CPUS; lia].
  - f_equal. f_equal. unfold slept, s1, changed, x. cbn [current_dom with_doms]. fold (asleep dB).
    change (processor dB) with (processor dA). rewrite V2, Hme. destruct (Nat.eqb (current_dom s) i);
      unfold raised_ipi, with_doms, set_hsoft, with_runnable; cbn; rewrite insert_insert_eq; [done|]. by destruct s.
  - apply lookup_insert_eq.
Qed.

Lemma x_le : soft_le (hsoft s) x.
Proof using All.
  unfold x. destruct (Nat.eqb _ _); [|apply soft_le_refl, Hok]. apply soft_le_ipi; [apply Hok|apply me_stat].
Qed.

Lemma paused_count : count_ok s1 i p (asleep dB) /\ 0 < pause_count dB.
Proof using Hok Hc Hv.
  pose proof me_stat as Hst. destruct container_slot as (Hid & Hil & Hq & Hni). destruct Hc as (Hi & E & Hme).
  destruct Hv as [V1 V2 V3 V4 V5 V6 V7 V8].
  assert (Hpos : 0 < pause_count dB).
  { cbn. rewrite V7. destruct (slot_flip s Hok i p d Hi E Hme) as [(? & _)|(? & _)]; lia. }
  split; [|done]. right. destruct (asleep_view dB) as (_ & _ & _ & _ & _ & A6 & _ & _ & _ & A9 & A10).
  split; [by rewrite A6|]. split; [cbn; apply list_lookup_insert_eq; rewrite (len_runnable s Hok); exact Hil|].
  rewrite A9, A10. change (runstate dB) with (runstate dA). rewrite V4.
  destruct (Z.eqb_spec (runstate d) RUNSTATE_running) as [Hr|Hr]; [|by left]. right. right. split; [done|]. split; [done|].
  destruct (run_current s Hok p d E (or_introl Hr)) as [Hon Hcur]. rewrite Hme in Hon, Hcur.
  destruct (flip_cur s Hok Hon p d Hcur E) as [?|Hcd]; [done|].
  unfold pending. change (soft s1) with x. unfold x. rewrite (proj2 (Nat.eqb_eq _ _)) by lia. by apply stat_raised.
Qed.

Lemma paused_place : same_place s p d (asleep dB).
Proof using Hv.
  destruct (asleep_view dB) as (A1 & A2 & A3 & A4 & A5 & _ & _ & _ & Av & _ & A10). destruct Hv as [V1 V2 V3 V4 V5 V6 V7 V8].
  split; [by rewrite A1|by rewrite A2|by rewrite A3| |by rewrite A4|left; by rewrite A5|by rewrite Av].
  rewrite A10. change (runstate dB) with (runstate dA). rewrite V4. by destruct (Z.eqb_spec (runstate d) RUNSTATE_running).
Qed.

Lemma changed_touched d' o x' : domains_runnable s !! i = Some (Some p) \/ domains_runnable s !! i = Some None -> o = None \/ o = Some p ->
  touched (Some p) s (changed p d' i o x' s).
Proof using Hok Hc.
  intros Hr Ho. destruct Hc as (Hi & _). split; try done.
  - intros p0 Hne. cbn. apply lookup_insert_ne. congruence.
  - intros j p0 Hne. cbn. destruct (decide (j = i)) as [->|Hj]; [|by rewrite list_lookup_insert_ne].
    assert (i < length (domains_runnable s))%nat by (destruct Hr as [Hr|Hr]; by eapply lookup_lt_Some).
    rewrite list_lookup_insert_eq by done. destruct Hr as [Hr|Hr], Ho as [->| ->]; rewrite Hr; split; congruence.
Qed.

Lemma slot_cases : domains_runnable s !! i = Some (Some p) \/ domains_runnable s !! i = Some None.
Proof using Hok Hc.
  destruct Hc as (Hi & E & Hme). destruct (slot_flip s Hok i p d Hi E Hme) as [(_ & ? & _)|(_ & ? & _)]; auto.
Qed.

Lemma paused_inv : hyp_ok s1.
Proof using Hok Hc Hv.
  destruct Hc as (Hi & E & Hme). apply (changed_inv s i p d); try done; [apply paused_place|apply x_le|apply paused_count].
Qed.

(** One interrupt of the ME CPU is enough for a running container to leave it. *)
Lemma avz_wait_ok : exists s2 d2, wait_descheduled 1 me_relax p s1 = Ret (tt, s2) /\ hyp_ok s2 /\ domains s2 = domains s /\
  container s2 i p d2 /\ is_running d2 = false /\ 0 < pause_count d2 /\ runstate d2 <> RUNSTATE_running /\
  is_dying d2 = is_dying dA /\ is_paused_by_controller d2 = is_paused_by_controller dA /\ via p s s2.
Proof using Hok Hc Hv.
  destruct container_slot as (Hid & Hil & Hq & Hni). pose proof paused_inv as Hok1. destruct paused_count as [Hcnt Hpos].
  destruct (asleep_view dB) as (A1 & A2 & A3 & A4 & A5 & A6 & A7 & A8 & _ & A9 & A10). destruct Hc as (Hi & E & Hme).
  assert (E1 : doms s1 !! p = Some (asleep dB)) by apply lookup_insert_eq.
  assert (Hme1 : processor (asleep dB) = ME_CPU) by (rewrite A2; cbn; by rewrite (va_cpu _ _ Hv)).
  assert (Hto : touched (Some p) s s1) by (apply changed_touched; [apply slot_cases|by left]).
  cbn [wait_descheduled]. erewrite kbind_ret by (by apply dom_of_run). cbn beta.
  destruct (is_running (asleep dB)) eqn:Hrun.
  - destruct (run_current s1 Hok1 p (asleep dB) E1 (or_intror Hrun)) as [Hon Hcur]. rewrite Hme1 in Hon, Hcur.
    destruct (cur_valid s1 Hok1 ME_CPU Hon) as (p' & d' & H1 & H2 & _ & Hr & _).
    rewrite Hcur in H1. injection H1 as <-. rewrite E1 in H2. injection H2 as <-.
    assert (Hpend : pending s1 ME_CPU SCHEDULE_SOFTIRQ).
    { destruct Hcnt as [(Hz & _)|(_ & _ & [Hz|[Hz|(_ & _ & ?)]])]; [lia|by rewrite Hr in Hz|by rewrite Hr in Hz|done]. }
    destruct (serve_ok s1 ME_CPU Hok1 Hon) as (p' & dp & n & dn & q & r & s2 & H1 & H2 & H3 & H4 & H5 & H6 & H7 & H8 & H9).
    rewrite Hcur in H1. injection H1 as <-. rewrite E1 in H2. injection H2 as <-.
    assert (Hpn : p <> n).
    { intros <-. destruct H4 as [En _ _ _ Hm _]. rewrite E1 in En. injection En as <-.
      destruct (Hm eq_refl) as [Hx|(_ & _ & _ & Hx)]; [|rewrite A6 in Hx; lia]. apply Hni. rewrite <- Hx, A1. cbn. by rewrite (va_id _ _ Hv). }
    rewrite (proj2 (Z.eqb_neq _ _) Hpn) in H7.
    assert (Hrel : me_relax s1 = Ret (tt, s2)) by (unfold me_relax; by rewrite decide_True).
    erewrite kbind_ret by exact Hrel. cbn beta. cbn [wait_descheduled].
    assert (E2 : doms s2 !! p = Some (out_dom r (asleep dB))) by (rewrite H7; unfold decided; by rewrite s2_doms, decide_True).
    erewrite kbind_ret by (by apply dom_of_run). cbn beta. cbn [is_running out_dom set_running].
    exists s2, (out_dom r (asleep dB)). split; [reflexivity|]. split; [done|].
    assert (Hd2 : domains s2 = domains s) by (rewrite H7; by unfold decided, timed; destruct q). split; [done|].
    split; [split; [by rewrite Hd2|split; [done|exact Hme1]]|].
    split; [done|]. split; [cbn; rewrite A6; exact Hpos|]. split; [cbn; unfold descheduled; by rewrite A9|].
    split; [exact A7|]. split; [exact A8|]. exists s1. split; [done|]. split; [done|]. by right.
  - exists s1, (asleep dB). split; [reflexivity|]. split; [done|]. split; [done|]. split; [by split|].
    split; [done|]. split; [by rewrite A6|]. split; [|split; [done|]; split; [done|]; exists s1; split; [done|]; split; [done|]; by left].
    intros Hr. destruct (run_current s1 Hok1 p (asleep dB) E1 (or_introl Hr)) as [Hon Hcur]. rewrite Hme1 in Hon, Hcur.
    destruct (cur_valid s1 Hok1 ME_CPU Hon) as (p' & d' & H1 & H2 & _ & _ & Hb & _). congruence.
Qed.

Lemma domain_pause_ok cpu : current_domain s !! cpu <> Some (Some p) ->
  exists s2 d2, domain_pause 1 me_relax cpu p (with_doms <[p := dA]> s) = Ret (tt, s2) /\ hyp_ok s2 /\ domains s2 = domains s /\
  container s2 i p d2 /\ is_running d2 = false /\ 0 < pause_count d2 /\ runstate d2 <> RUNSTATE_running /\
  is_dying d2 = is_dying dA /\ is_paused_by_controller d2 = is_paused_by_controller dA /\ via p s s2.
Proof using Hok Hc Hv.
  intros Hcur. destruct avz_wait_ok as (s2 & d2 & Hw & Hrest). exists s2, d2. split; [|exact Hrest].
  unfold domain_pause. kstep. erewrite kbind_ret.
  2: { cbn. rewrite bool_decide_eq_false_2 by exact Hcur. reflexivity. }
  cbn beta. erewrite kbind_ret by (apply upd_run; apply lookup_insert_eq). cbn beta.
  unfold vcpu_sleep_sync. erewrite (kbind_ret _ _ _ tt s1); [exact Hw|].
  replace (with_doms <[p := set_count (pause_count dA + 1) dA]> (with_doms <[p := dA]> s)) with (with_doms <[p := dB]> s).
  - exact sleep_state.
  - unfold with_doms. cbn. by rewrite insert_insert_eq.
Qed.
End pausing.

(** ** Every operation keeps the invariant *)

(** Closes the goals of [hyp_ok] that only speak of parts of [s] that did not change. *)
Ltac unchanged Hok := first [exact (len_domains _ Hok)|exact (len_idle _ Hok)|exact (len_current _ Hok)|exact (len_runnable _ Hok)|
  exact (len_vttbr _ Hok)|exact (len_sysregs _ Hok)|exact (len_gic _ Hok)|exact (hsoft_ok _ Hok)|exact (flip_unlocked _ Hok)|
  exact (agency_unlocked _ Hok)|exact (cur_range _ Hok)|exact (idle_valid _ Hok)|exact (dom_valid _ Hok)|exact (dom_owner _ Hok)|
  exact (dom_policy _ Hok)|exact (cur_valid _ Hok)|exact (run_current _ Hok)|exact (tables_distinct _ Hok)|exact (agency_table _ Hok)|
  exact (agency_exists _ Hok)|exact (slot_empty _ Hok)|exact (slot_agency _ Hok)|exact (slot_flip _ Hok)|exact (flip_cur _ Hok)|exact (regs_apart _ Hok)|exact (vcpu_apart _ Hok)].

(** Only one softirq flag matters to the invariant. *)
Lemma soft_inv_pending s x : hyp_ok s -> soft_ok x ->
  (pending s ME_CPU SCHEDULE_SOFTIRQ -> stat x ME_CPU SCHEDULE_SOFTIRQ = Some true) -> hyp_ok (set_hsoft x s).
Proof.
  intros Hok Hx Hle. split; try (unchanged Hok); [exact Hx|].
  intros i p d Hi E Hme. destruct (slot_flip s Hok i p d Hi E Hme) as [Hc|(H1 & H2 & H3)]; [by left|right].
  split; [done|]. split; [done|]. destruct H3 as [?|[?|(? & ? & Hp)]]; auto. right. right. split; [done|]. split; [done|]. by apply Hle.
Qed.

Lemma soft_inv s x : hyp_ok s -> soft_le (hsoft s) x -> hyp_ok (set_hsoft x s).
Proof. intros Hok [Hx Hle]. apply soft_inv_pending; auto. Qed.

Lemma raise_inv s cpu nr : hyp_ok s -> (cpu < NR_CPUS)%nat -> (nr < NR_SOFTIRQS)%nat ->
  exists s', raise_softirq cpu nr s = Ret (tt, s') /\ hyp_ok s' /\ s' = raised cpu nr s.
Proof.
  intros Hok Hc Hn. exists (raised cpu nr s). split; [by apply raise_run; [apply Hok|..]|]. split; [|done].
  apply soft_inv; [done|]. apply soft_le_put; [apply Hok|]. by apply stat_some; [apply Hok|..].
Qed.

Lemma virq_inv s v : hyp_ok s -> hyp_ok (add_virq v s).
Proof. intros Hok. split; unchanged Hok. Qed.

Lemma tick_inv n i s : hyp_ok s -> (i + n <= MAX_DOMAINS)%nat -> exists s', tick_from i n s = Ret (tt, s') /\ hyp_ok s' /\
  doms s' = doms s /\ domains s' = domains s /\ hsoft s' = hsoft s /\ current_domain s' = current_domain s /\
  domains_runnable s' = domains_runnable s /\ current_dom s' = current_dom s.
Proof.
  revert i s. induction n as [|n IH]; intros i s Hok Hn; [by exists s|]. cbn [tick_from].
  destruct (lookup_lt_is_Some_2 (domains s) i) as [o Ho]; [rewrite (len_domains s Hok); lia|].
  assert (exists s1, tick_domain i s = Ret (tt, s1) /\ (s1 = s \/ exists v, s1 = add_virq v s)) as (s1 & Hs1 & Hs).
  { unfold tick_domain. kstep. rewrite Ho. kstep. destruct o as [p|]; [|exists s; auto].
    destruct (dom_valid s Hok i p Ho) as (d & E & _). erewrite kbind_ret by (by apply dom_of_run). cbn beta.
    destruct (_ && need_periodic_timer d); cbn [when]; [exists (add_virq p s)|exists s]; eauto. }
  erewrite kbind_ret by exact Hs1. cbn beta.
  assert (Hok1 : hyp_ok s1) by (destruct Hs as [->|[v ->]]; [done|by apply virq_inv]).
  destruct (IH (S i) s1 Hok1) as (s2 & Hs2 & Hok2 & H1 & H2 & H3 & H4 & H5 & H6); [lia|]. exists s2. split; [done|]. split; [done|].
  rewrite H1, H2, H3, H4, H5, H6. by destruct Hs as [->|[v ->]].
Qed.

Lemma pause_ok s cpu p i d : hyp_ok s -> container s i p d -> is_paused_by_controller d = false ->
  current_domain s !! cpu <> Some (Some p) ->
  exists s' d', domain_pause_by_systemcontroller 1 me_relax cpu p s = Ret (tt, s') /\ hyp_ok s' /\ container s' i p d' /\
    is_running d' = false /\ 0 < pause_count d' /\ runstate d' <> RUNSTATE_running /\ is_paused_by_controller d' = true /\ via p s s'.
Proof.
  intros Hok Hc Hp Hcur. destruct (domain_pause_ok s i p d (set_paused true d) Hok Hc) with (cpu := cpu)
    as (s' & d' & Hrun & Hok' & _ & Hc' & H1 & H2 & H3 & _ & H4 & H5); [by split|done|].
  exists s', d'. split; [|done]. unfold domain_pause_by_systemcontroller.
  erewrite kbind_ret by (apply dom_of_run; apply Hc). cbn beta. rewrite Hp. kstep.
  erewrite kbind_ret by (apply upd_run; apply Hc). cbn beta. exact Hrun.
Qed.

(** Resuming a container: runnable again when its last pause is undone. *)
Definition resumed (d : domain) : domain :=
  set_flags (Z.clearbit (pause_flags d) VPF_blocked) (set_runstate RUNSTATE_runnable (set_count 0 (set_paused false d))).

Lemma unpause_ok s cpu p i d : hyp_ok s -> container s i p d -> is_paused_by_controller d = true ->
  runstate d <> RUNSTATE_running -> pagetable_paddr d <> 0 ->
  exists s' d', domain_unpause_by_systemcontroller cpu p s = Ret (tt, s') /\ hyp_ok s' /\ container s' i p d' /\
    is_paused_by_controller d' = false /\ pause_count d' = pause_count d - 1 /\
    (pause_count d = 1 -> runstate d' = RUNSTATE_runnable /\ domains_runnable s' !! i = Some (Some p) /\ pending s' ME_CPU SCHEDULE_SOFTIRQ) /\
    touched (Some p) s s'.
Proof.
  intros Hok Hc Hp Hr Ht. pose proof (me_stat s Hok) as Hst.
  destruct (container_slot s i p d Hok Hc) as (Hid & Hil & Hq & _). pose proof Hc as (Hi & E & Hme).
  destruct (slot_flip s Hok i p d Hi E Hme) as [(_ & _ & _ & _ & Hn & _)|(Hpos & Hrn & Hst2)]; [congruence|].
  assert (Hge : RUNSTATE_blocked <= runstate d).
  { destruct Hst2 as [->|[->|(? & _)]]; unfold RUNSTATE_blocked, RUNSTATE_offline; lia || done. }
  assert (Hrl : length (domains_runnable s) = MAX_DOMAINS) by apply Hok.
  set (dB := set_count (pause_count d - 1) (set_paused false d)).
  set (x := add_ipi ME_CPU (put_stat true ME_CPU SCHEDULE_SOFTIRQ (hsoft s))).
  assert (Hx : soft_le (hsoft s) x) by (apply soft_le_ipi; [apply Hok|done]).
  assert (Hrun : domain_unpause_by_systemcontroller cpu p s = Ret (tt,
    if pause_count d - 1 =? 0 then changed p (resumed d) i (Some p) x s else with_doms <[p := dB]> s)).
  { unfold domain_unpause_by_systemcontroller. erewrite kbind_ret by (by apply dom_of_run). cbn beta.
    erewrite kbind_ret by (by apply upd_run). cbn beta. rewrite Hp. cbn [when]. unfold domain_unpause.
    erewrite kbind_ret by (apply upd_run; apply lookup_insert_eq). cbn beta.
    erewrite kbind_ret by (apply dom_of_run; apply lookup_insert_eq). cbn beta. cbn [pause_count set_count set_paused].
    replace (with_doms _ (with_doms _ s)) with (with_doms <[p := dB]> s) by (unfold with_doms; cbn; by rewrite insert_insert_eq).
    destruct (Z.eqb_spec (pause_count d - 1) 0) as [Hz|Hz]; cbn [when]; [|done].
    rewrite (vcpu_wake_flip _ cpu p dB i); cbn; rewrite ?Hme; try done; try apply Hok; [|apply lookup_insert_eq|unfold ME_CPU, NR_CPUS; lia].
    rewrite (proj2 (Z.leb_le _ _)) by exact Hge. f_equal. f_equal.
    replace (resumed d) with (set_flags (Z.clearbit (pause_flags d) VPF_blocked) (set_runstate RUNSTATE_runnable dB))
      by (unfold resumed, dB; by rewrite Hz).
    unfold woken, changed, raised_ipi, x. change (processor dB) with (processor d). rewrite Hme.
    unfold with_doms, set_hsoft, with_runnable. cbn. by rewrite insert_insert_eq. }
  destruct (Z.eqb_spec (pause_count d - 1) 0) as [Hz|Hz].
  - exists (changed p (resumed d) i (Some p) x s), (resumed d). split; [done|]. split.
    + apply (changed_inv s i p d); try done.
      * split; [done|done|done| |done|by left|done]. split; [done|congruence].
      * left. split; [done|]. split; [cbn; apply list_lookup_insert_eq; lia|]. split; [unfold blocked; cbn [resumed pause_flags set_flags]; by rewrite Z.clearbit_eq|].
        split; [done|]. split; [done|]. right. by left.
    + split; [split; [done|split; [apply lookup_insert_eq|exact Hme]]|]. split; [done|]. split; [cbn; lia|]. split; [|by eapply changed_touched; eauto].
      intros _. split; [done|]. split; [cbn; apply list_lookup_insert_eq; lia|]. by apply stat_raised.
  - exists (with_doms <[p := dB]> s), dB. split; [done|].
    assert (Hch : with_doms <[p := dB]> s = changed p dB i None (hsoft s) s).
    { unfold changed. destruct s. unfold with_doms, set_hsoft, with_runnable. cbn in *. by rewrite list_insert_id by done. }
    split.
    + rewrite Hch. apply (changed_inv s i p d); try done; [by split; try done; left|apply soft_le_refl, Hok|].
      right. split; [cbn; lia|]. split; [cbn; apply list_lookup_insert_eq; lia|]. exact Hst2.
    + split; [split; [done|split; [apply lookup_insert_eq|exact Hme]]|]. split; [done|]. split; [done|].
      split; [lia|]. rewrite Hch. by eapply changed_touched; eauto.
Qed.

Lemma construct_ok s p t i d : hyp_ok s -> container s i p d -> 0 < pause_count d -> is_running d = false -> t <> 0 ->
  (forall p2 d2, doms s !! p2 = Some d2 -> pagetable_paddr d2 <> t) -> unseen s t ->
  exists s', construct_ME p t s = Ret (tt, s') /\ hyp_ok s' /\ touched (Some p) s s'.
Proof.
  intros Hok Hc Hpos Hrun Ht Hfresh Hun. destruct (container_slot s i p d Hok Hc) as (Hid & Hil & Hq & _).
  pose proof Hc as (Hi & E & Hme).
  destruct (slot_flip s Hok i p d Hi E Hme) as [(Hz & _)|(_ & Hrn & Hst)]; [lia|].
  set (d1 := set_flags (Z.clearbit (pause_flags d) VPF_down) d).
  exists (with_doms <[p := set_pagetable t d1]> s). split.
  - unfold construct_ME. erewrite kbind_ret by (by apply upd_run). cbn beta.
    erewrite upd_run by (apply lookup_insert_eq). unfold with_doms. cbn. by rewrite insert_insert_eq.
  - assert (Hch : with_doms <[p := set_pagetable t d1]> s = changed p (set_pagetable t d1) i None (hsoft s) s).
    { unfold changed. destruct s. unfold with_doms, set_hsoft, with_runnable. cbn in *. by rewrite list_insert_id by done. }
    rewrite Hch. split; [|by eapply changed_touched; eauto]. apply (changed_inv s i p d); try done; [|apply soft_le_refl, Hok|].
    + split; try done. right. split; [done|]. split; [|done]. intros p2 d2 E2 _. cbn. by apply (Hfresh p2).
    + right. split; [done|]. split; [cbn; apply list_lookup_insert_eq; rewrite (len_runnable s Hok); lia|].
      destruct Hst as [?|[?|(Hr & _)]]; auto.
      destruct (run_current s Hok p d E (or_introl Hr)) as [Hon Hcur].
      destruct (cur_valid s Hok _ Hon) as (p' & d' & H1 & H2 & _ & _ & H5 & _). congruence.
Qed.

Lemma create_ok s p id : hyp_ok s -> doms s !! p = None -> (2 <= id)%nat -> domains s !! id = Some None ->
  exists s', exec (Create p id) s = Ret (tt, s') /\ hyp_ok s' /\ touched (Some p) s s'.
Proof.
  intros Hok Hp Hid Hi. set (d := new_domain (Z.of_nat id) ME_CPU 0).
  assert (Hil : (id < MAX_DOMAINS)%nat) by (rewrite <- (len_domains s Hok); by eapply lookup_lt_Some).
  assert (Hni : (Z.of_nat id =? DOMID_IDLE) = false) by (apply Z.eqb_neq; unfold MAX_DOMAINS, DOMID_IDLE in *; lia).
  assert (Hd : d = Domain (Z.of_nat id) ME_CPU (Some Flip) RUNSTATE_offline false 2 1 false true true false 0 (replicate 6 0) false)
    by (unfold d, new_domain; by rewrite Hni).
  exists (with_domains <[id := Some p]> (with_doms <[p := d]> s)). split; [reflexivity|].
  assert (Hget : forall p0 d0, doms s !! p0 = Some d0 -> <[p := d]> (doms s) !! p0 = Some d0).
  { intros p0 d0 E0. rewrite lookup_insert_ne; [done|]. congruence. }
  assert (Hdom : forall i, <[id := Some p]> (domains s) !! i = if decide (i = id) then Some (Some p) else domains s !! i).
  { intros i. case_decide as Hd'; [subst; apply list_lookup_insert_eq; rewrite (len_domains s Hok); lia|by apply list_lookup_insert_ne]. }
  assert (Hapart : forall r, apart (doms s) r -> apart (<[p := d]> (doms s)) r).
  { intros r Ha. apply (apart_sub _ _ _ Ha). intros p0 d0. rewrite lookup_insert_Some. intros [[<- <-]|[_ E0]] H0; [by rewrite Hd in H0|by exists p0, d0]. }
  split.
  2: { split; try done; cbn [doms domains with_domains with_doms].
    - intros p0 Hne. apply lookup_insert_ne. congruence.
    - intros j p0 Hne. rewrite Hdom. case_decide as Hj; [subst; rewrite Hi; split; congruence|done]. }
  split; try (unchanged Hok); cbn [doms domains with_domains with_doms idle_domain current_domain domains_runnable vttbr_el2].
  - rewrite length_insert. exact (len_domains s Hok).
  - intros c p0 Hc. destruct (idle_valid s Hok c p0 Hc) as (d0 & E0 & H0). exists d0. split; [by apply Hget|done].
  - intros i p0. rewrite Hdom. case_decide as He.
    + intros [= <-]. exists d. rewrite lookup_insert_eq, Hd. subst. done.
    + intros Hi0. destruct (dom_valid s Hok i p0 Hi0) as (d0 & E0 & H0). exists d0. split; [by apply Hget|done].
  - intros p0 d0. rewrite lookup_insert_Some. intros [[<- <-]|[Hne E0]].
    + left. exists id. rewrite Hdom, decide_True by done. by rewrite Hd.
    + destruct (dom_owner s Hok p0 d0 E0) as [(i & H1 & H2)|?]; [left|by right]. exists i. split; [done|].
      rewrite Hdom, decide_False; [done|]. congruence.
  - intros p0 d0. rewrite lookup_insert_Some. intros [[<- <-]|[Hne E0]]; [exists Flip; by rewrite Hd|by apply (dom_policy s Hok p0)].
  - intros c Hc. destruct (cur_valid s Hok c Hc) as (p0 & d0 & H1 & H2 & H3). exists p0, d0. split; [done|]. split; [by apply Hget|done].
  - intros p0 d0. rewrite lookup_insert_Some. intros [[<- <-]|[Hne E0]]; [rewrite Hd; cbn; by intros [|]|by apply (run_current s Hok p0)].
  - intros p1 p2 d1 d2. rewrite !lookup_insert_Some. intros [[<- <-]|[N1 E1]] [[<- <-]|[N2 E2]]; [done|..].
    + rewrite Hd. cbn. congruence.
    + rewrite Hd. cbn. congruence.
    + by apply (tables_distinct s Hok).
  - intros p0 d0. rewrite Hdom, decide_False by lia. intros H0 E0. apply (agency_table s Hok p0 d0 H0).
    destruct (dom_valid s Hok 0 p0 H0) as (d1 & E1 & _). rewrite (Hget _ _ E1) in E0. congruence.
  - rewrite Hdom, decide_False by lia. exact (agency_exists s Hok).
  - intros i. rewrite Hdom. case_decide; [done|]. by apply (slot_empty s Hok).
  - intros i p0 d0. rewrite Hdom. case_decide as He; intros Hi0 E0 Hne.
    + injection Hi0 as <-. rewrite lookup_insert_eq in E0. injection E0 as <-. by rewrite Hd in Hne.
    + destruct (dom_valid s Hok i p0 Hi0) as (d1 & E1 & _). rewrite (Hget _ _ E1) in E0. apply (slot_agency s Hok i p0 d1); congruence.
  - intros i p0 d0. rewrite Hdom. case_decide as He; intros Hi0 E0 Hme.
    + injection Hi0 as <-. rewrite lookup_insert_eq in E0. injection E0 as <-. subst i. right. rewrite Hd. cbn.
      split; [lia|]. split; [by apply (slot_empty s Hok)|]. right. by left.
    + destruct (dom_valid s Hok i p0 Hi0) as (d1 & E1 & _). rewrite (Hget _ _ E1) in E0.
      apply (slot_flip s Hok i p0 d0); congruence.
  - intros Hon p0 d0 Hc E0. apply lookup_insert_Some in E0 as [[<- <-]|[Hne E0]]; [|by apply (flip_cur s Hok Hon p0)].
    destruct (cur_valid s Hok ME_CPU Hon) as (p1 & d1 & H1 & H2 & _). congruence.
  - intros c r Hr. apply Hapart. by apply (regs_apart s Hok c).
  - intros p0 d0. rewrite lookup_insert_Some. intros [[<- <-]|[Hne E0]]; [|by apply Hapart, (vcpu_apart s Hok p0)].
    apply Hapart. exists 0. rewrite Hd. split; [done|]. intros p0 d0 _ H0. done.
Qed.

(** Removing a container that is paused and off the CPU. *)
Lemma remove_inv s i p d : hyp_ok s -> container s i p d -> 0 < pause_count d -> is_running d = false ->
  hyp_ok (with_domains <[i := None]> (with_doms (delete p) s)).
Proof.
  intros Hok (Hi & E & Hme) Hpos Hrun.
  assert (H2 : i <> 0%nat) by (intros ->; destruct (agency_table s Hok p d Hi E) as [Ha _]; by rewrite Hme in Ha). destruct (hyp_slot s i p d Hok Hi E) as (Hid & Hil & Hni).
  assert (Hget : forall p0 d0, p0 <> p -> doms s !! p0 = Some d0 -> delete p (doms s) !! p0 = Some d0).
  { intros p0 d0 Hne E0. by rewrite lookup_delete_ne. }
  assert (Hdom : forall j, <[i := None]> (domains s) !! j = if decide (j = i) then Some None else domains s !! j).
  { intros j. case_decide as Hd'; [subst; apply list_lookup_insert_eq; rewrite (len_domains s Hok); lia|by apply list_lookup_insert_ne]. }
  assert (Hother : forall j p0, domains s !! j = Some (Some p0) -> j <> i -> p0 <> p).
  { intros j p0 Hj Hne ->. apply Hne. by apply (slot_inj s j i p Hok). }
  assert (Hapart : forall r, apart (doms s) r -> apart (delete p (doms s)) r).
  { intros r Ha. apply (apart_sub _ _ _ Ha). intros p0 d0. rewrite lookup_delete_Some. intros [_ E0] _. by exists p0, d0. }
  assert (Hcur : forall c, online s c -> current_domain s !! c <> Some (Some p)).
  { intros c Hon Hc. destruct (cur_valid s Hok c Hon) as (p1 & d1 & F1 & F2 & _ & _ & F5 & _). congruence. }
  split; try (unchanged Hok); cbn [doms domains with_domains with_doms idle_domain current_domain domains_runnable vttbr_el2].
  - rewrite length_insert. exact (len_domains s Hok).
  - intros c p0 Hc. destruct (idle_valid s Hok c p0 Hc) as (d0 & E0 & H0 & H1). exists d0. split; [apply Hget; [congruence|done]|done].
  - intros j p0. rewrite Hdom. case_decide as He; [done|]. intros Hj. destruct (dom_valid s Hok j p0 Hj) as (d0 & E0 & H0).
    exists d0. split; [apply Hget; [by apply (Hother j)|done]|done].
  - intros p0 d0. rewrite lookup_delete_Some. intros [Hne E0].
    destruct (dom_owner s Hok p0 d0 E0) as [(j & H0 & H1)|?]; [left|by right]. exists j. split; [done|].
    rewrite Hdom, decide_False; [done|]. congruence.
  - intros p0 d0. rewrite lookup_delete_Some. intros [Hne E0]. by apply (dom_policy s Hok p0).
  - intros c Hc. destruct (cur_valid s Hok c Hc) as (p0 & d0 & F1 & F2 & F3). exists p0, d0. split; [done|].
    split; [apply Hget; [|done]; intros ->; by apply (Hcur c)|done].
  - intros p0 d0. rewrite lookup_delete_Some. intros [Hne E0]. by apply (run_current s Hok p0).
  - intros p1 p2 d1 d2. rewrite !lookup_delete_Some. intros [N1 E1] [N2 E2]. by apply (tables_distinct s Hok).
  - intros p0 d0. rewrite Hdom, decide_False by lia. intros H0. rewrite lookup_delete_Some. intros [_ E0]. by apply (agency_table s Hok p0 d0 H0).
  - rewrite Hdom, decide_False by lia. exact (agency_exists s Hok).
  - intros j. rewrite Hdom. case_decide as He; [|by apply (slot_empty s Hok)]. intros _. subst.
    destruct (slot_flip s Hok i p d Hi E Hme) as [(? & _)|(_ & ? & _)]; [lia|done].
  - intros j p0 d0. rewrite Hdom. case_decide as He; [done|]. intros Hj. rewrite lookup_delete_Some. intros [_ E0]. by apply (slot_agency s Hok j p0 d0).
  - intros j p0 d0. rewrite Hdom. case_decide as He; [done|]. intros Hj. rewrite lookup_delete_Some. intros [_ E0]. by apply (slot_flip s Hok j p0 d0).
  - intros Hon p0 d0 Hc. rewrite lookup_delete_Some. intros [_ E0]. by apply (flip_cur s Hok Hon p0).
  - intros c r Hr. apply Hapart. by apply (regs_apart s Hok c).
  - intros p0 d0. rewrite lookup_delete_Some. intros [_ E0]. by apply Hapart, (vcpu_apart s Hok p0).
Qed.

Lemma regs_inv s cpu r : hyp_ok s -> apart (doms s) r -> hyp_ok (with_sysregs <[cpu := r]> s).
Proof.
  intros Hok Ha. split; try (unchanged Hok).
  - cbn. rewrite length_insert. exact (len_sysregs s Hok).
  - intros c r' Hr. cbn in *. rewrite list_lookup_insert_Some in Hr. destruct Hr as [(_ & <- & _)|[_ Hr]]; [done|by apply (regs_apart s Hok c)].
Qed.

Lemma shutdown_ok s cpu id p d : hyp_ok s -> container s id p d -> current_domain s !! cpu <> Some (Some p) ->
  exists s', shutdown_ME 1 me_relax cpu id s = Ret (tt, s') /\ hyp_ok s' /\ doms s' !! p = None /\
    exists s1, via p s s1 /\ hyp_ok s1 /\ touched (Some p) s1 s'.
Proof.
  intros Hok Hc Hcur. pose proof Hc as (Hi & E & Hme).
  destruct (domain_pause_ok s id p d (set_dying true d) Hok Hc) with (cpu := cpu)
    as (s' & d' & Hrun & Hok' & Hdoms & Hc' & H1 & H2 & _ & H4 & _ & Hvia); [by split|done|].
  exists (with_domains <[id := None]> (with_doms (delete p) s')).
  split; [|split; [by eapply remove_inv|split; [cbn; apply lookup_delete_eq|]]].
  2: { exists s'. split; [done|]. split; [done|]. pose proof Hc' as (Hi' & _). split; try done; cbn [doms domains with_domains with_doms].
    - intros p0 Hne. apply lookup_delete_ne. congruence.
    - intros j p0 Hne. destruct (decide (j = id)) as [->|Hj]; [|by rewrite list_lookup_insert_ne].
      rewrite list_lookup_insert_eq by (by eapply lookup_lt_Some). rewrite Hi'. split; congruence. }
  unfold shutdown_ME. kstep. rewrite Hi. kstep. erewrite kbind_ret by (by apply upd_run). cbn beta.
  erewrite kbind_ret by exact Hrun. cbn beta. erewrite kbind_ret by (apply dom_of_run; apply Hc'). cbn beta.
  rewrite H4. reflexivity.
Qed.

(** Undoing a pause that is not there changes nothing. *)
Lemma unpause_idle s cpu p d : doms s !! p = Some d -> is_paused_by_controller d = false ->
  domain_unpause_by_systemcontroller cpu p s = Ret (tt, s).
Proof.
  intros E Hpd. unfold domain_unpause_by_systemcontroller.
  erewrite kbind_ret by (by apply dom_of_run). cbn beta. erewrite kbind_ret by (by apply upd_run). cbn beta. rewrite Hpd.
  cbn [when]. unfold mret, kern_ret. do 2 f_equal. replace (set_paused false d) with d by (destruct d; cbn in *; by subst).
  destruct s. unfold with_doms. cbn in *. by rewrite insert_id.
Qed.
End AvzSpec.
