(* ===== verification/AvzRuns.v ===== *)
(** Runs of the hypervisor: sequences of operations on domains.  The effect of a
    scheduling decision, pausing as a guarantee over time, the fairness of the round
    robin, what a guest that forges ttbr1_el1 can do, and the boot. *)
From S2P Require Import Prelude Softirq AvzSched AvzSchedInv AvzSpec.
Import Softirq AvzSched AvzSchedInv AvzSpec.

Module AvzRuns.

(** ** The effect of a decision *)

(** What is true of [s'] once [cpu], which ran [prev], has decided for [next]. *)
Record dispatched (s s' : hyp) (cpu : nat) (prev next : Z) (dp dn : domain) : Prop := {
  di_current : current_domain s' !! cpu = Some (Some next);
  di_table : prev <> next \/ domID dn <> DOMID_IDLE -> vttbr_el2 s' !! cpu = Some (pagetable_paddr dn);
  di_next : exists d', doms s' !! next = Some d' /\ runstate d' = RUNSTATE_running /\ is_running d' = true;
  di_only : forall p d', doms s' !! p = Some d' -> processor d' = cpu -> p <> next ->
    is_running d' = false /\ runstate d' <> RUNSTATE_running;
  di_prev : prev <> next -> exists d', doms s' !! prev = Some d' /\ sysregs s !! cpu = Some (vcpu d') /\ runstate d' = descheduled dp;
  di_regs : prev <> next -> sysregs s' !! cpu = Some (vcpu dn) /\ gic_event s' !! cpu = Some (evtchn_upcall_pending dn);
  di_stay : prev = next -> doms s' = doms s /\ sysregs s' = sysregs s
}.

Lemma dispatched_ok s s' cpu p dp n dn q r : hyp_ok s -> online s cpu -> current_domain s !! cpu = Some (Some p) ->
  doms s !! p = Some dp -> chosen s cpu n dn (choose cpu s).2 -> sysregs s !! cpu = Some r ->
  s' = (if p =? n then decided cpu q s else switched cpu p dp n dn r (decided cpu q s)) -> hyp_ok s' ->
  dispatched s s' cpu p n dp dn.
Proof.
  intros Hok Hon Hcur Ep Hch Hr Hs' Hok'. pose proof (online_cpu s cpu Hok Hon) as Hcpu.
  assert (Hc' : current_domain s' !! cpu = Some (Some n)).
  { rewrite Hs'. destruct (Z.eqb_spec p n) as [->|Hne]; [by unfold decided, timed; destruct q|].
    unfold decided. rewrite s2_current by done. by rewrite decide_True. }
  assert (Hon' : online s' cpu).
  { rewrite Hs'. unfold online. destruct (p =? n); unfold decided, timed, switched; by destruct q. }
  destruct (cur_valid s' Hok' cpu Hon') as (p0 & d0 & C1 & C2 & C3 & C4 & C5 & C6 & C7). rewrite Hc' in C1. injection C1 as <-.
  assert (Ht : pagetable_paddr d0 = pagetable_paddr dn /\ domID d0 = domID dn).
  { destruct Hch as [En _ _ _ _ _]. rewrite Hs' in C2. destruct (Z.eqb_spec p n) as [->|Hne].
    - assert (doms (decided cpu q s) = doms s) as Hd by (by unfold decided, timed; destruct q). rewrite Hd, En in C2. by injection C2 as <-.
    - unfold decided in C2. rewrite s2_doms, decide_False, decide_True in C2 by done. by injection C2 as <-. }
  destruct Ht as [Ht Hid]. split; [done| |by exists d0| | | |].
  - destruct (Z.eqb_spec p n) as [->|Hne]; [intros [?|Hd]; [done|by rewrite C6, Ht by congruence]|intros _].
    assert (Hl : (cpu < length (vttbr_el2 s))%nat) by (by rewrite (len_vttbr s Hok)).
    rewrite Hs'. unfold switched, decided, timed. destruct q; cbn; exact (list_lookup_insert_eq _ _ _ Hl).
  - intros p1 d1 E1 Hp1 Hne. split.
    + destruct (is_running d1) eqn:Hrun; [|done]. destruct (run_current s' Hok' p1 d1 E1 (or_intror Hrun)) as [_ Hx]. congruence.
    + intros Hrun. destruct (run_current s' Hok' p1 d1 E1 (or_introl Hrun)) as [_ Hx]. congruence.
  - intros Hne. rewrite (proj2 (Z.eqb_neq _ _) Hne) in Hs'. exists (out_dom r dp).
    split; [rewrite Hs'; unfold decided; by rewrite s2_doms, decide_True|]. done.
  - intros Hne. rewrite (proj2 (Z.eqb_neq _ _) Hne) in Hs'.
    destruct (conj (len_sysregs s Hok) (len_gic s Hok)) as [L1 L2].
    assert (Hl : (cpu < length (sysregs s))%nat /\ (cpu < length (gic_event s))%nat) by (by rewrite L1, L2).
    destruct Hl as [Hl1 Hl2]. rewrite Hs'. unfold switched, decided, timed.
    destruct q; cbn; (split; [exact (list_lookup_insert_eq _ _ _ Hl1)|exact (list_lookup_insert_eq _ _ _ Hl2)]).
  - intros ->. rewrite Z.eqb_refl in Hs'. rewrite Hs'. unfold decided, timed. by destruct q.
Qed.

(** The rule of the round robin: the first slot in use after the last one chosen,
    going round the table; the idle domain when no slot is in use. *)
Definition round_robin (s : hyp) (n : Z) : Prop :=
  (exists k, (k < MAX_DOMAINS)%nat /\ domains_runnable s !! ((current_dom s + k + 1) mod MAX_DOMAINS)%nat = Some (Some n) /\
     forall k', (k' < k)%nat -> domains_runnable s !! ((current_dom s + k' + 1) mod MAX_DOMAINS)%nat = Some None) \/
  (idle_domain s !! ME_CPU = Some (Some n) /\ forall j, (j < MAX_DOMAINS)%nat -> domains_runnable s !! j = Some None).

Lemma not_used (l : list (option Z)) j : (j < length l)%nat -> (forall p, l !! j <> Some (Some p)) -> l !! j = Some None.
Proof. intros Hj Hn. destruct (lookup_lt_is_Some_2 l j Hj) as [[p|] E]; [by destruct (Hn p)|done]. Qed.

Lemma choose_round_robin s n : hyp_ok s -> (choose ME_CPU s).1 = Some n -> round_robin s n.
Proof.
  intros Hok. pose proof (len_runnable s Hok) as Hl. unfold choose. cbn [Nat.eqb ME_CPU].
  destruct (flip_next (domains_runnable s) (current_dom s)) as [[j p]|] eqn:Hf; cbn [fst]; intros Hn.
  - injection Hn as <-. apply flip_next_Some in Hf as (Hj & k & Hk & -> & Hmin). left. exists k. split; [done|]. split; [done|].
    intros k' Hk'. apply not_used; [rewrite Hl; by apply Nat.mod_upper_bound|]. by apply Hmin.
  - right. split; [by destruct (idle_domain s !! ME_CPU) as [[]|]; simplify_eq/=|].
    intros j Hj. apply not_used; [lia|]. intros p. by apply (flip_next_None _ _ (cur_range s Hok) Hf).
Qed.

(** C12: Serving the schedule softirq of a CPU: the domain chosen is, on the ME CPU,
    the next container in the round robin or the idle domain if there is none, and
    domain 0 on the agency's CPU.  It is then the current domain of the CPU, marked
    running, and no other domain of the CPU is; vttbr_el2 holds its stage-2 table (an
    idle domain that stays, which uses none, excepted).  If it is another one than
    before, the registers of the previous domain are in its descriptor, its state is
    blocked, offline or runnable as its flags say, the chosen domain's registers are
    loaded and its pending event is signalled.  The state is well formed ([hyp_ok]); in
    particular no ttbr1_el1, loaded or saved, holds the address of a stage-2 table: see
    [forged_ttbr1_skips_switch] for a guest that breaks this. *)
Theorem schedule_correct s cpu : hyp_ok s -> online s cpu ->
  exists prev next dp dn s', current_domain s !! cpu = Some (Some prev) /\ doms s !! prev = Some dp /\ doms s !! next = Some dn /\
    serve cpu s = Ret (tt, s') /\ dispatched s s' cpu prev next dp dn /\
    (cpu = ME_CPU -> round_robin s next) /\ (cpu = AGENCY_CPU -> domains s !! 0%nat = Some (Some next)) /\
    ~ pending s' cpu SCHEDULE_SOFTIRQ.
Proof.
  intros Hok Hon. destruct (serve_ok s cpu Hok Hon) as (p & dp & n & dn & q & r & s' & H1 & H2 & H3 & H4 & H5 & H6 & H7 & H8 & H9).
  exists p, n, dp, dn, s'. split; [done|]. split; [done|]. split; [apply H4|]. split; [done|].
  split; [by eapply dispatched_ok|]. split; [|split].
  - intros ->. by apply choose_round_robin.
  - intros ->. unfold choose in H3. cbn in H3. by destruct (domains s !! 0%nat) as [[]|]; simplify_eq/=.
  - assert (Hst : is_Some (stat (hsoft s) cpu SCHEDULE_SOFTIRQ)) by (apply stat_some; [apply Hok|by apply (online_cpu s)|apply sched_nr]).
    assert (Hs : hsoft s' = put_stat false cpu SCHEDULE_SOFTIRQ (hsoft s)) by (rewrite H7; destruct (p =? n); unfold decided, timed, switched; by destruct q).
    unfold pending. change (soft s') with (hsoft s'). rewrite Hs, stat_put_stat by done. by rewrite decide_True.
Qed.

(** ** Sequences of operations *)

(** The steps an operation is made of. *)
Inductive prim (t : option Z) : hyp -> hyp -> Prop :=
  | prim_touch s s' : hyp_ok s' -> touched t s s' -> prim t s s'
  | prim_serve s s' cpu : hyp_ok s' -> online s cpu -> serve cpu s = Ret (tt, s') -> prim t s s'.

Definition target (o : op) (s : hyp) : option Z :=
  match o with
  | Pause _ p | Unpause _ p | Create p _ | Construct p _ => Some p
  | Shutdown _ id => mjoin (domains s !! id)
  | _ => None
  end.

Lemma via_prims p s s' : hyp_ok s' -> via p s s' -> rtc (prim (Some p)) s s'.
Proof.
  intros Hok (s1 & Hok1 & Ht & [->|[Hon Hs]]); [by apply rtc_once, prim_touch|].
  eapply rtc_l; [by apply prim_touch|]. apply rtc_once. by eapply prim_serve.
Qed.

Lemma touched_refl s : touched None s s.
Proof. by split. Qed.

Lemma exec_prims s o : hyp_ok s -> enabled o s ->
  exists s', exec o s = Ret (tt, s') /\ hyp_ok s' /\ rtc (prim (target o s)) s s'.
Proof.
  intros Hok He. destruct o as [cpu|cpu p|cpu p|cpu|cpu periodic|p id|p t|cpu id|cpu r]; cbn [enabled target] in *.
  - destruct (serve_ok s cpu Hok He) as (p & dp & n & dn & q & r & s' & _ & _ & _ & _ & _ & _ & _ & H1 & H2).
    exists s'. split; [done|]. split; [done|]. apply rtc_once. by eapply prim_serve.
  - destruct He as (i & d & Hc & Hp & Hcur). destruct (pause_ok s cpu p i d Hok Hc Hp Hcur) as (s' & d' & H1 & H2 & _ & _ & _ & _ & _ & Hv).
    exists s'. split; [done|]. split; [done|]. by apply via_prims.
  - destruct He as (i & d & Hc & Hp). destruct (is_paused_by_controller d) eqn:Hpd.
    + destruct (Hp eq_refl) as [Hr Ht]. destruct (unpause_ok s cpu p i d Hok Hc Hpd Hr Ht) as (s' & d' & H1 & H2 & _ & _ & _ & _ & Hv).
      exists s'. split; [done|]. split; [done|]. by apply rtc_once, prim_touch.
    + exists s. split; [|split; [done|apply rtc_refl]]. destruct Hc as (_ & E & _). by apply (unpause_idle s cpu p d).
  - destruct (raise_inv s cpu SCHEDULE_SOFTIRQ Hok He sched_nr) as (s' & H1 & H2 & ->). eexists. split; [|split; [exact H2|apply rtc_once, prim_touch; [done|by split]]].
    cbn [exec]. unfold do_yield. erewrite kbind_ret; [reflexivity|]. by erewrite kbind_ret by exact H1.
  - assert (exists s1, when periodic (tick_from 2 (MAX_DOMAINS - 2)) s = Ret (tt, s1) /\ hyp_ok s1 /\ touched None s s1) as (s1 & Hs1 & Hok1 & Ht1).
    { destruct periodic; [|exists s; split; [done|split; [done|apply touched_refl]]].
      destruct (tick_inv (MAX_DOMAINS - 2) 2 s Hok) as (s1 & H1 & H2 & F1 & F2 & _ & F4 & F5 & F6); [unfold MAX_DOMAINS; lia|].
      exists s1. split; [done|]. split; [done|]. split; rewrite ?F1, ?F2, ?F4, ?F5, ?F6; done. }
    destruct (raise_inv s1 cpu TIMER_SOFTIRQ Hok1 He) as (s' & H1 & H2 & ->); [unfold TIMER_SOFTIRQ, NR_SOFTIRQS; lia|].
    eexists. split; [cbn [exec]; unfold timer_interrupt; erewrite kbind_ret by exact Hs1; exact H1|]. split; [exact H2|].
    apply (rtc_l _ _ s1); [by apply prim_touch|]. apply rtc_once, prim_touch; [done|by split].
  - destruct He as (H1 & H2 & H3). destruct (create_ok s p id Hok H1 H2 H3) as (s' & G1 & G2 & G3).
    exists s'. split; [done|]. split; [done|]. by apply rtc_once, prim_touch.
  - destruct He as (i & d & Hc & H1 & H2 & H3 & H4 & H5). destruct (construct_ok s p t i d Hok Hc H1 H2 H3 H4 H5) as (s' & G1 & G2 & G3).
    exists s'. split; [done|]. split; [done|]. by apply rtc_once, prim_touch.
  - destruct He as (p & d & Hc & Hcur). destruct (shutdown_ok s cpu id p d Hok Hc Hcur) as (s' & G1 & G2 & _ & s1 & G3 & G4 & G5).
    exists s'. split; [done|]. split; [done|]. destruct Hc as (Hi & _). rewrite Hi. cbn.
    eapply rtc_r; [exact (via_prims p s s1 G4 G3)|]. by apply prim_touch.
  - pose proof (regs_inv s cpu r Hok He) as Hok'. eexists. split; [reflexivity|]. split; [exact Hok'|]. apply rtc_once, prim_touch; [done|by split].
Qed.

(** ** Pausing *)

(** The container is off the CPU and stays so while its pause count is not zero. *)
Definition parked (p : Z) (s : hyp) : Prop :=
  exists i d, container s i p d /\ is_running d = false /\ 0 < pause_count d /\ is_paused_by_controller d = true.

Lemma parked_serve p s s' cpu : hyp_ok s -> online s cpu -> serve cpu s = Ret (tt, s') -> parked p s -> parked p s'.
Proof.
  intros Hok Hon Hs (i & d & (Hi & E & Hme) & Hrun & Hpos & Hp).
  destruct (serve_ok s cpu Hok Hon) as (p0 & dp & n & dn & q & r & s0 & H1 & H2 & H3 & H4 & H5 & H6 & H7 & H8 & H9).
  rewrite Hs in H8. injection H8 as <-.
  assert (Hd : domains s' = domains s) by (rewrite H7; destruct (p0 =? n); unfold decided, timed, switched; by destruct q).
  assert (Hn : p <> n).
  { intros <-. destruct H4 as [En Hc _ _ Hm _]. rewrite E in En. injection En as <-.
    destruct (hyp_slot s i p d Hok Hi E) as (_ & _ & Hni).
    destruct (Hm ltac:(congruence)) as [?|(_ & _ & _ & Hz)]; [done|lia]. }
  assert (Hp0 : p <> p0).
  { intros <-. destruct (cur_valid s Hok cpu Hon) as (p1 & d1 & F1 & F2 & _ & _ & F5 & _). congruence. }
  exists i, d. split; [|done]. split; [by rewrite Hd|]. split; [|done]. rewrite H7. destruct (p0 =? n).
  - unfold decided, timed. by destruct q.
  - unfold decided. by rewrite s2_doms, !decide_False.
Qed.

Lemma parked_prim p t s s' : hyp_ok s -> t <> Some p -> prim t s s' -> parked p s -> parked p s'.
Proof.
  intros Hok Hne Hpr Hp. destruct Hpr as [s1 s2 Hok2 [T1 T2 _ _ _]|s1 s2 cpu Hok2 Hon Hs]; [|by apply (parked_serve p s1 s2 cpu)].
  destruct Hp as (i & d & (Hi & E & Hme) & Hrest). exists i, d. split; [|done]. split; [by apply T2|]. by rewrite T1.
Qed.

Lemma prim_ok t s s' : prim t s s' -> hyp_ok s'.
Proof. by intros []. Qed.

Lemma parked_prims p t s s' : hyp_ok s -> t <> Some p -> rtc (prim t) s s' -> parked p s -> parked p s'.
Proof.
  intros Hok Hne Hr. induction Hr as [|s s1 s2 H1 _ IH]; [done|]. intros Hp.
  apply IH; [by eapply prim_ok|]. by eapply parked_prim.
Qed.

Lemma exec_fun s o s' : hyp_ok s -> enabled o s -> exec o s = Ret (tt, s') -> hyp_ok s' /\ rtc (prim (target o s)) s s'.
Proof. intros Hok He Hx. destruct (exec_prims s o Hok He) as (s1 & H1 & H2 & H3). rewrite Hx in H1. by injection H1 as <-. Qed.

(** The operations that may end a pause of [p]: undoing it, building it anew, and
    shutting it down. *)
Definition spares (p : Z) (s : hyp) (o : op) : Prop :=
  match o with
  | Unpause _ p' | Construct p' _ => p' <> p
  | Shutdown _ id => domains s !! id <> Some (Some p)
  | _ => True
  end.

(** A run of operations, each allowed where it is used, none of which ends a pause of [p]. *)
Inductive runs (p : Z) : list op -> hyp -> hyp -> Prop :=
  | runs_nil s : runs p [] s s
  | runs_cons o l s s1 s' : enabled o s -> spares p s o -> exec o s = Ret (tt, s1) -> runs p l s1 s' -> runs p (o :: l) s s'.

Lemma parked_target p o s : parked p s -> enabled o s -> spares p s o -> target o s <> Some p.
Proof.
  intros (i & d & (Hi & E & Hme) & _ & Hpos & Hp) He Hs.
  destruct o as [cpu|cpu p'|cpu p'|cpu|cpu periodic|p' id|p' t|cpu id|cpu r]; cbn in *; try done; try congruence.
  - intros [= ->]. destruct He as (i' & d' & (_ & E' & _) & Hn & _). congruence.
  - intros [= ->]. destruct He as (He & _). congruence.
  - destruct (domains s !! id) as [[q|]|]; cbn; congruence.
Qed.

Lemma parked_runs p l s s' : hyp_ok s -> runs p l s s' -> parked p s -> hyp_ok s' /\ parked p s'.
Proof.
  intros Hok Hr. revert Hok. induction Hr as [|o l s s1 s' He Ho Hx _ IH]; intros Hok Hp; [done|].
  destruct (exec_fun s o s1 Hok He Hx) as [Hok1 Hpr].
  apply IH; [done|]. exact (parked_prims p (target o s) s s1 Hok (parked_target p o s Hp He Ho) Hpr Hp).
Qed.

(** C13: Pausing a container is effective and lasts: the call returns once the container is
    off its CPU, and from then on, whatever operations the hypervisor performs one after the
    other (decisions on any CPU, other domains paused, resumed, created, built or shut down,
    timer interrupts, yields, register writes of guests), the container does not run until it is
    resumed, built anew or shut down.  Operations of different CPUs are taken as atomic: the
    interleavings that the test [spin_is_locked] of [vcpu_sleep_nosync] and [vcpu_wake] allows
    are not covered; and guests keep the addresses of stage-2 tables out of ttbr1_el1. *)
Theorem pause_lasts s cpu p i d l s1 s2 : hyp_ok s -> container s i p d -> is_paused_by_controller d = false ->
  current_domain s !! cpu <> Some (Some p) -> exec (Pause cpu p) s = Ret (tt, s1) ->
  runs p l s1 s2 ->
  exists d', doms s2 !! p = Some d' /\ is_running d' = false /\ (forall c, online s2 c -> current_domain s2 !! c <> Some (Some p)).
Proof.
  intros Hok Hc Hp Hcur Hx Hr. destruct (pause_ok s cpu p i d Hok Hc Hp Hcur) as (s' & d' & H1 & H2 & H3 & H4 & H5 & _ & H7 & _).
  cbn [exec] in Hx. rewrite Hx in H1. injection H1 as <-.
  destruct (parked_runs p l s1 s2 H2 Hr) as (Hok2 & i2 & d2 & (_ & E2 & _) & Hrun & _); [by exists i, d'|].
  exists d2. split; [done|]. split; [done|]. intros c Hon Hc2.
  destruct (cur_valid s2 Hok2 c Hon) as (p1 & d1 & F1 & F2 & _ & _ & F5 & _). congruence.
Qed.

(** ** Fairness of the round robin *)

(** How many slots the round robin looks at before slot [i]. *)
Definition distance (i c : nat) : nat := ((i + MAX_DOMAINS - c - 1) mod MAX_DOMAINS)%nat.

Lemma distance_slot i c : (i < MAX_DOMAINS)%nat -> (c < MAX_DOMAINS)%nat ->
  (distance i c < MAX_DOMAINS)%nat /\ ((c + distance i c + 1) mod MAX_DOMAINS = i)%nat.
Proof.
  unfold distance, MAX_DOMAINS. intros Hi Hc. split; [by apply Nat.mod_upper_bound|].
  replace (c + (i + 7 - c - 1) mod 7 + 1)%nat with ((i + 7 - c - 1) mod 7 + (c + 1))%nat by lia.
  rewrite Nat.Div0.add_mod_idemp_l. replace (i + 7 - c - 1 + (c + 1))%nat with (i + 1 * 7)%nat by lia.
  by rewrite Nat.Div0.mod_add, Nat.mod_small.
Qed.

Lemma distance_drop i c k : (i < MAX_DOMAINS)%nat -> (c < MAX_DOMAINS)%nat -> (k < distance i c)%nat ->
  (distance i ((c + k + 1) mod MAX_DOMAINS) < distance i c)%nat.
Proof.
  unfold distance, MAX_DOMAINS. intros Hi Hc Hk. dlia.
Qed.

(** [starved p n s s']: from [s] to [s'], the ME CPU decides [n] times and never for
    [p], while other CPUs decide and other domains change in any way. *)
Inductive starved (p : Z) : nat -> hyp -> hyp -> Prop :=
  | starved_refl s : starved p 0 s s
  | starved_touch t n s s1 s' : t <> Some p -> hyp_ok s1 -> touched t s s1 -> starved p n s1 s' -> starved p n s s'
  | starved_other cpu n s s1 s' : cpu <> ME_CPU -> online s cpu -> serve cpu s = Ret (tt, s1) -> starved p n s1 s' -> starved p n s s'
  | starved_decide n s s1 s' : online s ME_CPU -> serve ME_CPU s = Ret (tt, s1) -> current_domain s1 !! ME_CPU <> Some (Some p) ->
      starved p n s1 s' -> starved p (S n) s s'.

Lemma serve_tables s cpu s' : hyp_ok s -> online s cpu -> serve cpu s = Ret (tt, s') ->
  hyp_ok s' /\ domains_runnable s' = domains_runnable s /\ current_dom s' = (choose cpu s).2 /\
  exists n, (choose cpu s).1 = Some n /\ current_domain s' !! cpu = Some (Some n).
Proof.
  intros Hok Hon Hs. destruct (serve_ok s cpu Hok Hon) as (p & dp & n & dn & q & r & s0 & H1 & H2 & H3 & H4 & H5 & H6 & H7 & H8 & H9).
  rewrite Hs in H8. injection H8 as <-. split; [done|].
  split; [rewrite H7; destruct (p =? n); unfold decided, timed, switched; by destruct q|].
  split; [rewrite H7; destruct (p =? n); unfold decided, timed, switched; by destruct q|].
  exists n. split; [done|]. apply (di_current _ _ _ _ _ _ _ (dispatched_ok s s' cpu p dp n dn q r Hok Hon H1 H2 H4 H6 H7 H9)).
Qed.

(** A decision for another container brings [p] closer. *)
Lemma decide_closer s s1 p i : hyp_ok s -> online s ME_CPU -> serve ME_CPU s = Ret (tt, s1) ->
  domains_runnable s !! i = Some (Some p) -> current_domain s1 !! ME_CPU <> Some (Some p) ->
  (distance i (current_dom s1) < distance i (current_dom s))%nat.
Proof.
  intros Hok Hon Hs Hi Hne. pose proof (cur_range s Hok) as Hc.
  assert (Hil : (i < MAX_DOMAINS)%nat) by (rewrite <- (len_runnable s Hok); by eapply lookup_lt_Some).
  destruct (serve_tables s ME_CPU s1 Hok Hon Hs) as (_ & _ & Hcd & n & Hn & Hcur). unfold choose in Hcd, Hn. cbn [Nat.eqb ME_CPU] in Hcd, Hn.
  destruct (flip_next _ _) as [[j q]|] eqn:Hf; cbn [fst snd] in Hcd, Hn.
  - injection Hn as ->. rewrite Hcd. apply flip_next_Some in Hf as (Hj & k & Hk & -> & Hmin).
    destruct (distance_slot i (current_dom s) Hil Hc) as [Hd1 Hd2]. apply distance_drop; [done|done|].
    destruct (lt_eq_lt_dec k (distance i (current_dom s))) as [[Hlt|Heq]|Hgt]; [done|..].
    + exfalso. subst k. rewrite Hd2, Hi in Hj. congruence.
    + exfalso. apply (Hmin _ Hgt p). by rewrite Hd2.
  - by destruct (flip_next_None _ _ Hc Hf i p Hil).
Qed.

(** C14: No container starves: as long as a container is in the round robin's table,
    at most six decisions of the ME CPU in a row can go to other domains, whatever
    is woken, paused, created or scheduled elsewhere in between, in states that are well
    formed ([hyp_ok]; in particular no ttbr1_el1 holds the address of a stage-2 table). *)
Theorem flip_fair s p i n s' : hyp_ok s -> domains_runnable s !! i = Some (Some p) -> starved p n s s' -> (n < MAX_DOMAINS)%nat.
Proof.
  intros Hok Hi Hs. enough (n <= distance i (current_dom s))%nat.
  { assert (distance i (current_dom s) < MAX_DOMAINS)%nat by (apply Nat.mod_upper_bound; done). lia. }
  revert Hok Hi. induction Hs as [s|t n s s1 s' Ht Hok1 [_ _ T3 _ T5] _ IH|cpu n s s1 s' Hcpu Hon Hs _ IH|n s s1 s' Hon Hs Hne _ IH]; intros Hok Hi; [lia|..].
  - rewrite <- T5. apply IH; [done|]. by apply T3.
  - destruct (serve_tables s cpu s1 Hok Hon Hs) as (Hok1 & Hr & Hc & _).
    replace (current_dom s) with (current_dom s1); [apply IH; [done|by rewrite Hr]|].
    rewrite Hc. unfold choose. by rewrite (proj2 (Nat.eqb_neq _ _) Hcpu).
  - destruct (serve_tables s ME_CPU s1 Hok Hon Hs) as (Hok1 & Hr & _).
    pose proof (decide_closer s s1 p i Hok Hon Hs Hi Hne). assert (n <= distance i (current_dom s1))%nat by (apply IH; [done|by rewrite Hr]). lia.
Qed.

(** ** Properties of single operations *)

(** C11: The hypervisor's view of its domains is well formed after every operation, and every
    operation under its precondition ([enabled]) runs to its end: no [ASSERT] or [BUG_ON] of the
    schedulers fails, no null or stale domain is followed, and the wait for a container to leave
    its CPU ends with the interrupt that CPU was sent.  Well formed means: one domain runs on each
    scheduling CPU, it is the one marked as running there and, if it is not idle, vttbr_el2 holds
    its stage-2 table; slots and identifiers of domains agree; a container is in the round robin's
    table exactly when its pause count is zero; and no ttbr1_el1 holds the address of a stage-2
    table.  The preconditions: a container is paused once and not by the CPU it runs on; one that
    is resumed is not running and has a table; a new domain has a fresh address and a free slot of a
    container; a table is set for a paused container, at an address that no domain and no ttbr1_el1
    has; a guest writes no address of a stage-2 table into its ttbr1_el1.  Operations of different
    CPUs are atomic. *)
Theorem hyp_op_ok s o : hyp_ok s -> enabled o s -> exists s', exec o s = Ret (tt, s') /\ hyp_ok s'.
Proof. intros Hok He. destruct (exec_prims s o Hok He) as (s' & H1 & H2 & _). by exists s'. Qed.

(** ** A guest that defeats the switch *)
(** The test of [switch_mm_domain] reads a register of the guest: if the previous guest has put
    the address of the next domain's table there, the current domain and the stage-2 table stay
    those of the previous guest, while the next one is marked as running. *)
Lemma forged_ttbr1_skips_switch s cpu p d r : sysregs s !! cpu = Some r -> doms s !! p = Some d -> r !! TTBR1_EL1 = Some (pagetable_paddr d) ->
  switch_mm_domain cpu p s = Ret (tt, s).
Proof.
  intros Hr E Ht. unfold switch_mm_domain. kstep. erewrite kbind_ret by (rewrite Hr; reflexivity). cbn beta. erewrite kbind_ret by (rewrite Ht; reflexivity). cbn beta.
  erewrite kbind_ret by (by apply dom_of_run). cbn beta. by rewrite Z.eqb_refl.
Qed.

(** The softirq handlers AVZ registers, by their addresses. *)
Definition handler_schedule : Z := 200.
Definition handler_timer : Z := 100.

(** ** Boot: the agency on its CPUs, the ME CPU idle, then two containers *)
Definition sys_root : Z := 900.
Definition blank : hyp :=
  Hyp ∅ (replicate MAX_DOMAINS None) (replicate NR_CPUS None) (replicate NR_CPUS None) (replicate MAX_DOMAINS None) 0
    (SchedData false None) (SchedData false None) (replicate NR_CPUS 0) (replicate NR_CPUS (replicate 6 0)) (replicate NR_CPUS false)
    (MkSoftirq [] [Some handler_timer; None] false false []) 0 [].
(** [avz_start] and [smp_init], with the addresses the allocator gives. *)
Definition boot : kern hyp unit :=
  softirq_init;;
  domain_scheduler_init handler_schedule;;
  init_idle_domain 1000 AGENCY_CPU sys_root;;
  domain_create 1001 1 AGENCY_RT_CPU sys_root;;
  modify (with_domains <[1%nat := Some 1001]>);;
  domain_create 1002 0 AGENCY_CPU sys_root;;
  modify (with_domains <[0%nat := Some 1002]>);;
  construct_ME 1002 2002;;
  modify (with_current <[AGENCY_RT_CPU := Some 1001]>);;
  init_idle_domain 1003 ME_CPU sys_root;;
  domain_unpause_by_systemcontroller AGENCY_CPU 1002.
Definition booted : hyp :=
  Hyp (<[1000 := new_domain DOMID_IDLE AGENCY_CPU sys_root]> (<[1001 := new_domain 1 AGENCY_RT_CPU sys_root]>
        (<[1002 := set_flags 0 (set_runstate RUNSTATE_runnable (set_count 0 (set_paused false (set_pagetable 2002 (new_domain 0 AGENCY_CPU sys_root)))))]>
        {[1003 := new_domain DOMID_IDLE ME_CPU sys_root]})))
    (Some 1002 :: Some 1001 :: replicate 5 None) [Some 1000; None; None; Some 1003] [Some 1000; Some 1001; None; Some 1003]
    (replicate MAX_DOMAINS None) 0 (SchedData false (Some 30000000)) (SchedData false None)
    (replicate NR_CPUS 0) (replicate NR_CPUS (replicate 6 0)) (replicate NR_CPUS false)
    (MkSoftirq [[false; true]; [false; false]; [false; false]; [false; false]] [Some handler_timer; Some handler_schedule] false false []) 0 [].

Lemma boot_run : boot blank = Ret (tt, booted).
Proof. vm_compute. reflexivity. Qed.

Lemma booted_doms p d : doms booted !! p = Some d ->
  (p = 1000 /\ d = new_domain DOMID_IDLE AGENCY_CPU sys_root) \/ (p = 1001 /\ d = new_domain 1 AGENCY_RT_CPU sys_root) \/
  (p = 1002 /\ d = set_flags 0 (set_runstate RUNSTATE_runnable (set_count 0 (set_paused false (set_pagetable 2002 (new_domain 0 AGENCY_CPU sys_root)))))) \/
  (p = 1003 /\ d = new_domain DOMID_IDLE ME_CPU sys_root).
Proof.
  cbn. rewrite !lookup_insert_Some, lookup_singleton_Some. naive_solver.
Qed.

Lemma booted_apart : apart (doms booted) (replicate 6 0).
Proof. exists 0. split; [done|]. intros p d E H0. done. Qed.

Lemma booted_ok : hyp_ok booted.
Proof.
  split; try reflexivity.
  - split; try reflexivity. repeat constructor.
  - unfold MAX_DOMAINS. cbn. lia.
  - intros c p Hc. do 4 (destruct c as [|c]; [first [done|injection Hc as <-; eexists; split; [reflexivity|]; done]|]). done.
  - intros i p Hi. do 7 (destruct i as [|i]; [first [done|injection Hi as <-; eexists; split; [reflexivity|]; done]|]). done.
  - intros p d E. apply booted_doms in E as [(-> & ->)|[(-> & ->)|[(-> & ->)|(-> & ->)]]]; [by right|left; by exists 1%nat|left; by exists 0%nat|by right].
  - intros p d E. apply booted_doms in E as [(-> & ->)|[(-> & ->)|[(-> & ->)|(-> & ->)]]]; by eexists.
  - intros c [p Hp]. do 4 (destruct c as [|c]; [first [done|eexists _, _; split; [reflexivity|]; split; [reflexivity|]; done]|]). done.
  - intros p d E Hr. apply booted_doms in E as [(-> & ->)|[(-> & ->)|[(-> & ->)|(-> & ->)]]]; destruct Hr as [Hr|Hr]; try discriminate Hr;
      (split; [by eexists|reflexivity]).
  - intros p1 p2 d1 d2 E1 E2 Hc Ht H0. apply booted_doms in E1 as [(-> & ->)|[(-> & ->)|[(-> & ->)|(-> & ->)]]];
      apply booted_doms in E2 as [(-> & ->)|[(-> & ->)|[(-> & ->)|(-> & ->)]]]; try reflexivity; try discriminate Hc; try discriminate Ht; by destruct H0.
  - intros p d Hi E. injection Hi as <-. apply booted_doms in E as [(? & ->)|[(? & ->)|[(? & ->)|(? & ->)]]]; done.
  - by eexists.
  - intros i Hi. do 7 (destruct i as [|i]; [done|]). done.
  - intros i p d Hi E Hne. do 7 (destruct i as [|i]; [done|]). done.
  - intros i p d Hi E Hme. exfalso. do 7 (destruct i as [|i]; [first [done|injection Hi as <-; apply booted_doms in E as [(? & ->)|[(? & ->)|[(? & ->)|(? & ->)]]]; done]|]). done.
  - intros _ p d Hc E. injection Hc as <-. apply booted_doms in E as [(? & ->)|[(? & ->)|[(? & ->)|(? & ->)]]]; try done. by left.
  - intros c r. do 4 (destruct c as [|c]; [intros [= <-]; apply booted_apart|]). done.
  - intros p d E. apply booted_doms in E as [(? & ->)|[(? & ->)|[(? & ->)|(? & ->)]]]; apply booted_apart.
Qed.

Lemma step_to s o s' : hyp_ok s -> enabled o s -> exec o s = Ret (tt, s') -> hyp_ok s'.
Proof. intros Hok He Hx. by destruct (exec_fun s o s' Hok He Hx). Qed.

Lemma fresh_table s t : bool_decide (map_Forall (fun _ d => pagetable_paddr d <> t) (doms s)) = true ->
  forall p2 d2, doms s !! p2 = Some d2 -> pagetable_paddr d2 <> t.
Proof. intros H p2 d2 E. exact (bool_decide_eq_true_1 _ H p2 d2 E). Qed.

Definition seen (t : Z) (r : list Z) : bool := bool_decide (r !! TTBR1_EL1 = Some t).
Lemma unseen_b s t : forallb (fun r => negb (seen t r)) (sysregs s) = true -> bool_decide (map_Forall (fun _ d => vcpu d !! TTBR1_EL1 <> Some t) (doms s)) = true -> unseen s t.
Proof.
  intros H1 H2. split; [|exact (bool_decide_eq_true_1 _ H2)]. intros c r Hr E. rewrite forallb_forall in H1.
  specialize (H1 r). rewrite <- list_elem_of_In in H1. specialize (H1 (list_elem_of_lookup_2 _ _ _ Hr)). unfold seen in H1. by rewrite bool_decide_eq_true_2 in H1.
Qed.

(** Two containers are injected: created, given a page table, resumed; the ME CPU
    decides for the first one, which is then paused. *)
Definition step (o : op) (s : hyp) : hyp := match exec o s with Ret (_, s') => s' | Fault _ => s end.
Definition st1 : hyp := Eval vm_compute in step (Create 1004 2) booted.
Definition st2 : hyp := Eval vm_compute in step (Construct 1004 2004) st1.
Definition st3 : hyp := Eval vm_compute in step (Unpause AGENCY_CPU 1004) st2.
Definition st4 : hyp := Eval vm_compute in step (Create 1005 3) st3.
Definition st5 : hyp := Eval vm_compute in step (Construct 1005 2005) st4.
Definition st6 : hyp := Eval vm_compute in step (Unpause AGENCY_CPU 1005) st5.
Definition two : hyp := Eval vm_compute in step (Schedule ME_CPU) st6.
Definition paused1 : hyp := Eval vm_compute in step (Pause AGENCY_CPU 1004) two.
Definition paused2 : hyp := Eval vm_compute in step (Schedule ME_CPU) paused1.

Ltac vmr := vm_compute; reflexivity.
Ltac some_container i := exists i; eexists; split; [split; [vmr|split; [vmr|vmr]]|].

Lemma two_ok : hyp_ok two.
Proof.
  assert (H1 : hyp_ok st1) by (apply (step_to booted (Create 1004 2) _ booted_ok); [split; [vmr|split; [lia|vmr]]|vmr]).
  assert (H2 : hyp_ok st2).
  { apply (step_to st1 (Construct 1004 2004) _ H1); [|vmr]. some_container 2%nat. split; [vmr|]. split; [vmr|]. split; [lia|].
    split; [apply fresh_table; vmr|apply unseen_b; vmr]. }
  assert (H3 : hyp_ok st3).
  { apply (step_to st2 (Unpause AGENCY_CPU 1004) _ H2); [|vmr]. some_container 2%nat. intros _. split; vm_compute; discriminate. }
  assert (H4 : hyp_ok st4) by (apply (step_to st3 (Create 1005 3) _ H3); [split; [vmr|split; [lia|vmr]]|vmr]).
  assert (H5 : hyp_ok st5).
  { apply (step_to st4 (Construct 1005 2005) _ H4); [|vmr]. some_container 3%nat. split; [vmr|]. split; [vmr|]. split; [lia|].
    split; [apply fresh_table; vmr|apply unseen_b; vmr]. }
  assert (H6 : hyp_ok st6).
  { apply (step_to st5 (Unpause AGENCY_CPU 1005) _ H5); [|vmr]. some_container 3%nat. intros _. split; vm_compute; discriminate. }
  apply (step_to st6 (Schedule ME_CPU) _ H6); [|vmr]. exists 1003. vmr.
Qed.

Lemma hyp_op_ok_witness : exists s', exec (Pause AGENCY_CPU 1004) two = Ret (tt, s') /\ hyp_ok s'.
Proof.
  apply (hyp_op_ok two (Pause AGENCY_CPU 1004) two_ok). some_container 2%nat. split; [vmr|]. vm_compute. discriminate.
Defined.

Lemma schedule_correct_witness :
  exists prev next dp dn s', current_domain two !! ME_CPU = Some (Some prev) /\ doms two !! prev = Some dp /\ doms two !! next = Some dn /\
    serve ME_CPU two = Ret (tt, s') /\ dispatched two s' ME_CPU prev next dp dn /\
    (ME_CPU = ME_CPU -> round_robin two next) /\ (ME_CPU = AGENCY_CPU -> domains two !! 0%nat = Some (Some next)) /\
    ~ pending s' ME_CPU SCHEDULE_SOFTIRQ.
Proof. apply (schedule_correct two ME_CPU two_ok). exists 1003. vmr. Defined.

Lemma pause_lasts_witness : current_domain two !! ME_CPU = Some (Some 1004) /\
  exists d', doms paused2 !! 1004 = Some d' /\ is_running d' = false /\
    (forall c, online paused2 c -> current_domain paused2 !! c <> Some (Some 1004)).
Proof.
  split; [vmr|]. eapply (pause_lasts two AGENCY_CPU 1004 2%nat _ [Schedule ME_CPU] paused1 paused2 two_ok).
  - split; [vmr|split; [vmr|vmr]].
  - vmr.
  - vm_compute. discriminate.
  - vmr.
  - apply (runs_cons _ _ _ _ paused2); [exists 1003; vmr|done|vmr|apply runs_nil].
Defined.

(** The decision after [two] goes to the second container. *)
Lemma flip_fair_witness : current_domain two !! ME_CPU = Some (Some 1004) /\ current_domain (step (Schedule ME_CPU) two) !! ME_CPU = Some (Some 1005) /\ (1 < MAX_DOMAINS)%nat.
Proof.
  split; [vmr|]. split; [vmr|]. apply (flip_fair two 1004 2%nat 1 (step (Schedule ME_CPU) two) two_ok); [vmr|].
  apply (starved_decide _ _ _ (step (Schedule ME_CPU) two)); [exists 1003; vmr|vmr|vm_compute; discriminate|apply starved_refl].
Defined.

(** A container that forges its register: the decision marks the other container as running,
    but the CPU goes on with the current domain and the stage-2 table of the first. *)
Definition forged : hyp := with_sysregs <[ME_CPU := [0; 0; 0; 2005; 0; 0]]> two.
Example forged_keeps_table :
  exists s', serve ME_CPU forged = Ret (tt, s') /\ is_running <$> doms s' !! 1005 = Some true /\ is_running <$> doms s' !! 1004 = Some false /\
    current_domain s' !! ME_CPU = Some (Some 1004) /\ vttbr_el2 s' !! ME_CPU = Some 2004.
Proof. eexists. split; [vmr|]. split; [vmr|]. split; [vmr|]. split; vmr. Qed.

End AvzRuns.
