(* ===== verification/Vfs.v ===== *)
(** The virtual file system layer (so3/fs/vfs.c) and the process side of its
    descriptors (so3/kernel/process.c): the global table of open files, the
    per-process tables of local descriptors, reference counts, and the system
    calls on them.

    [vfs_lock] is recursive (see [Mutex]) and every operation below runs with it
    held except the [read] and [write] callbacks, so an operation is a function
    of the state; [vfs_lock] is the nesting depth of the running thread.  The
    callbacks of a file system or device are parameters over the same state: the
    table [fops_tab] gives the callbacks behind a [file_operations] pointer.  A
    failing [malloc] is an input. *)
From stdpp Require Import strings.
From S2P Require Import Prelude.

Module Vfs.

Definition MAX_FDS : nat := 128.
Definition FD_MAX : nat := 64.
Definition STDIN : Z := 0.
Definition STDOUT : Z := 1.
Definition STDERR : Z := 2.
Definition O_DIRECTORY : Z := 16384. (* 040000 *)
Definition VFS_TYPE_FILE : Z := 0.
Definition VFS_TYPE_DIR : Z := 1.
Definition VFS_TYPE_PIPE : Z := 2.
Definition VFS_TYPE_IO : Z := 3.
Definition EPERM : Z := 1.
Definition ENOENT : Z := 2.
Definition ENOTDIR : Z := 20.
Definition EISDIR : Z := 21.

(** [struct fd]; [filename], [fops] and [priv] may be null. *)
Record fd := Fd {
  filename : option string;
  val : Z;
  flags_operating_mode : Z;
  flags_access_mode : Z;
  flags_open : Z;
  ftype : Z;
  ref_count : Z;
  fops : option Z;
  priv : option Z
}.

Record vfs := MkVfs {
  vfs_lock : Z;                          (* nesting depth *)
  errno : Z;
  open_fds : list (option fd);
  fd_arrays : gmap Z (list Z);           (* [pcb->fd_array] of every process *)
  current_pcb : option Z;
  fs_fat : option Z;                     (* [registered_fs_ops] *)
  fs_dev : option Z
}.

Definition set_flags_operating v f := Fd (filename f) (val f) v (flags_access_mode f) (flags_open f) (ftype f) (ref_count f) (fops f) (priv f).
Definition set_flags_access v f := Fd (filename f) (val f) (flags_operating_mode f) v (flags_open f) (ftype f) (ref_count f) (fops f) (priv f).
Definition set_flags_open v f := Fd (filename f) (val f) (flags_operating_mode f) (flags_access_mode f) v (ftype f) (ref_count f) (fops f) (priv f).
Definition set_ref_count v f := Fd (filename f) (val f) (flags_operating_mode f) (flags_access_mode f) (flags_open f) (ftype f) v (fops f) (priv f).
Definition set_fd_priv v f := Fd (filename f) (val f) (flags_operating_mode f) (flags_access_mode f) (flags_open f) (ftype f) (ref_count f) (fops f) v.

Definition with_lock g s := MkVfs (g (vfs_lock s)) (errno s) (open_fds s) (fd_arrays s) (current_pcb s) (fs_fat s) (fs_dev s).
Definition with_errno e s := MkVfs (vfs_lock s) e (open_fds s) (fd_arrays s) (current_pcb s) (fs_fat s) (fs_dev s).
Definition with_open g s := MkVfs (vfs_lock s) (errno s) (g (open_fds s)) (fd_arrays s) (current_pcb s) (fs_fat s) (fs_dev s).
Definition with_arrays g s := MkVfs (vfs_lock s) (errno s) (open_fds s) (g (fd_arrays s)) (current_pcb s) (fs_fat s) (fs_dev s).

Definition set_errno (e : Z) : kern vfs unit := modify (with_errno e).
Definition lock_vfs : kern vfs unit := modify (with_lock (fun d => d + 1)).
Definition unlock_vfs : kern vfs unit :=
  d ← gets vfs_lock; lift (bug_on (d =? 0));; modify (with_lock (fun d => d - 1)).
Definition assert_locked : kern vfs unit := d ← gets vfs_lock; lift (assert_k (negb (d =? 0))).

(** [open_fds[gfd]]: reading or writing outside the table is [Undef]. *)
Definition slot (gfd : Z) : kern vfs (option fd) :=
  if (0 <=? gfd) && (gfd <? Z.of_nat MAX_FDS) then
    l ← gets open_fds; lift (deref (l !! Z.to_nat gfd))
  else raise Undef.
Definition put_slot (gfd : Z) (v : option fd) : kern vfs unit :=
  _ ← slot gfd; modify (with_open <[Z.to_nat gfd := v]>).
(** [open_fds[gfd]->...] *)
Definition fd_of (gfd : Z) : kern vfs fd := o ← slot gfd; lift (deref o).
Definition upd_fd (gfd : Z) (f : fd -> fd) : kern vfs unit := x ← fd_of gfd; put_slot gfd (Some (f x)).

(** [current()->pcb->fd_array[i]] *)
Definition pcb_cur : kern vfs Z := p ← gets current_pcb; lift (deref p).
Definition get_local (i : Z) : kern vfs Z :=
  p ← pcb_cur; m ← gets fd_arrays; a ← lift (deref (m !! p));
  if i <? 0 then raise Undef else lift (deref (a !! Z.to_nat i)).
Definition put_local (i gfd : Z) : kern vfs unit :=
  _ ← get_local i; p ← pcb_cur; modify (with_arrays (alter <[Z.to_nat i := gfd]> p)).

(** *** Global descriptors *)
Definition vfs_is_valid_gfd (gfd : Z) : kern vfs bool :=
  assert_locked;;
  if gfd <? 0 then mret false else o ← slot gfd; mret (bool_decide (is_Some o)).

Definition vfs_get_gfd (localfd : Z) : kern vfs Z :=
  if localfd <? 0 then mret (-1)
  else
    lock_vfs;;
    gfd ← get_local localfd;
    o ← slot gfd;
    unlock_vfs;;
    mret (match o with None => -1 | Some _ => gfd end).

Definition vfs_refcount (gfd : Z) : kern vfs Z :=
  lock_vfs;;
  v ← vfs_is_valid_gfd gfd;
  if negb v then unlock_vfs;; mret 0
  else x ← fd_of gfd; unlock_vfs;; mret (ref_count x).

Definition vfs_inc_ref (gfd : Z) : kern vfs Z :=
  lock_vfs;;
  v ← vfs_is_valid_gfd gfd;
  if negb v then unlock_vfs;; mret (-1)
  else
    upd_fd gfd (fun x => set_ref_count (u32 (ref_count x + 1)) x);;
    x ← fd_of gfd;
    unlock_vfs;;
    mret (ref_count x).

Definition vfs_set_priv (gfd : Z) (data : option Z) : kern vfs unit := upd_fd gfd (set_fd_priv data).
Definition vfs_get_priv (gfd : Z) : kern vfs (option Z) := x ← fd_of gfd; mret (priv x).
Definition vfs_get_type (gfd : Z) : kern vfs Z := x ← fd_of gfd; mret (ftype x).
Definition vfs_get_filename (gfd : Z) : kern vfs (option string) := x ← fd_of gfd; mret (filename x).
Definition vfs_get_fops (gfd : Z) : kern vfs (option Z) :=
  assert_locked;;
  v ← vfs_is_valid_gfd gfd;
  if negb v then mret None else x ← fd_of gfd; mret (fops x).

Definition vfs_get_open_mode (gfd : Z) : kern vfs Z :=
  assert_locked;; o ← slot gfd; mret (from_option flags_open 0 o).
Definition vfs_set_open_mode (gfd flags : Z) : kern vfs Z :=
  lock_vfs;; upd_fd gfd (set_flags_open flags);; unlock_vfs;; mret 0.
(** The result is uninitialised when the slot is free; [junk] is that value. *)
Definition vfs_get_access_mode (junk gfd : Z) : kern vfs Z :=
  lock_vfs;; o ← slot gfd; unlock_vfs;; mret (from_option flags_access_mode junk o).
Definition vfs_set_access_mode (gfd flags : Z) : kern vfs unit :=
  lock_vfs;; upd_fd gfd (set_flags_access flags);; unlock_vfs.
Definition vfs_get_operating_mode (junk gfd : Z) : kern vfs Z :=
  lock_vfs;; o ← slot gfd; unlock_vfs;; mret (from_option flags_operating_mode junk o).
Definition vfs_set_operating_mode (gfd flags : Z) : kern vfs Z :=
  lock_vfs;; upd_fd gfd (set_flags_operating flags);; unlock_vfs;; mret 0.

(** *** Local descriptors (so3/kernel/process.c) *)
Fixpoint first_free (l : list Z) (i : Z) : Z :=
  match l with [] => -1 | x :: r => if x =? -1 then i else first_free r (i + 1) end.
Definition proc_new_fd (p : Z) : kern vfs Z :=
  m ← gets fd_arrays; a ← lift (deref (m !! p)); mret (first_free a 0).
Definition proc_register_fd (gfd : Z) : kern vfs Z :=
  p ← gets current_pcb;
  match p with
  | None => mret (-1)
  | Some p =>
      i ← proc_new_fd p;
      if i <? 0 then set_errno ENFILE;; mret i
      else put_local i gfd;; mret i
  end.

(** *** Opening *)
Definition zero_fd : fd := Fd None 0 0 0 0 0 0 None None.
Definition set_filename n f := Fd n (val f) (flags_operating_mode f) (flags_access_mode f) (flags_open f) (ftype f) (ref_count f) (fops f) (priv f).
Definition set_ops o t f := Fd (filename f) (val f) (flags_operating_mode f) (flags_access_mode f) (flags_open f) t (ref_count f) o (priv f).

(** The first free entry of the table, or its length. *)
Fixpoint first_null (l : list (option fd)) (i : Z) : Z :=
  match l with [] => i | None :: _ => i | Some _ :: r => first_null r (i + 1) end.

(** [mem_fd] and [mem_name] tell whether the two allocations succeed; the result
    of the second is not checked, so [strcpy] then writes through null. *)
Definition vfs_open (mem_fd mem_name : bool) (name : option string) (ops : option Z) (type : Z) : kern vfs Z :=
  lock_vfs;;
  l ← gets open_fds;
  let gfd := first_null l 0 in
  if gfd =? Z.of_nat MAX_FDS then set_errno ENFILE;; unlock_vfs;; mret (-1)
  else if negb mem_fd then set_errno ENOMEM;; unlock_vfs;; mret (-1)
  else
    put_slot gfd (Some zero_fd);;
    match name with
    | None => mret tt
    | Some n => if mem_name then upd_fd gfd (set_filename (Some n)) else raise Undef
    end;;
    upd_fd gfd (set_ops ops type);;
    vfs_inc_ref gfd;;
    i ← proc_register_fd gfd;
    if i <? 0 then put_slot gfd None;; unlock_vfs;; mret (-1)
    else unlock_vfs;; mret i.

Definition vfs_link_fd (i gfd : Z) : kern vfs unit :=
  assert_locked;; put_local i gfd;; _ ← vfs_inc_ref gfd; mret tt.

(** The loop over [i]; [src] and [dst] are what is left of the two arrays. *)
Fixpoint clone_loop (src dst : list Z) : kern vfs (list Z) :=
  match src, dst with
  | g :: src', _ :: dst' =>
      bad ← (if g <? 0 then mret true else o ← slot g; mret (negb (bool_decide (is_Some o))));
      if bad : bool then r ← clone_loop src' dst'; mret (-1 :: r)
      else _ ← vfs_inc_ref g; r ← clone_loop src' dst'; mret (g :: r)
  | _, _ => mret dst
  end.
Definition vfs_clone_fd (fd_src fd_dst : list Z) : kern vfs (list Z * Z) :=
  lock_vfs;;
  dst ← clone_loop (take FD_MAX fd_src) fd_dst;
  unlock_vfs;;
  mret (dst, 0).

(** *** System calls *)
(** A null callback is [None].  [op_read] also yields the bytes it stores in the
    buffer, [op_readdir] the directory entry. *)
Record file_operations := Fops {
  op_open : option (Z -> string -> kern vfs Z);
  op_close : option (Z -> kern vfs Z);
  op_read : option (Z -> Z -> kern vfs (Z * list Z));
  op_write : option (Z -> list Z -> Z -> kern vfs Z);
  op_lseek : option (Z -> Z -> Z -> kern vfs Z);
  op_ioctl : option (Z -> Z -> Z -> kern vfs Z);
  op_readdir : option (Z -> kern vfs (option (list Z)));
  op_stat : option (string -> kern vfs Z);
  op_mmap : option (Z -> Z -> Z -> kern vfs Z);
  op_mount : option (string -> kern vfs Z)
}.

Section syscalls.
Context (fops_tab : Z -> file_operations).
Context (devclass_get_fops : string -> option Z).

(** [open_fds[gfd]->fops->...] *)
Definition ops_of (gfd : Z) : kern vfs file_operations :=
  x ← fd_of gfd; o ← lift (deref (fops x)); mret (fops_tab o).

Definition fail (e r : Z) : kern vfs Z := set_errno e;; unlock_vfs;; mret r.

(** [buffer] is [false] when null. *)
Definition do_read (i : Z) (buffer : bool) (count : Z) : kern vfs (Z * list Z) :=
  if negb buffer || (count <? 0) then set_errno EINVAL;; mret (-1, [])
  else
    lock_vfs;;
    gfd ← vfs_get_gfd i;
    x ← fd_of gfd;
    if ftype x =? VFS_TYPE_DIR then r ← fail EISDIR (-1); mret (r, [])
    else
      v ← vfs_is_valid_gfd gfd;
      if negb v then r ← fail EINVAL (-1); mret (r, [])
      else
        ops ← ops_of gfd;
        match op_read ops with
        | None => r ← fail EBADF (-1); mret (r, [])
        | Some rd => unlock_vfs;; rd gfd count
        end.

Definition do_write (i : Z) (buffer : option (list Z)) (count : Z) : kern vfs Z :=
  match buffer with
  | None => set_errno EINVAL;; mret (-1)
  | Some b =>
      if count <? 0 then set_errno EINVAL;; mret (-1)
      else
        lock_vfs;;
        gfd ← vfs_get_gfd i;
        v ← vfs_is_valid_gfd gfd;
        if negb v then fail EINVAL (-1)
        else
          x ← fd_of gfd;
          if ftype x =? VFS_TYPE_DIR then fail EISDIR (-1)
          else
            ops ← ops_of gfd;
            match op_write ops with
            | None => fail EBADF (-1)
            | Some wr => unlock_vfs;; wr gfd b count
            end
  end.

Definition DEV_PREFIX : string := "/dev/".

(** The callbacks of a path; [None] is the early error return. *)
Definition path_fops (name : string) (s : vfs) : option (option Z) :=
  if String.prefix DEV_PREFIX name then
    match devclass_get_fops (String.substring 5 (String.length name - 5) name) with
    | None => None
    | Some o => Some (Some o)
    end
  else if String.eqb "dev" name || String.eqb "/dev" name then Some (fs_dev s)
  else Some (fs_fat s).

Definition do_open (mem_fd mem_name : bool) (name : string) (flags : Z) : kern vfs Z :=
  lock_vfs;;
  s ← gets id;
  match path_fops name s with
  | None => unlock_vfs;; mret (-1)
  | Some ops =>
      let type := if negb (Z.land flags O_DIRECTORY =? 0) then VFS_TYPE_DIR else VFS_TYPE_FILE in
      i ← vfs_open mem_fd mem_name (Some name) ops type;
      if i <? 0 then fail EBADF (-1)
      else
        gfd ← get_local i;
        _ ← vfs_set_open_mode gfd flags;
        o ← lift (deref ops);
        r ← match op_open (fops_tab o) with None => mret 0 | Some op => op gfd name end;
        if negb (r =? 0) then
          put_slot gfd None;; unlock_vfs;; mret (-1)
        else unlock_vfs;; mret i
  end.

Definition do_readdir (i : Z) : kern vfs (option (list Z)) :=
  lock_vfs;;
  gfd ← vfs_get_gfd i;
  v ← vfs_is_valid_gfd gfd;
  if negb v then _ ← fail EBADF 0; mret None
  else
    x ← fd_of gfd;
    if negb (ftype x =? VFS_TYPE_DIR) then _ ← fail ENOTDIR 0; mret None
    else
      ops ← ops_of gfd;
      match op_readdir ops with
      | None => _ ← fail EBADF 0; mret None
      | Some rd => d ← rd gfd; unlock_vfs;; mret d
      end.
Definition do_close (i : Z) : kern vfs unit :=
  p ← gets current_pcb;
  if negb (bool_decide (is_Some p)) || (i <? 0) then mret tt
  else
    lock_vfs;;
    gfd ← get_local i;
    if gfd <? 0 then unlock_vfs
    else
      o ← slot gfd;
      match o with
      | None => unlock_vfs
      | Some x =>
          lift (assert_k (0 <? ref_count x));;
          upd_fd gfd (set_ref_count (u32 (ref_count x - 1)));;
          put_local i (-1);;
          y ← fd_of gfd;
          (if ref_count y =? 0 then
             lift (assert_k (STDERR <? gfd));;
             ops ← ops_of gfd;
             match op_close ops with None => mret tt | Some cl => _ ← cl gfd; mret tt end;;
             put_slot gfd None
           else mret tt);;
          unlock_vfs
      end.

Definition do_dup2 (oldfd newfd : Z) : kern vfs Z :=
  if (newfd <? 0) || (Z.of_nat MAX_FDS <? newfd) then mret (- EBADF)
  else if (oldfd <? 0) || (Z.of_nat MAX_FDS <? oldfd) then mret (- EBADF)
  else
    lock_vfs;;
    g ← vfs_get_gfd oldfd;
    if g <? 0 then fail EBADF (-1)
    else
      g1 ← vfs_get_gfd oldfd;
      g2 ← vfs_get_gfd newfd;
      (if negb (g1 =? g2) then do_close newfd else mret tt);;
      g3 ← vfs_get_gfd oldfd;
      vfs_link_fd newfd g3;;
      unlock_vfs;;
      mret newfd.

Definition do_dup (oldfd : Z) : kern vfs Z :=
  if (oldfd <? 0) || (Z.of_nat MAX_FDS <? oldfd) then mret (- EBADF)
  else
    lock_vfs;;
    p ← pcb_cur;
    newfd ← proc_new_fd p;
    if newfd <? 0 then unlock_vfs;; mret newfd
    else
      g ← vfs_get_gfd oldfd;
      vfs_link_fd newfd g;;
      unlock_vfs;;
      mret newfd.

Definition do_stat (path : string) : kern vfs Z :=
  lock_vfs;;
  o ← gets fs_fat;
  match o with
  | None => fail ENOENT (-1)
  | Some o =>
      match op_stat (fops_tab o) with
      | None => fail ENOENT (-1)
      | Some st => r ← st path; unlock_vfs;; mret r
      end
  end.

(** Null (0) on error. *)
Definition do_mmap (start length : Z) (i : Z) : kern vfs Z :=
  gfd ← vfs_get_gfd i;
  if gfd =? -1 then mret 0
  else
    lock_vfs;;
    o ← vfs_get_fops gfd;
    unlock_vfs;;
    match o with
    | None => mret 0
    | Some o =>
        let page_count := u32 (length / 4096 + (if negb (length mod 4096 =? 0) then 1 else 0)) in
        mm ← lift (deref (op_mmap (fops_tab o)));
        mm i start page_count
    end.

Definition do_ioctl (i cmd args : Z) : kern vfs Z :=
  lock_vfs;;
  gfd ← vfs_get_gfd i;
  v ← vfs_is_valid_gfd gfd;
  if negb v then fail EINVAL (-1)
  else
    ops ← ops_of gfd;
    rc ← match op_ioctl ops with Some io => io i cmd args | None => set_errno EPERM;; mret (-1) end;
    unlock_vfs;;
    mret rc.

(** [off_t] is a 32-bit unsigned type. *)
Definition do_lseek (i off whence : Z) : kern vfs Z :=
  lock_vfs;;
  gfd ← vfs_get_gfd i;
  v ← vfs_is_valid_gfd gfd;
  if negb v then fail EINVAL (u32 (-1))
  else
    ops ← ops_of gfd;
    rc ← match op_lseek ops with Some ls => ls i off whence | None => mret 0 end;
    unlock_vfs;;
    mret (u32 rc).

Definition do_fcntl (i cmd args : Z) : kern vfs Z := mret 0.

(** The exit path of a process (so3/kernel/process.c, [do_exit]). *)
Fixpoint close_from (n : nat) (i : Z) : kern vfs unit :=
  match n with O => mret tt | S n' => do_close i;; close_from n' (i + 1) end.
Definition close_all_fds : kern vfs unit := close_from FD_MAX 0.

(** *** Initialisation *)
(** [memset(open_fds, 0, sizeof(struct fd))] clears the first 48 bytes, six
    entries.  [raw] is what the fresh memory of an entry held; [mem] tells
    whether the three allocations succeed. *)
Definition std_fd (console n : Z) (raw : fd) : fd :=
  Fd (filename raw) n (flags_operating_mode raw) (flags_access_mode raw) (flags_open raw) VFS_TYPE_IO 1 (Some console) (priv raw).
Definition vfs_gfd_init (mem : bool) (console : Z) (raw : Z -> fd) : kern vfs unit :=
  modify (with_open (fun l => replicate 6 None ++ drop 6 l));;
  lift (bug_on (negb mem));;
  put_slot STDIN (Some (std_fd console STDIN (raw STDIN)));;
  put_slot STDOUT (Some (std_fd console STDOUT (raw STDOUT)));;
  put_slot STDERR (Some (std_fd console STDERR (raw STDERR))).

(** [config_fat] is [CONFIG_FS_FAT]; [fat] and [dev] are what [register_fat]
    and [register_devfs] return. *)
Definition vfs_init (config_fat : bool) (fat dev console : Z) (mem : bool) (raw : Z -> fd) : kern vfs unit :=
  s ← gets id;
  (if config_fat && negb (bool_decide (is_Some (fs_fat s))) then
     modify (fun s => MkVfs (vfs_lock s) (errno s) (open_fds s) (fd_arrays s) (current_pcb s) (Some fat) (fs_dev s));;
     mnt ← lift (deref (op_mount (fops_tab fat)));
     _ ← mnt EmptyString; mret tt
   else mret tt);;
  s ← gets id;
  (if negb (bool_decide (is_Some (fs_dev s))) then
     modify (fun s => MkVfs (vfs_lock s) (errno s) (open_fds s) (fd_arrays s) (current_pcb s) (fs_fat s) (Some dev))
   else mret tt);;
  modify (with_lock (fun _ => 0));;
  vfs_gfd_init mem console raw.
End syscalls.

(** The descriptors of the first process (so3/kernel/process.c,
    [create_root_process]). *)
Definition root_fd_array : list Z := [STDIN; STDOUT; STDERR] ++ replicate 61 (-1).

(** The descriptors of a child (so3/kernel/process.c, [duplicate_process]): the
    table of a new process holds zeros until it is cloned. *)
Definition fork_fds (parent child : Z) : kern vfs unit :=
  m ← gets fd_arrays;
  src ← lift (deref (m !! parent));
  r ← vfs_clone_fd src (replicate FD_MAX 0);
  lift (bug_on (negb (r.2 =? 0)));;
  modify (with_arrays <[child := r.1]>).

(** ** Reference counts *)
Definition cnt (g : Z) (a : list Z) : Z := Z.of_nat (length (filter (fun x => x = g) a)).
Definition ind (x g : Z) : Z := if decide (x = g) then 1 else 0.
#[global] Arguments cnt : simpl never.

Lemma cnt_cons g x a : cnt g (x :: a) = ind x g + cnt g a.
Proof.
  unfold cnt, ind. destruct (decide (x = g)); [rewrite filter_cons_True|rewrite filter_cons_False]; simpl; (done || lia).
Qed.

Lemma cnt_app g a b : cnt g (a ++ b) = cnt g a + cnt g b.
Proof. unfold cnt. rewrite filter_app, length_app. lia. Qed.

Lemma cnt_nonneg g a : 0 <= cnt g a.
Proof. unfold cnt. lia. Qed.

Lemma cnt_bound g a : cnt g a <= Z.of_nat (length a).
Proof. unfold cnt. pose proof (length_filter (fun x => x = g) a). lia. Qed.

Lemma cnt_pos g a : g ∈ a -> 0 < cnt g a.
Proof.
  intros (l1 & l2 & ->)%list_elem_of_split. rewrite cnt_app, cnt_cons. unfold ind. rewrite decide_True by done.
  pose proof (cnt_nonneg g l1). pose proof (cnt_nonneg g l2). lia.
Qed.

Lemma cnt_zero g a : g ∉ a -> cnt g a = 0.
Proof.
  induction a as [|x a IH]; intros Hn; [done|]. rewrite cnt_cons, IH by set_solver.
  unfold ind. rewrite decide_False by set_solver. done.
Qed.

Lemma cnt_insert g a i x y : a !! i = Some x -> cnt g (<[i := y]> a) = cnt g a - ind x g + ind y g.
Proof.
  intros Hi. assert (Hlt : (i < length a)%nat) by eauto using lookup_lt_Some.
  rewrite <- (take_drop_middle a i x Hi) at 2.
  rewrite insert_take_drop by done. rewrite !cnt_app, !cnt_cons. lia.
Qed.

(** How many local descriptors refer to [g]. *)
Definition links (m : gmap Z (list Z)) (g : Z) : Z := map_fold (fun _ a n => cnt g a + n) 0 m.

Lemma links_new m p b g : m !! p = None -> links (<[p := b]> m) g = cnt g b + links m g.
Proof.
  intros Hp. unfold links. rewrite map_fold_insert_L; [done| |done]. intros. lia.
Qed.

Lemma links_insert m p a b g : m !! p = Some a -> links (<[p := b]> m) g = links m g - cnt g a + cnt g b.
Proof.
  intros Hp. rewrite <- (insert_delete_id m p a Hp) at 2. rewrite <- (insert_delete_eq m p b).
  rewrite !links_new by apply lookup_delete_eq. lia.
Qed.

Lemma links_nonneg m g : 0 <= links m g.
Proof.
  unfold links. apply (map_fold_weak_ind (fun n _ => 0 <= n)); [done|].
  intros. pose proof (cnt_nonneg g x). lia.
Qed.

Lemma links_pos m p a g : m !! p = Some a -> g ∈ a -> 0 < links m g.
Proof.
  intros Hp Hg. rewrite <- (insert_delete_id m p a Hp). rewrite links_new by apply lookup_delete_eq.
  pose proof (cnt_pos g a Hg). pose proof (links_nonneg (delete p m) g). lia.
Qed.

Lemma links_bound m g k :
  (forall p a, m !! p = Some a -> length a = k) -> links m g <= Z.of_nat k * Z.of_nat (base.size m).
Proof.
  induction m as [|p a m Hp IH] using map_ind; intros Hl.
  - unfold links. rewrite map_fold_empty. lia.
  - rewrite links_new, map_size_insert_None by done.
    assert (length a = k) by (apply (Hl p); apply lookup_insert_eq).
    assert (links m g <= Z.of_nat k * Z.of_nat (base.size m)).
    { apply IH. intros q b Hq. apply (Hl q). rewrite lookup_insert_ne; [done|]. congruence. }
    pose proof (cnt_bound g a). lia.
Qed.

Lemma links_zero m g : (forall p a, m !! p = Some a -> g ∉ a) -> links m g = 0.
Proof.
  induction m as [|p a m Hp IH] using map_ind; intros Hn; [done|].
  rewrite links_new by done. rewrite IH.
  - rewrite cnt_zero; [done|]. apply (Hn p), lookup_insert_eq.
  - intros q b Hq. apply (Hn q). rewrite lookup_insert_ne; [done|]. congruence.
Qed.

(** The invariant between system calls: every local descriptor is closed or
    refers to an open file, and the reference count of every open file is the
    number of local descriptors that refer to it. *)
Record vfs_ok (s : vfs) : Prop := {
  ok_len : length (open_fds s) = MAX_FDS;
  ok_arr : forall p a, fd_arrays s !! p = Some a -> length a = FD_MAX;
  ok_ref : forall p a g, fd_arrays s !! p = Some a -> g ∈ a ->
    g = -1 \/ (0 <= g /\ exists x, open_fds s !! Z.to_nat g = Some (Some x));
  ok_cnt : forall n x, open_fds s !! n = Some (Some x) ->
    ref_count x = links (fd_arrays s) (Z.of_nat n) /\ 0 < ref_count x /\ fops x <> None;
  ok_size : Z.of_nat (base.size (fd_arrays s)) <= 2 ^ 20;
  ok_depth : 0 <= vfs_lock s
}.

Lemma ok_links s g : vfs_ok s -> 0 <= links (fd_arrays s) g <= 2 ^ 26.
Proof.
  intros Hok. split; [apply links_nonneg|].
  pose proof (links_bound (fd_arrays s) g FD_MAX (ok_arr _ Hok)). pose proof (ok_size _ Hok).
  change (Z.of_nat FD_MAX) with 64 in *. lia.
Qed.

Lemma alter_insert (m : gmap Z (list Z)) p a f : m !! p = Some a -> alter f p m = <[p := f a]> m.
Proof.
  intros Hp. apply map_eq. intros q. destruct (decide (q = p)) as [->|].
  - by rewrite lookup_alter_eq, lookup_insert_eq, Hp.
  - by rewrite lookup_alter_ne, lookup_insert_ne.
Qed.

Lemma ind_other u n k : u = -1 \/ u = Z.of_nat n -> k <> n -> ind u (Z.of_nat k) = 0.
Proof. intros [->| ->] Hk; unfold ind; rewrite decide_False; (done || lia). Qed.

(** One local descriptor changes between closed and [n], and entry [n] with it. *)
Lemma ok_change s p a i u v n o :
  vfs_ok s -> fd_arrays s !! p = Some a -> a !! i = Some u -> (n < MAX_FDS)%nat ->
  u = -1 \/ u = Z.of_nat n -> v = -1 \/ v = Z.of_nat n ->
  match o with
  | None => links (fd_arrays s) (Z.of_nat n) - ind u (Z.of_nat n) + ind v (Z.of_nat n) = 0
  | Some x => ref_count x = links (fd_arrays s) (Z.of_nat n) - ind u (Z.of_nat n) + ind v (Z.of_nat n) /\ 0 < ref_count x /\ fops x <> None
  end ->
  vfs_ok (with_open <[n := o]> (with_arrays (alter <[i := v]> p) s)).
Proof.
  intros Hok Hp Hi Hn Hu Hv Ho. set (s' := with_open _ _).
  assert (Ha : fd_arrays s' = <[p := <[i := v]> a]> (fd_arrays s)) by (by apply alter_insert).
  assert (Hl : forall g, links (fd_arrays s') g = links (fd_arrays s) g - ind u g + ind v g).
  { intros g. rewrite Ha, (links_insert _ _ _ _ _ Hp), (cnt_insert _ _ _ _ _ Hi). lia. }
  assert (Hlen : length (open_fds s) = MAX_FDS) by apply Hok.
  split.
  - simpl. by rewrite length_insert.
  - intros q b. rewrite Ha, lookup_insert_Some. intros [[<- <-]|[_ Hb]]; [|by eapply ok_arr].
    rewrite length_insert. by eapply ok_arr.
  - intros q b g Hb Hg. destruct (decide (g = Z.of_nat n)) as [->|Hgn].
    + right. split; [lia|]. simpl. rewrite Nat2Z.id, list_lookup_insert_eq by lia.
      destruct o as [x|]; [eauto|]. pose proof (links_pos _ _ _ _ Hb Hg) as Hp0. rewrite Hl in Hp0. lia.
    + assert (Hg' : g = -1 \/ exists q b, fd_arrays s !! q = Some b /\ g ∈ b).
      { rewrite Ha, lookup_insert_Some in Hb. destruct Hb as [[<- <-]|[_ Hb]]; [|eauto].
        apply list_elem_of_lookup in Hg as [j Hj]. destruct (decide (j = i)) as [->|Hji].
        - rewrite list_lookup_insert_eq in Hj by eauto using lookup_lt_Some. left. destruct Hv; congruence.
        - rewrite list_lookup_insert_ne in Hj by done. right. exists p, a. split; [done|]. by eapply list_elem_of_lookup_2. }
      destruct Hg' as [->|(q' & b' & Hb' & Hg'')]; [by left|].
      destruct (ok_ref _ Hok _ _ _ Hb' Hg'') as [->|[Hpos Hx]]; [by left|]. right. split; [done|].
      simpl. rewrite list_lookup_insert_ne by lia. done.
  - intros k x Hx. simpl in Hx. destruct (decide (k = n)) as [->|Hk].
    + rewrite list_lookup_insert_eq in Hx by lia. injection Hx as ->. rewrite Hl. done.
    + rewrite list_lookup_insert_ne in Hx by done. rewrite Hl, !(ind_other _ n k) by done.
      destruct (ok_cnt _ Hok _ _ Hx) as (? & ? & ?). split; [lia|done].
  - rewrite Ha, map_size_insert_Some by eauto. apply Hok.
  - apply Hok.
Qed.

(** ** The operations on a well-formed state *)
Definition opened (s : vfs) (g : Z) (x : fd) : Prop := 0 <= g /\ open_fds s !! Z.to_nat g = Some (Some x).
(** Slot [i] of the current process [p], with table [a], holds [g]. *)
Definition local (s : vfs) (p : Z) (a : list Z) (i g : Z) : Prop :=
  current_pcb s = Some p /\ fd_arrays s !! p = Some a /\ 0 <= i /\ a !! Z.to_nat i = Some g.

Definition locked (s : vfs) : vfs := with_lock (fun d => d + 1) s.

Lemma vfs_unlock_locked s : 0 <= vfs_lock s -> unlock_vfs (locked s) = Ret (tt, s).
Proof.
  intros Hd. unfold unlock_vfs. kstep. unfold bug_on. simpl. rewrite (proj2 (Z.eqb_neq _ _)) by lia. kstep.
  unfold modify. do 2 f_equal. destruct s; unfold with_lock; simpl. f_equal. lia.
Qed.

Lemma vfs_unlock s : 0 < vfs_lock s -> unlock_vfs s = Ret (tt, with_lock (fun d => d - 1) s).
Proof. intros Hd. unfold unlock_vfs. kstep. unfold bug_on. by rewrite (proj2 (Z.eqb_neq _ _)) by lia. Qed.

Lemma ok_release s : vfs_ok s -> 0 < vfs_lock s -> vfs_ok (with_lock (fun d => d - 1) s).
Proof. intros [A1 A2 A3 A4 A5 A6] Hd. split; try done. simpl. lia. Qed.

Lemma vfs_slot s g o :
  length (open_fds s) = MAX_FDS -> 0 <= g -> open_fds s !! Z.to_nat g = Some o -> slot g s = Ret (o, s).
Proof.
  intros Hl Hg Ho. unfold slot. pose proof (lookup_lt_Some _ _ _ Ho) as Hlt. rewrite Hl in Hlt.
  rewrite (proj2 (Z.leb_le _ _)), (proj2 (Z.ltb_lt _ _)) by lia. cbn [andb]. kstep. by rewrite Ho.
Qed.

Lemma vfs_put_slot s g o v :
  length (open_fds s) = MAX_FDS -> 0 <= g -> open_fds s !! Z.to_nat g = Some o ->
  put_slot g v s = Ret (tt, with_open <[Z.to_nat g := v]> s).
Proof. intros Hl Hg Ho. unfold put_slot. krun vfs_slot. done. Qed.

Lemma vfs_fd_of s g x : length (open_fds s) = MAX_FDS -> opened s g x -> fd_of g s = Ret (x, s).
Proof. intros Hl [Hg Hx]. unfold fd_of. krun vfs_slot. done. Qed.

Lemma vfs_upd_fd s g x f :
  length (open_fds s) = MAX_FDS -> opened s g x -> upd_fd g f s = Ret (tt, with_open <[Z.to_nat g := Some (f x)]> s).
Proof. intros Hl Hx. unfold upd_fd. krun vfs_fd_of. destruct Hx. by eapply vfs_put_slot. Qed.

Lemma vfs_get_local s p a i g : local s p a i g -> get_local i s = Ret (g, s).
Proof.
  intros (Hc & Hp & Hi & Hg). unfold get_local, pcb_cur.
  erewrite kbind_ret by (kstep; by rewrite Hc). cbn beta. kstep. rewrite Hp. kstep.
  rewrite (proj2 (Z.ltb_ge _ _)) by lia. by rewrite Hg.
Qed.

Lemma vfs_put_local s p a i g v :
  local s p a i g -> put_local i v s = Ret (tt, with_arrays (alter <[Z.to_nat i := v]> p) s).
Proof.
  intros Hl. unfold put_local, pcb_cur. krun vfs_get_local. destruct Hl as (Hc & _).
  erewrite kbind_ret by (kstep; by rewrite Hc). done.
Qed.

Lemma vfs_valid s g x :
  length (open_fds s) = MAX_FDS -> 0 < vfs_lock s -> opened s g x -> vfs_is_valid_gfd g s = Ret (true, s).
Proof.
  intros Hl Hd [Hg Hx]. unfold vfs_is_valid_gfd, assert_locked.
  erewrite kbind_ret; [|kstep; rewrite (proj2 (Z.eqb_neq _ _)) by lia; done]. cbn beta.
  rewrite (proj2 (Z.ltb_ge _ _)) by lia. krun vfs_slot. by rewrite bool_decide_eq_true_2 by eauto.
Qed.

Lemma vfs_get_gfd_ok s p a i g x :
  vfs_ok s -> local s p a i g -> opened s g x -> vfs_get_gfd i s = Ret (g, s).
Proof.
  intros Hok Hl Hx. unfold vfs_get_gfd. pose proof Hl as (_ & _ & Hi & _).
  rewrite (proj2 (Z.ltb_ge _ _)) by lia. kstep.
  erewrite kbind_ret by (eapply (vfs_get_local (locked s)), Hl). cbn beta.
  erewrite kbind_ret by (eapply (vfs_slot (locked s)); [apply Hok|apply Hx..]). cbn beta.
  erewrite kbind_ret by (apply vfs_unlock_locked, Hok). done.
Qed.

Lemma vfs_inc_ref_ok s g x :
  length (open_fds s) = MAX_FDS -> 0 <= vfs_lock s -> opened s g x ->
  exists r, vfs_inc_ref g s
    = Ret (r, with_open <[Z.to_nat g := Some (set_ref_count (u32 (ref_count x + 1)) x)]> s).
Proof.
  intros Hl Hd Hx. unfold vfs_inc_ref. kstep.
  erewrite kbind_ret by (eapply (vfs_valid (locked s)); [done|simpl; lia|exact Hx]). cbn [negb]. cbn beta iota.
  erewrite kbind_ret by (eapply (vfs_upd_fd (locked s)); [done|exact Hx]). cbn beta.
  set (s1 := with_open _ s).
  erewrite kbind_ret; [|eapply (vfs_fd_of (locked s1)); [simpl; by rewrite length_insert|]].
  2:{ destruct Hx as [Hg Hx]. split; [done|]. simpl. apply list_lookup_insert_eq. eauto using lookup_lt_Some. }
  cbn beta. erewrite kbind_ret by (apply (vfs_unlock_locked s1); done). eauto.
Qed.

Definition bare (o : option fd) : option fd := option_map (set_fd_priv None) o.
(** What a callback may change: private data and [errno], not the tables. *)
Record same_tables (s s' : vfs) : Prop := {
  st_lock : vfs_lock s' = vfs_lock s;
  st_arrays : fd_arrays s' = fd_arrays s;
  st_cur : current_pcb s' = current_pcb s;
  st_open : bare <$> open_fds s' = bare <$> open_fds s
}.

(** The callbacks return, with whatever result: an [open] may fail. *)
Class CloseOk (fops_tab : Z -> file_operations) : Prop := {
  close_ok : forall o cl s g x, op_close (fops_tab o) = Some cl -> length (open_fds s) = MAX_FDS -> opened s g x ->
    exists r s', cl g s = Ret (r, s') /\ same_tables s s'
}.
Class OpenOk (fops_tab : Z -> file_operations) : Prop := {
  open_ok : forall o op s g x name, op_open (fops_tab o) = Some op -> length (open_fds s) = MAX_FDS -> opened s g x ->
    exists r s', op g name s = Ret (r, s') /\ same_tables s s'
}.
(** The file system finds the path: its [open] does not fail on it. *)
Definition fs_accepts (fops_tab : Z -> file_operations) (o : Z) (name : string) : Prop :=
  forall op g s r s', op_open (fops_tab o) = Some op -> op g name s = Ret (r, s') -> r = 0.

Lemma same_tables_refl s : same_tables s s.
Proof. by split. Qed.

Lemma same_tables_put s s' n v :
  same_tables s s' -> same_tables (with_open <[n := v]> s) (with_open <[n := v]> s').
Proof. intros [H1 H2 H3 H4]. split; simpl; try done. by rewrite !list_fmap_insert, H4. Qed.

Lemma same_tables_len s s' : same_tables s s' -> length (open_fds s') = length (open_fds s).
Proof. intros [_ _ _ H]. apply (f_equal length) in H. by rewrite !length_fmap in H. Qed.

Lemma same_tables_lookup s s' n :
  same_tables s s' ->
  bare <$> open_fds s' !! n = bare <$> open_fds s !! n.
Proof. intros [_ _ _ H]. rewrite <- !list_lookup_fmap. by rewrite H. Qed.

Lemma same_tables_opened s s' g x :
  same_tables s s' -> opened s g x -> exists y, opened s' g y /\ set_fd_priv None y = set_fd_priv None x.
Proof.
  intros Hs [Hg Hx]. pose proof (same_tables_lookup _ _ (Z.to_nat g) Hs) as E. rewrite Hx in E.
  unfold opened. destruct (open_fds s' !! Z.to_nat g) as [[y|]|]; try done.
  exists y. split; [done|]. cbn in E. congruence.
Qed.

Lemma priv_apart x y : set_fd_priv None y = set_fd_priv None x -> ref_count y = ref_count x /\ fops y = fops x.
Proof. destruct x, y. cbn. by intros [= -> -> -> -> -> -> -> ->]. Qed.

Lemma priv_apart_name x y :
  set_fd_priv None y = set_fd_priv None x -> filename y = filename x /\ flags_open y = flags_open x.
Proof. destruct x, y. cbn. by intros [= -> -> -> -> -> -> -> ->]. Qed.

Lemma same_tables_ok s s' : same_tables s s' -> vfs_ok s -> vfs_ok s'.
Proof.
  intros Hs Hok. pose proof Hs as [H1 H2 H3 H4]. split.
  - rewrite (same_tables_len _ _ Hs). apply Hok.
  - rewrite H2. apply Hok.
  - intros p a g Hp Hg. rewrite H2 in Hp. destruct (ok_ref _ Hok _ _ _ Hp Hg) as [->|[Hg0 [x Hx]]]; [by left|].
    destruct (same_tables_opened s s' g x Hs) as (y & [_ Hy] & _); [done|]. right. eauto.
  - intros n y Hy. pose proof (same_tables_lookup _ _ n Hs) as E. rewrite Hy in E. rewrite H2.
    destruct (open_fds s !! n) as [[x|]|] eqn:Hx; try done. cbn in E.
    destruct (priv_apart x y) as [-> ->]; [congruence|]. by apply ok_cnt.
  - rewrite H2. apply Hok.
  - rewrite H1. apply Hok.
Qed.

Lemma ok_opened s g x : vfs_ok s -> opened s g x ->
  ref_count x = links (fd_arrays s) g /\ 0 < ref_count x <= 2 ^ 26 /\ fops x <> None /\ (Z.to_nat g < MAX_FDS)%nat.
Proof.
  intros Hok [Hg Hx]. destruct (ok_cnt _ Hok _ _ Hx) as (H1 & H2 & H3). rewrite Z2Nat.id in H1 by lia.
  pose proof (ok_links s g Hok). pose proof (lookup_lt_Some _ _ _ Hx) as Hlt. rewrite (ok_len _ Hok) in Hlt.
  repeat split; (done || lia).
Qed.

Lemma ok_locked s : vfs_ok s -> vfs_ok (locked s).
Proof. intros [A1 A2 A3 A4 A5 A6]. split; try done. simpl. lia. Qed.

Lemma ok_unlocked s : vfs_ok (locked s) -> 0 <= vfs_lock s -> vfs_ok s.
Proof. intros [A1 A2 A3 A4 A5 A6] Hd. by split. Qed.

(** The state once slot [i] of process [p] holds [v] and entry [g] is [o]. *)
Definition relinked (p i v g : Z) (o : option fd) (s : vfs) : vfs :=
  with_open <[Z.to_nat g := o]> (with_arrays (alter <[Z.to_nat i := v]> p) s).

Lemma ok_unlinked s p a i g x :
  vfs_ok s -> local s p a i g -> opened s g x ->
  vfs_ok (relinked p i (-1) g (if ref_count x =? 1 then None else Some (set_ref_count (ref_count x - 1) x)) s).
Proof.
  intros Hok (Hc & Hp & Hi & Hg) Hx. destruct (ok_opened _ _ _ Hok Hx) as (E & Hr & Hf & Hlt).
  pose proof (proj1 Hx) as Hg0. eapply ok_change; [done..| | |]; [right; lia|by left|].
  rewrite !Z2Nat.id by lia. unfold ind. rewrite decide_True, decide_False by lia.
  destruct (Z.eqb_spec (ref_count x) 1); simpl; [lia|]. repeat split; (done || lia).
Qed.

Lemma ok_linked s p a i g x :
  vfs_ok s -> local s p a i (-1) -> opened s g x ->
  vfs_ok (relinked p i g g (Some (set_ref_count (ref_count x + 1) x)) s).
Proof.
  intros Hok (Hc & Hp & Hi & Hg) Hx. destruct (ok_opened _ _ _ Hok Hx) as (E & Hr & Hf & Hlt).
  pose proof (proj1 Hx) as Hg0. eapply ok_change; [done..| | |]; [by left|right; lia|].
  rewrite !Z2Nat.id by lia. unfold ind. rewrite decide_False, decide_True by lia. simpl. repeat split; (done || lia).
Qed.

Lemma links_closed s n : vfs_ok s -> open_fds s !! n = Some None -> links (fd_arrays s) (Z.of_nat n) = 0.
Proof.
  intros Hok Hn. apply links_zero. intros p a Hp Hin.
  destruct (ok_ref _ Hok _ _ _ Hp Hin) as [?|[_ [x Hx]]]; [lia|]. rewrite Nat2Z.id in Hx. congruence.
Qed.

Lemma ok_opening s p a j n x :
  vfs_ok s -> local s p a j (-1) -> 0 <= n -> open_fds s !! Z.to_nat n = Some None ->
  ref_count x = 1 -> fops x <> None -> vfs_ok (relinked p j n n (Some x) s).
Proof.
  intros Hok (Hc & Hp & Hj & Hg) Hn Hnone Hr Hf.
  pose proof (links_closed _ _ Hok Hnone) as Hz. rewrite Z2Nat.id in Hz by lia.
  pose proof (lookup_lt_Some _ _ _ Hnone) as Hlt. rewrite (ok_len _ Hok) in Hlt.
  eapply ok_change; [done..| | |]; [by left|right; lia|].
  rewrite !Z2Nat.id by lia. unfold ind. rewrite decide_False, decide_True by lia. repeat split; (done || lia).
Qed.

Lemma first_null_spec l k :
  (first_null l k = k + Z.of_nat (length l) /\ (None ∉ l)) \/
  (exists n, first_null l k = k + Z.of_nat n /\ l !! n = Some None).
Proof.
  revert k. induction l as [|[x|] l IH]; intros k; simpl; [left; split; [lia|set_solver]| |right; exists 0%nat; split; [lia|done]].
  destruct (IH (k + 1)) as [[-> Hn]|(n & -> & Hn)]; [left; split; [lia|set_solver]|]. right. exists (S n). split; [lia|done].
Qed.

Lemma first_free_spec l k :
  (first_free l k = -1 /\ (-1 ∉ l) /\ 0 <= k) \/
  (exists n, first_free l k = k + Z.of_nat n /\ l !! n = Some (-1)) \/ k < 0.
Proof.
  revert k. induction l as [|x l IH]; intros k; simpl.
  - destruct (decide (0 <= k)); [left; split_and!; [done|set_solver|done]|right; right; lia].
  - destruct (Z.eqb_spec x (-1)) as [->|Hne].
    + right; left. exists 0%nat. split; [lia|done].
    + destruct (IH (k + 1)) as [(H1 & H2 & H3)|[(n & H1 & H2)|H1]].
      * destruct (decide (0 <= k)); [left; split_and!; [done|set_solver|done]|right; right; lia].
      * right; left. exists (S n). split; [lia|done].
      * right; right. lia.
Qed.

(** A free local descriptor, or none. *)
Lemma proc_new_fd_spec s p a :
  current_pcb s = Some p -> fd_arrays s !! p = Some a ->
  exists j, proc_new_fd p s = Ret (j, s) /\ (j = -1 /\ (-1 ∉ a) \/ local s p a j (-1)).
Proof.
  intros Hc Hp. unfold proc_new_fd. kstep. rewrite Hp. kstep. exists (first_free a 0). split; [done|].
  destruct (first_free_spec a 0) as [(H1 & H3 & _)|[(n & H1 & H2)|H1]]; [by left| |lia].
  right. rewrite H1. split_and!; [done|done|lia|]. by rewrite Z.add_0_l, Nat2Z.id.
Qed.

Lemma proc_register_fd_spec s p a g :
  current_pcb s = Some p -> fd_arrays s !! p = Some a ->
  (-1 ∉ a) /\ proc_register_fd g s = Ret (-1, with_errno ENFILE s) \/
  exists j, local s p a j (-1) /\ proc_register_fd g s = Ret (j, with_arrays (alter <[Z.to_nat j := g]> p) s).
Proof.
  intros Hc Hp. destruct (proc_new_fd_spec s p a Hc Hp) as (j & Ej & Hj). unfold proc_register_fd. kstep. rewrite Hc.
  erewrite kbind_ret by exact Ej. cbn beta. destruct Hj as [[-> Hn]|Hj]; [by left|]. right. exists j. split; [done|].
  pose proof Hj as (_ & _ & Hj0 & _). rewrite (proj2 (Z.ltb_ge j 0)) by lia. by erewrite kbind_ret by (by eapply vfs_put_local).
Qed.

(** Why an open may fail: no memory, no global or no local descriptor left. *)
Definition exhausted (s : vfs) (a : list Z) (mem_fd : bool) : Prop :=
  mem_fd = false \/ (None ∉ open_fds s) \/ (-1 ∉ a).

(** The entry a successful [vfs_open] leaves. *)
Definition new_fd (name : option string) (o type : Z) : fd := Fd name 0 0 0 0 type 1 (Some o) None.

Lemma with_open_twice s k u v : with_open <[k := v]> (with_open <[k := u]> s) = with_open <[k := v]> s.
Proof. unfold with_open. simpl. by rewrite list_insert_insert_eq. Qed.

Section fresh_entry.
Context (s : vfs) (k : nat) (Hlen : length (open_fds s) = MAX_FDS) (Hk : (k < MAX_FDS)%nat).

Lemma fresh_opened x : opened (with_open <[k := Some x]> s) (Z.of_nat k) x.
Proof. split; [lia|]. simpl. rewrite Nat2Z.id. apply list_lookup_insert_eq. by rewrite Hlen. Qed.

Lemma fresh_len v : length (open_fds (with_open <[k := v]> s)) = MAX_FDS.
Proof. simpl. by rewrite length_insert. Qed.

Lemma fresh_upd x f :
  upd_fd (Z.of_nat k) f (with_open <[k := Some x]> s) = Ret (tt, with_open <[k := Some (f x)]> s).
Proof. rewrite (vfs_upd_fd _ _ x) by (apply fresh_opened || apply fresh_len). by rewrite Nat2Z.id, with_open_twice. Qed.

Lemma fresh_inc x : 0 <= vfs_lock s ->
  exists r, vfs_inc_ref (Z.of_nat k) (with_open <[k := Some x]> s)
    = Ret (r, with_open <[k := Some (set_ref_count (u32 (ref_count x + 1)) x)]> s).
Proof.
  intros Hd. destruct (vfs_inc_ref_ok _ _ x (fresh_len (Some x)) Hd (fresh_opened x)) as [r ->].
  exists r. by rewrite Nat2Z.id, with_open_twice.
Qed.
End fresh_entry.

Lemma vfs_open_spec s p a mem_fd name o type :
  vfs_ok s -> current_pcb s = Some p -> fd_arrays s !! p = Some a ->
  exists r s', vfs_open mem_fd true name (Some o) type s = Ret (r, s') /\
    (r = -1 /\ same_tables s s' /\ exhausted s a mem_fd \/
     local s p a r (-1) /\ exists n, 0 <= n /\ open_fds s !! Z.to_nat n = Some None /\
       s' = relinked p r n n (Some (new_fd name o type)) s).
Proof.
  intros Hok Hc Hp. pose proof (ok_depth _ Hok) as Hd. unfold vfs_open. kstep. kstep.
  assert (Herr : forall e, exists s', (set_errno e;; unlock_vfs;; mret (-1)) (locked s) = Ret (-1, s') /\ same_tables s s').
  { intros e. exists (with_errno e s). split; [|by split]. kstep.
    by erewrite kbind_ret by (by apply (vfs_unlock_locked (with_errno e s))). }
  change (first_null _ 0) with (first_null (open_fds s) 0). cbv zeta.
  destruct (first_null_spec (open_fds s) 0) as [[-> Hfull]|(k & -> & Hk)]; rewrite Z.add_0_l.
  { rewrite (ok_len _ Hok), Z.eqb_refl. destruct (Herr ENFILE) as (s' & E & Hs). exists (-1), s'. unfold exhausted. tauto. }
  pose proof (lookup_lt_Some _ _ _ Hk) as Hlt. rewrite (ok_len _ Hok) in Hlt.
  rewrite (proj2 (Z.eqb_neq _ _)) by lia. destruct mem_fd; cbn [negb].
  2:{ destruct (Herr ENOMEM) as (s' & E & Hs). exists (-1), s'. unfold exhausted. tauto. }
  assert (Hlen : length (open_fds (locked s)) = MAX_FDS) by apply Hok.
  erewrite kbind_ret; [|eapply (vfs_put_slot (locked s)); [done|lia|rewrite Nat2Z.id; exact Hk]]. rewrite Nat2Z.id. cbn beta.
  assert (Hname : match name with None => mret tt | Some m => upd_fd (Z.of_nat k) (set_filename (Some m)) end
      (with_open <[k := Some zero_fd]> (locked s))
    = Ret (tt, with_open <[k := Some (set_filename name zero_fd)]> (locked s))) by (destruct name; [by apply fresh_upd|done]).
  erewrite kbind_ret by exact Hname. cbn beta. erewrite kbind_ret by (by apply fresh_upd). cbn beta.
  destruct (fresh_inc (locked s) k Hlen Hlt (set_ops (Some o) type (set_filename name zero_fd))) as [r0 Hr0]; [simpl; lia|].
  erewrite kbind_ret by exact Hr0. cbn beta. change (set_ref_count _ _) with (new_fd name o type).
  set (s1 := with_open _ (locked s)).
  destruct (proc_register_fd_spec s1 p a (Z.of_nat k) Hc Hp) as [[Hno Er]|(j & Hj & Er)]; erewrite kbind_ret by exact Er; cbn beta.
  - change (-1 <? 0) with true. cbn iota. set (s2 := with_errno ENFILE (with_open <[k := None]> s)).
    erewrite kbind_ret.
    2:{ eapply (vfs_put_slot (with_errno ENFILE s1)); [by apply fresh_len|lia|].
        rewrite Nat2Z.id. apply list_lookup_insert_eq. by rewrite Hlen. }
    rewrite Nat2Z.id. cbn beta. exists (-1), s2. split.
    + erewrite kbind_ret; [done|]. rewrite <- (vfs_unlock_locked s2) by done. unfold s2, s1, with_open, with_errno, locked, with_lock.
      simpl. by rewrite list_insert_insert_eq.
    + left. split; [done|]. split; [|unfold exhausted; tauto]. split; try done. simpl. by rewrite (list_insert_id (open_fds s)).
  - pose proof Hj as (_ & _ & Hj0 & _). rewrite (proj2 (Z.ltb_ge j 0)) by lia.
    exists j, (relinked p j (Z.of_nat k) (Z.of_nat k) (Some (new_fd name o type)) s). split.
    + erewrite kbind_ret; [done|]. rewrite <- (vfs_unlock_locked (relinked _ _ _ _ _ s)) by done.
      unfold relinked. by rewrite Nat2Z.id.
    + right. split; [done|]. exists (Z.of_nat k). rewrite Nat2Z.id. split; [lia|done].
Qed.

Section syscalls_ok.
Context (fops_tab : Z -> file_operations) {HC : CloseOk fops_tab}.

(** [s'] comes from the state of the [close] callback: the descriptor cleared and the
    count decremented, with the lock held; after it the entry is cleared and the
    lock given back. *)
Definition after_close (s : vfs) (p i g : Z) (x : fd) (s' : vfs) : Prop :=
  forall o cl, fops x = Some o -> op_close (fops_tab o) = Some cl ->
  exists r s2, cl g (locked (relinked p i (-1) g (Some (set_ref_count (ref_count x - 1) x)) s)) = Ret (r, s2) /\
    s' = with_lock (fun d => d - 1) (with_open <[Z.to_nat g := None]> s2).

Lemma do_close_run s p a i g x :
  vfs_ok s -> local s p a i g -> opened s g x ->
  if (ref_count x =? 1) && (g <=? STDERR) then do_close fops_tab i s = Fault Panic
  else exists s', do_close fops_tab i s = Ret (tt, s') /\
    same_tables (relinked p i (-1) g (if ref_count x =? 1 then None else Some (set_ref_count (ref_count x - 1) x)) s) s' /\
    (ref_count x = 1 -> after_close s p i g x s').
Proof.
  intros Hok Hl Hx. destruct (ok_opened _ _ _ Hok Hx) as (E & Hr & Hf & Hlt). pose proof Hx as [Hg0 Hxl].
  pose proof Hl as (Hc & Hp & Hi & Hg).
  unfold do_close. kstep. rewrite Hc. rewrite bool_decide_eq_true_2 by eauto. cbn [negb orb].
  rewrite (proj2 (Z.ltb_ge _ _)) by lia. kstep.
  erewrite kbind_ret by (eapply (vfs_get_local (locked s)), Hl). cbn beta.
  rewrite (proj2 (Z.ltb_ge _ _)) by lia.
  erewrite kbind_ret by (eapply (vfs_slot (locked s)); [apply Hok|done..]). cbn beta iota.
  assert (E0 : assert_k (0 <? ref_count x) = Ret tt) by (by rewrite (proj2 (Z.ltb_lt _ _)) by lia).
  rewrite E0. kstep.
  erewrite kbind_ret by (eapply (vfs_upd_fd (locked s)); [apply Hok|exact Hx]). cbn beta.
  rewrite u32_small by lia. set (y := set_ref_count (ref_count x - 1) x).
  change (with_open <[Z.to_nat g := Some y]> (locked s)) with (locked (with_open <[Z.to_nat g := Some y]> s)).
  erewrite kbind_ret by (eapply (vfs_put_local (locked (with_open _ s))), Hl). cbn beta.
  set (s1 := relinked p i (-1) g (Some y) s).
  change (with_arrays _ (locked _)) with (locked s1).
  assert (Hy : opened (locked s1) g y).
  { split; [done|]. simpl. apply list_lookup_insert_eq. rewrite (ok_len _ Hok). done. }
  assert (Hl1 : length (open_fds (locked s1)) = MAX_FDS) by (simpl; rewrite length_insert; apply Hok).
  erewrite kbind_ret by (by apply vfs_fd_of). cbn beta.
  assert (Hy1 : (ref_count y =? 0) = (ref_count x =? 1)).
  { simpl. apply eq_true_iff_eq. rewrite !Z.eqb_eq. lia. }
  rewrite Hy1. destruct (ref_count x =? 1) eqn:E1; cbn [andb].
  2:{ exists s1. split; [|split; [apply same_tables_refl|intros Er1; by apply Z.eqb_neq in E1]]. kstep. apply vfs_unlock_locked. apply Hok. }
  unfold assert_k. destruct (Z.leb_spec g STDERR) as [Hstd|Hstd].
  { apply kbind_fault, kbind_fault. rewrite (proj2 (Z.ltb_ge _ _)) by lia. done. }
  destruct (fops x) as [o|] eqn:Eo; [|done].
  assert (Hcl : exists s2, same_tables (locked s1) s2 /\
    match op_close (fops_tab o) with None => mret tt | Some cl => _ ← cl g; mret tt end (locked s1) = Ret (tt, s2) /\
    (forall cl, op_close (fops_tab o) = Some cl -> exists r, cl g (locked s1) = Ret (r, s2))).
  { destruct (op_close (fops_tab o)) as [cl|] eqn:Ecl; [|eexists; split; [apply same_tables_refl|done]].
    destruct (close_ok o cl (locked s1) g y Ecl Hl1 Hy) as (r & s2 & Er & Hs2). exists s2. split; [done|].
    split; [by erewrite kbind_ret by exact Er|]. intros ? [= <-]. by exists r. }
  destruct Hcl as (s2 & Hs2 & Ecl & Hcall). destruct (same_tables_opened _ _ _ _ Hs2 Hy) as (z & [_ Hz] & _).
  set (s3 := with_open <[Z.to_nat g := None]> s2).
  assert (Hput : put_slot g None s2 = Ret (tt, s3)).
  { eapply vfs_put_slot; [|done|exact Hz]. by rewrite (same_tables_len _ _ Hs2). }
  exists (with_lock (fun d => d - 1) s3). split.
  - erewrite kbind_ret.
    2:{ rewrite (proj2 (Z.ltb_lt _ _)) by lia. kstep. unfold ops_of.
        erewrite kbind_ret; [|erewrite kbind_ret by (by apply vfs_fd_of); simpl; rewrite Eo; done]. cbn beta.
        erewrite kbind_ret by exact Ecl. exact Hput. }
    cbn beta. apply vfs_unlock. simpl. rewrite (st_lock _ _ Hs2). pose proof (ok_depth _ Hok). simpl. lia.
  - assert (Hs3 : same_tables (with_open <[Z.to_nat g := None]> (locked s1)) s3) by (by apply same_tables_put).
    destruct Hs3 as [K1 K2 K3 K4]. split; [split; [simpl in *; lia|exact K2|exact K3|]|].
    + simpl in K4 |- *. rewrite K4. by rewrite list_insert_insert_eq.
    + intros _ o' cl Eo' Eop. rewrite Eo in Eo'. injection Eo' as <-. destruct (Hcall cl Eop) as [r Er]. by exists r, s2.
Qed.

Lemma do_close_spec s p a i g x :
  vfs_ok s -> local s p a i g -> opened s g x ->
  if (ref_count x =? 1) && (g <=? STDERR) then do_close fops_tab i s = Fault Panic
  else exists s', do_close fops_tab i s = Ret (tt, s') /\
    same_tables (relinked p i (-1) g (if ref_count x =? 1 then None else Some (set_ref_count (ref_count x - 1) x)) s) s'.
Proof.
  intros Hok Hl Hx. pose proof (do_close_run s p a i g x Hok Hl Hx) as H. destruct (_ && _); [done|].
  destruct H as (s' & E & Hs & _). eauto.
Qed.
Lemma vfs_link_spec s p a i u g x :
  vfs_ok s -> 0 < vfs_lock s -> local s p a i u -> opened s g x ->
  vfs_link_fd i g s = Ret (tt, relinked p i g g (Some (set_ref_count (ref_count x + 1) x)) s).
Proof.
  intros Hok Hd Hl Hx. destruct (ok_opened _ _ _ Hok Hx) as (E & Hr & Hf & Hlt).
  unfold vfs_link_fd, assert_locked.
  erewrite kbind_ret; [|kstep; rewrite (proj2 (Z.eqb_neq _ _)) by lia; done]. cbn beta.
  erewrite kbind_ret by (by eapply vfs_put_local). cbn beta.
  destruct (vfs_inc_ref_ok (with_arrays (alter <[Z.to_nat i := g]> p) s) g x) as [r Hr']; [apply Hok|simpl; lia|exact Hx|].
  erewrite kbind_ret by exact Hr'. rewrite u32_small by lia. done.
Qed.

(** Duplicating an open descriptor, [j] being the free one it gets. *)
Lemma do_dup_spec s p a i g x :
  vfs_ok s -> local s p a i g -> opened s g x -> i < Z.of_nat FD_MAX ->
  exists j, (j = -1 /\ do_dup i s = Ret (-1, s)) \/
    (local s p a j (-1) /\ do_dup i s = Ret (j, relinked p j g g (Some (set_ref_count (ref_count x + 1) x)) s)).
Proof.
  intros Hok Hl Hx Hi. pose proof Hl as (Hc & Hp & Hi0 & Hg). unfold do_dup.
  change (Z.of_nat MAX_FDS) with 128. change (Z.of_nat FD_MAX) with 64 in Hi.
  rewrite (proj2 (Z.ltb_ge i 0)), (proj2 (Z.ltb_ge 128 i)) by lia. cbn [orb]. kstep.
  unfold pcb_cur. erewrite kbind_ret by (kstep; simpl; rewrite Hc; done). cbn beta.
  destruct (proc_new_fd_spec (locked s) p a Hc Hp) as (j & Ej & Hj). erewrite kbind_ret by exact Ej. cbn beta.
  exists j. destruct Hj as [[-> _]|Hj]; [left; split; [done|]; cbn; by erewrite kbind_ret by (apply vfs_unlock_locked, Hok)|].
  right. split; [done|]. pose proof Hj as (_ & _ & Hj0 & _). rewrite (proj2 (Z.ltb_ge j 0)) by lia.
  pose proof (ok_locked _ Hok) as Hokl.
  erewrite kbind_ret by (eapply (vfs_get_gfd_ok (locked s)); [done|exact Hl|exact Hx]). cbn beta.
  erewrite kbind_ret by (eapply (vfs_link_spec (locked s)); [done|pose proof (ok_depth _ Hok); simpl; lia|exact Hj|exact Hx]).
  cbn beta. by erewrite kbind_ret by (apply (vfs_unlock_locked (relinked _ _ _ _ _ s)), Hok).
Qed.
Lemma relinked_local s p a i v g o :
  fd_arrays s !! p = Some a -> fd_arrays (relinked p i v g o s) = <[p := <[Z.to_nat i := v]> a]> (fd_arrays s).
Proof. intros Hp. by apply alter_insert. Qed.

(** Making [newfd] a synonym of [oldfd] when they refer to different files. *)
Lemma do_dup2_spec s p a i j g1 g2 x1 x2 :
  vfs_ok s -> local s p a i g1 -> local s p a j g2 -> opened s g1 x1 -> opened s g2 x2 -> g1 <> g2 ->
  i < Z.of_nat FD_MAX -> j < Z.of_nat FD_MAX ->
  if (ref_count x2 =? 1) && (g2 <=? STDERR) then do_dup2 fops_tab i j s = Fault Panic
  else exists s', do_dup2 fops_tab i j s = Ret (j, s') /\ vfs_ok s' /\ vfs_lock s' = vfs_lock s /\
    current_pcb s' = current_pcb s /\ fd_arrays s' = <[p := <[Z.to_nat j := g1]> a]> (fd_arrays s).
Proof.
  intros Hok Hi Hj Hx1 Hx2 Hne Hi64 Hj64. pose proof Hi as (Hc & Hp & Hi0 & Hgi). pose proof Hj as (_ & _ & Hj0 & Hgj).
  pose proof (ok_locked _ Hok) as Hokl. unfold do_dup2.
  change (Z.of_nat MAX_FDS) with 128. change (Z.of_nat FD_MAX) with 64 in *.
  rewrite (proj2 (Z.ltb_ge i 0)), (proj2 (Z.ltb_ge 128 i)), (proj2 (Z.ltb_ge j 0)), (proj2 (Z.ltb_ge 128 j)) by lia.
  cbn [orb]. kstep.
  assert (Eg : forall k g x, local s p a k g -> opened s g x -> vfs_get_gfd k (locked s) = Ret (g, locked s)).
  { intros k g x Hk Hx. by eapply (vfs_get_gfd_ok (locked s)). }
  erewrite kbind_ret by (by eapply Eg). cbn beta. rewrite (proj2 (Z.ltb_ge g1 0)) by apply Hx1.
  erewrite kbind_ret by (by eapply Eg). cbn beta. erewrite kbind_ret by (by eapply Eg). cbn beta.
  rewrite (proj2 (Z.eqb_neq g1 g2)) by done. cbn [negb].
  pose proof (do_close_spec (locked s) p a j g2 x2 Hokl Hj Hx2) as Hcl. revert Hcl.
  destruct ((ref_count x2 =? 1) && (g2 <=? STDERR)); [intros Hcl; by apply kbind_fault|].
  intros (s1 & Ecl & Hs1). erewrite kbind_ret by exact Ecl. cbn beta.
  pose proof (same_tables_ok _ _ Hs1 (ok_unlinked _ _ _ _ _ _ Hokl Hj Hx2)) as Hok1.
  pose proof Hs1 as [L1 L2 L3 _]. rewrite (relinked_local _ _ a) in L2 by exact Hp.
  assert (Hij : Z.to_nat i <> Z.to_nat j) by (intros E; rewrite E in Hgi; congruence).
  set (a1 := <[Z.to_nat j := -1]> a) in *.
  assert (Hi1 : local s1 p a1 i g1).
  { split_and!; [by rewrite L3|rewrite L2; apply lookup_insert_eq|done|]. subst a1. by rewrite list_lookup_insert_ne. }
  assert (Hj1 : local s1 p a1 j (-1)).
  { split_and!; [by rewrite L3|rewrite L2; apply lookup_insert_eq|done|].
    subst a1. apply list_lookup_insert_eq. eauto using lookup_lt_Some. }
  destruct (same_tables_opened _ _ g1 x1 Hs1) as (y1 & Hy1 & _).
  { split; [apply Hx1|]. simpl. rewrite list_lookup_insert_ne; [apply Hx1|]. destruct Hx1, Hx2. lia. }
  erewrite kbind_ret by (by eapply vfs_get_gfd_ok). cbn beta.
  erewrite kbind_ret; [|eapply vfs_link_spec; [done|rewrite L1; pose proof (ok_depth _ Hok); simpl; lia|done|done]]. cbn beta.
  pose proof (ok_linked _ _ _ _ _ _ Hok1 Hj1 Hy1) as Hok2. set (s2 := relinked _ _ _ _ _ s1) in *.
  assert (E2 : vfs_lock s2 = vfs_lock s + 1) by (simpl; by rewrite L1).
  pose proof (ok_depth _ Hok) as Hd. exists (with_lock (fun d => d - 1) s2). split_and!.
  - by erewrite kbind_ret by (apply vfs_unlock; lia).
  - apply ok_release; [done|lia].
  - simpl in *. lia.
  - simpl. by rewrite L3.
  - change (fd_arrays (with_lock _ s2)) with (fd_arrays s2). unfold s2.
    rewrite (relinked_local _ _ a1) by (rewrite L2; apply lookup_insert_eq).
    rewrite L2, insert_insert_eq. subst a1. by rewrite list_insert_insert_eq.
Qed.
Context {HO : OpenOk fops_tab} (devclass_get_fops : string -> option Z).

(** Opening a path that its file system finds: nothing happens but [errno], or
    the lowest free local descriptor refers to a new entry of the table. *)
Lemma do_open_spec s p a mem_fd name flags o :
  vfs_ok s -> current_pcb s = Some p -> fd_arrays s !! p = Some a -> path_fops devclass_get_fops name s = Some (Some o) -> fs_accepts fops_tab o name ->
  exists r s', do_open fops_tab devclass_get_fops mem_fd true name flags s = Ret (r, s') /\
    (r = -1 /\ same_tables s s' /\ exhausted s a mem_fd \/
     local s p a r (-1) /\ exists n x, 0 <= n /\ open_fds s !! Z.to_nat n = Some None /\
       filename x = Some name /\ flags_open x = flags /\ fops x = Some o /\ ref_count x = 1 /\
       same_tables (relinked p r n n (Some x) s) s').
Proof.
  intros Hok Hc Hp Hpath Hacc. unfold do_open. kstep. kstep.
  change (path_fops devclass_get_fops name _) with (path_fops devclass_get_fops name s). rewrite Hpath. cbv zeta.
  set (type := if negb _ then VFS_TYPE_DIR else VFS_TYPE_FILE).
  destruct (vfs_open_spec (locked s) p a mem_fd (Some name) o type (ok_locked _ Hok) Hc Hp) as (r & s1 & E1 & Hcase).
  erewrite kbind_ret by exact E1. cbn beta. pose proof (ok_depth _ Hok) as Hd.
  destruct Hcase as [(-> & Hs1 & Hex)|(Hr & n & Hn & Hnone & ->)].
  - change (-1 <? 0) with true. cbn iota. exists (-1), (with_lock (fun d => d - 1) (with_errno EBADF s1)). split.
    + unfold fail. kstep. erewrite kbind_ret; [done|]. apply vfs_unlock. simpl. rewrite (st_lock _ _ Hs1). simpl. lia.
    + left. split; [done|]. split; [|done]. destruct Hs1 as [K1 K2 K3 K4]. split; try done. simpl in *. lia.
  - pose proof Hr as (_ & _ & Hr0 & Hra). rewrite (proj2 (Z.ltb_ge r 0)) by lia.
    set (x := new_fd (Some name) o type). set (s1 := relinked p r n n (Some x) (locked s)).
    pose proof (lookup_lt_Some _ _ _ Hnone) as Hlt. simpl in Hlt.
    assert (Hl1 : local s1 p (<[Z.to_nat r := n]> a) r n).
    { split_and!; [done|unfold s1; rewrite (relinked_local _ _ a) by done; apply lookup_insert_eq|done|].
      apply list_lookup_insert_eq. eauto using lookup_lt_Some. }
    erewrite kbind_ret by (by eapply vfs_get_local). cbn beta.
    assert (Hx1 : opened (locked s1) n x) by (split; [done|]; simpl; by apply list_lookup_insert_eq).
    assert (Hlen : length (open_fds s1) = MAX_FDS) by (simpl; rewrite length_insert; apply Hok).
    set (y := set_flags_open flags x).
    assert (Em : vfs_set_open_mode n flags s1 = Ret (0, with_open <[Z.to_nat n := Some y]> s1)).
    { unfold vfs_set_open_mode. kstep. erewrite kbind_ret by (by apply (vfs_upd_fd (locked s1) n x)). cbn beta.
      erewrite kbind_ret; [done|]. apply (vfs_unlock_locked (with_open _ s1)). simpl. lia. }
    erewrite kbind_ret by exact Em. cbn beta. cbn [deref]. kstep.
    unfold s1. unfold relinked at 1. rewrite with_open_twice.
    fold (relinked p r n n (Some y) (locked s)). set (s2 := relinked p r n n (Some y) (locked s)).
    assert (Hop : exists s3, same_tables s2 s3 /\ match op_open (fops_tab o) with None => mret 0 | Some op => op n name end s2 = Ret (0, s3)).
    { destruct (op_open (fops_tab o)) as [op|] eqn:Eop; [|exists s2; split; [apply same_tables_refl|done]].
      destruct (open_ok o op s2 n y name Eop) as (r' & s3 & E3 & Hs3); [simpl; rewrite length_insert; apply Hok| |].
      - split; [done|]. simpl. by apply list_lookup_insert_eq.
      - rewrite (Hacc op n s2 r' s3 Eop E3) in E3. eauto. }
    destruct Hop as (s3 & Hs3 & E3). erewrite kbind_ret by exact E3. cbn.
    assert (Hd3 : vfs_lock s3 = vfs_lock s + 1) by (by rewrite (st_lock _ _ Hs3)).
    exists r, (with_lock (fun d => d - 1) s3). split; [by erewrite kbind_ret by (apply vfs_unlock; lia)|].
    right. split; [done|]. exists n, y. split_and!; try done.
    destruct Hs3 as [K1 K2 K3 K4]. split; try done. simpl in *. lia.
Qed.

End syscalls_ok.

(** *** Forking *)
(** The count of every entry grows by [f]. *)
Definition bump (f : Z -> Z) (l : list (option fd)) : list (option fd) :=
  imap (fun n o => option_map (fun x => set_ref_count (ref_count x + f (Z.of_nat n)) x) o) l.

Lemma bump_lookup f l n :
  bump f l !! n = option_map (fun x => set_ref_count (ref_count x + f (Z.of_nat n)) x) <$> l !! n.
Proof. unfold bump. by rewrite list_lookup_imap. Qed.

Lemma bump_opened f s g x :
  opened s g x -> open_fds (with_open (bump f) s) !! Z.to_nat g = Some (Some (set_ref_count (ref_count x + f g) x)).
Proof. intros [Hg Hx]. simpl. rewrite bump_lookup, Hx. simpl. by rewrite Z2Nat.id by lia. Qed.

Lemma bump_zero f l : (forall n : nat, f (Z.of_nat n) = 0) -> bump f l = l.
Proof.
  intros Hf. apply list_eq. intros n. rewrite bump_lookup. destruct (l !! n) as [[x|]|]; simpl; [|done..].
  rewrite Hf, Z.add_0_r. by destruct x.
Qed.

(** Counting one more reference to [g] first. *)
Lemma bump_cons g src l x :
  0 <= g -> l !! Z.to_nat g = Some (Some x) ->
  bump (fun h => cnt h src) (<[Z.to_nat g := Some (set_ref_count (ref_count x + 1) x)]> l)
  = bump (fun h => cnt h (g :: src)) l.
Proof.
  intros Hg Hx. pose proof (lookup_lt_Some _ _ _ Hx) as Hlt. apply list_eq. intros n. rewrite !bump_lookup.
  destruct (decide (n = Z.to_nat g)) as [->|Hn].
  - rewrite list_lookup_insert_eq, Hx by done. simpl. rewrite Z2Nat.id, cnt_cons by lia. unfold ind.
    rewrite decide_True by done. do 2 f_equal. destruct x. unfold set_ref_count. simpl. f_equal. lia.
  - rewrite list_lookup_insert_ne by done. destruct (l !! n) as [[y|]|]; simpl; [|done..].
    rewrite cnt_cons. unfold ind. rewrite decide_False by lia. by rewrite Z.add_0_l.
Qed.

Lemma clone_loop_spec src dst s :
  length dst = length src -> length (open_fds s) = MAX_FDS -> 0 <= vfs_lock s ->
  (forall g, g ∈ src -> g = -1 \/ exists x, opened s g x) ->
  (forall g x, opened s g x -> 0 <= ref_count x /\ ref_count x + cnt g src < 2 ^ 32) ->
  clone_loop src dst s = Ret (src, with_open (bump (fun g => cnt g src)) s).
Proof.
  revert dst s. induction src as [|g src IH]; intros dst s Hl Hlen Hd Href Hb; destruct dst as [|d dst]; try done.
  - cbn. unfold with_open. rewrite bump_zero; [by destruct s|]. intros n. by rewrite cnt_zero by set_solver.
  - injection Hl as Hl. cbn [clone_loop].
    assert (Hrest : forall h, h ∈ src -> h = -1 \/ exists x, opened s h x) by (intros h Hh; apply Href; set_solver).
    destruct (Href g) as [->|[x Hx]]; [set_solver| |].
    + change (-1 <? 0) with true. cbn iota. kstep. cbn iota. erewrite kbind_ret; [|apply IH; try done].
      2:{ intros h x Hx. specialize (Hb h x Hx). rewrite cnt_cons in Hb. pose proof (cnt_nonneg h src). unfold ind in Hb.
          destruct (decide _); lia. }
      unfold mret, kern_ret, with_open. do 3 f_equal. apply list_eq. intros n. rewrite !bump_lookup.
      destruct (open_fds s !! n) as [[y|]|]; simpl; [|done..]. rewrite cnt_cons. unfold ind. by rewrite decide_False by lia.
    + pose proof Hx as [Hg Hxl]. rewrite (proj2 (Z.ltb_ge g 0)) by lia.
      erewrite kbind_ret; [|erewrite kbind_ret by (by apply vfs_slot); rewrite bool_decide_eq_true_2 by eauto; done].
      cbn [negb]. cbn beta iota. destruct (vfs_inc_ref_ok s g x Hlen Hd Hx) as [r Hr]. erewrite kbind_ret by exact Hr. cbn beta.
      destruct (Hb g x Hx) as [Hb0 Hb1]. rewrite cnt_cons in Hb1. pose proof (cnt_nonneg g src) as Hc0. unfold ind in Hb1.
      rewrite decide_True in Hb1 by done. rewrite u32_small by lia.
      erewrite kbind_ret; [|apply IH; [done|simpl; by rewrite length_insert|done| |]].
      * unfold mret, kern_ret. do 2 f_equal. unfold with_open. simpl. f_equal. by apply bump_cons.
      * intros h Hh. destruct (Hrest h Hh) as [->|[y Hy]]; [by left|]. right. unfold opened. simpl.
        destruct (decide (Z.to_nat h = Z.to_nat g)) as [->|].
        -- eexists. split; [apply Hy|]. apply list_lookup_insert_eq. eauto using lookup_lt_Some.
        -- exists y. rewrite list_lookup_insert_ne by done. done.
      * intros h y [Hh Hy]. simpl in Hy. destruct (decide (Z.to_nat h = Z.to_nat g)) as [E|E].
        -- assert (h = g) as -> by lia. rewrite list_lookup_insert_eq in Hy by eauto using lookup_lt_Some.
           injection Hy as <-. simpl. lia.
        -- rewrite list_lookup_insert_ne in Hy by done. specialize (Hb h y (conj Hh Hy)). rewrite cnt_cons in Hb. unfold ind in Hb.
           destruct (decide _); lia.
Qed.

Lemma fork_fds_spec s parent child a :
  vfs_ok s -> fd_arrays s !! parent = Some a -> fd_arrays s !! child = None ->
  Z.of_nat (base.size (fd_arrays s)) < 2 ^ 20 ->
  let s' := with_arrays <[child := a]> (with_open (bump (fun g => cnt g a)) s) in
  fork_fds parent child s = Ret (tt, s') /\ vfs_ok s'.
Proof.
  intros Hok Hp Hc Hsz s'. pose proof (ok_arr _ Hok _ _ Hp) as Hla. pose proof (ok_depth _ Hok) as Hd. split.
  - unfold fork_fds. kstep. rewrite Hp. kstep. unfold vfs_clone_fd.
    erewrite kbind_ret.
    2:{ kstep. rewrite take_ge by lia. erewrite kbind_ret.
        2:{ apply (clone_loop_spec a (replicate FD_MAX 0) (locked s)); [by rewrite length_replicate|apply Hok|simpl; lia| |].
            - intros g Hg. destruct (ok_ref _ Hok _ _ _ Hp Hg) as [->|[Hg0 [x Hx]]]; [by left|]. right. by exists x.
            - intros g x Hx. destruct (ok_opened s g x Hok Hx) as (_ & Hr & _ & _). pose proof (cnt_bound g a). rewrite Hla in *.
              change (Z.of_nat FD_MAX) with 64 in *. lia. }
        cbn beta. erewrite kbind_ret; [reflexivity|]. by apply (vfs_unlock_locked (with_open _ s)). }
    cbn beta. unfold bug_on. simpl. kstep. done.
  - split.
    + simpl. unfold bump. rewrite length_imap. apply Hok.
    + intros q b. simpl. rewrite lookup_insert_Some. intros [[_ <-]|[_ Hb]]; [done|by eapply ok_arr].
    + assert (Hkeep : forall q b g, fd_arrays s !! q = Some b -> g ∈ b ->
        g = -1 \/ (0 <= g /\ exists x, open_fds s' !! Z.to_nat g = Some (Some x))).
      { intros q b g Hb Hg. destruct (ok_ref _ Hok _ _ _ Hb Hg) as [->|[Hg0 [x Hx]]]; [by left|]. right. split; [done|].
        eexists. by apply bump_opened. }
      intros q b g. simpl. rewrite lookup_insert_Some. intros [[_ <-]|[_ Hb]] Hg; eauto.
    + intros n x. simpl. rewrite bump_lookup, links_new by done. destruct (open_fds s !! n) as [[y|]|] eqn:Hy; simpl; [|done..].
      intros [= <-]. simpl. destruct (ok_cnt _ Hok _ _ Hy) as (H1 & H2 & H3). pose proof (cnt_nonneg (Z.of_nat n) a).
      split_and!; (done || lia).
    + simpl. rewrite map_size_insert_None by done. lia.
    + done.
Qed.

End Vfs.
