(* ===== verification/VfsClient.v ===== *)
(** Clients of the virtual file system: what holds after every history of system
    calls, what closing and exiting release, and what happens outside the
    contract of the calls. *)
From stdpp Require Import strings.
From S2P Require Import Prelude Vfs.

Module VfsClient.
Import Vfs.

(** ** Every history of system calls *)
Section histories.
Context (fops_tab : Z -> file_operations) {HC : CloseOk fops_tab} {HO : OpenOk fops_tab}.
Context (devclass_get_fops : string -> option Z).

Lemma do_close_closed s p a i : 0 <= vfs_lock s -> local s p a i (-1) -> do_close fops_tab i s = Ret (tt, s).
Proof.
  intros Hd Hl. pose proof Hl as (Hc & Hp & Hi & Hg). unfold do_close. kstep. rewrite Hc.
  rewrite bool_decide_eq_true_2 by eauto. cbn [negb orb]. rewrite (proj2 (Z.ltb_ge i 0)) by lia. kstep.
  erewrite kbind_ret by (eapply (vfs_get_local (locked s)), Hl). cbn beta.
  change (-1 <? 0) with true. cbn iota. by apply vfs_unlock_locked.
Qed.

Inductive vcall :=
  | VOpen (mem_fd : bool) (name : string) (flags : Z) | VClose (i : Z) | VDup (i : Z) | VDup2 (i j : Z)
  | VFork (child : Z) | VSwitch (p : Z).

Definition vrun (c : vcall) : kern vfs Z :=
  match c with
  | VOpen m name flags => do_open fops_tab devclass_get_fops m true name flags
  | VClose i => do_close fops_tab i;; mret 0
  | VDup i => do_dup i
  | VDup2 i j => do_dup2 fops_tab i j
  | VFork child => p ← pcb_cur; fork_fds p child;; mret 0
  | VSwitch p => modify (fun s => MkVfs (vfs_lock s) (errno s) (open_fds s) (fd_arrays s) (Some p) (fs_fat s) (fs_dev s));; mret 0
  end.

(** The calls a process may make: on descriptors inside its table, open ones
    where the code reads through them; an open of a path that a registered file
    system finds; and [dup2] between descriptors of different files.  (What the
    other calls break: [failed_open_dangles], [dup2_same_leaks],
    [closed_fd_undefined].) *)
Definition holds (s : vfs) (i g : Z) : Prop := exists p a, local s p a i g.
Definition vlegal (s : vfs) (c : vcall) : Prop :=
  match c with
  | VOpen _ name _ => exists o, path_fops devclass_get_fops name s = Some (Some o) /\ fs_accepts fops_tab o name
  | VClose i => exists g, holds s i g
  | VDup i => exists g, 0 <= g /\ holds s i g
  | VDup2 i j => exists g1 g2, 0 <= g1 /\ 0 <= g2 /\ g1 <> g2 /\ holds s i g1 /\ holds s j g2
  | VFork child => fd_arrays s !! child = None /\ Z.of_nat (base.size (fd_arrays s)) < 2 ^ 20
  | VSwitch p => is_Some (fd_arrays s !! p)
  end.

(** The call would close the last reference to a standard descriptor. *)
Definition last_std (s : vfs) (c : vcall) : Prop :=
  exists i g x, (c = VClose i \/ exists j, c = VDup2 j i) /\ holds s i g /\ opened s g x /\ ref_count x = 1 /\ g <= STDERR.

Record vfs_inv (s : vfs) : Prop := {
  vi_ok : vfs_ok s;
  vi_cur : exists p a, current_pcb s = Some p /\ fd_arrays s !! p = Some a;
  vi_lock : vfs_lock s = 0
}.

Lemma local_opened s p a i g : vfs_ok s -> local s p a i g -> g = -1 \/ exists x, opened s g x.
Proof.
  intros Hok (_ & Hp & _ & Hg). apply list_elem_of_lookup_2 in Hg.
  destruct (ok_ref _ Hok _ _ _ Hp Hg) as [->|[H0 [x Hx]]]; [by left|right; by exists x].
Qed.

Lemma local_bound s p a i g : vfs_ok s -> local s p a i g -> i < Z.of_nat FD_MAX.
Proof.
  intros Hok (_ & Hp & Hi & Hg). apply lookup_lt_Some in Hg. rewrite (ok_arr _ Hok _ _ Hp) in Hg. lia.
Qed.

Lemma relinked_inv s p a i v g o s' :
  vfs_inv s -> current_pcb s = Some p -> fd_arrays s !! p = Some a ->
  vfs_ok (relinked p i v g o s) -> same_tables (relinked p i v g o s) s' -> vfs_inv s'.
Proof.
  intros [_ _ Hk] Hc Hp Hok Hs. pose proof Hs as [K1 K2 K3 _]. split.
  - by eapply same_tables_ok.
  - exists p. eexists. rewrite K3, K2, (relinked_local _ _ a) by done. split; [done|]. apply lookup_insert_eq.
  - by rewrite K1.
Qed.

Lemma close_inv s i g :
  vfs_inv s -> holds s i g ->
  (exists s', do_close fops_tab i s = Ret (tt, s') /\ vfs_inv s') \/
  (do_close fops_tab i s = Fault Panic /\ exists x, opened s g x /\ ref_count x = 1 /\ g <= STDERR).
Proof.
  intros Hi (p & a & Hl). pose proof Hi as [Hok _ Hk]. pose proof Hl as (Hc & Hp & _ & _).
  destruct (local_opened _ _ _ _ _ Hok Hl) as [->|[x Hx]].
  { left. exists s. split; [|done]. eapply do_close_closed; [lia|exact Hl]. }
  pose proof (do_close_spec fops_tab s p a i g x Hok Hl Hx) as Hcl. revert Hcl.
  destruct (Z.eqb_spec (ref_count x) 1) as [E1|E1]; destruct (Z.leb_spec g STDERR) as [E2|E2]; cbn [andb]; intros Hcl.
  1:{ right. eauto. }
  all: left; destruct Hcl as (s' & E & Hs'); exists s'; (split; [done|]).
  all: eapply relinked_inv; [exact Hi|done|done| |exact Hs'].
  all: pose proof (ok_unlinked s p a i g x Hok Hl Hx) as Hu; revert Hu.
  all: by destruct (Z.eqb_spec (ref_count x) 1).
Qed.

Lemma vfs_step s c :
  vfs_inv s -> vlegal s c ->
  (exists r s', vrun c s = Ret (r, s') /\ vfs_inv s') \/ (vrun c s = Fault Panic /\ last_std s c).
Proof.
  intros Hi Hl. pose proof Hi as [Hok (p & a & Hc & Hp) Hk]. destruct c as [m name flags|i|i|i j|child|q]; simpl in Hl |- *.
  - left. destruct Hl as (o & Ho & Hacc). destruct (do_open_spec fops_tab devclass_get_fops s p a m name flags o) as (r & s' & E & Hcase); [done..|].
    exists r, s'. split; [done|]. destruct Hcase as [(_ & [K1 K2 K3 K4] & _)|(Hr & n & x & H0 & Hn & _ & _ & Hf & H1 & Hs)].
    + split; [by apply (same_tables_ok s)|rewrite K2, K3; eauto|by rewrite K1].
    + eapply relinked_inv; [done|done|done| |exact Hs]. eapply ok_opening; [done..|congruence].
  - destruct Hl as [g Hg]. destruct (close_inv s i g Hi Hg) as [(s' & E & Hs')|(E & x & Hx)].
    + left. exists 0, s'. split; [by erewrite kbind_ret by exact E|done].
    + right. split; [by apply kbind_fault|]. exists i, g, x. tauto.
  - left. destruct Hl as (g & Hg0 & p' & a' & Hl). destruct (local_opened _ _ _ _ _ Hok Hl) as [->|[x Hx]]; [lia|].
    destruct (do_dup_spec s p' a' i g x Hok Hl Hx (local_bound _ _ _ _ _ Hok Hl)) as (j & [[-> E]|[Hj E]]); [eauto|].
    eexists _, _. split; [exact E|]. pose proof Hj as (Hc' & Hp' & _).
    eapply relinked_inv; [exact Hi|done|done| |apply same_tables_refl]. by eapply ok_linked.
  - destruct Hl as (g1 & g2 & H1 & H2 & Hne & (p1 & a1 & Hl1) & (p2 & a2 & Hl2)).
    assert (p2 = p1) as -> by (destruct Hl1 as [? _], Hl2 as [? _]; congruence).
    assert (a2 = a1) as -> by (destruct Hl1 as (_ & ? & _), Hl2 as (_ & ? & _); congruence).
    destruct (local_opened _ _ _ _ _ Hok Hl1) as [->|[x1 Hx1]]; [lia|].
    destruct (local_opened _ _ _ _ _ Hok Hl2) as [->|[x2 Hx2]]; [lia|].
    pose proof (do_dup2_spec fops_tab s p1 a1 i j g1 g2 x1 x2 Hok Hl1 Hl2 Hx1 Hx2 Hne
      (local_bound _ _ _ _ _ Hok Hl1) (local_bound _ _ _ _ _ Hok Hl2)) as Hd.
    destruct ((ref_count x2 =? 1) && (g2 <=? STDERR)) eqn:E.
    + right. split; [done|]. exists j, g2, x2. apply andb_true_iff in E. unfold holds. split_and!; [eauto|eauto|done|lia|lia].
    + left. destruct Hd as (s' & E' & Hok' & K1 & K2 & K3). exists j, s'. split; [done|]. split; [done| |lia].
      destruct Hl1 as (Hc1 & _). rewrite K2, K3, Hc1. exists p1. eexists. split; [done|]. apply lookup_insert_eq.
  - left. destruct Hl as [Hch Hsz]. destruct (fork_fds_spec s p child a Hok Hp Hch Hsz) as [E Hok'].
    eexists 0, _. split; [|split; [exact Hok'| |done]].
    + unfold pcb_cur. erewrite kbind_ret by (kstep; rewrite Hc; done). cbn beta. by erewrite kbind_ret by exact E.
    + exists p, a. split; [done|]. simpl. rewrite lookup_insert_ne; [done|]. congruence.
  - left. destruct Hl as [b Hb]. eexists 0, _. split; [kstep; done|]. split; [|simpl; eauto|done].
    by destruct Hok as [A1 A2 A3 A4 A5 A6].
Qed.
(** The state at the start of the first process: [vfs_gfd_init] on empty tables,
    then the standard descriptors of the root process. *)
Definition boot (s0 : vfs) (root console : Z) (raw : Z -> fd) : outcome (unit * vfs) :=
  (vfs_gfd_init true console raw;;
   modify (with_arrays <[root := root_fd_array]>);;
   modify (fun s => MkVfs (vfs_lock s) (errno s) (open_fds s) (fd_arrays s) (Some root) (fs_fat s) (fs_dev s))) s0.

Lemma boot_inv s0 root console raw :
  open_fds s0 = replicate MAX_FDS None -> fd_arrays s0 = ∅ -> vfs_lock s0 = 0 ->
  exists s, boot s0 root console raw = Ret (tt, s) /\ vfs_inv s.
Proof.
  intros Ho Ha Hk. set (l := [Some (std_fd console 0 (raw 0)); Some (std_fd console 1 (raw 1)); Some (std_fd console 2 (raw 2))] ++ replicate 125 None).
  exists (MkVfs 0 (errno s0) l {[root := root_fd_array]} (Some root) (fs_fat s0) (fs_dev s0)).
  destruct s0 as [k e o m c f d]. simpl in *. subst. split; [reflexivity|].
  assert (Hl : forall n x, l !! n = Some (Some x) -> (n < 3)%nat /\ ref_count x = 1 /\ fops x <> None).
  { intros n x. destruct n as [|[|[|n]]]; simpl; try (intros [= <-]; done || (split; [lia|done])).
    intros [Hr _]%(lookup_replicate_1 125 None). done. }
  split; [split|by exists root, root_fd_array; simpl; rewrite lookup_singleton_eq|done]; simpl.
  - done.
  - intros q b [<- <-]%lookup_singleton_Some. done.
  - intros q b g [<- <-]%lookup_singleton_Some Hg. unfold root_fd_array in Hg.
    apply elem_of_app in Hg as [Hg|[-> _]%elem_of_replicate]; [|by left]. right.
    apply elem_of_cons in Hg as [->|[->| ->%list_elem_of_singleton]%elem_of_cons]; (split; [done|]); eauto.
  - intros n x Hx. destruct (Hl n x Hx) as (Hn & -> & Hf). rewrite <- insert_empty, links_new by apply lookup_empty.
    split_and!; [|lia|done]. destruct n as [|[|[|n]]]; [vm_compute; done..|lia].
  - rewrite map_size_singleton. lia.
  - done.
Qed.

Inductive history (s0 : vfs) : vfs -> Prop :=
  | history_refl : history s0 s0
  | history_step s c r s' : history s0 s -> vlegal s c -> vrun c s = Ret (r, s') -> history s0 s'.

Lemma history_inv s0 s : vfs_inv s0 -> history s0 s -> vfs_inv s.
Proof.
  intros H0. induction 1 as [|s c r s' _ IH Hl Hr]; [done|].
  destruct (vfs_step s c IH Hl) as [(r' & s1 & E & Hs1)|[E _]]; [|congruence]. rewrite E in Hr. by simplify_eq.
Qed.

(** C28: descriptors are always accounted for.  After any history from boot of opens of
    paths that their file system finds, closes, duplications of open descriptors,
    [dup2] between open descriptors of different files, forks and process
    switches, the reference count of
    every open file is the number of local descriptors of all processes that
    refer to it, and positive; every local descriptor is closed or refers to an
    open file; the lock is free; and every further call of that kind returns,
    except one that closes the last reference to a standard descriptor, which
    stops the kernel.  The callbacks return and change no table. *)
Theorem vfs_refcounts s0 root console raw s1 s :
  open_fds s0 = replicate MAX_FDS None -> fd_arrays s0 = ∅ -> vfs_lock s0 = 0 ->
  boot s0 root console raw = Ret (tt, s1) -> history s1 s ->
  (forall g x, opened s g x -> ref_count x = links (fd_arrays s) g /\ 0 < ref_count x) /\
  (forall p a g, fd_arrays s !! p = Some a -> g ∈ a -> g = -1 \/ exists x, opened s g x) /\
  vfs_lock s = 0 /\
  (forall c, vlegal s c -> (exists r s', vrun c s = Ret (r, s')) \/ (vrun c s = Fault Panic /\ last_std s c)).
Proof.
  intros Ho Ha Hk Hb Hh. destruct (boot_inv s0 root console raw Ho Ha Hk) as (s1' & Eb & Hi).
  assert (s1' = s1) as -> by congruence. pose proof (history_inv _ _ Hi Hh) as Hs. pose proof Hs as [Hok _ Hlk]. split_and!.
  - intros g x Hx. destruct (ok_opened s g x Hok Hx) as (? & ? & _). lia.
  - intros p a g Hp Hg. destruct (ok_ref _ Hok _ _ _ Hp Hg) as [->|[H0 [x Hx]]]; [by left|right; by exists x].
  - done.
  - intros c Hc. destruct (vfs_step s c Hs Hc) as [(r & s' & E & _)|?]; eauto.
Qed.

(** C29: closing an open descriptor (not the last one of a standard file) frees that
    slot of the process and nothing else in any process; the file it refers to
    loses one reference.  When that was the last one, the file's [close] callback,
    if it has one, has been called under the lock with the descriptor already
    cleared, and the entry is free; otherwise the file stays open.  Every other
    file keeps its state apart from private data.  The callback returns and changes
    no table. *)
Theorem do_close_releases s p a i g x :
  vfs_ok s -> local s p a i g -> opened s g x -> (STDERR < g \/ 1 < links (fd_arrays s) g) ->
  exists s', do_close fops_tab i s = Ret (tt, s') /\ vfs_ok s' /\
    fd_arrays s' = <[p := <[Z.to_nat i := -1]> a]> (fd_arrays s) /\
    (if decide (links (fd_arrays s) g = 1) then open_fds s' !! Z.to_nat g = Some None /\ after_close fops_tab s p i g x s'
     else exists y, opened s' g y /\ ref_count y = links (fd_arrays s) g - 1) /\
    (forall n, n <> Z.to_nat g -> bare <$> open_fds s' !! n = bare <$> open_fds s !! n).
Proof.
  intros Hok Hl Hx Hg. destruct (ok_opened s g x Hok Hx) as (Er & Hr & _ & Hlt). rewrite <- Er in Hg |- *.
  pose proof Hl as (Hc & Hp & _ & _).
  pose proof (do_close_run fops_tab s p a i g x Hok Hl Hx) as Hcl.
  assert (Es : (ref_count x =? 1) && (g <=? STDERR) = false) by lia. rewrite Es in Hcl.
  destruct Hcl as (s' & E & Hs & Hcb). exists s'. split; [done|].
  split; [eapply same_tables_ok; [exact Hs|by eapply ok_unlinked]|].
  split; [rewrite (st_arrays _ _ Hs); by apply relinked_local|]. split.
  - pose proof (same_tables_lookup _ _ (Z.to_nat g) Hs) as El. simpl in El.
    rewrite list_lookup_insert_eq in El by (by rewrite (ok_len _ Hok)). unfold opened.
    destruct (open_fds s' !! Z.to_nat g) as [[y|]|]; destruct (Z.eqb_spec (ref_count x) 1) as [E1|E1]; try done.
    + rewrite decide_False by done. exists y. split; [split; [apply Hx|done]|].
      destruct (priv_apart (set_ref_count (ref_count x - 1) x) y) as [-> _]; [cbn in El; congruence|done].
    + rewrite decide_True by done. split; [done|by apply Hcb].
  - intros n Hn. rewrite (same_tables_lookup _ _ n Hs). simpl. by rewrite list_lookup_insert_ne.
Qed.
(** opening a path that a registered file system finds returns -1 and leaves all
    descriptors as they were only when memory, the global table or the local table
    is exhausted; otherwise the descriptor returned was free, and now refers to a
    file of its own, with that name, those flags and one reference, and the
    descriptors of the other processes are untouched. *)
Theorem do_open_correct s p a mem_fd name flags o :
  vfs_ok s -> current_pcb s = Some p -> fd_arrays s !! p = Some a -> path_fops devclass_get_fops name s = Some (Some o) -> fs_accepts fops_tab o name ->
  exists r s', do_open fops_tab devclass_get_fops mem_fd true name flags s = Ret (r, s') /\ vfs_ok s' /\
    (r = -1 /\ same_tables s s' /\ exhausted s a mem_fd \/
     exists n x, a !! Z.to_nat r = Some (-1) /\ open_fds s !! Z.to_nat n = Some None /\
       vfs_get_gfd r s' = Ret (n, s') /\ opened s' n x /\
       filename x = Some name /\ flags_open x = flags /\ fops x = Some o /\ ref_count x = 1 /\
       (forall q, q <> p -> fd_arrays s' !! q = fd_arrays s !! q)).
Proof.
  intros Hok Hc Hp Hpath Hacc.
  destruct (do_open_spec fops_tab devclass_get_fops s p a mem_fd name flags o Hok Hc Hp Hpath Hacc) as (r & s' & E & Hcase).
  exists r, s'. split; [done|]. destruct Hcase as [(-> & Hs & He)|(Hr & n & x & H0 & Hn & Hx1 & Hx2 & Hx3 & Hx4 & Hs)].
  { split; [by apply (same_tables_ok s)|]. by left. }
  assert (Hok' : vfs_ok s') by (eapply same_tables_ok; [exact Hs|]; eapply ok_opening; [done..|congruence]).
  split; [done|]. right. pose proof Hr as (_ & _ & Hr0 & Hra). pose proof (lookup_lt_Some _ _ _ Hn) as Hlt.
  destruct (same_tables_opened _ _ n x Hs) as (y & Hy & Ey); [split; [done|]; simpl; by apply list_lookup_insert_eq|].
  pose proof (st_arrays _ _ Hs) as Ha. rewrite (relinked_local _ _ a) in Ha by done.
  destruct (priv_apart _ _ Ey) as [E1 E2], (priv_apart_name _ _ Ey) as [E3 E4].
  exists n, y. rewrite E1, E2, E3, E4. split_and!; try done.
  - eapply (vfs_get_gfd_ok s' p (<[Z.to_nat r := n]> a) r n y); [done| |done].
    split_and!; [rewrite (st_cur _ _ Hs); done|rewrite Ha; apply lookup_insert_eq|done|].
    apply list_lookup_insert_eq. eauto using lookup_lt_Some.
  - intros q Hq. rewrite Ha. by rewrite lookup_insert_ne.
Qed.
(** *** Exiting *)
Lemma links_shared m p q a b g :
  m !! p = Some a -> m !! q = Some b -> p <> q -> g ∈ a -> g ∈ b -> 1 < links m g.
Proof.
  intros Hp Hq Hne Ha Hb. rewrite <- (insert_delete_id m p a Hp), links_new by apply lookup_delete_eq.
  pose proof (cnt_pos g a Ha). assert (0 < links (delete p m) g); [|lia].
  apply (links_pos _ q b); [by rewrite lookup_delete_ne|done].
Qed.

(** Another process refers to [g] as well. *)
Definition shared (s : vfs) (p g : Z) : Prop := exists q b, q <> p /\ fd_arrays s !! q = Some b /\ g ∈ b.

Lemma close_from_spec n s p done todo :
  vfs_ok s -> current_pcb s = Some p -> length todo = n -> fd_arrays s !! p = Some (done ++ todo) ->
  (forall g, g ∈ todo -> 0 <= g <= STDERR -> shared s p g) ->
  exists s', close_from fops_tab n (Z.of_nat (length done)) s = Ret (tt, s') /\ vfs_ok s' /\
    fd_arrays s' = <[p := done ++ replicate n (-1)]> (fd_arrays s).
Proof.
  revert s done todo. induction n as [|n IH]; intros s done todo Hok Hc Hn Hp Hstd.
  - apply nil_length_inv in Hn as ->. exists s. split; [done|]. split; [done|]. simpl. by rewrite insert_id.
  - destruct todo as [|g todo]; [done|]. injection Hn as Hn. cbn [close_from].
    assert (Hl : local s p (done ++ g :: todo) (Z.of_nat (length done)) g).
    { split_and!; [done|done|lia|]. rewrite Nat2Z.id. by apply list_lookup_middle. }
    assert (Hdone : exists s1, do_close fops_tab (Z.of_nat (length done)) s = Ret (tt, s1) /\ vfs_ok s1 /\
      current_pcb s1 = Some p /\ fd_arrays s1 = <[p := done ++ -1 :: todo]> (fd_arrays s)).
    { destruct (local_opened _ _ _ _ _ Hok Hl) as [->|[x Hx]].
      { exists s. split; [eapply do_close_closed; [apply Hok|exact Hl]|]. split; [done|]. split; [done|]. by rewrite insert_id. }
      destruct (ok_opened s g x Hok Hx) as (Er & Hr & _).
      pose proof (do_close_spec fops_tab s p _ _ g x Hok Hl Hx) as Hcl.
      assert (Es : (ref_count x =? 1) && (g <=? STDERR) = false).
      { apply andb_false_iff. destruct (Z.leb_spec g STDERR) as [Hle|]; [left|by right].
        destruct (Hstd g) as (q & b & Hq & Hb & Hg); [set_solver|split; [apply Hx|done]|].
        pose proof (links_shared _ p q _ b g Hp Hb (not_eq_sym Hq) ltac:(set_solver) Hg). lia. }
      rewrite Es in Hcl. destruct Hcl as (s1 & E & Hs). exists s1. split; [done|].
      split; [eapply same_tables_ok; [exact Hs|by eapply ok_unlinked]|].
      split; [by rewrite (st_cur _ _ Hs)|]. rewrite (st_arrays _ _ Hs), (relinked_local _ _ _ _ _ _ _ Hp), Nat2Z.id.
      f_equal. rewrite insert_app_r_alt, Nat.sub_diag by lia. done. }
    destruct Hdone as (s1 & E1 & Hok1 & Hc1 & Ha1). erewrite kbind_ret by exact E1. cbn beta.
    destruct (IH s1 (done ++ [-1]) todo Hok1 Hc1 Hn) as (s' & E & Hok' & Ha').
    { rewrite Ha1, lookup_insert_eq. by rewrite <- app_assoc. }
    { intros h Hh Hr. destruct (Hstd h) as (q & b & Hq & Hb & Hg); [set_solver|done|]. exists q, b.
      split; [done|]. rewrite Ha1, lookup_insert_ne by done. done. }
    exists s'. rewrite length_app in E. simpl in E. replace (Z.of_nat (length done) + 1) with (Z.of_nat (length done + 1)) by lia.
    split; [done|]. split; [done|]. rewrite Ha', Ha1, insert_insert_eq. by rewrite <- app_assoc.
Qed.

(** a process that exits closes all its descriptors: its table is all closed,
    the other processes' tables are unchanged, and afterwards a file is open only
    if some other process still refers to it.  (The standard descriptors must
    be shared with another process, as they are with the root process, which
    never exits.) *)
Theorem exit_releases s p a :
  vfs_ok s -> current_pcb s = Some p -> fd_arrays s !! p = Some a ->
  (forall g, g ∈ a -> 0 <= g <= STDERR -> shared s p g) ->
  exists s', close_all_fds fops_tab s = Ret (tt, s') /\ vfs_ok s' /\
    fd_arrays s' = <[p := replicate FD_MAX (-1)]> (fd_arrays s) /\
    (forall g x, opened s' g x -> shared s p g).
Proof.
  intros Hok Hc Hp Hstd. pose proof (ok_arr _ Hok _ _ Hp) as Hlen.
  destruct (close_from_spec FD_MAX s p [] a) as (s' & E & Hok' & Ha'); [done..|].
  exists s'. split; [done|]. split; [done|]. split; [done|]. intros g x Hx. cbn [app] in Ha'.
  destruct (ok_opened s' g x Hok' Hx) as (Er & Hr & _). pose proof (proj1 Hx) as Hg0.
  destruct (decide (map_Exists (fun q b => q <> p /\ g ∈ b) (fd_arrays s))) as [(q & b & Hb & Hq & Hg)|Hno]; [by exists q, b|].
  exfalso. assert (Hz : links (fd_arrays s') g = 0); [|lia]. apply links_zero. intros q b. rewrite Ha', lookup_insert_Some.
  intros [[<- <-]|[Hne Hb]] Hg; [apply elem_of_replicate in Hg; lia|]. apply Hno. exists q, b. auto.
Qed.
(** *** Outside the contract *)
(** reading through a closed descriptor indexes the table of open files with -1:
    [vfs_get_gfd] tests [open_fds[gfd]] before it tests [gfd], so a read, a write,
    a duplication of a closed descriptor, and a [dup2] onto one, are undefined. *)
Theorem closed_fd_undefined s p a i j g x n b :
  vfs_ok s -> local s p a i (-1) -> local s p a j g -> opened s g x -> 0 <= n ->
  vfs_get_gfd i s = Fault Undef /\ do_read fops_tab i true n s = Fault Undef /\
  do_write fops_tab i (Some b) n s = Fault Undef /\ do_dup2 fops_tab j i s = Fault Undef.
Proof.
  intros Hok Hi Hj Hx Hn. pose proof (ok_locked _ Hok) as Hokl.
  assert (Hget : forall s, local s p a i (-1) -> vfs_get_gfd i s = Fault Undef).
  { clear. intros s Hi. pose proof Hi as (_ & _ & Hi0 & _). unfold vfs_get_gfd. rewrite (proj2 (Z.ltb_ge i 0)) by lia. kstep.
    erewrite kbind_ret by (eapply (vfs_get_local (locked s)), Hi). cbn beta. by apply kbind_fault. }
  assert (E : (n <? 0) = false) by lia. split_and!.
  - by apply Hget.
  - unfold do_read. rewrite E. cbn [negb orb]. kstep. by apply kbind_fault, (Hget (locked s)).
  - unfold do_write. rewrite E. kstep. by apply kbind_fault, (Hget (locked s)).
  - pose proof (local_bound _ _ _ _ _ Hok Hi). pose proof (local_bound _ _ _ _ _ Hok Hj).
    pose proof Hi as (_ & _ & Hi0 & _). pose proof Hj as (_ & _ & Hj0 & _). unfold do_dup2.
    change (Z.of_nat FD_MAX) with 64 in *. change (Z.of_nat MAX_FDS) with 128.
    rewrite (proj2 (Z.ltb_ge i 0)), (proj2 (Z.ltb_ge 128 i)), (proj2 (Z.ltb_ge j 0)), (proj2 (Z.ltb_ge 128 j)) by lia.
    cbn [orb]. kstep.
    erewrite kbind_ret by (by eapply (vfs_get_gfd_ok (locked s))). cbn beta. rewrite (proj2 (Z.ltb_ge g 0)) by apply Hx.
    erewrite kbind_ret by (by eapply (vfs_get_gfd_ok (locked s))). cbn beta. by apply kbind_fault, (Hget (locked s)).
Qed.

(** [dup2] of a descriptor onto itself takes a reference without a descriptor:
    no table changes, the count of the file is one more than the descriptors that
    refer to it, so the file is never released. *)
Theorem dup2_same_leaks s p a i g x :
  vfs_ok s -> local s p a i g -> opened s g x ->
  exists s' y, do_dup2 fops_tab i i s = Ret (i, s') /\ fd_arrays s' = fd_arrays s /\
    opened s' g y /\ ref_count y = links (fd_arrays s') g + 1.
Proof.
  intros Hok Hl Hx. pose proof (ok_locked _ Hok) as Hokl. pose proof (ok_depth _ Hok) as Hd.
  pose proof (local_bound _ _ _ _ _ Hok Hl). pose proof Hl as (_ & Hp & Hi0 & Hg). destruct (ok_opened s g x Hok Hx) as (Er & _ & _ & Hlt).
  change (Z.of_nat FD_MAX) with 64 in *. unfold do_dup2. change (Z.of_nat MAX_FDS) with 128.
  rewrite (proj2 (Z.ltb_ge i 0)), (proj2 (Z.ltb_ge 128 i)) by lia. cbn [orb]. kstep.
  assert (Eg : vfs_get_gfd i (locked s) = Ret (g, locked s)) by (by eapply (vfs_get_gfd_ok (locked s))).
  erewrite kbind_ret by exact Eg. cbn beta. rewrite (proj2 (Z.ltb_ge g 0)) by apply Hx.
  erewrite kbind_ret by exact Eg. cbn beta. erewrite kbind_ret by exact Eg. cbn beta. rewrite Z.eqb_refl. cbn [negb]. kstep.
  erewrite kbind_ret by exact Eg. cbn beta.
  erewrite kbind_ret by (eapply (vfs_link_spec (locked s)); [done|simpl; lia|exact Hl|exact Hx]). cbn beta.
  set (y := set_ref_count (ref_count x + 1) x). exists (relinked p i g g (Some y) s), y. split.
  { by erewrite kbind_ret by (by apply (vfs_unlock_locked (relinked p i g g (Some y) s))). }
  assert (Ha : fd_arrays (relinked p i g g (Some y) s) = fd_arrays s).
  { rewrite (relinked_local _ _ _ _ _ _ _ Hp), list_insert_id by done. by apply insert_id. }
  rewrite Ha. split; [done|]. split; [|simpl; lia].
  split; [apply Hx|]. simpl. apply list_lookup_insert_eq. by rewrite (ok_len _ Hok).
Qed.
End histories.

(** *** A concrete system *)
(** A console, and a file system whose [open] fails on the path "missing". *)
Definition ex_fops (o : Z) : file_operations :=
  Fops (if o =? 5 then Some (fun _ name => mret (if String.eqb name "missing" then -1 else 0)) else None)
       None None None None None None None None None.
Definition ex_ok_fops (o : Z) : file_operations :=
  Fops (Some (fun _ name => mret (if String.eqb name "missing" then -1 else 0))) (Some (fun _ => mret 0)) None None None None None None None None.
Definition no_devices (name : string) : option Z := None.

#[global] Instance ex_close_ok : CloseOk ex_ok_fops.
Proof. split. intros o cl s g x [= <-] _ _. exists 0, s. split; [done|apply same_tables_refl]. Qed.
#[global] Instance ex_open_ok : OpenOk ex_ok_fops.
Proof. split. intros o op s g x name [= <-] _ _. eexists _, s. split; [reflexivity|apply same_tables_refl]. Qed.
Lemma ex_accepts o name : name <> "missing"%string -> fs_accepts ex_ok_fops o name.
Proof. intros Hn op g s r s' [= <-] H. rewrite (proj2 (String.eqb_neq _ _) Hn) in H. by injection H. Qed.

Definition ex_start : vfs := MkVfs 0 0 (replicate MAX_FDS None) ∅ None (Some 5) None.
Definition ex_boot : vfs := match boot ex_start 1 9 (fun _ => zero_fd) with Ret (_, s) => s | _ => ex_start end.
Definition ret_state (o : outcome (Z * vfs)) : vfs := match o with Ret (_, s) => s | _ => ex_start end.
(** Process 1 has opened a file as descriptor 3 and forked process 2. *)
Definition ex_open : vfs := ret_state (vrun ex_ok_fops no_devices (VOpen true "a" 0) ex_boot).
Definition ex_fork : vfs := ret_state (vrun ex_ok_fops no_devices (VFork 2) ex_open).

(** when the file system refuses to open a path, [do_open] clears the entry of
    the global table but not the local descriptor: the next file opened takes
    that entry, and the process has two descriptors for it with one reference, so
    that closing one closes the file under the other. *)
Theorem failed_open_dangles :
  exists s1 s2 s3, do_open ex_fops no_devices true true "missing" 0 ex_boot = Ret (-1, s1) /\
    do_open ex_fops no_devices true true "found" 0 s1 = Ret (4, s2) /\
    get_local 3 s2 = Ret (3, s2) /\ get_local 4 s2 = Ret (3, s2) /\
    do_close ex_fops 4 s2 = Ret (tt, s3) /\ get_local 3 s3 = Ret (3, s3) /\ open_fds s3 !! 3%nat = Some None.
Proof.
  eexists _, _, _. split; [vm_compute; reflexivity|]. split; [vm_compute; reflexivity|].
  split; [vm_compute; reflexivity|]. split; [vm_compute; reflexivity|]. split; [vm_compute; reflexivity|].
  split; vm_compute; reflexivity.
Qed.

Lemma ex_boot_inv : vfs_inv ex_boot.
Proof.
  destruct (boot_inv ex_start 1 9 (fun _ => zero_fd) eq_refl eq_refl eq_refl) as (s & E & Hi).
  unfold ex_boot. by rewrite E.
Qed.

Lemma ex_history (s : vfs) (c : vcall) :
  vfs_inv s -> vlegal ex_ok_fops no_devices s c -> (exists r s', vrun ex_ok_fops no_devices c s = Ret (r, s')) ->
  vfs_inv (ret_state (vrun ex_ok_fops no_devices c s)).
Proof.
  intros Hi Hl (r & s' & E). destruct (vfs_step ex_ok_fops no_devices s c Hi Hl) as [(r' & s1 & E1 & H1)|[E1 _]]; [|congruence].
  rewrite E1. done.
Qed.

Lemma ex_open_inv : vfs_inv ex_open.
Proof.
  apply ex_history; [exact ex_boot_inv|exists 5; split; [reflexivity|by apply ex_accepts]|]. eexists _, _. vm_compute. reflexivity.
Qed.

Lemma ex_fork_inv : vfs_inv ex_fork.
Proof.
  apply ex_history; [exact ex_open_inv|split; [reflexivity|done]|]. eexists _, _. vm_compute. reflexivity.
Qed.

Definition ex_array : list Z := [0; 1; 2; 3] ++ replicate 60 (-1).
Definition ex_file (refs : Z) : fd := Fd (Some "a"%string) 0 0 0 0 0 refs (Some 5) None.

Lemma ex_open_local i g : 0 <= i -> ex_array !! Z.to_nat i = Some g -> local ex_open 1 ex_array i g.
Proof. intros Hi Hg. split_and!; [vm_compute; reflexivity|vm_compute; reflexivity|done|done]. Qed.

Lemma ex_fork_local i g : 0 <= i -> ex_array !! Z.to_nat i = Some g -> local ex_fork 1 ex_array i g.
Proof. intros Hi Hg. split_and!; [vm_compute; reflexivity|vm_compute; reflexivity|done|done]. Qed.

Lemma vfs_refcounts_witness :
  history ex_ok_fops no_devices ex_boot ex_fork /\
  forall g x, opened ex_fork g x -> ref_count x = links (fd_arrays ex_fork) g /\ 0 < ref_count x.
Proof.
  assert (Hh : history ex_ok_fops no_devices ex_boot ex_fork).
  { eapply (history_step _ _ _ ex_open (VFork 2)); [|split; [reflexivity|done]|vm_compute; reflexivity].
    eapply (history_step _ _ _ ex_boot (VOpen true "a" 0)); [apply history_refl|exists 5; split; [reflexivity|by apply ex_accepts]|vm_compute; reflexivity]. }
  split; [exact Hh|].
  apply (vfs_refcounts ex_ok_fops no_devices ex_start 1 9 (fun _ => zero_fd) ex_boot ex_fork);
    [reflexivity|reflexivity|reflexivity|vm_compute; reflexivity|exact Hh].
Defined.

Lemma do_close_releases_witness :
  (exists s' y, do_close ex_ok_fops 3 ex_fork = Ret (tt, s') /\ opened s' 3 y /\ ref_count y = 1) /\
  (exists s', do_close ex_ok_fops 3 ex_open = Ret (tt, s') /\ open_fds s' !! 3%nat = Some None /\
    after_close ex_ok_fops ex_open 1 3 3 (ex_file 1) s').
Proof.
  split.
  - destruct (do_close_releases ex_ok_fops ex_fork 1 ex_array 3 3 (ex_file 2)) as (s' & E & _ & _ & H & _).
    + exact (vi_ok _ ex_fork_inv).
    + by apply ex_fork_local.
    + split; [done|]. vm_compute. reflexivity.
    + left. done.
    + assert (El : links (fd_arrays ex_fork) 3 = 2) by (vm_compute; reflexivity).
      rewrite El in H. rewrite decide_False in H by lia. destruct H as (y & Hy & Hr). exists s', y. split; [exact E|]. split; [exact Hy|exact Hr].
  - destruct (do_close_releases ex_ok_fops ex_open 1 ex_array 3 3 (ex_file 1)) as (s' & E & _ & _ & H & _).
    + exact (vi_ok _ ex_open_inv).
    + by apply ex_open_local.
    + split; [done|]. vm_compute. reflexivity.
    + left. done.
    + assert (El : links (fd_arrays ex_open) 3 = 1) by (vm_compute; reflexivity).
      rewrite El in H. rewrite decide_True in H by lia. destruct H as (Hn & Ha). exists s'. split; [exact E|]. split; [exact Hn|exact Ha].
Defined.

Lemma do_open_correct_witness :
  exists r s', do_open ex_ok_fops no_devices true true "a" 0 ex_boot = Ret (r, s') /\ vfs_ok s'.
Proof.
  destruct (do_open_correct ex_ok_fops no_devices ex_boot 1 root_fd_array true "a" 0 5) as (r & s' & E & Hok & _);
    [exact (vi_ok _ ex_boot_inv)|vm_compute; reflexivity|vm_compute; reflexivity|vm_compute; reflexivity|by apply ex_accepts|].
  exists r, s'. split; [exact E|exact Hok].
Defined.

Definition ex_child : vfs :=
  MkVfs (vfs_lock ex_fork) (errno ex_fork) (open_fds ex_fork) (fd_arrays ex_fork) (Some 2) (fs_fat ex_fork) (fs_dev ex_fork).
Lemma exit_releases_witness :
  exists s', close_all_fds ex_ok_fops ex_child = Ret (tt, s') /\ vfs_ok s' /\
    fd_arrays s' = <[2 := replicate FD_MAX (-1)]> (fd_arrays ex_child).
Proof.
  destruct (exit_releases ex_ok_fops ex_child 2 ex_array) as (s' & E & Hok & Ha & _).
  - destruct (vi_ok _ ex_fork_inv) as [A1 A2 A3 A4 A5 A6]. split; assumption.
  - vm_compute. reflexivity.
  - vm_compute. reflexivity.
  - intros g Hg _. exists 1, ex_array. split; [done|]. split; [vm_compute; reflexivity|exact Hg].
  - exists s'. split; [exact E|]. split; [exact Hok|exact Ha].
Defined.

Lemma closed_fd_undefined_witness : vfs_get_gfd 5 ex_open = Fault Undef /\ do_read ex_ok_fops 5 true 10 ex_open = Fault Undef.
Proof.
  destruct (closed_fd_undefined ex_ok_fops ex_open 1 ex_array 5 3 3 (ex_file 1) 10 []) as (H1 & H2 & _).
  - exact (vi_ok _ ex_open_inv).
  - by apply ex_open_local.
  - by apply ex_open_local.
  - split; [done|]. vm_compute. reflexivity.
  - lia.
  - split; [exact H1|exact H2].
Defined.

Lemma dup2_same_leaks_witness :
  exists s' y, do_dup2 ex_ok_fops 3 3 ex_open = Ret (3, s') /\ opened s' 3 y /\ ref_count y = links (fd_arrays s') 3 + 1.
Proof.
  destruct (dup2_same_leaks ex_ok_fops ex_open 1 ex_array 3 3 (ex_file 1)) as (s' & y & E & _ & Hy & Hr).
  - exact (vi_ok _ ex_open_inv).
  - by apply ex_open_local.
  - split; [done|]. vm_compute. reflexivity.
  - exists s', y. split; [exact E|]. split; [exact Hy|exact Hr].
Defined.

End VfsClient.
