(* ===== verification/Pipe.v ===== *)
(** Pipes (so3/ipc/pipe.c): a ring buffer of [PIPE_SIZE] bytes between two ends,
    with a completion for readers and one for writers.

    [pd->lock] makes every stretch of code between two waits atomic, so reading
    and writing are functions on the descriptor up to the point where the thread
    returns or waits; a system of threads around one pipe interleaves these
    stretches.  The completions are those of [Completion]. *)
From stdpp Require Import strings.
From S2P Require Import Prelude Sync Vfs VfsClient.

Module Pipe.

Definition PIPE_SIZE : nat := Z.to_nat 4096.
Definition O_RDONLY : Z := 0.
Definition O_WRONLY : Z := 1.

Record pipe_desc := PipeDesc {
  pipe_buf : list Z;
  pos_read : nat;
  pos_write : nat;
  gfd0 : Z;
  gfd1 : Z;
  wait_for_writer : Completion.completion;
  wait_for_reader : Completion.completion
}.

Definition with_writer c pd := PipeDesc (pipe_buf pd) (pos_read pd) (pos_write pd) (gfd0 pd) (gfd1 pd) c (wait_for_reader pd).
Definition with_reader c pd := PipeDesc (pipe_buf pd) (pos_read pd) (pos_write pd) (gfd0 pd) (gfd1 pd) (wait_for_writer pd) c.

(** [-EINVAL] on a descriptor without private data cannot occur here: [pd] is
    that data. *)
Definition otherend (pd : pipe_desc) (gfd : Z) : Z := if gfd0 pd =? gfd then gfd1 pd else gfd0 pd.

Definition pipe_full (pd : pipe_desc) : bool := bool_decide ((pos_write pd + 1) mod PIPE_SIZE = pos_read pd)%nat.
Definition pipe_empty (pd : pipe_desc) : bool := bool_decide (pos_write pd = pos_read pd).

(** The tails of [pipe_read_byte] and [pipe_write_byte], once there is a byte or
    room for one. *)
Definition take_byte (pd : pipe_desc) : pipe_desc * Z :=
  (PipeDesc (pipe_buf pd) ((pos_read pd + 1) mod PIPE_SIZE)%nat (pos_write pd) (gfd0 pd) (gfd1 pd) (wait_for_writer pd) (wait_for_reader pd),
   nth (pos_read pd) (pipe_buf pd) 0).
Definition put_byte (pd : pipe_desc) (v : Z) : pipe_desc :=
  PipeDesc (<[pos_write pd := v]> (pipe_buf pd)) (pos_read pd) ((pos_write pd + 1) mod PIPE_SIZE)%nat (gfd0 pd) (gfd1 pd)
    (wait_for_writer pd) (wait_for_reader pd).

(** [do { ret = pipe_read_byte(...); if (ret) pos++; } while (ret && pos < count)],
    [n] bytes to go, once the first call need not suspend. *)
Fixpoint read_loop (n : nat) (pd : pipe_desc) : pipe_desc * list Z :=
  match n with
  | O => (pd, [])
  | S n' =>
      if pipe_empty pd then (pd, [])
      else let '(pd, v) := take_byte pd in let '(pd, l) := read_loop n' pd in (pd, v :: l)
  end.

(** The [for] loop of [pipe_write], up to its end or a full pipe; the bytes left. *)
Fixpoint write_loop (l : list Z) (pd : pipe_desc) : pipe_desc * list Z :=
  match l with
  | [] => (pd, [])
  | v :: r => if pipe_full pd then (pd, v :: r) else write_loop r (put_byte pd v)
  end.

(** What a stretch ends in: the call returns the number of bytes transferred
    (with the bytes stored in the buffer), it sets [errno] to [EPIPE] and returns
    a value, or the thread releases the lock and waits. *)
Inductive read_res := RRet (r : Z) (bytes : list Z) | REpipe (r : Z) | RWait.
Inductive write_res := WRet (r : Z) | WEpipe (r : Z) | WWait (rest : list Z).

(** From the loop of [pipe_read_byte] on the first byte. *)
Definition read_body (pd : pipe_desc) (gfd count : Z) : pipe_desc * option Z * read_res :=
  if pipe_empty pd && negb (otherend pd gfd =? -1) then (pd, None, RWait)
  else
    let '(pd, l) := read_loop (Z.to_nat count) pd in
    let '(c, woken) := Completion.complete (wait_for_reader pd) in
    (with_reader c pd, woken, RRet (Z.of_nat (length l)) l).

Definition pipe_read (buffer : bool) (pd : pipe_desc) (gfd count : Z) : pipe_desc * option Z * read_res :=
  if negb buffer || (count <=? 0) then (pd, None, REpipe (-1))
  else if (otherend pd gfd =? -1) && pipe_empty pd then (pd, None, REpipe 0)
  else read_body pd gfd count.

(** Back from [wait_for_completion], with the lock held again. *)
Definition pipe_read_resume (pd : pipe_desc) (gfd count : Z) : pipe_desc * option Z * read_res :=
  if pipe_empty pd && (otherend pd gfd =? -1) then (pd, None, REpipe 0)
  else read_body pd gfd count.

(** [total] is the number of bytes of the whole call. *)
Definition write_body (pd : pipe_desc) (l : list Z) (total : Z) : pipe_desc * option Z * write_res :=
  let '(pd, rest) := write_loop l pd in
  match rest with
  | [] => let '(c, woken) := Completion.complete (wait_for_writer pd) in (with_writer c pd, woken, WRet total)
  | _ :: _ => (pd, None, WWait rest)
  end.

Definition pipe_write (buffer : bool) (pd : pipe_desc) (gfd : Z) (l : list Z) : pipe_desc * option Z * write_res :=
  if negb buffer || (Z.of_nat (length l) <=? 0) then (pd, None, WEpipe (-1))
  else if (otherend pd gfd =? -1) && pipe_full pd then (pd, None, WEpipe (-1))
  else write_body pd l (Z.of_nat (length l)).

Definition pipe_write_resume (pd : pipe_desc) (rest : list Z) (total : Z) : pipe_desc * option Z * write_res :=
  if pipe_full pd then (pd, None, WEpipe (-1)) else write_body pd rest total.

(** The descriptor afterwards, [None] when it is freed, and the thread woken. *)
Definition pipe_close (pd : pipe_desc) (gfd opflags : Z) : option pipe_desc * list Z :=
  let '(c, w1) := if opflags =? O_RDONLY then Completion.complete (wait_for_reader pd) else (wait_for_reader pd, None) in
  let pd := with_reader c pd in
  let '(c, w2) := if opflags =? O_WRONLY then Completion.complete (wait_for_writer pd) else (wait_for_writer pd, None) in
  let pd := with_writer c pd in
  let woken := option_list w1 ++ option_list w2 in
  if otherend pd gfd =? -1 then (None, woken)
  else
    (Some (if gfd0 pd =? gfd
           then PipeDesc (pipe_buf pd) (pos_read pd) (pos_write pd) (-1) (gfd1 pd) (wait_for_writer pd) (wait_for_reader pd)
           else PipeDesc (pipe_buf pd) (pos_read pd) (pos_write pd) (gfd0 pd) (-1) (wait_for_writer pd) (wait_for_reader pd)), woken).

(** [do_pipe]: [mem] are the outcomes of the allocations of the descriptor, the
    buffer and the two files; [buf] is what the fresh buffer held, [addr] the
    address of the descriptor, [ops] that of [pipe_fops].  The results of
    [vfs_open] are not checked. *)
Definition do_pipe (mem_pd mem_buf mem_fd0 mem_fd1 : bool) (buf : list Z) (addr ops : Z) : kern Vfs.vfs (Z * option (pipe_desc * Z * Z)) :=
  lift (bug_on (negb mem_pd));;
  if negb mem_buf then Vfs.set_errno ENOMEM;; mret (-1, None)
  else
    fd0 ← Vfs.vfs_open mem_fd0 true None (Some ops) Vfs.VFS_TYPE_PIPE;
    fd1 ← Vfs.vfs_open mem_fd1 true None (Some ops) Vfs.VFS_TYPE_PIPE;
    g0 ← Vfs.vfs_get_gfd fd0;
    g1 ← Vfs.vfs_get_gfd fd1;
    Vfs.vfs_set_access_mode g0 O_RDONLY;;
    Vfs.vfs_set_access_mode g1 O_WRONLY;;
    Vfs.vfs_set_priv g0 (Some addr);;
    Vfs.vfs_set_priv g1 (Some addr);;
    mret (0, Some (PipeDesc buf 0 0 g0 g1 Completion.init_completion Completion.init_completion, fd0, fd1)).

(** ** The ring buffer is a queue *)
Lemma PIPE_SIZE_val : Z.of_nat PIPE_SIZE = 4096.
Proof. unfold PIPE_SIZE. apply Z2Nat.id. lia. Qed.
#[global] Opaque PIPE_SIZE.

Lemma PIPE_SIZE_pos : (2 <= PIPE_SIZE)%nat.
Proof. pose proof PIPE_SIZE_val. lia. Qed.

Record wf (pd : pipe_desc) : Prop := {
  wf_buf : length (pipe_buf pd) = PIPE_SIZE;
  wf_read : (pos_read pd < PIPE_SIZE)%nat;
  wf_write : (pos_write pd < PIPE_SIZE)%nat
}.

(** The index [k] places after [p] in the ring. *)
Definition ring (p k : nat) : nat := if decide (p + k < PIPE_SIZE)%nat then (p + k)%nat else (p + k - PIPE_SIZE)%nat.
Definition used (pd : pipe_desc) : nat :=
  if decide (pos_read pd <= pos_write pd)%nat then (pos_write pd - pos_read pd)%nat
  else (pos_write pd + PIPE_SIZE - pos_read pd)%nat.
(** The bytes written and not yet read, oldest first. *)
Definition contents (pd : pipe_desc) : list Z :=
  (fun k => nth (ring (pos_read pd) k) (pipe_buf pd) 0) <$> seq 0 (used pd).

Lemma succ_ring p : (p < PIPE_SIZE)%nat -> ((p + 1) mod PIPE_SIZE)%nat = ring p 1.
Proof.
  intros Hp. unfold ring. destruct (decide _); [by apply Nat.mod_small|].
  replace (p + 1)%nat with PIPE_SIZE by lia. rewrite Nat.Div0.mod_same. lia.
Qed.

Lemma contents_length pd : length (contents pd) = used pd.
Proof. unfold contents. by rewrite length_fmap, length_seq. Qed.

Lemma contents_lookup pd k :
  (k < used pd)%nat -> contents pd !! k = Some (nth (ring (pos_read pd) k) (pipe_buf pd) 0).
Proof. intros Hk. unfold contents. rewrite list_lookup_fmap, lookup_seq_lt by done. done. Qed.

Lemma contents_eq pd l :
  length l = used pd -> (forall k, (k < used pd)%nat -> l !! k = Some (nth (ring (pos_read pd) k) (pipe_buf pd) 0)) ->
  contents pd = l.
Proof.
  intros Hl Hk. apply list_eq. intros k. destruct (decide (k < used pd)%nat) as [H|H].
  - by rewrite contents_lookup, Hk.
  - rewrite !lookup_ge_None_2; [done|lia|rewrite contents_length; lia].
Qed.

Lemma contents_empty pd : pos_write pd = pos_read pd -> contents pd = [].
Proof. intros E. unfold contents, used. rewrite E, decide_True by lia. by rewrite Nat.sub_diag. Qed.

Lemma empty_used pd : wf pd -> pipe_empty pd = bool_decide (used pd = 0%nat).
Proof.
  intros [Hb Hr Hw]. unfold pipe_empty, used. apply bool_decide_ext. destruct (decide _); lia.
Qed.

Lemma full_used pd : wf pd -> pipe_full pd = bool_decide (used pd = PIPE_SIZE - 1)%nat.
Proof.
  intros [Hb Hr Hw]. unfold pipe_full, used. rewrite succ_ring by done. unfold ring. apply bool_decide_ext.
  pose proof PIPE_SIZE_pos. repeat destruct (decide _); lia.
Qed.

Lemma used_bound pd : wf pd -> (used pd < PIPE_SIZE)%nat.
Proof. intros [Hb Hr Hw]. unfold used. destruct (decide _); lia. Qed.

Lemma take_byte_pos pd : wf pd -> pos_read (take_byte pd).1 = ring (pos_read pd) 1.
Proof. intros [? ? ?]. by apply succ_ring. Qed.

Lemma take_byte_used pd : wf pd -> used pd <> 0%nat -> used pd = S (used (take_byte pd).1).
Proof.
  intros Hwf He. pose proof (take_byte_pos pd Hwf) as Hr'. pose proof Hwf as [Hb Hr Hw]. pose proof PIPE_SIZE_pos as Hn.
  unfold used in *. rewrite Hr'. change (pos_write (take_byte pd).1) with (pos_write pd). unfold ring in *.
  repeat destruct (decide _); lia.
Qed.

Lemma take_byte_wf pd : wf pd -> wf (take_byte pd).1.
Proof.
  intros Hwf. pose proof (take_byte_pos pd Hwf) as Hr'. pose proof Hwf as [Hb Hr Hw]. split; [done| |done].
  rewrite Hr'. unfold ring. destruct (decide _); lia.
Qed.

Lemma ring_succ pd k : wf pd -> (S k < used pd)%nat -> ring (ring (pos_read pd) 1) k = ring (pos_read pd) (S k).
Proof.
  intros Hwf Hk. pose proof Hwf as [Hb Hr Hw]. pose proof (used_bound _ Hwf). unfold ring. repeat destruct (decide _); lia.
Qed.

Lemma ring_zero pd : wf pd -> ring (pos_read pd) 0 = pos_read pd.
Proof. intros [Hb Hr Hw]. unfold ring. destruct (decide _); lia. Qed.

Lemma take_byte_spec pd :
  wf pd -> pipe_empty pd = false ->
  wf (take_byte pd).1 /\ contents pd = (take_byte pd).2 :: contents (take_byte pd).1.
Proof.
  intros Hwf He. rewrite empty_used in He by done. apply bool_decide_eq_false_1 in He.
  split; [by apply take_byte_wf|]. pose proof (take_byte_used pd Hwf He) as Hu.
  apply contents_eq; [cbn [length]; rewrite contents_length; done|]. intros [|k] Hk.
  - rewrite ring_zero by done. reflexivity.
  - rewrite lookup_cons. cbn iota. rewrite contents_lookup by lia.
    rewrite take_byte_pos, ring_succ by done. reflexivity.
Qed.

Lemma put_byte_spec pd v :
  wf pd -> pipe_full pd = false ->
  wf (put_byte pd v) /\ contents (put_byte pd v) = contents pd ++ [v].
Proof.
  intros Hwf Hf. rewrite full_used in Hf by done. apply bool_decide_eq_false_1 in Hf. pose proof Hwf as [Hb Hr Hw].
  pose proof PIPE_SIZE_pos as Hn. set (pd' := put_byte pd v).
  assert (Hw' : pos_write pd' = ring (pos_write pd) 1) by (by apply succ_ring).
  assert (Hu : used pd' = S (used pd)).
  { unfold used in *. rewrite Hw'. change (pos_read pd') with (pos_read pd). unfold ring in *. repeat destruct (decide _); lia. }
  split.
  - split; [simpl; by rewrite length_insert|done|]. rewrite Hw'. unfold ring. destruct (decide _); lia.
  - assert (Hlast : ring (pos_read pd) (used pd) = pos_write pd).
    { unfold ring, used in *. repeat destruct (decide _); lia. }
    apply contents_eq; [rewrite length_app, contents_length; simpl; lia|]. intros k Hk.
    change (pos_read pd') with (pos_read pd). change (pipe_buf pd') with (<[pos_write pd := v]> (pipe_buf pd)).
    destruct (decide (k = used pd)) as [->|Hne].
    + rewrite list_lookup_middle by (by rewrite contents_length). f_equal. rewrite Hlast.
      symmetry. apply nth_lookup_Some. apply list_lookup_insert_eq. by rewrite Hb.
    + rewrite lookup_app_l by (rewrite contents_length; lia). rewrite contents_lookup by lia. f_equal.
      rewrite !nth_lookup, list_lookup_insert_ne; [done|]. rewrite <- Hlast. pose proof (used_bound _ Hwf).
      unfold ring. repeat destruct (decide _); lia.
Qed.

(** The parts of a descriptor that reading and writing bytes leave alone. *)
Definition same_ends (pd pd' : pipe_desc) : Prop :=
  gfd0 pd' = gfd0 pd /\ gfd1 pd' = gfd1 pd /\
  wait_for_writer pd' = wait_for_writer pd /\ wait_for_reader pd' = wait_for_reader pd.

Lemma read_loop_spec n pd :
  wf pd ->
  let '(pd', l) := read_loop n pd in
  wf pd' /\ l = take n (contents pd) /\ contents pd' = drop n (contents pd) /\ same_ends pd pd'.
Proof.
  revert pd. induction n as [|n IH]; intros pd Hwf; cbn [read_loop].
  - split_and!; [done|by rewrite take_0|by rewrite drop_0|done].
  - destruct (pipe_empty pd) eqn:E.
    + rewrite empty_used in E by done. apply bool_decide_eq_true_1 in E. rewrite <- contents_length in E.
      apply nil_length_inv in E as ->. by split_and!.
    + destruct (take_byte_spec pd Hwf E) as [Hwf' Hc]. destruct (take_byte pd) as [pd1 v] eqn:Et. simpl in Hwf', Hc.
      specialize (IH pd1 Hwf'). destruct (read_loop n pd1) as [pd' l]. destruct IH as (H1 & H2 & H3 & H4).
      rewrite Hc. cbn [take drop]. split_and!; [done|by f_equal|done|]. unfold take_byte in Et. injection Et as <- <-. exact H4.
Qed.

Definition room (pd : pipe_desc) : nat := (PIPE_SIZE - 1 - length (contents pd))%nat.

Lemma write_loop_spec l pd :
  wf pd ->
  let '(pd', rest) := write_loop l pd in
  wf pd' /\ rest = drop (room pd) l /\ contents pd' = contents pd ++ take (room pd) l /\ same_ends pd pd'.
Proof.
  revert pd. induction l as [|v l IH]; intros pd Hwf; cbn [write_loop].
  - split_and!; [done|by rewrite drop_nil|by rewrite take_nil, app_nil_r|done].
  - pose proof (used_bound pd Hwf) as Hb. rewrite <- contents_length in Hb.
    destruct (pipe_full pd) eqn:E.
    + rewrite full_used in E by done. apply bool_decide_eq_true_1 in E. rewrite <- contents_length in E.
      assert (Hr : room pd = 0%nat) by (unfold room; lia). rewrite Hr, drop_0, take_0, app_nil_r. by split_and!.
    + pose proof E as E'. rewrite full_used in E' by done. apply bool_decide_eq_false_1 in E'. rewrite <- contents_length in E'.
      destruct (put_byte_spec pd v Hwf E) as [Hwf' Hc]. specialize (IH _ Hwf').
      assert (Hr : room pd = S (room (put_byte pd v))) by (unfold room; rewrite Hc, length_app; simpl; lia).
      destruct (write_loop l (put_byte pd v)) as [pd' rest]. destruct IH as (H1 & H2 & H3 & H4).
      rewrite Hr. cbn [take drop]. split_and!; [done|done|by rewrite H3, Hc, <- app_assoc|exact H4].
Qed.

Lemma empty_contents pd : wf pd -> pipe_empty pd = bool_decide (contents pd = []).
Proof.
  intros Hwf. rewrite empty_used by done. apply bool_decide_ext. rewrite <- contents_length.
  split; [apply nil_length_inv|by intros ->].
Qed.

(** C30: a pipe is a bounded queue.  On a well-formed descriptor a read of [n]
    bytes takes the first [n] bytes (or as many as there are) off the queue,
    waits on an empty queue whose other end is open and returns 0 when it is
    closed; a write appends as many bytes as there is room for, up to
    [PIPE_SIZE - 1] in all, returns the length when all fit and waits with the
    others otherwise; requests of no bytes fail. *)
Theorem pipe_refines_queue pd gfd n l :
  wf pd -> 0 < n -> l <> [] ->
  (let '(pd', _, res) := pipe_read true pd gfd n in
   wf pd' /\
   if decide (contents pd = []) then pd' = pd /\ res = (if otherend pd gfd =? -1 then REpipe 0 else RWait)
   else res = RRet (Z.of_nat (length (take (Z.to_nat n) (contents pd)))) (take (Z.to_nat n) (contents pd)) /\
        contents pd' = drop (Z.to_nat n) (contents pd)) /\
  (let '(pd', _, res) := pipe_write true pd gfd l in
   wf pd' /\
   if decide (otherend pd gfd = -1 /\ room pd = 0%nat) then pd' = pd /\ res = WEpipe (-1)
   else contents pd' = contents pd ++ take (room pd) l /\
        res = (if decide (drop (room pd) l = []) then WRet (Z.of_nat (length l)) else WWait (drop (room pd) l))) /\
  pipe_read true pd gfd 0 = (pd, None, REpipe (-1)) /\ pipe_write true pd gfd [] = (pd, None, WEpipe (-1)).
Proof.
  intros Hwf Hn Hl. split_and!; [| |done|done].
  - unfold pipe_read, read_body. rewrite (proj2 (Z.leb_gt n 0)) by lia. cbn [negb orb].
    rewrite !empty_contents by done. destruct (decide (contents pd = [])) as [E|E].
    + rewrite bool_decide_eq_true_2 by done. by destruct (otherend pd gfd =? -1).
    + rewrite bool_decide_eq_false_2 by done. rewrite andb_false_r. cbn [andb].
      pose proof (read_loop_spec (Z.to_nat n) pd Hwf) as H. destruct (read_loop (Z.to_nat n) pd) as [pd1 bs].
      destruct H as ([H1 H2 H3] & -> & H4 & _). destruct (Completion.complete _). by split.
  - unfold pipe_write, write_body. assert (Hlen : (Z.of_nat (length l) <=? 0) = false) by (destruct l; simpl; [done|lia]).
    rewrite Hlen. cbn [negb orb]. pose proof (used_bound pd Hwf) as Hb. rewrite <- contents_length in Hb.
    assert (Hf : pipe_full pd = bool_decide (room pd = 0%nat)).
    { rewrite full_used by done. apply bool_decide_ext. rewrite <- contents_length. unfold room. lia. }
    rewrite Hf. destruct (decide (otherend pd gfd = -1 /\ room pd = 0%nat)) as [[E1 E2]|E].
    { rewrite (proj2 (Z.eqb_eq _ _)) by done. by rewrite bool_decide_eq_true_2. }
    assert (Eb : (otherend pd gfd =? -1) && bool_decide (room pd = 0%nat) = false).
    { apply andb_false_iff. rewrite Z.eqb_neq, bool_decide_eq_false. destruct (decide (otherend pd gfd = -1)); tauto. }
    rewrite Eb. pose proof (write_loop_spec l pd Hwf) as H. destruct (write_loop l pd) as [pd1 rest].
    destruct H as ([H1 H2 H3] & -> & H4 & _). destruct (drop (room pd) l) as [|v r] eqn:Ed.
    + destruct (Completion.complete _). rewrite decide_True by done. by split.
    + by rewrite decide_False.
Qed.

(** ** Threads around one pipe *)
(** Between two stretches a thread in [pipe_read] or [pipe_write] is about to
    call [wait_for_completion], asleep in it, woken, or about to take the lock
    again. *)
Inductive phase := PEntering | PAsleep | PWoken | PRetrying.
Inductive task := Reading (n : Z) | Writing (rest : list Z) (total : Z).

(** [sent] and [got] are the bytes that entered and left the pipe, in order. *)
Record psys := PSys { desc : pipe_desc; tasks : gmap Z (phase * task); sent : list Z; got : list Z }.
Inductive event := ERead (t n : Z) | EWrite (t : Z) (l : list Z) | EWait (t : Z) | ECheck (t : Z) | ERetry (t : Z).

Definition wake (w : option Z) (m : gmap Z (phase * task)) : gmap Z (phase * task) :=
  match w with
  | Some t => match m !! t with Some (PAsleep, k) => <[t := (PWoken, k)]> m | _ => m end
  | None => m
  end.

Definition after_read (s : psys) (t n : Z) (r : pipe_desc * option Z * read_res) : psys :=
  let '(pd, w, res) := r in
  match res with
  | RRet _ bytes => PSys pd (wake w (delete t (tasks s))) (sent s) (got s ++ bytes)
  | REpipe _ => PSys pd (wake w (delete t (tasks s))) (sent s) (got s)
  | RWait => PSys pd (wake w (<[t := (PEntering, Reading n)]> (tasks s))) (sent s) (got s)
  end.
(** [l] are the bytes the stretch had to write. *)
Definition after_write (s : psys) (t : Z) (l : list Z) (total : Z) (r : pipe_desc * option Z * write_res) : psys :=
  let '(pd, w, res) := r in
  match res with
  | WRet _ => PSys pd (wake w (delete t (tasks s))) (sent s ++ l) (got s)
  | WEpipe _ => PSys pd (wake w (delete t (tasks s))) (sent s) (got s)
  | WWait rest => PSys pd (wake w (<[t := (PEntering, Writing rest total)]> (tasks s)))
                    (sent s ++ take (length l - length rest) l) (got s)
  end.

(** The completion a task waits on. *)
Definition waited (pd : pipe_desc) (k : task) : Completion.completion :=
  match k with Reading _ => wait_for_writer pd | Writing _ _ => wait_for_reader pd end.
Definition with_waited (c : Completion.completion) (k : task) (pd : pipe_desc) : pipe_desc :=
  match k with Reading _ => with_writer c pd | Writing _ _ => with_reader c pd end.

Section system.
(** The two ends. *)
Context (gr gw : Z).

Definition step (s : psys) (e : event) : option psys :=
  match e with
  | ERead t n =>
      match tasks s !! t with
      | None => Some (after_read s t n (pipe_read true (desc s) gr n))
      | Some _ => None
      end
  | EWrite t l =>
      match tasks s !! t with
      | None => Some (after_write s t l (Z.of_nat (length l)) (pipe_write true (desc s) gw l))
      | Some _ => None
      end
  | EWait t =>
      match tasks s !! t with
      | Some (PEntering, k) =>
          let '(c, passed) := Completion.wait_for_completion (waited (desc s) k) t in
          Some (PSys (with_waited c k (desc s)) (<[t := (if passed : bool then PRetrying else PAsleep, k)]> (tasks s)) (sent s) (got s))
      | _ => None
      end
  | ECheck t =>
      match tasks s !! t with
      | Some (PWoken, k) =>
          let '(c, passed) := Completion.wait_resume (waited (desc s) k) in
          Some (PSys (with_waited c k (desc s)) (<[t := (if passed : bool then PRetrying else PAsleep, k)]> (tasks s)) (sent s) (got s))
      | _ => None
      end
  | ERetry t =>
      match tasks s !! t with
      | Some (PRetrying, Reading n) => Some (after_read s t n (pipe_read_resume (desc s) gr n))
      | Some (PRetrying, Writing rest total) => Some (after_write s t rest total (pipe_write_resume (desc s) rest total))
      | _ => None
      end
  end.

Fixpoint run (s : psys) (es : list event) : option psys :=
  match es with [] => Some s | e :: r => s' ← step s e; run s' r end.

Definition start (buf : list Z) : psys :=
  PSys (PipeDesc buf 0 0 gr gw Completion.init_completion Completion.init_completion) ∅ [] [].

(** *** Nothing is lost, duplicated or reordered *)
Record fifo (s : psys) : Prop := {
  ff_wf : wf (desc s);
  ff_bytes : sent s = got s ++ contents (desc s)
}.

Lemma contents_ext pd pd' :
  pipe_buf pd' = pipe_buf pd -> pos_read pd' = pos_read pd -> pos_write pd' = pos_write pd ->
  contents pd' = contents pd /\ (wf pd -> wf pd').
Proof.
  intros E1 E2 E3. split; [unfold contents, used; by rewrite E1, E2, E3|]. intros [? ? ?]. split; congruence.
Qed.

Lemma read_body_fifo s t n : fifo s -> fifo (after_read s t n (read_body (desc s) gr n)).
Proof.
  intros [Hwf Hb]. unfold read_body. destruct (_ && _); [by split|].
  pose proof (read_loop_spec (Z.to_nat n) (desc s) Hwf) as H. destruct (read_loop _ _) as [pd bs].
  destruct H as (H1 & -> & H2 & _). destruct (Completion.complete (wait_for_reader pd)) as [c w].
  destruct (contents_ext pd (with_reader c pd) eq_refl eq_refl eq_refl) as [Hc Hw].
  split; simpl; [by apply Hw|]. by rewrite Hc, H2, Hb, <- app_assoc, take_drop.
Qed.

Lemma write_body_fifo s t l total : fifo s -> fifo (after_write s t l total (write_body (desc s) l total)).
Proof.
  intros [Hwf Hb]. unfold write_body. pose proof (write_loop_spec l (desc s) Hwf) as H.
  destruct (write_loop l (desc s)) as [pd rest]. destruct H as (H1 & -> & H2 & _).
  destruct (drop (room (desc s)) l) as [|v r] eqn:Ed.
  - assert (Hall : take (room (desc s)) l = l) by (rewrite <- (take_drop (room (desc s)) l) at 2; by rewrite Ed, app_nil_r).
    destruct (Completion.complete (wait_for_writer pd)) as [c w].
    destruct (contents_ext pd (with_writer c pd) eq_refl eq_refl eq_refl) as [Hc Hw].
    split; simpl; [by apply Hw|]. by rewrite Hc, H2, Hb, Hall, app_assoc.
  - assert (Htake : take (length l - length (v :: r)) l = take (room (desc s)) l).
    { rewrite <- Ed, length_drop. assert (room (desc s) <= length l)%nat; [|f_equal; lia].
      apply (f_equal length) in Ed. rewrite length_drop in Ed. simpl in Ed. lia. }
    split; [done|]. unfold after_write. cbn [desc sent got]. by rewrite Htake, H2, Hb, app_assoc.
Qed.

Lemma waited_fifo s t k ph c : fifo s -> fifo (PSys (with_waited c k (desc s)) (<[t := (ph, k)]> (tasks s)) (sent s) (got s)).
Proof.
  intros [Hwf Hb]. destruct (contents_ext (desc s) (with_waited c k (desc s))) as [Hc Hw]; [by destruct k..|].
  split; simpl; [by apply Hw|by rewrite Hc].
Qed.

Lemma step_fifo s e s' : fifo s -> step s e = Some s' -> fifo s'.
Proof.
  intros Hf. pose proof Hf as [Hwf Hb]. destruct e as [t n|t l|t|t|t]; simpl;
    destruct (tasks s !! t) as [[ph k]|] eqn:E; try done.
  - intros Hs. apply Some_inj in Hs as <-. unfold pipe_read. destruct (_ || _); [by split|].
    destruct (_ && _); [by split|by apply read_body_fifo].
  - intros Hs. apply Some_inj in Hs as <-. unfold pipe_write. destruct (_ || _); [by split|].
    destruct (_ && _); [by split|by apply write_body_fifo].
  - destruct ph; try done. destruct (Completion.wait_for_completion _ t) as [c b]. intros Hs. apply Some_inj in Hs as <-.
    by apply waited_fifo.
  - destruct ph; try done. destruct (Completion.wait_resume _) as [c b]. intros Hs. apply Some_inj in Hs as <-. by apply waited_fifo.
  - destruct ph; try done. destruct k as [n|rest total]; intros Hs; apply Some_inj in Hs as <-.
    + unfold pipe_read_resume. destruct (_ && _); [by split|by apply read_body_fifo].
    + unfold pipe_write_resume. destruct (pipe_full _); [by split|]. by apply write_body_fifo.
Qed.

(** C31: in every interleaving of any number of readers and writers, the bytes that
    left the pipe followed by those it holds are exactly the bytes that entered
    it, in order; the pipe never holds more than [PIPE_SIZE - 1] bytes. *)
Theorem pipe_fifo buf es s :
  length buf = PIPE_SIZE -> run (start buf) es = Some s ->
  sent s = got s ++ contents (desc s) /\ (length (contents (desc s)) < PIPE_SIZE)%nat.
Proof.
  intros Hl Hr. assert (Hf : fifo s); [|destruct Hf as [Hwf Hb]; split; [done|]; rewrite contents_length; by apply used_bound].
  pose proof PIPE_SIZE_pos. assert (H0 : fifo (start buf)).
  { split; [split; simpl; (done || lia)|]. by rewrite contents_empty. }
  revert H0 Hr. generalize (start buf) as s0. induction es as [|e es IH]; intros s0 H0; simpl; [by intros [= <-]|].
  destruct (step s0 e) as [s1|] eqn:E; [|done]. apply IH. by eapply step_fifo.
Qed.

Lemma run_app s es1 es2 : run s (es1 ++ es2) = (s' ← run s es1; run s' es2).
Proof. revert s. induction es1 as [|e es1 IH]; intros s; [done|]. cbn. destruct (step s e); [apply IH|done]. Qed.

(** A write longer than an empty pipe leaves it full, with bytes to go. *)
Lemma full_write l pd :
  wf pd -> contents pd = [] -> (PIPE_SIZE <= length l)%nat ->
  exists pd' v r, write_loop l pd = (pd', v :: r) /\ pipe_full pd' = true /\ same_ends pd pd'.
Proof.
  intros Hwf Hc Hl. pose proof PIPE_SIZE_pos. pose proof (write_loop_spec l pd Hwf) as Hw. unfold room in Hw. rewrite Hc in Hw.
  change (length []) with 0%nat in Hw. rewrite Nat.sub_0_r in Hw.
  destruct (write_loop l pd) as [pd' rest]. destruct Hw as (Hwf2 & Hrest & Hc2 & He).
  destruct rest as [|v r]; [apply (f_equal length) in Hrest; rewrite length_drop in Hrest; simpl in Hrest; lia|].
  exists pd', v, r. split; [done|]. split; [|done].
  rewrite full_used by done. apply bool_decide_eq_true_2. rewrite <- contents_length, Hc2. cbn [app]. rewrite length_take. lia.
Qed.

(** A reader that finds the pipe empty goes to sleep. *)
Lemma read_sleeps buf n :
  0 < n -> gw <> -1 ->
  run (start buf) [ERead 1 n; EWait 1] =
    Some (PSys (with_writer (Completion.MkCompletion 0 [1]) (desc (start buf))) (<[1 := (PAsleep, Reading n)]> ∅) [] []).
Proof.
  intros Hn Hgw. cbn [run]. assert (E : step (start buf) (ERead 1 n) = Some (PSys (desc (start buf)) (<[1 := (PEntering, Reading n)]> ∅) [] [])).
  { cbn [step]. change (tasks (start buf) !! 1) with (@None (phase * task)). unfold pipe_read, read_body.
    rewrite (proj2 (Z.leb_gt n 0)) by lia. cbn [negb orb]. assert (Eo : (otherend (desc (start buf)) gr =? -1) = false).
    { unfold otherend. cbn [gfd0 gfd1 desc start]. rewrite Z.eqb_refl. by apply Z.eqb_neq. }
    rewrite Eo. done. }
  rewrite E. cbn [mbind option_bind step tasks]. rewrite lookup_insert_eq. cbn. by rewrite insert_insert_eq.
Qed.

(** a reader waiting on an empty pipe and a writer of [PIPE_SIZE] bytes or more
    block each other for good: the writer fills the pipe and waits for the
    reader before it signals that there is data, so both are asleep with the
    pipe full, and neither can take a step. *)
Theorem pipe_long_write_deadlocks buf n l :
  length buf = PIPE_SIZE -> 0 < n -> (PIPE_SIZE <= length l)%nat -> gr <> gw -> gr <> -1 -> gw <> -1 ->
  exists s, run (start buf) [ERead 1 n; EWait 1; EWrite 2 l; EWait 2] = Some s /\
    pipe_full (desc s) = true /\
    forall e s', step s e = Some s' -> match e with ERead t _ | EWrite t _ | EWait t | ECheck t | ERetry t => t <> 1 /\ t <> 2 end.
Proof.
  intros Hl Hn Hll Hne Hgr Hgw. pose proof PIPE_SIZE_pos as HN.
  set (pd0 := PipeDesc buf 0 0 gr gw Completion.init_completion Completion.init_completion).
  set (pd1 := with_writer (Completion.MkCompletion 0 [1]) pd0). set (total := Z.of_nat (length l)).
  assert (Hwf : wf pd1) by (split; simpl; (done || lia)).
  assert (Hc : contents pd1 = []) by (by apply contents_empty).
  destruct (full_write l pd1 Hwf Hc Hll) as (pd2 & v & r & Ew & Hf2 & He).
  set (m1 := <[1 := (PAsleep, Reading n)]> ∅ : gmap Z (phase * task)).
  set (s1 := PSys pd1 m1 [] []).
  assert (E1 : run (start buf) [ERead 1 n; EWait 1] = Some s1) by (by apply read_sleeps).
  set (s2 := PSys pd2 (<[2 := (PEntering, Writing (v :: r) total)]> m1) (take (length l - length (v :: r)) l) []).
  assert (E2 : step s1 (EWrite 2 l) = Some s2).
  { assert (Hm : tasks s1 !! 2 = None) by (unfold s1, m1; cbn [tasks]; by rewrite lookup_insert_ne).
    cbn [step]. rewrite Hm. change (desc s1) with pd1. unfold pipe_write, write_body.
    rewrite (proj2 (Z.leb_gt (Z.of_nat (length l)) 0)) by lia. cbn [negb orb].
    assert (Eo : (otherend pd1 gw =? -1) = false).
    { unfold otherend. cbn [gfd0 gfd1 pd1 with_writer pd0]. rewrite (proj2 (Z.eqb_neq gr gw)) by done. by apply Z.eqb_neq. }
    rewrite Eo. cbn [andb]. rewrite Ew. done. }
  set (s3 := PSys (with_reader (Completion.MkCompletion 0 [2]) pd2) (<[2 := (PAsleep, Writing (v :: r) total)]> m1) (sent s2) []).
  assert (E3 : step s2 (EWait 2) = Some s3).
  { assert (Hm : tasks s2 !! 2 = Some (PEntering, Writing (v :: r) total)) by apply lookup_insert_eq.
    cbn [step]. rewrite Hm. change (desc s2) with pd2. cbn [waited with_waited]. destruct He as (_ & _ & _ & ->).
    cbn. by rewrite insert_insert_eq. }
  exists s3. split.
  { change [ERead 1 n; EWait 1; EWrite 2 l; EWait 2] with ([ERead 1 n; EWait 1] ++ [EWrite 2 l; EWait 2]).
    rewrite run_app, E1. cbn [mbind option_bind run]. rewrite E2. cbn [mbind option_bind]. by rewrite E3. }
  split; [done|]. assert (H1 : tasks s3 !! 1 = Some (PAsleep, Reading n)) by (change (tasks s3 !! 1) with (<[2 := (PAsleep, Writing (v :: r) total)]> m1 !! 1); rewrite lookup_insert_ne by done; apply lookup_insert_eq).
  assert (H2 : tasks s3 !! 2 = Some (PAsleep, Writing (v :: r) total)) by apply lookup_insert_eq.
  intros e s' He'. destruct e as [t k|t k|t|t|t]; (split; intros ->; revert He'; cbn [step]; (rewrite H1 || rewrite H2); done).
Qed.
End system.


(** ** Creating and closing a pipe *)
Import Vfs.

(** Changing an entry apart from its reference count and its operations. *)
Lemma ok_touched s g x f :
  vfs_ok s -> opened s g x -> ref_count (f x) = ref_count x -> fops (f x) = fops x ->
  vfs_ok (with_open <[Z.to_nat g := Some (f x)]> s).
Proof.
  intros Hok [Hg Hx] Hr Hf. pose proof (lookup_lt_Some _ _ _ Hx) as Hlt. destruct Hok as [A1 A2 A3 A4 A5 A6]. split; try done.
  - simpl. by rewrite length_insert.
  - intros p a h Hp Hh. destruct (A3 p a h Hp Hh) as [->|[H0 [y Hy]]]; [by left|]. right. split; [done|]. simpl.
    destruct (decide (Z.to_nat h = Z.to_nat g)) as [E|E]; [rewrite E, list_lookup_insert_eq by done; eauto|].
    rewrite list_lookup_insert_ne by done. eauto.
  - intros n y. simpl. destruct (decide (n = Z.to_nat g)) as [->|E].
    + rewrite list_lookup_insert_eq by done. intros [= <-]. rewrite Hr, Hf. by apply A4.
    + rewrite list_lookup_insert_ne by done. apply A4.
Qed.

(** The two ways [do_pipe] touches an entry. *)
Lemma set_access_ok s g x v :
  vfs_ok s -> opened s g x ->
  vfs_set_access_mode g v s = Ret (tt, with_open <[Z.to_nat g := Some (set_flags_access v x)]> s).
Proof.
  intros Hok Hx. unfold vfs_set_access_mode. kstep.
  erewrite kbind_ret by (apply (vfs_upd_fd (locked s) _ x); [apply Hok|exact Hx]). cbn beta.
  apply (vfs_unlock_locked (with_open <[Z.to_nat g := Some (set_flags_access v x)]> s)), Hok.
Qed.

Lemma set_priv_ok s g x v :
  vfs_ok s -> opened s g x ->
  vfs_set_priv g v s = Ret (tt, with_open <[Z.to_nat g := Some (set_fd_priv v x)]> s).
Proof. intros Hok Hx. apply vfs_upd_fd; [apply Hok|done]. Qed.

Lemma opened_same s g x y : opened s g x -> opened (with_open <[Z.to_nat g := Some y]> s) g y.
Proof. intros [Hg Hx]. split; [done|]. simpl. apply list_lookup_insert_eq. eauto using lookup_lt_Some. Qed.

Lemma opened_other s g h x o : h <> g -> 0 <= g -> opened s h x -> opened (with_open <[Z.to_nat g := o]> s) h x.
Proof. intros Hne Hg [Hh Hx]. split; [done|]. simpl. rewrite list_lookup_insert_ne by lia. done. Qed.

Lemma local_touched s p a i g h o : local s p a i g -> local (with_open <[h := o]> s) p a i g.
Proof. done. Qed.

(** A successful [vfs_open], with what it gives. *)
Lemma vfs_open_free s p a name o type :
  vfs_ok s -> current_pcb s = Some p -> fd_arrays s !! p = Some a -> ~ exhausted s a true ->
  exists r n s', vfs_open true true name (Some o) type s = Ret (r, s') /\ vfs_ok s' /\
    local s p a r (-1) /\ open_fds s !! Z.to_nat n = Some None /\ local s' p (<[Z.to_nat r := n]> a) r n /\
    fd_arrays s' = <[p := <[Z.to_nat r := n]> a]> (fd_arrays s) /\
    opened s' n (new_fd name o type) /\ open_fds s' = <[Z.to_nat n := Some (new_fd name o type)]> (open_fds s).
Proof.
  intros Hok Hc Hp Hne. destruct (vfs_open_spec s p a true name o type Hok Hc Hp) as (r & s' & E & Hcase).
  destruct Hcase as [(_ & _ & Hex)|(Hl & n & Hn & Hnone & ->)]; [done|]. exists r, n. eexists.
  pose proof Hl as (_ & _ & Hr & Hra). split; [exact E|]. split; [by eapply ok_opening|].
  pose proof (relinked_local s p a r n n (Some (new_fd name o type)) Hp) as Ha.
  split; [done|]. split; [done|]. split; [|split; [exact Ha|]].
  - unfold local. rewrite Ha, lookup_insert_eq. split_and!; [done|done|done|].
    apply list_lookup_insert_eq. eauto using lookup_lt_Some.
  - split; [|done]. split; [done|]. simpl. apply list_lookup_insert_eq. eauto using lookup_lt_Some.
Qed.

Section creation.
Context (s : vfs) (p : Z) (a : list Z) (buf : list Z) (addr ops : Z).
Context (Hok : vfs_ok s) (Hc : current_pcb s = Some p) (Hp : fd_arrays s !! p = Some a).

(** What one end of a new pipe looks like: local descriptor [i] refers to the
    file [g], which nothing else refers to. *)
Definition pipe_end (s : vfs) (i g mode : Z) : Prop :=
  vfs_get_gfd i s = Ret (g, s) /\
  exists x, opened s g x /\ ref_count x = 1 /\ fops x = Some ops /\ ftype x = VFS_TYPE_PIPE /\
    flags_access_mode x = mode /\ priv x = Some addr.

Lemma do_pipe_tail {A} (k : kern vfs A) s2 b r w g0 g1 x0 x1 :
  vfs_ok s2 -> g0 <> g1 -> local s2 p b r g0 -> local s2 p b w g1 ->
  opened s2 g0 x0 -> opened s2 g1 x1 -> ref_count x0 = 1 /\ fops x0 = Some ops /\ ftype x0 = VFS_TYPE_PIPE ->
  ref_count x1 = 1 /\ fops x1 = Some ops /\ ftype x1 = VFS_TYPE_PIPE ->
  exists s', (vfs_set_access_mode g0 O_RDONLY;; vfs_set_access_mode g1 O_WRONLY;;
     vfs_set_priv g0 (Some addr);; vfs_set_priv g1 (Some addr);; k) s2 = k s' /\
    vfs_ok s' /\ fd_arrays s' = fd_arrays s2 /\ pipe_end s' r g0 O_RDONLY /\ pipe_end s' w g1 O_WRONLY.
Proof.
  intros Hok2 Hne Hr Hw Hx0 Hx1 Hy0 Hy1. pose proof (proj1 Hx0) as Hg0. pose proof (proj1 Hx1) as Hg1.
  erewrite kbind_ret by (by apply set_access_ok). cbn beta. set (t1 := with_open _ s2).
  assert (O1 : vfs_ok t1) by (by apply ok_touched). assert (P1 : opened t1 g1 x1) by (by apply opened_other).
  assert (P0 : opened t1 g0 (set_flags_access O_RDONLY x0)) by (by eapply opened_same).
  erewrite kbind_ret by (by apply set_access_ok). cbn beta. set (t2 := with_open _ t1).
  assert (O2 : vfs_ok t2) by (by apply ok_touched). assert (Q1 : opened t2 g1 (set_flags_access O_WRONLY x1)) by (by eapply opened_same).
  assert (Q0 : opened t2 g0 (set_flags_access O_RDONLY x0)) by (by apply opened_other).
  erewrite kbind_ret by (by apply set_priv_ok). cbn beta. set (t3 := with_open _ t2).
  assert (O3 : vfs_ok t3) by (by apply ok_touched). assert (R1 : opened t3 g1 (set_flags_access O_WRONLY x1)) by (by apply opened_other).
  assert (R0 : opened t3 g0 (set_fd_priv (Some addr) (set_flags_access O_RDONLY x0))) by (by eapply opened_same).
  erewrite kbind_ret by (by apply set_priv_ok). cbn beta. set (t4 := with_open _ t3). exists t4.
  assert (O4 : vfs_ok t4) by (by apply ok_touched).
  assert (S1 : opened t4 g1 (set_fd_priv (Some addr) (set_flags_access O_WRONLY x1))) by (by eapply opened_same).
  assert (S0 : opened t4 g0 (set_fd_priv (Some addr) (set_flags_access O_RDONLY x0))) by (by apply opened_other).
  split; [done|]. split; [done|]. split; [done|]. split.
  - split; [by eapply vfs_get_gfd_ok|]. eexists. split; [exact S0|]. simpl. tauto.
  - split; [by eapply vfs_get_gfd_ok|]. eexists. split; [exact S1|]. simpl. tauto.
Qed.

(** with two free local and two free global descriptors, [do_pipe] returns an
    empty pipe of full capacity between two new, distinct descriptors of the
    calling process, one for reading and one for writing, each the only
    reference to its file and each the other end of the other; all descriptors
    stay accounted for and those of the other processes are untouched. *)
Theorem do_pipe_correct i j m n :
  length buf = PIPE_SIZE -> i <> j -> a !! i = Some (-1) -> a !! j = Some (-1) ->
  m <> n -> open_fds s !! m = Some None -> open_fds s !! n = Some None ->
  exists pd r w s', do_pipe true true true true buf addr ops s = Ret (0, Some (pd, r, w), s') /\
    vfs_ok s' /\ wf pd /\ contents pd = [] /\
    r <> w /\ a !! Z.to_nat r = Some (-1) /\ a !! Z.to_nat w = Some (-1) /\
    pipe_end s' r (gfd0 pd) O_RDONLY /\ pipe_end s' w (gfd1 pd) O_WRONLY /\
    otherend pd (gfd0 pd) = gfd1 pd /\ otherend pd (gfd1 pd) = gfd0 pd /\
    (forall q, q <> p -> fd_arrays s' !! q = fd_arrays s !! q).
Proof.
  intros Hb Hij Hi Hj Hmn Hm Hn. pose proof PIPE_SIZE_pos as HN.
  unfold do_pipe. kstep. cbn [negb].
  destruct (vfs_open_free s p a None ops VFS_TYPE_PIPE Hok Hc Hp) as (r & g0 & s1 & E1 & Hok1 & Hl & Hfree & Hr1 & Ha1 & Hx0 & Ho1).
  { unfold exhausted. intros [?|[H|H]]; [done|apply H|apply H]; eauto using list_elem_of_lookup_2. }
  erewrite kbind_ret by exact E1. cbn beta. set (b := <[Z.to_nat r := g0]> a) in *.
  pose proof Hr1 as (Hc1 & Hp1 & Hr0 & Hrb). pose proof Hx0 as [Hg0 _]. pose proof Hl as (_ & _ & _ & Hra).
  destruct (vfs_open_free s1 p b None ops VFS_TYPE_PIPE Hok1 Hc1 Hp1) as (w & g1 & s2 & E2 & Hok2 & Hlw & Hfree2 & Hw2 & Ha2 & Hx1 & Ho2).
  { unfold exhausted. intros [?|[H|H]]; [done|..]; apply H.
    - rewrite Ho1. destruct (decide (m = Z.to_nat g0)) as [->|].
      + apply (list_elem_of_lookup_2 _ n). by rewrite list_lookup_insert_ne.
      + apply (list_elem_of_lookup_2 _ m). by rewrite list_lookup_insert_ne.
    - unfold b. destruct (decide (i = Z.to_nat r)) as [->|].
      + apply (list_elem_of_lookup_2 _ j). by rewrite list_lookup_insert_ne.
      + apply (list_elem_of_lookup_2 _ i). by rewrite list_lookup_insert_ne. }
  erewrite kbind_ret by exact E2. cbn beta. pose proof Hlw as (_ & _ & Hw0 & Hwb). pose proof Hx1 as [Hg1 _].
  assert (Hgg : g0 <> g1) by (intros <-; destruct Hx0 as [_ Hx0]; congruence).
  assert (Hrw : r <> w) by (intros <-; rewrite Hrb in Hwb; injection Hwb as ->; lia).
  assert (Hr2 : local s2 p (<[Z.to_nat w := g1]> b) r g0).
  { destruct Hw2 as (K1 & K2 & _). split_and!; [done|done|done|]. rewrite list_lookup_insert_ne by lia. done. }
  assert (Hx0' : opened s2 g0 (new_fd None ops VFS_TYPE_PIPE)).
  { split; [done|]. rewrite Ho2, list_lookup_insert_ne by lia. apply Hx0. }
  erewrite kbind_ret by (by eapply vfs_get_gfd_ok). cbn beta. erewrite kbind_ret by (by eapply vfs_get_gfd_ok). cbn beta.
  set (pd := PipeDesc buf 0 0 g0 g1 Completion.init_completion Completion.init_completion).
  destruct (do_pipe_tail (mret (0, Some (pd, r, w))) s2 _ r w g0 g1 _ _ Hok2 Hgg Hr2 Hw2 Hx0' Hx1) as (s' & E & Hok' & Ha' & He0 & He1); [done..|].
  exists pd, r, w, s'. split; [exact E|]. split; [done|]. split; [split; simpl; (done || lia)|]. split; [by apply contents_empty|].
  split; [done|]. split; [done|]. split; [unfold b in Hwb; rewrite list_lookup_insert_ne in Hwb by lia; done|].
  split; [exact He0|]. split; [exact He1|]. unfold otherend. cbn [gfd0 gfd1 pd].
  rewrite Z.eqb_refl, (proj2 (Z.eqb_neq g0 g1)) by done. split; [done|]. split; [done|].
  intros q Hq. rewrite Ha', Ha2, Ha1. by rewrite !lookup_insert_ne.
Qed.
End creation.


(** [do_pipe] does not look at the results of [vfs_open]: with the tables full it
    goes on with descriptor -1. *)
Lemma do_pipe_exhausted s p a buf addr ops :
  vfs_ok s -> current_pcb s = Some p -> fd_arrays s !! p = Some a -> (None ∉ open_fds s) \/ (-1 ∉ a) ->
  do_pipe true true true true buf addr ops s = Fault Undef.
Proof.
  intros Hok Hc Hp Hex. unfold do_pipe. kstep. cbn [negb].
  assert (Hfail : forall t, vfs_ok t -> current_pcb t = Some p -> fd_arrays t !! p = Some a -> (None ∉ open_fds t) \/ (-1 ∉ a) ->
    exists t', vfs_open true true None (Some ops) VFS_TYPE_PIPE t = Ret (-1, t') /\ same_tables t t').
  { intros t Ht Htc Htp Hte. destruct (vfs_open_spec t p a true None ops VFS_TYPE_PIPE Ht Htc Htp) as (r & t' & E & Hcase).
    destruct Hcase as [(-> & Hs & _)|((_ & _ & _ & Hl) & n & _ & Hn & _)]; [eauto|].
    apply list_elem_of_lookup_2 in Hl, Hn. tauto. }
  destruct (Hfail s Hok Hc Hp Hex) as (s1 & E1 & Hs1). erewrite kbind_ret by exact E1. cbn beta.
  destruct (Hfail s1) as (s2 & E2 & Hs2); [by eapply same_tables_ok|by rewrite (st_cur _ _ Hs1)|by rewrite (st_arrays _ _ Hs1)| |].
  { destruct Hex as [Hex|]; [left|by right]. intros Hin. apply list_elem_of_lookup in Hin as [n Hn].
    pose proof (same_tables_lookup _ _ n Hs1) as El. rewrite Hn in El. simpl in El.
    destruct (open_fds s !! n) as [[x|]|] eqn:Es; try done. apply Hex. by eapply list_elem_of_lookup_2. }
  erewrite kbind_ret by exact E2. cbn beta. kstep. kstep. by apply kbind_fault.
Qed.

(** What a read takes from a pipe without a writer. *)
Definition orphan_read (pd : pipe_desc) (n : Z) (r : pipe_desc * option Z * read_res) : Prop :=
  let bytes := take (Z.to_nat n) (contents pd) in
  if decide (contents pd = []) then r = (pd, None, REpipe 0)
  else exists pd2 w, r = (pd2, w, RRet (Z.of_nat (length bytes)) bytes) /\ contents pd2 = drop (Z.to_nat n) (contents pd).

Lemma read_orphan pd gfd n :
  wf pd -> 0 < n -> otherend pd gfd = -1 ->
  orphan_read pd n (pipe_read true pd gfd n) /\ orphan_read pd n (pipe_read_resume pd gfd n).
Proof.
  intros Hwf Hn Ho. unfold orphan_read, pipe_read, pipe_read_resume, read_body. rewrite (proj2 (Z.leb_gt n 0)), Ho by lia.
  rewrite !empty_contents by done. cbn [negb orb Z.eqb Pos.eqb andb]. destruct (decide (contents pd = [])) as [E|E].
  { by rewrite bool_decide_eq_true_2. }
  rewrite bool_decide_eq_false_2 by done.
  cbn [andb]. pose proof (read_loop_spec (Z.to_nat n) pd Hwf) as H. destruct (read_loop (Z.to_nat n) pd) as [pd1 bs].
  destruct H as (_ & -> & H4 & _). destruct (Completion.complete _) as [c w]. split; by exists (with_reader c pd1), w.
Qed.

(** closing the write end keeps the bytes that are in the pipe and wakes a
    reader; from then on a read, also one that was waiting, never waits: it
    returns what is left, and 0 with [EPIPE] once the pipe is empty; closing the
    read end then frees the pipe. *)
Theorem pipe_close_eof pd n :
  wf pd -> gfd0 pd <> gfd1 pd -> gfd0 pd <> -1 -> 0 < n ->
  exists pd', pipe_close pd (gfd1 pd) O_WRONLY = (Some pd', take 1 (Completion.tcb_list (wait_for_writer pd))) /\
    contents pd' = contents pd /\
    orphan_read pd' n (pipe_read true pd' (gfd0 pd) n) /\ orphan_read pd' n (pipe_read_resume pd' (gfd0 pd) n) /\
    (pipe_close pd' (gfd0 pd) O_RDONLY).1 = None.
Proof.
  intros Hwf Hne H0 Hn. set (c := (Completion.complete (wait_for_writer pd)).1).
  set (pd' := PipeDesc (pipe_buf pd) (pos_read pd) (pos_write pd) (gfd0 pd) (-1) c (wait_for_reader pd)).
  exists pd'. destruct (contents_ext pd pd' eq_refl eq_refl eq_refl) as [Hc Hw].
  assert (Ho : otherend pd' (gfd0 pd) = -1) by (unfold otherend; cbn [gfd0 gfd1 pd']; by rewrite Z.eqb_refl).
  split.
  { unfold pipe_close, otherend. cbn [O_WRONLY O_RDONLY Z.eqb Pos.eqb with_reader wait_for_writer].
    unfold pd', c. destruct (Completion.complete (wait_for_writer pd)) as [c' w] eqn:E. cbn [gfd0 gfd1 with_writer with_reader].
    rewrite (proj2 (Z.eqb_neq (gfd0 pd) (gfd1 pd))), (proj2 (Z.eqb_neq (gfd0 pd) (-1))) by done.
    f_equal. revert E. unfold Completion.complete. destruct (Completion.tcb_list _) as [|t r]; intros [= <- <-]; reflexivity. }
  split; [done|]. destruct (read_orphan pd' (gfd0 pd) n (Hw Hwf) Hn Ho) as [R1 R2].
  split; [exact R1|]. split; [exact R2|]. unfold pipe_close. cbn [O_WRONLY O_RDONLY Z.eqb Pos.eqb].
  destruct (Completion.complete (wait_for_reader pd')) as [c' w]. change (otherend _ _) with (otherend pd' (gfd0 pd)). by rewrite Ho.
Qed.

(** ** Instances *)
Definition ex_pipe : pipe_desc :=
  PipeDesc (replicate PIPE_SIZE 7) 0 2 5 6 Completion.init_completion Completion.init_completion.

Lemma ex_pipe_wf : wf ex_pipe.
Proof. pose proof PIPE_SIZE_val. split; cbn [ex_pipe pipe_buf pos_read pos_write]; [apply length_replicate|lia..]. Qed.

Lemma pipe_refines_queue_witness :
  (let '(pd', _, res) := pipe_read true ex_pipe 5 1 in
   wf pd' /\
   if decide (contents ex_pipe = []) then pd' = ex_pipe /\ res = (if otherend ex_pipe 5 =? -1 then REpipe 0 else RWait)
   else res = RRet (Z.of_nat (length (take (Z.to_nat 1) (contents ex_pipe)))) (take (Z.to_nat 1) (contents ex_pipe)) /\
        contents pd' = drop (Z.to_nat 1) (contents ex_pipe)) /\ pipe_read true ex_pipe 5 0 = (ex_pipe, None, REpipe (-1)).
Proof.
  destruct (pipe_refines_queue ex_pipe 5 1 [8]) as (H1 & _ & H2 & _); [exact ex_pipe_wf|lia|discriminate|]. exact (conj H1 H2).
Defined.

Definition ex_run : option psys := run 5 6 (start 5 6 (replicate PIPE_SIZE 0)) [ERead 1 2; EWait 1; EWrite 2 [1; 2; 3]; ECheck 1; ERetry 1].
Lemma pipe_fifo_witness :
  exists s, ex_run = Some s /\ got s = [1; 2] /\ sent s = [1; 2; 3] /\ sent s = got s ++ contents (desc s).
Proof.
  assert (H : (fun s => (got s, sent s)) <$> ex_run = Some ([1; 2], [1; 2; 3])) by (vm_compute; reflexivity).
  destruct ex_run as [s|] eqn:E; [|discriminate H]. injection H as H1 H2. exists s. split; [reflexivity|].
  split; [exact H1|]. split; [exact H2|]. refine (proj1 (pipe_fifo 5 6 (replicate PIPE_SIZE 0) _ s _ E)). apply length_replicate.
Defined.

Lemma pipe_long_write_deadlocks_witness :
  exists s, run 5 6 (start 5 6 (replicate PIPE_SIZE 0)) [ERead 1 10; EWait 1; EWrite 2 (replicate PIPE_SIZE 9); EWait 2] = Some s /\
    pipe_full (desc s) = true.
Proof.
  destruct (pipe_long_write_deadlocks 5 6 (replicate PIPE_SIZE 0) 10 (replicate PIPE_SIZE 9)) as (s & E & Hf & _);
    [apply length_replicate|lia|rewrite length_replicate; apply Nat.le_refl|discriminate..|]. exact (ex_intro _ s (conj E Hf)).
Defined.

Lemma pipe_close_eof_witness : exists pd', (pipe_close ex_pipe 6 O_WRONLY).1 = Some pd' /\ contents pd' = contents ex_pipe.
Proof.
  destruct (pipe_close_eof ex_pipe 1) as (pd' & E & H & _); [exact ex_pipe_wf|discriminate|discriminate|lia|].
  exists pd'. split; [|exact H]. exact (f_equal fst E).
Defined.


Lemma do_pipe_correct_witness :
  exists pd r w s', do_pipe true true true true (replicate PIPE_SIZE 0) 77 4 VfsClient.ex_open = Ret (0, Some (pd, r, w), s') /\
    vfs_ok s' /\ contents pd = [] /\ r <> w.
Proof.
  destruct (do_pipe_correct VfsClient.ex_open 1 VfsClient.ex_array (replicate PIPE_SIZE 0) 77 4
    (VfsClient.vi_ok _ VfsClient.ex_open_inv) eq_refl eq_refl 10 11 20 21)
    as (pd & r & w & s' & E & H1 & _ & H2 & H3 & _);
    [apply length_replicate|discriminate|reflexivity|reflexivity|discriminate|vm_compute; reflexivity|vm_compute; reflexivity|].
  exists pd, r, w, s'. exact (conj E (conj H1 (conj H2 H3))).
Defined.

End Pipe.
