(* ===== verification/Signal.v ===== *)
(** Signals (so3/ipc/signal.c): handlers, the bitmap of pending signals of a
    process, sending and delivery.

    Processes are records in a map from their addresses, [proc_list] keeps the
    order in which they are searched.  The bitmap has 32-bit words but is
    indexed with the width of [long], which is [bpl]: 32 on arm32 and 64 on
    arm64.  Indexing it out of its bounds is [Undef]. *)
From S2P Require Import Prelude Sched.

Module Signal.

Definition _NSIG : Z := 65.
Definition SIG_IGN : Z := 1.
Definition SIGCHLD : Z := 17.

(** A null handler is 0. *)
Record sigaction := SigAction { sa_handler : Z; sa_flags : Z; sa_restorer : Z; sa_mask : list Z }.
(** [sa] is a pointer into the process' own [sa] array: the index, if set. *)
Record sigaction_ref := SigRef { signum : Z; sa_ref : option Z }.

Record proc := Proc {
  pid : Z;
  pstate : Sched.proc_state;
  sa : list sigaction;
  sa_refs : list sigaction_ref;       (* __sa *)
  sigmap : list Z                     (* sigset_map.sigmap, 32-bit words *)
}.

Record sys := Sys {
  procs : gmap Z proc;
  proc_list : list Z;
  current_proc : option Z;            (* current()->pcb, if there is one *)
  sched_softirq : bool;
  irqs_masked : bool
}.

Definition set_sa l p := Proc (pid p) (pstate p) l (sa_refs p) (sigmap p).
Definition set_sigmap l p := Proc (pid p) (pstate p) (sa p) (sa_refs p) l.
Definition with_procs f s := Sys (f (procs s)) (proc_list s) (current_proc s) (sched_softirq s) (irqs_masked s).
Definition with_softirq b s := Sys (procs s) (proc_list s) (current_proc s) b (irqs_masked s).
Definition with_mask b s := Sys (procs s) (proc_list s) (current_proc s) (sched_softirq s) b.

Definition proc_of (a : Z) : kern sys proc := m ← gets procs; lift (deref (m !! a)).
Definition put_proc (a : Z) (p : proc) : kern sys unit := modify (with_procs <[a := p]>).

(** [find_proc_by_pid] (so3/kernel/process.c): the comparison is unsigned. *)
Fixpoint find_pid (l : list Z) (n : Z) : kern sys (option Z) :=
  match l with
  | [] => mret None
  | a :: r => p ← proc_of a; if u32 (pid p) =? u32 n then mret (Some a) else find_pid r n
  end.
Definition find_proc_by_pid (n : Z) : kern sys (option Z) := l ← gets proc_list; find_pid l n.

Definition sig_array (l : list sigaction) (i : Z) : outcome sigaction :=
  if i <? 0 then Fault Undef else deref (l !! Z.to_nat i).

Definition do_sigaction (sig : Z) (action : option sigaction) (want_old : bool) : kern sys (Z * option sigaction) :=
  if (sig <? 0) || (_NSIG <=? sig) then mret (-1, None)
  else
    c ← gets current_proc;
    a ← lift (deref c);
    old ← (if want_old : bool then p ← proc_of a; x ← lift (sig_array (sa p) sig); mret (Some x) else mret None);
    match action with
    | None => mret tt
    | Some act =>
        p ← proc_of a;
        x ← lift (sig_array (sa p) sig);
        let y := if sa_handler act =? SIG_IGN then SigAction 0 (sa_flags x) (sa_restorer x) (sa_mask x) else act in
        put_proc a (set_sa (<[Z.to_nat sig := y]> (sa p)) p)
    end;;
    mret (0, old).

Definition do_sigreturn : kern sys unit := mret tt.

Section width.
(** [8 * sizeof(long)] *)
Context (bpl : Z).

(** [(sig-1) / (8*sizeof(long))] and [1UL << (sig-1) % (8*sizeof(long))]: the
    left operands are converted to [unsigned long]. *)
Definition sig_index (sig : Z) : Z := wrap bpl (sig - 1) / bpl.
Definition sig_pos (sig : Z) : Z := wrap bpl (sig - 1) mod bpl.
Definition sig_bit (sig : Z) : Z := wshl bpl 1 (sig_pos sig).

(** [sigmap[(sig-1) / (8*sizeof(long))]] *)
Definition sig_word (p : proc) (sig : Z) : outcome Z := deref (sigmap p !! Z.to_nat (sig_index sig)).
Definition put_word (p : proc) (sig w : Z) : proc := set_sigmap (<[Z.to_nat (sig_index sig) := w]> (sigmap p)) p.

(** [for (i = 1; i < _NSIG; i++)], with [n] iterations to go. *)
Fixpoint sig_loop (n : nat) (i : Z) (p : proc) : outcome (proc * option Z) :=
  match n with
  | O => Ret (p, None)
  | S n' =>
      w ← sig_word p i;
      if negb (Z.land w (sig_bit i) =? 0) then
        x ← sig_array (sa p) i;
        if negb (sa_handler x =? 0) then
          let p := Proc (pid p) (pstate p) (sa p) (<[Z.to_nat i := SigRef i (Some i)]> (sa_refs p)) (sigmap p) in
          Ret (put_word p i (u32 (Z.land w (wnot bpl (sig_bit i)))), Some i)
        else sig_loop n' (i + 1) p
      else sig_loop n' (i + 1) p
  end.

(** The signal to deliver, whose entry of [__sa] is returned. *)
Definition sig_check : kern sys (option Z) :=
  c ← gets current_proc;
  match c with
  | None => mret None
  | Some a =>
      p ← proc_of a;
      r ← lift (sig_loop (Z.to_nat (_NSIG - 1)) 1 p);
      put_proc a r.1;;
      mret r.2
  end.

Definition do_kill (n sig : Z) : kern sys Z :=
  flags ← gets irqs_masked;
  modify (with_mask true);;
  if (sig <? 0) || (_NSIG <=? sig) then mret (-1)
  else
    o ← find_proc_by_pid n;
    match o with
    | None => mret (-1)
    | Some a =>
        p ← proc_of a;
        when (negb (bool_decide (pstate p = Sched.PROC_ZOMBIE)))
          (w ← lift (sig_word p sig);
           put_proc a (put_word p sig (u32 (Z.lor w (sig_bit sig))));;
           modify (with_softirq true));;
        modify (with_mask flags);;
        mret 0
    end.
End width.


(** ** The bitmap as a set *)
Record sig_ok (p : proc) : Prop := {
  so_sa : length (sa p) = Z.to_nat _NSIG;
  so_refs : length (sa_refs p) = Z.to_nat _NSIG;
  so_map : length (sigmap p) = 2%nat;
  so_words : Forall (in_word 32) (sigmap p)
}.

Definition handled (p : proc) (sig : Z) : bool :=
  match sa p !! Z.to_nat sig with Some x => negb (sa_handler x =? 0) | None => false end.

Section sets.
Context (bpl : Z) (Hbpl : bpl = 32 \/ bpl = 64).

Definition pending (p : proc) (sig : Z) : bool :=
  match sigmap p !! Z.to_nat (sig_index bpl sig) with Some w => Z.testbit w (sig_pos bpl sig) | None => false end.
(** The signals whose bit exists in a 32-bit word: all of them on arm32, those
    up to 32 on arm64. *)
Definition deliverable (sig : Z) : Prop := 1 <= sig < _NSIG /\ sig_pos bpl sig < 32.

#[global] Instance deliverable_dec sig : Decision (deliverable sig).
Proof. unfold deliverable. apply _. Defined.

Lemma sig_arith sig :
  1 <= sig < _NSIG ->
  sig - 1 = sig_index bpl sig * bpl + sig_pos bpl sig /\ 0 <= sig_index bpl sig < 2 /\ 0 <= sig_pos bpl sig < bpl.
Proof.
  unfold sig_index, sig_pos, _NSIG. intros Hs. rewrite wrap_small.
  - destruct Hbpl as [->| ->]; Z.to_euclidean_division_equations; lia.
  - unfold in_word. split; [lia|]. destruct Hbpl as [->| ->]; [change (2 ^ 32) with 4294967296|change (2 ^ 64) with 18446744073709551616]; lia.
Qed.

Lemma deliverable_iff sig : 1 <= sig < _NSIG -> (deliverable sig <-> bpl = 32 \/ sig <= 32).
Proof.
  intros Hs. pose proof (sig_arith sig Hs) as (H1 & H2 & H3). unfold deliverable.
  destruct Hbpl as [->| ->]; [split; [auto|lia]|]. split; [|lia]. intros [_ Hd]. right.
  assert (sig_index 64 sig = 0); unfold _NSIG in *; lia.
Qed.

Lemma sig_bit_pow sig : 1 <= sig < _NSIG -> sig_bit bpl sig = 2 ^ sig_pos bpl sig.
Proof.
  intros Hs. destruct (sig_arith sig Hs) as (_ & _ & H3). unfold sig_bit, wshl.
  rewrite Z.shiftl_1_l, Z.land_ones by lia. apply Z.mod_small. split; [lia|]. apply Z.pow_lt_mono_r; lia.
Qed.

Lemma bit_clear w b : 0 <= b -> (Z.land w (2 ^ b) =? 0) = negb (Z.testbit w b).
Proof.
  intros Hb. destruct (Z.testbit w b) eqn:E; simpl.
  - apply Z.eqb_neq. intros H. assert (Hc : Z.testbit (Z.land w (2 ^ b)) b = false) by (rewrite H; apply Z.bits_0).
    rewrite Z.land_spec, E, Z.pow2_bits_true in Hc by done. done.
  - apply Z.eqb_eq. apply Z.bits_inj'. intros j Hj. rewrite Z.land_spec, Z.bits_0.
    destruct (Z.eq_dec j b) as [->|Hne]; [by rewrite E|]. rewrite Z.pow2_bits_false by lia. apply andb_false_r.
Qed.

Lemma set_bit_spec w b j : 0 <= b -> 0 <= j < 32 -> Z.testbit (u32 (Z.lor w (2 ^ b))) j = Z.testbit w j || (j =? b).
Proof.
  intros Hb Hj. unfold u32, wrap. rewrite Z.mod_pow2_bits_low by lia. rewrite Z.lor_spec, Z.pow2_bits_eqb by done.
  by rewrite (Z.eqb_sym b j).
Qed.

Lemma clear_bit_spec w b j :
  0 <= b < bpl -> 0 <= j < 32 -> Z.testbit (u32 (Z.land w (wnot bpl (2 ^ b)))) j = Z.testbit w j && negb (j =? b).
Proof.
  intros Hb Hj. unfold u32, wrap. rewrite Z.mod_pow2_bits_low by lia. rewrite Z.land_spec, wnot_spec by lia.
  by rewrite Z.pow2_bits_eqb, (Z.eqb_sym b j) by lia.
Qed.

Lemma sig_word_ok p sig :
  sig_ok p -> 1 <= sig < _NSIG ->
  exists w, sig_word bpl p sig = Ret w /\ sigmap p !! Z.to_nat (sig_index bpl sig) = Some w /\ in_word 32 w.
Proof.
  intros [_ _ Hm Hw] Hs. destruct (sig_arith sig Hs) as (_ & H2 & _).
  destruct (lookup_lt_is_Some_2 (sigmap p) (Z.to_nat (sig_index bpl sig))) as [w E]; [lia|].
  exists w. unfold sig_word. rewrite E. split_and!; [done|done|]. by eapply (Forall_lookup_1 _ _ _ _ Hw).
Qed.

(** Bits past 32 do not exist. *)
Lemma pending_deliverable p sig : sig_ok p -> 1 <= sig < _NSIG -> pending p sig = true -> deliverable sig.
Proof.
  intros Hok Hs. destruct (sig_word_ok p sig Hok Hs) as (w & _ & E & Hw). unfold pending. rewrite E. intros Hp.
  split; [done|]. destruct (Z.lt_ge_cases (sig_pos bpl sig) 32); [done|].
  rewrite (testbit_in_word 32) in Hp by (done || lia). done.
Qed.

(** Storing a word changes the signals it holds. *)
Lemma put_word_pending p sig w' j f :
  sig_ok p -> 1 <= sig < _NSIG -> 1 <= j < _NSIG -> in_word 32 w' ->
  (forall w i, sigmap p !! Z.to_nat (sig_index bpl sig) = Some w -> 0 <= i < 32 -> Z.testbit w' i = f (Z.testbit w i) (i =? sig_pos bpl sig)) ->
  (forall b, f b false = b) ->
  sig_ok (put_word bpl p sig w') /\
  (deliverable j -> pending (put_word bpl p sig w') j = f (pending p j) (j =? sig)).
Proof.
  intros Hok Hs Hj Hw' Hf Hid. pose proof Hok as [A1 A2 A3 A4].
  destruct (sig_arith sig Hs) as (S1 & S2 & S3). destruct (sig_arith j Hj) as (J1 & J2 & J3).
  destruct (sig_word_ok p sig Hok Hs) as (w & _ & E & Hw). split.
  { split; simpl; [done|done|by rewrite length_insert|]. by apply Forall_insert. }
  intros [_ Hd]. unfold pending, put_word. cbn [sigmap set_sigmap].
  destruct (decide (sig_index bpl j = sig_index bpl sig)) as [Ei|Ei].
  - rewrite Ei, list_lookup_insert_eq, E by lia. rewrite (Hf w) by (done || lia). f_equal.
    destruct (Z.eqb_spec j sig) as [->|]; [apply Z.eqb_refl|]. apply Z.eqb_neq. nia.
  - rewrite list_lookup_insert_ne by lia. destruct (Z.eqb_spec j sig) as [->|]; [done|]. by rewrite Hid.
Qed.

(** ** Delivery *)
Definition delivered (p : proc) (k : Z) : proc :=
  let w := default 0 (sigmap p !! Z.to_nat (sig_index bpl k)) in
  put_word bpl (Proc (pid p) (pstate p) (sa p) (<[Z.to_nat k := SigRef k (Some k)]> (sa_refs p)) (sigmap p)) k
    (u32 (Z.land w (wnot bpl (sig_bit bpl k)))).

Lemma delivered_spec p k :
  sig_ok p -> 1 <= k < _NSIG ->
  sig_ok (delivered p k) /\ sa (delivered p k) = sa p /\
  forall j, 1 <= j < _NSIG -> pending (delivered p k) j = pending p j && negb (j =? k).
Proof.
  intros Hok Hk. pose proof Hok as [A1 A2 A3 A4]. destruct (sig_word_ok p k Hok Hk) as (w & _ & E & Hw).
  set (q := Proc (pid p) (pstate p) (sa p) (<[Z.to_nat k := SigRef k (Some k)]> (sa_refs p)) (sigmap p)).
  assert (Hq : sig_ok q) by (split; [exact A1|cbn [sa_refs q]; rewrite length_insert; exact A2|exact A3|exact A4]).
  destruct (sig_arith k Hk) as (_ & _ & K3). assert (Hput : forall j, 1 <= j < _NSIG ->
    sig_ok (delivered p k) /\ (deliverable j -> pending (delivered p k) j = pending p j && negb (j =? k))).
  { intros j Hj. apply (put_word_pending q k _ j (fun b e => b && negb e) Hq Hk Hj).
    - apply wrap_range. lia.
    - simpl. intros w0 i E0 Hi. rewrite E0. cbn [default]. rewrite sig_bit_pow by done. by apply clear_bit_spec.
    - intros b. apply andb_true_r. }
  destruct (Hput k Hk) as [Hd _]. split; [done|]. split; [done|]. intros j Hj. destruct (Hput j Hj) as [_ Hp].
  destruct (pending p j) eqn:Ep; [exact (Hp (pending_deliverable p j Hok Hj Ep))|].
  destruct (pending (delivered p k) j) eqn:Ed; [|done].
  exact (Hp (pending_deliverable _ j Hd Hj Ed)).
Qed.

Definition due (p : proc) (k : Z) : bool := pending p k && handled p k.

Lemma sig_loop_spec n i p :
  sig_ok p -> 1 <= i -> i + Z.of_nat n = _NSIG ->
  (sig_loop bpl n i p = Ret (p, None) /\ (forall j, i <= j < _NSIG -> due p j = false)) \/
  (exists k, i <= k < _NSIG /\ due p k = true /\ (forall j, i <= j < k -> due p j = false) /\
     sig_loop bpl n i p = Ret (delivered p k, Some k)).
Proof.
  revert i. induction n as [|n IH]; intros i Hok Hi Hn; cbn [sig_loop]; [left; split; [done|]; intros j Hj; lia|].
  assert (Hir : 1 <= i < _NSIG) by lia. destruct (sig_word_ok p i Hok Hir) as (w & Ew & E & Hw).
  destruct (sig_arith i Hir) as (_ & _ & I3). rewrite Ew. bret. rewrite sig_bit_pow, bit_clear, negb_involutive by (done || lia).
  assert (Hp : pending p i = Z.testbit w (sig_pos bpl i)) by (unfold pending; by rewrite E).
  assert (Hskip : due p i = false ->
    (sig_loop bpl n (i + 1) p = Ret (p, None) /\ (forall j, i <= j < _NSIG -> due p j = false)) \/
    (exists k, i <= k < _NSIG /\ due p k = true /\ (forall j, i <= j < k -> due p j = false) /\
       sig_loop bpl n (i + 1) p = Ret (delivered p k, Some k))).
  { intros Hd. destruct (IH (i + 1) Hok ltac:(lia) ltac:(lia)) as [[E1 H1]|(k & Hk & H1 & H2 & E1)].
    - left. split; [done|]. intros j Hj. destruct (Z.eq_dec j i) as [->|]; [done|]. apply H1. lia.
    - right. exists k. split_and!; [lia|lia|done| |done]. intros j Hj. destruct (Z.eq_dec j i) as [->|]; [done|]. apply H2. lia. }
  rewrite <- Hp. destruct (pending p i) eqn:Epi; [|apply Hskip; unfold due; by rewrite Epi].
  destruct (lookup_lt_is_Some_2 (sa p) (Z.to_nat i)) as [x Ex]; [rewrite (so_sa _ Hok); unfold _NSIG in *; lia|].
  assert (Eh : handled p i = negb (sa_handler x =? 0)) by (unfold handled; by rewrite Ex).
  unfold sig_array. destruct (Z.ltb_spec i 0); [lia|]. rewrite Ex. cbn [deref]. bret. rewrite <- Eh.
  destruct (handled p i) eqn:Ehi; [|apply Hskip; unfold due; by rewrite Ehi, andb_false_r].
  right. exists i. split_and!; [lia|lia|unfold due; by rewrite Epi, Ehi|intros j Hj; lia|].
  unfold delivered. rewrite E. cbn [default]. by rewrite sig_bit_pow.
Qed.
End sets.


(** ** Sending and delivering *)
Section system.
Context (bpl : Z) (Hbpl : bpl = 32 \/ bpl = 64).

Lemma proc_of_ok s a p : procs s !! a = Some p -> proc_of a s = Ret (p, s).
Proof. intros E. unfold proc_of. kstep. by rewrite E. Qed.

(** One delivery. *)
Lemma sig_check_spec s a p :
  current_proc s = Some a -> procs s !! a = Some p -> sig_ok p ->
  exists r p', sig_check bpl s = Ret (r, with_procs <[a := p']> s) /\ sig_ok p' /\ sa p' = sa p /\
    match r with
    | None => p' = p /\ forall j, 1 <= j < _NSIG -> due bpl p j = false
    | Some k => 1 <= k < _NSIG /\ due bpl p k = true /\ (forall j, 1 <= j < k -> due bpl p j = false) /\
        forall j, 1 <= j < _NSIG -> pending bpl p' j = pending bpl p j && negb (j =? k)
    end.
Proof.
  intros Hc Hp Hok. unfold sig_check. kstep. rewrite Hc. krun proc_of_ok.
  destruct (sig_loop_spec bpl Hbpl (Z.to_nat (_NSIG - 1)) 1 p Hok) as [[E H]|(k & Hk & Hd & Hlt & E)]; [done|done|..]; rewrite E.
  - exists None, p. by split_and!.
  - destruct (delivered_spec bpl Hbpl p k Hok) as (H1 & H2 & H3); [lia|].
    exists (Some k), (delivered bpl p k). split_and!; try done; lia.
Qed.

(** [n] calls in a row and what they deliver. *)
Fixpoint checks (n : nat) : kern sys (list Z) :=
  match n with
  | O => mret []
  | S n' => r ← sig_check bpl; l ← checks n'; mret (option_list r ++ l)
  end.

(** The signals that are due, in order. *)
Definition due_list (p : proc) : list Z := filter (fun k => due bpl p k = true) (seqZ 1 (_NSIG - 1)).

Lemma due_list_elem p k : k ∈ due_list p <-> 1 <= k < _NSIG /\ due bpl p k = true.
Proof. unfold due_list. rewrite list_elem_of_filter, elem_of_seqZ. unfold _NSIG. intuition lia. Qed.

Lemma due_list_none p : (forall j, 1 <= j < _NSIG -> due bpl p j = false) -> due_list p = [].
Proof.
  intros H. destruct (due_list p) as [|k l] eqn:E; [done|]. assert (Hk : k ∈ due_list p) by (rewrite E; by left).
  apply due_list_elem in Hk as [Hr Hd]. rewrite H in Hd by done. done.
Qed.

Lemma due_list_cons p p' k :
  1 <= k < _NSIG -> due bpl p k = true -> (forall j, 1 <= j < k -> due bpl p j = false) ->
  (forall j, 1 <= j < _NSIG -> due bpl p' j = due bpl p j && negb (j =? k)) -> due_list p = k :: due_list p'.
Proof.
  intros Hk Hd Hlt Hp'. unfold due_list. replace (_NSIG - 1) with ((k - 1) + (_NSIG - k)) by lia.
  rewrite seqZ_app, !filter_app by lia. replace (1 + (k - 1)) with k by lia.
  rewrite (seqZ_cons k) by lia. rewrite !filter_cons.
  assert (Hnil : forall q, (forall j, 1 <= j < k -> due bpl q j = false) -> filter (fun k => due bpl q k = true) (seqZ 1 (k - 1)) = []).
  { intros q Hq. destruct (filter _ _) as [|j l] eqn:E; [done|].
    assert (Hj : j ∈ filter (fun k => due bpl q k = true) (seqZ 1 (k - 1))) by (rewrite E; by left).
    apply list_elem_of_filter in Hj as [Hj1 Hj2%elem_of_seqZ]. rewrite Hq in Hj1 by lia. done. }
  rewrite !Hnil; [|intros j Hj; rewrite Hp', Hlt by lia; done|done].
  rewrite decide_True by done. rewrite decide_False by (rewrite Hp', Z.eqb_refl, andb_false_r by done; done). cbn [app]. f_equal.
  apply filter_ext_in. intros j Hj%elem_of_seqZ. rewrite Hp' by lia.
  destruct (Z.eqb_spec j k); [lia|]. by rewrite andb_true_r.
Qed.

Lemma checks_spec n s a p :
  current_proc s = Some a -> procs s !! a = Some p -> sig_ok p ->
  exists p', checks n s = Ret (take n (due_list p), with_procs <[a := p']> s) /\ sig_ok p' /\ due_list p' = drop n (due_list p).
Proof.
  revert s p. induction n as [|n IH]; intros s p Hc Hp Hok.
  - exists p. rewrite drop_0. split_and!; try done. cbn [checks take]. unfold with_procs. rewrite insert_id by done. by destruct s.
  - destruct (sig_check_spec s a p Hc Hp Hok) as (r & p1 & E & Hok1 & Hsa & Hr). cbn [checks].
    erewrite kbind_ret by exact E. cbn beta. set (s1 := with_procs <[a := p1]> s) in *.
    destruct (IH s1 p1) as (p' & E' & Hok' & Hd); [done|apply lookup_insert_eq|done|].
    erewrite kbind_ret by exact E'. exists p'.
    assert (Hdue : forall j, due bpl p1 j = pending bpl p1 j && handled p j) by (intros j; unfold due, handled; by rewrite Hsa).
    destruct r as [k|].
    + destruct Hr as (Hk & Hdk & Hlt & Hpj). assert (Hl : due_list p = k :: due_list p1).
      { apply due_list_cons; try done. intros j Hj. rewrite Hdue, Hpj by done. unfold due. destruct (pending bpl p j), (handled p j), (j =? k); done. }
      rewrite Hl. cbn [take drop]. split_and!; [|done|done]. unfold s1, with_procs. simpl. by rewrite insert_insert_eq.
    + destruct Hr as [-> Hno]. rewrite (due_list_none p Hno) in *. rewrite !take_nil, !drop_nil in *.
      split_and!; [|done|done]. unfold s1, with_procs. simpl. by rewrite insert_insert_eq.
Qed.

(** every pending signal with a handler is delivered exactly once, in
    increasing order of signal numbers, by as many returns to user space as
    there are such signals (64 at most); then nothing more is delivered. *)
Theorem signals_delivered_once s a p :
  current_proc s = Some a -> procs s !! a = Some p -> sig_ok p ->
  exists s', checks 64 s = Ret (due_list p, s') /\ NoDup (due_list p) /\
    (forall k, k ∈ due_list p <-> 1 <= k < _NSIG /\ pending bpl p k = true /\ handled p k = true) /\
    checks 1 s' = Ret ([], s').
Proof.
  intros Hc Hp Hok. assert (Hlen : (length (due_list p) <= 64)%nat).
  { unfold due_list. etrans; [apply length_filter|]. by rewrite length_seqZ. }
  destruct (checks_spec 64 s a p Hc Hp Hok) as (p' & E & Hok' & Hd). rewrite take_ge in E by done. rewrite drop_ge in Hd by done.
  eexists. split; [exact E|]. split; [apply NoDup_filter, NoDup_seqZ|]. split.
  - intros k. rewrite due_list_elem. unfold due. by rewrite andb_true_iff.
  - set (s' := with_procs <[a := p']> s). destruct (checks_spec 1 s' a p') as (p2 & E2 & _ & _); [done|apply lookup_insert_eq|done|].
    rewrite Hd in E2. destruct (sig_check_spec s' a p') as (r & p3 & E3 & _ & _ & Hr); [done|apply lookup_insert_eq|done|].
    cbn [checks]. erewrite kbind_ret by exact E3. destruct r as [k|].
    + destruct Hr as (Hk & Hdk & _). assert (Hin : k ∈ due_list p') by (by apply due_list_elem). by rewrite Hd in Hin; apply not_elem_of_nil in Hin.
    + destruct Hr as [-> _]. unfold s', with_procs. simpl. by rewrite insert_insert_eq.
Qed.

Lemma find_pid_spec s l n :
  Forall (fun a => is_Some (procs s !! a)) l ->
  exists o, find_pid l n s = Ret (o, s) /\
    match o with
    | None => forall a p, a ∈ l -> procs s !! a = Some p -> u32 (pid p) <> u32 n
    | Some a => a ∈ l /\ exists p, procs s !! a = Some p /\ u32 (pid p) = u32 n
    end.
Proof.
  induction 1 as [|a l [p Hp] _ (o & E & Ho)]; cbn [find_pid].
  - exists None. split; [done|]. intros a p Ha. by apply not_elem_of_nil in Ha.
  - krun proc_of_ok. destruct (Z.eqb_spec (u32 (pid p)) (u32 n)) as [En|En].
    + exists (Some a). split; [done|]. split; [by left|]. eauto.
    + exists o. split; [done|]. destruct o as [b|].
      * destruct Ho as [Hb Hx]. split; [by right|done].
      * intros b q [->|Hb]%elem_of_cons Hq; [congruence|eauto].
Qed.

(** Every process is on the list under its own pid. *)
Record procs_ok (s : sys) : Prop := {
  po_list : Forall (fun a => is_Some (procs s !! a)) (proc_list s);
  po_pids : forall a b p q, a ∈ proc_list s -> b ∈ proc_list s -> procs s !! a = Some p -> procs s !! b = Some q ->
    u32 (pid p) = u32 (pid q) -> a = b;
  po_sig : forall a p, procs s !! a = Some p -> sig_ok p
}.

Lemma find_proc_ok s a p :
  procs_ok s -> a ∈ proc_list s -> procs s !! a = Some p -> find_proc_by_pid (pid p) s = Ret (Some a, s).
Proof.
  intros Hs Ha Hp. unfold find_proc_by_pid. kstep. destruct (find_pid_spec s (proc_list s) (pid p) (po_list _ Hs)) as (o & -> & Ho).
  destruct o as [b|]; [|by eapply Ho in Ha]. destruct Ho as (Hb & q & Hq & E). by rewrite (po_pids _ Hs b a q p Hb Ha Hq Hp E).
Qed.

Definition killed (p : proc) (sig : Z) : proc :=
  put_word bpl p sig (u32 (Z.lor (default 0 (sigmap p !! Z.to_nat (sig_index bpl sig))) (sig_bit bpl sig))).

Lemma killed_spec p sig :
  sig_ok p -> 1 <= sig < _NSIG ->
  sig_ok (killed p sig) /\ sa (killed p sig) = sa p /\ pid (killed p sig) = pid p /\
  forall j, 1 <= j < _NSIG -> pending bpl (killed p sig) j = pending bpl p j || (bool_decide (deliverable bpl sig) && (j =? sig)).
Proof.
  intros Hok Hs. destruct (sig_word_ok bpl Hbpl p sig Hok Hs) as (w & _ & E & Hw). destruct (sig_arith bpl Hbpl sig Hs) as (_ & _ & S3).
  assert (Hput : forall j, 1 <= j < _NSIG -> sig_ok (killed p sig) /\
    (deliverable bpl j -> pending bpl (killed p sig) j = pending bpl p j || (j =? sig))).
  { intros j Hj. apply (put_word_pending bpl Hbpl p sig _ j orb Hok Hs Hj).
    - apply wrap_range. lia.
    - intros w0 i E0 Hi. rewrite E0. cbn [default]. rewrite sig_bit_pow by done. apply set_bit_spec; lia.
    - apply orb_false_r. }
  destruct (Hput sig Hs) as [Hk _]. split_and!; try done. intros j Hj. destruct (Hput j Hj) as [_ Hp].
  destruct (decide (deliverable bpl j)) as [Hd|Hd].
  - rewrite Hp by done. destruct (Z.eqb_spec j sig) as [->|]; [|by rewrite andb_false_r]. by rewrite bool_decide_eq_true_2.
  - assert (Hno : forall q, sig_ok q -> pending bpl q j = false).
    { intros q Hq. destruct (pending bpl q j) eqn:Eq; [|done]. by destruct (Hd (pending_deliverable bpl Hbpl q j Hq Hj Eq)). }
    rewrite !Hno by done. destruct (Z.eqb_spec j sig) as [->|]; [|by rewrite andb_false_r]. by rewrite bool_decide_eq_false_2.
Qed.

Lemma do_kill_spec s a p sig :
  procs_ok s -> a ∈ proc_list s -> procs s !! a = Some p -> 1 <= sig < _NSIG ->
  do_kill bpl (pid p) sig s =
    Ret (0, if bool_decide (pstate p = Sched.PROC_ZOMBIE) then s else with_softirq true (with_procs <[a := killed p sig]> s)).
Proof.
  intros Hs Ha Hp Hsig. unfold do_kill. kstep. kstep. destruct (_ || _) eqn:Eg; [unfold _NSIG in *; lia|].
  assert (Hs1 : procs_ok (with_mask true s)) by (by destruct Hs as [A1 A2 A3]; split).
  erewrite kbind_ret by (by apply (find_proc_ok (with_mask true s) a p)). cbn beta iota. erewrite kbind_ret by (by apply (proc_of_ok (with_mask true s))).
  cbn beta. case_bool_decide as Ez.
  - cbn [negb when]. kstep. kstep. unfold with_mask. simpl. by destruct s.
  - cbn [negb when]. destruct (sig_word_ok bpl Hbpl p sig (po_sig _ Hs a p Hp) Hsig) as (w & Ew & E & _).
    erewrite kbind_ret; [|erewrite kbind_ret by (rewrite Ew; done); kstep; done]. kstep.
    unfold killed. rewrite E. by destruct s.
Qed.

Lemma killed_procs_ok s a p sig :
  procs_ok s -> procs s !! a = Some p -> 1 <= sig < _NSIG -> procs_ok (with_softirq true (with_procs <[a := killed p sig]> s)).
Proof.
  intros [A1 A2 A3] Hp Hs. destruct (killed_spec p sig (A3 _ _ Hp) Hs) as (K1 & K2 & K3 & _).
  assert (Hpid : forall b q, <[a := killed p sig]> (procs s) !! b = Some q -> exists q', procs s !! b = Some q' /\ pid q = pid q').
  { intros b q [[<- <-]|[_ Hq]]%lookup_insert_Some; eauto. }
  split; simpl.
  - eapply Forall_impl; [exact A1|]. intros b [q Hq]. apply lookup_insert_is_Some. destruct (decide (a = b)); [by left|right]. split; [done|by exists q].
  - intros b c q r Hb Hc (q' & Hq & Eq)%Hpid (r' & Hr & Er)%Hpid E. apply (A2 b c q' r'); congruence.
  - intros b q [[<- <-]|[_ Hq]]%lookup_insert_Some; eauto.
Qed.

(** C36: a signal sent to a living process that has a handler for it arrives, if its
    bit exists in the process' signal words (signals 1 to 64 on arm32, 1 to 32 on
    arm64; the others are lost, [high_signals_lost]): the call returns 0 with the
    interrupt mask as it was, asks for a rescheduling, and makes exactly that
    signal pending for exactly that process; and from any state in which the
    process is the current one with its signals as they are then, at most 64
    returns to user space deliver it. *)
Theorem kill_delivers s a p sig :
  procs_ok s -> a ∈ proc_list s -> procs s !! a = Some p -> pstate p <> Sched.PROC_ZOMBIE ->
  deliverable bpl sig -> handled p sig = true ->
  exists s1 p1, do_kill bpl (pid p) sig s = Ret (0, s1) /\ procs_ok s1 /\
    sched_softirq s1 = true /\ irqs_masked s1 = irqs_masked s /\ procs s1 = <[a := p1]> (procs s) /\
    (forall j, 1 <= j < _NSIG -> pending bpl p1 j = pending bpl p j || (j =? sig)) /\
    (forall s2, current_proc s2 = Some a -> procs s2 !! a = Some p1 -> exists l s3, checks 64 s2 = Ret (l, s3) /\ sig ∈ l).
Proof.
  intros Hs Ha Hp Hz Hd Hh. pose proof Hd as [Hr _]. pose proof (po_sig _ Hs a p Hp) as Hok.
  destruct (killed_spec p sig Hok Hr) as (K1 & K2 & K3 & K4). rewrite bool_decide_eq_true_2 in K4 by done.
  eexists _, (killed p sig). rewrite (do_kill_spec s a p sig Hs Ha Hp Hr), bool_decide_eq_false_2 by done. split; [reflexivity|].
  split; [by apply killed_procs_ok|]. split_and!; [done|done|done|done|]. intros s2 Hc Hp2.
  destruct (signals_delivered_once s2 a (killed p sig)) as (s3 & E & _ & Hin & _); [done..|].
  exists (due_list (killed p sig)), s3. split; [done|]. apply Hin. split; [done|]. rewrite K4 by done.
  rewrite Z.eqb_refl, orb_true_r. split; [done|]. unfold handled in *. by rewrite K2.
Qed.
End system.

(** on arm64 a signal above 32 is accepted and lost: [do_kill] returns 0, but the
    bit it sets does not exist in the 32-bit word, and no signal becomes
    pending. *)
Theorem high_signals_lost s a p sig :
  procs_ok s -> a ∈ proc_list s -> procs s !! a = Some p -> 32 < sig < _NSIG ->
  exists s1 p1, do_kill 64 (pid p) sig s = Ret (0, s1) /\ procs s1 = <[a := p1]> (procs s) /\
    forall j, 1 <= j < _NSIG -> pending 64 p1 j = pending 64 p j.
Proof.
  intros Hs Ha Hp Hr. assert (H64 : 64 = 32 \/ 64 = 64) by (by right).
  rewrite (do_kill_spec 64 H64 s a p sig Hs Ha Hp) by lia. case_bool_decide.
  { exists s, p. split; [done|]. split; [by rewrite insert_id|done]. }
  destruct (killed_spec 64 H64 p sig (po_sig _ Hs a p Hp)) as (_ & _ & _ & K); [lia|].
  eexists _, (killed 64 p sig). split; [reflexivity|]. split; [done|]. intros j Hj. rewrite K by done.
  rewrite bool_decide_eq_false_2; [by rewrite orb_false_r|]. rewrite deliverable_iff by (done || lia). lia.
Qed.

(** Signal 0, which should only probe the process, indexes the bitmap with the
    largest index there is. *)
Lemma kill_zero_undefined bpl s a p :
  bpl = 32 \/ bpl = 64 -> procs_ok s -> a ∈ proc_list s -> procs s !! a = Some p -> pstate p <> Sched.PROC_ZOMBIE ->
  do_kill bpl (pid p) 0 s = Fault Undef.
Proof.
  intros Hb Hs Ha Hp Hz. unfold do_kill. kstep. kstep. change ((0 <? 0) || (_NSIG <=? 0)) with false. cbn iota.
  assert (Hs1 : procs_ok (with_mask true s)) by (by destruct Hs as [A1 A2 A3]; split).
  erewrite kbind_ret by (by apply (find_proc_ok (with_mask true s) a p)). cbn beta iota.
  erewrite kbind_ret by (by apply (proc_of_ok (with_mask true s))). cbn beta. rewrite bool_decide_eq_false_2 by done. cbn [negb when].
  apply kbind_fault, kbind_fault. unfold sig_word. rewrite lookup_ge_None_2; [done|].
  rewrite (so_map _ (po_sig _ Hs a p Hp)). assert (E : sig_index bpl 0 = 2 ^ bpl / bpl - 1).
  { unfold sig_index, wrap. by destruct Hb as [->| ->]. }
  rewrite E. assert (2 <= 2 ^ bpl / bpl - 1) by (by destruct Hb as [->| ->]). lia.
Qed.

(** An invalid signal number or an unknown process leaves the interrupts masked. *)
Lemma kill_error_masks bpl s n sig :
  Forall (fun a => is_Some (procs s !! a)) (proc_list s) ->
  (sig < 0 \/ _NSIG <= sig \/ forall a p, a ∈ proc_list s -> procs s !! a = Some p -> u32 (pid p) <> u32 n) ->
  do_kill bpl n sig s = Ret (-1, with_mask true s).
Proof.
  intros Hl Hc. unfold do_kill. kstep. kstep. destruct (_ || _) eqn:Eg; [done|].
  unfold find_proc_by_pid. rewrite (kbind_ret _ _ _ None (with_mask true s)); [done|]. kstep.
  destruct (find_pid_spec (with_mask true s) (proc_list s) n Hl) as (o & E0 & Ho). cbn [proc_list with_mask] in *. rewrite E0.
  destruct o as [b|]; [|done].
  destruct Ho as (Hb & q & Hq & E). destruct Hc as [?|[?|Hc]]; [lia..|]. by destruct (Hc b q Hb Hq).
Qed.

(** installing an action and asking for it gives it back (an ignored signal as
    one without a handler), for every signal number and only for that one;
    numbers out of range are refused and change nothing. *)
Theorem sigaction_roundtrip s a p sig act :
  current_proc s = Some a -> procs s !! a = Some p -> sig_ok p ->
  (0 <= sig < _NSIG -> exists s1 p1 x old, do_sigaction sig (Some act) true s = Ret (0, Some old, s1) /\
     sa p !! Z.to_nat sig = Some old /\
     do_sigaction sig None true s1 = Ret (0, Some x, s1) /\
     (if sa_handler act =? SIG_IGN then sa_handler x = 0 else x = act) /\
     procs s1 = <[a := p1]> (procs s) /\ sig_ok p1 /\
     (forall j, j <> Z.to_nat sig -> sa p1 !! j = sa p !! j)) /\
  (~ 0 <= sig < _NSIG -> do_sigaction sig (Some act) true s = Ret (-1, None, s)).
Proof.
  intros Hc Hp Hok. split.
  2:{ intros Hr. unfold do_sigaction. destruct (_ || _) eqn:E; [done|]. lia. }
  intros Hr. assert (Eg : (sig <? 0) || (_NSIG <=? sig) = false) by lia. assert (E0 : (sig <? 0) = false) by lia.
  destruct (lookup_lt_is_Some_2 (sa p) (Z.to_nat sig)) as [old Ho]; [rewrite (so_sa _ Hok); lia|].
  set (y := if sa_handler act =? SIG_IGN then SigAction 0 (sa_flags old) (sa_restorer old) (sa_mask old) else act).
  set (p1 := set_sa (<[Z.to_nat sig := y]> (sa p)) p). set (s1 := with_procs <[a := p1]> s).
  assert (Hg : forall s0 q x, procs s0 !! a = Some q -> sa q !! Z.to_nat sig = Some x ->
    (p ← proc_of a; x ← lift (sig_array (sa p) sig); mret (Some x)) s0 = Ret (Some x, s0)).
  { intros s0 q x Hq Hx. krun proc_of_ok. unfold sig_array. rewrite E0, Hx. done. }
  exists s1, p1, y, old. split.
  { unfold do_sigaction. rewrite Eg. kstep. rewrite Hc. kstep. erewrite kbind_ret by (by apply (Hg s p old)). cbn beta.
    erewrite kbind_ret; [done|]. krun proc_of_ok. unfold sig_array. rewrite E0, Ho. by kstep. }
  split; [done|]. split.
  { unfold do_sigaction. rewrite Eg. kstep. cbn [current_proc s1 with_procs]. rewrite Hc. kstep.
    erewrite kbind_ret; [|apply (Hg s1 p1 y); [apply lookup_insert_eq|]]; [by kstep|].
    apply list_lookup_insert_eq. eauto using lookup_lt_Some. }
  split; [by unfold y; destruct (sa_handler act =? SIG_IGN)|]. split; [done|]. split.
  - destruct Hok as [A1 A2 A3 A4]. split; [|exact A2|exact A3|exact A4]. cbn [sa p1 set_sa]. by rewrite length_insert.
  - intros j Hj. cbn [sa p1 set_sa]. by rewrite list_lookup_insert_ne.
Qed.

(** ** Instances *)
Definition ex_action : sigaction := SigAction 4096 0 0 [0; 0].
Definition ex_proc (n : Z) : proc :=
  Proc n Sched.PROC_READY (<[10%nat := ex_action]> (replicate 65 (SigAction 0 0 0 [0; 0]))) (replicate 65 (SigRef 0 None)) [0; 0].
Definition ex_sys : sys := Sys {[100 := ex_proc 1; 200 := ex_proc 2]} [100; 200] (Some 200) false false.

Lemma ex_proc_ok n : sig_ok (ex_proc n).
Proof. split; [reflexivity|reflexivity|reflexivity|]. apply Forall_cons; split; [done|]. by apply Forall_singleton. Qed.

Lemma ex_procs_ok : procs_ok ex_sys.
Proof.
  assert (H : forall a p, procs ex_sys !! a = Some p -> a = 100 /\ p = ex_proc 1 \/ a = 200 /\ p = ex_proc 2).
  { intros a p. cbn [procs ex_sys]. rewrite lookup_insert_Some, lookup_singleton_Some. intros [[<- <-]|[_ [<- <-]]]; auto. }
  split.
  - repeat (constructor; [eexists; reflexivity|]). constructor.
  - intros a b p q _ _ [[-> ->]|[-> ->]]%H [[-> ->]|[-> ->]]%H E; (reflexivity || discriminate E).
  - intros a p [[_ ->]|[_ ->]]%H; apply ex_proc_ok.
Qed.

Lemma signals_delivered_once_witness :
  exists s', checks 64 64 (with_procs <[200 := killed 64 (ex_proc 2) 10]> ex_sys) = Ret ([10], s') /\ checks 64 1 s' = Ret ([], s').
Proof.
  destruct (signals_delivered_once 64 (or_intror eq_refl) (with_procs <[200 := killed 64 (ex_proc 2) 10]> ex_sys) 200 (killed 64 (ex_proc 2) 10))
    as (s' & E & _ & _ & H); [reflexivity|apply lookup_insert_eq| |].
  - apply (killed_spec 64 (or_intror eq_refl)); [apply ex_proc_ok|unfold _NSIG; lia].
  - exists s'. split; [|exact H]. rewrite E. vm_compute. reflexivity.
Defined.

Lemma kill_delivers_witness :
  exists s1, do_kill 64 2 10 ex_sys = Ret (0, s1) /\ exists l s2, checks 64 64 (with_softirq false s1) = Ret (l, s2) /\ 10 ∈ l.
Proof.
  destruct (kill_delivers 64 (or_intror eq_refl) ex_sys 200 (ex_proc 2) 10) as (s1 & p1 & E & _ & _ & _ & Hp & _ & H);
    [exact ex_procs_ok|right; left|reflexivity|discriminate|split; [unfold _NSIG; lia|reflexivity]|reflexivity|].
  exists s1. split; [exact E|]. apply H.
  - assert (E' : do_kill 64 2 10 ex_sys = Ret (0, s1)) by exact E. vm_compute in E'. injection E' as <-. reflexivity.
  - cbn [procs with_softirq]. rewrite Hp. apply lookup_insert_eq.
Defined.

Lemma high_signals_lost_witness :
  exists s1 p1, do_kill 64 2 40 ex_sys = Ret (0, s1) /\ procs s1 = <[200 := p1]> (procs ex_sys) /\ pending 64 p1 40 = false.
Proof.
  destruct (high_signals_lost ex_sys 200 (ex_proc 2) 40) as (s1 & p1 & E & H1 & H2);
    [exact ex_procs_ok|right; left|reflexivity|unfold _NSIG; lia|].
  exists s1, p1. split; [exact E|]. split; [exact H1|]. rewrite H2; [reflexivity|]. unfold _NSIG; lia.
Defined.

Lemma sigaction_roundtrip_witness :
  exists s1 x old, do_sigaction 12 (Some ex_action) true ex_sys = Ret (0, Some old, s1) /\ do_sigaction 12 None true s1 = Ret (0, Some x, s1) /\ x = ex_action.
Proof.
  destruct (sigaction_roundtrip ex_sys 200 (ex_proc 2) 12 ex_action) as [H _]; [reflexivity|reflexivity|apply ex_proc_ok|].
  destruct H as (s1 & p1 & x & old & E1 & _ & E2 & E3 & _); [unfold _NSIG; lia|].
  exists s1, x, old. exact (conj E1 (conj E2 E3)).
Defined.


End Signal.
