(* ===== verification/Mmu.v ===== *)
(** AArch64 page tables (so3/arch/arm64/mmu.c, asm/mmu.h), for 48-bit addresses:
    creation and release of mappings, and the software walk.  Entries are those of
    the plain kernel, or with CONFIG_ARM64VT those of the hypervisor's own stage-1
    tables and of the stage-2 tables of its guests.

    A page table is a list of 512 words and is known by its physical address;
    [__va] and [__pa] translate between that address and the pointer the code
    holds, so a pointer to an entry is a table and an index.  [heap] lists the
    tables that calls of [memalign(4096, PAGE_SIZE)] will return; the empty list is
    an exhausted heap.  Cache and TLB maintenance has no effect on the tables.
    Reading outside a table is [Undef]. *)
From S2P Require Import Prelude Frames.

Module Mmu.

Record mmu := MkMmu { tables : gmap Z (list Z); heap : list Z }.
Definition with_tables f s := MkMmu (f (tables s)) (heap s).

Definition SZ_2M : Z := 2 ^ 21.
Definition SZ_1G : Z := 2 ^ 30.
Definition SZ_256G : Z := 256 * SZ_1G.
Definition TTB_ENTRIES : Z := 512.

(** [(~(2^k - 1)) & ((1UL << 48) - 1)] *)
Definition addr_mask (k : Z) : Z := Z.land (wnot 64 (2 ^ k - 1)) (2 ^ 48 - 1).
Definition TTB_TABLE_ADDR_MASK : Z := addr_mask 12.
Definition TTB_L1_BLOCK_ADDR_MASK : Z := addr_mask 30.
Definition TTB_L2_BLOCK_ADDR_MASK : Z := addr_mask 21.
Definition TTB_L3_PAGE_ADDR_MASK : Z := addr_mask 12.

Definition PTE_TYPE_TABLE : Z := 3.
Definition PTE_TYPE_PAGE : Z := 3.
Definition PTE_TYPE_BLOCK : Z := 1.
Definition PTE_BLOCK_AP1 : Z := 2 ^ 6.
Definition pte_type (e : Z) : Z := Z.land e 3.

(** *** Entries *)
Definition pte_at (p : Z * Z) : kern mmu Z :=
  m ← gets tables; l ← lift (deref (m !! p.1)); lift (deref (l !! Z.to_nat p.2)).
Definition put_pte (p : Z * Z) (e : Z) : kern mmu unit :=
  _ ← pte_at p; modify (with_tables (alter <[Z.to_nat p.2 := e]> p.1)).

Definition l0pte_index (a : Z) : Z := Z.land (Z.shiftr a 39) (TTB_ENTRIES - 1).
Definition l1pte_index (a : Z) : Z := Z.land (Z.shiftr a 30) (TTB_ENTRIES - 1).
Definition l2pte_index (a : Z) : Z := Z.land (Z.shiftr a 21) (TTB_ENTRIES - 1).
Definition l3pte_index (a : Z) : Z := Z.land (Z.shiftr a 12) (TTB_ENTRIES - 1).
Definition l0pte_offset (pgtable a : Z) : Z * Z := (pgtable, l0pte_index a).
Definition l1pte_offset (l0pte : Z * Z) (a : Z) : kern mmu (Z * Z) :=
  e ← pte_at l0pte; mret (Z.land e TTB_TABLE_ADDR_MASK, l1pte_index a).
Definition l2pte_offset (l1pte : Z * Z) (a : Z) : kern mmu (Z * Z) :=
  e ← pte_at l1pte; mret (Z.land e TTB_TABLE_ADDR_MASK, l2pte_index a).
Definition l3pte_offset (l2pte : Z * Z) (a : Z) : kern mmu (Z * Z) :=
  e ← pte_at l2pte; mret (Z.land e TTB_TABLE_ADDR_MASK, l3pte_index a).

(** [((addr) + size) & ~(size - 1)], or the end if that comes first. *)
Definition addr_end (size addr end_ : Z) : Z :=
  let boundary := Z.land (u64 (addr + size)) (wnot 64 (size - 1)) in
  if u64 (boundary - 1) <? u64 (end_ - 1) then boundary else end_.
Definition l0_addr_end := addr_end SZ_256G.
Definition l1_addr_end := addr_end SZ_1G.
Definition l2_addr_end := addr_end SZ_2M.

(** [MT_NORMAL] is 0, [MT_DEVICE_nGnRnE] is 4. *)
Definition dcache_option (nocache : bool) : Z := if nocache then 4 else 0.
Definition memtype (nocache : bool) : Z := Z.shiftl (dcache_option nocache) 2.
(** [PTE_BLOCK_AF | PTE_BLOCK_INNER_SHARE | PTE_BLOCK_NS] *)
Definition PTE_ATTRS : Z := Z.lor (Z.lor (2 ^ 10) (Z.shiftl 3 8)) (2 ^ 5).
Definition set_pte_table (e : Z) : Z := Z.lor (Z.lor e PTE_TYPE_TABLE) (2 ^ 63).
Definition set_pte_block (e : Z) (nocache : bool) : Z := Z.lor (Z.lor e (Z.lor PTE_TYPE_BLOCK PTE_ATTRS)) (memtype nocache).
Definition set_pte_page (e : Z) (nocache : bool) : Z := Z.lor (Z.lor e (Z.lor PTE_TYPE_PAGE PTE_ATTRS)) (memtype nocache).

Definition PTE_BLOCK_INNER_SHARE : Z := Z.shiftl 3 8.
Definition PTE_BLOCK_AF : Z := 2 ^ 10.
Definition S2_PTE_ACCESS_RW : Z := Z.shiftl 3 6.
(** [S2_PTE_FLAG_DEVICE] or [S2_PTE_FLAG_NORMAL]. *)
Definition memtype_S2 (nocache : bool) : Z := Z.shiftl (if nocache then 1 else 15) 2.
Definition set_pte_table_S2 (e : Z) : Z := Z.lor e PTE_TYPE_TABLE.
Definition set_pte_block_S2 (e : Z) (nocache : bool) : Z :=
  Z.lor (Z.lor e (Z.lor (Z.lor (Z.lor PTE_TYPE_BLOCK S2_PTE_ACCESS_RW) PTE_BLOCK_INNER_SHARE) PTE_BLOCK_AF)) (memtype_S2 nocache).
Definition set_pte_page_S2 (e : Z) (nocache : bool) : Z :=
  Z.lor (Z.lor e (Z.lor (Z.lor (Z.lor PTE_TYPE_PAGE PTE_BLOCK_AF) PTE_BLOCK_INNER_SHARE) S2_PTE_ACCESS_RW)) (memtype_S2 nocache).

Inductive mmu_stage_t := S1 | S2.
(** What decides the flags of the entries of a mapping: whether CONFIG_ARM64VT is
    set, and the arguments [nocache] and [stage]. *)
Record attr := Attr { arm64vt : bool; nocache : bool; stage : mmu_stage_t }.

Definition user_space_vaddr (a : Z) : bool := Z.land (Z.shiftr a 48) (2 ^ 16 - 1) =? 0.
(** [if ((addr != phys) && user_space_vaddr(addr)) *pte |= PTE_BLOCK_AP1;] *)
Definition set_user (addr phys e : Z) : Z :=
  if negb (addr =? phys) && user_space_vaddr addr then Z.lor e PTE_BLOCK_AP1 else e.


Definition set_table (fl : attr) (e : Z) : Z :=
  match arm64vt fl, stage fl with true, S2 => set_pte_table_S2 e | _, _ => set_pte_table e end.
Definition set_page (fl : attr) (addr phys e : Z) : Z :=
  match arm64vt fl, stage fl with
  | true, S1 => set_pte_page e (nocache fl)
  | true, S2 => set_pte_page_S2 e (nocache fl)
  | false, _ => set_user addr phys (set_pte_page e (nocache fl))
  end.
Definition set_block (fl : attr) (addr phys e : Z) : Z :=
  match arm64vt fl, stage fl with
  | true, S1 => set_pte_block e (nocache fl)
  | true, S2 => set_pte_block_S2 e (nocache fl)
  | false, _ => set_user addr phys (set_pte_block e (nocache fl))
  end.

(** *** Creation *)
(** [memalign] and [memset]. *)
Definition new_table : kern mmu Z := fun s =>
  match heap s with
  | [] => Fault Panic
  | t :: r => Ret (t, MkMmu (<[t := replicate (Z.to_nat TTB_ENTRIES) 0]> (tables s)) r)
  end.
(** [if (!*pte) { table = ...; *pte = __pa(table) & MASK; set_pte_table(pte) }], or
    [set_pte_table_S2]. *)
Definition ensure_table (fl : attr) (p : Z * Z) : kern mmu unit :=
  e ← pte_at p;
  when (e =? 0) (t ← new_table; put_pte p (set_table fl (Z.land t TTB_TABLE_ADDR_MASK))).

(** [do { ... } while (addr != end);]: the body moves [(addr, phys)] on. *)
Fixpoint do_while (fuel : nat) (body : Z -> Z -> kern mmu (Z * Z)) (end_ addr phys : Z) : kern mmu unit :=
  match fuel with
  | O => raise Hang
  | S f => r ← body addr phys; if r.1 =? end_ then mret tt else do_while f body end_ r.1 r.2
  end.

Definition bug_zero (p : Z * Z) : kern mmu unit := e ← pte_at p; lift (bug_on (e =? 0)).

Definition l3_body (l1pte : Z * Z) (fl : attr) (addr phys : Z) : kern mmu (Z * Z) :=
  l2pte ← l2pte_offset l1pte addr;
  ensure_table fl l2pte;;
  l3pte ← l3pte_offset l2pte addr;
  put_pte l3pte (set_page fl addr phys (Z.land phys TTB_L3_PAGE_ADDR_MASK));;
  mret (u64 (addr + PAGE_SIZE), u64 (phys + PAGE_SIZE)).
Definition alloc_init_l3 (l0pgtable addr end_ phys : Z) (fl : attr) : kern mmu unit :=
  let l0pte := l0pte_offset l0pgtable addr in
  bug_zero l0pte;;
  l1pte ← l1pte_offset l0pte addr;
  bug_zero l1pte;;
  do_while 512 (l3_body l1pte fl) end_ addr phys.

(** [((addr | next | phys) & ~BLOCK_MASK) == 0] *)
Definition block_aligned (size addr next phys : Z) : bool := Z.land (Z.lor (Z.lor addr next) phys) (size - 1) =? 0.

Definition l2_body (l0pgtable : Z) (l0pte : Z * Z) (fl : attr) (end_ addr phys : Z) : kern mmu (Z * Z) :=
  l1pte ← l1pte_offset l0pte addr;
  ensure_table fl l1pte;;
  l2pte ← l2pte_offset l1pte addr;
  let next := l2_addr_end addr end_ in
  if block_aligned SZ_2M addr next phys then
    put_pte l2pte (set_block fl addr phys (Z.land phys TTB_L2_BLOCK_ADDR_MASK));;
    mret (u64 (addr + SZ_2M), u64 (phys + SZ_2M))
  else
    alloc_init_l3 l0pgtable addr next phys fl;;
    mret (next, u64 (phys + u64 (next - addr))).
Definition alloc_init_l2 (l0pgtable addr end_ phys : Z) (fl : attr) : kern mmu unit :=
  let l0pte := l0pte_offset l0pgtable addr in
  bug_zero l0pte;;
  do_while 512 (l2_body l0pgtable l0pte fl end_) end_ addr phys.

Definition l1_body (l0pgtable : Z) (fl : attr) (end_ addr phys : Z) : kern mmu (Z * Z) :=
  let l0pte := l0pte_offset l0pgtable addr in
  ensure_table fl l0pte;;
  l1pte ← l1pte_offset l0pte addr;
  let next := l1_addr_end addr end_ in
  if block_aligned SZ_1G addr next phys then
    put_pte l1pte (set_block fl addr phys (Z.land phys TTB_L1_BLOCK_ADDR_MASK));;
    mret (u64 (addr + SZ_1G), u64 (phys + SZ_1G))
  else
    alloc_init_l2 l0pgtable addr next phys fl;;
    mret (next, u64 (phys + u64 (next - addr))).
Definition alloc_init_l1 (l0pgtable addr end_ phys : Z) (fl : attr) : kern mmu unit :=
  do_while 256 (l1_body l0pgtable fl end_) end_ addr phys.

Definition l0_body (pgtable : Z) (fl : attr) (end_ addr phys : Z) : kern mmu (Z * Z) :=
  let next := l0_addr_end addr end_ in
  alloc_init_l1 pgtable addr next phys fl;;
  mret (next, u64 (phys + u64 (next - addr))).

(** [pgtable] null is [None]; [sys_root] is [__sys_root_pgtable].  The outer loop
    visits every 256 GB block the range touches. *)
Definition __create_mapping (sys_root : Z) (pgtable : option Z) (virt_base phys_base size : Z) (fl : attr) : kern mmu unit :=
  let pgtable := default sys_root pgtable in
  lift (bug_on (size =? 0));;
  let addr := page_base virt_base in
  let length := ALIGN_UP (u64 (size + page_off virt_base)) PAGE_SIZE in
  let end_ := u64 (addr + length) in
  do_while (Z.to_nat (length / SZ_256G + 2)) (l0_body pgtable fl end_) end_ addr phys_base.
Definition create_mapping (vt : bool) (sys_root : Z) (pgtable : option Z) (virt_base phys_base size : Z) (nocache : bool) : kern mmu unit :=
  __create_mapping sys_root pgtable virt_base phys_base size (Attr vt nocache S1).

(** *** The software walk *)
Definition bug_type (p : Z * Z) (ty : Z) : kern mmu unit := e ← pte_at p; lift (bug_on (negb (pte_type e =? ty))).

(** [current_pgtable()] is [cur]. *)
Definition virt_to_phys_pt (sys_root cur vaddr : Z) : kern mmu Z :=
  let offset := u32 (page_off vaddr) in
  let l0pte := l0pte_offset (if user_space_vaddr vaddr then cur else sys_root) vaddr in
  bug_zero l0pte;;
  l1pte ← l1pte_offset l0pte vaddr;
  bug_zero l1pte;;
  e1 ← pte_at l1pte;
  if pte_type e1 =? PTE_TYPE_BLOCK then mret (Z.lor (Z.land e1 TTB_L1_BLOCK_ADDR_MASK) offset)
  else
    bug_type l1pte PTE_TYPE_TABLE;;
    l2pte ← l2pte_offset l1pte vaddr;
    bug_zero l2pte;;
    e2 ← pte_at l2pte;
    if pte_type e2 =? PTE_TYPE_BLOCK then mret (Z.lor (Z.land e2 TTB_L2_BLOCK_ADDR_MASK) offset)
    else
      bug_type l2pte PTE_TYPE_TABLE;;
      l3pte ← l3pte_offset l2pte vaddr;
      bug_zero l3pte;;
      bug_type l3pte PTE_TYPE_PAGE;;
      e3 ← pte_at l3pte;
      mret (Z.lor (Z.land e3 TTB_L3_PAGE_ADDR_MASK) offset).

(** *** Release *)
(** [empty_table]: [n] entries to go from the pointer on. *)
Fixpoint empty_from (n : nat) (p : Z * Z) : kern mmu bool :=
  match n with
  | O => mret true
  | S n' => e ← pte_at p; if negb (e =? 0) then mret false else empty_from n' (p.1, p.2 + 1)
  end.
Definition empty_table (p : Z * Z) : kern mmu bool := empty_from (Z.to_nat TTB_ENTRIES) p.
(** [free] of a pointer that is not the start of an allocated table is undefined. *)
Definition free_table (p : Z * Z) : kern mmu unit :=
  if p.2 =? 0 then m ← gets tables; _ ← lift (deref (m !! p.1)); modify (with_tables (delete p.1)) else raise Undef.
Definition free_if_empty (p : Z * Z) : kern mmu unit := b ← empty_table p; when b (free_table p).

(** One round of the loop: what it released, or [None] for the early return. *)
Definition release_body (pgtable vaddr : Z) : kern mmu (option Z) :=
  let l0pte := l0pte_offset pgtable vaddr in
  e0 ← pte_at l0pte;
  if e0 =? 0 then mret None
  else
    l1pte ← l1pte_offset l0pte vaddr;
    bug_zero l1pte;;
    e1 ← pte_at l1pte;
    if pte_type e1 =? PTE_TYPE_BLOCK then
      put_pte l1pte 0;; free_if_empty l0pte;; mret (Some SZ_1G)
    else
      bug_type l1pte PTE_TYPE_TABLE;;
      l2pte ← l2pte_offset l1pte vaddr;
      bug_zero l2pte;;
      e2 ← pte_at l2pte;
      if pte_type e2 =? PTE_TYPE_BLOCK then
        put_pte l2pte 0;; free_if_empty l1pte;; mret (Some SZ_2M)
      else
        bug_type l2pte PTE_TYPE_TABLE;;
        l3pte ← l3pte_offset l2pte vaddr;
        bug_zero l3pte;;
        put_pte l3pte 0;;
        free_if_empty l2pte;;
        mret (Some PAGE_SIZE).

(** [while (free_size < size)]; [false] after the early return. *)
Fixpoint release_loop (fuel : nat) (pgtable vaddr size free_size : Z) : kern mmu bool :=
  if free_size <? size then
    match fuel with
    | O => raise Hang
    | S f =>
        r ← release_body pgtable vaddr;
        match r with
        | None => mret false
        | Some d => release_loop f pgtable (u64 (vaddr + d)) size (u64 (free_size + d))
        end
    end
  else mret true.

Definition release_mapping (sys_root : Z) (pgtable : option Z) (vaddr size : Z) : kern mmu unit :=
  let pgtable := default sys_root pgtable in
  let vaddr := page_base vaddr in
  let size := ALIGN_UP (u64 (size + page_off vaddr)) PAGE_SIZE in
  b ← release_loop (Z.to_nat (size / PAGE_SIZE + 1)) pgtable vaddr size 0;
  when b (free_if_empty (pgtable, 0)).

Definition new_root_pgtable : kern mmu Z := new_table.

(** *** Tearing a tree down *)
(** The loop over the entries of a table, [n] entries to go from [i] on; [child] is
    the work on the table an entry refers to. *)
Fixpoint reset_entries (n : nat) (pgtable i : Z) (child : Z -> kern mmu unit) : kern mmu unit :=
  match n with
  | O => mret tt
  | S n' =>
      pte ← pte_at (pgtable, i);
      when (negb (pte =? 0) && (pte_type pte =? PTE_TYPE_TABLE))
        (let child_pgtable := Z.land pte TTB_TABLE_ADDR_MASK in
         child child_pgtable;; free_table (child_pgtable, 0);; put_pte (pgtable, i) 0);;
      reset_entries n' pgtable (i + 1) child
  end.
(** [__reset_pgtable(pgtable, level)], with [depth = 2 - level] levels to descend. *)
Fixpoint reset_pgtable (depth : nat) (pgtable : Z) : kern mmu unit :=
  reset_entries (Z.to_nat TTB_ENTRIES) pgtable 0
    (fun child => match depth with O => mret tt | S d => reset_pgtable d child end).
Definition reset_root_pgtable (pgtable : Z) (remove : bool) : kern mmu unit :=
  reset_pgtable 2 pgtable;; when remove (free_table (pgtable, 0)).

End Mmu.
