(* ===== verification/MmuMap.v ===== *)
(** Address spaces described by page tables: what a tree of tables maps, and how
    single writes change it.

    Virtual addresses are taken modulo 2^48, as the tables see them.  [tab] and
    [ent] follow the tables from the root to a level, [translate] is the
    translation of the architecture (4 KB granule, blocks of 1 GB and 2 MB), and
    [wf] says that the tables form a tree. *)
From S2P Require Import Prelude Frames Mmu.

Module MmuMap.
Import Mmu.

(** *** Masks and flags *)
Lemma addr_mask_spec y k : 0 <= y -> 0 <= k <= 48 -> Z.land y (addr_mask k) = (y mod 2 ^ 48) / 2 ^ k * 2 ^ k.
Proof.
  intros Hy Hk. apply Z.bits_inj'. intros j Hj. rewrite <- Z.shiftr_div_pow2, <- Z.shiftl_mul_pow2, Z.shiftl_spec by lia.
  rewrite Z.land_spec. unfold addr_mask. rewrite Z.land_spec. change (2 ^ 48 - 1) with (Z.ones 48).
  rewrite testbit_ones by lia. destruct (Z.ltb_spec j k).
  - rewrite (Z.testbit_neg_r _ (j - k)) by lia. rewrite wnot_spec by lia. replace (2 ^ k - 1) with (Z.ones k) by (rewrite Z.ones_equiv; lia).
    rewrite testbit_ones by lia. rewrite (proj2 (Z.ltb_lt j k)) by lia. by rewrite andb_false_r.
  - rewrite Z.shiftr_spec by lia. replace (j - k + k) with j by lia. destruct (Z.ltb_spec j 48).
    + rewrite Z.mod_pow2_bits_low by lia. rewrite wnot_spec by lia. replace (2 ^ k - 1) with (Z.ones k) by (rewrite Z.ones_equiv; lia).
      rewrite testbit_ones by lia. rewrite (proj2 (Z.ltb_ge j k)) by lia. by rewrite !andb_true_r.
    + rewrite Z.mod_pow2_bits_high by lia. by rewrite !andb_false_r.
Qed.

Lemma lor_low x c k : 0 <= k -> x mod 2 ^ k = 0 -> 0 <= c < 2 ^ k -> Z.lor x c = x + c.
Proof.
  intros Hk Hx Hc. rewrite <- Z.add_nocarry_lor; [done|]. apply Z.bits_inj'. intros j Hj. rewrite Z.land_spec, Z.bits_0.
  destruct (Z.lt_ge_cases j k).
  - rewrite <- (Z.mod_pow2_bits_low x k j), Hx, Z.bits_0 by lia. done.
  - rewrite (testbit_in_word k c) by (done || lia). apply andb_false_r.
Qed.

(** The attribute bits of a leaf. *)
Definition attrs (e : Z) : Z := Z.land e 4092.
Definition leaf_attrs (fl : attr) (user : bool) : Z :=
  match arm64vt fl, stage fl with
  | false, _ => Z.lor (Z.lor PTE_ATTRS (memtype (nocache fl))) (if user then PTE_BLOCK_AP1 else 0)
  | true, S1 => Z.lor PTE_ATTRS (memtype (nocache fl))
  | true, S2 => Z.lor (Z.lor (Z.lor PTE_BLOCK_AF PTE_BLOCK_INNER_SHARE) S2_PTE_ACCESS_RW) (memtype_S2 (nocache fl))
  end.

Lemma land_small x c m : x mod 4096 = 0 -> 0 <= c < 4096 -> 0 <= m < 4096 -> Z.land (x + c) m = Z.land c m.
Proof.
  intros Hx Hc Hm. rewrite <- (lor_low x c 12) by (done || lia). rewrite Z.land_lor_distr_l.
  assert (E : Z.land x m = 0); [|rewrite E; apply Z.lor_0_l]. apply Z.bits_inj'. intros j Hj. rewrite Z.land_spec, Z.bits_0.
  destruct (Z.lt_ge_cases j 12).
  - rewrite <- (Z.mod_pow2_bits_low x 12 j) by lia. change (2 ^ 12) with 4096. rewrite Hx, Z.bits_0. done.
  - rewrite (testbit_in_word 12 m) by (done || lia). apply andb_false_r.
Qed.

Lemma low_flags x c k :
  12 <= k <= 48 -> 0 <= x < 2 ^ 48 -> x mod 2 ^ k = 0 -> 0 <= c < 4096 ->
  pte_type (x + c) = Z.land c 3 /\ attrs (x + c) = Z.land c 4092 /\ Z.land (x + c) (addr_mask k) = x.
Proof.
  intros Hk Hx Hm Hc. assert (Hp : 2 ^ k = 4096 * 2 ^ (k - 12)) by (change 4096 with (2 ^ 12); rewrite <- Z.pow_add_r by lia; f_equal; lia).
  assert (H12 : x mod 4096 = 0).
  { apply Z.mod_divide in Hm; [|lia]. destruct Hm as [q ->]. rewrite Hp. apply Z.mod_divide; [lia|]. exists (q * 2 ^ (k - 12)). lia. }
  assert (0 < 2 ^ (k - 12)) by lia.
  split; [by apply land_small|]. split; [by apply land_small|]. rewrite addr_mask_spec by lia.
  rewrite (Z.mod_small (x + c)).
  - apply Z.mod_divide in Hm; [|lia]. destruct Hm as [q ->]. rewrite Z.div_add_l by lia. rewrite (Z.div_small c) by nia. lia.
  - split; [lia|]. apply Z.mod_divide in H12; [|lia]. destruct H12 as [q ->].
    change (2 ^ 48) with (68719476736 * 4096) in *. lia.
Qed.

Definition leaf_entry (page : bool) (x : Z) (fl : attr) (user : bool) : Z :=
  x + Z.lor (if page then PTE_TYPE_PAGE else PTE_TYPE_BLOCK) (leaf_attrs fl user).

Lemma set_pte_leaf page x k fl addr phys :
  12 <= k <= 48 -> 0 <= x < 2 ^ 48 -> x mod 2 ^ k = 0 ->
  (if page : bool then set_page else set_block) fl addr phys (Z.land x (addr_mask k)) =
  leaf_entry page x fl (negb (addr =? phys) && user_space_vaddr addr).
Proof.
  intros Hk Hx Hm. replace (Z.land x (addr_mask k)) with x.
  2:{ rewrite <- (Z.add_0_r x) at 2. symmetry. apply low_flags; (done || lia). }
  assert (H12 : x mod 2 ^ 12 = 0).
  { apply Z.mod_divide in Hm; [|lia]. destruct Hm as [q ->]. apply Z.mod_divide; [lia|]. exists (q * 2 ^ (k - 12)).
    rewrite <- Z.mul_assoc, <- Z.pow_add_r by lia. do 2 f_equal. lia. }
  unfold leaf_entry, set_page, set_block, set_user. destruct fl as [[] [] []], page, (negb (addr =? phys) && user_space_vaddr addr); cbn [arm64vt stage nocache];
    unfold set_pte_page, set_pte_block, set_pte_page_S2, set_pte_block_S2; rewrite <- !Z.lor_assoc; rewrite (lor_low x _ 12) by (done || (split; reflexivity || (intros H; discriminate H))); reflexivity.
Qed.

Lemma leaf_entry_spec page x k fl user :
  12 <= k <= 48 -> 0 <= x < 2 ^ 48 -> x mod 2 ^ k = 0 ->
  let e := leaf_entry page x fl user in
  pte_type e = (if page then 3 else 1) /\ attrs e = leaf_attrs fl user /\ Z.land e (addr_mask k) = x /\ e <> 0.
Proof.
  intros Hk Hx Hm e. destruct (low_flags x (Z.lor (if page then PTE_TYPE_PAGE else PTE_TYPE_BLOCK) (leaf_attrs fl user)) k) as (H1 & H2 & H3);
    [done|done|done|by destruct fl as [[] [] []], page, user|]. unfold e, leaf_entry. rewrite H1, H2, H3.
  split_and!; [by destruct fl as [[] [] []], page, user..|done|].
  intros E. rewrite E in H1. by destruct fl as [[] [] []], page, user.
Qed.

Definition table_entry (fl : attr) (t : Z) : Z := set_table fl (Z.land t TTB_TABLE_ADDR_MASK).

Lemma table_flags t x : 0 <= t < 2 ^ 48 -> t mod 4096 = 0 -> x = 0 \/ x = 2 ^ 63 ->
  pte_type (t + 3 + x) = 3 /\ Z.land (t + 3 + x) TTB_TABLE_ADDR_MASK = t /\ t + 3 + x <> 0.
Proof.
  intros Ht Hm Hx. assert (Hx0 : 0 <= x /\ x mod 4096 = 0 /\ exists q, x = q * 2 ^ 48) by (destruct Hx as [->| ->]; split_and!; (done || (by exists 0) || (by exists 32768))).
  destruct Hx0 as (H0 & Hxm & q & Eq). split_and!.
  - unfold pte_type. replace (t + 3 + x) with ((t + x) + 3) by lia. rewrite land_small; [done| |lia|lia].
    rewrite Z.add_mod, Hm, Hxm by lia. done.
  - unfold TTB_TABLE_ADDR_MASK. rewrite addr_mask_spec, Eq, Z_mod_plus_full, Z.mod_small by lia || (
      apply Z.mod_divide in Hm as [r ->]; [|lia]; change (2 ^ 48) with (68719476736 * 4096) in *; lia).
    change (2 ^ 12) with 4096. apply Z.mod_divide in Hm as [r ->]; [|lia]. rewrite Z.div_add_l by lia. rewrite (Z.div_small 3) by lia. lia.
  - lia.
Qed.

Lemma table_entry_spec fl t :
  0 <= t < 2 ^ 48 -> t mod 4096 = 0 ->
  pte_type (table_entry fl t) = 3 /\ Z.land (table_entry fl t) TTB_TABLE_ADDR_MASK = t /\ table_entry fl t <> 0.
Proof.
  intros Ht Hm. assert (Hmask : Z.land t TTB_TABLE_ADDR_MASK = t).
  { rewrite <- (Z.add_0_r t) at 1. apply (low_flags t 0 12); (done || lia). }
  assert (E3 : Z.lor t PTE_TYPE_TABLE = t + 3) by (by apply (lor_low t 3 12)).
  assert (Hs : Z.lor (t + 3) (2 ^ 63) = t + 3 + 2 ^ 63).
  { rewrite Z.lor_comm, (lor_low (2 ^ 63) (t + 3) 63); [lia|lia|done|].
    change (2 ^ 48) with 281474976710656 in Ht. change (2 ^ 63) with 9223372036854775808. lia. }
  assert (E : exists x, table_entry fl t = t + 3 + x /\ (x = 0 \/ x = 2 ^ 63)).
  { unfold table_entry, set_table, set_pte_table, set_pte_table_S2. rewrite Hmask, E3. destruct fl as [[] ? []]; cbn [arm64vt stage];
      [exists (2 ^ 63)|exists 0|exists (2 ^ 63)..]; rewrite ?Hs; split; (done || lia || auto). }
  destruct E as (x & -> & Hx). by apply table_flags.
Qed.


(** *** Prefixes of an address *)
Definition low (v : Z) : Prop := 0 <= v < 2 ^ 48.
(** What selects the table of level [k]: all addresses with this prefix share it. *)
Definition tpre (k : nat) (v : Z) : Z := v / 2 ^ (48 - 9 * Z.of_nat k).
Definition idx (k : nat) (v : Z) : Z := tpre (S k) v mod 512.

Lemma tpre_step k v : (k <= 3)%nat -> 0 <= v -> tpre (S k) v = 512 * tpre k v + idx k v /\ 0 <= idx k v < 512.
Proof.
  intros Hk Hv. unfold idx, tpre. set (p := 48 - 9 * Z.of_nat (S k)).
  replace (48 - 9 * Z.of_nat k) with (p + 9) by lia. rewrite Z.pow_add_r by lia. rewrite <- Z.div_div by lia.
  change (2 ^ 9) with 512. pose proof (Z.div_mod (v / 2 ^ p) 512). pose proof (Z.mod_pos_bound (v / 2 ^ p) 512). lia.
Qed.

Lemma tpre_eq k v v' : (k <= 3)%nat -> 0 <= v -> 0 <= v' -> (tpre (S k) v = tpre (S k) v' <-> tpre k v = tpre k v' /\ idx k v = idx k v').
Proof. intros Hk Hv Hv'. pose proof (tpre_step k v Hk Hv). pose proof (tpre_step k v' Hk Hv'). lia. Qed.

Lemma tpre_0 v : low v -> tpre 0 v = 0.
Proof. intros Hv. by apply Z.div_small. Qed.

(** Addresses of one chunk of size [2 ^ (48 - 9 k)]. *)
Lemma tpre_chunk k v v' : (k <= 4)%nat -> let c := 2 ^ (48 - 9 * Z.of_nat k) in
  v mod c = 0 -> (tpre k v' = tpre k v <-> v <= v' < v + c).
Proof.
  intros Hk c Hv. assert (Hc : 0 < c) by (unfold c; lia). unfold tpre. fold c.
  pose proof (Z.div_mod v c). pose proof (Z.div_mod v' c). pose proof (Z.mod_pos_bound v' c). split; intros H2; [|nia].
  nia.
Qed.

(** The code's indices. *)
Lemma index_low a k : 0 <= a -> (k <= 3)%nat ->
  Z.land (Z.shiftr a (48 - 9 * Z.of_nat (S k))) (TTB_ENTRIES - 1) = idx k (a mod 2 ^ 48).
Proof.
  intros Ha Hk. change (TTB_ENTRIES - 1) with (Z.ones 9). rewrite Z.land_ones, Z.shiftr_div_pow2 by lia. unfold idx, tpre.
  set (p := 48 - 9 * Z.of_nat (S k)). assert (Hp : 12 <= p <= 39) by lia. change (2 ^ 9) with 512.
  rewrite (Z.div_mod a (2 ^ 48)) at 1 by lia. replace (2 ^ 48 * (a / 2 ^ 48) + a mod 2 ^ 48) with (a / 2 ^ 48 * 2 ^ (48 - p - 9) * 512 * 2 ^ p + a mod 2 ^ 48).
  - rewrite Z.div_add_l by lia. rewrite Z.add_comm, Z_mod_plus_full. done.
  - replace (2 ^ 48) with (2 ^ (48 - p - 9) * 512 * 2 ^ p) at 3; [lia|]. change 512 with (2 ^ 9). rewrite <- !Z.pow_add_r by lia. f_equal. lia.
Qed.

(** *** Walks *)
Section walk.
Context (root : Z).
Implicit Types (m : gmap Z (list Z)) (s : mmu).

Fixpoint tab m (k : nat) (v : Z) : option Z :=
  match k with
  | O => Some root
  | S j => t ← tab m j v; l ← m !! t; e ← l !! Z.to_nat (idx j v);
           if pte_type e =? 3 then Some (Z.land e TTB_TABLE_ADDR_MASK) else None
  end.
Definition ent m (k : nat) (v : Z) : option Z := t ← tab m k v; l ← m !! t; l !! Z.to_nat (idx k v).

Lemma tab_S m k v : tab m (S k) v = e ← ent m k v; if pte_type e =? 3 then Some (Z.land e TTB_TABLE_ADDR_MASK) else None.
Proof. unfold ent. cbn [tab]. destruct (tab m k v) as [t|]; [|done]. simpl. by destruct (m !! t). Qed.

(** The translation of the architecture: address and attributes. *)
Definition leaf (k e v : Z) : Z * Z := (Z.land e (addr_mask k) + v mod 2 ^ k, attrs e).
Definition translate m (v : Z) : option (Z * Z) :=
  e0 ← ent m 0 v;
  if negb (pte_type e0 =? 3) then None
  else
    e1 ← ent m 1 v;
    if pte_type e1 =? 1 then Some (leaf 30 e1 v)
    else if negb (pte_type e1 =? 3) then None
    else
      e2 ← ent m 2 v;
      if pte_type e2 =? 1 then Some (leaf 21 e2 v)
      else if negb (pte_type e2 =? 3) then None
      else
        e3 ← ent m 3 v;
        if pte_type e3 =? 3 then Some (leaf 12 e3 v) else None.

(** No block covers the address. *)
Definition noblock m (v : Z) : Prop := forall k e, (k = 1 \/ k = 2)%nat -> ent m k v = Some e -> pte_type e <> 1.

Definition ok_ent (k : nat) (e : Z) : Prop := pte_type e = 3 \/ (k = 1 \/ k = 2)%nat /\ pte_type e = 1.

Record wf s : Prop := {
  wf_tab : forall k v t, (k <= 3)%nat -> low v -> tab (tables s) k v = Some t -> exists l, tables s !! t = Some l /\ length l = 512%nat;
  wf_inj : forall k k' v v' t, (k <= 3)%nat -> (k' <= 3)%nat -> low v -> low v' ->
    tab (tables s) k v = Some t -> tab (tables s) k' v' = Some t -> k = k' /\ tpre k v = tpre k v';
  wf_ent : forall k v e, (k <= 3)%nat -> low v -> ent (tables s) k v = Some e -> e <> 0 -> ok_ent k e;
  wf_heap : NoDup (heap s) /\ forall t, t ∈ heap s -> tables s !! t = None /\ 0 < t < 2 ^ 48 /\ t mod 4096 = 0
}.

Lemma tab_congr m k v v' : (k <= 4)%nat -> 0 <= v -> 0 <= v' -> tpre k v = tpre k v' -> tab m k v = tab m k v'.
Proof.
  intros Hk Hv Hv'. induction k as [|k IH]; [done|]. intros E. apply tpre_eq in E as [E1 E2]; [|lia..].
  cbn [tab]. rewrite IH by (done || lia). by rewrite E2.
Qed.

Lemma ent_congr m k v v' : (k <= 3)%nat -> 0 <= v -> 0 <= v' -> tpre (S k) v = tpre (S k) v' -> ent m k v = ent m k v'.
Proof.
  intros Hk Hv Hv' E. apply tpre_eq in E as [E1 E2]; [|lia..]. unfold ent. by rewrite (tab_congr m k v v'), E2 by (done || lia).
Qed.

Lemma ent_tab m k v e : ent m k v = Some e -> exists t l, tab m k v = Some t /\ m !! t = Some l /\ l !! Z.to_nat (idx k v) = Some e.
Proof.
  unfold ent. intros (t & Ht & (l & Hl & He)%bind_Some)%bind_Some. eauto.
Qed.

Lemma tab_ent s k v t : wf s -> (k <= 3)%nat -> low v -> tab (tables s) k v = Some t -> exists e, ent (tables s) k v = Some e.
Proof.
  intros Hwf Hk Hv Ht. destruct (wf_tab _ Hwf k v t Hk Hv Ht) as (l & Hl & Hlen). unfold ent. rewrite Ht. simpl. rewrite Hl. simpl.
  apply lookup_lt_is_Some_2. pose proof (tpre_step k v Hk (proj1 Hv)). lia.
Qed.

Lemma translate_ext m m' v : (forall k, (k <= 3)%nat -> ent m' k v = ent m k v) -> translate m' v = translate m v.
Proof. intros H. unfold translate. by rewrite !H by lia. Qed.

(** *** Writing an entry *)
Section write.
Context s (Hwf : wf s) (k : nat) (v t e : Z) (Hk : (k <= 3)%nat) (Hv : low v) (Ht : tab (tables s) k v = Some t).
Let m' := alter <[Z.to_nat (idx k v) := e]> t (tables s).

Lemma write_other u : u <> t -> m' !! u = tables s !! u.
Proof. intros Hu. unfold m'. by rewrite lookup_alter_ne. Qed.

Lemma write_ent_ne j w :
  (j <= 3)%nat -> low w -> tab m' j w = tab (tables s) j w -> j <> k \/ tpre (S k) w <> tpre (S k) v -> ent m' j w = ent (tables s) j w.
Proof.
  intros Hj Hw E Hne. unfold ent. rewrite E. destruct (tab (tables s) j w) as [u|] eqn:Eu; [|done]. simpl.
  destruct (decide (u = t)) as [->|Hu]; [|by rewrite write_other].
  destruct (wf_inj _ Hwf j k w v t Hj Hk Hw Hv Eu Ht) as [-> Hpre]. destruct Hne as [?|Hne]; [done|].
  unfold m'. rewrite lookup_alter_eq. destruct (tables s !! t) as [l|]; [|done]. simpl.
  rewrite list_lookup_insert_ne; [done|]. intros Ei. apply Hne. apply tpre_eq; [done|apply Hw|apply Hv|]. split; [done|].
  pose proof (tpre_step k v Hk (proj1 Hv)). pose proof (tpre_step k w Hk (proj1 Hw)). lia.
Qed.

Lemma write_tab j w : (j <= k)%nat -> low w -> tab m' j w = tab (tables s) j w.
Proof.
  intros Hj Hw. induction j as [|j IH]; [done|]. rewrite !tab_S. rewrite (write_ent_ne j w); [done|lia|done|apply IH; lia|left; lia].
Qed.

Lemma write_ent j w : (j <= k)%nat -> low w ->
  ent m' j w = if decide (j = k /\ tpre (S k) w = tpre (S k) v) then Some e else ent (tables s) j w.
Proof.
  intros Hj Hw. case_decide as E.
  - destruct E as [-> E]. rewrite (ent_congr m' k w v Hk (proj1 Hw) (proj1 Hv) E). unfold ent. rewrite write_tab, Ht by (done || lia). simpl.
    unfold m'. rewrite lookup_alter_eq. destruct (wf_tab _ Hwf k v t Hk Hv Ht) as (l & Hl & Hlen). rewrite Hl. simpl.
    apply list_lookup_insert_eq. pose proof (tpre_step k v Hk (proj1 Hv)). lia.
  - apply write_ent_ne; [lia|done|by apply write_tab|]. destruct (decide (j = k)) as [->|]; [right; tauto|by left].
Qed.

(** Addresses that do not go through the entry see no change. *)
Lemma write_far j w : (j <= 3)%nat -> low w -> tpre (S k) w <> tpre (S k) v ->
  tab m' j w = tab (tables s) j w /\ ent m' j w = ent (tables s) j w.
Proof.
  intros Hj Hw Hne. assert (Htab : tab m' j w = tab (tables s) j w).
  { induction j as [|j IH]; [done|]. rewrite !tab_S. rewrite (write_ent_ne j w); [done|lia|done|apply IH; lia|by right]. }
  split; [done|]. apply write_ent_ne; [done|done|done|by right].
Qed.
End write.

End walk.


(** *** Paths *)
Section paths.
Context (root : Z).
Implicit Types (m : gmap Z (list Z)) (s : mmu).

Lemma tab_path m k v t : tab root m (S k) v = Some t ->
  exists e u, ent root m k v = Some e /\ pte_type e = 3 /\ Z.land e TTB_TABLE_ADDR_MASK = t /\ tab root m k v = Some u.
Proof.
  rewrite tab_S. intros (e & He & Ht)%bind_Some. destruct (Z.eqb_spec (pte_type e) 3) as [E|]; [|done]. injection Ht as Ht.
  destruct (ent_tab root m k v e He) as (u & _ & Hu & _). eauto 10.
Qed.

Lemma tab_None m j k v : (k <= j)%nat -> tab root m k v = None -> tab root m j v = None.
Proof. intros Hj Hk. induction Hj as [|j Hj IH]; [done|]. cbn [tab]. by rewrite IH. Qed.

Lemma ent_None m j k v : (k <= j)%nat -> tab root m k v = None -> ent root m j v = None.
Proof. intros Hj Hk. unfold ent. by rewrite (tab_None m j k). Qed.

(** The entries above a table that is reached are tables. *)
Lemma tab_above m k v t : tab root m k v = Some t -> forall j, (j < k)%nat -> exists e, ent root m j v = Some e /\ pte_type e = 3.
Proof.
  revert t. induction k as [|k IH]; intros t Ht j Hj; [lia|]. destruct (tab_path m k v t Ht) as (e & u & He & Hty & _ & Hu).
  destruct (decide (j = k)) as [->|]; [eauto|]. apply (IH u Hu). lia.
Qed.

Lemma ent_above m k v e : ent root m k v = Some e -> forall j, (j < k)%nat -> exists e', ent root m j v = Some e' /\ pte_type e' = 3.
Proof. intros (t & _ & Ht & _)%ent_tab. by eapply tab_above. Qed.

(** Follow a table entry in a walk. *)
Ltac follow Hup j :=
  let e := fresh "e" in let E := fresh "E" in let T := fresh "T" in let T' := fresh "T" in
  destruct (Hup j) as (e & E & T & T'); [lia|]; rewrite E; simpl; rewrite ?T, ?T'; simpl.

(** An entry that is neither a table nor a block stops the walk. *)
Lemma translate_stop m k v e :
  (k <= 3)%nat -> ent root m k v = Some e -> pte_type e <> 3 -> pte_type e <> 1 -> translate root m v = None.
Proof.
  intros Hk He H3 H1. pose proof (ent_above m k v e He) as Ha. unfold translate.
  assert (Hup : forall j, (j < k)%nat -> exists e', ent root m j v = Some e' /\ (pte_type e' =? 3) = true /\ (pte_type e' =? 1) = false).
  { intros j Hj. destruct (Ha j Hj) as (e' & E & T). exists e'. rewrite T. done. }
  apply Z.eqb_neq in H3, H1. destruct k as [|[|[|[|k]]]]; [..|lia];
    [|follow Hup 0%nat|follow Hup 0%nat; follow Hup 1%nat|follow Hup 0%nat; follow Hup 1%nat; follow Hup 2%nat];
    rewrite He; simpl; by rewrite ?H1, ?H3.
Qed.

(** A leaf translates all addresses that go through it. *)
Definition leaf_type (k : nat) : Z := if decide (k = 3%nat) then 3 else 1.
Definition leaf_shift (k : nat) : Z := 48 - 9 * Z.of_nat (S k).
Lemma translate_leaf m k v e :
  (1 <= k <= 3)%nat -> ent root m k v = Some e -> pte_type e = leaf_type k -> translate root m v = Some (leaf (leaf_shift k) e v).
Proof.
  intros Hk He Ht. pose proof (ent_above m k v e He) as Ha. unfold translate.
  assert (Hup : forall j, (j < k)%nat -> exists e', ent root m j v = Some e' /\ (pte_type e' =? 3) = true /\ (pte_type e' =? 1) = false).
  { intros j Hj. destruct (Ha j Hj) as (e' & E & T). exists e'. rewrite T. done. }
  destruct k as [|[|[|[|k]]]]; [lia|..|lia]; unfold leaf_type in Ht; cbn in Ht;
    [follow Hup 0%nat|follow Hup 0%nat; follow Hup 1%nat|follow Hup 0%nat; follow Hup 1%nat; follow Hup 2%nat];
    rewrite He; simpl; by rewrite ?Ht.
Qed.
End paths.

(** The leaf that translates [v] covers only addresses of [a, b). *)
Definition leaf_within (root : Z) (m : gmap Z (list Z)) (v a b : Z) : Prop :=
  exists k e, (1 <= k <= 3)%nat /\ ent root m k v = Some e /\ pte_type e = leaf_type k /\
    let c := 2 ^ leaf_shift k in a <= v / c * c /\ v / c * c + c <= b.

(** ** One step of a mapping *)
Section steps.
(** The range maps [v] to [v + off]. *)
Context (root off : Z) (fl : attr) (user : bool).
Implicit Types (m : gmap Z (list Z)) (s : mmu).

Definition reachable s (t : Z) : Prop := exists k v, (k <= 3)%nat /\ low v /\ tab root (tables s) k v = Some t.

(** From [s] to [s'] the addresses of [a, b) are mapped, the translation of the
    others is as before, the tables up to level [L] keep their place, [n] new
    tables are taken from the heap, and no table outside the tree is touched. *)
Record mapped (L : nat) s s' (a b : Z) (n : nat) : Prop := {
  mp_wf : wf root s';
  mp_trans : forall v, low v -> translate root (tables s') v =
    if decide (a <= v < b) then Some (v + off, leaf_attrs fl user) else translate root (tables s) v;
  mp_noblock : forall v, low v -> ~ (a <= v < b) -> noblock root (tables s) v -> noblock root (tables s') v;
  mp_tab : forall j v t, (j <= L)%nat -> low v -> tab root (tables s) j v = Some t -> tab root (tables s') j v = Some t;
  mp_heap : heap s' = drop n (heap s);
  mp_reach : forall t, reachable s' t -> t ∈ heap s \/ reachable s t;
  mp_frame : forall t, t ∉ heap s -> ~ reachable s t -> tables s' !! t = tables s !! t;
  mp_keep : forall j v e, (j <= 3)%nat -> low v -> ~ (a <= v < b) -> ent root (tables s) j v = Some e -> e <> 0 -> ent root (tables s') j v = Some e;
  mp_leaf : forall v, a <= v < b -> low v -> leaf_within root (tables s') v a b
}.

Lemma mapped_refl L s a : wf root s -> mapped L s s a a 0.
Proof.
  intros Hwf. split; try done.
  - intros v Hv. rewrite decide_False by lia. done.
  - auto.
  - intros v Hv. lia.
Qed.

Lemma mapped_app L s s1 s2 a b c n1 n2 :
  a <= b <= c -> mapped L s s1 a b n1 -> mapped L s1 s2 b c n2 -> mapped L s s2 a c (n1 + n2).
Proof.
  intros Habc H1 H2. split.
  - apply H2.
  - intros v Hv. rewrite (mp_trans _ _ _ _ _ _ H2 v Hv). rewrite (mp_trans _ _ _ _ _ _ H1 v Hv).
    repeat case_decide; (done || lia).
  - intros v Hv Hn Hb. apply (mp_noblock _ _ _ _ _ _ H2); [done|lia|]. apply (mp_noblock _ _ _ _ _ _ H1); [done|lia|done].
  - intros j v t Hj Hv Ht. apply (mp_tab _ _ _ _ _ _ H2); [done|done|]. by apply (mp_tab _ _ _ _ _ _ H1).
  - rewrite (mp_heap _ _ _ _ _ _ H2), (mp_heap _ _ _ _ _ _ H1), drop_drop. done.
  - intros t Ht. destruct (mp_reach _ _ _ _ _ _ H2 t Ht) as [Hh|Hr]; [|by apply (mp_reach _ _ _ _ _ _ H1)].
    left. rewrite (mp_heap _ _ _ _ _ _ H1) in Hh. apply list_elem_of_lookup in Hh as [i Hi]. rewrite lookup_drop in Hi. by eapply list_elem_of_lookup_2.
  - intros t Hh Hr. rewrite (mp_frame _ _ _ _ _ _ H2).
    + by apply (mp_frame _ _ _ _ _ _ H1).
    + rewrite (mp_heap _ _ _ _ _ _ H1). intros [i Hi]%list_elem_of_lookup. rewrite lookup_drop in Hi. by apply Hh, (list_elem_of_lookup_2 _ _ _ Hi).
    + intros [?|?]%(mp_reach _ _ _ _ _ _ H1); done.
  - intros j v e Hj Hv Hn He Hne. apply (mp_keep _ _ _ _ _ _ H2); [done|done|lia| |done]. apply (mp_keep _ _ _ _ _ _ H1); [done|done|lia|done|done].
  - intros v Hv Hl. destruct (Z.lt_ge_cases v b) as [Hlt|Hge].
    + destruct (mp_leaf _ _ _ _ _ _ H1 v ltac:(lia) Hl) as (k & e & Hk & He & Ht & Hc). exists k, e. cbv zeta in *. split; [done|split; [|split; [done|lia]]].
      apply (mp_keep _ _ _ _ _ _ H2); [lia|done|lia|done|]. intros ->. unfold leaf_type in Ht. case_decide; done.
    + destruct (mp_leaf _ _ _ _ _ _ H2 v ltac:(lia) Hl) as (k & e & Hk & He & Ht & Hc). exists k, e. cbv zeta in *. split; [done|split; [done|split; [done|lia]]].
Qed.

Lemma mapped_level L L' s s' a b n : (L' <= L)%nat -> mapped L s s' a b n -> mapped L' s s' a b n.
Proof. intros HL [A1 A2 A3 A4 A5 A6 A7 A8 A9]. split; try done. intros j v t Hj. apply A4. lia. Qed.

(** *** Writing an entry that ends the walk *)
Section stop_write.
Context s (Hwf : wf root s) (k : nat) (v t e : Z) (Hk : (k <= 3)%nat) (Ht : tab root (tables s) k v = Some t) (Hv : low v).
Context (Hstop : k = 3%nat \/ pte_type e <> 3) (Hent : e <> 0 -> ok_ent k e).
Let s' := with_tables (alter <[Z.to_nat (idx k v) := e]> t) s.

(** No table is below the entry. *)
Lemma stop_write_below j w : (k < j <= 3)%nat -> low w -> tpre (S k) w = tpre (S k) v -> tab root (tables s') j w = None.
Proof.
  intros Hj Hw E. apply (tab_None root _ j (S k)); [lia|]. cbn [tables s' with_tables].
  rewrite tab_S, (write_ent root s Hwf k v t e ltac:(lia) Hv Ht k w) by (done || lia). rewrite decide_True by done. simpl.
  destruct Hstop as [->|H3]; [lia|]. by rewrite (proj2 (Z.eqb_neq _ 3) H3).
Qed.

Lemma stop_write_tab j w u : (j <= 3)%nat -> low w -> tab root (tables s') j w = Some u -> tab root (tables s) j w = Some u.
Proof.
  intros Hj Hw. destruct (decide (tpre (S k) w = tpre (S k) v)) as [E|E].
  2:{ cbn [tables s' with_tables]. by rewrite (proj1 (write_far root s Hwf k v t e ltac:(lia) Hv Ht j w Hj Hw E)). }
  destruct (decide (j <= k)%nat) as [Hle|Hgt]; [cbn [tables s' with_tables]; by rewrite (write_tab root s Hwf k v t e ltac:(lia) Hv Ht j w Hle Hw)|].
  by rewrite stop_write_below by (done || lia).
Qed.

Lemma stop_write_wf : wf root s'.
Proof.
  pose proof (wf_tab _ _ Hwf k v t ltac:(lia) Hv Ht) as (l & Hl & Hlen). split.
  - intros j w u Hj Hw Hu. apply stop_write_tab in Hu; [|done..]. destruct (wf_tab _ _ Hwf j w u Hj Hw Hu) as (l' & Hl' & Hlen').
    cbn [tables s' with_tables]. destruct (decide (u = t)) as [->|]; [|rewrite lookup_alter_ne by done; eauto].
    rewrite lookup_alter_eq, Hl. eexists. split; [done|]. by rewrite length_insert.
  - intros j j' w w' u Hj Hj' Hw Hw' Hu Hu'. apply stop_write_tab in Hu, Hu'; [|done..]. by apply (wf_inj _ _ Hwf j j' w w' u).
  - intros j w f Hj Hw Hf Hf0. destruct (decide (tpre (S k) w = tpre (S k) v)) as [E|E].
    2:{ cbn [tables s' with_tables] in Hf. rewrite (proj2 (write_far root s Hwf k v t e ltac:(lia) Hv Ht j w Hj Hw E)) in Hf. by apply (wf_ent _ _ Hwf j w). }
    destruct (decide (j <= k)%nat) as [Hle|Hgt].
    + cbn [tables s' with_tables] in Hf. rewrite (write_ent root s Hwf k v t e ltac:(lia) Hv Ht j w Hle Hw) in Hf. case_decide as Ej.
      * destruct Ej as [-> _]. injection Hf as <-. by apply Hent.
      * by apply (wf_ent _ _ Hwf j w).
    + destruct (ent_tab root _ j w f Hf) as (u & _ & Hu & _). rewrite stop_write_below in Hu by (done || lia). done.
  - destruct (wf_heap _ _ Hwf) as [Hnd Hh]. split; [done|]. intros u Hu. destruct (Hh u Hu) as (Hn & ?). split; [|done].
    cbn [tables s' with_tables]. rewrite lookup_alter_ne by congruence. done.
Qed.
End stop_write.

(** *** Writing a leaf *)
Section leaf_write.
Context s (Hwf : wf root s) (k : nat) (v t : Z) (Hk : (1 <= k <= 3)%nat) (Ht : tab root (tables s) k v = Some t).
Context (Hv : low v) (Hal : v mod 2 ^ leaf_shift k = 0) (Hoff : (v + off) mod 2 ^ leaf_shift k = 0) (Hrange : 0 <= v + off < 2 ^ 48).
Let e := leaf_entry (bool_decide (k = 3%nat)) (v + off) fl user.
Let s' := with_tables (alter <[Z.to_nat (idx k v) := e]> t) s.

Lemma leaf_write_entry : pte_type e = leaf_type k /\ e <> 0 /\
  forall w, tpre (S k) w = tpre (S k) v -> leaf (leaf_shift k) e w = (w + off, leaf_attrs fl user).
Proof.
  destruct (leaf_entry_spec (bool_decide (k = 3%nat)) (v + off) (leaf_shift k) fl user) as (H1 & H2 & H3 & H4);
    [unfold leaf_shift; lia|done|done|]. fold e in H1, H2, H3, H4. split_and!; [|done|].
  - rewrite H1. unfold leaf_type. by destruct (decide (k = 3%nat)) as [->|]; [rewrite bool_decide_eq_true_2|rewrite bool_decide_eq_false_2].
  - intros w Hw. unfold leaf. rewrite H2, H3. f_equal. apply tpre_chunk in Hw; [|lia|exact Hal]. unfold leaf_shift in *.
    set (c := 2 ^ (48 - 9 * Z.of_nat (S k))) in *. apply Z.mod_divide in Hal; [|lia]. destruct Hal as [q ->].
    replace (w mod c) with (w - q * c); [lia|]. apply (Z.mod_unique _ _ q); lia.
Qed.

Lemma leaf_write_stop : (k = 3%nat \/ pte_type e <> 3) /\ ok_ent k e.
Proof.
  destruct leaf_write_entry as (E1 & _). unfold ok_ent. rewrite E1. unfold leaf_type.
  destruct (decide (k = 3%nat)) as [->|]; [tauto|]. split; [by right|right; split; [lia|done]].
Qed.

Lemma leaf_write_mapped : mapped k s s' v (v + 2 ^ leaf_shift k) 0.
Proof.
  assert (Hin : forall w, tpre (S k) w = tpre (S k) v <-> v <= w < v + 2 ^ leaf_shift k) by (intros w; by apply tpre_chunk; [lia|]).
  split.
  - apply stop_write_wf; try done; [lia|apply leaf_write_stop|intros _; apply leaf_write_stop].
  - intros w Hw. case_decide as E.
    + apply Hin in E. destruct leaf_write_entry as (E1 & _ & E2). rewrite <- (E2 w E). apply translate_leaf; [done| |done].
      cbn [tables s' with_tables]. rewrite (write_ent root s Hwf k v t e ltac:(lia) Hv Ht k w) by (done || lia). by rewrite decide_True.
    + rewrite <- Hin in E. apply translate_ext. intros j Hj. by apply (write_far root s Hwf k v t e ltac:(lia) Hv Ht j w).
  - intros w Hw E Hb. rewrite <- Hin in E. intros j f Hj Hf. apply (Hb j f Hj).
    rewrite <- Hf. symmetry. apply (write_far root s Hwf k v t e ltac:(lia) Hv Ht j w); [lia|done|done].
  - intros j w u Hj Hw Hu. rewrite <- Hu. by apply (write_tab root s Hwf k v t e ltac:(lia) Hv Ht j w).
  - by rewrite drop_0.
  - intros u (j & w & Hj & Hw & Hu). right. exists j, w. split_and!; [done..|]. apply (stop_write_tab s Hwf k v t e ltac:(lia) Ht Hv (proj1 leaf_write_stop) (fun _ => proj2 leaf_write_stop)); [done|done|exact Hu].
  - intros u _ Hu. apply write_other. intros ->. apply Hu. exists k, v. split_and!; [lia|done..].
  - intros j w f Hj Hw E Hf _. rewrite <- Hin in E. rewrite <- Hf. by apply (write_far root s Hwf k v t e ltac:(lia) Hv Ht j w).
  - intros w E Hw. assert (Hd : w / 2 ^ leaf_shift k * 2 ^ leaf_shift k = v).
    { apply Z.mod_divide in Hal as [q Eq]; [|unfold leaf_shift; lia]. rewrite Eq in *. f_equal. symmetry.
      apply (Z.div_unique w _ q (w - q * 2 ^ leaf_shift k)); lia. }
    apply Hin in E. exists k, e. cbv zeta. rewrite Hd. split; [done|split; [|split; [apply leaf_write_entry|lia]]].
    cbn [tables s' with_tables]. rewrite (write_ent root s Hwf k v t e ltac:(lia) Hv Ht k w) by (done || lia). by rewrite decide_True.
Qed.
End leaf_write.

(** *** A fresh, empty table *)
Definition zeros : list Z := replicate (Z.to_nat TTB_ENTRIES) 0.

Section attach.
Context s (Hwf : wf root s) (k : nat) (v t t' : Z) (r : list Z) (Hk : (k <= 2)%nat) (Hv : low v).
Context (Ht : tab root (tables s) k v = Some t) (Hzero : ent root (tables s) k v = Some 0) (Hheap : heap s = t' :: r).
Let s1 := MkMmu (<[t' := zeros]> (tables s)) r.
Let e := table_entry fl t'.
Let s' := with_tables (alter <[Z.to_nat (idx k v) := e]> t) s1.

Lemma attach_fresh : tables s !! t' = None /\ 0 < t' < 2 ^ 48 /\ t' mod 4096 = 0.
Proof. destruct (wf_heap _ _ Hwf) as [_ Hh]. apply Hh. rewrite Hheap. by left. Qed.

Lemma fresh_ent j w : (j <= 3)%nat -> low w -> tab root (tables s1) j w = tab root (tables s) j w /\ ent root (tables s1) j w = ent root (tables s) j w.
Proof.
  intros Hj Hw. assert (Hent : forall j, (j <= 3)%nat -> tab root (tables s1) j w = tab root (tables s) j w -> ent root (tables s1) j w = ent root (tables s) j w).
  { clear j Hj. intros j Hj E. unfold ent. rewrite E. destruct (tab root (tables s) j w) as [u|] eqn:Eu; [|done]. simpl.
    destruct (wf_tab _ _ Hwf j w u Hj Hw Eu) as (l & Hl & _). destruct attach_fresh as [Hn _]. cbn [tables s1]. rewrite lookup_insert_ne by congruence. done. }
  assert (Htab : tab root (tables s1) j w = tab root (tables s) j w); [|split; [done|by apply Hent]].
  induction j as [|j IH]; [done|]. rewrite !tab_S, Hent; [done|lia|]. apply IH. lia.
Qed.

Lemma fresh_wf : wf root s1.
Proof.
  destruct attach_fresh as (Hn & _). split.
  - intros j w u Hj Hw. rewrite (proj1 (fresh_ent j w Hj Hw)). intros Hu. destruct (wf_tab _ _ Hwf j w u Hj Hw Hu) as (l & Hl & Hlen).
    exists l. split; [|done]. cbn [tables s1]. rewrite lookup_insert_ne by congruence. done.
  - intros j j' w w' u Hj Hj' Hw Hw'. rewrite (proj1 (fresh_ent j w Hj Hw)), (proj1 (fresh_ent j' w' Hj' Hw')). by apply (wf_inj _ _ Hwf).
  - intros j w f Hj Hw. rewrite (proj2 (fresh_ent j w Hj Hw)). by apply (wf_ent _ _ Hwf).
  - destruct (wf_heap _ _ Hwf) as [Hnd Hh]. rewrite Hheap in Hnd, Hh. apply NoDup_cons in Hnd as [Hni Hnd]. split; [done|].
    intros u Hu. destruct (Hh u) as (Hnu & ?); [by right|]. split; [|done]. cbn [tables s1]. rewrite lookup_insert_ne; [done|]. by intros ->.
Qed.

Lemma attach_t : tab root (tables s1) k v = Some t.
Proof. rewrite (proj1 (fresh_ent k v ltac:(lia) Hv)). done. Qed.

(** The walks afterwards: as before, or through the new table to an empty entry. *)
Lemma attach_far j w : (j <= 3)%nat -> low w -> tpre (S k) w <> tpre (S k) v ->
  tab root (tables s') j w = tab root (tables s) j w /\ ent root (tables s') j w = ent root (tables s) j w.
Proof.
  intros Hj Hw E. rewrite <- (proj1 (fresh_ent j w Hj Hw)), <- (proj2 (fresh_ent j w Hj Hw)).
  by apply (write_far root s1 fresh_wf k v t e ltac:(lia) Hv attach_t j w).
Qed.

Lemma attach_above j w : (j <= k)%nat -> low w -> tab root (tables s') j w = tab root (tables s) j w.
Proof.
  intros Hj Hw. rewrite <- (proj1 (fresh_ent j w ltac:(lia) Hw)). by apply (write_tab root s1 fresh_wf k v t e ltac:(lia) Hv attach_t j w).
Qed.

Lemma attach_ent j w : (j <= k)%nat -> low w ->
  ent root (tables s') j w = if decide (j = k /\ tpre (S k) w = tpre (S k) v) then Some e else ent root (tables s) j w.
Proof.
  intros Hj Hw. rewrite <- (proj2 (fresh_ent j w ltac:(lia) Hw)).
  by apply (write_ent root s1 fresh_wf k v t e ltac:(lia) Hv attach_t j w).
Qed.

Lemma attach_below w : low w -> tpre (S k) w = tpre (S k) v ->
  tab root (tables s') (S k) w = Some t' /\ ent root (tables s') (S k) w = Some 0 /\
  (forall j, (S (S k) <= j)%nat -> tab root (tables s') j w = None /\ ent root (tables s') j w = None) /\
  ent root (tables s) k w = Some 0 /\ (forall j, (S k <= j)%nat -> tab root (tables s) j w = None /\ ent root (tables s) j w = None).
Proof.
  intros Hw E. destruct attach_fresh as (Hn & H0 & Hm). destruct (table_entry_spec fl t') as (T1 & T2 & _); [lia|done|]. fold e in T1, T2.
  assert (Htab : tab root (tables s') (S k) w = Some t').
  { rewrite tab_S, attach_ent, decide_True by (done || lia). simpl. by rewrite T1, T2. }
  assert (Hent : ent root (tables s') (S k) w = Some 0).
  { unfold ent. rewrite Htab. simpl. assert (t <> t') by (destruct (wf_tab _ _ Hwf k v t ltac:(lia) Hv Ht) as (l & Hl & _); congruence).
    cbn [tables s' with_tables s1]. rewrite lookup_alter_ne, lookup_insert_eq by done. simpl. apply lookup_replicate_2.
    pose proof (tpre_step (S k) w ltac:(lia) (proj1 Hw)). unfold TTB_ENTRIES. lia. }
  assert (Hold : ent root (tables s) k w = Some 0) by (rewrite (ent_congr root (tables s) k w v); [done|lia|apply Hw|apply Hv|done]).
  assert (Hstop : forall m j, ent root m j w = Some 0 -> tab root m (S j) w = None) by (intros m j Hj; rewrite tab_S, Hj; done).
  split_and!; try done.
  - intros j Hj. split; [apply (tab_None root _ j (S (S k)))|apply (ent_None root _ j (S (S k)))]; try done; by apply Hstop.
  - intros j Hj. split; [apply (tab_None root _ j (S k))|apply (ent_None root _ j (S k))]; try done; by apply Hstop.
Qed.

Lemma attach_inv j w u : (j <= 3)%nat -> low w -> tab root (tables s') j w = Some u ->
  tab root (tables s) j w = Some u \/ (j = S k /\ u = t' /\ tpre (S k) w = tpre (S k) v).
Proof.
  intros Hj Hw Hu. destruct (decide (tpre (S k) w = tpre (S k) v)) as [E|E]; [|left; by rewrite <- (proj1 (attach_far j w Hj Hw E))].
  destruct (decide (j <= k)%nat); [left; by rewrite <- attach_above|]. destruct (attach_below w Hw E) as (B1 & _ & B3 & _).
  destruct (decide (j = S k)) as [->|]; [right; split_and!; [done|congruence|done]|]. rewrite (proj1 (B3 j ltac:(lia))) in Hu. done.
Qed.

Lemma attach_ents j w f : (j <= 3)%nat -> low w -> ent root (tables s') j w = Some f ->
  ent root (tables s) j w = Some f \/ f = e \/ f = 0.
Proof.
  intros Hj Hw Hf. destruct (decide (tpre (S k) w = tpre (S k) v)) as [E|E]; [|left; by rewrite <- (proj2 (attach_far j w Hj Hw E))].
  destruct (attach_below w Hw E) as (_ & B2 & B3 & _). destruct (decide (j <= k)%nat).
  - rewrite attach_ent in Hf by done. case_decide; [right; left; congruence|by left].
  - destruct (decide (j = S k)) as [->|]; [right; right; congruence|]. rewrite (proj2 (B3 j ltac:(lia))) in Hf. done.
Qed.

Lemma attach_wf : wf root s'.
Proof.
  destruct attach_fresh as (Hn & H0 & Hm). destruct (table_entry_spec fl t') as (T1 & _ & _); [lia|done|]. fold e in T1.
  assert (Hnew : forall j w, (j <= 3)%nat -> low w -> tab root (tables s) j w <> Some t').
  { intros j w Hj Hw E. destruct (wf_tab _ _ Hwf j w t' Hj Hw E) as (l & Hl & _). congruence. }
  split.
  - intros j w u Hj Hw [Hu|(-> & -> & _)]%attach_inv; [..|done|done].
    + destruct (wf_tab _ _ fresh_wf j w u Hj Hw) as (l & Hl & Hlen); [by rewrite (proj1 (fresh_ent j w Hj Hw))|].
      cbn [tables s' with_tables]. destruct (decide (u = t)) as [->|]; [|rewrite lookup_alter_ne by done; eauto].
      rewrite lookup_alter_eq, Hl. eexists. split; [done|]. by rewrite length_insert.
    + exists zeros. split; [|done]. cbn [tables s' with_tables s1]. rewrite lookup_alter_ne; [apply lookup_insert_eq|].
      intros ->. by apply (Hnew k v ltac:(lia) Hv).
  - intros j j' w w' u Hj Hj' Hw Hw' Hu Hu'. apply attach_inv in Hu, Hu'; [|done..].
    destruct Hu as [Hu|(-> & -> & E)], Hu' as [Hu'|(-> & E' & E2)].
    + by apply (wf_inj _ _ Hwf j j' w w' u).
    + subst u. by destruct (Hnew j w Hj Hw).
    + by destruct (Hnew j' w' Hj' Hw').
    + split; [done|congruence].
  - intros j w f Hj Hw [Hf|[->| ->]]%attach_ents Hf0; [by apply (wf_ent _ _ Hwf j w)|by left|done|done|done].
  - destruct (wf_heap _ _ fresh_wf) as [Hnd Hh]. split; [done|]. intros u Hu. destruct (Hh u Hu) as (Hnu & ?). split; [|done].
    cbn [tables s' with_tables]. rewrite lookup_alter_ne; [done|]. intros Etu.
    destruct (wf_tab _ _ fresh_wf k v t ltac:(lia) Hv attach_t) as (l & Hl & _). congruence.
Qed.

Lemma attach_mapped a : mapped 3 s s' a a 1 /\ tab root (tables s') (S k) v = Some t'.
Proof.
  destruct attach_fresh as (Hn & H0 & Hm). destruct (table_entry_spec fl t') as (T1 & _ & _); [lia|done|]. fold e in T1.
  split; [|by apply attach_below]. split.
  - apply attach_wf.
  - intros w Hw. rewrite decide_False by lia. destruct (decide (tpre (S k) w = tpre (S k) v)) as [E|E].
    + destruct (attach_below w Hw E) as (_ & B2 & _ & B4 & _). rewrite (translate_stop root _ (S k) w 0), (translate_stop root _ k w 0); (done || lia).
    + apply translate_ext. intros j Hj. by apply attach_far.
  - intros w Hw _ Hb j f Hj [Hf|[->| ->]]%attach_ents; [by apply (Hb j f Hj)|by rewrite T1|done|lia|done].
  - intros j w u Hj Hw Hu. destruct (decide (tpre (S k) w = tpre (S k) v)) as [E|E]; [|by rewrite (proj1 (attach_far j w Hj Hw E))].
    destruct (decide (j <= k)%nat); [by rewrite attach_above|]. destruct (attach_below w Hw E) as (_ & _ & _ & _ & B5).
    rewrite (proj1 (B5 j ltac:(lia))) in Hu. done.
  - cbn [heap s' with_tables s1]. by rewrite Hheap.
  - intros u (j & w & Hj & Hw & Hu). apply attach_inv in Hu; [|done..]. destruct Hu as [Hu|(-> & -> & _)].
    + right. by exists j, w.
    + left. rewrite Hheap. by left.
  - intros u Hu1 Hu2. cbn [tables s' with_tables s1]. rewrite lookup_alter_ne, lookup_insert_ne; [done| |].
    + intros <-. apply Hu1. rewrite Hheap. by left.
    + intros ->. apply Hu2. exists k, v. split_and!; [lia|done..].
  - intros j w f Hj Hw _ Hf Hf0. destruct (decide (tpre (S k) w = tpre (S k) v)) as [E|E]; [|by rewrite (proj2 (attach_far j w Hj Hw E))].
    destruct (attach_below w Hw E) as (_ & _ & _ & B4 & B5). destruct (decide (j <= k)%nat) as [Hle|].
    + rewrite attach_ent by done. rewrite decide_False; [done|]. intros [-> _]. congruence.
    + rewrite (proj2 (B5 j ltac:(lia))) in Hf. done.
  - intros w Hw. lia.
Qed.
End attach.

End steps.

End MmuMap.
