(* ===== verification/MmuReset.v ===== *)
(** Tearing a page-table tree down ([__reset_pgtable] and [reset_root_pgtable] of
    so3/arch/arm64/mmu.c): every table of the tree is freed once, and nothing else
    is. *)
From S2P Require Import Prelude Frames Mmu MmuMap.

Module MmuReset.
Import Mmu MmuMap.
Implicit Types (m : gmap Z (list Z)) (s : mmu).

(** ** The tables below a table *)
Definition is_table (e : Z) : bool := pte_type e =? 3.
Definition child_of (e : Z) : Z := Z.land e TTB_TABLE_ADDR_MASK.
(** The tables an entry gives access to, itself [d] levels above the last. *)
Definition slot (below : Z -> list Z) (e : option Z) : list Z :=
  match e with Some e => if is_table e then child_of e :: below (child_of e) else [] | None => [] end.
Fixpoint below (d : nat) m (t : Z) : list Z :=
  match m !! t with
  | None => []
  | Some l => seq 0 512 ≫= (fun i => slot (fun c => match d with O => [] | S d' => below d' m c end) (l !! i))
  end.
Definition below' (d : nat) m (c : Z) : list Z := match d with O => [] | S d' => below d' m c end.
Lemma below_eq d m t l : m !! t = Some l -> below d m t = seq 0 512 ≫= (fun i => slot (below' d m) (l !! i)).
Proof. intros E. destruct d; cbn [below]; by rewrite E. Qed.

Lemma elem_of_slot f e u : u ∈ slot f e <-> exists x, e = Some x /\ is_table x = true /\ (u = child_of x \/ u ∈ f (child_of x)).
Proof.
  unfold slot. destruct e as [x|].
  - destruct (is_table x) eqn:E.
    + rewrite elem_of_cons. split; [intros H; by exists x|]. intros (y & [= <-] & _ & H). done.
    + rewrite elem_of_nil. split; [done|]. intros (y & [= <-] & H & _). congruence.
  - rewrite elem_of_nil. split; [done|]. by intros (x & ? & _).
Qed.

(** A map that agrees on a tree has the same tree. *)
Lemma below_ext d m m' t : m' !! t = m !! t -> (forall u, u ∈ below d m t -> m' !! u = m !! u) -> below d m' t = below d m t.
Proof.
  revert t. induction d as [|d IH]; intros t Et H; (destruct (m !! t) as [l|] eqn:El; [|cbn [below]; by rewrite Et, El]).
  - by rewrite (below_eq _ _ _ l Et), (below_eq _ _ _ l El).
  - rewrite (below_eq _ _ _ l Et), (below_eq _ _ _ l El) in *. apply Forall_bind_ext, Forall_forall. intros i Hi.
    assert (Hs : forall u, u ∈ slot (below' (S d) m) (l !! i) -> m' !! u = m !! u).
    { intros u Hu. apply H. apply list_elem_of_bind. by exists i. }
    destruct (l !! i) as [e|]; [|done]. unfold slot in *. destruct (is_table e); [|done]. f_equal. cbn [below'].
    apply IH; [apply Hs; by left|]. intros u Hu. apply Hs. by right.
Qed.

(** ** The loop *)
Definition exists_table m (u : Z) : Prop := exists l, m !! u = Some l /\ length l = 512%nat.

(** What the work on a child does: its tree is gone, but for the child itself. *)
Definition child_spec (d : nat) (child : Z -> kern mmu unit) : Prop := forall c s,
  NoDup (c :: below' d (tables s) c) -> (forall u, u ∈ c :: below' d (tables s) c -> exists_table (tables s) u) ->
  exists s', child c s = Ret (tt, s') /\ heap s' = heap s /\ exists_table (tables s') c /\
    forall u, u <> c -> tables s' !! u = if decide (u ∈ below' d (tables s) c) then None else tables s !! u.

(** The entries that are left when the tables are gone. *)
Definition zap (e : Z) : Z := if is_table e then 0 else e.

Lemma pte_at_ok t i l s : tables s !! t = Some l -> (i < length l)%nat -> exists e, l !! i = Some e /\ pte_at (t, Z.of_nat i) s = Ret (e, s).
Proof.
  intros Hl Hi. destruct (lookup_lt_is_Some_2 l i Hi) as [e He]. exists e. split; [done|].
  unfold pte_at. cbn [fst snd]. kstep. rewrite Hl. kstep. by rewrite Nat2Z.id, He.
Qed.

Section loop.
Context (d : nat) (child : Z -> kern mmu unit) (Hchild : child_spec d child).

(** One entry. *)
Lemma reset_entry_ok t i l e s : tables s !! t = Some l -> l !! i = Some e ->
  NoDup (t :: slot (below' d (tables s)) (Some e)) -> (forall u, u ∈ slot (below' d (tables s)) (Some e) -> exists_table (tables s) u) ->
  exists s', when (negb (e =? 0) && (pte_type e =? PTE_TYPE_TABLE))
      (child (child_of e);; free_table (child_of e, 0);; put_pte (t, Z.of_nat i) 0) s = Ret (tt, s') /\ heap s' = heap s /\
    forall u, tables s' !! u = if decide (u = t) then Some (<[i := zap e]> l) else
      if decide (u ∈ slot (below' d (tables s)) (Some e)) then None else tables s !! u.
Proof.
  intros Hl He Hnd Hex. unfold slot, zap, is_table in *. change PTE_TYPE_TABLE with 3. destruct (Z.eqb_spec (pte_type e) 3) as [Ht|Ht].
  2:{ rewrite andb_false_r. exists s. split_and!; [done..|]. intros u. case_decide as Eu; [subst; by rewrite list_insert_id|].
      rewrite decide_False; [done|]. apply not_elem_of_nil. }
  rewrite (proj2 (Z.eqb_neq e 0)) by (intros ->; done). cbn [negb andb when]. set (c := child_of e) in *.
  apply NoDup_cons in Hnd as [Hni Hnd]. destruct (Hchild c s Hnd Hex) as (s1 & E1 & Hh & Hc & Hu).
  assert (Htc : t <> c) by (intros ->; apply Hni; by left). assert (Htb : t ∉ below' d (tables s) c) by (intros H; apply Hni; by right).
  assert (Hl1 : tables s1 !! t = Some l) by (rewrite Hu by done; by rewrite decide_False).
  erewrite kbind_ret by exact E1. cbn beta.
  assert (Ef : free_table (c, 0) s1 = Ret (tt, with_tables (delete c) s1)).
  { unfold free_table. cbn [fst snd]. change (0 =? 0) with true. cbn iota. kstep. destruct Hc as (lc & Hlc & _). rewrite Hlc. kstep. done. }
  erewrite kbind_ret by exact Ef. cbn beta. set (s2 := with_tables (delete c) s1).
  assert (Hl2 : tables s2 !! t = Some l) by (cbn [tables s2 with_tables]; by rewrite lookup_delete_ne).
  destruct (pte_at_ok t i l s2 Hl2) as (e' & He' & Ep); [by eapply lookup_lt_Some|]. unfold put_pte. erewrite kbind_ret by exact Ep. cbn beta.
  eexists. split; [done|]. split; [done|]. intros u. cbn [tables with_tables fst snd]. rewrite Nat2Z.id. case_decide as Eu.
  - subst u. by rewrite lookup_alter_eq, Hl2.
  - rewrite lookup_alter_ne by done. cbn [tables s2 with_tables]. destruct (decide (u = c)) as [->|Huc].
    + rewrite lookup_delete_eq, decide_True; [done|by left].
    + rewrite lookup_delete_ne, Hu by done. destruct (decide (u ∈ below' d (tables s) c)); [rewrite decide_True; [done|by right]|].
      rewrite decide_False; [done|]. by apply not_elem_of_cons.
Qed.
(** The tables the entries [i, i + n) of [l] give access to. *)
Definition span m (l : list Z) (i n : nat) : list Z := seq i n ≫= (fun j => slot (below' d m) (l !! j)).

Lemma span_cons m l i n : span m l i (S n) = slot (below' d m) (l !! i) ++ span m l (S i) n.
Proof. done. Qed.

Lemma slot_ext m m' e : (forall u, u ∈ slot (below' d m) e -> m' !! u = m !! u) -> slot (below' d m') e = slot (below' d m) e.
Proof.
  intros H. destruct e as [e|]; [|done]. unfold slot in *. destruct (is_table e); [|done]. f_equal. destruct d as [|d']; [done|]. cbn [below'] in *.
  apply below_ext; [apply H; by left|]. intros u Hu. apply H. by right.
Qed.

Lemma span_ext m m' l l' i n : (forall j, (i <= j)%nat -> l' !! j = l !! j) -> (forall u, u ∈ span m l i n -> m' !! u = m !! u) -> span m' l' i n = span m l i n.
Proof.
  intros Hl H. apply Forall_bind_ext, Forall_forall. intros j Hj. rewrite Hl by (apply elem_of_seq in Hj; lia). apply slot_ext.
  intros u Hu. apply H. apply list_elem_of_bind. by exists j.
Qed.

Lemma reset_entries_ok t n : forall i l s, tables s !! t = Some l -> length l = (i + n)%nat ->
  NoDup (t :: span (tables s) l i n) -> (forall u, u ∈ span (tables s) l i n -> exists_table (tables s) u) ->
  exists s' l', reset_entries n t (Z.of_nat i) child s = Ret (tt, s') /\ heap s' = heap s /\
    length l' = length l /\ (forall j, l' !! j = if decide (i <= j)%nat then zap <$> l !! j else l !! j) /\
    forall u, tables s' !! u = if decide (u = t) then Some l' else if decide (u ∈ span (tables s) l i n) then None else tables s !! u.
Proof.
  induction n as [|n IH]; intros i l s Hl Hlen Hnd Hex.
  { exists s, l. split_and!; [done..| |].
    - intros j. case_decide; [|done]. rewrite lookup_ge_None_2 by lia. done.
    - intros u. case_decide; [by subst|]. rewrite decide_False; [done|]. apply not_elem_of_nil. }
  cbn [reset_entries]. rewrite span_cons in Hnd, Hex. destruct (pte_at_ok t i l s Hl ltac:(lia)) as (e & He & Ep). rewrite He in Hnd, Hex.
  erewrite kbind_ret by exact Ep. cbn beta. apply NoDup_cons in Hnd as [Hni Hnd]. apply NoDup_app in Hnd as (Hn1 & Hdis & Hn2). rewrite not_elem_of_app in Hni.
  destruct (reset_entry_ok t i l e s Hl He) as (s1 & E1 & Hh1 & Hu1); [apply NoDup_cons; tauto|intros u Hu; apply Hex, elem_of_app; by left|].
  cbv zeta. erewrite kbind_ret by exact E1. cbn beta. replace (Z.of_nat i + 1) with (Z.of_nat (S i)) by lia.
  assert (Hkeep : forall u, u ∈ span (tables s) l (S i) n -> tables s1 !! u = tables s !! u).
  { intros u Hu. assert (Hut : u <> t) by (intros ->; by apply Hni). rewrite Hu1, (decide_False (P := u = t)) by done.
    rewrite decide_False; [done|]. intros H. by apply (Hdis u H). }
  assert (Esp : span (tables s1) (<[i := zap e]> l) (S i) n = span (tables s) l (S i) n).
  { apply span_ext; [|done]. intros j Hj. by rewrite list_lookup_insert_ne by lia. }
  destruct (IH (S i) (<[i := zap e]> l) s1) as (s2 & l2 & E2 & Hh2 & Hlen2 & Hl2 & Hu2).
  - by rewrite Hu1, decide_True.
  - rewrite length_insert. lia.
  - rewrite Esp. apply NoDup_cons; tauto.
  - rewrite Esp. intros u Hu. unfold exists_table. rewrite Hkeep by done. apply Hex, elem_of_app. by right.
  - exists s2, l2. split_and!; [done|congruence|by rewrite Hlen2, length_insert| |].
    + intros j. rewrite Hl2. destruct (decide (j = i)) as [->|Hj].
      * rewrite decide_False, decide_True by lia. rewrite list_lookup_insert_eq by lia. by rewrite He.
      * rewrite list_lookup_insert_ne by done. repeat case_decide; (done || lia).
    + intros u. rewrite Hu2, Esp. case_decide as Eu; [done|]. rewrite Hu1, (decide_False (P := u = t)) by done.
      rewrite span_cons, He. repeat case_decide; try done; exfalso; set_unfold; tauto.
Qed.

Lemma reset_level_ok t l s : tables s !! t = Some l -> length l = 512%nat ->
  NoDup (t :: below d (tables s) t) -> (forall u, u ∈ below d (tables s) t -> exists_table (tables s) u) ->
  exists s', reset_entries (Z.to_nat TTB_ENTRIES) t 0 child s = Ret (tt, s') /\ heap s' = heap s /\
    forall u, tables s' !! u = if decide (u = t) then Some (zap <$> l) else if decide (u ∈ below d (tables s) t) then None else tables s !! u.
Proof.
  intros Hl Hlen Hnd Hex. rewrite (below_eq _ _ _ l Hl) in *.
  destruct (reset_entries_ok t 512 0 l s Hl Hlen Hnd Hex) as (s' & l' & E & Hh & Hlen' & Hl' & Hu). exists s'. split_and!; [exact E|done|].
  assert (l' = zap <$> l) as ->; [|exact Hu]. apply list_eq. intros j. rewrite Hl', list_lookup_fmap. by rewrite decide_True by lia.
Qed.
End loop.

(** A level is reset with the levels below it. *)
Lemma reset_children d : child_spec d (fun c => match d with O => mret tt | S d' => reset_pgtable d' c end).
Proof.
  induction d as [|d IH]; intros c s Hnd Hex.
  - exists s. split_and!; [done..|apply Hex; by left|]. intros u _. rewrite decide_False; [done|]. apply not_elem_of_nil.
  - cbn [below'] in *. destruct (Hex c) as (l & Hl & Hlen); [by left|].
    destruct (reset_level_ok d _ IH c l s Hl Hlen Hnd) as (s' & E & Hh & Hu); [intros u Hu; apply Hex; by right|].
    exists s'. split_and!; [destruct d; exact E|done| |].
    + exists (zap <$> l). rewrite Hu, decide_True by done. by rewrite length_fmap.
    + intros u Huc. by rewrite Hu, (decide_False (P := u = c)).
Qed.

(** ** Well-formed trees *)
Section tree.
Context (root : Z) s (Hwf : wf root s).
Let m := tables s.

(** The addresses that go through an entry. *)
Lemma entry_addr k v i : (k <= 3)%nat -> low v -> (i < 512)%nat ->
  exists w, low w /\ tpre k w = tpre k v /\ idx k w = Z.of_nat i /\ tpre (S k) w = 512 * tpre k v + Z.of_nat i.
Proof.
  intros Hk Hv Hi. set (p := 48 - 9 * Z.of_nat (S k)). assert (Hp : 0 <= p) by (unfold p; lia).
  set (w := (512 * tpre k v + Z.of_nat i) * 2 ^ p).
  assert (Htk : 0 <= tpre k v < 2 ^ (9 * Z.of_nat k)).
  { unfold tpre. split; [apply Z.div_pos; unfold low in Hv; lia|]. apply Z.div_lt_upper_bound; [lia|]. rewrite <- Z.pow_add_r by lia.
    replace (48 - 9 * Z.of_nat k + 9 * Z.of_nat k) with 48 by lia. apply Hv. }
  assert (Hlow : low w).
  { split; [unfold w; apply Z.mul_nonneg_nonneg; lia|]. unfold w. apply (Z.lt_le_trans _ (2 ^ (9 * Z.of_nat (S k)) * 2 ^ p)).
    - apply Z.mul_lt_mono_pos_r; [lia|]. replace (9 * Z.of_nat (S k)) with (9 + 9 * Z.of_nat k) by lia. rewrite Z.pow_add_r by lia. change (2 ^ 9) with 512. lia.
    - rewrite <- Z.pow_add_r by lia. apply Z.pow_le_mono_r; unfold p; lia. }
  assert (E : tpre (S k) w = 512 * tpre k v + Z.of_nat i) by (unfold tpre at 1; fold p; unfold w; apply Z.div_mul; lia).
  destruct (tpre_step k w Hk (proj1 Hlow)) as [E2 E3]. exists w. split_and!; [apply Hlow..|lia|lia|done].
Qed.

(** The child that entry [i] of a table refers to, as a walk. *)
Lemma child_walk k v t l i e : (k <= 2)%nat -> low v -> tab root m k v = Some t -> m !! t = Some l -> (i < 512)%nat ->
  l !! i = Some e -> is_table e = true ->
  exists w, low w /\ tab root m (S k) w = Some (child_of e) /\ tpre k w = tpre k v /\ tpre (S k) w = 512 * tpre k v + Z.of_nat i.
Proof.
  intros Hk Hv Ht Hl Hi He Hty. destruct (entry_addr k v i ltac:(lia) Hv Hi) as (w & Hw & W1 & W2 & W3). exists w. split_and!; [apply Hw..| |done|done].
  rewrite tab_S. unfold ent. rewrite (tab_congr root m k w v), Ht by (done || lia || apply Hw || apply Hv). cbn [mbind option_bind]. rewrite Hl.
  cbn [mbind option_bind]. rewrite W2, Nat2Z.id, He. cbn [mbind option_bind]. unfold is_table in Hty. by rewrite Hty.
Qed.

Lemma below_walk d : forall k v t u, (k + d = 2)%nat -> low v -> tab root m k v = Some t -> u ∈ below d m t ->
  exists j w, (k < j <= 3)%nat /\ low w /\ tab root m j w = Some u /\ tpre k w = tpre k v.
Proof.
  induction d as [|d IH]; intros k v t u Hkd Hv Ht Hu; (destruct (wf_tab _ _ Hwf k v t ltac:(lia) Hv Ht) as (l & Hl & Hlen)); fold m in Hl;
    rewrite (below_eq _ _ _ l Hl) in Hu; apply list_elem_of_bind in Hu as (i & (e & He & Hty & Hue)%elem_of_slot & Hi%elem_of_seq);
    (destruct (child_walk k v t l i e ltac:(lia) Hv Ht Hl ltac:(lia) He Hty) as (w & Hw & Hc & W1 & _)).
  - destruct Hue as [->|?%elem_of_nil]; [|done]. exists (S k), w. split_and!; (done || lia || apply Hw).
  - destruct Hue as [->|Hue]; [exists (S k), w; split_and!; (done || lia || apply Hw)|].
    destruct (IH (S k) w _ u ltac:(lia) Hw Hc Hue) as (j & w' & Hj & Hw' & Hu & E). exists j, w'. split; [lia|split; [done|split; [done|]]].
    rewrite <- W1. apply tpre_eq in E as [E _]; [done|lia|apply Hw'|apply Hw].
Qed.

Lemma walk_below d : forall k v t u j w, (k + d = 2)%nat -> low v -> tab root m k v = Some t -> (k < j <= 3)%nat -> low w ->
  tpre k w = tpre k v -> tab root m j w = Some u -> u ∈ below d m t.
Proof.
  induction d as [|d IH]; intros k v t u j w Hkd Hv Ht Hj Hw E Hu; (destruct (wf_tab _ _ Hwf k v t ltac:(lia) Hv Ht) as (l & Hl & Hlen)); fold m in Hl;
    rewrite (below_eq _ _ _ l Hl); apply list_elem_of_bind; exists (Z.to_nat (idx k w));
    pose proof (tpre_step k w ltac:(lia) (proj1 Hw)) as [_ Hidx]; (split; [|apply elem_of_seq; lia]); apply elem_of_slot;
    (assert (Hc : exists c, tab root m (S k) w = Some c) by
       (destruct (tab root m (S k) w) as [c|] eqn:Ec; [eauto|]; rewrite (tab_None root m j (S k) w) in Hu by (done || lia); done));
    destruct Hc as [c Hc]; (destruct (tab_path root m k w c Hc) as (e & t' & He & Hty & Hce & Ht'));
    (destruct (ent_tab root m k w e He) as (t2 & l2 & Ht2 & Hl2 & Hle));
    rewrite (tab_congr root m k w v), Ht in Ht2 by (done || lia || apply Hw || apply Hv); injection Ht2 as <-; rewrite Hl in Hl2; injection Hl2 as <-;
    exists e; (split_and!; [done|unfold is_table; by rewrite Hty|]).
  - left. assert (j = S k) as -> by lia. unfold child_of. congruence.
  - destruct (decide (j = S k)) as [->|Hjk]; [left; unfold child_of; congruence|]. right. cbn [below'].
    change (child_of e) with (Z.land e TTB_TABLE_ADDR_MASK). rewrite Hce. apply (IH (S k) w c u j w); (done || lia).
Qed.

(** The trees of two entries do not meet. *)
Lemma slot_walk d k v t l i u : (k + d = 2)%nat -> low v -> tab root m k v = Some t -> m !! t = Some l -> (i < 512)%nat ->
  u ∈ slot (below' d m) (l !! i) ->
  exists j w, (k < j <= 3)%nat /\ low w /\ tab root m j w = Some u /\ tpre (S k) w = 512 * tpre k v + Z.of_nat i.
Proof.
  intros Hkd Hv Ht Hl Hi (e & He & Hty & Hu)%elem_of_slot. destruct (child_walk k v t l i e ltac:(lia) Hv Ht Hl Hi He Hty) as (w & Hw & Hc & _ & W).
  destruct Hu as [->|Hu]; [exists (S k), w; split; [lia|done]|]. destruct d as [|d]; [by apply elem_of_nil in Hu|].
  destruct (below_walk d (S k) w _ u ltac:(lia) Hw Hc Hu) as (j & w' & Hj & Hw' & Hu' & E). exists j, w'. split; [lia|]. rewrite E. done.
Qed.

Lemma tpre_below j k w w' : (k <= j <= 4)%nat -> low w -> low w' -> tpre j w = tpre j w' -> tpre k w = tpre k w'.
Proof.
  intros [Hkj Hj] Hw Hw'. induction Hkj as [|j Hkj IH]; [done|]. intros E. apply IH; [lia|]. by apply tpre_eq in E as [E _]; [|lia|apply Hw|apply Hw'].
Qed.

Lemma below_NoDup d : forall k v t, (k + d = 2)%nat -> low v -> tab root m k v = Some t -> NoDup (t :: below d m t).
Proof.
  induction d as [|d IH]; intros k v t Hkd Hv Ht; apply NoDup_cons;
    (split; [intros (j & w & Hj & Hw & Hu & _)%(below_walk _ k v t t Hkd Hv Ht);
             destruct (wf_inj _ _ Hwf k j v w t ltac:(lia) ltac:(lia) Hv Hw Ht Hu) as [-> _]; lia|]);
    (destruct (wf_tab _ _ Hwf k v t ltac:(lia) Hv Ht) as (l & Hl & Hlen)); fold m in Hl; rewrite (below_eq _ _ _ l Hl);
    (apply NoDup_bind; [|intros i Hi%elem_of_seq|apply NoDup_ListNoDup, seq_NoDup]).
  1, 3: intros i i' u Hi%elem_of_seq Hi'%elem_of_seq Hu Hu';
    (destruct (slot_walk _ k v t l i u Hkd Hv Ht Hl ltac:(lia) Hu) as (j & w & Hj & Hw & Huw & W));
    (destruct (slot_walk _ k v t l i' u Hkd Hv Ht Hl ltac:(lia) Hu') as (j' & w' & Hj' & Hw' & Huw' & W'));
    (destruct (wf_inj _ _ Hwf j j' w w' u ltac:(lia) ltac:(lia) Hw Hw' Huw Huw') as [<- E]);
    apply (tpre_below j (S k)) in E; [lia|lia|done|done].
  all: destruct (l !! i) as [e|] eqn:He; [|apply NoDup_nil_2]; unfold slot; (destruct (is_table e) eqn:Hty; [|apply NoDup_nil_2]).
  - apply NoDup_singleton.
  - destruct (child_walk k v t l i e ltac:(lia) Hv Ht Hl ltac:(lia) He Hty) as (w & Hw & Hc & _ & _). apply (IH (S k) w); (done || lia).
Qed.

(** Resetting the whole tree. *)
Lemma reset_root_ok l : m !! root = Some l -> exists s', reset_pgtable 2 root s = Ret (tt, s') /\ heap s' = heap s /\
  (forall u, tables s' !! u = if decide (u = root) then Some (zap <$> l) else if decide (u ∈ below 2 m root) then None else m !! u) /\
  (forall u, reachable root s u <-> u = root \/ u ∈ below 2 m root).
Proof.
  intros Hl. assert (H0 : low 0) by (unfold low; lia). destruct (wf_tab _ _ Hwf 0 0 root ltac:(lia) H0 eq_refl) as (l' & Hl' & Hlen). fold m in Hl'. assert (l' = l) as -> by congruence.
  assert (Hw : forall u, u ∈ below 2 m root -> exists j w, (0 < j <= 3)%nat /\ low w /\ tab root m j w = Some u).
  { intros u Hu. destruct (below_walk 2 0 0 root u eq_refl H0 eq_refl Hu) as (j & w & Hj & Hw & Ht & _). eauto. }
  destruct (reset_level_ok 2 _ (reset_children 2) root l s Hl Hlen) as (s' & E & Hh & Hu).
  - apply (below_NoDup 2 0 0); done.
  - intros u Hu. destruct (Hw u Hu) as (j & w & Hj & Hlw & Ht). apply (wf_tab _ _ Hwf j w u); (done || lia).
  - exists s'. split_and!; [exact E|done|exact Hu|]. intros u. split.
    + intros (j & w & Hj & Hlw & Ht). destruct j as [|j]; [left; cbn in Ht; congruence|]. right.
      apply (walk_below 2 0 0 root u (S j) w); [done|done|done|lia|done| |done]. by rewrite !tpre_0.
    + intros [->|Hu']; [exists 0%nat, 0; split; [lia|done]|]. destruct (Hw u Hu') as (j & w & Hj & Hlw & Ht). exists j, w. split; [lia|done].
Qed.
End tree.

End MmuReset.
