(* ===== verification/MmuCreate.v ===== *)
(** Correctness of [create_mapping]: on a tree of tables it maps exactly the
    requested range, with blocks of 1 GB and 2 MB where alignment allows, and
    leaves every other address, and every table outside the tree, as it was. *)
From S2P Require Import Prelude Frames Mmu MmuMap.

Module MmuCreate.
Import Mmu MmuMap.

(** *** Arithmetic of the loops *)
Lemma align_down x k : 0 <= k <= 64 -> in_word 64 x -> Z.land x (wnot 64 (2 ^ k - 1)) = x / 2 ^ k * 2 ^ k.
Proof.
  intros Hk Hx. apply Z.bits_inj'. intros j Hj. rewrite <- Z.shiftr_div_pow2, <- Z.shiftl_mul_pow2, Z.shiftl_spec by lia.
  rewrite Z.land_spec. destruct (Z.lt_ge_cases j 64) as [Hj64|Hj64].
  - rewrite wnot_spec by lia. replace (2 ^ k - 1) with (Z.ones k) by (rewrite Z.ones_equiv; lia). rewrite testbit_ones by lia.
    destruct (Z.ltb_spec j k).
    + rewrite (Z.testbit_neg_r _ (j - k)) by lia. apply andb_false_r.
    + rewrite Z.shiftr_spec by lia. rewrite andb_true_r. f_equal. lia.
  - rewrite (testbit_in_word 64 x) by (done || lia). cbn [andb]. rewrite Z.shiftr_spec by lia.
    rewrite (testbit_in_word 64 x); (done || lia).
Qed.

(** The chunks of size [c] that [v, b) touches. *)
Definition chunks (c v b : Z) : nat := if decide (v < b) then Z.to_nat ((b - 1) / c - v / c + 1) else 0%nat.
(** The start of the next chunk, or the end. *)
Definition next_chunk (c v b : Z) : Z := Z.min ((v / c + 1) * c) b.

Lemma next_chunk_spec c v b : 0 < c -> 0 <= v < b ->
  v < next_chunk c v b <= b /\ next_chunk c v b <= (v / c + 1) * c /\
  (next_chunk c v b < b -> next_chunk c v b mod c = 0) /\
  (forall w, v <= w < next_chunk c v b -> w / c = v / c) /\
  (chunks c v (next_chunk c v b) = 1 /\ 1 + chunks c (next_chunk c v b) b = chunks c v b)%nat.
Proof.
  intros Hc Hv. unfold next_chunk. pose proof (Z.div_mod v c). pose proof (Z.mod_pos_bound v c).
  assert (Hw : forall w, v <= w < Z.min ((v / c + 1) * c) b -> w / c = v / c).
  { intros w Hw. symmetry. apply (Z.div_unique w c (v / c) (w - c * (v / c))); nia. }
  split_and!; [nia|nia|nia| |done|..].
  - intros Hlt. assert (E : Z.min ((v / c + 1) * c) b = (v / c + 1) * c) by lia. rewrite E. apply Z_mod_mult.
  - unfold chunks. rewrite decide_True by nia. rewrite Hw by nia. lia.
  - unfold chunks. rewrite (decide_True (P := v < b)) by lia. assert (Hm : v / c <= (b - 1) / c) by (apply Z.div_le_mono; lia).
    destruct (Z.le_gt_cases b ((v / c + 1) * c)) as [Hle|Hgt].
    + rewrite Z.min_r by lia. rewrite decide_False by lia. rewrite Hw by nia. lia.
    + rewrite Z.min_l by lia. rewrite decide_True by lia. rewrite Z.div_mul by lia.
      assert (v / c + 1 <= (b - 1) / c) by (apply Z.div_le_lower_bound; lia). lia.
Qed.

(** Chunks of a smaller size, cut at the boundary of a larger chunk. *)
Lemma chunks_split c d v m b : 0 < c -> 0 < d -> 0 <= v < m -> m <= b -> (m < b -> m mod (d * c) = 0) ->
  (chunks c v m + chunks c m b = chunks c v b)%nat.
Proof.
  intros Hc Hd Hv Hm Hal. unfold chunks. rewrite (decide_True (P := v < m)), (decide_True (P := v < b)) by lia.
  assert (Hvm : v / c <= (m - 1) / c) by (apply Z.div_le_mono; lia).
  destruct (decide (m < b)) as [Hlt|]; [|assert (m = b) as -> by lia; lia].
  specialize (Hal Hlt). apply Z.mod_divide in Hal as [q ->]; [|lia].
  replace (q * (d * c)) with (q * d * c) in * by lia. rewrite Z.div_mul by lia.
  assert (E : (q * d * c - 1) / c = q * d - 1) by (symmetry; apply (Z.div_unique _ c (q * d - 1) (c - 1)); lia).
  assert (q * d <= (b - 1) / c) by (apply Z.div_le_lower_bound; lia). rewrite E in *. lia.
Qed.

Lemma block_aligned_spec k x y z : 0 <= k -> 0 <= x -> 0 <= y -> 0 <= z ->
  block_aligned (2 ^ k) x y z = true <-> x mod 2 ^ k = 0 /\ y mod 2 ^ k = 0 /\ z mod 2 ^ k = 0.
Proof.
  intros Hk Hx Hy Hz. unfold block_aligned. replace (2 ^ k - 1) with (Z.ones k) by (rewrite Z.ones_equiv; lia).
  rewrite !Z.land_lor_distr_l, !Z.land_ones, Z.eqb_eq, !Z.lor_eq_0_iff by lia. tauto.
Qed.

Lemma mod_mul_4096 x k : 12 <= k -> x mod 2 ^ k = 0 -> x mod 4096 = 0.
Proof.
  intros Hk Hx. apply Z.mod_divide in Hx as [q ->]; [|lia]. replace k with ((k - 12) + 12) by lia.
  rewrite Z.pow_add_r, Z.mul_assoc by lia. apply Z_mod_mult.
Qed.

Lemma chunks_pos c v b : 0 < c -> v < b -> (1 <= chunks c v b)%nat.
Proof. intros Hc Hv. unfold chunks. rewrite decide_True by done. assert (v / c <= (b - 1) / c) by (apply Z.div_le_mono; lia). lia. Qed.

(** The chunks of 2 MB up to the end of the next larger chunk. *)
Lemma small_chunks k v b : 21 <= k <= 48 -> 0 <= v < b ->
  (chunks (2 ^ 21) v (next_chunk (2 ^ k) v b) + chunks (2 ^ 21) (next_chunk (2 ^ k) v b) b = chunks (2 ^ 21) v b)%nat.
Proof.
  intros Hk Hv. destruct (next_chunk_spec (2 ^ k) v b ltac:(lia) Hv) as (N1 & _ & N3 & _).
  apply (chunks_split (2 ^ 21) (2 ^ (k - 21))); [lia..|]. rewrite <- Z.pow_add_r by lia. by replace (k - 21 + 21) with k by lia.
Qed.

Lemma chunks_within k d v b : 0 <= k -> 0 < d -> 0 <= v < b -> (b - 1) / (2 ^ k * d) = v / (2 ^ k * d) ->
  (chunks (2 ^ k) v b <= Z.to_nat d)%nat.
Proof.
  intros Hk Hd Hv E. unfold chunks. rewrite decide_True by lia. rewrite <- !Z.div_div in E by lia.
  set (x := (b - 1) / 2 ^ k) in *. set (y := v / 2 ^ k) in *. pose proof (Z.div_mod x d). pose proof (Z.div_mod y d).
  pose proof (Z.mod_pos_bound x d). pose proof (Z.mod_pos_bound y d). lia.
Qed.

Lemma tpre_le k j v w : (j <= k <= 4)%nat -> 0 <= v -> 0 <= w -> tpre k w = tpre k v -> tpre j w = tpre j v.
Proof.
  intros Hj Hv Hw. destruct Hj as [Hj Hk]. induction Hj as [|k Hj IH]; [done|]. intros E. apply IH; [lia|]. by apply tpre_eq in E as [E _]; [|lia..].
Qed.

Lemma idx_eq k j v w : (j < k <= 4)%nat -> 0 <= v -> 0 <= w -> tpre k w = tpre k v -> idx j w = idx j v.
Proof. intros Hj Hv Hw E. unfold idx. by rewrite (tpre_le k (S j) v w) by (done || lia). Qed.

Lemma pages_le v b : v mod 4096 = 0 -> b mod 4096 = 0 -> v < b -> (0 < Z.to_nat ((b - v) / 4096))%nat /\ (Z.to_nat ((b - (v + 4096)) / 4096) < Z.to_nat ((b - v) / 4096))%nat.
Proof. intros Hv Hb Hlt. dlia. Qed.

(** The window of 2^48 addresses that starts at [H]. *)
Definition is_window (H : Z) : Prop := 0 <= H /\ H mod 2 ^ 48 = 0 /\ H + 2 ^ 48 <= 2 ^ 64.
Section in_window.
Context (H : Z) (HH : is_window H).
Lemma window v : low v -> (H + v) mod 2 ^ 48 = v /\ in_word 64 (H + v).
Proof.
  intros Hv. destruct HH as (H0 & Hm & Ht). unfold low, in_word in *. split; [|lia].
  apply Z.mod_divide in Hm as [q ->]; [|lia]. rewrite Z.add_comm, Z_mod_plus_full. by apply Z.mod_small.
Qed.

Lemma index_ok v : low v ->
  l0pte_index (H + v) = idx 0 v /\ l1pte_index (H + v) = idx 1 v /\ l2pte_index (H + v) = idx 2 v /\ l3pte_index (H + v) = idx 3 v.
Proof.
  intros Hv. destruct (window v Hv) as [E [Hw _]].
  pose proof (index_low (H + v) 0 Hw ltac:(lia)) as E0. pose proof (index_low (H + v) 1 Hw ltac:(lia)) as E1.
  pose proof (index_low (H + v) 2 Hw ltac:(lia)) as E2. pose proof (index_low (H + v) 3 Hw ltac:(lia)) as E3. rewrite E in E0, E1, E2, E3.
  split_and!; [exact E0|exact E1|exact E2|exact E3].
Qed.

Lemma user_space_window v : low v -> user_space_vaddr (H + v) = (H =? 0).
Proof.
  intros Hv. destruct HH as (H0 & Hm & Ht). unfold user_space_vaddr, low in *. change (2 ^ 16 - 1) with (Z.ones 16). rewrite Z.land_ones, Z.shiftr_div_pow2 by lia.
  apply Z.mod_divide in Hm as [q Eq]; [|lia]. assert (Ed : (H + v) / 2 ^ 48 = q) by (rewrite Eq, Z.div_add_l, (Z.div_small v) by (done || lia); lia).
  rewrite Ed. assert (Hq : 0 <= q < 2 ^ 16).
  { change (2 ^ 64) with (2 ^ 16 * 2 ^ 48) in Ht. change (2 ^ 16) with 65536 in *. change (2 ^ 48) with 281474976710656 in *. lia. }
  rewrite Z.mod_small by done. change (2 ^ 48) with 281474976710656 in *. destruct (Z.eqb_spec q 0), (Z.eqb_spec H 0); (done || lia).
Qed.

Lemma window_mod x k : 0 <= k <= 48 -> (H + x) mod 2 ^ k = x mod 2 ^ k.
Proof.
  intros Hk. destruct HH as (_ & Hm & _). apply Z.mod_divide in Hm as [q ->]; [|lia].
  replace (2 ^ 48) with (2 ^ (48 - k) * 2 ^ k) by (rewrite <- Z.pow_add_r by lia; f_equal; lia).
  rewrite Z.mul_assoc, Z.add_comm. apply Z_mod_plus_full.
Qed.
End in_window.

Section create.
(** The range lies in the window of 2^48 addresses that starts at [H]; the table
    maps [v] of the window to [v + off]. *)
Context (root H off : Z) (fl : attr).
Context (HH : is_window H) (Hoff : off mod 4096 = 0).
Let user := negb (off =? H) && (H =? 0).
#[local] Abbreviation mapped := (MmuMap.mapped root off fl user).
Implicit Types (s : mmu).

Lemma user_ok v : low v -> low (v + off) -> negb (H + v =? v + off) && user_space_vaddr (H + v) = user.
Proof.
  intros Hv Hp. unfold user. rewrite user_space_window by done. do 2 f_equal.
  destruct (Z.eqb_spec (H + v) (v + off)), (Z.eqb_spec off H); (done || lia).
Qed.

Lemma addr_end_ok k v b : 12 <= k <= 48 -> 0 <= v < b -> b <= 2 ^ 48 -> H + b < 2 ^ 64 ->
  addr_end (2 ^ k) (H + v) (H + b) = H + next_chunk (2 ^ k) v b.
Proof.
  intros Hk Hv Hb Hend. destruct HH as (H0 & Hm & Ht). unfold addr_end, next_chunk.
  assert (Hc : 0 < 2 ^ k) by lia. assert (Hc48 : 2 ^ 48 = 2 ^ (48 - k) * 2 ^ k) by (rewrite <- Z.pow_add_r by lia; f_equal; lia).
  apply Z.mod_divide in Hm as [q Eq]; [|lia]. set (c := 2 ^ k) in *. set (d := 2 ^ (48 - k)) in *.
  assert (Hd : 0 < d) by (unfold d; lia).
  assert (EH : (H + v) / c = q * d + v / c) by (rewrite Eq, Hc48; replace (q * (d * c) + v) with (q * d * c + v) by lia; by rewrite Z.div_add_l by lia).
  pose proof (Z.div_mod v c). pose proof (Z.mod_pos_bound v c). unfold u64, wrap.
  assert (Ebd : Z.land ((H + v + c) mod 2 ^ 64) (wnot 64 (c - 1)) = (H + v + c) mod 2 ^ 64 / c * c).
  { unfold c at 2. rewrite align_down; [done|lia|]. apply Z.mod_pos_bound. lia. }
  cbv zeta. rewrite Ebd. rewrite (Z.mod_small (H + b - 1)) by lia.
  destruct (Z.lt_ge_cases (H + v + c) (2 ^ 64)) as [Hlt|Hge].
  - rewrite (Z.mod_small (H + v + c)) by lia. replace (H + v + c) with (H + v + 1 * c) by lia. rewrite Z.div_add, EH by lia.
    assert (Eb : (q * d + v / c + 1) * c = H + (v / c + 1) * c) by (rewrite Eq, Hc48; lia). rewrite Eb.
    assert (0 < (v / c + 1) * c <= v + c) by nia. rewrite Z.mod_small by lia.
    destruct (Z.ltb_spec (H + (v / c + 1) * c - 1) (H + b - 1)); lia.
  - assert (Hcw : c <= 2 ^ 48) by (unfold c; apply Z.pow_le_mono_r; lia).
    assert (E : (H + v + c) mod 2 ^ 64 = H + v + c - 2 ^ 64) by (symmetry; apply (Z.mod_unique _ _ 1); lia). rewrite E.
    rewrite Z.div_small by lia. rewrite Z.mul_0_l. assert (E64 : (0 - 1) mod 2 ^ 64 = 2 ^ 64 - 1) by reflexivity. rewrite E64.
    destruct (Z.ltb_spec (2 ^ 64 - 1) (H + b - 1)); [lia|]. f_equal. symmetry. apply Z.min_r.
    assert (d - 1 <= v / c) by (apply Z.div_le_lower_bound; lia). apply (Z.le_trans _ (d * c)); [lia|]. apply Z.mul_le_mono_nonneg_r; lia.
Qed.

(** *** Reading and writing entries *)
Lemma pte_ok s k v t e : tab root (tables s) k v = Some t -> ent root (tables s) k v = Some e -> pte_at (t, idx k v) s = Ret (e, s).
Proof.
  intros Ht He. destruct (ent_tab root _ k v e He) as (t' & l & Ht' & Hl & Hle). assert (t' = t) as -> by congruence.
  unfold pte_at. cbn [fst snd]. kstep. rewrite Hl. kstep. by rewrite Hle.
Qed.

Lemma put_pte_ok s k v t e x : tab root (tables s) k v = Some t -> ent root (tables s) k v = Some e ->
  put_pte (t, idx k v) x s = Ret (tt, with_tables (alter <[Z.to_nat (idx k v) := x]> t) s).
Proof. intros Ht He. unfold put_pte. erewrite kbind_ret by (by eapply pte_ok). done. Qed.

(** The pointer to the entry one level down. *)
Lemma down_ok s k v t t' (i : Z) :
  tab root (tables s) k v = Some t -> tab root (tables s) (S k) v = Some t' ->
  (e ← pte_at (t, idx k v); mret (Z.land e TTB_TABLE_ADDR_MASK, i)) s = Ret ((t', i), s).
Proof.
  intros Ht Ht'. destruct (tab_path root _ k v t' Ht') as (e & u & He & _ & Hm & _).
  erewrite kbind_ret by (by eapply pte_ok). by rewrite Hm.
Qed.

Lemma bug_zero_ok s k v t t' : tab root (tables s) k v = Some t -> tab root (tables s) (S k) v = Some t' -> bug_zero (t, idx k v) s = Ret (tt, s).
Proof.
  intros Ht Ht'. destruct (tab_path root _ k v t' Ht') as (e & u & He & Hty & _).
  unfold bug_zero. erewrite kbind_ret by (by eapply pte_ok). destruct (Z.eqb_spec e 0) as [->|]; [done|done].
Qed.

Lemma tab_up m k v t' : tab root m (S k) v = Some t' -> exists t, tab root m k v = Some t.
Proof. intros (e & u & _ & _ & _ & Hu)%tab_path. eauto. Qed.

Lemma ensure_ok s k v t a :
  wf root s -> (k <= 2)%nat -> low v -> tab root (tables s) k v = Some t -> noblock root (tables s) v -> (1 <= length (heap s))%nat ->
  exists s' n t', ensure_table fl (t, idx k v) s = Ret (tt, s') /\ mapped 3 s s' a a n /\ tab root (tables s') (S k) v = Some t' /\
    n = if decide (tab root (tables s) (S k) v = None) then 1%nat else 0%nat.
Proof.
  intros Hwf Hk Hv Ht Hb Hh. destruct (tab_ent root s k v t Hwf ltac:(lia) Hv Ht) as [e He].
  unfold ensure_table. erewrite kbind_ret by (by eapply pte_ok). cbn beta. destruct (Z.eqb_spec e 0) as [->|Hne]; cbn [when].
  - destruct (heap s) as [|t' r] eqn:Eh; [simpl in Hh; lia|]. unfold new_table. erewrite kbind_ret by (rewrite Eh; done). cbn beta.
    destruct (attach_mapped root off fl user s Hwf k v t t' r Hk Hv Ht He Eh a) as [Hm Htab].
    eexists _, 1%nat, t'. split; [|split; [exact Hm|split; [exact Htab|by rewrite tab_S, He]]].
    eapply (put_pte_ok (MkMmu (<[t' := zeros]> (tables s)) r) k v t 0).
    + rewrite <- Ht. eapply fresh_ent; (eassumption || lia).
    + rewrite <- He. eapply fresh_ent; (eassumption || lia).
  - assert (H3 : pte_type e = 3).
    { destruct (wf_ent _ _ Hwf k v e ltac:(lia) Hv He Hne) as [?|[Hk12 H1]]; [done|]. by destruct (Hb k e Hk12 He). }
    assert (Htab : tab root (tables s) (S k) v = Some (Z.land e TTB_TABLE_ADDR_MASK)) by (rewrite tab_S, He; simpl; by rewrite H3).
    exists s, 0%nat, (Z.land e TTB_TABLE_ADDR_MASK). split_and!; [done|by apply mapped_refl|done|]. by rewrite Htab.
Qed.

(** *** The loops *)
(** What a step needs of the rest [v, b) of its range: the tables [T] down to
    level [K], no block in the way, and memory. *)
Record ready (K : nat) (T : nat -> Z) (need : mmu -> Z -> nat) (b : Z) s (v : Z) : Prop := {
  rd_wf : wf root s;
  rd_v : 0 <= v <= b;
  rd_al : v mod 4096 = 0;
  rd_tab : forall j w, (j <= K)%nat -> v <= w < b -> tab root (tables s) j w = Some (T j);
  rd_free : forall w, v <= w < b -> noblock root (tables s) w;
  rd_heap : (need s v <= length (heap s))%nat
}.

(** The bounds of a range and of its image. *)
Definition in_range (b : Z) : Prop := b <= 2 ^ 48 /\ H + b < 2 ^ 64 /\ b + off <= 2 ^ 48 /\ b mod 4096 = 0.

Lemma ready_next K T need b s s' v v' n :
  ready K T need b s v -> v <= v' <= b -> v' mod 4096 = 0 -> in_range b -> mapped K s s' v v' n -> (n + need s' v' <= need s v)%nat ->
  ready K T need b s' v'.
Proof.
  intros [A1 A2 A3 A4 A5 A6] Hv' Hal (Hb & _) Hm Hn. assert (Hlow : forall w, v' <= w < b -> low w) by (intros w Hw; unfold low; lia). split.
  - apply Hm.
  - lia.
  - done.
  - intros j w Hj Hw. apply (mp_tab _ _ _ _ _ _ _ _ _ _ Hm); [done|by apply Hlow|]. apply A4; [done|lia].
  - intros w Hw. apply (mp_noblock _ _ _ _ _ _ _ _ _ _ Hm); [by apply Hlow|lia|]. apply A5. lia.
  - rewrite (mp_heap _ _ _ _ _ _ _ _ _ _ Hm), length_drop. lia.
Qed.

Lemma do_while_ok K L T (need : mmu -> Z -> nat) (meas : Z -> nat) a b body :
  (K <= L)%nat -> in_range b ->
  (forall s v, ready K T need b s v -> a <= v < b -> 0 <= v + off ->
     exists v' s' n, body (H + v) (v + off) s = Ret ((H + v', v' + off), s') /\ v < v' <= b /\ v' mod 4096 = 0 /\
       (meas v' < meas v)%nat /\ mapped L s s' v v' n /\ (n + need s' v' <= need s v)%nat) ->
  forall fuel s v, ready K T need b s v -> a <= v < b -> 0 <= v + off -> (meas v <= fuel)%nat ->
  exists s' n, do_while fuel body (H + b) (H + v) (v + off) s = Ret (tt, s') /\ mapped L s s' v b n /\ (n <= need s v)%nat.
Proof.
  intros HKL Hb Hbody fuel. induction fuel as [|fuel IH]; intros s v Hr Hlt Hp Hm.
  { destruct (Hbody s v Hr Hlt Hp) as (v' & s' & n & _ & _ & _ & Hlt' & _). lia. }
  destruct (Hbody s v Hr Hlt Hp) as (v' & s' & n & E & Hv' & Hal & Hlt' & Hmap & Hn). cbn [do_while].
  erewrite kbind_ret by exact E. cbn [fst snd]. destruct (Z.eqb_spec (H + v') (H + b)) as [Eb|Eb].
  - assert (v' = b) as -> by lia. exists s', n. split_and!; [done|done|lia].
  - pose proof (ready_next K T need b s s' v v' n Hr ltac:(lia) Hal Hb (mapped_level _ _ _ _ _ _ _ _ _ _ _ HKL Hmap) Hn) as Hr'.
    destruct (IH s' v' Hr' ltac:(lia) ltac:(lia) ltac:(lia)) as (s2 & n2 & E2 & Hmap2 & Hn2).
    exists s2, (n + n2)%nat. split_and!; [done| |lia]. by apply (mapped_app root off fl user L s s' s2 v v' b); [lia|..].
Qed.

(** Sums with the window stay in the word. *)
Lemma u64_sum v d : 0 <= v -> 0 <= d -> H + v + d < 2 ^ 64 -> u64 (H + v + d) = H + (v + d).
Proof. intros Hv Hd Hs. destruct HH as [H0 _]. rewrite u64_small by lia. lia. Qed.
Lemma u64_phys v d : 0 <= v + off -> 0 <= d -> v + d + off <= 2 ^ 48 -> u64 (v + off + d) = v + d + off.
Proof. intros Hv Hd Hs. change (2 ^ 48) with 281474976710656 in Hs. rewrite u64_small; [lia|]. change (2 ^ 64) with 18446744073709551616. lia. Qed.

(** *** Pages *)
Definition need3 (b : Z) s (v : Z) : nat := if decide (v < b /\ tab root (tables s) 3 v = None) then 1%nat else 0%nat.

Lemma l3_body_ok T b s v :
  in_range b -> (forall w, v <= w < b -> tpre 3 w = tpre 3 v) -> ready 2 T (need3 b) b s v -> v < b -> 0 <= v + off ->
  exists s' n, l3_body (T 1%nat, idx 1 v) fl (H + v) (v + off) s = Ret ((H + (v + 4096), v + 4096 + off), s') /\
    v + 4096 <= b /\ mapped 3 s s' v (v + 4096) n /\ (n + need3 b s' (v + 4096) <= need3 b s v)%nat.
Proof.
  intros (Hb & Hend & Hpb & Hbal) Htp [A1 A2 A3 A4 A5 A6] Hlt Hp.
  assert (Hv : low v) by (unfold low; lia). pose proof (A4 1%nat v ltac:(lia) ltac:(lia)) as Ht1. pose proof (A4 2%nat v ltac:(lia) ltac:(lia)) as Ht2.
  set (t1 := T 1%nat) in *. set (t2 := T 2%nat) in *.
  assert (Hb4 : v + 4096 <= b) by dlia.
  destruct (index_ok H HH v Hv) as (_ & _ & I2 & I3). unfold l3_body, l2pte_offset, l3pte_offset.
  erewrite kbind_ret by (by eapply down_ok). cbn beta. rewrite I2.
  assert (Hens : exists s1 n t3, ensure_table fl (t2, idx 2 v) s = Ret (tt, s1) /\ mapped 3 s s1 v v n /\
    tab root (tables s1) 3 v = Some t3 /\ n = need3 b s v).
  { destruct (tab root (tables s) 3 v) as [t3|] eqn:E3.
    - exists s, 0%nat, t3. split_and!; [|by apply mapped_refl|done|by unfold need3; rewrite E3, decide_False by (intros [_ ?]; done)].
      destruct (tab_path root _ 2 v t3 E3) as (e & u & He & Hty & _ & Hu). unfold ensure_table.
      erewrite kbind_ret by (by eapply pte_ok). destruct (Z.eqb_spec e 0) as [->|]; [done|done].
    - assert (En : need3 b s v = 1%nat) by (unfold need3; by rewrite decide_True).
      destruct (ensure_ok s 2 v t2 v A1 ltac:(lia) Hv Ht2 (A5 v ltac:(lia)) ltac:(lia)) as (s1 & n & t3 & E & Hm & Ht3 & Hn).
      exists s1, n, t3. split_and!; [done|done|done|]. rewrite En, Hn, E3. done. }
  destruct Hens as (s1 & n & t3 & E & Hm & Ht3 & ->). erewrite kbind_ret by exact E. cbn beta.
  assert (Ht2' : tab root (tables s1) 2 v = Some t2) by (apply (mp_tab _ _ _ _ _ _ _ _ _ _ Hm); [lia|done|done]).
  erewrite kbind_ret by (by eapply down_ok). cbn beta. rewrite I3.
  pose proof (mp_wf _ _ _ _ _ _ _ _ _ _ Hm) as Hwf1. destruct (tab_ent root s1 3 v t3 Hwf1 ltac:(lia) Hv Ht3) as [e He].
  assert (Hpal : (v + off) mod 4096 = 0) by (rewrite Z.add_mod, A3, Hoff by lia; done).
  assert (Hpl : low (v + off)) by (unfold low; lia).
  unfold TTB_L3_PAGE_ADDR_MASK. rewrite (set_pte_leaf true (v + off) 12 fl (H + v) (v + off)) by (done || lia). rewrite user_ok by done.
  erewrite kbind_ret by (by eapply put_pte_ok). cbn beta.
  pose proof (leaf_write_mapped root off fl user s1 Hwf1 3 v t3 ltac:(lia) Ht3 Hv A3 Hpal Hpl) as Hleaf.
  change (bool_decide (3%nat = 3%nat)) with true in Hleaf. change (v + 2 ^ leaf_shift 3) with (v + 4096) in Hleaf.
  eexists _, _. split; [|split; [done|split]].
  - cbv beta. change PAGE_SIZE with 4096. unfold mret, kern_ret. do 3 f_equal; [apply u64_sum|apply u64_phys]; lia.
  - apply (mapped_app root off fl user 3 s s1 _ v v (v + 4096)); [lia|exact Hm|exact Hleaf].
  - rewrite Nat.add_0_r. assert (E0 : need3 b (with_tables (alter <[Z.to_nat (idx 3 v) := leaf_entry true (v + off) fl user]> t3) s1) (v + 4096) = 0%nat); [|lia].
    unfold need3. rewrite decide_False; [done|]. intros [Hl Hno].
    assert (Hl4 : low (v + 4096)) by (unfold low; lia).
    assert (Ht3' : tab root (tables s1) 3 (v + 4096) = Some t3) by (rewrite <- Ht3; apply tab_congr; [lia..|apply Htp; lia]).
    pose proof (mp_tab _ _ _ _ _ _ _ _ _ _ Hleaf 3 (v + 4096) t3 ltac:(lia) Hl4 Ht3') as Hx. congruence.
Qed.

Lemma alloc_init_l3_ok T b s v :
  in_range b -> (forall w, v <= w < b -> tpre 3 w = tpre 3 v) -> T 0%nat = root -> ready 2 T (need3 b) b s v -> v < b -> 0 <= v + off ->
  exists s' n, alloc_init_l3 root (H + v) (H + b) (v + off) fl s = Ret (tt, s') /\ mapped 3 s s' v b n /\ (n <= 1)%nat.
Proof.
  intros Hb Htp HT Hr Hlt Hp. pose proof Hr as [A1 A2 A3 A4 A5 A6]. pose proof Hb as (Hb1 & Hb2 & Hb3 & Hb4).
  assert (Hv : low v) by (unfold low; lia). destruct (index_ok H HH v Hv) as (I0 & I1 & _ & _).
  pose proof (A4 0%nat v ltac:(lia) ltac:(lia)) as T0. pose proof (A4 1%nat v ltac:(lia) ltac:(lia)) as T1. pose proof (A4 2%nat v ltac:(lia) ltac:(lia)) as T2.
  unfold alloc_init_l3, l0pte_offset. rewrite I0. cbv zeta. rewrite HT in T0.
  erewrite kbind_ret by (by eapply bug_zero_ok). cbn beta. unfold l1pte_offset. erewrite kbind_ret by (by eapply down_ok). cbn beta. rewrite I1.
  erewrite kbind_ret by (by eapply bug_zero_ok). cbn beta.
  destruct (do_while_ok 2 3 T (need3 b) (fun w => Z.to_nat ((b - w) / 4096)) v b (l3_body (T 1%nat, idx 1 v) fl) ltac:(lia) Hb) with (fuel := 512%nat) (s := s) (v := v)
    as (s' & n & E & Hm & Hn); [|done|lia|done| |].
  - intros s0 v0 Hr0 Hlt0 Hp0. pose proof (pages_le v0 b (rd_al _ _ _ _ _ _ Hr0) Hb4 ltac:(lia)) as [_ Hpg].
    rewrite <- (idx_eq 3 1 v v0) by (lia || apply Htp; lia).
    destruct (l3_body_ok T b s0 v0 Hb) as (s1 & n & E & Hle & Hm & Hn); [intros w Hw; rewrite (Htp w), (Htp v0) by lia; done|done|lia|done|].
    exists (v0 + 4096), s1, n. split_and!; try done; [lia|]. rewrite Z.add_mod, (rd_al _ _ _ _ _ _ Hr0) by lia. done.
  - assert (b - v <= 2 ^ 21); [|change (2 ^ 21) with (512 * 4096) in *; dlia].
    pose proof (Htp (b - 1) ltac:(lia)) as E. unfold tpre in E. change (48 - 9 * Z.of_nat 3) with 21 in E.
    pose proof (Z.div_mod v (2 ^ 21)). pose proof (Z.div_mod (b - 1) (2 ^ 21)). pose proof (Z.mod_pos_bound v (2 ^ 21)). pose proof (Z.mod_pos_bound (b - 1) (2 ^ 21)). lia.
  - exists s', n. split_and!; [done|done|]. unfold need3 in Hn. case_decide; lia.
Qed.

(** *** Blocks *)
(** A block is written exactly when the chunk is a whole block. *)
Lemma block_chunk k v b : 12 <= k <= 48 -> 0 <= v < b -> 0 <= v + off ->
  block_aligned (2 ^ k) (H + v) (H + next_chunk (2 ^ k) v b) (v + off) = true ->
  v mod 2 ^ k = 0 /\ (v + off) mod 2 ^ k = 0 /\ next_chunk (2 ^ k) v b = v + 2 ^ k.
Proof.
  intros Hk Hv Hp Hal. destruct (next_chunk_spec (2 ^ k) v b ltac:(lia) Hv) as (N1 & N2 & _). destruct HH as [H0 _].
  apply block_aligned_spec in Hal as (B1 & B2 & B3); [|lia..]. rewrite (window_mod H HH) in B1, B2 by lia. split_and!; [done|done|].
  set (nx := next_chunk (2 ^ k) v b) in *. set (c := 2 ^ k) in *. assert (Hc : 0 < c) by (unfold c; lia).
  apply Z.mod_divide in B1 as [q Eq]; [|lia]. apply Z.mod_divide in B2 as [r Er]; [|lia]. rewrite Eq, Z.div_mul in N2 by lia.
  assert (q < r) by nia. assert (r <= q + 1) by nia. assert (r = q + 1) by lia. subst r. lia.
Qed.

(** The cut of a range at a chunk boundary. *)
Lemma next_in_range k v b : 12 <= k <= 48 -> 0 <= v < b -> in_range b ->
  in_range (next_chunk (2 ^ k) v b) /\ (forall w, v <= w < next_chunk (2 ^ k) v b -> w / 2 ^ k = v / 2 ^ k).
Proof.
  intros Hk Hv (Hb1 & Hb2 & Hb3 & Hb4). destruct (next_chunk_spec (2 ^ k) v b ltac:(lia) Hv) as (N1 & N2 & N3 & N4 & _).
  split; [|done]. unfold in_range. split_and!; [lia..|]. destruct (Z.lt_ge_cases (next_chunk (2 ^ k) v b) b) as [Hlt|].
  - apply (mod_mul_4096 _ k); [lia|by apply N3].
  - by replace (next_chunk (2 ^ k) v b) with b by lia.
Qed.

(** After the table of level [K + 1] exists, the step may go down a level. *)
Lemma ready_down K T need b nx s s1 v n t need' :
  (K <= 2)%nat -> in_range b -> ready K T need b s v -> mapped 3 s s1 v v n -> tab root (tables s1) (S K) v = Some t ->
  v <= nx <= b -> (forall w, v <= w < nx -> tpre (S K) w = tpre (S K) v) -> (need' s1 v <= length (heap s1))%nat ->
  ready (S K) (fun j => if decide (j = S K) then t else T j) need' nx s1 v.
Proof.
  intros HK (Hb & _) [A1 A2 A3 A4 A5 A6] Hm Ht Hnx Htp Hh. assert (Hlow : forall w, v <= w < nx -> low w) by (intros w Hw; unfold low; lia). split.
  - apply Hm.
  - lia.
  - done.
  - intros j w Hj Hw. case_decide as Ej.
    + subst j. rewrite <- Ht. apply tab_congr; [lia..|by apply Htp].
    + apply (mp_tab _ _ _ _ _ _ _ _ _ _ Hm); [lia|by apply Hlow|]. apply A4; lia.
  - intros w Hw. apply (mp_noblock _ _ _ _ _ _ _ _ _ _ Hm); [by apply Hlow|lia|]. apply A5. lia.
  - done.
Qed.

Definition need2 (b : Z) (s : mmu) (v : Z) : nat := (2 * chunks (2 ^ 21) v b)%nat.

Lemma l2_body_ok T b s v :
  in_range b -> T 0%nat = root -> (forall w, v <= w < b -> tpre 2 w = tpre 2 v) -> ready 1 T (need2 b) b s v -> v < b -> 0 <= v + off ->
  exists s' n, let nx := next_chunk (2 ^ 21) v b in
    l2_body root (root, idx 0 v) fl (H + b) (H + v) (v + off) s = Ret ((H + nx, nx + off), s') /\
    mapped 2 s s' v nx n /\ (n <= 2)%nat.
Proof.
  intros Hb HT Htp Hr Hlt Hp. pose proof Hr as [A1 A2 A3 A4 A5 A6]. pose proof Hb as (Hb1 & Hb2 & Hb3 & Hb4).
  assert (Hv : low v) by (unfold low; lia). destruct (index_ok H HH v Hv) as (_ & I1 & I2 & _).
  pose proof (A4 0%nat v ltac:(lia) ltac:(lia)) as T0. pose proof (A4 1%nat v ltac:(lia) ltac:(lia)) as T1. rewrite HT in T0.
  pose proof (chunks_pos (2 ^ 21) v b ltac:(lia) Hlt) as Hch. unfold need2 in A6.
  set (nx := next_chunk (2 ^ 21) v b). destruct (next_chunk_spec (2 ^ 21) v b ltac:(lia) ltac:(lia)) as (N1 & _). fold nx in N1.
  destruct (next_in_range 21 v b ltac:(lia) ltac:(lia) Hb) as [Hnx Hdiv]. fold nx in Hnx, Hdiv.
  unfold l2_body, l1pte_offset, l2pte_offset. erewrite kbind_ret by (by eapply down_ok). cbn beta. rewrite I1.
  destruct (ensure_ok s 1 v (T 1%nat) v A1 ltac:(lia) Hv T1 (A5 v ltac:(lia)) ltac:(lia)) as (s1 & n & t2 & E & Hm & Ht2 & Hn).
  assert (Hn1 : (n <= 1)%nat) by (rewrite Hn; case_decide; lia). clear Hn.
  erewrite kbind_ret by exact E. cbn beta.
  assert (T1' : tab root (tables s1) 1 v = Some (T 1%nat)) by (apply (mp_tab _ _ _ _ _ _ _ _ _ _ Hm); [lia|done|done]).
  erewrite kbind_ret by (by eapply down_ok). cbn beta. rewrite I2. cbv zeta. unfold l2_addr_end, SZ_2M.
  rewrite addr_end_ok by lia. fold nx. pose proof (mp_wf _ _ _ _ _ _ _ _ _ _ Hm) as Hwf1.
  destruct (block_aligned _ _ _ _) eqn:Eal.
  - destruct (block_chunk 21 v b ltac:(lia) ltac:(lia) Hp Eal) as (B1 & B2 & B3). fold nx in B3.
    destruct (tab_ent root s1 2 v t2 Hwf1 ltac:(lia) Hv Ht2) as [e He]. assert (Hpl : low (v + off)) by (unfold low; lia).
    unfold TTB_L2_BLOCK_ADDR_MASK. rewrite (set_pte_leaf false (v + off) 21 fl (H + v) (v + off)) by (done || lia). rewrite user_ok by done.
    erewrite kbind_ret by (by eapply put_pte_ok). cbn beta.
    pose proof (leaf_write_mapped root off fl user s1 Hwf1 2 v t2 ltac:(lia) Ht2 Hv B1 B2 Hpl) as Hleaf.
    change (bool_decide (2%nat = 3%nat)) with false in Hleaf. change (leaf_shift 2) with 21 in Hleaf. rewrite <- B3 in Hleaf.
    eexists _, _. split; [|split].
    + unfold mret, kern_ret. rewrite B3. do 3 f_equal; [apply u64_sum|apply u64_phys]; lia.
    + apply (mapped_app root off fl user 2 s s1 _ v v nx); [lia|apply (mapped_level _ _ _ _ 3); [lia|exact Hm]|exact Hleaf].
    + lia.
  - set (T' := fun j => if decide (j = 2%nat) then t2 else T j).
    assert (Hr' : ready 2 T' (need3 nx) nx s1 v).
    { apply (ready_down 1 T (need2 b) b nx s s1 v n t2); [lia|done|done|done|done|lia|intros w Hw; apply Htp; lia|].
      rewrite (mp_heap _ _ _ _ _ _ _ _ _ _ Hm), length_drop. unfold need3. case_decide; lia. }
    destruct (alloc_init_l3_ok T' nx s1 v Hnx) as (s2 & n2 & E2 & Hm2 & Hn2); [|done|done|lia|done|].
    { intros w Hw. unfold tpre. change (48 - 9 * Z.of_nat 3) with 21. by apply Hdiv. }
    erewrite kbind_ret by exact E2. cbn beta. exists s2, (n + n2)%nat. split; [|split].
    + unfold mret, kern_ret. do 3 f_equal. replace (H + nx - (H + v)) with (nx - v) by lia.
      destruct Hnx as (X1 & _ & X3 & _). rewrite (u64_small (nx - v)); [rewrite u64_phys by lia; lia|].
      change (2 ^ 48) with 281474976710656 in X1. change (2 ^ 64) with 18446744073709551616. lia.
    + apply (mapped_app root off fl user 2 s s1 s2 v v nx); [lia|apply (mapped_level _ _ _ _ 3); [lia|exact Hm]|apply (mapped_level _ _ _ _ 3); [lia|exact Hm2]].
    + lia.
Qed.

(** A loop over chunks does one round per chunk. *)
Lemma next_meas k v b : 12 <= k <= 48 -> 0 <= v < b -> in_range b -> let nx := next_chunk (2 ^ k) v b in
  v < nx <= b /\ nx mod 4096 = 0 /\ (1 + chunks (2 ^ k) nx b = chunks (2 ^ k) v b)%nat.
Proof.
  intros Hk Hv Hb nx. destruct (next_chunk_spec (2 ^ k) v b ltac:(lia) Hv) as (N1 & _ & _ & _ & _ & N6).
  destruct (next_in_range k v b Hk Hv Hb) as [(_ & _ & _ & N4) _]. done.
Qed.

(** The physical address after a chunk. *)
Lemma next_phys v nx : 0 <= v <= nx -> in_range nx -> 0 <= v + off -> u64 (v + off + u64 (H + nx - (H + v))) = nx + off.
Proof.
  intros Hv (X1 & _ & X3 & _) Hp. replace (H + nx - (H + v)) with (nx - v) by lia.
  rewrite (u64_small (nx - v)); [rewrite u64_phys by lia; lia|].
  change (2 ^ 48) with 281474976710656 in X1. change (2 ^ 64) with 18446744073709551616. lia.
Qed.

Lemma alloc_init_l2_ok T b s v :
  in_range b -> T 0%nat = root -> (forall w, v <= w < b -> tpre 2 w = tpre 2 v) -> ready 1 T (need2 b) b s v -> v < b -> 0 <= v + off ->
  exists s' n, alloc_init_l2 root (H + v) (H + b) (v + off) fl s = Ret (tt, s') /\ mapped 2 s s' v b n /\ (n <= 2 * chunks (2 ^ 21) v b)%nat.
Proof.
  intros Hb HT Htp Hr Hlt Hp. pose proof Hr as [A1 A2 A3 A4 A5 A6]. pose proof (proj1 Hb) as Hb1.
  assert (Hv : low v) by (unfold low; lia). destruct (index_ok H HH v Hv) as (I0 & _).
  pose proof (A4 0%nat v ltac:(lia) ltac:(lia)) as T0. pose proof (A4 1%nat v ltac:(lia) ltac:(lia)) as T1. rewrite HT in T0.
  unfold alloc_init_l2, l0pte_offset. rewrite I0. cbv zeta. erewrite kbind_ret by (by eapply bug_zero_ok). cbn beta.
  destruct (do_while_ok 1 2 T (need2 b) (fun w => chunks (2 ^ 21) w b) v b (l2_body root (root, idx 0 v) fl (H + b)) ltac:(lia) Hb)
    with (fuel := 512%nat) (s := s) (v := v) as (s' & n & E & Hm & Hn); [|done|lia|done| |by exists s', n].
  - intros s0 v0 Hr0 Hlt0 Hp0. destruct (next_meas 21 v0 b ltac:(lia) ltac:(lia) Hb) as (N1 & N2 & N3).
    rewrite <- (idx_eq 2 0 v v0) by (lia || apply Htp; lia).
    destruct (l2_body_ok T b s0 v0 Hb HT) as (s1 & n & E & Hm & Hn); [intros w Hw; rewrite (Htp w), (Htp v0) by lia; done|done|lia|done|].
    eexists _, s1, n. split; [exact E|]. split_and!; [lia|lia|done|lia|done|]. unfold need2. lia.
  - apply (chunks_within 21 512); [lia..|]. change (2 ^ 21 * 512) with (2 ^ 30). apply (Htp (b - 1)). lia.
Qed.

(** *** Blocks of 1 GB *)
Definition need1 (b : Z) (s : mmu) (v : Z) : nat := (3 * chunks (2 ^ 21) v b)%nat.
Definition top : nat -> Z := fun _ => root.

Lemma l1_body_ok b s v :
  in_range b -> ready 0 top (need1 b) b s v -> v < b -> 0 <= v + off ->
  exists s' n, let nx := next_chunk (2 ^ 30) v b in
    l1_body root fl (H + b) (H + v) (v + off) s = Ret ((H + nx, nx + off), s') /\
    mapped 1 s s' v nx n /\ (n <= 1 + 2 * chunks (2 ^ 21) v nx)%nat.
Proof.
  intros Hb Hr Hlt Hp. pose proof Hr as [A1 A2 A3 A4 A5 A6]. pose proof Hb as (Hb1 & Hb2 & Hb3 & Hb4).
  assert (Hv : low v) by (unfold low; lia). destruct (index_ok H HH v Hv) as (I0 & I1 & _).
  pose proof (chunks_pos (2 ^ 21) v b ltac:(lia) Hlt) as Hch. pose proof (small_chunks 30 v b ltac:(lia) ltac:(lia)) as Hsp. unfold need1 in A6.
  set (nx := next_chunk (2 ^ 30) v b) in *. destruct (next_chunk_spec (2 ^ 30) v b ltac:(lia) ltac:(lia)) as (N1 & _). fold nx in N1.
  destruct (next_in_range 30 v b ltac:(lia) ltac:(lia) Hb) as [Hnx Hdiv]. fold nx in Hnx, Hdiv.
  pose proof (chunks_pos (2 ^ 21) v nx ltac:(lia) ltac:(lia)) as Hch'.
  unfold l1_body, l1pte_offset, l0pte_offset. rewrite I0. cbv zeta.
  destruct (ensure_ok s 0 v root v A1 ltac:(lia) Hv eq_refl (A5 v ltac:(lia)) ltac:(lia)) as (s1 & n & t1 & E & Hm & Ht1 & Hn).
  assert (Hn1 : (n <= 1)%nat) by (rewrite Hn; case_decide; lia). clear Hn.
  erewrite kbind_ret by exact E. cbn beta. erewrite kbind_ret by (by eapply down_ok). cbn beta. rewrite I1. unfold l1_addr_end, SZ_1G.
  rewrite addr_end_ok by lia. fold nx. pose proof (mp_wf _ _ _ _ _ _ _ _ _ _ Hm) as Hwf1.
  destruct (block_aligned _ _ _ _) eqn:Eal.
  - destruct (block_chunk 30 v b ltac:(lia) ltac:(lia) Hp Eal) as (B1 & B2 & B3). fold nx in B3.
    destruct (tab_ent root s1 1 v t1 Hwf1 ltac:(lia) Hv Ht1) as [e He]. assert (Hpl : low (v + off)) by (unfold low; lia).
    unfold TTB_L1_BLOCK_ADDR_MASK. rewrite (set_pte_leaf false (v + off) 30 fl (H + v) (v + off)) by (done || lia). rewrite user_ok by done.
    erewrite kbind_ret by (by eapply put_pte_ok). cbn beta.
    pose proof (leaf_write_mapped root off fl user s1 Hwf1 1 v t1 ltac:(lia) Ht1 Hv B1 B2 Hpl) as Hleaf.
    change (bool_decide (1%nat = 3%nat)) with false in Hleaf. change (leaf_shift 1) with 30 in Hleaf. rewrite <- B3 in Hleaf.
    eexists _, _. split; [|split].
    + unfold mret, kern_ret. rewrite B3. do 3 f_equal; [apply u64_sum|apply u64_phys]; lia.
    + apply (mapped_app root off fl user 1 s s1 _ v v nx); [lia|apply (mapped_level _ _ _ _ 3); [lia|exact Hm]|exact Hleaf].
    + lia.
  - set (T' := fun j => if decide (j = 1%nat) then t1 else top j).
    assert (Htp2 : forall w, v <= w < nx -> tpre 2 w = tpre 2 v) by (intros w Hw; unfold tpre; change (48 - 9 * Z.of_nat 2) with 30; by apply Hdiv).
    assert (Hr' : ready 1 T' (need2 nx) nx s1 v).
    { apply (ready_down 0 top (need1 b) b nx s s1 v n t1); [lia|done|done|done|done|lia| |].
      - intros w Hw. apply (tpre_le 2 1); [lia..|by apply Htp2].
      - rewrite (mp_heap _ _ _ _ _ _ _ _ _ _ Hm), length_drop. unfold need2. lia. }
    destruct (alloc_init_l2_ok T' nx s1 v Hnx) as (s2 & n2 & E2 & Hm2 & Hn2); [done|done|done|lia|done|].
    erewrite kbind_ret by exact E2. cbn beta. exists s2, (n + n2)%nat. split; [|split].
    + unfold mret, kern_ret. by rewrite next_phys by (done || lia).
    + apply (mapped_app root off fl user 1 s s1 s2 v v nx); [lia|apply (mapped_level _ _ _ _ 3); [lia|exact Hm]|apply (mapped_level _ _ _ _ 2); [lia|exact Hm2]].
    + lia.
Qed.

Lemma alloc_init_l1_ok b s v :
  in_range b -> (b - 1) / 2 ^ 38 = v / 2 ^ 38 -> ready 0 top (need1 b) b s v -> v < b -> 0 <= v + off ->
  exists s' n, alloc_init_l1 root (H + v) (H + b) (v + off) fl s = Ret (tt, s') /\ mapped 1 s s' v b n /\ (n <= 3 * chunks (2 ^ 21) v b)%nat.
Proof.
  intros Hb Hone Hr Hlt Hp. pose proof (rd_v _ _ _ _ _ _ Hr) as A2. unfold alloc_init_l1.
  destruct (do_while_ok 0 1 top (need1 b) (fun w => chunks (2 ^ 30) w b) v b (l1_body root fl (H + b)) ltac:(lia) Hb)
    with (fuel := 256%nat) (s := s) (v := v) as (s' & n & E & Hm & Hn); [|done|lia|done| |by exists s', n].
  - intros s0 v0 Hr0 Hlt0 Hp0. destruct (next_meas 30 v0 b ltac:(lia) ltac:(lia) Hb) as (N1 & N2 & N3).
    destruct (l1_body_ok b s0 v0 Hb Hr0 ltac:(lia) Hp0) as (s1 & n & E & Hm & Hn).
    pose proof (small_chunks 30 v0 b ltac:(lia) ltac:(lia)) as Hsp. pose proof (chunks_pos (2 ^ 21) v0 (next_chunk (2 ^ 30) v0 b) ltac:(lia) ltac:(lia)) as Hch.
    eexists _, s1, n. split; [exact E|]. split_and!; [lia|lia|done|lia|done|]. unfold need1. lia.
  - apply (chunks_within 30 256); [lia..|]. done.
Qed.

(** The outermost loop. *)
Lemma l0_loop_ok b s v fuel :
  in_range b -> ready 0 top (need1 b) b s v -> v < b -> 0 <= v + off -> (chunks (2 ^ 38) v b <= fuel)%nat ->
  exists s' n, do_while fuel (l0_body root fl (H + b)) (H + b) (H + v) (v + off) s = Ret (tt, s') /\ mapped 1 s s' v b n /\ (n <= 3 * chunks (2 ^ 21) v b)%nat.
Proof.
  intros Hb Hr Hlt Hp Hf. pose proof (rd_v _ _ _ _ _ _ Hr) as A2.
  destruct (do_while_ok 0 1 top (need1 b) (fun w => chunks (2 ^ 38) w b) v b (l0_body root fl (H + b)) ltac:(lia) Hb)
    with (fuel := fuel) (s := s) (v := v) as (s' & n & E & Hm & Hn); [|done|lia|done|done|by exists s', n].
  intros s0 v0 Hr0 Hlt0 Hp0. destruct (next_meas 38 v0 b ltac:(lia) ltac:(lia) Hb) as (N1 & N2 & N3).
  destruct (next_in_range 38 v0 b ltac:(lia) ltac:(lia) Hb) as [Hnx Hdiv]. pose proof (small_chunks 38 v0 b ltac:(lia) ltac:(lia)) as Hsp.
  pose proof Hb as (Hb1 & Hb2 & _). set (nx := next_chunk (2 ^ 38) v0 b) in *.
  assert (Hr' : ready 0 top (need1 nx) nx s0 v0).
  { destruct Hr0 as [B1 B2 B3 B4 B5 B6]. split; [done|lia|done|intros j w Hj Hw; apply B4; lia|intros w Hw; apply B5; lia|]. unfold need1 in *. lia. }
  destruct (alloc_init_l1_ok nx s0 v0 Hnx) as (s1 & n & E & Hm & Hn); [apply Hdiv; lia|done|lia|done|].
  exists nx, s1, n. split_and!; [|lia|lia|done|lia|done|unfold need1; lia].
  unfold l0_body, l0_addr_end. change SZ_256G with (2 ^ 38). rewrite addr_end_ok by lia. fold nx. cbv zeta.
  erewrite kbind_ret by exact E. cbn beta. unfold mret, kern_ret. by rewrite next_phys by (done || lia).
Qed.
End create.

End MmuCreate.
