(* ===== verification/MmuSpec.v ===== *)
(** What the page-table operations of so3/arch/arm64/mmu.c promise: the
    translation the architecture performs after [create_mapping],
    [release_mapping] and [reset_root_pgtable], and the answer of
    [virt_to_phys_pt]. *)
From S2P Require Import Prelude Frames Mmu MmuMap MmuReset MmuCreate.

Module MmuSpec.
Import Mmu MmuMap MmuReset MmuCreate.
Implicit Types (s : mmu).

(** The bounds of the pages a range of bytes touches. *)
Definition pg_start (virt : Z) : Z := virt / 4096 * 4096.
Definition pg_end (virt size : Z) : Z := (virt + size + 4095) / 4096 * 4096.

Lemma page_bounds virt size : 0 <= virt -> 0 < size -> pg_end virt size < 2 ^ 64 -> pg_end virt size - pg_start virt <= 2 ^ 48 ->
  let a := pg_start virt in let e := pg_end virt size in
  page_base virt = a /\ ALIGN_UP (u64 (size + page_off virt)) PAGE_SIZE = e - a /\ u64 (a + (e - a)) = e /\ 0 <= a < e /\ a mod 4096 = 0 /\ e mod 4096 = 0.
Proof.
  intros Hv Hs He Hw a e. unfold pg_end, pg_start in *. change (2 ^ 48) with 281474976710656 in *.
  assert (Hvs : virt + size < 2 ^ 64) by (change (2 ^ 64) with 18446744073709551616 in *; dlia).
  rewrite page_base_spec, page_off_spec by (unfold in_word; lia). change PAGE_SIZE with 4096.
  assert (Hae : 0 <= a < e) by (unfold a, e; dlia). rewrite u64_small by (change (2 ^ 64) with 18446744073709551616 in *; dlia).
  rewrite ALIGN_UP_spec by (change PAGE_SIZE with 4096; change (2 ^ 64) with 18446744073709551616 in *; dlia). change PAGE_SIZE with 4096.
  split_and!; [done| | |lia|lia|apply Z_mod_mult|apply Z_mod_mult].
  - unfold a, e. clear. dlia.
  - replace (a + (e - a)) with e by lia. apply u64_small. lia.
Qed.

Section create_spec.
Context (sys_root : Z) (pgtable : option Z) (H virt phys size : Z) (fl : attr) (s : mmu).
Let root := default sys_root pgtable.
Let a := pg_start virt.
Let e := pg_end virt size.
Context (Hwf : wf root s) (HH : is_window H) (Hsize : 0 < size) (Hin : H <= virt /\ e <= H + 2 ^ 48 /\ e < 2 ^ 64).
Context (Hphys : phys mod 4096 = 0 /\ 0 <= phys /\ phys + (e - a) <= 2 ^ 48).
Context (Hnb : forall w, a <= H + w < e -> noblock root (tables s) w).
Context (Hheap : (3 * chunks (2 ^ 21) (a - H) (e - H) <= length (heap s))%nat).

Lemma create_mapped : exists s' n, __create_mapping sys_root pgtable virt phys size fl s = Ret (tt, s') /\
  mapped root (phys - (a - H)) fl (negb (phys - (a - H) =? H) && (H =? 0)) 1 s s' (a - H) (e - H) n /\ (n <= 3 * chunks (2 ^ 21) (a - H) (e - H))%nat.
Proof.
  destruct Hin as (Hv & He48 & He64). destruct Hphys as (Hp1 & Hp2 & Hp3). pose proof HH as (H0 & HHm & Ht).
  assert (HHal : H mod 4096 = 0) by (apply (mod_mul_4096 _ 48); [lia|done]).
  assert (HaH : H <= a) by (unfold a, pg_start; clear - Hv HHal; dlia).
  destruct (page_bounds virt size) as (E1 & E2 & E3 & Hae & Ha & Hem); [lia|done|exact He64|fold a e; lia|]. fold a e in E1, E2, E3, Hae, Ha, Hem.
  assert (Hoff : (phys - (a - H)) mod 4096 = 0) by (clear - Hp1 Ha HHal; dlia).
  assert (Hb : in_range H (phys - (a - H)) (e - H)) by (split_and!; [lia..|clear - Hem HHal; dlia]).
  unfold __create_mapping. fold root. rewrite (proj2 (Z.eqb_neq size 0)) by lia. kstep. rewrite E1, E2, E3. cbv zeta.
  destruct (l0_loop_ok root H (phys - (a - H)) fl HH Hoff (e - H) s (a - H) (Z.to_nat ((e - a) / SZ_256G + 2))) as (s' & n & E & Hm & Hn); [done| |lia|lia| |].
  - split; [done|lia|clear - Ha HHal; dlia|intros [|j] w Hj _; [done|lia]|intros w Hw; apply Hnb; lia|exact Hheap].
  - unfold chunks. rewrite decide_True by lia. change SZ_256G with (2 ^ 38). set (c := 2 ^ 38). assert (Hc : 0 < c) by (unfold c; lia).
    pose proof (Z.div_mod (e - H - 1) c). pose proof (Z.div_mod (a - H) c). pose proof (Z.div_mod (e - a) c).
    pose proof (Z.mod_pos_bound (e - H - 1) c). pose proof (Z.mod_pos_bound (a - H) c). pose proof (Z.mod_pos_bound (e - a) c).
    apply Z2Nat.inj_le; nia.
  - exists s', n. split; [|by split]. replace (H + (e - H)) with e in E by lia. replace (H + (a - H)) with a in E by lia.
    replace (a - H + (phys - (a - H))) with phys in E by lia. exact E.
Qed.
End create_spec.
(** C32: [__create_mapping], for both stages and with or without the hypervisor, of a
    range to a page-aligned physical address, where no block is mapped yet in the
    range, returns when there is memory for the tables, and maps exactly the pages of
    the range [virt, virt + size) to consecutive frames from [phys] on, with the
    attributes asked for, and with user access for a user address unless it is mapped
    to itself; every other address translates as before, and no table outside the
    tree is touched. *)
Theorem create_mapping_correct sys_root pgtable H virt phys size fl s :
  let root := default sys_root pgtable in
  let a := pg_start virt in
  let e := pg_end virt size in
  wf root s -> is_window H -> 0 < size -> H <= virt /\ e <= H + 2 ^ 48 /\ e < 2 ^ 64 ->
  phys mod 4096 = 0 /\ 0 <= phys /\ phys + (e - a) <= 2 ^ 48 ->
  (forall w, a <= H + w < e -> noblock root (tables s) w) ->
  (3 * chunks (2 ^ 21) (a - H) (e - H) <= length (heap s))%nat ->
  exists s', __create_mapping sys_root pgtable virt phys size fl s = Ret (tt, s') /\ wf root s' /\
    (forall w, low w -> translate root (tables s') w =
       if decide (a <= H + w < e) then Some (phys + (H + w - a), leaf_attrs fl (negb (phys =? a) && (H =? 0)))
       else translate root (tables s) w) /\
    (exists n, heap s' = drop n (heap s)) /\
    (forall t, t ∉ heap s -> ~ reachable root s t -> tables s' !! t = tables s !! t).
Proof.
  intros root a e Hwf HH Hsize Hin Hphys Hnb Hheap.
  destruct (create_mapped sys_root pgtable H virt phys size fl s Hwf HH Hsize Hin Hphys Hnb Hheap) as (s' & n & E & Hm & _).
  fold root a e in Hm. exists s'. split_and!; [done|apply Hm| |exists n; apply Hm|intros t; apply Hm].
  intros w Hw. rewrite (mp_trans _ _ _ _ _ _ _ _ _ _ Hm w Hw). replace (phys - (a - H) =? H) with (phys =? a).
  - destruct (decide (a - H <= w < e - H)), (decide (a <= H + w < e)); try (done || lia). f_equal. f_equal. lia.
  - destruct (Z.eqb_spec phys a), (Z.eqb_spec (phys - (a - H)) H); (done || lia).
Qed.

(** *** The software walk *)
Lemma bug_zero_run p e s : pte_at p s = Ret (e, s) -> bug_zero p s = if e =? 0 then Fault Panic else Ret (tt, s).
Proof. intros E. unfold bug_zero. erewrite kbind_ret by exact E. by destruct (e =? 0). Qed.
Lemma bug_type_run p e ty s : pte_at p s = Ret (e, s) -> pte_type e = ty -> bug_type p ty s = Ret (tt, s).
Proof. intros E <-. unfold bug_type. erewrite kbind_ret by exact E. cbn beta. by rewrite Z.eqb_refl. Qed.
Lemma down_run p e (i : Z) s : pte_at p s = Ret (e, s) -> (e' ← pte_at p; mret (Z.land e' TTB_TABLE_ADDR_MASK, i)) s = Ret ((Z.land e TTB_TABLE_ADDR_MASK, i), s).
Proof. intros E. by erewrite kbind_ret by exact E. Qed.

(** Steps of a walk whose entry was read as in [R]. *)
Ltac wread R := erewrite kbind_ret by exact R; cbn beta.
Ltac wdown R := erewrite kbind_ret by (apply down_run; exact R); cbn beta.
Ltac wzero R := erewrite kbind_fault by (rewrite (bug_zero_run _ _ _ R); reflexivity).
Ltac wnonzero R Hz := erewrite kbind_ret by (rewrite (bug_zero_run _ _ _ R), (proj2 (Z.eqb_neq _ 0) Hz); reflexivity); cbn beta.
Ltac wtype R Ht := erewrite kbind_ret by (apply (bug_type_run _ _ _ _ R Ht)); cbn beta.

Section lookup.
Context (sys_root cur H : Z) (HH : is_window H).
Let root := if H =? 0 then cur else sys_root.

(** One step of a walk, in a well-formed tree. *)
Lemma walk_step s k w t : wf root s -> (k <= 3)%nat -> low w -> tab root (tables s) k w = Some t ->
  exists e, pte_at (t, idx k w) s = Ret (e, s) /\ ent root (tables s) k w = Some e /\
    (e = 0 \/ e <> 0 /\ pte_type e = 3 /\ tab root (tables s) (S k) w = Some (Z.land e TTB_TABLE_ADDR_MASK) \/
     e <> 0 /\ (k = 1 \/ k = 2)%nat /\ pte_type e = 1).
Proof.
  intros Hwf Hk Hw Ht. destruct (tab_ent root s k w t Hwf Hk Hw Ht) as [e He]. exists e. split; [by eapply pte_ok|]. split; [done|].
  destruct (decide (e = 0)) as [|Hne]; [by left|]. right. destruct (wf_ent _ _ Hwf k w e Hk Hw He Hne) as [H3|[H1 H2]]; [left|by right].
  split_and!; [done..|]. by rewrite tab_S, He; simpl; rewrite H3.
Qed.

Lemma zero_stops s k w : (k <= 3)%nat -> ent root (tables s) k w = Some 0 -> translate root (tables s) w = None.
Proof. intros Hk He. by apply (translate_stop root _ k w 0). Qed.
Lemma off_low w : low w -> u32 (page_off (H + w)) = w mod 4096.
Proof.
  intros Hw. destruct (window H HH w Hw) as [_ Hin]. rewrite page_off_spec by apply Hin. change PAGE_SIZE with (2 ^ 12). rewrite window_mod by (done || lia).
  unfold u32, wrap. change (2 ^ 12) with 4096. pose proof (Z.mod_pos_bound w 4096). rewrite Z.mod_small by lia. done.
Qed.

(** Or-ing the page offset to the address of a leaf. *)
Lemma leaf_or k e w : k = 12 \/ k = 21 \/ k = 30 -> Z.lor (Z.land e (addr_mask k)) (w mod 4096) = (leaf k e w).1 - w mod 2 ^ k + w mod 4096.
Proof.
  intros Hk. rewrite (lor_low _ _ 12); [cbn [fst leaf]; lia|lia| |apply Z.mod_pos_bound; lia].
  rewrite <- Z.land_ones by lia. rewrite <- Z.land_assoc. assert (E : Z.land (addr_mask k) (Z.ones 12) = 0) by (destruct Hk as [->|[->| ->]]; reflexivity).
  by rewrite E, Z.land_0_r.
Qed.

(** The answer for an address that the leaf of shift [k] translates to [pa]. *)
Definition walk_answer (r : option (Z * Z)) (w : Z) (o : outcome (Z * mmu)) (s : mmu) : Prop :=
  match r with
  | None => o = Fault Panic
  | Some (pa, _) => exists k, (k = 12 \/ k = 21 \/ k = 30) /\ o = Ret (pa - w mod 2 ^ k + w mod 4096, s) /\
      (k = 12 <-> is_Some (tab root (tables s) 3 w))
  end.

Lemma virt_to_phys_walk s w : wf root s -> low w ->
  walk_answer (translate root (tables s) w) w (virt_to_phys_pt sys_root cur (H + w) s) s.
Proof.
  intros Hwf Hw. destruct (index_ok H HH w Hw) as (I0 & I1 & I2 & I3).
  unfold virt_to_phys_pt, l1pte_offset, l2pte_offset, l3pte_offset, l0pte_offset. rewrite user_space_window, off_low, I0, I1, I2, I3 by done. fold root. cbv zeta.
  destruct (walk_step s 0 w root Hwf ltac:(lia) Hw eq_refl) as (e0 & R0 & N0 & [->|[(Z0 & T0 & A0)|(_ & [?|?] & _)]]); [|..|lia|lia].
  { rewrite (zero_stops s 0 w) by (done || lia). by wzero R0. }
  wnonzero R0 Z0. wdown R0.
  destruct (walk_step s 1 w _ Hwf ltac:(lia) Hw A0) as (e1 & R1 & N1 & [->|[(Z1 & T1 & A1)|(Z1 & _ & T1)]]).
  { rewrite (zero_stops s 1 w) by (done || lia). by wzero R1. }
  2:{ wnonzero R1 Z1. wread R1. rewrite T1. change (1 =? PTE_TYPE_BLOCK) with true. cbn iota.
      rewrite (translate_leaf root _ 1 w e1) by (done || lia). exists 30. split_and!; [tauto|unfold TTB_L1_BLOCK_ADDR_MASK; by rewrite leaf_or by tauto|split; [done|]].
      intros [t3 (t & Ht)%tab_up]. by rewrite tab_S, N1 in Ht; simpl in Ht; rewrite T1 in Ht. }
  wnonzero R1 Z1. wread R1. rewrite T1. change (3 =? PTE_TYPE_BLOCK) with false. cbn iota. wtype R1 T1. wdown R1.
  destruct (walk_step s 2 w _ Hwf ltac:(lia) Hw A1) as (e2 & R2 & N2 & [->|[(Z2 & T2 & A2)|(Z2 & _ & T2)]]).
  { rewrite (zero_stops s 2 w) by (done || lia). by wzero R2. }
  2:{ wnonzero R2 Z2. wread R2. rewrite T2. change (1 =? PTE_TYPE_BLOCK) with true. cbn iota.
      rewrite (translate_leaf root _ 2 w e2) by (done || lia). exists 21. split_and!; [tauto|unfold TTB_L2_BLOCK_ADDR_MASK; by rewrite leaf_or by tauto|split; [done|]].
      intros [t3 Ht]. by rewrite tab_S, N2 in Ht; simpl in Ht; rewrite T2 in Ht. }
  wnonzero R2 Z2. wread R2. rewrite T2. change (3 =? PTE_TYPE_BLOCK) with false. cbn iota. wtype R2 T2. wdown R2.
  destruct (walk_step s 3 w _ Hwf ltac:(lia) Hw A2) as (e3 & R3 & N3 & [->|[(Z3 & T3 & _)|(_ & [?|?] & _)]]); [|..|lia|lia].
  { rewrite (zero_stops s 3 w) by (done || lia). by wzero R3. }
  wnonzero R3 Z3. wtype R3 T3. wread R3. rewrite (translate_leaf root _ 3 w e3) by (done || lia).
  exists 12. split_and!; [tauto|unfold TTB_L3_PAGE_ADDR_MASK; by rewrite leaf_or by tauto|split; [eauto|done]].
Qed.

(** The address is translated by a page: the walk gets to a table of the last level. *)
Definition by_page (m : gmap Z (list Z)) (w : Z) : Prop := is_Some (tab root m 3 w).

(** C34: on a well-formed tree the software walk stops the kernel exactly on an unmapped
    address, and on an address mapped by a page it returns, without changing
    anything, the physical address the hardware translates it to.  (On an address in
    a block it returns another one, against its documentation:
    [virt_to_phys_block_loses_bits].) *)
Theorem virt_to_phys_pt_spec s w : wf root s -> low w ->
  (virt_to_phys_pt sys_root cur (H + w) s = Fault Panic <-> translate root (tables s) w = None) /\
  (forall pa at', translate root (tables s) w = Some (pa, at') -> by_page (tables s) w -> virt_to_phys_pt sys_root cur (H + w) s = Ret (pa, s)).
Proof.
  intros Hwf Hw. pose proof (virt_to_phys_walk s w Hwf Hw) as Ha. unfold walk_answer in Ha.
  destruct (translate root (tables s) w) as [[pa at0]|]; [|split; [done|by intros ? ?]].
  destruct Ha as (k & _ & E & Hk). split; [split; [by rewrite E|done]|]. intros pa' at' [= <- <-] Hp.
  rewrite E. apply Hk in Hp as ->. do 2 f_equal. change (2 ^ 12) with 4096. lia.
Qed.
End lookup.

(** *** Release *)
Lemma leaf_unique root m u k k' e e' :
  (1 <= k <= 3)%nat -> (1 <= k' <= 3)%nat -> ent root m k u = Some e -> pte_type e = leaf_type k ->
  ent root m k' u = Some e' -> pte_type e' = leaf_type k' -> k = k'.
Proof.
  intros Hk Hk' He Ht He' Ht'. unfold leaf_type in *. destruct (Nat.lt_trichotomy k k') as [Hlt|[?|Hlt]]; [|done|].
  - destruct (ent_above root m k' u e' He' k Hlt) as (x & Hx & Tx). rewrite decide_False in Ht by lia. congruence.
  - destruct (ent_above root m k u e He k' Hlt) as (x & Hx & Tx). rewrite decide_False in Ht' by lia. congruence.
Qed.

Lemma leaf_chunk k v : (1 <= k <= 3)%nat -> 0 <= v -> let c := 2 ^ leaf_shift k in
  4096 <= c /\ c mod 4096 = 0 /\ v / c * c <= v < v / c * c + c /\ forall w, v / c * c <= w < v / c * c + c -> tpre (S k) w = tpre (S k) v.
Proof.
  intros Hk Hv c. assert (Hc : c = 2 ^ (leaf_shift k - 12) * 4096) by (unfold c; change 4096 with (2 ^ 12); rewrite <- Z.pow_add_r by (unfold leaf_shift; lia); f_equal; lia).
  assert (0 < 2 ^ (leaf_shift k - 12)) by (unfold leaf_shift; lia). pose proof (Z.div_mod v c). pose proof (Z.mod_pos_bound v c).
  split_and!; [lia|rewrite Hc; apply Z_mod_mult|lia|lia|].
  intros w Hw. unfold tpre. fold (leaf_shift k). fold c. symmetry. apply (Z.div_unique w c (v / c) (w - v / c * c)); lia.
Qed.

(** The leaf after a leaf starts where that ends. *)
Lemma leaf_next root m k e v w a b : (1 <= k <= 3)%nat -> low w -> let c := 2 ^ leaf_shift k in
  0 <= v -> v / c * c = v -> ent root m k v = Some e -> pte_type e = leaf_type k -> v + c <= w ->
  leaf_within root m w a b -> leaf_within root m w (v + c) b.
Proof.
  intros Hk Hw c Hv0 Hv He Ht Hvw (k' & e' & Hk' & He' & Ht' & _ & Hc2). cbv zeta in Hc2. exists k', e'.
  cbv zeta. split; [done|split; [done|split; [done|split; [|done]]]].
  destruct (leaf_chunk k v Hk Hv0) as (C1 & _ & _ & C4). fold c in C1, C4. rewrite Hv in C4.
  destruct (leaf_chunk k' w Hk' ltac:(lia)) as (D1 & _ & D3 & D4). set (c' := 2 ^ leaf_shift k') in *.
  destruct (Z.le_gt_cases (v + c) (w / c' * c')) as [|Hgt]; [done|]. exfalso. set (u := v + c - 1).
  assert (Hu : tpre (S k') u = tpre (S k') w) by (apply D4; lia). assert (Huv : tpre (S k) u = tpre (S k) v) by (apply C4; lia).
  assert (k = k') as <-.
  { apply (leaf_unique root m u k k' e e' Hk Hk'); [|done| |done].
    - rewrite <- He. apply ent_congr; [lia|lia|lia|done].
    - rewrite <- He'. apply ent_congr; [lia|lia|lia|done]. }
  assert (E : tpre (S k) w = tpre (S k) v) by congruence. apply tpre_chunk in E; [change (2 ^ (48 - 9 * Z.of_nat (S k))) with c in E; lia|lia|].
  change (2 ^ (48 - 9 * Z.of_nat (S k))) with c. rewrite <- Hv. apply Z_mod_mult.
Qed.

Lemma not_empty p e s : pte_at p s = Ret (e, s) -> e <> 0 -> free_if_empty p s = Ret (tt, s).
Proof.
  intros R Hz. assert (En : exists n, Z.to_nat TTB_ENTRIES = S n) by (by exists 511%nat). destruct En as [n En].
  unfold free_if_empty, empty_table. rewrite En. cbn [empty_from].
  erewrite kbind_ret; [|wread R; rewrite (proj2 (Z.eqb_neq _ 0) Hz); reflexivity]. done.
Qed.

Lemma root_not_empty root l i e s : tables s !! root = Some l -> l !! i = Some e -> e <> 0 ->
  forall n j, (j <= i < j + n)%nat -> empty_from n (root, Z.of_nat j) s = Ret (false, s).
Proof.
  intros Hl Hi Hz n. induction n as [|n IH]; intros j Hj; [lia|]. cbn [empty_from].
  destruct (lookup_lt_is_Some_2 l j) as [x Hx]; [apply lookup_lt_Some in Hi; lia|].
  assert (R : pte_at (root, Z.of_nat j) s = Ret (x, s)).
  { unfold pte_at. cbn [fst snd]. kstep. rewrite Hl. kstep. by rewrite Nat2Z.id, Hx. }
  wread R. destruct (Z.eqb_spec x 0) as [->|]; [|done]. cbn [negb fst snd].
  assert (i <> j) by (intros ->; congruence). replace (Z.of_nat j + 1) with (Z.of_nat (S j)) by lia. apply IH. lia.
Qed.

Section release.
Context (root H : Z) (HH : is_window H).

(** From [s] to [s'] the translation of [a, b) is removed; the tables stay. *)
Record cleared s s' (a b : Z) : Prop := {
  cl_wf : wf root s';
  cl_trans : forall w, low w -> translate root (tables s') w = if decide (a <= w < b) then None else translate root (tables s) w;
  cl_keep : forall j w, (j <= 3)%nat -> low w -> ~ (a <= w < b) -> ent root (tables s') j w = ent root (tables s) j w;
  cl_top : forall w e, low w -> ent root (tables s) 0 w = Some e -> ent root (tables s') 0 w = Some e;
  cl_heap : heap s' = heap s;
  cl_dom : dom (tables s') = dom (tables s);
  cl_reach : forall t, reachable root s' t -> reachable root s t;
  cl_frame : forall t, ~ reachable root s t -> tables s' !! t = tables s !! t
}.

Lemma cleared_app s s1 s2 a b c : a <= b <= c -> cleared s s1 a b -> cleared s1 s2 b c -> cleared s s2 a c.
Proof.
  intros Habc [A1 A2 A3 A4 A5 A6 A7 A8] [B1 B2 B3 B4 B5 B6 B7 B8]. split; try (done || congruence || auto; fail).
  - intros w Hw. rewrite B2, A2 by done. repeat case_decide; (done || lia).
  - intros j w Hj Hw Hn. rewrite B3, A3 by (done || lia). done.
  - intros t Ht. rewrite B8, A8; auto.
Qed.

(** Clearing the entry of a leaf. *)
Lemma clear_leaf s k v t e : (1 <= k <= 3)%nat -> low v -> wf root s -> let c := 2 ^ leaf_shift k in
  v / c * c = v -> tab root (tables s) k v = Some t -> ent root (tables s) k v = Some e -> pte_type e = leaf_type k ->
  cleared s (with_tables (alter <[Z.to_nat (idx k v) := 0]> t) s) v (v + c).
Proof.
  intros Hk Hv Hwf c Hvc Ht He Hty. set (s' := with_tables _ s).
  assert (Hin : forall w, tpre (S k) w = tpre (S k) v <-> v <= w < v + c).
  { intros w. apply tpre_chunk; [lia|]. change (2 ^ (48 - 9 * Z.of_nat (S k))) with c. rewrite <- Hvc. apply Z_mod_mult. }
  assert (Hst : k = 3%nat \/ pte_type 0 <> 3) by (by right). assert (Hz : 0 <> 0 -> ok_ent k 0) by done.
  assert (Hreach : forall u, reachable root s' u -> reachable root s u).
  { intros u (j & w & Hj & Hw & Hu). exists j, w. split_and!; [done..|]. by apply (stop_write_tab root s Hwf k v t 0 ltac:(lia) Ht Hv Hst Hz). }
  split.
  - apply (stop_write_wf root s Hwf k v t 0 ltac:(lia) Ht Hv Hst Hz).
  - intros w Hw. case_decide as E.
    + apply Hin in E. apply (translate_stop root _ k w 0); [lia| |done|done]. cbn [tables s' with_tables].
      rewrite (write_ent root s Hwf k v t 0 ltac:(lia) Hv Ht k w) by (done || lia). by rewrite decide_True.
    + rewrite <- Hin in E. apply translate_ext. intros j Hj. by apply (write_far root s Hwf k v t 0 ltac:(lia) Hv Ht j w).
  - intros j w Hj Hw E. rewrite <- Hin in E. by apply (write_far root s Hwf k v t 0 ltac:(lia) Hv Ht j w).
  - intros w f Hw Hf. cbn [tables s' with_tables]. rewrite (write_ent root s Hwf k v t 0 ltac:(lia) Hv Ht 0 w) by (done || lia). rewrite decide_False by lia. done.
  - done.
  - cbn [tables s' with_tables]. apply dom_alter_L.
  - done.
  - intros u Hu. cbn [tables s' with_tables]. rewrite lookup_alter_ne; [done|]. intros <-. apply Hu. exists k, v. split_and!; [lia|done..].
Qed.

(** One round of the loop: the leaf at [v] goes. *)
Lemma release_body_ok s k v e : (1 <= k <= 3)%nat -> low v -> wf root s -> let c := 2 ^ leaf_shift k in
  v / c * c = v -> ent root (tables s) k v = Some e -> pte_type e = leaf_type k ->
  exists s', release_body root (H + v) s = Ret (Some c, s') /\ cleared s s' v (v + c).
Proof.
  intros Hk Hv Hwf c Hvc He Hty. destruct (index_ok H HH v Hv) as (I0 & I1 & I2 & I3).
  destruct (ent_tab root _ k v e He) as (t & _ & Ht & _). pose proof (clear_leaf s k v t e Hk Hv Hwf Hvc Ht He Hty) as Hcl. fold c in Hcl.
  set (s' := with_tables _ s) in Hcl. exists s'. split; [|exact Hcl].
  assert (Hne : e <> 0) by (intros ->; unfold leaf_type in Hty; case_decide; done).
  assert (Hput : put_pte (t, idx k v) 0 s = Ret (tt, s')) by (eapply put_pte_ok; done).
  assert (Hup : forall j, (j < k)%nat -> exists f u, ent root (tables s) j v = Some f /\ pte_type f = 3 /\ f <> 0 /\
    tab root (tables s) j v = Some u /\ tab root (tables s) (S j) v = Some (Z.land f TTB_TABLE_ADDR_MASK) /\
    pte_at (u, idx j v) s = Ret (f, s) /\ free_if_empty (u, idx j v) s' = Ret (tt, s')).
  { intros j Hj. destruct (ent_above root _ k v e He j Hj) as (f & Hf & Tf). destruct (ent_tab root _ j v f Hf) as (u & _ & Hu & _).
    assert (f <> 0) by (intros ->; done). exists f, u. split_and!; try done.
    - by rewrite tab_S, Hf; simpl; rewrite Tf.
    - by eapply pte_ok.
    - apply (not_empty _ f); [|done]. apply (pte_ok root); cbn [tables s' with_tables].
      + by rewrite (write_tab root s Hwf k v t 0 ltac:(lia) Hv Ht j v ltac:(lia) Hv).
      + rewrite (write_ent root s Hwf k v t 0 ltac:(lia) Hv Ht j v ltac:(lia) Hv). rewrite decide_False by lia. done. }
  unfold release_body, l1pte_offset, l2pte_offset, l3pte_offset, l0pte_offset. rewrite I0, I1, I2, I3. cbv zeta.
  destruct (Hup 0%nat ltac:(lia)) as (f0 & u0 & F0 & T0 & N0 & U0 & D0 & R0 & Z0). assert (u0 = root) as -> by (cbn in U0; congruence).
  wread R0. rewrite (proj2 (Z.eqb_neq _ 0) N0). wdown R0.
  destruct (decide (k = 1%nat)) as [->|Hk1].
  { assert (t = Z.land f0 TTB_TABLE_ADDR_MASK) as -> by congruence. assert (Re : pte_at (Z.land f0 TTB_TABLE_ADDR_MASK, idx 1 v) s = Ret (e, s)) by (by eapply pte_ok).
    wnonzero Re Hne. wread Re. rewrite Hty. change (leaf_type 1 =? PTE_TYPE_BLOCK) with true. cbn iota. wread Hput. by wread Z0. }
  destruct (Hup 1%nat ltac:(lia)) as (f1 & u1 & F1 & T1 & N1 & U1 & D1 & R1 & Z1). assert (u1 = Z.land f0 TTB_TABLE_ADDR_MASK) as -> by congruence.
  wnonzero R1 N1. wread R1. rewrite T1. change (3 =? PTE_TYPE_BLOCK) with false. cbn iota. wtype R1 T1. wdown R1.
  destruct (decide (k = 2%nat)) as [->|Hk2].
  { assert (t = Z.land f1 TTB_TABLE_ADDR_MASK) as -> by congruence. assert (Re : pte_at (Z.land f1 TTB_TABLE_ADDR_MASK, idx 2 v) s = Ret (e, s)) by (by eapply pte_ok).
    wnonzero Re Hne. wread Re. rewrite Hty. change (leaf_type 2 =? PTE_TYPE_BLOCK) with true. cbn iota. wread Hput. by wread Z1. }
  destruct (Hup 2%nat ltac:(lia)) as (f2 & u2 & F2 & T2 & N2 & U2 & D2 & R2 & Z2). assert (u2 = Z.land f1 TTB_TABLE_ADDR_MASK) as -> by congruence.
  wnonzero R2 N2. wread R2. rewrite T2. change (3 =? PTE_TYPE_BLOCK) with false. cbn iota. wtype R2 T2. wdown R2.
  assert (k = 3%nat) as -> by lia. assert (t = Z.land f2 TTB_TABLE_ADDR_MASK) as -> by congruence.
  assert (Re : pte_at (Z.land f2 TTB_TABLE_ADDR_MASK, idx 3 v) s = Ret (e, s)) by (by eapply pte_ok).
  wnonzero Re Hne. wread Hput. by wread Z2.
Qed.

(** The loop, over a range that is a union of leaves. *)
Lemma release_loop_ok e size : 0 <= size < 2 ^ 64 -> e mod 4096 = 0 -> e <= 2 ^ 48 -> H + e < 2 ^ 64 ->
  forall fuel s v, wf root s -> 0 <= v <= e -> v mod 4096 = 0 -> e - v <= size -> (Z.to_nat ((e - v) / 4096) <= fuel)%nat ->
  (forall w, v <= w < e -> leaf_within root (tables s) w v e) ->
  exists s', release_loop fuel root (H + v) size (size - (e - v)) s = Ret (true, s') /\ cleared s s' v e.
Proof.
  intros Hsz Hem He He64 fuel. induction fuel as [|fuel IH]; intros s v Hwf Hv Hal Hle Hf Hlf.
  { assert (v = e) as -> by dlia. exists s. cbn [release_loop]. replace (size - (e - e)) with size by lia. rewrite Z.ltb_irrefl.
    split; [done|]. split; try done. intros w Hw. rewrite decide_False by lia. done. }
  cbn [release_loop]. destruct (Z.ltb_spec (size - (e - v)) size) as [Hlt|Hge].
  2:{ assert (v = e) as -> by lia. exists s. split; [done|]. split; try done. intros w Hw. rewrite decide_False by lia. done. }
  destruct (Hlf v ltac:(lia)) as (k & f & Hk & Hent & Hty & Hc1 & Hc2). cbv zeta in Hc1, Hc2.
  destruct (leaf_chunk k v Hk ltac:(lia)) as (C1 & C2 & C3 & C4). set (c := 2 ^ leaf_shift k) in *.
  assert (Hvc : v / c * c = v) by lia. rewrite Hvc in *.
  destruct (release_body_ok s k v f Hk ltac:(unfold low; lia) Hwf Hvc Hent Hty) as (s1 & E & Hcl). fold c in E, Hcl.
  erewrite kbind_ret by exact E. cbn beta iota.
  destruct (IH s1 (v + c)) as (s2 & E2 & Hcl2); [apply Hcl|lia|clear - Hal C2; dlia|lia|clear - Hf C1 C2 Hal Hem Hc2; dlia| |].
  { intros w Hw. pose proof (Hlf w ltac:(lia)) as Hl. apply (leaf_next root _ k f v w v e Hk ltac:(unfold low; lia)) in Hl; [|lia|done|done|done|fold c; lia].
    destruct Hl as (k' & f' & Hk' & Hf' & Hty' & Hc'). exists k', f'. split; [done|split; [|split; [done|exact Hc']]]. rewrite <- Hf'. apply Hcl; [lia|unfold low; lia|lia]. }
  exists s2. split; [|by apply (cleared_app s s1 s2 v (v + c) e); [lia|..]].
  rewrite <- E2. rewrite (u64_small (H + v + c)), (u64_small (size - (e - v) + c)) by (destruct HH; lia). f_equal; lia.
Qed.
End release.

Lemma release_cleared sys_root pgtable H vaddr size s :
  let root := default sys_root pgtable in
  let a := pg_start vaddr in
  let e := pg_end a size in
  wf root s -> is_window H -> 0 < size -> H <= vaddr /\ e <= H + 2 ^ 48 /\ e < 2 ^ 64 ->
  (forall w, a <= H + w < e -> leaf_within root (tables s) w (a - H) (e - H)) ->
  exists s', release_mapping sys_root pgtable vaddr size s = Ret (tt, s') /\ cleared root s s' (a - H) (e - H).
Proof.
  intros root a e Hwf HH Hsize (Hv & He48 & He64) Hlf. pose proof HH as (H0 & HHm & Ht).
  assert (HHal : H mod 4096 = 0) by (apply (mod_mul_4096 _ 48); [lia|done]).
  assert (HaH : H <= a /\ a <= vaddr) by (unfold a, pg_start; clear - Hv HHal; dlia).
  assert (Eaa : pg_start a = a) by (unfold a, pg_start; clear; dlia).
  assert (Hve : vaddr < 2 ^ 64) by (unfold e, pg_end in He64; unfold a, pg_start in He64; clear - He64 Hsize; change (2 ^ 64) with 18446744073709551616 in *; dlia).
  destruct (page_bounds a size) as (E1 & E2 & E3 & Hae & Ha & Hem); [lia|done|exact He64|fold e; rewrite Eaa; lia|]. fold e in E2, E3, Hae, Ha, Hem. rewrite Eaa in *.
  unfold release_mapping. fold root. rewrite page_base_spec by (unfold in_word; lia). change (vaddr / PAGE_SIZE * PAGE_SIZE) with a. rewrite E2. cbv zeta.
  destruct (release_loop_ok root H HH (e - H) (e - a)) with (fuel := Z.to_nat ((e - a) / PAGE_SIZE + 1)) (s := s) (v := a - H)
    as (s' & E & Hcl); [lia|clear - Hem HHal; dlia|lia|lia|done|lia|clear - Ha HHal; dlia|lia|change PAGE_SIZE with 4096; replace (e - H - (a - H)) with (e - a) by lia; lia|intros w Hw; apply Hlf; lia|].
  replace (H + (a - H)) with a in E by lia. replace (e - a - (e - H - (a - H))) with 0 in E by lia.
  erewrite kbind_ret by exact E. cbn beta. cbn [when]. exists s'. split; [|done].
  assert (Hlow : low (a - H)) by (unfold low; lia).
  destruct (Hlf (a - H) ltac:(lia)) as (k & f & Hk & Hf & _). destruct (ent_above root _ k _ f Hf 0 ltac:(lia)) as (f0 & Hf0 & Ht0).
  apply (cl_top _ _ _ _ _ Hcl (a - H) f0 Hlow) in Hf0. destruct (ent_tab root _ 0 _ f0 Hf0) as (t & l & Htab & Hl & Hlf0). cbn in Htab. injection Htab as <-.
  pose proof (tpre_step 0 (a - H) ltac:(lia) ltac:(lia)) as [_ Hidx].
  unfold free_if_empty, empty_table. erewrite kbind_ret; [|apply (root_not_empty _ l _ f0 s' Hl Hlf0 ltac:(intros ->; done) (Z.to_nat TTB_ENTRIES) 0); unfold TTB_ENTRIES; lia].
  done.
Qed.

(** [release_mapping] of a range that leaves cover exactly returns, removes the
    translation of that range and of nothing else, and keeps every table. *)
Theorem release_mapping_correct sys_root pgtable H vaddr size s :
  let root := default sys_root pgtable in
  let a := pg_start vaddr in
  let e := pg_end a size in
  wf root s -> is_window H -> 0 < size -> H <= vaddr /\ e <= H + 2 ^ 48 /\ e < 2 ^ 64 ->
  (forall w, a <= H + w < e -> leaf_within root (tables s) w (a - H) (e - H)) ->
  exists s', release_mapping sys_root pgtable vaddr size s = Ret (tt, s') /\ wf root s' /\
    (forall w, low w -> translate root (tables s') w = if decide (a <= H + w < e) then None else translate root (tables s) w) /\
    heap s' = heap s /\ dom (tables s') = dom (tables s) /\
    (forall t, ~ reachable root s t -> tables s' !! t = tables s !! t).
Proof.
  intros root a e Hwf HH Hsize Hin Hlf. destruct (release_cleared sys_root pgtable H vaddr size s Hwf HH Hsize Hin Hlf) as (s' & E & Hcl).
  fold root a e in Hcl. exists s'. split_and!; [done|apply Hcl| |apply Hcl|apply Hcl|intros t; apply Hcl].
  intros w Hw. rewrite (cl_trans _ _ _ _ _ Hcl w Hw). destruct (decide (a - H <= w < e - H)), (decide (a <= H + w < e)); (done || lia).
Qed.

(** C33: under the conditions of [create_mapping_correct], and when the range takes no
    more pages than one of its size that starts at a page, as a range that itself
    starts at a page does: releasing what [create_mapping] mapped unmaps the range
    again, and every other address translates as before both calls.  (Otherwise its
    last page stays mapped: [release_keeps_last_page].) *)
Theorem create_release_roundtrip sys_root pgtable H virt phys size fl s :
  let root := default sys_root pgtable in
  let a := pg_start virt in
  let e := pg_end virt size in
  wf root s -> is_window H -> 0 < size -> H <= virt /\ e <= H + 2 ^ 48 /\ e < 2 ^ 64 ->
  phys mod 4096 = 0 /\ 0 <= phys /\ phys + (e - a) <= 2 ^ 48 ->
  (forall w, a <= H + w < e -> noblock root (tables s) w) ->
  (3 * chunks (2 ^ 21) (a - H) (e - H) <= length (heap s))%nat ->
  pg_end a size = e ->
  exists s1 s2, __create_mapping sys_root pgtable virt phys size fl s = Ret (tt, s1) /\
    release_mapping sys_root pgtable virt size s1 = Ret (tt, s2) /\
    forall w, low w -> translate root (tables s2) w = if decide (a <= H + w < e) then None else translate root (tables s) w.
Proof.
  intros root a e Hwf HH Hsize Hin Hphys Hnb Hheap Hend.
  destruct (create_mapped sys_root pgtable H virt phys size fl s Hwf HH Hsize Hin Hphys Hnb Hheap) as (s1 & n & E1 & Hm & _). fold root a e in Hm.
  assert (Hae : a <= virt) by (unfold a, pg_start; clear; dlia). destruct Hin as (Hin1 & Hin2 & Hin3). destruct HH as (H0 & HHm & Ht).
  assert (HaH : H <= a) by (pose proof (mod_mul_4096 H 48 ltac:(lia) HHm); unfold a, pg_start; clear - Hin1 H1; dlia).
  destruct (release_cleared sys_root pgtable H virt size s1) as (s2 & E2 & Hcl); [apply Hm|done|done|fold a; by rewrite Hend| |].
  - fold root a. rewrite Hend. intros w Hw. apply Hm; [lia|unfold low; lia].
  - fold root a in Hcl. rewrite Hend in Hcl. exists s1, s2. split_and!; [done..|]. intros w Hw.
    rewrite (cl_trans _ _ _ _ _ Hcl w Hw), (mp_trans _ _ _ _ _ _ _ _ _ _ Hm w Hw).
    destruct (decide (a - H <= w < e - H)), (decide (a <= H + w < e)); (done || lia).
Qed.

(** *** A tree without tables below its root *)
Definition heap_ok s : Prop :=
  NoDup (heap s) /\ forall t, t ∈ heap s -> tables s !! t = None /\ 0 < t < 2 ^ 48 /\ t mod 4096 = 0.

Lemma empty_root_wf root l s : heap_ok s -> tables s !! root = Some l -> length l = 512%nat -> (forall i e, l !! i = Some e -> e = 0) ->
  wf root s /\ (forall t, reachable root s t <-> t = root) /\
  (forall w, low w -> translate root (tables s) w = None /\ noblock root (tables s) w).
Proof.
  intros Hh Hl Hlen Hz.
  assert (E0 : forall w, low w -> ent root (tables s) 0 w = Some 0).
  { intros w Hw. unfold ent. cbn [tab mbind option_bind]. rewrite Hl. cbn [mbind option_bind]. pose proof (tpre_step 0 w ltac:(lia) (proj1 Hw)) as [_ ?].
    destruct (lookup_lt_is_Some_2 l (Z.to_nat (idx 0 w))) as [e He]; [lia|]. rewrite He. f_equal. by eapply Hz. }
  assert (E1 : forall j w, low w -> tab root (tables s) (S j) w = None).
  { intros j w Hw. apply (tab_None root _ (S j) 1); [lia|]. by rewrite tab_S, E0. }
  assert (Et : forall j w u, low w -> tab root (tables s) j w = Some u -> j = 0%nat /\ u = root).
  { intros [|j] w u Hw Hu; [cbn in Hu; split; [done|congruence]|]. by rewrite E1 in Hu. }
  assert (Ee : forall j w e, low w -> ent root (tables s) j w = Some e -> e = 0).
  { intros [|j] w e Hw He; [rewrite E0 in He by done; congruence|]. unfold ent in He. by rewrite E1 in He. }
  split_and!; [split|..].
  - intros j w u _ Hw Hu. destruct (Et j w u Hw Hu) as [-> ->]. by exists l.
  - intros j j' w w' u _ _ Hw Hw' Hu Hu'. destruct (Et j w u Hw Hu) as [-> _], (Et j' w' u Hw' Hu') as [-> _]. split; [done|]. by rewrite !tpre_0.
  - intros j w e _ Hw He Hne. by destruct (Hne (Ee j w e Hw He)).
  - exact Hh.
  - intros t. split; [intros (j & w & _ & Hw & Ht); by apply (Et j w t Hw Ht)|]. intros ->. exists 0%nat, 0. split; [lia|]. split; [unfold low; lia|done].
  - intros w Hw. split; [apply (translate_stop root _ 0 w 0); [lia|by apply E0|done|done]|]. intros j e _ He. by rewrite (Ee j w e Hw He).
Qed.

(** *** Tearing a tree down *)
Lemma reset_root_spec root remove s : wf root s ->
  exists s', reset_root_pgtable root remove s = Ret (tt, s') /\ heap s' = heap s /\
    (forall t, reachable root s t -> t <> root -> tables s' !! t = None) /\
    (forall t, ~ reachable root s t -> tables s' !! t = tables s !! t) /\
    if remove then tables s' !! root = None else
      exists l, tables s' !! root = Some l /\ length l = 512%nat /\ forall i e, l !! i = Some e -> e = 0.
Proof.
  intros Hwf. destruct (wf_tab _ _ Hwf 0 0 root ltac:(lia) ltac:(unfold low; lia) eq_refl) as (l & Hl & Hlen).
  destruct (reset_root_ok root s Hwf l Hl) as (s1 & E & Hh & Hu & Hr). unfold reset_root_pgtable. erewrite kbind_ret by exact E. cbn beta.
  assert (Hroot : tables s1 !! root = Some (zap <$> l)) by (by rewrite Hu, decide_True).
  assert (Hgone : forall t, reachable root s t -> t <> root -> tables s1 !! t = None).
  { intros t [?|Ht]%Hr Hne; [done|]. by rewrite Hu, decide_False, decide_True. }
  assert (Hkeep : forall t, ~ reachable root s t -> t <> root /\ tables s1 !! t = tables s !! t).
  { intros t Ht. rewrite Hr in Ht. assert (t <> root) by tauto. split; [done|]. rewrite Hu, decide_False by done. rewrite decide_False; tauto. }
  destruct remove; cbn [when].
  - exists (with_tables (delete root) s1). split_and!.
    + unfold free_table. cbn [fst snd]. change (0 =? 0) with true. cbn iota. kstep. rewrite Hroot. by kstep.
    + done.
    + intros t Ht Hne. cbn [tables with_tables]. rewrite lookup_delete_ne by done. by apply Hgone.
    + intros t Ht. destruct (Hkeep t Ht). cbn [tables with_tables]. by rewrite lookup_delete_ne.
    + cbn [tables with_tables]. apply lookup_delete_eq.
  - exists s1. split_and!; [done|done|done|intros t Ht; by apply Hkeep|]. exists (zap <$> l). split_and!; [done|by rewrite length_fmap|]. intros i e'.
    rewrite list_lookup_fmap. intros (e & He & ->)%fmap_Some. unfold zap, is_table. destruct (decide (e = 0)) as [->|Hne]; [done|].
    destruct (entry_addr 0 0 i ltac:(lia) ltac:(unfold low; lia)) as (w & Hw & _ & Hi & _); [apply lookup_lt_Some in He; lia|].
    destruct (wf_ent _ _ Hwf 0 w e ltac:(lia) Hw) as [->|[[?|?] _]]; [|done|done|lia|lia].
    unfold ent. cbn [tab mbind option_bind]. rewrite Hl. cbn [mbind option_bind]. by rewrite Hi, Nat2Z.id.
Qed.


(** *** A new tree *)
Lemma new_root_wf s t r : heap_ok s -> heap s = t :: r ->
  exists s', new_root_pgtable s = Ret (t, s') /\ heap_ok s' /\ wf t s' /\ heap s' = r /\ (forall u, reachable t s' u <-> u = t) /\
    (forall u, u <> t -> tables s' !! u = tables s !! u) /\
    (forall w, low w -> translate t (tables s') w = None /\ noblock t (tables s') w).
Proof.
  intros [Hnd Hh] Hheap. eexists. split; [unfold new_root_pgtable, new_table; by rewrite Hheap|]. set (s' := MkMmu _ r). rewrite Hheap in Hnd, Hh. apply NoDup_cons in Hnd as [Hni Hnd].
  assert (Hok : heap_ok s').
  { split; [done|]. intros u Hu. destruct (Hh u) as (Hn & ?); [by right|]. split; [|done]. cbn [tables s']. rewrite lookup_insert_ne; [done|]. by intros ->. }
  destruct (empty_root_wf t zeros s' Hok) as (W1 & W2 & W3); [apply lookup_insert_eq|done|intros i e He; by apply lookup_replicate in He as [-> _]|].
  split_and!; [apply Hok..|done|done|done|intros u Hu; by apply lookup_insert_ne|done].
Qed.

(** *** Examples *)
(** Twenty free pages and no table. *)
Definition ex_pages : list Z := (fun i => 4096 * i) <$> seqZ 1 20.
Definition ex_start : mmu := MkMmu ∅ ex_pages.
Definition ex_state : mmu := MkMmu {[4096 := zeros]} (tail ex_pages).

Lemma ex_start_ok : heap_ok ex_start.
Proof.
  split; [apply (bool_decide_unpack _); by vm_compute|]. intros t Ht. split; [done|].
  assert (Hall : Forall (fun t => 0 < t < 2 ^ 48 /\ t mod 4096 = 0) ex_pages) by (apply (bool_decide_unpack _); by vm_compute).
  rewrite Forall_forall in Hall. by apply Hall.
Qed.

Lemma ex_ready : new_root_pgtable ex_start = Ret (4096, ex_state) /\ wf 4096 ex_state /\
  forall w, low w -> translate 4096 (tables ex_state) w = None /\ noblock 4096 (tables ex_state) w.
Proof.
  destruct (new_root_wf ex_start 4096 (tail ex_pages) ex_start_ok eq_refl) as (s' & E & _ & Hwf & _ & _ & _ & Ht).
  assert (s' = ex_state) as -> by (unfold new_root_pgtable, new_table in E; cbn [heap ex_start] in E; by injection E as <-). done.
Qed.

(** Mapping 5 MB at 2 MB - 4 kB: a page, two blocks and a last run of pages. *)
Lemma create_mapping_correct_witness :
  exists s', create_mapping false 0 (Some 4096) 2093056 1071640576 5242880 false ex_state = Ret (tt, s') /\
    translate 4096 (tables s') 2093057 = Some (1071640577, leaf_attrs (Attr false false S1) true).
Proof.
  destruct ex_ready as (_ & Hwf & Hfresh).
  destruct (create_mapping_correct 0 (Some 4096) 0 2093056 1071640576 5242880 (Attr false false S1) ex_state) as (s' & E & _ & Ht & _).
  - exact Hwf.
  - split_and!; [lia|reflexivity|lia].
  - lia.
  - split_and!; [lia|apply (bool_decide_unpack _); by vm_compute..].
  - split_and!; [reflexivity|lia|apply (bool_decide_unpack _); by vm_compute].
  - intros w Hw. apply Hfresh. split; [unfold pg_start in Hw; change (2093056 / 4096 * 4096) with 2093056 in Hw; lia|].
    change (pg_end 2093056 5242880) with 7335936 in Hw. lia.
  - apply (bool_decide_unpack _). by vm_compute.
  - exists s'. split; [exact E|]. rewrite Ht by (unfold low; lia). reflexivity.
Defined.

(** The state after that mapping, in which the page before 2 MB is mapped by a page. *)
Definition ex_mapped : mmu :=
  match create_mapping false 0 (Some 4096) 2093056 1071640576 5242880 false ex_state with Ret (_, s) => s | _ => ex_state end.
Lemma ex_mapped_wf : wf 4096 ex_mapped.
Proof.
  destruct (create_mapped 0 (Some 4096) 0 2093056 1071640576 5242880 (Attr false false S1) ex_state) as (s1 & n & E1 & Hm & _).
  - apply ex_ready.
  - split_and!; [lia|reflexivity|lia].
  - lia.
  - split_and!; [lia|apply (bool_decide_unpack _); by vm_compute..].
  - split_and!; [reflexivity|lia|apply (bool_decide_unpack _); by vm_compute].
  - intros w Hw. apply ex_ready. split; [unfold pg_start in Hw; change (2093056 / 4096 * 4096) with 2093056 in Hw; lia|].
    change (pg_end 2093056 5242880) with 7335936 in Hw. lia.
  - apply (bool_decide_unpack _). by vm_compute.
  - unfold ex_mapped. change (create_mapping false 0 (Some 4096) 2093056 1071640576 5242880 false)
      with (__create_mapping 0 (Some 4096) 2093056 1071640576 5242880 (Attr false false S1)). rewrite E1. apply Hm.
Qed.

Lemma virt_to_phys_pt_spec_witness :
  virt_to_phys_pt 0 4096 (0 + 2093057) ex_mapped = Ret (1071640577, ex_mapped) /\
  virt_to_phys_pt 0 4096 (0 + 305419896) ex_mapped = Fault Panic.
Proof.
  assert (HW : is_window 0) by (split_and!; [lia|reflexivity|lia]). split.
  - destruct (virt_to_phys_pt_spec 0 4096 0 HW ex_mapped 2093057 ex_mapped_wf) as [_ H]; [unfold low; lia|].
    apply (H 1071640577 (leaf_attrs (Attr false false S1) true)); [vm_compute; reflexivity|].
    apply (bool_decide_unpack _). by vm_compute.
  - apply (virt_to_phys_pt_spec 0 4096 0 HW ex_mapped 305419896 ex_mapped_wf); [unfold low; lia|]. vm_compute. reflexivity.
Defined.

(** The preconditions of mapping a range into [ex_state], decided. *)
Lemma ex_fits virt size : 0 <= virt -> 0 < size -> pg_end virt size <= 2 ^ 48 ->
  forall w, pg_start virt <= 0 + w < pg_end virt size -> noblock 4096 (tables ex_state) w.
Proof. intros Hv Hs He w Hw. apply ex_ready. unfold low. split; [|lia]. unfold pg_start in Hw. pose proof (Z.div_pos virt 4096). lia. Qed.

(** Mapping 5 MB from 2 MB - 4 kB on and releasing them. *)
Lemma create_release_roundtrip_witness :
  exists s1 s2, create_mapping false 0 (Some 4096) 2093056 1071640576 5242880 false ex_state = Ret (tt, s1) /\
    release_mapping 0 (Some 4096) 2093056 5242880 s1 = Ret (tt, s2) /\ translate 4096 (tables s2) 2093057 = None.
Proof.
  destruct (create_release_roundtrip 0 (Some 4096) 0 2093056 1071640576 5242880 (Attr false false S1) ex_state) as (s1 & s2 & E1 & E2 & Ht).
  - apply ex_ready.
  - split_and!; [lia|reflexivity|lia].
  - lia.
  - split_and!; [lia|apply (bool_decide_unpack _); by vm_compute..].
  - split_and!; [reflexivity|lia|apply (bool_decide_unpack _); by vm_compute].
  - apply ex_fits; [lia|lia|apply (bool_decide_unpack _); by vm_compute].
  - apply (bool_decide_unpack _). by vm_compute.
  - reflexivity.
  - exists s1, s2. split_and!; [exact E1|exact E2|]. rewrite Ht by (unfold low; lia). reflexivity.
Defined.

Lemma release_mapping_correct_witness :
  exists s1 s2, create_mapping false 0 (Some 4096) 8192 1073741824 8192 true ex_state = Ret (tt, s1) /\
    release_mapping 0 (Some 4096) 8195 8192 s1 = Ret (tt, s2) /\ translate 4096 (tables s2) 12288 = None.
Proof.
  destruct (create_mapped 0 (Some 4096) 0 8192 1073741824 8192 (Attr false true S1) ex_state) as (s1 & n & E1 & Hm & _).
  - apply ex_ready.
  - split_and!; [lia|reflexivity|lia].
  - lia.
  - split_and!; [lia|apply (bool_decide_unpack _); by vm_compute..].
  - split_and!; [reflexivity|lia|apply (bool_decide_unpack _); by vm_compute].
  - apply ex_fits; [lia|lia|apply (bool_decide_unpack _); by vm_compute].
  - apply (bool_decide_unpack _). by vm_compute.
  - destruct (release_mapping_correct 0 (Some 4096) 0 8195 8192 s1) as (s2 & E2 & _ & Ht & _).
    + apply Hm.
    + split_and!; [lia|reflexivity|lia].
    + lia.
    + split_and!; [lia|apply (bool_decide_unpack _); by vm_compute..].
    + change (pg_end (pg_start 8195) 8192) with 16384. change (pg_start 8195) with 8192. intros w Hw. apply Hm; [|unfold low; lia].
      change (pg_start 8192 - 0) with 8192. change (pg_end 8192 8192 - 0) with 16384. lia.
    + exists s1, s2. split_and!; [exact E1|exact E2|]. rewrite Ht by (unfold low; lia). reflexivity.
Defined.

(** The run of a routine from [ex_state], for the examples. *)
Definition run {A} (m : kern mmu A) (f : A -> mmu -> option (Z * Z)) : option (Z * Z) :=
  match m ex_state with Ret (x, s) => f x s | Fault _ => None end.

(** In a 2 MB block, [virt_to_phys_pt] loses bits 12 to 20 of the address. *)
Lemma virt_to_phys_block_loses_bits :
  run (create_mapping false 0 (Some 4096) 2097152 1073741824 2097152 false;; virt_to_phys_pt 0 4096 2109115)
    (fun pa s => Some (pa, from_option fst 0 (translate 4096 (tables s) 2109115))) = Some (1073741824 + 3771, 1073741824 + 11963).
Proof. by vm_compute. Qed.

(** A range that starts inside a page keeps its last page mapped: [release_mapping]
    drops the offset of the address before it computes the number of pages. *)
Lemma release_keeps_last_page :
  run (create_mapping false 0 (Some 4096) 8448 1073741824 4096 false;; release_mapping 0 (Some 4096) 8448 4096)
    (fun _ s => translate 4096 (tables s) 12288) = Some (1073745920, leaf_attrs (Attr false false S1) true).
Proof. by vm_compute. Qed.


End MmuSpec.
