(* ===== verification/MmuForest.v ===== *)
(** Several trees of page tables side by side: the operations on one tree keep all
    the others. *)
From S2P Require Import Prelude Frames Mmu MmuMap MmuReset MmuCreate MmuSpec.

Module MmuForest.
Import Mmu MmuMap MmuReset MmuCreate MmuSpec.
Implicit Types (x y : mmu).

(** ** Trees that are not touched *)
Lemma tree_frame root (x y : mmu) : wf root x -> heap_ok y -> (forall t, reachable root x t -> tables y !! t = tables x !! t) ->
  wf root y /\ (forall w, low w -> translate root (tables y) w = translate root (tables x) w) /\
  (forall k w, (k <= 3)%nat -> low w -> ent root (tables y) k w = ent root (tables x) k w) /\
  (forall t, reachable root y t <-> reachable root x t).
Proof.
  intros Hwf Hh Hsame.
  assert (Htab : forall k w, (k <= 3)%nat -> low w -> tab root (tables y) k w = tab root (tables x) k w /\ ent root (tables y) k w = ent root (tables x) k w).
  { intros k w Hk Hw. assert (He : forall j, (j <= 3)%nat -> tab root (tables y) j w = tab root (tables x) j w -> ent root (tables y) j w = ent root (tables x) j w).
    { intros j Hj E. unfold ent. rewrite E. destruct (tab root (tables x) j w) as [t|] eqn:Et; [|done]. cbn [mbind option_bind]. rewrite Hsame; [done|]. by exists j, w. }
    assert (Ht : tab root (tables y) k w = tab root (tables x) k w); [|split; [done|by apply He]].
    induction k as [|k IH]; [done|]. rewrite !tab_S. rewrite He; [done|lia|apply IH; lia]. }
  assert (Hr : forall t, reachable root y t <-> reachable root x t).
  { intros t. split; intros (k & w & Hk & Hw & Ht); exists k, w; (split; [done|split; [done|]]); [rewrite <- (proj1 (Htab k w Hk Hw))|rewrite (proj1 (Htab k w Hk Hw))]; done. }
  split_and!; [split| | |done].
  - intros k w t Hk Hw Ht. rewrite (proj1 (Htab k w Hk Hw)) in Ht. rewrite Hsame by (by exists k, w). by apply (wf_tab _ _ Hwf k w).
  - intros k k' w w' t Hk Hk' Hw Hw'. rewrite (proj1 (Htab k w Hk Hw)), (proj1 (Htab k' w' Hk' Hw')). by apply (wf_inj _ _ Hwf).
  - intros k w e Hk Hw. rewrite (proj2 (Htab k w Hk Hw)). by apply (wf_ent _ _ Hwf).
  - exact Hh.
  - intros w Hw. apply translate_ext. intros k Hk. by apply Htab.
  - intros k w Hk Hw. by apply Htab.
Qed.

Lemma reset_heap_ok root x y : wf root x -> heap y = heap x -> (forall t, ~ reachable root x t -> tables y !! t = tables x !! t) -> heap_ok y.
Proof.
  intros Hwf Hh Hkeep. destruct (wf_heap _ _ Hwf) as [Hnd Hfree]. split; rewrite Hh; [done|]. intros t Ht. destruct (Hfree t Ht) as [Hn ?]. split; [|done].
  rewrite Hkeep; [done|]. intros (k & w & Hk & Hw & Htab). destruct (wf_tab _ _ Hwf k w t Hk Hw Htab) as (lt & Hlt & _). congruence.
Qed.


(** An address that does not translate is not in a block. *)
Lemma unmapped_noblock root m w : translate root m w = None -> noblock root m w.
Proof.
  intros Hn k e Hk He Ht. rewrite (translate_leaf root m k w e) in Hn; [done|lia|done|].
  unfold leaf_type. rewrite decide_False by lia. done.
Qed.

Lemma chunk_page v : 0 <= v -> v mod 4096 = 0 -> chunks (2 ^ 21) v (v + 4096) = 1%nat.
Proof.
  intros Hv Hal. unfold chunks. rewrite decide_True by lia. change (2 ^ 21) with (4096 * 512). rewrite <- !Z.div_div by lia.
  replace ((v + 4096 - 1) / 4096) with (v / 4096) by dlia. lia.
Qed.

(** ** Forests *)
Record forest (roots : gset Z) x : Prop := {
  fo_heap : heap_ok x;
  fo_tree : forall r, r ∈ roots -> wf r x;
  fo_apart : forall r r' t, r ∈ roots -> r' ∈ roots -> r <> r' -> reachable r x t -> ~ reachable r' x t
}.

(** The tree of [r] is in [y] what it was in [x]. *)
Definition same_tree (r : Z) x y : Prop := forall k w, (k <= 3)%nat -> low w -> ent r (tables y) k w = ent r (tables x) k w.

Lemma same_translate r x y w : same_tree r x y -> low w -> translate r (tables y) w = translate r (tables x) w.
Proof. intros H Hw. apply translate_ext. intros k Hk. by apply H. Qed.

Lemma same_leaf r x y w a b : same_tree r x y -> low w -> leaf_within r (tables x) w a b -> leaf_within r (tables y) w a b.
Proof. intros H Hw (k & e & Hk & He & Hr). exists k, e. split; [done|]. rewrite H by (done || lia). done. Qed.

Lemma same_tree_trans r x y z : same_tree r x y -> same_tree r y z -> same_tree r x z.
Proof. intros H1 H2 k w Hk Hw. by rewrite H2, H1. Qed.

Section forest.
Context (roots : gset Z) (x : mmu) (Hf : forest roots x).

Lemma reachable_root r : reachable r x r.
Proof. exists 0%nat, 0. split; [lia|]. split; [unfold low; lia|done]. Qed.

Lemma forest_reach r t : r ∈ roots -> reachable r x t -> is_Some (tables x !! t) /\ t ∉ heap x.
Proof.
  intros Hr (k & w & Hk & Hw & Ht). destruct (wf_tab _ _ (fo_tree _ _ Hf r Hr) k w t Hk Hw Ht) as (l & Hl & _).
  split; [by eexists|]. intros Hin. destruct (proj2 (fo_heap _ _ Hf) t Hin) as [Hn _]. congruence.
Qed.

(** Only the tree of [r] and the tables of the heap change. *)
Section change.
Context (y : mmu) (r : Z) (Hy : heap_ok y).
Context (Hframe : forall t, t ∉ heap x -> ~ reachable r x t -> tables y !! t = tables x !! t).

Lemma change_other r' : r ∈ roots -> r' ∈ roots -> r' <> r -> wf r' y /\ same_tree r' x y /\ (forall t, reachable r' y t <-> reachable r' x t).
Proof.
  intros Hr Hr' Hne. destruct (tree_frame r' x y) as (W & _ & He & Ht); [by apply Hf|done| |by split_and!].
  intros t Ht. apply Hframe; [by apply (forest_reach r')|]. by apply (fo_apart _ _ Hf r' r).
Qed.

Lemma forest_change : r ∈ roots -> wf r y -> (forall t, reachable r y t -> t ∈ heap x \/ reachable r x t) -> forest roots y.
Proof.
  intros Hr Hwf Hreach. assert (Hsym : forall r' t, r' ∈ roots -> r' <> r -> reachable r y t -> ~ reachable r' y t).
  { intros r' t Hr' Hne Ht Ht'. apply (change_other r' Hr Hr' Hne) in Ht'. destruct (Hreach t Ht) as [Hh|Ho].
    - by apply (forest_reach r' t Hr' Ht').
    - by apply (fo_apart _ _ Hf r r' t Hr Hr' (not_eq_sym Hne) Ho). }
  split; [done|intros r' Hr'; destruct (decide (r' = r)) as [->|]; [done|by apply change_other]|].
  intros r1 r2 t H1 H2 Hne Ht1 Ht2. destruct (decide (r1 = r)) as [->|N1]; [by apply (Hsym r2 t H2 (not_eq_sym Hne) Ht1)|].
  destruct (decide (r2 = r)) as [->|N2]; [by apply (Hsym r1 t H1 Hne Ht2)|].
  apply (change_other r1 Hr H1 N1) in Ht1. apply (change_other r2 Hr H2 N2) in Ht2. by apply (fo_apart _ _ Hf r1 r2 t).
Qed.

Lemma forest_drop : r ∈ roots -> forest (roots ∖ {[r]}) y.
Proof.
  intros Hr. split; [done| |].
  - intros r' [Hr' Hne]%elem_of_difference. rewrite not_elem_of_singleton in Hne. by apply change_other.
  - intros r1 r2 t [H1 N1]%elem_of_difference [H2 N2]%elem_of_difference Hne Ht1 Ht2. rewrite not_elem_of_singleton in N1, N2.
    apply (change_other r1 Hr H1 N1) in Ht1. apply (change_other r2 Hr H2 N2) in Ht2. by apply (fo_apart _ _ Hf r1 r2 t).
Qed.
End change.

(** *** Mapping *)
Record remapped y (r virt phys size : Z) (fl : attr) : Prop := {
  re_forest : forest roots y;
  re_other : forall r', r' ∈ roots -> r' <> r -> same_tree r' x y;
  re_trans : forall w, low w -> translate r (tables y) w =
    if decide (virt <= w < virt + size) then Some (phys + (w - virt), leaf_attrs fl (negb (phys =? virt))) else translate r (tables x) w;
  re_leaf : forall w, virt <= w < virt + size -> leaf_within r (tables y) w virt (virt + size);
  re_keep : forall w a b, low w -> ~ (virt <= w < virt + size) -> leaf_within r (tables x) w a b -> leaf_within r (tables y) w a b;
  re_noblock : forall w, low w -> ~ (virt <= w < virt + size) -> noblock r (tables x) w -> noblock r (tables y) w;
  re_heap : exists n, (n <= 3 * chunks (2 ^ 21) virt (virt + size))%nat /\ heap y = drop n (heap x);
  re_dom : forall t, is_Some (tables y !! t) -> t ∈ heap x \/ is_Some (tables x !! t)
}.

Lemma forest_map sys_root pgtable virt phys size fl :
  let r := default sys_root pgtable in r ∈ roots ->
  0 <= virt -> 0 < size -> virt mod 4096 = 0 -> size mod 4096 = 0 -> phys mod 4096 = 0 -> virt + size <= 2 ^ 48 -> 0 <= phys -> phys + size <= 2 ^ 48 ->
  (forall w, virt <= w < virt + size -> noblock r (tables x) w) ->
  (3 * chunks (2 ^ 21) virt (virt + size) <= length (heap x))%nat ->
  exists y, __create_mapping sys_root pgtable virt phys size fl x = Ret (tt, y) /\ remapped y r virt phys size fl.
Proof.
  intros r Hr Hv Hs Hva Hsa Hpa He Hp Hpe Hn Hh.
  assert (Es : pg_start virt = virt) by (unfold pg_start; dlia). assert (Ee : pg_end virt size = virt + size) by (unfold pg_end; dlia).
  destruct (create_mapped sys_root pgtable 0 virt phys size fl x (fo_tree _ _ Hf r Hr)) as (y & n & E & Hm & Hle); rewrite ?Es, ?Ee, ?Z.sub_0_r.
  - split_and!; [lia|reflexivity|lia].
  - done.
  - split_and!; [lia..|]. change (2 ^ 48) with 281474976710656 in *. change (2 ^ 64) with 18446744073709551616. lia.
  - split_and!; [done|lia|lia].
  - intros w Hw. apply Hn. lia.
  - done.
  - rewrite Es, Ee, !Z.sub_0_r in *. fold r in Hm. exists y. split; [done|].
    assert (Hl : forall w, virt <= w < virt + size -> low w) by (unfold low; lia).
    assert (Hy : heap_ok y) by apply Hm.
    split.
    + apply (forest_change y r Hy); [apply Hm|done|apply Hm|apply Hm].
    + intros r' Hr' Hne. apply (change_other y r Hy); [apply Hm|done..].
    + intros w Hw. rewrite (mp_trans _ _ _ _ _ _ _ _ _ _ Hm w Hw). case_decide; [|done]. do 2 f_equal; [lia|].
      rewrite Z.eqb_refl, andb_true_r. do 2 f_equal. destruct (Z.eqb_spec (phys - virt) 0), (Z.eqb_spec phys virt); (done || lia).
    + intros w Hw. apply Hm; [done|by apply Hl].
    + intros w a b Hw Hnw (k & e & Hk & Hent & Hty & Hin). exists k, e. split; [done|]. split; [|done]. apply Hm; [lia|done|done|done|].
      intros ->. unfold leaf_type in Hty. by destruct (decide (k = 3%nat)).
    + apply Hm.
    + exists n. split; [done|apply Hm].
    + intros t Ht. destruct (decide (t ∈ heap x)); [by left|]. right. destruct (decide (is_Some (tables x !! t))) as [|Hnone]; [done|].
      rewrite (mp_frame _ _ _ _ _ _ _ _ _ _ Hm t) in Ht; [done|done|]. intros Hreach. by apply Hnone, (forest_reach r).
Qed.

(** A single page is not a block. *)
Lemma page_noblock y r virt phys fl w : remapped y r virt phys 4096 fl -> virt <= w < virt + 4096 -> noblock r (tables y) w.
Proof.
  intros Hm Hw k e Hk He Ht. destruct (re_leaf _ _ _ _ _ _ Hm w Hw) as (j & f & Hj & Hjf & Hty & Hin). cbv zeta in Hin.
  assert (j = 3%nat) as ->.
  { destruct j as [|[|[|[|j]]]]; [lia| | |done|lia]; unfold leaf_shift in Hin; simpl in Hin; lia. }
  destruct (ent_above r _ 3 w f Hjf k ltac:(lia)) as (e' & He' & Ht'). congruence.
Qed.

Lemma same_noblock r y w : same_tree r x y -> low w -> noblock r (tables x) w -> noblock r (tables y) w.
Proof. intros H Hw Hn k e Hk. rewrite H by (done || lia). by apply Hn. Qed.

(** *** Release *)
Record unmapped y (r virt size : Z) : Prop := {
  un_forest : forest roots y;
  un_other : forall r', r' ∈ roots -> r' <> r -> same_tree r' x y;
  un_trans : forall w, low w -> translate r (tables y) w = if decide (virt <= w < virt + size) then None else translate r (tables x) w;
  un_keep : forall w a b, low w -> ~ (virt <= w < virt + size) -> leaf_within r (tables x) w a b -> leaf_within r (tables y) w a b;
  un_heap : heap y = heap x;
  un_dom : dom (tables y) = dom (tables x)
}.

Lemma forest_release sys_root pgtable virt size :
  let r := default sys_root pgtable in r ∈ roots ->
  0 <= virt -> 0 < size -> virt mod 4096 = 0 -> size mod 4096 = 0 -> virt + size <= 2 ^ 48 ->
  (forall w, virt <= w < virt + size -> leaf_within r (tables x) w virt (virt + size)) ->
  exists y, release_mapping sys_root pgtable virt size x = Ret (tt, y) /\ unmapped y r virt size.
Proof.
  intros r Hr Hv Hs Hva Hsa He Hl.
  assert (Es : pg_start virt = virt) by (unfold pg_start; dlia). assert (Ee : pg_end virt size = virt + size) by (unfold pg_end; dlia).
  destruct (release_cleared sys_root pgtable 0 virt size x (fo_tree _ _ Hf r Hr)) as (y & E & Hc); rewrite ?Es, ?Ee, ?Z.sub_0_r.
  - split_and!; [lia|reflexivity|lia].
  - done.
  - split_and!; [lia..|]. change (2 ^ 48) with 281474976710656 in *. change (2 ^ 64) with 18446744073709551616. lia.
  - intros w Hw. apply Hl. lia.
  - rewrite Es, Ee, !Z.sub_0_r in *. fold r in Hc. exists y. split; [done|].
    assert (Hy : heap_ok y) by apply Hc. assert (Hfr : forall t, t ∉ heap x -> ~ reachable r x t -> tables y !! t = tables x !! t) by (intros t _; apply Hc).
    split; [|intros r' Hr' Hne; by apply (change_other y r Hy Hfr)|apply Hc| |apply Hc|apply Hc].
    + apply (forest_change y r Hy Hfr Hr); [apply Hc|]. intros t Ht. right. by apply Hc.
    + intros w a b Hw Hnw (k & e & Hk & Hent & Hty). exists k, e. split; [done|]. rewrite (cl_keep _ _ _ _ _ Hc) by (done || lia). done.
Qed.

(** *** Creation and removal of trees *)
Lemma forest_new t l : heap x = t :: l ->
  exists y, new_root_pgtable x = Ret (t, y) /\ forest ({[t]} ∪ roots) y /\ (t ∉ roots) /\ heap y = l /\
    (forall r, r ∈ roots -> same_tree r x y) /\ (forall w, low w -> translate t (tables y) w = None) /\
    (forall u, is_Some (tables y !! u) -> u = t \/ is_Some (tables x !! u)).
Proof.
  intros Hh. destruct (new_root_wf x t l (fo_heap _ _ Hf) Hh) as (y & E & Hy & W1 & Hl & W2 & W3 & W4). exists y.
  assert (Ht : forall r u, r ∈ roots -> reachable r x u -> u <> t).
  { intros r u Hr Hu ->. apply (forest_reach r t Hr Hu). rewrite Hh. by left. }
  assert (Ho : forall r, r ∈ roots -> wf r y /\ same_tree r x y /\ (forall u, reachable r y u <-> reachable r x u)).
  { intros r Hr. destruct (tree_frame r x y) as (V1 & _ & V2 & V3); [by apply Hf|done| |by split_and!]. intros u Hu. apply W3. by apply (Ht r). }
  split_and!; [done| | |done|intros r Hr; by apply Ho|intros w Hw; by apply W4|].
  - split; [done| |].
    + intros r [->%elem_of_singleton|Hr]%elem_of_union; [done|by apply Ho].
    + intros r r' u [->%elem_of_singleton|Hr]%elem_of_union [->%elem_of_singleton|Hr']%elem_of_union Hne; [done|..].
      * intros ->%W2 Hu. apply Ho in Hu; [|done]. by apply (Ht r' t Hr' Hu).
      * intros Hu ->%W2. apply Ho in Hu; [|done]. by apply (Ht r t Hr Hu).
      * intros Hu Hu'. apply Ho in Hu, Hu'; [|done..]. by apply (fo_apart _ _ Hf r r' u).
  - intros Hr. apply (Ht t t Hr); [apply reachable_root|done].
  - intros u Hu. destruct (decide (u = t)) as [->|Hne]; [by left|]. right. by rewrite W3 in Hu.
Qed.

Lemma forest_reset r : r ∈ roots ->
  exists y, reset_root_pgtable r true x = Ret (tt, y) /\ forest (roots ∖ {[r]}) y /\ heap y = heap x /\
    (forall r', r' ∈ roots -> r' <> r -> same_tree r' x y) /\ (forall u, is_Some (tables y !! u) -> is_Some (tables x !! u)).
Proof.
  intros Hr. destruct (reset_root_spec r true x (fo_tree _ _ Hf r Hr)) as (y & E & Hh & Hg & Hk & Hn). exists y.
  assert (Hy : heap_ok y) by (by apply (reset_heap_ok r x y (fo_tree _ _ Hf r Hr))).
  assert (Hfr : forall t, t ∉ heap x -> ~ reachable r x t -> tables y !! t = tables x !! t) by (intros t _; apply Hk).
  split_and!; [done|by apply forest_drop|done|intros r' Hr' Hne; by apply (change_other y r Hy Hfr)|].
  intros u Hu. destruct (decide (is_Some (tables x !! u))) as [|Hx]; [done|]. rewrite Hk in Hu; [done|]. intros Hre. by apply Hx, (forest_reach r).
Qed.

(** More memory for tables. *)
Lemma forest_heap l : NoDup l -> (forall t, t ∈ l -> tables x !! t = None /\ 0 < t < 2 ^ 48 /\ t mod 4096 = 0) ->
  forest roots (MkMmu (tables x) l) /\ forall r, same_tree r x (MkMmu (tables x) l).
Proof.
  intros Hnd Hl. split; [|done]. assert (Hy : heap_ok (MkMmu (tables x) l)) by done. split; [done| |].
  - intros r Hr. apply (tree_frame r x); [by apply Hf|done|done].
  - intros r r' t Hr Hr' Hne. apply (fo_apart _ _ Hf r r' t Hr Hr' Hne).
Qed.
End forest.

End MmuForest.
