(* ===== verification/Guest.v ===== *)
(** The memory of the guests of the AVZ hypervisor: memory slots
    (so3/avz/mm/memory.c), the stage-2 page table of a domain
    (so3/arch/arm64/domain.c, so3/arch/arm64/virt64/include/mach/ipamap.h), the
    grant tables (so3/avz/kernel/gnttab.c), and the routines that set a guest up
    and remove it (so3/avz/kernel/{injector,ME_build,agency_build,domain}.c,
    soo_activity.c), as far as they concern memory.

    Page tables are those of [Mmu]; [heap] also gives the pages that domains share
    with the hypervisor, which [memalign(PAGE_SIZE, PAGE_SIZE)] allocates like a
    table.  [domains] holds the domains themselves, by their number; the fields of a
    domain that concern scheduling and event channels are in [AvzSched] and
    [EventChannel].  Allocation of the small list entries of a grant table does not
    fail.  The routines hold their locks throughout. *)
From S2P Require Import Prelude Bitmap Frames Mmu.

Module Guest.
Import Mmu.

Definition DOMID_AGENCY : Z := 0.
Definition DOMID_AGENCY_RT : Z := 1.
Definition MEMSLOT_AGENCY : Z := 1.
Definition MEMSLOT_BASE : nat := 2.
Definition MEMSLOT_NR : nat := 7.
Definition ME_MEMCHUNK_SIZE : Z := 2 * 1024 * 1024.
Definition ME_MEMCHUNK_NR : nat := 256.
Definition ME_BASE : Z := 35184372088832. (* 0x200000000000 *)
Definition ME_ID_SHIFT : Z := 32.
Definition NR_GRANT_PFN : nat := 32.
Definition GRANT_INVALID_REF : Z := 0.

(** *** Data *)
Record memslot_entry_t := Slot { base_paddr : Z; base_vaddr : Z; size : Z; busy : bool; ipa_addr : Z }.
Record gnttab_t := Gnttab { origin_domid : Z; target_domid : Z; pfn : Z; ref : Z }.
Record grant_pfn_t := GrantPfn { gp_pfn : Z; gp_free : bool }.
Record guest := MkGuest {
  domID : Z;
  avz_shared : Z;                     (* physical address of the shared page *)
  subdomain_shared : option Z;        (* that of the real-time domain's, for the agency *)
  subdomain_shared_paddr : Z;
  pagetable : option Z;               (* pagetable_vaddr, null before construction *)
  gnttab : list gnttab_t;
  grant_pfn : list grant_pfn_t
}.
Record avz := Avz { mm : mmu; memslot : list memslot_entry_t; memchunk_bitmap : list Z; domains : list (option guest) }.

Definition set_busy b x := Slot (base_paddr x) (base_vaddr x) (size x) b (ipa_addr x).
Definition set_ipa a x := Slot (base_paddr x) (base_vaddr x) (size x) (busy x) a.
Definition set_pagetable t d := MkGuest (domID d) (avz_shared d) (subdomain_shared d) (subdomain_shared_paddr d) t (gnttab d) (grant_pfn d).
Definition set_subdomain p d := MkGuest (domID d) (avz_shared d) p (subdomain_shared_paddr d) (pagetable d) (gnttab d) (grant_pfn d).
Definition set_subdomain_paddr a d := MkGuest (domID d) (avz_shared d) (subdomain_shared d) a (pagetable d) (gnttab d) (grant_pfn d).
Definition set_gnttab l d := MkGuest (domID d) (avz_shared d) (subdomain_shared d) (subdomain_shared_paddr d) (pagetable d) l (grant_pfn d).
Definition set_grant_pfn l d := MkGuest (domID d) (avz_shared d) (subdomain_shared d) (subdomain_shared_paddr d) (pagetable d) (gnttab d) l.

Definition with_mm x s := Avz x (memslot s) (memchunk_bitmap s) (domains s).
Definition with_memslot f s := Avz (mm s) (f (memslot s)) (memchunk_bitmap s) (domains s).
Definition with_bitmap b s := Avz (mm s) (memslot s) b (domains s).
Definition with_domains f s := Avz (mm s) (memslot s) (memchunk_bitmap s) (f (domains s)).

Definition on_mmu {A} (g : kern mmu A) : kern avz A := fun s =>
  match g (mm s) with Ret (a, x) => Ret (a, with_mm x s) | Fault e => Fault e end.
Definition slot_of (i : Z) : kern avz memslot_entry_t := l ← gets memslot; lift (if i <? 0 then Fault Undef else deref (l !! Z.to_nat i)).
Definition upd_slot (i : Z) (f : memslot_entry_t -> memslot_entry_t) : kern avz unit :=
  x ← slot_of i; modify (with_memslot <[Z.to_nat i := f x]>).
(** [domains[i]->...]: a number out of range or a null entry is undefined. *)
Definition dom_of (i : Z) : kern avz guest := l ← gets domains; lift (if i <? 0 then Fault Undef else deref (mjoin (l !! Z.to_nat i))).
Definition upd_dom (i : Z) (f : guest -> guest) : kern avz unit :=
  d ← dom_of i; modify (with_domains <[Z.to_nat i := Some (f d)]>).

(** *** Memory slots *)
(** [do { bits_NR = bits_NR >> 1; order++; } while (bits_NR);] *)
Fixpoint power_loop (fuel : nat) (bits_NR order : Z) : Z :=
  match fuel with
  | O => order
  | S f => let bits_NR := Z.shiftr bits_NR 1 in let order := u32 (order + 1) in
           if bits_NR =? 0 then order else power_loop f bits_NR order
  end.
Definition get_power_from_size (bits_NR : Z) : Z := power_loop 32 bits_NR (u32 (-1)).

(** The address is 0 when no region is free. *)
Definition allocate_memslot (order : Z) : kern avz Z :=
  bm ← gets memchunk_bitmap;
  r ← lift (bitmap_find_free_region bm ME_MEMCHUNK_NR order);
  modify (with_bitmap r.2);;
  if r.1 <? 0 then mret 0
  else x ← slot_of MEMSLOT_AGENCY; mret (u32 (base_paddr x + size x + r.1 * ME_MEMCHUNK_SIZE)).

(** The difference is stored in an [int]. *)
Definition s32 (x : Z) : Z := let y := u32 x in if y <? 2 ^ 31 then y else y - 2 ^ 32.
Definition release_memslot (addr order : Z) : kern avz unit :=
  x ← slot_of MEMSLOT_AGENCY;
  let pos := Z.quot (s32 (u64 (addr - base_paddr x - size x))) ME_MEMCHUNK_SIZE in
  bm ← gets memchunk_bitmap;
  bm' ← lift (if pos <? 0 then Fault Undef else bitmap_release_region bm (Z.to_nat pos) order);
  modify (with_bitmap bm').

(** [memalign(PAGE_SIZE, PAGE_SIZE)], which must succeed. *)
Definition alloc_page : kern mmu Z := fun x =>
  match heap x with [] => Fault Panic | t :: l => Ret (t, MkMmu (tables x) l) end.
(** The parts of [domain_create] that concern memory; the structure is cleared. *)
Definition domain_create (domid : Z) : kern avz guest :=
  p ← on_mmu alloc_page;
  mret (MkGuest domid p None 0 None [] (replicate NR_GRANT_PFN (GrantPfn 0 false))).

(** The first slot that is not busy. *)
Definition free_slot (l : list memslot_entry_t) : option nat :=
  for_ret (MEMSLOT_NR - MEMSLOT_BASE) (fun k =>
    match l !! (MEMSLOT_BASE + k)%nat with Some x => if busy x then None else Some (MEMSLOT_BASE + k)%nat | None => None end).

Section avz.
Context (sys_root : Z).

(** [size] is an [unsigned int]; -1 when there is no slot or no memory. *)
Definition get_ME_free_slot (sz : Z) : kern avz Z :=
  l ← gets memslot;
  match free_slot l with
  | None => mret (-1)
  | Some i =>
      let slotID := Z.of_nat i in
      let bits_NR := u32 (sz + ME_MEMCHUNK_SIZE - 1) / ME_MEMCHUNK_SIZE in
      let order := get_power_from_size bits_NR in
      addr ← allocate_memslot order;
      if addr =? 0 then mret (-1)
      else
        let vaddr := ME_BASE + Z.shiftl (slotID - 1) ME_ID_SHIFT in
        let size' := Z.shiftl 1 order * ME_MEMCHUNK_SIZE in
        upd_slot slotID (fun x => Slot addr vaddr size' true (ipa_addr x));;
        on_mmu (create_mapping true sys_root None vaddr addr size' false);;
        d ← domain_create slotID;
        modify (with_domains <[i := Some d]>);;
        mret slotID
  end.

Definition put_ME_slot (slotID : Z) : kern avz unit :=
  x ← slot_of slotID;
  on_mmu (release_mapping sys_root None (base_vaddr x) (size x));;
  release_memslot (base_paddr x) (get_power_from_size (u32 (u64 (size x + ME_MEMCHUNK_SIZE - 1) / ME_MEMCHUNK_SIZE)));;
  upd_slot slotID (set_busy false).

(** *** The stage-2 page table of a domain *)
(** The maps of the virt64 board: [ipa_addr], [phys_addr], [size]. *)
Definition linux_ipamap : list (Z * Z * Z) := [(134217728, 134217728, 50331648)].
Definition guest_ipamap : list (Z * Z * Z) := [(134283264, 134479872, 65536)].
Definition map_S2 (pgtable : Z) (ipa pa sz : Z) (nocache : bool) : kern avz unit :=
  on_mmu (__create_mapping sys_root (Some pgtable) ipa pa sz (Attr true nocache S2)).
Fixpoint do_ipamap (pgtable : Z) (ipamap : list (Z * Z * Z)) : kern avz unit :=
  match ipamap with
  | [] => mret tt
  | (ipa, phys, sz) :: r => map_S2 pgtable ipa phys sz true;; do_ipamap pgtable r
  end.

(** [dom] is the number of the domain in [domains]. *)
Definition __setup_dom_pgtable (dom : Z) (paddr_start map_size : Z) : kern avz unit :=
  d ← dom_of dom;
  let slotID := if domID d =? DOMID_AGENCY then MEMSLOT_AGENCY else domID d in
  let map_size := ALIGN_UP map_size SZ_2M in
  new_pt ← on_mmu new_root_pgtable;
  x ← slot_of slotID;
  upd_dom dom (set_pagetable (Some new_pt));;
  map_S2 new_pt (ipa_addr x) paddr_start map_size false;;
  do_ipamap new_pt (if domID d =? DOMID_AGENCY then linux_ipamap else guest_ipamap);;
  map_S2 new_pt (u64 (ipa_addr x + map_size)) (avz_shared d) PAGE_SIZE true;;
  match subdomain_shared d with
  | None => mret tt
  | Some p =>
      map_S2 new_pt (u64 (ipa_addr x + map_size + PAGE_SIZE)) p PAGE_SIZE true;;
      upd_dom dom (set_subdomain_paddr (u64 (ipa_addr x + map_size + PAGE_SIZE)))
  end;;
  let first := Frames.phys_to_pfn (u64 (ipa_addr x + map_size + 2 * PAGE_SIZE)) in
  upd_dom dom (set_grant_pfn ((fun i => GrantPfn (u64 (first + Z.of_nat i)) true) <$> seq 0 NR_GRANT_PFN)).

(** *** Grant tables *)
Definition DOM_TO_MEMSLOT (domid : Z) : Z :=
  if (domid =? DOMID_AGENCY) || (domid =? DOMID_AGENCY_RT) then MEMSLOT_AGENCY else domid.
Definition ipa_to_pa (x : memslot_entry_t) (ipa : Z) : Z := u64 (ipa - u64 (ipa_addr x - base_paddr x)).

Definition get_ref_max (l : list gnttab_t) : Z :=
  let r := foldl (fun r cur => if r <? ref cur then ref cur else r) GRANT_INVALID_REF l in
  if r =? GRANT_INVALID_REF then 1 else r.

Definition pick_granted_entry (cur ref_ origin : Z) : kern avz (option gnttab_t) :=
  me ← dom_of cur;
  o ← dom_of origin;
  mret (list_find (fun e => ref e = ref_ /\ origin_domid e = origin /\ target_domid e = domID me) (gnttab o) ≫= fun r => Some r.2).

Definition new_gnttab_entry (d : Z) (target pfn_ : Z) : kern avz Z :=
  x ← dom_of d;
  let r := u32 (get_ref_max (gnttab x) + 1) in
  upd_dom d (set_gnttab (gnttab x ++ [Gnttab (domID x) target pfn_ r]));;
  mret r.

Fixpoint remove_ref (r : Z) (l : list gnttab_t) : list gnttab_t :=
  match l with [] => [] | e :: l => if ref e =? r then l else e :: remove_ref r l end.
Definition revoke_gnttab_entry (d ref_ : Z) : kern avz unit := upd_dom d (fun x => set_gnttab (remove_ref ref_ (gnttab x)) x).

Definition allocate_grant_pfn (d : Z) : kern avz Z :=
  x ← dom_of d;
  match list_find (fun g => gp_free g = true) (grant_pfn x) with
  | None => raise Panic
  | Some (i, g) => upd_dom d (set_grant_pfn (<[i := GrantPfn (gp_pfn g) false]> (grant_pfn x)));; mret (gp_pfn g)
  end.

(** A mapping of one page; a null [pagetable_vaddr] is the system page table. *)
Definition map_grant (d ipa pa : Z) : kern avz unit :=
  x ← dom_of d; on_mmu (__create_mapping sys_root (pagetable x) ipa pa PAGE_SIZE (Attr true true S2)).

(** [pfn] is an [int], and so is [pfn << PAGE_SHIFT]. *)
Definition map_vbstore_pfn (target pfn_ : Z) : kern avz Z :=
  _ ← dom_of target;
  a ← dom_of DOMID_AGENCY;
  match list_find (fun e => target_domid e = target) (gnttab a) with
  | None => raise Panic
  | Some (_, e) =>
      grant_paddr ← (if pfn_ =? 0 then f ← allocate_grant_pfn target; mret (Frames.pfn_to_phys f)
                     else if (pfn_ <? 0) || (2 ^ 31 <=? pfn_ * PAGE_SIZE) then raise Undef else mret (Frames.pfn_to_phys pfn_));
      map_grant target grant_paddr (Frames.pfn_to_phys (pfn e));;
      mret (Frames.phys_to_pfn grant_paddr)
  end.

Definition GNTTAB_grant_page : Z := 1.
Definition GNTTAB_revoke_page : Z := 2.
Definition GNTTAB_map_page : Z := 3.
Definition GNTTAB_unmap_page : Z := 4.
Record gnttab_op_t := GnttabOp { op_cmd : Z; op_domid : Z; op_pfn : Z; op_ref : Z }.

(** [cur] is the current domain; the result is [args] as it is left. *)
Definition do_gnttab (cur : Z) (args : gnttab_op_t) : kern avz gnttab_op_t :=
  if op_cmd args =? GNTTAB_grant_page then
    d ← dom_of cur;
    x ← slot_of (DOM_TO_MEMSLOT (domID d));
    let paddr := ipa_to_pa x (Frames.pfn_to_phys (op_pfn args)) in
    r ← new_gnttab_entry cur (op_domid args) (Frames.phys_to_pfn paddr);
    mret (GnttabOp (op_cmd args) (op_domid args) (op_pfn args) r)
  else if op_cmd args =? GNTTAB_revoke_page then
    revoke_gnttab_entry cur (op_ref args);; mret args
  else if op_cmd args =? GNTTAB_map_page then
    e ← pick_granted_entry cur (op_ref args) (op_domid args);
    match e with
    | None => raise Panic
    | Some e =>
        f ← allocate_grant_pfn cur;
        let grant_paddr := Frames.pfn_to_phys f in
        map_grant cur grant_paddr (Frames.pfn_to_phys (pfn e));;
        mret (GnttabOp (op_cmd args) (op_domid args) (Frames.phys_to_pfn grant_paddr) (op_ref args))
    end
  else mret args.

(** *** Guests that come and go *)
(** The agency's slot is set by [loadAgency]; [soo] is CONFIG_SOO. *)
Definition construct_agency (soo : bool) : kern avz unit :=
  x ← slot_of MEMSLOT_AGENCY;
  on_mmu (create_mapping true sys_root None (base_vaddr x) (base_paddr x) (size x) false);;
  upd_slot MEMSLOT_AGENCY (set_busy true);;
  lift (bug_on (size x =? 0));;
  when soo (d ← dom_of DOMID_AGENCY_RT; upd_dom DOMID_AGENCY (set_subdomain (Some (avz_shared d))));;
  __setup_dom_pgtable DOMID_AGENCY (base_paddr x) (size x).

Definition construct_ME (dom : Z) : kern avz unit :=
  d ← dom_of dom;
  x ← slot_of (domID d);
  lift (bug_on (size x =? 0));;
  __setup_dom_pgtable dom (base_paddr x) (size x).

(** Without a slot, [domME] is used uninitialised.  [loadME] takes the address of
    the guest's memory, [ipa], from its device tree. *)
Definition inject_me (sz ipa : Z) : kern avz Z :=
  slotID ← get_ME_free_slot sz;
  if slotID =? (-1) then raise Undef
  else
    upd_slot slotID (set_ipa ipa);;
    construct_ME slotID;;
    map_vbstore_pfn slotID 0.

(** The second call of [write_ME_snapshot], which fills a slot that the first one
    reserved with [get_ME_free_slot]; [ipa], [vbstore_pfn] and the shared page, of
    which [sub] and [sub_paddr] matter here, come with the snapshot.  The flags of
    [grant_pfn] do too, but [__setup_dom_pgtable] sets them anew. *)
Definition restore_domain_context (slotID : Z) (sub : option Z) (sub_paddr ipa : Z) : kern avz unit :=
  upd_dom slotID (fun d => set_subdomain_paddr sub_paddr (set_subdomain sub d));;
  upd_slot slotID (set_ipa ipa).
Definition write_ME_snapshot (slotID : Z) (sub : option Z) (sub_paddr ipa vbstore_pfn : Z) : kern avz unit :=
  restore_domain_context slotID sub sub_paddr ipa;;
  x ← slot_of slotID;
  __setup_dom_pgtable slotID (base_paddr x) (size x);;
  _ ← map_vbstore_pfn slotID vbstore_pfn;
  mret tt.

(** [complete_domain_destroy]: a table that was never set up is a null pointer. *)
Definition domain_destroy (dom : Z) : kern avz unit :=
  d ← dom_of dom;
  t ← lift (deref (pagetable d));
  on_mmu (reset_root_pgtable t true).
Definition shutdown_ME (slotID : Z) : kern avz unit :=
  domain_destroy slotID;;
  modify (with_domains <[Z.to_nat slotID := None]>);;
  put_ME_slot slotID.
End avz.

End Guest.
