(* ===== verification/GuestSlots.v ===== *)
(** Memory slots of the guests: whatever slots are taken and given back, the slots
    in use lie in disjoint stretches of the memory behind the agency, and the
    bitmap of 2 MB chunks says exactly which chunks they take. *)
From S2P Require Import Prelude Bitmap Frames Mmu Guest.

Module GuestSlots.
Import Guest.
Implicit Types (l : list memslot_entry_t) (bm : list Z) (x : memslot_entry_t) (s : avz).

Abbreviation CH := 2097152.
Definition pages (order : Z) : nat := Z.to_nat (2 ^ order).
(** Where the hypervisor maps slot [i]. *)
Definition va (i : nat) : Z := ME_BASE + (Z.of_nat i - 1) * 2 ^ 32.

(** ** The order of a size *)
Lemma power_loop_spec f : forall b o, 0 <= b < 2 ^ Z.of_nat f -> (0 < f)%nat -> -1 <= o -> o + Z.of_nat f < 2 ^ 31 ->
  power_loop f b (u32 o) = o + 1 + Z.log2 b.
Proof.
  induction f as [|f IH]; intros b o Hb Hf Ho Hm; [lia|]. cbn [power_loop]. rewrite Z.shiftr_div_pow2 by lia. change (2 ^ 1) with 2.
  assert (Eo : u32 (u32 o + 1) = u32 (o + 1)) by (unfold u32, wrap; by rewrite Zplus_mod_idemp_l). rewrite Eo.
  assert (Hs : u32 (o + 1) = o + 1) by (unfold u32, wrap; rewrite Z.mod_small; [done|change (2 ^ 31) with 2147483648 in Hm; change (2 ^ 32) with 4294967296; lia]).
  destruct (Z.eqb_spec (b / 2) 0) as [E|E].
  - rewrite Hs. replace (Z.log2 b) with 0; [lia|]. assert (Hb2 : b = 0 \/ b = 1) by dlia. by destruct Hb2 as [->| ->].
  - assert (Hp : 2 ^ Z.of_nat (S f) = 2 * 2 ^ Z.of_nat f) by (rewrite Nat2Z.inj_succ, Z.pow_succ_r; lia).
    destruct f as [|f]; [change (2 ^ Z.of_nat 1) with 2 in Hb; dlia|].
    rewrite IH; [|dlia|lia..]. assert (El : Z.log2 b = Z.log2 (b / 2) + 1); [|lia].
    replace (b / 2) with (Z.shiftr b 1) by (by rewrite Z.shiftr_div_pow2). rewrite Z.log2_shiftr; [|dlia].
    assert (1 <= Z.log2 b) by (apply Z.log2_le_pow2; dlia). lia.
Qed.

Lemma get_power_spec b : 0 <= b < 2 ^ 32 -> get_power_from_size b = Z.log2 b.
Proof. intros Hb. unfold get_power_from_size. rewrite power_loop_spec; lia. Qed.

(** ** The invariant *)
Section slots.
(** The memory behind the agency. *)
Context (B : Z) (HB : 0 < B) (Htop : B + 256 * CH <= 2 ^ 32).

Definition owns x (c : nat) : Prop := base_paddr x <= B + Z.of_nat c * CH < base_paddr x + size x.
Record placed (i : nat) x (order : Z) (n : nat) : Prop := {
  pl_order : 0 <= order <= 6;
  pl_in : (n * pages order + pages order <= 256)%nat;
  pl_base : base_paddr x = B + Z.of_nat (n * pages order) * CH;
  pl_size : size x = Z.of_nat (pages order) * CH;
  pl_va : base_vaddr x = va i
}.
Definition in_use l (i : nat) x : Prop := (2 <= i)%nat /\ l !! i = Some x /\ busy x = true.

Record slots_ok l bm : Prop := {
  sl_len : length l = MEMSLOT_NR;
  sl_agency : exists a, l !! 1%nat = Some a /\ base_paddr a + size a = B;
  sl_bm : bitmap_ok bm ME_MEMCHUNK_NR;
  sl_placed : forall i x, in_use l i x -> exists order n, placed i x order n;
  sl_bits : forall c, (c < ME_MEMCHUNK_NR)%nat -> (getbit bm c = true <-> exists i x, in_use l i x /\ owns x c);
  sl_disj : forall i j x y c, i <> j -> in_use l i x -> in_use l j y -> owns x c -> ~ owns y c
}.

Lemma pages_pos order : 0 <= order <= 6 -> (1 <= pages order)%nat /\ Z.of_nat (pages order) = 2 ^ order.
Proof. intros Ho. unfold pages. assert (0 < 2 ^ order) by lia. lia. Qed.

Lemma owns_placed i x order n c : placed i x order n -> owns x c <-> (n * pages order <= c < n * pages order + pages order)%nat.
Proof. intros [P1 P2 P3 P4 _]. unfold owns. rewrite P3, P4. lia. Qed.

Lemma region_fits n order : 0 <= order <= 6 -> (n * pages order < ME_MEMCHUNK_NR)%nat -> (n * pages order + pages order <= 256)%nat.
Proof.
  intros Ho Hn. unfold ME_MEMCHUNK_NR in Hn. destruct (pages_divides order Ho) as (q & Hq & Hp). fold (pages order) in *.
  assert ((n < 4 * q)%nat); [|nia]. apply Nat.nle_gt. intros Hc. nia.
Qed.

Lemma in_use_insert l i x j y : (i < length l)%nat -> in_use (<[i := x]> l) j y <-> (2 <= j)%nat /\ busy y = true /\ if decide (j = i) then y = x else l !! j = Some y.
Proof.
  intros Hi. unfold in_use. case_decide as E.
  - subst j. rewrite list_lookup_insert_eq by done. naive_solver.
  - rewrite list_lookup_insert_ne by done. naive_solver.
Qed.

(** ** Taking a slot *)
Lemma free_slot_spec l i : free_slot l = Some i -> (2 <= i < 7)%nat /\ exists x, l !! i = Some x /\ busy x = false.
Proof.
  unfold free_slot. intros (k & Hk & E & _)%for_ret_Some. unfold MEMSLOT_BASE, MEMSLOT_NR in *. cbv beta in E.
  destruct (l !! (2 + k)%nat) as [x|] eqn:El; [|done]. destruct (busy x) eqn:Eb; [done|]. injection E as <-. split; [lia|eauto].
Qed.

Lemma free_slot_none l : free_slot l = None -> forall i x, (2 <= i < 7)%nat -> l !! i = Some x -> busy x = true.
Proof.
  unfold free_slot. intros Hn i x Hi Hx. rewrite for_ret_None in Hn. specialize (Hn (i - 2)%nat). unfold MEMSLOT_BASE, MEMSLOT_NR in *.
  replace (2 + (i - 2))%nat with i in Hn by lia. rewrite Hx in Hn. destruct (busy x); [done|]. specialize (Hn ltac:(lia)). done.
Qed.

Section take.
Context l bm (Hok : slots_ok l bm) (i : nat) x (Hx : l !! i = Some x) (Hfree : busy x = false) (Hi : (2 <= i)%nat).
Context (order : Z) (n : nat) (Ho : 0 <= order <= 6) (Hn : (n * pages order < ME_MEMCHUNK_NR)%nat).
Context (Hreg : region_is bm (n * pages order) (pages order) false) (bm' : list Z) (Hbm' : bitmap_ok bm' ME_MEMCHUNK_NR).
Context (Hset : forall c, getbit bm' c = if bool_decide (n * pages order <= c < n * pages order + pages order)%nat then true else getbit bm c).
Context (y : memslot_entry_t) (Hy : placed i y order n) (Hbusy : busy y = true).

Lemma take_ok : slots_ok (<[i := y]> l) bm'.
Proof.
  pose proof (lookup_lt_Some _ _ _ Hx) as Hlt. pose proof (region_fits n order Ho Hn) as Hfit.
  assert (Hfresh : forall j z c, in_use l j z -> owns z c -> owns y c -> False).
  { intros j z c Hz Hc Hyc. apply (owns_placed i y order n c Hy) in Hyc. pose proof (Hreg c Hyc).
    assert (getbit bm c = true); [|congruence]. apply (sl_bits _ _ Hok); [unfold ME_MEMCHUNK_NR; lia|eauto]. }
  split.
  - rewrite length_insert. apply Hok.
  - destruct (sl_agency _ _ Hok) as (a & Ha & E). exists a. rewrite list_lookup_insert_ne by lia. done.
  - done.
  - intros j z (Hj & Hb & Hz)%in_use_insert; [|done]. case_decide as E; [subst; eauto|]. by apply (sl_placed _ _ Hok).
  - intros c Hc. rewrite Hset. case_bool_decide as Hin.
    + split; [intros _|done]. exists i, y. split; [|by apply (owns_placed i y order n)]. apply in_use_insert; [done|]. by rewrite decide_True.
    + rewrite (sl_bits _ _ Hok c Hc). split.
      * intros (j & z & (Hj & Hz & Hb) & Hzc). exists j, z. split; [|done]. apply in_use_insert; [done|].
        rewrite decide_False; [done|]. intros ->. congruence.
      * intros (j & z & (Hj & Hb & Hz)%in_use_insert & Hzc); [|done]. case_decide as E; [|by exists j, z].
        subst. by apply (owns_placed i y order n c Hy) in Hzc.
  - intros j k z w c Hjk (Hj & Hb & Hz)%in_use_insert (Hk & Hb' & Hw)%in_use_insert Hzc Hwc; [|done..].
    destruct (decide (j = i)) as [->|], (decide (k = i)) as [->|]; [done|subst z|subst w|].
    + by apply (Hfresh k w c).
    + by apply (Hfresh j z c).
    + by apply (sl_disj _ _ Hok j k z w c).
Qed.
End take.

(** ** Giving a slot back *)
Lemma give_ok l bm i x order n bm' : slots_ok l bm -> in_use l i x -> placed i x order n -> bitmap_ok bm' ME_MEMCHUNK_NR ->
  (forall c, getbit bm' c = if bool_decide (n * pages order <= c < n * pages order + pages order)%nat then false else getbit bm c) ->
  slots_ok (<[i := set_busy false x]> l) bm'.
Proof.
  intros Hok Hu Hp Hbm' Hset. pose proof Hu as (Hi & Hx & Hb). pose proof (lookup_lt_Some _ _ _ Hx) as Hlt.
  assert (Hsub : forall j z, in_use (<[i := set_busy false x]> l) j z -> j <> i /\ in_use l j z).
  { intros j z (Hj & Hbz & Hz)%in_use_insert; [|done]. case_decide as E; [subst; done|]. by split. }
  split.
  - rewrite length_insert. apply Hok.
  - destruct (sl_agency _ _ Hok) as (a & Ha & E). exists a. rewrite list_lookup_insert_ne by lia. done.
  - done.
  - intros j z [_ Hz]%Hsub. by apply (sl_placed _ _ Hok).
  - intros c Hc. rewrite Hset. case_bool_decide as Hin.
    + split; [done|]. intros (j & z & [Hne Hz]%Hsub & Hzc). exfalso. apply (sl_disj _ _ Hok j i z x c); [done..|]. by apply (owns_placed i x order n).
    + rewrite (sl_bits _ _ Hok c Hc). split.
      * intros (j & z & (Hj & Hz & Hbz) & Hzc). exists j, z. split; [|done]. apply in_use_insert; [done|]. rewrite decide_False; [done|].
        intros ->. assert (z = x) as -> by congruence. by apply (owns_placed i x order n c Hp) in Hzc.
      * intros (j & z & [Hne Hz]%Hsub & Hzc). eauto.
  - intros j k z w c Hjk [_ Hz]%Hsub [_ Hw]%Hsub. by apply (sl_disj _ _ Hok j k).
Qed.

(** ** The routines *)
Lemma slot_of_run s i x : memslot s !! i = Some x -> slot_of (Z.of_nat i) s = Ret (x, s).
Proof. intros Hx. unfold slot_of. kstep. destruct (Z.ltb_spec (Z.of_nat i) 0); [lia|]. rewrite Nat2Z.id, Hx. done. Qed.

Lemma upd_slot_run s i x f : memslot s !! i = Some x -> upd_slot (Z.of_nat i) f s = Ret (tt, with_memslot <[i := f x]> s).
Proof. intros Hx. unfold upd_slot. erewrite kbind_ret by (by apply slot_of_run). cbn beta. by rewrite Nat2Z.id. Qed.

Lemma with_bitmap_id s : with_bitmap (memchunk_bitmap s) s = s.
Proof. by destruct s. Qed.

Lemma allocate_memslot_ok s order : slots_ok (memslot s) (memchunk_bitmap s) -> 0 <= order <= 6 ->
  (exists n bm', allocate_memslot order s = Ret (B + Z.of_nat (n * pages order) * CH, with_bitmap bm' s) /\
     (n * pages order < ME_MEMCHUNK_NR)%nat /\ region_is (memchunk_bitmap s) (n * pages order) (pages order) false /\ bitmap_ok bm' ME_MEMCHUNK_NR /\
     (forall c, getbit bm' c = if bool_decide (n * pages order <= c < n * pages order + pages order)%nat then true else getbit (memchunk_bitmap s) c)) \/
  (allocate_memslot order s = Ret (0, s) /\
     forall n, (n * pages order < ME_MEMCHUNK_NR)%nat -> ~ region_is (memchunk_bitmap s) (n * pages order) (pages order) false).
Proof.
  intros Hok Ho. destruct (sl_agency _ _ Hok) as (a & Ha & Ea). unfold allocate_memslot. kstep.
  destruct (find_free_region_correct _ _ order (sl_bm _ _ Hok) Ho) as [(n & bm' & E & Hn & Hf & Hset & _)|[E Hno]]; fold (pages order) in *.
  - left. exists n, bm'. pose proof (region_fits n order Ho Hn) as Hfit. destruct (pages_pos order Ho) as [Hpp _]. pose proof (find_free_region_ok _ _ _ _ _ (sl_bm _ _ Hok) E) as Hb.
    split_and!; [|done..]. rewrite E. kstep. cbn [fst snd]. kstep. destruct (Z.ltb_spec (Z.of_nat (n * pages order)) 0); [lia|].
    erewrite kbind_ret by (by apply (slot_of_run (with_bitmap bm' s) 1)). cbn beta. rewrite Ea. unfold u32, ME_MEMCHUNK_SIZE. rewrite wrap_small; [done|].
    unfold in_word. set (p := (n * pages order)%nat) in *. lia.
  - right. split; [|done]. rewrite E. kstep. cbn [fst snd]. kstep. rewrite with_bitmap_id. done.
Qed.

Lemma order_back i x order n : placed i x order n -> get_power_from_size (u32 (u64 (size x + ME_MEMCHUNK_SIZE - 1) / ME_MEMCHUNK_SIZE)) = order.
Proof.
  intros [Ho _ _ Hs _]. destruct (pages_pos order Ho) as [_ Ep]. rewrite Hs, Ep. unfold ME_MEMCHUNK_SIZE.
  assert (1 <= 2 ^ order <= 2 ^ 6) by (split; [lia|apply Z.pow_le_mono_r; lia]). change (2 ^ 6) with 64 in *.
  unfold u64. rewrite wrap_small by (unfold in_word; lia). replace ((2 ^ order * 2097152 + 2 * 1024 * 1024 - 1) / (2 * 1024 * 1024)) with (2 ^ order) by dlia.
  unfold u32. rewrite wrap_small by (unfold in_word; lia). rewrite get_power_spec by lia. apply Z.log2_pow2. lia.
Qed.

Lemma release_memslot_ok s i x : slots_ok (memslot s) (memchunk_bitmap s) -> in_use (memslot s) i x ->
  exists bm', release_memslot (base_paddr x) (get_power_from_size (u32 (u64 (size x + ME_MEMCHUNK_SIZE - 1) / ME_MEMCHUNK_SIZE))) s = Ret (tt, with_bitmap bm' s) /\
    slots_ok (<[i := set_busy false x]> (memslot s)) bm' /\
    (forall c, getbit bm' c = true <-> getbit (memchunk_bitmap s) c = true /\ ~ owns x c).
Proof.
  intros Hok Hu. destruct (sl_placed _ _ Hok i x Hu) as (order & n & Hp). rewrite (order_back i x order n Hp).
  destruct (sl_agency _ _ Hok) as (a & Ha & Ea). unfold release_memslot. erewrite kbind_ret by (by apply (slot_of_run s 1)). cbn beta.
  pose proof Hp as [Ho Hin Hb _ _]. set (p := (n * pages order)%nat) in *.
  assert (Hpos : Z.quot (s32 (u64 (base_paddr x - base_paddr a - size a))) ME_MEMCHUNK_SIZE = Z.of_nat p).
  { clearbody p. rewrite Hb. replace (B + Z.of_nat p * CH - base_paddr a - size a) with (Z.of_nat p * CH) by lia.
    unfold s32, u64, u32. rewrite (wrap_small 64), (wrap_small 32) by (unfold in_word; lia). change (2 ^ 31) with 2147483648.
    destruct (Z.ltb_spec (Z.of_nat p * 2097152) 2147483648); [|lia]. apply Z.quot_mul. done. }
  rewrite Hpos. kstep. destruct (Z.ltb_spec (Z.of_nat p) 0); [lia|]. rewrite Nat2Z.id.
  destruct (release_region_spec (memchunk_bitmap s) ME_MEMCHUNK_NR order n (sl_bm _ _ Hok) Ho) as (bm' & E & Hbm' & Hset).
  { fold (pages order) p. pose proof (pages_pos order Ho). unfold ME_MEMCHUNK_NR. lia. }
  fold (pages order) p in E, Hset. rewrite E. kstep. exists bm'. split_and!; [done|by apply (give_ok (memslot s) (memchunk_bitmap s) i x order n)|].
  intros c. rewrite Hset, (owns_placed i x order n c Hp). fold p. case_bool_decide; naive_solver.
Qed.
End slots.

End GuestSlots.
