(* ===== verification/GuestInv.v ===== *)
(** What holds of the hypervisor's memory at all times: each guest reaches its own
    memory, its shared page, the devices mapped for it and pages that were granted
    to it, and nothing else. *)
From S2P Require Import Prelude Bitmap Frames Mmu MmuMap MmuReset MmuCreate MmuSpec MmuForest Guest GuestSlots.

Module GuestInv.
Import Mmu MmuMap MmuCreate MmuSpec MmuForest Guest GuestSlots.
Implicit Types (s : avz) (d e : guest) (x : memslot_entry_t) (y : mmu) (G : list (Z * Z)) (i j : nat).

(** The hypervisor's system page table, its memory [lo, hi), the agency's [A, B). *)
Record config := Config { sys_root : Z; lo : Z; hi : Z; A : Z; B : Z }.

(** Devices, hypervisor, agency and the 256 chunks follow each other. *)
Record layout (c : config) : Prop := {
  la_dev : 184549376 <= lo c;
  la_avz : lo c <= hi c <= A c;
  la_agency : A c < B c /\ A c mod 4096 = 0 /\ B c mod 4096 = 0 /\ (B c - A c) mod CH = 0;
  la_top : B c + 256 * CH <= 2 ^ 32
}.

Definition dom_at s i d : Prop := domains s !! i = Some (Some d).
(** The slot of domain [i]. *)
Definition slot_nr i : nat := if decide (i = 0%nat) then 1%nat else i.
Definition ipamap_of i : list (Z * Z * Z) := if decide (i = 0%nat) then linux_ipamap else guest_ipamap.

(** What domain [i] may reach. *)
Definition allowed G i x d (pa : Z) : Prop :=
  base_paddr x <= pa < base_paddr x + size x \/
  avz_shared d <= pa < avz_shared d + 4096 \/
  (exists p, subdomain_shared d = Some p /\ p <= pa < p + 4096) \/
  (exists ipa ph sz, (ipa, ph, sz) ∈ ipamap_of i /\ ph <= pa < ph + sz) \/
  (Z.of_nat i, pa / 4096) ∈ G.

(** Where granted pages are mapped. *)
Definition window x (w : Z) : Prop := ipa_addr x + size x + 8192 <= w < ipa_addr x + size x + 139264.
Definition ipa_ok i x : Prop :=
  0 <= ipa_addr x /\ ipa_addr x mod 4096 = 0 /\ 0 < size x /\ ipa_addr x + size x + 139264 <= 2 ^ 48 /\
  forall ipa ph sz, (ipa, ph, sz) ∈ ipamap_of i -> ipa + sz <= ipa_addr x \/ ipa_addr x + size x + 139264 <= ipa.

(** The tables of a domain that has been set up. *)
Record guest_ok G (m : gmap Z (list Z)) i x d (r : Z) : Prop := {
  go_ipa : ipa_ok i x;
  go_trans : forall w pa at_, low w -> translate r m w = Some (pa, at_) -> allowed G i x d pa;
  go_own : forall w, ipa_addr x <= w < ipa_addr x + size x ->
    translate r m w = Some (base_paddr x + (w - ipa_addr x), leaf_attrs (Attr true false S2) false);
  go_pfn : forall k g, grant_pfn d !! k = Some g -> (k < NR_GRANT_PFN)%nat /\ gp_pfn g = (ipa_addr x + size x) / 4096 + 2 + Z.of_nat k;
  go_win : forall w, window x w -> noblock r m w
}.
Definition tables_ok G s i d : Prop :=
  match pagetable d with
  | Some r => exists x, memslot s !! slot_nr i = Some x /\ guest_ok G (tables (mm s)) i x d r
  | None => forall g, g ∈ grant_pfn d -> gp_free g = false
  end.

(** Its grant table: every entry is known in [G] and has a reference of its own. *)
Record grants_ok G i d : Prop := {
  gr_entry : forall g, g ∈ gnttab d -> origin_domid g = Z.of_nat i /\ 1 < ref g < 2 ^ 32 /\ (target_domid g, pfn g) ∈ G;
  gr_refs : NoDup (ref <$> gnttab d)
}.

Section inv.
Context (c : config) (Hlay : layout c).

Definition roots s : gset Z := {[sys_root c]} ∪ list_to_set (omap (fun o : option guest => o ≫= pagetable) (domains s)).

(** The hypervisor's own mapping of slot [i]. *)
Definition sys_ok (m : gmap Z (list Z)) i x : Prop :=
  let n := if busy x then size x else 0 in
  (forall w, va i <= w < va i + n -> leaf_within (sys_root c) m w (va i) (va i + n)) /\
  (forall w, va i + n <= w < va (S i) -> translate (sys_root c) m w = None).

(** The shared page of a domain is no page table and nobody else's. *)
Definition shared_ok s i d : Prop :=
  lo c <= avz_shared d /\ avz_shared d + 4096 <= hi c /\ avz_shared d mod 4096 = 0 /\
  (avz_shared d ∉ heap (mm s)) /\ tables (mm s) !! avz_shared d = None.

Record ginv G s : Prop := {
  gi_slots : slots_ok (B c) (memslot s) (memchunk_bitmap s);
  gi_agency : exists a, memslot s !! 1%nat = Some a /\ base_paddr a = A c;
  gi_len : length (domains s) = MEMSLOT_NR;
  gi_forest : forest (roots s) (mm s);
  gi_avz : forall t, t ∈ heap (mm s) \/ is_Some (tables (mm s) !! t) -> lo c <= t /\ t + 4096 <= hi c;
  gi_id : forall i d, dom_at s i d -> domID d = Z.of_nat i;
  gi_live : forall i, (2 <= i)%nat -> (exists d, dom_at s i d) <-> (exists x, in_use (memslot s) i x);
  gi_root : forall i d r, dom_at s i d -> pagetable d = Some r -> r <> sys_root c /\ forall j e, dom_at s j e -> pagetable e = Some r -> i = j;
  gi_shared : forall i d, dom_at s i d -> shared_ok s i d;
  gi_shared_inj : forall i j d e, dom_at s i d -> dom_at s j e -> avz_shared d = avz_shared e -> i = j;
  gi_sub : forall i d p, dom_at s i d -> subdomain_shared d = Some p -> i = 0%nat /\ exists e, dom_at s 1 e /\ avz_shared e = p;
  gi_sys : forall i x, (2 <= i)%nat -> memslot s !! i = Some x -> sys_ok (tables (mm s)) i x;
  gi_tables : forall i d, dom_at s i d -> tables_ok G s i d;
  gi_grants : forall i d, dom_at s i d -> grants_ok G i d;
  gi_granted : forall t p, (t, p) ∈ G -> A c <= p * 4096 /\ p * 4096 + 4096 <= B c + 256 * CH
}.

Lemma elem_of_roots s r : r ∈ roots s <-> r = sys_root c \/ exists i d, dom_at s i d /\ pagetable d = Some r.
Proof.
  unfold roots. rewrite elem_of_union, elem_of_singleton, elem_of_list_to_set, list_elem_of_omap. unfold dom_at. split.
  - intros [->|(o & Ho & Hr)]; [by left|]. right. destruct o as [d|]; [|done]. apply list_elem_of_lookup_1 in Ho as [i Hi]. eauto.
  - intros [->|(i & d & Hd & Hr)]; [by left|]. right. exists (Some d). split; [by apply (list_elem_of_lookup_2 _ i)|done].
Qed.

Lemma dom_lt G s i d : ginv G s -> dom_at s i d -> (i < 7)%nat.
Proof. intros Hi Hd. apply lookup_lt_Some in Hd. by rewrite (gi_len _ _ Hi) in Hd. Qed.

(** ** Reading and changing domains *)
Lemma guest_of_run s i d : dom_at s i d -> dom_of (Z.of_nat i) s = Ret (d, s).
Proof. intros Hd. unfold dom_of. kstep. destruct (Z.ltb_spec (Z.of_nat i) 0); [lia|]. rewrite Nat2Z.id, Hd. done. Qed.
Definition put i d s : avz := with_domains <[i := Some d]> s.
Lemma upd_dom_run s i d f : dom_at s i d -> upd_dom (Z.of_nat i) f s = Ret (tt, put i (f d) s).
Proof. intros Hd. unfold upd_dom. erewrite kbind_ret by (by apply guest_of_run). cbn beta. by rewrite Nat2Z.id. Qed.
Lemma guest_mmu_ret {T} (g : kern mmu T) s (a : T) y : g (mm s) = Ret (a, y) -> on_mmu g s = Ret (a, with_mm y s).
Proof. intros E. unfold on_mmu. by rewrite E. Qed.

Lemma put_at s i d j e : (i < length (domains s))%nat -> dom_at (put i d s) j e <-> if decide (j = i) then e = d else dom_at s j e.
Proof.
  intros Hi. unfold dom_at, put. cbn [domains with_domains]. case_decide as E.
  - subst j. rewrite list_lookup_insert_eq by done. naive_solver.
  - by rewrite list_lookup_insert_ne.
Qed.
Lemma put_eq s i d : (i < length (domains s))%nat -> dom_at (put i d s) i d.
Proof. intros Hi. rewrite put_at by done. by rewrite decide_True. Qed.

(** ** Page tables that change *)
Lemma guest_ok_same G G' m m' i x d r : guest_ok G m i x d r -> (forall p, p ∈ G -> p ∈ G') ->
  (forall k w, (k <= 3)%nat -> low w -> ent r m' k w = ent r m k w) -> guest_ok G' m' i x d r.
Proof.
  intros [H1 H2 H3 H4 H5] HG Hs. pose proof H1 as (I1 & I2 & I0 & I3 & I4). assert (Htr : forall w, low w -> translate r m' w = translate r m w) by (intros w Hw; by apply translate_ext; intros; apply Hs).
  split; [done| | |done|].
  - intros w pa at_ Hw. rewrite Htr by done. intros Ht. destruct (H2 w pa at_ Hw Ht) as [?|[?|[?|[?|?]]]]; unfold allowed; auto 10.
  - intros w Hw. rewrite Htr; [by apply H3|]. unfold low. lia.
  - intros w Hw k f Hk. rewrite Hs; [by apply H5|lia|]. unfold window, low in *. lia.
Qed.

Lemma tables_ok_mono G G' s i d : tables_ok G s i d -> (forall p, p ∈ G -> p ∈ G') -> tables_ok G' s i d.
Proof.
  unfold tables_ok. destruct (pagetable d) as [r|]; [|done]. intros (x & Hx & Hg) HG. exists x. split; [done|]. by apply (guest_ok_same G G' (tables (mm s)) _).
Qed.

Lemma tables_ok_view G s i d e : tables_ok G s i e -> pagetable d = pagetable e -> avz_shared d = avz_shared e -> subdomain_shared d = subdomain_shared e ->
  grant_pfn d = grant_pfn e -> tables_ok G s i d.
Proof.
  unfold tables_ok. intros Ht -> E1 E2 E3. destruct (pagetable e) as [r|]; [|by rewrite E3]. destruct Ht as (x & Hx & [H1 H2 H3 H4 H5]).
  exists x. split; [done|]. split; [done| |done|by rewrite E3|done]. intros w pa at_ Hw Htr. unfold allowed. rewrite E1, E2. by apply (H2 w pa at_).
Qed.

Lemma va_step i : va (S i) = va i + 2 ^ 32.
Proof. unfold va. lia. Qed.
Lemma va_low i : (i <= 7)%nat -> 0 <= va i /\ va i + 2 ^ 32 <= 2 ^ 48 /\ va i mod CH = 0.
Proof. intros Hi. unfold va, ME_BASE. change (2 ^ 32) with 4294967296. change (2 ^ 48) with 281474976710656. split_and!; [lia|lia|]. dlia. Qed.
Lemma va_apart i j w : i <> j -> va i <= w < va (S i) -> ~ (va j <= w < va (S j)).
Proof. rewrite !va_step. unfold va. lia. Qed.

Lemma sys_ok_same m m' i x : sys_ok m i x -> (i < 7)%nat -> (busy x = true -> 0 <= size x <= 2 ^ 32) ->
  (forall k w, (k <= 3)%nat -> va i <= w < va (S i) -> ent (sys_root c) m' k w = ent (sys_root c) m k w) -> sys_ok m' i x.
Proof.
  intros [H1 H2] Hi Hsz Hs. pose proof (va_step i). pose proof (va_low i ltac:(lia)) as (V1 & V2 & _). split.
  - intros w Hw. destruct (H1 w Hw) as (k & f & Hk & Hf & Ht). exists k, f. split; [done|]. rewrite Hs; [done|lia|]. destruct (busy x); [specialize (Hsz eq_refl)|]; lia.
  - intros w Hw. rewrite <- (H2 w Hw). apply translate_ext. intros k Hk. apply Hs; [done|]. destruct (busy x); [specialize (Hsz eq_refl)|]; lia.
Qed.

Lemma slot_size G s i x : ginv G s -> in_use (memslot s) i x -> CH <= size x <= 64 * CH /\ size x mod CH = 0 /\
  B c <= base_paddr x /\ base_paddr x + size x <= B c + 256 * CH /\ base_paddr x mod 4096 = 0 /\ base_vaddr x = va i.
Proof.
  intros Hi Hu. destruct (sl_placed _ _ _ (gi_slots _ _ Hi) i x Hu) as (order & n & [Ho Hin Hb Hs Hv]).
  destruct (pages_pos order Ho) as [Hp Ep]. assert (2 ^ order <= 2 ^ 6) by (apply Z.pow_le_mono_r; lia). change (2 ^ 6) with 64 in *.
  rewrite Hs, Hb, Hv. destruct Hlay as [_ _ (_ & _ & HB & _) _]. set (p := (n * pages order)%nat) in *. clearbody p. split_and!; try done; try lia.
Qed.

(** Only the tables change: those of one domain, or the system's. *)
Lemma ginv_mmu G s y : ginv G s -> forest (roots s) y -> (forall t, t ∈ heap y -> t ∈ heap (mm s)) ->
  (forall t, is_Some (tables y !! t) -> t ∈ heap (mm s) \/ is_Some (tables (mm s) !! t)) ->
  (forall i x, (2 <= i)%nat -> memslot s !! i = Some x -> sys_ok (tables y) i x) ->
  (forall i d, dom_at s i d -> tables_ok G (with_mm y s) i d) -> ginv G (with_mm y s).
Proof.
  intros [H1 H2 H3 H4 H5 H6 H7 H8 H9 H10 H11 H12 H13 H14 H15] Hf Hh Hd Hs Ht. split; try done; cbn [mm memslot memchunk_bitmap domains with_mm].
  - intros t [Hin|Hin]; [by apply H5; left; apply Hh|by apply H5, Hd].
  - intros i d Hdi. destruct (H9 i d Hdi) as (S1 & S2 & S3 & S4 & S5). split_and!; [done..|intros Hin; by apply S4, Hh|].
    cbn [mm with_mm]. destruct (tables y !! avz_shared d) eqn:E; [|done]. destruct (Hd (avz_shared d)) as [|[? ?]]; [by eexists|done|congruence].
Qed.

(** Only domain [i] changes, and not its number, page and tables. *)
Definition same_domain d e : Prop :=
  domID d = domID e /\ avz_shared d = avz_shared e /\ pagetable d = pagetable e.

Lemma roots_put s i d e : dom_at s i e -> pagetable d = pagetable e -> roots (put i d s) = roots s.
Proof.
  intros He E. apply set_eq. intros r. rewrite !elem_of_roots. assert (Hi : (i < length (domains s))%nat) by (by eapply lookup_lt_Some).
  split; intros [->|(j & f & Hf & Hr)]; (try by left); right.
  - apply put_at in Hf; [|done]. case_decide; [subst; exists i, e; by rewrite <- E|eauto].
  - destruct (decide (j = i)) as [->|Hne].
    + exists i, d. split; [by apply put_eq|]. assert (f = e) as -> by (unfold dom_at in *; congruence). by rewrite E.
    + exists j, f. split; [|done]. rewrite put_at by done. by rewrite decide_False.
Qed.

Lemma ginv_put G G' s i d e : ginv G s -> dom_at s i e -> same_domain d e -> (forall p, p ∈ G -> p ∈ G') ->
  (forall t p, (t, p) ∈ G' -> A c <= p * 4096 /\ p * 4096 + 4096 <= B c + 256 * CH) ->
  (forall p, subdomain_shared d = Some p -> i = 0%nat /\ exists e', dom_at s 1 e' /\ avz_shared e' = p) ->
  tables_ok G' s i d -> grants_ok G' i d -> ginv G' (put i d s).
Proof.
  intros [H1 H2 H3 H4 H5 H6 H7 H8 H9 H10 H11 H12 H13 H14 H15] He (E1 & E2 & E4) HG HG' Hsub Ht Hg.
  assert (Hi : (i < length (domains s))%nat) by (by eapply lookup_lt_Some).
  assert (Hof : forall j f, dom_at (put i d s) j f -> exists f0, dom_at s j f0 /\ same_domain f f0 /\ (j <> i -> f = f0) /\ (j = i -> f = d)).
  { intros j f Hf. apply put_at in Hf; [|done]. case_decide as E; [subst|].
    - exists e. split_and!; try done.
    - exists f. split_and!; try done. }
  split; cbn [mm memslot memchunk_bitmap put with_domains]; try done.
  - unfold put; cbn [domains with_domains]. by rewrite length_insert.
  - by rewrite (roots_put s i d e).
  - intros j f (f0 & Hf & (-> & _) & _)%Hof. by apply H6.
  - intros j Hj. rewrite <- H7 by done. split; intros [f Hf].
    + apply Hof in Hf as (f0 & Hf & _). eauto.
    + destruct (decide (j = i)) as [->|]; [exists d; by apply put_eq|]. exists f. apply put_at; [done|]. by rewrite decide_False.
  - intros j f r (f0 & Hf & (_ & _ & ->) & _)%Hof Hr. destruct (H8 j f0 r Hf Hr) as [? Hu]. split; [done|].
    intros k g (g0 & Hg0 & (_ & _ & ->) & _)%Hof. by apply Hu.
  - intros j f (f0 & Hf & (_ & E & _) & _)%Hof. unfold shared_ok. cbn [mm put with_domains]. rewrite E. by apply (H9 j).
  - intros j k f g (f0 & Hf & (_ & -> & _) & _)%Hof (g0 & Hg0 & (_ & -> & _) & _)%Hof. by apply H10.
  - intros j f p Hf Hp. assert (Hex : j = 0%nat /\ exists g, dom_at s 1 g /\ avz_shared g = p).
    { destruct (Hof j f Hf) as (f0 & Hf0 & _ & Ene & Eeq). destruct (decide (j = i)) as [->|Hne]; [rewrite (Eeq eq_refl) in Hp; by apply Hsub|].
      rewrite (Ene Hne) in *. by apply (H11 j f0). }
    destruct Hex as [-> (g & Hg1 & Eg)]. split; [done|].
    destruct (decide (1%nat = i)) as [<-|Hne].
    + exists d. split; [by apply put_eq|]. assert (g = e) as -> by (unfold dom_at in *; congruence). congruence.
    + exists g. split; [|done]. apply put_at; [done|]. by rewrite decide_False.
  - intros j f Hf. destruct (Hof j f Hf) as (f0 & Hf0 & _ & Ene & Eeq). destruct (decide (j = i)) as [->|Hne].
    + by rewrite (Eeq eq_refl).
    + rewrite (Ene Hne) in *. by apply (tables_ok_mono G G' s j f0); [apply H13|].
  - intros j f Hf. destruct (Hof j f Hf) as (f0 & Hf0 & _ & Ene & Eeq). destruct (decide (j = i)) as [->|Hne].
    + by rewrite (Eeq eq_refl).
    + rewrite (Ene Hne) in *. destruct (H14 j f0 Hf0) as [R1 R2]. split; [|done]. intros g Hgr. destruct (R1 g Hgr) as (? & ? & ?). auto.
Qed.
End inv.

End GuestInv.
