(* ===== verification/GuestGrants.v ===== *)
(** Grant tables keep the memory of guests apart: a grant is recorded under a
    reference of its own, and what is mapped was granted to the one that maps it. *)
From S2P Require Import Prelude Bitmap Frames Mmu MmuMap MmuReset MmuCreate MmuSpec MmuForest Guest GuestSlots GuestInv.

Module GuestGrants.
Import Mmu MmuMap MmuCreate MmuSpec MmuForest Guest GuestSlots GuestInv.
Implicit Types (s : avz) (d e : guest) (x : memslot_entry_t) (y : mmu) (G : list (Z * Z)) (i j : nat).

(** ** References *)
Lemma ref_max_fold l : forall r, 0 <= r -> let m := foldl (fun r g => if r <? ref g then ref g else r) r l in
  r <= m /\ (forall g, g ∈ l -> ref g <= m) /\ (m = r \/ exists g, g ∈ l /\ ref g = m).
Proof.
  induction l as [|g l IH]; intros r Hr; cbn [foldl]; [split_and!; [lia|by intros g ?%elem_of_nil|by left]|].
  destruct (Z.ltb_spec r (ref g)) as [H|H].
  - destruct (IH (ref g) ltac:(lia)) as (I1 & I2 & I3). split_and!; [lia|intros h [->|Hh]%elem_of_cons; [done|by apply I2]|].
    right. destruct I3 as [->|(h & Hh & E)]; [exists g; split; [by left|done]|exists h; split; [by right|done]].
  - destruct (IH r Hr) as (I1 & I2 & I3). split_and!; [lia|intros h [->|Hh]%elem_of_cons; [lia|by apply I2]|].
    destruct I3 as [->|(h & Hh & E)]; [by left|right; exists h; split; [by right|done]].
Qed.

Lemma ref_max_spec l : 1 <= get_ref_max l /\ (forall g, g ∈ l -> ref g <= get_ref_max l) /\ (get_ref_max l = 1 \/ exists g, g ∈ l /\ ref g = get_ref_max l).
Proof.
  unfold get_ref_max, GRANT_INVALID_REF. destruct (ref_max_fold l 0 ltac:(lia)) as (I1 & I2 & I3). cbv zeta in *. set (m := foldl _ 0 l) in *.
  destruct (Z.eqb_spec m 0) as [E|E]; [|split_and!; [lia|done|destruct I3; [lia|by right]]].
  split_and!; [lia|intros g Hg; specialize (I2 g Hg); lia|by left].
Qed.

Lemma remove_ref_sublist r l : remove_ref r l `sublist_of` l.
Proof. induction l as [|g l IH]; cbn [remove_ref]; [done|]. destruct (ref g =? r); [by apply sublist_cons|by apply sublist_skip]. Qed.

(** What is left has other references, and nothing else is lost. *)
Lemma remove_ref_spec r l : NoDup (ref <$> l) -> forall g, g ∈ remove_ref r l <-> g ∈ l /\ ref g <> r.
Proof.
  induction l as [|h l IH]; cbn [remove_ref fmap list_fmap]; intros Hnd g; [set_solver|]. apply NoDup_cons in Hnd as [Hh Hnd].
  rewrite elem_of_cons. destruct (Z.eqb_spec (ref h) r) as [E|E].
  - split; [|intros [[->|?] ?]; [done|done]]. intros Hg. split; [by right|]. intros Er. apply Hh. rewrite E, <- Er. by apply list_elem_of_fmap_2.
  - rewrite elem_of_cons, IH by done. naive_solver.
Qed.

(** ** Page numbers *)
Lemma phys_of_pfn p : 0 <= p < 2 ^ 36 -> Frames.pfn_to_phys p = p * 4096.
Proof.
  intros Hp. unfold Frames.pfn_to_phys, PAGE_SHIFT. rewrite Z.shiftl_mul_pow2 by lia. change (2 ^ 12) with 4096. rewrite u64_small; [done|].
  change (2 ^ 36) with 68719476736 in Hp. change (2 ^ 64) with 18446744073709551616. lia.
Qed.
Lemma pfn_of_phys a : Frames.phys_to_pfn a = a / 4096.
Proof. unfold Frames.phys_to_pfn, PAGE_SHIFT. by rewrite Z.shiftr_div_pow2. Qed.

Section grants.
Context (c : config) (Hlay : layout c).
Implicit Types (a : gnttab_op_t).

(** ** Granting *)
(** A frame of the granting domain's own memory. *)
Definition own_frame x (p : Z) : Prop := ipa_addr x <= p * 4096 < ipa_addr x + size x /\ 0 <= p < 2 ^ 36.
Definition granted_frame x (p : Z) : Z := (base_paddr x + (p * 4096 - ipa_addr x)) / 4096.

Lemma ipa_to_pa_ok x p : own_frame x p -> 0 <= ipa_addr x < 2 ^ 48 -> 0 <= base_paddr x -> base_paddr x + size x <= 2 ^ 48 ->
  ipa_to_pa x (Frames.pfn_to_phys p) = base_paddr x + (p * 4096 - ipa_addr x).
Proof.
  intros [Hin Hp] Hi Hb Hs. unfold ipa_to_pa. rewrite phys_of_pfn by done. unfold u64, wrap. rewrite Zminus_mod_idemp_r. rewrite Z.mod_small; [lia|].
  change (2 ^ 48) with 281474976710656 in *. change (2 ^ 64) with 18446744073709551616. lia.
Qed.

(** The slot a domain grants from. *)
Lemma grant_slot G s i d : ginv c G s -> dom_at s i d -> exists x, memslot s !! Z.to_nat (DOM_TO_MEMSLOT (domID d)) = Some x /\ 0 <= DOM_TO_MEMSLOT (domID d) /\
  A c <= base_paddr x /\ base_paddr x + size x <= B c + 256 * CH /\ base_paddr x mod 4096 = 0.
Proof.
  intros Hi Hd. pose proof (gi_id _ _ _ Hi i d Hd) as E. unfold DOM_TO_MEMSLOT, DOMID_AGENCY, DOMID_AGENCY_RT, MEMSLOT_AGENCY. rewrite E.
  destruct (gi_agency _ _ _ Hi) as (a & Ha & EA). destruct (sl_agency _ _ _ (gi_slots _ _ _ Hi)) as (a' & Ha' & EB). assert (a' = a) as -> by congruence.
  destruct Hlay as [_ _ (LA & LA2 & LB & _) _].
  destruct (decide (i <= 1)%nat) as [Hle|Hgt].
  - assert (Hb : ((Z.of_nat i =? 0) || (Z.of_nat i =? 1)) = true) by (destruct (Z.eqb_spec (Z.of_nat i) 0), (Z.eqb_spec (Z.of_nat i) 1); (done || lia)).
    rewrite Hb. exists a. split_and!; [done|lia|lia|lia|by rewrite EA].
  - assert (Hb : ((Z.of_nat i =? 0) || (Z.of_nat i =? 1)) = false) by (destruct (Z.eqb_spec (Z.of_nat i) 0), (Z.eqb_spec (Z.of_nat i) 1); (done || lia)).
    rewrite Hb, Nat2Z.id. destruct (proj1 (gi_live _ _ _ Hi i ltac:(lia))) as [x Hx]; [by exists d|].
    destruct (slot_size c Hlay G s i x Hi Hx) as (_ & _ & S3 & S4 & S5 & _). exists x. split_and!; [apply Hx|lia|lia|lia|done].
Qed.

Lemma slot_of_Z s z x : 0 <= z -> memslot s !! Z.to_nat z = Some x -> slot_of z s = Ret (x, s).
Proof. intros Hz Hx. rewrite <- (Z2Nat.id z) by done. by apply slot_of_run. Qed.

Definition new_entry i d (target p : Z) : gnttab_t := Gnttab (Z.of_nat i) target p (get_ref_max (gnttab d) + 1).

Lemma grant_ok G s i d x a : ginv c G s -> dom_at s i d -> op_cmd a = GNTTAB_grant_page ->
  memslot s !! Z.to_nat (DOM_TO_MEMSLOT (domID d)) = Some x -> own_frame x (op_pfn a) -> 0 <= ipa_addr x < 2 ^ 48 -> ipa_addr x mod 4096 = 0 ->
  get_ref_max (gnttab d) < 2 ^ 32 - 1 ->
  let p := granted_frame x (op_pfn a) in
  let s' := put i (set_gnttab (gnttab d ++ [new_entry i d (op_domid a) p]) d) s in
  do_gnttab (sys_root c) (Z.of_nat i) a s = Ret (GnttabOp (op_cmd a) (op_domid a) (op_pfn a) (get_ref_max (gnttab d) + 1), s') /\
  ginv c ((op_domid a, p) :: G) s' /\ base_paddr x <= p * 4096 /\ p * 4096 + 4096 <= base_paddr x + size x + 4095.
Proof.
  intros Hi Hd Hc Hx Hown Hipa Hal Hmax p s'. pose proof (gi_id _ _ _ Hi i d Hd) as Eid.
  destruct (grant_slot G s i d Hi Hd) as (x' & Hx' & Hn & S1 & S2 & S3). assert (x' = x) as -> by congruence.
  destruct Hlay as [L1 L2 (L3 & _) L4]. change (2 ^ 32) with 4294967296 in *.
  assert (Hpa : ipa_to_pa x (Frames.pfn_to_phys (op_pfn a)) = base_paddr x + (op_pfn a * 4096 - ipa_addr x)).
  { apply ipa_to_pa_ok; [done|done|lia|]. change (2 ^ 48) with 281474976710656. lia. }
  assert (Hrange : base_paddr x <= p * 4096 < base_paddr x + size x).
  { unfold p, granted_frame. destruct Hown as [Ho _]. split; dlia. }
  destruct (ref_max_spec (gnttab d)) as (R1 & R2 & _).
  split_and!; [| |lia|lia].
  - unfold do_gnttab. rewrite Hc. change (GNTTAB_grant_page =? GNTTAB_grant_page) with true. cbv beta iota.
    erewrite kbind_ret by (by apply guest_of_run). cbn beta. erewrite kbind_ret by (by apply slot_of_Z). cbn beta zeta. rewrite Hpa, pfn_of_phys.
    unfold new_gnttab_entry. erewrite kbind_ret; [reflexivity|]. erewrite kbind_ret by (by apply guest_of_run). cbn beta zeta.
    rewrite u32_small by (change (2 ^ 32) with 4294967296; lia). erewrite kbind_ret by (by apply upd_dom_run). cbn beta.
    unfold s', new_entry, p, granted_frame. by rewrite Eid.
  - apply (ginv_put c G _ s i _ d Hi Hd); [done|intros q Hq; by right| | | |].
    + intros t q [[= -> ->]|Hq]%elem_of_cons; [|by apply (gi_granted _ _ _ Hi t)].
      split; [lia|]. assert (HB4 : (B c + 256 * CH) mod 4096 = 0). { destruct Hlay as [_ _ (_ & _ & LB & _) _]. dlia. }
      assert (p * 4096 < B c + 256 * CH) by lia. fold p. clear -H HB4. dlia.
    + intros q. apply (gi_sub _ _ _ Hi i d q Hd).
    + eapply tables_ok_mono; [|intros q Hq; by right]. by apply (tables_ok_view G s i _ d); [apply Hi|..].
    + destruct (gi_grants _ _ _ Hi i d Hd) as [E1 E2]. split; cbn [gnttab set_gnttab].
      * intros g [Hg| ->%list_elem_of_singleton]%elem_of_app.
        -- destruct (E1 g Hg) as (? & [? ?] & ?). split_and!; [done..|by right].
        -- unfold new_entry. cbn. split_and!; [done|lia|lia|by left].
      * rewrite fmap_app. apply NoDup_app. split_and!; [done| |apply NoDup_singleton].
        intros r (g & -> & Hg)%list_elem_of_fmap Hr%list_elem_of_singleton. cbn in Hr. specialize (R2 g Hg). lia.
Qed.

(** ** Revoking *)
Lemma revoke_ok G s i d a : ginv c G s -> dom_at s i d -> op_cmd a = GNTTAB_revoke_page ->
  let s' := put i (set_gnttab (remove_ref (op_ref a) (gnttab d)) d) s in
  do_gnttab (sys_root c) (Z.of_nat i) a s = Ret (a, s') /\ ginv c G s' /\
  (forall g, g ∈ remove_ref (op_ref a) (gnttab d) <-> g ∈ gnttab d /\ ref g <> op_ref a).
Proof.
  intros Hi Hd Hc s'. destruct (gi_grants _ _ _ Hi i d Hd) as [E1 E2]. split_and!; [| |by apply remove_ref_spec].
  - unfold do_gnttab. rewrite Hc. change (GNTTAB_revoke_page =? GNTTAB_grant_page) with false. change (GNTTAB_revoke_page =? GNTTAB_revoke_page) with true. cbv beta iota.
    unfold revoke_gnttab_entry. erewrite kbind_ret by (by apply upd_dom_run). done.
  - apply (ginv_put c G _ s i _ d Hi Hd); [done|done|apply (gi_granted _ _ _ Hi)|intros q; apply (gi_sub _ _ _ Hi i d q Hd)|by apply (tables_ok_view G s i _ d); [apply Hi|..]|]. split; cbn [gnttab set_gnttab].
    + intros g Hg. apply E1. by apply (remove_ref_spec (op_ref a)) in Hg as [? _].
    + apply (sublist_NoDup _ _ E2). apply fmap_sublist, remove_ref_sublist.
Qed.

(** ** Mapping *)
Lemma slot_facts G s i d x : ginv c G s -> dom_at s i d -> memslot s !! slot_nr i = Some x ->
  A c <= base_paddr x /\ base_paddr x + size x <= B c + 256 * CH /\ base_paddr x mod 4096 = 0 /\ 0 < size x /\ size x mod CH = 0.
Proof.
  intros Hi Hd Hx. destruct (gi_agency _ _ _ Hi) as (a & Ha & EA). destruct (sl_agency _ _ _ (gi_slots _ _ _ Hi)) as (a' & Ha' & EB).
  assert (a' = a) as -> by congruence. destruct Hlay as [_ _ (LA & LA2 & LB & LC) _]. unfold slot_nr in Hx. destruct (decide (2 <= i)%nat) as [Hge|Hlt].
  - rewrite decide_False in Hx by lia. destruct (proj1 (gi_live _ _ _ Hi i Hge)) as [x' Hx']; [by exists d|]. assert (x' = x) as -> by (destruct Hx' as (_ & ? & _); congruence).
    destruct (slot_size c Hlay G s i x Hi Hx') as ((S1 & S2) & S3 & S4 & S5 & S6 & _). split_and!; (done || lia).
  - assert (a = x) as -> by (destruct (decide (i = 0%nat)); [|assert (i = 1%nat) as -> by lia]; congruence).
    split_and!; [lia|lia|by rewrite EA|lia|]. by replace (size x) with (B c - A c) by lia.
Qed.

Lemma roots_dom s i d r : dom_at s i d -> pagetable d = Some r -> r ∈ roots c s.
Proof. intros Hd Hr. apply elem_of_roots. right. eauto. Qed.

(** The tables of domain [i] change, within what it may reach. *)
Lemma ginv_remap G s i d r x ipa pa sz fl y : ginv c G s -> dom_at s i d -> pagetable d = Some r ->
  memslot s !! slot_nr i = Some x -> guest_ok G (tables (mm s)) i x d r ->
  remapped (roots c s) (mm s) y r ipa pa sz fl -> guest_ok G (tables y) i x d r -> ginv c G (with_mm y s).
Proof.
  intros Hi Hd Hr Hx Hg Hm Hg'. destruct (gi_root _ _ _ Hi i d r Hd Hr) as [Hne Huniq].
  assert (Hsys : sys_root c ∈ roots c s) by (apply elem_of_roots; by left).
  apply (ginv_mmu c G s y Hi); [apply Hm| |apply Hm| |].
  - destruct (re_heap _ _ _ _ _ _ _ _ Hm) as (n & _ & ->). intros t Ht. by apply (subseteq_drop n).
  - intros j z Hj Hz. assert (j < 7)%nat by (apply lookup_lt_Some in Hz; by rewrite (sl_len _ _ _ (gi_slots _ _ _ Hi)) in Hz).
    apply (sys_ok_same c (tables (mm s))); [by apply Hi|done| |].
    + intros Hb. destruct (slot_size c Hlay G s j z Hi) as ((S1 & S2) & _); [by split|]. change (2 ^ 32) with 4294967296. lia.
    + intros k w Hk Hw. apply (re_other _ _ _ _ _ _ _ _ Hm (sys_root c) Hsys); [by apply not_eq_sym|done|].
      destruct (va_low j ltac:(lia)) as (V1 & V2 & _). rewrite va_step in Hw. unfold low. lia.
  - intros j e He. unfold tables_ok. destruct (pagetable e) as [r'|] eqn:Er; [|pose proof (gi_tables _ _ _ Hi j e He) as Ht; unfold tables_ok in Ht; by rewrite Er in Ht].
    cbn [mm memslot with_mm]. destruct (decide (j = i)) as [->|Hji].
    + assert (e = d) as -> by (unfold dom_at in *; congruence). assert (r' = r) as -> by congruence. eauto.
    + pose proof (gi_tables _ _ _ Hi j e He) as Ht. unfold tables_ok in Ht. rewrite Er in Ht. destruct Ht as (z & Hz & Hgz). exists z. split; [done|].
      apply (guest_ok_same G G (tables (mm s))); [done|done|]. apply (re_other _ _ _ _ _ _ _ _ Hm r'); [by apply (roots_dom s j e)|].
      intros ->. by destruct Hji; symmetry; apply (Huniq j e).
Qed.

(** The [k]-th page for grants. *)
Definition win_pfn x (k : nat) : Z := (ipa_addr x + size x) / 4096 + 2 + Z.of_nat k.

Lemma map_page_ok G s i d r x k p : ginv c G s -> dom_at s i d -> pagetable d = Some r -> memslot s !! slot_nr i = Some x ->
  guest_ok G (tables (mm s)) i x d r -> (k < NR_GRANT_PFN)%nat -> (Z.of_nat i, p) ∈ G -> (3 <= length (heap (mm s)))%nat ->
  let f := win_pfn x k in
  exists y, map_grant (sys_root c) (Z.of_nat i) (Frames.pfn_to_phys f) (Frames.pfn_to_phys p) s = Ret (tt, with_mm y s) /\
    ginv c G (with_mm y s) /\ guest_ok G (tables y) i x d r /\ Frames.pfn_to_phys f = f * 4096 /\ (length (heap (mm s)) <= length (heap y) + 3)%nat /\
    (forall w, low w -> translate r (tables y) w =
       if decide (f * 4096 <= w < f * 4096 + 4096) then Some (p * 4096 + (w - f * 4096), leaf_attrs (Attr true true S2) false) else translate r (tables (mm s)) w) /\
    (forall r', r' ∈ roots c s -> r' <> r -> same_tree r' (mm s) y).
Proof.
  intros Hi Hd Hr Hx Hg Hk Hp Hheap f. destruct (slot_facts G s i d x Hi Hd Hx) as (F1 & F2 & F3 & F4 & F5).
  pose proof Hg as [(I1 & I2 & I3 & I4 & I5) G2 G3 G4 G5]. unfold NR_GRANT_PFN in Hk. change (2 ^ 48) with 281474976710656 in I4.
  assert (Ef : f * 4096 = ipa_addr x + size x + 8192 + Z.of_nat k * 4096) by (unfold f, win_pfn; dlia).
  destruct (gi_granted _ _ _ Hi _ _ Hp) as [P1 P2]. destruct Hlay as [L1 L2 (L3 & _) L4]. change (2 ^ 32) with 4294967296 in L4.
  assert (Epf : Frames.pfn_to_phys f = f * 4096) by (apply phys_of_pfn; change (2 ^ 36) with 68719476736; lia).
  assert (Epp : Frames.pfn_to_phys p = p * 4096) by (apply phys_of_pfn; change (2 ^ 36) with 68719476736; lia).
  destruct (forest_map (roots c s) (mm s) (gi_forest _ _ _ Hi) (sys_root c) (Some r) (f * 4096) (p * 4096) 4096 (Attr true true S2)) as (y & E & Hm);
    [by apply (roots_dom s i d)|lia|lia|apply Z_mod_mult|done|apply Z_mod_mult|change (2 ^ 48) with 281474976710656; lia|lia|change (2 ^ 48) with 281474976710656; lia| | |].
  { intros w Hw. apply G5. unfold window. lia. }
  { rewrite chunk_page; [lia|lia|apply Z_mod_mult]. }
  change (remapped (roots c s) (mm s) y r (f * 4096) (p * 4096) 4096 (Attr true true S2)) in Hm. exists y. assert (Hg' : guest_ok G (tables y) i x d r).
  { split; [done| | |done|].
    - intros w pa at_ Hw. rewrite (re_trans _ _ _ _ _ _ _ _ Hm w Hw). case_decide as Hin; [|by apply G2]. intros [= <- _].
      unfold allowed. do 4 right. by replace ((p * 4096 + (w - f * 4096)) / 4096) with p by dlia.
    - intros w Hw. rewrite (re_trans _ _ _ _ _ _ _ _ Hm w) by (unfold low; change (2 ^ 48) with 281474976710656; lia). rewrite decide_False by lia. by apply G3.
    - intros w Hw. destruct (decide (f * 4096 <= w < f * 4096 + 4096)) as [Hin|Hout]; [by eapply page_noblock|].
      apply (re_noblock _ _ _ _ _ _ _ _ Hm); [unfold window, low in *; change (2 ^ 48) with 281474976710656; lia|done|by apply G5]. }
  split_and!; [|by apply (ginv_remap G s i d r x _ _ _ _ _ Hi Hd Hr Hx Hg Hm)|done|done| | |apply (re_other _ _ _ _ _ _ _ _ Hm)].
  - unfold map_grant. erewrite kbind_ret by (by apply guest_of_run). cbn beta. rewrite Hr, Epf, Epp. change PAGE_SIZE with 4096. by apply guest_mmu_ret.
  - destruct (re_heap _ _ _ _ _ _ _ _ Hm) as (n & Hn & ->). rewrite chunk_page in Hn; [|lia|apply Z_mod_mult]. rewrite length_drop. lia.
  - intros w Hw. rewrite (re_trans _ _ _ _ _ _ _ _ Hm w Hw). done.
Qed.

(** A page of the window is taken. *)
Definition take_pfn (k : nat) (g : grant_pfn_t) d : guest := set_grant_pfn (<[k := GrantPfn (gp_pfn g) false]> (grant_pfn d)) d.

Lemma guest_ok_take G m i x d r k g : guest_ok G m i x d r -> grant_pfn d !! k = Some g -> guest_ok G m i x (take_pfn k g d) r.
Proof.
  intros [G1 G2 G3 G4 G5] Hk. split; [done|done|done| |done]. intros j h Hj. unfold take_pfn in Hj. cbn [grant_pfn set_grant_pfn] in Hj.
  destruct (decide (j = k)) as [->|Hne]; [|rewrite list_lookup_insert_ne in Hj by done; by apply G4].
  rewrite list_lookup_insert_eq in Hj by (by eapply lookup_lt_Some). injection Hj as <-. cbn. by apply G4.
Qed.

Lemma alloc_pfn_ok G s i d r x k g : ginv c G s -> dom_at s i d -> pagetable d = Some r -> memslot s !! slot_nr i = Some x ->
  guest_ok G (tables (mm s)) i x d r -> list_find (fun g => gp_free g = true) (grant_pfn d) = Some (k, g) ->
  allocate_grant_pfn (Z.of_nat i) s = Ret (win_pfn x k, put i (take_pfn k g d) s) /\ ginv c G (put i (take_pfn k g d) s) /\ (k < NR_GRANT_PFN)%nat.
Proof.
  intros Hi Hd Hr Hx Hg Hf. pose proof (list_find_Some (fun g => gp_free g = true) (grant_pfn d) k g) as [Hfs _]. destruct (Hfs Hf) as (Hk & _ & _).
  destruct (go_pfn _ _ _ _ _ _ Hg k g Hk) as [Hk32 Ep]. split_and!; [| |done].
  - unfold allocate_grant_pfn. erewrite kbind_ret by (by apply guest_of_run). cbn beta. rewrite Hf. erewrite kbind_ret by (by apply upd_dom_run).
    unfold win_pfn. by rewrite <- Ep.
  - apply (ginv_put c G G s i _ d Hi Hd); [done|done|apply (gi_granted _ _ _ Hi)|intros q; apply (gi_sub _ _ _ Hi i d q Hd)| |].
    + unfold tables_ok. cbn [pagetable take_pfn set_grant_pfn]. rewrite Hr. exists x. split; [done|]. by apply guest_ok_take.
    + destruct (gi_grants _ _ _ Hi i d Hd) as [E1 E2]. by split.
Qed.

(** A granted page is mapped: at the first free page of the window. *)
Record page_mapped G s s' i d r x (k : nat) (g : grant_pfn_t) (p : Z) : Prop := {
  pm_inv : ginv c G s';
  pm_dom : dom_at s' i (take_pfn k g d);
  pm_others : forall j, j <> i -> domains s' !! j = domains s !! j;
  pm_slots : memslot s' = memslot s /\ memchunk_bitmap s' = memchunk_bitmap s;
  pm_win : (k < NR_GRANT_PFN)%nat;
  pm_heap : (length (heap (mm s)) <= length (heap (mm s')) + 3)%nat;
  pm_trans : forall w, low w -> translate r (tables (mm s')) w =
    if decide (win_pfn x k * 4096 <= w < win_pfn x k * 4096 + 4096) then Some (p * 4096 + (w - win_pfn x k * 4096), leaf_attrs (Attr true true S2) false)
    else translate r (tables (mm s)) w;
  pm_same : forall r', r' ∈ roots c s -> r' <> r -> same_tree r' (mm s) (mm s')
}.

Lemma alloc_map_ok G s i d r x k g p : ginv c G s -> dom_at s i d -> pagetable d = Some r -> memslot s !! slot_nr i = Some x ->
  guest_ok G (tables (mm s)) i x d r -> list_find (fun g => gp_free g = true) (grant_pfn d) = Some (k, g) -> (Z.of_nat i, p) ∈ G -> (3 <= length (heap (mm s)))%nat ->
  exists s', (f ← allocate_grant_pfn (Z.of_nat i); map_grant (sys_root c) (Z.of_nat i) (Frames.pfn_to_phys f) (Frames.pfn_to_phys p);; mret f) s = Ret (win_pfn x k, s') /\
    Frames.pfn_to_phys (win_pfn x k) = win_pfn x k * 4096 /\ page_mapped G s s' i d r x k g p.
Proof.
  intros Hi Hd Hr Hx Hg Hf Hp Hh. destruct (alloc_pfn_ok G s i d r x k g Hi Hd Hr Hx Hg Hf) as (E1 & Hi1 & Hk). set (s1 := put i (take_pfn k g d) s) in *.
  pose proof (lookup_lt_Some _ _ _ Hd) as Hlt. assert (Hd1 : dom_at s1 i (take_pfn k g d)) by (by apply put_eq).
  pose proof (list_find_Some (fun g => gp_free g = true) (grant_pfn d) k g) as [Hfs _]. destruct (Hfs Hf) as (Hkg & _ & _).
  destruct (map_page_ok G s1 i (take_pfn k g d) r x k p Hi1 Hd1 Hr Hx (guest_ok_take _ _ _ _ _ _ _ _ Hg Hkg) Hk Hp Hh) as (y & E2 & Hi2 & _ & E3 & Hh2 & Htr & Hsame).
  exists (with_mm y s1). split_and!; [|done|].
  - erewrite kbind_ret by exact E1. cbn beta. erewrite kbind_ret by exact E2. done.
  - split; try done.
    + intros j Hj. unfold s1, put. cbn [domains with_mm with_domains]. by rewrite list_lookup_insert_ne.
    + intros r' Hr'. apply Hsame. unfold s1. by rewrite (roots_put c s i _ d).
Qed.

Lemma find_entry s i j d o ref_ (e : gnttab_t) : dom_at s i d -> dom_at s j o ->
  pick_granted_entry (Z.of_nat i) ref_ (Z.of_nat j) s = Ret (Some e, s) ->
  e ∈ gnttab o /\ ref e = ref_ /\ origin_domid e = Z.of_nat j /\ target_domid e = domID d.
Proof.
  intros Hd Ho. unfold pick_granted_entry. erewrite kbind_ret by (by apply guest_of_run). cbn beta. erewrite kbind_ret by (by apply guest_of_run). cbn beta.
  destruct (list_find _ (gnttab o)) as [[k e']|] eqn:E; [|done]. cbn. intros [= ->]. apply list_find_Some in E as (Hl & (? & ? & ?) & _).
  split_and!; [by apply (list_elem_of_lookup_2 _ k)|done..].
Qed.

Lemma map_ok G s i j d o r x k g (e : gnttab_t) a : ginv c G s -> dom_at s i d -> pagetable d = Some r -> memslot s !! slot_nr i = Some x -> dom_at s j o ->
  op_cmd a = GNTTAB_map_page -> op_domid a = Z.of_nat j -> pick_granted_entry (Z.of_nat i) (op_ref a) (op_domid a) s = Ret (Some e, s) ->
  list_find (fun g => gp_free g = true) (grant_pfn d) = Some (k, g) -> (3 <= length (heap (mm s)))%nat ->
  exists s', do_gnttab (sys_root c) (Z.of_nat i) a s = Ret (GnttabOp (op_cmd a) (op_domid a) (win_pfn x k) (op_ref a), s') /\
    page_mapped G s s' i d r x k g (pfn e) /\ e ∈ gnttab o /\ ref e = op_ref a /\ target_domid e = Z.of_nat i.
Proof.
  intros Hi Hd Hr Hx Ho Hc Hj Hpick Hf Hh. pose proof (gi_tables _ _ _ Hi i d Hd) as Ht. unfold tables_ok in Ht. rewrite Hr in Ht.
  destruct Ht as (x' & Hx' & Hg). assert (x' = x) as -> by congruence.
  destruct (find_entry s i j d o (op_ref a) e Hd Ho) as (He & Er & Eo & Et); [by rewrite <- Hj|]. rewrite (gi_id _ _ _ Hi i d Hd) in Et.
  destruct (gr_entry _ _ _ (gi_grants _ _ _ Hi j o Ho) e He) as (_ & _ & HG). rewrite Et in HG.
  destruct (alloc_map_ok G s i d r x k g (pfn e) Hi Hd Hr Hx Hg Hf HG Hh) as (s' & E & Ep & Hm). exists s'. split_and!; [|done..].
  unfold do_gnttab. rewrite Hc. change (GNTTAB_map_page =? GNTTAB_grant_page) with false. change (GNTTAB_map_page =? GNTTAB_revoke_page) with false.
  change (GNTTAB_map_page =? GNTTAB_map_page) with true. cbv beta iota. erewrite kbind_ret by exact Hpick. cbv beta iota.
  apply kbind_inv in E as (f & s1 & E1 & E). apply kbind_inv in E as (u & s2 & E2 & E). injection E as -> ->.
  erewrite kbind_ret by exact E1. cbn beta zeta. erewrite kbind_ret by exact E2. cbn beta. rewrite Ep, pfn_of_phys, Z.div_mul by done. done.
Qed.
End grants.

End GuestGrants.
