(* ===== verification/GuestSetup.v ===== *)
(** Building the stage-2 tables of a guest ([__setup_dom_pgtable]), and guests that
    come and go. *)
From S2P Require Import Prelude Bitmap Frames Mmu MmuMap MmuReset MmuCreate MmuSpec MmuForest Guest GuestSlots GuestInv GuestGrants.

Module GuestSetup.
Import Mmu MmuMap MmuCreate MmuSpec MmuForest Guest GuestSlots GuestInv GuestGrants.
Implicit Types (s : avz) (d e : guest) (x : memslot_entry_t) (G : list (Z * Z)) (i j : nat).

Lemma align_2M a : 0 <= a -> a mod CH = 0 -> a + CH <= 2 ^ 64 -> ALIGN_UP a SZ_2M = a.
Proof.
  intros H0 Hm Hb. unfold ALIGN_UP, SZ_2M. rewrite u64_small by lia. rewrite align_down; [|lia|unfold in_word; lia].
  change (2 ^ 21) with CH. dlia.
Qed.

(** ** A tree that is built up *)
(** [y] is [x] with a new tree [t] of translation [f], at the price of [n] pages. *)
Record built (R : gset Z) (x : mmu) (t : Z) (y : mmu) (n : nat) (f : Z -> option (Z * Z)) : Prop := {
  bu_forest : forest ({[t]} ∪ R) y;
  bu_fresh : t ∉ R;
  bu_other : forall r, r ∈ R -> same_tree r x y;
  bu_trans : forall w, low w -> translate t (tables y) w = f w;
  bu_heap : (length (heap x) <= length (heap y) + n)%nat /\ forall u, u ∈ heap y -> u ∈ heap x;
  bu_dom : forall u, is_Some (tables y !! u) -> u ∈ heap x \/ is_Some (tables x !! u)
}.

Lemma built_new R (x : mmu) t l : forest R x -> heap x = t :: l -> exists y, new_root_pgtable x = Ret (t, y) /\ built R x t y 1 (fun _ => None).
Proof.
  intros Hf Hh. destruct (forest_new R x Hf t l Hh) as (y & E & H1 & H2 & H3 & H4 & H5 & H6). exists y. split; [done|]. split; try done.
  - rewrite Hh, H3. split; [cbn [length]; lia|]. intros u Hu. by right.
  - intros u Hu. destruct (H6 u Hu) as [->|?]; [left; rewrite Hh; by left|by right].
Qed.

Lemma built_map R (x : mmu) t y n f sys_root virt phys size fl : built R x t y n f ->
  0 <= virt -> 0 < size -> virt mod 4096 = 0 -> size mod 4096 = 0 -> phys mod 4096 = 0 -> virt + size <= 2 ^ 48 -> 0 <= phys -> phys + size <= 2 ^ 48 ->
  (forall w, virt <= w < virt + size -> f w = None) -> (3 * chunks (2 ^ 21) virt (virt + size) <= length (heap y))%nat ->
  exists y', __create_mapping sys_root (Some t) virt phys size fl y = Ret (tt, y') /\
    built R x t y' (n + 3 * chunks (2 ^ 21) virt (virt + size))
      (fun w => if decide (virt <= w < virt + size) then Some (phys + (w - virt), leaf_attrs fl (negb (phys =? virt))) else f w).
Proof.
  intros [B1 B2 B3 B4 [B5 B5'] B6] Hv Hs Hva Hsa Hpa He Hp Hpe Hn Hh.
  destruct (forest_map ({[t]} ∪ R) y B1 sys_root (Some t) virt phys size fl) as (y' & E & Hm); try done; [set_solver| |].
  { intros w Hw. apply unmapped_noblock. change (translate t (tables y) w = None). rewrite B4 by (unfold low; lia). by apply Hn. }
  change (remapped ({[t]} ∪ R) y y' t virt phys size fl) in Hm. exists y'. split; [done|]. destruct (re_heap _ _ _ _ _ _ _ _ Hm) as (k & Hk & Ek). split.
  - apply Hm.
  - done.
  - intros r Hr. apply (same_tree_trans r x y y'); [by apply B3|]. apply (re_other _ _ _ _ _ _ _ _ Hm); [set_solver|]. by intros ->.
  - intros w Hw. rewrite (re_trans _ _ _ _ _ _ _ _ Hm w Hw), B4 by done. done.
  - rewrite Ek, length_drop. split; [lia|]. intros u Hu. apply B5'. by apply (subseteq_drop k).
  - intros u Hu. destruct (re_dom _ _ _ _ _ _ _ _ Hm u Hu) as [Hin|Hin]; [left; by apply B5'|by apply B6].
Qed.

Lemma built_ext R (x : mmu) t y n n' f g : built R x t y n f -> (n <= n')%nat -> (forall w, low w -> f w = g w) -> built R x t y n' g.
Proof.
  intros [B1 B2 B3 B4 [B5 B5'] B6] Hn He. split; try done.
  - intros w Hw. rewrite <- He by done. by apply B4.
  - split; [lia|done].
Qed.

(** ** The tables of a guest *)
(** What its tables translate after [__setup_dom_pgtable]. *)
Definition page_at (v p w : Z) (o : option (Z * Z)) : option (Z * Z) :=
  if decide (v <= w < v + 4096) then Some (p + (w - v), leaf_attrs (Attr true true S2) false) else o.
Definition dev_at i (w : Z) (o : option (Z * Z)) : option (Z * Z) :=
  foldr (fun m o => if decide (m.1.1 <= w < m.1.1 + m.2) then Some (m.1.2 + (w - m.1.1), leaf_attrs (Attr true true S2) false) else o) o (ipamap_of i).
Definition stage2 i x d (w : Z) : option (Z * Z) :=
  from_option (fun p => page_at (ipa_addr x + size x + 4096) p w) (fun o => o) (subdomain_shared d)
    (page_at (ipa_addr x + size x) (avz_shared d) w
       (dev_at i w
          (if decide (ipa_addr x <= w < ipa_addr x + size x) then Some (base_paddr x + (w - ipa_addr x), leaf_attrs (Attr true false S2) false) else None))).

(** Enough pages for the tables of a slot. *)
Definition setup_need x : nat := (3 * chunks (2 ^ 21) (ipa_addr x) (ipa_addr x + size x) + 100)%nat.

Definition page_ok (p : Z) : Prop := 0 <= p /\ p mod 4096 = 0 /\ p + 4096 <= 2 ^ 48.
Definition grant_window x : list grant_pfn_t := (fun k => GrantPfn (win_pfn x k) true) <$> seq 0 NR_GRANT_PFN.
(** The domain after it. *)
Definition set_up x (t : Z) d : guest :=
  let d1 := set_pagetable (Some t) d in
  let d2 := match subdomain_shared d with None => d1 | Some _ => set_subdomain_paddr (ipa_addr x + size x + 4096) d1 end in
  set_grant_pfn (grant_window x) d2.

Section setup.
Context (c : config) (Hlay : layout c).

Lemma map_S2_run s t ipa pa sz nc y : __create_mapping (sys_root c) (Some t) ipa pa sz (Attr true nc S2) (mm s) = Ret (tt, y) ->
  map_S2 (sys_root c) t ipa pa sz nc s = Ret (tt, with_mm y s).
Proof. intros E. by apply guest_mmu_ret. Qed.

Lemma dev_chunks i ipa ph sz : (ipa, ph, sz) ∈ ipamap_of i -> 0 <= ipa /\ 0 < sz /\ ipa mod 4096 = 0 /\ sz mod 4096 = 0 /\ ph mod 4096 = 0 /\ 0 <= ph /\
  ipa + sz <= 2 ^ 48 /\ ph + sz <= 184549376 /\ (3 * chunks (2 ^ 21) ipa (ipa + sz) <= 75)%nat.
Proof.
  unfold ipamap_of. destruct (decide _); intros [= -> -> ->]%list_elem_of_singleton; apply (bool_decide_unpack _); by vm_compute.
Qed.

Lemma put_put s i d e : put i d (put i e s) = put i d s.
Proof. unfold put, with_domains. cbn [domains mm memslot memchunk_bitmap]. by rewrite list_insert_insert_eq. Qed.

Lemma with_mm_put s i d y z : with_mm z (put i d (with_mm y s)) = put i d (with_mm z s).
Proof. done. Qed.

(** [__setup_dom_pgtable], as far as the tables go. *)
Lemma setup_run R s i d x : forest R (mm s) -> dom_at s i d -> domID d = Z.of_nat i -> memslot s !! slot_nr i = Some x -> ipa_ok i x ->
  size x mod CH = 0 -> base_paddr x mod 4096 = 0 -> 0 <= base_paddr x -> base_paddr x + size x <= 2 ^ 48 -> page_ok (avz_shared d) ->
  (forall p, subdomain_shared d = Some p -> page_ok p) -> (setup_need x <= length (heap (mm s)))%nat ->
  exists t y n, __setup_dom_pgtable (sys_root c) (Z.of_nat i) (base_paddr x) (size x) s = Ret (tt, put i (set_up x t d) (with_mm y s)) /\
    (n <= setup_need x - 15)%nat /\ built R (mm s) t y n (stage2 i x d).
Proof.
  intros Hf Hd Hid Hx (I1 & I2 & I3 & I4 & I5) Hsz Hb1 Hb2 Hb3 (P1 & P2 & P3) Hsub Hneed. change (2 ^ 48) with 281474976710656 in *.
  pose proof (lookup_lt_Some _ _ _ Hd) as Hlt. unfold setup_need in *. set (q := (3 * chunks (2 ^ 21) (ipa_addr x) (ipa_addr x + size x))%nat) in *.
  assert (Hmap : exists ipa ph sz, ipamap_of i = [(ipa, ph, sz)]) by (unfold ipamap_of, linux_ipamap, guest_ipamap; destruct (decide _); eauto).
  destruct Hmap as (dipa & dph & dsz & Emap). destruct (dev_chunks i dipa dph dsz) as (D1 & D2 & D3 & D4 & D5 & D6 & D7 & D8 & D9); [rewrite Emap; by left|].
  specialize (I5 dipa dph dsz ltac:(rewrite Emap; by left)). change (2 ^ 48) with 281474976710656 in *.
  destruct (heap (mm s)) as [|t l] eqn:Eh; [cbn [length] in Hneed; lia|]. rewrite <- Eh in Hneed.
  destruct (built_new R (mm s) t l Hf Eh) as (y0 & E0 & K0). exists t.
  destruct (built_map _ _ _ _ _ _ (sys_root c) (ipa_addr x) (base_paddr x) (size x) (Attr true false S2) K0) as (y1 & E1 & K1);
    [lia|lia|done|dlia|done|change (2 ^ 48) with 281474976710656; lia|lia|change (2 ^ 48) with 281474976710656; lia|done|fold q; destruct K0 as [_ _ _ _ [? _] _]; lia|].
  destruct (built_map _ _ _ _ _ _ (sys_root c) dipa dph dsz (Attr true true S2) K1) as (y2 & E2 & K2);
    [lia|lia|done|done|done|change (2 ^ 48) with 281474976710656; lia|lia|change (2 ^ 48) with 281474976710656; lia|
     intros w Hw; cbn beta; rewrite decide_False by lia; done|fold q in K1; destruct K1 as [_ _ _ _ [? _] _]; lia|].
  assert (C1 : chunks (2 ^ 21) (ipa_addr x + size x) (ipa_addr x + size x + 4096) = 1%nat) by (apply chunk_page; [lia|dlia]).
  destruct (built_map _ _ _ _ _ _ (sys_root c) (ipa_addr x + size x) (avz_shared d) 4096 (Attr true true S2) K2) as (y3 & E3 & K3);
    [lia|lia|dlia|done|done|change (2 ^ 48) with 281474976710656; lia|lia|change (2 ^ 48) with 281474976710656; lia|
     intros w Hw; cbn beta; rewrite !decide_False by lia; done|fold q in K2; rewrite C1; destruct K2 as [_ _ _ _ [? _] _]; lia|].
  fold q in K1, K2, K3. rewrite C1 in K3.
  assert (Hslot : (if domID d =? DOMID_AGENCY then MEMSLOT_AGENCY else domID d) = Z.of_nat (slot_nr i)).
  { rewrite Hid. unfold DOMID_AGENCY, MEMSLOT_AGENCY, slot_nr. destruct (Z.eqb_spec (Z.of_nat i) 0), (decide (i = 0%nat)); (done || lia). }
  assert (Hipamap : (if domID d =? DOMID_AGENCY then linux_ipamap else guest_ipamap) = [(dipa, dph, dsz)]).
  { rewrite <- Emap, Hid. unfold DOMID_AGENCY, ipamap_of. destruct (Z.eqb_spec (Z.of_nat i) 0), (decide (i = 0%nat)); (done || lia). }
  unfold __setup_dom_pgtable. erewrite kbind_ret by (by apply guest_of_run). cbn beta zeta. rewrite Hslot, Hipamap.
  rewrite align_2M by (done || lia || (change (2 ^ 64) with 18446744073709551616; lia)).
  erewrite kbind_ret by (by apply guest_mmu_ret). cbn beta. erewrite kbind_ret by (by apply (slot_of_run (with_mm y0 s))). cbn beta.
  rewrite !u64_small by (change PAGE_SIZE with 4096; change (2 ^ 64) with 18446744073709551616; lia). change PAGE_SIZE with 4096.
  erewrite kbind_ret by (by apply (upd_dom_run (with_mm y0 s) i d)). cbn beta.
  erewrite kbind_ret by (by apply map_S2_run). cbn beta. rewrite with_mm_put. cbn [do_ipamap].
  erewrite kbind_ret by (erewrite kbind_ret by (by apply map_S2_run); reflexivity). cbn beta. rewrite with_mm_put.
  erewrite kbind_ret by (by apply map_S2_run). cbn beta. rewrite with_mm_put.
  assert (Hwin : ((fun k => GrantPfn (u64 (Frames.phys_to_pfn (ipa_addr x + size x + 2 * 4096) + Z.of_nat k)) true) <$> seq 0 NR_GRANT_PFN) = grant_window x).
  { apply list_fmap_ext. intros n k Hk%lookup_seq. unfold NR_GRANT_PFN in Hk. rewrite pfn_of_phys. unfold win_pfn. f_equal.
    rewrite u64_small; [dlia|]. change (2 ^ 64) with 18446744073709551616. dlia. }
  rewrite Hwin. destruct (subdomain_shared d) as [p|] eqn:Esub.
  - destruct (Hsub p eq_refl) as (Q1 & Q2 & Q3). assert (C2 : chunks (2 ^ 21) (ipa_addr x + size x + 4096) (ipa_addr x + size x + 4096 + 4096) = 1%nat) by (apply chunk_page; [lia|dlia]).
    destruct (built_map _ _ _ _ _ _ (sys_root c) (ipa_addr x + size x + 4096) p 4096 (Attr true true S2) K3) as (y4 & E4 & K4);
      [lia|lia|dlia|done|done|change (2 ^ 48) with 281474976710656; lia|lia|change (2 ^ 48) with 281474976710656 in *; lia|
       intros w Hw; cbn beta; rewrite !decide_False by lia; done|rewrite C2; destruct K3 as [_ _ _ _ [? _] _]; lia|]. rewrite C2 in K4.
    eexists y4, _. split_and!; [| |eapply (built_ext _ _ _ _ _ _ _ _ K4); [reflexivity|]].
    + erewrite kbind_ret; [|erewrite kbind_ret by (by apply map_S2_run); cbn beta; apply upd_dom_run; by apply (put_eq (with_mm y4 s))]. cbn beta.
      rewrite with_mm_put, put_put. erewrite upd_dom_run by (by apply (put_eq (with_mm y4 s))). rewrite put_put. unfold set_up. by rewrite Esub.
    + lia.
    + intros w Hw. unfold stage2, page_at, dev_at. rewrite Esub, Emap. cbn [from_option foldr fst snd]. repeat case_decide; done.
  - eexists y3, _. split_and!; [| |eapply (built_ext _ _ _ _ _ _ _ _ K3); [reflexivity|]].
    + kstep. erewrite upd_dom_run by (by apply (put_eq (with_mm y3 s))). rewrite put_put. unfold set_up. by rewrite Esub.
    + lia.
    + intros w Hw. unfold stage2, page_at, dev_at. rewrite Esub, Emap. cbn [from_option foldr fst snd]. repeat case_decide; done.
Qed.

Lemma dev_at_cases i w o pa at_ : dev_at i w o = Some (pa, at_) -> (exists ipa ph sz, (ipa, ph, sz) ∈ ipamap_of i /\ ipa <= w < ipa + sz /\ ph <= pa < ph + sz) \/ o = Some (pa, at_).
Proof.
  unfold dev_at. induction (ipamap_of i) as [|[[ipa ph] sz] l IH]; cbn [foldr fst snd]; [by right|]. case_decide as E.
  - intros [= <- _]. left. exists ipa, ph, sz. split; [by left|]. lia.
  - intros H. destruct (IH H) as [(a & b & n & Hin & Hr)|?]; [left; exists a, b, n; split; [by right|done]|by right].
Qed.

Lemma dev_at_none i w o : (forall ipa ph sz, (ipa, ph, sz) ∈ ipamap_of i -> ~ (ipa <= w < ipa + sz)) -> dev_at i w o = o.
Proof.
  unfold dev_at. induction (ipamap_of i) as [|[[ipa ph] sz] l IH]; cbn [foldr fst snd]; intros Hn; [done|]. rewrite decide_False by (apply (Hn ipa ph sz); by left).
  apply IH. intros a b n Hin. apply (Hn a b n). by right.
Qed.

Lemma stage2_own i x d w : ipa_ok i x -> ipa_addr x <= w < ipa_addr x + size x ->
  stage2 i x d w = Some (base_paddr x + (w - ipa_addr x), leaf_attrs (Attr true false S2) false).
Proof.
  intros (I1 & I2 & I3 & I4 & I5) Hw. assert (E : forall v p o, ipa_addr x + size x <= v -> page_at v p w o = o) by (intros v p o Hv; unfold page_at; by rewrite decide_False by lia).
  unfold stage2. destruct (subdomain_shared d); cbn [from_option]; rewrite !E by lia; (rewrite dev_at_none; [by rewrite decide_True|]);
    intros ipa ph sz Hin; destruct (I5 ipa ph sz Hin); lia.
Qed.

Lemma stage2_window i x d w : ipa_ok i x -> window x w -> stage2 i x d w = None.
Proof.
  intros (I1 & I2 & I3 & I4 & I5) Hw. unfold window in Hw.
  assert (E : forall v p o, v + 4096 <= ipa_addr x + size x + 8192 -> page_at v p w o = o) by (intros v p o Hv; unfold page_at; by rewrite decide_False by lia).
  unfold stage2. destruct (subdomain_shared d); cbn [from_option]; rewrite !E by lia; (rewrite dev_at_none; [by rewrite decide_False by lia|]);
    intros ipa ph sz Hin; destruct (I5 ipa ph sz Hin); lia.
Qed.

Lemma page_at_cases v p w o pa at_ : page_at v p w o = Some (pa, at_) -> p <= pa < p + 4096 \/ o = Some (pa, at_).
Proof. unfold page_at. case_decide; [|by right]. intros [= <- _]. left. lia. Qed.

Lemma stage2_allowed G i x d w pa at_ : stage2 i x d w = Some (pa, at_) -> allowed G i x d pa.
Proof.
  unfold stage2, allowed. intros H. assert (H' : (exists p, subdomain_shared d = Some p /\ p <= pa < p + 4096) \/ page_at (ipa_addr x + size x) (avz_shared d) w
       (dev_at i w (if decide (ipa_addr x <= w < ipa_addr x + size x) then Some (base_paddr x + (w - ipa_addr x), leaf_attrs (Attr true false S2) false) else None)) = Some (pa, at_)).
  { destruct (subdomain_shared d) as [p|]; cbn [from_option] in H; [|by right]. apply page_at_cases in H as [?|?]; [left; eauto|by right]. }
  destruct H' as [?|H']; [auto|]. apply page_at_cases in H' as [?|H']; [auto|]. apply dev_at_cases in H' as [(ipa & ph & sz & Hin & _ & Hr)|H']; [right; right; right; left; eauto|].
  destruct (decide (ipa_addr x <= w < ipa_addr x + size x)); [|done]. injection H' as <- _. left. lia.
Qed.

Lemma setup_guest_ok G i x d t y n R z : built R z t y n (stage2 i x d) -> ipa_ok i x -> guest_ok G (tables y) i x (set_up x t d) t.
Proof.
  intros Hb Hipa. pose proof Hipa as (I1 & I2 & I3 & I4 & I5).
  assert (Hv : avz_shared (set_up x t d) = avz_shared d /\ subdomain_shared (set_up x t d) = subdomain_shared d /\ grant_pfn (set_up x t d) = grant_window x) by (unfold set_up; destruct (subdomain_shared d) eqn:E; by cbn; rewrite ?E).
  destruct Hv as (V1 & V2 & V3). split; [done| | | |].
  - intros w pa at_ Hw. rewrite (bu_trans _ _ _ _ _ _ Hb w Hw). intros Hs. unfold allowed. rewrite V1, V2. by apply (stage2_allowed G i x d w pa at_).
  - intros w Hw. rewrite (bu_trans _ _ _ _ _ _ Hb w) by (unfold low; lia). by apply stage2_own.
  - rewrite V3. unfold grant_window. intros k g. rewrite list_lookup_fmap. destruct (seq 0 NR_GRANT_PFN !! k) as [k'|] eqn:E; [|done].
    apply lookup_seq in E as [-> Hk]. cbn. intros [= <-]. done.
  - intros w Hw. apply unmapped_noblock. rewrite (bu_trans _ _ _ _ _ _ Hb w) by (unfold window, low in *; lia). by apply stage2_window.
Qed.

(** ** A new tree for a domain that has none *)
Lemma roots_add s i d e t : dom_at s i e -> pagetable e = None -> pagetable d = Some t -> roots c (put i d s) = {[t]} ∪ roots c s.
Proof.
  intros He Hn Ht. apply set_eq. intros r. rewrite elem_of_union, elem_of_singleton, !elem_of_roots. pose proof (lookup_lt_Some _ _ _ He) as Hi. split.
  - intros [->|(j & f & Hf & Hr)]; [by auto|]. apply put_at in Hf; [|done]. case_decide; [subst; left; congruence|right; right; eauto].
  - intros [->|[->|(j & f & Hf & Hr)]]; [right; exists i, d; split; [by apply put_eq|done]|by left|]. right. exists j, f. split; [|done]. apply put_at; [done|].
    rewrite decide_False; [done|]. intros ->. unfold dom_at in *. congruence.
Qed.

Lemma ginv_tree G s i d x t y n f : ginv c G s -> dom_at s i d -> pagetable d = None -> memslot s !! slot_nr i = Some x ->
  built (roots c s) (mm s) t y n f -> guest_ok G (tables y) i x (set_up x t d) t -> ginv c G (put i (set_up x t d) (with_mm y s)).
Proof.
  intros Hi Hd Hn Hx Hb Hg. pose proof Hi as [H1 H2 H3 H4 H5 H6 H7 H8 H9 H10 H11 H12 H13 H14 H15]. pose proof (lookup_lt_Some _ _ _ Hd) as Hlt.
  set (d' := set_up x t d) in *. destruct Hb as [B1 B2 B3 B4 [_ B5] B6].
  assert (Ed : domID d' = domID d /\ avz_shared d' = avz_shared d /\ subdomain_shared d' = subdomain_shared d /\ pagetable d' = Some t /\ gnttab d' = gnttab d)
    by (unfold d', set_up; destruct (subdomain_shared d) eqn:E; by cbn; rewrite ?E). destruct Ed as (D1 & D2 & D3 & D4 & D5).
  assert (Hof : forall j e, dom_at (put i d' (with_mm y s)) j e -> (j = i /\ e = d') \/ (j <> i /\ dom_at s j e)).
  { intros j e He. apply put_at in He; [|done]. case_decide; auto. }
  assert (Hto : forall j e, j <> i -> dom_at s j e -> dom_at (put i d' (with_mm y s)) j e) by (intros j e Hj He; apply put_at; [done|]; by rewrite decide_False).
  assert (Hsys : sys_root c ∈ roots c s) by (apply elem_of_roots; by left).
  assert (Hshared : forall j e, dom_at s j e -> (avz_shared e ∉ heap y) /\ tables y !! avz_shared e = None).
  { intros j e He. destruct (H9 j e He) as (_ & _ & _ & S4 & S5). split; [intros Hin; by apply S4, B5|]. destruct (tables y !! avz_shared e) eqn:E; [|done].
    destruct (B6 (avz_shared e)) as [|[? ?]]; [by eexists|done|congruence]. }
  split; cbn [mm memslot memchunk_bitmap put with_domains with_mm]; try done.
  - unfold put. cbn [domains with_domains]. by rewrite length_insert.
  - by rewrite (roots_add (with_mm y s) i d' d t).
  - intros u [Hu|Hu]; [by apply H5; left; apply B5|by apply H5, B6].
  - intros j e [[-> ->]|[_ He]]%Hof; [rewrite D1; by apply H6|by apply H6].
  - intros j Hj. rewrite <- H7 by done. split; intros [e He].
    + apply Hof in He as [[-> ->]|[_ He]]; eauto.
    + destruct (decide (j = i)) as [->|Hne]; [exists d'; by apply put_eq|eauto].
  - intros j e r [[-> ->]|[Hj He]]%Hof Hr.
    + rewrite D4 in Hr. injection Hr as <-. split; [intros ->; done|]. intros k f0 [[-> ->]|[_ Hf]]%Hof Hfr; [done|]. destruct B2. by apply (roots_dom c s k f0).
    + destruct (H8 j e r He Hr) as [? Hu]. split; [done|]. intros k f0 [[-> ->]|[_ Hf]]%Hof Hfr; [|by apply (Hu k f0)].
      rewrite D4 in Hfr. injection Hfr as ->. destruct B2. by apply (roots_dom c s j e).
  - intros j e [[-> ->]|[_ He]]%Hof; unfold shared_ok; cbn [mm put with_domains with_mm].
    + rewrite D2. destruct (H9 i d Hd) as (S1 & S2 & S3 & _). by destruct (Hshared i d Hd).
    + destruct (H9 j e He) as (S1 & S2 & S3 & _). by destruct (Hshared j e He).
  - intros j k e f0 [[-> ->]|[_ He]]%Hof [[-> ->]|[_ Hf]]%Hof; rewrite ?D2; [done|by apply H10|by apply H10|by apply H10].
  - intros j e p He Hp. assert (Hex : j = 0%nat /\ exists e0, dom_at s 1 e0 /\ avz_shared e0 = p).
    { apply Hof in He as [[-> ->]|[_ He]]; [rewrite D3 in Hp|]; by eapply H11. }
    destruct Hex as [-> (e0 & He0 & <-)]. split; [done|]. destruct (decide (1%nat = i)) as [<-|Hne]; [|exists e0; auto].
    exists d'. split; [by apply put_eq|]. assert (e0 = d) as -> by (unfold dom_at in *; congruence). done.
  - intros j z Hj Hz. assert (j < 7)%nat by (apply lookup_lt_Some in Hz; by rewrite (sl_len _ _ _ H1) in Hz). apply (sys_ok_same c (tables (mm s))); [by apply H12|done| |].
    + intros Hbz. destruct (slot_size c Hlay G s j z Hi) as ((S1 & S2) & _); [by split|]. change (2 ^ 32) with 4294967296. lia.
    + intros k w Hk Hw. apply (B3 (sys_root c) Hsys); [done|]. destruct (va_low j ltac:(lia)) as (V1 & V2 & _). rewrite va_step in Hw. unfold low. lia.
  - intros j e [[-> ->]|[Hj He]]%Hof; unfold tables_ok; [rewrite D4; cbn [mm memslot put with_domains with_mm]; eauto|].
    pose proof (H13 j e He) as Ht. unfold tables_ok in Ht. destruct (pagetable e) as [r|] eqn:Er; [|done]. destruct Ht as (z & Hz & Hgz). exists z. split; [done|].
    apply (guest_ok_same G G (tables (mm s))); [done|done|]. apply (B3 r). by apply (roots_dom c s j e).
  - intros j e [[-> ->]|[_ He]]%Hof; [|by apply H14]. destruct (H14 i d Hd) as [R1 R2]. split; by rewrite D5.
Qed.

Lemma setup_ok G s i d x : ginv c G s -> dom_at s i d -> i <> 1%nat -> pagetable d = None -> memslot s !! slot_nr i = Some x -> ipa_ok i x ->
  (setup_need x <= length (heap (mm s)))%nat ->
  exists t y, __setup_dom_pgtable (sys_root c) (Z.of_nat i) (base_paddr x) (size x) s = Ret (tt, put i (set_up x t d) (with_mm y s)) /\
    ginv c G (put i (set_up x t d) (with_mm y s)) /\ (length (heap (mm s)) <= length (heap y) + (setup_need x - 15))%nat /\
    (forall w, low w -> translate t (tables y) w = stage2 i x d w) /\ (t ∉ roots c s) /\ (forall r, r ∈ roots c s -> same_tree r (mm s) y).
Proof.
  intros Hi Hd Hi1 Hn Hx Hipa Hneed. destruct (slot_facts c Hlay G s i d x Hi Hd Hx) as (F1 & F2 & F3 & F4 & F5). destruct Hlay as [L1 L2 (L3 & _) L4].
  change (2 ^ 32) with 4294967296 in L4.
  assert (Hpg : forall j e, dom_at s j e -> page_ok (avz_shared e)).
  { intros j e He. destruct (gi_shared _ _ _ Hi j e He) as (S1 & S2 & S3 & _). unfold page_ok. change (2 ^ 48) with 281474976710656. split_and!; [lia|done|lia]. }
  destruct (setup_run (roots c s) s i d x (gi_forest _ _ _ Hi) Hd (gi_id _ _ _ Hi i d Hd) Hx Hipa F5 F3) as (t & y & n & E & Hle & Hb); [lia|change (2 ^ 48) with 281474976710656; lia|by apply (Hpg i)| |done|].
  { intros p Hp. destruct (gi_sub _ _ _ Hi i d p Hd Hp) as [_ (e & He & <-)]. by apply (Hpg 1%nat). }
  exists t, y. split_and!; [done|apply (ginv_tree G s i d x t y n (stage2 i x d) Hi Hd Hn Hx Hb); by apply (setup_guest_ok G i x d t y n _ _ Hb)| |apply Hb|apply Hb|apply Hb].
  destruct Hb as [_ _ _ _ [? _] _]. lia.
Qed.
End setup.

End GuestSetup.
