(* ===== verification/GuestLife.v ===== *)
(** Guests that come and go: taking a memory slot, filling it, and giving it back
    keep the memory of all guests apart. *)
From S2P Require Import Prelude Bitmap Frames Mmu MmuMap MmuReset MmuCreate MmuSpec MmuForest Guest GuestSlots GuestInv GuestGrants GuestSetup.

Module GuestLife.
Import Mmu MmuMap MmuCreate MmuSpec MmuForest Guest GuestSlots GuestInv GuestGrants GuestSetup.
Implicit Types (s : avz) (d e : guest) (x : memslot_entry_t) (y : mmu) (G : list (Z * Z)) (i j : nat).

Section life.
Context (c : config) (Hlay : layout c).

(** ** Taking a slot *)
Definition fresh_guest i (p : Z) : guest := MkGuest (Z.of_nat i) p None 0 None [] (replicate NR_GRANT_PFN (GrantPfn 0 false)).

Lemma sys_in_roots s : sys_root c ∈ roots c s.
Proof. apply elem_of_roots. by left. Qed.

Lemma not_live G s i x : ginv c G s -> (2 <= i)%nat -> memslot s !! i = Some x -> busy x = false -> forall d, ~ dom_at s i d.
Proof.
  intros Hi Hge Hx Hb d Hd. destruct (proj1 (gi_live _ _ _ Hi i Hge)) as (z & _ & Hz & Hbz); [by exists d|]. congruence.
Qed.

(** The system's tables after a change in slot [i] only. *)
Lemma sys_ok_moved m m' j z : sys_ok c m j z -> (j < 7)%nat -> (busy z = true -> 0 <= size z <= 2 ^ 32) ->
  (forall w, va j <= w < va (S j) -> translate (sys_root c) m' w = translate (sys_root c) m w) ->
  (forall w a b, va j <= w < va (S j) -> leaf_within (sys_root c) m w a b -> leaf_within (sys_root c) m' w a b) -> sys_ok c m' j z.
Proof.
  intros [K1 K2] Hj Hsz Ht Hl. pose proof (va_step j). split.
  - intros w Hw. apply Hl; [|by apply K1]. destruct (busy z); [specialize (Hsz eq_refl)|]; lia.
  - intros w Hw. rewrite Ht; [by apply K2|]. destruct (busy z); [specialize (Hsz eq_refl)|]; lia.
Qed.

Lemma slot_bound G s j z : ginv c G s -> (2 <= j)%nat -> memslot s !! j = Some z -> (j < 7)%nat /\ (busy z = true -> 0 <= size z <= 2 ^ 32).
Proof.
  intros Hi Hj Hz. split; [apply lookup_lt_Some in Hz; by rewrite (sl_len _ _ _ (gi_slots _ _ _ Hi)) in Hz|].
  intros Hb. destruct (slot_size c Hlay G s j z Hi) as ((S1 & S2) & _); [by split|]. change (2 ^ 32) with 4294967296. lia.
Qed.

Section take.
Context G s (Hi : ginv c G s) (i : nat) (x0 x : memslot_entry_t) (Hge : (2 <= i)%nat) (Hx0 : memslot s !! i = Some x0) (Hfree : busy x0 = false).
Context (bm' : list Z) (Hslots : slots_ok (B c) (<[i := x]> (memslot s)) bm') (Hbusy : busy x = true).
Context (Hsize : 0 < size x <= 64 * CH) (Hmod : size x mod CH = 0).
Context (y : mmu) (Hm : remapped (roots c s) (mm s) y (sys_root c) (va i) (base_paddr x) (size x) (Attr true false S1)).
Context (p : Z) (l : list Z) (Hheap : heap y = p :: l).
Let d := fresh_guest i p.
Let s' := put i d (Avz (MkMmu (tables y) l) (<[i := x]> (memslot s)) bm' (domains s)).

Lemma take_ginv : ginv c G s'.
Proof.
  pose proof Hi as [H1 H2 H3 H4 H5 H6 H7 H8 H9 H10 H11 H12 H13 H14 H15]. pose proof (not_live G s i x0 Hi Hge Hx0 Hfree) as Hno.
  assert (Hlt : (i < 7)%nat) by (by apply (slot_bound G s i x0)). assert (Hlt' : (i < length (domains s))%nat) by (by rewrite H3).
  destruct (re_heap _ _ _ _ _ _ _ _ Hm) as (n & _ & Edrop). assert (Hsub : forall t, t ∈ heap y -> t ∈ heap (mm s)) by (rewrite Edrop; intros t; apply subseteq_drop).
  pose proof (fo_heap _ _ (re_forest _ _ _ _ _ _ _ _ Hm)) as [Hnd Hfr]. rewrite Hheap in Hnd. apply NoDup_cons in Hnd as [Hpl Hndl].
  assert (Hl : forall t, t ∈ l -> t ∈ heap y) by (intros t Ht; rewrite Hheap; by right). assert (Hp : p ∈ heap y) by (rewrite Hheap; by left).
  destruct (forest_heap _ _ (re_forest _ _ _ _ _ _ _ _ Hm) l Hndl) as [Hf _]; [intros t Ht; by apply Hfr, Hl|].
  assert (Hof : forall j e, dom_at s' j e -> (j = i /\ e = d) \/ (j <> i /\ dom_at s j e)) by (intros j e He; apply put_at in He; [|done]; case_decide; auto).
  assert (Hto : forall j e, dom_at s j e -> j <> i /\ dom_at s' j e).
  { intros j e He. assert (j <> i) by (intros ->; by apply (Hno e)). split; [done|]. apply put_at; [done|]. by rewrite decide_False. }
  assert (Hroots : roots c s' = roots c s).
  { apply set_eq. intros r. rewrite !elem_of_roots. split; (intros [->|(j & e & He & Hr)]; [by left|right]).
    - apply Hof in He as [[-> ->]|[_ He]]; [done|eauto].
    - exists j, e. split; [by apply Hto|done]. }
  assert (Hother : forall j e r, dom_at s j e -> pagetable e = Some r -> same_tree r (mm s) y).
  { intros j e r He Hr. apply (re_other _ _ _ _ _ _ _ _ Hm); [by apply (roots_dom c s j e)|]. by apply (H8 j e). }
  assert (Hdom : forall t, is_Some (tables y !! t) -> t ∈ heap (mm s) \/ is_Some (tables (mm s) !! t)) by apply Hm.
  split; cbn [mm memslot memchunk_bitmap put with_domains s' tables heap]; try done.
  - destruct H2 as (a & Ha & Ea). exists a. by rewrite list_lookup_insert_ne by lia.
  - unfold s', put. cbn [domains with_domains]. by rewrite length_insert.
  - by rewrite Hroots.
  - intros t [Ht|Ht]; [by apply H5; left; apply Hsub, Hl|by apply H5, Hdom].
  - intros j e [[-> ->]|[_ He]]%Hof; [done|by apply H6].
  - intros j Hj. destruct (decide (j = i)) as [->|Hne].
    + split; intros _; [|exists d; by apply put_eq]. exists x. apply in_use_insert; [by eapply lookup_lt_Some|]. by rewrite decide_True.
    + assert (E1 : (exists e, dom_at s' j e) <-> exists e, dom_at s j e).
      { split; intros [e He]; [apply Hof in He as [[-> _]|[_ He]]; [done|eauto]|exists e; by apply Hto]. }
      assert (E2 : (exists z, in_use (<[i := x]> (memslot s)) j z) <-> exists z, in_use (memslot s) j z) by (unfold in_use; by setoid_rewrite list_lookup_insert_ne; [|done..]).
      etransitivity; [exact E1|]. etransitivity; [by apply H7|]. symmetry. exact E2.
  - intros j e r [[-> ->]|[Hj He]]%Hof Hr; [done|]. destruct (H8 j e r He Hr) as [? Hu]. split; [done|]. intros k f [[-> ->]|[_ Hk]]%Hof Hfr'; [done|by apply (Hu k f)].
  - intros j e [[-> ->]|[_ He]]%Hof; unfold shared_ok; cbn [mm put with_domains s' tables heap avz_shared d fresh_guest].
    + destruct (Hfr p Hp) as (F1 & F2 & F3). destruct (H5 p) as [? ?]; [left; by apply Hsub|]. done.
    + destruct (H9 j e He) as (S1 & S2 & S3 & S4 & S5). split_and!; [done..|intros Hin; by apply S4, Hsub, Hl|].
      destruct (tables y !! avz_shared e) eqn:E; [|done]. destruct (Hdom (avz_shared e)) as [|[? ?]]; [by eexists|done|congruence].
  - assert (Hfresh : forall j e, dom_at s j e -> avz_shared e <> p) by (intros j e He E; destruct (H9 j e He) as (_ & _ & _ & S4 & _); rewrite E in S4; by apply S4, Hsub).
    intros j k e f [[-> ->]|[_ He]]%Hof [[-> ->]|[_ Hf']]%Hof E; [done|by destruct (Hfresh k f Hf')|by destruct (Hfresh j e He)|by apply (H10 j k e f)].
  - intros j e q [[-> ->]|[_ He]]%Hof Hq; [done|]. destruct (H11 j e q He Hq) as [-> (e0 & He0 & Eq)]. split; [done|]. exists e0. split; [by apply Hto|done].
  - intros j z Hj Hz. destruct (decide (j = i)) as [->|Hne].
    + rewrite list_lookup_insert_eq in Hz by (by eapply lookup_lt_Some). injection Hz as <-. unfold sys_ok. rewrite Hbusy. split.
      * apply (re_leaf _ _ _ _ _ _ _ _ Hm).
      * intros w Hw. destruct (va_low i ltac:(lia)) as (V1 & V2 & _). pose proof (va_step i).
        rewrite (re_trans _ _ _ _ _ _ _ _ Hm w) by (unfold low; lia). rewrite decide_False by lia.
        destruct (H12 i x0 Hj Hx0) as [_ K2]. rewrite Hfree in K2. apply K2. lia.
    + rewrite list_lookup_insert_ne in Hz by done. destruct (slot_bound G s j z Hi Hj Hz) as [Hj7 Hjs]. destruct (va_low j ltac:(lia)) as (V1 & V2 & _).
      assert (Hout : forall w, va j <= w < va (S j) -> low w /\ ~ (va i <= w < va i + size x)).
      { intros w Hw. pose proof (va_apart j i w Hne Hw). pose proof (va_step i). pose proof (va_step j). change (2 ^ 32) with 4294967296 in *. unfold low. lia. }
      apply (sys_ok_moved (tables (mm s))); [by apply H12|done|done| |].
      * intros w Hw. destruct (Hout w Hw) as [Hw1 Hw2]. rewrite (re_trans _ _ _ _ _ _ _ _ Hm w Hw1). by rewrite decide_False.
      * intros w a b Hw. destruct (Hout w Hw) as [Hw1 Hw2]. by apply (re_keep _ _ _ _ _ _ _ _ Hm).
  - intros j e [[-> ->]|[Hj He]]%Hof; unfold tables_ok.
    + cbn [pagetable d fresh_guest]. intros g [-> _]%elem_of_replicate. done.
    + pose proof (H13 j e He) as Ht. unfold tables_ok in Ht. destruct (pagetable e) as [r|] eqn:Er; [|done]. destruct Ht as (z & Hz & Hgz). exists z.
      cbn [mm memslot put with_domains s' tables]. split; [rewrite list_lookup_insert_ne; [done|unfold slot_nr; destruct (decide _); lia]|].
      apply (guest_ok_same G G (tables (mm s))); [done|done|]. by apply (Hother j e r).
  - intros j e [[-> ->]|[_ He]]%Hof; [|by apply H14]. split; cbn; [by intros g ?%elem_of_nil|apply NoDup_nil_2].
Qed.
End take.

(** The order that [get_ME_free_slot] computes. *)
Definition order_of (sz : Z) : Z := Z.log2 ((sz + CH - 1) / CH).

Lemma order_run sz : 0 <= sz -> sz + CH <= 2 ^ 32 -> get_power_from_size (u32 (sz + ME_MEMCHUNK_SIZE - 1) / ME_MEMCHUNK_SIZE) = order_of sz.
Proof.
  intros H0 Hm. unfold ME_MEMCHUNK_SIZE. change (2 * 1024 * 1024) with CH. rewrite u32_small by lia. apply get_power_spec. change (2 ^ 32) with 4294967296 in *. split; dlia.
Qed.

(** A slot that has just been taken. *)
Record taken G s s' i x (order : Z) (n : nat) (p : Z) : Prop := {
  tk_inv : ginv c G s';
  tk_slot : memslot s' = <[i := x]> (memslot s);
  tk_placed : placed (B c) i x order n;
  tk_busy : busy x = true;
  tk_dom : domains s' = <[i := Some (fresh_guest i p)]> (domains s);
  tk_heap : (length (heap (mm s)) <= length (heap (mm s')) + 193)%nat;
  tk_same : forall r, r ∈ roots c s -> r <> sys_root c -> same_tree r (mm s) (mm s');
  tk_sys : forall w, low w -> translate (sys_root c) (tables (mm s')) w =
    if decide (va i <= w < va i + size x) then Some (base_paddr x + (w - va i), leaf_attrs (Attr true false S1) (negb (base_paddr x =? va i)))
    else translate (sys_root c) (tables (mm s)) w
}.

Lemma get_slot_ok G s i sz : ginv c G s -> free_slot (memslot s) = Some i -> 0 <= sz -> sz + CH <= 2 ^ 32 -> order_of sz <= 6 ->
  (exists m, (m * pages (order_of sz) < ME_MEMCHUNK_NR)%nat /\ region_is (memchunk_bitmap s) (m * pages (order_of sz)) (pages (order_of sz)) false) ->
  (193 <= length (heap (mm s)))%nat ->
  exists x n p s', get_ME_free_slot (sys_root c) sz s = Ret (Z.of_nat i, s') /\ taken G s s' i x (order_of sz) n p.
Proof.
  intros Hi Hfs Hsz Hsz2 Hord Hreg Hheap. pose proof (free_slot_spec _ _ Hfs) as [Hir (x0 & Hx0 & Hfree)]. set (order := order_of sz) in *.
  assert (Ho : 0 <= order <= 6) by (split; [apply Z.log2_nonneg|done]). pose proof (gi_slots _ _ _ Hi) as Hs. destruct Hlay as [L1 L2 (L3 & _ & LB & _) L4].
  destruct (allocate_memslot_ok (B c) ltac:(lia) L4 s order Hs Ho) as [(n & bm' & E1 & Hn & Hr & Hbm' & Hset)|[_ Hno]]; [|destruct Hreg as (m & Hm1 & Hm2); by destruct (Hno m Hm1)].
  pose proof (region_fits n order Ho Hn) as Hfit. destruct (pages_pos order Ho) as [Hp1 Ep]. set (np := (n * pages order)%nat) in *.
  set (x := Slot (B c + Z.of_nat np * CH) (va i) (Z.of_nat (pages order) * CH) true (ipa_addr x0)).
  assert (Hpl : placed (B c) i x order n) by done. assert (Hp64 : (pages order <= 64)%nat).
  { assert (2 ^ order <= 2 ^ 6) by (apply Z.pow_le_mono_r; lia). change (2 ^ 6) with 64 in *. lia. }
  assert (Hslots : slots_ok (B c) (<[i := x]> (memslot s)) bm') by (apply (take_ok (B c) _ _ Hs i x0 Hx0 Hfree ltac:(lia) order n Ho Hn Hr bm' Hbm' Hset x Hpl); done).
  destruct (va_low i ltac:(lia)) as (V1 & V2 & V3). pose proof (va_step i) as V4. change (2 ^ 32) with 4294967296 in *. change (2 ^ 48) with 281474976710656 in *.
  assert (Hch : (chunks (2 ^ 21) (va i) (va i + size x) <= 64)%nat).
  { unfold chunks. change (size x) with (Z.of_nat (pages order) * CH). rewrite decide_True by lia. change (2 ^ 21) with CH. dlia. }
  destruct (forest_map (roots c s) (mm s) (gi_forest _ _ _ Hi) (sys_root c) None (va i) (base_paddr x) (size x) (Attr true false S1)) as (y & E2 & Hm);
    [apply sys_in_roots|lia|change (size x) with (Z.of_nat (pages order) * CH); lia|dlia|change (size x) with (Z.of_nat (pages order) * CH); dlia|
     change (base_paddr x) with (B c + Z.of_nat np * CH); dlia|change (size x) with (Z.of_nat (pages order) * CH); change (2 ^ 48) with 281474976710656; lia|
     change (base_paddr x) with (B c + Z.of_nat np * CH); lia|
     change (base_paddr x) with (B c + Z.of_nat np * CH); change (size x) with (Z.of_nat (pages order) * CH); change (2 ^ 48) with 281474976710656; lia| | |].
  { intros w Hw. apply unmapped_noblock. destruct (gi_sys _ _ _ Hi i x0 ltac:(lia) Hx0) as [_ K2]. rewrite Hfree in K2. apply K2.
    change (size x) with (Z.of_nat (pages order) * CH) in Hw. lia. }
  { lia. }
  change (remapped (roots c s) (mm s) y (sys_root c) (va i) (base_paddr x) (size x) (Attr true false S1)) in Hm.
  destruct (re_heap _ _ _ _ _ _ _ _ Hm) as (k & Hk & Ek). assert (Hlen : (length (heap (mm s)) <= length (heap y) + 192)%nat) by (rewrite Ek, length_drop; lia).
  destruct (heap y) as [|p l] eqn:Eh; [cbn [length] in Hlen; lia|].
  exists x, n, p. eexists. split.
  - unfold get_ME_free_slot. kstep. rewrite Hfs. cbn zeta. rewrite order_run by (change (2 ^ 32) with 4294967296; lia). fold order.
    erewrite kbind_ret by exact E1. cbn beta. destruct (Z.eqb_spec (B c + Z.of_nat np * CH) 0); [lia|].
    assert (Eva : ME_BASE + Z.shiftl (Z.of_nat i - 1) ME_ID_SHIFT = va i) by (unfold va, ME_ID_SHIFT; by rewrite Z.shiftl_mul_pow2 by lia).
    assert (Esz : Z.shiftl 1 order * ME_MEMCHUNK_SIZE = size x) by (unfold x, ME_MEMCHUNK_SIZE; cbn [size]; rewrite Z.shiftl_1_l; lia). rewrite Eva, Esz.
    erewrite kbind_ret by (by apply (upd_slot_run (with_bitmap bm' s) i x0)). cbn beta.
    erewrite kbind_ret by (apply guest_mmu_ret; exact E2). cbn beta. unfold domain_create.
    erewrite kbind_ret; [|erewrite kbind_ret by (apply guest_mmu_ret; unfold alloc_page; cbn [mm with_mm with_memslot with_bitmap]; rewrite Eh; reflexivity); reflexivity]. cbn beta.
    kstep. reflexivity.
  - split; [|done|done|done|done| |apply (re_other _ _ _ _ _ _ _ _ Hm)|apply (re_trans _ _ _ _ _ _ _ _ Hm)].
    + apply (take_ginv G s Hi i x0 x ltac:(lia) Hx0 Hfree bm' Hslots eq_refl) with (p := p) (l := l) (y := y); [|cbn [size x]; dlia|done|done].
      cbn [size x]. lia.
    + cbn [mm heap with_domains]. cbn [length] in Hlen. cbn. lia.
Qed.

(** ** Giving a slot back *)
Section give.
Context G s (Hi : ginv c G s) (i : nat) d x (r : Z) (Hge : (2 <= i)%nat) (Hd : dom_at s i d) (Hr : pagetable d = Some r) (Hu : in_use (memslot s) i x).
Context (y z : mmu) (bm' : list Z).
Context (Hf : forest (roots c s ∖ {[r]}) y) (Hh : heap y = heap (mm s)) (Hother : forall r', r' ∈ roots c s -> r' <> r -> same_tree r' (mm s) y).
Context (Hdom : forall u, is_Some (tables y !! u) -> is_Some (tables (mm s) !! u)).
Context (Hun : unmapped (roots c s ∖ {[r]}) y z (sys_root c) (va i) (size x)).
Context (Hslots : slots_ok (B c) (<[i := set_busy false x]> (memslot s)) bm').
Let s' := Avz z (<[i := set_busy false x]> (memslot s)) bm' (<[i := None]> (domains s)).

Lemma give_ginv : ginv c G s'.
Proof.
  pose proof Hi as [H1 H2 H3 H4 H5 H6 H7 H8 H9 H10 H11 H12 H13 H14 H15]. pose proof Hu as (_ & Hx & Hb). pose proof (lookup_lt_Some _ _ _ Hx) as Hxl.
  pose proof (lookup_lt_Some _ _ _ Hd) as Hlt. destruct (H8 i d r Hd Hr) as [Hrs Huniq]. destruct (slot_bound G s i x Hi Hge Hx) as [Hi7 Hsz]. specialize (Hsz Hb).
  assert (Hat : forall j e, dom_at s' j e <-> j <> i /\ dom_at s j e).
  { intros j e. unfold dom_at, s'. cbn [domains]. destruct (decide (j = i)) as [->|Hne].
    - rewrite list_lookup_insert_eq by done. naive_solver.
    - rewrite list_lookup_insert_ne by done. naive_solver. }
  assert (Hroots : roots c s' = roots c s ∖ {[r]}).
  { apply set_eq. intros t. rewrite elem_of_difference, not_elem_of_singleton, !elem_of_roots. split.
    - intros [->|(j & e & [Hne He]%Hat & Ht)]; [split; [by left|by apply not_eq_sym]|]. split; [right; eauto|]. intros ->. by destruct Hne; symmetry; apply (Huniq j e).
    - intros [[->|(j & e & He & Ht)] Hne]; [by left|]. right. exists j, e. split; [|done]. apply Hat. split; [|done]. intros ->. unfold dom_at in *. congruence. }
  assert (Hsys : sys_root c ∈ roots c s ∖ {[r]}) by (rewrite elem_of_difference, not_elem_of_singleton; split; [apply sys_in_roots|by apply not_eq_sym]).
  assert (Hss : same_tree (sys_root c) (mm s) y) by (apply Hother; [apply sys_in_roots|by apply not_eq_sym]).
  assert (Hhz : heap z = heap (mm s)) by (by rewrite (un_heap _ _ _ _ _ _ Hun)).
  assert (Hdz : forall u, is_Some (tables z !! u) -> is_Some (tables (mm s) !! u)).
  { intros u Hz. apply Hdom. apply elem_of_dom. rewrite <- (un_dom _ _ _ _ _ _ Hun). by apply elem_of_dom. }
  assert (Hg : forall j e r', j <> i -> dom_at s j e -> pagetable e = Some r' -> same_tree r' (mm s) z).
  { intros j e r' Hne He Hr'. destruct (H8 j e r' He Hr') as [? Hu']. assert (r' <> r) by (intros ->; by destruct Hne; symmetry; apply (Huniq j e)).
    apply (same_tree_trans r' (mm s) y z); [apply Hother; [by apply (roots_dom c s j e)|done]|]. apply (un_other _ _ _ _ _ _ Hun); [|done].
    rewrite elem_of_difference, not_elem_of_singleton. split; [by apply (roots_dom c s j e)|done]. }
  split; cbn [mm memslot memchunk_bitmap s']; try done.
  - destruct H2 as (a & Ha & Ea). exists a. by rewrite list_lookup_insert_ne by lia.
  - unfold s'. cbn [domains]. by rewrite length_insert.
  - rewrite Hroots. apply Hun.
  - intros t Ht. apply H5. rewrite Hhz in Ht. destruct Ht as [Ht|Ht]; [by left|right; by apply Hdz].
  - intros j e [_ He]%Hat. by apply H6.
  - intros j Hj. assert (E1 : (exists e, dom_at s' j e) <-> j <> i /\ exists e, dom_at s j e) by (setoid_rewrite Hat; naive_solver).
    assert (E2 : (exists w, in_use (<[i := set_busy false x]> (memslot s)) j w) <-> j <> i /\ exists w, in_use (memslot s) j w).
    { setoid_rewrite in_use_insert; [|done]. split.
      - intros (w & Hj' & Hbw & Hw). case_decide as E; [subst; done|]. split; [done|]. by exists w.
      - intros [Hne (w & Hj' & Hw & Hbw)]. exists w. rewrite decide_False by done. done. }
    etransitivity; [exact E1|]. etransitivity; [|symmetry; exact E2]. by rewrite (H7 j Hj).
  - intros j e r' [Hne He]%Hat Hr'. destruct (H8 j e r' He Hr') as [? Hu']. split; [done|]. intros k f [_ Hk]%Hat. by apply Hu'.
  - intros j e [_ He]%Hat. destruct (H9 j e He) as (S1 & S2 & S3 & S4 & S5). unfold shared_ok. cbn [mm s']. rewrite Hhz. split_and!; [done..|].
    destruct (tables z !! avz_shared e) eqn:E; [|done]. destruct (Hdz (avz_shared e)); [by eexists|congruence].
  - intros j k e f [_ He]%Hat [_ Hk]%Hat. by apply H10.
  - intros j e q [_ He]%Hat Hq. destruct (H11 j e q He Hq) as [-> (e0 & He0 & Eq)]. split; [done|]. exists e0. split; [|done]. apply Hat. split; [lia|done].
  - intros j w Hj Hw. destruct (va_low i ltac:(lia)) as (V1 & V2 & _). pose proof (va_step i) as V3.
    destruct (decide (j = i)) as [->|Hne].
    + rewrite list_lookup_insert_eq in Hw by done. injection Hw as <-. unfold sys_ok. cbn [busy set_busy]. split; [intros v Hv; lia|].
      intros v Hv. rewrite (un_trans _ _ _ _ _ _ Hun v) by (unfold low; lia). case_decide as E; [done|].
      destruct (H12 i x Hge Hx) as [_ K2]. rewrite Hb in K2. rewrite (same_translate _ _ _ v Hss) by (unfold low; lia). apply K2. lia.
    + rewrite list_lookup_insert_ne in Hw by done. destruct (slot_bound G s j w Hi Hj Hw) as [Hj7 Hjs]. destruct (va_low j ltac:(lia)) as (W1 & W2 & _).
      assert (Hout : forall v, va j <= v < va (S j) -> low v /\ ~ (va i <= v < va i + size x)).
      { intros v Hv. pose proof (va_apart j i v Hne Hv). pose proof (va_step j). unfold low. lia. }
      apply (sys_ok_moved (tables (mm s))); [by apply H12|done|done| |].
      * intros v Hv. destruct (Hout v Hv) as [Hv1 Hv2]. rewrite (un_trans _ _ _ _ _ _ Hun v Hv1), decide_False by done. by apply same_translate.
      * intros v a b Hv Hl. destruct (Hout v Hv) as [Hv1 Hv2]. apply (un_keep _ _ _ _ _ _ Hun); [done|done|]. by apply (same_leaf _ (mm s)).
  - intros j e [Hne He]%Hat. pose proof (H13 j e He) as Ht. unfold tables_ok in *. destruct (pagetable e) as [r'|] eqn:Er; [|done]. destruct Ht as (w & Hw & Hgw).
    exists w. cbn [mm memslot s']. split; [rewrite list_lookup_insert_ne; [done|unfold slot_nr; destruct (decide _); lia]|].
    apply (guest_ok_same G G (tables (mm s))); [done|done|]. by apply (Hg j e r').
  - intros j e [_ He]%Hat. by apply H14.
Qed.
End give.

Lemma guest_shutdown_ok G s i d x r : ginv c G s -> (2 <= i)%nat -> dom_at s i d -> pagetable d = Some r -> in_use (memslot s) i x ->
  exists s', shutdown_ME (sys_root c) (Z.of_nat i) s = Ret (tt, s') /\ ginv c G s' /\
    memslot s' = <[i := set_busy false x]> (memslot s) /\ domains s' = <[i := None]> (domains s) /\ heap (mm s') = heap (mm s) /\
    (forall ch, getbit (memchunk_bitmap s') ch = true <-> getbit (memchunk_bitmap s) ch = true /\ ~ owns (B c) x ch).
Proof.
  intros Hi Hge Hd Hr Hu. pose proof Hu as (_ & Hx & Hb). destruct (gi_root _ _ _ Hi i d r Hd Hr) as [Hrs _].
  destruct (forest_reset (roots c s) (mm s) (gi_forest _ _ _ Hi) r (roots_dom c s i d r Hd Hr)) as (y & E1 & Hf & Hh & Hother & Hdom).
  destruct (slot_bound G s i x Hi Hge Hx) as [Hi7 _]. destruct (slot_size c Hlay G s i x Hi Hu) as ((S1' & S2') & S3 & S4 & S5 & S6 & S7).
  destruct (va_low i ltac:(lia)) as (V1 & V2 & V3).
  assert (Hsys : sys_root c ∈ roots c s ∖ {[r]}) by (rewrite elem_of_difference, not_elem_of_singleton; split; [apply sys_in_roots|by apply not_eq_sym]).
  assert (Hss : same_tree (sys_root c) (mm s) y) by (apply Hother; [apply sys_in_roots|by apply not_eq_sym]).
  destruct (forest_release _ y Hf (sys_root c) None (va i) (size x)) as (z & E2 & Hun);
    [done|lia|lia|dlia|dlia|change (2 ^ 48) with 281474976710656 in *; change (2 ^ 32) with 4294967296 in *; lia| |].
  { intros w Hw. change (leaf_within (sys_root c) (tables y) w (va i) (va i + size x)). apply (same_leaf _ (mm s)); [done|unfold low; change (2 ^ 48) with 281474976710656 in *; change (2 ^ 32) with 4294967296 in *; lia|].
    destruct (gi_sys _ _ _ Hi i x Hge Hx) as [K1 _]. rewrite Hb in K1. by apply K1. }
  change (unmapped (roots c s ∖ {[r]}) y z (sys_root c) (va i) (size x)) in Hun.
  destruct Hlay as [L1 L2 (L3 & _) L4].
  destruct (release_memslot_ok (B c) (Avz z (memslot s) (memchunk_bitmap s) (<[i := None]> (domains s))) i x) as (bm' & E3 & Hslots & Hbits); [apply Hi|done|].
  exists (Avz z (<[i := set_busy false x]> (memslot s)) bm' (<[i := None]> (domains s))). split_and!; [| |done|done| |done].
  - unfold shutdown_ME, domain_destroy. erewrite kbind_ret.
    2:{ erewrite kbind_ret by (by apply guest_of_run). cbn beta. rewrite Hr. kstep. by apply guest_mmu_ret. }
    cbn beta. kstep. rewrite Nat2Z.id. unfold put_ME_slot. erewrite kbind_ret by (by apply (slot_of_run (with_domains <[i := None]> (with_mm y s)) i x)). cbn beta.
    rewrite S7. erewrite kbind_ret by (apply guest_mmu_ret; exact E2). cbn beta. erewrite kbind_ret by exact E3. cbn beta. by rewrite (upd_slot_run _ i x).
  - by apply (give_ginv G s Hi i d x r Hge Hd Hr Hu y z bm').
  - cbn [mm]. by rewrite (un_heap _ _ _ _ _ _ Hun).
Qed.
End life.

End GuestLife.
