(* ===== verification/GuestOps.v ===== *)
(** Every operation on guests keeps the invariant: the start of the agency,
    containers that are injected, restored from a snapshot and shut down, and the
    hypercalls on grant tables. *)
From S2P Require Import Prelude Bitmap Frames Mmu MmuMap MmuReset MmuCreate MmuSpec MmuForest Guest GuestSlots GuestInv GuestGrants GuestSetup GuestLife.

Module GuestOps.
Import Mmu MmuMap MmuCreate MmuSpec MmuForest Guest GuestSlots GuestInv GuestGrants GuestSetup GuestLife.
Implicit Types (s : avz) (d e : guest) (x : memslot_entry_t) (y : mmu) (G : list (Z * Z)) (i j : nat).

Section ops.
Context (c : config) (Hlay : layout c).

(** ** The address of a guest's memory *)
Lemma slots_ok_ipa l bm i x a : slots_ok (B c) l bm -> in_use l i x -> slots_ok (B c) (<[i := set_ipa a x]> l) bm.
Proof.
  intros Hok Hu. pose proof Hu as (Hi & Hx & Hb). pose proof (lookup_lt_Some _ _ _ Hx) as Hlt.
  assert (Hof : forall j z, in_use (<[i := set_ipa a x]> l) j z -> exists z0, in_use l j z0 /\ base_paddr z = base_paddr z0 /\ size z = size z0 /\ base_vaddr z = base_vaddr z0).
  { intros j z (Hj & Hbz & Hz)%in_use_insert; [|done]. case_decide as E; [subst; by exists x|]. exists z. by split. }
  assert (Hown : forall z z0 ch, base_paddr z = base_paddr z0 -> size z = size z0 -> owns (B c) z ch <-> owns (B c) z0 ch) by (intros z z0 ch E1 E2; unfold owns; by rewrite E1, E2).
  split.
  - rewrite length_insert. apply Hok.
  - destruct (sl_agency _ _ _ Hok) as (g & Hg & E). exists g. rewrite list_lookup_insert_ne by lia. done.
  - apply Hok.
  - intros j z (z0 & Hz & E1 & E2 & E3)%Hof. destruct (sl_placed _ _ _ Hok j z0 Hz) as (o & n & [P1 P2 P3 P4 P5]). exists o, n. split; congruence.
  - intros ch Hc. rewrite (sl_bits _ _ _ Hok ch Hc). split.
    + intros (j & z & (Hj & Hz & Hbz) & Ho). destruct (decide (j = i)) as [->|Hne].
      * assert (z = x) as -> by congruence. exists i, (set_ipa a x). split; [apply in_use_insert; [done|]; by rewrite decide_True|done].
      * exists j, z. split; [apply in_use_insert; [done|]; by rewrite decide_False|done].
    + intros (j & z & (z0 & Hz & E1 & E2 & _)%Hof & Ho). exists j, z0. split; [done|]. by apply (Hown z z0).
  - intros j k z w ch Hjk (z0 & Hz & E1 & E2 & _)%Hof (w0 & Hw & E3 & E4 & _)%Hof. rewrite (Hown z z0), (Hown w w0) by done. by apply (sl_disj _ _ _ Hok j k).
Qed.

Lemma set_ipa_ok G s i d x a : ginv c G s -> (2 <= i)%nat -> dom_at s i d -> pagetable d = None -> in_use (memslot s) i x ->
  upd_slot (Z.of_nat i) (set_ipa a) s = Ret (tt, with_memslot <[i := set_ipa a x]> s) /\ ginv c G (with_memslot <[i := set_ipa a x]> s).
Proof.
  intros Hi Hge Hd Hn Hu. pose proof Hu as (_ & Hx & Hb). split; [by apply upd_slot_run|]. pose proof (lookup_lt_Some _ _ _ Hx) as Hlt.
  destruct Hi as [H1 H2 H3 H4 H5 H6 H7 H8 H9 H10 H11 H12 H13 H14 H15]. split; cbn [mm memslot memchunk_bitmap with_memslot]; try done.
  - by apply slots_ok_ipa.
  - destruct H2 as (g & Hg & E). exists g. by rewrite list_lookup_insert_ne by lia.
  - intros j Hj. etransitivity; [by apply H7|]. split; intros [z Hz].
    + destruct Hz as (_ & Hz & Hbz). destruct (decide (j = i)) as [->|Hne]; [exists (set_ipa a x)|exists z]; (apply in_use_insert; [done|]); [by rewrite decide_True|by rewrite decide_False].
    + apply in_use_insert in Hz as (_ & Hbz & Hz); [|done]. case_decide as E; [subst; by exists x|]. exists z. by split.
  - intros j z Hj Hz. destruct (decide (j = i)) as [->|Hne]; [|rewrite list_lookup_insert_ne in Hz by done; by apply H12].
    rewrite list_lookup_insert_eq in Hz by done. injection Hz as <-. apply (H12 i x Hge Hx).
  - intros j e He. change (dom_at s j e) in He. pose proof (H13 j e He) as Ht. unfold tables_ok in *. destruct (pagetable e) as [r|] eqn:Er; [|done]. destruct Ht as (z & Hz & Hg). exists z.
    cbn [memslot with_memslot]. split; [|done]. rewrite list_lookup_insert_ne; [done|]. unfold slot_nr. destruct (decide (j = 0%nat)); [lia|]. intros ->. unfold dom_at in *. congruence.
Qed.

(** ** The page of vbstore *)
(** The agency has granted a page to domain [i]; the code takes the first one. *)
Definition vbstore_granted s i (g : gnttab_t) : Prop :=
  exists a k, dom_at s 0 a /\ list_find (fun g => target_domid g = Z.of_nat i) (gnttab a) = Some (k, g).

Lemma vbstore_in G s i g : ginv c G s -> vbstore_granted s i g -> (Z.of_nat i, pfn g) ∈ G.
Proof.
  intros Hi (a & k & Ha & Hf). apply list_find_Some in Hf as (Hl & Ht & _). destruct (gr_entry _ _ _ (gi_grants _ _ _ Hi 0%nat a Ha) g) as (_ & _ & HG).
  - by apply (list_elem_of_lookup_2 _ k).
  - by rewrite Ht in HG.
Qed.

Lemma vbstore_new_ok G s i d r x k g v : ginv c G s -> dom_at s i d -> pagetable d = Some r -> memslot s !! slot_nr i = Some x ->
  guest_ok G (tables (mm s)) i x d r -> list_find (fun g => gp_free g = true) (grant_pfn d) = Some (k, g) -> vbstore_granted s i v -> (3 <= length (heap (mm s)))%nat ->
  exists s', map_vbstore_pfn (sys_root c) (Z.of_nat i) 0 s = Ret (win_pfn x k, s') /\ page_mapped c G s s' i d r x k g (pfn v).
Proof.
  intros Hi Hd Hr Hx Hg Hf Hv Hh. destruct (alloc_map_ok c Hlay G s i d r x k g (pfn v) Hi Hd Hr Hx Hg Hf (vbstore_in G s i v Hi Hv) Hh) as (s' & E & Ep & Hm).
  exists s'. split; [|done]. destruct Hv as (a & n & Ha & Hfa). unfold map_vbstore_pfn. erewrite kbind_ret by (by apply guest_of_run). cbn beta.
  erewrite kbind_ret by (by apply (guest_of_run s 0 a)). cbn beta. rewrite Hfa. change (0 =? 0) with true. cbv iota.
  apply kbind_inv in E as (f & s1 & E1 & E). apply kbind_inv in E as (u & s2 & E2 & E). injection E as -> ->.
  erewrite kbind_ret by (erewrite kbind_ret by exact E1; reflexivity). cbn beta. erewrite kbind_ret by exact E2. cbn beta. rewrite Ep, pfn_of_phys, Z.div_mul by done. done.
Qed.

Lemma vbstore_at_ok G s i d r x k v : ginv c G s -> dom_at s i d -> pagetable d = Some r -> memslot s !! slot_nr i = Some x ->
  guest_ok G (tables (mm s)) i x d r -> (k < NR_GRANT_PFN)%nat -> win_pfn x k * 4096 < 2 ^ 31 -> vbstore_granted s i v -> (3 <= length (heap (mm s)))%nat ->
  exists y, map_vbstore_pfn (sys_root c) (Z.of_nat i) (win_pfn x k) s = Ret (win_pfn x k, with_mm y s) /\ ginv c G (with_mm y s).
Proof.
  intros Hi Hd Hr Hx Hg Hk Hlt Hv Hh. destruct (map_page_ok c Hlay G s i d r x k (pfn v) Hi Hd Hr Hx Hg Hk (vbstore_in G s i v Hi Hv) Hh) as (y & E & Hi' & _ & Ep & _).
  exists y. split; [|done]. destruct Hv as (a & n & Ha & Hfa). destruct (go_ipa _ _ _ _ _ _ Hg) as (I1 & I2 & I3 & _).
  assert (Hpos : 0 < win_pfn x k) by (unfold win_pfn; dlia). unfold map_vbstore_pfn. erewrite kbind_ret by (by apply guest_of_run). cbn beta.
  erewrite kbind_ret by (by apply (guest_of_run s 0 a)). cbn beta. rewrite Hfa. destruct (Z.eqb_spec (win_pfn x k) 0); [lia|].
  change PAGE_SIZE with 4096. assert (Hb : ((win_pfn x k <? 0) || (2 ^ 31 <=? win_pfn x k * 4096)) = false).
  { destruct (Z.ltb_spec (win_pfn x k) 0), (Z.leb_spec (2 ^ 31) (win_pfn x k * 4096)); (done || lia). }
  rewrite Hb. kstep. erewrite kbind_ret by exact E. cbn beta. rewrite Ep, pfn_of_phys, Z.div_mul by done. done.
Qed.

(** ** Containers *)
(** The slot a request would get: the address of the memory is the caller's. *)
Definition new_slot_ok i (sz ipa : Z) : Prop := forall b v, ipa_ok i (Slot b v (2 ^ order_of sz * CH) true ipa).
Definition can_take s (sz : Z) : Prop :=
  0 <= sz /\ sz + CH <= 2 ^ 32 /\ order_of sz <= 6 /\
  exists m, (m * pages (order_of sz) < ME_MEMCHUNK_NR)%nat /\ region_is (memchunk_bitmap s) (m * pages (order_of sz)) (pages (order_of sz)) false.

Lemma window_free x : list_find (fun g => gp_free g = true) (grant_window x) = Some (0%nat, GrantPfn (win_pfn x 0) true).
Proof. done. Qed.

Lemma setup_need_bound x i : 0 < size x <= 64 * CH -> ipa_ok i x -> (setup_need x <= 295)%nat.
Proof.
  intros Hs (I1 & _). unfold setup_need, chunks. rewrite decide_True by lia. change (2 ^ 21) with CH. dlia.
Qed.

(** A domain [i] whose slot has been taken is set up. *)
Lemma guest_construct_ok G s i d x : ginv c G s -> (2 <= i)%nat -> dom_at s i d -> pagetable d = None -> in_use (memslot s) i x -> ipa_ok i x ->
  (295 <= length (heap (mm s)))%nat ->
  exists t y, (forall m, m = construct_ME (sys_root c) (Z.of_nat i) \/ m = __setup_dom_pgtable (sys_root c) (Z.of_nat i) (base_paddr x) (size x) ->
      m s = Ret (tt, put i (set_up x t d) (with_mm y s))) /\
    ginv c G (put i (set_up x t d) (with_mm y s)) /\ guest_ok G (tables y) i x (set_up x t d) t /\ (length (heap (mm s)) <= length (heap y) + 280)%nat /\
    (forall w, low w -> translate t (tables y) w = stage2 i x d w) /\ (t ∉ roots c s) /\ (forall r, r ∈ roots c s -> same_tree r (mm s) y).
Proof.
  intros Hi Hge Hd Hn Hu Hipa Hh. pose proof Hu as (_ & Hx & _). assert (Hsl : slot_nr i = i) by (unfold slot_nr; rewrite decide_False by lia; done).
  destruct (slot_size c Hlay G s i x Hi Hu) as ((Z1 & Z2) & _). pose proof (setup_need_bound x i ltac:(lia) Hipa) as Hnb.
  assert (Hneed : (setup_need x <= length (heap (mm s)))%nat) by lia. assert (i <> 1%nat) by lia.
  destruct (setup_ok c Hlay G s i d x Hi Hd) as (t & y & E & Hi' & Hlen & Htr & Hfresh & Hsame); [done..|by rewrite Hsl|done|done|].
  exists t, y. split_and!; [|done| |lia|done..].
  - intros m [->| ->]; [|done]. unfold construct_ME. erewrite kbind_ret by (by apply guest_of_run). cbn beta. rewrite (gi_id _ _ _ Hi i d Hd).
    erewrite kbind_ret by (by apply slot_of_run). cbn beta. destruct (Z.eqb_spec (size x) 0); [lia|]. kstep. done.
  - pose proof (gi_tables _ _ _ Hi' i (set_up x t d)) as Ht. unfold tables_ok in Ht. assert (Ep : pagetable (set_up x t d) = Some t) by (unfold set_up; by destruct (subdomain_shared d)).
    rewrite Ep in Ht. destruct Ht as (x' & Hx' & Hg); [apply put_eq; by eapply lookup_lt_Some|]. cbn [mm memslot put with_domains with_mm] in *.
    rewrite Hsl in Hx'. by assert (x' = x) as -> by congruence.
Qed.

(** A container that has just been set up. *)
Record injected G s s' i x (order : Z) (n : nat) (ipa p t : Z) (v : gnttab_t) : Prop := {
  in_inv : ginv c G s';
  in_slot : memslot s' = <[i := x]> (memslot s);
  in_placed : placed (B c) i x order n;
  in_ipa : ipa_addr x = ipa /\ busy x = true;
  in_dom : exists d, dom_at s' i d /\ pagetable d = Some t /\ avz_shared d = p;
  in_others : forall j, j <> i -> domains s' !! j = domains s !! j;
  in_trans : forall w, low w -> translate t (tables (mm s')) w =
    page_at (win_pfn x 0 * 4096) (pfn v * 4096) w (stage2 i x (fresh_guest i p) w);
  in_same : forall j e r w, dom_at s j e -> pagetable e = Some r -> low w -> translate r (tables (mm s')) w = translate r (tables (mm s)) w;
  in_sys : forall w, low w -> translate (sys_root c) (tables (mm s')) w =
    if decide (va i <= w < va i + size x) then Some (base_paddr x + (w - va i), leaf_attrs (Attr true false S1) (negb (base_paddr x =? va i)))
    else translate (sys_root c) (tables (mm s)) w
}.

Lemma inject_ok G s i sz ipa v : ginv c G s -> free_slot (memslot s) = Some i -> can_take s sz -> new_slot_ok i sz ipa -> vbstore_granted s i v ->
  (500 <= length (heap (mm s)))%nat ->
  exists s' x n p t, inject_me (sys_root c) sz ipa s = Ret (win_pfn x 0, s') /\ injected G s s' i x (order_of sz) n ipa p t v.
Proof.
  intros Hi Hfs (T1 & T2 & T3 & T4) Hnew Hv Hh. pose proof (free_slot_spec _ _ Hfs) as [Hir (x0 & Hx0 & Hfree)].
  destruct (get_slot_ok c Hlay G s i sz Hi Hfs T1 T2 T3 T4 ltac:(lia)) as (x1 & n & p & s1 & E1 & [K1 K2 K3 K4 K5 K6 K7 K8]).
  pose proof (lookup_lt_Some _ _ _ Hx0) as Hl. assert (Hld : (i < length (domains s))%nat) by (rewrite (gi_len _ _ _ Hi); unfold MEMSLOT_NR; lia).
  assert (Hd1 : dom_at s1 i (fresh_guest i p)) by (unfold dom_at; rewrite K5; by apply list_lookup_insert_eq).
  assert (Hu1 : in_use (memslot s1) i x1) by (split_and!; [lia|rewrite K2; by apply list_lookup_insert_eq|done]).
  destruct (set_ipa_ok G s1 i (fresh_guest i p) x1 ipa K1 ltac:(lia) Hd1 eq_refl Hu1) as [E2 Hi2]. set (x := set_ipa ipa x1) in *. set (s2 := with_memslot <[i := x]> s1) in *.
  assert (Hx2 : memslot s2 !! i = Some x) by (cbn [memslot s2 with_memslot]; apply list_lookup_insert_eq; by rewrite K2, length_insert).
  assert (Hipa : ipa_ok i x).
  { specialize (Hnew (base_paddr x1) (base_vaddr x1)). destruct (pages_pos (order_of sz) (pl_order _ _ _ _ _ K3)) as [_ Ep]. rewrite <- Ep, <- (pl_size _ _ _ _ _ K3) in Hnew. exact Hnew. }
  assert (Hu2 : in_use (memslot s2) i x) by (split_and!; [lia|done|done]).
  destruct (guest_construct_ok G s2 i (fresh_guest i p) x Hi2 ltac:(lia) Hd1 eq_refl Hu2 Hipa) as (t & y & E3 & Hi3 & Hg3 & Hlen3 & Htr3 & Hfresh3 & Hsame3); [cbn [mm s2 with_memslot]; lia|].
  specialize (E3 _ (or_introl eq_refl)). set (d := set_up x t (fresh_guest i p)) in *. set (s3 := put i d (with_mm y s2)) in *.
  assert (Hsl : slot_nr i = i) by (unfold slot_nr; rewrite decide_False by lia; done).
  assert (Hd3 : dom_at s3 i d) by (apply put_eq; cbn [domains with_mm s2 with_memslot]; by rewrite K5, length_insert).
  assert (Hv3 : vbstore_granted s3 i v).
  { destruct Hv as (a & k & Ha & Hf). exists a, k. split; [|done]. unfold dom_at, s3, put. cbn [domains with_domains with_mm s2 with_memslot].
    rewrite K5, !list_lookup_insert_ne by lia. done. }
  destruct (vbstore_new_ok G s3 i d t x 0 (GrantPfn (win_pfn x 0) true) v Hi3 Hd3 eq_refl) as (s4 & E4 & [M1 M2 M3 [M4 M4'] M5 M6 M7 M8]);
    [by rewrite Hsl|done|apply window_free|done|cbn [mm s3 put with_domains with_mm s2 with_memslot] in *; lia|].
  assert (Hroots : forall j e r, dom_at s j e -> pagetable e = Some r -> r ∈ roots c s2 /\ r ∈ roots c s3 /\ r <> t).
  { intros j e r He Hr. assert (Hji : j <> i) by (intros ->; by apply (not_live c G s i x0 Hi ltac:(lia) Hx0 Hfree e)).
    assert (He2 : dom_at s2 j e) by (unfold dom_at; cbn [domains s2 with_memslot]; by rewrite K5, list_lookup_insert_ne).
    assert (Hr2 : r ∈ roots c s2) by (by apply (roots_dom c s2 j e)). split_and!; [done| |by intros ->]. apply (roots_dom c s3 j e); [|done].
    unfold dom_at, s3, put in *. cbn [domains with_domains with_mm]. by rewrite list_lookup_insert_ne. }
  exists s4, x, n, p, t. split.
  - unfold inject_me. erewrite kbind_ret by exact E1. cbn beta. destruct (Z.eqb_spec (Z.of_nat i) (-1)); [lia|].
    erewrite kbind_ret by exact E2. cbn beta. erewrite kbind_ret by exact E3. cbn beta. exact E4.
  - split.
    + done.
    + rewrite M4. cbn [memslot s3 put with_domains with_mm s2 with_memslot]. by rewrite K2, list_insert_insert_eq.
    + by destruct K3.
    + done.
    + eexists. split; [exact M2|]. done.
    + intros j Hj. rewrite M3 by done. unfold s3, put. cbn [domains with_domains with_mm s2 with_memslot]. by rewrite K5, !list_lookup_insert_ne.
    + intros w Hw. rewrite M7 by done. unfold page_at. case_decide; [done|]. by apply Htr3.
    + intros j e r w He Hr Hw. destruct (Hroots j e r He Hr) as (R2 & R3 & Rt). etransitivity; [exact (same_translate r _ _ w (M8 r R3 Rt) Hw)|].
      etransitivity; [exact (same_translate r (mm s2) y w (Hsame3 r R2) Hw)|]. apply (same_translate r (mm s) (mm s1)); [|done].
      apply K7; [by apply (roots_dom c s j e)|]. by apply (gi_root _ _ _ Hi j e).
    + intros w Hw. assert (Rt : sys_root c <> t) by (intros E; apply Hfresh3; rewrite <- E; apply sys_in_roots).
      etransitivity; [exact (same_translate _ _ _ w (M8 (sys_root c) (sys_in_roots c s3) Rt) Hw)|].
      etransitivity; [exact (same_translate _ (mm s2) y w (Hsame3 _ (sys_in_roots c s2)) Hw)|]. by apply K8.
Qed.

(** A container that is restored into a reserved slot. *)
Definition restored (a : Z) d : guest := set_subdomain_paddr a (set_subdomain None d).

Lemma restore_context_ok G s i d x sp ipa : ginv c G s -> (2 <= i)%nat -> dom_at s i d -> pagetable d = None -> in_use (memslot s) i x ->
  let s' := with_memslot <[i := set_ipa ipa x]> (put i (restored sp d) s) in
  restore_domain_context (Z.of_nat i) None sp ipa s = Ret (tt, s') /\ ginv c G s' /\ dom_at s' i (restored sp d).
Proof.
  intros Hi Hge Hd Hn Hu s'. pose proof (lookup_lt_Some _ _ _ Hd) as Hld. set (s1 := put i (restored sp d) s) in *.
  assert (Hd1 : dom_at s1 i (restored sp d)) by (by apply put_eq).
  assert (Hi1 : ginv c G s1).
  { apply (ginv_put c G G s i _ d Hi Hd); [done|done|apply (gi_granted _ _ _ Hi)|done| |].
    - pose proof (gi_tables _ _ _ Hi i d Hd) as Ht. unfold tables_ok in *. cbn [pagetable restored set_subdomain_paddr set_subdomain grant_pfn]. by rewrite Hn in *.
    - destruct (gi_grants _ _ _ Hi i d Hd) as [R1 R2]. by split. }
  destruct (set_ipa_ok G s1 i (restored sp d) x ipa Hi1 Hge Hd1 Hn Hu) as [E2 Hi2]. split_and!; [|done|done].
  unfold restore_domain_context. erewrite kbind_ret by (by apply upd_dom_run). exact E2.
Qed.

Lemma restore_ok G s i d x sp ipa k v : ginv c G s -> (2 <= i)%nat -> dom_at s i d -> pagetable d = None -> in_use (memslot s) i x -> ipa_ok i (set_ipa ipa x) ->
  (k < NR_GRANT_PFN)%nat -> win_pfn (set_ipa ipa x) k * 4096 < 2 ^ 31 -> vbstore_granted s i v -> (500 <= length (heap (mm s)))%nat ->
  exists s', write_ME_snapshot (sys_root c) (Z.of_nat i) None sp ipa (win_pfn (set_ipa ipa x) k) s = Ret (tt, s') /\ ginv c G s'.
Proof.
  intros Hi Hge Hd Hn Hu Hipa Hk Hlt Hv Hh. pose proof Hu as (_ & Hx & Hb). pose proof (lookup_lt_Some _ _ _ Hx) as Hl. pose proof (lookup_lt_Some _ _ _ Hd) as Hld.
  destruct (restore_context_ok G s i d x sp ipa Hi Hge Hd Hn Hu) as (E2 & Hi2 & Hd2). set (x' := set_ipa ipa x) in *. set (d2 := restored sp d) in *.
  set (s2 := with_memslot <[i := x']> (put i d2 s)) in *.
  assert (Hx2 : memslot s2 !! i = Some x') by (cbn [memslot s2 with_memslot put with_domains]; by apply list_lookup_insert_eq).
  assert (Hu2 : in_use (memslot s2) i x') by (split_and!; [lia|done|done]).
  destruct (guest_construct_ok G s2 i d2 x' Hi2 Hge Hd2 Hn Hu2 Hipa) as (t & y & E3 & Hi3 & Hg3 & Hlen3 & _); [cbn [mm s2 with_memslot put with_domains]; lia|].
  specialize (E3 _ (or_intror eq_refl)). set (d' := set_up x' t d2) in *. set (s3 := put i d' (with_mm y s2)) in *.
  assert (Hsl : slot_nr i = i) by (unfold slot_nr; rewrite decide_False by lia; done).
  assert (Hd3 : dom_at s3 i d') by (apply put_eq; unfold s2, put; cbn [domains with_mm with_memslot with_domains]; by rewrite length_insert).
  assert (Hv3 : vbstore_granted s3 i v).
  { destruct Hv as (a & n & Ha & Hf). exists a, n. split; [|done]. unfold dom_at, s3, s2, put. cbn [domains with_domains with_mm with_memslot]. rewrite !list_lookup_insert_ne by lia. done. }
  destruct (vbstore_at_ok G s3 i d' t x' k v Hi3 Hd3 eq_refl) as (z & E4 & Hi4); [by rewrite Hsl|done|done|done|done|cbn [mm s3 s2 put with_domains with_mm with_memslot] in *; lia|].
  exists (with_mm z s3). split; [|done]. unfold write_ME_snapshot. erewrite kbind_ret by exact E2. cbn beta. erewrite kbind_ret by (by apply slot_of_run). cbn beta.
  erewrite kbind_ret by exact E3. cbn beta. erewrite kbind_ret by exact E4. done.
Qed.

(** ** The agency *)
Lemma slots_ok_agency l bm a b : slots_ok (B c) l bm -> l !! 1%nat = Some a -> slots_ok (B c) (<[1%nat := set_busy b a]> l) bm.
Proof.
  intros Hok Ha. pose proof (lookup_lt_Some _ _ _ Ha) as Hlt.
  assert (Hu : forall j z, in_use (<[1%nat := set_busy b a]> l) j z <-> in_use l j z).
  { intros j z. unfold in_use. split; intros (Hj & Hz & Hb); (split_and!; [done| |done]); [rewrite list_lookup_insert_ne in Hz by lia|rewrite list_lookup_insert_ne by lia]; done. }
  destruct Hok as [K1 (g & Hg & Eg) K3 K4 K5 K6]. assert (g = a) as -> by congruence. split.
  - by rewrite length_insert.
  - exists (set_busy b a). split; [by apply list_lookup_insert_eq|done].
  - done.
  - intros i x Hx%Hu. by apply K4.
  - intros ch Hc. rewrite K5 by done. by setoid_rewrite Hu.
  - intros i j x z ch Hne Hx%Hu Hz%Hu. by apply (K6 i j).
Qed.

Lemma agency_busy_ok G s a : ginv c G s -> memslot s !! 1%nat = Some a -> (forall i d, dom_at s i d -> (i <= 1)%nat -> pagetable d = None) ->
  ginv c G (with_memslot <[1%nat := set_busy true a]> s).
Proof.
  intros [H1 H2 H3 H4 H5 H6 H7 H8 H9 H10 H11 H12 H13 H14 H15] Ha Hn. pose proof (lookup_lt_Some _ _ _ Ha) as Hlt.
  split; cbn [mm memslot memchunk_bitmap with_memslot]; try done.
  - by apply slots_ok_agency.
  - destruct H2 as (g & Hg & E). assert (g = a) as -> by congruence. exists (set_busy true a). split; [by apply list_lookup_insert_eq|done].
  - intros j Hj. etransitivity; [by apply H7|]. unfold in_use. by setoid_rewrite list_lookup_insert_ne; [|lia..].
  - intros j z Hj. rewrite list_lookup_insert_ne by lia. by apply H12.
  - intros j e He. change (dom_at s j e) in He. pose proof (H13 j e He) as Ht. unfold tables_ok in *. destruct (pagetable e) as [r|] eqn:Er; [|done].
    destruct Ht as (z & Hz & Hg). exists z. cbn [memslot with_memslot]. split; [|done]. rewrite list_lookup_insert_ne; [done|].
    assert (2 <= j)%nat by (apply Nat.nlt_ge; intros Hj; specialize (Hn j e He ltac:(lia)); congruence). unfold slot_nr. rewrite decide_False by lia. lia.
Qed.

(** A part of the system's address space below the slots is mapped. *)
Lemma sys_map_ok G s v p sz y : ginv c G s -> 0 <= v -> v + sz <= va 2 -> remapped (roots c s) (mm s) y (sys_root c) v p sz (Attr true false S1) -> ginv c G (with_mm y s).
Proof.
  intros Hi Hv Hend Hm. apply (ginv_mmu c G s y Hi); [apply Hm| |apply Hm| |].
  - destruct (re_heap _ _ _ _ _ _ _ _ Hm) as (n & _ & ->). intros t. apply subseteq_drop.
  - intros j z Hj Hz. destruct (slot_bound c Hlay G s j z Hi Hj Hz) as [Hj7 Hjs]. destruct (va_low j ltac:(lia)) as (V1 & V2 & _).
    assert (Hout : forall w, va j <= w < va (S j) -> low w /\ ~ (v <= w < v + sz)).
    { intros w Hw. rewrite va_step in Hw. assert (va 2 <= va j) by (unfold va; lia). unfold low. lia. }
    apply (sys_ok_moved c (tables (mm s))); [by apply Hi|done|done| |].
    + intros w Hw. destruct (Hout w Hw) as [W1 W2]. rewrite (re_trans _ _ _ _ _ _ _ _ Hm w W1). by rewrite decide_False.
    + intros w a b Hw. destruct (Hout w Hw) as [W1 W2]. by apply (re_keep _ _ _ _ _ _ _ _ Hm).
  - intros j e He. pose proof (gi_tables _ _ _ Hi j e He) as Ht. unfold tables_ok in *. destruct (pagetable e) as [r|] eqn:Er; [|done]. destruct Ht as (z & Hz & Hg). exists z.
    split; [done|]. apply (guest_ok_same G G (tables (mm s))); [done|done|]. apply (re_other _ _ _ _ _ _ _ _ Hm r); [by apply (roots_dom c s j e)|]. by apply (gi_root _ _ _ Hi j e).
Qed.

(** Where the agency may be mapped. *)
Definition agency_va_ok s a : Prop :=
  0 <= base_vaddr a /\ base_vaddr a mod 4096 = 0 /\ base_vaddr a + size a <= va 2 /\
  (forall w, base_vaddr a <= w < base_vaddr a + size a -> translate (sys_root c) (tables (mm s)) w = None) /\
  (3 * chunks (2 ^ 21) (base_vaddr a) (base_vaddr a + size a) + setup_need a <= length (heap (mm s)))%nat.

Lemma agency_ok G s soo d e a : ginv c G s -> dom_at s 0 d -> dom_at s 1 e -> pagetable d = None -> pagetable e = None -> memslot s !! 1%nat = Some a ->
  ipa_ok 0 a -> agency_va_ok s a ->
  exists s' t d', construct_agency (sys_root c) soo s = Ret (tt, s') /\ ginv c G s' /\ dom_at s' 0 d' /\ pagetable d' = Some t /\
    subdomain_shared d' = (if soo : bool then Some (avz_shared e) else subdomain_shared d) /\
    (forall w, low w -> translate t (tables (mm s')) w = stage2 0 (set_busy true a) (if soo : bool then set_subdomain (Some (avz_shared e)) d else d) w).
Proof.
  intros Hi Hd He Hn Hne Ha Hipa (V1 & V2 & V3 & V4 & V5). destruct (slot_facts c Hlay G s 0 d a Hi Hd Ha) as (F1 & F2 & F3 & F4 & F5).
  destruct Hlay as [L1 L2 (L3 & _) L4]. pose proof (va_low 2 ltac:(lia)) as (W1 & W2 & _). change (2 ^ 32) with 4294967296 in *. change (2 ^ 48) with 281474976710656 in *.
  destruct (forest_map (roots c s) (mm s) (gi_forest _ _ _ Hi) (sys_root c) None (base_vaddr a) (base_paddr a) (size a) (Attr true false S1)) as (y & E1 & Hm);
    [apply sys_in_roots|lia|lia|done|dlia|done|change (2 ^ 48) with 281474976710656; lia|lia|change (2 ^ 48) with 281474976710656; lia|intros w Hw; apply unmapped_noblock; by apply V4|lia|].
  change (remapped (roots c s) (mm s) y (sys_root c) (base_vaddr a) (base_paddr a) (size a) (Attr true false S1)) in Hm.
  pose proof (sys_map_ok G s _ _ _ y Hi V1 V3 Hm) as Hi1. destruct (re_heap _ _ _ _ _ _ _ _ Hm) as (n & Hnn & En).
  set (s1 := with_mm y s) in *. assert (Hi2 : ginv c G (with_memslot <[1%nat := set_busy true a]> s1)).
  { apply agency_busy_ok; [done|done|]. intros j f Hf Hj. assert (Hj' : j = 0%nat \/ j = 1%nat) by lia. destruct Hj' as [->| ->]; unfold dom_at in *; cbn [s1 domains with_mm] in Hf; congruence. }
  set (s2 := with_memslot <[1%nat := set_busy true a]> s1) in *. pose proof (lookup_lt_Some _ _ _ Ha) as Hla. pose proof (lookup_lt_Some _ _ _ Hd) as Hld.
  set (d3 := if soo then set_subdomain (Some (avz_shared e)) d else d). set (s3 := if soo then put 0 d3 s2 else s2).
  assert (Hd2 : dom_at s2 0 d) by done. assert (Hd3 : dom_at s3 0 d3) by (unfold s3, d3; destruct soo; [by apply (put_eq s2)|done]).
  assert (Hi3 : ginv c G s3).
  { unfold s3. destruct soo; [|done]. apply (ginv_put c G G s2 0 _ d Hi2 Hd2); [done|done|apply (gi_granted _ _ _ Hi2)| | |].
    - cbn [subdomain_shared d3 set_subdomain]. intros p [= <-]. split; [done|]. by exists e.
    - unfold tables_ok. cbn [pagetable d3 set_subdomain]. rewrite Hn. pose proof (gi_tables _ _ _ Hi2 0%nat d Hd2) as Ht. unfold tables_ok in Ht. by rewrite Hn in Ht.
    - destruct (gi_grants _ _ _ Hi2 0%nat d Hd2) as [R1 R2]. by split. }
  assert (E3 : memslot s3 !! 1%nat = Some (set_busy true a)) by (unfold s3; destruct soo; cbn [memslot put with_domains s2 with_memslot s1 with_mm]; by apply list_lookup_insert_eq).
  assert (Hh3 : heap (mm s3) = heap y) by (unfold s3; by destruct soo).
  destruct (setup_ok c Hlay G s3 0 d3 (set_busy true a) Hi3 Hd3) as (t & z & E4 & Hi4 & _ & Htr & _); [done|by unfold d3; destruct soo|done|done| |].
  { rewrite Hh3, En, length_drop. change (setup_need (set_busy true a)) with (setup_need a). lia. }
  eexists _, t, (set_up (set_busy true a) t d3). split_and!; [|exact Hi4|apply put_eq; by eapply lookup_lt_Some| | |].
  - unfold construct_agency. erewrite kbind_ret by (by apply (slot_of_run s 1 a)). cbn beta. erewrite kbind_ret by (apply guest_mmu_ret; exact E1). cbn beta.
    erewrite kbind_ret by (by apply (upd_slot_run s1 1 a)). cbn beta. destruct (Z.eqb_spec (size a) 0); [lia|]. kstep.
    erewrite kbind_ret; [exact E4|]. unfold s3, d3. destruct soo; cbn [when]; [|done].
    erewrite kbind_ret by (by apply (guest_of_run s2 1 e)). cbn beta. by apply (upd_dom_run s2 0 d).
  - unfold set_up. by destruct (subdomain_shared d3).
  - assert (Es : subdomain_shared (set_up (set_busy true a) t d3) = subdomain_shared d3) by (unfold set_up; destruct (subdomain_shared d3) eqn:E; by cbn; rewrite ?E).
    rewrite Es. unfold d3. by destruct soo.
  - exact Htr.
Qed.

(** More pages for the heap. *)
Definition spare s (t : Z) : Prop :=
  lo c <= t /\ t + 4096 <= hi c /\ t mod 4096 = 0 /\ (t ∉ heap (mm s)) /\ tables (mm s) !! t = None /\ forall i d, dom_at s i d -> avz_shared d <> t.
Definition refill (t : Z) : kern avz unit := modify (fun s => with_mm (MkMmu (tables (mm s)) (heap (mm s) ++ [t])) s).

Lemma refill_ok G s t : ginv c G s -> spare s t -> exists s', refill t s = Ret (tt, s') /\ ginv c G s'.
Proof.
  intros Hi (P1 & P2 & P3 & P4 & P5 & P6). eexists. split; [reflexivity|]. destruct Hi as [H1 H2 H3 H4 H5 H6 H7 H8 H9 H10 H11 H12 H13 H14 H15].
  destruct Hlay as [L1 L2 (L3 & _) L4]. change (2 ^ 32) with 4294967296 in L4. pose proof (fo_heap _ _ H4) as [Hnd Hfr].
  destruct (forest_heap (roots c s) (mm s) H4 (heap (mm s) ++ [t])) as [Hf _].
  { apply NoDup_app. split_and!; [done| |apply NoDup_singleton]. intros u Hu ->%list_elem_of_singleton. done. }
  { intros u [Hu| ->%list_elem_of_singleton]%elem_of_app; [by apply Hfr|]. change (2 ^ 48) with 281474976710656. split_and!; [done|lia|lia|done]. }
  split; cbn [mm memslot memchunk_bitmap with_mm tables heap]; try done.
  - intros u [[Hu| ->%list_elem_of_singleton]%elem_of_app|Hu]; [by apply H5; left|done|by apply H5; right].
  - intros i d Hd. destruct (H9 i d Hd) as (K1 & K2 & K3 & K4 & K5). split_and!; [done..| |done]. cbn [mm with_mm heap]. rewrite elem_of_app, list_elem_of_singleton.
    intros [?|E]; [done|]. by apply (P6 i d Hd).
Qed.
End ops.

End GuestOps.
