(* ===== verification/GuestSpec.v ===== *)
(** What the hypervisor promises its guests about memory, for every run of the
    operations that set guests up, remove them and share pages between them. *)
From S2P Require Import Prelude Bitmap Frames Mmu MmuMap MmuReset MmuCreate MmuSpec MmuForest Guest GuestSlots GuestInv GuestGrants GuestSetup GuestLife GuestOps.

Module GuestSpec.
Import Mmu MmuMap MmuCreate MmuSpec MmuForest Guest GuestSlots GuestInv GuestGrants GuestSetup GuestLife GuestOps.
Implicit Types (s : avz) (d e : guest) (x : memslot_entry_t) (y : mmu) (G : list (Z * Z)) (i j : nat).

(** ** Operations *)
Inductive op :=
  | Boot (soo : bool)                            (* construct_agency *)
  | Inject (sz ipa : Z)                          (* inject_me *)
  | Reserve (sz : Z)                             (* write_ME_snapshot, first call *)
  | Restore (i : nat) (sub : option Z) (sub_paddr ipa vbstore_pfn : Z) (* write_ME_snapshot, second call *)
  | Hypercall (i : nat) (a : gnttab_op_t)        (* do_gnttab by domain i *)
  | Shutdown (i : nat)                           (* shutdown_ME *)
  | Refill (t : Z).                              (* the heap gives a page *)

Definition exec (c : config) (o : op) : kern avz unit :=
  match o with
  | Boot soo => construct_agency (sys_root c) soo
  | Inject sz ipa => _ ← inject_me (sys_root c) sz ipa; mret tt
  | Reserve sz => _ ← get_ME_free_slot (sys_root c) sz; mret tt
  | Restore i sub sp ipa p => write_ME_snapshot (sys_root c) (Z.of_nat i) sub sp ipa p
  | Hypercall i a => _ ← do_gnttab (sys_root c) (Z.of_nat i) a; mret tt
  | Shutdown i => shutdown_ME (sys_root c) (Z.of_nat i)
  | Refill t => refill t
  end.

(** A guest grants only frames of its own memory, and a snapshot names no shared
    page of another domain; the rest are the conditions under which the code does not
    stop the machine, and memory for tables. *)
Definition hypercall_ok s i d (a : gnttab_op_t) : Prop :=
  if decide (op_cmd a = GNTTAB_grant_page) then
    exists x, memslot s !! Z.to_nat (DOM_TO_MEMSLOT (domID d)) = Some x /\ own_frame x (op_pfn a) /\ 0 <= ipa_addr x < 2 ^ 48 /\ ipa_addr x mod 4096 = 0 /\
      get_ref_max (gnttab d) < 2 ^ 32 - 1
  else if decide (op_cmd a = GNTTAB_map_page) then
    exists j o r x k g (e : gnttab_t), dom_at s j o /\ op_domid a = Z.of_nat j /\ pagetable d = Some r /\ memslot s !! slot_nr i = Some x /\
      pick_granted_entry (Z.of_nat i) (op_ref a) (op_domid a) s = Ret (Some e, s) /\
      list_find (fun g => gp_free g = true) (grant_pfn d) = Some (k, g) /\ (3 <= length (heap (mm s)))%nat
  else True.
Definition enabled (c : config) s (o : op) : Prop :=
  match o with
  | Boot _ => exists d e a, dom_at s 0 d /\ dom_at s 1 e /\ pagetable d = None /\ pagetable e = None /\ memslot s !! 1%nat = Some a /\ ipa_ok 0 a /\ agency_va_ok c s a
  | Inject sz ipa => exists i v, free_slot (memslot s) = Some i /\ can_take s sz /\ new_slot_ok i sz ipa /\ vbstore_granted s i v /\ (500 <= length (heap (mm s)))%nat
  | Reserve sz => exists i, free_slot (memslot s) = Some i /\ can_take s sz /\ (193 <= length (heap (mm s)))%nat
  | Restore i sub _ ipa p => exists d x k v, sub = None /\ (2 <= i)%nat /\ dom_at s i d /\ pagetable d = None /\ in_use (memslot s) i x /\ ipa_ok i (set_ipa ipa x) /\ (k < NR_GRANT_PFN)%nat /\
      p = win_pfn (set_ipa ipa x) k /\ p * 4096 < 2 ^ 31 /\ vbstore_granted s i v /\ (500 <= length (heap (mm s)))%nat
  | Hypercall i a => exists d, dom_at s i d /\ hypercall_ok s i d a
  | Shutdown i => (2 <= i)%nat /\ exists d r, dom_at s i d /\ pagetable d = Some r
  | Refill t => spare c s t
  end.

(** The grants an operation makes: to whom, which frame. *)
Definition log s (o : op) : list (Z * Z) :=
  match o with
  | Hypercall i a =>
      if decide (op_cmd a = GNTTAB_grant_page) then
        match mjoin (domains s !! i) ≫= (fun d => memslot s !! Z.to_nat (DOM_TO_MEMSLOT (domID d))) with
        | Some x => [(op_domid a, granted_frame x (op_pfn a))]
        | None => []
        end
      else []
  | _ => []
  end.

Inductive runs (c : config) : list op -> avz -> list (Z * Z) -> avz -> list (Z * Z) -> Prop :=
  | runs_nil s G : runs c [] s G s G
  | runs_cons o l s s1 s2 G G2 : enabled c s o -> exec c o s = Ret (tt, s1) -> runs c l s1 (log s o ++ G) s2 G2 -> runs c (o :: l) s G s2 G2.

Section spec.
Context (c : config) (Hlay : layout c).

Lemma hypercall_step G s i d a : ginv c G s -> dom_at s i d -> hypercall_ok s i d a ->
  exists a' s', do_gnttab (sys_root c) (Z.of_nat i) a s = Ret (a', s') /\ ginv c (log s (Hypercall i a) ++ G) s'.
Proof.
  intros Hi Hd Hok. unfold hypercall_ok in Hok. cbn [log]. destruct (decide (op_cmd a = GNTTAB_grant_page)) as [Eg|Eg].
  { destruct Hok as (x & Hx & Ho & Hipa & Hal & Hmax). destruct (grant_ok c Hlay G s i d x a Hi Hd Eg Hx Ho Hipa Hal Hmax) as (E & Hi' & _).
    eexists _, _. split; [exact E|]. unfold dom_at in Hd. rewrite Hd. cbn. rewrite Hx. exact Hi'. }
  destruct (decide (op_cmd a = GNTTAB_map_page)) as [Em|Em].
  { destruct Hok as (j & o & r & x & k & g & e & Ho & Hj & Hr & Hx & Hp & Hf & Hh).
    destruct (map_ok c Hlay G s i j d o r x k g e a Hi Hd Hr Hx Ho Em Hj Hp Hf Hh) as (s' & E & Hm & _). eexists _, s'. split; [exact E|apply Hm]. }
  destruct (decide (op_cmd a = GNTTAB_revoke_page)) as [Er|Er].
  { destruct (revoke_ok c G s i d a Hi Hd Er) as (E & Hi' & _). eexists _, _. split; [exact E|exact Hi']. }
  exists a, s. split; [|exact Hi]. unfold do_gnttab. apply Z.eqb_neq in Eg, Em, Er. by rewrite Eg, Er, Em.
Qed.

Lemma op_step G s o : ginv c G s -> enabled c s o -> exists s', exec c o s = Ret (tt, s') /\ ginv c (log s o ++ G) s'.
Proof.
  intros Hi He. destruct o as [soo|sz ipa|sz|i sub sp ipa p|i a|i|t]; cbn [enabled exec log] in *.
  - destruct He as (d & e & a & Hd & Hde & Hn & Hne & Ha & Hipa & Hva). destruct (agency_ok c Hlay G s soo d e a Hi Hd Hde Hn Hne Ha Hipa Hva) as (s' & t & d' & E & Hi' & _). eauto.
  - destruct He as (i & v & Hf & Ht & Hnew & Hv & Hh). destruct (inject_ok c Hlay G s i sz ipa v Hi Hf Ht Hnew Hv Hh) as (s' & x & n & p & t & E & Hin).
    exists s'. split; [erewrite kbind_ret by exact E; done|apply Hin].
  - destruct He as (i & Hf & (T1 & T2 & T3 & T4) & Hh). destruct (get_slot_ok c Hlay G s i sz Hi Hf T1 T2 T3 T4 Hh) as (x & n & p & s' & E & Hk).
    exists s'. split; [erewrite kbind_ret by exact E; done|apply Hk].
  - destruct He as (d & x & k & v & -> & Hge & Hd & Hn & Hu & Hipa & Hk & -> & Hlt & Hv & Hh). by apply (restore_ok c Hlay G s i d x sp ipa k v).
  - destruct He as (d & Hd & Hok). destruct (hypercall_step G s i d a Hi Hd Hok) as (a' & s' & E & Hi'). exists s'. split; [erewrite kbind_ret by exact E; done|exact Hi'].
  - destruct He as (Hge & d & r & Hd & Hr). destruct (proj1 (gi_live _ _ _ Hi i Hge)) as [x Hu]; [by exists d|].
    destruct (guest_shutdown_ok c Hlay G s i d x r Hi Hge Hd Hr Hu) as (s' & E & Hi' & _). eauto.
  - by apply (refill_ok c Hlay).
Qed.

Lemma runs_ginv l s G s' G' : runs c l s G s' G' -> ginv c G s -> ginv c G' s'.
Proof.
  induction 1 as [|o l s s1 s2 G G2 He E _ IH]; intros Hi; [done|]. apply IH. destruct (op_step G s o Hi He) as (s1' & E' & Hi'). by assert (s1' = s1) as -> by congruence.
Qed.

(** ** Isolation *)
(** Slots of different domains do not overlap. *)
Lemma slots_apart G s i j d e x z pa : ginv c G s -> dom_at s i d -> dom_at s j e -> slot_nr i <> slot_nr j ->
  memslot s !! slot_nr i = Some x -> memslot s !! slot_nr j = Some z -> base_paddr x <= pa < base_paddr x + size x -> ~ (base_paddr z <= pa < base_paddr z + size z).
Proof.
  intros Hi Hd He Hne Hx Hz Hpa Hpz. destruct (gi_agency _ _ _ Hi) as (a & Ha & EA). destruct (sl_agency _ _ _ (gi_slots _ _ _ Hi)) as (a' & Ha' & EB).
  assert (a' = a) as -> by congruence.
  assert (Hcase : forall k f w, dom_at s k f -> memslot s !! slot_nr k = Some w -> slot_nr k = 1%nat /\ w = a \/ in_use (memslot s) (slot_nr k) w).
  { intros k f w Hk Hw. unfold slot_nr in *. destruct (decide (k = 0%nat)); [left; split; [done|congruence]|]. destruct (decide (k = 1%nat)) as [->|]; [left; split; [done|congruence]|].
    right. destruct (proj1 (gi_live _ _ _ Hi k ltac:(lia))) as [w' Hw']; [by exists f|]. assert (w' = w) as -> by (destruct Hw' as (_ & ? & _); congruence). done. }
  destruct (Hcase i d x Hd Hx) as [[E1 ->]|Hu1], (Hcase j e z He Hz) as [[E2 ->]|Hu2]; [lia|..].
  - destruct (slot_size c Hlay G s _ z Hi Hu2) as (_ & _ & K & _). lia.
  - destruct (slot_size c Hlay G s _ x Hi Hu1) as (_ & _ & K & _). lia.
  - destruct (sl_placed _ _ _ (gi_slots _ _ _ Hi) _ _ Hu1) as (o1 & n1 & [P1 P2 P3 P4 _]), (sl_placed _ _ _ (gi_slots _ _ _ Hi) _ _ Hu2) as (o2 & n2 & [Q1 Q2 Q3 Q4 _]).
    assert (Hch : owns (B c) x (Z.to_nat ((pa - B c) / CH)) /\ owns (B c) z (Z.to_nat ((pa - B c) / CH))).
    { unfold owns. rewrite P3, P4, Q3, Q4 in *. set (m1 := (n1 * pages o1)%nat) in *. set (m2 := (n2 * pages o2)%nat) in *. clearbody m1 m2. dlia. }
    destruct Hch as [C1 C2]. by apply (sl_disj _ _ _ (gi_slots _ _ _ Hi) _ _ x z _ Hne Hu1 Hu2 C1).
Qed.

Lemma dev_below i ipa ph sz : (ipa, ph, sz) ∈ ipamap_of i -> ph + sz <= 184549376.
Proof. intros H. by apply dev_chunks in H as (_ & _ & _ & _ & _ & _ & _ & ? & _). Qed.

Lemma shared_below G s i d p : ginv c G s -> dom_at s i d -> p = avz_shared d \/ subdomain_shared d = Some p -> lo c <= p /\ p + 4096 <= hi c /\ p mod 4096 = 0 /\ tables (mm s) !! p = None.
Proof.
  intros Hi Hd [->|Hp]; [destruct (gi_shared _ _ _ Hi i d Hd) as (? & ? & ? & _ & ?); done|].
  destruct (gi_sub _ _ _ Hi i d p Hd Hp) as [_ (e & He & <-)]. destruct (gi_shared _ _ _ Hi 1%nat e He) as (? & ? & ? & _ & ?). done.
Qed.

Lemma isolated G s i d r w pa at_ : ginv c G s -> dom_at s i d -> pagetable d = Some r -> low w -> translate r (tables (mm s)) w = Some (pa, at_) ->
  (forall j e x, dom_at s j e -> slot_nr j <> slot_nr i -> memslot s !! slot_nr j = Some x -> base_paddr x <= pa < base_paddr x + size x -> (Z.of_nat i, pa / 4096) ∈ G) /\
  (lo c <= pa < hi c -> exists p, (p = avz_shared d \/ subdomain_shared d = Some p) /\ p <= pa < p + 4096) /\
  (forall t, is_Some (tables (mm s) !! t) -> t mod 4096 = 0 -> ~ (t <= pa < t + 4096)).
Proof.
  intros Hi Hd Hr Hw Htr. pose proof (gi_tables _ _ _ Hi i d Hd) as Ht. unfold tables_ok in Ht. rewrite Hr in Ht. destruct Ht as (x & Hx & Hg).
  pose proof (go_trans _ _ _ _ _ _ Hg w pa at_ Hw Htr) as Hal. destruct (slot_facts c Hlay G s i d x Hi Hd Hx) as (F1 & F2 & _). pose proof Hlay as [L1 L2 (L3 & _) L4].
  assert (Hhyp : lo c <= pa < hi c -> exists p, (p = avz_shared d \/ subdomain_shared d = Some p) /\ p <= pa < p + 4096).
  { intros Hin. destruct Hal as [?|[?|[(p & Hp & ?)|[(ipa & ph & sz & Hin' & ?)|HG]]]]; [lia|eauto|eauto|apply dev_below in Hin'; lia|].
    destruct (gi_granted _ _ _ Hi _ _ HG) as [K1 K2]. dlia. }
  split_and!; [|done|].
  - intros j e z He Hne Hz Hpz. destruct (slot_facts c Hlay G s j e z Hi He Hz) as (K1 & K2 & _).
    destruct Hal as [Ho|[Hs|[(p & Hp & Hs)|[(ipa & ph & sz & Hin' & ?)|HG]]]]; [|..|done].
    + by destruct (slots_apart G s i j d e x z pa Hi Hd He (not_eq_sym Hne) Hx Hz Ho).
    + destruct (shared_below G s i d _ Hi Hd (or_introl eq_refl)). lia.
    + destruct (shared_below G s i d p Hi Hd (or_intror Hp)). lia.
    + apply dev_below in Hin'. lia.
  - intros t Hts Htm Hpa. destruct (gi_avz _ _ _ Hi t (or_intror Hts)) as [K1 K2]. destruct (Hhyp ltac:(lia)) as (p & Hp & Hin).
    destruct (shared_below G s i d p Hi Hd Hp) as (P1 & P2 & P3 & P4). assert (t = p) as -> by dlia. rewrite P4 in Hts. by destruct Hts.
Qed.
End spec.

End GuestSpec.
