(* ===== verification/GuestRuns.v ===== *)
(** The theorems on the memory of guests, from the state the hypervisor has after
    start-up, with a concrete machine on which they are evaluated. *)
From S2P Require Import Prelude Bitmap Frames Mmu MmuMap MmuReset MmuCreate MmuSpec MmuForest Guest GuestSlots GuestInv GuestGrants GuestSetup GuestLife GuestOps GuestSpec.

Module GuestRuns.
Import Mmu MmuMap MmuCreate MmuSpec MmuForest Guest GuestSlots GuestInv GuestGrants GuestSetup GuestLife GuestOps GuestSpec.
Implicit Types (s : avz) (d e : guest) (x : memslot_entry_t) (y : mmu) (G : list (Z * Z)) (i j : nat).

(** ** After start-up *)
(** The agency's image is loaded, the two domains of the agency exist without page
    tables, and there is no container. *)
Record boot (c : config) s : Prop := {
  bo_slots : length (memslot s) = MEMSLOT_NR /\ forall i x, (2 <= i)%nat -> memslot s !! i = Some x -> busy x = false;
  bo_agency : exists a, memslot s !! 1%nat = Some a /\ base_paddr a = A c /\ base_paddr a + size a = B c;
  bo_chunks : bitmap_ok (memchunk_bitmap s) ME_MEMCHUNK_NR /\ forall ch, (ch < ME_MEMCHUNK_NR)%nat -> getbit (memchunk_bitmap s) ch = false;
  bo_table : forest {[sys_root c]} (mm s);
  bo_clear : forall w, va 2 <= w < va 7 -> translate (sys_root c) (tables (mm s)) w = None;
  bo_avz : forall t, t ∈ heap (mm s) \/ is_Some (tables (mm s) !! t) -> lo c <= t /\ t + 4096 <= hi c;
  bo_doms : exists p q l, domains s = Some (fresh_guest 0 p) :: Some (fresh_guest 1 q) :: l /\ l = replicate 5 None /\ p <> q /\
    shared_ok c s 0 (fresh_guest 0 p) /\ shared_ok c s 1 (fresh_guest 1 q)
}.

Lemma boot_dom c s i d : boot c s -> dom_at s i d -> (i <= 1)%nat /\ (exists p, d = fresh_guest i p) /\ shared_ok c s i d.
Proof.
  intros [_ _ _ _ _ _ (p & q & l & E & -> & _ & Hp & Hq)] Hd. unfold dom_at in Hd. rewrite E in Hd.
  destruct i as [|[|i]]; cbn in Hd.
  - injection Hd as <-. split_and!; [lia|by exists p|done].
  - injection Hd as <-. split_and!; [lia|by exists q|done].
  - change (replicate 5 (@None guest) !! i = Some (Some d)) in Hd. by apply lookup_replicate in Hd as [? _].
Qed.

Lemma boot_roots c s : boot c s -> roots c s = {[sys_root c]}.
Proof.
  intros Hb. apply set_eq. intros r. rewrite elem_of_roots, elem_of_singleton. split; [|by left]. intros [?|(i & d & Hd & Hr)]; [done|].
  by destruct (boot_dom c s i d Hb Hd) as (_ & [p ->] & _).
Qed.

Lemma boot_slots c s : boot c s -> slots_ok (B c) (memslot s) (memchunk_bitmap s).
Proof.
  intros [[L1 L2] (a & Ha & _ & EB) [C1 C2] _ _ _ _].
  assert (Hno : forall i x, ~ in_use (memslot s) i x) by (intros i x (Hi & Hx & Hb); rewrite (L2 i x Hi Hx) in Hb; done).
  split; [done|by exists a|done| | |].
  - intros i x Hx. by destruct (Hno i x).
  - intros ch Hc. rewrite (C2 ch Hc). split; [done|]. intros (i & x & Hx & _). by destruct (Hno i x).
  - intros i j x y ch _ Hx. by destruct (Hno i x).
Qed.

Lemma boot_ginv c s : boot c s -> ginv c [] s.
Proof.
  intros Hb. pose proof (boot_slots c s Hb) as Hs. pose proof (boot_roots c s Hb) as Hr. pose proof (fun i d => boot_dom c s i d Hb) as Hd.
  destruct Hb as [[L1 L2] (a & Ha & EA & EB) _ T1 T2 T3 (p & q & l & E & -> & Hpq & _)]. split; try done.
  - by exists a.
  - by rewrite E.
  - by rewrite Hr.
  - intros i d (_ & [? ->] & _)%Hd. done.
  - intros i Hi. split; [intros [d (? & _)%Hd]; lia|]. intros (x & _ & Hx & Hb). rewrite (L2 i x Hi Hx) in Hb. done.
  - intros i d r (_ & [? ->] & _)%Hd. done.
  - intros i d (_ & _ & ?)%Hd. done.
  - intros i j d e Hi Hj Eij. destruct (Hd i d Hi) as (Hi1 & _), (Hd j e Hj) as (Hj1 & _). unfold dom_at in *. rewrite E in *.
    destruct i as [|[|]], j as [|[|]]; cbn in *; try lia; simplify_eq/=.
  - intros i d ? (_ & [? ->] & _)%Hd. done.
  - intros i x Hi Hx. unfold sys_ok. rewrite (L2 i x Hi Hx). assert (i < 7)%nat by (apply lookup_lt_Some in Hx; by rewrite L1 in Hx). split; [lia|].
    intros w Hw. apply T2. rewrite va_step in *. unfold va in *. lia.
  - intros i d (_ & [? ->] & _)%Hd. unfold tables_ok. cbn. intros g Hg. by repeat (apply elem_of_cons in Hg as [->|Hg]; [done|]); apply elem_of_nil in Hg.
  - intros i d (_ & [? ->] & _)%Hd. split; [by intros g ?%elem_of_nil|constructor].
  - by intros t r ?%elem_of_nil.
Qed.




(** C9: A container that is injected and shut down leaves no trace in the hypervisor's bookkeeping: the chunks, the domains and the slots that are busy are those from before, its slot is free and its memory is no longer mapped in the hypervisor. *)
Theorem container_roundtrip c G s i sz ipa v : layout c -> ginv c G s -> free_slot (memslot s) = Some i -> can_take s sz -> new_slot_ok i sz ipa ->
  vbstore_granted s i v -> (500 <= length (heap (mm s)))%nat ->
  exists p s1 s2, inject_me (sys_root c) sz ipa s = Ret (p, s1) /\ shutdown_ME (sys_root c) (Z.of_nat i) s1 = Ret (tt, s2) /\ ginv c G s2 /\
    domains s2 = domains s /\ (busy <$> memslot s2) = (busy <$> memslot s) /\ (forall j, j <> i -> memslot s2 !! j = memslot s !! j) /\
    (forall ch, (ch < ME_MEMCHUNK_NR)%nat -> getbit (memchunk_bitmap s2) ch = getbit (memchunk_bitmap s) ch) /\
    (forall w, va i <= w < va (S i) -> translate (sys_root c) (tables (mm s2)) w = None) /\ free_slot (memslot s2) = Some i.
Proof.
  intros Hl Hi Hf Ht Hn Hv Hh. destruct (inject_ok c Hl G s i sz ipa v Hi Hf Ht Hn Hv Hh) as (s1 & x & n & p & t & E & [K1 K2 K3 [K4 K4'] (d & D1 & D2 & D3) K6 K7 K8 K9]).
  pose proof (free_slot_spec _ _ Hf) as [Hir (x0 & Hx0 & Hfree)]. pose proof (lookup_lt_Some _ _ _ Hx0) as Hlt.
  assert (Hu : in_use (memslot s1) i x) by (split_and!; [lia|rewrite K2; by apply list_lookup_insert_eq|done]).
  destruct (guest_shutdown_ok c Hl G s1 i d x t K1 ltac:(lia) D1 D2 Hu) as (s2 & E2 & I2 & M2 & D4 & _).
  assert (Ems : memslot s2 = <[i := set_busy false x]> (memslot s)) by (by rewrite M2, K2, list_insert_insert_eq).
  assert (Edom : domains s2 = domains s).
  { apply list_eq. intros j. rewrite D4. destruct (decide (j = i)) as [->|Hne]; [|rewrite list_lookup_insert_ne by done; by apply K6].
    assert (Hil : (i < length (domains s1))%nat) by (by eapply lookup_lt_Some). rewrite list_lookup_insert_eq by done.
    assert (Hil2 : (i < length (domains s))%nat) by (rewrite (gi_len _ _ _ Hi), <- (gi_len _ _ _ K1); done).
    apply lookup_lt_is_Some in Hil2 as [[e|] He]; [|done]. by destruct (not_live c G s i x0 Hi ltac:(lia) Hx0 Hfree e). }
  assert (Hin : forall j z, in_use (memslot s2) j z <-> in_use (memslot s) j z).
  { intros j z. unfold in_use. rewrite Ems. destruct (decide (j = i)) as [->|Hne]; [|by rewrite list_lookup_insert_ne].
    rewrite list_lookup_insert_eq by done. split; intros (? & ? & ?); simplify_eq/=; congruence. }
  exists (win_pfn x 0), s1, s2. split_and!; try done.
  - rewrite Ems. apply list_eq. intros j. rewrite !list_lookup_fmap. destruct (decide (j = i)) as [->|Hne]; [|by rewrite list_lookup_insert_ne].
    rewrite list_lookup_insert_eq, Hx0 by done. cbn. by rewrite Hfree.
  - intros j Hj. by rewrite Ems, list_lookup_insert_ne.
  - intros ch Hc. apply eq_bool_prop_intro. rewrite !Is_true_true. rewrite (sl_bits _ _ _ (gi_slots _ _ _ I2) ch Hc), (sl_bits _ _ _ (gi_slots _ _ _ Hi) ch Hc).
    by setoid_rewrite Hin.
  - destruct (gi_sys _ _ _ I2 i (set_busy false x)) as [_ S2']; [lia|rewrite Ems; by apply list_lookup_insert_eq|].
    cbn in S2'. intros w Hw. apply S2'. lia.
  - rewrite <- Hf. unfold free_slot. apply for_ret_ext. intros k _. rewrite Ems.
    destruct (decide ((MEMSLOT_BASE + k)%nat = i)) as [<-|Hne]; [|by rewrite list_lookup_insert_ne by done].
    rewrite list_lookup_insert_eq, Hx0 by done. cbn. by rewrite Hfree.
Qed.

(** C10: GNTTAB_map_page maps exactly the frame that the domain named granted to the caller under that reference, at the first free page of the caller's window, which is the page number returned; every other translation of the caller and every other domain is left as it was. *)
Theorem grant_map_correct c G s i j d o r x k g (e : gnttab_t) a : layout c -> ginv c G s -> dom_at s i d -> pagetable d = Some r ->
  memslot s !! slot_nr i = Some x -> dom_at s j o -> op_cmd a = GNTTAB_map_page -> op_domid a = Z.of_nat j ->
  pick_granted_entry (Z.of_nat i) (op_ref a) (op_domid a) s = Ret (Some e, s) ->
  list_find (fun g => gp_free g = true) (grant_pfn d) = Some (k, g) -> (3 <= length (heap (mm s)))%nat ->
  exists s', do_gnttab (sys_root c) (Z.of_nat i) a s = Ret (GnttabOp (op_cmd a) (op_domid a) (win_pfn x k) (op_ref a), s') /\ ginv c G s' /\
    e ∈ gnttab o /\ ref e = op_ref a /\ target_domid e = Z.of_nat i /\ (target_domid e, pfn e) ∈ G /\
    dom_at s' i (take_pfn k g d) /\ (forall j, j <> i -> domains s' !! j = domains s !! j) /\ memslot s' = memslot s /\
    (forall w, low w -> translate r (tables (mm s')) w =
       if decide (win_pfn x k * 4096 <= w < win_pfn x k * 4096 + 4096) then Some (pfn e * 4096 + (w - win_pfn x k * 4096), leaf_attrs (Attr true true S2) false)
       else translate r (tables (mm s)) w).
Proof.
  intros Hl Hi Hd Hr Hx Ho Hc Hj Hp Hf Hh. destruct (map_ok c Hl G s i j d o r x k g e a Hi Hd Hr Hx Ho Hc Hj Hp Hf Hh) as (s' & E & [M1 M2 M3 [M4 _] M5 M6 M7 _] & H1 & H2 & H3).
  destruct (gr_entry _ _ _ (gi_grants _ _ _ Hi j o Ho) e H1) as (_ & _ & HG). exists s'. split_and!; done.
Qed.

(** ** A concrete machine *)
(** 16 MB for the hypervisor, an agency of 4 MB at 1 GB. *)
Definition c0 : config := Config 184549376 184549376 201326592 1073741824 1077936128.
Definition pages0 : list Z := (fun k => 184549376 + 4096 * (3 + Z.of_nat k)) <$> seq 0 800.
Definition m0 : avz :=
  Avz (MkMmu {[184549376 := replicate 512 0]} pages0)
    [Slot 0 0 0 true 0; Slot 1073741824 18691697672192 4194304 false 1073741824; Slot 0 0 0 false 0; Slot 0 0 0 false 0; Slot 0 0 0 false 0; Slot 0 0 0 false 0; Slot 0 0 0 false 0]
    (replicate 4 0)
    [Some (fresh_guest 0 184553472); Some (fresh_guest 1 184557568); None; None; None; None; None].

Definition after {T} (r : outcome (T * avz)) (s : avz) : avz := match r with Ret (_, s') => s' | Fault _ => s end.
Definition o1 : op := Boot true.
Definition o2 : op := Hypercall 0 (GnttabOp GNTTAB_grant_page 2 262144 0).
Definition o3 : op := Inject 2097152 1342177280.
Definition m1 : avz := Eval vm_compute in after (exec c0 o1 m0) m0.
Definition m2 : avz := Eval vm_compute in after (exec c0 o2 m1) m1.
Definition m3 : avz := Eval vm_compute in after (exec c0 o3 m2) m2.

Lemma layout0 : layout c0.
Proof. by split; cbn; lia. Qed.

Lemma heap0 : heap_ok (mm m0).
Proof.
  split.
  - cbn [heap mm m0]. apply NoDup_fmap_2; [intros a b; lia|apply NoDup_seq].
  - intros t (k & -> & Hk%elem_of_seq)%list_elem_of_fmap. cbn [tables mm m0]. rewrite lookup_singleton_ne by lia.
    change (2 ^ 48) with 281474976710656. split_and!; [done|lia|lia|]. dlia.
Qed.

Lemma root0 : wf 184549376 (mm m0) /\ forall w, low w -> translate 184549376 (tables (mm m0)) w = None.
Proof.
  destruct (empty_root_wf 184549376 (replicate 512 0) (mm m0) heap0) as (W1 & _ & W3).
  - apply lookup_singleton_eq.
  - apply length_replicate.
  - by intros i e [-> _]%lookup_replicate.
  - split; [done|]. intros w Hw. by apply W3.
Qed.

Lemma boot0 : boot c0 m0.
Proof.
  assert (Hsh : forall i p, 184549376 < p < 184561664 -> p mod 4096 = 0 -> shared_ok c0 m0 i (fresh_guest i p)).
  { intros i p Hp Hm. unfold shared_ok. cbn [lo hi c0 avz_shared fresh_guest]. split_and!; [lia|lia|done| |].
    - cbn [heap mm m0]. intros (k & -> & Hk%elem_of_seq)%list_elem_of_fmap. lia.
    - cbn [tables mm m0]. rewrite lookup_singleton_ne by lia. done. }
  split.
  - split; [done|]. intros i x Hi Hx. cbn [memslot m0] in Hx. do 7 (destruct i as [|i]; [cbn in Hx; simplify_eq/=; (done || lia)|]). done.
  - eexists. split; [reflexivity|done].
  - split; [split; [apply Forall_replicate; unfold in_word; lia|unfold ME_MEMCHUNK_NR, BPL; cbn [memchunk_bitmap m0]; rewrite length_replicate; lia]|]. intros ch Hc. unfold ME_MEMCHUNK_NR in Hc.
    unfold getbit. cbn [memchunk_bitmap m0]. rewrite lookup_total_replicate_2; [apply Z.bits_0|]. apply Nat.Div0.div_lt_upper_bound. unfold BPL. lia.
  - split; [apply heap0|intros r ->%elem_of_singleton; apply root0|]. intros r r' t ->%elem_of_singleton ->%elem_of_singleton. done.
  - intros w Hw. apply root0. unfold va, ME_BASE in Hw. unfold low. change (2 ^ 48) with 281474976710656. lia.
  - intros t [(k & -> & Hk%elem_of_seq)%list_elem_of_fmap|[l Ht]]; cbn [lo hi c0]; [lia|]. cbn [tables mm m0] in Ht.
    apply lookup_singleton_Some in Ht as [<- _]. lia.
  - eexists _, _, _. split; [reflexivity|]. split_and!; [done|lia|apply Hsh; [lia|done]|apply Hsh; [lia|done]].
Qed.

Lemma enabled1 : enabled c0 m0 o1.
Proof.
  eexists _, _, _. split_and!; [reflexivity|reflexivity|done|done|reflexivity| |].
  - unfold ipa_ok. cbn [ipa_addr size]. change (2 ^ 48) with 281474976710656. split_and!; [lia|done|lia|lia|].
    intros ipa ph sz [[= -> -> ->]|H]%elem_of_cons; [lia|by apply elem_of_nil in H].
  - unfold agency_va_ok. split_and!; [done|done|by vm_compute| |by vm_compute; lia].
    intros w Hw. apply root0. cbn [base_vaddr size] in Hw. unfold low. change (2 ^ 48) with 281474976710656. lia.
Qed.
Lemma enabled2 : enabled c0 m1 o2.
Proof.
  eexists. split; [by vm_compute|]. unfold hypercall_ok. rewrite decide_True by done. eexists. split; [by vm_compute|]. unfold own_frame. by vm_compute.
Qed.
Lemma take2 : free_slot (memslot m2) = Some 2%nat /\ can_take m2 2097152 /\ new_slot_ok 2 2097152 1342177280.
Proof.
  split_and!; [by vm_compute| |].
  - unfold can_take. split_and!; [lia|by vm_compute|by vm_compute|]. exists 0%nat. change (pages (order_of 2097152)) with 1%nat.
    unfold ME_MEMCHUNK_NR. split; [lia|]. intros k Hk. assert (k = 0%nat) as -> by lia. by vm_compute.
  - intros b v. unfold ipa_ok. cbn [ipa_addr size]. change (2 ^ order_of 2097152 * CH) with 2097152. change (2 ^ 48) with 281474976710656. split_and!; [lia|done|lia|lia|].
    intros ipa ph sz [[= -> -> ->]|H]%elem_of_cons; [lia|by apply elem_of_nil in H].
Qed.
Definition v2 : gnttab_t := Gnttab 0 2 262144 2.
Lemma vbstore2 : vbstore_granted m2 2 v2 /\ (500 <= length (heap (mm m2)))%nat.
Proof. split; [eexists _, _; split; by vm_compute|]. apply Nat.leb_le. by vm_compute. Qed.
Lemma enabled3 : enabled c0 m2 o3.
Proof. destruct take2 as (H1 & H2 & H3), vbstore2 as [H4 H5]. by exists 2%nat, v2. Qed.

Lemma runs2 : runs c0 [o1; o2] m0 [] m2 [(2, 262144)].
Proof.
  eapply (runs_cons c0 _ _ m0 m1); [apply enabled1|by vm_compute|]. eapply (runs_cons c0 _ _ m1 m2); [apply enabled2|by vm_compute|]. apply runs_nil.
Qed.
Lemma runs3 : runs c0 [o1; o2; o3] m0 [] m3 [(2, 262144)].
Proof.
  eapply (runs_cons c0 _ _ m0 m1); [apply enabled1|by vm_compute|]. eapply (runs_cons c0 _ _ m1 m2); [apply enabled2|by vm_compute|].
  eapply (runs_cons c0 _ _ m2 m3); [apply enabled3|by vm_compute|]. apply runs_nil.
Qed.
Lemma ginv2 : ginv c0 [(2, 262144)] m2.
Proof. apply (runs_ginv c0 layout0 [o1; o2] m0 []); [apply runs2|apply boot_ginv, boot0]. Qed.
Lemma ginv3 : ginv c0 [(2, 262144)] m3.
Proof. apply (runs_ginv c0 layout0 [o1; o2; o3] m0 []); [apply runs3|apply boot_ginv, boot0]. Qed.

Definition domain_at (s : avz) (i : nat) : guest := default (fresh_guest i 0) (mjoin (domains s !! i)).
Definition d3 : guest := Eval vm_compute in domain_at m3 2.
Definition root3 : Z := Eval vm_compute in default 0 (pagetable d3).
Definition slot3 : memslot_entry_t := Eval vm_compute in default (Slot 0 0 0 false 0) (memslot m3 !! 2%nat).
(** The second page of the agency, granted to domain 2. *)
Definition m4 : avz := Eval vm_compute in after (exec c0 (Hypercall 0 (GnttabOp GNTTAB_grant_page 2 262145 0)) m3) m3.
Definition map4 : gnttab_op_t := GnttabOp GNTTAB_map_page 0 0 3.




Lemma container_roundtrip_witness : exists p s1 s2, inject_me (sys_root c0) 2097152 1342177280 m2 = Ret (p, s1) /\ shutdown_ME (sys_root c0) 2 s1 = Ret (tt, s2) /\ domains s2 = domains m2.
Proof.
  destruct take2 as (H1 & H2 & H3). destruct vbstore2 as [H4 H5].
  destruct (container_roundtrip c0 [(2, 262144)] m2 2 2097152 1342177280 v2 layout0 ginv2 H1 H2 H3 H4 H5) as (p & s1 & s2 & E1 & E2 & _ & E3 & _).
  exists p, s1, s2. split; [exact E1|split; [exact E2|exact E3]].
Defined.

Lemma ginv4 : ginv c0 [(2, 262145); (2, 262144)] m4.
Proof.
  apply (runs_ginv c0 layout0 [o1; o2; o3; Hypercall 0 (GnttabOp GNTTAB_grant_page 2 262145 0)] m0 []); [|apply boot_ginv, boot0].
  eapply (runs_cons c0 _ _ m0 m1); [apply enabled1|by vm_compute|]. eapply (runs_cons c0 _ _ m1 m2); [apply enabled2|by vm_compute|].
  eapply (runs_cons c0 _ _ m2 m3); [apply enabled3|by vm_compute|]. eapply (runs_cons c0 _ _ m3 m4); [|by vm_compute|apply runs_nil].
  eexists. split; [by vm_compute|]. unfold hypercall_ok. rewrite decide_True by done. eexists. split; [by vm_compute|]. unfold own_frame. by vm_compute.
Qed.

Lemma grant_map_correct_witness : exists s', do_gnttab (sys_root c0) 2 map4 m4 = Ret (GnttabOp GNTTAB_map_page 0 (win_pfn slot3 1) 3, s') /\
  translate root3 (tables (mm s')) (win_pfn slot3 1 * 4096 + 8) = Some (262145 * 4096 + 8, leaf_attrs (Attr true true S2) false).
Proof.
  destruct (grant_map_correct c0 [(2, 262145); (2, 262144)] m4 2 0 d3 (domain_at m4 0) root3 slot3 1 (GrantPfn 328195 true) (Gnttab 0 2 262145 3) map4) as (s' & E & _ & _ & _ & _ & _ & _ & _ & _ & Htr);
    [apply layout0|apply ginv4|by vm_compute|by vm_compute|by vm_compute|by vm_compute|done|done|by vm_compute|by vm_compute|apply Nat.leb_le; by vm_compute|].
  exists s'. split; [exact E|]. clear E. specialize (Htr (win_pfn slot3 1 * 4096 + 8) ltac:(by vm_compute)). etransitivity; [exact Htr|].
  clear Htr. by vm_compute.
Defined.

(** ** What the code does not rule out *)
(** A frame, whosever it is, is granted by domain [i] to itself. *)
Definition escape_pfn x (p : Z) : Z := u64 (p * 4096 + ipa_addr x - base_paddr x) / 4096.

Lemma escape_pa x p : 0 <= p < 2 ^ 36 -> ipa_addr x mod 4096 = 0 -> base_paddr x mod 4096 = 0 -> ipa_to_pa x (Frames.pfn_to_phys (escape_pfn x p)) = p * 4096.
Proof.
  intros Hp Hi Hb. unfold ipa_to_pa, Frames.pfn_to_phys, PAGE_SHIFT, escape_pfn, u64, wrap. rewrite Z.shiftl_mul_pow2 by lia.
  change (2 ^ 12) with 4096. change (2 ^ 64) with 18446744073709551616. change (2 ^ 36) with 68719476736 in Hp.
  set (a := p * 4096 + ipa_addr x - base_paddr x). assert (Ea : a mod 18446744073709551616 / 4096 * 4096 = a mod 18446744073709551616) by (unfold a; dlia).
  rewrite Ea, Z.mod_mod, <- Zminus_mod by lia. replace (a - (ipa_addr x - base_paddr x)) with (p * 4096) by (unfold a; lia). apply Z.mod_small. lia.
Qed.

Lemma find_new_entry d i (t p : Z) : (forall g, g ∈ gnttab d -> ref g <= get_ref_max (gnttab d)) ->
  let e := new_entry i d t p in
  list_find (fun g => ref g = ref e /\ origin_domid g = Z.of_nat i /\ target_domid g = t) (gnttab d ++ [e]) = Some (length (gnttab d), e).
Proof.
  intros Hmax e. rewrite list_find_app_r.
  - cbn. by rewrite decide_True.
  - apply list_find_None, Forall_forall. intros g Hg [E _]. specialize (Hmax g Hg). unfold e, new_entry in E. cbn in E. lia.
Qed.

(** C40: Nothing checks that a frame that is granted belongs to the domain that grants it: in
    every state of the invariant, a domain that has a page table and a free page in its window
    can, with two hypercalls, grant any frame [p] of physical memory to itself and map it, and
    then reaches that frame at an address of its own. *)
Theorem grant_escape c G s i d r x k g p : layout c -> ginv c G s -> dom_at s i d -> pagetable d = Some r -> memslot s !! slot_nr i = Some x ->
  list_find (fun g => gp_free g = true) (grant_pfn d) = Some (k, g) -> (3 <= length (heap (mm s)))%nat -> get_ref_max (gnttab d) < 2 ^ 32 - 1 -> 0 <= p < 2 ^ 36 ->
  exists q rf s1 s2 f, do_gnttab (sys_root c) (Z.of_nat i) (GnttabOp GNTTAB_grant_page (Z.of_nat i) q 0) s = Ret (GnttabOp GNTTAB_grant_page (Z.of_nat i) q rf, s1) /\
    do_gnttab (sys_root c) (Z.of_nat i) (GnttabOp GNTTAB_map_page (Z.of_nat i) 0 rf) s1 = Ret (GnttabOp GNTTAB_map_page (Z.of_nat i) f rf, s2) /\
    dom_at s2 i (take_pfn k g (set_gnttab (gnttab d ++ [new_entry i d (Z.of_nat i) p]) d)) /\
    (forall w, f * 4096 <= w < f * 4096 + 4096 -> translate r (tables (mm s2)) w = Some (p * 4096 + (w - f * 4096), leaf_attrs (Attr true true S2) false)).
Proof.
  intros Hl Hi Hd Hr Hx Hf Hh Hmax Hp. pose proof (gi_id _ _ _ Hi i d Hd) as Eid. pose proof (lookup_lt_Some _ _ _ Hd) as Hlt.
  pose proof (gi_tables _ _ _ Hi i d Hd) as Ht. unfold tables_ok in Ht. rewrite Hr in Ht. destruct Ht as (x' & Hx' & Hg). assert (x' = x) as -> by congruence. clear Hx'.
  destruct (slot_facts c Hl G s i d x Hi Hd Hx) as (F1 & F2 & F3 & F4 & F5). destruct (go_ipa _ _ _ _ _ _ Hg) as (I1 & I2 & I3 & I4 & I5).
  destruct (ref_max_spec (gnttab d)) as (R1 & R2 & _). pose proof (list_find_Some (fun g => gp_free g = true) (grant_pfn d) k g) as [Hfs _].
  destruct (Hfs Hf) as (Hk & _ & _). destruct (go_pfn _ _ _ _ _ _ Hg k g Hk) as [Hk32 Ep]. unfold NR_GRANT_PFN in Hk32.
  assert (Hslot : 0 <= DOM_TO_MEMSLOT (domID d) /\ memslot s !! Z.to_nat (DOM_TO_MEMSLOT (domID d)) = Some x).
  { rewrite Eid. unfold DOM_TO_MEMSLOT, DOMID_AGENCY, DOMID_AGENCY_RT, MEMSLOT_AGENCY, slot_nr in *.
    destruct (decide (i = 0%nat)) as [->|]; [done|]. destruct (decide (i = 1%nat)) as [->|]; [done|].
    destruct (Z.eqb_spec (Z.of_nat i) 0), (Z.eqb_spec (Z.of_nat i) 1); try lia. cbn [orb]. rewrite Nat2Z.id. split; [lia|done]. }
  destruct Hslot as [Hs0 Hs1]. set (f := win_pfn x k). set (e := new_entry i d (Z.of_nat i) p). set (d1 := set_gnttab (gnttab d ++ [e]) d). set (s1 := put i d1 s).
  assert (Hd1 : dom_at s1 i d1) by (by apply put_eq). change (2 ^ 48) with 281474976710656 in *. change (2 ^ 36) with 68719476736 in *.
  assert (Ef : f * 4096 = ipa_addr x + size x + 8192 + Z.of_nat k * 4096) by (unfold f, win_pfn; dlia).
  destruct (forest_map (roots c s) (mm s) (gi_forest _ _ _ Hi) (sys_root c) (Some r) (f * 4096) (p * 4096) 4096 (Attr true true S2)) as (y & E & Hm);
    [by apply (roots_dom c s i d)|lia|lia|apply Z_mod_mult|done|apply Z_mod_mult|change (2 ^ 48) with 281474976710656; lia|lia|change (2 ^ 48) with 281474976710656; lia| | |].
  { intros w Hw. apply (go_win _ _ _ _ _ _ Hg). unfold window. lia. }
  { rewrite chunk_page; [lia|lia|apply Z_mod_mult]. }
  change (remapped (roots c s) (mm s) y r (f * 4096) (p * 4096) 4096 (Attr true true S2)) in Hm.
  assert (Epf : forall n, 0 <= n < 68719476736 -> Frames.pfn_to_phys n = n * 4096) by (intros n Hn; by apply phys_of_pfn).
  exists (escape_pfn x p), (ref e), s1. eexists _, f. split_and!.
  - unfold do_gnttab. cbn [op_cmd op_domid op_pfn]. change (GNTTAB_grant_page =? GNTTAB_grant_page) with true. cbv beta iota.
    erewrite kbind_ret by (by apply guest_of_run). cbn beta. erewrite kbind_ret by (by apply slot_of_Z). cbn beta zeta. rewrite escape_pa by done.
    rewrite pfn_of_phys, Z.div_mul by done. unfold new_gnttab_entry. erewrite kbind_ret; [reflexivity|]. erewrite kbind_ret by (by apply guest_of_run). cbn beta zeta.
    rewrite u32_small by (change (2 ^ 32) with 4294967296 in *; lia). erewrite kbind_ret by (by apply upd_dom_run). cbn beta. unfold s1, d1, e, new_entry. by rewrite Eid.
  - unfold do_gnttab. cbn [op_cmd op_domid op_pfn op_ref]. change (GNTTAB_map_page =? GNTTAB_grant_page) with false. change (GNTTAB_map_page =? GNTTAB_revoke_page) with false.
    change (GNTTAB_map_page =? GNTTAB_map_page) with true. cbv beta iota.
    erewrite kbind_ret; [|unfold pick_granted_entry; erewrite kbind_ret by (by apply guest_of_run); cbn beta; erewrite kbind_ret by (by apply guest_of_run); cbn beta;
      change (domID d1) with (domID d); rewrite Eid; cbn [gnttab d1 set_gnttab]; unfold e; rewrite find_new_entry by done; reflexivity].
    cbn [mbind option_bind snd]. fold e. unfold allocate_grant_pfn. erewrite kbind_ret; [|erewrite kbind_ret by (by apply guest_of_run); cbn beta; change (grant_pfn d1) with (grant_pfn d); rewrite Hf;
      erewrite kbind_ret by (by apply upd_dom_run); reflexivity]. cbn beta zeta.
    assert (Epg : Frames.pfn_to_phys (gp_pfn g) = f * 4096) by (rewrite Ep; apply (Epf f); lia). rewrite Epg, (Epf (pfn e)) by (unfold e, new_entry; cbn; lia).
    erewrite kbind_ret; [|unfold map_grant; erewrite kbind_ret by (apply guest_of_run, put_eq; unfold s1, put; cbn [domains with_domains]; by rewrite length_insert); cbn beta;
      change (pagetable (set_grant_pfn (<[k := GrantPfn (gp_pfn g) false]> (grant_pfn d)) d1)) with (pagetable d); rewrite Hr; apply guest_mmu_ret; exact E].
    cbn beta. rewrite pfn_of_phys, Z.div_mul by done. reflexivity.
  - cbn [dom_at]. unfold dom_at, put, s1. cbn [domains with_mm with_domains]. rewrite list_lookup_insert_eq; [done|]. cbn [domains put with_domains]. by rewrite length_insert.
  - intros w Hw. cbn [mm with_mm]. rewrite (re_trans _ _ _ _ _ _ _ _ Hm w) by (unfold low; change (2 ^ 48) with 281474976710656; lia). by rewrite decide_True.
Qed.

(** The container of the concrete machine maps the root of its own stage-2 table. *)
Lemma grant_escape_witness : exists rf q s1 s2 f, do_gnttab (sys_root c0) 2 (GnttabOp GNTTAB_grant_page 2 q 0) m3 = Ret (GnttabOp GNTTAB_grant_page 2 q rf, s1) /\
  do_gnttab (sys_root c0) 2 (GnttabOp GNTTAB_map_page 2 0 rf) s1 = Ret (GnttabOp GNTTAB_map_page 2 f rf, s2) /\
  lo c0 <= root3 < hi c0 /\ translate root3 (tables (mm s2)) (f * 4096) = Some (root3, leaf_attrs (Attr true true S2) false).
Proof.
  destruct (grant_escape c0 [(2, 262144)] m3 2 d3 root3 slot3 1 (GrantPfn 328195 true) (root3 / 4096)) as (q & rf & s1 & s2 & f & E1 & E2 & _ & Htr);
    [apply layout0|apply ginv3|by vm_compute|by vm_compute|by vm_compute|by vm_compute|apply Nat.leb_le; by vm_compute|by vm_compute|by vm_compute|].
  exists rf, q, s1, s2, f. split; [exact E1|]. split; [exact E2|]. split; [by vm_compute|]. specialize (Htr (f * 4096) ltac:(lia)). rewrite Z.sub_diag, Z.add_0_r in Htr. exact Htr.
Defined.

(** The shared page a snapshot brings names the second page that is mapped for the
    guest: here the hypervisor's own page table. *)
Lemma snapshot_escape : exists s1 s2 r, get_ME_free_slot (sys_root c0) 2097152 m2 = Ret (2, s1) /\
  write_ME_snapshot (sys_root c0) 2 (Some (sys_root c0)) 0 1342177280 328194 s1 = Ret (tt, s2) /\ pagetable (domain_at s2 2) = Some r /\
  translate r (tables (mm s2)) (1342177280 + 2097152 + 4096) = Some (sys_root c0, leaf_attrs (Attr true true S2) false).
Proof.
  pose (s1 := after (get_ME_free_slot (sys_root c0) 2097152 m2) m2).
  exists s1, (after (write_ME_snapshot (sys_root c0) 2 (Some (sys_root c0)) 0 1342177280 328194 s1) s1), (default 0 (pagetable (domain_at (after (write_ME_snapshot (sys_root c0) 2 (Some (sys_root c0)) 0 1342177280 328194 s1) s1) 2))).
  split_and!; vm_compute; reflexivity.
Qed.

(** The page of vbstore keeps its number when a container is restored, but the flags
    of the window are set anew: the next page that is mapped replaces it. *)
Lemma restore_reuses_vbstore : exists s1 s2, get_ME_free_slot (sys_root c0) 2097152 m2 = Ret (2, s1) /\
  write_ME_snapshot (sys_root c0) 2 None 0 1342177280 328194 s1 = Ret (tt, s2) /\ (exists s3, allocate_grant_pfn 2 s2 = Ret (328194, s3)).
Proof.
  pose (s1 := after (get_ME_free_slot (sys_root c0) 2097152 m2) m2).
  exists s1, (after (write_ME_snapshot (sys_root c0) 2 None 0 1342177280 328194 s1) s1).
  split; [vm_compute; reflexivity|]. split; [vm_compute; reflexivity|]. eexists. vm_compute. reflexivity.
Qed.

(** A request of 6 MB is given a slot of 4 MB: the order is rounded down. *)
Lemma slot_rounds_down : exists s' x, inject_me (sys_root c0) (6 * 1024 * 1024) 1342177280 m2 = Ret (win_pfn x 0, s') /\
  memslot s' !! 2%nat = Some x /\ size x = 4 * 1024 * 1024.
Proof. eexists (after (inject_me (sys_root c0) (6 * 1024 * 1024) 1342177280 m2) m2), _. split; [|split; [vm_compute; reflexivity|done]]. vm_compute. reflexivity. Qed.

(** A page stays mapped after its grant is revoked. *)
Lemma revoke_keeps_mapping : exists s', do_gnttab (sys_root c0) 0 (GnttabOp GNTTAB_revoke_page 0 0 2) m3 = Ret (GnttabOp GNTTAB_revoke_page 0 0 2, s') /\
  gnttab (domain_at s' 0) = [] /\ translate root3 (tables (mm s')) (win_pfn slot3 0 * 4096) = Some (262144 * 4096, leaf_attrs (Attr true true S2) false).
Proof. exists (after (do_gnttab (sys_root c0) 0 (GnttabOp GNTTAB_revoke_page 0 0 2) m3) m3). split_and!; vm_compute; reflexivity. Qed.

End GuestRuns.
