(* ===== verification/ProcMem.v ===== *)
(** The memory of user processes (so3/kernel/process.c): the frames and the page
    table of a process, from its creation to the removal of its PCB.

    The frame table is that of [Frames], the page tables are those of [Mmu]; this
    file composes them.  [page_list] holds the frames of a process by their index in
    the frame table.  [nodes] counts the list entries that [malloc] can still give;
    with none left [add_page_to_proc] panics.  Processes are named by the address of
    their PCB.  The bodies of the routines run with interrupts off. *)
From S2P Require Import Prelude Frames Mmu MmuMap MmuReset MmuCreate MmuSpec.

Module ProcMem.
Import Mmu.

Record pcb := Pcb {
  pgtable : Z;
  page_list : list Z;
  page_count : Z;
  stack_top : Z;
  bin_image_entry : Z;
  heap_base : Z;
  heap_pointer : Z;
  zombie : bool                       (* state is PROC_STATE_ZOMBIE *)
}.
Record sys := Sys { fr : Frames.frames; mm : mmu; pcbs : gmap Z pcb; nodes : nat }.

Definition with_fr f s := Sys f (mm s) (pcbs s) (nodes s).
Definition with_mm x s := Sys (fr s) x (pcbs s) (nodes s).
Definition with_pcbs g s := Sys (fr s) (mm s) (g (pcbs s)) (nodes s).
Definition with_nodes n s := Sys (fr s) (mm s) (pcbs s) n.
Definition set_page_list l b := Pcb (pgtable b) l (page_count b) (stack_top b) (bin_image_entry b) (heap_base b) (heap_pointer b) (zombie b).
Definition set_page_count n b := Pcb (pgtable b) (page_list b) n (stack_top b) (bin_image_entry b) (heap_base b) (heap_pointer b) (zombie b).
Definition set_stack_top a b := Pcb (pgtable b) (page_list b) (page_count b) a (bin_image_entry b) (heap_base b) (heap_pointer b) (zombie b).
Definition set_entry a b := Pcb (pgtable b) (page_list b) (page_count b) (stack_top b) a (heap_base b) (heap_pointer b) (zombie b).
Definition set_heap base ptr b := Pcb (pgtable b) (page_list b) (page_count b) (stack_top b) (bin_image_entry b) base ptr (zombie b).
Definition set_zombie b := Pcb (pgtable b) (page_list b) (page_count b) (stack_top b) (bin_image_entry b) (heap_base b) (heap_pointer b) true.

(** Routines of the frame table and of the page tables, on the whole state. *)
Definition on_frames {A} (g : Frames.frames -> outcome (Frames.frames * A)) : kern sys A := fun s =>
  match g (fr s) with Ret (f, a) => Ret (a, with_fr f s) | Fault e => Fault e end.
Definition on_mmu {A} (g : kern mmu A) : kern sys A := fun s =>
  match g (mm s) with Ret (a, x) => Ret (a, with_mm x s) | Fault e => Fault e end.

Definition pcb_of (p : Z) : kern sys pcb := m ← gets pcbs; lift (deref (m !! p)).
Definition upd_pcb (p : Z) (g : pcb -> pcb) : kern sys unit := b ← pcb_of p; modify (with_pcbs <[p := g b]>).

(** [page->refcount += d], giving the new count. *)
Definition add_ref (i d : Z) (f : Frames.frames) : outcome (Frames.frames * Z) :=
  p ← Frames.get f i;
  let r := u32 (Frames.refcount p + d) in
  Ret (Frames.MkFrames (<[Z.to_nat i := Frames.Page (Frames.free p) r]> (Frames.frame_table f)) (Frames.avail_pages f) (Frames.pfn_start f) (Frames.next_free_page f), r).

(** *** Pages of a process *)
Definition add_page_to_proc (p i : Z) : kern sys unit :=
  n ← gets nodes;
  match n with
  | O => raise Panic
  | S n' =>
      modify (with_nodes n');;
      _ ← on_frames (add_ref i 1);
      upd_pcb p (fun b => set_page_list (page_list b ++ [i]) b)
  end.

(** The loop at page [k] with [n] pages to go. *)
Fixpoint allocate_loop (n : nat) (k p virt_addr : Z) : kern sys unit :=
  match n with
  | O => mret tt
  | S n' =>
      page ← on_frames Frames.get_free_page;
      lift (bug_on (page =? 0));;
      b ← pcb_of p;
      on_mmu (create_mapping false 0 (Some (pgtable b)) (u64 (virt_addr + k * PAGE_SIZE)) page PAGE_SIZE false);;
      f ← gets fr;
      add_page_to_proc p (Frames.phys_to_page f page);;
      allocate_loop n' (k + 1) p virt_addr
  end.
Definition allocate_page (p virt_addr : Z) (nr_pages : nat) : kern sys unit := allocate_loop nr_pages 0 p virt_addr.

(** [list_for_each_safe] over the frames that the list holds on entry; each entry
    leaves the list before its frame is released. *)
Fixpoint release_pages (l : list Z) (p : Z) : kern sys unit :=
  match l with
  | [] => mret tt
  | i :: r =>
      upd_pcb p (set_page_list r);;
      c ← on_frames (add_ref i (-1));
      when (c =? 0) (on_frames (fun f => f' ← Frames.free_page f (Frames.page_to_phys f i); Ret (f', tt)));;
      n ← gets nodes;
      modify (with_nodes (S n));;
      release_pages r p
  end.
Definition release_proc_pages (p : Z) : kern sys unit := b ← pcb_of p; release_pages (page_list b) p.

(** *** Life of a process *)
(** [new_process], as far as memory goes; [p] is the PCB that [malloc] gives. *)
Definition new_process_memory (p : Z) : kern sys unit :=
  t ← on_mmu new_root_pgtable;
  modify (with_pcbs <[p := Pcb t [] 0 0 0 0 0 false]>).
(** [do_exit]: the state changes before the pages go. *)
Definition exit_memory (p : Z) : kern sys unit := upd_pcb p set_zombie;; release_proc_pages p.
(** [do_waitpid] on a zombie without children. *)
Definition wait_memory (p : Z) : kern sys unit :=
  b ← pcb_of p;
  on_mmu (reset_root_pgtable (pgtable b) true);;
  modify (with_pcbs (delete p)).

Section image.
(** The configuration, and the address of the page of arguments. *)
Context (PROC_STACK_SIZE HEAP_SIZE args_base : Z).

Definition reset_process_stack (p : Z) : kern sys unit :=
  upd_pcb p (fun b => set_stack_top args_base (set_page_count (Z.shiftr (ALIGN_UP PROC_STACK_SIZE PAGE_SIZE) 12) b)).

(** The old image goes: the page table is emptied, but its root is kept. *)
Definition drop_image (p : Z) : kern sys unit :=
  b ← pcb_of p;
  on_mmu (reset_root_pgtable (pgtable b) false);;
  release_proc_pages p.

(** [setup_proc_image_replace] after the arguments are set aside. *)
Definition setup_image (p e_entry segment_page_count : Z) : kern sys unit :=
  reset_process_stack p;;
  drop_image p;;
  b ← pcb_of p;
  allocate_page p (u64 (stack_top b - page_count b * PAGE_SIZE)) (Z.to_nat (page_count b));;
  upd_pcb p (fun b => set_page_count (page_count b + segment_page_count) (set_entry (u32 e_entry) b));;
  allocate_page p (u32 e_entry) (Z.to_nat segment_page_count);;
  let heap_pages := Z.shiftr (ALIGN_UP HEAP_SIZE PAGE_SIZE) 12 in
  upd_pcb p (fun b => set_page_count (page_count b + heap_pages) (set_heap ((page_count b + 1) * PAGE_SIZE) ((page_count b + 1) * PAGE_SIZE) b));;
  b ← pcb_of p;
  allocate_page p (heap_base b) (Z.to_nat heap_pages);;
  upd_pcb p (fun b => set_page_count (page_count b + 1) b);;
  allocate_page p args_base 1.

(** [do_sbrk]; [int] and [addr_t] meet in the sums. *)
Definition s32 (x : Z) : Z := let y := u32 x in if y <? 2 ^ 31 then y else y - 2 ^ 32.
Definition do_sbrk (p increment : Z) : kern sys (Z + Z) :=
  b ← pcb_of p;
  let ret_pointer := s32 (heap_pointer b) in
  let cur_sz := s32 (heap_pointer b - heap_base b) in
  let req_sz := s32 (cur_sz + increment) in
  if (HEAP_SIZE <=? req_sz) || (req_sz <? 0) then mret (inl ENOMEM)
  else
    upd_pcb p (fun b => set_heap (heap_base b) (u64 (heap_pointer b + increment)) b);;
    mret (inr ret_pointer).
End image.
End ProcMem.
