(* ===== verification/ProcIsolation.v ===== *)
(** Isolation of processes: whatever processes are created, given memory, exit and
    are waited for, no frame is ever mapped by two of them, none that is mapped is
    free, and the reference counts of owned and of free frames are exact. *)
From S2P Require Import Prelude Frames Mmu MmuMap MmuReset MmuCreate MmuSpec MmuForest ProcMem.

Module ProcIsolation.
Import Mmu MmuMap MmuSpec MmuForest ProcMem.
Implicit Types (s : sys) (f : Frames.frames).

(** ** Reference counts *)
Definition ref f (i : Z) : Z := from_option Frames.refcount 0 (Frames.frame_table f !! Z.to_nat i).
Definition in_table f (i : Z) : Prop := 0 <= i < Frames.avail_pages f.

(** [f'] is [f] but for the state and count of frame [i]. *)
Record frame_set f f' (i : Z) (free : bool) (r : Z) : Prop := {
  fs_wf : Frames.wf f';
  fs_avail : Frames.avail_pages f' = Frames.avail_pages f;
  fs_start : Frames.pfn_start f' = Frames.pfn_start f;
  fs_free : forall j, in_table f j -> Frames.is_free f' j = if decide (j = i) then free else Frames.is_free f j;
  fs_ref : forall j, in_table f j -> ref f' j = if decide (j = i) then r else ref f j
}.

Lemma put_refs f i b f' : Frames.put f i b = Ret f' -> Frames.refcount <$> Frames.frame_table f' = Frames.refcount <$> Frames.frame_table f.
Proof.
  unfold Frames.put, Frames.get. destruct (i <? 0); [done|]. destruct (Frames.frame_table f !! Z.to_nat i) as [q|] eqn:E; [|done].
  intros [= <-]. cbn [Frames.frame_table]. rewrite list_fmap_insert. apply list_insert_id. by rewrite list_lookup_fmap, E.
Qed.

Lemma ref_fmap f f' i : Frames.refcount <$> Frames.frame_table f' = Frames.refcount <$> Frames.frame_table f -> ref f' i = ref f i.
Proof.
  intros E. assert (E' := f_equal (fun l => l !! Z.to_nat i) E). cbn beta in E'. rewrite !list_lookup_fmap in E'. unfold ref.
  destruct (Frames.frame_table f !! _), (Frames.frame_table f' !! _); simpl in *; congruence.
Qed.

Lemma free_page_loop_refs k : forall f m f' r, Frames.free_page_loop k f m = Ret (f', r) ->
  Frames.refcount <$> Frames.frame_table f' = Frames.refcount <$> Frames.frame_table f.
Proof.
  induction k as [|k IH]; intros f m f' r; cbn [Frames.free_page_loop]; [done|]. intros (q & _ & H)%bind_Ret_inv. destruct (Frames.free q).
  - apply bind_Ret_inv in H as (f1 & H1 & H). apply put_refs in H1. injection H as <- _. done.
  - destruct (_ =? m); [by injection H as <- _|]. apply IH in H. done.
Qed.

Lemma get_free_page_ok f : Frames.wf f ->
  exists f' page, Frames.get_free_page f = Ret (f', page) /\
    (page = 0 /\ frame_set f f' (-1) false (ref f (-1)) /\ (forall j, in_table f j -> Frames.is_free f j = false) \/
     exists i, in_table f i /\ Frames.is_free f i = true /\ page = (Frames.pfn_start f + i) * 4096 /\ page <> 0 /\ frame_set f f' i false (ref f i)).
Proof.
  intros Hw. pose proof (Frames.wf_len _ Hw) as Hl. pose proof (Frames.wf_avail _ Hw) as Ha. pose proof (Frames.wf_next _ Hw) as Hn.
  destruct (Frames.free_page_loop_ok (length (Frames.frame_table f)) f (Frames.next_free_page f) Hw Hn) as (f' & r & E & Hr); [lia| |].
  { rewrite Hl, Z.sub_diag, Z.add_0_r. symmetry. by apply Z.mod_small. }
  exists f', r. split; [exact E|]. destruct Hr as [(-> & (U1 & U2 & Hw' & U4) & Hnone)|(i & Hi & Hfree & -> & Hu)].
  - left. split_and!; [done|split; [done..| |]|].
    + intros j Hj. rewrite U4 by done. rewrite !decide_False by (unfold in_table in Hj; lia || done). done.
    + intros j Hj. rewrite (ref_fmap f f' j) by (by eapply free_page_loop_refs). unfold in_table in Hj. rewrite decide_False by lia. done.
    + intros j Hj. specialize (Hnone ((j - Frames.next_free_page f) mod Frames.avail_pages f)). rewrite Zplus_mod_idemp_r in Hnone.
    replace (Frames.next_free_page f + (j - Frames.next_free_page f)) with j in Hnone by lia. rewrite (Z.mod_small j) in Hnone by apply Hj.
    apply Hnone. pose proof (Z.mod_pos_bound (j - Frames.next_free_page f) (Frames.avail_pages f)). lia.
  - right. exists i. split_and!; [done..| | |].
    + by rewrite Frames.page_to_phys_eq.
    + by apply Frames.page_to_phys_pos.
    + destruct Hu as (U1 & U2 & U3 & U4). split; [done..| |].
      * intros j Hj. by apply U4.
      * intros j Hj. rewrite (ref_fmap f f' j) by (by eapply free_page_loop_refs). case_decide; congruence.
Qed.

Lemma add_ref_ok f i d : Frames.wf f -> in_table f i ->
  exists f', add_ref i d f = Ret (f', u32 (ref f i + d)) /\ frame_set f f' i (Frames.is_free f i) (u32 (ref f i + d)).
Proof.
  intros Hw Hi. unfold add_ref, ref, Frames.get. destruct (Z.ltb_spec i 0); [unfold in_table in Hi; lia|]. destruct Hw as [W1 W2 W3 W4].
  destruct (lookup_lt_is_Some_2 (Frames.frame_table f) (Z.to_nat i)) as [q Hq]; [unfold in_table in Hi; lia|]. rewrite Hq. bret.
  eexists. split; [reflexivity|]. split; try done.
  - split; try done. cbn [Frames.frame_table]. by rewrite length_insert.
  - intros j Hj. unfold Frames.is_free. cbn [Frames.frame_table]. destruct (Z.ltb_spec j 0); [unfold in_table in *; lia|]. case_decide as E.
    + subst j. rewrite list_lookup_insert_eq by (unfold in_table in *; lia). destruct (Z.ltb_spec i 0); [lia|]. by rewrite Hq.
    + by rewrite list_lookup_insert_ne by (unfold in_table in *; lia).
  - intros j Hj. unfold ref. cbn [Frames.frame_table]. case_decide as E.
    + subst j. by rewrite list_lookup_insert_eq by (unfold in_table in *; lia).
    + by rewrite list_lookup_insert_ne by (unfold in_table in *; lia).
Qed.

Lemma free_frame_ok f i : Frames.wf f -> in_table f i ->
  exists f', Frames.free_page f (Frames.page_to_phys f i) = Ret f' /\ frame_set f f' i true (ref f i).
Proof.
  intros Hw Hi. unfold Frames.free_page. rewrite Frames.phys_to_page_to_phys by done.
  destruct (Frames.put_ok f i true Hw Hi) as (f' & E & (U1 & U2 & U3 & U4) & _). exists f'. split; [done|]. split; try done.
  intros j Hj. rewrite (ref_fmap f f' j) by (by eapply put_refs). case_decide; congruence.
Qed.

(** ** The invariant *)
(** The process [x], if any, is giving its pages back. *)
Record pinv (x : option Z) s : Prop := {
  pi_fr : Frames.wf (fr s);
  pi_top : (Frames.pfn_start (fr s) + Frames.avail_pages (fr s)) * 4096 <= 2 ^ 48;
  pi_heap : heap_ok (mm s);
  pi_tree : forall p b, pcbs s !! p = Some b -> wf (pgtable b) (mm s);
  pi_apart : forall p q b c t, p <> q -> pcbs s !! p = Some b -> pcbs s !! q = Some c -> reachable (pgtable b) (mm s) t -> ~ reachable (pgtable c) (mm s) t;
  pi_pages : forall p b w pa at_, Some p <> x -> pcbs s !! p = Some b -> zombie b = false -> low w ->
    translate (pgtable b) (tables (mm s)) w = Some (pa, at_) -> exists i, i ∈ page_list b /\ pa / 4096 = Frames.pfn_start (fr s) + i;
  pi_small : forall p b w, pcbs s !! p = Some b -> zombie b = false -> low w -> noblock (pgtable b) (tables (mm s)) w;
  pi_own : forall p b i, pcbs s !! p = Some b -> i ∈ page_list b -> in_table (fr s) i /\ Frames.is_free (fr s) i = false /\ ref (fr s) i = 1;
  pi_none : forall i, in_table (fr s) i -> Frames.is_free (fr s) i = true -> ref (fr s) i = 0;
  pi_nodup : forall p b, pcbs s !! p = Some b -> NoDup (page_list b);
  pi_disj : forall p q b c i, p <> q -> pcbs s !! p = Some b -> pcbs s !! q = Some c -> i ∈ page_list b -> i ∉ page_list c;
  pi_zombie : forall p b, Some p <> x -> pcbs s !! p = Some b -> zombie b = true -> page_list b = []
}.

(** The parts of a PCB the invariant speaks of; the process [x] may become a zombie. *)
Definition same_view (x : option Z) (p : Z) (b c : pcb) : Prop :=
  pgtable b = pgtable c /\ page_list b = page_list c /\ (zombie b = zombie c \/ Some p = x /\ zombie b = true).

Lemma pinv_view x s s' : pinv x s -> fr s' = fr s -> mm s' = mm s ->
  (forall p b', pcbs s' !! p = Some b' -> exists b, pcbs s !! p = Some b /\ same_view x p b' b) -> pinv x s'.
Proof.
  intros [A1 A2 A3 A4 A5 A6 A7 A8 A9 A10 A11 A12] Ef Em Hto. split; rewrite ?Ef, ?Em; try done.
  - intros p b' Hp. destruct (Hto p b' Hp) as (b & Hb & -> & _). by apply (A4 p).
  - intros p q b' c' t Hpq Hp Hq. destruct (Hto p b' Hp) as (b & Hb & -> & _), (Hto q c' Hq) as (c & Hc & -> & _). by apply (A5 p q).
  - intros p b' w pa at_ Hx Hp Hz. destruct (Hto p b' Hp) as (b & Hb & -> & -> & [E|[? _]]); [|done]. rewrite E in Hz. by apply (A6 p).
  - intros p b' w Hp Hz. destruct (Hto p b' Hp) as (b & Hb & -> & _ & [E|[_ E]]); [|congruence]. rewrite E in Hz. by apply (A7 p).
  - intros p b' i Hp. destruct (Hto p b' Hp) as (b & Hb & _ & -> & _). by apply (A8 p).
  - intros p b' Hp. destruct (Hto p b' Hp) as (b & Hb & _ & -> & _). by apply (A10 p).
  - intros p q b' c' i Hpq Hp Hq. destruct (Hto p b' Hp) as (b & Hb & _ & -> & _), (Hto q c' Hq) as (c & Hc & _ & -> & _). by apply (A11 p q).
  - intros p b' Hx Hp Hz. destruct (Hto p b' Hp) as (b & Hb & _ & -> & [E|[? _]]); [|done]. rewrite E in Hz. by apply (A12 p).
Qed.

Lemma pinv_upd x s p b c n : pinv x s -> pcbs s !! p = Some b -> same_view x p c b -> pinv x (Sys (fr s) (mm s) (<[p := c]> (pcbs s)) n).
Proof.
  intros Hi Hp Hv. eapply (pinv_view x s); [done..|]. intros q d Hq. cbn [pcbs] in Hq. destruct (decide (q = p)) as [->|]; [rewrite lookup_insert_eq in Hq; injection Hq as <-; eauto|].
  rewrite lookup_insert_ne in Hq by done. exists d. split; [done|]. split_and!; auto.
Qed.

Lemma pinv_excuse p s : pinv None s -> pinv (Some p) s.
Proof. intros []. split; try done; eauto. Qed.

Lemma pinv_done p s b : pinv (Some p) s -> pcbs s !! p = Some b -> (zombie b = true -> page_list b = []) ->
  (zombie b = false -> forall w pa at_, low w -> translate (pgtable b) (tables (mm s)) w = Some (pa, at_) ->
     exists i, i ∈ page_list b /\ pa / 4096 = Frames.pfn_start (fr s) + i) -> pinv None s.
Proof.
  intros [A1 A2 A3 A4 A5 A6 A7 A8 A9 A10 A11 A12] Hp Hl Ht. split; try done.
  - intros q c w pa at_ _ Hq Hz Hw Htr. destruct (decide (q = p)) as [->|Hne]; [|apply (A6 q c w pa at_); congruence].
    assert (c = b) as -> by congruence. by apply (Ht Hz w pa at_).
  - intros q c _ Hq Hz. destruct (decide (q = p)) as [->|Hne]; [|apply (A12 q c); congruence]. assert (c = b) as -> by congruence. auto.
Qed.

(** *** Page tables that change *)
Section trees.
Context (x : option Z) s (Hi : pinv x s) (p : Z) (b : pcb) (Hp : pcbs s !! p = Some b) (y : mmu) (Hy : heap_ok y).
Context (Hframe : forall t, t ∉ heap (mm s) -> ~ reachable (pgtable b) (mm s) t -> tables y !! t = tables (mm s) !! t).

Lemma reach_not_heap q c t : pcbs s !! q = Some c -> reachable (pgtable c) (mm s) t -> t ∉ heap (mm s).
Proof.
  intros Hq (k & w & Hk & Hw & Ht) Hin. destruct (wf_tab _ _ (pi_tree _ _ Hi q c Hq) k w t Hk Hw Ht) as (l & Hl & _).
  destruct (proj2 (pi_heap _ _ Hi) t Hin) as [Hn _]. congruence.
Qed.

Lemma other_tree q c : q <> p -> pcbs s !! q = Some c ->
  wf (pgtable c) y /\ (forall w, low w -> translate (pgtable c) (tables y) w = translate (pgtable c) (tables (mm s)) w) /\
  (forall k w, (k <= 3)%nat -> low w -> ent (pgtable c) (tables y) k w = ent (pgtable c) (tables (mm s)) k w) /\
  (forall t, reachable (pgtable c) y t <-> reachable (pgtable c) (mm s) t).
Proof.
  intros Hne Hq. apply tree_frame; [by apply (pi_tree _ _ Hi q)|done|]. intros t Ht. apply Hframe.
  - by apply (reach_not_heap q c).
  - by apply (pi_apart _ _ Hi q p c b).
Qed.

Lemma pinv_mmu : wf (pgtable b) y -> (forall t, reachable (pgtable b) y t -> t ∈ heap (mm s) \/ reachable (pgtable b) (mm s) t) ->
  (zombie b = false -> forall w, low w -> noblock (pgtable b) (tables y) w) ->
  (Some p <> x -> zombie b = false -> forall w pa at_, low w -> translate (pgtable b) (tables y) w = Some (pa, at_) ->
     exists i, i ∈ page_list b /\ pa / 4096 = Frames.pfn_start (fr s) + i) -> pinv x (with_mm y s).
Proof.
  intros Hwf Hreach Hnb Htr. pose proof Hi as [A1 A2 A3 A4 A5 A6 A7 A8 A9 A10 A11 A12]. split; cbn [fr mm pcbs with_mm]; try done.
  - intros q c Hq. destruct (decide (q = p)) as [->|Hne]; [by assert (c = b) as -> by congruence|by apply (other_tree q c)].
  - assert (Hsym : forall q c t, q <> p -> pcbs s !! q = Some c -> reachable (pgtable b) y t -> ~ reachable (pgtable c) y t).
    { intros q c t Hne Hq Ht Htc. apply (other_tree q c Hne Hq) in Htc. destruct (Hreach t Ht) as [Hh|Hr]; [by apply (reach_not_heap q c t Hq Htc)|].
      by apply (A5 p q b c t (not_eq_sym Hne) Hp Hq Hr). }
    intros q q' c c' t Hne Hq Hq' Ht Ht'. destruct (decide (q = p)) as [->|Hqp].
    { assert (c = b) as -> by congruence. by apply (Hsym q' c' t (not_eq_sym Hne) Hq' Ht Ht'). }
    destruct (decide (q' = p)) as [->|Hqp']; [assert (c' = b) as -> by congruence; by apply (Hsym q c t Hqp Hq Ht' Ht)|].
    apply (other_tree q c Hqp Hq) in Ht. apply (other_tree q' c' Hqp' Hq') in Ht'. by apply (A5 q q' c c' t).
  - intros q c w pa at_ Hx Hq Hz Hw. destruct (decide (q = p)) as [->|Hne].
    + assert (c = b) as -> by congruence. by apply Htr.
    + destruct (other_tree q c Hne Hq) as (_ & -> & _); [|done]. by apply (A6 q c).
  - intros q c w Hq Hz Hw. destruct (decide (q = p)) as [->|Hne]; [assert (c = b) as -> by congruence; by apply Hnb|].
    intros k e Hk. destruct (other_tree q c Hne Hq) as (_ & _ & -> & _); [|lia|done]. by apply (A7 q c w Hq Hz Hw).
Qed.

Lemma pinv_remove n : page_list b = [] -> pinv x (Sys (fr s) y (delete p (pcbs s)) n).
Proof.
  intros Hl. pose proof Hi as [A1 A2 A3 A4 A5 A6 A7 A8 A9 A10 A11 A12].
  assert (Hof : forall q c, delete p (pcbs s) !! q = Some c -> q <> p /\ pcbs s !! q = Some c) by (intros q c; rewrite lookup_delete_Some; intros [? ?]; auto).
  split; cbn [fr mm pcbs]; try done.
  - intros q c [Hne Hq]%Hof. by apply (other_tree q c).
  - intros q q' c c' t Hne [Hqp Hq]%Hof [Hqp' Hq']%Hof Ht Ht'. apply (other_tree q c Hqp Hq) in Ht. apply (other_tree q' c' Hqp' Hq') in Ht'. by apply (A5 q q' c c' t).
  - intros q c w pa at_ Hx [Hqp Hq]%Hof Hz Hw. destruct (other_tree q c Hqp Hq) as (_ & -> & _); [|done]. by apply (A6 q c).
  - intros q c w [Hqp Hq]%Hof Hz Hw k e Hk. destruct (other_tree q c Hqp Hq) as (_ & _ & -> & _); [|lia|done]. by apply (A7 q c w Hq Hz Hw).
  - intros q c i [_ Hq]%Hof. by apply (A8 q).
  - intros q c [_ Hq]%Hof. by apply (A10 q).
  - intros q q' c c' i Hne [_ Hq]%Hof [_ Hq']%Hof. by apply (A11 q q').
  - intros q c Hx [_ Hq]%Hof. by apply (A12 q).
Qed.
End trees.

Lemma frame_set_trans f f1 f2 i a r b r' : in_table f i -> frame_set f f1 i a r -> frame_set f1 f2 i b r' -> frame_set f f2 i b r'.
Proof.
  intros Hi [A1 A2 A3 A4 A5] [B1 B2 B3 B4 B5]. assert (Hin : forall j, in_table f j -> in_table f1 j) by (unfold in_table; by rewrite A2).
  split; [done|congruence|congruence|intros j Hj; rewrite B4, A4 by auto; by case_decide|intros j Hj; rewrite B5, A5 by auto; by case_decide].
Qed.

Lemma pcb_of_run s p b : pcbs s !! p = Some b -> pcb_of p s = Ret (b, s).
Proof. intros E. unfold pcb_of. kstep. by rewrite E. Qed.
Lemma upd_pcb_run s p b g : pcbs s !! p = Some b -> upd_pcb p g s = Ret (tt, with_pcbs <[p := g b]> s).
Proof. intros E. unfold upd_pcb. by erewrite kbind_ret by (by apply pcb_of_run). Qed.

(** *** Giving pages back *)
Section release.
Context (p : Z).

Lemma release_step_pinv s b i r f' n : pinv (Some p) s -> pcbs s !! p = Some b -> page_list b = i :: r -> frame_set (fr s) f' i true 0 ->
  pinv (Some p) (Sys f' (mm s) (<[p := set_page_list r b]> (pcbs s)) n).
Proof.
  intros [A1 A2 A3 A4 A5 A6 A7 A8 A9 A10 A11 A12] Hp Hl [F1 F2 F3 F4 F5].
  assert (Hin : forall j, in_table f' j <-> in_table (fr s) j) by (intros j; unfold in_table; by rewrite F2).
  assert (Hir : i ∉ r) by (specialize (A10 p b Hp); rewrite Hl in A10; by apply NoDup_cons in A10 as [? _]).
  assert (Hof : forall q c, (<[p := set_page_list r b]> (pcbs s)) !! q = Some c -> exists d, pcbs s !! q = Some d /\ pgtable c = pgtable d /\
    zombie c = zombie d /\ (forall j, j ∈ page_list c -> j <> i /\ j ∈ page_list d) /\ (q <> p -> c = d)).
  { intros q c Hq. destruct (decide (q = p)) as [->|Hne].
    - rewrite lookup_insert_eq in Hq. injection Hq as <-. exists b. split_and!; [done..| |done]. cbn [page_list set_page_list]. rewrite Hl.
      intros j Hj. split; [by intros ->|by right].
    - rewrite lookup_insert_ne in Hq by done. exists c. split_and!; [done..| |done]. intros j Hj. split; [|done]. intros ->.
      apply (A11 q p c b i Hne Hq Hp Hj). rewrite Hl. by left. }
  split; cbn [fr mm pcbs].
  - done.
  - by rewrite F2, F3.
  - done.
  - intros q c (d & Hd & -> & _)%Hof. by apply (A4 q).
  - intros q q' c c' t Hne (d & Hd & -> & _)%Hof (d' & Hd' & -> & _)%Hof. by apply (A5 q q').
  - intros q c w pa at_ Hx Hq. destruct (Hof q c Hq) as (d & Hd & _ & _ & _ & Ec). rewrite Ec in * by (intros ->; done). rewrite F3. by apply (A6 q).
  - intros q c w (d & Hd & -> & -> & _)%Hof. by apply (A7 q).
  - intros q c j (d & Hd & _ & _ & Hj & _)%Hof Hjc. destruct (Hj j Hjc) as [Hji Hjd]. destruct (A8 q d j Hd Hjd) as (B1 & B2 & B3).
    rewrite Hin, F4, F5 by done. rewrite !decide_False by done. done.
  - intros j Hj. rewrite Hin in Hj. rewrite F4, F5 by done. case_decide as E; [done|]. by apply A9.
  - intros q c Hq. destruct (decide (q = p)) as [->|Hne].
    + rewrite lookup_insert_eq in Hq. injection Hq as <-. specialize (A10 p b Hp). rewrite Hl in A10. by apply NoDup_cons in A10 as [_ ?].
    + rewrite lookup_insert_ne in Hq by done. by apply (A10 q).
  - intros q q' c c' j Hne (d & Hd & _ & _ & Hj & _)%Hof (d' & Hd' & _ & _ & Hj' & _)%Hof Hjc Hjc'. by apply (A11 q q' d d' j Hne Hd Hd' (proj2 (Hj j Hjc))), Hj'.
  - intros q c Hx Hq. destruct (Hof q c Hq) as (d & Hd & _ & _ & _ & Ec). rewrite Ec in * by (intros ->; done). by apply (A12 q).
Qed.

(** What is left of a state whose process [p] has given [l] back. *)
Definition given_back (l : list Z) s s' : Prop :=
  mm s' = mm s /\ Frames.pfn_start (fr s') = Frames.pfn_start (fr s) /\ Frames.avail_pages (fr s') = Frames.avail_pages (fr s) /\
  (forall i, in_table (fr s) i -> Frames.is_free (fr s') i = if decide (i ∈ l) then true else Frames.is_free (fr s) i) /\
  (forall q, q <> p -> pcbs s' !! q = pcbs s !! q).

Lemma release_pages_ok l : forall s b, pinv (Some p) s -> pcbs s !! p = Some b -> page_list b = l ->
  exists s', release_pages l p s = Ret (tt, s') /\ pinv (Some p) s' /\ given_back l s s' /\ pcbs s' !! p = Some (set_page_list [] b).
Proof.
  induction l as [|i r IH]; intros s b Hi Hp Hl.
  - exists s. split_and!; [done|done| |].
    + by split_and!.
    + rewrite Hp. f_equal. destruct b. cbn in Hl. by subst.
  - cbn [release_pages]. destruct (pi_own _ _ Hi p b i Hp) as (B1 & B2 & B3); [rewrite Hl; by left|].
    destruct (add_ref_ok (fr s) i (-1) (pi_fr _ _ Hi) B1) as (f1 & E1 & F1). rewrite B3 in E1, F1. change (u32 (1 + -1)) with 0 in E1, F1.
    destruct (free_frame_ok f1 i (fs_wf _ _ _ _ _ F1)) as (f2 & E2 & F2); [unfold in_table in *; by rewrite (fs_avail _ _ _ _ _ F1)|].
    pose proof (fs_ref _ _ _ _ _ F1 i B1) as R1. rewrite decide_True in R1 by done. rewrite R1 in F2.
    pose proof (frame_set_trans _ _ _ _ _ _ _ _ B1 F1 F2) as F.
    erewrite kbind_ret by (by apply upd_pcb_run). cbn beta.
    erewrite kbind_ret; [|unfold on_frames; cbn [fr with_pcbs]; rewrite E1; reflexivity]. cbn beta. change (0 =? 0) with true. cbn [when].
    erewrite kbind_ret; [|unfold on_frames; cbn [fr with_fr]; rewrite E2; bret; reflexivity]. cbn beta. kstep. kstep.
    destruct (IH (Sys f2 (mm s) (<[p := set_page_list r b]> (pcbs s)) (S (nodes s))) (set_page_list r b)) as (s' & E & Hi' & (G1 & G2 & G3 & G4 & G5) & Hp');
      [by apply (release_step_pinv s b i)|cbn [pcbs]; by rewrite lookup_insert_eq|done|].
    exists s'. split_and!; [exact E|done| |by rewrite Hp']. cbn [mm fr pcbs] in *. destruct F as [H1 H2 H3 H4 H5]. split_and!; [done|congruence|congruence| |].
    + intros j Hj. rewrite G4 by (unfold in_table in *; by rewrite H2). rewrite H4 by done.
      destruct (decide (j = i)) as [->|]; [rewrite (decide_True (P := i ∈ i :: r)) by (by left); by case_decide|].
      destruct (decide (j ∈ r)); [by rewrite decide_True by (by right)|rewrite decide_False; [done|by apply not_elem_of_cons]].
    + intros q Hq. by rewrite G5, lookup_insert_ne.
Qed.
End release.

(** ** The operations *)
Lemma on_mmu_ret {A} (g : kern mmu A) s a y : g (mm s) = Ret (a, y) -> on_mmu g s = Ret (a, with_mm y s).
Proof. intros E. unfold on_mmu. by rewrite E. Qed.
Lemma on_frames_ret {A} (g : Frames.frames -> outcome (Frames.frames * A)) s a f : g (fr s) = Ret (f, a) -> on_frames g s = Ret (a, with_fr f s).
Proof. intros E. unfold on_frames. by rewrite E. Qed.

(** *** Exit *)
Lemma exit_ok s p b : pinv None s -> pcbs s !! p = Some b ->
  exists s', exit_memory p s = Ret (tt, s') /\ pinv None s' /\ given_back p (page_list b) s s' /\ pcbs s' !! p = Some (set_page_list [] (set_zombie b)).
Proof.
  intros Hi Hp. unfold exit_memory. erewrite kbind_ret by (by apply upd_pcb_run). cbn beta. unfold release_proc_pages.
  set (s1 := with_pcbs <[p := set_zombie b]> s). assert (Hp1 : pcbs s1 !! p = Some (set_zombie b)) by (cbn [pcbs s1 with_pcbs]; by rewrite lookup_insert_eq).
  assert (Hi1 : pinv (Some p) s1) by (apply (pinv_upd (Some p) s p b); [by apply pinv_excuse|done|by split_and!; auto]).
  erewrite kbind_ret by (by apply pcb_of_run). cbn beta. change (page_list (set_zombie b)) with (page_list b).
  destruct (release_pages_ok p (page_list b) s1 (set_zombie b) Hi1 Hp1 eq_refl) as (s' & E & Hi' & (G1 & G2 & G3 & G4 & G5) & Hp').
  exists s'. split_and!; [exact E|by apply (pinv_done p s' _ Hi' Hp')| |done]. split_and!; [done..|]. intros q Hq. rewrite G5 by done.
  cbn [pcbs s1 with_pcbs]. by rewrite lookup_insert_ne.
Qed.

(** *** Page tables torn down *)
Lemma wait_ok s p b : pinv None s -> pcbs s !! p = Some b -> zombie b = true ->
  exists s', wait_memory p s = Ret (tt, s') /\ pinv None s' /\ pcbs s' = delete p (pcbs s) /\ fr s' = fr s /\ heap (mm s') = heap (mm s) /\
    (forall t, reachable (pgtable b) (mm s) t -> tables (mm s') !! t = None) /\
    (forall q c w, q <> p -> pcbs s !! q = Some c -> low w -> translate (pgtable c) (tables (mm s')) w = translate (pgtable c) (tables (mm s)) w).
Proof.
  intros Hi Hp Hz. unfold wait_memory. erewrite kbind_ret by (by apply pcb_of_run). cbn beta.
  pose proof (pi_tree _ _ Hi p b Hp) as Hwf. destruct (reset_root_spec (pgtable b) true (mm s) Hwf) as (y & E & Hh & Hgone & Hkeep & Hroot).
  pose proof (reset_heap_ok (pgtable b) (mm s) y Hwf Hh Hkeep) as Hy.
  erewrite kbind_ret by (by apply on_mmu_ret). cbn beta. eexists. split; [reflexivity|]. split_and!; [|done..| |].
  - apply (pinv_remove None s Hi p b Hp y Hy); [intros t _; apply Hkeep|]. by apply (pi_zombie _ _ Hi p b).
  - intros t Ht. destruct (decide (t = pgtable b)) as [->|Hne]; [exact Hroot|by apply Hgone].
  - intros q c w Hne Hq Hw. apply (other_tree None s Hi p b Hp y Hy (fun t _ => Hkeep t) q c Hne Hq). done.
Qed.

(** [exec] empties the page table and then gives the pages back. *)
Lemma clear_ok s p b : pinv None s -> pcbs s !! p = Some b -> zombie b = false ->
  exists s', (on_mmu (reset_root_pgtable (pgtable b) false);; release_proc_pages p) s = Ret (tt, s') /\ pinv None s' /\
    pcbs s' !! p = Some (set_page_list [] b) /\ (forall q, q <> p -> pcbs s' !! q = pcbs s !! q) /\ heap (mm s') = heap (mm s) /\
    (forall w, low w -> translate (pgtable b) (tables (mm s')) w = None) /\
    (forall i, in_table (fr s) i -> Frames.is_free (fr s') i = if decide (i ∈ page_list b) then true else Frames.is_free (fr s) i).
Proof.
  intros Hi Hp Hz. pose proof (pi_tree _ _ Hi p b Hp) as Hwf.
  destruct (reset_root_spec (pgtable b) false (mm s) Hwf) as (y & E & Hh & _ & Hkeep & l & Hl & Hlen & Hzero).
  pose proof (reset_heap_ok (pgtable b) (mm s) y Hwf Hh Hkeep) as Hy. destruct (empty_root_wf (pgtable b) l y Hy Hl Hlen Hzero) as (W1 & W2 & W3).
  assert (Hi1 : pinv None (with_mm y s)).
  { apply (pinv_mmu None s Hi p b Hp y Hy); [intros t _; apply Hkeep|done| | |].
    - intros t ->%W2. right. exists 0%nat, 0. split; [lia|]. split; [unfold low; lia|done].
    - intros _ w Hw. by apply W3.
    - intros _ _ w pa at_ Hw Htr. rewrite (proj1 (W3 w Hw)) in Htr. done. }
  erewrite kbind_ret by (by apply on_mmu_ret). cbn beta. unfold release_proc_pages.
  erewrite kbind_ret by (by apply (pcb_of_run (with_mm y s))). cbn beta.
  destruct (release_pages_ok p (page_list b) (with_mm y s) b (pinv_excuse p _ Hi1) Hp eq_refl) as (s' & E' & Hi' & (G1 & G2 & G3 & G4 & G5) & Hp').
  exists s'. cbn [mm with_mm fr pcbs] in *. split_and!; [exact E'| |done|done|by rewrite G1|intros w Hw; rewrite G1; by apply W3|done].
  apply (pinv_done p s' _ Hi' Hp'); [done|]. intros _ w pa at_ Hw. rewrite G1. cbn [pgtable set_page_list]. by rewrite (proj1 (W3 w Hw)).
Qed.

(** *** Creation *)
Lemma new_ok s p t r : pinv None s -> pcbs s !! p = None -> heap (mm s) = t :: r ->
  exists s', new_process_memory p s = Ret (tt, s') /\ pinv None s' /\ pcbs s' = <[p := Pcb t [] 0 0 0 0 0 false]> (pcbs s) /\ fr s' = fr s /\ heap (mm s') = r /\
    (forall w, low w -> translate t (tables (mm s')) w = None).
Proof.
  intros Hi Hp Hh. pose proof Hi as [A1 A2 A3 A4 A5 A6 A7 A8 A9 A10 A11 A12].
  destruct (new_root_wf (mm s) t r A3 Hh) as (y & E & Hy & W1 & Hr & W2 & W3 & W4). unfold new_process_memory.
  erewrite kbind_ret by (by apply on_mmu_ret). cbn beta. eexists. split; [reflexivity|]. set (b0 := Pcb t [] 0 0 0 0 0 false).
  assert (Hold : forall q c, pcbs s !! q = Some c -> ~ reachable (pgtable c) (mm s) t).
  { intros q c Hq Ht. apply (reach_not_heap None s Hi q c t Hq Ht). rewrite Hh. by left. }
  assert (Ho : forall q c, pcbs s !! q = Some c -> wf (pgtable c) y /\ (forall w, low w -> translate (pgtable c) (tables y) w = translate (pgtable c) (tables (mm s)) w) /\
    (forall k w, (k <= 3)%nat -> low w -> ent (pgtable c) (tables y) k w = ent (pgtable c) (tables (mm s)) k w) /\
    (forall u, reachable (pgtable c) y u <-> reachable (pgtable c) (mm s) u)).
  { intros q c Hq. apply tree_frame; [by apply (A4 q)|done|]. intros u Hu. apply W3. intros ->. by apply (Hold q c Hq). }
  assert (Hof : forall q c, (<[p := b0]> (pcbs s)) !! q = Some c -> q = p /\ c = b0 \/ q <> p /\ pcbs s !! q = Some c).
  { intros q c. rewrite lookup_insert_Some. intros [[<- <-]|[? ?]]; auto. }
  split_and!; [|done..|by intros w Hw; apply W4]. split; cbn [fr mm pcbs with_pcbs with_mm]; try done.
  - intros q c [[-> ->]|[_ Hq]]%Hof; [done|by apply (Ho q)].
  - intros q q' c c' u Hne [[-> ->]|[_ Hq]]%Hof [[-> ->]|[_ Hq']]%Hof; [done|..].
    + intros ->%W2 Hu. apply (Ho q' c' Hq') in Hu. by apply (Hold q' c').
    + intros Hu Ht%W2. subst u. apply (Ho q c Hq) in Hu. by apply (Hold q c).
    + intros Hu Hu'. apply (Ho q c Hq) in Hu. apply (Ho q' c' Hq') in Hu'. by apply (A5 q q' c c' u).
  - intros q c w pa at_ _ [[-> ->]|[_ Hq]]%Hof Hz Hw; [cbn [pgtable b0]; by rewrite (proj1 (W4 w Hw))|]. destruct (Ho q c Hq) as (_ & -> & _); [|done]. by apply (A6 q c).
  - intros q c w [[-> ->]|[_ Hq]]%Hof Hz Hw; [by apply W4|]. intros k e Hk. destruct (Ho q c Hq) as (_ & _ & -> & _); [|lia|done]. by apply (A7 q c w Hq Hz Hw).
  - intros q c i [[-> ->]|[_ Hq]]%Hof; [by intros ?%elem_of_nil|by apply (A8 q)].
  - intros q c [[-> ->]|[_ Hq]]%Hof; [apply NoDup_nil_2|by apply (A10 q)].
  - intros q q' c c' i Hne [[-> ->]|[_ Hq]]%Hof [[-> ->]|[_ Hq']]%Hof; [done|by intros ?%elem_of_nil|intros _; apply not_elem_of_nil|by apply (A11 q q')].
  - intros q c _ [[-> ->]|[_ Hq]]%Hof; [done|by apply (A12 q)].
Qed.

(** *** Allocation *)
(** A frame leaves the free ones without an owner. *)
Lemma pinv_taken x s f' i : pinv x s -> (in_table (fr s) i -> Frames.is_free (fr s) i = true) -> frame_set (fr s) f' i false (ref (fr s) i) -> pinv x (with_fr f' s).
Proof.
  intros [A1 A2 A3 A4 A5 A6 A7 A8 A9 A10 A11 A12] Hfree [F1 F2 F3 F4 F5].
  assert (Hit : forall j, in_table f' j <-> in_table (fr s) j) by (intros j; unfold in_table; by rewrite F2).
  split; cbn [fr mm pcbs with_fr]; try done.
  - by rewrite F2, F3.
  - rewrite F3. done.
  - intros p b j Hp Hj. destruct (A8 p b j Hp Hj) as (B1 & B2 & B3). rewrite Hit, F4, F5 by done. assert (j <> i) by (intros ->; rewrite Hfree in B2 by done; done). by rewrite !decide_False.
  - intros j Hj. rewrite Hit in Hj. rewrite F4, F5 by done. case_decide as E; [done|]. by apply A9.
Qed.

(** A frame without an owner joins the pages of [p]. *)
Lemma pinv_add s p b f' i n : pinv (Some p) s -> pcbs s !! p = Some b -> zombie b = false -> in_table (fr s) i ->
  (forall q c, pcbs s !! q = Some c -> i ∉ page_list c) -> frame_set (fr s) f' i false 1 ->
  (forall w pa at_, low w -> translate (pgtable b) (tables (mm s)) w = Some (pa, at_) ->
     exists j, (j = i \/ j ∈ page_list b) /\ pa / 4096 = Frames.pfn_start (fr s) + j) ->
  pinv None (Sys f' (mm s) (<[p := set_page_list (page_list b ++ [i]) b]> (pcbs s)) n).
Proof.
  intros [A1 A2 A3 A4 A5 A6 A7 A8 A9 A10 A11 A12] Hp Hz Hin Hno [F1 F2 F3 F4 F5] Htr. set (b' := set_page_list (page_list b ++ [i]) b).
  assert (Hit : forall j, in_table f' j <-> in_table (fr s) j) by (intros j; unfold in_table; by rewrite F2).
  assert (Hof : forall q c, (<[p := b']> (pcbs s)) !! q = Some c -> exists d, pcbs s !! q = Some d /\ pgtable c = pgtable d /\ zombie c = zombie d /\
    (forall j, j ∈ page_list c <-> j ∈ page_list d \/ q = p /\ j = i) /\ (q <> p -> c = d)).
  { intros q c. rewrite lookup_insert_Some. intros [[<- <-]|[Hne Hq]].
    - exists b. split_and!; [done..| |done]. intros j. cbn [page_list b' set_page_list]. rewrite elem_of_app, list_elem_of_singleton. tauto.
    - exists c. split_and!; [done..| |done]. intros j. split; [tauto|]. intros [?|[-> _]]; done. }
  split; cbn [fr mm pcbs].
  - done.
  - by rewrite F2, F3.
  - done.
  - intros q c (d & Hd & -> & _)%Hof. by apply (A4 q).
  - intros q q' c c' t Hne (d & Hd & -> & _)%Hof (d' & Hd' & -> & _)%Hof. by apply (A5 q q').
  - intros q c w pa at_ _ Hq Hzc Hw Ht. rewrite F3. destruct (Hof q c Hq) as (d & Hd & Ep & Ez & Hj & Ec). destruct (decide (q = p)) as [->|Hne].
    + assert (d = b) as -> by congruence. rewrite Ep in Ht. destruct (Htr w pa at_ Hw Ht) as (j & Hjj & E). exists j. split; [|done]. apply Hj. tauto.
    + rewrite (Ec Hne) in *. apply (A6 q d w pa at_); congruence.
  - intros q c w (d & Hd & -> & -> & _)%Hof. by apply (A7 q).
  - intros q c j (d & Hd & _ & _ & Hj & _)%Hof Hjc. rewrite Hit. apply Hj in Hjc as [Hjd|[-> ->]].
    + destruct (A8 q d j Hd Hjd) as (B1 & B2 & B3). rewrite F4, F5 by done. assert (j <> i) by (intros ->; by apply (Hno q d)). by rewrite !decide_False.
    + rewrite F4, F5 by done. by rewrite !decide_True.
  - intros j Hj. rewrite Hit in Hj. rewrite F4, F5 by done. case_decide as E; [done|]. by apply A9.
  - intros q c. rewrite lookup_insert_Some. intros [[<- <-]|[Hne Hq]]; [|by apply (A10 q)]. cbn [page_list b' set_page_list].
    apply NoDup_app. split_and!; [by apply (A10 p)| |apply NoDup_singleton]. intros j Hj ->%list_elem_of_singleton. by apply (Hno p b).
  - intros q q' c c' j Hne (d & Hd & _ & _ & Hj & _)%Hof (d' & Hd' & _ & _ & Hj' & _)%Hof Hc Hc'. apply Hj in Hc. apply Hj' in Hc'.
    destruct Hc as [Hc|[-> ->]], Hc' as [Hc'|[-> E]]; [by apply (A11 q q' d d' j)|subst; by apply (Hno q d)|by apply (Hno q' d')|done].
  - intros q c _ Hq Hzc. destruct (Hof q c Hq) as (d & Hd & _ & Ez & _ & Ec). destruct (decide (q = p)) as [->|Hne]; [congruence|].
    rewrite (Ec Hne) in *. apply (A12 q d); congruence.
Qed.

(** One page of memory. *)
Definition page_mapped (root v i : Z) f (x y : mmu) : Prop :=
  forall w, low w -> translate root (tables y) w = if decide (v <= w < v + 4096)
    then Some ((Frames.pfn_start f + i) * 4096 + (w - v), leaf_attrs (Attr false false S1) (negb ((Frames.pfn_start f + i) * 4096 =? v))) else translate root (tables x) w.

Lemma map_page s p b v i : pinv (Some p) s -> pcbs s !! p = Some b -> zombie b = false -> in_table (fr s) i ->
  0 <= v -> v mod 4096 = 0 -> v + 4096 <= 2 ^ 48 -> (3 <= length (heap (mm s)))%nat ->
  exists y, create_mapping false 0 (Some (pgtable b)) v ((Frames.pfn_start (fr s) + i) * 4096) PAGE_SIZE false (mm s) = Ret (tt, y) /\
    pinv (Some p) (with_mm y s) /\ page_mapped (pgtable b) v i (fr s) (mm s) y /\ (length (heap (mm s)) <= length (heap y) + 3)%nat.
Proof.
  intros Hi Hp Hz Hin Hv Hal Hend Hheap. pose proof (pi_tree _ _ Hi p b Hp) as Hwf. pose proof (pi_top _ _ Hi) as Htop. pose proof (Frames.wf_start _ (pi_fr _ _ Hi)) as [Hst _].
  assert (Es : pg_start v = v) by (unfold pg_start; dlia). assert (Ee : pg_end v PAGE_SIZE = v + 4096) by (unfold pg_end; change PAGE_SIZE with 4096; dlia).
  set (phys := (Frames.pfn_start (fr s) + i) * 4096). assert (Hph : 0 <= phys /\ phys + 4096 <= 2 ^ 48) by (unfold phys, in_table in *; lia).
  destruct (create_mapped 0 (Some (pgtable b)) 0 v phys PAGE_SIZE (Attr false false S1) (mm s) Hwf) as (y & n & E & Hm & Hn); rewrite ?Es, ?Ee, ?Z.sub_0_r.
  - split_and!; [lia|reflexivity|lia].
  - done.
  - split_and!; [lia..|]. change (2 ^ 48) with 281474976710656 in Hend. change (2 ^ 64) with 18446744073709551616. lia.
  - split_and!; [apply Z_mod_mult|lia|lia].
  - intros w Hw. apply (pi_small _ _ Hi p b); [done|done|unfold low; lia].
  - rewrite chunk_page by done. lia.
  - rewrite Es, Ee, !Z.sub_0_r in Hm. rewrite Es, Ee, !Z.sub_0_r, chunk_page in Hn by done. change (default 0 (Some (pgtable b))) with (pgtable b) in Hm. exists y. split_and!; [exact E| | |].
    + apply (pinv_mmu (Some p) s Hi p b Hp y (wf_heap _ _ (mp_wf _ _ _ _ _ _ _ _ _ _ Hm))).
      * intros t Ht1 Ht2. by apply Hm.
      * apply Hm.
      * intros t Ht. by apply (mp_reach _ _ _ _ _ _ _ _ _ _ Hm).
      * intros _ w Hw. destruct (decide (v <= w < v + 4096)) as [Hr|Hr].
        -- destruct (mp_leaf _ _ _ _ _ _ _ _ _ _ Hm w Hr Hw) as (k & e & Hk & He & Hty & Hc1 & Hc2). cbv zeta in Hc1, Hc2.
           assert (k = 3%nat) as ->.
           { destruct (decide (k = 3%nat)) as [|Hk3]; [done|]. assert (2 ^ 21 <= 2 ^ leaf_shift k) by (apply Z.pow_le_mono_r; unfold leaf_shift; lia). lia. }
           intros j f Hj Hf. destruct (ent_above _ _ _ _ _ He j ltac:(lia)) as (f' & Hf' & Ht). assert (f' = f) as -> by congruence. by rewrite Ht.
        -- apply (mp_noblock _ _ _ _ _ _ _ _ _ _ Hm); [done|done|]. by apply (pi_small _ _ Hi p b).
      * done.
    + intros w Hw. rewrite (mp_trans _ _ _ _ _ _ _ _ _ _ Hm w Hw). fold phys. change (0 =? 0) with true. case_decide; [|done]. rewrite andb_true_r. f_equal. f_equal; [lia|].
      do 2 f_equal. destruct (Z.eqb_spec (phys - v) 0), (Z.eqb_spec phys v); (done || lia).
    + rewrite (mp_heap _ _ _ _ _ _ _ _ _ _ Hm), length_drop. lia.
Qed.

Definition free_frames f : list Z := filter (fun i => Frames.is_free f i = true) (seqZ 0 (Frames.avail_pages f)).

Lemma elem_of_free_frames f i : i ∈ free_frames f <-> Frames.is_free f i = true /\ in_table f i.
Proof. unfold free_frames, in_table. rewrite list_elem_of_filter, elem_of_seqZ. split; intros [? ?]; (split; [done|lia]). Qed.

Lemma free_frames_take f f' i r : in_table f i -> Frames.is_free f i = true -> frame_set f f' i false r -> length (free_frames f) = S (length (free_frames f')).
Proof.
  intros Hin Hf [F1 F2 F3 F4 F5]. change (S (length (free_frames f'))) with (length (i :: free_frames f')). apply Permutation_length, NoDup_Permutation.
  - apply NoDup_filter, NoDup_seqZ.
  - apply NoDup_cons. split; [|apply NoDup_filter, NoDup_seqZ]. rewrite elem_of_free_frames. intros [E _]. rewrite F4, decide_True in E by done. done.
  - intros j. rewrite elem_of_cons, !elem_of_free_frames. assert (Hj : in_table f' j <-> in_table f j) by (unfold in_table; by rewrite F2). rewrite Hj. split.
    + intros [E Hjn]. destruct (decide (j = i)) as [|Hne]; [by left|right]. by rewrite F4, decide_False.
    + intros [->|[E Hjn]]; [done|]. rewrite F4 in E by done. case_decide; [done|]. done.
Qed.

(** From [s] to [s'] the process [p] gets the frames [l], mapped from [v] on. *)
Record grown (p : Z) (b : pcb) s s' (v : Z) (l : list Z) : Prop := {
  gr_pcb : pcbs s' !! p = Some (set_page_list (page_list b ++ l) b);
  gr_other : forall q, q <> p -> pcbs s' !! q = pcbs s !! q;
  gr_start : Frames.pfn_start (fr s') = Frames.pfn_start (fr s) /\ Frames.avail_pages (fr s') = Frames.avail_pages (fr s);
  gr_free : forall i, i ∈ l -> in_table (fr s) i /\ Frames.is_free (fr s) i = true;
  gr_busy : forall i, in_table (fr s) i -> Frames.is_free (fr s') i = if decide (i ∈ l) then false else Frames.is_free (fr s) i;
  gr_map : forall j i w, l !! j = Some i -> v + Z.of_nat j * 4096 <= w < v + Z.of_nat j * 4096 + 4096 -> low w ->
    translate (pgtable b) (tables (mm s')) w =
      Some ((Frames.pfn_start (fr s) + i) * 4096 + w mod 4096, leaf_attrs (Attr false false S1) (negb ((Frames.pfn_start (fr s) + i) * 4096 =? w / 4096 * 4096)));
  gr_keep : forall w, low w -> ~ (v <= w < v + Z.of_nat (length l) * 4096) -> translate (pgtable b) (tables (mm s')) w = translate (pgtable b) (tables (mm s)) w;
  gr_heap : (length (heap (mm s)) <= length (heap (mm s')) + 3 * length l)%nat
}.

Lemma grown_cons p b s s1 s' v i l : 0 <= v -> v mod 4096 = 0 -> v + 4096 <= 2 ^ 48 ->
  grown p b s s1 v [i] -> grown p (set_page_list (page_list b ++ [i]) b) s1 s' (v + 4096) l -> grown p b s s' v (i :: l).
Proof.
  intros Hv Hal Hend [A1 A2 [A3 A3'] A4 A5 A6 A7 A8] [B1 B2 [B3 B3'] B4 B5 B6 B7 B8]. cbn [page_list set_page_list pgtable length] in *.
  assert (Hit : forall j, in_table (fr s1) j <-> in_table (fr s) j) by (intros j; unfold in_table; by rewrite A3').
  destruct (A4 i) as [Hin Hfree]; [by left|].
  assert (Hil : i ∉ l).
  { intros Hl. destruct (B4 i Hl) as [_ E]. rewrite A5, decide_True in E by (done || by left). done. }
  split.
  - rewrite B1. f_equal. unfold set_page_list. cbn. by rewrite <- app_assoc.
  - intros q Hq. by rewrite B2, A2.
  - split; congruence.
  - intros j [->|Hj]%elem_of_cons; [done|]. destruct (B4 j Hj) as [Hjn E]. rewrite Hit in Hjn. split; [done|]. rewrite A5 in E by done. case_decide; done.
  - intros j Hj. rewrite B5 by (by apply Hit). rewrite A5 by done. destruct (decide (j = i)) as [->|Hne].
    + rewrite (decide_True (P := i ∈ [i])), (decide_True (P := i ∈ i :: l)) by (by left). by case_decide.
    + rewrite (decide_False (P := j ∈ [i])) by (by rewrite list_elem_of_singleton). destruct (decide (j ∈ l)); [by rewrite decide_True by (by right)|].
      rewrite decide_False; [done|]. by apply not_elem_of_cons.
  - intros [|j] i' w Hl Hw Hlow; cbn in Hl.
    + injection Hl as <-. rewrite B7 by (done || lia). apply (A6 0%nat i); [done|lia|done].
    + rewrite <- A3. apply (B6 j i' w Hl); [lia|done].
  - intros w Hlow Hw. cbn [length] in Hw. rewrite B7, A7 by (done || lia). done.
  - cbn [length]. lia.
Qed.

Lemma add_page_run s p b i n : Frames.wf (fr s) -> in_table (fr s) i -> pcbs s !! p = Some b -> nodes s = S n ->
  exists f', add_page_to_proc p i s = Ret (tt, Sys f' (mm s) (<[p := set_page_list (page_list b ++ [i]) b]> (pcbs s)) n) /\
    frame_set (fr s) f' i (Frames.is_free (fr s) i) (u32 (ref (fr s) i + 1)).
Proof.
  intros Hw Hin Hp Hn. destruct (add_ref_ok (fr s) i 1 Hw Hin) as (f' & E & F). exists f'. split; [|done]. unfold add_page_to_proc. kstep. rewrite Hn. kstep.
  erewrite kbind_ret by (apply on_frames_ret; exact E). cbn beta. by erewrite upd_pcb_run.
Qed.

(** A fresh page, from the frame table to the page table and the list. *)
Lemma page_step s p b v i f1 n : pinv None s -> pcbs s !! p = Some b -> zombie b = false -> 0 <= v -> v mod 4096 = 0 -> v + 4096 <= 2 ^ 48 ->
  (3 <= length (heap (mm s)))%nat -> nodes s = S n ->
  in_table (fr s) i -> Frames.is_free (fr s) i = true -> frame_set (fr s) f1 i false (ref (fr s) i) ->
  exists y s', on_mmu (create_mapping false 0 (Some (pgtable b)) v ((Frames.pfn_start (fr s) + i) * 4096) PAGE_SIZE false) (with_fr f1 s) = Ret (tt, with_mm y (with_fr f1 s)) /\
    add_page_to_proc p i (with_mm y (with_fr f1 s)) = Ret (tt, s') /\ pinv None s' /\ grown p b s s' v [i] /\ nodes s' = n /\
    length (free_frames (fr s)) = S (length (free_frames (fr s'))).
Proof.
  intros Hi Hp Hz Hv Hal Hend Hheap Hn Hin Hfree F1. pose proof F1 as [C1 C2 C3 C4 C5].
  pose proof (pinv_taken _ s f1 i (pinv_excuse p s Hi) (fun _ => Hfree) F1) as Hi1.
  assert (Hun : forall q c, pcbs s !! q = Some c -> i ∉ page_list c).
  { intros q c Hq Hc. destruct (pi_own _ _ Hi q c i Hq Hc) as (_ & E & _). congruence. }
  pose proof (pi_none _ _ Hi i Hin Hfree) as Href.
  assert (Hin1 : in_table f1 i) by (unfold in_table in *; by rewrite C2).
  destruct (map_page (with_fr f1 s) p b v i Hi1 Hp Hz Hin1 Hv Hal Hend Hheap) as (y & E2 & Hi2 & Hmap & Hlen). cbn [fr mm with_fr] in E2, Hmap, Hlen. rewrite C3 in E2.
  destruct (add_page_run (with_mm y (with_fr f1 s)) p b i n C1 Hin1 Hp Hn) as (f3 & E3 & F3). cbn [fr mm with_fr with_mm pcbs] in E3, F3.
  rewrite C4, decide_True in F3 by done. rewrite C5, decide_True, Href in F3 by done. change (u32 (0 + 1)) with 1 in F3.
  pose proof (frame_set_trans _ _ _ _ _ _ _ _ Hin F1 F3) as F. pose proof F as [D1 D2 D3 D4 D5].
  exists y. eexists. split; [by apply on_mmu_ret|]. split; [exact E3|]. split_and!; [| |done|].
  - apply (pinv_add (with_mm y (with_fr f1 s)) p b f3 i n Hi2 Hp Hz Hin1 Hun F3). cbn [fr mm with_fr with_mm]. intros w pa at_ Hw Ht. rewrite (Hmap w Hw) in Ht.
    case_decide as Hr.
    + injection Ht as <- _. exists i. split; [by left|]. rewrite Z.div_add_l by lia. rewrite Z.div_small by lia. lia.
    + rewrite C3. destruct (pi_pages _ _ Hi p b w pa at_ ltac:(done) Hp Hz Hw Ht) as (j & Hj & E). exists j. split; [by right|done].
  - split; cbn [fr mm pcbs with_fr with_mm].
    + by rewrite lookup_insert_eq.
    + intros q Hq. by rewrite lookup_insert_ne.
    + done.
    + intros j ->%list_elem_of_singleton. done.
    + intros j Hj. rewrite D4 by done. destruct (decide (j = i)) as [->|Hne]; [by rewrite decide_True by (by left)|by rewrite decide_False by (by rewrite list_elem_of_singleton)].
    + intros [|j] i' w Hl Hw Hlow; [|done]. injection Hl as <-. rewrite (Hmap w Hlow). rewrite decide_True by lia. rewrite C3.
      assert (Ewv : w / 4096 * 4096 = v /\ w mod 4096 = w - v) by dlia. destruct Ewv as [-> ->]. done.
    + intros w Hlow Hw. rewrite (Hmap w Hlow). rewrite decide_False; [done|]. cbn [length] in Hw. lia.
    + cbn [length]. lia.
  - cbn [fr]. by apply (free_frames_take (fr s) f3 i 1).
Qed.

Lemma allocate_loop_ok n : forall k s p b virt, let v := virt + k * 4096 in
  pinv None s -> pcbs s !! p = Some b -> zombie b = false -> 0 <= v -> v mod 4096 = 0 -> v + Z.of_nat n * 4096 <= 2 ^ 48 -> (3 * n <= length (heap (mm s)))%nat ->
  allocate_loop n k p virt s = Fault Panic /\ (length (free_frames (fr s)) < n \/ nodes s < n)%nat \/
  exists s' l, allocate_loop n k p virt s = Ret (tt, s') /\ pinv None s' /\ length l = n /\ grown p b s s' v l.
Proof.
  induction n as [|n IH]; intros k s p b virt v Hi Hp Hz Hv Hal Hend Hheap.
  { right. exists s, []. split_and!; [done|done|done|]. split; try done.
    - rewrite Hp, app_nil_r. by destruct b.
    - intros i Hin%elem_of_nil. done.
    - cbn. lia. }
  cbn [allocate_loop]. destruct (get_free_page_ok (fr s) (pi_fr _ _ Hi)) as (f1 & page & E1 & [(-> & _ & Hnone)|(i & Hin & Hfree & Epage & Hpage & F1)]).
  { left. erewrite kbind_ret by (by apply on_frames_ret). split; [done|]. left. assert (free_frames (fr s) = []) as ->; [|cbn; lia].
    apply elem_of_nil_inv. intros j [Hj Hjn]%elem_of_free_frames. rewrite Hnone in Hj; done. }
  erewrite kbind_ret by (by apply on_frames_ret). cbn beta. rewrite (proj2 (Z.eqb_neq page 0) Hpage). kstep.
  erewrite kbind_ret by (by apply (pcb_of_run (with_fr f1 s))). cbn beta.
  assert (Hv64 : u64 (virt + k * PAGE_SIZE) = v) by (change PAGE_SIZE with 4096; apply u64_small; change (2 ^ 48) with 281474976710656 in Hend; change (2 ^ 64) with 18446744073709551616; unfold v in *; lia).
  rewrite Hv64, Epage. destruct (nodes s) as [|m] eqn:En.
  { left. split; [|right; lia].
    pose proof (pinv_taken _ s f1 i (pinv_excuse p s Hi) (fun _ => Hfree) F1) as Hi1.
    destruct (map_page (with_fr f1 s) p b v i Hi1 Hp Hz) as (y & E2 & _); [unfold in_table in *; cbn [fr with_fr]; by rewrite (fs_avail _ _ _ _ _ F1)|lia|done|lia|cbn [mm with_fr]; lia|].
    cbn [fr mm with_fr] in E2. rewrite (fs_start _ _ _ _ _ F1) in E2. erewrite kbind_ret by (by apply on_mmu_ret). cbn beta. kstep.
    erewrite kbind_fault; [done|]. unfold add_page_to_proc. kstep. cbn [nodes with_mm with_fr]. by rewrite En. }
  destruct (page_step s p b v i f1 m Hi Hp Hz) as (y & s1 & E2 & E3 & Hi1 & G1 & Hn1 & Hfr); try done; [lia..|].
  erewrite kbind_ret by exact E2. cbn beta. kstep. cbn [fr with_mm with_fr].
  assert (Ei : Frames.phys_to_page f1 ((Frames.pfn_start (fr s) + i) * 4096) = i).
  { destruct F1 as [C1 C2 C3 _ _]. assert (Hin1 : in_table f1 i) by (unfold in_table in *; by rewrite C2).
    pose proof (Frames.phys_to_page_to_phys f1 i C1 Hin1) as E. rewrite Frames.page_to_phys_eq in E by done. by rewrite C3 in E. }
  rewrite Ei. erewrite kbind_ret by exact E3. cbn beta.
  pose proof (gr_heap _ _ _ _ _ _ G1) as Hh1. cbn [length] in Hh1.
  destruct (IH (k + 1) s1 p (set_page_list (page_list b ++ [i]) b) virt) as [[E4 Hlim]|(s' & l & E4 & Hi' & Hl & G2)]; [done|apply (gr_pcb _ _ _ _ _ _ G1)|done|unfold v in *; lia|unfold v in *; dlia|unfold v in *; lia|lia|left|right].
  - split; [exact E4|lia].
  - exists s', (i :: l). split_and!; [exact E4|done|cbn; by rewrite Hl|]. replace (virt + (k + 1) * 4096) with (v + 4096) in G2 by (unfold v; lia).
    apply (grown_cons p b s s1 s' v i l); (done || lia).
Qed.

Lemma allocate_ok s p b v n : pinv None s -> pcbs s !! p = Some b -> zombie b = false -> 0 <= v -> v mod 4096 = 0 -> v + Z.of_nat n * 4096 <= 2 ^ 48 ->
  (3 * n <= length (heap (mm s)))%nat ->
  allocate_page p v n s = Fault Panic /\ (length (free_frames (fr s)) < n \/ nodes s < n)%nat \/
  exists s' l, allocate_page p v n s = Ret (tt, s') /\ pinv None s' /\ length l = n /\ grown p b s s' v l.
Proof.
  intros Hi Hp Hz Hv Hal Hend Hheap. unfold allocate_page. pose proof (allocate_loop_ok n 0 s p b v) as H. cbn zeta in H. rewrite Z.mul_0_l, Z.add_0_r in H. by apply H.
Qed.

(** *** Exec *)
Section exec.
Context (PROC_STACK_SIZE HEAP_SIZE args_base : Z).
Definition pages (size : Z) : Z := Z.shiftr (ALIGN_UP size PAGE_SIZE) 12.

(** The regions of an image lie in the user's half of the address space. *)
Record layout_ok (e_entry seg : Z) : Prop := {
  lo_stack : 0 <= pages PROC_STACK_SIZE * 4096 <= args_base;
  lo_args : args_base mod 4096 = 0 /\ args_base + 4096 <= 2 ^ 48;
  lo_entry : 0 <= e_entry < 2 ^ 32 /\ e_entry mod 4096 = 0 /\ 0 <= seg /\ e_entry + seg * 4096 <= 2 ^ 48;
  lo_heap : 0 <= pages HEAP_SIZE /\ (pages PROC_STACK_SIZE + seg + 1 + pages HEAP_SIZE) * 4096 <= 2 ^ 48
}.
Definition image_pages (seg : Z) : nat := Z.to_nat (pages PROC_STACK_SIZE + seg + pages HEAP_SIZE + 1).

(** What the steps of [exec] have in common: the process stays, and the memory
    for page tables suffices for [n] more pages. *)
Definition going p (m : nat) (g : pcb -> Prop) s : Prop :=
  exists b, pinv None s /\ pcbs s !! p = Some b /\ zombie b = false /\ (3 * m <= length (heap (mm s)))%nat /\ g b.
Definition panics_or (P : sys -> Prop) (o : outcome (unit * sys)) : Prop := o = Fault Panic \/ exists s', o = Ret (tt, s') /\ P s'.

Lemma panics_or_bind (m : kern sys unit) (k : unit -> kern sys unit) (P Q : sys -> Prop) s :
  panics_or P (m s) -> (forall s', P s' -> panics_or Q (k tt s')) -> panics_or Q ((m ≫= k) s).
Proof.
  intros [E|(s' & E & HP)] Hk; [left; by apply kbind_fault|]. erewrite kbind_ret by exact E. by apply Hk.
Qed.

Lemma going_upd p m g g' h s : going p m g s -> (forall b, same_view None p (h b) b) -> (forall b, g b -> g' (h b)) ->
  panics_or (going p m g') (upd_pcb p h s).
Proof.
  intros (b & Hi & Hp & Hz & Hh & Hg) Hv Hgg. right. eexists. split; [by apply upd_pcb_run|]. exists (h b). cbn [pcbs with_pcbs mm].
  split_and!; [by apply (pinv_upd None s p b (h b) (nodes s))|by rewrite lookup_insert_eq| |done|by apply Hgg]. destruct (Hv b) as (_ & _ & [->|[? _]]); done.
Qed.

Lemma going_alloc p m n g v s : going p (n + m) g s -> 0 <= v -> v mod 4096 = 0 -> v + Z.of_nat n * 4096 <= 2 ^ 48 ->
  (forall b l, g b -> g (set_page_list l b)) -> panics_or (going p m g) (allocate_page p v n s).
Proof.
  intros (b & Hi & Hp & Hz & Hh & Hg) Hv Hal Hend Hgl. destruct (allocate_ok s p b v n Hi Hp Hz Hv Hal Hend ltac:(lia)) as [[E _]|(s' & l & E & Hi' & Hl & G)]; [by left|].
  right. exists s'. split; [done|]. exists (set_page_list (page_list b ++ l) b). pose proof (gr_heap _ _ _ _ _ _ G). rewrite Hl in *.
  split_and!; [done|apply G|done|lia|by apply Hgl].
Qed.

Lemma going_read p m g s (k : pcb -> kern sys unit) Q : going p m g s ->
  (forall b, g b -> pcbs s !! p = Some b -> panics_or Q (k b s)) -> panics_or Q ((pcb_of p ≫= k) s).
Proof. intros (b & Hi & Hp & Hz & Hh & Hg) Hk. erewrite kbind_ret by (by apply pcb_of_run). by apply Hk. Qed.

Lemma going_drop p m g s : going p m g s -> (forall b l, g b -> g (set_page_list l b)) -> panics_or (going p m g) (drop_image p s).
Proof.
  intros (b & Hi & Hp & Hz & Hh & Hg) Hgl. destruct (clear_ok s p b Hi Hp Hz) as (s' & E & Hi' & Hp' & _ & Hh' & _). right. exists s'. split.
  - unfold drop_image. erewrite kbind_ret by (by apply pcb_of_run). exact E.
  - exists (set_page_list [] b). rewrite Hh'. split_and!; [done..|by apply Hgl].
Qed.

(** An update of a PCB that the invariant does not see. *)
Ltac view := intros ?; split_and!; [done|done|left; done].

Lemma exec_ok s p b e_entry seg : pinv None s -> pcbs s !! p = Some b -> zombie b = false -> layout_ok e_entry seg ->
  (3 * image_pages seg <= length (heap (mm s)))%nat ->
  panics_or (pinv None) (setup_image PROC_STACK_SIZE HEAP_SIZE args_base p e_entry seg s).
Proof.
  intros Hi Hp Hz [[L1 L1'] [L2 L2'] (L3 & L3' & L4 & L5) [L6 L7]] Hheap. unfold setup_image, reset_process_stack.
  fold (pages PROC_STACK_SIZE) (pages HEAP_SIZE). unfold image_pages in Hheap. set (st := pages PROC_STACK_SIZE) in *. set (hp := pages HEAP_SIZE) in *. cbv zeta.
  change (2 ^ 48) with 281474976710656 in *. change (2 ^ 32) with 4294967296 in *.
  assert (U : forall x, 0 <= x <= 281474976710656 -> u64 x = x) by (intros x Hx; apply u64_small; change (2 ^ 64) with 18446744073709551616; lia).
  set (total := (Z.to_nat st + (Z.to_nat seg + (Z.to_nat hp + (1 + 0))))%nat).
  eapply panics_or_bind; [apply (going_upd p total (fun _ => True) (fun b => page_count b = st /\ stack_top b = args_base)); [exists b; split_and!; try done; unfold total; lia|view|done]|].
  intros s1 G1. eapply panics_or_bind; [apply (going_drop _ _ _ _ G1); done|]. intros s2 G2. eapply (going_read _ _ _ _ _ _ G2). intros b2 [E1 E2] _. rewrite E1, E2.
  change PAGE_SIZE with 4096. rewrite U by lia.
  eapply panics_or_bind; [apply (going_alloc _ _ _ _ _ _ G2); [lia|dlia|change (2 ^ 48) with 281474976710656; lia|done]|]. intros s3 G3.
  eapply panics_or_bind; [apply (going_upd _ _ _ (fun b => page_count b = st + seg) _ _ G3); [view|intros c [-> _]; done]|]. intros s4 G4.
  assert (Ee : u32 e_entry = e_entry) by (apply u32_small; change (2 ^ 32) with 4294967296; lia). rewrite Ee.
  eapply panics_or_bind; [apply (going_alloc _ _ _ _ _ _ G4); [lia|done|change (2 ^ 48) with 281474976710656; lia|done]|]. intros s5 G5.
  eapply panics_or_bind; [apply (going_upd _ _ _ (fun b => page_count b = st + seg + hp /\ heap_base b = (st + seg + 1) * 4096) _ _ G5); [view|intros c ->; done]|]. intros s6 G6.
  eapply (going_read _ _ _ _ _ _ G6). intros b6 [_ E6] _. rewrite E6.
  eapply panics_or_bind; [apply (going_alloc _ _ _ _ _ _ G6); [lia|apply Z_mod_mult|change (2 ^ 48) with 281474976710656; lia|done]|]. intros s7 G7.
  eapply panics_or_bind; [apply (going_upd _ _ _ (fun _ => True) _ _ G7); [view|done]|]. intros s8 G8.
  destruct (going_alloc p 0 1 (fun _ => True) args_base s8 G8) as [E|(s9 & E & (c & Hc & _))]; [lia|done|change (2 ^ 48) with 281474976710656; lia|done|by left|right; by exists s9].
Qed.
End exec.

(** ** Histories *)
Section history.
Context (PROC_STACK_SIZE HEAP_SIZE args_base : Z).

Inductive op :=
  | New (p : Z)                        (* new_process *)
  | Exec (p e_entry seg : Z)           (* setup_proc_image_replace *)
  | Grow (p v : Z) (n : nat)           (* allocate_page *)
  | Exit (p : Z)                       (* do_exit *)
  | Wait (p : Z)                       (* do_waitpid *)
  | KernelPage.                        (* get_free_page by the kernel itself *)

Definition run_op (o : op) : kern sys unit :=
  match o with
  | New p => new_process_memory p
  | Exec p e seg => setup_image PROC_STACK_SIZE HEAP_SIZE args_base p e seg
  | Grow p v n => allocate_page p v n
  | Exit p => exit_memory p
  | Wait p => wait_memory p
  | KernelPage => _ ← on_frames Frames.get_free_page; mret tt
  end.

(** Live processes, ranges in the user's half, and memory for page tables. *)
Definition live s (p : Z) : Prop := exists b, pcbs s !! p = Some b /\ zombie b = false.
Definition allowed s (o : op) : Prop :=
  match o with
  | New p => pcbs s !! p = None /\ heap (mm s) <> []
  | Exec p e seg => live s p /\ layout_ok PROC_STACK_SIZE HEAP_SIZE args_base e seg /\ (3 * image_pages PROC_STACK_SIZE HEAP_SIZE seg <= length (heap (mm s)))%nat
  | Grow p v n => live s p /\ 0 <= v /\ v mod 4096 = 0 /\ v + Z.of_nat n * 4096 <= 2 ^ 48 /\ (3 * n <= length (heap (mm s)))%nat
  | Exit p => live s p
  | Wait p => exists b, pcbs s !! p = Some b /\ zombie b = true
  | KernelPage => True
  end.

(** The frame table as [frame_table_init] leaves it: the frames that hold the
    table itself are busy with a count of one, the others free with a count of zero. *)
Definition boot s : Prop :=
  (exists phys_base mem_size ft_start, 0 < phys_base /\ phys_base mod 4096 = 0 /\ mem_size mod 4096 = 0 /\ mem_size < 2 ^ 32 /\
     phys_base + mem_size <= 2 ^ 48 /\ phys_base <= ft_start /\ ft_start + 4096 <= phys_base + mem_size /\
     fr s = (Frames.frame_table_init phys_base mem_size ft_start).1) /\
  heap_ok (mm s) /\ pcbs s = ∅.

Inductive history : sys -> Prop :=
  | hist_boot s : boot s -> history s
  | hist_step s o s' : history s -> allowed s o -> run_op o s = Ret (tt, s') -> history s'.

Lemma init_refs phys_base mem_size ft_start i : let f := (Frames.frame_table_init phys_base mem_size ft_start).1 in
  Frames.is_free f i = true -> ref f i = 0.
Proof.
  cbv zeta. unfold Frames.is_free, ref. destruct (i <? 0); [done|]. destruct (Frames.frame_table _ !! Z.to_nat i) as [q|] eqn:E; [|done].
  apply list_elem_of_lookup_2 in E. cbn [Frames.frame_table_init Frames.frame_table fst] in E. apply elem_of_app in E as [E|E]; apply elem_of_replicate in E as [-> _]; done.
Qed.

Lemma boot_pinv s : boot s -> pinv None s.
Proof.
  intros ((base & size & ft & H1 & H2 & H3 & H4 & H5 & H6 & H7 & Hf) & Hh & Hp).
  pose proof (Frames.frame_table_init_correct base size ft H1 H2 H3 H4 ltac:(change (2 ^ 48) with 281474976710656 in H5; change (2 ^ 64) with 18446744073709551616; change Frames.PAGE_SIZE with 4096; lia) H6 H7) as H.
  pose proof (init_refs base size ft) as Hr. cbv zeta in Hr. destruct (Frames.frame_table_init base size ft) as [f ks]. cbn [fst] in Hf, Hr. subst f.
  destruct H as (n & Hw & Hn & _ & _ & Hall & _). split; try done; try (intros; match goal with H : pcbs s !! _ = Some _ |- _ => by rewrite Hp, lookup_empty in H end).
  - destruct (Hall (Frames.avail_pages (fr s) - 1)) as [_ Hend]; [lia|]. rewrite Frames.page_to_phys_eq in Hend by (done || lia). change Frames.PAGE_SIZE with 4096 in Hend. lia.
  - intros i _. apply Hr.
Qed.

Lemma step_pinv s o s' : pinv None s -> allowed s o -> run_op o s = Ret (tt, s') -> pinv None s'.
Proof.
  intros Hi Ha E. destruct o as [p|p e seg|p v n|p|p|]; cbn [run_op allowed] in *.
  - destruct Ha as [Hp Hh]. destruct (heap (mm s)) as [|t r] eqn:Eh; [done|]. destruct (new_ok s p t r Hi Hp Eh) as (s1 & E1 & Hi1 & _). congruence.
  - destruct Ha as ((b & Hp & Hz) & Hlo & Hh). destruct (exec_ok _ _ _ s p b e seg Hi Hp Hz Hlo Hh) as [?|(s1 & E1 & Hi1)]; congruence.
  - destruct Ha as ((b & Hp & Hz) & Hv & Hal & Hend & Hh). destruct (allocate_ok s p b v n Hi Hp Hz Hv Hal Hend Hh) as [[? _]|(s1 & l & E1 & Hi1 & _)]; congruence.
  - destruct Ha as (b & Hp & Hz). destruct (exit_ok s p b Hi Hp) as (s1 & E1 & Hi1 & _). congruence.
  - destruct Ha as (b & Hp & Hz). destruct (wait_ok s p b Hi Hp Hz) as (s1 & E1 & Hi1 & _). congruence.
  - destruct (get_free_page_ok (fr s) (pi_fr _ _ Hi)) as (f' & page & E1 & Hcase).
    erewrite kbind_ret in E by (by apply on_frames_ret). injection E as <-. destruct Hcase as [(_ & F & _)|(i & Hin & Hf & _ & _ & F)].
    + apply (pinv_taken None s f' (-1) Hi); [unfold in_table; lia|done].
    + by apply (pinv_taken None s f' i Hi).
Qed.

Lemma history_pinv s : history s -> pinv None s.
Proof. induction 1 as [s H|s o s' _ IH Ha E]; [by apply boot_pinv|by apply (step_pinv s o)]. Qed.

End history.

(** ** Single operations *)
(** with enough frames, list entries and memory for page tables, [allocate_page]
    gives a process pages that were free, marks exactly these busy, and maps the
    range to them in order; the rest of its address space and every other process
    are as before. *)
Theorem allocate_page_correct s p b v n : pinv None s -> pcbs s !! p = Some b -> zombie b = false ->
  0 <= v -> v mod 4096 = 0 -> v + Z.of_nat n * 4096 <= 2 ^ 48 -> (3 * n <= length (heap (mm s)))%nat ->
  (n <= length (free_frames (fr s)))%nat -> (n <= nodes s)%nat ->
  exists s' l, allocate_page p v n s = Ret (tt, s') /\ pinv None s' /\ length l = n /\
    pcbs s' = <[p := set_page_list (page_list b ++ l) b]> (pcbs s) /\
    (forall i, in_table (fr s) i -> Frames.is_free (fr s') i = if decide (i ∈ l) then false else Frames.is_free (fr s) i) /\
    (forall i, i ∈ l -> Frames.is_free (fr s) i = true) /\
    (forall j i w, l !! j = Some i -> v + Z.of_nat j * 4096 <= w < v + Z.of_nat j * 4096 + 4096 -> low w ->
       translate (pgtable b) (tables (mm s')) w =
         Some ((Frames.pfn_start (fr s) + i) * 4096 + w mod 4096, leaf_attrs (Attr false false S1) (negb ((Frames.pfn_start (fr s) + i) * 4096 =? w / 4096 * 4096)))) /\
    (forall w, low w -> ~ (v <= w < v + Z.of_nat n * 4096) -> translate (pgtable b) (tables (mm s')) w = translate (pgtable b) (tables (mm s)) w).
Proof.
  intros Hi Hp Hz Hv Hal Hend Hheap Hfr Hnd. destruct (allocate_ok s p b v n Hi Hp Hz Hv Hal Hend Hheap) as [[_ ?]|(s' & l & E & Hi' & Hl & [A1 A2 A3 A4 A5 A6 A7 A8])]; [lia|].
  rewrite Hl in A7. exists s', l. split_and!; [done..| |done|intros i Hil; by apply A4|done|done].
  apply map_eq. intros q. destruct (decide (q = p)) as [->|Hne]; [by rewrite A1, lookup_insert_eq|by rewrite A2, lookup_insert_ne].
Qed.


(** [do_sbrk] keeps the program break inside the heap of the process: it moves
    it by the increment and returns its old position, or fails with [ENOMEM] and
    changes nothing. *)
Theorem do_sbrk_bounds HEAP_SIZE s p b increment : 0 < HEAP_SIZE -> pcbs s !! p = Some b ->
  0 <= heap_base b <= heap_pointer b -> heap_pointer b < heap_base b + HEAP_SIZE -> heap_base b + HEAP_SIZE <= 2 ^ 31 -> - 2 ^ 30 <= increment < 2 ^ 30 -> HEAP_SIZE <= 2 ^ 30 ->
  let new := heap_pointer b + increment in
  if decide (heap_base b <= new < heap_base b + HEAP_SIZE)
  then do_sbrk HEAP_SIZE p increment s = Ret (inr (heap_pointer b), with_pcbs <[p := set_heap (heap_base b) new b]> s)
  else do_sbrk HEAP_SIZE p increment s = Ret (inl ENOMEM, s).
Proof.
  intros Hs Hp Hb Hlt Hend Hinc Hsz new. change (2 ^ 31) with 2147483648 in *. change (2 ^ 30) with 1073741824 in *.
  assert (S : forall x, - 2147483648 <= x < 2147483648 -> s32 x = x).
  { intros x Hx. unfold s32, u32, wrap. change (2 ^ 32) with 4294967296. change (2 ^ 31) with 2147483648. destruct (Z.lt_ge_cases x 0).
    - assert (E : x mod 4294967296 = x + 4294967296) by (symmetry; apply (Z.mod_unique _ _ (-1)); lia). rewrite E. destruct (Z.ltb_spec (x + 4294967296) 2147483648); lia.
    - rewrite Z.mod_small by lia. destruct (Z.ltb_spec x 2147483648); lia. }
  unfold do_sbrk. case_decide as Hn; (erewrite kbind_ret by (by apply pcb_of_run)); cbn beta zeta; rewrite (S (heap_pointer b)), (S (heap_pointer b - heap_base b)), S by lia.
  - destruct (Z.leb_spec HEAP_SIZE (heap_pointer b - heap_base b + increment)); [unfold new in Hn; lia|].
    destruct (Z.ltb_spec (heap_pointer b - heap_base b + increment) 0); [unfold new in Hn; lia|]. cbn [orb].
    erewrite kbind_ret by (by apply upd_pcb_run). cbn beta. rewrite u64_small by (change (2 ^ 64) with 18446744073709551616; unfold new in Hn; lia). done.
  - destruct (Z.leb_spec HEAP_SIZE (heap_pointer b - heap_base b + increment)); [done|].
    destruct (Z.ltb_spec (heap_pointer b - heap_base b + increment) 0); [done|]. unfold new in Hn. lia.
Qed.

(** ** Examples *)
(** Memory of 80 kB from 1 GB on of which the kernel takes the first 14000 bytes, and
    twenty pages for tables. *)
Definition ex_boot : sys := Sys (Frames.frame_table_init 1073741824 81920 1073755824).1 ex_start ∅ 16.
Definition after (o : op) s : sys := match run_op 4096 4096 (2 ^ 40) o s with Ret (_, s') => s' | Fault _ => s end.
Definition ex_two : sys := after (New 200) (after (New 100) ex_boot).
Definition ex_grown : sys := after (Grow 200 8192 1) (after (Grow 100 8192 2) ex_two).

Lemma ex_boot_ok : boot ex_boot.
Proof.
  split_and!; [|apply ex_start_ok|done]. exists 1073741824, 81920, 1073755824. split_and!; [lia|reflexivity|reflexivity|lia|lia|lia|lia|reflexivity].
Qed.

Lemma ex_two_history : history 4096 4096 (2 ^ 40) ex_two.
Proof.
  apply (hist_step _ _ _ (after (New 100) ex_boot) (New 200)); [apply (hist_step _ _ _ ex_boot (New 100)); [by apply hist_boot, ex_boot_ok|..]|..].
  - split; [reflexivity|by vm_compute].
  - vm_compute. reflexivity.
  - split; [vm_compute; reflexivity|by vm_compute].
  - vm_compute. reflexivity.
Qed.

Definition ex_pcb s (p : Z) : pcb := default (Pcb 0 [] 0 0 0 0 0 true) (pcbs s !! p).

Lemma ex_grown_history : history 4096 4096 (2 ^ 40) ex_grown.
Proof.
  apply (hist_step _ _ _ (after (Grow 100 8192 2) ex_two) (Grow 200 8192 1)); [apply (hist_step _ _ _ ex_two (Grow 100 8192 2)); [apply ex_two_history|..]|..].
  - split_and!; [exists (ex_pcb ex_two 100); split; vm_compute; reflexivity|lia|reflexivity|lia|apply (bool_decide_unpack _); by vm_compute].
  - vm_compute. reflexivity.
  - split_and!; [exists (ex_pcb (after (Grow 100 8192 2) ex_two) 200); split; vm_compute; reflexivity|lia|reflexivity|lia|apply (bool_decide_unpack _); by vm_compute].
  - vm_compute. reflexivity.
Qed.


Lemma allocate_page_correct_witness : exists s' (l : list Z), allocate_page 100 8192 2 ex_two = Ret (tt, s') /\ length l = 2%nat /\ pcbs s' <> ∅.
Proof.
  destruct (allocate_page_correct ex_two 100 (ex_pcb ex_two 100) 8192 2) as (s' & l & E & _ & Hl & Hp & _).
  - apply (history_pinv 4096 4096 (2 ^ 40)), ex_two_history.
  - vm_compute. reflexivity.
  - vm_compute. reflexivity.
  - lia.
  - reflexivity.
  - lia.
  - apply (bool_decide_unpack _). by vm_compute.
  - apply (bool_decide_unpack _). by vm_compute.
  - apply (bool_decide_unpack _). by vm_compute.
  - exists s', l. split_and!; [exact E|exact Hl|]. rewrite Hp. apply insert_non_empty.
Defined.


Definition ex_heap : pcb := Pcb 0 [] 0 0 0 40960 40960 false.
Definition ex_break : sys := Sys (fr ex_boot) (mm ex_boot) {[1 := ex_heap]} 0.
Lemma do_sbrk_bounds_witness : do_sbrk 65536 1 100 ex_break = Ret (inr 40960, with_pcbs <[1 := set_heap 40960 41060 ex_heap]> ex_break).
Proof.
  pose proof (do_sbrk_bounds 65536 ex_break 1 ex_heap 100 ltac:(lia) ltac:(vm_compute; reflexivity) ltac:(cbn; lia) ltac:(cbn; lia) ltac:(cbn; lia) ltac:(lia) ltac:(lia)) as H.
  cbv zeta in H. rewrite decide_True in H by (cbn; lia). exact H.
Defined.

End ProcIsolation.
